(* ===== verification/_CoqProject ===== *)
-Q . S2P
Prelude.v
Uart.v
Asm.v
Switch.v
Sched.v
Trap.v
Hart.v
Run.v
Preempt.v
Smode.v
Virtio.v
Shell.v
Smp.v
SmpLive.v
View.v
Pmp.v
PmpDenial.v
PmpRange.v
PmpEdge.v
PmpTor.v
Sv39.v
Sv39Main.v
PmpMprv.v
PmpPriority.v
Atomics.v
Warl.v
CsrProbes.v
EcallProbes.v
TvecProbe.v
Isa.v
TrapIsa.v
TrapProbes.v
TripProbes.v
EbtProbe.v
IntProbes.v
