(* ===== verification/Prelude.v ===== *)
(** * riscv-baremetal-demo: a verification library

    The repository holds bare-metal RISC-V programs for QEMU's virt board:
    a UART driver, a cooperative and two preemptive schedulers, a virtio
    block driver, a two-hart bring-up, a command shell, and a collection of
    small programs that measure one architectural behaviour each and print a
    verdict.  Every program is one [main] over the shared driver src/uart.c;
    some have a trap entry in assembly.

    ** Parts and files

    - Prelude.v: machine words ([u64], [u32], ...), the program monad
      [prog W A] with outcomes [Ret], [Park] (the hart waits forever),
      [Undef] (behaviour C leaves undefined, an index out of range, a
      division by zero) and [NoFuel], loops, arrays, text, the [world] of a
      program (UART, other hardware, its own globals).
    - Uart.v: src/uart.c.  The device is a class ([UartDev]) with the 16550's
      promises as laws ([UartSpec]); [LogUart] and [SlowUart] satisfy them.
    - Asm.v: register file, memory, CSRs and the instructions of the .S files
      that are modelled.  Switch.v: src/switch.S.  Trap.v: src/preempt/trap.S,
      src/smode/strap.S, src/smode/sboot.S.
    - Sched.v: src/sched.c, src/tasks.c, src/main.c; a task is a coroutine.
    - Hart.v: MMIO and CSR accesses ([HartDev]), the CLINT's laws.  Run.v and
      View.v: rules to execute programs symbolically, on the hardware state
      itself ([runs]) or on what a law class lets one see of it ([vruns]).
    - Preempt.v: src/preempt/ (psched.c, clint.c, ptasks.c, pmain.c).  A run
      is a script of slices: how far each task got and when the next timer
      interrupt came.
    - Smode.v: src/smode/ in its two builds (delegated S-mode, M-mode) and
      with or without Sstc.
    - Virtio.v: src/virtio-blk/ (transport, blk.c, bmain.c) against a device
      class that follows descriptor chains.
    - Shell.v: src/shell/ (cmds.c, sh_main.c, trap.S).
    - Smp.v: src/smp/, two harts as programs of atomic actions interleaved by
      an arbitrary schedule.  SmpLive.v: its liveness under fair schedules.
    - Pmp.v: the PMP as the privileged specification describes it, and the
      probe and record pattern of the PMP programs; the hart is a class
      ([PmpSpec]) with [RefHart] as an instance.  PmpDenial.v: src/pmp/,
      src/pmp-lock-bit/.  PmpRange.v: src/pmp-tor/, src/pmp-napot-size/.
      PmpEdge.v: src/pmp-tor-top/, src/pmp-tor-bottom/, src/pmp-na4-match/,
      src/pmp-na4-low-edge/.  PmpTor.v: the theorems on the two TOR ones.
    - Sv39.v: the Sv39 walk, the tables of src/sv39/sv39_main.c as stores to
      memory and what they translate.  Sv39Main.v: that program, its S-mode
      phase with every data access walked, on a hart class ([Sv39Spec]) with
      the reference hart as an instance.
    - PmpMprv.v: src/pmp-napot-match/, probes made with [mstatus.MPRV] set.
      PmpPriority.v: src/pmp-priority/, which drops to S-mode with [sret] and
      comes back through its trap entry twice.
    - Atomics.v: src/lrsc-histogram/, src/sc-fail/, src/lrsc-store-invalidate/
      and src/amo-add-atomicity/ on a hart class with the A extension.
    - Warl.v: src/menvcfg-stce-write/, src/menvcfg-pbmte-write/,
      src/menvcfg-cbie-write/ and src/menvcfg-cbze-write/ on harts whose CSRs
      legalise writes in any way.  CsrProbes.v: src/misa-readonly/,
      src/misa-mxl-warl/, src/mideleg-warl/, src/mstatus-mprv-readback/,
      src/mscratch-csrrw/ and src/mie-write-readback/ on the same harts.
      EcallProbes.v: src/medeleg-mask/, src/mcause-warl/ and src/sepc-warl/,
      which also take M-mode traps.  TvecProbe.v: src/mtvec-mode-war/.
    - IntProbes.v: src/sip-write-probe/, src/sip-ssip/, src/sie-stie-write/ and
      src/mip-msip-write/ on a hart class whose sip and sie are views of mip
      and mie through mideleg ([IntSpec], with [IntHart] as an instance).
    - Isa.v: the instruction experiments src/andi-mask12/,
      src/sltiu-zero-test/, src/addiw-sextw/, src/auipc-pcread/,
      src/load-sign-ext/, src/blt-bltu-addr/ and src/jalr-clears-bit0/; their
      inline assembly runs on an interpreter of RV64 instructions.
    - TrapIsa.v: that interpreter with CSRs, access faults, breakpoints and
      [mret], so that an asm block and the trap entry it ends up in run
      together.  TrapProbes.v: src/mepc-resume-skip/.  TripProbes.v:
      src/mtval-fault-address/.  EbtProbe.v: src/ebreak-tripwire/.

    A C function is a definition of the same name; its statics are a record;
    a volatile access, a CSR instruction or an [ecall] is one action of the
    monad.  Addresses the linker chooses, the code after a label, registers at
    a trap and the timing of interrupts are parameters, and the theorems hold
    for all of them that meet the stated layout conditions.

    ** What the theorems show

    - UART: strings and numerals sent byte for byte, buffers never overrun.
    - Schedulers: termination, strict round robin for every timing, saved and
      restored contexts, the complete console output of the mains; the values
      the trap entry loses ([t1]).
    - Virtio: initialisation, the write/read round trip on the disk, the ring
      layout, time-outs and error paths.
    - SMP: mutual exclusion and whole lines under every interleaving; under
      every fair schedule both harts finish.
    - Shell: refinement of a line-by-line specification, the bounds of the
      line editor, and why the register dump works only once.
    - PMP programs: on every hart that implements PMP the program prints its
      whole log and passes; regions end at the byte the encoding says, locked
      entries survive every write, refused accesses have no effect, and the
      lowest-numbered matching entry decides.
    - Sv39: for every 64-bit address the tables translate as intended or
      fault; the program stores and loads through its mapped page and takes
      its three page faults, and passes.

    - Atomics: retry loops end and every attempt is counted, stores without a
      reservation fail without effect, no addition is lost.
    - CSR probes: for every way the registers may legalise, the whole log and
      exactly which harts pass; three programs reject conforming harts.
    - Interrupt registers: writes through sip, sie, mip and mideleg change
      exactly what delegation allows; the whole logs and exactly which harts
      pass.  On the registers of QEMU's hart they are the recorded logs.
    - Instruction experiments: the idioms for all 64-bit inputs and all
      operand registers, the printed logs, and the register choice that the
      jalr block wrongly permits.
    - Trap experiments: each planted fault or breakpoint traps once at its own
      address and resumes behind it, the trap entries that save their
      registers give all of them back, the whole log, and the register the
      entry of mepc-resume-skip overwrites behind the compiler's back.

    ** Bounds and fuel

    Polling loops run on [uart_fuel] or [hw_fuel], which the device laws
    bound from below, so each theorem states that the program returns or
    parks, never that it returns if it returns.  [read_line] takes the number
    of characters it may read; any number above the typed length gives the
    same result.  Counted loops are lists of their indices.  A block of
    assembly runs for at most [asm_fuel] or [trap_fuel] instructions, more than
    any of them executes with its trap.

    ** Not modelled

    boot.S and the linker script (programs start at [main] with BSS zero);
    the C compiler (statements are executed in order; registers across an
    [ecall] are a parameter); caches and weak memory (Smp.v assumes
    sequential consistency, the code fences its flags); the TLB, instruction
    fetches and stack accesses of the S-mode phase of the Sv39 test; the
    remaining measurement programs, which need a model of the floating-point
    unit, the TLB, delegation, counters or interrupt timing. *)

From Stdlib Require Import ZArith Lia String Ascii.
From stdpp Require Import base list gmap.

#[global] Open Scope Z_scope.

(** ** Machine words

    An [unsigned long] is a [Z] in [0, 2^64); every operation of the source
    that can leave that range is followed by [u64]. *)

Definition u64 (z : Z) : Z := z mod 2 ^ 64.
Definition u32 (z : Z) : Z := z mod 2 ^ 32.
Definition u16 (z : Z) : Z := z mod 2 ^ 16.
Definition u8 (z : Z) : Z := z mod 2 ^ 8.

Definition is_u64 (z : Z) : Prop := 0 <= z < 2 ^ 64.

(** ** Outcomes and the program monad *)

Inductive outcome (W A : Type) : Type :=
| Ret (a : A) (w : W)
| Park (w : W)
| Undef
| NoFuel.

Arguments Ret {W A} a w.
Arguments Park {W A} w.
Arguments Undef {W A}.
Arguments NoFuel {W A}.

Definition prog (W A : Type) : Type := W -> outcome W A.

Definition ret {W A} (a : A) : prog W A := fun w => Ret a w.

Definition bind {W A B} (m : prog W A) (k : A -> prog W B) : prog W B :=
  fun w =>
    match m w with
    | Ret a w' => k a w'
    | Park w' => Park w'
    | Undef => Undef
    | NoFuel => NoFuel
    end.

Definition park {W A} : prog W A := fun w => Park w.
Definition undef {W A} : prog W A := fun _ => Undef.
Definition nofuel {W A} : prog W A := fun _ => NoFuel.

Declare Scope prog_scope.
Delimit Scope prog_scope with prog.
Bind Scope prog_scope with prog.

Notation "x <- m ;; k" := (bind m (fun x => k%prog))
  (at level 100, m at next level, k at level 200, right associativity) : prog_scope.
Notation "m ;; k" := (bind m (fun _ => k%prog))
  (at level 100, k at level 200, right associativity) : prog_scope.

#[global] Open Scope prog_scope.

Definition gets {W A} (f : W -> A) : prog W A := fun w => Ret (f w) w.
Definition modify {W} (f : W -> W) : prog W unit := fun w => Ret tt (f w).

(** [while (c) b], bounded by [fuel] evaluations of the condition. *)
Fixpoint while_ {W} (fuel : nat) (c : prog W bool) (b : prog W unit) : prog W unit :=
  match fuel with
  | O => nofuel
  | S n => x <- c ;; if (x : bool) then b ;; while_ n c b else ret tt
  end.

(** [for (i = lo; ...)] over an explicit list of index values. *)
Fixpoint for_each {W A} (l : list A) (f : A -> prog W unit) : prog W unit :=
  match l with
  | [] => ret tt
  | x :: l' => f x ;; for_each l' f
  end.

(** A loop that carries a local value. *)
Fixpoint for_acc {W A B} (l : list A) (b : B) (f : A -> B -> prog W B) : prog W B :=
  match l with
  | [] => ret b
  | x :: l' => b' <- f x b ;; for_acc l' b' f
  end.

(** An array element; an access out of range is undefined. *)
Definition arr_get {W} (a : list Z) (i : nat) : prog W Z :=
  match a !! i with Some v => ret v | None => undef end.
Definition arr_set {W} (a : list Z) (i : nat) (v : Z) : prog W (list Z) :=
  if decide (i < length a)%nat then ret (<[i := v]> a) else undef.

(** [a / b] on [unsigned long]; division by zero is undefined. *)
Definition udiv {W} (a b : Z) : prog W Z := if b =? 0 then undef else ret (a / b).

Definition when {W} (b : bool) (m : prog W unit) : prog W unit :=
  if b then m else ret tt.

(** ** Monad lemmas *)

Lemma bind_ret_eq {W A B} (m : prog W A) (k : A -> prog W B) w a w' :
  m w = Ret a w' -> bind m k w = k a w'.
Proof. intros H. unfold bind. now rewrite H. Qed.

Lemma bind_assoc {W A B C} (m : prog W A) (k : A -> prog W B) (j : B -> prog W C) w :
  bind (bind m k) j w = bind m (fun a => bind (k a) j) w.
Proof. unfold bind. now destruct (m w). Qed.

Lemma bind_ret_l {W A B} (a : A) (k : A -> prog W B) w : bind (ret a) k w = k a w.
Proof. reflexivity. Qed.

Lemma for_each_app {W A} (l1 l2 : list A) (f : A -> prog W unit) w :
  for_each (l1 ++ l2) f w = bind (for_each l1 f) (fun _ => for_each l2 f) w.
Proof.
  revert w; induction l1 as [|x l1 IH]; intros w; [reflexivity|].
  cbn. rewrite bind_assoc. unfold bind at 1 2.
  destruct (f x w) as [a w'| | |]; [apply IH|reflexivity..].
Qed.

(** A loop whose body acts on the state like the pure function [g]. *)
Lemma for_each_pure {W A} (f : A -> prog W unit) (g : A -> W -> W) l w :
  (forall x w, x ∈ l -> f x w = Ret tt (g x w)) ->
  for_each l f w = Ret tt (fold_left (fun w x => g x w) l w).
Proof.
  revert w; induction l as [|x l IH]; intros w H; [reflexivity|].
  cbn. rewrite (bind_ret_eq _ _ _ _ _ (H x w ltac:(left))).
  apply IH. intros y w' Hy. apply H. now right.
Qed.

(** ** Lists *)

Lemma map_imap {A B C} (g : B -> C) (k : A -> C) (f : nat -> A -> B) l :
  (forall i x, g (f i x) = k x) -> map g (imap f l) = map k l.
Proof.
  revert f; induction l as [|x l IH]; intros f Hf; cbn; [reflexivity|].
  rewrite Hf. f_equal. apply IH. intros i y. apply Hf.
Qed.

(** ** The world a program runs in: the UART device, the rest of the
    hardware, and the program's own globals. *)

Record world (U H G : Type) : Type := World { w_uart : U; w_hw : H; w_glob : G }.

Arguments World {U H G} w_uart w_hw w_glob.
Arguments w_uart {U H G} w.
Arguments w_hw {U H G} w.
Arguments w_glob {U H G} w.

Section World.
Context {U H G : Type}.

Definition set_uart (f : U -> U) (w : world U H G) : world U H G :=
  World (f (w_uart w)) (w_hw w) (w_glob w).
Definition set_hw (f : H -> H) (w : world U H G) : world U H G :=
  World (w_uart w) (f (w_hw w)) (w_glob w).
Definition set_glob (f : G -> G) (w : world U H G) : world U H G :=
  World (w_uart w) (w_hw w) (f (w_glob w)).

(** A read of the hardware that may change it, and a write. *)
Definition hw_read {A} (f : H -> A * H) : prog (world U H G) A :=
  fun w => let '(a, h) := f (w_hw w) in Ret a (World (w_uart w) h (w_glob w)).
Definition hw_write (f : H -> H) : prog (world U H G) unit := modify (set_hw f).

Definition gget {A} (f : G -> A) : prog (world U H G) A := gets (fun w => f (w_glob w)).
Definition gset_ (f : G -> G) : prog (world U H G) unit := modify (set_glob f).
End World.

(** ** Text *)

Definition byte_of_ascii (a : ascii) : Z := Z.of_N (N_of_ascii a).

Fixpoint bytes (s : string) : list Z :=
  match s with
  | EmptyString => []
  | String a s' => byte_of_ascii a :: bytes s'
  end.

(** A C string literal: the escapes the sources use. *)
Fixpoint c_lit (s : string) : string :=
  match s with
  | String bs (String a s' as s1) =>
      if Ascii.eqb bs (ascii_of_nat 92) then
        if Ascii.eqb a (ascii_of_nat 110) then String (ascii_of_nat 10) (c_lit s')
        else if Ascii.eqb a (ascii_of_nat 114) then String (ascii_of_nat 13) (c_lit s')
        else if Ascii.eqb a (ascii_of_nat 98) then String (ascii_of_nat 8) (c_lit s')
        else String a (c_lit s')
      else String bs (c_lit s1)
  | _ => s
  end.

(** Text as the list of its bytes, escapes resolved. *)
Definition lit (s : string) : list Z := bytes (c_lit s).

Lemma byte_of_ascii_range a : 0 <= byte_of_ascii a < 256.
Proof. unfold byte_of_ascii. pose proof (N_ascii_bounded a). lia. Qed.

Lemma bytes_range s : Forall (fun c => 0 <= c < 256) (bytes s).
Proof. induction s; cbn; constructor; auto using byte_of_ascii_range. Qed.

Lemma bytes_app s1 s2 : bytes (s1 ++ s2)%string = bytes s1 ++ bytes s2.
Proof. induction s1 as [|a s1 IH]; [reflexivity|]. simpl. f_equal. exact IH. Qed.

(** ** Arithmetic helpers *)

Lemma u64_small z : is_u64 z -> u64 z = z.
Proof. apply Z.mod_small. Qed.

Lemma u64_range z : is_u64 (u64 z).
Proof. apply Z.mod_pos_bound. lia. Qed.

Lemma is_u64_check z : (0 <=? z) && (z <? 2 ^ 64) = true -> is_u64 z.
Proof. unfold is_u64. lia. Qed.

Ltac u64c := apply is_u64_check; reflexivity.

Lemma u64_idemp z : u64 (u64 z) = u64 z.
Proof. apply u64_small, u64_range. Qed.

Create HintDb word discriminated.
#[export] Hint Resolve u64_range : word.
Lemma avg_range s n : is_u64 s -> 0 < n -> is_u64 (s / n).
Proof.
  intros Hs Hn. destruct Hs. split; [apply Z.div_pos; lia|].
  apply Z.div_lt_upper_bound; [lia|]. nia.
Qed.
#[export] Hint Extern 1 (is_u64 (_ / _)) => apply avg_range; [|lia] : word.

Create Rewrite HintDb word.
#[export] Hint Rewrite u64_idemp : word.

(** Run one step of a program whose first action is known. *)
Ltac pstep H := rewrite (bind_ret_eq _ _ _ _ _ H); cbn beta.
