(* ===== verification/Uart.v ===== *)
(** * The ns16550a UART driver (src/uart.c)

    The driver is translated against an abstract device [UartDev] (a byte
    register file that may change on reads as well as on writes).  What the
    16550 documentation promises of that device is the law class [UartSpec];
    the driver's theorems are proved from it and its clients use only
    [emits], the effect of a string on the line.  [LogUart] (always ready, as
    QEMU's model is) and [SlowUart] (needs some polls per byte) are concrete
    devices that satisfy the laws. *)

From Stdlib Require Import ZArith Lia String Ascii.
From stdpp Require Import base list.
From S2P Require Import Prelude.

Definition UART0_BASE : Z := 0x10000000.
Definition UART_THR : Z := 0x00.
Definition UART_LSR : Z := 0x05.
Definition UART_LCR : Z := 0x03.
Definition LSR_THRE : Z := Z.shiftl 1 5.
Definition LSR_DR : Z := Z.shiftl 1 0.

Definition uart_reg (off : Z) : Z := UART0_BASE + off.

(** A byte-wide register file; [uart_fuel] bounds the model's polling loops. *)
Class UartDev (U : Type) : Type := {
  ur8 : Z -> U -> Z * U;
  uw8 : Z -> Z -> U -> U;
  uart_fuel : nat;
}.

(** ** The driver *)

Section Driver.
Context {U H G : Type} `{!UartDev U}.
Abbreviation W := (world U H G).

(** One volatile byte read / write of a UART register. *)
Definition uart_read (off : Z) : prog W Z :=
  fun w => let '(v, u) := ur8 (uart_reg off) (w_uart w) in
           Ret v (World u (w_hw w) (w_glob w)).
Definition uart_write (off v : Z) : prog W unit :=
  modify (set_uart (uw8 (uart_reg off) v)).

Definition uart_init : prog W unit := uart_write UART_LCR 0x03.

Definition uart_wait (mask : Z) : prog W unit :=
  while_ uart_fuel (v <- uart_read UART_LSR ;; ret (Z.land v mask =? 0)) (ret tt).

(** The body of [uart_putc] after its newline test. *)
Definition uart_putc_raw (c : Z) : prog W unit :=
  uart_wait LSR_THRE ;;
  uart_write UART_THR (u8 c).

(** [uart_putc]: its one recursive call is on ['\r'], which is not a newline. *)
Definition uart_putc (c : Z) : prog W unit :=
  when (c =? 10) (uart_putc_raw 13) ;;
  uart_putc_raw c.

(** [uart_puts] on the bytes from [s] on: stops at the first NUL. *)
Fixpoint uart_puts_bytes (s : list Z) : prog W unit :=
  match s with
  | [] => ret tt
  | c :: s' => if c =? 0 then ret tt else uart_putc c ;; uart_puts_bytes s'
  end.
Definition uart_puts (s : string) : prog W unit := uart_puts_bytes (bytes s).

(** [while (v > 0) { buf\[i++\] = digits\[v % base\]; v /= base; }] *)
Fixpoint uint_fill (fuel : nat) (v base : Z) (digits buf : list Z) (i : nat)
  : prog W (list Z * nat) :=
  if v >? 0 then
    match fuel with
    | O => nofuel
    | S n =>
        d <- arr_get digits (Z.to_nat (v mod base)) ;;
        buf' <- arr_set buf i d ;;
        uint_fill n (v / base) base digits buf' (S i)
    end
  else ret (buf, i).

(** [while (i > 0) uart_putc(buf\[--i\]);] *)
Fixpoint uint_drain (buf : list Z) (i : nat) : prog W unit :=
  match i with
  | O => ret tt
  | S i' => c <- arr_get buf i' ;; uart_putc c ;; uint_drain buf i'
  end.

Definition uart_put_uint (v base : Z) (digits : string) : prog W unit :=
  if v =? 0 then uart_putc 48
  else
    r <- uint_fill 64 v base (bytes digits) (replicate 24 0) 0 ;;
    uint_drain (fst r) (snd r).

Definition uart_put_hex (v : Z) : prog W unit :=
  uart_puts "0x" ;;
  uart_put_uint v 16 "0123456789abcdef".

Definition uart_put_dec (v : Z) : prog W unit :=
  uart_put_uint v 10 "0123456789".

Definition uart_getc : prog W Z :=
  uart_wait LSR_DR ;;
  uart_read UART_THR.
End Driver.

(** ** What the device promises *)

Class UartSpec (U : Type) `{!UartDev U} : Type := {
  (** bytes sent on the line so far, bytes received and not yet read *)
  tx : U -> list Z;
  rx : U -> list Z;
  (** polls until the holding register is empty / the next byte is visible *)
  tx_wait : U -> nat;
  rx_wait : U -> nat;
  tx_bounded u : (tx_wait u < uart_fuel)%nat;
  rx_bounded u : rx u <> [] -> (rx_wait u < uart_fuel)%nat;
  lsr_tx u : tx (ur8 (uart_reg UART_LSR) u).2 = tx u;
  lsr_rx u : rx (ur8 (uart_reg UART_LSR) u).2 = rx u;
  lsr_tx_progress u :
    Z.land (ur8 (uart_reg UART_LSR) u).1 LSR_THRE = 0 ->
    (tx_wait (ur8 (uart_reg UART_LSR) u).2 < tx_wait u)%nat;
  lsr_rx_progress u :
    rx u <> [] -> Z.land (ur8 (uart_reg UART_LSR) u).1 LSR_DR = 0 ->
    (rx_wait (ur8 (uart_reg UART_LSR) u).2 < rx_wait u)%nat;
  thr_tx u c : 0 <= c < 256 -> tx (uw8 (uart_reg UART_THR) c u) = tx u ++ [c];
  thr_rx u c : rx (uw8 (uart_reg UART_THR) c u) = rx u;
  lcr_tx u : tx (uw8 (uart_reg UART_LCR) 3 u) = tx u;
  lcr_rx u : rx (uw8 (uart_reg UART_LCR) 3 u) = rx u;
  rbr_val u c r : rx u = c :: r -> (ur8 (uart_reg UART_THR) u).1 = c;
  rbr_rx u c r : rx u = c :: r -> rx (ur8 (uart_reg UART_THR) u).2 = r;
  rbr_tx u : tx (ur8 (uart_reg UART_THR) u).2 = tx u;
}.

(** ** The driver's effect, as a function on the device *)

Fixpoint crlf (l : list Z) : list Z :=
  match l with
  | [] => []
  | c :: l' => (if c =? 10 then [13; 10] else [c]) ++ crlf l'
  end.

Lemma crlf_app l1 l2 : crlf (l1 ++ l2) = crlf l1 ++ crlf l2.
Proof.
  induction l1 as [|c l1 IH]; [reflexivity|].
  cbn [crlf app]. now rewrite <- app_assoc, <- IH.
Qed.

Section Effect.
Context {U : Type} `{!UartDev U}.

Fixpoint polled (mask : Z) (n : nat) (u : U) : U :=
  match n with
  | O => u
  | S n' => let '(v, u') := ur8 (uart_reg UART_LSR) u in
            if Z.land v mask =? 0 then polled mask n' u' else u'
  end.

Definition emit_raw (c : Z) (u : U) : U :=
  uw8 (uart_reg UART_THR) (u8 c) (polled LSR_THRE uart_fuel u).
Definition emit (c : Z) (u : U) : U :=
  emit_raw c (if c =? 10 then emit_raw 13 u else u).
Definition emits (l : list Z) (u : U) : U := fold_left (fun u c => emit c u) l u.

Definition inited (u : U) : U := uw8 (uart_reg UART_LCR) 3 u.
Definition received (u : U) : Z * U := ur8 (uart_reg UART_THR) (polled LSR_DR uart_fuel u).

Lemma emits_cons c l u : emits (c :: l) u = emits l (emit c u).
Proof. reflexivity. Qed.

Lemma emits_app l1 l2 u : emits (l1 ++ l2) u = emits l2 (emits l1 u).
Proof. apply fold_left_app. Qed.
End Effect.

Section Wait.
Context {U H G : Type} `{!UartDev U, !UartSpec U}.

Lemma wait_ind mask (wait : U -> nat) (P : U -> Prop) n (w : world U H G) :
  (forall u, P u -> P (ur8 (uart_reg UART_LSR) u).2) ->
  (forall u, P u -> Z.land (ur8 (uart_reg UART_LSR) u).1 mask = 0 ->
     (wait (ur8 (uart_reg UART_LSR) u).2 < wait u)%nat) ->
  P (w_uart w) -> (wait (w_uart w) < n)%nat ->
  while_ n (v <- uart_read UART_LSR ;; ret (Z.land v mask =? 0)) (ret tt) w
  = Ret tt (set_uart (polled mask n) w).
Proof.
  intros HP Hdec. revert w; induction n as [|n IH]; intros w Hw Hn; [lia|].
  specialize (HP _ Hw). specialize (Hdec _ Hw).
  unfold set_uart. cbn [while_ polled]. unfold bind, uart_read, ret.
  destruct (ur8 (uart_reg UART_LSR) (w_uart w)) as [v u'] eqn:E. cbn in *.
  destruct (Z.eqb_spec (Z.land v mask) 0) as [E0|E0].
  - rewrite IH; [reflexivity|exact HP|]. cbn. specialize (Hdec E0). lia.
  - reflexivity.
Qed.

Lemma uart_wait_tx (w : world U H G) :
  uart_wait LSR_THRE w = Ret tt (set_uart (polled LSR_THRE uart_fuel) w).
Proof.
  apply (wait_ind _ tx_wait (fun _ => True)); auto using tx_bounded, lsr_tx_progress.
Qed.

Lemma uart_wait_rx (w : world U H G) :
  rx (w_uart w) <> [] ->
  uart_wait LSR_DR w = Ret tt (set_uart (polled LSR_DR uart_fuel) w).
Proof.
  intros Hrx. apply (wait_ind _ rx_wait (fun u => rx u <> [])); auto using rx_bounded.
  - intros u Hu. now rewrite lsr_rx.
  - auto using lsr_rx_progress.
Qed.

Lemma polled_tx mask n u : tx (polled mask n u) = tx u.
Proof.
  revert u; induction n as [|n IH]; intros u; [reflexivity|]. cbn.
  pose proof (lsr_tx u) as E. destruct (ur8 _ u) as [v u']; cbn in E.
  destruct (_ =? _); congruence.
Qed.

Lemma polled_rx mask n u : rx (polled mask n u) = rx u.
Proof.
  revert u; induction n as [|n IH]; intros u; [reflexivity|]. cbn.
  pose proof (lsr_rx u) as E. destruct (ur8 _ u) as [v u']; cbn in E.
  destruct (_ =? _); congruence.
Qed.

Lemma emit_raw_tx c u : tx (emit_raw c u) = tx u ++ [u8 c].
Proof.
  unfold emit_raw. rewrite thr_tx, polled_tx; [reflexivity|].
  apply Z.mod_pos_bound. lia.
Qed.

Lemma emit_raw_rx c u : rx (emit_raw c u) = rx u.
Proof. unfold emit_raw. now rewrite thr_rx, polled_rx. Qed.

Lemma emits_rx l u : rx (emits l u) = rx u.
Proof.
  revert u; induction l as [|c l IH]; intros u; [reflexivity|].
  rewrite emits_cons, IH. unfold emit. rewrite emit_raw_rx.
  destruct (c =? 10); now rewrite ?emit_raw_rx.
Qed.

Lemma emits_tx l u :
  Forall (fun c => 0 <= c < 256) l -> tx (emits l u) = tx u ++ crlf l.
Proof.
  revert u; induction l as [|c l IH]; intros u Hl.
  - cbn. now rewrite app_nil_r.
  - apply Forall_cons_1 in Hl as [Hc Hl]. cbn [crlf].
    rewrite emits_cons, IH by exact Hl.
    unfold emit. rewrite emit_raw_tx. unfold u8 at 1.
    rewrite (Z.mod_small c) by exact Hc.
    destruct (Z.eqb_spec c 10) as [->|Hn]; [rewrite emit_raw_tx|];
      now rewrite <- ?app_assoc.
Qed.

Lemma inited_tx u : tx (inited u) = tx u.
Proof. apply lcr_tx. Qed.
Lemma inited_rx u : rx (inited u) = rx u.
Proof. apply lcr_rx. Qed.
End Wait.

Create Rewrite HintDb uart.
#[export] Hint Rewrite @emits_rx @inited_tx @inited_rx : uart.

(** ** Number formatting: the reference *)

Fixpoint digits_lsd (fuel : nat) (base v : Z) : list Z :=
  match fuel with
  | O => []
  | S n => if v >? 0 then v mod base :: digits_lsd n base (v / base) else []
  end.

Definition digit_char (digits : list Z) (d : Z) : Z := nth (Z.to_nat d) digits 0.

Definition fmt_uint (base : Z) (digits : string) (v : Z) : list Z :=
  if v =? 0 then [48]
  else rev (map (digit_char (bytes digits)) (digits_lsd 64 base v)).

Definition fmt_dec (v : Z) : list Z := fmt_uint 10 "0123456789" v.
Definition fmt_hex (v : Z) : list Z := bytes "0x" ++ fmt_uint 16 "0123456789abcdef" v.

(** A reader of numerals, independent of the printer. *)
Definition digit_val (c : Z) : option Z :=
  if (48 <=? c) && (c <=? 57) then Some (c - 48)
  else if (97 <=? c) && (c <=? 102) then Some (c - 87)
  else None.

Definition parse_digit (base : Z) (acc : option Z) (c : Z) : option Z :=
  a ← acc; d ← digit_val c;
  if d <? base then Some (a * base + d) else None.

Definition parse_uint (base : Z) (l : list Z) : option Z :=
  match l with
  | [] => None
  | _ => fold_left (parse_digit base) l (Some 0)
  end.

Lemma digits_lsd_length fuel base v k :
  2 <= base -> 0 <= v < base ^ Z.of_nat k ->
  (length (digits_lsd fuel base v) <= k)%nat.
Proof.
  intros Hb. revert v k; induction fuel as [|n IH]; intros v k Hv; cbn; [lia|].
  destruct (Z.gtb_spec v 0); cbn; [|lia].
  destruct k as [|k]; [cbn in Hv; lia|].
  specialize (IH (v / base) k). cut (length (digits_lsd n base (v / base)) <= k)%nat; [lia|].
  apply IH. rewrite Nat2Z.inj_succ, Z.pow_succ_r in Hv by lia.
  split; [apply Z.div_pos; lia|]. apply Z.div_lt_upper_bound; lia.
Qed.

Lemma digits_lsd_range fuel base v :
  2 <= base -> Forall (fun d => 0 <= d < base) (digits_lsd fuel base v).
Proof.
  intros Hb. revert v; induction fuel as [|n IH]; intros v; cbn; [constructor|].
  destruct (v >? 0); constructor; auto. apply Z.mod_pos_bound. lia.
Qed.

(** The digits denote the value. *)
Definition digits_value (base : Z) (l : list Z) : Z :=
  fold_right (fun d acc => d + base * acc) 0 l.

Lemma digits_lsd_value fuel base v :
  2 <= base -> 0 <= v < base ^ Z.of_nat fuel ->
  digits_value base (digits_lsd fuel base v) = v.
Proof.
  intros Hb. revert v; induction fuel as [|n IH]; intros v Hv; cbn [digits_lsd].
  - cbn in *. lia.
  - destruct (Z.gtb_spec v 0); cbn; [|lia].
    fold (digits_value base (digits_lsd n base (v / base))).
    rewrite IH.
    + pose proof (Z.div_mod v base). lia.
    + rewrite Nat2Z.inj_succ, Z.pow_succ_r in Hv by lia.
      split; [apply Z.div_pos; lia|]. apply Z.div_lt_upper_bound; lia.
Qed.

(** The bytes of a C string: everything before its first NUL. *)
Fixpoint cstr (l : list Z) : list Z :=
  match l with
  | [] => []
  | c :: l' => if c =? 0 then [] else c :: cstr l'
  end.

Lemma cstr_no_nul l : Forall (fun c => c <> 0) (cstr l).
Proof.
  induction l as [|c l IH]; cbn; [constructor|].
  destruct (Z.eqb_spec c 0); constructor; auto.
Qed.

Lemma cstr_id l : Forall (fun c => c <> 0) l -> cstr l = l.
Proof.
  induction l as [|c l IH]; intros Hl; [reflexivity|].
  apply Forall_cons_1 in Hl as [Hc Hl]. cbn.
  rewrite (proj2 (Z.eqb_neq c 0) Hc). now rewrite IH.
Qed.

Lemma cstr_forall (P : Z -> Prop) l : Forall P l -> Forall P (cstr l).
Proof.
  induction 1; cbn; [constructor|]. destruct (_ =? _); constructor; auto.
Qed.

Section Format.
Context {U H G : Type} `{!UartDev U, !UartSpec U}.
Implicit Types w : world U H G.

Lemma uart_putc_raw_eq c w : uart_putc_raw c w = Ret tt (set_uart (emit_raw c) w).
Proof. unfold uart_putc_raw. now pstep (uart_wait_tx w). Qed.

Lemma uart_putc_eq c w : uart_putc c w = Ret tt (set_uart (emit c) w).
Proof.
  unfold uart_putc, when, emit. destruct (c =? 10).
  - pstep (uart_putc_raw_eq 13 w). apply uart_putc_raw_eq.
  - apply uart_putc_raw_eq.
Qed.

Lemma uart_puts_bytes_eq l w :
  uart_puts_bytes l w = Ret tt (set_uart (emits (cstr l)) w).
Proof.
  revert w; induction l as [|c l IH]; intros w; [now destruct w|].
  cbn [uart_puts_bytes cstr]. destruct (c =? 0); [now destruct w|].
  pstep (uart_putc_eq c w). now rewrite IH.
Qed.

Lemma uart_put_drain buf i w :
  (i <= length buf)%nat ->
  uint_drain buf i w = Ret tt (set_uart (emits (rev (take i buf))) w).
Proof.
  revert w; induction i as [|i IH]; intros w Hi; [now destruct w|].
  cbn [uint_drain]. unfold arr_get.
  destruct (lookup_lt_is_Some_2 buf i ltac:(lia)) as [c Hc]. rewrite Hc.
  rewrite bind_ret_l. pstep (uart_putc_eq c w). rewrite IH by lia.
  rewrite (take_S_r _ _ _ Hc), rev_app_distr. reflexivity.
Qed.

Lemma arr_get_digit (digits : list Z) d :
  0 <= d < Z.of_nat (length digits) ->
  @arr_get (world U H G) digits (Z.to_nat d) = ret (digit_char digits d).
Proof.
  intros Hd. unfold arr_get, digit_char.
  destruct (lookup_lt_is_Some_2 digits (Z.to_nat d) ltac:(lia)) as [x Hx].
  rewrite Hx. f_equal. symmetry. now apply nth_lookup_Some.
Qed.

Lemma uint_fill_eq fuel v base digits buf i w :
  2 <= base <= Z.of_nat (length digits) ->
  0 <= v < base ^ Z.of_nat fuel ->
  (i + length (digits_lsd fuel base v) <= length buf)%nat ->
  exists buf',
    uint_fill fuel v base digits buf i w
    = Ret (buf', (i + length (digits_lsd fuel base v))%nat) w /\
    length buf' = length buf /\
    take (i + length (digits_lsd fuel base v)) buf'
    = take i buf ++ map (digit_char digits) (digits_lsd fuel base v).
Proof.
  intros Hb. revert v buf i; induction fuel as [|n IH]; intros v buf i Hv Hlen.
  - cbn in *. assert (v = 0) as -> by lia. exists buf.
    rewrite Nat.add_0_r, app_nil_r. auto.
  - cbn [uint_fill digits_lsd] in *. destruct (Z.gtb_spec v 0).
    2: { exists buf. cbn. rewrite Nat.add_0_r, app_nil_r. auto. }
    cbn [length map] in *.
    pose proof (Z.mod_pos_bound v base ltac:(lia)) as Hm.
    rewrite arr_get_digit by lia. rewrite bind_ret_l. unfold arr_set. rewrite decide_True by lia. rewrite bind_ret_l.
    destruct (IH (v / base) (<[i:=digit_char digits (v mod base)]> buf) (S i))
      as (buf' & E & HL & HT).
    + rewrite Nat2Z.inj_succ, Z.pow_succ_r in Hv by lia.
      split; [apply Z.div_pos; lia|]. apply Z.div_lt_upper_bound; lia.
    + rewrite length_insert. lia.
    + exists buf'. rewrite E, Nat.add_succ_r, <- Nat.add_succ_l.
      split; [reflexivity|]. split; [now rewrite HL, length_insert|].
      rewrite HT. rewrite (take_S_r _ i (digit_char digits (v mod base))).
      * now rewrite take_insert_ge, <- app_assoc by lia.
      * apply list_lookup_insert_eq. lia.
Qed.
End Format.

(** ** Properties of the formatted text *)

(** A digit table usable in base [base]: each entry reads back as its index. *)
Definition digits_ok (base : Z) (digits : list Z) : Prop :=
  2 <= base <= Z.of_nat (length digits) /\
  forall d, 0 <= d < base ->
    digit_val (digit_char digits d) = Some d /\ 48 <= digit_char digits d < 103.

Lemma digits_ok_check base digits :
  2 <= base <= Z.of_nat (length digits) ->
  forallb (fun d => match digit_val (digit_char digits d) with
                    | Some d' => d' =? d | None => false end
                    && (48 <=? digit_char digits d) && (digit_char digits d <? 103))
          (seqZ 0 base) = true ->
  digits_ok base digits.
Proof.
  intros Hb Hf. split; [exact Hb|]. intros d Hd.
  rewrite forallb_forall in Hf. specialize (Hf d).
  rewrite <- list_elem_of_In, elem_of_seqZ in Hf. specialize (Hf ltac:(lia)).
  destruct (digit_val _); [|discriminate].
  apply andb_prop in Hf as [Hf ?]. apply andb_prop in Hf as [Hf ?].
  apply Z.eqb_eq in Hf as ->. split; [reflexivity|lia].
Qed.

Lemma dec_digits_ok : digits_ok 10 (bytes "0123456789").
Proof. apply digits_ok_check; [cbn; lia|reflexivity]. Qed.

Lemma hex_digits_ok : digits_ok 16 (bytes "0123456789abcdef").
Proof. apply digits_ok_check; [cbn; lia|reflexivity]. Qed.

#[export] Hint Resolve dec_digits_ok hex_digits_ok : word.

Lemma parse_digits base digits ds :
  digits_ok base digits -> Forall (fun d => 0 <= d < base) ds ->
  fold_left (parse_digit base) (rev (map (digit_char digits) ds)) (Some 0)
  = Some (digits_value base ds).
Proof.
  intros [Hb Hok]. induction ds as [|d ds IH]; intros Hds; [reflexivity|].
  apply Forall_cons_1 in Hds as [Hd Hds].
  cbn [map rev]. rewrite fold_left_app, IH by exact Hds.
  unfold parse_digit. cbn. destruct (Hok d Hd) as [-> _]. cbn.
  rewrite (proj2 (Z.ltb_lt d base)) by lia. f_equal. unfold digits_value. cbn [fold_right]. ring.
Qed.

Lemma fmt_uint_parse base digits v :
  digits_ok base (bytes digits) -> is_u64 v ->
  parse_uint base (fmt_uint base digits v) = Some v.
Proof.
  intros Hok Hv. unfold fmt_uint. destruct (Z.eqb_spec v 0) as [->|Hn].
  - unfold parse_uint, parse_digit. destruct Hok as [? _].
    cbn -[Z.ltb]. change (48 - 48) with 0. now rewrite (proj2 (Z.ltb_lt 0 base)) by lia.
  - destruct Hok as [Hb Hok].
    assert (0 <= v < base ^ Z.of_nat 64) as Hv64.
    { split; [apply Hv|]. apply Z.lt_le_trans with (2 ^ 64); [apply Hv|].
      apply Z.pow_le_mono_l. lia. }
    rewrite <- (digits_lsd_value 64 base v) at 2 by (auto; lia).
    rewrite <- (parse_digits base (bytes digits)); [|split; auto|now apply digits_lsd_range].
    unfold parse_uint.
    destruct (digits_lsd 64 base v) as [|d ds] eqn:E.
    + pose proof (digits_lsd_value 64 base v ltac:(lia) Hv64) as Hz. rewrite E in Hz.
      cbn in Hz. lia.
    + cbn [map rev]. now destruct (rev _).
Qed.

Lemma fmt_uint_chars base digits v :
  digits_ok base (bytes digits) -> Forall (fun c => 48 <= c < 103) (fmt_uint base digits v).
Proof.
  intros [Hb Hok]. unfold fmt_uint. destruct (v =? 0); [repeat constructor; lia|].
  apply Forall_rev, Forall_map. eapply Forall_impl; [now apply digits_lsd_range|].
  intros d Hd. now apply Hok.
Qed.

Lemma crlf_plain l : Forall (fun c => 48 <= c < 103) l -> crlf l = l.
Proof.
  induction l as [|c l IH]; intros Hl; [reflexivity|].
  apply Forall_cons_1 in Hl as [Hc Hl]. cbn.
  rewrite (proj2 (Z.eqb_neq c 10)) by lia. cbn. now rewrite IH.
Qed.

Lemma fmt_dec_plain v : crlf (fmt_dec v) = fmt_dec v.
Proof. apply crlf_plain, fmt_uint_chars, dec_digits_ok. Qed.

Lemma fmt_dec_bytes v : Forall (fun c => 0 <= c < 256) (fmt_dec v).
Proof.
  eapply Forall_impl; [apply fmt_uint_chars, dec_digits_ok|]. cbn. lia.
Qed.

Lemma fmt_hex_bytes v : Forall (fun c => 0 <= c < 256) (fmt_hex v).
Proof.
  apply Forall_app. split; [apply bytes_range|].
  eapply Forall_impl; [apply fmt_uint_chars, hex_digits_ok|]. cbn. lia.
Qed.

Lemma fmt_hex_plain v : crlf (fmt_hex v) = fmt_hex v.
Proof.
  unfold fmt_hex. rewrite crlf_app. f_equal.
  apply crlf_plain, fmt_uint_chars, hex_digits_ok.
Qed.

#[export] Hint Resolve fmt_dec_bytes fmt_hex_bytes bytes_range : word.

(** No byte of a C string literal is NUL. *)
Definition no_nul (s : string) : bool := forallb (fun c => negb (c =? 0)) (bytes s).

(** [uart_puts] of a C string literal, written with its escapes. *)
Definition uputs {U H G} `{!UartDev U} (s : string) : prog (world U H G) unit :=
  uart_puts (c_lit s).

Section Output.
Context {U H G : Type} `{!UartDev U, !UartSpec U}.
Implicit Types w : world U H G.

Lemma uart_puts_eq s w :
  no_nul s = true -> uart_puts s w = Ret tt (set_uart (emits (bytes s)) w).
Proof.
  intros Hs. unfold uart_puts. rewrite uart_puts_bytes_eq, cstr_id; [reflexivity|].
  apply Forall_forall. intros c Hc. unfold no_nul in Hs. rewrite forallb_forall in Hs.
  specialize (Hs c (proj1 (list_elem_of_In _ _) Hc)).
  destruct (Z.eqb_spec c 0); [discriminate|assumption].
Qed.

Lemma uart_put_uint_eq v base digits w :
  digits_ok base (bytes digits) -> 7 <= base -> is_u64 v ->
  uart_put_uint v base digits w = Ret tt (set_uart (emits (fmt_uint base digits v)) w).
Proof.
  intros Hok Hb7 Hv. unfold uart_put_uint, fmt_uint.
  destruct (Z.eqb_spec v 0) as [->|Hn]; [apply uart_putc_eq|].
  assert (0 <= v < base ^ Z.of_nat 24) as Hv24.
  { split; [apply Hv|]. apply Z.lt_le_trans with (7 ^ 24).
    - destruct Hv. eapply Z.lt_trans; [eassumption|]. reflexivity.
    - apply Z.pow_le_mono_l. lia. }
  destruct (uint_fill_eq 64 v base (bytes digits) (replicate 24 0) 0 w)
    as (buf & E & HL & HT).
  - apply Hok.
  - split; [apply Hv|]. apply Z.lt_le_trans with (base ^ 24); [apply Hv24|].
    apply Z.pow_le_mono_r; lia.
  - rewrite length_replicate. apply digits_lsd_length; lia.
  - pstep E. cbn [fst snd]. rewrite uart_put_drain, HT; [reflexivity|].
    rewrite HL, length_replicate. apply digits_lsd_length; lia.
Qed.

Lemma uart_put_dec_eq v w :
  is_u64 v -> uart_put_dec v w = Ret tt (set_uart (emits (fmt_dec v)) w).
Proof. intros Hv. apply uart_put_uint_eq; auto with word; lia. Qed.

Lemma uart_put_hex_eq v w :
  is_u64 v -> uart_put_hex v w = Ret tt (set_uart (emits (fmt_hex v)) w).
Proof.
  intros Hv. unfold uart_put_hex. pstep (uart_puts_eq "0x" w eq_refl).
  rewrite uart_put_uint_eq by (auto with word; lia).
  unfold fmt_hex, set_uart. cbn [w_uart w_hw w_glob]. now rewrite emits_app.
Qed.

Lemma uart_init_eq w : uart_init w = Ret tt (set_uart inited w).
Proof. reflexivity. Qed.

Lemma uart_getc_eq w c r :
  rx (w_uart w) = c :: r ->
  uart_getc w = Ret c (set_uart (fun u => (received u).2) w) /\
  rx (received (w_uart w)).2 = r /\ tx (received (w_uart w)).2 = tx (w_uart w).
Proof.
  intros Hrx. assert (rx (w_uart w) <> []) as Hne by (rewrite Hrx; discriminate).
  unfold uart_getc. pstep (uart_wait_rx w Hne).
  set (u := polled LSR_DR uart_fuel (w_uart w)).
  assert (rx u = c :: r) as Hu by (unfold u; now rewrite polled_rx).
  unfold received. fold u. split; [|split].
  - unfold uart_read, set_uart. cbn. fold u.
    pose proof (rbr_val _ _ _ Hu) as E. now destruct (ur8 _ u) as [v u']; cbn in *; subst.
  - eapply rbr_rx. exact Hu.
  - rewrite rbr_tx. apply polled_tx.
Qed.
End Output.

(** ** Programs that only print

    [prints m l]: [m] returns, having sent [l] and touched nothing else. *)

Section Prints.
Context {U : Type} `{!UartDev U, !UartSpec U} {H G : Type}.

Definition prints (m : prog (world U H G) unit) (l : list Z) : Prop :=
  forall w, m w = Ret tt (set_uart (emits l) w).

Lemma prints_ret : prints (ret tt) [].
Proof. now intros []. Qed.

Lemma prints_seq m1 m2 l1 l2 :
  prints m1 l1 -> prints m2 l2 -> prints (m1 ;; m2) (l1 ++ l2).
Proof.
  intros H1 H2 w. pstep (H1 w). rewrite H2. unfold set_uart. cbn. now rewrite emits_app.
Qed.

Lemma prints_ret_bind {A} (a : A) (k : A -> prog (world U H G) unit) l :
  prints (k a) l -> prints (bind (ret a) k) l.
Proof. auto. Qed.

Lemma prints_lit s : no_nul (c_lit s) = true -> prints (uputs s) (lit s).
Proof. intros Hs w. now apply uart_puts_eq. Qed.

Lemma prints_puts s : no_nul s = true -> prints (uart_puts s) (bytes s).
Proof. intros Hs w. now apply uart_puts_eq. Qed.

Lemma prints_dec v : is_u64 v -> prints (uart_put_dec v) (fmt_dec v).
Proof. intros Hv w. now apply uart_put_dec_eq. Qed.

Lemma prints_hex v : is_u64 v -> prints (uart_put_hex v) (fmt_hex v).
Proof. intros Hv w. now apply uart_put_hex_eq. Qed.

Lemma prints_putc c : prints (uart_putc c) [c].
Proof. intros w. apply uart_putc_eq. Qed.

Lemma prints_if (b : bool) m1 m2 l1 l2 :
  prints m1 l1 -> prints m2 l2 -> prints (if b then m1 else m2) (if b then l1 else l2).
Proof. now destruct b. Qed.

Lemma prints_when (b : bool) m l : prints m l -> prints (when b m) (if b then l else []).
Proof. intros Hm. destruct b; [exact Hm|apply prints_ret]. Qed.

Lemma prints_for {A} (l : list A) (f : A -> prog (world U H G) unit) (g : A -> list Z) :
  (forall x, x ∈ l -> prints (f x) (g x)) -> prints (for_each l f) (concat (map g l)).
Proof.
  induction l as [|x l IH]; intros Hf; [apply prints_ret|].
  apply prints_seq; [apply Hf; left|]. apply IH. intros y Hy. apply Hf. now right.
Qed.

Lemma set_emits_app l1 l2 (w : world U H G) :
  set_uart (emits l2) (set_uart (emits l1) w) = set_uart (emits (l1 ++ l2)) w.
Proof. unfold set_uart. cbn. now rewrite emits_app. Qed.

(** Running a printing prefix. *)
Lemma prints_then {A} m l (k : unit -> prog (world U H G) A) w :
  prints m l -> bind m k w = k tt (set_uart (emits l) w).
Proof. intros Hm. now rewrite (bind_ret_eq _ _ _ _ _ (Hm w)). Qed.
End Prints.

(** Derived printing programs are added to this database. *)
Create HintDb prints discriminated.

Ltac u64_side := first [assumption | u64c | solve [auto with word]].

(** Synthesise the text a straight-line printing program sends. *)
Ltac solve_prints :=
  repeat lazymatch goal with
  | |- prints (bind (ret _) _) _ => apply prints_ret_bind; cbn beta
  | |- prints (bind _ _) _ => eapply prints_seq
  | |- prints (ret tt) _ => apply prints_ret
  | |- prints (uputs _) _ => apply prints_lit; reflexivity
  | |- prints (uart_puts _) _ => apply prints_puts; reflexivity
  | |- prints (uart_putc _) _ => apply prints_putc
  | |- prints (uart_put_dec _) _ => apply prints_dec; u64_side
  | |- prints (uart_put_hex _) _ => apply prints_hex; u64_side
  | |- prints (when _ _) _ => apply prints_when
  | |- prints _ _ => first [solve [eauto with prints nocore] | apply prints_if]
  end.

(** Run the printing statement at the head of the goal's program. *)
Ltac pprint := erewrite prints_then by solve_prints.

(** ** Devices that satisfy the laws *)

(** Always ready, as QEMU's 16550 model is; the log is kept newest first. *)
Record LogUart : Type := LogU { lu_tx : list Z; lu_rx : list Z }.

#[export] Instance LogUart_dev : UartDev LogUart := {
  ur8 a u :=
    if a =? uart_reg UART_LSR
    then (Z.lor 0x60 (match lu_rx u with [] => 0 | _ => 1 end), u)
    else if a =? uart_reg UART_THR
    then match lu_rx u with
         | [] => (0, u)
         | c :: r => (c, LogU (lu_tx u) r)
         end
    else (0, u);
  uw8 a v u :=
    if a =? uart_reg UART_THR then LogU (v :: lu_tx u) (lu_rx u) else u;
  uart_fuel := 1;
}.

#[export] Instance LogUart_spec : UartSpec LogUart.
Proof.
  refine {| tx u := rev (lu_tx u); rx := lu_rx; tx_wait _ := 0%nat; rx_wait _ := 0%nat |};
    try reflexivity; intros; cbn; try lia.
  - now destruct u as [t [|]].
  - now destruct u as [t [|]].
  - rewrite H. reflexivity.
  - rewrite H. reflexivity.
  - destruct (lu_rx u); reflexivity.
Defined.

(** A line that needs up to three status polls per byte in each direction. *)
Record SlowUart : Type := SlowU {
  su_tx : list Z; su_rx : list Z; su_busy : nat; su_late : nat }.

#[export] Instance SlowUart_dev : UartDev SlowUart := {
  ur8 a u :=
    if a =? uart_reg UART_LSR
    then (Z.lor (match su_busy u with O => 0x20 | _ => 0 end)
                (match su_rx u, su_late u with _ :: _, O => 1 | _, _ => 0 end),
          SlowU (su_tx u) (su_rx u) (pred (min 3 (su_busy u))) (pred (min 3 (su_late u))))
    else if a =? uart_reg UART_THR
    then match su_rx u with
         | [] => (0, u)
         | c :: r => (c, SlowU (su_tx u) r (su_busy u) 3)
         end
    else (0, u);
  uw8 a v u :=
    if a =? uart_reg UART_THR then SlowU (v :: su_tx u) (su_rx u) 3 (su_late u) else u;
  uart_fuel := 4;
}.

#[export] Instance SlowUart_spec : UartSpec SlowUart.
Proof.
  refine {| tx u := rev (su_tx u); rx := su_rx;
            tx_wait u := min 3 (su_busy u); rx_wait u := min 3 (su_late u) |};
    try reflexivity; intros; cbn -[Nat.min]; try lia.
  - destruct u as [? r [|b] l]; [now destruct r, l|].
    cbn -[Nat.min].
    change (uart_reg UART_LSR =? uart_reg UART_LSR) with true. cbn -[Nat.min]. lia.
  - destruct u as [? r b [|l]]; [now destruct r, b|].
    cbn -[Nat.min]. change (uart_reg UART_LSR =? uart_reg UART_LSR) with true.
    cbn -[Nat.min]. lia.
  - rewrite H. reflexivity.
  - rewrite H. reflexivity.
  - destruct (su_rx u); reflexivity.
Defined.

(** ** The driver's theorems *)

Section Theorems.
Context {U H G : Type} `{!UartDev U, !UartSpec U}.
Implicit Types w : world U H G.


(** C29: for every 64-bit value [uart_put_dec] stays inside its 24-byte
    buffer, returns, and sends a decimal numeral that reads back as the
    value. *)
Theorem uart_put_dec_roundtrip v w (Hv : is_u64 v) :
  exists u s, uart_put_dec v w = Ret tt (World u (w_hw w) (w_glob w)) /\
    tx u = tx (w_uart w) ++ s /\ rx u = rx (w_uart w) /\ parse_uint 10 s = Some v.
Proof.
  exists (emits (fmt_dec v) (w_uart w)), (fmt_dec v).
  split; [now apply uart_put_dec_eq|]. rewrite emits_tx, fmt_dec_plain, emits_rx
    by auto with word.
  split_and!; auto. apply fmt_uint_parse; auto with word.
Qed.

(** [uart_put_hex] likewise sends ["0x"] and a lower-case hexadecimal
    numeral that reads back as the value. *)
Theorem uart_put_hex_roundtrip v w (Hv : is_u64 v) :
  exists u s, uart_put_hex v w = Ret tt (World u (w_hw w) (w_glob w)) /\
    tx u = tx (w_uart w) ++ bytes "0x" ++ s /\ rx u = rx (w_uart w) /\
    parse_uint 16 s = Some v.
Proof.
  exists (emits (fmt_hex v) (w_uart w)), (fmt_uint 16 "0123456789abcdef" v).
  split; [now apply uart_put_hex_eq|]. rewrite emits_tx, fmt_hex_plain, emits_rx
    by auto with word.
  split_and!; auto. apply fmt_uint_parse; auto with word.
Qed.
End Theorems.


Lemma uart_put_dec_roundtrip_witness :
  exists u s, uart_put_dec (H:=unit) (G:=unit) (2 ^ 64 - 1) (World (SlowU [] [] 0 0) tt tt)
    = Ret tt (World u tt tt) /\
    tx u = [] ++ s /\ rx u = [] /\ parse_uint 10 s = Some (2 ^ 64 - 1).
Proof.
  exact (uart_put_dec_roundtrip (2 ^ 64 - 1) (World (SlowU [] [] 0 0) tt tt)
           ltac:(u64c)).
Defined.

Lemma uart_put_hex_roundtrip_witness :
  exists u s, uart_put_hex (H:=unit) (G:=unit) 0xdeadbeef (World (LogU [] []) tt tt)
    = Ret tt (World u tt tt) /\
    tx u = [] ++ bytes "0x" ++ s /\ rx u = [] /\ parse_uint 16 s = Some 0xdeadbeef.
Proof.
  exact (uart_put_hex_roundtrip 0xdeadbeef (World (LogU [] []) tt tt)
           ltac:(u64c)).
Defined.
