(* ===== verification/Asm.v ===== *)
(** * The assembly fragment used by the context switches and trap entries

    A register file, doubleword memory and CSR file, and the instructions
    that src/switch.S, src/preempt/trap.S, src/smode/strap.S, src/smode/sboot.S,
    src/shell/trap.S and src/pmp/pmp_trap.S are written in.  Every load and
    store of those files is an aligned 8-byte access; a misaligned one is
    [Bad].  [BneHalt] is [bne] to a label whose code is [wfi; j self]. *)

From Stdlib Require Import ZArith Lia.
From stdpp Require Import base list.
From S2P Require Import Prelude.

(** ** State *)

Inductive csr : Type :=
| mscratch | mepc | mcause | mtval | mstatus | mtvec | mie
| sscratch | sepc | scause | stval | sstatus | stvec | sie.

#[export] Instance csr_eq_dec : EqDecision csr.
Proof. solve_decision. Defined.

Definition upd {K} `{EqDecision K} (f : K -> Z) (k : K) (v : Z) : K -> Z :=
  fun k' => if decide (k' = k) then v else f k'.

Lemma upd_eq {K} `{EqDecision K} (f : K -> Z) k v : upd f k v k = v.
Proof. unfold upd. now rewrite decide_True. Qed.

Lemma upd_ne {K} `{EqDecision K} (f : K -> Z) k v k' : k' <> k -> upd f k v k' = f k'.
Proof. intros. unfold upd. now rewrite decide_False. Qed.

(** [h_n] counts executed instructions; the counters read by [rdtime] and
    [rdcycle] are functions of it. *)
Record hart : Type := Hart {
  h_reg : Z -> Z;
  h_mem : Z -> Z;
  h_csr : csr -> Z;
  h_n : nat;
}.

Module Reg.
Definition x0 := 0.
Definition ra := 1.
Definition sp := 2.
Definition gp := 3.
Definition tp := 4.
Definition t0 := 5.
Definition t1 := 6.
Definition t2 := 7.
Definition s0 := 8.
Definition s1 := 9.
Definition a0 := 10.
Definition a1 := 11.
Definition a2 := 12.
Definition a3 := 13.
Definition a4 := 14.
Definition a5 := 15.
Definition a6 := 16.
Definition a7 := 17.
Definition s2 := 18.
Definition s3 := 19.
Definition s4 := 20.
Definition s5 := 21.
Definition s6 := 22.
Definition s7 := 23.
Definition s8 := 24.
Definition s9 := 25.
Definition s10 := 26.
Definition s11 := 27.
Definition t3 := 28.
Definition t4 := 29.
Definition t5 := 30.
Definition t6 := 31.
End Reg.
Import Reg.

Definition getr (h : hart) (r : Z) : Z := if r =? 0 then 0 else h_reg h r.

Definition setr (r v : Z) (h : hart) : hart :=
  if r =? 0 then h else Hart (upd (h_reg h) r v) (h_mem h) (h_csr h) (h_n h).
Definition setm (a v : Z) (h : hart) : hart :=
  Hart (h_reg h) (upd (h_mem h) a v) (h_csr h) (h_n h).
Definition setc (c : csr) (v : Z) (h : hart) : hart :=
  Hart (h_reg h) (h_mem h) (upd (h_csr h) c v) (h_n h).
Definition tick (h : hart) : hart :=
  Hart (h_reg h) (h_mem h) (h_csr h) (S (h_n h)).

(** ** Instructions *)

Inductive instr : Type :=
| Sd (rs off base : Z)
| Ld (rd off base : Z)
| Csrrw (rd : Z) (c : csr) (rs : Z)
| Csrr (rd : Z) (c : csr)
| Csrw (c : csr) (rs : Z)
| Li (rd imm : Z)
| Addi (rd rs imm : Z)
| Mv (rd rs : Z)
| Rdtime (rd : Z)
| Rdcycle (rd : Z)
| BneHalt (rs1 rs2 : Z).

Inductive result : Type :=
| Next (h : hart)
| Halted (h : hart)
| Bad.

Section Exec.
Variables time cycle : nat -> Z.

Definition exec1 (i : instr) (h : hart) : result :=
  match i with
  | Sd rs off base =>
      let a := u64 (getr h base + off) in
      if a mod 8 =? 0 then Next (tick (setm a (getr h rs) h)) else Bad
  | Ld rd off base =>
      let a := u64 (getr h base + off) in
      if a mod 8 =? 0 then Next (tick (setr rd (h_mem h a) h)) else Bad
  | Csrrw rd c rs => Next (tick (setr rd (h_csr h c) (setc c (getr h rs) h)))
  | Csrr rd c => Next (tick (setr rd (h_csr h c) h))
  | Csrw c rs => Next (tick (setc c (getr h rs) h))
  | Li rd imm => Next (tick (setr rd (u64 imm) h))
  | Addi rd rs imm => Next (tick (setr rd (u64 (getr h rs + imm)) h))
  | Mv rd rs => Next (tick (setr rd (getr h rs) h))
  | Rdtime rd => Next (tick (setr rd (time (h_n h)) h))
  | Rdcycle rd => Next (tick (setr rd (cycle (h_n h)) h))
  | BneHalt rs1 rs2 =>
      if getr h rs1 =? getr h rs2 then Next (tick h) else Halted h
  end.

Fixpoint exec (p : list instr) (h : hart) : result :=
  match p with
  | [] => Next h
  | i :: p' => match exec1 i h with Next h' => exec p' h' | r => r end
  end.

Lemma exec_app p1 p2 h :
  exec (p1 ++ p2) h = match exec p1 h with Next h' => exec p2 h' | r => r end.
Proof.
  revert h; induction p1 as [|i p1 IH]; intros h; [reflexivity|].
  cbn. destruct (exec1 i h); auto.
Qed.

Lemma exec_app_next p1 p2 h h' :
  exec p1 h = Next h' -> exec (p1 ++ p2) h = exec p2 h'.
Proof. intros E. now rewrite exec_app, E. Qed.

(** ** Runs of stores and of loads *)

Definition sds (base : Z) (l : list (Z * Z)) : list instr :=
  map (fun p => Sd (fst p) (snd p) base) l.
Definition lds (base : Z) (l : list (Z * Z)) : list instr :=
  map (fun p => Ld (fst p) (snd p) base) l.

(** A frame of doublewords at [b]: offsets aligned, no wrap-around. *)
Definition frame_ok (b : Z) (offs : list Z) : Prop :=
  0 <= b /\ b mod 8 = 0 /\ Forall (fun o => 0 <= o /\ o mod 8 = 0 /\ b + o < 2 ^ 64) offs.

Lemma frame_addr b o :
  0 <= b -> b mod 8 = 0 -> 0 <= o /\ o mod 8 = 0 /\ b + o < 2 ^ 64 ->
  u64 (b + o) = b + o /\ ((b + o) mod 8 =? 0) = true.
Proof.
  intros Hb Hb8 (Ho & Ho8 & Hs). split; [apply u64_small; split; lia|].
  apply Z.eqb_eq. rewrite Z.add_mod by lia. now rewrite Hb8, Ho8.
Qed.

Lemma exec_sds base l h :
  frame_ok (getr h base) (map snd l) -> NoDup (map snd l) ->
  exists h', exec (sds base l) h = Next h' /\
    h_reg h' = h_reg h /\ h_csr h' = h_csr h /\ h_n h' = (length l + h_n h)%nat /\
    (forall r o, (r, o) ∈ l -> h_mem h' (getr h base + o) = getr h r) /\
    (forall a, a ∉ map (fun o => getr h base + o) (map snd l) -> h_mem h' a = h_mem h a).
Proof.
  revert h; induction l as [|[r o] l IH]; intros h (Hb & Hb8 & Hf) Hnd.
  - exists h. split_and!; auto. intros r o Hin. inversion Hin.
  - cbn [map snd fst sds] in *. apply Forall_cons_1 in Hf as [Ho Hf].
    apply NoDup_cons in Hnd as [Hno Hnd].
    destruct (frame_addr _ _ Hb Hb8 Ho) as [Ea Em].
    cbn [exec exec1]. rewrite Ea, Em.
    set (h1 := tick (setm (getr h base + o) (getr h r) h)).
    destruct (IH h1) as (h' & E & HR & HC & HN & HM & HF); [now split|assumption|].
    exists h'. unfold sds in E. rewrite E. split_and!; auto; try (cbn in *; congruence).
    + rewrite HN. cbn. lia.
    + intros r' o' Hin. apply elem_of_cons in Hin as [Heq|Hin].
      * injection Heq as -> ->. rewrite HF.
        -- cbn. apply upd_eq.
        -- intros Hx. apply list_elem_of_fmap in Hx as (o'' & Hx & Ho'').
           change (getr h1 base) with (getr h base) in Hx. assert (o = o'') by lia.
           now subst.
      * exact (HM r' o' Hin).
    + intros a Ha. apply not_elem_of_cons in Ha as [Ha1 Ha2].
      rewrite HF by exact Ha2. cbn. now apply upd_ne.
Qed.

Lemma exec_lds base l h :
  frame_ok (getr h base) (map snd l) -> NoDup (map fst l) ->
  base ∉ map fst l -> 0 ∉ map fst l ->
  exists h', exec (lds base l) h = Next h' /\
    h_mem h' = h_mem h /\ h_csr h' = h_csr h /\ h_n h' = (length l + h_n h)%nat /\
    (forall r o, (r, o) ∈ l -> h_reg h' r = h_mem h (getr h base + o)) /\
    (forall r, r ∉ map fst l -> h_reg h' r = h_reg h r).
Proof.
  revert h; induction l as [|[r o] l IH]; intros h (Hb & Hb8 & Hf) Hnd Hbase Hz.
  - exists h. split_and!; auto. intros r o Hin. inversion Hin.
  - cbn [map snd fst lds] in *. apply Forall_cons_1 in Hf as [Ho Hf].
    apply NoDup_cons in Hnd as [Hno Hnd].
    apply not_elem_of_cons in Hbase as [Hbr Hbase].
    apply not_elem_of_cons in Hz as [Hzr Hz].
    destruct (frame_addr _ _ Hb Hb8 Ho) as [Ea Em].
    cbn [exec exec1]. rewrite Ea, Em. unfold setr.
    rewrite (proj2 (Z.eqb_neq r 0)) by congruence.
    set (h1 := tick _).
    assert (getr h1 base = getr h base) as Eb.
    { unfold getr, h1. cbn. destruct (base =? 0); [reflexivity|]. now apply upd_ne. }
    destruct (IH h1) as (h' & E & HM & HC & HN & HR & HF); auto.
    { rewrite Eb. now split. }
    exists h'. unfold lds in E. rewrite E. split_and!; auto; try (cbn in *; congruence).
    + rewrite HN. cbn. lia.
    + intros r' o' Hin. apply elem_of_cons in Hin as [Heq|Hin].
      * injection Heq as -> ->. rewrite HF by exact Hno. cbn. apply upd_eq.
      * rewrite (HR r' o' Hin), Eb. reflexivity.
    + intros r' Hr'. apply not_elem_of_cons in Hr' as [Hr1 Hr2].
      rewrite HF by exact Hr2. cbn. now apply upd_ne.
Qed.
End Exec.

(** ** Register and memory access after an update *)

Lemma getr_setr_eq r v h : r <> 0 -> getr (setr r v h) r = v.
Proof.
  intros Hr. unfold getr, setr. rewrite (proj2 (Z.eqb_neq r 0) Hr). cbn. apply upd_eq.
Qed.

Lemma getr_setr_ne r r' v h : r' <> r -> getr (setr r v h) r' = getr h r'.
Proof.
  intros Hr. unfold getr, setr. destruct (r' =? 0); [reflexivity|].
  destruct (r =? 0); [reflexivity|]. cbn. now apply upd_ne.
Qed.

Lemma getr_tick h r : getr (tick h) r = getr h r.
Proof. reflexivity. Qed.
Lemma getr_setm a v h r : getr (setm a v h) r = getr h r.
Proof. reflexivity. Qed.
Lemma getr_setc c v h r : getr (setc c v h) r = getr h r.
Proof. reflexivity. Qed.

Lemma h_mem_setr r v h : h_mem (setr r v h) = h_mem h.
Proof. unfold setr. now destruct (r =? 0). Qed.
Lemma h_csr_setr r v h : h_csr (setr r v h) = h_csr h.
Proof. unfold setr. now destruct (r =? 0). Qed.
Lemma h_n_setr r v h : h_n (setr r v h) = h_n h.
Proof. unfold setr. now destruct (r =? 0). Qed.

Lemma h_mem_tick h : h_mem (tick h) = h_mem h.
Proof. reflexivity. Qed.
Lemma h_mem_setm a v h : h_mem (setm a v h) = upd (h_mem h) a v.
Proof. reflexivity. Qed.
Lemma h_mem_setc c v h : h_mem (setc c v h) = h_mem h.
Proof. reflexivity. Qed.
Lemma h_csr_tick h : h_csr (tick h) = h_csr h.
Proof. reflexivity. Qed.
Lemma h_csr_setm a v h : h_csr (setm a v h) = h_csr h.
Proof. reflexivity. Qed.
Lemma h_csr_setc c v h : h_csr (setc c v h) = upd (h_csr h) c v.
Proof. reflexivity. Qed.
Lemma h_n_tick h : h_n (tick h) = S (h_n h).
Proof. reflexivity. Qed.
Lemma h_n_setm a v h : h_n (setm a v h) = h_n h.
Proof. reflexivity. Qed.
Lemma h_n_setc c v h : h_n (setc c v h) = h_n h.
Proof. reflexivity. Qed.

Lemma getr_reg h r : r <> 0 -> getr h r = h_reg h r.
Proof. intros Hr. unfold getr. now rewrite (proj2 (Z.eqb_neq r 0) Hr). Qed.

Create Rewrite HintDb asm.
#[export] Hint Rewrite getr_tick getr_setm getr_setc h_mem_setr h_csr_setr h_n_setr
  h_mem_tick h_mem_setm h_mem_setc h_csr_tick h_csr_setm h_csr_setc
  h_n_tick h_n_setm h_n_setc : asm.
#[export] Hint Rewrite getr_setr_eq using discriminate : asm.
#[export] Hint Rewrite getr_setr_ne using discriminate : asm.
#[export] Hint Rewrite @upd_eq : asm.
#[export] Hint Rewrite @upd_ne using (discriminate || lia) : asm.

(** Execute the next instruction of the goal's program and normalise. *)
Ltac xs :=
  cbn [exec exec1]; autorewrite with asm.
