(* ===== verification/Switch.v ===== *)
(** * The context switch (src/switch.S, [context_t] of src/sched.h)

    [swtch] saves the fourteen callee-saved registers into the old context
    and restores them from the new one.  A task that is switched away and
    later switched back to finds them as it left them, which is what makes
    [sched_yield] look like an ordinary call. *)

From Stdlib Require Import ZArith Lia.
From stdpp Require Import base list.
From S2P Require Import Prelude Asm.
Import Reg.

(** Field offsets of [context_t], by register. *)
Definition context_t : list (Z * Z) :=
  [(ra, 0); (sp, 8); (s0, 16); (s1, 24); (s2, 32); (s3, 40); (s4, 48); (s5, 56);
   (s6, 64); (s7, 72); (s8, 80); (s9, 88); (s10, 96); (s11, 104)].

Definition CONTEXT_SIZE : Z := 112.

Definition swtch : list instr :=
  [ Sd ra 0 a0; Sd sp 8 a0; Sd s0 16 a0; Sd s1 24 a0; Sd s2 32 a0; Sd s3 40 a0;
    Sd s4 48 a0; Sd s5 56 a0; Sd s6 64 a0; Sd s7 72 a0; Sd s8 80 a0; Sd s9 88 a0;
    Sd s10 96 a0; Sd s11 104 a0;
    Ld ra 0 a1; Ld sp 8 a1; Ld s0 16 a1; Ld s1 24 a1; Ld s2 32 a1; Ld s3 40 a1;
    Ld s4 48 a1; Ld s5 56 a1; Ld s6 64 a1; Ld s7 72 a1; Ld s8 80 a1; Ld s9 88 a1;
    Ld s10 96 a1; Ld s11 104 a1 ].

(** A [context_t] in memory: aligned, and inside the address space. *)
Definition ctx_at (c : Z) : Prop := 0 <= c /\ c mod 8 = 0 /\ c + CONTEXT_SIZE <= 2 ^ 64.

Definition ctx_disjoint (c d : Z) : Prop := c + CONTEXT_SIZE <= d \/ d + CONTEXT_SIZE <= c.

Lemma context_offsets r o : (r, o) ∈ context_t -> 0 <= o < CONTEXT_SIZE /\ r <> 0.
Proof.
  unfold context_t. rewrite list_elem_of_In. cbn. unfold CONTEXT_SIZE.
  intros Hin. repeat destruct Hin as [Hin|Hin]; try contradiction;
    injection Hin as <- <-; split; (lia || discriminate).
Qed.

Lemma ctx_frame c : ctx_at c -> frame_ok c (map snd context_t).
Proof.
  intros (H0 & H8 & H1). unfold CONTEXT_SIZE in H1. split_and!; auto.
  cbn. repeat constructor; lia.
Qed.

(** The words of context [c] that a memory holds. *)
Definition ctx_words (m : Z -> Z) (c : Z) : list Z := map (fun p => m (c + snd p)) context_t.

Section Swtch.
Variables time cycle : nat -> Z.

Lemma swtch_spec h :
  ctx_at (getr h a0) -> ctx_at (getr h a1) -> ctx_disjoint (getr h a0) (getr h a1) ->
  exists h', exec time cycle swtch h = Next h' /\
    (forall r o, (r, o) ∈ context_t -> h_mem h' (getr h a0 + o) = h_reg h r) /\
    (forall r o, (r, o) ∈ context_t -> h_reg h' r = h_mem h (getr h a1 + o)) /\
    (forall a, ~ (getr h a0 <= a < getr h a0 + CONTEXT_SIZE) -> h_mem h' a = h_mem h a) /\
    h_csr h' = h_csr h.
Proof.
  intros Ho Hn Hd.
  change swtch with (sds a0 context_t ++ lds a1 context_t).
  destruct (exec_sds time cycle a0 context_t h) as (h1 & E1 & HR & HC & _ & HM & HF).
  { now apply ctx_frame. }
  { apply (bool_decide_unpack _); vm_compute; exact I. }
  rewrite (exec_app_next _ _ _ _ _ _ E1).
  assert (forall r, getr h1 r = getr h r) as HG by (intros r; unfold getr; now rewrite HR).
  destruct (exec_lds time cycle a1 context_t h1) as (h' & E2 & HM2 & HC2 & _ & HR2 & _).
  { rewrite HG. now apply ctx_frame. }
  1,2,3: apply (bool_decide_unpack _); vm_compute; exact I.
  assert (forall a, ~ (getr h a0 <= a < getr h a0 + CONTEXT_SIZE) -> h_mem h1 a = h_mem h a)
    as Hout.
  { intros a Ha. apply HF. intros Hin. rewrite map_map in Hin.
    apply list_elem_of_fmap in Hin as ([r o] & -> & Hin).
    apply context_offsets in Hin as [? _]. cbn in Ha. lia. }
  exists h'. split; [exact E2|]. split_and!; try congruence.
  - intros r o Hin. rewrite HM2, (HM r o Hin). apply getr_reg.
    now apply context_offsets in Hin.
  - intros r o Hin. rewrite (HR2 r o Hin), HG. apply Hout.
    apply context_offsets in Hin as [? _]. destruct Hd; lia.
  - intros a Ha. rewrite HM2. now apply Hout.
Qed.

(** C8: a task that is switched away from (context at [c], to a context
    elsewhere) and is later switched back to by any code that left its saved
    context alone resumes with [ra], [sp] and [s0]-[s11] exactly as they
    were at its own call of [swtch]; between the two switches nothing
    outside the two saved contexts was written. *)
Theorem swtch_resumes h0 h1 h2 h3 c
  (Hc : getr h0 a0 = c) (Hc' : getr h2 a1 = c)
  (H0 : ctx_at c) (H1 : ctx_at (getr h0 a1)) (H2 : ctx_at (getr h2 a0))
  (D01 : ctx_disjoint c (getr h0 a1)) (D23 : ctx_disjoint (getr h2 a0) c)
  (Haway : exec time cycle swtch h0 = Next h1)
  (Hkept : ctx_words (h_mem h2) c = ctx_words (h_mem h1) c)
  (Hback : exec time cycle swtch h2 = Next h3) :
  (forall r, r ∈ map fst context_t -> h_reg h3 r = h_reg h0 r) /\
  (forall a, ~ (c <= a < c + CONTEXT_SIZE) -> h_mem h1 a = h_mem h0 a).
Proof.
  subst c.
  destruct (swtch_spec h0) as (h1' & E1 & HM1 & _ & HF1 & _); auto.
  rewrite Haway in E1. injection E1 as <-.
  destruct (swtch_spec h2) as (h3' & E3 & _ & HR3 & _ & _); rewrite ?Hc'; auto.
  rewrite Hback in E3. injection E3 as <-.
  split; [|exact HF1].
  intros r Hr. apply list_elem_of_fmap in Hr as ([r' o] & -> & Hin). cbn.
  rewrite (HR3 r' o Hin), Hc', <- (HM1 r' o Hin).
  unfold ctx_words in Hkept. apply list_elem_of_lookup in Hin as [i Hi].
  apply (f_equal (fun l => l !! i)) in Hkept.
  rewrite !list_lookup_fmap, Hi in Hkept. now injection Hkept.
Qed.
End Swtch.

(** Two contexts at 4096 and 8192; the second is entered and yields back. *)
Definition demo_h0 : hart :=
  Hart (upd (upd (fun r => 1000 + r) a0 4096) a1 8192) (fun a => a) (fun _ => 0) 0.
Definition demo_away : hart :=
  match exec (fun _ => 0) (fun _ => 0) swtch demo_h0 with Next h => h | _ => demo_h0 end.
Definition demo_h2 : hart :=
  Hart (upd (upd (h_reg demo_away) a0 8192) a1 4096) (h_mem demo_away) (fun _ => 0) 0.
Definition demo_back : hart :=
  match exec (fun _ => 0) (fun _ => 0) swtch demo_h2 with Next h => h | _ => demo_h0 end.

Lemma swtch_resumes_witness :
  h_reg demo_away s3 = 8232 /\ h_reg demo_back s3 = 1019 /\
  forall r, r ∈ map fst context_t -> h_reg demo_back r = h_reg demo_h0 r.
Proof.
  split; [vm_compute; reflexivity|]. split; [vm_compute; reflexivity|].
  refine (proj1 (swtch_resumes (fun _ => 0) (fun _ => 0) demo_h0 demo_away demo_h2 demo_back
    4096 _ _ _ _ _ _ _ _ _ _)); unfold ctx_at, ctx_disjoint; vm_compute;
    first [reflexivity | intuition discriminate].
Defined.
