(* ===== verification/Sched.v ===== *)
(** * The cooperative scheduler (src/sched.c, src/sched.h, src/tasks.c, src/main.c)

    A task body is a coroutine: it runs up to its next [sched_yield] and is
    resumed there.  What [swtch] keeps for a suspended task (theorem
    [swtch_resumes] of Switch.v) is here the rest of its coroutine.  The
    scheduler's statics are the record [sched_g]; [sched_run] is translated
    loop for loop and proved to run the tasks' slices in round-robin order
    until every task is done. *)

From Stdlib Require Import ZArith Lia String.
From stdpp Require Import base list.
From S2P Require Import Prelude Uart.

(** ** Task bodies *)

Inductive coro (W : Type) : Type :=
| CReturn
| CDo (m : prog W unit) (k : coro W)
| CYield (k : coro W).

Arguments CReturn {W}.
Arguments CDo {W} m k.
Arguments CYield {W} k.

(** Run a coroutine until it yields ([Some] of its rest) or returns. *)
Fixpoint run_coro {W} (k : coro W) : prog W (option (coro W)) :=
  match k with
  | CReturn => ret None
  | CDo m k' => m ;; run_coro k'
  | CYield k' => ret (Some k')
  end.

(** ** Data of sched.h / sched.c *)

Definition MAX_TASKS : nat := 3.
Definition STACK_SIZE : Z := 4096.

Inductive task_state : Type := TASK_READY | TASK_DONE.

#[export] Instance task_state_eq_dec : EqDecision task_state.
Proof. solve_decision. Defined.

(** Where a task's saved [ra]/[sp] lead: into [task_trampoline] from its
    start, back into the body after a yield, or into the trampoline's final
    [for (;;) sched_yield()]. *)
Inductive saved (W : Type) : Type :=
| AtTrampoline
| InBody (k : coro W)
| InYieldLoop.

Arguments AtTrampoline {W}.
Arguments InBody {W} k.
Arguments InYieldLoop {W}.

Record task_t (W : Type) : Type := Task {
  t_sp : Z;
  t_saved : saved W;
  t_fn : coro W;
  t_name : string;
  t_state : task_state;
}.

Arguments Task {W}.
Arguments t_sp {W}.
Arguments t_saved {W}.
Arguments t_fn {W}.
Arguments t_name {W}.
Arguments t_state {W}.

Record sched_g (W : Type) : Type := SchedG {
  tasks : list (task_t W);
  num_tasks : nat;
  current : option nat;
}.

Arguments SchedG {W}.
Arguments tasks {W}.
Arguments num_tasks {W}.
Arguments current {W}.

(** [tasks\[i\].stack] begins 112 bytes into a 4232-byte [task_t]. *)
Definition TASK_T_SIZE : Z := 4232.
Definition task_stack (base : Z) (i : nat) : Z := base + TASK_T_SIZE * Z.of_nat i + 112.

Section Sched.
Context {U H : Type} `{!UartDev U}.
(** Task bodies see the devices, never the scheduler's statics. *)
Abbreviation TW := (world U H unit).
Abbreviation W := (world U H (sched_g TW)).

(** Address of the static array [tasks]. *)
Variable tasks_base : Z.

Definition lift_task {A} (m : prog TW A) : prog W A :=
  fun w => match m (World (w_uart w) (w_hw w) tt) with
           | Ret a w' => Ret a (World (w_uart w') (w_hw w') (w_glob w))
           | Park w' => Park (World (w_uart w') (w_hw w') (w_glob w))
           | Undef => Undef
           | NoFuel => NoFuel
           end.

Definition set_task (i : nat) (t : task_t TW) (g : sched_g TW) : sched_g TW :=
  SchedG (<[i:=t]> (tasks g)) (num_tasks g) (current g).

Definition task_create (fn : coro TW) (name : string) : prog W unit :=
  n <- gget num_tasks ;;
  if decide (MAX_TASKS <= n)%nat then ret tt
  else gset_ (fun g =>
    SchedG (<[n := Task (Z.land (task_stack tasks_base n + STACK_SIZE) (Z.lnot 15))
                     AtTrampoline fn name TASK_READY]> (tasks g))
           (S n) (current g)).

Definition get_task (i : nat) : prog W (task_t TW) :=
  g <- gget tasks ;; match g !! i with Some t => ret t | None => undef end.

(** [swtch] into task [i]: run it until it yields or its body returns, in
    which case [task_trampoline] marks it done and yields for ever. *)
Definition resume (i : nat) : prog W unit :=
  t <- get_task i ;;
  match t_saved t with
  | InYieldLoop => ret tt
  | AtTrampoline | InBody _ =>
      let k := match t_saved t with InBody k => k | _ => t_fn t end in
      r <- lift_task (run_coro k) ;;
      gset_ (set_task i
        match r with
        | Some k' => Task (t_sp t) (InBody k') (t_fn t) (t_name t) (t_state t)
        | None => Task (t_sp t) InYieldLoop (t_fn t) (t_name t) TASK_DONE
        end)
  end.

(** The body of [sched_run]'s inner loop; returns the new [remaining]. *)
Definition sched_visit (i : nat) (remaining : Z) : prog W Z :=
  t <- get_task i ;;
  if decide (t_state t = TASK_DONE) then ret remaining
  else
    gset_ (fun g => SchedG (tasks g) (num_tasks g) (Some i)) ;;
    resume i ;;
    t' <- get_task i ;;
    ret (if decide (t_state t' = TASK_DONE) then remaining - 1 else remaining).

Fixpoint sched_pass (l : list nat) (remaining : Z) : prog W Z :=
  match l with
  | [] => ret remaining
  | i :: l' => r <- sched_visit i remaining ;; sched_pass l' r
  end.

Fixpoint sched_loop (fuel : nat) (remaining : Z) : prog W unit :=
  if remaining >? 0 then
    match fuel with
    | O => nofuel
    | S n => ntasks <- gget num_tasks ;;
             r <- sched_pass (seq 0 ntasks) remaining ;;
             sched_loop n r
    end
  else ret tt.

Definition sched_run (fuel : nat) : prog W unit :=
  n <- gget num_tasks ;; sched_loop fuel (Z.of_nat n).
End Sched.

(** ** The three demo tasks (tasks.c) *)

Section Tasks.
Context {U H : Type} `{!UartDev U}.
Abbreviation TW := (world U H unit).
Abbreviation W := (world U H (sched_g TW)).
Variable tasks_base : Z.

Definition ITERATIONS : nat := 5.

Fixpoint heartbeat_loop (n : nat) (i : Z) : coro TW :=
  match n with
  | O => CReturn
  | S n' =>
      CDo (uputs "[heartbeat] tick ") (
      CDo (uart_put_dec i) (
      CDo (uputs " (task 1 of 3)\n") (
      CYield (heartbeat_loop n' (i + 1)))))
  end.
Definition task_heartbeat : coro TW := heartbeat_loop ITERATIONS 1.

Fixpoint fibonacci_loop (n : nat) (i a b : Z) : coro TW :=
  match n with
  | O => CReturn
  | S n' =>
      CDo (uputs "[fibonacci] fib(") (
      CDo (uart_put_dec i) (
      CDo (uputs ") = ") (
      CDo (uart_put_dec b) (
      CDo (uputs " (task 2 of 3)\n") (
      CYield (fibonacci_loop n' (i + 1) b (u64 (a + b))))))))
  end.
Definition task_fibonacci : coro TW := fibonacci_loop ITERATIONS 1 0 1.

(** The busy loop over a volatile local: [n] iterations, no other effect. *)
Fixpoint burn (n : nat) : prog TW unit :=
  match n with O => ret tt | S n' => ret tt ;; burn n' end.

Definition frames : list Z := bytes (c_lit "|/-\\").

Fixpoint spinner_loop (n : nat) (i : nat) : coro TW :=
  match n with
  | O => CReturn
  | S n' =>
      CDo (uputs "[spinner] working ") (
      CDo (uart_putc (nth (i mod 4) frames 0)) (
      CDo (uputs " (task 3 of 3)\n") (
      CDo (burn (Z.to_nat 200000)) (
      CYield (spinner_loop n' (S i))))))
  end.
Definition task_spinner : coro TW := spinner_loop ITERATIONS 0.

Definition tasks_register : prog W unit :=
  task_create tasks_base task_heartbeat "heartbeat" ;;
  task_create tasks_base task_fibonacci "fibonacci" ;;
  task_create tasks_base task_spinner "spinner".

(** main.c; [fuel] bounds the scheduler's rounds. *)
Definition main (fuel : nat) : prog W unit :=
  uart_init ;;
  uputs "\n========================================\n" ;;
  uputs "riscv-baremetal-demo: QEMU virt (rv64imac)\n" ;;
  uputs "UART driver + cooperative round-robin scheduler\n" ;;
  uputs "========================================\n\n" ;;
  tasks_register ;;
  uputs "scheduler: starting 3 tasks...\n\n" ;;
  sched_run fuel ;;
  uputs "\nscheduler: all tasks finished. halting.\n" ;;
  park.
End Tasks.

(** ** Specification: slices in round-robin order *)

(** What a coroutine does between consecutive yields. *)
Fixpoint slices {W} (k : coro W) : list (prog W unit) :=
  match k with
  | CReturn => [ret tt]
  | CDo m k' => match slices k' with s :: r => (m ;; s) :: r | [] => [] end
  | CYield k' => ret tt :: slices k'
  end.

(** Round robin over queues: the head of each, then again on the tails. *)
Fixpoint rr {A} (rounds : nat) (ls : list (list A)) : list A :=
  match rounds with
  | O => []
  | S n => concat (map (take 1) ls) ++ rr n (map tail ls)
  end.

Definition run_all {W} (l : list (prog W unit)) : prog W unit := for_each l (fun m => m).

Lemma run_coro_slices {W} (k : coro W) :
  exists s r k', slices k = s :: r /\
    (forall w, run_coro k w = bind s (fun _ => ret k') w) /\
    match k' with None => r = [] | Some k'' => slices k'' = r end.
Proof.
  induction k as [|m k IH|k IH].
  - exists (ret tt), [], None. auto.
  - destruct IH as (s & r & k' & Es & Er & Ek). cbn. rewrite Es.
    exists (m ;; s), r, k'. split_and!; auto.
    intros w. rewrite bind_assoc. unfold bind at 1 2. destruct (m w); auto.
  - exists (ret tt), (slices k), (Some k). auto.
Qed.

Section SchedProofs.
Context {U H : Type} `{!UartDev U}.
Abbreviation TW := (world U H unit).
Abbreviation W := (world U H (sched_g TW)).
Implicit Types (t : task_t TW) (g : sched_g TW).

(** The slices a task still has to run. *)
Definition rem_slices t : list (prog TW unit) :=
  match t_saved t with
  | AtTrampoline => slices (t_fn t)
  | InBody k => slices k
  | InYieldLoop => []
  end.

(** A task is marked done exactly when it is in the final yield loop. *)
Definition task_wf t : Prop := t_state t = TASK_DONE <-> rem_slices t = [].

Lemma slices_nonempty (k : coro TW) : slices k <> [].
Proof. destruct (run_coro_slices k) as (s & r & ? & -> & _). discriminate. Qed.

Lemma get_task_eq i (w : W) t :
  tasks (w_glob w) !! i = Some t -> get_task i w = Ret t w.
Proof. intros E. unfold get_task, gget, gets, bind. now rewrite E. Qed.

Lemma resume_eq i u h g t s r u' h' :
  tasks g !! i = Some t -> rem_slices t = s :: r ->
  s (World u h tt) = Ret tt (World u' h' tt) ->
  exists t', resume i (World u h g) = Ret tt (World u' h' (set_task i t' g)) /\
    rem_slices t' = r /\
    t_state t' = (match r with [] => TASK_DONE | _ => t_state t end).
Proof.
  intros Ht Hr Hs. unfold resume.
  rewrite (bind_ret_eq _ _ _ _ _ (get_task_eq i (World u h g) t Ht)).
  assert (exists k, rem_slices t = slices k /\
    k = match t_saved t with InBody k => k | _ => t_fn t end /\
    t_saved t <> InYieldLoop) as (k & Ek & Hk & Hn).
  { unfold rem_slices in *. destruct (t_saved t); [| |discriminate];
      eexists; (split_and!; eauto; discriminate). }
  destruct (run_coro_slices k) as (s' & r' & k' & Es & Er & Ek').
  rewrite Ek, Es in Hr. injection Hr as -> ->.
  assert (lift_task (run_coro k) (World u h g) = Ret k' (World u' h' g)) as El.
  { unfold lift_task. cbn. rewrite Er. unfold bind. now rewrite Hs. }
  exists match k' with
    | Some k' => Task (t_sp t) (InBody k') (t_fn t) (t_name t) (t_state t)
    | None => Task (t_sp t) InYieldLoop (t_fn t) (t_name t) TASK_DONE end.
  split.
  - rewrite Hk in El. destruct (t_saved t) eqn:Esv; [..|contradiction];
      rewrite (bind_ret_eq _ _ _ _ _ El); reflexivity.
  - destruct k' as [k''|]; cbn; [|subst r; auto].
    split; [exact Ek'|]. destruct r; [|reflexivity]. now apply slices_nonempty in Ek'.
Qed.

Lemma sched_visit_live i n u h g t s r u' h' :
  tasks g !! i = Some t -> task_wf t -> rem_slices t = s :: r ->
  s (World u h tt) = Ret tt (World u' h' tt) ->
  exists t', sched_visit i n (World u h g)
      = Ret (match r with [] => n - 1 | _ => n end)
            (World u' h' (SchedG (<[i:=t']> (tasks g)) (num_tasks g) (Some i))) /\
    rem_slices t' = r /\ task_wf t'.
Proof.
  intros Ht Hwf Hr Hs. unfold sched_visit.
  rewrite (bind_ret_eq _ _ _ _ _ (get_task_eq i (World u h g) t Ht)).
  assert (t_state t <> TASK_DONE) as Hnd.
  { intros E. apply Hwf in E. rewrite E in Hr. discriminate. }
  rewrite decide_False by exact Hnd.
  set (g1 := SchedG (tasks g) (num_tasks g) (Some i)).
  destruct (resume_eq i u h g1 t s r u' h' Ht Hr Hs) as (t' & E & Hr' & Hst).
  exists t'. split; [|split; [exact Hr'|]].
  - unfold gset_ at 1, modify, bind at 1. cbn [set_glob w_uart w_hw w_glob]. fold g1.
    rewrite (bind_ret_eq _ _ _ _ _ E). unfold set_task, g1. cbn.
    assert (i < length (tasks g))%nat as Hlt by (eapply lookup_lt_Some; eauto).
    rewrite (bind_ret_eq _ _ _ _ _ (get_task_eq i (World u' h' (SchedG
      (<[i:=t']> (tasks g)) (num_tasks g) (Some i))) t' (list_lookup_insert_eq _ _ _ Hlt))).
    destruct r; rewrite Hst; [now rewrite decide_True|now rewrite decide_False].
  - unfold task_wf. rewrite Hr'. destruct r; split; intros; auto; try congruence.
Qed.

Lemma sched_visit_done i n u h g t :
  tasks g !! i = Some t -> task_wf t -> rem_slices t = [] ->
  sched_visit i n (World u h g) = Ret n (World u h g).
Proof.
  intros Ht Hwf Hr. unfold sched_visit.
  rewrite (bind_ret_eq _ _ _ _ _ (get_task_eq i (World u h g) t Ht)).
  rewrite decide_True; [reflexivity|]. now apply Hwf.
Qed.

(** Number of tasks with slices left. *)
Fixpoint live (ts : list (task_t TW)) : Z :=
  match ts with
  | [] => 0
  | t :: ts' => (match rem_slices t with [] => 0 | _ => 1 end) + live ts'
  end.

(** One step of every queue: [ts'] is [ts] with each head slice run. *)
Definition stepped (ts ts' : list (task_t TW)) : Prop :=
  map rem_slices ts' = map (tail ∘ rem_slices) ts /\ Forall task_wf ts'.

Lemma run_all_app (l1 l2 : list (prog TW unit)) w w' :
  run_all (l1 ++ l2) w = Ret tt w' ->
  exists w1, run_all l1 w = Ret tt w1 /\ run_all l2 w1 = Ret tt w'.
Proof.
  unfold run_all. rewrite for_each_app. unfold bind.
  destruct (for_each l1 _ w) as [[] w1| | |]; [eauto|discriminate..].
Qed.

Lemma run_all_take1 (l : list (prog TW unit)) s r w w' :
  l = s :: r -> run_all (take 1 l) w = Ret tt w' -> s w = Ret tt w'.
Proof.
  intros ->. unfold run_all. cbn. unfold bind.
  now destruct (s w) as [[] ?| | |].
Qed.

Lemma sched_pass_eq ts pre post n cur u h N w' :
  Forall task_wf ts ->
  run_all (concat (map (take 1 ∘ rem_slices) ts)) (World u h tt) = Ret tt w' ->
  exists ts' cur',
    sched_pass (seq (length pre) (length ts)) n
      (World u h (SchedG (pre ++ ts ++ post) N cur))
    = Ret (n - live ts + live ts')
        (World (w_uart w') (w_hw w') (SchedG (pre ++ ts' ++ post) N cur')) /\
    stepped ts ts'.
Proof.
  revert pre n cur u h; induction ts as [|t ts IH]; intros pre n cur u h Hwf Hrun.
  - cbn in Hrun. injection Hrun as <-. exists [], cur. cbn.
    split; [f_equal; lia|]. split; [reflexivity|constructor].
  - apply Forall_cons_1 in Hwf as [Hwt Hwf]. cbn [map concat] in Hrun.
    apply run_all_app in Hrun as ([u1 h1 []] & Hh & Hrest).
    assert ((pre ++ (t :: ts) ++ post) !! length pre = Some t) as Hl
      by (rewrite lookup_app_r, Nat.sub_diag by lia; reflexivity).
    cbn [length seq sched_pass].
    assert (exists t' n' cur1,
      sched_visit (length pre) n (World u h (SchedG (pre ++ (t :: ts) ++ post) N cur))
      = Ret n' (World u1 h1 (SchedG ((pre ++ [t']) ++ ts ++ post) N cur1)) /\
      n' = n - live [t] + live [t'] /\
      rem_slices t' = tail (rem_slices t) /\ task_wf t')
      as (t' & n' & cur1 & Ev & En & Hr' & Hw').
    { destruct (rem_slices t) as [|s r] eqn:Hr.
      - cbn in Hh. rewrite Hr in Hh. cbn in Hh. injection Hh as -> ->.
        exists t, n, cur. rewrite <- app_assoc.
        rewrite (sched_visit_done _ _ _ _ _ t) by auto.
        split_and!; auto; lia.
      - destruct (sched_visit_live (length pre) n u h
          (SchedG (pre ++ (t :: ts) ++ post) N cur) t s r u1 h1)
          as (t' & E & Hr' & Hw'); auto.
        { eapply run_all_take1; [exact Hr|exact Hh]. }
        exists t'. do 2 eexists. rewrite E. cbn [tasks num_tasks].
        rewrite insert_app_r_alt, Nat.sub_diag by lia. cbn [app insert list_insert].
        rewrite <- app_assoc. split_and!; [reflexivity| |exact Hr'|exact Hw'].
        cbn. rewrite Hr, Hr'. destruct r; lia. }
    rewrite (bind_ret_eq _ _ _ _ _ Ev).
    destruct (IH (pre ++ [t']) n' cur1 u1 h1 Hwf Hrest) as (ts' & cur' & E & Hs & Hfw).
    rewrite length_app, Nat.add_1_r in E. exists (t' :: ts'), cur'. split.
    + rewrite E, <- !app_assoc, En. cbn [app]. f_equal. cbn. lia.
    + split; [|now constructor]. cbn. rewrite Hr', Hs. reflexivity.
Qed.

Lemma live_pos ts : 0 <= live ts.
Proof. induction ts as [|t ts IH]; cbn; [lia|]. destruct (rem_slices t); lia. Qed.

Lemma live_zero ts : live ts = 0 <-> Forall (fun t => rem_slices t = []) ts.
Proof.
  induction ts as [|t ts IH]; cbn.
  - split; [constructor|reflexivity].
  - rewrite Forall_cons, <- IH. pose proof (live_pos ts).
    destruct (rem_slices t); split; intros; try lia; [split; auto; lia|].
    destruct H1; discriminate.
Qed.

Lemma rr_nil n (ls : list (list (prog TW unit))) :
  Forall (fun l => l = []) ls -> rr n ls = [].
Proof.
  revert ls; induction n as [|n IH]; intros ls Hls; [reflexivity|]. cbn.
  rewrite IH by (apply Forall_map; eapply Forall_impl; [exact Hls|now intros ? ->]).
  induction Hls as [|l ls -> _ IHl]; [reflexivity|exact IHl].
Qed.

Lemma sched_loop_eq fuel ts post cur u h w' :
  Forall task_wf ts ->
  Forall (fun t => length (rem_slices t) <= fuel)%nat ts ->
  run_all (rr fuel (map rem_slices ts)) (World u h tt) = Ret tt w' ->
  exists ts' cur',
    sched_loop fuel (live ts) (World u h (SchedG (ts ++ post) (length ts) cur))
    = Ret tt (World (w_uart w') (w_hw w') (SchedG (ts' ++ post) (length ts) cur')) /\
    length ts' = length ts /\
    Forall (fun t => t_state t = TASK_DONE) ts'.
Proof.
  revert ts cur u h; induction fuel as [|fuel IH]; intros ts cur u h Hwf Hlen Hrun.
  - assert (Forall (fun t => rem_slices t = []) ts) as Hnil.
    { eapply Forall_impl; [exact Hlen|]. intros t Ht. cbn in Ht.
      now apply length_zero_iff_nil, Nat.le_0_r. }
    injection Hrun as <-. exists ts, cur.
    cbn [sched_loop]. rewrite (proj2 (live_zero ts) Hnil). cbn. split_and!; auto.
    eapply Forall_impl; [apply Forall_and; exact (conj Hwf Hnil)|].
    intros t [Hw Hr]. now apply Hw.
  - cbn [sched_loop]. destruct (Z.gtb_spec (live ts) 0) as [Hpos|Hz].
    + cbn [rr] in Hrun. rewrite map_map in Hrun.
      apply run_all_app in Hrun as ([u1 h1 []] & Hh & Hrest).
      destruct (sched_pass_eq ts [] post (live ts) cur u h (length ts) _ Hwf Hh)
        as (ts' & cur1 & E & Hs & Hw').
      unfold gget at 1, gets, bind at 1. cbn [w_glob num_tasks].
      cbn [app length] in E. rewrite (bind_ret_eq _ _ _ _ _ E). cbn [w_uart w_hw].
      replace (live ts - live ts + live ts') with (live ts') by lia.
      assert (length ts' = length ts) as HL.
      { rewrite <- (length_map rem_slices ts'), Hs. apply length_map. }
      rewrite map_map in Hrest. unfold compose in Hs. rewrite <- Hs in Hrest.
      destruct (IH ts' cur1 u1 h1 Hw') as (ts'' & cur' & E' & HL' & Hd); [|exact Hrest|].
      { apply (Forall_map rem_slices (fun l => length l <= fuel)%nat).
        rewrite Hs. apply Forall_map. eapply Forall_impl; [exact Hlen|].
        intros t Ht. cbn in *. destruct (rem_slices t); cbn in *; lia. }
      rewrite HL in E'. exists ts'', cur'. rewrite E'. split_and!; auto. congruence.
    + pose proof (live_pos ts). assert (live ts = 0) as Hz0 by lia.
      apply live_zero in Hz0 as Hnil.
      rewrite rr_nil in Hrun.
      2: { apply Forall_map. exact Hnil. }
      injection Hrun as <-. exists ts, cur. split_and!; auto.
      eapply Forall_impl; [apply Forall_and; exact (conj Hwf Hnil)|].
      intros t [Hw Hr]. now apply Hw.
Qed.
End SchedProofs.

(** ** From boot: registration, then the run *)

Section Boot.
Context {U H : Type} `{!UartDev U}.
Abbreviation TW := (world U H unit).
Abbreviation W := (world U H (sched_g TW)).
Variable tasks_base : Z.

(** The statics after BSS clearing. *)
Definition boot_sched : sched_g TW :=
  SchedG (replicate MAX_TASKS (Task 0 AtTrampoline CReturn "" TASK_READY)) 0 None.

Definition create_all (l : list (coro TW * string)) : prog W unit :=
  for_each l (fun p => task_create tasks_base (fst p) (snd p)).

Definition fresh_task (i : nat) (p : coro TW * string) : task_t TW :=
  Task (Z.land (task_stack tasks_base i + STACK_SIZE) (Z.lnot 15))
       AtTrampoline (fst p) (snd p) TASK_READY.

Lemma create_all_full l u h g :
  (MAX_TASKS <= num_tasks g)%nat -> create_all l (World u h g) = Ret tt (World u h g).
Proof.
  intros Hn. induction l as [|p l IH]; [reflexivity|]. cbn.
  unfold bind, task_create at 1, gget, gets, bind. cbn.
  rewrite decide_True by exact Hn. exact IH.
Qed.

Lemma create_all_eq l u h :
  exists post, create_all l (World u h boot_sched)
  = Ret tt (World u h (SchedG (imap fresh_task (take MAX_TASKS l) ++ post)
                              (length (take MAX_TASKS l)) None)).
Proof.
  destruct l as [|p1 [|p2 [|p3 l]]]; try (eexists; reflexivity).
  exists []. change (p1 :: p2 :: p3 :: l) with ([p1; p2; p3] ++ l).
  unfold create_all. rewrite for_each_app. fold (create_all l).
  assert (create_all [p1; p2; p3] (World u h boot_sched)
    = Ret tt (World u h (SchedG (imap fresh_task [p1; p2; p3]) 3 None))) as E by reflexivity.
  rewrite (bind_ret_eq _ _ _ _ _ E).
  rewrite create_all_full by (unfold MAX_TASKS; cbn; lia). cbn. now rewrite take_0.
Qed.

Lemma fresh_rem l :
  map rem_slices (imap fresh_task l) = map (fun p => slices (fst p)) l.
Proof. now apply map_imap. Qed.

Lemma fresh_wf l : Forall task_wf (imap fresh_task l).
Proof.
  apply Forall_forall. intros t Ht. apply elem_of_lookup_imap in Ht as (i & p & -> & _).
  unfold task_wf, rem_slices. cbn. split; [discriminate|].
  intros E. now apply slices_nonempty in E.
Qed.

Lemma live_all (ts : list (task_t TW)) :
  Forall (fun t => rem_slices t <> []) ts -> live ts = Z.of_nat (length ts).
Proof.
  induction 1 as [|t ts Ht _ IH]; cbn [live length]; [reflexivity|].
  rewrite IH. destruct (rem_slices t); [congruence|lia].
Qed.

Lemma live_fresh l : live (imap fresh_task l) = Z.of_nat (length l).
Proof.
  rewrite live_all; [now rewrite length_imap|].
  apply Forall_forall. intros t Ht. apply elem_of_lookup_imap in Ht as (i & p & -> & _).
  apply slices_nonempty.
Qed.

Lemma sched_run_fresh l post fuel u h w' :
  Forall (fun p => length (slices (fst p)) <= fuel)%nat l ->
  run_all (rr fuel (map (fun p => slices (fst p)) l)) (World u h tt) = Ret tt w' ->
  exists ts cur,
    sched_run fuel (World u h (SchedG (imap fresh_task l ++ post) (length l) None))
    = Ret tt (World (w_uart w') (w_hw w') (SchedG (ts ++ post) (length l) cur)) /\
    length ts = length l /\ Forall (fun t => t_state t = TASK_DONE) ts.
Proof.
  intros Hfuel Hrun. rewrite <- fresh_rem in Hrun.
  destruct (sched_loop_eq fuel (imap fresh_task l) post None u h w')
    as (ts & cur & E' & HL & Hd); [apply fresh_wf| |exact Hrun|].
  { apply (Forall_map rem_slices (fun x => length x <= fuel)%nat).
    rewrite fresh_rem. now apply Forall_map. }
  rewrite length_imap in HL, E'. rewrite live_fresh in E'.
  exists ts, cur. unfold sched_run, gget, gets, bind. cbn [w_glob num_tasks].
  rewrite E'. auto.
Qed.


Lemma fresh_sp_eq i p :
  t_sp (fresh_task i p)
  = task_stack tasks_base i + STACK_SIZE - (task_stack tasks_base i + STACK_SIZE) mod 16.
Proof.
  unfold fresh_task, t_sp. set (x := task_stack tasks_base i + STACK_SIZE).
  rewrite <- Z.ldiff_land. change 15 with (Z.ones 4).
  rewrite Z.ldiff_ones_r, Z.shiftr_div_pow2, Z.shiftl_mul_pow2 by lia.
  change (2 ^ 4) with 16. pose proof (Z.div_mod x 16). lia.
Qed.

(** every task registered after boot starts with a 16-byte aligned
    stack pointer in the top 16 bytes of its own stack, and its stack ends
    below the stacks of the tasks registered after it. *)
Theorem task_stacks_private l u h w' i j t
  (Hc : create_all l (World u h boot_sched) = Ret tt w')
  (Hi : tasks (w_glob w') !! i = Some t) (Hn : (i < num_tasks (w_glob w'))%nat)
  (Hij : (i < j)%nat) :
  let top k := task_stack tasks_base k + STACK_SIZE in
  t_sp t mod 16 = 0 /\ top i - 16 < t_sp t <= top i /\ top i <= task_stack tasks_base j.
Proof.
  cbn zeta. destruct (create_all_eq l u h) as [post E]. rewrite Hc in E.
  injection E as ->. cbn in Hi, Hn.
  rewrite lookup_app_l in Hi by (now rewrite length_imap).
  rewrite list_lookup_imap in Hi. apply fmap_Some in Hi as (p & _ & ->).
  rewrite fresh_sp_eq. set (x := task_stack tasks_base i + STACK_SIZE).
  pose proof (Z.mod_pos_bound x 16 ltac:(lia)). split_and!; try lia.
  - rewrite Zminus_mod_idemp_r, Z.sub_diag. reflexivity.
  - unfold x, task_stack, STACK_SIZE, TASK_T_SIZE. nia.
Qed.
End Boot.

(** ** The demo's console log *)

Definition demo_log : list Z := concat (map lit [
  "\n========================================\n";
  "riscv-baremetal-demo: QEMU virt (rv64imac)\n";
  "UART driver + cooperative round-robin scheduler\n";
  "========================================\n\n";
  "scheduler: starting 3 tasks...\n\n";
  "[heartbeat] tick 1 (task 1 of 3)\n";
  "[fibonacci] fib(1) = 1 (task 2 of 3)\n";
  "[spinner] working | (task 3 of 3)\n";
  "[heartbeat] tick 2 (task 1 of 3)\n";
  "[fibonacci] fib(2) = 1 (task 2 of 3)\n";
  "[spinner] working / (task 3 of 3)\n";
  "[heartbeat] tick 3 (task 1 of 3)\n";
  "[fibonacci] fib(3) = 2 (task 2 of 3)\n";
  "[spinner] working - (task 3 of 3)\n";
  "[heartbeat] tick 4 (task 1 of 3)\n";
  "[fibonacci] fib(4) = 3 (task 2 of 3)\n";
  "[spinner] working \\ (task 3 of 3)\n";
  "[heartbeat] tick 5 (task 1 of 3)\n";
  "[fibonacci] fib(5) = 5 (task 2 of 3)\n";
  "[spinner] working | (task 3 of 3)\n";
  "\nscheduler: all tasks finished. halting.\n"]%string).

Section Demo.
Context {U H : Type} `{!UartDev U, !UartSpec U}.
Abbreviation TW := (world U H unit).
Abbreviation W := (world U H (sched_g TW)).
Variable tasks_base : Z.

Definition demo_tasks : list (coro TW * string) :=
  [(task_heartbeat, "heartbeat"%string); (task_fibonacci, "fibonacci"%string);
   (task_spinner, "spinner"%string)].

Lemma prints_burn n : prints (burn (U:=U) (H:=H) n) [].
Proof. induction n as [|n IH]; intros []; [reflexivity|apply IH]. Qed.
#[local] Hint Resolve prints_burn : prints.

(** The tasks' slices in round-robin order, as one printing program. *)
Lemma demo_slices_print :
  exists l, prints (run_all (rr 6 (map (fun p => slices (fst p)) demo_tasks))) l /\
    lit "\n========================================\n" ++
    lit "riscv-baremetal-demo: QEMU virt (rv64imac)\n" ++
    lit "UART driver + cooperative round-robin scheduler\n" ++
    lit "========================================\n\n" ++
    lit "scheduler: starting 3 tasks...\n\n" ++ l ++
    lit "\nscheduler: all tasks finished. halting.\n" = demo_log.
Proof.
  eexists. split.
  - unfold run_all. cbn -[bind ret burn uputs uart_put_dec uart_putc frames Z.to_nat u64].
    solve_prints.
  - vm_compute; reflexivity.
Qed.

End Demo.


(** Four tasks on a log: the fourth is not registered, the other three
    alternate until each is done. *)
Definition demo_say (c : Z) (n : nat) : coro (world LogUart unit unit) :=
  Nat.iter n (fun k => CDo (uart_putc c) (CYield k)) CReturn.

Definition demo_four : list (coro (world LogUart unit unit) * string) :=
  [(demo_say 97 2, "a"%string); (demo_say 98 1, "b"%string);
   (demo_say 99 3, "c"%string); (demo_say 100 9, "d"%string)].


Lemma task_stacks_private_witness :
  exists w' t, create_all 0x80001000 demo_four (World (LogU [] []) tt boot_sched) = Ret tt w' /\
    tasks (w_glob w') !! 1%nat = Some t /\ t_sp t = 0x800030f0 /\ t_sp t mod 16 = 0.
Proof.
  eexists _, _. split; [reflexivity|]. split; [reflexivity|]. split; [reflexivity|].
  refine (proj1 (task_stacks_private 0x80001000 demo_four (LogU [] []) tt _ 1 2 _ eq_refl _ _ _)).
  - reflexivity.
  - cbn. lia.
  - lia.
Defined.
