(* ===== verification/Trap.v ===== *)
(** * Trap entry and exit of the preemptive schedulers
    (src/preempt/trap.S, src/smode/strap.S, src/smode/sboot.S)

    The two files share one code sequence; strap.S is built for M-mode and
    for S-mode with the CSR names as macros, so the code is parameterised by
    [CSR_SCRATCH] and [CSR_EPC].  The theorems describe what a trap saves,
    what an exit restores, and what a context that was preempted and later
    resumed finds in its registers. *)

From Stdlib Require Import ZArith Lia.
From stdpp Require Import base list.
From S2P Require Import Prelude Asm.
Import Reg.

Definition TF_MEPC : Z := 256.
Definition TF_MTIME : Z := 264.
Definition TF_CYCLE : Z := 272.
Definition TF_SIZE : Z := 280.

Section Code.
Variables CSR_SCRATCH CSR_EPC : csr.
(** Addresses of the symbols the code refers to. *)
Variables trap_stack_top g_exit_cycles g_exit_mtime : Z.

(** From the vector up to the call of the C handler. *)
Definition entry_code : list instr :=
  [ Csrrw t0 CSR_SCRATCH t0;
    Rdtime t1;
    Sd t1 TF_MTIME t0;
    Rdcycle t1;
    Sd t1 TF_CYCLE t0;
    Sd ra 8 t0; Sd sp 16 t0; Sd gp 24 t0; Sd tp 32 t0;
    Sd t1 48 t0; Sd t2 56 t0; Sd s0 64 t0; Sd s1 72 t0;
    Sd a0 80 t0; Sd a1 88 t0; Sd a2 96 t0; Sd a3 104 t0;
    Sd a4 112 t0; Sd a5 120 t0; Sd a6 128 t0; Sd a7 136 t0;
    Sd s2 144 t0; Sd s3 152 t0; Sd s4 160 t0; Sd s5 168 t0;
    Sd s6 176 t0; Sd s7 184 t0; Sd s8 192 t0; Sd s9 200 t0;
    Sd s10 208 t0; Sd s11 216 t0; Sd t3 224 t0; Sd t4 232 t0;
    Sd t5 240 t0; Sd t6 248 t0;
    Csrr t1 CSR_SCRATCH;
    Sd t1 40 t0;
    Csrr t1 CSR_EPC;
    Sd t1 TF_MEPC t0;
    Li sp trap_stack_top;
    Mv a0 t0 ].

(** From the handler's return (next trapframe in [a0]) up to [mret]/[sret]. *)
Definition exit_code : list instr :=
  [ Rdcycle t1;
    Li t2 g_exit_cycles;
    Sd t1 0 t2;
    Rdtime t1;
    Li t2 g_exit_mtime;
    Sd t1 0 t2;
    Mv t1 a0;
    Ld t2 TF_MEPC t1;
    Csrw CSR_EPC t2;
    Ld ra 8 t1; Ld sp 16 t1; Ld gp 24 t1; Ld tp 32 t1;
    Ld t2 56 t1; Ld s0 64 t1; Ld s1 72 t1;
    Ld a0 80 t1; Ld a1 88 t1; Ld a2 96 t1; Ld a3 104 t1;
    Ld a4 112 t1; Ld a5 120 t1; Ld a6 128 t1; Ld a7 136 t1;
    Ld s2 144 t1; Ld s3 152 t1; Ld s4 160 t1; Ld s5 168 t1;
    Ld s6 176 t1; Ld s7 184 t1; Ld s8 192 t1; Ld s9 200 t1;
    Ld s10 208 t1; Ld s11 216 t1; Ld t3 224 t1; Ld t4 232 t1;
    Ld t5 240 t1; Ld t6 248 t1;
    Ld t0 40 t1;
    Csrw CSR_SCRATCH t1;
    Ld t1 48 t1 ].
End Code.

(** The three builds. *)
Definition trap_entry := entry_code mscratch mepc.
Definition trap_exit := exit_code mscratch mepc.
Definition strap_entry (smode : bool) :=
  if smode then entry_code sscratch sepc else entry_code mscratch mepc.
Definition strap_exit (smode : bool) :=
  if smode then exit_code sscratch sepc else exit_code mscratch mepc.

(** A trapframe at [tf]: aligned, inside the address space. *)
Definition tf_at (tf : Z) : Prop := 0 <= tf /\ tf mod 8 = 0 /\ tf + TF_SIZE <= 2 ^ 64.
Definition outside (tf a : Z) : Prop := ~ (tf <= a < tf + TF_SIZE).

(** Registers stored and loaded by the straight runs, with their slots. *)
Definition saved_regs : list (Z * Z) :=
  [(ra, 8); (sp, 16); (gp, 24); (tp, 32); (t1, 48); (t2, 56); (s0, 64); (s1, 72);
   (a0, 80); (a1, 88); (a2, 96); (a3, 104); (a4, 112); (a5, 120); (a6, 128); (a7, 136);
   (s2, 144); (s3, 152); (s4, 160); (s5, 168); (s6, 176); (s7, 184); (s8, 192); (s9, 200);
   (s10, 208); (s11, 216); (t3, 224); (t4, 232); (t5, 240); (t6, 248)].
Definition loaded_regs : list (Z * Z) :=
  [(ra, 8); (sp, 16); (gp, 24); (tp, 32); (t2, 56); (s0, 64); (s1, 72);
   (a0, 80); (a1, 88); (a2, 96); (a3, 104); (a4, 112); (a5, 120); (a6, 128); (a7, 136);
   (s2, 144); (s3, 152); (s4, 160); (s5, 168); (s6, 176); (s7, 184); (s8, 192); (s9, 200);
   (s10, 208); (s11, 216); (t3, 224); (t4, 232); (t5, 240); (t6, 248); (t0, 40)].

(** Every register but [t0] is stored, every register but [t1] is loaded,
    register [r] in slot [8 * r]. *)
Lemma saved_slot r : 1 <= r <= 31 -> r <> 5 -> (r, 8 * r) ∈ saved_regs.
Proof.
  intros Hr H5.
  assert (Forall (fun r => r = 5 \/ (r, 8 * r) ∈ saved_regs) (seqZ 1 31)) as HF
    by (apply (bool_decide_unpack _); vm_compute; exact I).
  rewrite Forall_forall in HF. destruct (HF r); [apply elem_of_seqZ; lia|lia|assumption].
Qed.

Lemma loaded_slot r : 1 <= r <= 31 -> r <> 6 -> (r, 8 * r) ∈ loaded_regs.
Proof.
  intros Hr H5.
  assert (Forall (fun r => r = 6 \/ (r, 8 * r) ∈ loaded_regs) (seqZ 1 31)) as HF
    by (apply (bool_decide_unpack _); vm_compute; exact I).
  rewrite Forall_forall in HF. destruct (HF r); [apply elem_of_seqZ; lia|lia|assumption].
Qed.

Lemma saved_range o : o ∈ map snd saved_regs -> 0 < o < 256 /\ o <> 40.
Proof.
  assert (Forall (fun o => 0 < o < 256 /\ o <> 40) (map snd saved_regs)) as HF
    by (apply (bool_decide_unpack _); vm_compute; exact I).
  rewrite Forall_forall in HF. apply HF.
Qed.

Lemma saved_frame tf : tf_at tf -> frame_ok tf (map snd saved_regs).
Proof.
  intros (H0 & H8 & H1). unfold TF_SIZE in H1. split_and!; auto.
  cbn. repeat constructor; lia.
Qed.

Lemma loaded_frame tf : tf_at tf -> frame_ok tf (map snd loaded_regs).
Proof.
  intros (H0 & H8 & H1). unfold TF_SIZE in H1. split_and!; auto.
  cbn. repeat constructor; lia.
Qed.

Lemma tf_slot tf o :
  tf_at tf -> 0 <= o < TF_SIZE -> o mod 8 = 0 ->
  u64 (tf + o) = tf + o /\ ((tf + o) mod 8 =? 0) = true.
Proof. intros (H0 & H8 & H1) Ho Ho8. apply frame_addr; auto. unfold TF_SIZE in *. lia. Qed.

Section Entry.
Variables time cycle : nat -> Z.
Variables CSR_SCRATCH CSR_EPC : csr.
Hypothesis csr_distinct : CSR_SCRATCH <> CSR_EPC.
Variables trap_stack_top g_exit_cycles g_exit_mtime : Z.

(** What the saved frame [tf] holds after a trap taken in state [h]. *)
Record frame_of (h : hart) (tf : Z) (m : Z -> Z) : Prop := {
  fo_regs r : 1 <= r <= 31 -> r <> t1 -> m (tf + 8 * r) = h_reg h r;
  fo_t1 : m (tf + 48) = cycle (3 + h_n h);
  fo_epc : m (tf + TF_MEPC) = h_csr h CSR_EPC;
  fo_time : m (tf + TF_MTIME) = time (1 + h_n h);
  fo_cycle : m (tf + TF_CYCLE) = cycle (3 + h_n h);
}.

Lemma entry_spec h tf :
  h_csr h CSR_SCRATCH = tf -> tf_at tf ->
  exists h', exec time cycle (entry_code CSR_SCRATCH CSR_EPC trap_stack_top) h = Next h' /\
    frame_of h tf (h_mem h') /\
    (forall a, outside tf a -> h_mem h' a = h_mem h a) /\
    h_reg h' a0 = tf.
Proof.
  intros Htf Hat.
  destruct (tf_slot tf TF_MTIME Hat) as [A1 A2]; [unfold TF_SIZE, TF_MTIME; lia|reflexivity|].
  destruct (tf_slot tf TF_CYCLE Hat) as [B1 B2]; [unfold TF_SIZE, TF_CYCLE; lia|reflexivity|].
  destruct (tf_slot tf TF_MEPC Hat) as [C1 C2]; [unfold TF_SIZE, TF_MEPC; lia|reflexivity|].
  destruct (tf_slot tf 40 Hat) as [D1 D2]; [unfold TF_SIZE; lia|reflexivity|].
  change (entry_code CSR_SCRATCH CSR_EPC trap_stack_top) with
    ([Csrrw t0 CSR_SCRATCH t0; Rdtime t1; Sd t1 TF_MTIME t0; Rdcycle t1; Sd t1 TF_CYCLE t0]
     ++ sds t0 saved_regs
     ++ [Csrr t1 CSR_SCRATCH; Sd t1 40 t0; Csrr t1 CSR_EPC; Sd t1 TF_MEPC t0;
         Li sp trap_stack_top; Mv a0 t0]).
  rewrite exec_app. xs. rewrite Htf, A1, A2. xs. rewrite B1, B2.
  set (h1 := tick _).
  assert (getr h1 t0 = tf) as T0 by (unfold h1; autorewrite with asm; reflexivity).
  rewrite exec_app.
  destruct (exec_sds time cycle t0 saved_regs h1) as (h2 & E2 & HR & HC & _ & HM & HF).
  { rewrite T0. now apply saved_frame. }
  { apply (bool_decide_unpack _); vm_compute; exact I. }
  rewrite E2. rewrite T0 in HM, HF.
  assert (getr h2 t0 = tf) as T0' by (unfold getr; rewrite HR; exact T0).
  xs. rewrite T0', D1, D2. xs. rewrite T0', C1, C2. xs.
  eexists. split; [reflexivity|]. rewrite <- (getr_reg _ a0) by discriminate.
  autorewrite with asm.
  assert (forall r, r <> t0 -> r <> t1 -> getr h1 r = getr h r) as HG.
  { intros r N0 N1. unfold h1.
    repeat (autorewrite with asm; rewrite ?getr_setr_ne by assumption). reflexivity. }
  assert (h_csr h2 CSR_EPC = h_csr h CSR_EPC) as -> by
    (rewrite HC; unfold h1; autorewrite with asm; apply upd_ne; congruence).
  assert (h_csr h2 CSR_SCRATCH = getr h t0) as -> by
    (rewrite HC; unfold h1; autorewrite with asm; reflexivity).
  assert (forall a, a ∉ map (fun o => tf + o) (map snd saved_regs) ->
    h_mem h2 a = upd (upd (h_mem h) (tf + TF_MTIME) (time (1 + h_n h)))
                     (tf + TF_CYCLE) (cycle (3 + h_n h)) a) as HF'.
  { intros a Ha. rewrite HF by exact Ha. unfold h1. autorewrite with asm. reflexivity. }
  assert (forall o, ~ (0 < o < 256) -> tf + o ∉ map (fun o => tf + o) (map snd saved_regs))
    as Hnin.
  { intros o Ho Hin. apply list_elem_of_fmap in Hin as (o' & E & Hin).
    apply saved_range in Hin. lia. }
  unfold TF_MTIME, TF_CYCLE, TF_MEPC in *. split; [constructor|split].
  - intros r Hr H6. unfold t1 in H6. destruct (decide (r = 5)) as [->|H5].
    + rewrite upd_ne, upd_eq by lia. now apply getr_reg.
    + rewrite !upd_ne by lia. rewrite (HM r) by now apply saved_slot.
      rewrite HG, getr_reg by (auto; lia). reflexivity.
  - rewrite !upd_ne by lia. rewrite (HM t1) by now apply (saved_slot 6).
    unfold h1. autorewrite with asm. reflexivity.
  - apply upd_eq.
  - rewrite !upd_ne, HF' by (unfold TF_MTIME, TF_CYCLE, TF_MEPC; lia || (apply Hnin; lia)). rewrite upd_ne, upd_eq by (unfold TF_MTIME; lia).
    reflexivity.
  - rewrite !upd_ne, HF' by (unfold TF_MTIME, TF_CYCLE, TF_MEPC; lia || (apply Hnin; lia)). apply upd_eq.
  - intros a Ha. unfold outside, TF_SIZE in Ha. rewrite !upd_ne, HF' by
      (lia || (replace a with (tf + (a - tf)) by lia; apply Hnin; lia)).
    now rewrite !upd_ne by lia.
  - exact T0'.
Qed.
(** The exit stamps' globals: doublewords outside the frame being restored. *)
Definition stamps_ok (tf : Z) : Prop :=
  is_u64 g_exit_cycles /\ g_exit_cycles mod 8 = 0 /\ outside tf g_exit_cycles /\
  is_u64 g_exit_mtime /\ g_exit_mtime mod 8 = 0 /\ outside tf g_exit_mtime.

Lemma exit_spec h tf :
  getr h a0 = tf -> tf_at tf -> stamps_ok tf ->
  exists h',
    exec time cycle (exit_code CSR_SCRATCH CSR_EPC g_exit_cycles g_exit_mtime) h = Next h' /\
    (forall r, 1 <= r <= 31 -> h_reg h' r = h_mem h (tf + 8 * r)) /\
    h_csr h' CSR_EPC = h_mem h (tf + TF_MEPC) /\
    h_csr h' CSR_SCRATCH = tf /\
    h_mem h' = upd (upd (h_mem h) g_exit_cycles (cycle (h_n h)))
                   g_exit_mtime (time (3 + h_n h)).
Proof.
  intros Htf Hat (Cu & C8 & Co & Mu & M8 & Mo).
  destruct (tf_slot tf TF_MEPC Hat) as [A1 A2]; [unfold TF_SIZE, TF_MEPC; lia|reflexivity|].
  destruct (tf_slot tf 48 Hat) as [B1 B2]; [unfold TF_SIZE; lia|reflexivity|].
  change (exit_code CSR_SCRATCH CSR_EPC g_exit_cycles g_exit_mtime) with
    ([Rdcycle t1; Li t2 g_exit_cycles; Sd t1 0 t2; Rdtime t1; Li t2 g_exit_mtime; Sd t1 0 t2;
      Mv t1 a0; Ld t2 TF_MEPC t1; Csrw CSR_EPC t2]
     ++ lds t1 loaded_regs ++ [Csrw CSR_SCRATCH t1; Ld t1 48 t1]).
  rewrite exec_app. xs. rewrite (u64_small g_exit_cycles), Z.add_0_r by exact Cu.
  rewrite (u64_small g_exit_cycles), C8 by exact Cu. cbn [Z.eqb]. xs.
  rewrite (u64_small g_exit_mtime), Z.add_0_r by exact Mu.
  rewrite (u64_small g_exit_mtime), M8 by exact Mu. cbn [Z.eqb]. xs.
  rewrite Htf, A1, A2. xs. rewrite exec_app.
  set (h1 := tick _).
  set (m := upd (upd (h_mem h) g_exit_cycles (cycle (h_n h))) g_exit_mtime (time (3 + h_n h))).
  assert (h_mem h1 = m) as M1 by (unfold h1; autorewrite with asm; reflexivity).
  assert (forall a, tf <= a < tf + TF_SIZE -> m a = h_mem h a) as Hm.
  { intros a Ha. unfold outside in *. unfold m. rewrite !upd_ne; [reflexivity|..]; intros ->; tauto. }
  assert (getr h1 t1 = tf) as T1 by (unfold h1; autorewrite with asm; reflexivity).
  destruct (exec_lds time cycle t1 loaded_regs h1) as (h2 & E2 & HM & HC & _ & HR & HF).
  { rewrite T1. now apply loaded_frame. }
  1,2,3: apply (bool_decide_unpack _); vm_compute; exact I.
  rewrite E2. rewrite T1 in HR.
  assert (getr h2 t1 = tf) as T1'.
  { unfold getr. cbn [Z.eqb t1]. rewrite HF; [exact T1|].
    apply (bool_decide_unpack _); vm_compute; exact I. }
  xs. rewrite T1', B1, B2. eexists. split; [reflexivity|]. autorewrite with asm.
  unfold TF_SIZE in Hm. split_and!.
  - intros r Hr. rewrite <- getr_reg by lia. autorewrite with asm.
    destruct (decide (r = t1)) as [->|N1].
    + rewrite getr_setr_eq by discriminate. rewrite HM, M1. apply Hm. lia.
    + rewrite getr_setr_ne by exact N1. autorewrite with asm.
      rewrite getr_reg by lia. rewrite (HR r (8 * r)) by now apply loaded_slot.
      rewrite M1. apply Hm. lia.
  - rewrite upd_ne by congruence. rewrite HC. unfold h1. autorewrite with asm.
    unfold TF_MEPC. apply Hm. lia.
  - reflexivity.
  - now rewrite HM.
Qed.
(** The words of a trapframe that a memory holds. *)
Definition tf_kept (tf : Z) (m m' : Z -> Z) : Prop :=
  forall a, tf <= a < tf + TF_SIZE -> m' a = m a.

Lemma preempted_frame h tf h1 h2 :
  h_csr h CSR_SCRATCH = tf -> tf_at tf ->
  exec time cycle (entry_code CSR_SCRATCH CSR_EPC trap_stack_top) h = Next h1 ->
  tf_kept tf (h_mem h1) (h_mem h2) -> frame_of h tf (h_mem h2).
Proof.
  intros Htf Hat E1 Hk.
  destruct (entry_spec h tf Htf Hat) as (h1' & E1' & Hfo & _). rewrite E1 in E1'.
  injection E1' as <-. unfold tf_kept, TF_SIZE in Hk. destruct Hfo.
  constructor; intros; rewrite Hk;
    unfold TF_MEPC, TF_MTIME, TF_CYCLE, t1 in *; auto; lia.
Qed.

(** C7: a context interrupted in state [h] whose trapframe is left alone
    until an exit restores it resumes with every integer register except
    [t1] unchanged, at the interrupted program counter, and with its own
    trapframe installed for the next trap. *)
Theorem preempted_context_restored h tf h1 h2 h3
  (Htf : h_csr h CSR_SCRATCH = tf) (Hat : tf_at tf) (Hst : stamps_ok tf)
  (Hentry : exec time cycle (entry_code CSR_SCRATCH CSR_EPC trap_stack_top) h = Next h1)
  (Hkept : tf_kept tf (h_mem h1) (h_mem h2)) (Hnext : getr h2 a0 = tf)
  (Hexit : exec time cycle (exit_code CSR_SCRATCH CSR_EPC g_exit_cycles g_exit_mtime) h2
           = Next h3) :
  (forall r, 1 <= r <= 31 -> r <> t1 -> h_reg h3 r = h_reg h r) /\
  h_csr h3 CSR_EPC = h_csr h CSR_EPC /\ h_csr h3 CSR_SCRATCH = tf.
Proof.
  pose proof (preempted_frame h tf h1 h2 Htf Hat Hentry Hkept) as Hfo.
  destruct (exit_spec h2 tf Hnext Hat Hst) as (h3' & E3 & HR & HE & HS & _).
  rewrite Hexit in E3. injection E3 as <-. split_and!; auto.
  - intros r Hr Ht. rewrite HR by exact Hr. now apply (fo_regs _ _ _ Hfo).
  - rewrite HE. apply (fo_epc _ _ _ Hfo).
Qed.

(** C30: the same resumed context finds in [t1] not its own value but the
    cycle counter read two instructions after the vector: the entry code
    overwrites [t1] with its stamps before storing it. *)
Theorem preempted_t1_is_stamp h tf h1 h2 h3
  (Htf : h_csr h CSR_SCRATCH = tf) (Hat : tf_at tf) (Hst : stamps_ok tf)
  (Hentry : exec time cycle (entry_code CSR_SCRATCH CSR_EPC trap_stack_top) h = Next h1)
  (Hkept : tf_kept tf (h_mem h1) (h_mem h2)) (Hnext : getr h2 a0 = tf)
  (Hexit : exec time cycle (exit_code CSR_SCRATCH CSR_EPC g_exit_cycles g_exit_mtime) h2
           = Next h3) :
  h_reg h3 t1 = cycle (3 + h_n h).
Proof.
  pose proof (preempted_frame h tf h1 h2 Htf Hat Hentry Hkept) as Hfo.
  destruct (exit_spec h2 tf Hnext Hat Hst) as (h3' & E3 & HR & _).
  rewrite Hexit in E3. injection E3 as <-.
  rewrite HR by (unfold t1; lia). apply (fo_t1 _ _ _ Hfo).
Qed.
End Entry.

(** ** Witnesses: a context at 4096 is interrupted and resumed at once. *)

Definition demo_time (n : nat) : Z := 500 + Z.of_nat n.
Definition demo_cycle (n : nat) : Z := 9000 + Z.of_nat n.
Definition demo_int : hart :=
  Hart (fun r => 100 + r) (fun _ => 0)
       (fun c => if decide (c = mscratch) then 4096 else if decide (c = mepc) then 0x80000100 else 0) 0.
Definition next_or (d : hart) (r : result) : hart := match r with Next h => h | _ => d end.
Definition demo_saved : hart :=
  next_or demo_int (exec demo_time demo_cycle (trap_entry 65536) demo_int).
Definition demo_resumed : hart :=
  next_or demo_int (exec demo_time demo_cycle (trap_exit 8192 8200) demo_saved).

Lemma preempted_context_restored_witness :
  h_reg demo_resumed s3 = 119 /\ h_csr demo_resumed mepc = 0x80000100 /\
  (forall r, 1 <= r <= 31 -> r <> t1 -> h_reg demo_resumed r = h_reg demo_int r).
Proof.
  split; [vm_compute; reflexivity|]. split; [vm_compute; reflexivity|].
  refine (proj1 (preempted_context_restored demo_time demo_cycle mscratch mepc _
    65536 8192 8200 demo_int 4096 demo_saved demo_saved demo_resumed _ _ _ _ _ _ _));
    [discriminate|reflexivity|..].
  - vm_compute; intuition discriminate.
  - unfold stamps_ok, is_u64, outside, TF_SIZE. repeat split; (lia || reflexivity).
  - vm_compute; reflexivity.
  - intros a _. reflexivity.
  - vm_compute; reflexivity.
  - vm_compute; reflexivity.
Defined.

Lemma preempted_t1_is_stamp_witness :
  h_reg demo_int t1 = 106 /\ h_reg demo_resumed t1 = 9003.
Proof.
  split; [reflexivity|].
  refine (preempted_t1_is_stamp demo_time demo_cycle mscratch mepc _
    65536 8192 8200 demo_int 4096 demo_saved demo_saved demo_resumed _ _ _ _ _ _ _);
    [discriminate|reflexivity|..].
  - vm_compute; intuition discriminate.
  - unfold stamps_ok, is_u64, outside, TF_SIZE. repeat split; (lia || reflexivity).
  - vm_compute; reflexivity.
  - intros a _. reflexivity.
  - vm_compute; reflexivity.
  - vm_compute; reflexivity.
Defined.

(** ** The M-mode timer service of the S-mode build (sboot.S, [m_trap_entry]) *)

Definition CLINT_MTIMECMP : Z := 0x02004000.

Definition m_trap_entry : list instr :=
  [ Csrrw sp mscratch sp;
    Addi sp sp (-32);
    Sd t0 0 sp; Sd a0 8 sp; Sd a1 16 sp;
    Csrr t0 mcause;
    Li a0 9;
    BneHalt t0 a0;
    Ld a0 8 sp;
    Li t0 1;
    BneHalt a0 t0;
    Ld a1 16 sp;
    Li t0 CLINT_MTIMECMP;
    Sd a1 0 t0;
    Csrr t0 mepc;
    Addi t0 t0 4;
    Csrw mepc t0;
    Ld t0 0 sp; Ld a0 8 sp; Ld a1 16 sp;
    Addi sp sp 32;
    Csrrw sp mscratch sp ].

Section Rearm.
Variables time cycle : nat -> Z.

(** The M-mode ecall stack that [mscratch] points at the top of. *)
Definition estack_ok (top : Z) : Prop :=
  32 <= top < 2 ^ 64 /\ top mod 8 = 0 /\ (CLINT_MTIMECMP < top - 32 \/ top <= CLINT_MTIMECMP).

Lemma estack_slot top o :
  estack_ok top -> 0 <= o < 32 -> o mod 8 = 0 ->
  u64 (u64 (top + -32) + o) = top - 32 + o /\ ((top - 32 + o) mod 8 =? 0) = true.
Proof.
  intros (Hr & H8 & _) Ho Ho8.
  assert (u64 (top + -32) = top - 32) as -> by (apply u64_small; unfold is_u64; lia).
  split; [apply u64_small; unfold is_u64; lia|].
  apply Z.eqb_eq. replace (top - 32 + o) with (top + o + (-4) * 8) by lia.
  rewrite Z.mod_add, Z.add_mod, H8, Ho8 by lia. reflexivity.
Qed.

(** the M-mode service called by an S-mode [ecall] with service number
    1 programs [mtimecmp] with the deadline in [a1], returns past the
    [ecall] with every register as it was (the stack pointer included) and
    with its own stack back in [mscratch], and writes nothing else but its
    32-byte stack frame. *)
Theorem m_trap_rearms h top
  (Hcause : h_csr h mcause = 9) (Hsvc : h_reg h a0 = 1)
  (Htop : h_csr h mscratch = top) (Hok : estack_ok top) :
  exists h', exec time cycle m_trap_entry h = Next h' /\
    h_mem h' CLINT_MTIMECMP = h_reg h a1 /\
    (forall r, 1 <= r <= 31 -> h_reg h' r = h_reg h r) /\
    h_csr h' mepc = u64 (h_csr h mepc + 4) /\ h_csr h' mscratch = top /\
    (forall a, a <> CLINT_MTIMECMP -> ~ (top - 32 <= a < top) -> h_mem h' a = h_mem h a).
Proof.
  destruct (estack_slot top 0 Hok) as [A1 A2]; [lia|reflexivity|].
  destruct (estack_slot top 8 Hok) as [B1 B2]; [lia|reflexivity|].
  destruct (estack_slot top 16 Hok) as [C1 C2]; [lia|reflexivity|].
  assert (getr h a0 = 1) as Ha0 by (rewrite getr_reg; [exact Hsvc|discriminate]).
  unfold m_trap_entry. xs. rewrite Htop, A1, A2. xs. rewrite B1, B2. xs. rewrite C1, C2. xs.
  rewrite Hcause. change (9 =? u64 9) with true. xs. rewrite B1, B2. xs.
  rewrite Ha0. change (1 =? u64 1) with true. xs. rewrite C1, C2. xs.
  change (u64 (u64 CLINT_MTIMECMP + 0)) with CLINT_MTIMECMP.
  change (CLINT_MTIMECMP mod 8 =? 0) with true. xs. rewrite A1, A2. xs. rewrite B1, B2. xs.
  rewrite C1, C2. xs.
  eexists. split; [reflexivity|]. autorewrite with asm.
  destruct Hok as (Hr & H8 & Hm). unfold CLINT_MTIMECMP in *.
  assert (u64 (u64 (top + -32) + 32) = top) as Etop.
  { rewrite (u64_small (top + -32)) by (unfold is_u64; lia).
    rewrite u64_small by (unfold is_u64; lia). lia. }
  split_and!.
  - now rewrite getr_reg.
  - intros r Hr1. rewrite <- getr_reg by lia. repeat (autorewrite with asm).
    destruct (decide (r = sp)) as [->|Nsp]; [autorewrite with asm; now apply getr_reg|].
    rewrite getr_setr_ne by exact Nsp. autorewrite with asm.
    rewrite getr_setr_ne by exact Nsp. autorewrite with asm.
    destruct (decide (r = a1)) as [->|Na1]; [autorewrite with asm|].
    { now apply getr_reg. }
    rewrite getr_setr_ne by exact Na1. autorewrite with asm.
    destruct (decide (r = a0)) as [->|Na0]; [autorewrite with asm|].
    { now rewrite Hsvc. }
    rewrite getr_setr_ne by exact Na0. autorewrite with asm.
    destruct (decide (r = t0)) as [->|Nt0]; [autorewrite with asm|].
    { now apply getr_reg. }
    rewrite getr_setr_ne by exact Nt0.
    repeat (autorewrite with asm; rewrite ?getr_setr_ne by assumption).
    apply getr_reg. lia.
  - reflexivity.
  - exact Etop.
  - intros a Ha Hout. now rewrite !upd_ne by lia.
Qed.
End Rearm.

Definition demo_ecall : hart :=
  Hart (fun r => if decide (r = a0) then 1 else 1000 + r) (fun _ => 0)
       (fun c => if decide (c = mcause) then 9 else if decide (c = mscratch) then 65536
                 else if decide (c = mepc) then 0x80000200 else 0) 0.

Lemma m_trap_rearms_witness :
  exists h', exec demo_time demo_cycle m_trap_entry demo_ecall = Next h' /\
    h_mem h' CLINT_MTIMECMP = 1011 /\ h_csr h' mepc = 0x80000204.
Proof.
  destruct (m_trap_rearms demo_time demo_cycle demo_ecall 65536 eq_refl eq_refl eq_refl)
    as (h' & E & Hc & _ & Hm & _).
  - unfold estack_ok, CLINT_MTIMECMP. split; [lia|]. split; [reflexivity|lia].
  - exists h'. auto.
Defined.
