(* ===== verification/Hart.v ===== *)
(** * The hardware a C program reaches outside its own memory

    Volatile MMIO accesses and CSR instructions (inline assembly) go through
    the class [HartDev]: a state that may change on reads as well as writes.
    [hw_fuel] bounds the model's polling loops on that hardware.  What a
    program relies on is stated by law classes ([ClintSpec] here, others next
    to their clients).  [ScriptHart] is a concrete machine whose [mtime]
    advances by a scripted step per read, used to instantiate the laws. *)

From Stdlib Require Import ZArith Lia String.
From stdpp Require Import base list.
From S2P Require Import Prelude.

Class HartDev (H : Type) : Type := {
  mr64 : Z -> H -> Z * H;
  mw64 : Z -> Z -> H -> H;
  mr32 : Z -> H -> Z * H;
  mw32 : Z -> Z -> H -> H;
  csr_rd : string -> H -> Z * H;
  csr_wr : string -> Z -> H -> H;
  hw_fuel : nat;
}.

Section Access.
Context {U H G : Type} `{!HartDev H}.
Abbreviation W := (world U H G).

Definition read64 (a : Z) : prog W Z := hw_read (mr64 a).
Definition write64 (a v : Z) : prog W unit := hw_write (mw64 a v).
Definition read32 (a : Z) : prog W Z := hw_read (mr32 a).
Definition write32 (a v : Z) : prog W unit := hw_write (mw32 a v).

(** [csrr], [csrw], and the read-modify-write forms [csrrs]/[csrs] and
    [csrrc]/[csrc], which read the CSR and write it with bits set or cleared. *)
Definition csrr (c : string) : prog W Z := hw_read (csr_rd c).
Definition csrw (c : string) (v : Z) : prog W unit := hw_write (csr_wr c v).
Definition csrrs (c : string) (m : Z) : prog W Z :=
  v <- csrr c ;; csrw c (Z.lor v m) ;; ret v.
Definition csrrc (c : string) (m : Z) : prog W Z :=
  v <- csrr c ;; csrw c (Z.land v (u64 (Z.lnot m))) ;; ret v.
Definition csrs (c : string) (m : Z) : prog W unit := csrrs c m ;; ret tt.
Definition csrc (c : string) (m : Z) : prog W unit := csrrc c m ;; ret tt.

(** Each access is total; its effect on the hardware as a function. *)
Definition csrs_hw (c : string) (m : Z) (h : H) : H :=
  csr_wr c (Z.lor (csr_rd c h).1 m) (csr_rd c h).2.
Definition csrc_hw (c : string) (m : Z) (h : H) : H :=
  csr_wr c (Z.land (csr_rd c h).1 (u64 (Z.lnot m))) (csr_rd c h).2.

Lemma read64_eq a u h g : read64 a (World u h g) = Ret (mr64 a h).1 (World u (mr64 a h).2 g).
Proof. unfold read64, hw_read. cbn. now destruct (mr64 a h). Qed.

Lemma read32_eq a u h g : read32 a (World u h g) = Ret (mr32 a h).1 (World u (mr32 a h).2 g).
Proof. unfold read32, hw_read. cbn. now destruct (mr32 a h). Qed.

Lemma csrr_eq c u h g : csrr c (World u h g) = Ret (csr_rd c h).1 (World u (csr_rd c h).2 g).
Proof. unfold csrr, hw_read. cbn. now destruct (csr_rd c h). Qed.

Lemma csrs_eq c m u h g : csrs c m (World u h g) = Ret tt (World u (csrs_hw c m h) g).
Proof.
  unfold csrs, csrrs. rewrite bind_assoc. now rewrite (bind_ret_eq _ _ _ _ _ (csrr_eq c u h g)).
Qed.

Lemma csrc_eq c m u h g : csrc c m (World u h g) = Ret tt (World u (csrc_hw c m h) g).
Proof.
  unfold csrc, csrrc. rewrite bind_assoc. now rewrite (bind_ret_eq _ _ _ _ _ (csrr_eq c u h g)).
Qed.
End Access.

(** ** The CLINT *)

Definition CLINT_BASE : Z := 0x02000000.
Definition CLINT_MTIMECMP_HART0 : Z := CLINT_BASE + 0x4000.
Definition CLINT_MTIME : Z := CLINT_BASE + 0xbff8.

(** [mtime] counts up; a read of it returns the count and leaves the rest of
    the timer alone; [mtimecmp] holds what was last written.  [mtime_gap]
    bounds how far the counter moves between one access and the next. *)
Class ClintSpec (H : Type) `{!HartDev H} : Type := {
  mtime : H -> Z;
  mtimecmp : H -> Z;
  mtime_gap : Z;
  mtime_gap_pos : 0 <= mtime_gap;
  mtime_u64 h : 0 <= mtime h;
  mtime_read h : (mr64 CLINT_MTIME h).1 = u64 (mtime h);
  mtime_mono h :
    mtime h <= mtime (mr64 CLINT_MTIME h).2 <= mtime h + mtime_gap;
  mtime_read_cmp h : mtimecmp (mr64 CLINT_MTIME h).2 = mtimecmp h;
  mtimecmp_write h v : mtimecmp (mw64 CLINT_MTIMECMP_HART0 v h) = v;
  mtimecmp_write_time h v : mtime (mw64 CLINT_MTIMECMP_HART0 v h) = mtime h;
}.

(** ** A concrete machine *)

Record ScriptHart : Type := SH {
  sh_mtime : N;
  sh_step : N;
  sh_mem : list (Z * Z);
  sh_csr : list (string * Z);
}.

Fixpoint alookup {K} (eqb : K -> K -> bool) (k : K) (l : list (K * Z)) : Z :=
  match l with
  | [] => 0
  | (k', v) :: l' => if eqb k k' then v else alookup eqb k l'
  end.

(** Overwrite the entry for [k], or add one. *)
Fixpoint aupdate {K} (eqb : K -> K -> bool) (k : K) (v : Z) (l : list (K * Z)) : list (K * Z) :=
  match l with
  | [] => [(k, v)]
  | (k', v') :: l' => if eqb k k' then (k, v) :: l' else (k', v') :: aupdate eqb k v l'
  end.

Lemma alookup_aupdate {K} (eqb : K -> K -> bool) (k : K) v l :
  (forall a b, eqb a b = true <-> a = b) -> alookup eqb k (aupdate eqb k v l) = v.
Proof.
  intros Heq. assert (eqb k k = true) as Hkk by now apply Heq.
  induction l as [|[k' v'] l IH]; cbn; [now rewrite Hkk|].
  destruct (eqb k k') eqn:E; cbn; [now rewrite Hkk|now rewrite E].
Qed.

Lemma alookup_aupdate_ne {K} (eqb : K -> K -> bool) (k k' : K) v l :
  (forall a b, eqb a b = true <-> a = b) -> k' <> k ->
  alookup eqb k' (aupdate eqb k v l) = alookup eqb k' l.
Proof.
  intros Heq Hne. assert (eqb k' k = false) as Hkk
    by (destruct (eqb k' k) eqn:E; [now apply Heq in E|reflexivity]).
  induction l as [|[k1 v1] l IH]; cbn; [now rewrite Hkk|].
  destruct (eqb k k1) eqn:E; cbn.
  - apply Heq in E. subst k1. now rewrite Hkk.
  - destruct (eqb k' k1); [reflexivity|exact IH].
Qed.

#[export] Instance ScriptHart_dev : HartDev ScriptHart := {
  mr64 a h :=
    if a =? CLINT_MTIME
    then (u64 (Z.of_N (sh_mtime h)),
          SH (sh_mtime h + sh_step h mod 1000)%N (sh_step h) (sh_mem h) (sh_csr h))
    else (alookup Z.eqb a (sh_mem h), h);
  mw64 a v h := SH (sh_mtime h) (sh_step h) (aupdate Z.eqb a v (sh_mem h)) (sh_csr h);
  mr32 a h := (alookup Z.eqb a (sh_mem h), h);
  mw32 a v h := SH (sh_mtime h) (sh_step h) (aupdate Z.eqb a v (sh_mem h)) (sh_csr h);
  csr_rd c h :=
    if String.eqb c "time"
    then (u64 (Z.of_N (sh_mtime h)),
          SH (sh_mtime h + sh_step h mod 1000)%N (sh_step h) (sh_mem h) (sh_csr h))
    else (alookup String.eqb c (sh_csr h), h);
  csr_wr c v h := SH (sh_mtime h) (sh_step h) (sh_mem h) (aupdate String.eqb c v (sh_csr h));
  hw_fuel := 64;
}.

#[export] Instance ScriptHart_clint : ClintSpec ScriptHart.
Proof.
  refine {| mtime h := Z.of_N (sh_mtime h);
            mtimecmp h := alookup Z.eqb CLINT_MTIMECMP_HART0 (sh_mem h);
            mtime_gap := 1000 |}; try reflexivity; intros.
  - lia.
  - lia.
  - change (mr64 CLINT_MTIME h).2
      with (SH (sh_mtime h + sh_step h mod 1000)%N (sh_step h) (sh_mem h) (sh_csr h)).
    cbn [sh_mtime]. pose proof (N.mod_lt (sh_step h) 1000 ltac:(lia)) as Hm.
    rewrite N2Z.inj_add. revert Hm. generalize (sh_step h mod 1000)%N. lia.
  - apply alookup_aupdate, Z.eqb_eq.
Defined.

(** ** CSRs that hold what is written

    [csr_val c h] is the value a read of [c] gives; reads and MMIO stores do
    not disturb it ([csr_plain] excludes the free-running counters).  [csr_store] holds of the writes that are kept verbatim
    (no field of the CSR is read-only or WARL for that value); [csr_indep c c']
    that writing [c] leaves [c'] alone, as for any two CSRs that are not
    views of one register. *)
Class CsrSpec (H : Type) `{!HartDev H} : Type := {
  csr_val : string -> H -> Z;
  csr_store : string -> Z -> Prop;
  csr_indep : string -> string -> Prop;
  csr_plain : string -> Prop;
  csr_rd_val c h : csr_plain c -> (csr_rd c h).1 = csr_val c h;
  csr_rd_pure c h : csr_plain c -> (csr_rd c h).2 = h;
  csr_wr_val c v h : csr_store c v -> csr_val c (csr_wr c v h) = v;
  csr_wr_other c c' v h : csr_indep c c' -> csr_val c' (csr_wr c v h) = csr_val c' h;
  csr_mw64 c a v h : csr_val c (mw64 a v h) = csr_val c h;
}.

#[export] Instance ScriptHart_csr : CsrSpec ScriptHart.
Proof.
  refine {| csr_val c h := alookup String.eqb c (sh_csr h);
            csr_store _ _ := True; csr_indep c c' := c' <> c; csr_plain c := c <> "time"%string |};
    intros; try reflexivity; cbn.
  - now rewrite (proj2 (String.eqb_neq c "time")).
  - now rewrite (proj2 (String.eqb_neq c "time")).
  - apply alookup_aupdate, String.eqb_eq.
  - now apply alookup_aupdate_ne; [apply String.eqb_eq|].
Defined.
