(* ===== verification/Run.v ===== *)
(** * Symbolic execution of the programs

    [runs m h g a l h' g']: from hardware [h] and globals [g] the program [m]
    returns [a], having sent the text [l] and left [h'] and [g'], whatever the
    UART.  [halts] is the same for a program that ends parked.  The rules run
    a program statement by statement; [xrun] applies them. *)

From Stdlib Require Import ZArith Lia String.
From stdpp Require Import base list.
From S2P Require Import Prelude Uart Hart.

Section Runs.
Context {U H G : Type} `{!UartDev U, !UartSpec U}.
Abbreviation W := (world U H G).

Definition runs {A} (m : prog W A) (h : H) (g : G) (a : A) (l : list Z) (h' : H) (g' : G) : Prop :=
  forall u, m (World u h g) = Ret a (World (emits l u) h' g').
Definition halts {A} (m : prog W A) (h : H) (g : G) (l : list Z) (h' : H) (g' : G) : Prop :=
  forall u, m (World u h g) = Park (World (emits l u) h' g').

Lemma runs_ret {A} (a : A) h g : runs (ret a) h g a [] h g.
Proof. easy. Qed.

Lemma runs_bind {A B} (m : prog W A) (k : A -> prog W B) h g a l1 h1 g1 b l2 h2 g2 :
  runs m h g a l1 h1 g1 -> runs (k a) h1 g1 b l2 h2 g2 -> runs (bind m k) h g b (l1 ++ l2) h2 g2.
Proof. intros Hm Hk u. rewrite (bind_ret_eq _ _ _ _ _ (Hm u)), Hk. now rewrite emits_app. Qed.

(** The same when the first statement is silent. *)
Lemma runs_bind0 {A B} (m : prog W A) (k : A -> prog W B) h g a h1 g1 b l2 h2 g2 :
  runs m h g a [] h1 g1 -> runs (k a) h1 g1 b l2 h2 g2 -> runs (bind m k) h g b l2 h2 g2.
Proof. apply (runs_bind m k h g a []). Qed.

Lemma halts_bind {A B} (m : prog W A) (k : A -> prog W B) h g a l1 h1 g1 l2 h2 g2 :
  runs m h g a l1 h1 g1 -> halts (k a) h1 g1 l2 h2 g2 -> halts (bind m k) h g (l1 ++ l2) h2 g2.
Proof. intros Hm Hk u. rewrite (bind_ret_eq _ _ _ _ _ (Hm u)), Hk. now rewrite emits_app. Qed.

Lemma halts_bind0 {A B} (m : prog W A) (k : A -> prog W B) h g a h1 g1 l2 h2 g2 :
  runs m h g a [] h1 g1 -> halts (k a) h1 g1 l2 h2 g2 -> halts (bind m k) h g l2 h2 g2.
Proof. apply (halts_bind m k h g a []). Qed.

(** A statement that parks ends the program. *)
Lemma halts_first {A B} (m : prog W A) (k : A -> prog W B) h g l h1 g1 :
  halts m h g l h1 g1 -> halts (bind m k) h g l h1 g1.
Proof. intros Hm u. unfold bind. now rewrite Hm. Qed.

Lemma halts_park {A} h g : halts (A:=A) park h g [] h g.
Proof. easy. Qed.

(** The program reaches behaviour C leaves undefined. *)
Definition crashes {A} (m : prog W A) (h : H) (g : G) : Prop :=
  forall u, m (World u h g) = Undef.

Lemma crashes_bind {A B} (m : prog W A) (k : A -> prog W B) h g a l1 h1 g1 :
  runs m h g a l1 h1 g1 -> crashes (k a) h1 g1 -> crashes (bind m k) h g.
Proof. intros Hm Hk u. rewrite (bind_ret_eq _ _ _ _ _ (Hm u)). apply Hk. Qed.

Lemma crashes_first {A B} (m : prog W A) (k : A -> prog W B) h g :
  crashes m h g -> crashes (bind m k) h g.
Proof. intros Hm u. unfold bind. now rewrite Hm. Qed.

Lemma runs_prints m l h g : prints m l -> runs m h g tt l h g.
Proof. intros Hm u. now rewrite Hm. Qed.

Lemma runs_gget {A} (f : G -> A) h g : runs (gget f) h g (f g) [] h g.
Proof. easy. Qed.
Lemma runs_gset (f : G -> G) h g : runs (gset_ f) h g tt [] h (f g).
Proof. easy. Qed.
Lemma runs_hw (f : H -> H) h g : runs (hw_write f) h g tt [] (f h) g.
Proof. easy. Qed.

Lemma runs_when_true m h g l h' g' : runs m h g tt l h' g' -> runs (when true m) h g tt l h' g'.
Proof. easy. Qed.
Lemma runs_when_false m h g : runs (when false m) h g tt [] h g.
Proof. easy. Qed.

Lemma runs_udiv a b h g : b <> 0 -> runs (udiv a b) h g (a / b) [] h g.
Proof. intros Hb u. unfold udiv. now rewrite (proj2 (Z.eqb_neq b 0) Hb). Qed.

(** Change the stated result to an equal one. *)
Lemma runs_conv {A} (m : prog W A) h g a l h' g' a2 l2 h2 g2 :
  runs m h g a l h' g' -> a = a2 -> l = l2 -> h' = h2 -> g' = g2 -> runs m h g a2 l2 h2 g2.
Proof. now intros ? -> -> -> ->. Qed.
Lemma halts_conv {A} (m : prog W A) h g l h' g' l2 h2 g2 :
  halts m h g l h' g' -> l = l2 -> h' = h2 -> g' = g2 -> halts m h g l2 h2 g2.
Proof. now intros ? -> -> ->. Qed.

(** A loop whose body's effect on the state is known. *)
Lemma runs_for {A} (l : list A) (f : A -> prog W unit) (txt : A -> H * G -> list Z)
    (st : A -> H * G -> H * G) h g :
  (forall x h g, x ∈ l -> runs (f x) h g tt (txt x (h, g)) (st x (h, g)).1 (st x (h, g)).2) ->
  let '(t, s) := fold_left (fun '(t, s) x => (t ++ txt x s, st x s)) l ([], (h, g)) in
  runs (for_each l f) h g tt t s.1 s.2.
Proof.
  intros Hf.
  assert (forall t0 h g, let '(t, s) := fold_left (fun '(t, s) x => (t ++ txt x s, st x s)) l (t0, (h, g)) in
     forall u, for_each l f (World (emits t0 u) h g) = Ret tt (World (emits t u) s.1 s.2)) as Hgen.
  { clear h g. induction l as [|x l IH]; intros t0 h g; [easy|]. cbn [fold_left for_each].
    destruct (st x (h, g)) as [h1 g1] eqn:Es.
    specialize (IH ltac:(intros; apply Hf; now right) (t0 ++ txt x (h, g)) h1 g1).
    destruct (fold_left _ l _) as [t s]. intros u.
    assert (x ∈ x :: l) as Hx by left.
    rewrite (bind_ret_eq _ _ _ _ _ (Hf x h g Hx (emits t0 u))), Es, <- emits_app. apply IH. }
  specialize (Hgen [] h g). destruct (fold_left _ _ _) as [t s]. exact Hgen.
Qed.

(** What the line carries afterwards. *)
Lemma runs_sends {A} (m : prog W A) h g a l h' g' u :
  runs m h g a l h' g' -> Forall (fun c => 0 <= c < 256) l ->
  exists u', m (World u h g) = Ret a (World u' h' g') /\ tx u' = tx u ++ crlf l /\ rx u' = rx u.
Proof.
  intros Hm Hl. exists (emits l u). split; [apply Hm|]. split; [now apply emits_tx|apply emits_rx].
Qed.
Lemma halts_sends {A} (m : prog W A) h g l h' g' u :
  halts m h g l h' g' -> Forall (fun c => 0 <= c < 256) l ->
  exists u', m (World u h g) = Park (World u' h' g') /\ tx u' = tx u ++ crlf l /\ rx u' = rx u.
Proof.
  intros Hm Hl. exists (emits l u). split; [apply Hm|]. split; [now apply emits_tx|apply emits_rx].
Qed.

(** A [main]: it sets the UART up and then does not return. *)
Definition main_sends (m : prog W unit) (u : U) (h : H) (g : G) (l : list Z) (Q : H -> G -> Prop) : Prop :=
  exists u' h' g', m (World u h g) = Park (World u' h' g') /\
    tx u' = tx u ++ crlf l /\ rx u' = rx u /\ Q h' g'.

Lemma main_sends_intro (m : prog W unit) u h g l (Q : H -> G -> Prop) :
  (exists l' h' g', halts m h g l' h' g' /\ l' = l /\ Q h' g') ->
  Forall (fun c => 0 <= c < 256) l -> main_sends (uart_init ;; m) u h g l Q.
Proof.
  intros (l' & h' & g' & Hm & -> & HQ) Hl.
  destruct (halts_sends _ _ _ _ _ _ (inited u) Hm Hl) as (u' & E & Ht & Hr).
  exists u', h', g'. rewrite (bind_ret_eq _ _ _ _ _ (uart_init_eq _)).
  rewrite inited_tx in Ht. rewrite inited_rx in Hr. auto.
Qed.

(** A [main] that returns to the boot code with exit code [a]. *)
Definition main_returns {A} (m : prog W A) (u : U) (h : H) (g : G) (a : A) (l : list Z) (Q : H -> G -> Prop) : Prop :=
  exists u' h' g', m (World u h g) = Ret a (World u' h' g') /\
    tx u' = tx u ++ crlf l /\ rx u' = rx u /\ Q h' g'.

Lemma main_returns_intro {A} (m : prog W A) u h g a l (Q : H -> G -> Prop) :
  (exists l' h' g', runs m h g a l' h' g' /\ l' = l /\ Q h' g') ->
  Forall (fun c => 0 <= c < 256) l -> main_returns (uart_init ;; m) u h g a l Q.
Proof.
  intros (l' & h' & g' & Hm & -> & HQ) Hl.
  destruct (runs_sends _ _ _ _ _ _ _ (inited u) Hm Hl) as (u' & E & Ht & Hr).
  exists u', h', g'. rewrite (bind_ret_eq _ _ _ _ _ (uart_init_eq _)).
  rewrite inited_tx in Ht. rewrite inited_rx in Hr. auto.
Qed.

Section Hw.
Context `{!HartDev H}.
Lemma runs_read64 a h g : runs (read64 a) h g (mr64 a h).1 [] (mr64 a h).2 g.
Proof. intros u. apply read64_eq. Qed.
Lemma runs_read32 a h g : runs (read32 a) h g (mr32 a h).1 [] (mr32 a h).2 g.
Proof. intros u. apply read32_eq. Qed.
Lemma runs_csrr c h g : runs (csrr c) h g (csr_rd c h).1 [] (csr_rd c h).2 g.
Proof. intros u. apply csrr_eq. Qed.
Lemma runs_csrs c m h g : runs (csrs c m) h g tt [] (csrs_hw c m h) g.
Proof. intros u. apply csrs_eq. Qed.
Lemma runs_csrc c m h g : runs (csrc c m) h g tt [] (csrc_hw c m h) g.
Proof. intros u. apply csrc_eq. Qed.
Lemma runs_write64 a v h g : runs (write64 a v) h g tt [] (mw64 a v h) g.
Proof. easy. Qed.
Lemma runs_write32 a v h g : runs (write32 a v) h g tt [] (mw32 a v h) g.
Proof. easy. Qed.
Lemma runs_csrw c v h g : runs (csrw c v) h g tt [] (csr_wr c v h) g.
Proof. easy. Qed.
End Hw.
End Runs.

(** Derived rules for whole functions are added to this database. *)
Create HintDb runs discriminated.

(** A primitive statement. *)
Ltac xprim :=
  lazymatch goal with
  | |- runs (ret _) _ _ _ _ _ _ => apply runs_ret
  | |- runs (gget _) _ _ _ _ _ _ => apply runs_gget
  | |- runs (gset_ _) _ _ _ _ _ _ => apply runs_gset
  | |- runs (hw_write _) _ _ _ _ _ _ => apply runs_hw
  | |- runs (read64 _) _ _ _ _ _ _ => apply runs_read64
  | |- runs (read32 _) _ _ _ _ _ _ => apply runs_read32
  | |- runs (write64 _ _) _ _ _ _ _ _ => apply runs_write64
  | |- runs (write32 _ _) _ _ _ _ _ _ => apply runs_write32
  | |- runs (csrr _) _ _ _ _ _ _ => apply runs_csrr
  | |- runs (csrw _ _) _ _ _ _ _ _ => apply runs_csrw
  | |- runs (csrs _ _) _ _ _ _ _ _ => apply runs_csrs
  | |- runs (csrc _ _) _ _ _ _ _ _ => apply runs_csrc
  | |- runs (when false _) _ _ _ _ _ _ => apply runs_when_false
  | |- runs (uputs _) _ _ _ _ _ _ => apply runs_prints; apply prints_lit; reflexivity
  | |- runs (uart_put_dec _) _ _ _ _ _ _ => apply runs_prints; apply prints_dec; u64_side
  | |- runs (uart_put_hex _) _ _ _ _ _ _ => apply runs_prints; apply prints_hex; u64_side
  | |- runs (uart_putc _) _ _ _ _ _ _ => apply runs_prints; apply prints_putc
  | |- runs _ _ _ _ _ _ _ =>
      first [ solve [eauto with runs nocore]
            | apply runs_prints; solve [eauto with prints nocore] ]
  end.

Ltac xquiet m :=
  lazymatch m with
  | ret _ => idtac | gget _ => idtac | gset_ _ => idtac | hw_write _ => idtac
  | read64 _ => idtac | read32 _ => idtac | write64 _ _ => idtac | write32 _ _ => idtac
  | csrr _ => idtac | csrw _ _ => idtac | csrs _ _ => idtac | csrc _ _ => idtac
  | when false _ => idtac
  end.

(** One statement of a sequence, or the last one. *)
Ltac xstep :=
  lazymatch goal with
  | |- runs (bind ?m _) _ _ _ _ _ _ =>
      first [ xquiet m; eapply runs_bind0; [xprim|cbn beta]
            | eapply runs_bind; [xprim|cbn beta] ]
  | |- halts (bind ?m _) _ _ _ _ _ =>
      first [ xquiet m; eapply halts_bind0; [xprim|cbn beta]
            | eapply halts_bind; [xprim|cbn beta] ]
  | |- crashes (bind _ _) _ _ => eapply crashes_bind; [xprim|cbn beta]
  | |- halts park _ _ _ _ _ => apply halts_park
  | |- runs _ _ _ _ _ _ _ => xprim
  end.
Ltac xrun := repeat xstep.

(** Every text put together from literals and numerals is made of bytes. *)
Ltac text_bytes :=
  repeat lazymatch goal with
  | |- Forall _ (_ ++ _) => apply Forall_app; split
  | |- Forall _ [] => constructor
  | |- Forall _ (lit _) => apply bytes_range
  | |- Forall _ (fmt_dec _) => apply fmt_dec_bytes
  | |- Forall _ (fmt_hex _) => apply fmt_hex_bytes
  end.
