(* ===== verification/Preempt.v ===== *)
(** * The preemptive scheduler (src/preempt/)

    [clint.c], [psched.c], [ptasks.c] and [pmain.c] over the hardware of
    [Hart] and the UART of [Uart]; the register save and restore of [trap.S]
    is verified at instruction level in [Trap], and appears here as what it
    does to the current trap frame.  Preemption is a list of [slice]s: how
    many stores the running context retires before the next timer interrupt,
    how the hardware moves on meanwhile, the context that was interrupted and
    the stamps taken at trap entry and exit.  Theorems quantify over all of
    them. *)

From Stdlib Require Import ZArith Lia String.
From stdpp Require Import base list.
From S2P Require Import Prelude Uart Hart Run.

(** ** clint.h, clint.c *)

Definition CLINT_TICKS_PER_SEC : Z := 10000000.
Definition CLINT_NS_PER_TICK : Z := 100.

Section Clint.
Context {U H G : Type} `{!HartDev H}.
Definition clint_get_mtime : prog (world U H G) Z := read64 CLINT_MTIME.
Definition clint_set_mtimecmp (v : Z) : prog (world U H G) unit :=
  write64 CLINT_MTIMECMP_HART0 v.
Definition clint_get_mtimecmp : prog (world U H G) Z := read64 CLINT_MTIMECMP_HART0.
End Clint.

(** ** psched.h *)

Definition PTASK_MAX : Z := 3.
Definition PSTACK_SIZE : Z := 4096.
Definition QUANTUM_TICKS : Z := 10000.
Definition N_TICKS : Z := 200.
Definition MCAUSE_TIMER_IRQ : Z := 0x8000000000000007.
Definition MIE_MTIE : Z := Z.shiftl 1 7.
Definition MSTATUS_MIE : Z := Z.shiftl 1 3.

Record trapframe_t : Type := TF {
  tf_regs : list Z;
  tf_mepc : Z;
  tf_mtime_at_entry : Z;
  tf_cycle_at_entry : Z;
}.

(** The three task bodies a function pointer can name. *)
Inductive ptask_fn_t : Type := ptask_a | ptask_b | ptask_c.

Record ptask_t : Type := PTask {
  pt_tf : trapframe_t;
  pt_fn : option ptask_fn_t;
  pt_name : string;
}.

(** A pointer to a trap frame: the boot context's or a task's. *)
Inductive tfp : Type := TfBoot | TfTask (i : nat).

#[export] Instance tfp_eq_dec : EqDecision tfp.
Proof. solve_decision. Defined.

(** Minimum, maximum and sum of one measured quantity. *)
Record stat : Type := Stat { st_min : Z; st_max : Z; st_sum : Z }.
Definition stat0 : stat := Stat (u64 (-1)) 0 0.
Definition stat_add (v : Z) (s : stat) : stat :=
  Stat (if v <? st_min s then v else st_min s)
       (if v >? st_max s then v else st_max s)
       (u64 (st_sum s + v)).

(** A task body's globals; [sp_mid] is its program counter: between its
    store to [state_x] and its store to [iters_x]. *)
Record spin : Type := Spin { sp_state : Z; sp_iters : Z; sp_mid : bool }.

Record pg : Type := PG {
  p_tasks : list ptask_t;
  n_tasks : Z;
  current : Z;
  sched_tf : trapframe_t;
  g_exit_cycles : Z;
  g_exit_mtime : Z;
  g_entry_cycles : Z;
  g_entry_mtime : Z;
  have_prev : bool;
  ticks : Z;
  done : bool;
  deadline : Z;
  lat : stat;
  swc : stat;
  swt : stat;
  swn : Z;
  spins : list spin;
  frame : tfp;
}.

Definition with_p_tasks (v : list ptask_t) (r : pg) : pg :=
  PG v (n_tasks r) (current r) (sched_tf r) (g_exit_cycles r) (g_exit_mtime r)
    (g_entry_cycles r) (g_entry_mtime r) (have_prev r) (ticks r) (done r) (deadline r) (lat r)
    (swc r) (swt r) (swn r) (spins r) (frame r).
Definition with_n_tasks (v : Z) (r : pg) : pg :=
  PG (p_tasks r) v (current r) (sched_tf r) (g_exit_cycles r) (g_exit_mtime r)
    (g_entry_cycles r) (g_entry_mtime r) (have_prev r) (ticks r) (done r) (deadline r) (lat r)
    (swc r) (swt r) (swn r) (spins r) (frame r).
Definition with_current (v : Z) (r : pg) : pg :=
  PG (p_tasks r) (n_tasks r) v (sched_tf r) (g_exit_cycles r) (g_exit_mtime r)
    (g_entry_cycles r) (g_entry_mtime r) (have_prev r) (ticks r) (done r) (deadline r) (lat r)
    (swc r) (swt r) (swn r) (spins r) (frame r).
Definition with_sched_tf (v : trapframe_t) (r : pg) : pg :=
  PG (p_tasks r) (n_tasks r) (current r) v (g_exit_cycles r) (g_exit_mtime r)
    (g_entry_cycles r) (g_entry_mtime r) (have_prev r) (ticks r) (done r) (deadline r) (lat r)
    (swc r) (swt r) (swn r) (spins r) (frame r).
Definition with_g_exit_cycles (v : Z) (r : pg) : pg :=
  PG (p_tasks r) (n_tasks r) (current r) (sched_tf r) v (g_exit_mtime r) (g_entry_cycles r)
    (g_entry_mtime r) (have_prev r) (ticks r) (done r) (deadline r) (lat r) (swc r) (swt r)
    (swn r) (spins r) (frame r).
Definition with_g_exit_mtime (v : Z) (r : pg) : pg :=
  PG (p_tasks r) (n_tasks r) (current r) (sched_tf r) (g_exit_cycles r) v (g_entry_cycles r)
    (g_entry_mtime r) (have_prev r) (ticks r) (done r) (deadline r) (lat r) (swc r) (swt r)
    (swn r) (spins r) (frame r).
Definition with_g_entry_cycles (v : Z) (r : pg) : pg :=
  PG (p_tasks r) (n_tasks r) (current r) (sched_tf r) (g_exit_cycles r) (g_exit_mtime r) v
    (g_entry_mtime r) (have_prev r) (ticks r) (done r) (deadline r) (lat r) (swc r) (swt r)
    (swn r) (spins r) (frame r).
Definition with_g_entry_mtime (v : Z) (r : pg) : pg :=
  PG (p_tasks r) (n_tasks r) (current r) (sched_tf r) (g_exit_cycles r) (g_exit_mtime r)
    (g_entry_cycles r) v (have_prev r) (ticks r) (done r) (deadline r) (lat r) (swc r) (swt r)
    (swn r) (spins r) (frame r).
Definition with_have_prev (v : bool) (r : pg) : pg :=
  PG (p_tasks r) (n_tasks r) (current r) (sched_tf r) (g_exit_cycles r) (g_exit_mtime r)
    (g_entry_cycles r) (g_entry_mtime r) v (ticks r) (done r) (deadline r) (lat r) (swc r)
    (swt r) (swn r) (spins r) (frame r).
Definition with_ticks (v : Z) (r : pg) : pg :=
  PG (p_tasks r) (n_tasks r) (current r) (sched_tf r) (g_exit_cycles r) (g_exit_mtime r)
    (g_entry_cycles r) (g_entry_mtime r) (have_prev r) v (done r) (deadline r) (lat r) (swc r)
    (swt r) (swn r) (spins r) (frame r).
Definition with_done (v : bool) (r : pg) : pg :=
  PG (p_tasks r) (n_tasks r) (current r) (sched_tf r) (g_exit_cycles r) (g_exit_mtime r)
    (g_entry_cycles r) (g_entry_mtime r) (have_prev r) (ticks r) v (deadline r) (lat r) (swc
    r) (swt r) (swn r) (spins r) (frame r).
Definition with_deadline (v : Z) (r : pg) : pg :=
  PG (p_tasks r) (n_tasks r) (current r) (sched_tf r) (g_exit_cycles r) (g_exit_mtime r)
    (g_entry_cycles r) (g_entry_mtime r) (have_prev r) (ticks r) (done r) v (lat r) (swc r)
    (swt r) (swn r) (spins r) (frame r).
Definition with_lat (v : stat) (r : pg) : pg :=
  PG (p_tasks r) (n_tasks r) (current r) (sched_tf r) (g_exit_cycles r) (g_exit_mtime r)
    (g_entry_cycles r) (g_entry_mtime r) (have_prev r) (ticks r) (done r) (deadline r) v (swc
    r) (swt r) (swn r) (spins r) (frame r).
Definition with_swc (v : stat) (r : pg) : pg :=
  PG (p_tasks r) (n_tasks r) (current r) (sched_tf r) (g_exit_cycles r) (g_exit_mtime r)
    (g_entry_cycles r) (g_entry_mtime r) (have_prev r) (ticks r) (done r) (deadline r) (lat r)
    v (swt r) (swn r) (spins r) (frame r).
Definition with_swt (v : stat) (r : pg) : pg :=
  PG (p_tasks r) (n_tasks r) (current r) (sched_tf r) (g_exit_cycles r) (g_exit_mtime r)
    (g_entry_cycles r) (g_entry_mtime r) (have_prev r) (ticks r) (done r) (deadline r) (lat r)
    (swc r) v (swn r) (spins r) (frame r).
Definition with_swn (v : Z) (r : pg) : pg :=
  PG (p_tasks r) (n_tasks r) (current r) (sched_tf r) (g_exit_cycles r) (g_exit_mtime r)
    (g_entry_cycles r) (g_entry_mtime r) (have_prev r) (ticks r) (done r) (deadline r) (lat r)
    (swc r) (swt r) v (spins r) (frame r).
Definition with_spins (v : list spin) (r : pg) : pg :=
  PG (p_tasks r) (n_tasks r) (current r) (sched_tf r) (g_exit_cycles r) (g_exit_mtime r)
    (g_entry_cycles r) (g_entry_mtime r) (have_prev r) (ticks r) (done r) (deadline r) (lat r)
    (swc r) (swt r) (swn r) v (frame r).
Definition with_frame (v : tfp) (r : pg) : pg :=
  PG (p_tasks r) (n_tasks r) (current r) (sched_tf r) (g_exit_cycles r) (g_exit_mtime r)
    (g_entry_cycles r) (g_entry_mtime r) (have_prev r) (ticks r) (done r) (deadline r) (lat r)
    (swc r) (swt r) (swn r) (spins r) v.


(** The statics after boot. *)
Definition tf0 : trapframe_t := TF (replicate 32 0) 0 0 0.
Definition boot_pg : pg :=
  PG (replicate 3 (PTask tf0 None "")) 0 (-1) tf0 0 0 0 0 false 0 false 0
     stat0 stat0 stat0 0 [Spin 1 0 false; Spin 2 0 false; Spin 3 0 false] TfBoot.

Definition get_tf (p : tfp) (g : pg) : option trapframe_t :=
  match p with
  | TfBoot => Some (sched_tf g)
  | TfTask i => pt_tf <$> p_tasks g !! i
  end.
Definition set_tf (p : tfp) (t : trapframe_t) (g : pg) : pg :=
  match p with
  | TfBoot => with_sched_tf t g
  | TfTask i => with_p_tasks (alter (fun k => PTask t (pt_fn k) (pt_name k)) i (p_tasks g)) g
  end.

(** ** ptasks.c: the task bodies *)

Definition lcg (f : ptask_fn_t) (s : Z) : Z :=
  match f with
  | ptask_a => u64 (u64 (s * 6364136223846793005) + 1442695040888963407)
  | ptask_b => u64 (u64 (s * 2862933555777941757) + 3037000493)
  | ptask_c => u64 (u64 (s * 1597334677) + 1013904223)
  end.
Definition spin_ix (f : ptask_fn_t) : nat :=
  match f with ptask_a => 0 | ptask_b => 1 | ptask_c => 2 end.

(** One volatile store of a task's endless loop. *)
Definition spin_step (next : Z -> Z) (s : spin) : spin :=
  if sp_mid s then Spin (sp_state s) (u64 (sp_iters s + 1)) false
  else Spin (next (sp_state s)) (sp_iters s) true.

Fixpoint spin_run (next : Z -> Z) (n : nat) (s : spin) : spin :=
  match n with O => s | S n' => spin_run next n' (spin_step next s) end.

Section Psched.
Context {U H : Type} `{!UartDev U, !HartDev H}.
Abbreviation W := (world U H pg).

(** Link-time addresses: [trap_entry], [ptask_trampoline], [&sched_tf], and
    each task's [stack] array. *)
Context (trap_entry_addr trampoline_addr sched_tf_addr : Z) (stack_addr : nat -> Z).

Definition ptask_create (fn : ptask_fn_t) (name : string) : prog W unit :=
  n <- gget n_tasks ;;
  if n >=? PTASK_MAX then ret tt
  else
    gset_ (with_n_tasks (n + 1)) ;;
    let i := Z.to_nat n in
    let sp := Z.land (u64 (stack_addr i + PSTACK_SIZE)) (u64 (Z.lnot 15)) in
    let tf := TF (<[2%nat := sp]> (replicate 32 0)) trampoline_addr 0 0 in
    gset_ (fun g => with_p_tasks (<[i := PTask tf (Some fn) name]> (p_tasks g)) g).

Definition ptasks_register : prog W unit :=
  ptask_create ptask_a "spin-a" ;;
  ptask_create ptask_b "spin-b" ;;
  ptask_create ptask_c "spin-c".

Definition ptask_count : Z := 3.
Definition ptask_iters (i : Z) : prog W Z :=
  let ix := if i =? 0 then 0%nat else if i =? 1 then 1%nat else 2%nat in
  g <- gget spins ;;
  match g !! ix with Some s => ret (sp_iters s) | None => undef end.
Definition ptask_name (i : Z) : string :=
  if i =? 0 then "spin-a" else if i =? 1 then "spin-b" else "spin-c".

(** ** psched.c *)

Definition read_mcause : prog W Z := csrr "mcause".

Definition timer_arm : prog W unit :=
  t <- clint_get_mtime ;;
  gset_ (with_deadline (u64 (t + QUANTUM_TICKS))) ;;
  while_ hw_fuel
    (d <- gget deadline ;; t <- clint_get_mtime ;; ret (d <=? t))
    (d <- gget deadline ;; gset_ (with_deadline (u64 (d + QUANTUM_TICKS)))) ;;
  d <- gget deadline ;;
  clint_set_mtimecmp d.

Definition preempt_init : prog W unit :=
  csrw "mtvec" trap_entry_addr ;;
  csrw "mscratch" sched_tf_addr ;;
  gset_ (with_ticks 0) ;;
  gset_ (with_done false) ;;
  gset_ (with_have_prev false) ;;
  timer_arm ;;
  csrs "mie" MIE_MTIE ;;
  csrs "mstatus" MSTATUS_MIE.

Definition preempt_stop : prog W unit := csrc "mie" MIE_MTIE.

(** The statistics on the switch whose exit stamps are now known. *)
Definition account_switch (g : pg) : pg :=
  let dc := u64 (g_exit_cycles g - g_entry_cycles g) in
  let dt := u64 (g_exit_mtime g - g_entry_mtime g) in
  with_swn (u64 (swn g + 1))
    (with_swt (stat_add dt (swt g)) (with_swc (stat_add dc (swc g)) g)).

Definition ptrap_handler (old : tfp) : prog W tfp :=
  c <- read_mcause ;;
  when (negb (c =? MCAUSE_TIMER_IRQ))
    (uputs "\npreempt: unexpected trap (not a timer interrupt), halting\n" ;; park) ;;
  gset_ (fun g => with_ticks (u64 (ticks g + 1)) g) ;;
  otf <- gget (get_tf old) ;;
  match otf with
  | None => undef
  | Some tf =>
      gset_ (fun g => with_lat (stat_add (u64 (tf_mtime_at_entry tf - deadline g)) (lat g)) g) ;;
      hp <- gget have_prev ;;
      when hp (gset_ account_switch) ;;
      timer_arm ;;
      tk <- gget ticks ;;
      next <- (if tk >=? N_TICKS then
                 gset_ (with_done true) ;; ret TfBoot
               else
                 c <- gget current ;;
                 n <- gget n_tasks ;;
                 if n =? 0 then undef
                 else
                   gset_ (with_current (Z.rem (c + 1) n)) ;;
                   ret (TfTask (Z.to_nat (Z.rem (c + 1) n)))) ;;
      gset_ (with_g_entry_cycles (tf_cycle_at_entry tf)) ;;
      gset_ (with_g_entry_mtime (tf_mtime_at_entry tf)) ;;
      gset_ (with_have_prev true) ;;
      ret next
  end.

Definition account_final_switch : prog W unit := gset_ account_switch.

Definition put_stat3 (a b c : Z) : prog W unit :=
  uart_put_dec a ;;
  uputs " / " ;;
  uart_put_dec b ;;
  uputs " / " ;;
  uart_put_dec c.

Definition preempt_report : prog W unit :=
  account_final_switch ;;
  g <- gget id ;;
  uputs "\npreempt: done. " ;;
  uart_put_dec (ticks g) ;;
  uputs " timer ticks, " ;;
  uart_put_dec (swn g) ;;
  uputs " measured context switches\n\n" ;;
  uputs "task progress (task bodies never yield):\n" ;;
  for_each [0; 1; 2] (fun i =>
    uputs "  " ;;
    uputs (ptask_name i) ;;
    uputs ": " ;;
    n <- ptask_iters i ;;
    uart_put_dec n ;;
    uputs " iterations\n") ;;
  uputs "\ninterrupt latency (mtime tick = 100 ns):\n  min " ;;
  uart_put_dec (st_min (lat g)) ;;
  uputs " / max " ;;
  uart_put_dec (st_max (lat g)) ;;
  uputs " / avg " ;;
  avg <- udiv (st_sum (lat g)) (ticks g) ;;
  uart_put_dec avg ;;
  uputs " ticks  (" ;;
  put_stat3 (u64 (st_min (lat g) * CLINT_NS_PER_TICK))
            (u64 (st_max (lat g) * CLINT_NS_PER_TICK))
            (u64 (avg * CLINT_NS_PER_TICK)) ;;
  uputs " ns)\n" ;;
  uputs "\ncontext-switch cost, entry stamp to exit stamp:\n  min " ;;
  uart_put_dec (st_min (swc g)) ;;
  uputs " / max " ;;
  uart_put_dec (st_max (swc g)) ;;
  uputs " / avg " ;;
  cavg <- udiv (st_sum (swc g)) (swn g) ;;
  uart_put_dec cavg ;;
  uputs " cycles\n  cross-check via mtime: min " ;;
  uart_put_dec (st_min (swt g)) ;;
  uputs " / max " ;;
  uart_put_dec (st_max (swt g)) ;;
  uputs " / avg " ;;
  tavg <- udiv (st_sum (swt g)) (swn g) ;;
  uart_put_dec tavg ;;
  uputs " ticks (" ;;
  put_stat3 (u64 (st_min (swt g) * CLINT_NS_PER_TICK))
            (u64 (st_max (swt g) * CLINT_NS_PER_TICK))
            (u64 (tavg * CLINT_NS_PER_TICK)) ;;
  uputs " ns)\n".

(** ** Preemption *)

(** What happens between one return from the trap handler and the next. *)
Record slice : Type := Slice {
  sl_steps : nat;          (* stores the running context retires *)
  sl_hw : H -> H;          (* the hardware meanwhile *)
  sl_regs : list Z;        (* the interrupted x0-x31 as trap.S saves them *)
  sl_mepc : Z;
  sl_mtime : Z; sl_cycle : Z;        (* rdtime, rdcycle at trap entry *)
  sl_cause : Z;                      (* mcause *)
  sl_exit_cycle : Z; sl_exit_mtime : Z;   (* rdcycle, rdtime at trap exit *)
}.

(** The running context: [preempt_wait]'s wfi loop, or a task's body. *)
Definition run_context (n : nat) : prog W unit :=
  p <- gget frame ;;
  match p with
  | TfBoot => ret tt
  | TfTask i =>
      t <- gget (fun g => p_tasks g !! i) ;;
      match t with
      | Some (PTask _ (Some f) _) =>
          gset_ (fun g => with_spins (alter (spin_run (lcg f) n) (spin_ix f) (spins g)) g)
      | _ => undef
      end
  end.

(** One slice: the context runs, the timer traps, [trap.S] saves it in the
    current frame, calls [ptrap_handler], stamps the exit and resumes the
    frame it was given. *)
Definition preempt_tick (s : slice) : prog W unit :=
  run_context (sl_steps s) ;;
  hw_write (sl_hw s) ;;
  csrw "mcause" (sl_cause s) ;;
  p <- gget frame ;;
  gset_ (set_tf p (TF (sl_regs s) (sl_mepc s) (sl_mtime s) (sl_cycle s))) ;;
  next <- ptrap_handler p ;;
  gset_ (with_g_exit_cycles (sl_exit_cycle s)) ;;
  gset_ (with_g_exit_mtime (sl_exit_mtime s)) ;;
  gset_ (with_frame next).

(** [while (!done) wfi]: the boot context tests [done] whenever it runs. *)
Fixpoint preempt_wait (script : list slice) : prog W unit :=
  p <- gget frame ;;
  d <- gget done ;;
  if bool_decide (p = TfBoot) && d then ret tt
  else match script with
       | [] => nofuel
       | s :: script' => preempt_tick s ;; preempt_wait script'
       end.

Definition pmain (script : list slice) : prog W unit :=
  uart_init ;;
  uputs "\n========================================\n" ;;
  uputs "riscv-baremetal-demo: preemptive scheduler\n" ;;
  uputs "CLINT timer interrupt + full-context switch\n" ;;
  uputs "========================================\n\n" ;;
  uputs "clint: mtime@" ;;
  uart_put_hex 0x0200bff8 ;;
  uputs " mtimecmp@" ;;
  uart_put_hex 0x02004000 ;;
  uputs " timebase " ;;
  uart_put_dec CLINT_TICKS_PER_SEC ;;
  uputs " Hz (100 ns/tick)\n" ;;
  uputs "quantum 10000 ticks (1 ms), 200 ticks total\n\n" ;;
  ptasks_register ;;
  preempt_init ;;
  uputs "timer armed, entering wfi wait...\n" ;;
  preempt_wait script ;;
  preempt_stop ;;
  preempt_report ;;
  uputs "\npreempt: halting.\n" ;;
  park.
End Psched.

(** ** Statistics *)

Definition stat_of (l : list Z) : stat := fold_left (fun s v => stat_add v s) l stat0.

Definition sum (l : list Z) : Z := fold_right Z.add 0 l.

Lemma stat_of_snoc l v : stat_of (l ++ [v]) = stat_add v (stat_of l).
Proof. unfold stat_of. now rewrite fold_left_app. Qed.

(** ** Progress of the tasks *)

Lemma spin_run_add f a b s : spin_run f (a + b) s = spin_run f b (spin_run f a s).
Proof. revert s; induction a as [|a IH]; intros s; cbn; auto. Qed.

(** [n] stores of a fresh task complete [n / 2] iterations. *)
Lemma spin_run_iters f n x :
  sp_iters (spin_run f n (Spin x 0 false)) = u64 (Z.of_nat (n / 2)) /\
  sp_mid (spin_run f n (Spin x 0 false)) = Nat.odd n.
Proof.
  induction n as [|n [IHi IHm]]; [easy|].
  rewrite <- Nat.add_1_r, spin_run_add. cbn [spin_run]. unfold spin_step.
  rewrite IHm, IHi. pose proof (Nat.div2_odd n) as Hd.
  rewrite Nat.odd_add. destruct (Nat.odd n) eqn:Ho; cbn [sp_iters sp_mid];
    cbn [Nat.b2n] in Hd; rewrite Nat.div2_div in Hd; (split; [|reflexivity]).
  - rewrite <- (Nat.div_unique (n + 1) 2 (S (n / 2)) 0) by lia.
    unfold u64. rewrite Zplus_mod_idemp_l. f_equal. lia.
  - do 2 f_equal. apply Nat.div_unique with 1%nat; lia.
Qed.

(** ** The timer *)

(** A trap's cause is what [mcause] then reads. *)
Class TrapSpec (H : Type) `{!HartDev H} : Type :=
  mcause_rd h v : (csr_rd "mcause" (csr_wr "mcause" v h)).1 = v.

#[export] Instance ScriptHart_trap : TrapSpec ScriptHart.
Proof. intros h v. apply alookup_aupdate, String.eqb_eq. Qed.

Section Timer.
Context {U H : Type} `{!UartDev U, !UartSpec U, !HartDev H, !ClintSpec H, !TrapSpec H}.
Implicit Types (u : U) (h : H) (g : pg).

(** [timer_arm] when its loop does not run: two reads and the store. *)
Definition arm_deadline h : Z := u64 ((mr64 CLINT_MTIME h).1 + QUANTUM_TICKS).
Definition arm_hw h : H :=
  mw64 CLINT_MTIMECMP_HART0 (arm_deadline h) (mr64 CLINT_MTIME (mr64 CLINT_MTIME h).2).2.

(** The counter is far from wrapping and moves less than a quantum per access. *)
Definition calm h : Prop := mtime h + QUANTUM_TICKS < 2 ^ 64 /\ mtime_gap < QUANTUM_TICKS.

Lemma mtime_of_read h : mtime h < 2 ^ 64 -> (mr64 CLINT_MTIME h).1 = mtime h.
Proof. intros Hb. rewrite mtime_read. apply u64_small. pose proof (mtime_u64 h). red. lia. Qed.

Lemma arm_deadline_eq h : calm h -> arm_deadline h = mtime h + QUANTUM_TICKS.
Proof.
  intros [Hw Hg]. unfold arm_deadline, QUANTUM_TICKS in *.
  rewrite mtime_of_read by lia. apply u64_small. pose proof (mtime_u64 h). red. lia.
Qed.

Lemma timer_arm_runs h g :
  calm h -> hw_fuel <> O ->
  runs (U:=U) timer_arm h g tt [] (arm_hw h) (with_deadline (arm_deadline h) g).
Proof.
  intros Hc Hf. pose proof (arm_deadline_eq h Hc) as Hd. destruct Hc as [Hw Hg].
  destruct hw_fuel as [|n] eqn:En; [easy|].
  unfold timer_arm, clint_get_mtime, clint_set_mtimecmp. rewrite En.
  pose proof (mtime_mono h). pose proof mtime_gap_pos.
  xstep. xstep. fold (arm_deadline h). unfold QUANTUM_TICKS in *. cbn [while_]. eapply runs_bind0.
  - eapply runs_bind0; [xrun|cbn beta].
    cbn [deadline with_deadline]. rewrite mtime_of_read by lia.
    rewrite (proj2 (Z.leb_gt _ _)) by lia. xprim.
  - xrun.
Qed.

Abbreviation slice := (slice (H:=H)).
Implicit Types (l : list slice) (s : slice).

(** ** The run, abstractly: which context runs in which slice *)

(** The [j]-th slice runs the boot context first, then the tasks in turn. *)
Definition sched_frame (j : nat) : tfp :=
  match j with O => TfBoot | S j' => TfTask (j' mod 3) end.

(** Stores task [i] retires in the slices [l], whose head is slice [j]. *)
Fixpoint steps_of (i j : nat) l : nat :=
  match l with
  | [] => 0
  | s :: l' => (if bool_decide (sched_frame j = TfTask i) then sl_steps s else 0)
               + steps_of i (S j) l'
  end.

Lemma steps_of_snoc i j l s :
  steps_of i j (l ++ [s])
  = (steps_of i j l + if bool_decide (sched_frame (j + length l) = TfTask i) then sl_steps s else 0)%nat.
Proof.
  revert j; induction l as [|x l IH]; intros j.
  - cbn [app steps_of length]. rewrite (Nat.add_0_r j). lia.
  - cbn [app steps_of length]. rewrite IH. rewrite <- Nat.add_succ_comm. lia.
Qed.

Definition cost_c s : Z := u64 (sl_exit_cycle s - sl_cycle s).
Definition cost_t s : Z := u64 (sl_exit_mtime s - sl_mtime s).
Definition latency s (d : Z) : Z := u64 (sl_mtime s - d).

Definition body_of (i : nat) : ptask_fn_t :=
  match i with O => ptask_a | 1%nat => ptask_b | _ => ptask_c end.
Definition spin_init (i : nat) : spin :=
  match i with O => Spin 1 0 false | 1%nat => Spin 2 0 false | _ => Spin 3 0 false end.
Definition progress l : list spin :=
  map (fun i => spin_run (lcg (body_of i)) (steps_of i 0 l) (spin_init i)) (seq 0 3).

(** What the globals record after the slices [l] with compare values [ds]. *)
Record run_log l (ds : list Z) g : Prop := {
  rl_ticks : ticks g = Z.of_nat (length l);
  rl_n : n_tasks g = 3;
  rl_fns : map pt_fn (p_tasks g) = [Some ptask_a; Some ptask_b; Some ptask_c];
  rl_lat : lat g = stat_of (zip_with latency l ds);
  rl_swc : swc g = stat_of (map cost_c (removelast l));
  rl_swt : swt g = stat_of (map cost_t (removelast l));
  rl_swn : swn g = Z.of_nat (pred (length l));
  rl_prev : match last l with
            | None => have_prev g = false
            | Some s => have_prev g = true /\
                g_entry_cycles g = sl_cycle s /\ g_entry_mtime g = sl_mtime s /\
                g_exit_cycles g = sl_exit_cycle s /\ g_exit_mtime g = sl_exit_mtime s
            end;
  rl_spins : spins g = progress l;
}.

(** The scheduler is still running after [l]. *)
Record running l g : Prop := {
  rn_frame : frame g = sched_frame (length l);
  rn_current : current g = match length l with O => -1 | S j => Z.of_nat (j mod 3) end;
  rn_done : done g = false;
}.

Definition timer_slice s : Prop :=
  sl_cause s = MCAUSE_TIMER_IRQ /\
  forall h, calm (csr_rd "mcause" (csr_wr "mcause" MCAUSE_TIMER_IRQ (sl_hw s h))).2.

Definition tick_hw s h : H :=
  arm_hw (csr_rd "mcause" (csr_wr "mcause" (sl_cause s) (sl_hw s h))).2.
Definition tick_deadline s h : Z :=
  arm_deadline (csr_rd "mcause" (csr_wr "mcause" (sl_cause s) (sl_hw s h))).2.

(** The compare value in force during each slice. *)
Fixpoint deadlines (d : Z) l h : list Z :=
  match l with
  | [] => []
  | s :: l' => d :: deadlines (tick_deadline s h) l' (tick_hw s h)
  end.

Lemma run_context_runs l ds h g s :
  run_log l ds g -> frame g = sched_frame (length l) ->
  runs (U:=U) (run_context (sl_steps s)) h g tt [] h (with_spins (progress (l ++ [s])) g).
Proof.
  intros [] Hf. unfold run_context. xstep. rewrite Hf.
  unfold progress at 1. cbn [map seq]. rewrite !steps_of_snoc.
  destruct (length l) as [|j] eqn:El; cbn [Nat.add sched_frame].
  - eapply runs_conv; [xstep|auto..].
    cbn [bool_decide decide decide_rel tfp_eq_dec tfp_rec tfp_rect]. rewrite !Nat.add_0_r.
    change (g = with_spins (progress l) g). rewrite <- rl_spins0. now destruct g.
  - assert (j mod 3 < 3)%nat as Hj by (apply Nat.mod_upper_bound; lia).
    assert (exists t, p_tasks g !! (j mod 3)%nat = Some t /\ pt_fn t = Some (body_of (j mod 3))) as (t & Et & Ef).
    { assert (map pt_fn (p_tasks g) !! (j mod 3)%nat = Some (Some (body_of (j mod 3)))) as E
        by (rewrite rl_fns0; now destruct (j mod 3)%nat as [|[|[|]]]; [..|lia]).
      rewrite list_lookup_fmap in E. destruct (p_tasks g !! (j mod 3)%nat) as [t|]; [|easy].
      cbn in E. exists t. split; [reflexivity|]. now injection E. }
    xstep. rewrite Et. destruct t as [tf f nm]. cbn [pt_fn] in Ef. subst f.
    eapply runs_conv; [xstep|auto..]. f_equal. rewrite rl_spins0. unfold progress. cbn [map seq].
    destruct (j mod 3)%nat as [|[|[|]]] eqn:Ej; [..|lia];
      cbn -[spin_run steps_of lcg]; rewrite ?Nat.add_0_r, !spin_run_add; reflexivity.
Qed.

Lemma get_set_tf p t g : is_Some (get_tf p g) -> get_tf p (set_tf p t g) = Some t.
Proof.
  destruct p as [|i]; [reflexivity|]. cbn. intros [x Hx].
  rewrite list_lookup_alter_eq. destruct (p_tasks g !! i) as [k|]; [reflexivity|easy].
Qed.

Lemma set_tf_fns p t g : map pt_fn (p_tasks (set_tf p t g)) = map pt_fn (p_tasks g).
Proof.
  destruct p as [|i]; [reflexivity|]. cbn. generalize (p_tasks g) as k.
  induction i as [|i IH]; intros [|x k]; try reflexivity; cbn; f_equal. apply IH.
Qed.

Lemma frame_valid l ds g : run_log l ds g -> is_Some (get_tf (sched_frame (length l)) g).
Proof.
  intros R. destruct (length l) as [|j]; cbn -[Nat.modulo]; [now eexists|].
  assert (length (p_tasks g) = 3%nat) as E
    by (rewrite <- (length_map pt_fn), (rl_fns _ _ _ R); reflexivity).
  apply fmap_is_Some, lookup_lt_is_Some_2. rewrite E. apply Nat.mod_upper_bound. lia.
Qed.

(** The frame the handler returns and the globals it leaves, as functions of
    the globals it finds and the interrupted frame [tf]. *)
Definition handled_next g : tfp :=
  if ticks g + 1 >=? N_TICKS then TfBoot
  else TfTask (Z.to_nat (Z.rem (current g + 1) (n_tasks g))).
Definition handled (tf : trapframe_t) (d : Z) g : pg :=
  let g1 := with_lat (stat_add (u64 (tf_mtime_at_entry tf - deadline g)) (lat g))
              (with_ticks (ticks g + 1) g) in
  let g2 := with_deadline d (if have_prev g then account_switch g1 else g1) in
  let g3 := if ticks g + 1 >=? N_TICKS then with_done true g2
            else with_current (Z.rem (current g + 1) (n_tasks g)) g2 in
  with_have_prev true (with_g_entry_mtime (tf_mtime_at_entry tf)
    (with_g_entry_cycles (tf_cycle_at_entry tf) g3)).

Lemma ptrap_handler_runs h g p tf :
  let h' := (csr_rd "mcause" h).2 in
  (csr_rd "mcause" h).1 = MCAUSE_TIMER_IRQ -> get_tf p g = Some tf ->
  0 <= ticks g < N_TICKS -> n_tasks g <> 0 -> calm h' -> hw_fuel <> O ->
  runs (U:=U) (ptrap_handler p) h g (handled_next g) [] (arm_hw h') (handled tf (arm_deadline h') g).
Proof.
  intros h' Hc Htf Ht Hn Hcalm Hf. unfold ptrap_handler, read_mcause.
  xstep. rewrite Hc. change (negb (MCAUSE_TIMER_IRQ =? MCAUSE_TIMER_IRQ)) with false.
  do 3 xstep. fold h'. unfold N_TICKS in *. rewrite u64_small by (red; lia).
  replace (get_tf p (with_ticks (ticks g + 1) g)) with (Some tf)
    by (rewrite <- Htf; now destruct p).
  do 2 xstep. unfold handled, handled_next, N_TICKS. cbn [have_prev with_lat with_ticks].
  set (g1 := with_lat _ (with_ticks (ticks g + 1) g)).
  eapply (runs_bind0 _ _ _ _ tt _ (if have_prev g then account_switch g1 else g1)).
  { destruct (have_prev g); [apply runs_when_true|]; xrun. }
  set (g2 := if have_prev g then account_switch g1 else g1).
  eapply runs_bind0; [apply timer_arm_runs; assumption|cbn beta]. xstep.
  assert (ticks g2 = ticks g + 1 /\ current g2 = current g /\ n_tasks g2 = n_tasks g)
    as (T & C & N) by (unfold g2; now destruct (have_prev g)).
  cbn [ticks with_deadline]. rewrite T. clearbody g2.
  destruct (ticks g + 1 >=? 200).
  - eapply runs_bind0; [xrun|cbn beta]. xrun.
  - eapply runs_bind0; [|cbn beta; xrun].
    do 2 xstep. cbn [current n_tasks with_deadline]. rewrite C, N, (proj2 (Z.eqb_neq _ 0) Hn). xrun.
Qed.

Lemma last_removelast l s : last l = Some s -> l = removelast l ++ [s].
Proof.
  intros Hl. apply last_Some in Hl as [l' ->]. now rewrite removelast_last.
Qed.

(** The log after one more slice, from the log before it. *)
Lemma handled_log l ds g s d f :
  run_log l ds g -> length ds = length l -> (length l < 200)%nat ->
  let tf := TF (sl_regs s) (sl_mepc s) (sl_mtime s) (sl_cycle s) in
  run_log (l ++ [s]) (ds ++ [deadline g])
    (with_frame f (with_g_exit_mtime (sl_exit_mtime s)
       (with_g_exit_cycles (sl_exit_cycle s)
          (handled tf d (set_tf (frame g) tf (with_spins (progress (l ++ [s])) g)))))).
Proof.
  intros [] Hd Hl tf.
  pose proof (set_tf_fns (frame g) tf (with_spins (progress (l ++ [s])) g)) as Hfn.
  assert (forall g' : pg, ticks (account_switch g') = ticks g') as Ht by reflexivity.
  destruct (last l) as [s0|] eqn:El.
  - destruct rl_prev0 as (Hp & E1 & E2 & E3 & E4). pose proof (last_removelast _ _ El) as Er.
    unfold handled. destruct (frame g) as [|i]; cbn -[stat_add] in *; rewrite Hp;
      destruct (ticks g + 1 >=? N_TICKS); split; cbn -[stat_add] in *;
      rewrite ?last_snoc, ?removelast_last, ?length_app, ?zip_with_app by lia;
      rewrite ?Hfn, ?rl_ticks0, ?rl_lat0, ?rl_swc0, ?rl_swt0, ?rl_swn0, ?E1, ?E2, ?E3, ?E4;
      cbn [length zip_with map]; rewrite ?stat_of_snoc; auto 10; try lia;
      try (rewrite Er at 2; rewrite map_app; cbn [map]; now rewrite stat_of_snoc).
    all: assert (length l <> O) by (destruct l; cbn; [easy|lia]);
      rewrite u64_small by (red; lia); lia.
  - apply last_None in El. subst l. destruct ds; [|easy]. cbn in *.
    unfold handled. destruct (frame g) as [|i]; cbn -[stat_add] in *; rewrite rl_prev0;
      destruct (ticks g + 1 >=? N_TICKS); split; cbn -[stat_add] in *;
      rewrite ?Hfn, ?rl_ticks0, ?rl_lat0; auto 10.
Qed.

Lemma next_frame l g :
  running l g -> ticks g = Z.of_nat (length l) -> n_tasks g = 3 ->
  (length l < 199)%nat ->
  handled_next g = sched_frame (S (length l)) /\
  Z.rem (current g + 1) (n_tasks g) = Z.of_nat (length l mod 3).
Proof.
  intros [] Ht Hn Hl. unfold handled_next, N_TICKS. rewrite Ht, Hn.
  rewrite Z.geb_leb, (proj2 (Z.leb_gt _ _)) by lia. cbn [sched_frame].
  assert (Z.rem (current g + 1) 3 = Z.of_nat (length l mod 3)) as E.
  { rewrite rn_current0. destruct (length l) as [|j]; [reflexivity|].
    rewrite Z.rem_mod_nonneg by (pose proof (Nat2Z.is_nonneg (j mod 3)); lia).
    rewrite !Nat2Z.inj_mod, (Nat2Z.inj_succ j), <- Z.add_1_r. apply Zplus_mod_idemp_l. }
  split; [|exact E]. rewrite E. now rewrite Nat2Z.id.
Qed.

Lemma preempt_tick_runs l ds h g s :
  run_log l ds g -> running l g -> length ds = length l -> (length l < 200)%nat ->
  timer_slice s -> hw_fuel <> O ->
  exists g', runs (U:=U) (preempt_tick s) h g tt [] (tick_hw s h) g' /\
    run_log (l ++ [s]) (ds ++ [deadline g]) g' /\ deadline g' = tick_deadline s h /\
    if (length l <? 199)%nat then running (l ++ [s]) g'
    else frame g' = TfBoot /\ done g' = true.
Proof.
  intros R Rn Hd Hl [Hc Hcalm] Hf.
  pose proof (handled_log l ds g s (tick_deadline s h) (handled_next g) R Hd Hl) as HL.
  cbn zeta in HL. set (tf := TF _ _ _ _) in HL.
  set (g1 := set_tf (frame g) tf (with_spins (progress (l ++ [s])) g)) in HL.
  assert (ticks g1 = ticks g /\ n_tasks g1 = n_tasks g /\ current g1 = current g /\
          done g1 = done g) as (T1 & T2 & T3 & T4)
    by (unfold g1; now destruct (frame g)).
  assert (handled_next g1 = handled_next g) as Hn by (unfold handled_next; now rewrite T1, T2, T3).
  pose proof (rl_ticks _ _ _ R) as Ht. pose proof (rl_n _ _ _ R) as H3.
  eexists. split; [|split; [exact HL|split]].
  - unfold preempt_tick.
    eapply runs_bind0; [eapply run_context_runs; [exact R|apply Rn]|cbn beta].
    do 4 xstep. fold tf. cbn [frame with_spins]. fold g1.
    eapply runs_bind0; [apply ptrap_handler_runs with (tf := tf)|cbn beta; rewrite Hn; xrun].
    + rewrite Hc. apply mcause_rd.
    + unfold g1. apply get_set_tf. rewrite (rn_frame _ _ Rn).
      destruct (frame_valid _ _ _ R) as [x Hx]. exists x. rewrite <- Hx.
      now destruct (sched_frame _).
    + rewrite T1, Ht. unfold N_TICKS. lia.
    + rewrite T2, H3. easy.
    + rewrite Hc. apply Hcalm.
    + exact Hf.
  - unfold handled. cbn. destruct (ticks g1 + 1 >=? N_TICKS); reflexivity.
  - destruct (Nat.ltb_spec (length l) 199) as [Hlt|Hge].
    + destruct (next_frame l g Rn Ht H3 Hlt) as [Hnx Hcur].
      unfold handled, N_TICKS. rewrite T1, T2, T3, Ht, Z.geb_leb, (proj2 (Z.leb_gt _ _)) by lia.
      split; rewrite ?length_app, ?Nat.add_1_r; cbn -[Nat.modulo Z.rem handled_next];
        [exact Hnx|exact Hcur|destruct (have_prev g1); cbn; rewrite T4; apply Rn].
    + unfold handled, handled_next, N_TICKS. rewrite T1, Ht, Z.geb_leb, (proj2 (Z.leb_le _ _)) by lia.
      split; reflexivity.
Qed.

Definition hw_after l h : H := fold_left (fun h s => tick_hw s h) l h.

Lemma preempt_wait_runs rest l ds h g :
  run_log l ds g -> running l g -> length ds = length l -> (length l < 200)%nat ->
  (200 <= length l + length rest)%nat -> Forall timer_slice rest -> hw_fuel <> O ->
  let more := take (200 - length l) rest in
  exists g', runs (U:=U) (preempt_wait rest) h g tt [] (hw_after more h) g' /\
    run_log (l ++ more) (ds ++ deadlines (deadline g) more h) g' /\
    frame g' = TfBoot /\ done g' = true.
Proof.
  revert l ds h g; induction rest as [|s rest IH];
    intros l ds h g R Rn Hd Hl Hlen Hs Hf more; [cbn in Hlen; lia|].
  apply Forall_cons_1 in Hs as [Hs Hrest].
  destruct (preempt_tick_runs l ds h g s R Rn Hd Hl Hs Hf) as (g1 & E & R1 & D1 & Next).
  assert (exists g', runs (U:=U) (preempt_wait rest) (tick_hw s h) g1 tt []
            (hw_after (take (199 - length l) rest) (tick_hw s h)) g' /\
    run_log (l ++ s :: take (199 - length l) rest)
      (ds ++ deadline g :: deadlines (tick_deadline s h) (take (199 - length l) rest) (tick_hw s h)) g' /\
    frame g' = TfBoot /\ done g' = true) as (g' & E' & Hg').
  - destruct (Nat.ltb_spec (length l) 199) as [Hlt|Hge].
    + destruct (IH _ _ (tick_hw s h) g1 R1 Next) as (g2 & E2 & R2 & F2);
        rewrite ?length_app, ?Hd; cbn [length] in *; auto; try lia.
      rewrite length_app in *. cbn [length] in *.
      replace (200 - (length l + 1))%nat with (199 - length l)%nat in * by lia.
      exists g2. split; [exact E2|]. split; [|exact F2].
      rewrite D1, <- !app_assoc in R2. exact R2.
    + replace (199 - length l)%nat with O by lia. cbn [take].
      exists g1. split; [|split; [exact R1|exact Next]]. destruct Next as [Hfr Hdn].
      destruct rest; cbn [preempt_wait]; do 2 xstep; rewrite Hdn, Hfr; apply runs_ret.
  - exists g'. unfold more. replace (200 - length l)%nat with (S (199 - length l)) by lia.
    split; [|exact Hg']. cbn [preempt_wait]. do 2 xstep. rewrite (rn_done _ _ Rn), andb_false_r.
    eapply runs_bind0; [exact E|exact E'].
Qed.
End Timer.

(** ** The reported numbers *)

Definition min_list (l : list Z) : Z := fold_right Z.min (2 ^ 64 - 1) l.
Definition max_list (l : list Z) : Z := fold_right Z.max 0 l.

Lemma stat_of_lists l :
  Forall is_u64 l ->
  stat_of l = Stat (min_list l) (max_list l) (u64 (sum l)).
Proof.
  induction l as [|v l IH] using rev_ind; intros Hl; [reflexivity|].
  apply Forall_app in Hl as [Hl Hv]. apply Forall_cons_1 in Hv as [Hv _]. unfold is_u64 in Hv.
  rewrite stat_of_snoc, IH by exact Hl. unfold stat_add, min_list, max_list, sum. cbn [st_min st_max st_sum].
  rewrite !fold_right_app. cbn [fold_right]. f_equal.
  - replace (Z.min v (2 ^ 64 - 1)) with v by lia. clear -Hv.
    assert (fold_right Z.min v l = Z.min v (fold_right Z.min (2 ^ 64 - 1) l)) as ->
      by (induction l as [|x l IH]; cbn; [lia|rewrite IH; lia]).
    destruct (Z.ltb_spec v (fold_right Z.min (2 ^ 64 - 1) l)); lia.
  - replace (Z.max v 0) with v by lia. clear -Hv.
    assert (fold_right Z.max v l = Z.max v (fold_right Z.max 0 l)) as ->
      by (induction l as [|x l IH]; cbn; [lia|rewrite IH; lia]).
    rewrite Z.gtb_ltb. destruct (Z.ltb_spec (fold_right Z.max 0 l) v); lia.
  - unfold u64. rewrite Zplus_mod_idemp_l. f_equal. clear.
    induction l as [|x l IH]; cbn; [lia|]. rewrite <- IH. lia.
Qed.

(** The text of [preempt_report] for the given measurements. *)
Definition stat_text (a b c : Z) : list Z :=
  fmt_dec a ++ lit " / " ++ fmt_dec b ++ lit " / " ++ fmt_dec c.
Definition mmavg_text (l : list Z) : list Z :=
  let n := Z.of_nat (length l) in
  fmt_dec (min_list l) ++ lit " / max " ++ fmt_dec (max_list l) ++ lit " / avg "
  ++ fmt_dec (u64 (sum l) / n).
Definition ns_text (l : list Z) : list Z :=
  let n := Z.of_nat (length l) in
  stat_text (u64 (min_list l * 100)) (u64 (max_list l * 100)) (u64 (u64 (sum l) / n * 100))
  ++ lit " ns)\n".

Definition report_text (its : list Z) (lats costs_c costs_t : list Z) : list Z :=
  lit "\npreempt: done. " ++ fmt_dec (Z.of_nat (length lats)) ++ lit " timer ticks, "
  ++ fmt_dec (Z.of_nat (length costs_c)) ++ lit " measured context switches\n\n"
  ++ lit "task progress (task bodies never yield):\n"
  ++ concat (zip_with (fun nm n => lit "  " ++ lit nm ++ lit ": " ++ fmt_dec n ++ lit " iterations\n")
               ["spin-a"; "spin-b"; "spin-c"]%string its)
  ++ lit "\ninterrupt latency (mtime tick = 100 ns):\n  min " ++ mmavg_text lats
  ++ lit " ticks  (" ++ ns_text lats
  ++ lit "\ncontext-switch cost, entry stamp to exit stamp:\n  min " ++ mmavg_text costs_c
  ++ lit " cycles\n  cross-check via mtime: min " ++ mmavg_text costs_t
  ++ lit " ticks (" ++ ns_text costs_t.

Definition pmain_banner : list Z :=
  lit "\n========================================\n"
  ++ lit "riscv-baremetal-demo: preemptive scheduler\n"
  ++ lit "CLINT timer interrupt + full-context switch\n"
  ++ lit "========================================\n\n"
  ++ lit "clint: mtime@0x200bff8 mtimecmp@0x2004000 timebase 10000000 Hz (100 ns/tick)\n"
  ++ lit "quantum 10000 ticks (1 ms), 200 ticks total\n\n"
  ++ lit "timer armed, entering wfi wait...\n".

Lemma min_list_range l : Forall is_u64 l -> is_u64 (min_list l).
Proof. induction 1 as [|x l Hx Hl IH]; unfold is_u64 in *; cbn [min_list fold_right]; [lia|]. unfold min_list in *. lia. Qed.
Lemma max_list_range l : Forall is_u64 l -> is_u64 (max_list l).
Proof. induction 1 as [|x l Hx Hl IH]; unfold is_u64 in *; cbn [max_list fold_right]; [lia|]. unfold max_list in *. lia. Qed.
#[export] Hint Resolve min_list_range max_list_range : word.

Section Report.
Context {U H : Type} `{!UartDev U, !UartSpec U, !HartDev H}.

Lemma prints_stat3 a b c :
  is_u64 a -> is_u64 b -> is_u64 c -> prints (H:=H) (put_stat3 a b c) (stat_text a b c).
Proof. intros. unfold put_stat3, stat_text. solve_prints. Qed.

Lemma runs_iters i h g s :
  spins g !! Z.to_nat i = Some s -> 0 <= i < 3 ->
  runs (U:=U) (H:=H) (ptask_iters i) h g (sp_iters s) [] h g.
Proof.
  intros Hs Hi u. unfold ptask_iters, bind, gget, gets. cbn [w_glob].
  assert (i = 0 \/ i = 1 \/ i = 2) as [->|[->| ->]] by lia;
    [change (Z.to_nat 0) with 0%nat in Hs|change (Z.to_nat 1) with 1%nat in Hs
    |change (Z.to_nat 2) with 2%nat in Hs]; cbn -[lookup]; now rewrite Hs.
Qed.

Lemma preempt_report_runs h g its lats cc ct :
  let g' := account_switch g in
  ticks g = Z.of_nat (length lats) -> lat g = stat_of lats ->
  swn g' = Z.of_nat (length cc) -> swc g' = stat_of cc -> swt g' = stat_of ct ->
  length cc = length ct -> (0 < length lats < 1000)%nat -> (0 < length cc < 1000)%nat ->
  Forall is_u64 lats -> Forall is_u64 cc -> Forall is_u64 ct -> Forall is_u64 its ->
  map sp_iters (spins g) = its -> length its = 3%nat ->
  runs (U:=U) (H:=H) preempt_report h g tt (report_text its lats cc ct) h g'.
Proof.
  intros g' Ht Hl Hsn Hc Hti Hct Hn1 Hn2 Wl Wc Wt Wi Hi H3.
  destruct (spins g) as [|s1 [|s2 [|s3 [|]]]] eqn:Es;
    rewrite <- Hi in H3; cbn in H3; try (exfalso; lia). clear H3.
  cbn [map] in Hi. subst its.
  apply Forall_cons_1 in Wi as [W1 Wi]. apply Forall_cons_1 in Wi as [W2 Wi].
  apply Forall_cons_1 in Wi as [W3 _].
  assert (ticks g' = Z.of_nat (length lats)) as Ht' by exact Ht.
  assert (lat g' = stat_of lats) as Hl' by exact Hl.
  assert (spins g' = [s1; s2; s3]) as Es' by exact Es.
  rewrite stat_of_lists in Hl', Hc, Hti by assumption.
  assert (is_u64 (Z.of_nat (length lats))) by (red; lia).
  assert (is_u64 (Z.of_nat (length cc))) by (red; lia).
  unfold preempt_report, account_final_switch.
  eapply runs_conv; [xstep; fold g'; clearbody g'; xstep; unfold id|..].
  - rewrite Hl', Hc, Hti, Hsn, Ht'. cbn [st_min st_max st_sum for_each].
    repeat first [ xstep
                 | eapply runs_bind0; [apply runs_udiv; lia|cbn beta]
                 | eapply runs_bind; [apply runs_prints, prints_stat3; u64_side|cbn beta]
                 | eapply runs_bind0; [eapply runs_iters; [rewrite Es'; reflexivity|lia]|cbn beta]
                 | eapply runs_bind ].
  - reflexivity.
  - unfold report_text, mmavg_text, ns_text. rewrite <- Hct.
    cbn [zip_with concat ptask_name Z.eqb Pos.eqb]. now rewrite <- !app_assoc.
  - reflexivity.
  - reflexivity.
Qed.
End Report.

(** ** The claims *)

Section Claims.
Context {U H : Type} `{!UartDev U, !UartSpec U, !HartDev H, !ClintSpec H, !TrapSpec H}.
Context (ta tr sa : Z) (stk : nat -> Z).
Abbreviation slice := (slice (H:=H)).

Definition registered_tf (i : nat) : trapframe_t :=
  TF (<[2%nat := Z.land (u64 (stk i + PSTACK_SIZE)) (u64 (Z.lnot 15))]> (replicate 32 0)) tr 0 0.
Definition registered : pg :=
  with_n_tasks 3 (with_p_tasks
    [PTask (registered_tf 0) (Some ptask_a) "spin-a";
     PTask (registered_tf 1) (Some ptask_b) "spin-b";
     PTask (registered_tf 2) (Some ptask_c) "spin-c"] boot_pg).

Lemma ptasks_register_runs (h : H) :
  runs (U:=U) (ptasks_register tr stk) h boot_pg tt [] h registered.
Proof. intros u. reflexivity. Qed.

(** The hardware around [preempt_init]'s [timer_arm]. *)
Definition init_pre (h : H) : H := csr_wr "mscratch" sa (csr_wr "mtvec" ta h).
Definition init_hw (h : H) : H :=
  csrs_hw "mstatus" MSTATUS_MIE (csrs_hw "mie" MIE_MTIE (arm_hw (init_pre h))).

Lemma preempt_init_runs h :
  calm (init_pre h) -> hw_fuel <> O ->
  runs (U:=U) (preempt_init ta sa) h registered tt [] (init_hw h)
    (with_deadline (arm_deadline (init_pre h)) registered).
Proof.
  intros Hc Hf. unfold preempt_init. do 5 xstep.
  eapply runs_bind0; [apply timer_arm_runs; assumption|cbn beta]. xrun.
Qed.

Lemma registered_log d :
  run_log (H:=H) [] [] (with_deadline d registered) /\ running (H:=H) [] (with_deadline d registered).
Proof. split; split; reflexivity. Qed.

Definition first_deadline (h : H) : Z := arm_deadline (init_pre h).
Definition compare_values (script : list slice) (h : H) : list Z :=
  deadlines (first_deadline h) (take 200 script) (init_hw h).

Lemma wait_from_init script h :
  calm (init_pre h) -> hw_fuel <> O -> Forall timer_slice script -> (200 <= length script)%nat ->
  exists g', runs (U:=U) (preempt_wait script) (init_hw h)
      (with_deadline (first_deadline h) registered) tt [] (hw_after (take 200 script) (init_hw h)) g' /\
    run_log (take 200 script) (compare_values script h) g' /\ frame g' = TfBoot /\ done g' = true.
Proof.
  intros Hc Hf Hs Hlen. destruct (registered_log (first_deadline h)) as [R Rn].
  exact (preempt_wait_runs script [] [] (init_hw h) _ R Rn eq_refl ltac:(cbn; lia) Hlen Hs Hf).
Qed.

Lemma deadlines_length d l (h : H) : length (deadlines d l h) = length l.
Proof. revert d h; induction l as [|s l IH]; intros; cbn; auto. Qed.

(** The numbers the report is computed from. *)
Definition iterations (l : list slice) : list Z :=
  map (fun i => u64 (Z.of_nat (steps_of i 0 l / 2))) [0; 1; 2]%nat.
Definition latencies (script : list slice) (h : H) : list Z :=
  zip_with latency (take 200 script) (compare_values script h).

Lemma progress_iters l : map sp_iters (progress l) = iterations l.
Proof.
  unfold progress, iterations. cbn [map seq body_of spin_init].
  now rewrite !(fun f n x => proj1 (spin_run_iters f n x)).
Qed.

Lemma log_reports l ds g :
  run_log l ds g -> length l = 200%nat -> length ds = 200%nat ->
  forall h : H, runs (U:=U) preempt_report h g tt
    (report_text (iterations l) (zip_with latency l ds) (map cost_c l) (map cost_t l)) h (account_switch g).
Proof.
  intros [] Hl Hd h.
  assert (length (zip_with latency l ds) = 200%nat) as HL by (rewrite length_zip_with; lia).
  destruct (last l) as [s0|] eqn:El; [|apply last_None in El; now subst].
  destruct rl_prev0 as (Hp & E1 & E2 & E3 & E4). pose proof (last_removelast _ _ El) as Er.
  apply preempt_report_runs; rewrite ?length_map, ?HL, ?Hl; try lia; auto.
  - cbn [account_switch swn with_swn]. rewrite rl_swn0, Hl. reflexivity.
  - cbn [account_switch swc with_swc with_swn with_swt]. rewrite rl_swc0, E1, E3.
    change (u64 (sl_exit_cycle s0 - sl_cycle s0)) with (cost_c s0). rewrite Er at 2.
    rewrite map_app. cbn [map]. now rewrite stat_of_snoc.
  - cbn [account_switch swt with_swc with_swn with_swt]. rewrite rl_swt0, E2, E4.
    change (u64 (sl_exit_mtime s0 - sl_mtime s0)) with (cost_t s0). rewrite Er at 2.
    rewrite map_app. cbn [map]. now rewrite stat_of_snoc.
  - clear. revert ds; induction l as [|x l IH]; intros [|d ds]; cbn; constructor; [apply u64_range|apply IH].
  - apply Forall_map, Forall_true. intros. apply u64_range.
  - apply Forall_map, Forall_true. intros. apply u64_range.
  - apply Forall_map, Forall_true. intros. apply u64_range.
  - rewrite rl_spins0. apply progress_iters.
Qed.

Lemma report_text_bytes its l1 l2 l3 : Forall (fun c => 0 <= c < 256) (report_text its l1 l2 l3).
Proof.
  unfold report_text, mmavg_text, ns_text, stat_text. text_bytes.
  destruct its as [|a [|b [|c its]]]; cbn [zip_with concat]; text_bytes.
Qed.


(** [main] prints its banner and a report computed from the run: 200
    ticks, 200 measured switches, per-task iterations, and minimum, maximum
    and average of the 200 latencies (entry stamp minus the compare value in
    force) and of the 200 switch costs (exit stamp minus entry stamp), then
    parks; in particular no division by zero happens. *)
Theorem pmain_reports script u (h : H)
    (Hfuel : hw_fuel <> O) (Hcalm : calm (init_pre h))
    (Hscript : Forall timer_slice script) (Hlen : (200 <= length script)%nat) :
  let l := take 200 script in
  main_sends (pmain ta tr sa stk script) u h boot_pg
    (pmain_banner
     ++ report_text (iterations l) (latencies script h) (map cost_c l) (map cost_t l)
     ++ lit "\npreempt: halting.\n")
    (fun _ g' => ticks g' = 200 /\ swn g' = 200).
Proof.
  intros l. destruct (wait_from_init script h) as (g' & E & L & Hf & Hd); auto.
  assert (length l = 200%nat) as Hl by (unfold l; rewrite length_take; lia).
  pose proof (log_reports _ _ _ L Hl) as Hrep.
  unfold compare_values in Hrep. rewrite deadlines_length in Hrep. specialize (Hrep Hl).
  apply main_sends_intro; [|unfold pmain_banner; text_bytes; apply report_text_bytes].
  do 3 eexists. split; [|split].
  - xrun.
    eapply halts_bind0; [apply ptasks_register_runs|cbn beta].
    eapply halts_bind0; [now apply preempt_init_runs|cbn beta]. xstep.
    eapply halts_bind0; [exact E|cbn beta].
    unfold preempt_stop. xstep.
    eapply halts_bind; [apply Hrep|cbn beta]. xrun.
  - unfold latencies, compare_values. fold l. generalize (report_text (iterations l)
      (zip_with latency l (deadlines (first_deadline h) l (init_hw h))) (map cost_c l) (map cost_t l)).
    intros R. vm_compute. reflexivity.
  - cbn. rewrite (rl_ticks _ _ _ L), (rl_swn _ _ _ L). fold l. now rewrite Hl.
Qed.

(** [timer_arm] programs a deadline one quantum ahead that lies strictly
    in the future when it returns, so the pending interrupt is cleared and
    cannot refire at once; [deadline] is what [mtimecmp] then holds. *)
Theorem timer_arm_future (h : H) g
    (Hfuel : hw_fuel <> O) (Hcalm : calm h) (Hgap : 2 * mtime_gap < QUANTUM_TICKS) :
  exists h' g', runs (U:=U) timer_arm h g tt [] h' g' /\
    mtimecmp h' = deadline g' /\ deadline g' = mtime h + QUANTUM_TICKS /\
    mtime h' < mtimecmp h'.
Proof.
  exists (arm_hw h), (with_deadline (arm_deadline h) g).
  split; [now apply timer_arm_runs|]. pose proof (arm_deadline_eq h Hcalm) as E.
  unfold arm_hw. rewrite mtimecmp_write, mtimecmp_write_time. cbn [deadline with_deadline].
  pose proof (mtime_mono h). pose proof (mtime_mono (mr64 CLINT_MTIME h).2). lia.
Qed.

(** a trap that is not the machine timer interrupt is reported and stops
    the machine: [ptrap_handler] parks and the scheduler state is untouched. *)
Theorem ptrap_unexpected_parks p (h : H) g (c : Z)
    (Hc : (csr_rd "mcause" h).1 = c) (Hne : c <> MCAUSE_TIMER_IRQ) :
  halts (U:=U) (ptrap_handler p) h g
    (lit "\npreempt: unexpected trap (not a timer interrupt), halting\n")
    (csr_rd "mcause" h).2 g.
Proof.
  unfold ptrap_handler, read_mcause. xstep. rewrite Hc, (proj2 (Z.eqb_neq _ _) Hne). cbn [negb when].
  apply halts_first. eapply halts_conv; [xrun|apply app_nil_r|reflexivity..].
Qed.
End Claims.

(** ** Witnesses: a run whose interrupts come every 10,500 ticks *)

Definition wslice (k : nat) : slice (H:=ScriptHart) :=
  Slice (2 * k + 1) (fun _ => SH 5000 3 [] []) (replicate 32 0) 0
    (15003 + 10500 * Z.of_nat k) (1000 * Z.of_nat k) MCAUSE_TIMER_IRQ
    (1000 * Z.of_nat k + 400) (15010 + 10500 * Z.of_nat k).
Definition wscript : list (slice (H:=ScriptHart)) := map wslice (seq 0 201).
Definition whart : ScriptHart := SH 100 5 [] [].

Lemma wscript_timer : Forall timer_slice wscript.
Proof.
  apply Forall_map, Forall_true. intros k. split; [reflexivity|].
  intros h. split; reflexivity.
Qed.


Lemma pmain_reports_witness :
  main_sends (pmain 0x80000100 0x80001000 0x80002000 (fun i => 0x80010000 + 4096 * Z.of_nat i) wscript)
    (SlowU [] [] 1 0) whart boot_pg
    (pmain_banner
     ++ report_text (iterations (take 200 wscript))
          (latencies 0x80000100 0x80002000 wscript whart)
          (map cost_c (take 200 wscript)) (map cost_t (take 200 wscript))
     ++ lit "\npreempt: halting.\n")
    (fun _ g' => ticks g' = 200 /\ swn g' = 200).
Proof.
  refine (pmain_reports 0x80000100 0x80001000 0x80002000
            (fun i => 0x80010000 + 4096 * Z.of_nat i) wscript (SlowU [] [] 1 0) whart _ _ wscript_timer _).
  - discriminate.
  - split; reflexivity.
  - unfold wscript. rewrite length_map, length_seq. lia.
Defined.

Lemma timer_arm_future_witness :
  exists h' g', runs (U:=LogUart) timer_arm whart boot_pg tt [] h' g' /\
    mtimecmp h' = deadline g' /\ deadline g' = 10100 /\ mtime h' < mtimecmp h'.
Proof.
  refine (timer_arm_future (U:=LogUart) whart boot_pg _ _ _); [discriminate|split; reflexivity|reflexivity].
Defined.

Lemma ptrap_unexpected_parks_witness :
  halts (U:=LogUart) (ptrap_handler TfBoot) (SH 0 1 [] [("mcause"%string, 2)]) boot_pg
    (lit "\npreempt: unexpected trap (not a timer interrupt), halting\n")
    (SH 0 1 [] [("mcause"%string, 2)]) boot_pg.
Proof.
  refine (ptrap_unexpected_parks (U:=LogUart) TfBoot (SH 0 1 [] [("mcause"%string, 2)]) boot_pg 2 eq_refl _).
  discriminate.
Defined.
