(* ===== verification/Smode.v ===== *)
(** * The delegated (S-mode) scheduler and its M-mode baseline (src/smode/)

    [msetup.c], [stimer.c], [ssched.c], [stasks.c] and [smain.c].  The module
    is compiled twice, with [TRAP_SMODE] 1 and 0; the flag is the parameter
    [TRAP_SMODE] of every definition it guards.  The trap entry and exit of
    [strap.S] and the M-mode rearm service of [sboot.S] are verified at
    instruction level in [Trap].  Trap frames, task bodies and slices are
    those of [Preempt]. *)

From Stdlib Require Import ZArith Lia String.
From stdpp Require Import base list sorting.
From S2P Require Import Prelude Uart Hart Run Preempt.

Definition STASK_MAX : Z := 3.
Definition SSTACK_SIZE : Z := 4096.
Definition SQUANTUM_TICKS : Z := 10000.
Definition SN_TICKS : Z := 200.
Definition STIMER_NS_PER_TICK : Z := 100.
Definition SCLINT_MTIMECMP : Z := 0x02004000.

Definition MENVCFG_STCE : Z := Z.shiftl 1 63.
Definition MEDELEG_MASK : Z :=
  Z.lor (Z.lor (Z.lor (Z.lor (Z.lor (Z.shiftl 1 2) (Z.shiftl 1 3)) (Z.shiftl 1 8))
    (Z.shiftl 1 12)) (Z.shiftl 1 13)) (Z.shiftl 1 15).
Definition MIDELEG_MASK : Z := Z.lor (Z.lor (Z.shiftl 1 1) (Z.shiftl 1 5)) (Z.shiftl 1 9).

Record sg : Type := SG {
  s_tasks : list ptask_t;
  s_n : Z;
  s_current : Z;
  s_sched_tf : trapframe_t;
  s_exit_cycles : Z;
  s_exit_mtime : Z;
  s_entry_cycles : Z;
  s_entry_mtime : Z;
  s_have_prev : bool;
  s_ticks : Z;
  s_done : bool;
  s_deadline : Z;
  g_use_sstc : bool;
  s_lat : list Z;
  s_swc : list Z;
  s_swt : list Z;
  s_swn : Z;
  s_buf : list Z;
  s_spins : list spin;
  s_frame : tfp;
}.

Definition sw_s_tasks (v : list ptask_t) (r : sg) : sg :=
  SG v (s_n r) (s_current r) (s_sched_tf r) (s_exit_cycles r) (s_exit_mtime r)
    (s_entry_cycles r) (s_entry_mtime r) (s_have_prev r) (s_ticks r) (s_done r) (s_deadline r)
    (g_use_sstc r) (s_lat r) (s_swc r) (s_swt r) (s_swn r) (s_buf r) (s_spins r) (s_frame r).
Definition sw_s_n (v : Z) (r : sg) : sg :=
  SG (s_tasks r) v (s_current r) (s_sched_tf r) (s_exit_cycles r) (s_exit_mtime r)
    (s_entry_cycles r) (s_entry_mtime r) (s_have_prev r) (s_ticks r) (s_done r) (s_deadline r)
    (g_use_sstc r) (s_lat r) (s_swc r) (s_swt r) (s_swn r) (s_buf r) (s_spins r) (s_frame r).
Definition sw_s_current (v : Z) (r : sg) : sg :=
  SG (s_tasks r) (s_n r) v (s_sched_tf r) (s_exit_cycles r) (s_exit_mtime r) (s_entry_cycles
    r) (s_entry_mtime r) (s_have_prev r) (s_ticks r) (s_done r) (s_deadline r) (g_use_sstc r)
    (s_lat r) (s_swc r) (s_swt r) (s_swn r) (s_buf r) (s_spins r) (s_frame r).
Definition sw_s_sched_tf (v : trapframe_t) (r : sg) : sg :=
  SG (s_tasks r) (s_n r) (s_current r) v (s_exit_cycles r) (s_exit_mtime r) (s_entry_cycles
    r) (s_entry_mtime r) (s_have_prev r) (s_ticks r) (s_done r) (s_deadline r) (g_use_sstc r)
    (s_lat r) (s_swc r) (s_swt r) (s_swn r) (s_buf r) (s_spins r) (s_frame r).
Definition sw_s_exit_cycles (v : Z) (r : sg) : sg :=
  SG (s_tasks r) (s_n r) (s_current r) (s_sched_tf r) v (s_exit_mtime r) (s_entry_cycles r)
    (s_entry_mtime r) (s_have_prev r) (s_ticks r) (s_done r) (s_deadline r) (g_use_sstc r)
    (s_lat r) (s_swc r) (s_swt r) (s_swn r) (s_buf r) (s_spins r) (s_frame r).
Definition sw_s_exit_mtime (v : Z) (r : sg) : sg :=
  SG (s_tasks r) (s_n r) (s_current r) (s_sched_tf r) (s_exit_cycles r) v (s_entry_cycles r)
    (s_entry_mtime r) (s_have_prev r) (s_ticks r) (s_done r) (s_deadline r) (g_use_sstc r)
    (s_lat r) (s_swc r) (s_swt r) (s_swn r) (s_buf r) (s_spins r) (s_frame r).
Definition sw_s_entry_cycles (v : Z) (r : sg) : sg :=
  SG (s_tasks r) (s_n r) (s_current r) (s_sched_tf r) (s_exit_cycles r) (s_exit_mtime r) v
    (s_entry_mtime r) (s_have_prev r) (s_ticks r) (s_done r) (s_deadline r) (g_use_sstc r)
    (s_lat r) (s_swc r) (s_swt r) (s_swn r) (s_buf r) (s_spins r) (s_frame r).
Definition sw_s_entry_mtime (v : Z) (r : sg) : sg :=
  SG (s_tasks r) (s_n r) (s_current r) (s_sched_tf r) (s_exit_cycles r) (s_exit_mtime r)
    (s_entry_cycles r) v (s_have_prev r) (s_ticks r) (s_done r) (s_deadline r) (g_use_sstc r)
    (s_lat r) (s_swc r) (s_swt r) (s_swn r) (s_buf r) (s_spins r) (s_frame r).
Definition sw_s_have_prev (v : bool) (r : sg) : sg :=
  SG (s_tasks r) (s_n r) (s_current r) (s_sched_tf r) (s_exit_cycles r) (s_exit_mtime r)
    (s_entry_cycles r) (s_entry_mtime r) v (s_ticks r) (s_done r) (s_deadline r) (g_use_sstc
    r) (s_lat r) (s_swc r) (s_swt r) (s_swn r) (s_buf r) (s_spins r) (s_frame r).
Definition sw_s_ticks (v : Z) (r : sg) : sg :=
  SG (s_tasks r) (s_n r) (s_current r) (s_sched_tf r) (s_exit_cycles r) (s_exit_mtime r)
    (s_entry_cycles r) (s_entry_mtime r) (s_have_prev r) v (s_done r) (s_deadline r)
    (g_use_sstc r) (s_lat r) (s_swc r) (s_swt r) (s_swn r) (s_buf r) (s_spins r) (s_frame r).
Definition sw_s_done (v : bool) (r : sg) : sg :=
  SG (s_tasks r) (s_n r) (s_current r) (s_sched_tf r) (s_exit_cycles r) (s_exit_mtime r)
    (s_entry_cycles r) (s_entry_mtime r) (s_have_prev r) (s_ticks r) v (s_deadline r)
    (g_use_sstc r) (s_lat r) (s_swc r) (s_swt r) (s_swn r) (s_buf r) (s_spins r) (s_frame r).
Definition sw_s_deadline (v : Z) (r : sg) : sg :=
  SG (s_tasks r) (s_n r) (s_current r) (s_sched_tf r) (s_exit_cycles r) (s_exit_mtime r)
    (s_entry_cycles r) (s_entry_mtime r) (s_have_prev r) (s_ticks r) (s_done r) v (g_use_sstc
    r) (s_lat r) (s_swc r) (s_swt r) (s_swn r) (s_buf r) (s_spins r) (s_frame r).
Definition sw_g_use_sstc (v : bool) (r : sg) : sg :=
  SG (s_tasks r) (s_n r) (s_current r) (s_sched_tf r) (s_exit_cycles r) (s_exit_mtime r)
    (s_entry_cycles r) (s_entry_mtime r) (s_have_prev r) (s_ticks r) (s_done r) (s_deadline r)
    v (s_lat r) (s_swc r) (s_swt r) (s_swn r) (s_buf r) (s_spins r) (s_frame r).
Definition sw_s_lat (v : list Z) (r : sg) : sg :=
  SG (s_tasks r) (s_n r) (s_current r) (s_sched_tf r) (s_exit_cycles r) (s_exit_mtime r)
    (s_entry_cycles r) (s_entry_mtime r) (s_have_prev r) (s_ticks r) (s_done r) (s_deadline r)
    (g_use_sstc r) v (s_swc r) (s_swt r) (s_swn r) (s_buf r) (s_spins r) (s_frame r).
Definition sw_s_swc (v : list Z) (r : sg) : sg :=
  SG (s_tasks r) (s_n r) (s_current r) (s_sched_tf r) (s_exit_cycles r) (s_exit_mtime r)
    (s_entry_cycles r) (s_entry_mtime r) (s_have_prev r) (s_ticks r) (s_done r) (s_deadline r)
    (g_use_sstc r) (s_lat r) v (s_swt r) (s_swn r) (s_buf r) (s_spins r) (s_frame r).
Definition sw_s_swt (v : list Z) (r : sg) : sg :=
  SG (s_tasks r) (s_n r) (s_current r) (s_sched_tf r) (s_exit_cycles r) (s_exit_mtime r)
    (s_entry_cycles r) (s_entry_mtime r) (s_have_prev r) (s_ticks r) (s_done r) (s_deadline r)
    (g_use_sstc r) (s_lat r) (s_swc r) v (s_swn r) (s_buf r) (s_spins r) (s_frame r).
Definition sw_s_swn (v : Z) (r : sg) : sg :=
  SG (s_tasks r) (s_n r) (s_current r) (s_sched_tf r) (s_exit_cycles r) (s_exit_mtime r)
    (s_entry_cycles r) (s_entry_mtime r) (s_have_prev r) (s_ticks r) (s_done r) (s_deadline r)
    (g_use_sstc r) (s_lat r) (s_swc r) (s_swt r) v (s_buf r) (s_spins r) (s_frame r).
Definition sw_s_buf (v : list Z) (r : sg) : sg :=
  SG (s_tasks r) (s_n r) (s_current r) (s_sched_tf r) (s_exit_cycles r) (s_exit_mtime r)
    (s_entry_cycles r) (s_entry_mtime r) (s_have_prev r) (s_ticks r) (s_done r) (s_deadline r)
    (g_use_sstc r) (s_lat r) (s_swc r) (s_swt r) (s_swn r) v (s_spins r) (s_frame r).
Definition sw_s_spins (v : list spin) (r : sg) : sg :=
  SG (s_tasks r) (s_n r) (s_current r) (s_sched_tf r) (s_exit_cycles r) (s_exit_mtime r)
    (s_entry_cycles r) (s_entry_mtime r) (s_have_prev r) (s_ticks r) (s_done r) (s_deadline r)
    (g_use_sstc r) (s_lat r) (s_swc r) (s_swt r) (s_swn r) (s_buf r) v (s_frame r).
Definition sw_s_frame (v : tfp) (r : sg) : sg :=
  SG (s_tasks r) (s_n r) (s_current r) (s_sched_tf r) (s_exit_cycles r) (s_exit_mtime r)
    (s_entry_cycles r) (s_entry_mtime r) (s_have_prev r) (s_ticks r) (s_done r) (s_deadline r)
    (g_use_sstc r) (s_lat r) (s_swc r) (s_swt r) (s_swn r) (s_buf r) (s_spins r) v.


(** The statics after boot. *)
Definition boot_sg : sg :=
  SG (replicate 3 (PTask tf0 None "")) 0 (-1) tf0 0 0 0 0 false 0 false 0 false
     (replicate 200 0) (replicate 200 0) (replicate 200 0) 0 (replicate 200 0)
     [Spin 1 0 false; Spin 2 0 false; Spin 3 0 false] TfBoot.

Definition s_get_tf (p : tfp) (g : sg) : option trapframe_t :=
  match p with
  | TfBoot => Some (s_sched_tf g)
  | TfTask i => pt_tf <$> s_tasks g !! i
  end.
Definition s_set_tf (p : tfp) (t : trapframe_t) (g : sg) : sg :=
  match p with
  | TfBoot => sw_s_sched_tf t g
  | TfTask i => sw_s_tasks (alter (fun k => PTask t (pt_fn k) (pt_name k)) i (s_tasks g)) g
  end.

(** ** stasks.c: the task bodies *)

Definition slcg (f : ptask_fn_t) (s : Z) : Z :=
  match f with
  | ptask_a => u64 (u64 (s * 6364136223846793005) + 1442695040888963407)
  | ptask_b => u64 (u64 (s * 2862933555777941757) + 3037000493)
  | ptask_c => u64 (u64 (s * 1597334677) + 1013904223)
  end.

(** ** Sorting and order statistics (ssched.c) *)

Section Samples.
Context {W : Type}.

(** [while (j > 0 && dst\[j-1\] > v) { dst\[j\] = dst\[j-1\]; j--; }] *)
Fixpoint sort_shift (dst : list Z) (j : nat) (v : Z) : prog W (list Z * nat) :=
  match j with
  | O => ret (dst, O)
  | S j' =>
      x <- arr_get dst j' ;;
      if x >? v then
        dst' <- arr_set dst j x ;;
        sort_shift dst' j' v
      else ret (dst, j)
  end.

Definition sort_copy (dst src : list Z) (n : Z) : prog W (list Z) :=
  dst1 <- for_acc (seq 0 (Z.to_nat n)) dst (fun i d =>
            x <- arr_get src i ;; arr_set d i x) ;;
  for_acc (seq 1 (Z.to_nat n - 1)) dst1 (fun i d =>
    v <- arr_get d i ;;
    r <- sort_shift d i v ;;
    arr_set r.1 r.2 v).

Definition min_of (a : list Z) (n : Z) : prog W Z :=
  m <- arr_get a 0 ;;
  for_acc (seq 1 (Z.to_nat n - 1)) m (fun i m =>
    x <- arr_get a i ;; ret (if x <? m then x else m)).

Definition max_of (a : list Z) (n : Z) : prog W Z :=
  m <- arr_get a 0 ;;
  for_acc (seq 1 (Z.to_nat n - 1)) m (fun i m =>
    x <- arr_get a i ;; ret (if x >? m then x else m)).
End Samples.

Section Smode.
Context {U H : Type} `{!UartDev U, !HartDev H}.
Abbreviation W := (world U H sg).
Abbreviation slice := (slice (H:=H)).
Context (TRAP_SMODE : bool).

(** Link-time addresses. *)
Context (strap_entry_addr m_trap_entry_addr m_estack_top s_entry_addr
         trampoline_addr sched_tf_addr : Z) (stack_addr : nat -> Z).

(** ** msetup.c *)

Definition csr_read_menvcfg : prog W Z := csrr "menvcfg".
Definition csr_set_menvcfg (mask : Z) : prog W unit := csrs "menvcfg" mask.

(** Up to and including the [sret] that enters S-mode at [s_entry]. *)
Definition m_boot : prog W unit :=
  when TRAP_SMODE (
    csr_set_menvcfg MENVCFG_STCE ;;
    v <- csr_read_menvcfg ;;
    let sstc := negb (Z.land v MENVCFG_STCE =? 0) in
    gset_ (sw_g_use_sstc sstc) ;;
    write64 SCLINT_MTIMECMP (u64 (-1)) ;;
    when sstc (csrw "stimecmp" (u64 (-1))) ;;
    csrw "pmpaddr0" (u64 (-1)) ;;
    csrw "pmpcfg0" 0x1f ;;
    csrw "mcounteren" 0x7 ;;
    csrw "medeleg" MEDELEG_MASK ;;
    csrw "mideleg" MIDELEG_MASK ;;
    csrw "mtvec" m_trap_entry_addr ;;
    csrw "mscratch" m_estack_top ;;
    csrw "stvec" strap_entry_addr ;;
    csrw "sscratch" sched_tf_addr ;;
    v <- csrr "sstatus" ;;
    csrw "sstatus" (Z.lor v (Z.shiftl 1 8)) ;;
    v <- csrr "mstatus" ;;
    csrw "mstatus" (Z.lor (Z.land v (u64 (Z.lnot (Z.shiftl 3 11)))) (Z.shiftl 1 11)) ;;
    csrw "sepc" s_entry_addr).

(** ** stimer.c *)

Definition read_mtime : prog W Z := csrr "time".

(** The [ecall] with [a0 = ECALL_REARM], [a1 = d]: [m_trap_entry] stores [d]
    to [mtimecmp] and resumes after it ([Trap.m_trap_rearms]). *)
Definition ecall_rearm (d : Z) : prog W unit := write64 SCLINT_MTIMECMP d.

(** Program the comparator, by the build's and the hart's means. *)
Definition set_comparator (d : Z) : prog W unit :=
  if TRAP_SMODE then
    sstc <- gget g_use_sstc ;;
    if (sstc : bool) then csrw "stimecmp" d else ecall_rearm d
  else write64 SCLINT_MTIMECMP d.

Definition stimer_arm : prog W unit :=
  t <- read_mtime ;;
  gset_ (sw_s_deadline (u64 (t + SQUANTUM_TICKS))) ;;
  while_ hw_fuel
    (d <- gget s_deadline ;; t <- read_mtime ;; ret (d <=? t))
    (d <- gget s_deadline ;; gset_ (sw_s_deadline (u64 (d + SQUANTUM_TICKS)))) ;;
  d <- gget s_deadline ;;
  set_comparator d.

Definition stimer_deadline : prog W Z := gget s_deadline.

Definition stimer_disarm : prog W unit :=
  gset_ (sw_s_deadline (u64 (-1))) ;;
  set_comparator (u64 (-1)).

(** ** stasks.c, ssched.c *)

Definition stask_create (fn : ptask_fn_t) (name : string) : prog W unit :=
  n <- gget s_n ;;
  if n >=? STASK_MAX then ret tt
  else
    gset_ (sw_s_n (n + 1)) ;;
    let i := Z.to_nat n in
    let sp := Z.land (u64 (stack_addr i + SSTACK_SIZE)) (u64 (Z.lnot 15)) in
    let tf := TF (<[2%nat := sp]> (replicate 32 0)) trampoline_addr 0 0 in
    gset_ (fun g => sw_s_tasks (<[i := PTask tf (Some fn) name]> (s_tasks g)) g).

Definition stasks_register : prog W unit :=
  stask_create ptask_a "spin-a" ;;
  stask_create ptask_b "spin-b" ;;
  stask_create ptask_c "spin-c".

Definition stask_iters (i : Z) : prog W Z :=
  let ix := if i =? 0 then 0%nat else if i =? 1 then 1%nat else 2%nat in
  g <- gget s_spins ;;
  match g !! ix with Some s => ret (sp_iters s) | None => undef end.
Definition stask_name (i : Z) : string :=
  if i =? 0 then "spin-a" else if i =? 1 then "spin-b" else "spin-c".

Definition CAUSE_TIMER_IRQ : Z :=
  if TRAP_SMODE then 0x8000000000000005 else 0x8000000000000007.
Definition IE_TIE : Z := if TRAP_SMODE then Z.shiftl 1 5 else Z.shiftl 1 7.
Definition STATUS_IE : Z := if TRAP_SMODE then Z.shiftl 1 1 else Z.shiftl 1 3.
Definition cause_csr : string := if TRAP_SMODE then "scause" else "mcause".

Definition read_cause : prog W Z := csrr cause_csr.

Definition sched_init : prog W unit :=
  (if TRAP_SMODE then
     csrw "stvec" strap_entry_addr ;; csrw "sscratch" sched_tf_addr
   else
     csrw "mtvec" strap_entry_addr ;; csrw "mscratch" sched_tf_addr) ;;
  gset_ (sw_s_ticks 0) ;;
  gset_ (sw_s_done false) ;;
  gset_ (sw_s_have_prev false) ;;
  gset_ (sw_s_swn 0) ;;
  stimer_arm ;;
  (if TRAP_SMODE then
     csrs "sie" IE_TIE ;; csrs "sstatus" STATUS_IE
   else
     csrs "mie" IE_TIE ;; csrs "mstatus" STATUS_IE).

Definition sched_stop : prog W unit :=
  if TRAP_SMODE then csrc "sie" IE_TIE else csrc "mie" IE_TIE.

(** [swc\[swn\] = ...; swt\[swn\] = ...; swn++;] *)
Definition record_switch : prog W unit :=
  g <- gget id ;;
  c <- arr_set (s_swc g) (Z.to_nat (s_swn g)) (u64 (s_exit_cycles g - s_entry_cycles g)) ;;
  gset_ (sw_s_swc c) ;;
  t <- arr_set (s_swt g) (Z.to_nat (s_swn g)) (u64 (s_exit_mtime g - s_entry_mtime g)) ;;
  gset_ (sw_s_swt t) ;;
  gset_ (sw_s_swn (u64 (s_swn g + 1))).

Definition strap_handler (old : tfp) : prog W tfp :=
  c <- read_cause ;;
  when (negb (c =? CAUSE_TIMER_IRQ))
    (uputs "\nsmode: unexpected trap (not a timer interrupt), halting\n" ;; park) ;;
  tk <- gget s_ticks ;;
  if tk >=? SN_TICKS then
    stimer_disarm ;;
    gset_ (sw_s_done true) ;;
    ret TfBoot
  else
    otf <- gget (s_get_tf old) ;;
    match otf with
    | None => undef
    | Some tf =>
        d <- stimer_deadline ;;
        la <- gget s_lat ;;
        la' <- arr_set la (Z.to_nat tk) (u64 (tf_mtime_at_entry tf - d)) ;;
        gset_ (sw_s_lat la') ;;
        hp <- gget s_have_prev ;;
        when hp record_switch ;;
        gset_ (sw_s_ticks (u64 (tk + 1))) ;;
        next <- (if u64 (tk + 1) >=? SN_TICKS then
                   gset_ (sw_s_done true) ;;
                   stimer_disarm ;;
                   ret TfBoot
                 else
                   stimer_arm ;;
                   c <- gget s_current ;;
                   n <- gget s_n ;;
                   if n =? 0 then undef
                   else
                     gset_ (sw_s_current (Z.rem (c + 1) n)) ;;
                     ret (TfTask (Z.to_nat (Z.rem (c + 1) n)))) ;;
        gset_ (sw_s_entry_cycles (tf_cycle_at_entry tf)) ;;
        gset_ (sw_s_entry_mtime (tf_mtime_at_entry tf)) ;;
        gset_ (sw_s_have_prev true) ;;
        ret next
    end.

Definition s_account_final_switch : prog W unit := record_switch.

Definition median_of (a : list Z) (n : Z) : prog W Z :=
  b <- gget s_buf ;;
  buf <- sort_copy b a n ;;
  gset_ (sw_s_buf buf) ;;
  x <- arr_get buf (Z.to_nat (u64 (n / 2 - 1))) ;;
  y <- arr_get buf (Z.to_nat (n / 2)) ;;
  ret (u64 (x + y) / 2).

(** One quantity of the report: minimum, median and maximum, each scaled. *)
Definition put_samples (a : list Z) (n scale : Z) (s1 s2 : string) : prog W unit :=
  m <- min_of a n ;;
  uart_put_dec (u64 (m * scale)) ;;
  uputs s1 ;;
  m <- median_of a n ;;
  uart_put_dec (u64 (m * scale)) ;;
  uputs s2 ;;
  m <- max_of a n ;;
  uart_put_dec (u64 (m * scale)).

Definition sched_report : prog W unit :=
  s_account_final_switch ;;
  g <- gget id ;;
  uputs "\nsmode: done. " ;;
  uart_put_dec (s_ticks g) ;;
  uputs " timer ticks, " ;;
  uart_put_dec (s_swn g) ;;
  uputs " measured context switches\n\n" ;;
  uputs "task progress (task bodies never yield):\n" ;;
  for_each [0; 1; 2] (fun i =>
    uputs "  " ;;
    uputs (stask_name i) ;;
    uputs ": " ;;
    n <- stask_iters i ;;
    uart_put_dec n ;;
    uputs " iterations\n") ;;
  uputs "\ninterrupt latency (mtime tick = 100 ns):\n  min " ;;
  put_samples (s_lat g) (s_ticks g) 1 " / median " " / max " ;;
  uputs " ticks  (" ;;
  put_samples (s_lat g) (s_ticks g) STIMER_NS_PER_TICK " / " " / " ;;
  uputs " ns)\n" ;;
  uputs "\ncontext-switch cost, entry stamp to exit stamp:\n  min " ;;
  put_samples (s_swc g) (s_swn g) 1 " / median " " / max " ;;
  uputs " cycles\n  cross-check via mtime: min " ;;
  put_samples (s_swt g) (s_swn g) 1 " / median " " / max " ;;
  uputs " ticks (" ;;
  put_samples (s_swt g) (s_swn g) STIMER_NS_PER_TICK " / " " / " ;;
  uputs " ns)\n" ;;
  uputs "\nrdcycle/rdtime ratio at median switch cost: " ;;
  mc <- median_of (s_swc g) (s_swn g) ;;
  mt <- median_of (s_swt g) (s_swn g) ;;
  q <- udiv mc mt ;;
  uart_put_dec q ;;
  uputs " cycles per 100 ns tick\n".

(** ** Preemption *)

Definition s_run_context (n : nat) : prog W unit :=
  p <- gget s_frame ;;
  match p with
  | TfBoot => ret tt
  | TfTask i =>
      t <- gget (fun g => s_tasks g !! i) ;;
      match t with
      | Some (PTask _ (Some f) _) =>
          gset_ (fun g => sw_s_spins (alter (spin_run (slcg f) n) (spin_ix f) (s_spins g)) g)
      | _ => undef
      end
  end.

Definition s_tick (s : slice) : prog W unit :=
  s_run_context (sl_steps s) ;;
  hw_write (sl_hw s) ;;
  csrw cause_csr (sl_cause s) ;;
  p <- gget s_frame ;;
  gset_ (s_set_tf p (TF (sl_regs s) (sl_mepc s) (sl_mtime s) (sl_cycle s))) ;;
  next <- strap_handler p ;;
  gset_ (sw_s_exit_cycles (sl_exit_cycle s)) ;;
  gset_ (sw_s_exit_mtime (sl_exit_mtime s)) ;;
  gset_ (sw_s_frame next).

(** [while (!done)]: the boot context tests [done] whenever it runs. *)
Fixpoint sched_wait (script : list slice) : prog W unit :=
  p <- gget s_frame ;;
  d <- gget s_done ;;
  if bool_decide (p = TfBoot) && d then ret tt
  else match script with
       | [] => nofuel
       | s :: script' => s_tick s ;; sched_wait script'
       end.

Definition smain (script : list slice) : prog W unit :=
  uart_init ;;
  uputs "\n========================================\n" ;;
  (if TRAP_SMODE then
     uputs "riscv-baremetal-demo: S-mode trap delegation\n" ;;
     uputs "scheduler on the delegated supervisor timer interrupt\n"
   else
     uputs "riscv-baremetal-demo: M-mode baseline\n" ;;
     uputs "same scheduler on the machine timer interrupt\n") ;;
  uputs "========================================\n\n" ;;
  when TRAP_SMODE (
    uputs "Sstc (stimecmp): " ;;
    sstc <- gget g_use_sstc ;;
    if (sstc : bool) then uputs "present, pure S-mode timer\n"
    else uputs "absent, M-mode ecall rearm\n") ;;
  uputs "quantum 10000 ticks (1 ms), 200 ticks total\n\n" ;;
  stasks_register ;;
  sched_init ;;
  uputs "timer armed, waiting for ticks...\n" ;;
  sched_wait script ;;
  sched_stop ;;
  sched_report ;;
  uputs "\nhalting.\n" ;;
  park.
End Smode.

(** ** Sorting: the reference and the loops *)

(** Insertion into a descending list. *)
Fixpoint ins_desc (q : list Z) (v : Z) : list Z :=
  match q with
  | [] => [v]
  | x :: q' => if x >? v then x :: ins_desc q' v else v :: q
  end.
Definition isort (l : list Z) : list Z := rev (fold_left ins_desc l []).

Lemma ins_desc_perm q v : Permutation (ins_desc q v) (v :: q).
Proof.
  induction q as [|x q IH]; cbn; [reflexivity|]. destruct (x >? v); [|reflexivity].
  rewrite IH. constructor.
Qed.

Lemma ins_desc_sorted q v : StronglySorted Z.ge q -> StronglySorted Z.ge (ins_desc q v).
Proof.
  induction 1 as [|x q Hq IH Hx]; cbn; [repeat constructor|].
  destruct (Z.gtb_spec x v).
  - constructor; [exact IH|]. rewrite Forall_forall in *. intros y Hy.
    rewrite ins_desc_perm in Hy. apply elem_of_cons in Hy as [->|Hy]; [lia|auto].
  - constructor; [now constructor|]. constructor; [lia|].
    eapply Forall_impl; [exact Hx|]. cbn. lia.
Qed.

Lemma isort_perm l : Permutation (isort l) l.
Proof.
  unfold isort. rewrite <- Permutation_rev.
  assert (forall q, Permutation (fold_left ins_desc l q) (l ++ q)) as Hg.
  { induction l as [|v l IH]; intros q; [reflexivity|]. cbn.
    rewrite IH, ins_desc_perm. symmetry. apply Permutation_middle. }
  now rewrite Hg, app_nil_r.
Qed.

Lemma StronglySorted_rev l : StronglySorted Z.ge l -> StronglySorted Z.le (rev l).
Proof.
  induction 1 as [|x l Hl IH Hx]; cbn; [constructor|].
  apply StronglySorted_app_2; [|exact IH|repeat constructor].
  intros a b Ha Hb. apply list_elem_of_singleton in Hb. subst b.
  apply list_elem_of_In, in_rev, list_elem_of_In in Ha.
  rewrite Forall_forall in Hx. specialize (Hx _ Ha). lia.
Qed.

Lemma isort_sorted l : StronglySorted Z.le (isort l).
Proof.
  apply StronglySorted_rev.
  assert (forall q, StronglySorted Z.ge q -> StronglySorted Z.ge (fold_left ins_desc l q)) as Hg.
  { induction l as [|v l IH]; intros q Hq; [exact Hq|]. apply IH. now apply ins_desc_sorted. }
  apply Hg. constructor.
Qed.

Lemma isort_merge_sort l : isort l = merge_sort Z.le l.
Proof.
  apply (StronglySorted_unique Z.le); [apply isort_sorted|apply Sorted_StronglySorted, Sorted_merge_sort; apply _|].
  now rewrite isort_perm, merge_sort_Permutation.
Qed.

Section Sort.
Context {W : Type} (w : W).

Lemma arr_get_eq (a : list Z) i x : a !! i = Some x -> arr_get a i w = Ret x w.
Proof. intros E. unfold arr_get. now rewrite E. Qed.
Lemma arr_set_eq (a : list Z) i v : (i < length a)%nat -> arr_set a i v w = Ret (<[i := v]> a) w.
Proof. intros E. unfold arr_set. now rewrite decide_True. Qed.

Lemma sort_shift_eq j d v :
  (j < length d)%nat ->
  exists d' k, sort_shift d j v w = Ret (d', k) w /\ (k < length d')%nat /\
    <[k := v]> d' = rev (ins_desc (rev (take j d)) v) ++ drop (S j) d.
Proof.
  revert d; induction j as [|j IH]; intros d Hj.
  - exists d, O. split; [reflexivity|]. split; [exact Hj|]. now destruct d.
  - cbn [sort_shift]. destruct (lookup_lt_is_Some_2 d j ltac:(lia)) as [x Hx].
    rewrite (bind_ret_eq _ _ _ _ _ (arr_get_eq _ _ _ Hx)), (take_S_r _ _ _ Hx), rev_app_distr.
    cbn [rev app ins_desc]. destruct (x >? v).
    + rewrite (bind_ret_eq _ _ _ _ _ (arr_set_eq _ _ _ Hj)).
      destruct (IH (<[S j := x]> d)) as (d' & k & E & Hk & Ed); [rewrite length_insert; lia|].
      exists d', k. split; [exact E|]. split; [exact Hk|]. rewrite Ed.
      rewrite take_insert_ge by lia. cbn [rev]. rewrite <- app_assoc. f_equal.
      rewrite (drop_S (<[S j := x]> d) x (S j)) by now apply list_lookup_insert_eq.
      cbn [app]. now rewrite drop_insert_lt by lia.
    + exists d, (S j). split; [reflexivity|]. split; [exact Hj|]. cbn [rev].
      rewrite rev_involutive, <- (take_S_r _ _ _ Hx).
      rewrite insert_take_drop by exact Hj. now rewrite <- app_assoc.
Qed.

Lemma copy_eq (src dst : list Z) k n :
  (k + n <= length src)%nat -> (k + n <= length dst)%nat ->
  for_acc (seq k n) (take k src ++ drop k dst) (fun i d => x <- arr_get src i ;; arr_set d i x) w
  = Ret (take (k + n) src ++ drop (k + n) dst) w.
Proof.
  revert k; induction n as [|n IH]; intros k Hs Hd.
  - now rewrite Nat.add_0_r.
  - cbn [seq for_acc]. destruct (lookup_lt_is_Some_2 src k ltac:(lia)) as [x Hx].
    rewrite bind_assoc, (bind_ret_eq _ _ _ _ _ (arr_get_eq _ _ _ Hx)).
    rewrite (bind_ret_eq _ _ _ _ _ (arr_set_eq (take k src ++ drop k dst) k x ltac:(rewrite length_app, length_take, length_drop; lia))).
    destruct (lookup_lt_is_Some_2 dst k ltac:(lia)) as [y Hy].
    rewrite insert_app_r_alt by (rewrite length_take; lia).
    rewrite length_take, Nat.min_l, Nat.sub_diag, (drop_S _ _ _ Hy) by lia. cbn [insert list_insert].
    change (x :: drop (S k) dst) with ([x] ++ drop (S k) dst).
    rewrite app_assoc, <- (take_S_r _ _ _ Hx), <- Nat.add_succ_comm. apply IH; lia.
Qed.

Lemma isort_snoc l v : rev (ins_desc (rev (isort l)) v) = isort (l ++ [v]).
Proof. unfold isort. now rewrite fold_left_app, rev_involutive. Qed.

Lemma sort_loop_eq d0 k n :
  (k + n <= length d0)%nat ->
  for_acc (seq k n) (isort (take k d0) ++ drop k d0) (fun i d =>
    v <- arr_get d i ;; r <- sort_shift d i v ;; arr_set r.1 r.2 v) w
  = Ret (isort (take (k + n) d0) ++ drop (k + n) d0) w.
Proof.
  revert k; induction n as [|n IH]; intros k Hd.
  - now rewrite Nat.add_0_r.
  - cbn [seq for_acc]. destruct (lookup_lt_is_Some_2 d0 k ltac:(lia)) as [v Hv].
    assert (length (isort (take k d0)) = k) as Hl
      by (rewrite (Permutation_length (isort_perm _)), length_take; lia).
    set (d := isort (take k d0) ++ drop k d0).
    assert (d !! k = Some v) as Hdk.
    { unfold d. rewrite lookup_app_r by lia. rewrite Hl, Nat.sub_diag, lookup_drop, Nat.add_0_r.
      exact Hv. }
    rewrite bind_assoc, (bind_ret_eq _ _ _ _ _ (arr_get_eq _ _ _ Hdk)), bind_assoc.
    destruct (sort_shift_eq k d v) as (d' & j & E & Hj & Ed); [now apply lookup_lt_Some in Hdk|].
    rewrite (bind_ret_eq _ _ _ _ _ E). cbn [fst snd].
    rewrite (bind_ret_eq _ _ _ _ _ (arr_set_eq _ _ _ Hj)), Ed.
    unfold d. rewrite take_app_length' by now symmetry.
    rewrite drop_app_ge by lia. rewrite Hl, drop_drop.
    replace (k + (S k - k))%nat with (S k) by lia.
    rewrite isort_snoc, <- (take_S_r _ _ _ Hv), <- Nat.add_succ_comm. apply IH. lia.
Qed.

Lemma sort_copy_eq dst src n :
  (Z.to_nat n <= length src)%nat -> (Z.to_nat n <= length dst)%nat ->
  sort_copy dst src n w = Ret (isort (take (Z.to_nat n) src) ++ drop (Z.to_nat n) dst) w.
Proof.
  intros Hs Hd. unfold sort_copy.
  pose proof (copy_eq src dst 0 (Z.to_nat n) Hs Hd) as E. cbn [take drop app Nat.add] in E.
  rewrite (bind_ret_eq _ _ _ _ _ E). set (m := Z.to_nat n) in *.
  set (d0 := take m src ++ drop m dst).
  assert (length d0 = length dst) as Hl by (unfold d0; rewrite length_app, length_take, length_drop; lia).
  destruct m as [|m]; [reflexivity|].
  pose proof (sort_loop_eq d0 1 m ltac:(lia)) as E'.
  replace (isort (take 1 d0) ++ drop 1 d0) with d0 in E'
    by (destruct d0 as [|x d1]; [reflexivity|destruct d1; reflexivity]).
  replace (S m - 1)%nat with m by lia. rewrite E'. do 2 f_equal; unfold d0.
  - f_equal. rewrite take_app_length'; [reflexivity|rewrite length_take; lia].
  - rewrite drop_app_length'; [reflexivity|rewrite length_take; lia].
Qed.
End Sort.

Section Extrema.
Context {W : Type} (w : W).

Lemma scan_eq (f : Z -> Z -> Z) a k n m :
  (k + n <= length a)%nat ->
  for_acc (seq k n) m (fun i m => x <- arr_get a i ;; ret (f x m)) w
  = Ret (fold_left (fun m x => f x m) (take n (drop k a)) m) w.
Proof.
  revert k m; induction n as [|n IH]; intros k m Hk; [reflexivity|].
  cbn [seq for_acc]. destruct (lookup_lt_is_Some_2 a k ltac:(lia)) as [x Hx].
  rewrite bind_assoc, (bind_ret_eq _ _ _ _ _ (arr_get_eq _ _ _ _ Hx)), bind_ret_l.
  rewrite (drop_S _ _ _ Hx). cbn [take fold_left]. apply IH. lia.
Qed.

Lemma min_fold l m : is_u64 m -> Forall is_u64 l ->
  fold_left (fun m x => if x <? m then x else m) l m = Z.min m (min_list l).
Proof.
  intros Hm Hl; revert m Hm; induction Hl as [|x l Hx Hl IH]; intros m Hm;
    cbn [fold_left min_list fold_right]; [unfold is_u64 in Hm; cbn; lia|].
  unfold min_list in *. destruct (Z.ltb_spec x m); rewrite IH by assumption; lia.
Qed.

Lemma max_fold l m : is_u64 m -> Forall is_u64 l ->
  fold_left (fun m x => if x >? m then x else m) l m = Z.max m (max_list l).
Proof.
  intros Hm Hl; revert m Hm; induction Hl as [|x l Hx Hl IH]; intros m Hm;
    cbn [fold_left max_list fold_right]; [unfold is_u64 in Hm; cbn; lia|].
  unfold max_list in *. rewrite Z.gtb_ltb. destruct (Z.ltb_spec m x); rewrite IH by assumption; lia.
Qed.

(** [n] samples at the front of an array. *)
Definition holds_samples (a l : list Z) : Prop :=
  take (length l) a = l /\ Forall is_u64 l /\ l <> [].

Lemma holds_first a l : holds_samples a l -> exists x l', l = x :: l' /\ a !! 0%nat = Some x /\
  take (length l') (drop 1 a) = l' /\ (1 + length l' <= length a)%nat /\ is_u64 x /\ Forall is_u64 l'.
Proof.
  intros (Ht & Hu & Hne). destruct l as [|x l]; [easy|]. exists x, l.
  destruct a as [|y a]; [easy|]. cbn in Ht. injection Ht as -> Ht.
  apply Forall_cons_1 in Hu as [Hx Hu]. repeat split; auto; try apply Hx.
  rewrite <- Ht at 1. cbn. rewrite length_take. lia.
Qed.

Lemma min_of_eq a l : holds_samples a l -> min_of a (Z.of_nat (length l)) w = Ret (min_list l) w.
Proof.
  intros (x & l' & -> & Hx & Ht & Hl & Hux & Hu)%holds_first. unfold min_of.
  rewrite (bind_ret_eq _ _ _ _ _ (arr_get_eq _ _ _ _ Hx)), Nat2Z.id. cbn [length].
  replace (S (length l') - 1)%nat with (length l') by lia.
  rewrite (scan_eq (fun x m => if x <? m then x else m)), Ht, min_fold by assumption. reflexivity.
Qed.

Lemma max_of_eq a l : holds_samples a l -> max_of a (Z.of_nat (length l)) w = Ret (max_list l) w.
Proof.
  intros (x & l' & -> & Hx & Ht & Hl & Hux & Hu)%holds_first. unfold max_of.
  rewrite (bind_ret_eq _ _ _ _ _ (arr_get_eq _ _ _ _ Hx)), Nat2Z.id. cbn [length].
  replace (S (length l') - 1)%nat with (length l') by lia.
  rewrite (scan_eq (fun x m => if x >? m then x else m)), Ht, max_fold by assumption. reflexivity.
Qed.
End Extrema.

(** ** The median *)

Definition median (l : list Z) : Z :=
  let s := merge_sort Z.le l in
  let n := length l in
  u64 (nth (n / 2 - 1) s 0 + nth (n / 2) s 0) / 2.

Lemma holds_length a l : holds_samples a l -> (length l <= length a)%nat.
Proof. intros (Ht & _). rewrite <- Ht, length_take. lia. Qed.

Section Median.
Context {U H : Type} `{!UartDev U, !UartSpec U, !HartDev H}.

Lemma runs_min a l h g : holds_samples a l ->
  runs (U:=U) (H:=H) (G:=sg) (min_of a (Z.of_nat (length l))) h g (min_list l) [] h g.
Proof. intros Ha u. now apply min_of_eq. Qed.
Lemma runs_max a l h g : holds_samples a l ->
  runs (U:=U) (H:=H) (G:=sg) (max_of a (Z.of_nat (length l))) h g (max_list l) [] h g.
Proof. intros Ha u. now apply max_of_eq. Qed.

(** [median_of]'s buffer afterwards. *)
Definition sorted_into (l buf : list Z) : list Z := isort l ++ drop (length l) buf.

Lemma runs_median a l h g :
  holds_samples a l -> (2 <= length l < 1000)%nat -> (length l <= length (s_buf g))%nat ->
  runs (U:=U) (H:=H) (median_of a (Z.of_nat (length l))) h g (median l) [] h
    (sw_s_buf (sorted_into l (s_buf g)) g).
Proof.
  intros Ha Hn Hb. pose proof (holds_length _ _ Ha) as Hl. destruct Ha as (Ht & Hu & Hne).
  assert (length (isort l) = length l) as Hil by apply (Permutation_length (isort_perm l)).
  assert (Z.of_nat (length l) / 2 = Z.of_nat (length l / 2)) as Hdiv by (symmetry; apply (Nat2Z.inj_div _ 2)).
  assert (1 <= length l / 2 < length l)%nat as Hhalf.
  { pose proof (Nat.div_str_pos (length l) 2). pose proof (Nat.div_lt (length l) 2). lia. }
  assert (forall i, (i < length l)%nat -> sorted_into l (s_buf g) !! i = Some (nth i (merge_sort Z.le l) 0)) as Hget.
  { intros i Hi. unfold sorted_into. rewrite lookup_app_l by lia. rewrite isort_merge_sort in *.
    destruct (lookup_lt_is_Some_2 (merge_sort Z.le l) i ltac:(lia)) as [x Hx].
    rewrite Hx. f_equal. symmetry. now apply nth_lookup_Some. }
  unfold median_of. xstep.
  eapply runs_bind0.
  { intros u. rewrite sort_copy_eq; rewrite Nat2Z.id; [|assumption..]. rewrite Ht. reflexivity. }
  xstep. fold (sorted_into l (s_buf g)).
  eapply runs_bind0.
  { intros u. apply arr_get_eq. rewrite Hdiv, u64_small by (red; lia).
    replace (Z.to_nat (Z.of_nat (length l / 2) - 1)) with (length l / 2 - 1)%nat by lia.
    apply Hget. lia. }
  eapply runs_bind0; [intros u; apply arr_get_eq; rewrite Hdiv, Nat2Z.id; apply Hget; lia|].
  apply runs_ret.
Qed.

Lemma sorted_into_length l buf : (length l <= length buf)%nat -> length (sorted_into l buf) = length buf.
Proof.
  intros Hl. unfold sorted_into. rewrite length_app, length_drop, (Permutation_length (isort_perm l)). lia.
Qed.

Definition samples_text (l : list Z) (scale : Z) (s1 s2 : string) : list Z :=
  fmt_dec (u64 (min_list l * scale)) ++ lit s1 ++ fmt_dec (u64 (median l * scale)) ++ lit s2
  ++ fmt_dec (u64 (max_list l * scale)).

Lemma put_samples_runs a l scale s1 s2 h g :
  holds_samples a l -> (2 <= length l < 1000)%nat -> (length l <= length (s_buf g))%nat ->
  no_nul (c_lit s1) = true -> no_nul (c_lit s2) = true ->
  runs (U:=U) (H:=H) (put_samples a (Z.of_nat (length l)) scale s1 s2) h g tt (samples_text l scale s1 s2) h
    (sw_s_buf (sorted_into l (s_buf g)) g).
Proof.
  intros Ha Hn Hb N1 N2. unfold put_samples.
  eapply runs_bind0; [now apply runs_min|cbn beta]. xstep.
  eapply runs_bind; [apply runs_prints, prints_lit; assumption|cbn beta].
  eapply runs_bind0; [now apply runs_median|cbn beta]. xstep.
  eapply runs_bind; [apply runs_prints, prints_lit; assumption|cbn beta].
  eapply runs_bind0; [now apply runs_max|cbn beta]. xstep.
Qed.

(** The text of [sched_report]. *)
Definition sreport_text (its lats cc ct : list Z) : list Z :=
  lit "\nsmode: done. " ++ fmt_dec (Z.of_nat (length lats)) ++ lit " timer ticks, "
  ++ fmt_dec (Z.of_nat (length cc)) ++ lit " measured context switches\n\n"
  ++ lit "task progress (task bodies never yield):\n"
  ++ concat (zip_with (fun nm n => lit "  " ++ lit nm ++ lit ": " ++ fmt_dec n ++ lit " iterations\n")
               ["spin-a"; "spin-b"; "spin-c"]%string its)
  ++ lit "\ninterrupt latency (mtime tick = 100 ns):\n  min "
  ++ samples_text lats 1 " / median " " / max " ++ lit " ticks  ("
  ++ samples_text lats 100 " / " " / " ++ lit " ns)\n"
  ++ lit "\ncontext-switch cost, entry stamp to exit stamp:\n  min "
  ++ samples_text cc 1 " / median " " / max "
  ++ lit " cycles\n  cross-check via mtime: min "
  ++ samples_text ct 1 " / median " " / max " ++ lit " ticks ("
  ++ samples_text ct 100 " / " " / " ++ lit " ns)\n"
  ++ lit "\nrdcycle/rdtime ratio at median switch cost: " ++ fmt_dec (median cc / median ct)
  ++ lit " cycles per 100 ns tick\n".

Lemma runs_siters i h g s :
  s_spins g !! Z.to_nat i = Some s -> 0 <= i < 3 ->
  runs (U:=U) (H:=H) (stask_iters i) h g (sp_iters s) [] h g.
Proof.
  intros Hs Hi u. unfold stask_iters, bind, gget, gets. cbn [w_glob].
  assert (i = 0 \/ i = 1 \/ i = 2) as [->|[->| ->]] by lia;
    [change (Z.to_nat 0) with 0%nat in Hs|change (Z.to_nat 1) with 1%nat in Hs
    |change (Z.to_nat 2) with 2%nat in Hs]; cbn -[lookup]; now rewrite Hs.
Qed.

Lemma median_range l : is_u64 (median l).
Proof. unfold median. apply avg_range; [apply u64_range|lia]. Qed.

Ltac buf_side :=
  cbn [s_buf sw_s_buf];
  lazymatch goal with
  | |- context [length (sorted_into ?l ?b)] => rewrite (sorted_into_length l b); buf_side
  | |- _ => lia
  end.

(** The report from the state after the final switch was recorded; the last
    division needs a non-zero median. *)
Record reported (g : sg) (its lats cc ct : list Z) : Prop := {
  rp_ticks : s_ticks g = Z.of_nat (length lats);
  rp_swn : s_swn g = Z.of_nat (length cc);
  rp_ct : length ct = length cc;
  rp_lat : holds_samples (s_lat g) lats;
  rp_swc : holds_samples (s_swc g) cc;
  rp_swt : holds_samples (s_swt g) ct;
  rp_nl : (2 <= length lats <= 200)%nat;
  rp_nc : (2 <= length cc <= 200)%nat;
  rp_buf : length (s_buf g) = 200%nat;
  rp_its : map sp_iters (s_spins g) = its;
  rp_its3 : length its = 3%nat;
  rp_itsu : Forall is_u64 its;
}.

Lemma sched_report_runs h g g1 its lats cc ct :
  runs (U:=U) (H:=H) s_account_final_switch h g tt [] h g1 -> reported g1 its lats cc ct ->
  median ct <> 0 ->
  exists g', runs (U:=U) (H:=H) sched_report h g tt (sreport_text its lats cc ct) h g'.
Proof.
  intros Hacc [] Hmt.
  destruct (s_spins g1) as [|s1 [|s2 [|s3 [|]]]] eqn:Es;
    rewrite <- rp_its0 in rp_its4; cbn in rp_its4; try (exfalso; lia). clear rp_its4.
  cbn [map] in rp_its0. subst its.
  apply Forall_cons_1 in rp_itsu0 as [W1 Wi]. apply Forall_cons_1 in Wi as [W2 Wi].
  apply Forall_cons_1 in Wi as [W3 _].
  assert (is_u64 (Z.of_nat (length lats))) by (red; lia).
  assert (is_u64 (Z.of_nat (length cc))) by (red; lia).
  assert (is_u64 (median cc / median ct)).
  { apply avg_range; [apply median_range|]. pose proof (median_range ct). red in H2. lia. }
  unfold sched_report. eexists. eapply runs_conv; [|reflexivity|..].
  - eapply runs_bind0; [exact Hacc|cbn beta]. xstep. unfold id. rewrite rp_ticks0, rp_swn0.
    cbn [for_each].
    repeat first
      [ xstep
      | eapply runs_bind0; [eapply runs_siters; [rewrite Es; reflexivity|lia]|cbn beta]
      | eapply runs_bind; [apply (put_samples_runs _ lats); first [assumption|reflexivity|buf_side]|cbn beta]
      | eapply runs_bind; [apply (put_samples_runs _ cc); first [assumption|reflexivity|buf_side]|cbn beta]
      | eapply runs_bind; [rewrite <- rp_ct0; apply (put_samples_runs _ ct); first [assumption|reflexivity|buf_side]|cbn beta]
      | eapply runs_bind0; [apply (runs_median _ cc); first [assumption|buf_side]|cbn beta]
      | eapply runs_bind0; [rewrite <- rp_ct0; apply (runs_median _ ct); first [assumption|buf_side]|cbn beta]
      | eapply runs_bind0; [apply runs_udiv; exact Hmt|cbn beta]
      | eapply runs_bind ].
  - unfold sreport_text, STIMER_NS_PER_TICK.
    cbn [zip_with concat stask_name Z.eqb Pos.eqb]. now rewrite <- !app_assoc.
  - reflexivity.
  - reflexivity.
Qed.

(** The same program when the median of the mtime costs is zero. *)
Lemma sched_report_crashes h g g1 its lats cc ct :
  runs (U:=U) (H:=H) s_account_final_switch h g tt [] h g1 -> reported g1 its lats cc ct ->
  median ct = 0 -> crashes (U:=U) (H:=H) sched_report h g.
Proof.
  intros Hacc [] Hmt.
  destruct (s_spins g1) as [|s1 [|s2 [|s3 [|]]]] eqn:Es;
    rewrite <- rp_its0 in rp_its4; cbn in rp_its4; try (exfalso; lia). clear rp_its4.
  cbn [map] in rp_its0. subst its.
  apply Forall_cons_1 in rp_itsu0 as [W1 Wi]. apply Forall_cons_1 in Wi as [W2 Wi].
  apply Forall_cons_1 in Wi as [W3 _].
  assert (is_u64 (Z.of_nat (length lats))) by (red; lia).
  assert (is_u64 (Z.of_nat (length cc))) by (red; lia).
  unfold sched_report.
  eapply crashes_bind; [exact Hacc|cbn beta]. xstep. unfold id. rewrite rp_ticks0, rp_swn0.
  cbn [for_each].
  repeat first
    [ xstep
    | eapply crashes_bind;
      [ first
        [ apply (put_samples_runs _ lats); first [assumption|reflexivity|buf_side]
        | apply (put_samples_runs _ cc); first [assumption|reflexivity|buf_side]
        | rewrite <- rp_ct0; apply (put_samples_runs _ ct); first [assumption|reflexivity|buf_side]
        | apply (runs_median _ cc); first [assumption|buf_side]
        | rewrite <- rp_ct0; apply (runs_median _ ct); first [assumption|buf_side]
        | solve [repeat first [ xstep
                       | eapply runs_bind0; [eapply runs_siters; [rewrite Es; reflexivity|lia]|cbn beta]
                       | lazymatch goal with |- runs (bind (bind _ _) _) _ _ _ _ _ _ => eapply runs_bind end ] ] ]
      | cbn beta ] ].
  apply crashes_first. intros u. now rewrite Hmt.
Qed.
End Median.

(** ** The run *)

(** The [time] CSR, and the trap cause CSR of each build. *)
Class TimeSpec (H : Type) `{!HartDev H} : Type := {
  stime : H -> Z;
  stime_gap : Z;
  stime_gap_pos : 0 <= stime_gap;
  stime_nonneg h : 0 <= stime h;
  stime_read h : (csr_rd "time" h).1 = u64 (stime h);
  stime_mono h : stime h <= stime (csr_rd "time" h).2 <= stime h + stime_gap;
  cause_rd smode h v : (csr_rd (cause_csr smode) (csr_wr (cause_csr smode) v h)).1 = v;
}.

Section Run.
Context {U H : Type} `{!UartDev U, !UartSpec U, !HartDev H, !TimeSpec H}.
Context (smode : bool).
Abbreviation slice := (slice (H:=H)).
Implicit Types (h : H) (g : sg) (l : list slice) (s : slice).

Definition cmp_hw (sstc : bool) (d : Z) h : H :=
  if smode && sstc then csr_wr "stimecmp" d h else mw64 SCLINT_MTIMECMP d h.

Lemma set_comparator_runs d h g :
  runs (U:=U) (set_comparator smode d) h g tt [] (cmp_hw (g_use_sstc g) d h) g.
Proof.
  unfold set_comparator, cmp_hw, ecall_rearm. destruct smode; [|xrun].
  xstep. destruct (g_use_sstc g); xrun.
Qed.

Definition s_arm_deadline h : Z := u64 ((csr_rd "time" h).1 + SQUANTUM_TICKS).
Definition s_arm_hw (sstc : bool) h : H :=
  cmp_hw sstc (s_arm_deadline h) (csr_rd "time" (csr_rd "time" h).2).2.

Definition s_calm h : Prop := stime h + SQUANTUM_TICKS < 2 ^ 64 /\ stime_gap < SQUANTUM_TICKS.

Lemma stime_of_read h : stime h < 2 ^ 64 -> (csr_rd "time" h).1 = stime h.
Proof. intros Hb. rewrite stime_read. apply u64_small. pose proof (stime_nonneg h). red. lia. Qed.

Lemma s_arm_deadline_eq h : s_calm h -> s_arm_deadline h = stime h + SQUANTUM_TICKS.
Proof.
  intros [Hw Hg]. unfold s_arm_deadline, SQUANTUM_TICKS in *.
  rewrite stime_of_read by lia. apply u64_small. pose proof (stime_nonneg h). red. lia.
Qed.

Lemma stimer_arm_runs h g :
  s_calm h -> hw_fuel <> O ->
  runs (U:=U) (stimer_arm smode) h g tt [] (s_arm_hw (g_use_sstc g) h) (sw_s_deadline (s_arm_deadline h) g).
Proof.
  intros Hc Hf. pose proof (s_arm_deadline_eq h Hc) as Hd. destruct Hc as [Hw Hg].
  destruct hw_fuel as [|n] eqn:En; [easy|].
  unfold stimer_arm, read_mtime. rewrite En.
  pose proof (stime_mono h). pose proof stime_gap_pos.
  xstep. xstep. fold (s_arm_deadline h). unfold SQUANTUM_TICKS in *. cbn [while_]. eapply runs_bind0.
  - eapply runs_bind0; [xrun|cbn beta].
    cbn [s_deadline sw_s_deadline]. rewrite stime_of_read by lia.
    rewrite (proj2 (Z.leb_gt _ _)) by lia. xprim.
  - xstep. eapply runs_conv; [apply set_comparator_runs|reflexivity..].
Qed.

Lemma stimer_disarm_runs h g :
  runs (U:=U) (stimer_disarm smode) h g tt [] (cmp_hw (g_use_sstc g) (u64 (-1)) h) (sw_s_deadline (u64 (-1)) g).
Proof. unfold stimer_disarm. xstep. eapply runs_conv; [apply set_comparator_runs|reflexivity..]. Qed.

(** ** The sample arrays *)

Definition samples (l : list Z) : list Z := l ++ replicate (200 - length l) 0.

Lemma samples_snoc (l : list Z) v :
  (length l < 200)%nat -> <[length l := v]> (samples l) = samples (l ++ [v]).
Proof.
  intros Hl. unfold samples. rewrite insert_app_r_alt, Nat.sub_diag by lia.
  rewrite length_app. cbn [length]. rewrite <- app_assoc. f_equal.
  now replace (200 - length l)%nat with (S (200 - (length l + 1))) by lia.
Qed.

Lemma samples_set (l : list Z) v (w : world U H sg) :
  (length l < 200)%nat -> arr_set (samples l) (length l) v w = Ret (samples (l ++ [v])) w.
Proof.
  intros Hl. rewrite arr_set_eq, samples_snoc by (unfold samples; rewrite ?length_app, ?length_replicate; lia).
  reflexivity.
Qed.

Lemma samples_hold (l : list Z) : Forall is_u64 l -> l <> [] -> holds_samples (samples l) l.
Proof. intros Hu Hne. split; [|auto]. unfold samples. apply take_app_length. Qed.

Lemma record_switch_runs h g cc ct :
  s_swc g = samples cc -> s_swt g = samples ct -> s_swn g = Z.of_nat (length cc) ->
  length ct = length cc -> (length cc < 200)%nat ->
  runs (U:=U) record_switch h g tt [] h
    (sw_s_swn (Z.of_nat (S (length cc)))
      (sw_s_swt (samples (ct ++ [u64 (s_exit_mtime g - s_entry_mtime g)]))
        (sw_s_swc (samples (cc ++ [u64 (s_exit_cycles g - s_entry_cycles g)])) g))).
Proof.
  intros Hc Ht Hn Hl Hlt. unfold record_switch. xstep. unfold id. rewrite Hc, Ht, Hn, Nat2Z.id.
  eapply runs_bind0; [intros u; now apply samples_set|cbn beta]. xstep.
  eapply runs_bind0; [intros u; rewrite <- Hl; apply samples_set; lia|cbn beta]. xstep.
  eapply runs_conv; [xstep|auto..]. rewrite u64_small by (red; lia).
  replace (Z.of_nat (length cc) + 1) with (Z.of_nat (S (length cc))) by lia. reflexivity.
Qed.

(** ** What the globals record after the slices [l] *)

Definition s_progress l : list spin :=
  map (fun i => spin_run (slcg (body_of i)) (steps_of i 0 l) (spin_init i)) (seq 0 3).

Record s_log l (ds : list Z) g : Prop := {
  lg_ticks : s_ticks g = Z.of_nat (length l);
  lg_n : s_n g = 3;
  lg_fns : map pt_fn (s_tasks g) = [Some ptask_a; Some ptask_b; Some ptask_c];
  lg_lat : s_lat g = samples (zip_with latency l ds);
  lg_swc : s_swc g = samples (map cost_c (removelast l));
  lg_swt : s_swt g = samples (map cost_t (removelast l));
  lg_swn : s_swn g = Z.of_nat (pred (length l));
  lg_prev : match last l with
            | None => s_have_prev g = false
            | Some s => s_have_prev g = true /\
                s_entry_cycles g = sl_cycle s /\ s_entry_mtime g = sl_mtime s /\
                s_exit_cycles g = sl_exit_cycle s /\ s_exit_mtime g = sl_exit_mtime s
            end;
  lg_spins : s_spins g = s_progress l;
  lg_buf : length (s_buf g) = 200%nat;
}.

Record s_running l g : Prop := {
  sn_frame : s_frame g = sched_frame (length l);
  sn_current : s_current g = match length l with O => -1 | S j => Z.of_nat (j mod 3) end;
  sn_done : s_done g = false;
}.

(** The arrays as lists of samples: what [strap_handler] relies on. *)
Record s_arrays (lats cc ct : list Z) g : Prop := {
  sa_lat : s_lat g = samples lats;
  sa_swc : s_swc g = samples cc;
  sa_swt : s_swt g = samples ct;
  sa_ticks : s_ticks g = Z.of_nat (length lats);
  sa_swn : s_swn g = Z.of_nat (length cc);
  sa_ct : length ct = length cc;
  sa_room : (length lats < 200)%nat /\ (length cc < 200)%nat;
}.

Definition s_recorded (cc ct : list Z) g : sg :=
  sw_s_swn (Z.of_nat (S (length cc)))
    (sw_s_swt (samples (ct ++ [u64 (s_exit_mtime g - s_entry_mtime g)]))
      (sw_s_swc (samples (cc ++ [u64 (s_exit_cycles g - s_entry_cycles g)])) g)).

Definition s_is_last (lats : list Z) : bool := (199 <=? length lats)%nat.

Definition s_handled (tf : trapframe_t) (lats cc ct : list Z) (d : Z) g : sg :=
  let g1 := sw_s_lat (samples (lats ++ [u64 (tf_mtime_at_entry tf - s_deadline g)])) g in
  let g2 := if s_have_prev g then s_recorded cc ct g1 else g1 in
  let g3 := sw_s_ticks (Z.of_nat (S (length lats))) g2 in
  let g4 := if s_is_last lats then sw_s_deadline (u64 (-1)) (sw_s_done true g3)
            else sw_s_current (Z.rem (s_current g + 1) (s_n g)) (sw_s_deadline d g3) in
  sw_s_have_prev true (sw_s_entry_mtime (tf_mtime_at_entry tf)
    (sw_s_entry_cycles (tf_cycle_at_entry tf) g4)).

Definition s_next (lats : list Z) g : tfp :=
  if s_is_last lats then TfBoot else TfTask (Z.to_nat (Z.rem (s_current g + 1) (s_n g))).
Definition s_handled_hw (lats : list Z) g h : H :=
  if s_is_last lats then cmp_hw (g_use_sstc g) (u64 (-1)) h else s_arm_hw (g_use_sstc g) h.

Lemma strap_handler_runs h g p tf lats cc ct :
  let h' := (csr_rd (cause_csr smode) h).2 in
  (csr_rd (cause_csr smode) h).1 = CAUSE_TIMER_IRQ smode -> s_get_tf p g = Some tf ->
  s_arrays lats cc ct g -> s_n g <> 0 -> s_calm h' -> hw_fuel <> O ->
  runs (U:=U) (strap_handler smode p) h g (s_next lats g) [] (s_handled_hw lats g h')
    (s_handled tf lats cc ct (s_arm_deadline h') g).
Proof.
  intros h' Hc Htf [] Hn Hcalm Hf. destruct sa_room0 as [Hl1 Hl2].
  unfold strap_handler, read_cause. xstep. rewrite Hc, Z.eqb_refl. cbn [negb].
  do 2 xstep. fold h'. rewrite sa_ticks0. unfold SN_TICKS.
  rewrite Z.geb_leb, (proj2 (Z.leb_gt _ _)) by lia.
  xstep. rewrite Htf. unfold stimer_deadline. do 2 xstep. rewrite sa_lat0, Nat2Z.id.
  eapply runs_bind0; [intros u; now apply samples_set|cbn beta]. do 2 xstep.
  cbn [s_have_prev sw_s_lat].
  unfold s_handled, s_next, s_handled_hw.
  set (g1 := sw_s_lat _ g). set (g2 := if s_have_prev g then s_recorded cc ct g1 else g1).
  eapply (runs_bind0 _ _ _ _ tt _ g2).
  { unfold g2. destruct (s_have_prev g); [apply runs_when_true|xrun].
    now apply record_switch_runs. }
  assert (s_current g2 = s_current g /\ s_n g2 = s_n g /\ g_use_sstc g2 = g_use_sstc g)
    as (C & N & Z0) by (unfold g2; now destruct (s_have_prev g)).
  clearbody g2. xstep. rewrite u64_small by (red; lia).
  replace (Z.of_nat (length lats) + 1) with (Z.of_nat (S (length lats))) by lia.
  unfold s_is_last. destruct (Nat.leb_spec 199 (length lats)).
  - rewrite Z.geb_leb, (proj2 (Z.leb_le _ _)) by lia.
    eapply runs_bind0; [xstep; eapply runs_bind0; [apply stimer_disarm_runs|xrun]|cbn beta].
    eapply runs_conv; [xrun|try reflexivity..]. cbn. now rewrite Z0.
  - rewrite Z.geb_leb, (proj2 (Z.leb_gt _ _)) by lia.
    eapply runs_bind0.
    { eapply runs_bind0; [apply stimer_arm_runs; assumption|cbn beta]. do 2 xstep.
      cbn [s_current s_n sw_s_deadline sw_s_ticks]. rewrite C, N, (proj2 (Z.eqb_neq _ 0) Hn). xrun. }
    eapply runs_conv; [xrun|try reflexivity..]. cbn. now rewrite Z0.
Qed.

Lemma s_get_set_tf p t g : is_Some (s_get_tf p g) -> s_get_tf p (s_set_tf p t g) = Some t.
Proof.
  destruct p as [|i]; [reflexivity|]. cbn. intros [x Hx].
  rewrite list_lookup_alter_eq. destruct (s_tasks g !! i) as [k|]; [reflexivity|easy].
Qed.

Lemma s_set_tf_fns p t g : map pt_fn (s_tasks (s_set_tf p t g)) = map pt_fn (s_tasks g).
Proof.
  destruct p as [|i]; [reflexivity|]. cbn. generalize (s_tasks g) as k.
  induction i as [|i IH]; intros [|x k]; try reflexivity; cbn; f_equal. apply IH.
Qed.

Lemma s_frame_valid l ds g : s_log l ds g -> is_Some (s_get_tf (sched_frame (length l)) g).
Proof.
  intros R. destruct (length l) as [|j]; cbn -[Nat.modulo]; [now eexists|].
  assert (length (s_tasks g) = 3%nat) as E
    by (rewrite <- (length_map pt_fn), (lg_fns _ _ _ R); reflexivity).
  apply fmap_is_Some, lookup_lt_is_Some_2. rewrite E. apply Nat.mod_upper_bound. lia.
Qed.

Lemma s_run_context_runs l ds h g s :
  s_log l ds g -> s_frame g = sched_frame (length l) ->
  runs (U:=U) (s_run_context (sl_steps s)) h g tt [] h (sw_s_spins (s_progress (l ++ [s])) g).
Proof.
  intros [] Hf. unfold s_run_context. xstep. rewrite Hf.
  unfold s_progress at 1. cbn [map seq]. rewrite !steps_of_snoc.
  destruct (length l) as [|j] eqn:El; cbn [Nat.add sched_frame].
  - eapply runs_conv; [xstep|auto..].
    cbn [bool_decide decide decide_rel tfp_eq_dec tfp_rec tfp_rect]. rewrite !Nat.add_0_r.
    change (g = sw_s_spins (s_progress l) g). rewrite <- lg_spins0. now destruct g.
  - assert (j mod 3 < 3)%nat as Hj by (apply Nat.mod_upper_bound; lia).
    assert (exists t, s_tasks g !! (j mod 3)%nat = Some t /\ pt_fn t = Some (body_of (j mod 3))) as (t & Et & Ef).
    { assert (map pt_fn (s_tasks g) !! (j mod 3)%nat = Some (Some (body_of (j mod 3)))) as E
        by (rewrite lg_fns0; now destruct (j mod 3)%nat as [|[|[|]]]; [..|lia]).
      rewrite list_lookup_fmap in E. destruct (s_tasks g !! (j mod 3)%nat) as [t|]; [|easy].
      cbn in E. exists t. split; [reflexivity|]. now injection E. }
    xstep. rewrite Et. destruct t as [tf f nm]. cbn [pt_fn] in Ef. subst f.
    eapply runs_conv; [xstep|auto..]. f_equal. rewrite lg_spins0. unfold s_progress. cbn [map seq].
    destruct (j mod 3)%nat as [|[|[|]]] eqn:Ej; [..|lia];
      cbn -[spin_run steps_of slcg]; rewrite ?Nat.add_0_r, !spin_run_add; reflexivity.
Qed.

Lemma removelast_length {A} (l : list A) : length (removelast l) = pred (length l).
Proof.
  induction l as [|x l IH] using rev_ind; [reflexivity|].
  rewrite removelast_last, length_app. cbn. lia.
Qed.

Lemma s_handled_log l ds g s d f :
  s_log l ds g -> length ds = length l -> (length l < 200)%nat ->
  let tf := TF (sl_regs s) (sl_mepc s) (sl_mtime s) (sl_cycle s) in
  s_log (l ++ [s]) (ds ++ [s_deadline g])
    (sw_s_frame f (sw_s_exit_mtime (sl_exit_mtime s)
       (sw_s_exit_cycles (sl_exit_cycle s)
          (s_handled tf (zip_with latency l ds) (map cost_c (removelast l)) (map cost_t (removelast l)) d
             (s_set_tf (s_frame g) tf (sw_s_spins (s_progress (l ++ [s])) g)))))).
Proof.
  intros [] Hd Hl tf.
  pose proof (s_set_tf_fns (s_frame g) tf (sw_s_spins (s_progress (l ++ [s])) g)) as Hfn.
  assert (length (zip_with latency l ds) = length l) as Hz by (rewrite length_zip_with; lia).
  destruct (last l) as [s0|] eqn:El.
  - destruct lg_prev0 as (Hp & E1 & E2 & E3 & E4). pose proof (last_removelast _ _ El) as Er.
    assert (length l <> O) by (destruct l; cbn; [easy|lia]).
    assert (forall f : slice -> Z, map f (removelast l) ++ [f s0] = map f l) as Hm
      by (intros f'; rewrite Er at 2; now rewrite map_app).
    unfold s_handled. destruct (s_frame g) as [|i]; cbn -[samples Nat.leb] in *; rewrite Hp;
      destruct (s_is_last (zip_with latency l ds)); split; cbn -[samples Nat.leb] in *;
      rewrite ?last_snoc, ?removelast_last, ?length_app, ?zip_with_app by lia;
      rewrite ?Hfn, ?lg_lat0, ?lg_swc0, ?lg_swt0, ?lg_swn0, ?E1, ?E2, ?E3, ?E4, ?Hz;
      cbn [length zip_with]; rewrite ?length_map, ?removelast_length;
      try (symmetry; rewrite <- Hm; reflexivity); auto 10; try lia.
    all: f_equal; symmetry; rewrite <- Hm; reflexivity.
  - apply last_None in El. subst l. destruct ds; [|easy]. cbn in *.
    unfold s_handled. destruct (s_frame g) as [|i]; cbn -[samples Nat.leb] in *; rewrite lg_prev0;
      destruct (s_is_last []); split; cbn -[samples Nat.leb] in *;
      rewrite ?Hfn, ?lg_lat0, ?lg_swc0, ?lg_swt0; auto 10.
Qed.

Lemma s_next_frame l lats g :
  s_running l g -> length lats = length l -> s_n g = 3 -> (length l < 199)%nat ->
  s_is_last lats = false /\ s_next lats g = sched_frame (S (length l)) /\
  Z.rem (s_current g + 1) (s_n g) = Z.of_nat (length l mod 3).
Proof.
  intros [] Ht Hn Hl. unfold s_next. rewrite Hn.
  assert (s_is_last lats = false) as Hf by (unfold s_is_last; rewrite Ht; apply Nat.leb_gt; lia).
  rewrite Hf. cbn [sched_frame].
  assert (Z.rem (s_current g + 1) 3 = Z.of_nat (length l mod 3)) as E.
  { rewrite sn_current0. destruct (length l) as [|j]; [reflexivity|].
    rewrite Z.rem_mod_nonneg by (pose proof (Nat2Z.is_nonneg (j mod 3)); lia).
    rewrite !Nat2Z.inj_mod, (Nat2Z.inj_succ j), <- Z.add_1_r. apply Zplus_mod_idemp_l. }
  rewrite E, Nat2Z.id. auto.
Qed.

(** A slice that ends with the build's timer interrupt. *)
Definition s_trap_hw s h : H :=
  (csr_rd (cause_csr smode) (csr_wr (cause_csr smode) (sl_cause s) (sl_hw s h))).2.
Definition s_timer_slice s : Prop :=
  sl_cause s = CAUSE_TIMER_IRQ smode /\ forall h, s_calm (s_trap_hw s h).

Lemma s_tick_runs l ds h g s :
  s_log l ds g -> s_running l g -> length ds = length l -> (length l < 200)%nat ->
  s_timer_slice s -> hw_fuel <> O ->
  let lats := zip_with latency l ds in
  exists g', runs (U:=U) (s_tick smode s) h g tt [] (s_handled_hw lats g (s_trap_hw s h)) g' /\
    s_log (l ++ [s]) (ds ++ [s_deadline g]) g' /\ g_use_sstc g' = g_use_sstc g /\
    if (length l <? 199)%nat then s_running (l ++ [s]) g' /\ s_deadline g' = s_arm_deadline (s_trap_hw s h)
    else s_frame g' = TfBoot /\ s_done g' = true.
Proof.
  intros R Rn Hd Hl [Hc Hcalm] Hf lats.
  pose proof (s_handled_log l ds g s (s_arm_deadline (s_trap_hw s h)) (s_next lats g) R Hd Hl) as HL.
  cbn zeta in HL. set (tf := TF _ _ _ _) in HL. fold lats in HL.
  set (g1 := s_set_tf (s_frame g) tf (sw_s_spins (s_progress (l ++ [s])) g)) in HL.
  assert (s_n g1 = s_n g /\ s_current g1 = s_current g /\ s_done g1 = s_done g /\
          s_ticks g1 = s_ticks g /\ g_use_sstc g1 = g_use_sstc g)
    as (T1 & T2 & T3 & T4 & T5) by (unfold g1; now destruct (s_frame g)).
  assert (length lats = length l) as Hlats by (unfold lats; rewrite length_zip_with; lia).
  assert (s_arrays lats (map cost_c (removelast l)) (map cost_t (removelast l)) g1) as HA.
  { destruct R. split; rewrite ?length_map, ?removelast_length, ?T4; try lia;
      unfold g1; destruct (s_frame g); cbn; auto. }
  assert (s_next lats g1 = s_next lats g) as Hn by (unfold s_next; now rewrite T1, T2).
  eexists. split; [|split; [exact HL|split]].
  - unfold s_tick.
    eapply runs_bind0; [eapply s_run_context_runs; [exact R|apply Rn]|cbn beta].
    do 4 xstep. fold tf. cbn [s_frame sw_s_spins]. fold g1.
    eapply runs_bind0; [eapply strap_handler_runs with (tf := tf); [..|exact HA| | |exact Hf]|cbn beta].
    + rewrite Hc. apply cause_rd.
    + unfold g1. apply s_get_set_tf. rewrite (sn_frame _ _ Rn).
      destruct (s_frame_valid _ _ _ R) as [x Hx]. exists x. rewrite <- Hx.
      now destruct (sched_frame _).
    + rewrite T1, (lg_n _ _ _ R). easy.
    + apply Hcalm.
    + rewrite Hn. eapply runs_conv; [xrun|try reflexivity..].
      unfold s_handled_hw. now rewrite T5.
  - rewrite <- T5. unfold s_handled. cbn -[Nat.leb].
    destruct (s_is_last lats), (s_have_prev g1); reflexivity.
  - destruct (Nat.ltb_spec (length l) 199) as [Hlt|Hge].
    + destruct (s_next_frame l lats g Rn Hlats (lg_n _ _ _ R) Hlt) as (Hnl & Hnx & Hcur).
      unfold s_handled. rewrite Hnl, T1, T2. split; [|destruct (s_have_prev g1); reflexivity].
      split; rewrite ?length_app, ?Nat.add_1_r; cbn -[Nat.modulo Z.rem s_next];
        [exact Hnx|exact Hcur|destruct (s_have_prev g1); cbn; rewrite T3; apply Rn].
    + assert (s_is_last lats = true) as Hnl by (unfold s_is_last; rewrite Hlats; now apply Nat.leb_le).
      unfold s_handled, s_next. now rewrite Hnl.
Qed.

(** The compare value in force during each slice. *)
Fixpoint s_deadlines (sstc : bool) (d : Z) l h : list Z :=
  match l with
  | [] => []
  | s :: l' => d :: s_deadlines sstc (s_arm_deadline (s_trap_hw s h)) l' (s_arm_hw sstc (s_trap_hw s h))
  end.

Lemma s_deadlines_length sstc d l h : length (s_deadlines sstc d l h) = length l.
Proof. revert d h; induction l as [|s l IH]; intros; cbn; auto. Qed.

Lemma sched_wait_runs rest l ds h g :
  s_log l ds g -> s_running l g -> length ds = length l -> (length l < 200)%nat ->
  (200 <= length l + length rest)%nat -> Forall s_timer_slice rest -> hw_fuel <> O ->
  let more := take (200 - length l) rest in
  exists h0 g', runs (U:=U) (sched_wait smode rest) h g tt [] (cmp_hw (g_use_sstc g) (u64 (-1)) h0) g' /\
    s_log (l ++ more) (ds ++ s_deadlines (g_use_sstc g) (s_deadline g) more h) g' /\
    s_frame g' = TfBoot /\ s_done g' = true.
Proof.
  revert l ds h g; induction rest as [|s rest IH];
    intros l ds h g R Rn Hd Hl Hlen Hs Hf more; [cbn in Hlen; lia|].
  apply Forall_cons_1 in Hs as [Hs Hrest].
  destruct (s_tick_runs l ds h g s R Rn Hd Hl Hs Hf) as (g1 & E & R1 & C1 & Next).
  assert (length (zip_with latency l ds) = length l) as Hz by (rewrite length_zip_with; lia).
  unfold s_handled_hw, s_is_last in E. rewrite Hz in E.
  set (h1 := s_trap_hw s h) in *.
  assert (forall h1 (l1 : list Z) h2 g2, runs (U:=U) (s_tick smode s) h g tt [] h1 g1 ->
            runs (U:=U) (sched_wait smode rest) h1 g1 tt l1 h2 g2 ->
            runs (U:=U) (sched_wait smode (s :: rest)) h g tt l1 h2 g2) as Hstep.
  { intros h1' l1 h2 g2 E1 E2. cbn [sched_wait]. do 2 xstep.
    rewrite (sn_done _ _ Rn), andb_false_r. eapply runs_bind0; [exact E1|exact E2]. }
  unfold more. replace (200 - length l)%nat with (S (199 - length l)) by lia. cbn [take s_deadlines].
  destruct (Nat.ltb_spec (length l) 199) as [Hlt|Hge].
  - rewrite (proj2 (Nat.leb_gt _ _) Hlt) in E. destruct Next as [Next D1].
    destruct (IH _ _ (s_arm_hw (g_use_sstc g) h1) g1 R1 Next) as (h2 & g2 & E2 & R2 & F2);
      rewrite ?length_app, ?Hd; cbn [length] in *; auto; try lia.
    rewrite length_app in *. cbn [length] in *.
    replace (200 - (length l + 1))%nat with (199 - length l)%nat in * by lia.
    rewrite C1 in *. exists h2, g2. split; [eapply Hstep; eassumption|]. split; [|exact F2].
    rewrite D1, <- !app_assoc in R2. exact R2.
  - rewrite (proj2 (Nat.leb_le _ _) Hge) in E. destruct Next as [Hfr Hdn].
    replace (199 - length l)%nat with O by lia. cbn [take s_deadlines].
    exists h1, g1. split; [|auto]. eapply Hstep; [exact E|].
    destruct rest; cbn [sched_wait]; do 2 xstep; rewrite Hdn, Hfr; apply runs_ret.
Qed.
End Run.

(** ** The claims *)

(** Writing 01 over the MPP field. *)
Lemma mpp_supervisor v :
  Z.land (Z.shiftr (Z.lor (Z.land v (u64 (Z.lnot (Z.shiftl 3 11)))) (Z.shiftl 1 11)) 11) 3 = 1.
Proof.
  apply Z.bits_inj'. intros n Hn.
  rewrite Z.land_spec, Z.shiftr_spec, Z.lor_spec, Z.land_spec by lia.
  destruct (decide (n = 0)) as [->|]; [now rewrite orb_true_r|].
  destruct (decide (n = 1)) as [->|]; [now rewrite andb_false_r|].
  replace (Z.testbit 3 n) with false; [|symmetry; apply Z.bits_above_log2; cbn; lia].
  rewrite andb_false_r. symmetry. apply Z.bits_above_log2; cbn; lia.
Qed.

Section SClaims.
Context {U H : Type} `{!UartDev U, !UartSpec U, !HartDev H, !TimeSpec H}.
Context (smode : bool) (se mt me sn tr sa : Z) (stk : nat -> Z).
Abbreviation slice := (slice (H:=H)).

Definition s_registered_tf (i : nat) : trapframe_t :=
  TF (<[2%nat := Z.land (u64 (stk i + SSTACK_SIZE)) (u64 (Z.lnot 15))]> (replicate 32 0)) tr 0 0.
Definition s_registered (sstc : bool) : sg :=
  sw_s_n 3 (sw_s_tasks
    [PTask (s_registered_tf 0) (Some ptask_a) "spin-a";
     PTask (s_registered_tf 1) (Some ptask_b) "spin-b";
     PTask (s_registered_tf 2) (Some ptask_c) "spin-c"] (sw_g_use_sstc sstc boot_sg)).

Lemma stasks_register_runs (h : H) sstc :
  runs (U:=U) (stasks_register tr stk) h (sw_g_use_sstc sstc boot_sg) tt [] h (s_registered sstc).
Proof. intros u. reflexivity. Qed.

(** The hardware around [sched_init]'s [stimer_arm]. *)
Definition s_init_pre (h : H) : H :=
  if smode then csr_wr "sscratch" sa (csr_wr "stvec" se h)
  else csr_wr "mscratch" sa (csr_wr "mtvec" se h).
Definition s_init_hw (sstc : bool) (h : H) : H :=
  let h1 := s_arm_hw smode sstc (s_init_pre h) in
  if smode then csrs_hw "sstatus" (STATUS_IE smode) (csrs_hw "sie" (IE_TIE smode) h1)
  else csrs_hw "mstatus" (STATUS_IE smode) (csrs_hw "mie" (IE_TIE smode) h1).

Lemma sched_init_runs h sstc :
  s_calm (s_init_pre h) -> hw_fuel <> O ->
  runs (U:=U) (sched_init smode se sa) h (s_registered sstc) tt [] (s_init_hw sstc h)
    (sw_s_deadline (s_arm_deadline (s_init_pre h)) (s_registered sstc)).
Proof.
  intros Hc Hf. unfold sched_init, s_init_hw.
  eapply (runs_bind0 _ _ _ _ tt (s_init_pre h) (s_registered sstc)).
  { unfold s_init_pre. destruct smode; xrun. }
  do 4 xstep. eapply runs_bind0; [apply stimer_arm_runs; assumption|cbn beta].
  destruct smode; xrun.
Qed.

Definition s_first_deadline (h : H) : Z := s_arm_deadline (s_init_pre h).
Definition s_compare_values (sstc : bool) (script : list slice) (h : H) : list Z :=
  s_deadlines smode sstc (s_first_deadline h) (take 200 script) (s_init_hw sstc h).

Lemma s_wait_from_init script h sstc :
  s_calm (s_init_pre h) -> hw_fuel <> O -> Forall (s_timer_slice smode) script -> (200 <= length script)%nat ->
  exists h0 g', runs (U:=U) (sched_wait smode script) (s_init_hw sstc h)
      (sw_s_deadline (s_first_deadline h) (s_registered sstc)) tt []
      (cmp_hw smode sstc (u64 (-1)) h0) g' /\
    s_log (take 200 script) (s_compare_values sstc script h) g' /\ s_frame g' = TfBoot /\ s_done g' = true.
Proof.
  intros Hc Hf Hs Hlen.
  assert (s_log (H:=H) [] [] (sw_s_deadline (s_first_deadline h) (s_registered sstc))) as R by (split; reflexivity).
  assert (s_running (H:=H) [] (sw_s_deadline (s_first_deadline h) (s_registered sstc))) as Rn by (split; reflexivity).
  exact (sched_wait_runs smode script [] [] (s_init_hw sstc h) _ R Rn eq_refl ltac:(cbn; lia) Hlen Hs Hf).
Qed.

Lemma s_progress_iters (l : list slice) :
  map sp_iters (s_progress (H:=H) l) = iterations l.
Proof.
  unfold s_progress, iterations. cbn [map seq body_of spin_init].
  now rewrite !(fun f n x => proj1 (spin_run_iters f n x)).
Qed.

(** The state after the final switch is accounted. *)
Lemma s_log_reported (l : list slice) ds (h : H) g :
  s_log l ds g -> length l = 200%nat -> length ds = 200%nat ->
  exists g1, runs (U:=U) s_account_final_switch h g tt [] h g1 /\
    reported g1 (iterations l) (zip_with latency l ds) (map cost_c l) (map cost_t l).
Proof.
  intros [] Hl Hd.
  assert (length (zip_with latency l ds) = 200%nat) as HL by (rewrite length_zip_with; lia).
  destruct (last l) as [s0|] eqn:El; [|apply last_None in El; now subst].
  destruct lg_prev0 as (Hp & E1 & E2 & E3 & E4). pose proof (last_removelast _ _ El) as Er.
  assert (forall f : slice -> Z, map f (removelast l) ++ [f s0] = map f l) as Hm
    by (intros f'; rewrite Er at 2; now rewrite map_app).
  eexists. split.
  - apply record_switch_runs; [exact lg_swc0|exact lg_swt0|..];
      rewrite ?lg_swn0, ?length_map, ?removelast_length; lia.
  - rewrite E1, E2, E3, E4. fold (cost_c s0) (cost_t s0). rewrite !Hm, length_map, removelast_length.
    assert (forall f : slice -> Z, (forall s, is_u64 (f s)) -> Forall is_u64 (map f l)) as Hu
      by (intros f' Hf'; apply Forall_map, Forall_true; auto).
    assert (forall f : slice -> Z, map f l <> []) as Hne by (intros f'; destruct l; [easy|discriminate]).
    split; cbn [s_ticks s_swn s_lat s_swc s_swt s_buf s_spins sw_s_swn sw_s_swt sw_s_swc];
      rewrite ?length_map, ?HL, ?lg_ticks0, ?Hl; try lia; auto.
    + rewrite lg_lat0. apply samples_hold.
      * clear. revert ds; induction l as [|x l IH]; intros [|d ds]; cbn; constructor; [apply u64_range|apply IH].
      * intros E. now rewrite E in HL.
    + apply samples_hold; [apply Hu; intros; apply u64_range|apply Hne].
    + apply samples_hold; [apply Hu; intros; apply u64_range|apply Hne].
    + rewrite lg_spins0. apply s_progress_iters.
    + apply Forall_map, Forall_true. intros. apply u64_range.
Qed.

Definition smain_banner (sstc : bool) : list Z :=
  lit "\n========================================\n"
  ++ (if smode then lit "riscv-baremetal-demo: S-mode trap delegation\n"
                    ++ lit "scheduler on the delegated supervisor timer interrupt\n"
      else lit "riscv-baremetal-demo: M-mode baseline\n"
           ++ lit "same scheduler on the machine timer interrupt\n")
  ++ lit "========================================\n\n"
  ++ (if smode then lit "Sstc (stimecmp): "
        ++ (if sstc then lit "present, pure S-mode timer\n" else lit "absent, M-mode ecall rearm\n")
      else [])
  ++ lit "quantum 10000 ticks (1 ms), 200 ticks total\n\n"
  ++ lit "timer armed, waiting for ticks...\n".

Lemma smain_banner_bytes sstc : Forall (fun c => 0 <= c < 256) (smain_banner sstc).
Proof. unfold smain_banner. destruct smode, sstc; text_bytes. Qed.

Lemma sreport_bytes its l1 l2 l3 : Forall (fun c => 0 <= c < 256) (sreport_text its l1 l2 l3).
Proof.
  unfold sreport_text, samples_text. text_bytes.
  destruct its as [|a [|b [|c its]]]; cbn [zip_with concat]; text_bytes.
Qed.


(** C31: [sched_report] divides by the median switch cost in mtime ticks
    without a guard: when that median is zero (switches shorter than a
    100 ns tick) the program reaches an undefined division. *)
Theorem sched_report_ratio_undefined (script : list slice) ds (h : H) g
    (Hlog : s_log script ds g) (Hlen : length script = 200%nat) (Hds : length ds = 200%nat)
    (Hmed : median (map cost_t script) = 0) :
  crashes (U:=U) sched_report h g.
Proof.
  destruct (s_log_reported _ _ h _ Hlog Hlen Hds) as (g1 & Eacc & Hrep).
  exact (sched_report_crashes _ _ _ _ _ _ _ Eacc Hrep Hmed).
Qed.

(** [sort_copy] is a correct sort: for every array and count in range
    it returns, leaving in the first [n] cells of the destination exactly
    the sorted permutation of the first [n] samples and the rest untouched. *)
Theorem sort_copy_sorts {W : Type} (dst src : list Z) n (w : W)
    (Hsrc : 0 <= n <= Z.of_nat (length src)) (Hdst : n <= Z.of_nat (length dst)) :
  exists r, sort_copy dst src n w = Ret (r ++ drop (Z.to_nat n) dst) w /\
    Permutation r (take (Z.to_nat n) src) /\ StronglySorted Z.le r /\
    r = merge_sort Z.le (take (Z.to_nat n) src).
Proof.
  exists (isort (take (Z.to_nat n) src)). split; [apply sort_copy_eq; lia|].
  split; [apply isort_perm|]. split; [apply isort_sorted|apply isort_merge_sort].
Qed.

(** on the S-mode build [m_boot] leaves the machine ready for the drop:
    supervisor interrupts and the listed exceptions delegated but not the
    supervisor ecall, the S-mode vector and scratch frame and the M-mode
    rearm vector installed, all memory open to S-mode, the counters enabled,
    MPP set to S and [sepc] at [s_entry]; [g_use_sstc] says whether the STCE
    bit stuck, and the comparator is parked. *)
Theorem m_boot_delegates `{!CsrSpec H} (h : H) g
    (Hstore : forall c v, c <> "menvcfg"%string -> csr_store c v)
    (Hindep : forall c c', c <> c' -> (c, c') <> ("sstatus"%string, "mstatus"%string) ->
                (c, c') <> ("mstatus"%string, "sstatus"%string) -> csr_indep c c')
    (Hplain : forall c, c <> "time"%string -> csr_plain c) :
  let h1 := csr_wr "menvcfg" (Z.lor (csr_val "menvcfg" h) MENVCFG_STCE) h in
  let sstc := negb (Z.land (csr_val "menvcfg" h1) MENVCFG_STCE =? 0) in
  exists h', runs (U:=U) (m_boot true se mt me sn sa) h g tt [] h' (sw_g_use_sstc sstc g) /\
    csr_val "medeleg" h' = MEDELEG_MASK /\ csr_val "mideleg" h' = MIDELEG_MASK /\
    Z.testbit MEDELEG_MASK 9 = false /\ Z.testbit MIDELEG_MASK 5 = true /\
    csr_val "stvec" h' = se /\ csr_val "sscratch" h' = sa /\
    csr_val "mtvec" h' = mt /\ csr_val "mscratch" h' = me /\
    csr_val "pmpaddr0" h' = 2 ^ 64 - 1 /\ csr_val "pmpcfg0" h' = 0x1f /\
    csr_val "mcounteren" h' = 7 /\ csr_val "sepc" h' = sn /\
    Z.land (Z.shiftr (csr_val "mstatus" h') 11) 3 = 1 /\
    (sstc = true -> csr_val "stimecmp" h' = 2 ^ 64 - 1).
Proof.
  intros h1 sstc.
  assert (forall c c' v h', c' <> c -> (c, c') <> ("sstatus"%string, "mstatus"%string) ->
            (c, c') <> ("mstatus"%string, "sstatus"%string) ->
            csr_val c' (csr_wr c v h') = csr_val c' h') as Hoth
    by (intros; apply csr_wr_other, Hindep; congruence).
  assert (csrs_hw "menvcfg" MENVCFG_STCE h = h1) as E1.
  { unfold csrs_hw, h1. rewrite csr_rd_val, csr_rd_pure by (apply Hplain; discriminate). reflexivity. }
  unfold m_boot, csr_set_menvcfg, csr_read_menvcfg. eexists. split.
  - apply runs_when_true. xstep. rewrite E1. xstep.
    rewrite csr_rd_val, csr_rd_pure by (apply Hplain; discriminate). cbv zeta. fold sstc. clearbody sstc.
    do 2 xstep.
    eapply (runs_bind0 _ _ _ _ tt
      (if sstc then csr_wr "stimecmp" (u64 (-1)) (mw64 SCLINT_MTIMECMP (u64 (-1)) h1)
       else mw64 SCLINT_MTIMECMP (u64 (-1)) h1)).
    { destruct sstc; [apply runs_when_true|]; xrun. }
    xrun.
  - rewrite ?csr_rd_pure, ?csr_rd_val by (apply Hplain; discriminate).
    repeat split; repeat first
      [ rewrite csr_wr_val by (apply Hstore; discriminate)
      | rewrite Hoth by discriminate ]; auto using mpp_supervisor.
    intros ->. rewrite csr_wr_val by (apply Hstore; discriminate). reflexivity.
Qed.
End SClaims.

#[export] Instance ScriptHart_time : TimeSpec ScriptHart.
Proof.
  refine {| stime h := Z.of_N (sh_mtime h); stime_gap := 1000 |}; intros.
  - lia.
  - lia.
  - reflexivity.
  - change (csr_rd "time" h).2
      with (SH (sh_mtime h + sh_step h mod 1000)%N (sh_step h) (sh_mem h) (sh_csr h)).
    cbn [sh_mtime]. pose proof (N.mod_lt (sh_step h) 1000 ltac:(lia)) as Hm.
    rewrite N2Z.inj_add. revert Hm. generalize (sh_step h mod 1000)%N. lia.
  - destruct smode; apply alookup_aupdate, String.eqb_eq.
Defined.

(** ** Witnesses *)

Definition sslice (smode : bool) (cost : Z) (k : nat) : slice (H:=ScriptHart) :=
  Slice (2 * k) (fun _ => SH 5000 3 [] []) (replicate 32 0) 0
    (15003 + 10500 * Z.of_nat k) (1000 * Z.of_nat k) (CAUSE_TIMER_IRQ smode)
    (1000 * Z.of_nat k + 400) (15003 + 10500 * Z.of_nat k + cost).
Definition sscript (smode : bool) (cost : Z) : list (slice (H:=ScriptHart)) :=
  map (sslice smode cost) (seq 0 200).

Lemma sscript_timer smode cost : Forall (s_timer_slice smode) (sscript smode cost).
Proof.
  apply Forall_map, Forall_true. intros k. split; [reflexivity|].
  intros h. destruct smode; split; reflexivity.
Qed.


(** The globals after a run whose switches all take less than one tick. *)
Definition quick_ds : list Z := replicate 200 0.
Definition quick_sg : sg :=
  let l := sscript false 0 in
  SG (map (fun f => PTask tf0 (Some f) "t") [ptask_a; ptask_b; ptask_c]) 3 0 tf0
    (1000 * 199 + 400) (15003 + 10500 * 199) (1000 * 199) (15003 + 10500 * 199) true 200 true 0 false
    (samples (zip_with latency l quick_ds)) (samples (map cost_c (removelast l)))
    (samples (map cost_t (removelast l))) 199 (replicate 200 0) (s_progress l) TfBoot.

Lemma quick_log : s_log (sscript false 0) quick_ds quick_sg.
Proof. split; try reflexivity. vm_compute. auto 10. Qed.

Lemma sched_report_ratio_undefined_witness :
  crashes (U:=LogUart) sched_report whart quick_sg.
Proof.
  refine (sched_report_ratio_undefined (U:=LogUart) (sscript false 0) quick_ds whart quick_sg quick_log _ _ _);
    vm_compute; reflexivity.
Defined.

Lemma sort_copy_sorts_witness :
  exists r, sort_copy [9; 9; 9; 9; 9] [3; 1; 4; 1; 5; 9] 4 tt = Ret (r ++ [9]) tt /\
    Permutation r [3; 1; 4; 1] /\ StronglySorted Z.le r /\ r = merge_sort Z.le [3; 1; 4; 1].
Proof.
  exact (sort_copy_sorts [9; 9; 9; 9; 9] [3; 1; 4; 1; 5; 9] 4 tt
           ltac:(cbn; lia) ltac:(cbn; lia)).
Defined.

Lemma m_boot_delegates_witness :
  exists h' : ScriptHart, runs (U:=LogUart) (m_boot true 0x80000100 0x80000200 0x80009000 0x80000300 0x80002000)
      whart boot_sg tt [] h' (sw_g_use_sstc true boot_sg) /\
    csr_val "medeleg" h' = MEDELEG_MASK /\ csr_val "mideleg" h' = MIDELEG_MASK /\
    csr_val "sepc" h' = 0x80000300 /\ csr_val "stimecmp" h' = 2 ^ 64 - 1.
Proof.
  destruct (m_boot_delegates (U:=LogUart) 0x80000100 0x80000200 0x80009000 0x80000300 0x80002000
              whart boot_sg ltac:(intros; exact I) ltac:(intros c c' H1 H2 H3 ->; now apply H1)
              ltac:(intros c Hc; exact Hc)) as (h' & E & H1 & H2 & _ & _ & _ & _ & _ & _ & _ & _ & _ & H3 & _ & H4).
  exists h'. split; [exact E|]. split; [exact H1|]. split; [exact H2|]. split; [exact H3|].
  apply H4. reflexivity.
Defined.
