(* ===== verification/Virtio.v ===== *)
(** * The virtio block driver (src/virtio-blk/)

    [virtio.c] (transport and split virtqueue), [blk.c] (requests) and
    [bmain.c].  The driver shares RAM with the device, so memory is part of
    the hardware: [DmaDev] has plain loads and stores, one cell per field,
    keyed by the field's address; that the fields do not overlap is proved of
    the layout the driver computes.  Device registers are 32-bit MMIO.

    What the virtio specification promises of the device is the law class
    [BlkSpec]: registers hold what was written, and a request chain published
    on the available ring is, after the notify write, eventually served
    (status, data and used-ring entry written, used index advanced). *)

From Stdlib Require Import ZArith Lia String.
From stdpp Require Import base list.
From S2P Require Import Prelude Uart Hart Run.

(** ** virtio.h *)

Definition VIRTIO_MMIO_MAGIC := 0x000.
Definition VIRTIO_MMIO_VERSION := 0x004.
Definition VIRTIO_MMIO_DEVICE_ID := 0x008.
Definition VIRTIO_MMIO_DEVICE_FEAT := 0x010.
Definition VIRTIO_MMIO_DEVICE_FEAT_S := 0x014.
Definition VIRTIO_MMIO_DRIVER_FEAT := 0x020.
Definition VIRTIO_MMIO_DRIVER_FEAT_S := 0x024.
Definition VIRTIO_MMIO_GUEST_PAGE_SIZE := 0x028.
Definition VIRTIO_MMIO_QUEUE_SEL := 0x030.
Definition VIRTIO_MMIO_QUEUE_MAX := 0x034.
Definition VIRTIO_MMIO_QUEUE_NUM := 0x038.
Definition VIRTIO_MMIO_QUEUE_ALIGN := 0x03c.
Definition VIRTIO_MMIO_QUEUE_PFN := 0x040.
Definition VIRTIO_MMIO_QUEUE_READY := 0x044.
Definition VIRTIO_MMIO_QUEUE_NOTIFY := 0x050.
Definition VIRTIO_MMIO_INT_STATUS := 0x060.
Definition VIRTIO_MMIO_STATUS := 0x070.
Definition VIRTIO_MMIO_QDESC_LO := 0x080.
Definition VIRTIO_MMIO_QDESC_HI := 0x084.
Definition VIRTIO_MMIO_QDRV_LO := 0x090.
Definition VIRTIO_MMIO_QDRV_HI := 0x094.
Definition VIRTIO_MMIO_QDEV_LO := 0x0a0.
Definition VIRTIO_MMIO_QDEV_HI := 0x0a4.
Definition VIRTIO_MMIO_CONFIG := 0x100.

Definition VIRTIO_MAGIC_VALUE := 0x74726976.
Definition VIRTIO_ID_BLOCK := 2.
Definition VIRTIO_STATUS_ACK := 1.
Definition VIRTIO_STATUS_DRIVER := 2.
Definition VIRTIO_STATUS_DRIVER_OK := 4.
Definition VIRTIO_STATUS_FEAT_OK := 8.
Definition VIRTIO_STATUS_FAILED := 128.
Definition VIRTIO_F_VERSION_1 := 32.
Definition VIRTQ_DESC_F_NEXT := 1.
Definition VIRTQ_DESC_F_WRITE := 2.

Definition MMIO_BASE := 0x10001000.
Definition MMIO_STRIDE := 0x1000.
Definition MMIO_SLOTS := 32.
Definition VQ_NUM := 128.
Definition VQ_ALIGN := 4096.
Definition QMEM_SIZE := VQ_ALIGN + 8 * VQ_NUM + 8.

Definition BLK_SECTOR_SIZE := 512.
Definition BLK_T_IN := 0.
Definition BLK_T_OUT := 1.
Definition BLK_S_OK := 0.

(** Byte offsets of the fields of the shared structures. *)
Definition desc_addr (i : Z) := 16 * i.
Definition desc_len (i : Z) := 16 * i + 8.
Definition desc_flags (i : Z) := 16 * i + 12.
Definition desc_next (i : Z) := 16 * i + 14.
Definition avail_idx := 2.
Definition avail_ring (i : Z) := 4 + 2 * i.
Definition used_idx := 2.
Definition used_ring_id (i : Z) := 4 + 8 * i.
Definition used_ring_len (i : Z) := 4 + 8 * i + 4.
Definition req_type := 0.
Definition req_reserved := 4.
Definition req_sector := 8.

(** The used ring's offset in [qmem] for a queue of [n]. *)
Definition used_off (n : Z) : Z :=
  Z.land (u64 (16 * n + 6 + u32 (2 * n) + VQ_ALIGN - 1)) (u64 (Z.lnot (VQ_ALIGN - 1))).

(** Loads and stores of memory the device also reaches. *)
Class DmaDev (H : Type) : Type := {
  dma_ld : Z -> H -> Z * H;
  dma_st : Z -> Z -> H -> H;
}.

(** Repeat a step up to [p] times, stopping at the first answer. *)
Fixpoint until_p {W A} (p : positive) (step : prog W (option A)) : prog W (option A) :=
  match p with
  | xH => step
  | xO p' =>
      r <- until_p p' step ;;
      match r with Some a => ret (Some a) | None => until_p p' step end
  | xI p' =>
      r <- step ;;
      match r with
      | Some a => ret (Some a)
      | None =>
          r <- until_p p' step ;;
          match r with Some a => ret (Some a) | None => until_p p' step end
      end
  end.

(** The statics of virtio.c. *)
Record vg : Type := VG {
  vdev_base : Z;
  vq_size : Z;
  qdesc : Z;
  qavail : Z;
  qused : Z;
  used_seen : Z;
}.
Definition boot_vg : vg := VG 0 0 0 0 0 0.

Section Driver.
Context {U H : Type} `{!UartDev U, !HartDev H, !DmaDev H}.
Abbreviation W := (world U H vg).

(** Link-time addresses of [qmem], [req], [status_byte], [wbuf], [rbuf]. *)
Context (qmem req status_byte wbuf rbuf : Z).

Definition ld (a : Z) : prog W Z := hw_read (dma_ld a).
Definition st (a v : Z) : prog W unit := hw_write (dma_st a v).

(** ** virtio.c *)

Definition reg_read (base off : Z) : prog W Z := read32 (base + off).
Definition reg_write (base off v : Z) : prog W unit := write32 (base + off) v.

(** One slot of the scan: [Some base] when it is a block device. *)
Definition probe_slot (i : Z) : prog W (option Z) :=
  let base := MMIO_BASE + i * MMIO_STRIDE in
  magic <- reg_read base VIRTIO_MMIO_MAGIC ;;
  if negb (magic =? VIRTIO_MAGIC_VALUE) then ret None
  else
    devid <- reg_read base VIRTIO_MMIO_DEVICE_ID ;;
    ver <- reg_read base VIRTIO_MMIO_VERSION ;;
    uputs "virtio: mmio slot " ;;
    uart_put_dec i ;;
    uputs " (" ;;
    uart_put_hex base ;;
    uputs "): device id " ;;
    uart_put_dec devid ;;
    uputs ", version " ;;
    uart_put_dec ver ;;
    uputs "\n" ;;
    ret (if devid =? VIRTIO_ID_BLOCK then Some base else None).

Fixpoint scan_slots (l : list Z) : prog W Z :=
  match l with
  | [] => ret 0
  | i :: l' =>
      r <- probe_slot i ;;
      match r with Some base => ret base | None => scan_slots l' end
  end.
Definition find_block_device : prog W Z := scan_slots (seqZ 0 MMIO_SLOTS).

Definition fail (base : Z) (msg : string) : prog W unit :=
  uputs "virtio: " ;;
  uputs msg ;;
  uputs "\n" ;;
  reg_write base VIRTIO_MMIO_STATUS VIRTIO_STATUS_FAILED.

Definition STATUS_FEATURES : Z :=
  Z.lor (Z.lor VIRTIO_STATUS_ACK VIRTIO_STATUS_DRIVER) VIRTIO_STATUS_FEAT_OK.

(** Reset, acknowledge, negotiate: the selected interface, or [None] when the
    device rejects the features. *)
Definition negotiate (base : Z) : prog W (option bool) :=
  reg_write base VIRTIO_MMIO_STATUS 0 ;;
  reg_write base VIRTIO_MMIO_STATUS VIRTIO_STATUS_ACK ;;
  reg_write base VIRTIO_MMIO_STATUS (Z.lor VIRTIO_STATUS_ACK VIRTIO_STATUS_DRIVER) ;;
  reg_write base VIRTIO_MMIO_DEVICE_FEAT_S 0 ;;
  feat_lo <- reg_read base VIRTIO_MMIO_DEVICE_FEAT ;;
  reg_write base VIRTIO_MMIO_DEVICE_FEAT_S 1 ;;
  feat_hi <- reg_read base VIRTIO_MMIO_DEVICE_FEAT ;;
  uputs "virtio: device features lo=" ;;
  uart_put_hex feat_lo ;;
  uputs " hi=" ;;
  uart_put_hex feat_hi ;;
  uputs "\n" ;;
  let modern := negb (Z.land feat_hi (Z.shiftl 1 (VIRTIO_F_VERSION_1 - 32)) =? 0) in
  uputs "virtio: interface selected: " ;;
  (if modern then uputs "1.x (VIRTIO_F_VERSION_1)" else uputs "legacy") ;;
  uputs "\n" ;;
  let drv_hi := if modern then Z.shiftl 1 (VIRTIO_F_VERSION_1 - 32) else 0 in
  reg_write base VIRTIO_MMIO_DRIVER_FEAT_S 0 ;;
  reg_write base VIRTIO_MMIO_DRIVER_FEAT 0 ;;
  reg_write base VIRTIO_MMIO_DRIVER_FEAT_S 1 ;;
  reg_write base VIRTIO_MMIO_DRIVER_FEAT drv_hi ;;
  reg_write base VIRTIO_MMIO_STATUS STATUS_FEATURES ;;
  s <- reg_read base VIRTIO_MMIO_STATUS ;;
  if Z.land s VIRTIO_STATUS_FEAT_OK =? 0 then
    fail base "device rejected the negotiated features" ;;
    ret None
  else
    uputs "virtio: features accepted by device\n" ;;
    ret (Some modern).

(** The report on the queue's place in memory. *)
Definition put_layout (qmax n d a u : Z) : prog W unit :=
  uputs "virtio: queue max size " ;;
  uart_put_dec qmax ;;
  uputs ", using " ;;
  uart_put_dec n ;;
  uputs "\n" ;;
  uputs "virtio: desc table at " ;;
  uart_put_hex d ;;
  uputs " (16-byte aligned: " ;;
  (if Z.land d 15 =? 0 then uputs "yes" else uputs "NO") ;;
  uputs "), avail at " ;;
  uart_put_hex a ;;
  uputs ", used at " ;;
  uart_put_hex u ;;
  uputs " (" ;;
  uart_put_dec VQ_ALIGN ;;
  uputs "-byte aligned: " ;;
  (if Z.land u (VQ_ALIGN - 1) =? 0 then uputs "yes" else uputs "NO") ;;
  uputs ")\n".

(** Queue 0: its size, its layout in [qmem], and the device told about it. *)
Definition setup_queue (base : Z) (modern : bool) : prog W Z :=
  reg_write base VIRTIO_MMIO_QUEUE_SEL 0 ;;
  qmax <- reg_read base VIRTIO_MMIO_QUEUE_MAX ;;
  if qmax =? 0 then
    fail base "queue 0 reports size 0" ;;
    ret 0
  else
    let n := if qmax <? VQ_NUM then qmax else VQ_NUM in
    let d := qmem in
    let a := qmem + u32 (16 * n) in
    let u := qmem + used_off n in
    gset_ (fun g => VG (vdev_base g) n d a u (used_seen g)) ;;
    put_layout qmax n d a u ;;
    reg_write base VIRTIO_MMIO_QUEUE_NUM n ;;
    (if modern then
       reg_write base VIRTIO_MMIO_QDESC_LO (u32 d) ;;
       reg_write base VIRTIO_MMIO_QDESC_HI (u32 (Z.shiftr d 32)) ;;
       reg_write base VIRTIO_MMIO_QDRV_LO (u32 a) ;;
       reg_write base VIRTIO_MMIO_QDRV_HI (u32 (Z.shiftr a 32)) ;;
       reg_write base VIRTIO_MMIO_QDEV_LO (u32 u) ;;
       reg_write base VIRTIO_MMIO_QDEV_HI (u32 (Z.shiftr u 32)) ;;
       reg_write base VIRTIO_MMIO_QUEUE_READY 1
     else
       reg_write base VIRTIO_MMIO_GUEST_PAGE_SIZE VQ_ALIGN ;;
       reg_write base VIRTIO_MMIO_QUEUE_ALIGN VQ_ALIGN ;;
       reg_write base VIRTIO_MMIO_QUEUE_PFN (u32 (Z.shiftr qmem 12))) ;;
    reg_write base VIRTIO_MMIO_STATUS (Z.lor STATUS_FEATURES VIRTIO_STATUS_DRIVER_OK) ;;
    uputs "virtio: device status now " ;;
    s <- reg_read base VIRTIO_MMIO_STATUS ;;
    uart_put_hex s ;;
    uputs " (DRIVER_OK set)\n" ;;
    ret n.

Definition virtio_init : prog W Z :=
  base <- find_block_device ;;
  if base =? 0 then
    uputs "virtio: no block device on the mmio bus\n" ;;
    ret 0
  else
    gset_ (fun g => VG base (vq_size g) (qdesc g) (qavail g) (qused g) (used_seen g)) ;;
    r <- negotiate base ;;
    match r with
    | None => ret 0
    | Some modern => setup_queue base modern
    end.

Definition virtio_desc_set (i addr len flags next : Z) : prog W unit :=
  g <- gget id ;;
  st (qdesc g + desc_addr i) addr ;;
  st (qdesc g + desc_len i) len ;;
  st (qdesc g + desc_flags i) flags ;;
  st (qdesc g + desc_next i) next.

(** One evaluation of the polling loop's condition: [Some tt] when the used
    index has moved. *)
Definition poll_used : prog W (option unit) :=
  g <- gget id ;;
  i <- ld (qused g + used_idx) ;;
  ret (if i =? used_seen g then None else Some tt).

(** What the loop does when its counter reaches zero. *)
Definition kick_timeout : prog W Z :=
  g <- gget id ;;
  uputs "virtio: kick timed out; device status " ;;
  s <- reg_read (vdev_base g) VIRTIO_MMIO_STATUS ;;
  uart_put_hex s ;;
  uputs ", intr status " ;;
  s <- reg_read (vdev_base g) VIRTIO_MMIO_INT_STATUS ;;
  uart_put_hex s ;;
  uputs ", used idx " ;;
  i <- ld (qused g + used_idx) ;;
  uart_put_dec i ;;
  uputs ", avail idx " ;;
  i <- ld (qavail g + avail_idx) ;;
  uart_put_dec i ;;
  uputs "\n" ;;
  ret (-1).

(** [int] conversions: a 32-bit value as a signed one. *)
Definition s32 (v : Z) : Z := if u32 v <? 2 ^ 31 then u32 v else u32 v - 2 ^ 32.

Definition virtio_kick_wait (head : Z) : prog W Z :=
  g <- gget id ;;
  idx <- ld (qavail g + avail_idx) ;;
  if vq_size g =? 0 then undef
  else
    st (qavail g + avail_ring (idx mod vq_size g)) head ;;
    st (qavail g + avail_idx) (u16 (idx + 1)) ;;
    reg_write (vdev_base g) VIRTIO_MMIO_QUEUE_NOTIFY 0 ;;
    r <- until_p 100000000 poll_used ;;
    match r with
    | None => kick_timeout
    | Some _ =>
        id <- ld (qused g + used_ring_id (used_seen g mod vq_size g)) ;;
        len <- ld (qused g + used_ring_len (used_seen g mod vq_size g)) ;;
        gset_ (fun g => VG (vdev_base g) (vq_size g) (qdesc g) (qavail g) (qused g)
                           (u16 (used_seen g + 1))) ;;
        ret (if negb (id =? head) then -2 else s32 len)
    end.

Definition virtio_config64 (off : Z) : prog W Z :=
  g <- gget id ;;
  let base := vdev_base g + VIRTIO_MMIO_CONFIG + off in
  lo <- read32 base ;;
  hi <- read32 (base + 4) ;;
  ret (Z.lor (Z.shiftl hi 32) lo).

Definition virtio_mmio_base : prog W Z := gget vdev_base.

(** ** blk.c *)

Definition blk_op (sector data : Z) (write : bool) : prog W Z :=
  st (req + req_type) (if write then BLK_T_OUT else BLK_T_IN) ;;
  st (req + req_reserved) 0 ;;
  st (req + req_sector) sector ;;
  st status_byte 0xff ;;
  virtio_desc_set 0 req 16 VIRTQ_DESC_F_NEXT 1 ;;
  virtio_desc_set 1 data BLK_SECTOR_SIZE
    (Z.lor VIRTQ_DESC_F_NEXT (if write then 0 else VIRTQ_DESC_F_WRITE)) 2 ;;
  virtio_desc_set 2 status_byte 1 VIRTQ_DESC_F_WRITE 0 ;;
  r <- virtio_kick_wait 0 ;;
  if r <? 0 then ret r
  else
    s <- ld status_byte ;;
    if negb (s =? BLK_S_OK) then ret (100 + s) else ret 0.

Definition blk_write (sector data : Z) : prog W Z := blk_op sector data true.
Definition blk_read (sector data : Z) : prog W Z := blk_op sector data false.

(** ** bmain.c *)

(** [p\[0..n)], read from memory. *)
Fixpoint ld_bytes (p : Z) (n : nat) : prog W (list Z) :=
  match n with
  | O => ret []
  | S n' => x <- ld p ;; l <- ld_bytes (p + 1) n' ;; ret (x :: l)
  end.

Definition fnv1a_list (l : list Z) : Z :=
  fold_left (fun h x => u32 (Z.lxor h x * 16777619)) l 2166136261.
Definition fnv1a (p n : Z) : prog W Z :=
  l <- ld_bytes p (Z.to_nat n) ;; ret (fnv1a_list l).

Definition pattern (i : Z) : Z := u8 (Z.lxor (Z.lxor i (Z.shiftr i 8)) 0x5a).

(** The comparison loop: mismatches and the first of them. *)
Definition compare_bufs : prog W (Z * Z) :=
  for_acc (seqZ 0 BLK_SECTOR_SIZE) (0, 0) (fun i '(mm, fb) =>
    x <- ld (rbuf + i) ;;
    y <- ld (wbuf + i) ;;
    ret (if negb (x =? y) then (mm + 1, if mm =? 0 then i else fb) else (mm, fb))).

Definition put_rc (rc : Z) : prog W unit :=
  uart_put_dec (if rc <? 0 then - rc else rc) ;;
  (if rc <? 0 then uputs " (transport error)" else uputs " (device status OK)").

(** [main]; its result is the exit code the boot code ignores. *)
Definition bmain : prog W Z :=
  uart_init ;;
  uputs "========================================\n" ;;
  uputs "virtio-blk demo: block driver, sector write/read\n" ;;
  uputs "========================================\n\n" ;;
  n <- virtio_init ;;
  if n =? 0 then
    uputs "virtio-blk: init failed, halting.\n" ;;
    ret 1
  else
    capacity <- virtio_config64 0 ;;
    uputs "virtio-blk: device capacity " ;;
    uart_put_dec capacity ;;
    uputs " sectors (" ;;
    uart_put_dec (capacity / 2048) ;;
    uputs " MiB)\n\n" ;;
    for_each (seqZ 0 BLK_SECTOR_SIZE) (fun i => st (wbuf + i) (pattern i)) ;;
    wsum <- fnv1a wbuf BLK_SECTOR_SIZE ;;
    rc <- blk_write 0 wbuf ;;
    uputs "virtio-blk: write sector 0 -> rc=" ;;
    put_rc rc ;;
    uputs ", pattern checksum 0x" ;;
    uart_put_hex wsum ;;
    uputs "\n" ;;
    for_each (seqZ 0 BLK_SECTOR_SIZE) (fun i => st (rbuf + i) 0xaa) ;;
    rc <- blk_read 0 rbuf ;;
    uputs "virtio-blk: read  sector 0 -> rc=" ;;
    put_rc rc ;;
    uputs "\n" ;;
    rsum <- fnv1a rbuf BLK_SECTOR_SIZE ;;
    c <- compare_bufs ;;
    uputs "virtio-blk: read checksum 0x" ;;
    uart_put_hex rsum ;;
    uputs ", byte mismatches " ;;
    uart_put_dec (fst c) ;;
    when (fst c >? 0) (
      uputs " (first at offset " ;;
      uart_put_dec (snd c) ;;
      uputs ")") ;;
    uputs "\n\n" ;;
    if (fst c =? 0) && (rsum =? wsum) then
      uputs "RESULT: PASS (512/512 bytes round-tripped through sector 0)\n" ;;
      uputs "virtio-blk: halting.\n" ;;
      ret 0
    else
      uputs "RESULT: FAIL\n" ;;
      ret 1.
End Driver.

(** ** The polling loop *)

Fixpoint until_n {W A} (n : nat) (step : prog W (option A)) : prog W (option A) :=
  match n with
  | O => ret None
  | S n' => r <- step ;; match r with Some a => ret (Some a) | None => until_n n' step end
  end.

Lemma until_n_add {W A} a b (step : prog W (option A)) w :
  until_n (a + b) step w
  = bind (until_n a step) (fun r => match r with Some x => ret (Some x) | None => until_n b step end) w.
Proof.
  revert w; induction a as [|a IH]; intros w; [reflexivity|].
  cbn [Nat.add until_n]. rewrite bind_assoc. unfold bind at 1 2.
  destruct (step w) as [[x|] w'| | |]; auto.
Qed.

Lemma until_p_n {W A} p (step : prog W (option A)) w :
  until_p p step w = until_n (Pos.to_nat p) step w.
Proof.
  revert w; induction p as [p IH|p IH|]; intros w.
  - rewrite Pos2Nat.inj_xI. replace (S (2 * Pos.to_nat p))%nat with (S (Pos.to_nat p + Pos.to_nat p)) by lia.
    cbn [until_p until_n]. unfold bind at 1 3. destruct (step w) as [[x|] w'| | |]; auto.
    rewrite until_n_add. unfold bind. rewrite IH.
    destruct (until_n (Pos.to_nat p) step w') as [[x|] w2| | |]; auto.
  - rewrite Pos2Nat.inj_xO. replace (2 * Pos.to_nat p)%nat with (Pos.to_nat p + Pos.to_nat p)%nat by lia.
    cbn [until_p]. rewrite until_n_add. unfold bind. rewrite IH.
    destruct (until_n (Pos.to_nat p) step w) as [[x|] w2| | |]; auto.
  - change (Pos.to_nat 1) with 1%nat. cbn. unfold bind. destruct (step w) as [[x|] w'| | |]; reflexivity.
Qed.

(** Reading cell [a] from [h] gives [v] [k] times and leads to [h']. *)
Inductive polls {H} `{!DmaDev H} (a v : Z) : nat -> H -> H -> Prop :=
| polls_done h : polls a v 0 h h
| polls_same k h h' : (dma_ld a h).1 = v -> polls a v k (dma_ld a h).2 h' -> polls a v (S k) h h'.

Section Poll.
Context {U H : Type} `{!UartDev U, !UartSpec U, !HartDev H, !DmaDev H}.
Implicit Types (h : H) (g : vg).

Lemma runs_ld a h g : runs (U:=U) (ld a) h g (dma_ld a h).1 [] (dma_ld a h).2 g.
Proof. intros u. unfold ld, hw_read. cbn. now destruct (dma_ld a h). Qed.
Lemma runs_st a v h g : runs (U:=U) (st a v) h g tt [] (dma_st a v h) g.
Proof. easy. Qed.
Lemma runs_reg_read b o h g : runs (U:=U) (reg_read b o) h g (mr32 (b + o) h).1 [] (mr32 (b + o) h).2 g.
Proof. apply runs_read32. Qed.
Lemma runs_reg_write b o v h g : runs (U:=U) (reg_write b o v) h g tt [] (mw32 (b + o) v h) g.
Proof. easy. Qed.

Lemma runs_poll h g :
  runs (U:=U) poll_used h g (if (dma_ld (qused g + used_idx) h).1 =? used_seen g then None else Some tt) []
    (dma_ld (qused g + used_idx) h).2 g.
Proof.
  unfold poll_used. xstep. eapply runs_bind0; [apply runs_ld|]. apply runs_ret.
Qed.

(** The loop leaves as soon as the index has moved ... *)
Lemma until_moved k n h h' g :
  polls (qused g + used_idx) (used_seen g) k h h' -> (k < n)%nat ->
  (dma_ld (qused g + used_idx) h').1 <> used_seen g ->
  runs (U:=U) (until_n n poll_used) h g (Some tt) [] (dma_ld (qused g + used_idx) h').2 g.
Proof.
  intros Hp; revert n; induction Hp as [h|k h h' Hv Hp IH]; intros n Hn Hne;
    (destruct n as [|n]; [lia|]); cbn [until_n];
    (eapply runs_bind0; [apply runs_poll|]).
  - rewrite (proj2 (Z.eqb_neq _ _) Hne). apply runs_ret.
  - rewrite (proj2 (Z.eqb_eq _ _) Hv). apply IH; [lia|exact Hne].
Qed.

(** ... and gives up after [n] evaluations if it never does. *)
Lemma until_stuck n h h' g :
  polls (qused g + used_idx) (used_seen g) n h h' ->
  runs (U:=U) (until_n n poll_used) h g None [] h' g.
Proof.
  induction 1 as [h|k h h' Hv Hp IH]; cbn [until_n]; [apply runs_ret|].
  eapply runs_bind0; [apply runs_poll|]. rewrite (proj2 (Z.eqb_eq _ _) Hv). exact IH.
Qed.
End Poll.

(** ** What the device promises *)

Record queue : Type := Queue { q_n : Z; q_desc : Z; q_avail : Z; q_used : Z }.

Definition align_up (x a : Z) : Z := (x + a - 1) / a * a.

(** The queue the device registers [r] describe. *)
Definition queue_of (modern : bool) (r : Z -> Z) : queue :=
  let n := r VIRTIO_MMIO_QUEUE_NUM in
  if modern then
    Queue n (r VIRTIO_MMIO_QDESC_LO + 2 ^ 32 * r VIRTIO_MMIO_QDESC_HI)
      (r VIRTIO_MMIO_QDRV_LO + 2 ^ 32 * r VIRTIO_MMIO_QDRV_HI)
      (r VIRTIO_MMIO_QDEV_LO + 2 ^ 32 * r VIRTIO_MMIO_QDEV_HI)
  else
    let d := r VIRTIO_MMIO_QUEUE_PFN * r VIRTIO_MMIO_GUEST_PAGE_SIZE in
    Queue n d (d + 16 * n) (align_up (d + 16 * n + 6 + 2 * n) (r VIRTIO_MMIO_QUEUE_ALIGN)).

(** Descriptor [i] of [q] in memory [m]. *)
Definition desc_is (m : Z -> Z) (q : queue) (i addr len flags next : Z) : Prop :=
  m (q_desc q + desc_addr i) = addr /\ m (q_desc q + desc_len i) = len /\
  m (q_desc q + desc_flags i) = flags /\ m (q_desc q + desc_next i) = next.

(** A block request published at available entry [s]: header, 512 data bytes,
    status. *)
Record published (m : Z -> Z) (q : queue) (s head hdr data stb : Z) (w : bool) (sector : Z) : Prop := {
  pb_idx : m (q_avail q + avail_idx) = u16 (s + 1);
  pb_head : m (q_avail q + avail_ring (s mod q_n q)) = head;
  pb_chain : exists i1 i2 nx,
    desc_is m q head hdr 16 VIRTQ_DESC_F_NEXT i1 /\
    desc_is m q i1 data 512 (Z.lor VIRTQ_DESC_F_NEXT (if w then 0 else VIRTQ_DESC_F_WRITE)) i2 /\
    desc_is m q i2 stb 1 VIRTQ_DESC_F_WRITE nx;
  pb_type : m (hdr + req_type) = if w then BLK_T_OUT else BLK_T_IN;
  pb_sector : m (hdr + req_sector) = sector;
}.

(** Memory [m'] is [m] after the device served that request. *)
Record served (m m' : Z -> Z) (q : queue) (u head len data stb : Z) (w : bool) (content : Z -> Z) : Prop := {
  sv_idx : m' (q_used q + used_idx) = u16 (u + 1);
  sv_id : m' (q_used q + used_ring_id (u mod q_n q)) = head;
  sv_len : m' (q_used q + used_ring_len (u mod q_n q)) = len;
  sv_status : m' stb = BLK_S_OK;
  sv_data i : 0 <= i < 512 -> w = false -> m' (data + i) = content i;
  sv_frame a : a <> q_used q + used_idx -> a <> q_used q + used_ring_id (u mod q_n q) ->
    a <> q_used q + used_ring_len (u mod q_n q) -> a <> stb ->
    (w = false -> ~ (data <= a < data + 512)) -> m' a = m a;
}.

(** The cells the device writes do not overlap. *)
Definition separate (q : queue) (u data stb : Z) : Prop :=
  let used := [q_used q + used_idx; q_used q + used_ring_id (u mod q_n q);
               q_used q + used_ring_len (u mod q_n q)] in
  (stb ∉ used) /\ ~ (data <= stb < data + 512) /\
  forall a, a ∈ used -> ~ (data <= a < data + 512).

Class BlkSpec (H : Type) `{!HartDev H, !DmaDev H} : Type := {
  peek : H -> Z -> Z;           (* memory *)
  regs : H -> Z -> Z;           (* device registers, as last written *)
  disk : H -> Z -> Z -> Z;      (* byte of a sector *)
  dev_seen : H -> Z;            (* available entries consumed *)
  idle : H -> Prop;             (* no request in flight *)
  v_slot : Z;
  v_version : Z; v_feat_lo : Z; v_feat_hi : Z; v_qmax : Z; v_capacity : Z;
  v_slot_range : 0 <= v_slot < MMIO_SLOTS;
  v_words : Forall (fun v => 0 <= v < 2 ^ 32) [v_version; v_feat_lo; v_feat_hi; v_qmax];
  v_cap_range : is_u64 v_capacity;
  (* earlier slots are empty *)
  slot_empty h i : 0 <= i < v_slot -> exists x,
    mr32 (MMIO_BASE + i * MMIO_STRIDE + VIRTIO_MMIO_MAGIC) h = (x, h) /\ x <> VIRTIO_MAGIC_VALUE;
  reg_rd h off : idle h -> 0 <= off < MMIO_STRIDE ->
    mr32 (MMIO_BASE + v_slot * MMIO_STRIDE + off) h =
    (if off =? VIRTIO_MMIO_MAGIC then VIRTIO_MAGIC_VALUE
     else if off =? VIRTIO_MMIO_DEVICE_ID then VIRTIO_ID_BLOCK
     else if off =? VIRTIO_MMIO_VERSION then v_version
     else if off =? VIRTIO_MMIO_DEVICE_FEAT then
       (if regs h VIRTIO_MMIO_DEVICE_FEAT_S =? 0 then v_feat_lo else v_feat_hi)
     else if off =? VIRTIO_MMIO_QUEUE_MAX then v_qmax
     else if off =? VIRTIO_MMIO_CONFIG then v_capacity mod 2 ^ 32
     else if off =? VIRTIO_MMIO_CONFIG + 4 then v_capacity / 2 ^ 32
     else regs h off, h);
  reg_wr h off v : idle h -> 0 <= off < MMIO_STRIDE -> off <> VIRTIO_MMIO_QUEUE_NOTIFY ->
    let h' := mw32 (MMIO_BASE + v_slot * MMIO_STRIDE + off) v h in
    idle h' /\ (forall a, peek h' a = peek h a) /\ (forall s i, disk h' s i = disk h s i) /\
    (forall o, regs h' o = if o =? off then v else regs h o) /\
    dev_seen h' = if (off =? VIRTIO_MMIO_STATUS) && (v =? 0) then 0 else dev_seen h;
  mem_ld h a : idle h -> dma_ld a h = (peek h a, h);
  mem_st h a v : idle h ->
    let h' := dma_st a v h in
    idle h' /\ (forall b, peek h' b = if b =? a then v else peek h b) /\
    (forall s i, disk h' s i = disk h s i) /\ (forall o, regs h' o = regs h o) /\
    dev_seen h' = dev_seen h;
  serves h head hdr data stb w sector :
    let q := queue_of (negb (Z.land v_feat_hi 1 =? 0)) (regs h) in
    let u := peek h (q_used q + used_idx) in
    idle h -> Z.land (regs h VIRTIO_MMIO_STATUS) VIRTIO_STATUS_DRIVER_OK <> 0 ->
    0 < q_n q -> 0 <= sector < v_capacity -> 0 <= u < 2 ^ 16 ->
    separate q u data stb ->
    published (peek h) q (dev_seen h) head hdr data stb w sector ->
    exists k h' len,
      polls (q_used q + used_idx) u k (mw32 (MMIO_BASE + v_slot * MMIO_STRIDE + VIRTIO_MMIO_QUEUE_NOTIFY) 0 h) h' /\
      Z.of_nat k < 100000000 /\ 0 <= len < 2 ^ 31 /\
      idle h' /\ (forall o, regs h' o = regs h o) /\ dev_seen h' = u16 (dev_seen h + 1) /\
      served (peek h) (peek h') q u head len data stb w (disk h sector) /\
      (forall s i, 0 <= i < 512 ->
         disk h' s i = if w && (s =? sector) then peek h (data + i) else disk h s i);
}.

(** ** The driver against the abstract device state *)

Record dstate : Type := DS {
  d_mem : Z -> Z;
  d_regs : Z -> Z;
  d_disk : Z -> Z -> Z;
  d_seen : Z;
}.
Definition fset (f : Z -> Z) (a v : Z) : Z -> Z := fun b => if b =? a then v else f b.
Definition set_mem (a v : Z) (D : dstate) : dstate :=
  DS (fset (d_mem D) a v) (d_regs D) (d_disk D) (d_seen D).
Definition set_reg (off v : Z) (D : dstate) : dstate :=
  DS (d_mem D) (fset (d_regs D) off v) (d_disk D)
     (if (off =? VIRTIO_MMIO_STATUS) && (v =? 0) then 0 else d_seen D).

Lemma fset_eq f a v : fset f a v a = v.
Proof. unfold fset. now rewrite Z.eqb_refl. Qed.
Lemma fset_ne f a v b : b <> a -> fset f a v b = f b.
Proof. intros Hb. unfold fset. now rewrite (proj2 (Z.eqb_neq _ _) Hb). Qed.

Section Does.
Context {U H : Type} `{!UartDev U, !UartSpec U, !HartDev H, !DmaDev H, !BlkSpec H}.
Abbreviation W := (world U H vg).
Abbreviation base := (MMIO_BASE + v_slot * MMIO_STRIDE).

(** The hardware [h] is an idle device in the abstract state [D]. *)
Record Dev (h : H) (D : dstate) : Prop := {
  dv_idle : idle h;
  dv_mem a : peek h a = d_mem D a;
  dv_regs o : regs h o = d_regs D o;
  dv_disk s i : disk h s i = d_disk D s i;
  dv_seen : dev_seen h = d_seen D;
}.

Definition does {A} (m : prog W A) (D : dstate) (g : vg) (a : A) (l : list Z) (D' : dstate) (g' : vg) : Prop :=
  forall h, Dev h D -> exists h', Dev h' D' /\ runs m h g a l h' g'.

Lemma does_bind {A B} (m : prog W A) (k : A -> prog W B) D g a l1 D1 g1 b l2 D2 g2 :
  does m D g a l1 D1 g1 -> does (k a) D1 g1 b l2 D2 g2 -> does (bind m k) D g b (l1 ++ l2) D2 g2.
Proof.
  intros Hm Hk h Hh. destruct (Hm h Hh) as (h1 & H1 & R1). destruct (Hk h1 H1) as (h2 & H2 & R2).
  exists h2. split; [exact H2|]. eapply runs_bind; eassumption.
Qed.
Lemma does_bind0 {A B} (m : prog W A) (k : A -> prog W B) D g a D1 g1 b l2 D2 g2 :
  does m D g a [] D1 g1 -> does (k a) D1 g1 b l2 D2 g2 -> does (bind m k) D g b l2 D2 g2.
Proof. apply (does_bind m k D g a []). Qed.

(** Statements that do not touch the hardware. *)
Lemma does_lift {A} (m : prog W A) D g a l g' :
  (forall h, runs m h g a l h g') -> does m D g a l D g'.
Proof. intros Hm h Hh. exists h. auto. Qed.

Lemma Dev_ld_runs h D g :
  Dev h D -> forall a, runs (U:=U) (ld a) h g (d_mem D a) [] h g.
Proof.
  intros Hh a. pose proof (mem_ld h a (dv_idle _ _ Hh)) as E.
  pose proof (runs_ld (U:=U) a h g) as R. rewrite E in R. cbn in R.
  now rewrite (dv_mem _ _ Hh) in R.
Qed.

Lemma does_ld a D g : does (ld a) D g (d_mem D a) [] D g.
Proof. intros h Hh. exists h. split; [exact Hh|]. now apply Dev_ld_runs. Qed.

Lemma does_st a v D g : does (st a v) D g tt [] (set_mem a v D) g.
Proof.
  intros h Hh. exists (dma_st a v h). split; [|apply runs_st].
  destruct (mem_st h a v (dv_idle _ _ Hh)) as (E1 & E2 & E3 & E4 & E5). destruct Hh.
  split; cbn; unfold fset; intros; rewrite ?E2, ?E3, ?E4, ?E5; auto.
  now destruct (_ =? _).
Qed.

Lemma does_wr off v D g :
  0 <= off < MMIO_STRIDE -> off <> VIRTIO_MMIO_QUEUE_NOTIFY -> does (reg_write base off v) D g tt [] (set_reg off v D) g.
Proof.
  intros Hr Hoff h Hh. exists (mw32 (base + off) v h). split; [|apply runs_reg_write].
  destruct (reg_wr h off v (dv_idle _ _ Hh) Hr Hoff) as (E1 & E2 & E3 & E4 & E5). destruct Hh.
  split; cbn [d_mem d_regs d_disk d_seen set_reg]; unfold fset; intros; auto.
  - now rewrite E2.
  - rewrite E4. destruct (o =? off); [reflexivity|apply dv_regs0].
  - now rewrite E3.
  - now rewrite E5, dv_seen0.
Qed.

Definition reg_val (D : dstate) (off : Z) : Z :=
  if off =? VIRTIO_MMIO_MAGIC then VIRTIO_MAGIC_VALUE
  else if off =? VIRTIO_MMIO_DEVICE_ID then VIRTIO_ID_BLOCK
  else if off =? VIRTIO_MMIO_VERSION then v_version
  else if off =? VIRTIO_MMIO_DEVICE_FEAT then
    (if d_regs D VIRTIO_MMIO_DEVICE_FEAT_S =? 0 then v_feat_lo else v_feat_hi)
  else if off =? VIRTIO_MMIO_QUEUE_MAX then v_qmax
  else if off =? VIRTIO_MMIO_CONFIG then v_capacity mod 2 ^ 32
  else if off =? VIRTIO_MMIO_CONFIG + 4 then v_capacity / 2 ^ 32
  else d_regs D off.

Lemma does_rd off D g :
  0 <= off < MMIO_STRIDE -> does (reg_read base off) D g (reg_val D off) [] D g.
Proof.
  intros Hr h Hh. exists h. split; [exact Hh|]. pose proof (reg_rd h off (dv_idle _ _ Hh) Hr) as E.
  pose proof (runs_reg_read (U:=U) base off h g) as R. rewrite E in R. cbn [fst snd] in R.
  unfold reg_val. now rewrite !(dv_regs _ _ Hh) in R.
Qed.

Lemma does_conv {A} (m : prog W A) D g a l D' g' a2 l2 D2 g2 :
  does m D g a l D' g' -> a = a2 -> l = l2 -> D' = D2 -> g' = g2 -> does m D g a2 l2 D2 g2.
Proof. now intros ? -> -> -> ->. Qed.
End Does.

(** A register offset is inside its slot. *)
Ltac off_ok := vm_compute; split; congruence.
Ltac dprim :=
  lazymatch goal with
  | |- does (ld _) _ _ _ _ _ _ => apply does_ld
  | |- does (st _ _) _ _ _ _ _ _ => apply does_st
  | |- does (reg_read _ _) _ _ _ _ _ _ => apply does_rd; off_ok
  | |- does (reg_write _ _ _) _ _ _ _ _ _ => apply does_wr; [off_ok|discriminate]
  | |- does _ _ _ _ _ _ _ => apply does_lift; intros ?; xprim
  end.
Ltac dquiet m :=
  lazymatch m with
  | ld _ => idtac | st _ _ => idtac | reg_read _ _ => idtac | reg_write _ _ _ => idtac
  | _ => xquiet m
  end.
Ltac dstep :=
  lazymatch goal with
  | |- does (bind ?m _) _ _ _ _ _ _ =>
      first [ dquiet m; eapply does_bind0; [dprim|cbn beta]
            | eapply does_bind; [dprim|cbn beta] ]
  | |- does _ _ _ _ _ _ _ => dprim
  end.
Ltac drun := repeat dstep.

(** ** Layout of the queue region *)

Lemma used_off_page n : 1 <= n <= VQ_NUM -> used_off n = VQ_ALIGN.
Proof.
  unfold VQ_NUM, used_off, VQ_ALIGN. intros Hn.
  assert (forallb (fun n => Z.land (u64 (16 * n + 6 + u32 (2 * n) + 4096 - 1)) (u64 (Z.lnot (4096 - 1))) =? 4096)
            (seqZ 1 128) = true) as Hall by (vm_compute; reflexivity).
  rewrite forallb_forall in Hall. apply Z.eqb_eq, Hall, list_elem_of_In, elem_of_seqZ. lia.
Qed.

(** ** Bringing the device up *)

Section Init.
Context {U H : Type} `{!UartDev U, !UartSpec U, !HartDev H, !DmaDev H, !BlkSpec H}.
Abbreviation base := (MMIO_BASE + v_slot * MMIO_STRIDE).
Implicit Types (D : dstate) (g : vg).
Context (qmem : Z) (Hq : 0 <= qmem < 2 ^ 40) (Hqa : qmem mod VQ_ALIGN = 0).

Lemma word_u64 v : 0 <= v < 2 ^ 32 -> is_u64 v.
Proof. unfold is_u64. lia. Qed.

Lemma v_words_u64 : is_u64 v_version /\ is_u64 v_feat_lo /\ is_u64 v_feat_hi /\ 0 <= v_qmax < 2 ^ 32.
Proof.
  pose proof v_words as Hw. rewrite !Forall_cons in Hw. destruct Hw as (? & ? & ? & ? & _).
  auto using word_u64.
Qed.

Lemma slot_base_range i : 0 <= i < MMIO_SLOTS -> 0x10001000 <= MMIO_BASE + i * MMIO_STRIDE < 2 ^ 32.
Proof. unfold MMIO_SLOTS, MMIO_BASE, MMIO_STRIDE. lia. Qed.

Definition slot_text : list Z :=
  lit "virtio: mmio slot " ++ fmt_dec v_slot ++ lit " (" ++ fmt_hex base
  ++ lit "): device id " ++ fmt_dec VIRTIO_ID_BLOCK ++ lit ", version " ++ fmt_dec v_version ++ lit "\n".

Lemma probe_empty i D g : 0 <= i < v_slot -> does (U:=U) (H:=H) (probe_slot i) D g None [] D g.
Proof.
  intros Hi h Hh. exists h. split; [exact Hh|].
  destruct (slot_empty h i Hi) as (x & E & Hx). unfold probe_slot, reg_read.
  eapply runs_bind0; [apply runs_read32|]. rewrite E. cbn [fst snd].
  rewrite (proj2 (Z.eqb_neq _ _) Hx). apply runs_ret.
Qed.

Lemma probe_found D g : does (U:=U) (H:=H) (probe_slot v_slot) D g (Some base) slot_text D g.
Proof.
  destruct v_words_u64 as (Hv & _). pose proof v_slot_range as Hs. pose proof (slot_base_range _ Hs) as Hb.
  assert (is_u64 v_slot) by (unfold MMIO_SLOTS in Hs; red; lia).
  assert (is_u64 base) by (red; lia).
  eapply does_conv; [unfold probe_slot; dstep|..].
  - change (reg_val D VIRTIO_MMIO_MAGIC) with VIRTIO_MAGIC_VALUE. rewrite Z.eqb_refl. cbn [negb].
    dstep. dstep. change (reg_val D VIRTIO_MMIO_DEVICE_ID) with VIRTIO_ID_BLOCK.
    change (reg_val D VIRTIO_MMIO_VERSION) with v_version. drun.
  - reflexivity.
  - unfold slot_text. now rewrite app_nil_r.
  - reflexivity.
  - reflexivity.
Qed.

Lemma scan_finds k D g :
  (k <= Z.to_nat v_slot)%nat ->
  does (U:=U) (H:=H) (scan_slots (seqZ (v_slot - Z.of_nat k) (MMIO_SLOTS - (v_slot - Z.of_nat k)))) D g base slot_text D g.
Proof.
  pose proof v_slot_range as Hs. induction k as [|k IH]; intros Hk; rewrite seqZ_cons by lia; cbn [scan_slots].
  - rewrite Z.sub_0_r. eapply does_conv; [eapply does_bind; [apply probe_found|cbn beta; dstep]|auto..].
    apply app_nil_r.
  - eapply does_bind0; [apply probe_empty; lia|cbn beta].
    replace (Z.succ (v_slot - Z.of_nat (S k))) with (v_slot - Z.of_nat k) by lia.
    replace (Z.pred (MMIO_SLOTS - (v_slot - Z.of_nat (S k)))) with (MMIO_SLOTS - (v_slot - Z.of_nat k)) by lia.
    apply IH. lia.
Qed.

Lemma find_block_device_finds D g : does (U:=U) (H:=H) find_block_device D g base slot_text D g.
Proof.
  pose proof v_slot_range as Hs. pose proof (scan_finds (Z.to_nat v_slot) D g ltac:(lia)) as Hf.
  unfold find_block_device. replace (v_slot - Z.of_nat (Z.to_nat v_slot)) with 0 in Hf by lia.
  exact Hf.
Qed.

Definition modern : bool := negb (Z.land v_feat_hi 1 =? 0).

Definition negotiate_text : list Z :=
  lit "virtio: device features lo=" ++ fmt_hex v_feat_lo ++ lit " hi=" ++ fmt_hex v_feat_hi ++ lit "\n"
  ++ lit "virtio: interface selected: "
  ++ (if modern then lit "1.x (VIRTIO_F_VERSION_1)" else lit "legacy") ++ lit "\n"
  ++ lit "virtio: features accepted by device\n".

(** The registers a phase of the bring-up leaves: status, features and queue
    registers; memory and disk are not touched. *)
Definition same_storage D D' : Prop := d_mem D' = d_mem D /\ d_disk D' = d_disk D.

Lemma reg_val_feat_lo D : reg_val (set_reg VIRTIO_MMIO_DEVICE_FEAT_S 0 D) VIRTIO_MMIO_DEVICE_FEAT = v_feat_lo.
Proof. reflexivity. Qed.
Lemma reg_val_feat_hi D : reg_val (set_reg VIRTIO_MMIO_DEVICE_FEAT_S 1 D) VIRTIO_MMIO_DEVICE_FEAT = v_feat_hi.
Proof. reflexivity. Qed.
Lemma reg_val_status v D : reg_val (set_reg VIRTIO_MMIO_STATUS v D) VIRTIO_MMIO_STATUS = v.
Proof. reflexivity. Qed.

Lemma negotiate_ok D g :
  exists D', does (U:=U) (H:=H) (negotiate base) D g (Some modern) negotiate_text D' g /\
    same_storage D D' /\ d_seen D' = 0 /\ d_regs D' VIRTIO_MMIO_STATUS = STATUS_FEATURES.
Proof.
  destruct v_words_u64 as (_ & Hl & Hh & _). eexists. split; [eapply does_conv|].
  - unfold negotiate. do 5 dstep. rewrite reg_val_feat_lo. do 2 dstep. rewrite reg_val_feat_hi.
    cbv zeta. change (1 ≪ (VIRTIO_F_VERSION_1 - 32)) with 1. fold modern. do 6 dstep.
    eapply (does_bind _ _ _ _ tt (if modern then lit "1.x (VIRTIO_F_VERSION_1)" else lit "legacy") _ g);
      [apply does_lift; intros h; destruct modern; xprim|cbn beta].
    do 7 dstep. rewrite reg_val_status. change (Z.land STATUS_FEATURES VIRTIO_STATUS_FEAT_OK =? 0) with false.
    cbv iota. drun.
  - reflexivity.
  - unfold negotiate_text. now rewrite app_nil_r.
  - reflexivity.
  - reflexivity.
  - split; [split; reflexivity|]. split; reflexivity.
Qed.

(** The queue's place, once [n] is chosen. *)
Definition placed (n : Z) : queue := Queue n qmem (qmem + 16 * n) (qmem + VQ_ALIGN).

Definition layout_text (n : Z) : list Z :=
  lit "virtio: queue max size " ++ fmt_dec v_qmax ++ lit ", using " ++ fmt_dec n ++ lit "\n"
  ++ lit "virtio: desc table at " ++ fmt_hex qmem ++ lit " (16-byte aligned: yes), avail at "
  ++ fmt_hex (qmem + 16 * n) ++ lit ", used at " ++ fmt_hex (qmem + VQ_ALIGN)
  ++ lit " (4096-byte aligned: yes)\n".

Definition ready_text : list Z :=
  lit "virtio: device status now 0xf (DRIVER_OK set)\n".

Lemma qmem_low_bits k m : 0 <= k <= 12 -> m mod 2 ^ 12 = 0 -> Z.land m (2 ^ k - 1) = 0.
Proof.
  intros Hk Hm. replace (2 ^ k - 1) with (Z.ones k) by (rewrite Z.ones_equiv; lia).
  rewrite Z.land_ones by lia. apply Z.mod_divide in Hm as [c ->]; [|lia].
  replace (c * 2 ^ 12) with (c * 2 ^ (12 - k) * 2 ^ k).
  - apply Z.mod_mul. lia.
  - rewrite <- Z.mul_assoc, <- Z.pow_add_r by lia. do 2 f_equal. lia.
Qed.

Lemma split_lo_hi x : 0 <= x < 2 ^ 64 -> u32 x + 2 ^ 32 * u32 (Z.shiftr x 32) = x.
Proof.
  intros Hx. unfold u32. rewrite Z.shiftr_div_pow2 by lia.
  rewrite (Z.mod_small (x / 2 ^ 32)).
  - pose proof (Z.div_mod x (2 ^ 32)). lia.
  - split; [apply Z.div_pos; lia|]. apply Z.div_lt_upper_bound; lia.
Qed.

Lemma u32_small v : 0 <= v < 2 ^ 32 -> u32 v = v.
Proof. apply Z.mod_small. Qed.

Lemma put_layout_runs n h g :
  1 <= n <= VQ_NUM ->
  runs (U:=U) (H:=H) (put_layout v_qmax n qmem (qmem + 16 * n) (qmem + VQ_ALIGN)) h g tt (layout_text n) h g.
Proof.
  intros Hn. destruct v_words_u64 as (_ & _ & _ & Hm). unfold VQ_NUM in Hn.
  assert (is_u64 v_qmax /\ is_u64 n /\ is_u64 qmem /\ is_u64 (qmem + 16 * n) /\ is_u64 (qmem + VQ_ALIGN))
    as (? & ? & ? & ? & ?) by (unfold is_u64, VQ_ALIGN; lia).
  unfold put_layout. change 15 with (2 ^ 4 - 1). change (VQ_ALIGN - 1) with (2 ^ 12 - 1).
  rewrite (qmem_low_bits 4 qmem), (qmem_low_bits 12 (qmem + VQ_ALIGN));
    [|lia|change (2 ^ 12) with VQ_ALIGN; rewrite Z.add_mod, Hqa by discriminate; reflexivity
    |lia|exact Hqa].
  cbn [Z.eqb]. eapply runs_conv; [xrun|reflexivity| |reflexivity|reflexivity].
  unfold layout_text. generalize (fmt_dec v_qmax), (fmt_dec n), (fmt_hex qmem),
    (fmt_hex (qmem + 16 * n)), (fmt_hex (qmem + VQ_ALIGN)). intros. vm_compute. reflexivity.
Qed.

Definition queue_size : Z := if v_qmax <? VQ_NUM then v_qmax else VQ_NUM.

Lemma queue_size_range : v_qmax <> 0 -> 1 <= queue_size <= VQ_NUM.
Proof.
  intros Hne. destruct v_words_u64 as (_ & _ & _ & Hm). unfold queue_size, VQ_NUM.
  destruct (Z.ltb_spec v_qmax 128); lia.
Qed.

Lemma shiftr_page : u32 (Z.shiftr qmem 12) * VQ_ALIGN = qmem.
Proof.
  rewrite Z.shiftr_div_pow2 by lia. change (2 ^ 12) with VQ_ALIGN.
  rewrite u32_small.
  - pose proof (Z.div_mod qmem VQ_ALIGN ltac:(discriminate)). lia.
  - split; [apply Z.div_pos; unfold VQ_ALIGN; lia|apply Z.div_lt_upper_bound; unfold VQ_ALIGN; lia].
Qed.

Lemma align_used n : 1 <= n <= VQ_NUM -> align_up (qmem + 16 * n + 6 + 2 * n) VQ_ALIGN = qmem + VQ_ALIGN.
Proof.
  intros Hn. unfold VQ_NUM in Hn. pose proof (Z.div_mod qmem VQ_ALIGN ltac:(discriminate)) as Hd.
  rewrite Hqa in Hd. unfold align_up, VQ_ALIGN in *.
  rewrite <- (Z.div_unique (qmem + 16 * n + 6 + 2 * n + 4096 - 1) 4096 (qmem / 4096 + 1) (18 * n + 5)) by lia.
  lia.
Qed.

Lemma setup_queue_ok D g :
  v_qmax <> 0 ->
  exists D', does (U:=U) (H:=H) (setup_queue qmem base modern) D g queue_size (layout_text queue_size ++ ready_text)
      D' (VG (vdev_base g) queue_size qmem (qmem + 16 * queue_size) (qmem + VQ_ALIGN) (used_seen g)) /\
    same_storage D D' /\ d_seen D' = d_seen D /\
    d_regs D' VIRTIO_MMIO_STATUS = 15 /\ queue_of modern (d_regs D') = placed queue_size.
Proof.
  intros Hne. pose proof (queue_size_range Hne) as Hn.
  assert (16 * queue_size < 2 ^ 32) by (unfold VQ_NUM in Hn; lia).
  assert (forall x, 0 <= x < 2 ^ 41 -> u32 x + 2 ^ 32 * u32 (Z.shiftr x 32) = x) as Hs
    by (intros; apply split_lo_hi; lia).
  destruct modern eqn:Em; eexists; (split; [eapply does_conv|]).
  - unfold setup_queue. do 2 dstep. change (reg_val _ VIRTIO_MMIO_QUEUE_MAX) with v_qmax.
    rewrite (proj2 (Z.eqb_neq _ _) Hne). cbv zeta. fold queue_size.
    rewrite used_off_page, u32_small by lia. dstep.
    eapply does_bind; [apply does_lift; intros h; now apply put_layout_runs|cbn beta]. dstep.
    eapply does_bind0; [drun|cbn beta]. do 3 dstep. rewrite reg_val_status. drun.
  - reflexivity.
  - reflexivity.
  - reflexivity.
  - reflexivity.
  - split; [split; reflexivity|]. split; [reflexivity|]. split; [reflexivity|].
    unfold queue_of, placed. cbn [d_regs set_reg].
    change (Queue queue_size (u32 qmem + 2 ^ 32 * u32 (Z.shiftr qmem 32))
      (u32 (qmem + 16 * queue_size) + 2 ^ 32 * u32 (Z.shiftr (qmem + 16 * queue_size) 32))
      (u32 (qmem + VQ_ALIGN) + 2 ^ 32 * u32 (Z.shiftr (qmem + VQ_ALIGN) 32))
      = Queue queue_size qmem (qmem + 16 * queue_size) (qmem + VQ_ALIGN)).
    unfold VQ_NUM, VQ_ALIGN in *. now rewrite !Hs by lia.
  - unfold setup_queue. do 2 dstep. change (reg_val _ VIRTIO_MMIO_QUEUE_MAX) with v_qmax.
    rewrite (proj2 (Z.eqb_neq _ _) Hne). cbv zeta. fold queue_size.
    rewrite used_off_page, u32_small by lia. dstep.
    eapply does_bind; [apply does_lift; intros h; now apply put_layout_runs|cbn beta]. dstep.
    eapply does_bind0; [drun|cbn beta]. do 3 dstep. rewrite reg_val_status. drun.
  - reflexivity.
  - reflexivity.
  - reflexivity.
  - reflexivity.
  - split; [split; reflexivity|]. split; [reflexivity|]. split; [reflexivity|].
    unfold queue_of, placed. cbn [d_regs set_reg].
    change (Queue queue_size (u32 (qmem ≫ 12) * VQ_ALIGN) (u32 (qmem ≫ 12) * VQ_ALIGN + 16 * queue_size)
      (align_up (u32 (qmem ≫ 12) * VQ_ALIGN + 16 * queue_size + 6 + 2 * queue_size) VQ_ALIGN)
      = Queue queue_size qmem (qmem + 16 * queue_size) (qmem + VQ_ALIGN)).
    now rewrite shiftr_page, align_used.
Qed.

(** ** [virtio_init] *)

Definition init_text : list Z :=
  slot_text ++ negotiate_text ++ layout_text queue_size ++ ready_text.

Definition init_vg : vg :=
  VG base queue_size qmem (qmem + 16 * queue_size) (qmem + VQ_ALIGN) 0.

Lemma virtio_init_ok D :
  v_qmax <> 0 ->
  exists D', does (U:=U) (H:=H) (virtio_init qmem) D boot_vg queue_size init_text D' init_vg /\
    same_storage D D' /\ d_seen D' = 0 /\
    d_regs D' VIRTIO_MMIO_STATUS = 15 /\ queue_of modern (d_regs D') = placed queue_size.
Proof.
  intros Hne. pose proof (slot_base_range _ v_slot_range) as Hb.
  destruct (negotiate_ok D (VG base 0 0 0 0 0)) as (D1 & E1 & [S1 S1'] & Z1 & R1).
  destruct (setup_queue_ok D1 (VG base 0 0 0 0 0) Hne) as (D2 & E2 & [S2 S2'] & Z2 & R2 & Q2).
  exists D2. split.
  - unfold virtio_init. eapply does_bind; [apply find_block_device_finds|cbn beta].
    rewrite (proj2 (Z.eqb_neq base 0)) by lia. dstep. cbn [boot_vg vq_size qdesc qavail qused used_seen].
    eapply does_bind; [exact E1|cbn beta]. exact E2.
  - split; [split; congruence|]. split; [congruence|]. auto.
Qed.
End Init.

(** ** Requests *)

(** Two byte ranges that do not meet. *)
Definition apart (a la b lb : Z) : Prop := a + la <= b \/ b + lb <= a.

Lemma apart_ne a la b lb x y :
  apart a la b lb -> a <= x < a + la -> b <= y < b + lb -> x <> y.
Proof. unfold apart. lia. Qed.
Lemma apart_ne' a la b lb x y :
  apart a la b lb -> a <= x < a + la -> b <= y < b + lb -> y <> x.
Proof. unfold apart. lia. Qed.

(** Where the linker put the driver's objects. *)
Record placement (qmem req stb data : Z) : Prop := {
  pl_q_req : apart qmem QMEM_SIZE req 16;
  pl_q_stb : apart qmem QMEM_SIZE stb 1;
  pl_q_data : apart qmem QMEM_SIZE data 512;
  pl_req_stb : apart req 16 stb 1;
  pl_req_data : apart req 16 data 512;
  pl_stb_data : apart stb 1 data 512;
}.

(** Addresses of different objects, or of different fields of one. *)
Ltac addr_ne :=
  first
    [ lia
    | match goal with
      | Hp : apart ?a ?la ?b ?lb |- _ =>
          first [ apply (apart_ne _ _ _ _ _ _ Hp); lia | apply (apart_ne' _ _ _ _ _ _ Hp); lia ]
      end ].
Ltac mem_at :=
  cbn [d_mem set_mem];
  repeat (rewrite fset_ne by addr_ne); first [rewrite fset_eq | idtac].

Section Request.
Context {U H : Type} `{!UartDev U, !UartSpec U, !HartDev H, !DmaDev H, !BlkSpec H}.
Abbreviation base := (MMIO_BASE + v_slot * MMIO_STRIDE).
Implicit Types (D : dstate) (g : vg) (h : H).
Context (qmem req stb : Z).

(** A configured device between requests: queue of [n], [s] requests done. *)
Record live (D : dstate) (n s : Z) : Prop := {
  lv_status : d_regs D VIRTIO_MMIO_STATUS = 15;
  lv_queue : queue_of modern (d_regs D) = placed qmem n;
  lv_seen : d_seen D = s;
  lv_avail : d_mem D (qmem + 16 * n + avail_idx) = s;
  lv_used : d_mem D (qmem + VQ_ALIGN + used_idx) = s;
  lv_range : 0 <= s < 2 ^ 16;
  lv_n : 3 <= n <= VQ_NUM;
}.
Definition live_vg (n s : Z) : vg := VG base n qmem (qmem + 16 * n) (qmem + VQ_ALIGN) s.

(** What a request leaves in memory: only queue cells, the header, the status
    byte and, for a read, the data buffer. *)
Definition request_frame D D' (data : Z) (w : bool) : Prop :=
  forall a, ~ (qmem <= a < qmem + QMEM_SIZE) -> ~ (req <= a < req + 16) -> a <> stb ->
    (w = false -> ~ (data <= a < data + 512)) -> d_mem D' a = d_mem D a.

(** The header, the status poison and the three descriptors, from [D]. *)
Definition described D (data sector : Z) (w : bool) : dstate :=
  set_mem (qmem + desc_next 2) 0 (set_mem (qmem + desc_flags 2) VIRTQ_DESC_F_WRITE
  (set_mem (qmem + desc_len 2) 1 (set_mem (qmem + desc_addr 2) stb
  (set_mem (qmem + desc_next 1) 2
  (set_mem (qmem + desc_flags 1) (Z.lor VIRTQ_DESC_F_NEXT (if w then 0 else VIRTQ_DESC_F_WRITE))
  (set_mem (qmem + desc_len 1) BLK_SECTOR_SIZE (set_mem (qmem + desc_addr 1) data
  (set_mem (qmem + desc_next 0) 1 (set_mem (qmem + desc_flags 0) VIRTQ_DESC_F_NEXT
  (set_mem (qmem + desc_len 0) 16 (set_mem (qmem + desc_addr 0) req
  (set_mem stb 0xff
  (set_mem (req + req_sector) sector
  (set_mem (req + req_reserved) 0
  (set_mem (req + req_type) (if w then BLK_T_OUT else BLK_T_IN) D))))))))))))))).
(** ... and then the ring entry. *)
Definition chained D (n s data sector : Z) (w : bool) : dstate :=
  set_mem (qmem + 16 * n + avail_idx) (u16 (s + 1))
    (set_mem (qmem + 16 * n + avail_ring (s mod n)) 0 (described D data sector w)).

Lemma chained_keeps D n s data sector w :
  d_regs (chained D n s data sector w) = d_regs D /\
  d_disk (chained D n s data sector w) = d_disk D /\ d_seen (chained D n s data sector w) = d_seen D.
Proof.
  unfold chained, described.
  assert (forall a v D0, d_regs (set_mem a v D0) = d_regs D0) as E1 by reflexivity.
  assert (forall a v D0, d_disk (set_mem a v D0) = d_disk D0) as E2 by reflexivity.
  assert (forall a v D0, d_seen (set_mem a v D0) = d_seen D0) as E3 by reflexivity.
  now rewrite !E1, !E2, !E3.
Qed.

Lemma chained_published D n s data sector w :
  live D n s -> placement qmem req stb data ->
  published (d_mem (chained D n s data sector w)) (placed qmem n) s 0 req data stb w sector.
Proof.
  intros [] []. pose proof (Z.mod_pos_bound s n ltac:(lia)) as Hr.
  unfold VQ_NUM, QMEM_SIZE, VQ_ALIGN, VQ_NUM in *.
  split; cbn [placed q_avail q_desc q_used q_n]; unfold chained, described, desc_is, avail_idx, avail_ring, desc_addr,
    desc_len, desc_flags, desc_next, req_type, req_sector, req_reserved; cbn [q_desc placed].
  - mem_at. reflexivity.
  - mem_at. reflexivity.
  - exists 1, 2, 0. repeat split; mem_at; reflexivity.
  - mem_at. reflexivity.
  - mem_at. reflexivity.
Qed.

(** From any device in state [D], [m] returns and its outcome satisfies [P]. *)
Definition leads {A} (m : prog (world U H vg) A) (D : dstate) (g : vg)
    (P : A -> list Z -> dstate -> vg -> Prop) : Prop :=
  forall h, Dev h D -> exists h' D' a l g', Dev h' D' /\ runs m h g a l h' g' /\ P a l D' g'.

Lemma leads_bind {A B} (m : prog (world U H vg) A) (k : A -> prog _ B) D g a l1 D1 g1 P :
  does m D g a l1 D1 g1 -> leads (k a) D1 g1 (fun b l => P b (l1 ++ l)) -> leads (bind m k) D g P.
Proof.
  intros Hm Hk h Hh. destruct (Hm h Hh) as (h1 & H1 & R1).
  destruct (Hk h1 H1) as (h2 & D2 & b & l & g2 & H2 & R2 & HP).
  exists h2, D2, b, (l1 ++ l), g2. split; [exact H2|]. split; [|exact HP]. eapply runs_bind; eassumption.
Qed.
Lemma leads_bind0 {A B} (m : prog (world U H vg) A) (k : A -> prog _ B) D g a D1 g1 P :
  does m D g a [] D1 g1 -> leads (k a) D1 g1 P -> leads (bind m k) D g P.
Proof. apply (leads_bind m k D g a []). Qed.

Lemma leads_seq {A B} (m : prog (world U H vg) A) (k : A -> prog _ B) D g P Q :
  leads m D g P ->
  (forall a l D1 g1, P a l D1 g1 -> leads (k a) D1 g1 (fun b l' => Q b (l ++ l'))) ->
  leads (bind m k) D g Q.
Proof.
  intros Hm Hk h Hh. destruct (Hm h Hh) as (h1 & D1 & a & l & g1 & H1 & R1 & HP).
  destruct (Hk a l D1 g1 HP h1 H1) as (h2 & D2 & b & l2 & g2 & H2 & R2 & HQ).
  exists h2, D2, b, (l ++ l2), g2. split; [exact H2|]. split; [|exact HQ]. eapply runs_bind; eassumption.
Qed.

Lemma leads_does {A} (m : prog (world U H vg) A) D g a l D' g' (P : A -> list Z -> dstate -> vg -> Prop) :
  does m D g a l D' g' -> P a l D' g' -> leads m D g P.
Proof. intros Hm HP h Hh. destruct (Hm h Hh) as (h' & H' & R). exists h', D', a, l, g'. auto. Qed.

Lemma leads_mono {A} (m : prog (world U H vg) A) D g (P Q : A -> list Z -> dstate -> vg -> Prop) :
  leads m D g P -> (forall a l D' g', P a l D' g' -> Q a l D' g') -> leads m D g Q.
Proof.
  intros Hm HPQ h Hh. destruct (Hm h Hh) as (h1 & D1 & a & l & g1 & H1 & R1 & HP).
  exists h1, D1, a, l, g1. auto.
Qed.

(** The data a request moved. *)
Definition moved D D' (data sector : Z) (w : bool) : Prop :=
  (w = false -> forall i, 0 <= i < 512 -> d_mem D' (data + i) = d_disk D sector i) /\
  (forall s i, 0 <= i < 512 ->
     d_disk D' s i = if w && (s =? sector) then d_mem D (data + i) else d_disk D s i).

Lemma poll_limit k : Z.of_nat k < 100000000 -> (k < Pos.to_nat 100000000)%nat.
Proof. intros Hk. apply Nat2Z.inj_lt. now rewrite positive_nat_Z. Qed.

Lemma u16_succ_ne s : 0 <= s < 2 ^ 16 -> u16 (s + 1) <> s.
Proof.
  intros Hs. unfold u16. destruct (Z.eq_dec s (2 ^ 16 - 1)) as [->|].
  - vm_compute. discriminate.
  - rewrite Z.mod_small; lia.
Qed.

Lemma published_ext (m m' : Z -> Z) q s head hdr data st' w sector :
  (forall a, m a = m' a) -> published m q s head hdr data st' w sector ->
  published m' q s head hdr data st' w sector.
Proof.
  intros E [H1 H2 (i1 & i2 & nx & H3) H4 H5]. unfold desc_is in *. rewrite !E in *.
  split; auto. exists i1, i2, nx. exact H3.
Qed.

Lemma served_ext (m1 m2 m' : Z -> Z) q u head len data st' w c1 c2 :
  (forall a, m1 a = m2 a) -> (forall i, c1 i = c2 i) ->
  served m1 m' q u head len data st' w c1 -> served m2 m' q u head len data st' w c2.
Proof.
  intros E1 E2 []. split; auto; intros.
  - rewrite <- E2. auto.
  - rewrite <- E1. auto.
Qed.

Lemma queue_of_ext b (r r' : Z -> Z) : (forall o, r o = r' o) -> queue_of b r = queue_of b r'.
Proof. intros E. unfold queue_of. now rewrite !E. Qed.

Ltac fields :=
  unfold QMEM_SIZE, chained, described, avail_idx, avail_ring, desc_addr, desc_len, desc_flags, desc_next,
    req_type, req_sector, req_reserved, used_idx, used_ring_id, used_ring_len, VQ_ALIGN, VQ_NUM in *.

(** What the driver relies on from the moment it notifies. *)
Record outcome_of D D' (n s data sector : Z) (w : bool) (len : Z) : Prop := {
  oc_len : 0 <= len < 2 ^ 31;
  oc_seen : d_seen D' = u16 (s + 1);
  oc_regs o : d_regs D' o = d_regs D o;
  oc_mem : served (d_mem (chained D n s data sector w)) (d_mem D') (placed qmem n) s 0 len data stb w (d_disk D sector);
  oc_disk s' i : 0 <= i < 512 -> d_disk D' s' i =
    if w && (s' =? sector) then d_mem (chained D n s data sector w) (data + i) else d_disk D s' i;
}.

Lemma notify_served h D n s data sector w :
  live D n s -> placement qmem req stb data -> 0 <= sector < v_capacity ->
  Dev h (chained D n s data sector w) ->
  exists h' D' len, Dev h' D' /\ outcome_of D D' n s data sector w len /\
    runs (U:=U) (until_p 100000000 poll_used) (mw32 (base + VIRTIO_MMIO_QUEUE_NOTIFY) 0 h) (live_vg n s)
      (Some tt) [] h' (live_vg n s).
Proof.
  intros L P Hsec Hh. pose proof (chained_published D n s data sector w L P) as Hpub.
  destruct L, P. pose proof (Z.mod_pos_bound s n ltac:(lia)) as Hr.
  destruct (chained_keeps D n s data sector w) as (ER & ED & ES).
  set (D1 := chained D n s data sector w) in *.
  assert (d_mem D1 (qmem + VQ_ALIGN + used_idx) = s) as Hu
    by (unfold D1; fields; mem_at; assumption).
  assert (queue_of modern (regs h) = placed qmem n) as Eq.
  { rewrite <- lv_queue0. apply queue_of_ext. intros o. now rewrite (dv_regs _ _ Hh), ER. }
  assert (dev_seen h = s) as Es by (rewrite (dv_seen _ _ Hh), ES; exact lv_seen0).
  pose proof (serves h 0 req data stb w sector) as S. cbn zeta in S. fold modern in S.
  rewrite Eq, Es in S. cbn [placed q_used q_n q_avail] in S.
  rewrite (dv_mem _ _ Hh), Hu, (dv_regs _ _ Hh), ER in S.
  destruct S as (k & h' & len & Hp & Hk & Hlen & Hi & Hregs & Hseen & Hserved & Hdisk).
  - apply Hh.
  - rewrite lv_status0. discriminate.
  - lia.
  - exact Hsec.
  - exact lv_range0.
  - unfold separate. cbn [placed q_used q_n]. split; [|split].
    + rewrite !not_elem_of_cons. fields. repeat split; [addr_ne..|apply not_elem_of_nil].
    + intros Hin. revert Hin. unfold apart in pl_stb_data0. lia.
    + intros a Ha. rewrite !elem_of_cons in Ha. fields. unfold apart in pl_q_data0.
      destruct Ha as [->|[->|[->|Ha]]]; [lia..|now apply not_elem_of_nil in Ha].
  - apply (published_ext (d_mem D1)); [|exact Hpub]. intros a. symmetry. apply (dv_mem _ _ Hh).
  - exists h', (DS (peek h') (regs h') (disk h') (dev_seen h')), len.
    assert (dma_ld (qmem + VQ_ALIGN + used_idx) h' = (u16 (s + 1), h')) as Eld.
    { rewrite mem_ld by exact Hi. f_equal. apply (sv_idx _ _ _ _ _ _ _ _ _ _ Hserved). }
    split; [split; auto|]. split.
    + split; cbn [d_mem d_regs d_disk d_seen]; auto.
      * intros o. now rewrite Hregs, (dv_regs _ _ Hh), ER.
      * eapply served_ext; [..|exact Hserved]; intros; [apply (dv_mem _ _ Hh)|now rewrite (dv_disk _ _ Hh), ED].
      * intros s' i Hi'. now rewrite Hdisk, (dv_mem _ _ Hh), (dv_disk _ _ Hh), ED by exact Hi'.
    + intros u. rewrite until_p_n.
      pose proof (until_moved (U:=U) k (Pos.to_nat 100000000) _ h' (live_vg n s) Hp (poll_limit k Hk)) as Hm.
      cbn [live_vg qused used_seen] in Hm. rewrite Eld in Hm. apply Hm. now apply u16_succ_ne.
Qed.

Lemma u16_range z : 0 <= u16 z < 2 ^ 16.
Proof. apply Z.mod_pos_bound. lia. Qed.

Lemma virtio_desc_set_does i addr len flags next D n s :
  does (U:=U) (H:=H) (virtio_desc_set i addr len flags next) D (live_vg n s) tt []
    (set_mem (qmem + desc_next i) next (set_mem (qmem + desc_flags i) flags
      (set_mem (qmem + desc_len i) len (set_mem (qmem + desc_addr i) addr D)))) (live_vg n s).
Proof. unfold virtio_desc_set. dstep. cbn [id live_vg qdesc]. drun. Qed.

(** The state after a completed request. *)
Lemma outcome_live D D' n s data sector w len :
  live D n s -> placement qmem req stb data -> outcome_of D D' n s data sector w len ->
  live D' n (u16 (s + 1)) /\ request_frame D D' data w /\ moved D D' data sector w.
Proof.
  intros [] [] []. destruct oc_mem0. pose proof (Z.mod_pos_bound s n ltac:(lia)) as Hr.
  cbn [placed q_used q_n] in *. split; [|split].
  - split; auto.
    + now rewrite oc_regs0.
    + rewrite <- lv_queue0. now apply queue_of_ext.
    + rewrite sv_frame0; fields; [|lia|lia|lia|addr_ne|intros _; unfold apart in pl_q_data0; lia].
      mem_at. reflexivity.
    + apply u16_range.
  - intros a Hq Hreq Hs Hdata. rewrite sv_frame0; fields; [|lia|lia|lia|exact Hs|exact Hdata].
    mem_at. reflexivity.
  - split; [intros -> i Hi; now apply sv_data0|].
    intros s' i Hi. rewrite oc_disk0 by exact Hi. destruct w; [|reflexivity]. cbn [andb].
    destruct (s' =? sector); [|reflexivity]. fields. unfold apart in *. mem_at. reflexivity.
Qed.

Lemma blk_op_ok D n s data sector w :
  live D n s -> placement qmem req stb data -> 0 <= sector < v_capacity ->
  leads (blk_op req stb sector data w) D (live_vg n s)
    (fun r l D' g' => r = 0 /\ l = [] /\ g' = live_vg n (u16 (s + 1)) /\
       live D' n (u16 (s + 1)) /\ request_frame D D' data w /\ moved D D' data sector w).
Proof.
  intros L P Hsec. unfold blk_op.
  do 4 (eapply leads_bind0; [dprim|cbn beta]).
  do 3 (eapply leads_bind0; [apply virtio_desc_set_does|cbn beta]).
  fold (described D data sector w).
  eapply (leads_seq _ _ _ _ (fun r l D' g' => l = [] /\ g' = live_vg n (u16 (s + 1)) /\
            outcome_of D D' n s data sector w r)).
  - unfold virtio_kick_wait. do 2 (eapply leads_bind0; [dprim|cbn beta]).
    cbn [id live_vg qavail vq_size vdev_base qused used_seen].
    assert (d_mem (described D data sector w) (qmem + 16 * n + avail_idx) = s) as Ha.
    { destruct L, P. fields. mem_at. assumption. }
    rewrite Ha. destruct L as [? ? ? ? ? ? Hn] eqn:EL.
    rewrite (proj2 (Z.eqb_neq n 0)) by lia. clear EL.
    do 2 (eapply leads_bind0; [dprim|cbn beta]). fold (chained D n s data sector w).
    intros h Hh. destruct (notify_served h D n s data sector w L P Hsec Hh) as (h' & D' & len & HD & HO & HR).
    pose proof HO as [Hlen _ _ HS _]. destruct HS.
    exists h', D', len, [], (live_vg n (u16 (s + 1))). split; [exact HD|]. split; [|auto].
    eapply runs_bind0; [apply runs_reg_write|]. eapply runs_bind0; [exact HR|].
    pose proof (Dev_ld_runs h' D' (live_vg n s) HD) as Hld.
    eapply runs_bind0; [apply Hld|]. eapply runs_bind0; [apply Hld|].
    cbn [placed q_used q_n] in *. rewrite sv_id0, sv_len0. xstep.
    eapply runs_conv; [apply runs_ret|cbn [Z.eqb negb]|auto..].
    unfold s32. rewrite u32_small by lia. now rewrite (proj2 (Z.ltb_lt _ _)) by lia.
  - intros r l D1 g1 (-> & -> & HO). pose proof HO as [Hlen _ _ [] _].
    rewrite (proj2 (Z.ltb_ge r 0)) by lia.
    destruct (outcome_live D D1 n s data sector w r L P HO) as (HL & HF & HM).
    eapply leads_bind0; [dprim|cbn beta]. rewrite sv_status0. cbn [Z.eqb negb BLK_S_OK].
    eapply leads_does; [dprim|]. auto 10.
Qed.
End Request.

(** ** The demonstration program *)

Lemma fnv1a_range l : 0 <= fnv1a_list l < 2 ^ 32.
Proof.
  unfold fnv1a_list. induction l as [|x l _] using rev_ind; [cbn; lia|].
  rewrite fold_left_app. cbn [fold_left]. apply Z.mod_pos_bound. lia.
Qed.

Section Main.
Context {U H : Type} `{!UartDev U, !UartSpec U, !HartDev H, !DmaDev H, !BlkSpec H}.
Abbreviation base := (MMIO_BASE + v_slot * MMIO_STRIDE).
Implicit Types (D : dstate) (g : vg) (h : H).
Context (qmem req stb wbuf rbuf : Z).
Context (Hq : 0 <= qmem < 2 ^ 40) (Hqa : qmem mod VQ_ALIGN = 0).
Context (Pw : placement qmem req stb wbuf) (Pr : placement qmem req stb rbuf).
Context (Pwr : apart wbuf 512 rbuf 512).

Lemma Dev_ext h D D' :
  Dev h D -> (forall a, d_mem D a = d_mem D' a) -> d_regs D = d_regs D' -> d_disk D = d_disk D' ->
  d_seen D = d_seen D' -> Dev h D'.
Proof. intros [] E1 E2 E3 E4. split; intros; rewrite <- ?E1, <- ?E2, <- ?E3, <- ?E4; auto. Qed.

(** Filling [n] bytes at [p]. *)
Definition filled (p n : Z) (f : Z -> Z) D : dstate :=
  DS (fun a => if (p <=? a) && (a <? p + n) then f (a - p) else d_mem D a) (d_regs D) (d_disk D) (d_seen D).

Lemma fill_does p f k n D g :
  does (U:=U) (H:=H) (for_each (seqZ k (Z.of_nat n)) (fun i => st (p + i) (f i))) D g tt []
    (filled (p + k) (Z.of_nat n) (fun j => f (j + k)) D) g.
Proof.
  revert k D; induction n as [|n IH]; intros k D h Hh.
  - exists h. split; [|apply runs_ret]. apply (Dev_ext h D _ Hh); auto. intros a.
    cbn [filled d_mem Z.of_nat].
    destruct (Z.leb_spec (p + k) a), (Z.ltb_spec a (p + k + Z.of_nat 0)); cbn [andb]; first [reflexivity|lia].
  - rewrite seqZ_cons by lia. cbn [for_each].
    replace (Z.pred (Z.of_nat (S n))) with (Z.of_nat n) by lia.
    destruct (does_st (U:=U) (p + k) (f k) D g h Hh) as (h1 & H1 & R1).
    destruct (IH (Z.succ k) _ h1 H1) as (h2 & H2 & R2).
    exists h2. split; [|eapply runs_bind0; eassumption].
    apply (Dev_ext h2 _ _ H2); auto. intros a. unfold filled. cbn [d_mem set_mem]. unfold fset.
    destruct (Z.leb_spec (p + Z.succ k) a), (Z.ltb_spec a (p + Z.succ k + Z.of_nat n)),
      (Z.leb_spec (p + k) a), (Z.ltb_spec a (p + k + Z.of_nat (S n))), (Z.eqb_spec a (p + k));
      cbn [andb]; try lia; try reflexivity; f_equal; lia.
Qed.

Lemma ld_bytes_does p n D g :
  does (U:=U) (H:=H) (ld_bytes p n) D g (map (fun i => d_mem D (p + Z.of_nat i)) (seq 0 n)) [] D g.
Proof.
  revert p; induction n as [|n IH]; intros p; [apply does_lift; intros; apply runs_ret|].
  cbn [ld_bytes]. dstep. eapply does_bind0; [apply IH|cbn beta].
  eapply does_conv; [dstep| |auto..]. cbn [map seq]. rewrite Z.add_0_r. f_equal.
  rewrite <- seq_shift, map_map. apply map_ext. intros i. f_equal. lia.
Qed.

Lemma compare_equal D g k n mm fb :
  (forall i, k <= i < k + Z.of_nat n -> d_mem D (rbuf + i) = d_mem D (wbuf + i)) ->
  does (U:=U) (H:=H) (for_acc (seqZ k (Z.of_nat n)) (mm, fb) (fun i '(mm, fb) =>
    x <- ld (rbuf + i) ;; y <- ld (wbuf + i) ;;
    ret (if negb (x =? y) then (mm + 1, if mm =? 0 then i else fb) else (mm, fb)))) D g (mm, fb) [] D g.
Proof.
  revert k; induction n as [|n IH]; intros k Hk; [apply does_lift; intros; apply runs_ret|].
  rewrite seqZ_cons by lia. cbn [for_acc].
  replace (Z.pred (Z.of_nat (S n))) with (Z.of_nat n) by lia.
  eapply does_bind0; [|apply IH; intros; apply Hk; lia].
  do 2 dstep. rewrite (Hk k) by lia. rewrite Z.eqb_refl. cbn [negb]. dstep.
Qed.

Definition pattern_bytes : list Z := map pattern (seqZ 0 512).

Lemma capacity_words : Z.lor (Z.shiftl (v_capacity / 2 ^ 32) 32) (v_capacity mod 2 ^ 32) = v_capacity.
Proof.
  rewrite Z.shiftl_mul_pow2 by lia.
  assert (Z.land (v_capacity / 2 ^ 32 * 2 ^ 32) (v_capacity mod 2 ^ 32) = 0) as Hz.
  { apply Z.bits_inj'. intros n Hn. rewrite Z.land_spec, Z.bits_0.
    destruct (Z.lt_ge_cases n 32).
    - now rewrite Z.mul_pow2_bits_low by lia.
    - rewrite (Z.mod_pow2_bits_high _ 32) by lia. apply andb_false_r. }
  rewrite <- Z.lxor_lor by exact Hz. rewrite <- Z.add_nocarry_lxor by exact Hz.
  pose proof (Z.div_mod v_capacity (2 ^ 32)). lia.
Qed.

Lemma config_does D n s :
  does (U:=U) (H:=H) (virtio_config64 0) D (live_vg qmem n s) v_capacity [] D (live_vg qmem n s).
Proof.
  unfold virtio_config64. dstep. cbn [id live_vg vdev_base]. cbv zeta.
  replace (base + VIRTIO_MMIO_CONFIG + 0) with (base + VIRTIO_MMIO_CONFIG) by lia.
  eapply does_bind0; [exact (does_rd VIRTIO_MMIO_CONFIG D _ ltac:(off_ok))|cbn beta].
  replace (base + VIRTIO_MMIO_CONFIG + 4) with (base + (VIRTIO_MMIO_CONFIG + 4)) by lia.
  eapply does_bind0; [exact (does_rd (VIRTIO_MMIO_CONFIG + 4) D _ ltac:(off_ok))|cbn beta].
  eapply does_conv; [dstep|exact capacity_words|auto..].
Qed.

(** Buffers outside the queue leave the device live. *)
Lemma filled_live D n s p f :
  live qmem D n s -> apart qmem QMEM_SIZE p 512 -> live qmem (filled p 512 f D) n s.
Proof.
  intros [] Hp. unfold QMEM_SIZE, VQ_ALIGN, VQ_NUM, apart in *.
  split; auto; unfold avail_idx, used_idx, filled, VQ_ALIGN in *; cbn [d_mem]; 
    match goal with |- context [(p <=? ?a) && (?a <? p + 512)] =>
      destruct (Z.leb_spec p a), (Z.ltb_spec a (p + 512)); cbn [andb]; auto; lia end.
Qed.

Lemma filled_in p f D i : 0 <= i < 512 -> d_mem (filled p 512 f D) (p + i) = f i.
Proof.
  intros Hi. unfold filled. cbn [d_mem]. rewrite (proj2 (Z.leb_le _ _)), (proj2 (Z.ltb_lt _ _)) by lia.
  cbn [andb]. f_equal. lia.
Qed.
Lemma filled_out p f D a : ~ (p <= a < p + 512) -> d_mem (filled p 512 f D) a = d_mem D a.
Proof.
  intros Ha. unfold filled. cbn [d_mem].
  destruct (Z.leb_spec p a), (Z.ltb_spec a (p + 512)); cbn [andb]; auto; lia.
Qed.

Definition bmain_text : list Z :=
  lit "========================================\n"
  ++ lit "virtio-blk demo: block driver, sector write/read\n"
  ++ lit "========================================\n\n"
  ++ init_text qmem
  ++ lit "virtio-blk: device capacity " ++ fmt_dec v_capacity ++ lit " sectors ("
  ++ fmt_dec (v_capacity / 2048) ++ lit " MiB)\n\n"
  ++ lit "virtio-blk: write sector 0 -> rc=0 (device status OK), pattern checksum 0x"
  ++ fmt_hex (fnv1a_list pattern_bytes) ++ lit "\n"
  ++ lit "virtio-blk: read  sector 0 -> rc=0 (device status OK)\n"
  ++ lit "virtio-blk: read checksum 0x" ++ fmt_hex (fnv1a_list pattern_bytes)
  ++ lit ", byte mismatches 0\n\n"
  ++ lit "RESULT: PASS (512/512 bytes round-tripped through sector 0)\n"
  ++ lit "virtio-blk: halting.\n".

Lemma bytes_of_buf D p :
  (forall i, 0 <= i < 512 -> d_mem D (p + i) = pattern i) ->
  map (fun i => d_mem D (p + Z.of_nat i)) (seq 0 (Z.to_nat BLK_SECTOR_SIZE)) = pattern_bytes.
Proof.
  intros Hp. unfold pattern_bytes. change (Z.to_nat BLK_SECTOR_SIZE) with (Z.to_nat 512).
  change (seqZ 0 512) with (map (fun i => Z.of_nat i + 0) (seq 0 (Z.to_nat 512))).
  rewrite map_map. apply map_ext_in. intros i Hi. apply in_seq in Hi.
  rewrite Hp by lia. f_equal. lia.
Qed.

Lemma put_rc_ok D g : does (U:=U) (H:=H) (put_rc 0) D g tt (fmt_dec 0 ++ lit " (device status OK)") D g.
Proof. apply does_lift. intros h. unfold put_rc. change (0 <? 0) with false. cbv iota. xrun. Qed.

(** The write/read part of [main], from a live device. *)
Definition bmain_io : prog (world U H vg) Z :=
  for_each (seqZ 0 BLK_SECTOR_SIZE) (fun i => st (wbuf + i) (pattern i)) ;;
  wsum <- fnv1a wbuf BLK_SECTOR_SIZE ;;
  rc <- blk_write req stb 0 wbuf ;;
  uputs "virtio-blk: write sector 0 -> rc=" ;;
  put_rc rc ;;
  uputs ", pattern checksum 0x" ;;
  uart_put_hex wsum ;;
  uputs "\n" ;;
  for_each (seqZ 0 BLK_SECTOR_SIZE) (fun i => st (rbuf + i) 0xaa) ;;
  rc <- blk_read req stb 0 rbuf ;;
  uputs "virtio-blk: read  sector 0 -> rc=" ;;
  put_rc rc ;;
  uputs "\n" ;;
  rsum <- fnv1a rbuf BLK_SECTOR_SIZE ;;
  c <- compare_bufs wbuf rbuf ;;
  uputs "virtio-blk: read checksum 0x" ;;
  uart_put_hex rsum ;;
  uputs ", byte mismatches " ;;
  uart_put_dec (fst c) ;;
  when (fst c >? 0) (
    uputs " (first at offset " ;;
    uart_put_dec (snd c) ;;
    uputs ")") ;;
  uputs "\n\n" ;;
  if (fst c =? 0) && (rsum =? wsum) then
    uputs "RESULT: PASS (512/512 bytes round-tripped through sector 0)\n" ;;
    uputs "virtio-blk: halting.\n" ;;
    ret 0
  else
    uputs "RESULT: FAIL\n" ;;
    ret 1.

Definition bmain_io_text : list Z :=
  lit "virtio-blk: write sector 0 -> rc=" ++ fmt_dec 0 ++ lit " (device status OK)"
  ++ lit ", pattern checksum 0x"
  ++ fmt_hex (fnv1a_list pattern_bytes) ++ lit "\n"
  ++ lit "virtio-blk: read  sector 0 -> rc=" ++ fmt_dec 0 ++ lit " (device status OK)" ++ lit "\n"
  ++ lit "virtio-blk: read checksum 0x" ++ fmt_hex (fnv1a_list pattern_bytes)
  ++ lit ", byte mismatches " ++ fmt_dec 0 ++ lit "\n\n"
  ++ lit "RESULT: PASS (512/512 bytes round-tripped through sector 0)\n"
  ++ lit "virtio-blk: halting.\n".

Lemma fnv1a_pattern D p g :
  (forall i, 0 <= i < 512 -> d_mem D (p + i) = pattern i) ->
  does (U:=U) (H:=H) (fnv1a p BLK_SECTOR_SIZE) D g (fnv1a_list pattern_bytes) [] D g.
Proof.
  intros Hp. unfold fnv1a. eapply does_bind0; [apply ld_bytes_does|cbn beta].
  rewrite (bytes_of_buf D p Hp). dstep.
Qed.

Lemma bmain_io_passes D1 n :
  live qmem D1 n 0 -> 0 < v_capacity ->
  leads bmain_io D1 (live_vg qmem n 0) (fun r l D' g' => r = 0 /\ l = bmain_io_text /\
    forall i, 0 <= i < 512 -> d_disk D' 0 i = pattern i /\ d_mem D' (rbuf + i) = pattern i).
Proof.
  intros L1 Hcap. unfold bmain_io, blk_write, blk_read.
  assert (is_u64 (fnv1a_list pattern_bytes)) as Hfnv by (apply word_u64, fnv1a_range).
  assert (is_u64 0) as H0 by (split; lia).
  pose proof Pw as [Qwq _ Qw Qws Qww Qsw]. pose proof Pr as [_ _ Qr _ Qrr Qsr].
  eapply leads_bind0; [exact (fill_does wbuf pattern 0 512 D1 _)|cbn beta].
  change (Z.of_nat 512) with 512. rewrite Z.add_0_r.
  set (f := fun j => pattern (j + 0)). assert (forall i, f i = pattern i) as Hf by (intros; unfold f; f_equal; lia).
  clearbody f. set (D2 := filled wbuf 512 f D1).
  assert (forall i, 0 <= i < 512 -> d_mem D2 (wbuf + i) = pattern i) as Hw2
    by (intros i Hi; unfold D2; now rewrite filled_in, Hf).
  eapply leads_bind0; [now apply fnv1a_pattern|cbn beta].
  eapply leads_seq.
  { apply (blk_op_ok qmem req stb D2 n 0 wbuf 0 true); [now apply filled_live|exact Pw|lia]. }
  intros r l D3 g3 (-> & -> & -> & L3 & F3 & [_ M3]).
  assert (forall i, 0 <= i < 512 -> d_disk D3 0 i = pattern i) as Hd3
    by (intros i Hi; rewrite M3 by exact Hi; cbn [andb Z.eqb]; auto).
  assert (forall i, 0 <= i < 512 -> d_mem D3 (wbuf + i) = pattern i) as Hw3.
  { intros i Hi. rewrite F3; auto; unfold apart in *; lia. }
  eapply leads_bind; [dprim|cbn beta]. eapply leads_bind; [apply put_rc_ok|cbn beta].
  do 3 (eapply leads_bind; [dprim|cbn beta]).
  eapply leads_bind0; [exact (fill_does rbuf (fun _ => 0xaa) 0 512 D3 _)|cbn beta].
  change (Z.of_nat 512) with 512. rewrite Z.add_0_r. set (D4 := filled rbuf 512 _ D3).
  eapply leads_seq.
  { apply (blk_op_ok qmem req stb D4 n (u16 (0 + 1)) rbuf 0 false); [now apply filled_live|exact Pr|lia]. }
  intros r l D5 g5 (-> & -> & -> & L5 & F5 & [M5 M5d]).
  assert (forall i, 0 <= i < 512 -> d_mem D5 (rbuf + i) = pattern i) as Hr5
    by (intros i Hi; rewrite (M5 eq_refl) by exact Hi; now apply Hd3).
  assert (forall i, 0 <= i < 512 -> d_mem D5 (wbuf + i) = pattern i) as Hw5.
  { intros i Hi. rewrite F5; unfold apart in *; try lia.
    unfold D4. rewrite filled_out by lia. now apply Hw3. }
  eapply leads_bind; [dprim|cbn beta]. eapply leads_bind; [apply put_rc_ok|cbn beta].
  eapply leads_bind; [dprim|cbn beta].
  eapply leads_bind0; [now apply fnv1a_pattern|cbn beta].
  eapply leads_bind0; [apply (compare_equal D5 _ 0 512 0 0); intros i Hi; now rewrite Hr5, Hw5|cbn beta].
  cbn [fst snd]. change (0 >? 0) with false. rewrite !Z.eqb_refl. cbn [andb].
  eapply leads_does; [drun|cbn beta]. split; [reflexivity|]. split.
  - unfold bmain_io_text. rewrite <- ?app_assoc, ?app_nil_r, ?app_nil_l. reflexivity.
  - intros i Hi. split; [|now apply Hr5]. rewrite M5d by exact Hi. now apply Hd3.
Qed.
End Main.

(** ** A device that satisfies the laws

    A disk behind slot 7 offering both interfaces; a request shows up in
    memory only after the used index was polled three more times. *)

Record vcore : Type := VC { vc_mem : Z -> Z; vc_regs : Z -> Z; vc_disk : Z -> Z -> Z; vc_seen : Z }.
Record VirtDisk : Type := VD { vd_core : vcore; vd_late : option (nat * vcore) }.

Definition vd_base : Z := MMIO_BASE + 7 * MMIO_STRIDE.
Definition vd_capacity : Z := 2048 * 16.

Definition vd_reg (c : vcore) (off : Z) : Z :=
  if off =? VIRTIO_MMIO_MAGIC then VIRTIO_MAGIC_VALUE
  else if off =? VIRTIO_MMIO_DEVICE_ID then VIRTIO_ID_BLOCK
  else if off =? VIRTIO_MMIO_VERSION then 2
  else if off =? VIRTIO_MMIO_DEVICE_FEAT then (if vc_regs c VIRTIO_MMIO_DEVICE_FEAT_S =? 0 then 0x30006e54 else 1)
  else if off =? VIRTIO_MMIO_QUEUE_MAX then 1024
  else if off =? VIRTIO_MMIO_CONFIG then vd_capacity mod 2 ^ 32
  else if off =? VIRTIO_MMIO_CONFIG + 4 then vd_capacity / 2 ^ 32
  else vc_regs c off.

(** Serving the request at the head of the available ring. *)
Definition vd_serve (c : vcore) : vcore :=
  let m := vc_mem c in
  let q := queue_of true (vc_regs c) in
  let head := m (q_avail q + avail_ring (vc_seen c mod q_n q)) in
  let hdr := m (q_desc q + desc_addr head) in
  let i1 := m (q_desc q + desc_next head) in
  let data := m (q_desc q + desc_addr i1) in
  let stb := m (q_desc q + desc_addr (m (q_desc q + desc_next i1))) in
  let out := m (hdr + req_type) =? BLK_T_OUT in
  let sector := m (hdr + req_sector) in
  let u := m (q_used q + used_idx) in
  VC (fun a =>
        if a =? q_used q + used_idx then u16 (u + 1)
        else if a =? q_used q + used_ring_id (u mod q_n q) then head
        else if a =? q_used q + used_ring_len (u mod q_n q) then 1
        else if a =? stb then BLK_S_OK
        else if negb out && (data <=? a) && (a <? data + 512) then vc_disk c sector (a - data)
        else m a)
     (vc_regs c)
     (fun s i => if out && (s =? sector) then m (data + i) else vc_disk c s i)
     (u16 (vc_seen c + 1)).

Definition vd_wr (off v : Z) (c : vcore) : vcore :=
  VC (vc_mem c) (fset (vc_regs c) off v) (vc_disk c)
     (if (off =? VIRTIO_MMIO_STATUS) && (v =? 0) then 0 else vc_seen c).

#[export] Instance VirtDisk_hart : HartDev VirtDisk := {
  mr64 _ h := (0, h); mw64 _ _ h := h;
  mr32 a h :=
    if (vd_base <=? a) && (a <? vd_base + MMIO_STRIDE) then (vd_reg (vd_core h) (a - vd_base), h) else (0, h);
  mw32 a v h :=
    if a =? vd_base + VIRTIO_MMIO_QUEUE_NOTIFY
    then VD (vd_core h) (Some (2%nat, vd_serve (vd_core h)))
    else VD (vd_wr (a - vd_base) v (vd_core h)) (vd_late h);
  csr_rd _ h := (0, h); csr_wr _ _ h := h; hw_fuel := 1;
}.

#[export] Instance VirtDisk_dma : DmaDev VirtDisk := {
  dma_ld a h :=
    (vc_mem (vd_core h) a,
     match vd_late h with
     | None => h
     | Some (O, c) => VD c None
     | Some (S k, c) => VD (vd_core h) (Some (k, c))
     end);
  dma_st a v h :=
    VD (VC (fset (vc_mem (vd_core h)) a v) (vc_regs (vd_core h)) (vc_disk (vd_core h)) (vc_seen (vd_core h)))
       (vd_late h);
}.

Lemma vd_serve_spec c head hdr data stb w sector :
  let q := queue_of true (vc_regs c) in
  let u := vc_mem c (q_used q + used_idx) in
  0 < q_n q -> separate q u data stb ->
  published (vc_mem c) q (vc_seen c) head hdr data stb w sector ->
  served (vc_mem c) (vc_mem (vd_serve c)) q u head 1 data stb w (vc_disk c sector) /\
  (forall s i, 0 <= i < 512 -> vc_disk (vd_serve c) s i =
     if w && (s =? sector) then vc_mem c (data + i) else vc_disk c s i).
Proof.
  intros q u Hn (Hs1 & Hs2 & Hs3) [_ Hhead (i1 & i2 & nx & (D1 & _ & _ & D2) & (D3 & _ & _ & D4) & (D5 & _)) Ht Hsec].
  pose proof (Z.mod_pos_bound u (q_n q) Hn) as Hu.
  rewrite !not_elem_of_cons in Hs1. destruct Hs1 as (N1 & N2 & N3 & _).
  assert ((vc_mem c (hdr + req_type) =? BLK_T_OUT) = w) as Eout by (rewrite Ht; now destruct w).
  unfold vd_serve. fold q u. rewrite Hhead, D1, D2, D3, D4, D5, Hsec, Eout. cbn [vc_mem vc_disk].
  split; [|reflexivity].
  assert (forall x y, x <> y -> (x =? y) = false) as Hne by (intros; now apply Z.eqb_neq).
  split.
  - now rewrite Z.eqb_refl.
  - rewrite Hne, Z.eqb_refl by (unfold used_ring_id, used_idx; lia). reflexivity.
  - rewrite !Hne, Z.eqb_refl by (unfold used_ring_len, used_ring_id, used_idx; lia). reflexivity.
  - rewrite !Hne, Z.eqb_refl by congruence. reflexivity.
  - intros i Hi ->.
    assert (forall a, a ∈ [q_used q + used_idx; q_used q + used_ring_id (u mod q_n q);
        q_used q + used_ring_len (u mod q_n q)] -> data + i <> a) as Hd
      by (intros a Ha E; apply (Hs3 a Ha); lia).
    rewrite !Hne by (first [apply Hd; rewrite !elem_of_cons; tauto | intros E; apply Hs2; lia]).
    cbn [negb andb]. rewrite (proj2 (Z.leb_le _ _)), (proj2 (Z.ltb_lt _ _)) by lia. cbn. f_equal. lia.
  - intros a A1 A2 A3 A4 A5. rewrite !Hne by assumption.
    destruct w; [reflexivity|]. cbn [negb andb].
    destruct (Z.leb_spec data a), (Z.ltb_spec a (data + 512)); cbn; try reflexivity.
    exfalso. apply (A5 eq_refl). lia.
Qed.

Lemma vd_at off : (MMIO_BASE + 7 * MMIO_STRIDE + off) - vd_base = off.
Proof. unfold vd_base. lia. Qed.

#[export] Instance VirtDisk_spec : BlkSpec VirtDisk.
Proof.
  refine {| peek h := vc_mem (vd_core h); regs h := vc_regs (vd_core h); disk h := vc_disk (vd_core h);
            dev_seen h := vc_seen (vd_core h); idle h := vd_late h = None; v_slot := 7;
            v_version := 2; v_feat_lo := 0x30006e54; v_feat_hi := 1; v_qmax := 1024;
            v_capacity := vd_capacity |}.
  - unfold MMIO_SLOTS. lia.
  - repeat constructor; lia.
  - split; reflexivity || discriminate.
  - intros h i Hi. exists 0. split; [|discriminate]. cbn [mr32 VirtDisk_hart].
    replace (vd_base <=? _) with false; [reflexivity|].
    symmetry. apply Z.leb_gt. unfold vd_base, MMIO_BASE, MMIO_STRIDE, VIRTIO_MMIO_MAGIC. lia.
  - intros h off Hi Hr. cbn [mr32 VirtDisk_hart].
    rewrite (proj2 (Z.leb_le vd_base _)), (proj2 (Z.ltb_lt _ _)) by (unfold vd_base; lia).
    cbn [andb]. rewrite vd_at. reflexivity.
  - intros h off v Hi Hr Hne. cbn zeta. cbn [mw32 VirtDisk_hart].
    rewrite (proj2 (Z.eqb_neq _ (vd_base + VIRTIO_MMIO_QUEUE_NOTIFY))) by (unfold vd_base; lia).
    rewrite vd_at. cbn [vd_core vd_late vd_wr vc_mem vc_regs vc_disk vc_seen]. auto 10.
  - intros h a Hi. cbn [dma_ld VirtDisk_dma]. now rewrite Hi.
  - intros h a v Hi. cbn [dma_st VirtDisk_dma]. auto 10.
  - intros h head hdr data stb w sector q u Hi Hok Hn Hsec Hu Hsep Hpub.
    destruct (vd_serve_spec (vd_core h) head hdr data stb w sector Hn Hsep Hpub) as [HS HD].
    set (c' := vd_serve (vd_core h)) in *.
    exists 3%nat, (VD c' None), 1. split.
    { change (MMIO_BASE + 7 * MMIO_STRIDE) with vd_base. cbn [mw32 VirtDisk_hart]. rewrite Z.eqb_refl.
      fold c'. do 3 (apply polls_same; [reflexivity|]; cbn [dma_ld VirtDisk_dma snd vd_late vd_core]).
      apply polls_done. }
    split; [reflexivity|]. split; [lia|]. split; [reflexivity|].
    split; [reflexivity|]. split; [reflexivity|]. split; [exact HS|exact HD].
Defined.

(** ** The claims *)

(** The byte ranges of the structures inside [qmem], for a queue of [n]. *)
Definition desc_range (n i : Z) : Z * Z := (16 * i, 16 * i + 16).
Definition avail_range (n : Z) : Z * Z := (u32 (16 * n), u32 (16 * n) + 6 + 2 * n).
Definition used_range (n : Z) : Z * Z := (used_off n, used_off n + 6 + 8 * n).

(** for every queue size the driver can choose, the rings lie inside
    [qmem] one after the other, the used ring on its 4096-byte boundary and
    the available ring on an even one, and for sizes of at least 3 the
    three descriptors of a request precede the available ring. *)
Theorem virtqueue_layout n (Hn : 1 <= n <= VQ_NUM) :
  fst (avail_range n) = snd (desc_range n (n - 1)) /\
  snd (avail_range n) <= fst (used_range n) /\ snd (used_range n) <= QMEM_SIZE /\
  fst (used_range n) mod VQ_ALIGN = 0 /\ fst (avail_range n) mod 2 = 0 /\
  (3 <= n -> snd (desc_range n 2) <= fst (avail_range n)).
Proof.
  unfold avail_range, used_range, desc_range. cbn [fst snd]. rewrite used_off_page by exact Hn.
  unfold VQ_NUM, QMEM_SIZE, VQ_ALIGN, VQ_NUM in *. rewrite u32_small by lia.
  repeat split; try lia. replace (16 * n) with (8 * n * 2) by lia. apply Z.mod_mul. lia.
Qed.


Section Claims.
Context {U H : Type} `{!UartDev U, !UartSpec U, !HartDev H, !DmaDev H}.
Implicit Types (D : dstate) (g : vg) (h : H).

(** when no virtio-mmio slot holds a block device, [virtio_init] reads
    every slot, says so, and returns 0 without writing a register. *)
Theorem virtio_init_no_device qmem h g
    (Hempty : forall i, 0 <= i < MMIO_SLOTS -> exists x,
       mr32 (MMIO_BASE + i * MMIO_STRIDE + VIRTIO_MMIO_MAGIC) h = (x, h) /\ x <> VIRTIO_MAGIC_VALUE) :
  runs (U:=U) (virtio_init qmem) h g 0 (lit "virtio: no block device on the mmio bus\n") h g.
Proof.
  assert (forall l, (forall i, i ∈ l -> 0 <= i < MMIO_SLOTS) ->
            runs (U:=U) (scan_slots l) h g 0 [] h g) as Hscan.
  { induction l as [|i l IH]; intros Hl; [apply runs_ret|]. cbn [scan_slots].
    destruct (Hempty i (Hl i ltac:(left))) as (x & E & Hx). eapply runs_bind0.
    - unfold probe_slot, reg_read. eapply runs_bind0; [apply runs_read32|]. rewrite E. cbn [fst snd].
      rewrite (proj2 (Z.eqb_neq _ _) Hx). apply runs_ret.
    - apply IH. intros j Hj. apply Hl. now right. }
  unfold virtio_init, find_block_device. eapply runs_bind0.
  { apply Hscan. intros i Hi. apply elem_of_seqZ in Hi. lia. }
  cbn [Z.eqb]. eapply runs_conv; [xrun|auto..].
Qed.



Context `{!BlkSpec H}.
Context (qmem req stb : Z) (Hq : 0 <= qmem < 2 ^ 40) (Hqa : qmem mod VQ_ALIGN = 0).

(** on a conforming block device [virtio_init], over the 1.x or the
    legacy interface, returns min(QueueNumMax, 128) and leaves the device
    live: DRIVER_OK set and the queue the device decodes from its registers
    is the one laid out in [qmem]. *)
Theorem virtio_init_configures h D (Hdev : Dev h D) (Hmax : v_qmax <> 0) :
  exists h' D', runs (U:=U) (virtio_init qmem) h boot_vg queue_size (init_text qmem) h' (init_vg qmem) /\
    Dev h' D' /\ d_mem D' = d_mem D /\ d_disk D' = d_disk D /\
    queue_size = Z.min v_qmax VQ_NUM /\
    Z.testbit (d_regs D' VIRTIO_MMIO_STATUS) 2 = true /\
    queue_of modern (d_regs D') = Queue queue_size qmem (qmem + 16 * queue_size) (qmem + 4096).
Proof.
  destruct (virtio_init_ok (U:=U) qmem Hq Hqa D Hmax) as (D' & E & [SM SD] & _ & R & Q).
  destruct (E h Hdev) as (h' & Hh' & HR). exists h', D'. split; [exact HR|].
  split; [exact Hh'|]. split; [exact SM|]. split; [exact SD|]. split.
  { unfold queue_size. destruct (Z.ltb_spec v_qmax VQ_NUM); lia. }
  rewrite R. split; [reflexivity|exact Q].
Qed.

(** C3: block round trip.  On a live queue of at least three entries, for
    every sector of the device and any data, a write followed by a read into
    another buffer returns 0 twice and yields the written bytes, which are
    then the sector's contents; the counters of both rings advance modulo
    2^16 and the queue stays usable. *)
Theorem blk_write_read_roundtrip h D n s sector wbuf rbuf
    (Hdev : Dev h D) (Hlive : live qmem D n s)
    (Pw : placement qmem req stb wbuf) (Pr : placement qmem req stb rbuf)
    (Pwr : apart wbuf 512 rbuf 512) (Hsec : 0 <= sector < v_capacity) :
  exists h' D', runs (U:=U) (a <- blk_write req stb sector wbuf ;; b <- blk_read req stb sector rbuf ;; ret (a, b))
      h (live_vg qmem n s) (0, 0) [] h' (live_vg qmem n (u16 (u16 (s + 1) + 1))) /\
    Dev h' D' /\ live qmem D' n (u16 (u16 (s + 1) + 1)) /\
    forall i, 0 <= i < 512 ->
      d_mem D' (rbuf + i) = d_mem D (wbuf + i) /\ d_disk D' sector i = d_mem D (wbuf + i).
Proof.
  destruct (blk_op_ok (U:=U) qmem req stb D n s wbuf sector true Hlive Pw Hsec h Hdev)
    as (h1 & D1 & r1 & l1 & g1 & Hd1 & R1 & -> & -> & -> & L1 & F1 & _ & M1).
  destruct (blk_op_ok (U:=U) qmem req stb D1 n _ rbuf sector false L1 Pr Hsec h1 Hd1)
    as (h2 & D2 & r2 & l2 & g2 & Hd2 & R2 & -> & -> & -> & L2 & F2 & M2 & M2d).
  exists h2, D2. split.
  - eapply runs_bind0; [exact R1|]. eapply runs_bind0; [exact R2|]. apply runs_ret.
  - split; [exact Hd2|]. split; [exact L2|]. intros i Hi.
    rewrite (M2 eq_refl), M2d, M1, Z.eqb_refl by exact Hi. now split.
Qed.
End Claims.

Section Pass.
Context {U H : Type} `{!UartDev U, !UartSpec U, !HartDev H, !DmaDev H, !BlkSpec H}.
Context (qmem req stb wbuf rbuf : Z) (Hq : 0 <= qmem < 2 ^ 40) (Hqa : qmem mod VQ_ALIGN = 0).
Context (Pw : placement qmem req stb wbuf) (Pr : placement qmem req stb rbuf)
  (Pwr : apart wbuf 512 rbuf 512).

Lemma bmain_text_bytes : Forall (fun c => 0 <= c < 256) (bmain_text qmem).
Proof.
  unfold bmain_text, init_text, slot_text, negotiate_text, layout_text, ready_text. text_bytes.
  destruct modern; text_bytes.
Qed.

End Pass.

(** ** Witnesses *)

Definition w_qmem : Z := 0x80010000.
Definition w_req : Z := 0x80020000.
Definition w_stb : Z := 0x80020010.
Definition w_wbuf : Z := 0x80020100.
Definition w_rbuf : Z := 0x80020300.
Definition w_disk : VirtDisk := VD (VC (fun _ => 0) (fun _ => 0) (fun s i => (s + i) mod 256) 0) None.
Definition w_state : dstate := DS (fun _ => 0) (fun _ => 0) (fun s i => (s + i) mod 256) 0.

Lemma w_dev : Dev w_disk w_state.
Proof. split; reflexivity. Qed.
Lemma w_place_w : placement w_qmem w_req w_stb w_wbuf.
Proof. split; unfold apart; vm_compute; (left + right); congruence. Qed.
Lemma w_place_r : placement w_qmem w_req w_stb w_rbuf.
Proof. split; unfold apart; vm_compute; (left + right); congruence. Qed.
Lemma w_place_wr : apart w_wbuf 512 w_rbuf 512.
Proof. left. vm_compute. congruence. Qed.

Lemma virtqueue_layout_witness :
  fst (avail_range 64) = snd (desc_range 64 63) /\
  snd (avail_range 64) <= fst (used_range 64) /\ snd (used_range 64) <= QMEM_SIZE /\
  fst (used_range 64) mod VQ_ALIGN = 0 /\ fst (avail_range 64) mod 2 = 0 /\
  (3 <= 64 -> snd (desc_range 64 2) <= fst (avail_range 64)).
Proof. exact (virtqueue_layout 64 ltac:(unfold VQ_NUM; lia)). Defined.


(** A board where nothing answers: every load returns 0. *)
#[local] Instance dead_hart : HartDev unit := {
  mr64 _ h := (0, h); mw64 _ _ h := h; mr32 _ h := (0, h); mw32 _ _ h := h;
  csr_rd _ h := (0, h); csr_wr _ _ h := h; hw_fuel := 1;
}.
#[local] Instance dead_dma : DmaDev unit := { dma_ld _ h := (0, h); dma_st _ _ h := h }.

Lemma virtio_init_no_device_witness :
  runs (U:=LogUart) (virtio_init w_qmem) tt boot_vg 0
    (lit "virtio: no block device on the mmio bus\n") tt boot_vg.
Proof.
  refine (virtio_init_no_device (U:=LogUart) w_qmem tt boot_vg _).
  intros i Hi. exists 0. split; [reflexivity|discriminate].
Defined.

Lemma dead_polls a n : polls (H:=unit) a 0 n tt tt.
Proof. induction n as [|n IH]; [constructor|]. apply polls_same; [reflexivity|exact IH]. Qed.



Lemma virtio_init_configures_witness :
  exists h' D', runs (U:=LogUart) (virtio_init w_qmem) w_disk boot_vg queue_size (init_text w_qmem) h' (init_vg w_qmem) /\
    Dev h' D' /\ d_mem D' = d_mem w_state /\ d_disk D' = d_disk w_state /\
    queue_size = 128 /\ Z.testbit (d_regs D' VIRTIO_MMIO_STATUS) 2 = true /\
    queue_of modern (d_regs D') = Queue queue_size w_qmem (w_qmem + 16 * queue_size) (w_qmem + 4096).
Proof.
  exact (virtio_init_configures (U:=LogUart) w_qmem ltac:(unfold w_qmem; lia) eq_refl w_disk w_state w_dev ltac:(discriminate)).
Defined.

(** The abstract state of that disk with its queue configured. *)
Definition w_live_regs : Z -> Z :=
  fset (fset (fset (fset (fset (fset (fset (fset (fun _ => 0) VIRTIO_MMIO_STATUS 15) VIRTIO_MMIO_QUEUE_NUM 16)
    VIRTIO_MMIO_QDESC_LO w_qmem) VIRTIO_MMIO_QDESC_HI 0) VIRTIO_MMIO_QDRV_LO (w_qmem + 256)) VIRTIO_MMIO_QDRV_HI 0)
    VIRTIO_MMIO_QDEV_LO (w_qmem + 4096)) VIRTIO_MMIO_QDEV_HI 0.
Definition w_live_disk : VirtDisk := VD (VC (fun a => a mod 256 * 0) w_live_regs (fun s i => (s + i) mod 256) 0) None.
Definition w_live_state : dstate := DS (fun a => a mod 256 * 0) w_live_regs (fun s i => (s + i) mod 256) 0.

Lemma w_live_dev : Dev w_live_disk w_live_state.
Proof. split; reflexivity. Qed.
Lemma w_live : live w_qmem w_live_state 16 0.
Proof. split; try reflexivity; unfold VQ_NUM; lia. Qed.

Lemma blk_write_read_roundtrip_witness :
  exists h' D', runs (U:=LogUart)
      (a <- blk_write w_req w_stb 9 w_wbuf ;; b <- blk_read w_req w_stb 9 w_rbuf ;; ret (a, b))
      w_live_disk (live_vg w_qmem 16 0) (0, 0) [] h' (live_vg w_qmem 16 (u16 (u16 (0 + 1) + 1))) /\
    Dev h' D' /\ live w_qmem D' 16 (u16 (u16 (0 + 1) + 1)) /\
    forall i, 0 <= i < 512 ->
      d_mem D' (w_rbuf + i) = d_mem w_live_state (w_wbuf + i) /\
      d_disk D' 9 i = d_mem w_live_state (w_wbuf + i).
Proof.
  refine (blk_write_read_roundtrip (U:=LogUart) w_qmem w_req w_stb w_live_disk w_live_state 16 0 9 w_wbuf w_rbuf
           w_live_dev w_live w_place_w w_place_r w_place_wr _).
  vm_compute. split; congruence.
Defined.

