(* ===== verification/Shell.v ===== *)
(** * The UART command shell (src/shell/)

    [cmds.c] with its line editor and four commands, [sh_main.c], and the
    trap entry of [trap.S] at instruction level.  The registers a trap finds
    are whatever the compiled code left in them, so they are a parameter, one
    register file per [ecall].  [mscratch] and [mtvec] are part of the state:
    the trap entry changes [mscratch], which the theorems on [regs] are about. *)

From Stdlib Require Import ZArith Lia String.
From stdpp Require Import base list.
From S2P Require Import Prelude Uart Asm Hart Run.
Import Reg.

Definition LINE_MAX : nat := 128.

(** [line] and [line_len], the doublewords of memory the trap entry can
    reach, the two trap CSRs, and the number of [ecall]s so far. *)
Record shell_g : Type := ShellG {
  line : list Z; line_len : nat; dmem : Z -> Z; mscratch_ : Z; mtvec_ : Z; ecalls : nat }.

Definition set_line (l : list Z) (g : shell_g) : shell_g :=
  ShellG l (line_len g) (dmem g) (mscratch_ g) (mtvec_ g) (ecalls g).
Definition set_len (n : nat) (g : shell_g) : shell_g :=
  ShellG (line g) n (dmem g) (mscratch_ g) (mtvec_ g) (ecalls g).
Definition set_csrs (s t : Z) (g : shell_g) : shell_g :=
  ShellG (line g) (line_len g) (dmem g) s t (ecalls g).

(** The machine at an [ecall]: general registers, the address of the
    instruction and [mstatus] as the trap leaves it. *)
Record ecall_site : Type := Site { site_reg : Z -> Z; site_pc : Z; site_mstatus : Z }.

(** ** trap.S *)

Definition bank_slots : list (Z * Z) :=
  [(ra, 0); (sp, 8); (gp, 16); (tp, 24); (t1, 40); (t2, 48); (s0, 56); (s1, 64);
   (a0, 72); (a1, 80); (a2, 88); (a3, 96); (a4, 104); (a5, 112); (a6, 120); (a7, 128);
   (s2, 136); (s3, 144); (s4, 152); (s5, 160); (s6, 168); (s7, 176); (s8, 184); (s9, 192);
   (s10, 200); (s11, 208); (t3, 216); (t4, 224); (t5, 232); (t6, 240)].

(** [trap_entry] up to its [mret]; [trap_halt] is the branch target. *)
Definition shell_trap : list instr :=
  [Csrrw t0 mscratch t0] ++
  sds t0 bank_slots ++
  [ Csrr t1 mscratch;
    Sd t1 32 t0;
    Csrr t1 mepc;
    Sd t1 248 t0;
    Csrr t1 mstatus;
    Sd t1 256 t0;
    Csrr t1 mcause;
    Sd t1 264 t0;
    Li t2 11;
    BneHalt t1 t2;
    Csrr t1 mepc;
    Addi t1 t1 4;
    Csrw mepc t1;
    Ld t0 32 t0 ].

(** The CSRs an [ecall] from M-mode leaves. *)
Definition trap_csrs (b : Z) (x : ecall_site) (c : csr) : Z :=
  match c with
  | mscratch => b | mepc => site_pc x | mcause => 11 | mstatus => site_mstatus x | _ => 0 end.

(** ** cmds.c *)

(** [streq] on the bytes from [a] and from [b] on; [None] when it reads past
    the end of one. *)
Fixpoint streq (a b : list Z) : option bool :=
  match a, b with
  | x :: a', y :: b' => if negb (x =? 0) && (x =? y) then streq a' b' else Some (x =? y)
  | _, _ => None
  end.

Definition c_string (s : string) : list Z := bytes s ++ [0].

(** [is_echo], with the short-circuit order of its conditions. *)
Definition is_echo (s : list Z) : option bool :=
  match streq s (c_string "echo") with
  | Some true => Some true
  | Some false =>
      Some (forallb (fun p => nth (fst p) s 0 =? snd p)
              [(0%nat, 101); (1%nat, 99); (2%nat, 104); (3%nat, 111); (4%nat, 32)])
  | None => None
  end.

Definition reg_names : list string :=
  ["ra"; "sp"; "gp"; "tp"; "t0"; "t1"; "t2"; "s0"; "s1";
   "a0"; "a1"; "a2"; "a3"; "a4"; "a5"; "a6"; "a7";
   "s2"; "s3"; "s4"; "s5"; "s6"; "s7"; "s8"; "s9"; "s10"; "s11";
   "t3"; "t4"; "t5"; "t6"]%string.

Section Code.
Context {U H : Type} `{!UartDev U, !HartDev H}.
Abbreviation W := (world U H shell_g).
(** [&trap_bank], [&trap_entry], and the machine at the [n]th [ecall]. *)
Context (trap_bank trap_entry : Z) (site : nat -> ecall_site).

Definition bank (i : Z) : prog W Z := gget (fun g => dmem g (trap_bank + 8 * i)).

Definition cmd_help : prog W unit :=
  uputs "commands:\n" ;;
  uputs "  help    list commands\n" ;;
  uputs "  echo    print text back byte-for-byte\n" ;;
  uputs "  regs    dump registers saved by the trap handler\n" ;;
  uputs "  uptime  print mtime ticks since reset\n".

Definition cmd_echo (s : list Z) : prog W unit :=
  let s := if nth 0 s 0 =? 32 then drop 1 s else s in
  uart_puts_bytes s ;;
  uart_putc 10.

(** The [ecall] runs the trap entry on the machine as it is. *)
Definition snapshot_regs : prog W unit := fun w =>
  let g := w_glob w in
  let x := site (ecalls g) in
  if mtvec_ g =? trap_entry then
    match exec (fun _ => 0) (fun _ => 0) shell_trap (Hart (site_reg x) (dmem g) (trap_csrs (mscratch_ g) x) 0) with
    | Next h => Ret tt (World (w_uart w) (w_hw w)
                  (ShellG (line g) (line_len g) (h_mem h) (h_csr h mscratch) (mtvec_ g) (S (ecalls g))))
    | Halted _ => Park w
    | Bad => Undef
    end
  else Undef.

Definition cmd_regs : prog W unit :=
  snapshot_regs ;;
  for_each (seq 0 31) (fun i =>
    uart_puts (nth i reg_names EmptyString) ;;
    uputs " = " ;;
    x <- bank (Z.of_nat i) ;; uart_put_hex x ;;
    uart_putc 10) ;;
  uputs "mepc    = " ;;
  x <- bank 31 ;; uart_put_hex x ;;
  uart_putc 10 ;;
  uputs "mstatus = " ;;
  x <- bank 32 ;; uart_put_hex x ;;
  uart_putc 10 ;;
  uputs "mcause  = " ;;
  x <- bank 33 ;; uart_put_hex x ;;
  uart_putc 10.

Definition cmd_uptime : prog W unit :=
  t <- read64 CLINT_MTIME ;;
  uputs "mtime = " ;;
  uart_put_dec t ;;
  uputs " ticks\n".

(** A test on the bytes of the line. *)
Definition test (b : option bool) : prog W bool :=
  match b with Some x => ret x | None => undef end.

Definition run_command : prog W unit :=
  n <- gget line_len ;;
  if (n =? 0)%nat then ret tt else
  l <- gget line ;;
  c <- test (streq l (c_string "help")) ;; if (c : bool) then cmd_help else
  c <- test (is_echo l) ;; if (c : bool) then cmd_echo (drop 4 l) else
  c <- test (streq l (c_string "regs")) ;; if (c : bool) then cmd_regs else
  c <- test (streq l (c_string "uptime")) ;; if (c : bool) then cmd_uptime else
  uputs "unknown command: " ;;
  uart_puts_bytes l ;;
  uart_putc 10.

(** [line\[i\] = c]; out of range is undefined. *)
Definition line_set (i : nat) (c : Z) : prog W unit :=
  l <- gget line ;; l' <- arr_set l i c ;; gset_ (set_line l').

(** The loop of [read_line], bounded by the number of characters read;
    [char] is unsigned on this target. *)
Fixpoint read_loop (fuel : nat) : prog W unit :=
  match fuel with
  | O => nofuel
  | S k =>
      c <- uart_getc ;;
      n <- gget line_len ;;
      if (c =? 13) || (c =? 10) then
        uart_putc 10 ;; line_set n 0
      else if (c =? 0x7f) || (c =? 0x08) then
        when (0 <? n)%nat (gset_ (set_len (n - 1)) ;; uputs "\b \b") ;; read_loop k
      else if c <? 0x20 then read_loop k
      else
        when (n <? LINE_MAX - 1)%nat (line_set n c ;; gset_ (set_len (S n)) ;; uart_putc c) ;; read_loop k
  end.

Definition read_line (fuel : nat) : prog W unit :=
  gset_ (set_len 0) ;; read_loop fuel.

(** One round of [shell_run]'s loop, and its first [n] rounds. *)
Definition shell_round (fuel : nat) : prog W unit :=
  uputs "> " ;; read_line fuel ;; run_command.
Fixpoint shell_rounds (fuel n : nat) : prog W unit :=
  match n with O => ret tt | S k => shell_round fuel ;; shell_rounds fuel k end.
Definition shell_run (fuel n : nat) : prog W unit :=
  uputs "uart-shell ready\n" ;; shell_rounds fuel n.

Definition install_trap_handler : prog W unit := gset_ (set_csrs trap_bank trap_entry).

(** [main], up to the [n]th round. *)
Definition sh_main (fuel n : nat) : prog W unit :=
  uart_init ;; install_trap_handler ;; shell_run fuel n.
End Code.

(** ** What the line editor keeps and echoes *)

Definition is_end (c : Z) : bool := (c =? 13) || (c =? 10).
Definition is_erase (c : Z) : bool := (c =? 0x7f) || (c =? 0x08).

Definition edit (b : list Z) (c : Z) : list Z :=
  if is_erase c then take (length b - 1) b
  else if c <? 0x20 then b
  else if (length b <? LINE_MAX - 1)%nat then b ++ [c] else b.
Definition edit_echo (b : list Z) (c : Z) : list Z :=
  if is_erase c then if (0 <? length b)%nat then lit "\b \b" else []
  else if c <? 0x20 then []
  else if (length b <? LINE_MAX - 1)%nat then [c] else [].

Definition edits (b cs : list Z) : list Z := fold_left edit cs b.
Fixpoint edit_echoes (b cs : list Z) : list Z :=
  match cs with [] => [] | c :: cs' => edit_echo b c ++ edit_echoes (edit b c) cs' end.

(** Every line the editor can hold. *)
Definition line_char (c : Z) : Prop := 0x20 <= c < 256 /\ c <> 0x7f.
Definition line_ok (b : list Z) : Prop := (length b < LINE_MAX)%nat /\ Forall line_char b.

Lemma line_ok_nil : line_ok [].
Proof. split; [cbn; unfold LINE_MAX; lia|constructor]. Qed.

Lemma edit_ok b c : line_ok b -> 0 <= c < 256 -> line_ok (edit b c).
Proof.
  intros [Hl Hb] Hc. unfold edit, is_erase. destruct (Z.eqb_spec c 0x7f), (Z.eqb_spec c 0x08); cbn [orb];
    try (split; [rewrite length_take; lia|now apply Forall_take]).
  destruct (Z.ltb_spec c 0x20); [now split|]. destruct (Nat.ltb_spec (length b) (LINE_MAX - 1)); [|now split].
  split; [rewrite length_app; cbn; lia|]. apply Forall_app. split; [exact Hb|]. repeat constructor; lia.
Qed.

Lemma edit_echo_bytes b c : 0 <= c < 256 -> Forall (fun x => 0 <= x < 256) (edit_echo b c).
Proof.
  intros Hc. unfold edit_echo. repeat case_match; first [apply bytes_range | now repeat constructor].
Qed.

(** The array [l] holds the text [b] in front. *)
Definition holds (b : list Z) (g : shell_g) : Prop :=
  length (line g) = LINE_MAX /\ line_len g = length b /\ take (length b) (line g) = b.

(** ** Programs that read and print

    [talks m h g i o Q]: with [i] next on the line [m] consumes exactly [i],
    sends the text [o], and returns in a state that satisfies [Q]. *)

Section Talk.
Context {U H : Type} `{!UartDev U, !UartSpec U, !HartDev H}.
Abbreviation W := (world U H shell_g).

Definition talks {A} (m : prog W A) (h : H) (g : shell_g) (i o : list Z) (Q : A -> H -> shell_g -> Prop) : Prop :=
  forall u r, rx u = i ++ r -> exists a u' h' g', m (World u h g) = Ret a (World u' h' g') /\
    tx u' = tx u ++ crlf o /\ rx u' = r /\ Q a h' g'.

Lemma talks_bind {A B} (m : prog W A) (k : A -> prog W B) h g i1 o1 i2 o2 Q R :
  talks m h g i1 o1 Q -> (forall a h' g', Q a h' g' -> talks (k a) h' g' i2 o2 R) ->
  talks (bind m k) h g (i1 ++ i2) (o1 ++ o2) R.
Proof.
  intros Hm Hk u r Hr. rewrite <-app_assoc in Hr.
  destruct (Hm u _ Hr) as (a & u1 & h1 & g1 & E1 & Ht1 & Hr1 & HQ).
  destruct (Hk a h1 g1 HQ u1 r Hr1) as (b & u2 & h2 & g2 & E2 & Ht2 & Hr2 & HR).
  exists b, u2, h2, g2. rewrite (bind_ret_eq _ _ _ _ _ E1). split_and!; auto.
  rewrite Ht2, Ht1, crlf_app. now rewrite app_assoc.
Qed.

Lemma talks_runs {A} (m : prog W A) h g a o h' g' (Q : A -> H -> shell_g -> Prop) :
  runs m h g a o h' g' -> Forall (fun c => 0 <= c < 256) o -> Q a h' g' -> talks m h g [] o Q.
Proof.
  intros Hm Ho HQ u r Hr. destruct (runs_sends _ _ _ _ _ _ _ u Hm Ho) as (u' & E & Ht & Hx).
  exists a, u', h', g'. cbn in Hr. split_and!; congruence.
Qed.

Lemma talks_getc h g c : talks uart_getc h g [c] [] (fun a h' g' => a = c /\ h' = h /\ g' = g).
Proof.
  intros u r Hr. destruct (uart_getc_eq (World u h g) c r Hr) as (E & Hr' & Ht).
  exists c, (received u).2, h, g. rewrite E. cbn in *. split_and!; auto. now rewrite Ht, app_nil_r.
Qed.

Lemma talks_after {A B} (m : prog W A) (k : A -> prog W B) h g a o h' g' i o2 R :
  runs m h g a o h' g' -> Forall (fun c => 0 <= c < 256) o -> talks (k a) h' g' i o2 R ->
  talks (bind m k) h g i (o ++ o2) R.
Proof.
  intros Hm Ho Hk. apply (talks_bind m k h g [] o i o2 (fun x h1 g1 => x = a /\ h1 = h' /\ g1 = g')).
  - now apply (talks_runs m h g a o h' g').
  - now intros x h1 g1 (-> & -> & ->).
Qed.

(** The same with a text known up to equality. *)
Lemma talks_conv {A} (m : prog W A) h g i o i' o' Q :
  talks m h g i o Q -> i = i' -> o = o' -> talks m h g i' o' Q.
Proof. now intros ? -> ->. Qed.
End Talk.

(** ** The line editor *)

Section Editor.
Context {U H : Type} `{!UartDev U, !UartSpec U, !HartDev H}.
Abbreviation W := (world U H shell_g).

(** What [read_line] leaves: the edited line, closed by a NUL, and
    everything but the line as it was. *)
Definition line_done (b : list Z) (g g' : shell_g) : Prop :=
  length (line g') = LINE_MAX /\ line_len g' = length b /\ take (S (length b)) (line g') = b ++ [0] /\
  dmem g' = dmem g /\ mscratch_ g' = mscratch_ g /\ mtvec_ g' = mtvec_ g /\ ecalls g' = ecalls g.

Lemma line_set_runs (h : H) g i c : (i < length (line g))%nat ->
  runs (U:=U) (line_set i c) h g tt [] h (set_line (<[i := c]> (line g)) g).
Proof. intros Hi u. unfold line_set, arr_set, bind, gget, gets. cbn. rewrite decide_True by exact Hi. reflexivity. Qed.

Lemma take_insert_S (l : list Z) i c : (i < length l)%nat -> take (S i) (<[i := c]> l) = take i l ++ [c].
Proof.
  intros Hi. rewrite (take_S_r _ _ c) by now rewrite list_lookup_insert_eq.
  now rewrite take_insert_ge by lia.
Qed.

(** The loop's statements on a character that does not end the line. *)
Lemma read_loop_step k h g b c i o Q :
  holds b g -> line_ok b -> 0 <= c < 256 -> is_end c = false ->
  (forall g1, holds (edit b c) g1 -> dmem g1 = dmem g -> mscratch_ g1 = mscratch_ g -> mtvec_ g1 = mtvec_ g ->
     ecalls g1 = ecalls g -> talks (U:=U) (H:=H) (read_loop k) h g1 i o Q) ->
  talks (U:=U) (H:=H) (read_loop (S k)) h g (c :: i) (edit_echo b c ++ o) Q.
Proof.
  intros (Hl & Hn & Ht) [Hlb Hb] Hc He Hk. cbn [read_loop].
  apply (talks_bind _ _ _ _ [c] [] i (edit_echo b c ++ o) _ _ (talks_getc h g c)). intros x h' g' (-> & -> & ->).
  apply (talks_after _ _ _ _ (line_len g) [] h g); [apply runs_gget|constructor|].
  unfold is_end in He. rewrite He. unfold edit_echo, edit, is_erase in *.
  destruct ((c =? 127) || (c =? 8)) eqn:Ee.
  - rewrite Hn. destruct (Nat.ltb_spec 0 (length b)) as [Hp|Hp].
    + eapply talks_after; [unfold when; xrun|apply bytes_range|]. apply Hk; auto.
      split_and!; cbn [line set_len line_len]; [exact Hl|rewrite length_take; lia|].
      rewrite length_take. replace (Nat.min _ _) with (length b - 1)%nat by lia.
      rewrite <-Ht at 3. rewrite take_take. f_equal. lia.
    + apply (talks_after _ _ _ _ tt [] h g); [apply runs_ret|constructor|]. apply Hk; auto.
      destruct b; [|cbn in Hp; lia]. now split_and!.
  - destruct (Z.ltb_spec c 32); [now apply Hk|]. rewrite Hn.
    destruct (Nat.ltb_spec (length b) (LINE_MAX - 1)) as [Hp|Hp].
    + assert (length b < length (line g))%nat as Hi by lia.
      eapply (talks_after _ _ _ _ tt [c]).
      { unfold when. eapply runs_bind0; [now apply line_set_runs|]. xrun. }
      { now repeat constructor. }
      apply Hk; auto. split_and!; cbn [line set_len set_line line_len]; [now rewrite length_insert|rewrite length_app; cbn; lia|].
      rewrite length_app. cbn [length]. rewrite Nat.add_1_r, take_insert_S by exact Hi. now rewrite Ht.
    + apply (talks_after _ _ _ _ tt [] h g); [apply runs_ret|constructor|]. now apply Hk.
Qed.

Lemma read_loop_talks cs k b g h t :
  (length cs < k)%nat -> holds b g -> line_ok b -> Forall (fun c => 0 <= c < 256 /\ is_end c = false) cs ->
  is_end t = true ->
  talks (U:=U) (H:=H) (read_loop k) h g (cs ++ [t]) (edit_echoes b cs ++ [10])
    (fun _ h' g' => h' = h /\ line_done (edits b cs) g g').
Proof.
  revert k b g. induction cs as [|c cs IH]; intros k b g Hk Hg Hb Hcs Hend; (destruct k as [|k]; [cbn in Hk; lia|]).
  - cbn [app edit_echoes edits fold_left]. destruct Hg as (Hl & Hn & Ht). destruct Hb as [Hlb _]. cbn [read_loop].
    apply (talks_bind _ _ _ _ [t] [] [] [10] _ _ (talks_getc h g t)). intros x h' g' (-> & -> & ->).
    unfold is_end in Hend.
    eapply talks_runs; [eapply runs_bind0; [apply runs_gget|]; rewrite Hend, Hn;
        apply (runs_bind _ _ _ _ tt [10] h g tt []); [xprim|apply line_set_runs; lia]
      |now repeat constructor|].
    split; [reflexivity|]. unfold line_done. cbn. rewrite take_insert_S by lia.
    split_and!; auto; [now rewrite length_insert|now rewrite Ht].
  - apply Forall_cons_1 in Hcs as [[Hc He] Hcs]. cbn [app edit_echoes edits fold_left]. rewrite <-app_assoc.
    apply (read_loop_step k h g b c); auto. intros g1 Hg1 E1 E2 E3 E4.
    assert (forall b', line_done b' g1 = line_done b' g) as Hd by (intros; unfold line_done; now rewrite E1, E2, E3, E4).
    specialize (IH k (edit b c) g1 ltac:(cbn in Hk; lia) Hg1 (edit_ok _ _ Hb Hc) Hcs Hend).
    now rewrite Hd in IH.
Qed.
End Editor.

(** ** The trap entry *)

(** Where 34 doublewords can be stored. *)
Definition bank_at (b : Z) : Prop := 0 <= b /\ b mod 8 = 0 /\ b + 272 <= 2 ^ 64.

#[export] Instance bank_at_dec b : Decision (bank_at b).
Proof. unfold bank_at. apply _. Defined.

(** Doubleword [i] of a snapshot, and memory with a snapshot at [b]. *)
Definition slot (x : ecall_site) (i : Z) : Z :=
  if i <? 31 then site_reg x (i + 1)
  else if i =? 31 then site_pc x else if i =? 32 then site_mstatus x else 11.
Definition snap (b : Z) (x : ecall_site) (m : Z -> Z) (a : Z) : Z :=
  if (b <=? a) && (a <? b + 272) && ((a - b) mod 8 =? 0) then slot x ((a - b) / 8) else m a.

Lemma bank_slot_range o : o ∈ map snd bank_slots -> 0 <= o < 248 /\ o <> 32 /\ o mod 8 = 0.
Proof.
  assert (Forall (fun o => 0 <= o < 248 /\ o <> 32 /\ o mod 8 = 0) (map snd bank_slots)) as HF
    by (apply (bool_decide_unpack _); vm_compute; exact I).
  rewrite Forall_forall in HF. apply HF.
Qed.

Lemma bank_slot_in i : 0 <= i < 31 -> i <> 4 -> (i + 1, 8 * i) ∈ bank_slots.
Proof.
  intros Hi H4.
  assert (Forall (fun i => i = 4 \/ (i + 1, 8 * i) ∈ bank_slots) (seqZ 0 31)) as HF
    by (apply (bool_decide_unpack _); vm_compute; exact I).
  rewrite Forall_forall in HF. destruct (HF i); [apply elem_of_seqZ; lia|lia|assumption].
Qed.

Lemma bank_frame b : bank_at b -> frame_ok b (map snd bank_slots).
Proof. intros (H0 & H8 & H1). split_and!; auto. cbn. repeat constructor; lia. Qed.

Lemma snap_slot b x m i : 0 <= i < 34 -> snap b x m (b + 8 * i) = slot x i.
Proof.
  intros Hi. unfold snap. replace (b + 8 * i - b) with (i * 8) by lia. rewrite Z.mod_mul, Z.div_mul by lia.
  assert ((b <=? b + 8 * i) && (b + 8 * i <? b + 272) = true) as -> by lia. reflexivity.
Qed.

Lemma snap_other b x m a : ~ (b <= a < b + 272 /\ (a - b) mod 8 = 0) -> snap b x m a = m a.
Proof.
  intros Ha. unfold snap. destruct (Z.leb_spec b a), (Z.ltb_spec a (b + 272)), (Z.eqb_spec ((a - b) mod 8) 0); cbn; auto; lia.
Qed.

Section TrapEntry.
Variables time cycle : nat -> Z.

(** The trap entry stores the whole snapshot at the address in [mscratch],
    leaves the interrupted [t0] there, and returns past the [ecall] with [t1]
    and [t2] overwritten. *)
Lemma shell_trap_spec b x m n : bank_at b ->
  exists h', exec time cycle shell_trap (Hart (site_reg x) m (trap_csrs b x) n) = Next h' /\
    (forall a, h_mem h' a = snap b x m a) /\
    h_csr h' mscratch = site_reg x t0 /\ h_csr h' mepc = u64 (site_pc x + 4) /\
    h_reg h' t1 = u64 (site_pc x + 4) /\ h_reg h' t2 = 11 /\
    (forall r, r <> 0 -> r <> t1 -> r <> t2 -> h_reg h' r = site_reg x r).
Proof.
  intros Hat. pose proof Hat as (Hb0 & Hb8 & Hb1).
  assert (forall o, 0 <= o < 272 -> o mod 8 = 0 -> u64 (b + o) = b + o /\ ((b + o) mod 8 =? 0) = true) as Hsl
    by (intros o Ho Ho8; apply frame_addr; auto; lia).
  destruct (Hsl 32) as [A1 A2]; [lia|reflexivity|]. destruct (Hsl 248) as [B1 B2]; [lia|reflexivity|].
  destruct (Hsl 256) as [C1 C2]; [lia|reflexivity|]. destruct (Hsl 264) as [D1 D2]; [lia|reflexivity|].
  set (h := Hart _ _ _ _). unfold shell_trap. rewrite exec_app. xs. change (h_csr h mscratch) with b.
  set (h1 := tick _). rewrite exec_app.
  assert (getr h1 t0 = b) as T0 by (unfold h1; autorewrite with asm; reflexivity).
  destruct (exec_sds time cycle t0 bank_slots h1) as (h2 & E2 & HR & HC & _ & HM & HF).
  { rewrite T0. now apply bank_frame. }
  { apply (bool_decide_unpack _); vm_compute; exact I. }
  rewrite E2. rewrite T0 in HM, HF.
  assert (getr h2 t0 = b) as T0' by (unfold getr; rewrite HR; exact T0).
  xs. rewrite T0', A1, A2. xs. rewrite T0', B1, B2. xs. rewrite T0', C1, C2. xs. rewrite T0', D1, D2. xs.
  assert (h_csr h2 mcause = 11) as -> by now rewrite HC. change (u64 11) with 11. cbn [Z.eqb Pos.eqb]. xs.
  rewrite T0', A1, A2. eexists. split; [reflexivity|].
  assert (forall c, c <> mscratch -> h_csr h2 c = trap_csrs b x c) as HCo
    by (intros c Hc; rewrite HC; unfold h1; autorewrite with asm; now apply upd_ne).
  assert (h_csr h2 mscratch = site_reg x t0) as HCs by now rewrite HC.
  assert (forall r, r <> 0 -> r <> t0 -> h_reg h2 r = site_reg x r) as HRr.
  { intros r Hr Ht. rewrite HR. unfold h1. rewrite <-getr_reg, getr_tick, getr_setr_ne by assumption.
    autorewrite with asm. now apply getr_reg. }
  split_and!; [intros a|rewrite <-?getr_reg by discriminate; autorewrite with asm..|intros r Hr N1 N2].
  - autorewrite with asm. rewrite HCs, !HCo by discriminate. cbn [trap_csrs].
    destruct (decide (b <= a < b + 272 /\ (a - b) mod 8 = 0)) as [[Ha Hm]|Ha].
    + assert (exists i, a = b + 8 * i /\ 0 <= i < 34) as (i & -> & Hi).
      { apply Z.div_exact in Hm; [|lia]. exists ((a - b) / 8). lia. }
      rewrite snap_slot by exact Hi. unfold upd, slot.
      destruct (Z.ltb_spec i 31).
      * rewrite 3!decide_False by lia. destruct (decide (i = 4)) as [->|H4]; [now rewrite decide_True|].
        rewrite decide_False by lia. rewrite (HM (i + 1)) by now apply bank_slot_in.
        unfold getr. destruct (Z.eqb_spec (i + 1) 0); [lia|]. unfold h1. rewrite <-getr_reg by lia.
        rewrite getr_tick, getr_setr_ne by (unfold t0; lia). autorewrite with asm. apply getr_reg; lia.
      * assert (i = 31 \/ i = 32 \/ i = 33) as [->|[->| ->]] by lia; repeat case_decide; (reflexivity || lia).
    + rewrite snap_other by exact Ha.
      assert (forall o, 0 <= o < 272 -> o mod 8 = 0 -> a <> b + o) as Hne
        by (intros o Ho Ho8 ->; apply Ha; split; [lia|now replace (b + o - b) with o by lia]).
      rewrite !upd_ne by (apply Hne; [lia|reflexivity]). rewrite HF; [reflexivity|].
      intros Hin. apply list_elem_of_fmap in Hin as (o & -> & Ho). apply bank_slot_range in Ho.
      apply (Hne o); [lia|lia|reflexivity].
  - exact HCs.
  - now rewrite HCo.
  - now rewrite HCo.
  - reflexivity.
  - rewrite <-getr_reg by exact Hr. destruct (decide (r = t0)) as [->|H0].
    + autorewrite with asm. exact HCs.
    + repeat (autorewrite with asm; rewrite ?getr_setr_ne by assumption). rewrite getr_reg by exact Hr. now apply HRr.
Qed.
End TrapEntry.

(** ** What the shell answers *)

Inductive command : Type :=
| CNothing | CHelp | CEcho (s : list Z) | CRegs | CUptime | CUnknown (s : list Z).

Definition parse (b : list Z) : command :=
  if decide (b = []) then CNothing
  else if decide (b = bytes "help") then CHelp
  else if decide (b = bytes "echo") then CEcho []
  else if decide (take 5 b = bytes "echo ") then CEcho (drop 5 b)
  else if decide (b = bytes "regs") then CRegs
  else if decide (b = bytes "uptime") then CUptime
  else CUnknown b.

Definition help_text : list Z :=
  lit "commands:\n  help    list commands\n  echo    print text back byte-for-byte\n" ++
  lit "  regs    dump registers saved by the trap handler\n  uptime  print mtime ticks since reset\n".

(** The dump of 34 doublewords. *)
Definition regs_text (v : Z -> Z) : list Z :=
  concat (map (fun i => bytes (nth i reg_names EmptyString) ++ lit " = " ++ fmt_hex (v (Z.of_nat i)) ++ [10]) (seq 0 31)) ++
  lit "mepc    = " ++ fmt_hex (v 31) ++ [10] ++
  lit "mstatus = " ++ fmt_hex (v 32) ++ [10] ++
  lit "mcause  = " ++ fmt_hex (v 33) ++ [10].

(** What may be typed before the character that ends a line, and a list of
    typed lines as the bytes on the line. *)
Definition typed (k : nat) (l : list Z * Z) : Prop :=
  (length l.1 < k)%nat /\ Forall (fun c => 0 <= c < 256 /\ is_end c = false) l.1 /\ is_end l.2 = true.
Definition wire (lines : list (list Z * Z)) : list Z := concat (map (fun l => l.1 ++ [l.2]) lines).

(** The statics at boot. *)
Definition shell_boot (m : Z -> Z) : shell_g := ShellG (replicate LINE_MAX 0) 0 m 0 0 0.

(** The state the answers depend on. *)
Record sstate (H : Type) : Type := SState { st_h : H; st_mem : Z -> Z; st_scratch : Z; st_n : nat }.
Arguments SState {H} st_h st_mem st_scratch st_n.
Arguments st_h {H} s.
Arguments st_mem {H} s.
Arguments st_scratch {H} s.
Arguments st_n {H} s.

Section Session.
Context {U H : Type} `{!UartDev U, !UartSpec U, !HartDev H, !ClintSpec H}.
Context (trap_bank trap_entry : Z) (site : nat -> ecall_site).

(** The text of an answer and the state after it; [None] where the trap
    entry would store at an address it cannot use. *)
Definition respond (c : command) (st : sstate H) : option (list Z * sstate H) :=
  match c with
  | CNothing => Some ([], st)
  | CHelp => Some (help_text, st)
  | CEcho s => Some (s ++ [10], st)
  | CUnknown s => Some (lit "unknown command: " ++ s ++ [10], st)
  | CUptime =>
      Some (lit "mtime = " ++ fmt_dec (mr64 CLINT_MTIME (st_h st)).1 ++ lit " ticks\n",
            SState (mr64 CLINT_MTIME (st_h st)).2 (st_mem st) (st_scratch st) (st_n st))
  | CRegs =>
      if decide (bank_at (st_scratch st)) then
        let m := snap (st_scratch st) (site (st_n st)) (st_mem st) in
        Some (regs_text (fun i => m (trap_bank + 8 * i)),
              SState (st_h st) m (site_reg (site (st_n st)) t0) (S (st_n st)))
      else None
  end.

(** A session: one typed line per round. *)
Fixpoint session (lines : list (list Z * Z)) (st : sstate H) : option (list Z * sstate H) :=
  match lines with
  | [] => Some ([], st)
  | (cs, _) :: rest =>
      match respond (parse (edits [] cs)) st with
      | None => None
      | Some (o1, st1) =>
          match session rest st1 with
          | None => None
          | Some (o2, st2) => Some (lit "> " ++ edit_echoes [] cs ++ [10] ++ o1 ++ o2, st2)
          end
      end
  end.

(** Words the trap entry can store. *)
Definition site_ok (x : ecall_site) : Prop :=
  (forall r, is_u64 (site_reg x r)) /\ is_u64 (site_pc x) /\ is_u64 (site_mstatus x).
Definition mem_ok (m : Z -> Z) : Prop := forall a, is_u64 (m a).

(** The program's state agrees with the specification's. *)
Record agrees (h : H) (g : shell_g) (st : sstate H) : Prop := {
  ag_h : h = st_h st;
  ag_mem : forall a, dmem g a = st_mem st a;
  ag_scratch : mscratch_ g = st_scratch st;
  ag_mtvec : mtvec_ g = trap_entry;
  ag_n : ecalls g = st_n st;
  ag_ok : mem_ok (st_mem st);
}.

Lemma slot_ok x i : site_ok x -> is_u64 (slot x i).
Proof. intros (Hr & Hp & Hs). unfold slot. repeat case_match; auto. u64c. Qed.

Lemma snap_ok b x m : site_ok x -> mem_ok m -> mem_ok (snap b x m).
Proof. intros Hx Hm a. unfold snap. case_match; [now apply slot_ok|apply Hm]. Qed.

(** *** The commands *)

Hypothesis Hsite : forall n, site_ok (site n).

Lemma cmd_help_runs (h : H) g : runs (U:=U) cmd_help h g tt help_text h g.
Proof. eapply runs_conv; [unfold cmd_help; xrun|reflexivity|vm_compute; reflexivity|reflexivity..]. Qed.

Lemma puts_bytes_runs l (h : H) (g : shell_g) : runs (U:=U) (uart_puts_bytes l) h g tt (cstr l) h g.
Proof. intros u. exact (uart_puts_bytes_eq l (World u h g)). Qed.

Lemma cmd_uptime_runs (h : H) g :
  runs (U:=U) cmd_uptime h g tt (lit "mtime = " ++ fmt_dec (mr64 CLINT_MTIME h).1 ++ lit " ticks\n")
    (mr64 CLINT_MTIME h).2 g.
Proof.
  unfold cmd_uptime. assert (is_u64 (mr64 CLINT_MTIME h).1) by (rewrite mtime_read; apply u64_range). xrun.
Qed.

Lemma snapshot_runs h g st : agrees h g st -> bank_at (st_scratch st) ->
  exists g', runs (U:=U) (snapshot_regs trap_entry site) h g tt [] h g' /\ line g' = line g /\ line_len g' = line_len g /\
    agrees h g' (SState (st_h st) (snap (st_scratch st) (site (st_n st)) (st_mem st))
                   (site_reg (site (st_n st)) t0) (S (st_n st))).
Proof.
  intros [Hh Hm Hs Ht Hn Hok] Hb.
  destruct (shell_trap_spec (fun _ => 0) (fun _ => 0) (st_scratch st) (site (st_n st)) (dmem g) 0 Hb)
    as (h' & E & Hmem & Hsc & _).
  exists (ShellG (line g) (line_len g) (h_mem h') (h_csr h' mscratch) (mtvec_ g) (S (ecalls g))).
  split; [|split_and!; try reflexivity].
  - intros u. unfold snapshot_regs. cbn [w_glob w_uart w_hw]. rewrite Ht, Z.eqb_refl, Hs, Hn, E. reflexivity.
  - constructor; cbn; auto; [|now apply snap_ok].
    intros a. rewrite Hmem. unfold snap. now rewrite Hm.
Qed.

Lemma dump_prints (v : Z -> Z) (g : shell_g) (h : H) : (forall i, is_u64 (v i)) ->
  (forall i, 0 <= i < 34 -> dmem g (trap_bank + 8 * i) = v i) ->
  runs (U:=U) (for_each (seq 0 31) (fun i =>
      uart_puts (nth i reg_names EmptyString) ;; uputs " = " ;;
      x <- bank trap_bank (Z.of_nat i) ;; uart_put_hex x ;; uart_putc 10)) h g tt
    (concat (map (fun i => bytes (nth i reg_names EmptyString) ++ lit " = " ++ fmt_hex (v (Z.of_nat i)) ++ [10]) (seq 0 31)))
    h g.
Proof.
  intros Hv Hg. assert (Forall (fun i => (i < 31)%nat) (seq 0 31)) as Hl
    by (apply List.Forall_forall; intros i Hi; apply in_seq in Hi; lia).
  revert Hl. generalize (seq 0 31). induction l as [|i l IH]; intros Hl; [apply runs_ret|].
  apply Forall_cons_1 in Hl as [Hi Hl]. cbn [for_each map concat]. eapply runs_bind; [|apply IH, Hl].
  assert (no_nul (nth i reg_names EmptyString) = true) as Hn
    by (do 31 (destruct i as [|i]; [reflexivity|]); lia).
  eapply runs_bind; [apply runs_prints, prints_puts, Hn|]. xstep.
  eapply runs_bind0; [apply runs_gget|]. cbv beta. rewrite Hg by lia. specialize (Hv (Z.of_nat i)). xrun.
Qed.

Lemma cmd_regs_runs h g st : agrees h g st -> bank_at (st_scratch st) ->
  let m := snap (st_scratch st) (site (st_n st)) (st_mem st) in
  exists g', runs (U:=U) (cmd_regs trap_bank trap_entry site) h g tt (regs_text (fun i => m (trap_bank + 8 * i))) h g' /\
    line g' = line g /\ line_len g' = line_len g /\
    agrees h g' (SState (st_h st) m (site_reg (site (st_n st)) t0) (S (st_n st))).
Proof.
  intros Hag Hb m. destruct (snapshot_runs h g st Hag Hb) as (g' & Hr & El & En & Hag').
  exists g'. split; [|now split_and!]. pose proof Hag' as [_ Hm _ _ _ Hok]. fold m in Hm, Hok. cbn [st_mem] in Hm, Hok.
  set (v i := m (trap_bank + 8 * i)). assert (forall i, is_u64 (v i)) as Hv by (intros; apply Hok).
  unfold cmd_regs, regs_text. eapply runs_bind0; [exact Hr|].
  eapply runs_bind; [apply (dump_prints v); [exact Hv|intros; apply Hm]|].
  assert (forall i, runs (U:=U) (bank trap_bank i) h g' (v i) [] h g') as Hbk
    by (intros i u; unfold bank, gget, gets; cbn; now rewrite Hm).
  xstep. eapply runs_bind0; [apply Hbk|]. cbv beta. pose proof (Hv 31). do 3 xstep.
  eapply runs_bind0; [apply Hbk|]. cbv beta. pose proof (Hv 32). do 3 xstep.
  eapply runs_bind0; [apply Hbk|]. cbv beta. pose proof (Hv 33). xrun.
Qed.

(** *** Dispatch *)

Lemma streq_spec s t j k : Forall (fun c => c <> 0) s -> Forall (fun c => c <> 0) t ->
  streq (s ++ 0 :: j) (t ++ 0 :: k) = Some (bool_decide (s = t)).
Proof.
  revert t. induction s as [|x s IH]; intros [|y t] Hs Ht.
  - reflexivity.
  - apply Forall_cons_1 in Ht as [Hy _]. cbn [app streq]. rewrite Z.eqb_refl. cbn [negb andb]. now rewrite bool_decide_false, (proj2 (Z.eqb_neq 0 y)) by congruence.
  - apply Forall_cons_1 in Hs as [Hx _]. cbn [app streq]. rewrite (proj2 (Z.eqb_neq x 0) Hx). cbn [negb andb].
    now rewrite bool_decide_false by discriminate.
  - apply Forall_cons_1 in Hs as [Hx Hs]. apply Forall_cons_1 in Ht as [Hy Ht]. cbn [app streq].
    rewrite (proj2 (Z.eqb_neq x 0) Hx). cbn [negb andb]. destruct (Z.eqb_spec x y) as [->|Hne].
    + rewrite IH by assumption. f_equal. apply bool_decide_ext. split; congruence.
    + now rewrite bool_decide_false by congruence.
Qed.

Lemma bytes_nonzero s : no_nul s = true -> Forall (fun c => c <> 0) (bytes s).
Proof.
  induction s as [|a s IH]; intros Hs; [constructor|]. cbn in *. apply andb_true_iff in Hs as [Ha Hs].
  constructor; [|now apply IH]. apply negb_true_iff, Z.eqb_neq in Ha. exact Ha.
Qed.

Lemma cstr_exact b j : Forall (fun c => c <> 0) b -> cstr (b ++ 0 :: j) = b.
Proof.
  induction 1 as [|c b Hc Hb IH]; [reflexivity|]. cbn. rewrite (proj2 (Z.eqb_neq c 0) Hc). now rewrite IH.
Qed.

Lemma is_echo_spec b j : Forall (fun c => c <> 0) b ->
  is_echo (b ++ 0 :: j) = Some (bool_decide (b = bytes "echo") || bool_decide (take 5 b = bytes "echo ")).
Proof.
  intros Hb. unfold is_echo, c_string. rewrite streq_spec by (auto using bytes_nonzero).
  destruct (bool_decide_reflect (b = bytes "echo")) as [E|E]; [reflexivity|]. cbn [orb]. f_equal.
  change (bytes "echo ") with [101; 99; 104; 111; 32].
  destruct b as [|c1 [|c2 [|c3 [|c4 [|c5 b]]]]]; cbn [forallb nth app take fst snd];
    rewrite ?andb_true_r, ?andb_false_r; symmetry.
  1-5: rewrite bool_decide_false by discriminate; cbn -[Z.eqb]; now rewrite ?andb_false_r.
  rewrite firstn_O. destruct (Z.eqb_spec c1 101), (Z.eqb_spec c2 99), (Z.eqb_spec c3 104), (Z.eqb_spec c4 111),
    (Z.eqb_spec c5 32); cbn [andb]; first [apply bool_decide_true; congruence | apply bool_decide_false; congruence].
Qed.

Lemma line_nonzero b : line_ok b -> Forall (fun c => c <> 0) b.
Proof. intros [_ Hb]. eapply Forall_impl; [exact Hb|]. intros c [Hc _]. lia. Qed.

(** The branch [run_command] takes. *)
Definition branch (l : list Z) (c : command) : prog (world U H shell_g) unit :=
  match c with
  | CNothing => ret tt
  | CHelp => cmd_help
  | CEcho _ => cmd_echo (drop 4 l)
  | CRegs => cmd_regs trap_bank trap_entry site
  | CUptime => cmd_uptime
  | CUnknown _ => uputs "unknown command: " ;; uart_puts_bytes l ;; uart_putc 10
  end.

Lemma run_command_branch h g b j o h' g' :
  Forall (fun c => c <> 0) b -> line_len g = length b -> line g = b ++ 0 :: j ->
  runs (branch (line g) (parse b)) h g tt o h' g' ->
  runs (run_command trap_bank trap_entry site) h g tt o h' g'.
Proof.
  intros Hz Hn El Hb.
  assert (forall w, no_nul w = true -> streq (line g) (c_string w) = Some (bool_decide (b = bytes w))) as Hst
    by (intros w Hw; rewrite El; unfold c_string; apply streq_spec; [exact Hz|now apply bytes_nonzero]).
  pose proof (is_echo_spec b j Hz) as Hec. rewrite <-El in Hec.
  unfold run_command. eapply runs_bind0; [apply runs_gget|]. cbv beta. rewrite Hn. unfold parse in Hb.
  destruct (decide (b = [])) as [->|Hne]; [exact Hb|].
  destruct (Nat.eqb_spec (length b) 0) as [E|_]; [now apply nil_length_inv in E|].
  eapply runs_bind0; [apply runs_gget|]. cbv beta. rewrite !Hst, Hec by reflexivity. cbn [test].
  eapply runs_bind0; [apply runs_ret|]. case_decide; [rewrite bool_decide_true by assumption; exact Hb|].
  rewrite bool_decide_false by assumption.
  eapply runs_bind0; [apply runs_ret|]. case_decide; [rewrite bool_decide_true by assumption; exact Hb|].
  rewrite (bool_decide_false (b = bytes "echo")) by assumption. cbn [orb].
  case_decide; [rewrite bool_decide_true by assumption; exact Hb|]. rewrite bool_decide_false by assumption.
  eapply runs_bind0; [apply runs_ret|]. case_decide; [rewrite bool_decide_true by assumption; exact Hb|].
  rewrite bool_decide_false by assumption.
  eapply runs_bind0; [apply runs_ret|]. case_decide; [rewrite bool_decide_true by assumption; exact Hb|].
  rewrite bool_decide_false by assumption. cbn beta iota delta [branch] in Hb. exact Hb.
Qed.

(** What [cmd_echo] prints: the line without its first word and space. *)
Lemma cmd_echo_runs b j s (h : H) (g : shell_g) :
  Forall (fun c => c <> 0) b -> parse b = CEcho s ->
  runs (U:=U) (cmd_echo (drop 4 (b ++ 0 :: j))) h g tt (s ++ [10]) h g.
Proof.
  intros Hz Hp. unfold cmd_echo.
  assert (cstr (if nth 0 (drop 4 (b ++ 0 :: j)) 0 =? 32 then drop 1 (drop 4 (b ++ 0 :: j)) else drop 4 (b ++ 0 :: j)) = s) as <-;
    [|eapply runs_bind; [apply puts_bytes_runs|xrun]].
  unfold parse in Hp. repeat (case_decide; [try discriminate|]); try discriminate.
  - injection Hp as <-. subst b. reflexivity.
  - injection Hp as <-.
    assert (b = bytes "echo " ++ drop 5 b) as Eb by (rewrite <-(take_drop 5 b) at 1; congruence).
    assert (drop 4 (b ++ 0 :: j) = 32 :: (drop 5 b ++ 0 :: j)) as -> by (rewrite Eb at 1; reflexivity).
    apply cstr_exact. now apply Forall_drop.
Qed.

(** The answer to the line in the buffer. *)
Lemma run_command_runs h g st b o st' :
  agrees h g st -> line_ok b -> line_len g = length b -> take (S (length b)) (line g) = b ++ [0] ->
  respond (parse b) st = Some (o, st') ->
  exists h' g', runs (U:=U) (run_command trap_bank trap_entry site) h g tt o h' g' /\ line g' = line g /\
    agrees h' g' st'.
Proof.
  intros Hag Hb Hn Hl Hr. pose proof (line_nonzero b Hb) as Hz.
  assert (exists j, line g = b ++ 0 :: j) as [j El].
  { exists (drop (S (length b)) (line g)). rewrite <-(take_drop (S (length b)) (line g)) at 1.
    now rewrite Hl, <-app_assoc. }
  assert (forall o h' g', runs (branch (line g) (parse b)) h g tt o h' g' ->
    runs (run_command trap_bank trap_entry site) h g tt o h' g') as Hbr by (intros; eapply run_command_branch; eauto).
  assert (forall c, parse b = c -> respond c st = Some (o, st') -> exists h' g',
    runs (branch (line g) c) h g tt o h' g' /\ line g' = line g /\ agrees h' g' st') as Hc.
  { clear Hbr Hr. intros c Hp Hr. destruct c as [| |s| | |s]; cbn [respond branch] in *.
    - injection Hr as <- <-. exists h, g. split; [apply runs_ret|auto].
    - injection Hr as <- <-. exists h, g. split; [apply cmd_help_runs|auto].
    - injection Hr as <- <-. exists h, g. split; [|auto]. rewrite El. now apply (cmd_echo_runs b).
    - case_decide as Hbk; [|discriminate]. injection Hr as <- <-.
      destruct (cmd_regs_runs h g st Hag Hbk) as (g' & H1 & H2 & _ & H4). eauto.
    - injection Hr as <- <-. exists (mr64 CLINT_MTIME h).2, g. pose proof Hag as [-> ? ? ? ? ?].
      split; [apply cmd_uptime_runs|]. split; [reflexivity|]. now constructor.
    - injection Hr as <- <-. exists h, g. split; [|auto].
      assert (s = b) as -> by (unfold parse in Hp; repeat (case_decide; [discriminate|]); now injection Hp).
      apply (runs_bind _ _ _ _ tt (lit "unknown command: ") h g tt (b ++ [10])); [xprim|].
      eapply runs_bind; [|xrun]. rewrite El. rewrite <-(cstr_exact b j Hz) at 2. apply puts_bytes_runs. }
  destruct (Hc _ eq_refl Hr) as (h' & g' & H1 & H2 & H3). exists h', g'. split; [now apply Hbr|auto].
Qed.

Lemma regs_text_bytes v : Forall (fun c => 0 <= c < 256) (regs_text v).
Proof.
  assert (Forall (fun c => 0 <= c < 256) [10]) as H10 by now repeat constructor.
  unfold regs_text. apply Forall_app. split.
  - generalize (seq 0 31). intros l. induction l as [|i l IH]; cbn [map concat]; [constructor|].
    text_bytes; first [exact IH | exact H10 | apply bytes_range].
  - text_bytes; exact H10.
Qed.

Lemma regs_text_ext v v' : (forall i, 0 <= i < 34 -> v i = v' i) -> regs_text v = regs_text v'.
Proof.
  intros Hv. unfold regs_text. rewrite !Hv by lia. f_equal. f_equal. apply map_ext_in.
  intros i Hi. apply in_seq in Hi. now rewrite Hv by lia.
Qed.

(** The text a parsed command carries comes from the line. *)
Lemma parse_text (P : Z -> Prop) b s : Forall P b -> parse b = CEcho s \/ parse b = CUnknown s -> Forall P s.
Proof.
  intros Hb Hp. unfold parse in Hp. repeat case_decide; destruct Hp as [Hp|Hp]; try discriminate;
    injection Hp as <-; auto using Forall_drop.
Qed.

Lemma respond_bytes b st o st' : line_ok b -> respond (parse b) st = Some (o, st') ->
  Forall (fun c => 0 <= c < 256) o.
Proof.
  intros [_ Hb] Hr.
  assert (Forall (fun c => 0 <= c < 256) b) as Hb' by (eapply Forall_impl; [exact Hb|]; intros c [Hc _]; lia).
  assert (Forall (fun c => 0 <= c < 256) [10]) as H10 by now repeat constructor.
  pose proof (fun s => parse_text _ b s Hb') as Ht. destruct (parse b) as [| |s| | |s]; unfold respond in Hr.
  - assert (o = []) as -> by congruence. constructor.
  - assert (o = help_text) as -> by congruence. apply Forall_app; split; apply bytes_range.
  - assert (o = s ++ [10]) as -> by congruence. apply Forall_app. split; [apply Ht; auto|exact H10].
  - case_decide; [|discriminate]. match type of Hr with Some (?t, _) = _ => assert (o = t) as -> by congruence end.
    apply regs_text_bytes.
  - match type of Hr with Some (?t, _) = _ => assert (o = t) as -> by congruence end. text_bytes.
  - assert (o = lit "unknown command: " ++ s ++ [10]) as -> by congruence.
    text_bytes; [apply Ht; auto|exact H10].
Qed.

Lemma edits_ok cs b : line_ok b -> Forall (fun c => 0 <= c < 256 /\ is_end c = false) cs -> line_ok (edits b cs).
Proof.
  intros Hb Hcs. revert b Hb. induction Hcs as [|c cs [Hc _] _ IH]; intros b Hb; [exact Hb|].
  apply IH, edit_ok; auto.
Qed.

Lemma read_line_talks k (h : H) g cs t :
  (length cs < k)%nat -> Forall (fun c => 0 <= c < 256 /\ is_end c = false) cs -> is_end t = true ->
  length (line g) = LINE_MAX ->
  talks (U:=U) (read_line k) h g (cs ++ [t]) (edit_echoes [] cs ++ [10])
    (fun _ h' g' => h' = h /\ line_done (edits [] cs) g g').
Proof.
  intros Hk Hcs Ht Hl. unfold read_line.
  apply (talks_after _ _ _ _ tt [] h (set_len 0 g)); [apply runs_gset|constructor|].
  apply (read_loop_talks cs k [] (set_len 0 g) h t Hk); auto using line_ok_nil. now split_and!.
Qed.

(** Ordinary characters are kept and echoed as they are. *)
Lemma edits_plain cs b : Forall line_char cs -> (length b + length cs < LINE_MAX)%nat ->
  edits b cs = b ++ cs /\ edit_echoes b cs = cs.
Proof.
  intros Hcs. revert b. induction Hcs as [|c cs [Hc Hd] Hcs IH]; intros b Hl; [now rewrite app_nil_r|].
  cbn [length] in Hl.
  assert (edit b c = b ++ [c] /\ edit_echo b c = [c]) as [E1 E2].
  { unfold edit, edit_echo, is_erase. destruct (Z.eqb_spec c 0x7f), (Z.eqb_spec c 0x08); try lia. cbn [orb].
    destruct (Z.ltb_spec c 0x20); [lia|]. destruct (Nat.ltb_spec (length b) (LINE_MAX - 1)); [auto|unfold LINE_MAX in *; lia]. }
  cbn [edits fold_left edit_echoes]. rewrite E1, E2. destruct (IH (b ++ [c])) as [E3 E4]; [rewrite length_app; cbn; lia|].
  unfold edits in E3. rewrite E3, E4, <-app_assoc. auto.
Qed.

(** One round: prompt, editing, answer. *)
Lemma shell_round_talks k h g st cs t o st' :
  agrees h g st -> length (line g) = LINE_MAX -> (length cs < k)%nat ->
  Forall (fun c => 0 <= c < 256 /\ is_end c = false) cs -> is_end t = true ->
  respond (parse (edits [] cs)) st = Some (o, st') ->
  talks (U:=U) (shell_round trap_bank trap_entry site k) h g (cs ++ [t])
    (lit "> " ++ edit_echoes [] cs ++ [10] ++ o)
    (fun _ h' g' => agrees h' g' st' /\ length (line g') = LINE_MAX).
Proof.
  intros Hag Hl Hk Hcs Ht Hr. unfold shell_round.
  pose proof (edits_ok cs [] line_ok_nil Hcs) as Hok.
  eapply talks_after; [xprim|apply bytes_range|]. rewrite app_assoc, <-(app_nil_r (cs ++ [t])).
  eapply talks_bind.
  - now apply read_line_talks.
  - intros [] h' g' (-> & Hlen & Hn & Hline & E1 & E2 & E3 & E4).
    assert (agrees h g' st) as Hag' by (destruct Hag; cbn in *; constructor; first [assumption | congruence | intros a; rewrite E1; auto]).
    destruct (run_command_runs h g' st _ o st' Hag' Hok Hn Hline Hr) as (h2 & g2 & Hrun & El & Hag2).
    apply (talks_runs _ _ _ tt o h2 g2); [exact Hrun|eapply respond_bytes; eauto|]. split; [exact Hag2|congruence].
Qed.

Lemma shell_rounds_talks k lines h g st o st' :
  agrees h g st -> length (line g) = LINE_MAX ->
  Forall (typed k) lines ->
  session lines st = Some (o, st') ->
  talks (U:=U) (shell_rounds trap_bank trap_entry site k (length lines)) h g
    (wire lines) o
    (fun _ h' g' => agrees h' g' st' /\ length (line g') = LINE_MAX).
Proof.
  revert h g st o. induction lines as [|[cs t] lines IH]; intros h g st o Hag Hl Hf Hs; cbn [session] in Hs.
  - injection Hs as <- <-. apply (talks_runs _ _ _ tt [] h g); [apply runs_ret|constructor|auto].
  - apply Forall_cons_1 in Hf as [(Hk & Hcs & Ht) Hf].
    destruct (respond _ st) as [[o1 st1]|] eqn:Hr; [|discriminate].
    destruct (session lines st1) as [[o2 st2]|] eqn:Hs2; [|discriminate].
    assert (o = (lit "> " ++ edit_echoes [] cs ++ [10] ++ o1) ++ o2 /\ st2 = st') as [-> ->]
      by (rewrite <-!app_assoc; split; congruence).
    cbn [length shell_rounds map concat]. eapply talks_bind.
    + eapply shell_round_talks; eauto.
    + intros [] h' g' [Hag' Hl']. eapply IH; eauto.
Qed.

Lemma sh_main_session k lines h m u r o st' :
  mem_ok m -> Forall (typed k) lines -> session lines (SState h m trap_bank 0) = Some (o, st') ->
  rx u = wire lines ++ r ->
  exists u' h' g', sh_main trap_bank trap_entry site k (length lines) (World u h (shell_boot m)) =
      Ret tt (World u' h' g') /\
    tx u' = tx u ++ crlf (lit "uart-shell ready\n" ++ o) /\ rx u' = r /\ agrees h' g' st'.
Proof.
  intros Hm Hf Hs Hr.
  set (g := set_csrs trap_bank trap_entry (shell_boot m)).
  assert (talks (U:=U) (shell_run trap_bank trap_entry site k (length lines)) h g (wire lines)
    (lit "uart-shell ready\n" ++ o) (fun _ h' g' => agrees h' g' st' /\ length (line g') = LINE_MAX)) as Ht.
  { unfold shell_run. eapply talks_after; [xprim|apply bytes_range|].
    eapply shell_rounds_talks; [|reflexivity|exact Hf|exact Hs]. constructor; first [reflexivity | exact Hm | intros a; reflexivity]. }
  destruct (Ht (inited u) r) as ([] & u' & h' & g' & E & Htx & Hrx & Hag & _); [now rewrite inited_rx|].
  exists u', h', g'. rewrite inited_tx in Htx. split; [|auto]. unfold sh_main.
  rewrite (bind_ret_eq _ _ _ _ _ (uart_init_eq _)). exact E.
Qed.
End Session.

(** ** The theorems *)

Section Theorems.
Context {U H : Type} `{!UartDev U, !UartSpec U, !HartDev H, !ClintSpec H}.
Context (trap_bank trap_entry : Z) (site : nat -> ecall_site).
Hypothesis Hsite : forall n, site_ok (site n).

(** The line editor is memory-safe and exact.  Whatever bytes are typed,
    however many, up to the CR or LF: [read_line] returns having consumed
    exactly those bytes, never indexes outside the 128-byte buffer, and the
    buffer then holds the edited line closed by a NUL: characters appended
    while there is room, DEL and BS erasing one, other control characters
    ignored.  The line is always shorter than the buffer and free of control
    characters. *)
Theorem read_line_edits k (h : H) g cs t : typed k (cs, t) -> length (line g) = LINE_MAX ->
  talks (U:=U) (read_line k) h g (cs ++ [t]) (edit_echoes [] cs ++ [10])
    (fun _ h' g' => h' = h /\ line_done (edits [] cs) g g' /\ line_ok (edits [] cs)).
Proof.
  intros (Hk & Hcs & Ht) Hl u r Hr.
  destruct (read_line_talks k h g cs t Hk Hcs Ht Hl u r Hr) as (a & u' & h' & g' & E & H1 & H2 & H3 & H4).
  exists a, u', h', g'. split_and!; auto. apply edits_ok; [apply line_ok_nil|exact Hcs].
Qed.

(** C6: The shell answers every line as specified.  For any list of typed
    lines, [main] prints the greeting and, per line, the prompt, the editor's
    echo and the answer [respond] gives, consumes exactly what was typed, and
    its memory, [mscratch] and hardware follow the specification's. *)
Theorem shell_refines_session k lines h m u r o st' :
  mem_ok m -> Forall (typed k) lines -> session trap_bank site lines (SState h m trap_bank 0) = Some (o, st') ->
  rx u = wire lines ++ r ->
  exists u' h' g', sh_main trap_bank trap_entry site k (length lines) (World u h (shell_boot m)) =
      Ret tt (World u' h' g') /\
    tx u' = tx u ++ crlf (lit "uart-shell ready\n" ++ o) /\ rx u' = r /\ agrees trap_entry h' g' st'.
Proof. now apply sh_main_session. Qed.

(** [echo] gives the text back byte for byte: any text of up to 122
    line characters typed after "echo " is printed exactly. *)
Theorem echo_roundtrip s (h : H) m u r :
  mem_ok m -> Forall line_char s -> (length s <= 122)%nat -> rx u = wire [(bytes "echo " ++ s, 13)] ++ r ->
  exists u' h' g', sh_main trap_bank trap_entry site 128 1 (World u h (shell_boot m)) = Ret tt (World u' h' g') /\
    tx u' = tx u ++ crlf (lit "uart-shell ready\n> echo " ++ s ++ [10] ++ s ++ [10]) /\ rx u' = r.
Proof.
  intros Hm Hs Hl Hr. set (b := bytes "echo " ++ s) in *.
  assert (Forall line_char b) as Hb.
  { apply Forall_app; split; [|exact Hs]. change (bytes "echo ") with [101; 99; 104; 111; 32].
    repeat (apply Forall_cons; split; [unfold line_char; lia|]). apply Forall_nil; exact I. }
  assert (length b = 5 + length s)%nat as Eb by now unfold b; rewrite length_app.
  destruct (edits_plain b [] Hb) as [Ed Ee]; [cbn; unfold LINE_MAX; lia|].
  assert (parse b = CEcho s) as Ep.
  { unfold parse. rewrite !decide_False, decide_True by (unfold b; first [discriminate | reflexivity]). reflexivity. }
  destruct (sh_main_session trap_bank trap_entry site Hsite 128 [(b, 13)] h m u r
    (lit "> " ++ b ++ [10] ++ (s ++ [10])) (SState h m trap_bank 0) Hm) as (u' & h' & g' & E & Ht & Hx & _).
  - constructor; [|constructor]. split_and!; [cbn [fst]; lia| |reflexivity].
    eapply Forall_impl; [exact Hb|]. intros c [Hc _]. split; [lia|]. unfold is_end. cbn in *. lia.
  - cbn [session]. rewrite Ed, Ee. cbn [app]. rewrite Ep. cbn [respond]. now rewrite app_nil_r.
  - exact Hr.
  - exists u', h', g'. auto.
Qed.

(** C34: The register dump works once.  The first [regs] prints the registers
    of its [ecall] and leaves the interrupted [t0] in [mscratch], so the
    second [regs] stores its 34 doublewords at that address instead of
    [trap_bank], over whatever is there, and prints the first dump again,
    whatever the registers are by then. *)
Theorem second_regs_stale (h : H) m u r :
  mem_ok m -> bank_at trap_bank -> bank_at (site_reg (site 0) t0) ->
  site_reg (site 0) t0 + 272 <= trap_bank \/ trap_bank + 272 <= site_reg (site 0) t0 ->
  rx u = wire [(bytes "regs", 13); (bytes "regs", 13)] ++ r ->
  exists u' h' g', sh_main trap_bank trap_entry site 128 2 (World u h (shell_boot m)) = Ret tt (World u' h' g') /\
    tx u' = tx u ++ crlf (lit "uart-shell ready\n> regs\n" ++ regs_text (slot (site 0)) ++
                          lit "> regs\n" ++ regs_text (slot (site 0))) /\
    forall i, 0 <= i < 34 -> dmem g' (site_reg (site 0) t0 + 8 * i) = slot (site 1) i.
Proof.
  intros Hm Hb0 Hb1 Hd Hr. set (b1 := site_reg (site 0) t0) in *.
  set (m1 := snap trap_bank (site 0) m). set (m2 := snap b1 (site 1) m1).
  assert (forall i, 0 <= i < 34 -> m1 (trap_bank + 8 * i) = slot (site 0) i) as E1 by (intros; now apply snap_slot).
  assert (forall i, 0 <= i < 34 -> m2 (trap_bank + 8 * i) = slot (site 0) i) as E2.
  { intros i Hi. unfold m2. rewrite snap_other by lia. now apply E1. }
  destruct (sh_main_session trap_bank trap_entry site Hsite 128 [(bytes "regs", 13); (bytes "regs", 13)] h m u r
    (lit "> regs\n" ++ regs_text (fun i => m1 (trap_bank + 8 * i)) ++
     lit "> regs\n" ++ regs_text (fun i => m2 (trap_bank + 8 * i)))
    (SState h m2 (site_reg (site 1) t0) 2) Hm) as (u' & h' & g' & E & Ht & Hx & Hag).
  - repeat (constructor; [split_and!; [cbn; lia|apply (bool_decide_unpack _); reflexivity|reflexivity]|]). constructor.
  - cbn [session]. change (parse (edits [] (bytes "regs"))) with CRegs. cbn [respond st_scratch st_n st_mem st_h].
    rewrite decide_True by exact Hb0. cbn [st_scratch st_n st_mem st_h]. fold b1. rewrite decide_True by exact Hb1.
    cbn [st_scratch st_n st_mem st_h]. fold m1 m2. rewrite app_nil_r. reflexivity.
  - exact Hr.
  - exists u', h', g'. split; [exact E|]. split.
    + rewrite Ht. do 2 f_equal. rewrite (regs_text_ext _ _ E1), (regs_text_ext _ _ E2). reflexivity.
    + intros i Hi. rewrite (ag_mem _ _ _ _ Hag). now apply snap_slot.
Qed.
End Theorems.

(** ** A concrete shell *)

Definition demo_site (n : nat) : ecall_site :=
  Site (fun r => 0x80006000 + 0x1000 * Z.of_nat (n mod 4) + 8 * (r mod 32)) 0x80000200 0x1800.

Lemma demo_site_ok n : site_ok (demo_site n).
Proof.
  split_and!; [|u64c|u64c]. intros r. pose proof (Nat.mod_upper_bound n 4). pose proof (Z.mod_pos_bound r 32).
  cbn. unfold is_u64. lia.
Qed.

Definition demo_shell_hart : ScriptHart := SH 1000 7 [] [].

Lemma read_line_edits_witness :
  talks (U:=LogUart) (H:=ScriptHart) (read_line 8) demo_shell_hart (shell_boot (fun _ => 0))
    ([104; 101; 120; 8; 9; 127; 105] ++ [13]) (edit_echoes [] [104; 101; 120; 8; 9; 127; 105] ++ [10])
    (fun _ _ g' => take 3 (line g') = [104; 105; 0]).
Proof.
  intros u r Hr.
  destruct (read_line_edits (U:=LogUart) (H:=ScriptHart) 8 demo_shell_hart (shell_boot (fun _ => 0))
    [104; 101; 120; 8; 9; 127; 105] 13 ltac:(split_and!; [cbn; lia|apply (bool_decide_unpack _); reflexivity|reflexivity])
    eq_refl u r Hr) as (a & u' & h' & g' & E & H1 & H2 & H3 & (_ & _ & H4 & _) & _).
  exists a, u', h', g'. auto.
Defined.

Lemma shell_refines_session_witness :
  exists u' h' g', sh_main (U:=LogUart) 0x80005000 0x80000100 demo_site 128 2
      (World (LogU [] (wire [(bytes "help", 13); (bytes "what", 10)])) demo_shell_hart (shell_boot (fun _ => 0))) =
      Ret tt (World u' h' g') /\
    tx u' = crlf (lit "uart-shell ready\n> help\n" ++ help_text ++ lit "> what\nunknown command: what\n") /\ rx u' = [].
Proof.
  destruct (shell_refines_session (U:=LogUart) (H:=ScriptHart) 0x80005000 0x80000100 demo_site demo_site_ok 128
    [(bytes "help", 13); (bytes "what", 10)] demo_shell_hart (fun _ => 0)
    (LogU [] (wire [(bytes "help", 13); (bytes "what", 10)])) []
    (lit "> help\n" ++ help_text ++ lit "> what\nunknown command: what\n")
    (SState demo_shell_hart (fun _ => 0) 0x80005000 0))
    as (u' & h' & g' & E & Ht & Hx & _).
  - intros a. u64c.
  - repeat (constructor; [split_and!; [cbn; lia|apply (bool_decide_unpack _); reflexivity|reflexivity]|]). constructor.
  - vm_compute. reflexivity.
  - reflexivity.
  - exists u', h', g'. split; [exact E|]. split; [|exact Hx]. rewrite Ht. vm_compute. reflexivity.
Defined.

Lemma echo_roundtrip_witness :
  exists u' h' g', sh_main (U:=LogUart) 0x80005000 0x80000100 demo_site 128 1
      (World (LogU [] (wire [(bytes "echo " ++ bytes "a  b!", 13)])) demo_shell_hart (shell_boot (fun _ => 0))) =
      Ret tt (World u' h' g') /\
    tx u' = crlf (lit "uart-shell ready\n> echo a  b!\na  b!\n") /\ rx u' = [].
Proof.
  destruct (echo_roundtrip (U:=LogUart) (H:=ScriptHart) 0x80005000 0x80000100 demo_site demo_site_ok (bytes "a  b!")
    demo_shell_hart (fun _ => 0) (LogU [] (wire [(bytes "echo " ++ bytes "a  b!", 13)])) [])
    as (u' & h' & g' & E & Ht & Hx).
  - intros a. u64c.
  - repeat (apply Forall_cons; split; [vm_compute; split; [split|]; congruence|]). apply Forall_nil; exact I.
  - cbn. lia.
  - reflexivity.
  - exists u', h', g'. split; [exact E|]. split; [|exact Hx]. rewrite Ht. vm_compute. reflexivity.
Defined.

Lemma second_regs_stale_witness :
  exists u' h' g', sh_main (U:=LogUart) 0x80005000 0x80000100 demo_site 128 2
      (World (LogU [] (wire [(bytes "regs", 13); (bytes "regs", 13)])) demo_shell_hart (shell_boot (fun _ => 0))) =
      Ret tt (World u' h' g') /\
    dmem g' 0x80006028 = 0x80007008.
Proof.
  destruct (second_regs_stale (U:=LogUart) (H:=ScriptHart) 0x80005000 0x80000100 demo_site demo_site_ok
    demo_shell_hart (fun _ => 0) (LogU [] (wire [(bytes "regs", 13); (bytes "regs", 13)])) [])
    as (u' & h' & g' & E & _ & Hd).
  - intros a. u64c.
  - vm_compute. intuition congruence.
  - vm_compute. intuition congruence.
  - right. vm_compute. congruence.
  - reflexivity.
  - exists u', h', g'. split; [exact E|]. exact (Hd 0 ltac:(lia)).
Defined.
