(* ===== verification/Smp.v ===== *)
(** * Two-hart bring-up under a spinlock (src/smp/)

    [spinlock.c], [smp_print.c], [smp_main.c], [hart1.c] and the stack and
    release logic of [smp_boot.S].  Each hart's program is a command tree
    whose nodes are its atomic actions on shared state (lock word, flags and
    stamps, the UART line); a run is any interleaving of the two harts'
    actions with any cycle-counter readings.  The sources fence every flag
    access, so interleaving is the memory model.  A byte sent by the UART
    driver is one action ([Uart.uart_puts_sends] is what the driver does). *)

From Stdlib Require Import ZArith Lia String.
From stdpp Require Import base list.
From S2P Require Import Prelude Uart.

(** The shared variables. *)
Inductive var : Type :=
| smp_release | hart1_done | t_release_cycles | t1_entry_cycles | t1_printed_cycles | t1_sp.

#[export] Instance var_eq_dec : EqDecision var.
Proof. solve_decision. Defined.

(** A hart's remaining program. *)
Inductive cmd : Type :=
| Halt                                        (* for (;;) wfi *)
| Lock (k : cmd)                              (* amoswap.w.aq until it returns 0 *)
| Unlock (k : cmd)                            (* fence; sw zero *)
| Putc (c : Z) (k : cmd)                      (* one byte on the line *)
| Store (x : var) (v : Z) (k : cmd)
| Load (x : var) (k : Z -> cmd)
| Rdcycle (k : Z -> cmd)
| SpinFlag (x : var) (k : cmd)                (* while (x == 0) ; *)
| PollFlag (x : var) (deadline : Z) (k : cmd). (* while (!x && rdcycle() < deadline) ; *)

(** ** smp_print.c over spinlock.c *)

Definition HART_STACK_SIZE : Z := 4096.
Definition HART1_TIMEOUT_CYCLES : Z := 15000000000.

(** The bytes of [l] as the UART driver sends them. *)
Definition say (l : list Z) (k : cmd) : cmd := fold_right Putc k (crlf l).

Definition spin_lock (k : cmd) : cmd := Lock k.
Definition spin_unlock (k : cmd) : cmd := Unlock k.

Definition put_value (v : Z) (hex : bool) (k : cmd) : cmd :=
  if hex then say (fmt_hex v) k else say (fmt_dec v) k.

Definition locked_puts (s : string) (k : cmd) : cmd :=
  spin_lock (say (lit s) (spin_unlock k)).

Definition locked_print_kv (label : string) (v : Z) (hex : bool) (k : cmd) : cmd :=
  spin_lock (say (lit label) (say (lit "=") (put_value v hex (say (lit "\n") (spin_unlock k))))).

Definition locked_print_line2 (a : string) (va : Z) (b : string) (vb : Z) (hex : bool) (k : cmd) : cmd :=
  spin_lock (say (lit a) (say (lit "=") (put_value va hex (say (lit " ")
    (say (lit b) (say (lit "=") (put_value vb hex (say (lit "\n") (spin_unlock k))))))))).

Section Programs.
(** [hart_stacks], and what each hart reads as its [sp] and [mhartid]. *)
Context (hart_stacks sp0 sp1 : Z).

Definition stack_base (n : Z) : Z := hart_stacks + n * HART_STACK_SIZE.
Definition stack_top (n : Z) : Z := u64 (stack_base n + HART_STACK_SIZE).

(** The stack pointer [smp_boot.S] installs on hart [n]. *)
Definition boot_sp (n : Z) : Z := u64 (hart_stacks + u64 (u64 (n + 1) * HART_STACK_SIZE)).

(** ** hart1.c; the wait on [smp_release] is [smp_boot.S]'s *)
Definition hart1_main : cmd :=
  Rdcycle (fun t => Store t1_entry_cycles t (
  Store t1_sp sp1 (
  locked_puts "hart1: secondary hart alive\n" (
  locked_print_kv "hart1: mhartid" 1 false (
  locked_print_line2 "hart1: stack_base" (stack_base 1) "stack_top" (stack_top 1) true (
  locked_print_kv "hart1: sp" sp1 true (
  Rdcycle (fun t => Store t1_printed_cycles t (
  Store hart1_done 1 Halt))))))))).

Definition hart1_boot : cmd := SpinFlag smp_release hart1_main.

(** ** smp_main.c *)

Definition b2z (b : bool) : Z := if b then 1 else 0.

(** The verdicts of the stack check. *)
Definition disjoint_ok : Z :=
  b2z ((stack_top 0 <=? stack_base 1) || (stack_top 1 <=? stack_base 0)).
Definition sp_ok (n sp : Z) : Z := b2z ((stack_base n <=? sp) && (sp <=? stack_top n)).

Definition smp_report (t_done : Z) : cmd :=
  locked_puts "smp: verification report\n" (
  Load t_release_cycles (fun v => locked_print_kv "hart0: release_cycles" v false (
  Load t1_entry_cycles (fun v => locked_print_kv "hart1: entry_cycles" v false (
  Load t1_printed_cycles (fun v => locked_print_kv "hart1: printed_cycles" v false (
  locked_print_kv "hart0: done_cycles" t_done false (
  Load t1_entry_cycles (fun t1 => Load t_release_cycles (fun t0 =>
  let bringup_lat := u64 (t1 - t0) in
  Load t1_printed_cycles (fun t2 => Load t1_entry_cycles (fun t1 =>
  let entry_to_print := u64 (t2 - t1) in
  locked_print_kv "bring-up latency (release->hart1 entry), cycles" bringup_lat false (
  locked_print_kv "hart1 entry->print done, cycles" entry_to_print false (
  Load t1_sp (fun s1 =>
  locked_print_kv "stack slices disjoint (1=yes)" disjoint_ok false (
  locked_print_kv "hart0 sp in own slice (1=yes)" (sp_ok 0 sp0) false (
  locked_print_kv "hart1 sp in own slice (1=yes)" (sp_ok 1 s1) false (
  locked_puts "smp: both harts ran, done\n" Halt)))))))))))))))))).

(** After the wait: time out, or stamp and report. *)
Definition smp_finish (done : Z) : cmd :=
  if done =? 0 then locked_puts "hart0: TIMEOUT waiting for hart 1\n" Halt
  else Rdcycle smp_report.

Definition smp_main : cmd :=
  locked_puts "smp: 2-hart bring-up on QEMU virt\n" (
  locked_print_kv "hart0: mhartid" 0 false (
  locked_print_line2 "hart0: stack_base" (stack_base 0) "stack_top" (stack_top 0) true (
  locked_print_kv "hart0: sp" sp0 true (
  Rdcycle (fun t => Store t_release_cycles t (
  Store smp_release 1 (
  locked_puts "hart0: released hart 1\n" (
  Load t_release_cycles (fun t =>
  PollFlag hart1_done (u64 (t + HART1_TIMEOUT_CYCLES)) (
  Load hart1_done smp_finish)))))))))).
End Programs.

(** ** Interleaved execution *)

Inductive event : Type :=
| ELock (h : bool) | EUnlock (h : bool) | EByte (h : bool) (c : Z).

Record smp_state : Type := Smp {
  lock : bool;                 (* uart_lock.locked *)
  mem : var -> Z;
  hart0 : cmd;
  hart1 : cmd;
  trace : list event;          (* newest last; the bytes are the UART line *)
}.

Definition vset (m : var -> Z) (x : var) (v : Z) : var -> Z :=
  fun y => if bool_decide (y = x) then v else m y.

(** One atomic action of hart [h], whose program is [c]; [t] is the cycle
    counter if the action reads it.  The lock is taken only when free. *)
Definition act (h : bool) (t : Z) (c : cmd) (lk : bool) (m : var -> Z)
  : cmd * bool * (var -> Z) * list event :=
  match c with
  | Halt => (Halt, lk, m, [])
  | Lock k => if lk then (c, true, m, []) else (k, true, m, [ELock h])
  | Unlock k => (k, false, m, [EUnlock h])
  | Putc b k => (k, lk, m, [EByte h b])
  | Store x v k => (k, lk, vset m x v, [])
  | Load x k => (k (m x), lk, m, [])
  | Rdcycle k => (k t, lk, m, [])
  | SpinFlag x k => (if m x =? 0 then c else k, lk, m, [])
  | PollFlag x d k => (if (m x =? 0) && (t <? d) then c else k, lk, m, [])
  end.

Definition step (h : bool) (t : Z) (s : smp_state) : smp_state :=
  let '(c, lk, m, e) := act h t (if h then hart1 s else hart0 s) (lock s) (mem s) in
  Smp lk m (if h then hart0 s else c) (if h then c else hart1 s) (trace s ++ e).

(** A run: which hart moves and what the cycle counter reads. *)
Definition run (sched : list (bool * Z)) (s : smp_state) : smp_state :=
  fold_left (fun s '(h, t) => step h t s) sched s.

Definition smp_start (hart_stacks sp0 sp1 : Z) : smp_state :=
  Smp false (fun _ => 0) (smp_main hart_stacks sp0) (hart1_boot hart_stacks sp1) [].

(** ** Lock discipline *)

(** [disciplined b c]: holding the lock iff [b], the program only sends bytes
    while holding it, releases it before it halts or waits, and never takes
    it twice. *)
Fixpoint disciplined (b : bool) (c : cmd) : Prop :=
  match c with
  | Halt => b = false
  | Lock k => b = false /\ disciplined true k
  | Unlock k => b = true /\ disciplined false k
  | Putc _ k => b = true /\ disciplined true k
  | Store _ _ k => b = false /\ disciplined false k
  | Load _ k => b = false /\ forall v, disciplined false (k v)
  | Rdcycle k => b = false /\ forall v, disciplined false (k v)
  | SpinFlag _ k => b = false /\ disciplined false k
  | PollFlag _ _ k => b = false /\ disciplined false k
  end.

Lemma say_disciplined l k : disciplined true k -> disciplined true (say l k).
Proof. intros Hk. unfold say. induction (crlf l); cbn; auto. Qed.

Lemma value_disciplined v hex k : disciplined true k -> disciplined true (put_value v hex k).
Proof. intros Hk. unfold put_value. destruct hex; now apply say_disciplined. Qed.

Create HintDb smp discriminated.
#[export] Hint Resolve say_disciplined value_disciplined : smp.

Lemma locked_puts_disciplined s k : disciplined false k -> disciplined false (locked_puts s k).
Proof. intros Hk. split; [reflexivity|]. apply say_disciplined. cbn. auto. Qed.

Lemma print_kv_disciplined s v x k : disciplined false k -> disciplined false (locked_print_kv s v x k).
Proof. intros Hk. split; [reflexivity|]. do 2 apply say_disciplined. apply value_disciplined, say_disciplined. cbn. auto. Qed.

Lemma print_line2_disciplined a va b vb x k :
  disciplined false k -> disciplined false (locked_print_line2 a va b vb x k).
Proof.
  intros Hk. split; [reflexivity|]. do 2 apply say_disciplined. apply value_disciplined.
  do 3 apply say_disciplined. apply value_disciplined, say_disciplined. cbn. auto.
Qed.

#[export] Hint Resolve locked_puts_disciplined print_kv_disciplined print_line2_disciplined : smp.

(** Peels one node off a program known to be outside the lock. *)
Ltac peel :=
  first
  [ match goal with |- _ = _ => reflexivity end
  | match goal with |- _ /\ _ => split; [reflexivity|]; intros; cbv beta zeta end
  | apply locked_puts_disciplined | apply print_kv_disciplined | apply print_line2_disciplined
  | match goal with |- disciplined false ?c =>
      let c' := eval hnf in c in change (disciplined false c');
      cbn [disciplined]; first [reflexivity | split; [reflexivity|]; intros; cbv beta zeta] end ].

Lemma report_disciplined hs sp t : disciplined false (smp_report hs sp t).
Proof. unfold smp_report. cbv zeta. repeat peel. Qed.

Lemma main_disciplined hs sp : disciplined false (smp_main hs sp).
Proof.
  unfold smp_main. do 11 peel. unfold smp_finish. case_match; [repeat peel|].
  cbn [disciplined]. split; [reflexivity|]. intros t. apply report_disciplined.
Qed.

Lemma hart1_disciplined hs sp : disciplined false (hart1_boot hs sp).
Proof. unfold hart1_boot, hart1_main. repeat peel. Qed.

(** ** Every interleaving *)

Definition owner (e : event) : bool :=
  match e with ELock h | EUnlock h | EByte h _ => h end.

(** One line printed by hart [h]: the bytes of one critical section. *)
Definition block (hl : bool * list Z) : list event :=
  ELock hl.1 :: map (EByte hl.1) hl.2 ++ [EUnlock hl.1].

(** What the holder of the lock has sent so far. *)
Definition open_block (o : option (bool * list Z)) : list event :=
  match o with None => [] | Some (h, l) => ELock h :: map (EByte h) l end.

Definition hart (s : smp_state) (h : bool) : cmd := if h then hart1 s else hart0 s.

(** The holder [o] of the lock agrees with the lock word, with the trace and
    with where the two programs are. *)
Record lock_inv (s : smp_state) (o : option (bool * list Z)) : Prop := {
  li_lock : lock s = bool_decide (is_Some o);
  li_trace : exists ls, trace s = concat (map block ls) ++ open_block o;
  li_progs : forall h, disciplined (bool_decide (fst <$> o = Some h)) (hart s h);
}.

Lemma hart_step h t s h' :
  hart (step h t s) h' =
  if bool_decide (h' = h) then (act h t (hart s h) (lock s) (mem s)).1.1.1 else hart s h'.
Proof.
  unfold step, hart. destruct (act h t _ (lock s) (mem s)) as [[[c lk] m] e] eqn:E.
  destruct h, h'; cbn in *; rewrite ?E; reflexivity.
Qed.

Lemma lock_step h t s : lock (step h t s) = (act h t (hart s h) (lock s) (mem s)).1.1.2.
Proof. unfold step, hart. now destruct (act h t _ (lock s) (mem s)) as [[[c lk] m] e]. Qed.

Lemma trace_step h t s : trace (step h t s) = trace s ++ (act h t (hart s h) (lock s) (mem s)).2.
Proof. unfold step, hart. now destruct (act h t _ (lock s) (mem s)) as [[[c lk] m] e]. Qed.

Lemma mem_step h t s : mem (step h t s) = (act h t (hart s h) (lock s) (mem s)).1.2.
Proof. unfold step, hart. now destruct (act h t _ (lock s) (mem s)) as [[[c lk] m] e]. Qed.

(** How a holder changes when its hart performs an action. *)
Definition holder_after (h : bool) (c : cmd) (lk : bool) (o : option (bool * list Z))
  : option (bool * list Z) :=
  match c, o with
  | Lock _, None => Some (h, [])
  | Unlock _, _ => None
  | Putc b _, Some (h', l) => Some (h', l ++ [b])
  | _, _ => o
  end.

Lemma lock_inv_step h t s o :
  lock_inv s o -> lock_inv (step h t s) (holder_after h (hart s h) (lock s) o).
Proof.
  intros [Hl [ls Ht] Hp]. pose proof (Hp h) as Hh.
  assert (Hother : forall h', h' <> h -> disciplined (bool_decide (fst <$> o = Some h')) (hart s h')) by auto.
  constructor; rewrite ?lock_step, ?trace_step.
  - destruct (hart s h), o as [[h0 l0]|]; cbn in *; rewrite ?Hl; auto; destruct Hh; discriminate.
  - rewrite Ht. destruct (hart s h) eqn:Ec, o as [[h0 l0]|]; cbn in *; rewrite ?Hl; cbn;
      rewrite ?app_nil_r; try (exists ls; rewrite ?app_nil_r; reflexivity);
      destruct Hh as [Hb Hh]; try discriminate.
    + apply bool_decide_eq_true in Hb as [= ->].
      exists (ls ++ [(h, l0)]). rewrite map_app, concat_app, app_nil_r. cbn.
      now rewrite app_nil_r, <-app_assoc.
    + apply bool_decide_eq_true in Hb as [= ->].
      exists ls. now rewrite <-app_assoc, map_app.
  - intros h'. rewrite hart_step. destruct (decide (h' = h)) as [->|Heq];
      [rewrite (bool_decide_eq_true_2 (h = h)) by reflexivity
      |rewrite (bool_decide_eq_false_2 (h' = h)) by exact Heq].
    + destruct (hart s h) eqn:Ec; [exact Hh | | destruct Hh as [_ Hh]; exact Hh | ..];
        cbn [disciplined] in Hh.
      * destruct o as [[h0 l0]|]; cbn in *; rewrite Hl; cbn; [exact Hh|].
        destruct Hh as [_ Hh]. now rewrite bool_decide_eq_true_2.
      * destruct Hh as [Hb Hh]. destruct o as [[h0 l0]|]; [|discriminate].
        cbn in *. now rewrite Hb.
      * destruct Hh as [Hb Hh]. cbn in *. now rewrite Hb.
      * destruct Hh as [Hb Hh]. cbn in *. rewrite Hb. apply Hh.
      * destruct Hh as [Hb Hh]. cbn in *. rewrite Hb. apply Hh.
      * destruct Hh as [Hb Hh]. cbn in *. rewrite Hb. case_match; [now cbn|apply Hh].
      * destruct Hh as [Hb Hh]. cbn in *. rewrite Hb. case_match; [now cbn|apply Hh].
    + specialize (Hother _ Heq). destruct (hart s h) eqn:Ec; try exact Hother;
        cbn [disciplined] in Hh.
      * destruct o as [[h0 l0]|]; cbn in *; [exact Hother|].
        now rewrite bool_decide_eq_false_2 by congruence.
      * destruct Hh as [Hb _]. apply bool_decide_eq_true in Hb. rewrite Hb in Hother.
        now rewrite bool_decide_eq_false_2 in Hother by congruence.
      * now destruct o as [[h0 l0]|].
Qed.

Lemma run_cons h t sched s : run ((h, t) :: sched) s = run sched (step h t s).
Proof. reflexivity. Qed.

Lemma lock_inv_run sched s o : lock_inv s o -> exists o', lock_inv (run sched s) o'.
Proof.
  revert s o. induction sched as [|[h t] sched IH]; intros s o Hi; [now exists o|].
  rewrite run_cons. eapply IH, lock_inv_step, Hi.
Qed.

Lemma lock_inv_start hs sp0 sp1 : lock_inv (smp_start hs sp0 sp1) None.
Proof.
  constructor; [reflexivity|now exists []|].
  intros []; cbn [hart smp_start hart0 hart1]; [apply hart1_disciplined|apply main_disciplined].
Qed.

(** C4: Lines never interleave.  Whatever the schedule and the cycle
    readings, everything on the UART line so far is a sequence of whole
    critical sections, each by one hart, followed by what the present holder
    of the lock has sent; the lock word is 1 exactly when there is a holder,
    and no hart but the holder is inside a critical section. *)
Theorem smp_lines_atomic hart_stacks sp0 sp1 sched :
  let s := run sched (smp_start hart_stacks sp0 sp1) in
  exists ls o,
    trace s = concat (map block ls) ++ open_block o /\
    lock s = bool_decide (is_Some o) /\
    (forall h, fst <$> o <> Some h -> disciplined false (hart s h)) /\
    (forall h, fst <$> o = Some h -> disciplined true (hart s h)).
Proof.
  intros s. destruct (lock_inv_run sched _ _ (lock_inv_start hart_stacks sp0 sp1)) as [o [Hl [ls Ht] Hp]].
  exists ls, o. split; [exact Ht|]. split; [exact Hl|].
  split; intros h Hh; specialize (Hp h); [rewrite bool_decide_eq_false_2 in Hp by exact Hh|
    rewrite bool_decide_eq_true_2 in Hp by exact Hh]; exact Hp.
Qed.

(** ** What hart 1 prints and when *)

(** [produces h c l]: run to its end by hart [h], [c] produces exactly the
    events [l], whatever it loads and whatever the counter reads. *)
Inductive produces (h : bool) : cmd -> list event -> Prop :=
| em_halt : produces h Halt []
| em_lock k l : produces h k l -> produces h (Lock k) (ELock h :: l)
| em_unlock k l : produces h k l -> produces h (Unlock k) (EUnlock h :: l)
| em_putc b k l : produces h k l -> produces h (Putc b k) (EByte h b :: l)
| em_store x v k l : produces h k l -> produces h (Store x v k) l
| em_load x k l : (forall v, produces h (k v) l) -> produces h (Load x k) l
| em_rdcycle k l : (forall v, produces h (k v) l) -> produces h (Rdcycle k) l
| em_spin x k l : produces h k l -> produces h (SpinFlag x k) l
| em_poll x d k l : produces h k l -> produces h (PollFlag x d k) l.

Lemma produces_act h t c lk m l :
  produces h c l ->
  let '(c', _, _, e) := act h t c lk m in
  exists l', produces h c' l' /\ l = e ++ l'.
Proof. destruct 1; cbn; repeat case_match; simplify_eq; eexists; (split; [|reflexivity]); eauto using produces. Qed.

Lemma produces_fun h c l l' : produces h c l -> produces h c l' -> l = l'.
Proof.
  intros H. revert l'. induction H; intros l'; inversion 1; subst; f_equal; auto.
  all: match goal with IH : forall v l', _ -> _ = l' |- _ => apply (IH 0); auto end.
Qed.

Lemma produces_say h s k l : produces h k l -> produces h (say s k) (map (EByte h) (crlf s) ++ l).
Proof. intros Hk. unfold say. induction (crlf s); cbn; auto using produces. Qed.

(** [stores_only P c]: every store of [c] satisfies [P]. *)
Fixpoint stores_only (P : var -> Z -> cmd -> Prop) (c : cmd) : Prop :=
  match c with
  | Halt => True
  | Lock k | Unlock k | Putc _ k | SpinFlag _ k | PollFlag _ _ k => stores_only P k
  | Store x v k => P x v k /\ stores_only P k
  | Load _ k | Rdcycle k => forall v, stores_only P (k v)
  end.

Lemma stores_act P h t c lk m : stores_only P c -> stores_only P (act h t c lk m).1.1.1.
Proof. destruct c; cbn; intros Hc; repeat case_match; cbn; try tauto; apply Hc. Qed.

Lemma stores_say P l k : stores_only P k -> stores_only P (say l k).
Proof. intros Hk. unfold say. now induction (crlf l). Qed.

Lemma stores_value P v x k : stores_only P k -> stores_only P (put_value v x k).
Proof. intros. unfold put_value. case_match; now apply stores_say. Qed.

(** Walks a program for [stores_only]. *)
Ltac stores :=
  repeat first
  [ apply stores_say | apply stores_value
  | match goal with
    | |- _ /\ _ => split
    | |- forall _, _ => intros
    | |- stores_only _ (if ?b then _ else _) => destruct b
    | |- stores_only _ (put_value _ _ _) => fail 1
    | |- stores_only _ (say _ _) => fail 1
    | |- stores_only _ _ => progress (hnf) || exact I
    end ].

(** Hart 0 writes only its release stamp and the release flag. *)
Definition hart0_store (x : var) (v : Z) (_ : cmd) : Prop :=
  x = t_release_cycles \/ x = smp_release /\ v <> 0.

(** Hart 1 writes neither of them, and raises [hart1_done] as its last act. *)
Definition hart1_store (x : var) (_ : Z) (k : cmd) : Prop :=
  x <> t_release_cycles /\ x <> smp_release /\ (x = hart1_done -> k = Halt).

Lemma main_stores hs sp : stores_only hart0_store (smp_main hs sp).
Proof.
  unfold smp_main, smp_finish, smp_report, locked_puts, locked_print_kv, locked_print_line2,
    spin_lock, spin_unlock. cbv zeta. stores; unfold hart0_store; auto.
Qed.

Lemma hart1_stores hs sp : stores_only hart1_store (hart1_boot hs sp).
Proof.
  unfold hart1_boot, hart1_main, locked_puts, locked_print_kv, locked_print_line2,
    spin_lock, spin_unlock. stores; unfold hart1_store; split_and?;
    first [discriminate | reflexivity | congruence].
Qed.

(** The four lines of hart 1, one per critical section. *)
Definition hart1_lines (hart_stacks sp1 : Z) : list (list Z) :=
  [crlf (lit "hart1: secondary hart alive\n");
   crlf (lit "hart1: mhartid=1\n");
   crlf (lit "hart1: stack_base=" ++ fmt_hex (stack_base hart_stacks 1) ++ lit " stack_top=" ++
         fmt_hex (stack_top hart_stacks 1) ++ lit "\n");
   crlf (lit "hart1: sp=" ++ fmt_hex sp1 ++ lit "\n")].

Definition hart1_events (hart_stacks sp1 : Z) : list event :=
  concat (map (fun l => block (true, l)) (hart1_lines hart_stacks sp1)).

Lemma produces_block h l l' k t :
  crlf l' = l -> produces h k t ->
  produces h (spin_lock (say l' (spin_unlock k))) (block (h, l) ++ t).
Proof.
  intros <- Hk. unfold block, spin_lock, spin_unlock. cbn. constructor. rewrite <-app_assoc.
  now apply produces_say; constructor.
Qed.

Lemma say_app l l' k : say l (say l' k) = say (l ++ l') k.
Proof. unfold say. now rewrite crlf_app, fold_right_app. Qed.

Lemma hart1_produces hs sp : produces true (hart1_boot hs sp) (hart1_events hs sp).
Proof.
  unfold hart1_boot, hart1_main, hart1_events, hart1_lines, locked_puts, locked_print_kv,
    locked_print_line2, put_value.
  constructor. constructor. intros t. do 2 constructor.
  cbn [map concat]. rewrite !say_app.
  do 4 (apply produces_block; [rewrite <-?app_assoc; reflexivity|]).
  constructor. intros t'. do 3 constructor.
Qed.

(** Hart 1 during a run. *)
Record hart1_inv (hs sp0 sp1 : Z) (s : smp_state) : Prop := {
  hi_stores0 : stores_only hart0_store (hart0 s);
  hi_stores1 : stores_only hart1_store (hart1 s);
  hi_trace : exists l, produces true (hart1 s) l /\
    filter (fun e => owner e = true) (trace s) ++ l = hart1_events hs sp1;
  hi_waits : mem s smp_release = 0 -> hart1 s = hart1_boot hs sp1;
  hi_done : mem s hart1_done <> 0 -> hart1 s = Halt;
}.

(** The events of one action belong to the hart that performs it. *)
Lemma act_owner h t c lk m : Forall (fun e => owner e = h) (act h t c lk m).2.
Proof. destruct c; cbn; repeat case_match; cbn; auto. Qed.

Lemma filter_own h l : Forall (fun e => owner e = h) l ->
  filter (fun e => owner e = true) l = if h then l else [].
Proof.
  induction 1 as [|e l He Hl IH]; [now destruct h|]. rewrite filter_cons, IH. subst h.
  destruct (owner e); now rewrite ?decide_True, ?decide_False by (congruence || reflexivity).
Qed.

(** A variable changes only by a store to it. *)
Lemma act_mem h t c lk m x :
  (act h t c lk m).1.2 x = m x \/
  exists v k, c = Store x v k /\ (act h t c lk m).1.1.1 = k /\ (act h t c lk m).1.2 x = v.
Proof.
  destruct c as [| | | |y v k| | | |]; cbn; repeat case_match; auto.
  unfold vset. case_bool_decide as Hy; [subst y|now left]. right. now exists v, k.
Qed.

Lemma hart1_inv_step0 hs sp0 sp1 t s : hart1_inv hs sp0 sp1 s -> hart1_inv hs sp0 sp1 (step false t s).
Proof.
  intros [H0 H1 [l [Hl Ht]] Hw Hd].
  pose proof (hart_step false t s) as Hh. pose proof (Hh false) as Hh0. pose proof (Hh true) as Hh1.
  vm_compute bool_decide in Hh0, Hh1. cbn [hart] in Hh0, Hh1. clear Hh.
  constructor; rewrite ?Hh0, ?Hh1.
  - now apply stores_act.
  - exact H1.
  - exists l. split; [exact Hl|]. rewrite trace_step, filter_app, (filter_own false (act _ _ _ _ _).2) by apply act_owner.
    now rewrite app_nil_r.
  - rewrite mem_step. destruct (act_mem false t (hart s false) (lock s) (mem s) smp_release)
      as [->|(v & k & Hc & _ & ->)]; [exact Hw|].
    cbn in Hc. rewrite Hc in H0. destruct H0 as [[H0|[_ H0]] _]; congruence.
  - rewrite mem_step. destruct (act_mem false t (hart s false) (lock s) (mem s) hart1_done)
      as [->|(v & k & Hc & _ & _)]; [exact Hd|].
    cbn in Hc. rewrite Hc in H0. destruct H0 as [[H0|[H0 _]] _]; congruence.
Qed.

Lemma hart1_inv_step1 hs sp0 sp1 t s : hart1_inv hs sp0 sp1 s -> hart1_inv hs sp0 sp1 (step true t s).
Proof.
  intros [H0 H1 [l [Hl Ht]] Hw Hd].
  pose proof (hart_step true t s) as Hh. pose proof (Hh false) as Hh0. pose proof (Hh true) as Hh1.
  vm_compute bool_decide in Hh0, Hh1. cbn [hart] in Hh0, Hh1. clear Hh.
  constructor; rewrite ?Hh0, ?Hh1.
  - exact H0.
  - now apply stores_act.
  - pose proof (produces_act true t _ (lock s) (mem s) l Hl) as He.
    rewrite trace_step, filter_app, (filter_own true (act _ _ _ _ _).2) by apply act_owner. cbn [hart].
    destruct (act true t (hart1 s) (lock s) (mem s)) as [[[c lk] m] e]. cbn [fst snd].
    destruct He as [l' [Hc ->]]. exists l'. split; [exact Hc|]. now rewrite <-app_assoc.
  - rewrite mem_step. destruct (act_mem true t (hart s true) (lock s) (mem s) smp_release)
      as [->|(v & k & Hc & _ & _)]; cbn [hart] in *.
    + intros Hr. rewrite (Hw Hr). unfold hart1_boot. cbn [act fst snd]. now rewrite Hr.
    + rewrite Hc in H1. destruct H1 as [[_ [H1 _]] _]. congruence.
  - rewrite mem_step. destruct (act_mem true t (hart s true) (lock s) (mem s) hart1_done)
      as [->|(v & k & Hc & Hk & _)]; cbn [hart] in *.
    + intros Hr. now rewrite (Hd Hr).
    + rewrite Hk. rewrite Hc in H1. destruct H1 as [[_ [_ H1]] _]. auto.
Qed.

Lemma hart1_inv_run hs sp0 sp1 sched s :
  hart1_inv hs sp0 sp1 s -> hart1_inv hs sp0 sp1 (run sched s).
Proof.
  revert s. induction sched as [|[h t] sched IH]; intros s Hi; [exact Hi|].
  rewrite run_cons. apply IH. destruct h; [now apply hart1_inv_step1|now apply hart1_inv_step0].
Qed.

Lemma hart1_inv_start hs sp0 sp1 : hart1_inv hs sp0 sp1 (smp_start hs sp0 sp1).
Proof.
  constructor; cbn [smp_start hart0 hart1 trace mem]; [apply main_stores|apply hart1_stores| |reflexivity|congruence].
  exists (hart1_events hs sp1). split; [apply hart1_produces|reflexivity].
Qed.

(** Hart 1's side of the bring-up, under every schedule: it prints
    nothing before hart 0 raises [smp_release]; its output is always a prefix
    of its four lines (alive, hart id, stack slice, stack pointer); and once
    [hart1_done] is raised the four lines are complete. *)
Theorem hart1_bring_up hart_stacks sp0 sp1 sched :
  let s := run sched (smp_start hart_stacks sp0 sp1) in
  let out1 := filter (fun e => owner e = true) (trace s) in
  (mem s smp_release = 0 -> out1 = []) /\
  out1 `prefix_of` hart1_events hart_stacks sp1 /\
  (mem s hart1_done <> 0 -> out1 = hart1_events hart_stacks sp1).
Proof.
  intros s out1.
  destruct (hart1_inv_run _ _ _ sched _ (hart1_inv_start hart_stacks sp0 sp1)) as [_ _ [l [Hl Ht]] Hw Hd].
  split; [|split].
  - intros Hr. unfold s in Hr. rewrite (Hw Hr) in Hl.
    assert (l = hart1_events hart_stacks sp1) as -> by (eapply produces_fun; [exact Hl|apply hart1_produces]).
    apply (app_inv_tail (hart1_events hart_stacks sp1)). exact Ht.
  - exists l. symmetry. exact Ht.
  - intros Hr. unfold s in Hr. rewrite (Hd Hr) in Hl. inversion Hl; subst. now rewrite app_nil_r in Ht.
Qed.

(** The stacks [smp_boot.S] installs pass the checks of the report:
    wherever the linker puts [hart_stacks], both harts start inside their own
    slice and the slices are disjoint, so all three verdicts print 1. *)
Theorem boot_stacks_pass hart_stacks :
  0 <= hart_stacks -> hart_stacks + 2 * HART_STACK_SIZE < 2 ^ 64 ->
  disjoint_ok hart_stacks = 1 /\
  sp_ok hart_stacks 0 (boot_sp hart_stacks 0) = 1 /\ sp_ok hart_stacks 1 (boot_sp hart_stacks 1) = 1.
Proof.
  intros H0 H1. unfold HART_STACK_SIZE in H1.
  assert (Hu : forall z, 0 <= z < 18446744073709551616 -> u64 z = z) by (intros z Hz; apply u64_small, Hz).
  unfold disjoint_ok, sp_ok, boot_sp, stack_top, stack_base, HART_STACK_SIZE, b2z.
  change (u64 (u64 (0 + 1) * 4096)) with 4096. change (u64 (u64 (1 + 1) * 4096)) with 8192.
  repeat rewrite Hu by lia.
  split_and!; repeat match goal with |- context [?a <=? ?b] => destruct (Z.leb_spec a b) end;
    first [reflexivity | exfalso; lia].
Qed.

Lemma boot_stacks_pass_witness :
  disjoint_ok 0x80010000 = 1 /\
  sp_ok 0x80010000 0 (boot_sp 0x80010000 0) = 1 /\ sp_ok 0x80010000 1 (boot_sp 0x80010000 1) = 1.
Proof. refine (boot_stacks_pass 0x80010000 _ _); unfold HART_STACK_SIZE; lia. Defined.

(** A whole run: the harts alternate and the counter advances by 7 each
    action; both halt, and the report is on the line. *)
Definition alternate (n : nat) : list (bool * Z) :=
  map (fun i => (Nat.odd i, 7 * Z.of_nat i)) (seq 0 n).

Definition line_bytes (l : list event) : list Z :=
  omap (fun e => match e with EByte _ c => Some c | _ => None end) l.

Lemma alternate_run_done :
  let hs := 0x80010000 in
  let s := run (alternate 2400) (smp_start hs (boot_sp hs 0 - 32) (boot_sp hs 1 - 32)) in
  hart0 s = Halt /\ hart1 s = Halt /\ mem s hart1_done = 1 /\
  let out := line_bytes (trace s) in
  drop (length out - 126) out = crlf (lit
"stack slices disjoint (1=yes)=1\nhart0 sp in own slice (1=yes)=1\nhart1 sp in own slice (1=yes)=1\nsmp: both harts ran, done\n").
Proof. vm_compute. repeat split. Qed.
