(* ===== verification/SmpLive.v ===== *)
(** * Progress of the two-hart bring-up (src/smp/)

    Smp.v says what cannot happen under any schedule; here is what does
    happen under every fair one.  The spinlock gives no fairness of its own,
    but each hart takes it finitely often, so a schedule that runs both harts
    infinitely often brings both to their final [wfi]. *)

From Stdlib Require Import ZArith Lia String.
From stdpp Require Import base list.
From S2P Require Import Prelude Uart Smp.

(** ** Steps that advance a program *)

(** [child k c]: one action of [c] can leave [k]. *)
Inductive child : cmd -> cmd -> Prop :=
| ch_lock k : child k (Lock k)
| ch_unlock k : child k (Unlock k)
| ch_putc b k : child k (Putc b k)
| ch_store x v k : child k (Store x v k)
| ch_load x v k : child (k v) (Load x k)
| ch_rdcycle t k : child (k t) (Rdcycle k)
| ch_spin x k : child k (SpinFlag x k)
| ch_poll x d k : child k (PollFlag x d k).

Create HintDb live discriminated.
#[export] Hint Constructors child : live.

Lemma child_wf c : Acc child c.
Proof. induction c; constructor; intros c' Hc; inversion Hc; subst; auto. Qed.

Lemma child_irrefl c : ~ child c c.
Proof. intros Hc. induction (child_wf c) as [c _ IH]. exact (IH c Hc Hc). Qed.

(** An action either changes nothing or advances the program. *)
Lemma act_stutters_or_moves h t c lk m :
  act h t c lk m = (c, lk, m, []) \/ child (act h t c lk m).1.1.1 c.
Proof. destruct c; cbn; repeat case_match; subst; auto with live. Qed.

(** The next action of [c] advances it, whatever the counter reads. *)
Definition enabled (c : cmd) (lk : bool) (m : var -> Z) : Prop :=
  match c with
  | Halt => False
  | Lock _ => lk = false
  | SpinFlag x _ | PollFlag x _ _ => m x <> 0
  | _ => True
  end.

Lemma enabled_moves h t c lk m : enabled c lk m -> child (act h t c lk m).1.1.1 c.
Proof.
  destruct c as [| | | | | | |x k|x d k]; cbn; intros He; auto with live.
  - destruct He.
  - subst lk. auto with live.
  - apply Z.eqb_neq in He as ->. auto with live.
  - apply Z.eqb_neq in He as ->. auto with live.
Qed.

(** ** What the two programs wait for *)

(** Whatever [c] reads, it stores a nonzero [x] before it halts or waits for
    [x] or for the other hart's completion. *)
Fixpoint pending (x : var) (c : cmd) : Prop :=
  match c with
  | Halt | PollFlag _ _ _ => False
  | Store y v k => (y = x /\ v <> 0) \/ pending x k
  | Load _ k | Rdcycle k => forall v, pending x (k v)
  | SpinFlag y k => y <> x /\ pending x k
  | Lock k | Unlock k | Putc _ k => pending x k
  end.

(** Hart 0 polls [hart1_done], hart 1 spins on [smp_release], and that is
    all the waiting there is. *)
Fixpoint waits (h : bool) (c : cmd) : Prop :=
  match c with
  | Halt => True
  | SpinFlag x k => (h = true /\ x = smp_release) /\ waits h k
  | PollFlag x _ k => (h = false /\ x = hart1_done) /\ waits h k
  | Load _ k | Rdcycle k => forall v, waits h (k v)
  | Lock k | Unlock k | Putc _ k | Store _ _ k => waits h k
  end.

(** The flags are only ever raised. *)
Definition raises (x : var) (v : Z) (_ : cmd) : Prop := x = smp_release \/ x = hart1_done -> v <> 0.

Lemma pending_say x l k : pending x k -> pending x (say l k).
Proof. intros Hk. unfold say. now induction (crlf l). Qed.
Lemma pending_value x v b k : pending x k -> pending x (put_value v b k).
Proof. intros. unfold put_value. case_match; now apply pending_say. Qed.
Lemma waits_say h l k : waits h k -> waits h (say l k).
Proof. intros Hk. unfold say. now induction (crlf l). Qed.
Lemma waits_value h v b k : waits h k -> waits h (put_value v b k).
Proof. intros. unfold put_value. case_match; now apply waits_say. Qed.

(** Walks a program, node by node. *)
Ltac walk :=
  repeat first
  [ apply stores_say | apply stores_value | apply pending_say | apply pending_value
  | apply waits_say | apply waits_value
  | match goal with
    | |- _ /\ _ => split
    | |- forall _, _ => intros
    | |- _ _ (if ?b then _ else _) => destruct b
    | |- _ _ (put_value _ _ _) => fail 1
    | |- _ _ (say _ _) => fail 1
    | |- stores_only _ _ => progress (hnf) || exact I
    | |- waits _ _ => progress (hnf) || exact I
    end ].

Ltac programs :=
  unfold hart1_boot, hart1_main, smp_main, smp_finish, smp_report, locked_puts, locked_print_kv, locked_print_line2,
    spin_lock, spin_unlock; cbv zeta.

Lemma main_waits hs sp : waits false (smp_main hs sp).
Proof. programs. walk; auto. Qed.
Lemma hart1_waits hs sp : waits true (hart1_boot hs sp).
Proof. programs. walk; auto. Qed.
Lemma main_raises hs sp : stores_only raises (smp_main hs sp).
Proof. programs. walk; unfold raises; intuition congruence. Qed.
Lemma hart1_raises hs sp : stores_only raises (hart1_boot hs sp).
Proof. programs. walk; unfold raises; intuition congruence. Qed.

(** Walks to the store a program owes. *)
Ltac storing :=
  repeat first [apply pending_say | apply pending_value | left; split; [reflexivity|discriminate] | right | hnf; intros].

Lemma main_pending hs sp : pending smp_release (smp_main hs sp).
Proof. programs. storing. Qed.
Lemma hart1_pending hs sp : pending hart1_done (hart1_boot hs sp).
Proof. programs. cbn [pending]. split; [discriminate|]. storing. Qed.

(** ** The invariant of a run *)

Record live_inv (s : smp_state) : Prop := {
  lv_lock : exists o, lock_inv s o;
  lv_raises h : stores_only raises (hart s h);
  lv_waits h : waits h (hart s h);
  lv_release : mem s smp_release <> 0 \/ pending smp_release (hart s false);
  lv_done : mem s hart1_done <> 0 \/ pending hart1_done (hart s true);
}.

Lemma live_inv_start hs sp0 sp1 : live_inv (smp_start hs sp0 sp1).
Proof.
  constructor; cbn [mem smp_start].
  - exists None. apply lock_inv_start.
  - intros []; [apply hart1_raises|apply main_raises].
  - intros []; [apply hart1_waits|apply main_waits].
  - right. apply main_pending.
  - right. apply hart1_pending.
Qed.

Lemma waits_act h h' t c lk m : waits h c -> waits h (act h' t c lk m).1.1.1.
Proof. destruct c; cbn; intros Hc; repeat case_match; cbn; try tauto; apply Hc. Qed.

(** A raised flag stays raised. *)
Lemma raised_act h t c lk m x : x = smp_release \/ x = hart1_done -> stores_only raises c -> m x <> 0 ->
  (act h t c lk m).1.2 x <> 0.
Proof.
  intros Hx Hc Hm. destruct (act_mem h t c lk m x) as [->|(v & k & -> & _ & ->)]; [exact Hm|].
  destruct Hc as [Hc _]. exact (Hc Hx).
Qed.

(** A store that is owed stays owed until it is made. *)
Lemma pending_act h t c lk m x : pending x c ->
  (act h t c lk m).1.2 x <> 0 \/ pending x (act h t c lk m).1.1.1.
Proof.
  destruct c as [| | | |y v k| | | |]; cbn; intros Hc; repeat case_match; cbn; try tauto; try (right; apply Hc).
  destruct Hc as [[-> Hv]|Hc]; [|now right]. left. unfold vset. now rewrite bool_decide_eq_true_2.
Qed.

Lemma flag_step h h' t s x : x = smp_release \/ x = hart1_done -> stores_only raises (hart s h) ->
  mem s x <> 0 \/ pending x (hart s h') -> mem (step h t s) x <> 0 \/ pending x (hart (step h t s) h').
Proof.
  intros Hx Hr Hs. rewrite mem_step, hart_step. destruct Hs as [Hm|Hp]; [left; now apply raised_act|].
  case_bool_decide as E; [subst h'; now apply pending_act|now right].
Qed.

Lemma live_inv_step h t s : live_inv s -> live_inv (step h t s).
Proof.
  intros [[o Ho] Hr Hw H0 H1]. constructor.
  - exact (ex_intro _ _ (lock_inv_step h t s o Ho)).
  - intros h'. rewrite hart_step. case_bool_decide; [subst; apply stores_act|]; apply Hr.
  - intros h'. rewrite hart_step. case_bool_decide; [subst; apply waits_act|]; apply Hw.
  - apply flag_step; auto.
  - apply flag_step; auto.
Qed.

(** ** Deadlock freedom *)

Definition halted (s : smp_state) : Prop := hart0 s = Halt /\ hart1 s = Halt.

(** A program outside the lock that cannot move has halted or waits for a
    flag that is down. *)
Lemma blocked c m : disciplined false c -> ~ enabled c false m ->
  c = Halt \/ (exists x k, c = SpinFlag x k /\ m x = 0) \/ (exists x d k, c = PollFlag x d k /\ m x = 0).
Proof.
  destruct c as [| | | | | | |x k|x d k]; cbn; intros Hd He; try (now destruct He); auto; try (now destruct Hd).
  - right. left. exists x, k. split; [reflexivity|]. destruct (Z.eq_dec (m x) 0); tauto.
  - right. right. exists x, d, k. split; [reflexivity|]. destruct (Z.eq_dec (m x) 0); tauto.
Qed.

Lemma enabled_dec c lk m : enabled c lk m \/ ~ enabled c lk m.
Proof. destruct c as [| | | | | | |x k|x d k]; cbn; try tauto; [destruct lk|..]; try (destruct (Z.eq_dec (m x) 0)); intuition congruence. Qed.

Lemma live_inv_enabled s : live_inv s -> halted s \/ exists h, enabled (hart s h) (lock s) (mem s).
Proof.
  intros [[o [Hl _ Hp]] _ Hw H0 H1]. destruct o as [[h l]|]; rewrite Hl.
  { right. exists h. specialize (Hp h). rewrite bool_decide_eq_true_2 in Hp by reflexivity.
    destruct (hart s h); cbn in *; try exact I; try discriminate; now destruct Hp. }
  rewrite bool_decide_eq_false_2 by (intros [? ?]; discriminate).
  destruct (enabled_dec (hart s false) false (mem s)) as [E|E0]; [right; now exists false|].
  destruct (enabled_dec (hart s true) false (mem s)) as [E|E1]; [right; now exists true|].
  left. pose proof (Hp false : disciplined false (hart s false)) as Hp0.
  pose proof (Hp true : disciplined false (hart s true)) as Hp1. pose proof (Hw false) as W0. pose proof (Hw true) as W1.
  assert (mem s smp_release <> 0) as Hrel.
  { destruct H0 as [H0|H0]; [exact H0|].
    destruct (blocked _ _ Hp0 E0) as [E|[(x & k & E & _)|(x & d & k & E & _)]]; rewrite E in H0, W0; cbn in H0, W0; intuition congruence. }
  assert (hart s true = Halt) as Eh1.
  { destruct (blocked _ _ Hp1 E1) as [E|[(x & k & E & Hx)|(x & d & k & E & _)]]; [exact E|..]; rewrite E in W1; cbn in W1;
      [destruct W1 as [[_ ->] _]; contradiction|destruct W1 as [[? _] _]; discriminate]. }
  assert (mem s hart1_done <> 0) as Hdone by (destruct H1 as [H1|H1]; [exact H1|rewrite Eh1 in H1; destruct H1]).
  split; [|exact Eh1].
  destruct (blocked _ _ Hp0 E0) as [E|[(x & k & E & _)|(x & d & k & E & Hx)]]; [exact E|..]; rewrite E in W0; cbn in W0;
    [destruct W0 as [[? _] _]; discriminate|destruct W0 as [[_ ->] _]; contradiction].
Qed.

(** ** Fair schedules *)

(** Both harts run infinitely often. *)
Definition fair (sched : nat -> bool * Z) : Prop :=
  forall h n, exists m, (n <= m)%nat /\ (sched m).1 = h.

(** The first [k] actions from the [n]th on. *)
Definition run_from (sched : nat -> bool * Z) (n k : nat) (s : smp_state) : smp_state :=
  run (map sched (seq n k)) s.

Lemma run_from_S sched n k s :
  run_from sched n (S k) s = run_from sched (S n) k (step (sched n).1 (sched n).2 s).
Proof. unfold run_from. cbn [seq map]. destruct (sched n). apply run_cons. Qed.

Lemma stutter_step h t s : act h t (hart s h) (lock s) (mem s) = (hart s h, lock s, mem s, []) -> step h t s = s.
Proof. unfold step, hart. destruct s, h; cbn; intros ->; now rewrite app_nil_r. Qed.

(** What a part of a run from [s] to [s'] achieved. *)
Definition advanced (s s' : smp_state) : Prop :=
  live_inv s' /\ exists h, child (hart s' h) (hart s h) /\ hart s' (negb h) = hart s (negb h).

(** From a state where a hart is enabled, a fair schedule advances one. *)
Lemma fair_moves sched s h m n : live_inv s -> enabled (hart s h) (lock s) (mem s) ->
  (n <= m)%nat -> (sched m).1 = h -> exists k, advanced s (run_from sched n k s).
Proof.
  intros Hi He Hm Hh. remember (m - n)%nat as d eqn:Ed. revert n Hm Ed.
  induction d as [|d IH]; intros n Hm Ed; destruct (sched n) as [h' t] eqn:En;
    destruct (act_stutters_or_moves h' t (hart s h') (lock s) (mem s)) as [E|E].
  2, 4: exists 1%nat; rewrite run_from_S, En; split; [now apply live_inv_step|]; exists h'; cbn [fst snd];
    unfold run_from; cbn [seq map run fold_left];
    now rewrite !hart_step, bool_decide_eq_true_2, bool_decide_eq_false_2 by (now destruct h').
  - assert (n = m) as -> by lia. rewrite En in Hh. cbn in Hh. subst h'.
    pose proof (enabled_moves h t _ _ _ He) as Hc. rewrite E in Hc. destruct (child_irrefl _ Hc).
  - destruct (IH (S n)) as (k & Hk); [lia|lia|]. exists (S k). rewrite run_from_S, En. cbn [fst snd].
    now rewrite (stutter_step _ _ _ E).
Qed.

Lemma run_from_app sched n k k' s : run_from sched n (k + k') s = run_from sched (n + k) k' (run_from sched n k s).
Proof. unfold run_from. rewrite seq_app, map_app. unfold run. apply fold_left_app. Qed.

Lemma fair_halts sched : fair sched -> forall c0 c1 s n, live_inv s -> hart s false = c0 -> hart s true = c1 ->
  exists k, halted (run_from sched n k s) /\ live_inv (run_from sched n k s).
Proof.
  intros Hf c0. induction (child_wf c0) as [c0 _ IH0]. intros c1. induction (child_wf c1) as [c1 _ IH1].
  intros s n Hi E0 E1. destruct (live_inv_enabled s Hi) as [Hh|[h He]]; [now exists 0%nat|].
  destruct (Hf h n) as (m & Hm & Hs). destruct (fair_moves sched s h m n Hi He Hm Hs) as (k & Hi' & h' & Hc & Ho).
  assert (exists k', halted (run_from sched (n + k) k' (run_from sched n k s)) /\
    live_inv (run_from sched (n + k) k' (run_from sched n k s))) as (k' & Hk').
  - destruct h'; cbn [negb] in Ho.
    + eapply IH1; [rewrite <-E1; exact Hc|exact Hi'|now rewrite Ho|reflexivity].
    + eapply IH0; [rewrite <-E0; exact Hc|exact Hi'|reflexivity..].
  - exists (k + k')%nat. now rewrite run_from_app.
Qed.

Lemma halted_stays sched n k s : halted s -> run_from sched n k s = s.
Proof.
  intros [E0 E1]. revert n. induction k as [|k IH]; intros n; [reflexivity|]. rewrite run_from_S, stutter_step; [apply IH|].
  unfold hart. destruct (sched n).1; rewrite ?E0, ?E1; reflexivity.
Qed.

(** C5: Both harts finish.  Under every schedule that lets both harts run
    infinitely often, whatever the cycle counter reads, there is a point from
    which on both harts sit in their final [wfi], the lock is free, [hart1_done]
    is raised and the four lines of hart 1 are on the UART line. *)
Theorem smp_both_finish hart_stacks sp0 sp1 sched : fair sched ->
  exists n, forall k, (n <= k)%nat ->
    let s := run_from sched 0 k (smp_start hart_stacks sp0 sp1) in
    hart0 s = Halt /\ hart1 s = Halt /\ lock s = false /\ mem s hart1_done <> 0 /\
    filter (fun e => owner e = true) (trace s) = hart1_events hart_stacks sp1.
Proof.
  intros Hf. destruct (fair_halts sched Hf _ _ _ 0%nat (live_inv_start hart_stacks sp0 sp1) eq_refl eq_refl) as (n & Hh & Hi).
  exists n. intros k Hk s. subst s. replace k with (n + (k - n))%nat by lia.
  rewrite run_from_app, halted_stays by exact Hh. destruct Hh as [E0 E1]. split; [exact E0|]. split; [exact E1|].
  destruct Hi as [[o [Hl _ Hp]] _ _ _ Hd].
  assert (mem (run_from sched 0 n (smp_start hart_stacks sp0 sp1)) hart1_done <> 0) as Hdone
    by (destruct Hd as [Hd|Hd]; [exact Hd|cbn [hart] in Hd; rewrite E1 in Hd; destruct Hd]).
  split; [|split; [exact Hdone|]].
  - rewrite Hl. destruct o as [[h l]|]; [|reflexivity]. specialize (Hp h). rewrite bool_decide_eq_true_2 in Hp by reflexivity.
    destruct h; cbn [hart] in Hp; rewrite ?E0, ?E1 in Hp; discriminate.
  - destruct (hart1_inv_run _ _ _ (map sched (seq 0 n)) _ (hart1_inv_start hart_stacks sp0 sp1)) as [_ _ [l [Hpr Ht]] _ Hdn].
    rewrite (Hdn Hdone) in Hpr. inversion Hpr; subst. now rewrite app_nil_r in Ht.
Qed.

(** The harts taking turns, the counter advancing by 7. *)
Definition turns (i : nat) : bool * Z := (Nat.odd i, 7 * Z.of_nat i).

Lemma smp_both_finish_witness :
  fair turns /\
  exists n, forall k, (n <= k)%nat ->
    let s := run_from turns 0 k (smp_start 0x80010000 0x80010fe0 0x80011fe0) in
    hart0 s = Halt /\ hart1 s = Halt /\ lock s = false /\ mem s hart1_done <> 0 /\
    filter (fun e => owner e = true) (trace s) = hart1_events 0x80010000 0x80011fe0.
Proof.
  assert (fair turns) as Hf.
  { intros h n. exists (2 * n + Nat.b2n h)%nat. split; [destruct h; cbn [Nat.b2n]; lia|].
    unfold turns. cbn [fst]. destruct h; cbn [Nat.b2n]; [apply Nat.odd_odd|rewrite Nat.add_0_r; apply Nat.odd_even]. }
  split; [exact Hf|]. apply (smp_both_finish 0x80010000 0x80010fe0 0x80011fe0 turns Hf).
Defined.
