(* ===== verification/View.v ===== *)
(** * Programs on hardware known through a view

    The test programs of [Pmp*.v] and [Sv39.v] run on a hart of which only an
    architectural view is known: [view h] is what the privileged
    specification defines of the state [h].  [vruns m v g a l v' g']: from any
    hardware with view [v] and globals [g] the program [m] returns [a], having
    sent the text [l] and left hardware with view [v'] and globals [g'];
    [vhalts] is the same for a program that parks.  [vstep] runs a program by
    the rules below and those in the hint database [vruns]. *)

From Stdlib Require Import ZArith Lia String.
From stdpp Require Import base list.
From S2P Require Import Prelude Uart Hart Run.

Section View.
Context {U H G V : Type} `{!UartDev U, !UartSpec U} (view : H -> V).
Abbreviation W := (world U H G).

Definition vruns {A} (m : prog W A) (v : V) (g : G) (a : A) (l : list Z) (v' : V) (g' : G) : Prop :=
  forall u h, view h = v ->
  exists h', m (World u h g) = Ret a (World (emits l u) h' g') /\ view h' = v'.
Definition vhalts {A} (m : prog W A) (v : V) (g : G) (l : list Z) (v' : V) (g' : G) : Prop :=
  forall u h, view h = v ->
  exists h', m (World u h g) = Park (World (emits l u) h' g') /\ view h' = v'.

Lemma vruns_ret {A} (a : A) v g : vruns (ret a) v g a [] v g.
Proof. intros u h Hv. now exists h. Qed.

Lemma vruns_bind {A B} (m : prog W A) (k : A -> prog W B) v g a l1 v1 g1 b l2 v2 g2 :
  vruns m v g a l1 v1 g1 -> vruns (k a) v1 g1 b l2 v2 g2 -> vruns (bind m k) v g b (l1 ++ l2) v2 g2.
Proof.
  intros Hm Hk u h Hv. destruct (Hm u h Hv) as (h1 & E & Hv1).
  destruct (Hk (emits l1 u) h1 Hv1) as (h2 & E2 & Hv2).
  exists h2. split; [|exact Hv2]. rewrite (bind_ret_eq _ _ _ _ _ E), E2. now rewrite emits_app.
Qed.

Lemma vhalts_bind {A B} (m : prog W A) (k : A -> prog W B) v g a l1 v1 g1 l2 v2 g2 :
  vruns m v g a l1 v1 g1 -> vhalts (k a) v1 g1 l2 v2 g2 -> vhalts (bind m k) v g (l1 ++ l2) v2 g2.
Proof.
  intros Hm Hk u h Hv. destruct (Hm u h Hv) as (h1 & E & Hv1).
  destruct (Hk (emits l1 u) h1 Hv1) as (h2 & E2 & Hv2).
  exists h2. split; [|exact Hv2]. rewrite (bind_ret_eq _ _ _ _ _ E), E2. now rewrite emits_app.
Qed.

(** The same when the first statement is silent. *)
Lemma vruns_bind0 {A B} (m : prog W A) (k : A -> prog W B) v g a v1 g1 b l2 v2 g2 :
  vruns m v g a [] v1 g1 -> vruns (k a) v1 g1 b l2 v2 g2 -> vruns (bind m k) v g b l2 v2 g2.
Proof. apply (vruns_bind m k v g a []). Qed.
Lemma vhalts_bind0 {A B} (m : prog W A) (k : A -> prog W B) v g a v1 g1 l2 v2 g2 :
  vruns m v g a [] v1 g1 -> vhalts (k a) v1 g1 l2 v2 g2 -> vhalts (bind m k) v g l2 v2 g2.
Proof. apply (vhalts_bind m k v g a []). Qed.

Lemma vhalts_park {A} v g : vhalts (A:=A) park v g [] v g.
Proof. intros u h Hv. now exists h. Qed.

Lemma vruns_prints m l v g : prints m l -> vruns m v g tt l v g.
Proof. intros Hm u h Hv. exists h. now rewrite Hm. Qed.

Lemma vruns_gget {A} (f : G -> A) v g : vruns (gget f) v g (f g) [] v g.
Proof. intros u h Hv. now exists h. Qed.
Lemma vruns_gset (f : G -> G) v g g' : f g = g' -> vruns (gset_ f) v g tt [] v g'.
Proof. intros <- u h Hv. now exists h. Qed.

Lemma vruns_arr_get l i x v g : l !! i = Some x -> vruns (arr_get l i) v g x [] v g.
Proof. intros E u h Hv. exists h. unfold arr_get. now rewrite E. Qed.

Lemma vruns_when (b : bool) m v g l v' g' :
  vruns m v g tt l v' g' -> b = true -> vruns (when b m) v g tt l v' g'.
Proof. now intros ? ->. Qed.
Lemma vruns_unless (b : bool) m v g : b = false -> vruns (when b m) v g tt [] v g.
Proof. intros -> u h Hv. now exists h. Qed.

(** A silent loop whose body acts on the view as [st] and on the globals as
    [gs]. *)
Lemma vruns_for {A} (l : list A) (f : A -> prog W unit) (st : A -> V -> V) (I : list A -> V -> Prop) v g :
  (forall x l' v, I (x :: l') v -> vruns (f x) v g tt [] (st x v) g /\ I l' (st x v)) ->
  I l v -> vruns (for_each l f) v g tt [] (fold_left (fun v x => st x v) l v) g.
Proof.
  intros Hf. revert v. induction l as [|x l IH]; intros v Hi; [apply vruns_ret|].
  destruct (Hf _ _ _ Hi) as [Hx Hi']. cbn [for_each fold_left].
  eapply vruns_bind0; [exact Hx|]. now apply IH.
Qed.

(** A silent loop that changes nothing. *)
Lemma vruns_for_id {A} (l : list A) (f : A -> prog W unit) v g :
  (forall x, x ∈ l -> vruns (f x) v g tt [] v g) -> vruns (for_each l f) v g tt [] v g.
Proof.
  induction l as [|x l IH]; intros Hf; [apply vruns_ret|]. cbn [for_each].
  eapply vruns_bind0; [apply Hf; left|]. apply IH. intros y Hy. apply Hf. now right.
Qed.

(** Change the stated result to an equal one. *)
Lemma vruns_conv {A} (m : prog W A) v g a l v' g' a2 l2 v2 g2 :
  vruns m v g a l v' g' -> a = a2 -> l = l2 -> v' = v2 -> g' = g2 -> vruns m v g a2 l2 v2 g2.
Proof. now intros ? -> -> -> ->. Qed.

Lemma vhalts_conv {A} (m : prog W A) v g l v' g' l2 :
  vhalts m v g l v' g' -> l = l2 -> vhalts m v g l2 v' g'.
Proof. now intros ? ->. Qed.

(** [m] runs up to the program [k] that it ends in. *)
Definition vleads {A} (m k : prog W A) (v : V) (g : G) (l : list Z) (v' : V) (g' : G) : Prop :=
  forall u h, view h = v ->
  exists h', m (World u h g) = k (World (emits l u) h' g') /\ view h' = v'.

Lemma vleads_refl {A} (m : prog W A) v g : vleads m m v g [] v g.
Proof. intros u h Hv. now exists h. Qed.

Lemma vleads_bind {A B} (m : prog W A) (k : A -> prog W B) p v g a l1 v1 g1 l2 v2 g2 :
  vruns m v g a l1 v1 g1 -> vleads (k a) p v1 g1 l2 v2 g2 -> vleads (bind m k) p v g (l1 ++ l2) v2 g2.
Proof.
  intros Hm Hk u h Hv. destruct (Hm u h Hv) as (h1 & E & Hv1).
  destruct (Hk (emits l1 u) h1 Hv1) as (h2 & E2 & Hv2).
  exists h2. split; [|exact Hv2]. rewrite (bind_ret_eq _ _ _ _ _ E), E2. now rewrite emits_app.
Qed.
Lemma vleads_bind0 {A B} (m : prog W A) (k : A -> prog W B) p v g a v1 g1 l2 v2 g2 :
  vruns m v g a [] v1 g1 -> vleads (k a) p v1 g1 l2 v2 g2 -> vleads (bind m k) p v g l2 v2 g2.
Proof. apply (vleads_bind m k p v g a []). Qed.
Lemma vleads_trans {A} (m k p : prog W A) v g l1 v1 g1 l2 v2 g2 :
  vleads m k v g l1 v1 g1 -> vleads k p v1 g1 l2 v2 g2 -> vleads m p v g (l1 ++ l2) v2 g2.
Proof.
  intros Hm Hk u h Hv. destruct (Hm u h Hv) as (h1 & E & Hv1). destruct (Hk (emits l1 u) h1 Hv1) as (h2 & E2 & Hv2).
  exists h2. split; [|exact Hv2]. now rewrite E, E2, emits_app.
Qed.
Lemma vleads_conv {A} (m k : prog W A) v g l v' g' l2 v2 g2 :
  vleads m k v g l v' g' -> l = l2 -> v' = v2 -> g' = g2 -> vleads m k v g l2 v2 g2.
Proof. now intros ? -> -> ->. Qed.

(** A [main] that sets the UART up and parks. *)
Definition vmain_sends (m : prog W unit) (v : V) (g : G) (l : list Z) (Q : V -> G -> Prop) : Prop :=
  forall u h, view h = v -> exists u' h' g', m (World u h g) = Park (World u' h' g') /\
    tx u' = tx u ++ crlf l /\ rx u' = rx u /\ Q (view h') g'.

Lemma vmain_sends_intro (m : prog W unit) v g l (Q : V -> G -> Prop) :
  (exists l' v' g', vhalts m v g l' v' g' /\ l' = l /\ Q v' g') ->
  Forall (fun c => 0 <= c < 256) l -> vmain_sends (uart_init ;; m) v g l Q.
Proof.
  intros (l' & v' & g' & Hm & -> & HQ) Hl u h Hv.
  destruct (Hm (inited u) h Hv) as (h' & E & Hv').
  exists (emits l (inited u)), h', g'. rewrite (bind_ret_eq _ _ _ _ _ (uart_init_eq _)).
  split; [exact E|]. rewrite emits_tx by exact Hl. rewrite emits_rx, inited_tx, inited_rx, Hv'.
  auto.
Qed.
End View.

Create HintDb vruns discriminated.

Ltac vprim :=
  lazymatch goal with
  | |- vruns _ (ret _) _ _ _ _ _ _ => apply vruns_ret
  | |- vruns _ (gget _) _ _ _ _ _ _ => apply vruns_gget
  | |- vruns _ (gset_ _) _ _ _ _ _ _ => apply vruns_gset; reflexivity
  | |- vruns _ (uputs _) _ _ _ _ _ _ => apply vruns_prints; apply prints_lit; reflexivity
  | |- vruns _ (uart_put_dec _) _ _ _ _ _ _ => apply vruns_prints; apply prints_dec; u64_side
  | |- vruns _ (uart_put_hex _) _ _ _ _ _ _ => apply vruns_prints; apply prints_hex; u64_side
  | |- vruns _ (uart_putc _) _ _ _ _ _ _ => apply vruns_prints; apply prints_putc
  | |- vruns _ _ _ _ _ _ _ _ =>
      first [ solve [eauto with vruns nocore]
            | apply vruns_prints; solve [eauto with prints nocore] ]
  end.

Ltac vquiet m :=
  lazymatch m with ret _ => idtac | gget _ => idtac | gset_ _ => idtac end.

Ltac vstep :=
  lazymatch goal with
  | |- vruns _ (bind ?m _) _ _ _ _ _ _ =>
      first [ vquiet m; eapply vruns_bind0; [vprim|cbn beta]
            | eapply vruns_bind; [vprim|cbn beta] ]
  | |- vhalts _ (bind ?m _) _ _ _ _ _ =>
      first [ vquiet m; eapply vhalts_bind0; [vprim|cbn beta]
            | eapply vhalts_bind; [vprim|cbn beta] ]
  | |- vhalts _ park _ _ _ _ _ => apply vhalts_park
  | |- vruns _ _ _ _ _ _ _ _ => vprim
  end.
Ltac vrun := repeat vstep.
