(* ===== verification/Pmp.v ===== *)
(** * Physical memory protection

    What the privileged specification says of PMP on RV64 for M-mode accesses
    ([pmp_allows], [write_cfg], [write_addr]), the law class [PmpSpec] of a
    hart that implements it, and the pieces the PMP test programs share: the
    failure counter, the faulting-access probe and its trap stub
    (src/pmp/pmp_trap.S), the RAM controls. *)

From Stdlib Require Import ZArith Lia String.
From stdpp Require Import base list.
From S2P Require Import Prelude Uart Hart Run View.

(** ** The architecture *)

(** Fields of a configuration byte. *)
Definition cfg_A (c : Z) : Z := Z.land (Z.shiftr c 3) 3.
Definition cfg_L (c : Z) : bool := Z.testbit c 7.
Definition cfg_R (c : Z) : bool := Z.testbit c 0.
Definition cfg_W (c : Z) : bool := Z.testbit c 1.

Inductive access : Type := ALoad | AStore.
Definition permits (c : Z) (k : access) : bool :=
  match k with ALoad => cfg_R c | AStore => cfg_W c end.

(** The bytes an entry covers: a configuration byte and address register,
    and the address register of the entry before. *)
Definition pmp_range (prev c a : Z) : Z * Z :=
  if cfg_A c =? 1 then (Z.shiftl prev 2, Z.shiftl a 2)
  else if cfg_A c =? 2 then (Z.shiftl a 2, Z.shiftl a 2 + 4)
  else if cfg_A c =? 3 then
    let ones := Z.lxor a (a + 1) in                      (* 2^(t+1)-1, t trailing ones *)
    let base := Z.shiftl (Z.land a (Z.lnot ones)) 2 in
    (base, base + Z.shiftl (ones + 1) 2)
  else (0, 0).

(** The lowest-numbered entry that matches any byte of the access decides;
    it must match all of them.  Unlocked entries do not bind M-mode, and an
    access that matches no entry succeeds in M-mode. *)
Fixpoint pmp_allows (prev : Z) (es : list (Z * Z)) (k : access) (x n : Z) : bool :=
  match es with
  | [] => true
  | (c, a) :: es' =>
      let '(lo, hi) := pmp_range prev c a in
      if (x <? hi) && (lo <? x + n) then
        (lo <=? x) && (x + n <=? hi) && (negb (cfg_L c) || permits c k)
      else pmp_allows a es' k x n
  end.

(** A write of [pmpcfg0] sets the bytes of the unlocked entries, as far as
    they are legal ([warl]); a write of an address register is ignored when
    its entry is locked or is the bottom of a locked TOR entry. *)
Definition cfg_byte (v : Z) (i : nat) : Z := Z.land (Z.shiftr v (8 * Z.of_nat i)) 0xff.
Definition write_cfg (warl : Z -> Z) (v : Z) (es : list (Z * Z)) : list (Z * Z) :=
  imap (fun i '(c, a) => (if cfg_L c then c else warl (cfg_byte v i), a)) es.
Definition addr_pinned (i : nat) (es : list (Z * Z)) : bool :=
  match es !! i with
  | Some (c, _) => cfg_L c ||
      match es !! S i with Some (c', _) => cfg_L c' && (cfg_A c' =? 1) | None => false end
  | None => true
  end.
Definition write_addr (i : nat) (v : Z) (es : list (Z * Z)) : list (Z * Z) :=
  if addr_pinned i es then es else alter (fun '(c, _) => (c, v mod 2 ^ 54)) i es.
Definition read_cfg (es : list (Z * Z)) : Z :=
  fold_right (fun '(c, _) r => Z.lor c (Z.shiftl r 8)) 0 es.
Definition read_addr (i : nat) (es : list (Z * Z)) : Z :=
  match es !! i with Some (_, a) => a | None => 0 end.

(** ** Memory: little-endian accesses to a byte array *)

Definition upd (m : Z -> Z) (a v : Z) : Z -> Z := fun x => if x =? a then v else m x.

Fixpoint ld_bytes (n : nat) (a : Z) (m : Z -> Z) : Z :=
  match n with O => 0 | S n' => m a + 256 * ld_bytes n' (a + 1) m end.
Fixpoint st_bytes (n : nat) (a v : Z) (m : Z -> Z) : Z -> Z :=
  match n with O => m | S n' => st_bytes n' (a + 1) (v / 256) (upd m a (v mod 256)) end.

Lemma st_bytes_other n a v m x : ~ (a <= x < a + Z.of_nat n) -> st_bytes n a v m x = m x.
Proof.
  revert a v m. induction n as [|n IH]; intros a v m Hx; [reflexivity|]. cbn [st_bytes].
  rewrite IH by lia. unfold upd. destruct (Z.eqb_spec x a); [lia|reflexivity].
Qed.

Lemma ld_bytes_ext n a m m' : (forall x, a <= x < a + Z.of_nat n -> m x = m' x) ->
  ld_bytes n a m = ld_bytes n a m'.
Proof.
  revert a. induction n as [|n IH]; intros a He; [reflexivity|]. cbn [ld_bytes].
  rewrite (He a) by lia. f_equal. f_equal. apply IH. intros x Hx. apply He. lia.
Qed.

Lemma ld_st_same n a v m : 0 <= v < 256 ^ Z.of_nat n -> ld_bytes n a (st_bytes n a v m) = v.
Proof.
  revert a v m. induction n as [|n IH]; intros a v m Hv; [cbn in *; lia|].
  rewrite Nat2Z.inj_succ, Z.pow_succ_r in Hv by lia. cbn [ld_bytes st_bytes].
  rewrite st_bytes_other by lia. rewrite IH.
  - unfold upd. rewrite Z.eqb_refl. pose proof (Z.div_mod v 256). lia.
  - split; [apply Z.div_pos; lia|]. apply Z.div_lt_upper_bound; lia.
Qed.

Lemma ld_st_other n n' a a' v m :
  a + Z.of_nat n <= a' \/ a' + Z.of_nat n' <= a ->
  ld_bytes n a (st_bytes n' a' v m) = ld_bytes n a m.
Proof. intros Hd. apply ld_bytes_ext. intros x Hx. apply st_bytes_other. lia. Qed.

(** A word in a register: [lw] and the like sign-extend. *)
Definition sext32 (x : Z) : Z := if x <? 2 ^ 31 then x else x + (2 ^ 64 - 2 ^ 32).

Lemma sext32_small x : 0 <= x < 2 ^ 31 -> sext32 x = x.
Proof. intros Hx. unfold sext32. destruct (Z.ltb_spec x (2 ^ 31)); [reflexivity|lia]. Qed.

(** ** NAPOT decodes to the region it was encoded from *)

Lemma lor_disjoint_add q t x : 0 <= t -> 0 <= x < 2 ^ t -> Z.lor (q * 2 ^ t) x = q * 2 ^ t + x.
Proof.
  intros Ht Hx. symmetry. apply Z.add_nocarry_lor. apply Z.bits_inj'. intros i Hi.
  rewrite Z.land_spec, Z.bits_0. destruct (Z.lt_ge_cases i t).
  - now rewrite Z.mul_pow2_bits_low.
  - destruct (Z.eq_dec x 0) as [->|]; [now rewrite Z.bits_0, andb_false_r|].
    rewrite (Z.bits_above_log2 x i), andb_false_r; [reflexivity|lia|]. apply Z.log2_lt_pow2; [lia|].
    pose proof (Z.pow_le_mono_r 2 t i). lia.
Qed.

Lemma pow2_pred t : 2 ^ t - 1 = Z.ones t.
Proof. rewrite Z.ones_equiv. lia. Qed.

Lemma napot_ones q t : 0 <= t ->
  let a := Z.lor (q * 2 ^ (t + 1)) (2 ^ t - 1) in Z.lxor a (a + 1) = 2 ^ (t + 1) - 1.
Proof.
  intros Ht a. pose proof (Z.pow_pos_nonneg 2 t ltac:(lia) Ht).
  assert (2 ^ (t + 1) = 2 * 2 ^ t) as E2 by (rewrite Z.pow_add_r by lia; lia).
  assert (a + 1 = Z.lor (q * 2 ^ (t + 1)) (2 ^ t)) as ->.
  { unfold a. rewrite !lor_disjoint_add by lia. lia. }
  unfold a. clear a. rewrite !pow2_pred.
  apply Z.bits_inj'. intros i Hi.
  rewrite Z.lxor_spec, !Z.lor_spec, Z.pow2_bits_eqb, !Z.testbit_ones_nonneg by lia.
  destruct (Z.lt_ge_cases i (t + 1)) as [Hlt|Hge].
  - rewrite Z.mul_pow2_bits_low by lia. destruct (Z.ltb_spec i t), (Z.eqb_spec t i), (Z.ltb_spec i (t + 1));
      reflexivity || lia.
  - destruct (Z.ltb_spec i t), (Z.eqb_spec t i), (Z.ltb_spec i (t + 1)); try lia.
    now destruct (Z.testbit _ i).
Qed.

(** [(base >> 2) | ((size >> 3) - 1)] covers exactly [base, base + size). *)
Lemma napot_range prev c base t : 0 <= t -> cfg_A c = 3 -> base mod 2 ^ (t + 3) = 0 ->
  pmp_range prev c (Z.lor (Z.shiftr base 2) (2 ^ t - 1)) = (base, base + 2 ^ (t + 3)).
Proof.
  intros Ht Hc Hb. unfold pmp_range. rewrite Hc. cbn [Z.eqb Pos.eqb].
  pose proof (Z.div_mod base (2 ^ (t + 3)) ltac:(lia)) as Hq. rewrite Hb in Hq.
  set (q := base / 2 ^ (t + 3)) in *. clearbody q.
  pose proof (Z.pow_pos_nonneg 2 t ltac:(lia) Ht).
  assert (2 ^ (t + 3) = 2 ^ (t + 1) * 4) as E3 by (rewrite !Z.pow_add_r by lia; lia).
  assert (Z.shiftr base 2 = q * 2 ^ (t + 1)) as ->.
  { rewrite Z.shiftr_div_pow2 by lia. change (2 ^ 2) with 4. subst base. rewrite E3.
    replace (2 ^ (t + 1) * 4 * q + 0) with (q * 2 ^ (t + 1) * 4) by lia. now apply Z.div_mul. }
  pose proof (napot_ones q t Ht) as Ho. cbn zeta in Ho. rewrite Ho.
  replace (2 ^ (t + 1) - 1 + 1) with (2 ^ (t + 1)) by lia.
  rewrite <-Z.ldiff_land. rewrite (pow2_pred (t + 1)), Z.ldiff_ones_r by lia.
  assert (Z.shiftr (Z.lor (q * 2 ^ (t + 1)) (2 ^ t - 1)) (t + 1) = q) as ->.
  { assert (2 ^ (t + 1) = 2 * 2 ^ t) by (rewrite Z.pow_add_r by lia; lia).
    rewrite lor_disjoint_add, Z.shiftr_div_pow2 by lia.
    rewrite Z.add_comm, Z.div_add by lia. rewrite Z.div_small by lia. lia. }
  rewrite !Z.shiftl_mul_pow2 by lia. change (2 ^ 2) with 4. f_equal; lia.
Qed.

Lemma odd_part n : 0 < n -> exists t q, 0 <= t /\ 0 <= q /\ n = 2 ^ t * (2 * q + 1).
Proof.
  intros Hn. refine (Zlt_0_ind (fun n => 0 < n -> exists t q, 0 <= t /\ 0 <= q /\ n = 2 ^ t * (2 * q + 1))
    _ n (Z.lt_le_incl _ _ Hn) Hn). clear n Hn. intros n IH _ Hn. destruct (Z.Even_or_Odd n) as [[k Hk]|[k Hk]].
  - destruct (IH k ltac:(lia) ltac:(lia)) as (t & q & Ht & Hq & Hkq).
    exists (t + 1), q. rewrite Z.pow_add_r by lia. split_and!; lia.
  - exists 0, k. change (2 ^ 0) with 1. split_and!; lia.
Qed.

(** Every NAPOT region is a power of two of at least 8 bytes, aligned. *)
Lemma napot_any prev c a : 0 <= a -> cfg_A c = 3 ->
  exists q p, 0 <= q /\ 0 < p /\ pmp_range prev c a = (8 * (q * p), 8 * (q * p) + 8 * p).
Proof.
  intros Ha Hc. destruct (odd_part (a + 1) ltac:(lia)) as (t & q & Ht & Hq & E).
  exists q, (2 ^ t). split; [exact Hq|]. split; [apply Z.pow_pos_nonneg; lia|].
  assert (2 ^ (t + 1) = 2 * 2 ^ t) as E1 by (rewrite Z.pow_add_r by lia; lia).
  assert (2 ^ (t + 3) = 8 * 2 ^ t) as E3 by (rewrite Z.pow_add_r by lia; lia).
  pose proof (Z.pow_pos_nonneg 2 t ltac:(lia) Ht).
  rewrite <-E3, <-(napot_range prev c (8 * (q * 2 ^ t)) t Ht Hc).
  2: { rewrite E3. replace (8 * (q * 2 ^ t)) with (q * (8 * 2 ^ t)) by lia. apply Z.mod_mul. lia. }
  f_equal. rewrite Z.shiftr_div_pow2 by lia. change (2 ^ 2) with 4.
  replace (8 * (q * 2 ^ t)) with (q * 2 ^ (t + 1) * 4) by lia. rewrite Z.div_mul by lia.
  rewrite lor_disjoint_add by lia. lia.
Qed.

(** An unlocked or permissive NAPOT entry never refuses an aligned
    doubleword. *)
Lemma napot_permits prev c a es k x :
  0 <= a -> cfg_A c = 3 -> negb (cfg_L c) || permits c k = true -> x mod 8 = 0 ->
  pmp_allows a es k x 8 = true -> pmp_allows prev ((c, a) :: es) k x 8 = true.
Proof.
  intros Ha Hc Hp Hx He. cbn [pmp_allows].
  destruct (napot_any prev c a Ha Hc) as (q & p & Hq & Hp0 & ->). rewrite Hp, andb_true_r.
  pose proof (Z.div_mod x 8 ltac:(lia)) as Hd. rewrite Hx in Hd.
  destruct (Z.ltb_spec x (8 * (q * p) + 8 * p)), (Z.ltb_spec (8 * (q * p)) (x + 8)); cbn [andb]; try exact He.
  destruct (Z.leb_spec (8 * (q * p)) x), (Z.leb_spec (x + 8) (8 * (q * p) + 8 * p)); try reflexivity; lia.
Qed.

(** Reading the configuration bytes back. *)
Lemma read_cfg_cons c a es : 0 <= c < 256 -> read_cfg ((c, a) :: es) = c + 256 * read_cfg es.
Proof.
  intros Hc. change (read_cfg ((c, a) :: es)) with (Z.lor c (Z.shiftl (read_cfg es) 8)).
  rewrite Z.lor_comm, Z.shiftl_mul_pow2, lor_disjoint_add by lia. lia.
Qed.

Lemma read_cfg_range es : Forall (fun e => 0 <= e.1 < 256) es ->
  0 <= read_cfg es < 256 ^ Z.of_nat (length es).
Proof.
  induction 1 as [|[c a] es Hc He IH]; [cbn; lia|]. rewrite read_cfg_cons by exact Hc.
  cbn [length fst] in *. rewrite Nat2Z.inj_succ, Z.pow_succ_r by lia. lia.
Qed.

Lemma read_cfg_entry c a es : 0 <= c < 256 -> Z.land (read_cfg ((c, a) :: es)) 0xFF = c.
Proof.
  intros Hc. rewrite read_cfg_cons by exact Hc. change 0xFF with (Z.ones 8).
  rewrite Z.land_ones by lia. change (2 ^ 8) with 256.
  rewrite Z.mul_comm, Z.mod_add by lia. now apply Z.mod_small.
Qed.

Lemma read_cfg_tail c a es : 0 <= c < 256 -> Z.shiftr (read_cfg ((c, a) :: es)) 8 = read_cfg es.
Proof.
  intros Hc. rewrite read_cfg_cons, Z.shiftr_div_pow2 by lia. change (2 ^ 8) with 256.
  rewrite Z.mul_comm, Z.div_add by lia. rewrite Z.div_small by exact Hc. lia.
Qed.

(** Drops the [u64]s around small numbers, innermost first. *)
Ltac u64_norm :=
  repeat match goal with
  | |- context [u64 ?x] =>
      lazymatch x with
      | context [u64 _] => fail
      | _ => rewrite (u64_small x) by (unfold is_u64; lia)
      end
  end.

(** ** A hart with PMP *)

(** Loads and stores of [n] bytes by M-mode software; [None] is an access
    fault, which changes nothing. *)
Class PmpDev (H : Type) `{!HartDev H} : Type := {
  p_ld : nat -> Z -> H -> option Z;
  p_st : nat -> Z -> Z -> H -> option H;
  p_trap : Z -> H -> H;        (* taking a trap from the given mode to M-mode *)
  p_mret : H -> H;
}.

(** The architectural view: the first eight PMP entries, memory, the hart
    id and [mstatus].  (Entries 8 and up are taken to be off.) *)
Record pview : Type := PView {
  pv_es : list (Z * Z);
  pv_mem : Z -> Z;
  pv_hartid : Z;
  pv_mstatus : Z;
}.

Definition pv_set_es (es : list (Z * Z)) (v : pview) : pview := PView es (pv_mem v) (pv_hartid v) (pv_mstatus v).
Definition pv_set_mem (m : Z -> Z) (v : pview) : pview := PView (pv_es v) m (pv_hartid v) (pv_mstatus v).
Definition pv_set_mstatus (x : Z) (v : pview) : pview := PView (pv_es v) (pv_mem v) (pv_hartid v) x.

(** The fields of [mstatus] a trap and [mret] work on. *)
Definition MST_MIE : Z := Z.shiftl 1 3.
Definition MST_MPIE : Z := Z.shiftl 1 7.
Definition MST_MPP : Z := Z.shiftl 3 11.
Definition MST_MPRV : Z := Z.shiftl 1 17.
Definition mpp_of (x : Z) : Z := Z.land (Z.shiftr x 11) 3.
Definition bits_off (mask x : Z) : Z := Z.land x (u64 (Z.lnot mask)).

(** A trap from mode [from] to M-mode; an [mret], which leaves in MPP the
    least-privileged mode [low] the hart has. *)
Definition trap_status (from x : Z) : Z :=
  Z.lor (bits_off (Z.lor MST_MPP (Z.lor MST_MPIE MST_MIE)) x)
        (Z.lor (Z.shiftl from 11) (if Z.testbit x 3 then MST_MPIE else 0)).
Definition mret_status (low x : Z) : Z :=
  let y := Z.lor (bits_off (Z.lor MST_MPP (Z.lor MST_MPIE MST_MIE)) x)
                 (Z.lor (Z.shiftl low 11) (Z.lor MST_MPIE (if Z.testbit x 7 then MST_MIE else 0))) in
  if mpp_of x =? 3 then y else bits_off MST_MPRV y.

Lemma bits_off_test mask x i : 0 <= i < 64 -> Z.testbit (bits_off mask x) i = Z.testbit x i && negb (Z.testbit mask i).
Proof.
  intros Hi. unfold bits_off. rewrite Z.land_spec. f_equal. unfold u64.
  rewrite Z.mod_pow2_bits_low by lia. now rewrite Z.lnot_spec by lia.
Qed.

Lemma mpp_bits x f : 0 <= f < 4 -> Z.testbit x 11 = Z.testbit f 0 -> Z.testbit x 12 = Z.testbit f 1 -> mpp_of x = f.
Proof.
  intros Hf H0 H1. unfold mpp_of. apply Z.bits_inj'. intros i Hi. rewrite Z.land_spec, Z.shiftr_spec by lia.
  destruct (Z.eq_dec i 0) as [->|N0]; [change (0 + 11) with 11; now rewrite H0, andb_true_r|].
  destruct (Z.eq_dec i 1) as [->|N1]; [change (1 + 11) with 12; now rewrite H1, andb_true_r|].
  assert (Z.log2 3 < i /\ Z.log2 f < i) as [L3 Lf]
    by (split; [cbn; lia|destruct (Z.eq_dec f 0) as [->|]; [cbn; lia|]; assert (Z.log2 f < 2) by (apply Z.log2_lt_pow2; lia); lia]).
  rewrite (Z.bits_above_log2 3), (Z.bits_above_log2 f) by lia. apply andb_false_r.
Qed.

(** The reserved combination of permissions, and bytes without reserved bits. *)
Definition perms_legal (c : Z) : bool := cfg_R c || negb (cfg_W c).
Definition cfg_legal (c : Z) : bool := perms_legal c && (Z.land c 0x60 =? 0) && (0 <=? c) && (c <? 256).

Definition pmpaddr_csr (i : nat) : string :=
  match i with 0%nat => "pmpaddr0" | 1%nat => "pmpaddr1" | _ => "pmpaddr2" end.

(** CSRs the tests write that neither PMP nor memory depends on. *)
Definition trap_csr (c : string) : bool :=
  bool_decide (c ∈ ["mtvec"; "mscratch"; "medeleg"; "mideleg"; "mie"; "mepc"]%string).

Class PmpSpec (H : Type) `{PmpDev H} : Type := {
  p_view : H -> pview;
  warl : Z -> Z;
  warl_range c : 0 <= c < 256 -> 0 <= warl c < 256;
  (** legal bytes are kept; reserved bits may read as anything *)
  warl_legal c : cfg_legal c = true -> warl c = c;
  warl_fields c : perms_legal c = true -> 0 <= c < 256 -> Z.land (warl c) 0x9f = Z.land c 0x9f;
  p_ld_spec n a h :
    p_ld n a h = if pmp_allows 0 (pv_es (p_view h)) ALoad a (Z.of_nat n)
                 then Some (ld_bytes n a (pv_mem (p_view h))) else None;
  p_st_spec n a x h :
    if pmp_allows 0 (pv_es (p_view h)) AStore a (Z.of_nat n)
    then exists h', p_st n a x h = Some h' /\
      p_view h' = pv_set_mem (st_bytes n a x (pv_mem (p_view h))) (p_view h)
    else p_st n a x h = None;
  mhartid_spec h : (csr_rd "mhartid" h).1 = pv_hartid (p_view h) /\
    p_view (csr_rd "mhartid" h).2 = p_view h;
  pmpcfg_rd_spec h : (csr_rd "pmpcfg0" h).1 = read_cfg (pv_es (p_view h)) /\
    p_view (csr_rd "pmpcfg0" h).2 = p_view h;
  pmpaddr_rd_spec i h : (i < 3)%nat -> (csr_rd (pmpaddr_csr i) h).1 = read_addr i (pv_es (p_view h)) /\
    p_view (csr_rd (pmpaddr_csr i) h).2 = p_view h;
  pmpcfg_wr_spec x h :
    p_view (csr_wr "pmpcfg0" x h) = pv_set_es (write_cfg warl x (pv_es (p_view h))) (p_view h);
  pmpaddr_wr_spec i x h : (i < 3)%nat ->
    p_view (csr_wr (pmpaddr_csr i) x h) = pv_set_es (write_addr i x (pv_es (p_view h))) (p_view h);
  (** [mstatus] keeps a value it holds, or that value with MIE cleared *)
  mstatus_ok : Z -> Prop;
  mstatus_cur h : mstatus_ok (pv_mstatus (p_view h));
  mstatus_mie x : mstatus_ok x -> mstatus_ok (Z.land x (u64 (Z.lnot 8)));
  mstatus_rd_spec h : (csr_rd "mstatus" h).1 = pv_mstatus (p_view h) /\
    p_view (csr_rd "mstatus" h).2 = p_view h;
  mstatus_wr_spec x h : mstatus_ok x -> p_view (csr_wr "mstatus" x h) = pv_set_mstatus x (p_view h);
  trap_csr_wr_spec c x h : trap_csr c = true -> p_view (csr_wr c x h) = p_view h;
  low_mode : Z;
  p_trap_spec from h : p_view (p_trap from h) = pv_set_mstatus (trap_status from (pv_mstatus (p_view h))) (p_view h);
  p_mret_spec h : p_view (p_mret h) = pv_set_mstatus (mret_status low_mode (pv_mstatus (p_view h))) (p_view h);
}.

(** The view after a trap from M-mode and the [mret] of its handler. *)
Definition returned `{PmpSpec H} (v : pview) : pview :=
  pv_set_mstatus (mret_status low_mode (trap_status 3 (pv_mstatus v))) v.

(** ** What the test programs share *)

(** Their globals: the trap save area, the counters of [check], and the
    running checksum of the programs that keep one. *)
Record pglob : Type := PGlob { save : list Z; fails : Z; checks : Z; csum : Z }.

Definition set_save (i : nat) (x : Z) (g : pglob) : pglob :=
  PGlob (<[i := x]> (save g)) (fails g) (checks g) (csum g).
Definition set_fails (x : Z) (g : pglob) : pglob := PGlob (save g) x (checks g) (csum g).
Definition set_checks (x : Z) (g : pglob) : pglob := PGlob (save g) (fails g) x (csum g).
Definition set_csum (x : Z) (g : pglob) : pglob := PGlob (save g) (fails g) (checks g) x.

Definition pmp_boot_glob : pglob := PGlob (replicate 7 0) 0 0 0.

Section Programs.
Context {U H : Type} `{!UartDev U, !HartDev H, !PmpDev H}.
Abbreviation W := (world U H pglob).

Definition check (cond : bool) (msg : string) : prog W unit :=
  when (negb cond)
    (uputs "  FAIL: " ;; uputs msg ;; uputs "\n" ;;
     n <- gget fails ;; gset_ (set_fails (n + 1))).

(** [check] of the programs that also count the checks. *)
Definition check_counted (cond : bool) (msg : string) : prog W unit :=
  n <- gget checks ;; gset_ (set_checks (u64 (n + 1))) ;; check cond msg.

Definition csr_write_pmpaddr0 (x : Z) : prog W unit := csrw (pmpaddr_csr 0) x.
Definition csr_write_pmpaddr1 (x : Z) : prog W unit := csrw (pmpaddr_csr 1) x.
Definition csr_write_pmpcfg0 (x : Z) : prog W unit := csrw "pmpcfg0" x.
Definition csr_read_pmpaddr0 : prog W Z := csrr (pmpaddr_csr 0).
Definition csr_read_pmpaddr1 : prog W Z := csrr (pmpaddr_csr 1).
Definition csr_read_pmpcfg0 : prog W Z := csrr "pmpcfg0".
Definition csr_read_mhartid : prog W Z := csrr "mhartid".

(** Accesses the program does not expect to fault; a fault there would enter
    the trap stub with a stale resume address. *)
Definition vld (n : nat) (a : Z) : prog W Z :=
  fun w => match p_ld n a (w_hw w) with Some x => Ret x w | None => Undef end.
Definition vst (n : nat) (a x : Z) : prog W unit :=
  fun w => match p_st n a x (w_hw w) with
           | Some h => Ret tt (World (w_uart w) h (w_glob w)) | None => Undef end.

(** One word of the save area. *)
Definition saved (i : nat) : prog W Z := s <- gget save ;; arr_get s i.

(** What the hardware does at a trap and at [mret]. *)
Definition take_trap (from : Z) : prog W unit := fun w => Ret tt (World (w_uart w) (p_trap from (w_hw w)) (w_glob w)).
Definition mret : prog W unit := fun w => Ret tt (World (w_uart w) (p_mret (w_hw w)) (w_glob w)).

(** A trap and its stub; [mark] is how it updates the seen flag or trap
    counter.  The program goes on at the resume address. *)
Definition trap_stub (mark : Z -> Z) (t1 mcause mepc mtval : Z) : prog W unit :=
  take_trap 3 ;;
  gset_ (set_save 1 t1) ;; gset_ (set_save 2 mcause) ;; gset_ (set_save 3 mepc) ;;
  gset_ (set_save 4 mtval) ;;
  r <- saved 5 ;; csrw "mepc" r ;;
  n <- saved 6 ;; gset_ (set_save 6 (mark n)) ;;
  mret.

(** The probing load: [resume] is the address of the label after it, [pc]
    its own address, [t1] what its destination holds before. *)
Definition probe_ld (mark : Z -> Z) (n : nat) (resume pc t1 a : Z) : prog W (option Z) :=
  gset_ (set_save 5 resume) ;;
  gset_ (set_save 6 0) ;;
  fun w => match p_ld n a (w_hw w) with
           | Some x => Ret (Some x) w
           | None => (trap_stub mark t1 5 pc a ;; ret None) w
           end.
Definition probe_st (mark : Z -> Z) (n : nat) (resume pc t1 a x : Z) : prog W unit :=
  gset_ (set_save 5 resume) ;;
  gset_ (set_save 6 0) ;;
  fun w => match p_st n a x (w_hw w) with
           | Some h => Ret tt (World (w_uart w) h (w_glob w))
           | None => trap_stub mark t1 7 pc a w
           end.

(** [for (i < n) p\[i\] = f(i)] and its check, for arrays of [k]-byte elements. *)
Definition fill_array (k : nat) (n : nat) (a : Z) (f : Z -> Z) : prog W unit :=
  for_each (seq 0 n) (fun i => vst k (a + Z.of_nat k * Z.of_nat i) (f (Z.of_nat i))).
Definition verify_array (k : nat) (n : nat) (a : Z) (f : Z -> Z) (ck : bool -> string -> prog W unit)
    (msg : string) : prog W unit :=
  for_each (seq 0 n) (fun i =>
    x <- vld k (a + Z.of_nat k * Z.of_nat i) ;; ck (x =? f (Z.of_nat i)) msg).
End Programs.

(** The save area after a probe that trapped. *)
Definition trapped (resume t1 mcause mepc mtval : Z) (s : list Z) : list Z :=
  <[6%nat := 1]> (<[4%nat := mtval]> (<[3%nat := mepc]> (<[2%nat := mcause]>
    (<[1%nat := t1]> (<[6%nat := 0]> (<[5%nat := resume]> s)))))).
(** And after one that did not. *)
Definition untrapped (resume : Z) (s : list Z) : list Z := <[6%nat := 0]> (<[5%nat := resume]> s).

(** The two stubs: one stores 1, the other counts. *)
Definition mark_seen (_ : Z) : Z := 1.
Definition mark_count (n : Z) : Z := u64 (n + 1).

(** Memory after [fill_array]. *)
Definition filled (k n : nat) (a : Z) (f : Z -> Z) (m : Z -> Z) : Z -> Z :=
  fold_left (fun m i => st_bytes k (a + Z.of_nat k * Z.of_nat i) (f (Z.of_nat i)) m) (seq 0 n) m.

Section Rules.
Context {U H : Type} `{!UartDev U, !UartSpec U, !HartDev H, !PmpDev H, !PmpSpec H}.
Abbreviation W := (world U H pglob).
Abbreviation vr := (vruns (U:=U) (G:=pglob) p_view).

Lemma check_ok b msg v g : b = true -> vr (check b msg) v g tt [] v g.
Proof. intros ->. now apply vruns_unless. Qed.

Lemma check_counted_ok b msg v g : b = true ->
  vr (check_counted b msg) v g tt [] v (set_checks (u64 (checks g + 1)) g).
Proof. intros ->. unfold check_counted. vstep. vstep. now apply check_ok. Qed.

Lemma csrr_view c x v g : (forall h, p_view h = v -> (csr_rd c h).1 = x /\ p_view (csr_rd c h).2 = v) ->
  vr (csrr c) v g x [] v g.
Proof.
  intros Hc u h Hv. destruct (Hc h Hv) as [<- Hv']. exists (csr_rd c h).2.
  split; [apply csrr_eq|exact Hv'].
Qed.

Lemma csrw_view c x v v' g : (forall h, p_view h = v -> p_view (csr_wr c x h) = v') ->
  vr (csrw c x) v g tt [] v' g.
Proof. intros Hc u h Hv. exists (csr_wr c x h). split; [reflexivity|auto]. Qed.

Lemma vr_mhartid v g : vr csr_read_mhartid v g (pv_hartid v) [] v g.
Proof. apply csrr_view. intros h <-. apply mhartid_spec. Qed.
Lemma vr_read_cfg v g : vr csr_read_pmpcfg0 v g (read_cfg (pv_es v)) [] v g.
Proof. apply csrr_view. intros h <-. apply pmpcfg_rd_spec. Qed.
Lemma vr_read_addr0 v g : vr csr_read_pmpaddr0 v g (read_addr 0 (pv_es v)) [] v g.
Proof. apply csrr_view. intros h <-. apply pmpaddr_rd_spec. lia. Qed.
Lemma vr_read_addr1 v g : vr csr_read_pmpaddr1 v g (read_addr 1 (pv_es v)) [] v g.
Proof. apply csrr_view. intros h <-. apply pmpaddr_rd_spec. lia. Qed.
Lemma vr_write_cfg x v g :
  vr (csr_write_pmpcfg0 x) v g tt [] (pv_set_es (write_cfg warl x (pv_es v)) v) g.
Proof. apply csrw_view. intros h <-. apply pmpcfg_wr_spec. Qed.
Lemma vr_write_addr0 x v g :
  vr (csr_write_pmpaddr0 x) v g tt [] (pv_set_es (write_addr 0 x (pv_es v)) v) g.
Proof. apply csrw_view. intros h <-. apply pmpaddr_wr_spec. lia. Qed.
Lemma vr_write_addr1 x v g :
  vr (csr_write_pmpaddr1 x) v g tt [] (pv_set_es (write_addr 1 x (pv_es v)) v) g.
Proof. apply csrw_view. intros h <-. apply pmpaddr_wr_spec. lia. Qed.
Lemma vr_trap_csr c x v g : trap_csr c = true -> vr (csrw c x) v g tt [] v g.
Proof. intros Hc. apply csrw_view. intros h <-. now apply trap_csr_wr_spec. Qed.
Lemma vr_read_mstatus v g : vr (csrr "mstatus") v g (pv_mstatus v) [] v g.
Proof. apply csrr_view. intros h <-. apply mstatus_rd_spec. Qed.
Lemma vr_write_mstatus x v g : (forall h, p_view h = v -> mstatus_ok x) ->
  vr (csrw "mstatus" x) v g tt [] (pv_set_mstatus x v) g.
Proof. intros Hx. apply csrw_view. intros h Hv. rewrite mstatus_wr_spec by now apply (Hx h). now rewrite Hv. Qed.
Lemma vr_mtvec x v g : vr (csrw "mtvec" x) v g tt [] v g.
Proof. apply csrw_view. intros h <-. now apply trap_csr_wr_spec. Qed.
Lemma vr_mscratch x v g : vr (csrw "mscratch" x) v g tt [] v g.
Proof. apply csrw_view. intros h <-. now apply trap_csr_wr_spec. Qed.

Lemma vr_ld n a v g : pmp_allows 0 (pv_es v) ALoad a (Z.of_nat n) = true ->
  vr (vld n a) v g (ld_bytes n a (pv_mem v)) [] v g.
Proof.
  intros Ha u h <-. exists h. split; [|reflexivity]. unfold vld. cbn [w_hw].
  now rewrite p_ld_spec, Ha.
Qed.

Lemma vr_st n a x v g : pmp_allows 0 (pv_es v) AStore a (Z.of_nat n) = true ->
  vr (vst n a x) v g tt [] (pv_set_mem (st_bytes n a x (pv_mem v)) v) g.
Proof.
  intros Ha u h <-. pose proof (p_st_spec n a x h) as Hs. rewrite Ha in Hs.
  destruct Hs as (h' & E & Hv). exists h'. split; [|exact Hv]. unfold vst. cbn [w_hw]. now rewrite E.
Qed.

Lemma vr_take_trap from v g :
  vr (take_trap from) v g tt [] (pv_set_mstatus (trap_status from (pv_mstatus v)) v) g.
Proof. intros u h <-. exists (p_trap from h). split; [reflexivity|]. now rewrite p_trap_spec. Qed.
Lemma vr_mret v g : vr mret v g tt [] (pv_set_mstatus (mret_status low_mode (pv_mstatus v)) v) g.
Proof. intros u h <-. exists (p_mret h). split; [reflexivity|]. now rewrite p_mret_spec. Qed.

Lemma vr_saved i x v g : save g !! i = Some x -> vr (saved i) v g x [] v g.
Proof. intros Hi. unfold saved. vstep. now apply vruns_arr_get. Qed.

Lemma vr_stub mark t1 cause epc tval resume v s f c cs :
  (7 <= length s)%nat -> mark 0 = 1 ->
  vr (trap_stub mark t1 cause epc tval) v (PGlob (untrapped resume s) f c cs) tt [] (returned v)
     (PGlob (trapped resume t1 cause epc tval s) f c cs).
Proof.
  intros Hs Hm. unfold trap_stub, trapped, untrapped. eapply vruns_bind0; [apply vr_take_trap|]. do 4 vstep.
  eapply vruns_bind0; [apply vr_saved with (x := resume)|].
  { cbn [save set_save]. rewrite !list_lookup_insert_ne by lia. apply list_lookup_insert_eq. lia. }
  eapply vruns_bind0; [now apply vr_trap_csr|].
  eapply vruns_bind0; [apply vr_saved with (x := 0)|].
  - cbn [save set_save]. rewrite !list_lookup_insert_ne by lia.
    now rewrite list_lookup_insert_eq by (rewrite length_insert; lia).
  - rewrite Hm. vstep. apply vr_mret.
Qed.

Lemma probe_ld_ok mark n resume pc t1 a v s f c cs :
  pmp_allows 0 (pv_es v) ALoad a (Z.of_nat n) = true ->
  vr (probe_ld mark n resume pc t1 a) v (PGlob s f c cs) (Some (ld_bytes n a (pv_mem v))) [] v
     (PGlob (untrapped resume s) f c cs).
Proof.
  intros Ha. unfold probe_ld. do 2 vstep. intros u h <-. exists h. cbn [w_hw].
  now rewrite p_ld_spec, Ha.
Qed.

Lemma probe_ld_traps mark n resume pc t1 a v s f c cs :
  (7 <= length s)%nat -> mark 0 = 1 ->
  pmp_allows 0 (pv_es v) ALoad a (Z.of_nat n) = false ->
  vr (probe_ld mark n resume pc t1 a) v (PGlob s f c cs) None [] (returned v)
     (PGlob (trapped resume t1 5 pc a s) f c cs).
Proof.
  intros Hs Hm Ha. unfold probe_ld. do 2 vstep.
  assert (vr (trap_stub mark t1 5 pc a ;; ret None) v (PGlob (untrapped resume s) f c cs)
    (@None Z) [] (returned v) (PGlob (trapped resume t1 5 pc a s) f c cs)) as Hr.
  { eapply vruns_bind0; [now apply vr_stub|]. apply vruns_ret. }
  intros u h Hv. cbn [w_hw]. rewrite p_ld_spec, Hv, Ha. now apply Hr.
Qed.

Lemma probe_st_traps mark n resume pc t1 a x v s f c cs :
  (7 <= length s)%nat -> mark 0 = 1 ->
  pmp_allows 0 (pv_es v) AStore a (Z.of_nat n) = false ->
  vr (probe_st mark n resume pc t1 a x) v (PGlob s f c cs) tt [] (returned v)
     (PGlob (trapped resume t1 7 pc a s) f c cs).
Proof.
  intros Hs Hm Ha. unfold probe_st. do 2 vstep. intros u h <-. cbn [w_hw].
  pose proof (p_st_spec n a x h) as Hst. rewrite Ha in Hst. rewrite Hst. now apply vr_stub.
Qed.
Lemma vr_fill k n a f v g :
  (forall i, 0 <= i < Z.of_nat n ->
     pmp_allows 0 (pv_es v) AStore (a + Z.of_nat k * i) (Z.of_nat k) = true) ->
  vr (fill_array k n a f) v g tt [] (pv_set_mem (filled k n a f (pv_mem v)) v) g.
Proof.
  intros Ha. unfold fill_array, filled. destruct v as [es m hid ms]. cbn [pv_es pv_mem pv_set_mem] in *.
  assert (Forall (fun i => (i < n)%nat) (seq 0 n)) as Hn
    by (apply List.Forall_forall; intros i Hi; apply in_seq in Hi; lia).
  unfold pv_set_mem. cbn [pv_es pv_hartid pv_mstatus]. revert m.
  induction Hn as [|i l Hi Hl IH]; intros m; [apply vruns_ret|]. cbn [for_each fold_left].
  eapply vruns_bind0; [apply vr_st, Ha; lia|]. apply IH.
Qed.

Lemma vr_verify k n a f ck msg gs v g :
  (forall i, 0 <= i < Z.of_nat n ->
     pmp_allows 0 (pv_es v) ALoad (a + Z.of_nat k * i) (Z.of_nat k) = true /\
     ld_bytes k (a + Z.of_nat k * i) (pv_mem v) = f i) ->
  (forall g, vr (ck true msg) v g tt [] v (gs g)) ->
  vr (verify_array k n a f ck msg) v g tt [] v (Nat.iter n gs g).
Proof.
  intros Ha Hck. unfold verify_array.
  assert (Forall (fun i => (i < n)%nat) (seq 0 n)) as Hn
    by (apply List.Forall_forall; intros i Hi; apply in_seq in Hi; lia).
  replace (Nat.iter n gs g) with (Nat.iter (length (seq 0 n)) gs g) by now rewrite length_seq.
  revert g. induction Hn as [|i l Hi Hl IH]; intros g; [apply vruns_ret|]. cbn [for_each length].
  rewrite Nat.iter_succ_r. eapply vruns_bind0; [|apply IH].
  destruct (Ha (Z.of_nat i) ltac:(lia)) as [Hal Hv].
  eapply vruns_bind0; [apply vr_ld, Hal|]. rewrite Hv, Z.eqb_refl. apply Hck.
Qed.
End Rules.

Lemma filled_other k n a f m x : ~ (a <= x < a + Z.of_nat k * Z.of_nat n) -> filled k n a f m x = m x.
Proof.
  intros Hx. unfold filled. induction n as [|n IH]; [reflexivity|].
  rewrite seq_S, fold_left_app. cbn [fold_left]. rewrite st_bytes_other by nia. apply IH. nia.
Qed.

Lemma filled_at k n a f m i : 0 <= i < Z.of_nat n -> 0 <= f i < 256 ^ Z.of_nat k ->
  ld_bytes k (a + Z.of_nat k * i) (filled k n a f m) = f i.
Proof.
  intros Hi Hf. unfold filled. induction n as [|n IH]; [lia|].
  rewrite seq_S, fold_left_app. cbn [fold_left Nat.add].
  destruct (Z.eq_dec i (Z.of_nat n)) as [->|]; [now apply ld_st_same|].
  rewrite ld_st_other by nia. apply IH. lia.
Qed.

Lemma ld_filled_other j k n a f m x :
  x + Z.of_nat j <= a \/ a + Z.of_nat k * Z.of_nat n <= x ->
  ld_bytes j x (filled k n a f m) = ld_bytes j x m.
Proof. intros Hx. apply ld_bytes_ext. intros y Hy. apply filled_other. lia. Qed.

(** An access is allowed by a list of entries that are all off. *)
Lemma off_allows prev es k x n : Forall (fun e => cfg_A e.1 = 0) es -> 0 <= x ->
  pmp_allows prev es k x n = true.
Proof.
  intros He Hx. revert prev. induction He as [|[c a] es Hc He IH]; intros prev; [reflexivity|].
  cbn [pmp_allows]. unfold pmp_range. cbn in Hc. rewrite Hc. cbn [Z.eqb].
  rewrite (proj2 (Z.ltb_ge x 0) Hx). apply IH.
Qed.

(** ** A reference hart *)

Record RefHart : Type := RefH { rh_view : pview; rh_csrs : list (string * Z) }.

(** Reserved bits read as zero; the reserved W-without-R drops W. *)
Definition ref_warl (c : Z) : Z := Z.land c (if perms_legal c then 0x9f else 0x9d).

Definition is_pmpaddr (c : string) : option nat :=
  if String.eqb c "pmpaddr0" then Some 0%nat else if String.eqb c "pmpaddr1" then Some 1%nat
  else if String.eqb c "pmpaddr2" then Some 2%nat else None.

(** The fields of [mstatus] that [sstatus] shows. *)
Definition SST_FIELDS : Z := 0x80000003000DE762.

#[export] Instance RefHart_dev : HartDev RefHart := {
  mr64 a h := (ld_bytes 8 a (pv_mem (rh_view h)), h);
  mw64 a x h := RefH (pv_set_mem (st_bytes 8 a x (pv_mem (rh_view h))) (rh_view h)) (rh_csrs h);
  mr32 a h := (ld_bytes 4 a (pv_mem (rh_view h)), h);
  mw32 a x h := RefH (pv_set_mem (st_bytes 4 a x (pv_mem (rh_view h))) (rh_view h)) (rh_csrs h);
  csr_rd c h :=
    (match is_pmpaddr c with
     | Some i => read_addr i (pv_es (rh_view h))
     | None => if String.eqb c "pmpcfg0" then read_cfg (pv_es (rh_view h))
               else if String.eqb c "mhartid" then pv_hartid (rh_view h)
               else if String.eqb c "mstatus" then pv_mstatus (rh_view h)
               else if String.eqb c "sstatus" then Z.land (pv_mstatus (rh_view h)) SST_FIELDS
               else alookup String.eqb c (rh_csrs h)
     end, h);
  csr_wr c x h :=
    match is_pmpaddr c with
    | Some i => RefH (pv_set_es (write_addr i x (pv_es (rh_view h))) (rh_view h)) (rh_csrs h)
    | None => if String.eqb c "pmpcfg0"
              then RefH (pv_set_es (write_cfg ref_warl x (pv_es (rh_view h))) (rh_view h)) (rh_csrs h)
              else if String.eqb c "mstatus" then RefH (pv_set_mstatus x (rh_view h)) (rh_csrs h)
              else if String.eqb c "sstatus" then
                RefH (pv_set_mstatus (Z.lor (Z.land (pv_mstatus (rh_view h)) (Z.lnot SST_FIELDS)) (Z.land x SST_FIELDS)) (rh_view h))
                  (rh_csrs h)
              else RefH (rh_view h) (aupdate String.eqb c x (rh_csrs h))
    end;
  hw_fuel := 64;
}.

#[export] Instance RefHart_pmp : PmpDev RefHart := {
  p_ld n a h := if pmp_allows 0 (pv_es (rh_view h)) ALoad a (Z.of_nat n)
                then Some (ld_bytes n a (pv_mem (rh_view h))) else None;
  p_st n a x h := if pmp_allows 0 (pv_es (rh_view h)) AStore a (Z.of_nat n)
                  then Some (RefH (pv_set_mem (st_bytes n a x (pv_mem (rh_view h))) (rh_view h)) (rh_csrs h))
                  else None;
  p_trap from h := RefH (pv_set_mstatus (trap_status from (pv_mstatus (rh_view h))) (rh_view h)) (rh_csrs h);
  p_mret h := RefH (pv_set_mstatus (mret_status 0 (pv_mstatus (rh_view h))) (rh_view h)) (rh_csrs h);
}.

(** A property of all bytes, by computation. *)
Lemma byte_check (P : Z -> bool) :
  forallb P (map Z.of_nat (seq 0 256)) = true -> forall c, 0 <= c < 256 -> P c = true.
Proof.
  intros Hf c Hc. rewrite forallb_forall in Hf. apply Hf. rewrite in_map_iff.
  exists (Z.to_nat c). split; [lia|]. apply in_seq. lia.
Qed.

#[export] Instance RefHart_spec : PmpSpec RefHart.
Proof.
  refine {| p_view := rh_view; warl := ref_warl; mstatus_ok _ := True; low_mode := 0 |}; intros; try reflexivity; try exact I.
  - pose proof (byte_check (fun c => (0 <=? ref_warl c) && (ref_warl c <? 256))
      ltac:(vm_compute; reflexivity) c ltac:(assumption)) as Hb. cbv beta in Hb. lia.
  - assert (0 <= c < 256) as Hc by (unfold cfg_legal in *; rewrite !andb_true_iff in *; lia).
    pose proof (byte_check (fun c => negb (cfg_legal c) || (ref_warl c =? c))
      ltac:(vm_compute; reflexivity) c Hc) as Hb. cbv beta in Hb. rewrite H in Hb. cbn in Hb. lia.
  - pose proof (byte_check (fun c => negb (perms_legal c) || (Z.land (ref_warl c) 0x9f =? Z.land c 0x9f))
      ltac:(vm_compute; reflexivity) c ltac:(assumption)) as Hb. cbv beta in Hb. rewrite H in Hb. cbn in Hb. lia.
  - cbn [p_st RefHart_pmp]. case_match; [|reflexivity]. now eexists.
  - split; reflexivity.
  - split; reflexivity.
  - destruct i as [|[|[|]]]; [split; reflexivity..|lia].
  - destruct i as [|[|[|]]]; [reflexivity..|lia].
  - split; reflexivity.
  - unfold trap_csr in H. apply bool_decide_eq_true in H.
    repeat (apply elem_of_cons in H as [->|H]; [reflexivity|]). now apply elem_of_nil in H.
Defined.

(** ** Running the test programs *)

Ltac pm_side := first [assumption | reflexivity | apply Z.eqb_refl | idtac].

Ltac pmprim :=
  lazymatch goal with
  | |- vruns _ csr_read_mhartid _ _ _ _ _ _ => apply vr_mhartid
  | |- vruns _ csr_read_pmpcfg0 _ _ _ _ _ _ => apply vr_read_cfg
  | |- vruns _ csr_read_pmpaddr0 _ _ _ _ _ _ => apply vr_read_addr0
  | |- vruns _ csr_read_pmpaddr1 _ _ _ _ _ _ => apply vr_read_addr1
  | |- vruns _ (csr_write_pmpcfg0 _) _ _ _ _ _ _ => apply vr_write_cfg
  | |- vruns _ (csr_write_pmpaddr0 _) _ _ _ _ _ _ => apply vr_write_addr0
  | |- vruns _ (csr_write_pmpaddr1 _) _ _ _ _ _ _ => apply vr_write_addr1
  | |- vruns _ (csrr "mstatus") _ _ _ _ _ _ => apply vr_read_mstatus
  | |- vruns _ (csrw "mtvec" _) _ _ _ _ _ _ => apply vr_mtvec
  | |- vruns _ (csrw "mscratch" _) _ _ _ _ _ _ => apply vr_mscratch
  | |- vruns _ (csrw "mstatus" _) _ _ _ _ _ _ => apply vr_write_mstatus
  | |- vruns _ (csrw _ _) _ _ _ _ _ _ => apply vr_trap_csr; reflexivity
  | |- vruns _ (saved _) _ _ _ _ _ _ => apply vr_saved; reflexivity
  | |- vruns _ (check _ _) _ _ _ _ _ _ => apply check_ok; pm_side
  | |- vruns _ (check_counted _ _) _ _ _ _ _ _ => apply check_counted_ok; pm_side
  | |- _ => vprim
  end.

Ltac pmquiet m :=
  lazymatch m with
  | csr_read_mhartid => idtac | csr_read_pmpcfg0 => idtac
  | csr_read_pmpaddr0 => idtac | csr_read_pmpaddr1 => idtac
  | csr_write_pmpcfg0 _ => idtac | csr_write_pmpaddr0 _ => idtac | csr_write_pmpaddr1 _ => idtac
  | csrw _ _ => idtac | csrr _ => idtac | saved _ => idtac | check _ _ => idtac | check_counted _ _ => idtac
  | _ => vquiet m
  end.

Ltac pmstep :=
  lazymatch goal with
  | |- vruns _ (bind ?m _) _ _ _ _ _ _ =>
      first [ pmquiet m; eapply vruns_bind0; [pmprim|cbv beta zeta]
            | eapply vruns_bind; [pmprim|cbv beta zeta] ]
  | |- vhalts _ (bind ?m _) _ _ _ _ _ =>
      first [ pmquiet m; eapply vhalts_bind0; [pmprim|cbv beta zeta]
            | eapply vhalts_bind; [pmprim|cbv beta zeta] ]
  | |- vhalts _ park _ _ _ _ _ => apply vhalts_park
  | |- vruns _ _ _ _ _ _ _ _ => pmprim
  end.
Ltac pmrun := repeat pmstep.

(** Use the lemma [lem] for the next, silent, statement. *)
Tactic Notation "vquietly" uconstr(lem) :=
  first [eapply vruns_bind0 | eapply vhalts_bind0]; [eapply lem|cbv beta zeta].
(** Use the lemma [lem] for the next statement. *)
Tactic Notation "vuse" uconstr(lem) :=
  first [eapply vruns_bind | eapply vhalts_bind]; [eapply lem|cbv beta zeta].
