(* ===== verification/PmpDenial.v ===== *)
(** * The PMP denial and lock-bit tests (src/pmp/, src/pmp-lock-bit/)

    Both programs cover a 4 KiB page with a locked NAPOT entry without
    permissions and probe it.  The theorems: on every hart that implements
    PMP ([Pmp.PmpSpec]), wherever the linker places the buffers, the programs
    print their report with every check passed and [RESULT: PASS]. *)

From Stdlib Require Import ZArith Lia String.
From stdpp Require Import base list.
From S2P Require Import Prelude Uart Hart Run View Pmp.

Definition PMPCFG0_ENTRY0 : Z := 0x98.
Definition PLB_ENTRY0 : Z := 0x98.
Definition PLB_ALLONES : Z := u64 (-1).
Definition OUTSIDE_WORD (i : Z) : Z := u64 (0x1122334455667788 + i).

Section Programs.
Context {U H : Type} `{!UartDev U, !HartDev H, !PmpDev H}.
Abbreviation W := (world U H pglob).
(** Addresses the linker chooses: the buffers, the save area, the trap entry
    and the resume labels of the two probes; and what [t1] holds there. *)
Context (scratch probe_outside pmp_save pmp_trap_entry resume_load resume_store t1_load t1_store : Z).

(** ** pmp_main.c *)

(** The line [name: seen=... resume-4=...] of a probe. *)
Definition put_probe (name : string) : prog W unit :=
  uputs name ;;
  x <- saved 6 ;; uart_put_dec x ;;
  uputs " mcause=" ;; x <- saved 2 ;; uart_put_hex x ;;
  uputs " mepc=" ;; x <- saved 3 ;; uart_put_hex x ;;
  uputs " mtval=" ;; x <- saved 4 ;; uart_put_hex x ;;
  uputs " resume-4=" ;; x <- saved 5 ;; uart_put_hex (u64 (x - 4)) ;;
  uputs "\n".

Definition test_load : prog W unit :=
  probe_ld mark_seen 4 resume_load (u64 (resume_load - 4)) t1_load scratch ;;
  put_probe "load:  seen=" ;;
  x <- saved 6 ;; check (x =? 1) "load did not trap" ;;
  x <- saved 2 ;; check (x =? 5) "load mcause != 5 (load access fault)" ;;
  x <- saved 3 ;; y <- saved 5 ;; check (x =? u64 (y - 4)) "load mepc != address of faulting lw" ;;
  x <- saved 4 ;; check (x =? scratch) "load mtval != faulting address".

Definition test_store : prog W unit :=
  probe_st mark_seen 4 resume_store (u64 (resume_store - 4)) t1_store scratch 0x5A5A5A5A ;;
  put_probe "store: seen=" ;;
  x <- saved 6 ;; check (x =? 1) "store did not trap" ;;
  x <- saved 2 ;; check (x =? 7) "store mcause != 7 (store/AMO access fault)" ;;
  x <- saved 3 ;; y <- saved 5 ;; check (x =? u64 (y - 4)) "store mepc != address of faulting sw" ;;
  x <- saved 4 ;; check (x =? scratch) "store mtval != faulting address".

(** Control 1 of both programs: scratch is RAM before any PMP programming. *)
Definition control_scratch (ck : bool -> string -> prog W unit) : prog W unit :=
  fill_array 1 4 scratch (fun i => u8 (0xA5 + i)) ;;
  verify_array 1 4 scratch (fun i => u8 (0xA5 + i)) ck "scratch not writable before PMP programming" ;;
  uputs "control: scratch readable/writable before PMP: ok\n".

(** Control 2: an address outside the region stays accessible. *)
Definition control_outside (ck : bool -> string -> prog W unit) : prog W unit :=
  fill_array 8 4 probe_outside OUTSIDE_WORD ;;
  verify_array 8 4 probe_outside OUTSIDE_WORD ck "address outside PMP region became inaccessible" ;;
  uputs "control: address outside region still accessible: ok\n".

Definition pmp_verdict : prog W unit :=
  n <- gget fails ;;
  if n =? 0 then uputs "RESULT: PASS (load mcause=5, store mcause=7)\n"
  else uputs "RESULT: FAIL (" ;; uart_put_dec (u64 n) ;; uputs " checks failed)\n".

Definition pmp_program_entry : prog W unit :=
  let base := scratch in
  check (Z.land base 0xFFF =? 0) "scratch not 4 KiB aligned" ;;
  let pmpaddr := Z.lor (Z.shiftr base 2) 0x1FF in
  uputs "config: pmpaddr0=" ;; uart_put_hex pmpaddr ;;
  uputs " (NAPOT 4 KiB at " ;; uart_put_hex base ;;
  uputs ") pmpcfg0=0x98 (entry0: L=1 A=NAPOT R=W=X=0)\n" ;;
  csr_write_pmpaddr0 pmpaddr ;;
  csr_write_pmpcfg0 PMPCFG0_ENTRY0 ;;
  rb <- csr_read_pmpcfg0 ;;
  uputs "config: pmpcfg0 readback=" ;; uart_put_hex rb ;; uputs "\n" ;;
  check (rb =? PMPCFG0_ENTRY0) "pmpcfg0 readback != 0x98" ;;
  csr_write_pmpcfg0 0 ;;
  rb <- csr_read_pmpcfg0 ;;
  uputs "config: pmpcfg0 after clear attempt=" ;; uart_put_hex rb ;; uputs " (lock holds)\n" ;;
  check (rb =? PMPCFG0_ENTRY0) "locked pmpcfg0 was modified".

Definition pmp_main : prog W unit :=
  uart_init ;;
  uputs "pmp-denial: PMP no-access region test\n" ;;
  uputs "hart mhartid=" ;; x <- csr_read_mhartid ;; uart_put_dec x ;; uputs "\n" ;;
  control_scratch check ;;
  csrw "mtvec" pmp_trap_entry ;;
  csrw "mscratch" pmp_save ;;
  pmp_program_entry ;;
  control_outside check ;;
  test_load ;;
  test_store ;;
  pmp_verdict ;;
  uputs "done\n" ;;
  park.

(** ** plb_main.c (its probe is [test_load] of that file) *)

Definition plb_test_load : prog W unit :=
  probe_ld mark_count 4 resume_load (u64 (resume_load - 4)) t1_load scratch ;;
  put_probe "load:  traps=" ;;
  x <- saved 6 ;; check_counted (x =? 1) "load did not trap exactly once" ;;
  x <- saved 2 ;; check_counted (x =? 5) "load mcause != 5 (load access fault)" ;;
  x <- saved 3 ;; y <- saved 5 ;;
  check_counted (x =? u64 (y - 4)) "load mepc != address of faulting lw" ;;
  x <- saved 4 ;; check_counted (x =? scratch) "load mtval != faulting address".

Definition plb_program_entry : prog W unit :=
  let base := scratch in
  check_counted (Z.land base 0xFFF =? 0) "scratch not 4 KiB aligned" ;;
  let pmpaddr := Z.lor (Z.shiftr base 2) 0x1FF in
  uputs "config: pmpaddr0=" ;; uart_put_hex pmpaddr ;;
  uputs " (NAPOT 4 KiB at " ;; uart_put_hex base ;;
  uputs ") pmpcfg0 entry0=0x98 (L=1 A=NAPOT R=W=X=0)\n" ;;
  csr_write_pmpaddr0 pmpaddr ;;
  csr_write_pmpcfg0 PLB_ENTRY0 ;;
  rb <- csr_read_pmpaddr0 ;;
  uputs "config: pmpaddr0 readback=" ;; uart_put_hex rb ;; uputs "\n" ;;
  check_counted (rb =? pmpaddr) "pmpaddr0 readback != programmed value" ;;
  rb <- csr_read_pmpcfg0 ;;
  uputs "config: pmpcfg0 readback=" ;; uart_put_hex rb ;; uputs "\n" ;;
  check_counted (rb =? PLB_ENTRY0) "pmpcfg0 readback != 0x98".

(** All-ones writes must not change the locked entry. *)
Definition plb_lock_holds : prog W unit :=
  let pmpaddr := Z.lor (Z.shiftr scratch 2) 0x1FF in
  csr_write_pmpcfg0 PLB_ALLONES ;;
  rb <- csr_read_pmpcfg0 ;;
  uputs "lock:   pmpcfg0 after all-ones write=" ;; uart_put_hex rb ;; uputs "\n" ;;
  check_counted (Z.land rb 0xFF =? PLB_ENTRY0) "locked entry 0 config byte changed by all-ones write" ;;
  uputs "lock:   entry0 byte unchanged (0x98); entries 1-7 read 0x" ;;
  uart_put_hex (Z.land (Z.shiftr rb 8) 0xFF) ;;
  uputs " (unlocked, write accepted)\n" ;;
  csr_write_pmpaddr0 PLB_ALLONES ;;
  rb <- csr_read_pmpaddr0 ;;
  uputs "lock:   pmpaddr0 after all-ones write=" ;; uart_put_hex rb ;; uputs "\n" ;;
  check_counted (rb =? pmpaddr) "locked pmpaddr0 changed by all-ones write".

Definition plb_verdict : prog W unit :=
  uputs "checks=" ;; n <- gget checks ;; uart_put_dec n ;;
  uputs " fails=" ;; n <- gget fails ;; uart_put_dec n ;; uputs "\n" ;;
  n <- gget fails ;;
  if n =? 0 then uputs "RESULT: PASS (lock holds; load mcause=5)\n" else uputs "RESULT: FAIL\n".

Definition plb_main : prog W unit :=
  uart_init ;;
  uputs "pmp-lock-bit: PMP lock-bit persistence test\n" ;;
  uputs "hart mhartid=" ;; x <- csr_read_mhartid ;; uart_put_dec x ;; uputs "\n" ;;
  control_scratch check_counted ;;
  csrw "mtvec" pmp_trap_entry ;;
  csrw "mscratch" pmp_save ;;
  plb_program_entry ;;
  plb_lock_holds ;;
  control_outside check_counted ;;
  plb_test_load ;;
  plb_verdict ;;
  uputs "done\n" ;;
  park.
End Programs.

(** ** The locked entry *)

Section Region.
Context (scratch : Z).
Hypothesis (Hal : scratch mod 4096 = 0) (Hlo : 0 <= scratch) (Hhi : scratch + 4096 <= 2 ^ 56).

Definition napot4k : Z := Z.lor (Z.shiftr scratch 2) 0x1FF.

Lemma napot4k_range prev : pmp_range prev 0x98 napot4k = (scratch, scratch + 4096).
Proof. apply (napot_range prev 0x98 scratch 9); [lia|reflexivity|exact Hal]. Qed.

Lemma napot4k_small : 0 <= napot4k < 2 ^ 54.
Proof.
  unfold napot4k. split; [apply Z.lor_nonneg; split; [now apply Z.shiftr_nonneg|lia]|].
  assert (Z.shiftr scratch 2 = scratch / 4096 * 2 ^ 10) as ->.
  { rewrite Z.shiftr_div_pow2 by lia. change (2 ^ 2) with 4. pose proof (Z.div_mod scratch 4096).
    symmetry. apply Z.div_unique_exact; lia. }
  rewrite lor_disjoint_add by lia. pose proof (Z.div_mod scratch 4096). lia.
Qed.

Lemma napot4k_u64 : is_u64 napot4k.
Proof. pose proof napot4k_small. unfold is_u64. lia. Qed.

Lemma aligned_land : Z.land scratch 0xFFF = 0.
Proof. change 0xFFF with (Z.ones 12). now rewrite Z.land_ones. Qed.

(** Accesses that touch the region are refused; the others are decided by
    the entries after it. *)
Lemma region_denies rest k x n :
  0 < n -> scratch <= x < scratch + 4096 -> pmp_allows 0 ((0x98, napot4k) :: rest) k x n = false.
Proof.
  intros Hn Hx. cbn [pmp_allows]. rewrite napot4k_range.
  assert (permits 152 k = false) as -> by now destruct k.
  change (negb (cfg_L 152) || false) with false. rewrite andb_false_r.
  destruct (Z.ltb_spec x (scratch + 4096)), (Z.ltb_spec scratch (x + n)); try lia. reflexivity.
Qed.

Lemma region_passes rest k x n :
  x + n <= scratch \/ scratch + 4096 <= x ->
  pmp_allows 0 ((0x98, napot4k) :: rest) k x n = pmp_allows napot4k rest k x n.
Proof.
  intros Hx. cbn [pmp_allows]. rewrite napot4k_range.
  destruct (Z.ltb_spec x (scratch + 4096)), (Z.ltb_spec scratch (x + n)); try lia; reflexivity.
Qed.
End Region.

(** The entries of a reset hart, and after both tests' programming. *)
Definition entries_off (addrs : list Z) : list (Z * Z) := map (pair 0) addrs.

Lemma entries_off_off addrs : Forall (fun e : Z * Z => cfg_A e.1 = 0) (entries_off addrs).
Proof. unfold entries_off. induction addrs; cbn; auto. Qed.

Lemma program_napot `{PmpSpec H} scratch a0 addrs :
  scratch mod 4096 = 0 -> 0 <= scratch -> scratch + 4096 <= 2 ^ 56 -> length addrs = 7%nat ->
  write_cfg warl 0x98 (write_addr 0 (napot4k scratch) (entries_off (a0 :: addrs))) =
  (0x98, napot4k scratch) :: entries_off addrs.
Proof.
  intros Hal Hlo Hhi Hlen. unfold write_addr.
  assert (addr_pinned 0 (entries_off (a0 :: addrs)) = false) as -> by (destruct addrs; [discriminate|reflexivity]).
  cbn [alter list_alter entries_off map]. rewrite Z.mod_small by now apply napot4k_small.
  do 8 (destruct addrs as [|? addrs]; try discriminate Hlen). cbn -[warl cfg_byte cfg_L napot4k].
  change (cfg_L 0) with false. cbn iota.
  repeat match goal with |- context [cfg_byte 152 ?i] =>
    let b := eval vm_compute in (cfg_byte 152 i) in change (cfg_byte 152 i) with b end.
  now rewrite !warl_legal.
Qed.

Lemma read_cfg_off addrs : read_cfg (entries_off addrs) = 0.
Proof. unfold entries_off, read_cfg. induction addrs as [|a l IH]; [reflexivity|]. cbn [map fold_right]. now rewrite IH. Qed.

Lemma read_cfg_entry0 c a addrs : read_cfg ((c, a) :: entries_off addrs) = c.
Proof.
  change (read_cfg ((c, a) :: entries_off addrs)) with (Z.lor c (Z.shiftl (read_cfg (entries_off addrs)) 8)).
  now rewrite read_cfg_off, Z.shiftl_0_l, Z.lor_0_r.
Qed.

Lemma clear_locked `{PmpSpec H} c a addrs : cfg_L c = true ->
  write_cfg warl 0 ((c, a) :: entries_off addrs) = (c, a) :: entries_off addrs.
Proof.
  intros Hl. assert (warl 0 = 0) as Hw by now apply warl_legal.
  apply list_eq. intros i. unfold write_cfg. rewrite list_lookup_imap.
  destruct i as [|i]; [cbn -[cfg_L]; now rewrite Hl|].
  change (((c, a) :: entries_off addrs) !! S i) with (entries_off addrs !! i). unfold entries_off. change (map (pair 0) addrs) with (pair 0 <$> addrs). rewrite list_lookup_fmap.
  destruct (addrs !! i); [|reflexivity]. cbn -[warl cfg_byte cfg_L]. change (cfg_L 0) with false. cbn iota.
  unfold cfg_byte. now rewrite Z.shiftr_0_l, Z.land_0_l, Hw.
Qed.

(** What a probe's line reads. *)
Definition probe_text (name : string) (seen mcause mepc mtval resume : Z) : list Z :=
  lit name ++ fmt_dec seen ++ lit " mcause=" ++ fmt_hex mcause ++ lit " mepc=" ++ fmt_hex mepc ++
  lit " mtval=" ++ fmt_hex mtval ++ lit " resume-4=" ++ fmt_hex (u64 (resume - 4)) ++ lit "\n".

(** Where the linker may put the buffers. *)
Record layout_ok (scratch probe_outside resume_load resume_store : Z) : Prop := {
  lo_al : scratch mod 4096 = 0;
  lo_lo : 0 <= scratch;
  lo_hi : scratch + 4096 <= 2 ^ 56;
  lo_out : 0 <= probe_outside;
  lo_disj : probe_outside + 32 <= scratch \/ scratch + 4096 <= probe_outside;
  lo_res : is_u64 resume_load /\ is_u64 resume_store;
}.

Section Runs.
Context {U H : Type} `{!UartDev U, !UartSpec U, !HartDev H, !PmpDev H, !PmpSpec H}.
Abbreviation vr := (vruns (U:=U) (G:=pglob) p_view).

Lemma put_probe_runs name s0 s1 s2 s3 s4 s5 s6 f c cs v :
  no_nul (c_lit name) = true ->
  is_u64 s2 -> is_u64 s3 -> is_u64 s4 -> is_u64 s5 -> is_u64 s6 ->
  vr (put_probe name) v (PGlob [s0; s1; s2; s3; s4; s5; s6] f c cs) tt
     (probe_text name s6 s2 s3 s4 s5) v (PGlob [s0; s1; s2; s3; s4; s5; s6] f c cs).
Proof.
  intros Hn H2 H3 H4 H5 H6. unfold put_probe, probe_text.
  vuse (vruns_prints _ _ _ _ _ (prints_lit name Hn)). pmrun.
Qed.

Context (scratch probe_outside pmp_save pmp_trap_entry resume_load resume_store t1_load t1_store : Z).
Hypothesis Hlay : layout_ok scratch probe_outside resume_load resume_store.

Lemma scratch_u64 : is_u64 scratch.
Proof. destruct Hlay. unfold is_u64. lia. Qed.

Lemma control_scratch_runs ck gs addrs m hid ms g :
  (forall msg v g, vr (ck true msg) v g tt [] v (gs g)) ->
  vr (control_scratch scratch ck) (PView (entries_off addrs) m hid ms) g tt
     (lit "control: scratch readable/writable before PMP: ok\n")
     (PView (entries_off addrs) (filled 1 4 scratch (fun i => u8 (0xA5 + i)) m) hid ms) (Nat.iter 4 gs g).
Proof.
  intros Hck. unfold control_scratch.
  assert (forall i k, 0 <= i -> pmp_allows 0 (entries_off addrs) k (scratch + Z.of_nat 1 * i) (Z.of_nat 1) = true) as Ha.
  { intros i k Hi. apply off_allows; [apply entries_off_off|]. destruct Hlay. lia. }
  vquietly vr_fill; [intros i Hi; apply Ha; lia|].
  vquietly vr_verify; [intros i Hi; split; [apply Ha; lia|]|apply Hck|pmstep].
  apply (filled_at 1 4 scratch (fun i => u8 (0xA5 + i))); [lia|]. apply (Z.mod_pos_bound _ 256). lia.
Qed.

(** The entries do not bind aligned doublewords outside the region. *)
Lemma control_outside8_runs ck gs a es m hid ms g :
  (forall msg v g, vr (ck true msg) v g tt [] v (gs g)) ->
  (forall k x, (x - probe_outside) mod 8 = 0 -> 0 <= x -> x + 8 <= scratch \/ scratch + 4096 <= x ->
     pmp_allows 0 (a :: es) k x 8 = true) ->
  vr (control_outside probe_outside ck) (PView (a :: es) m hid ms) g tt
     (lit "control: address outside region still accessible: ok\n")
     (PView (a :: es) (filled 8 4 probe_outside OUTSIDE_WORD m) hid ms) (Nat.iter 4 gs g).
Proof.
  intros Hck Hes. unfold control_outside.
  assert (forall i k, 0 <= i < 4 ->
    pmp_allows 0 (a :: es) k (probe_outside + Z.of_nat 8 * i) (Z.of_nat 8) = true) as Ha.
  { intros i k Hi. destruct Hlay. change (Z.of_nat 8) with 8. apply Hes; [|lia..].
    replace (probe_outside + 8 * i - probe_outside) with (i * 8) by lia. now apply Z.mod_mul. }
  vquietly vr_fill; [intros i Hi; apply Ha; lia|].
  vquietly vr_verify; [intros i Hi; split; [apply Ha; lia|]|apply Hck|pmstep].
  apply (filled_at 8 4 probe_outside OUTSIDE_WORD); [lia|]. apply u64_range.
Qed.

Lemma test_load_runs s0 s1 s2 s3 s4 s5 s6 f c cs v :
  pmp_allows 0 (pv_es v) ALoad scratch 4 = false ->
  vr (test_load scratch resume_load t1_load) v (PGlob [s0; s1; s2; s3; s4; s5; s6] f c cs) tt
     (probe_text "load:  seen=" 1 5 (u64 (resume_load - 4)) scratch resume_load) (returned v)
     (PGlob [s0; t1_load; 5; u64 (resume_load - 4); scratch; resume_load; 1] f c cs).
Proof.
  intros Hd. unfold test_load. pose proof scratch_u64. destruct Hlay as [_ _ _ _ _ [Hr _]].
  vquietly probe_ld_traps; [cbn; lia|reflexivity|exact Hd|].
  rewrite <-(app_nil_r (probe_text _ _ _ _ _ _)).
  vuse put_probe_runs; [reflexivity|u64c|apply u64_range|assumption|assumption|u64c|]. pmrun.
Qed.

Lemma test_store_runs s0 s1 s2 s3 s4 s5 s6 f c cs v :
  pmp_allows 0 (pv_es v) AStore scratch 4 = false ->
  vr (test_store scratch resume_store t1_store) v (PGlob [s0; s1; s2; s3; s4; s5; s6] f c cs) tt
     (probe_text "store: seen=" 1 7 (u64 (resume_store - 4)) scratch resume_store) (returned v)
     (PGlob [s0; t1_store; 7; u64 (resume_store - 4); scratch; resume_store; 1] f c cs).
Proof.
  intros Hd. unfold test_store. pose proof scratch_u64. destruct Hlay as [_ _ _ _ _ [_ Hr]].
  vquietly probe_st_traps; [cbn; lia|reflexivity|exact Hd|].
  rewrite <-(app_nil_r (probe_text _ _ _ _ _ _)).
  vuse put_probe_runs; [reflexivity|u64c|apply u64_range|assumption|assumption|u64c|]. pmrun.
Qed.

Definition pmp_config_text : list Z :=
  lit "config: pmpaddr0=" ++ fmt_hex (napot4k scratch) ++ lit " (NAPOT 4 KiB at " ++ fmt_hex scratch ++
  lit ") pmpcfg0=0x98 (entry0: L=1 A=NAPOT R=W=X=0)\nconfig: pmpcfg0 readback=0x98\nconfig: pmpcfg0 after clear attempt=0x98 (lock holds)\n".

Lemma pmp_program_entry_runs a0 addrs m hid ms g : length addrs = 7%nat ->
  vr (pmp_program_entry scratch) (PView (entries_off (a0 :: addrs)) m hid ms) g tt pmp_config_text
     (PView ((0x98, napot4k scratch) :: entries_off addrs) m hid ms) g.
Proof.
  intros Hlen. pose proof scratch_u64. pose proof (aligned_land scratch) as Hal. destruct Hlay.
  pose proof (napot4k_u64 scratch ltac:(assumption) ltac:(assumption) ltac:(assumption)).
  eapply vruns_conv.
  - unfold pmp_program_entry. change (Z.lor (Z.shiftr scratch 2) 511) with (napot4k scratch).
    pmstep; [rewrite Hal by assumption; reflexivity|]. do 7 pmstep.
    unfold pv_set_es. cbn [pv_es pv_mem pv_hartid pv_mstatus]. unfold PMPCFG0_ENTRY0.
    rewrite program_napot by assumption. pmstep. cbn [pv_es]. rewrite read_cfg_entry0. do 5 pmstep.
    unfold pv_set_es. cbn [pv_es pv_mem pv_hartid pv_mstatus]. rewrite clear_locked by reflexivity.
    pmstep. cbn [pv_es]. rewrite read_cfg_entry0. pmrun.
  - reflexivity.
  - unfold pmp_config_text. generalize (fmt_hex (napot4k scratch)) (fmt_hex scratch). intros l1 l2.
    vm_compute. reflexivity.
  - reflexivity.
  - reflexivity.
Qed.

Lemma pmp_verdict_pass v g : fails g = 0 ->
  vr pmp_verdict v g tt (lit "RESULT: PASS (load mcause=5, store mcause=7)\n") v g.
Proof. intros Hf. unfold pmp_verdict. pmstep. rewrite Hf. cbn [Z.eqb]. pmstep. Qed.

Definition pmp_log (hid : Z) : list Z :=
  lit "pmp-denial: PMP no-access region test\nhart mhartid=" ++ fmt_dec hid ++
  lit "\ncontrol: scratch readable/writable before PMP: ok\n" ++ pmp_config_text ++
  lit "control: address outside region still accessible: ok\n" ++
  probe_text "load:  seen=" 1 5 (u64 (resume_load - 4)) scratch resume_load ++
  probe_text "store: seen=" 1 7 (u64 (resume_store - 4)) scratch resume_store ++
  lit "RESULT: PASS (load mcause=5, store mcause=7)\ndone\n".

(** On every hart that implements PMP, and wherever the linker places
    the buffers, the denial test runs to its end and prints exactly this log:
    the locked entry reads back 0x98 and survives the clearing write, the
    load traps with cause 5 and the store with cause 7, each with [mepc] on
    the faulting instruction and [mtval] on the scratch page, and the verdict
    is PASS with no failed check.  The refused store changes nothing: scratch
    still holds the control pattern. *)
Theorem pmp_main_passes a0 addrs m hid ms :
  length addrs = 7%nat -> is_u64 hid ->
  vmain_sends (U:=U) p_view
    (pmp_main scratch probe_outside pmp_save pmp_trap_entry resume_load resume_store t1_load t1_store)
    (PView (entries_off (a0 :: addrs)) m hid ms) pmp_boot_glob (pmp_log hid)
    (fun v g => fails g = 0 /\ pv_es v = (0x98, napot4k scratch) :: entries_off addrs /\
       forall i, 0 <= i < 4 -> pv_mem v (scratch + i) = 0xA5 + i).
Proof.
  intros Hlen Hhid. unfold pmp_main. apply vmain_sends_intro.
  2: { unfold pmp_log, pmp_config_text, probe_text. text_bytes. }
  pose proof Hlay as [Hal Hlo Hhi Hout Hdis [Hr1 Hr2]].
  do 3 eexists. split; [|split].
  - do 5 pmstep.
    vuse (control_scratch_runs check id); [intros; now apply check_ok|]. do 2 pmstep.
    vuse pmp_program_entry_runs; [exact Hlen|].
    vuse (control_outside8_runs check id); [intros; now apply check_ok| |].
    { intros k x _ Hx Hd. rewrite region_passes by assumption. apply off_allows; [apply entries_off_off|exact Hx]. }
    cbn [Nat.iter nat_rect]. unfold id, pmp_boot_glob. cbn [replicate].
    vuse test_load_runs; [apply region_denies; (assumption || lia)|].
    vuse test_store_runs; [apply region_denies; (assumption || lia)|].
    vuse pmp_verdict_pass; [reflexivity|]. pmrun.
  - unfold pmp_log. rewrite <-?app_assoc. reflexivity.
  - cbn [returned pv_set_mstatus pv_es pv_mem fails]. split; [reflexivity|]. split; [reflexivity|]. intros i Hi.
    rewrite (filled_other 8) by lia.
    pose proof (filled_at 1 4 scratch (fun i => u8 (0xA5 + i)) m i ltac:(lia)) as Hf.
    cbn [ld_bytes] in Hf. change (Z.of_nat 1) with 1 in Hf. rewrite Z.mul_1_l, Z.mul_0_r, Z.add_0_r in Hf. rewrite Hf.
    + unfold u8. apply Z.mod_small. lia.
    + apply (Z.mod_pos_bound _ 256). lia.
Qed.

(** ** The lock-bit test *)

(** The entries after the all-ones write of [pmpcfg0]. *)
Definition entries_ones (addrs : list Z) : list (Z * Z) := map (pair (warl 255)) addrs.

Lemma allones_locked a addrs : length addrs = 7%nat ->
  write_cfg warl PLB_ALLONES ((0x98, a) :: entries_off addrs) = (0x98, a) :: entries_ones addrs.
Proof.
  intros Hlen. apply list_eq. intros i. unfold write_cfg. rewrite list_lookup_imap.
  destruct i as [|i]; [reflexivity|].
  change (((0x98, a) :: entries_off addrs) !! S i) with (entries_off addrs !! i).
  change (((0x98, a) :: entries_ones addrs) !! S i) with (entries_ones addrs !! i).
  unfold entries_off, entries_ones. change (@map Z (Z * Z)) with (@fmap list _ Z (Z * Z)).
  rewrite !list_lookup_fmap. destruct (addrs !! i) eqn:Ei; [|reflexivity].
  apply lookup_lt_Some in Ei. cbn -[warl cfg_byte cfg_L PLB_ALLONES]. change (cfg_L 0) with false. cbn iota.
  do 2 f_equal. f_equal. rewrite Hlen in Ei.
  do 7 (destruct i as [|i]; [reflexivity|]). lia.
Qed.

Lemma warl_255 : 0 <= warl 255 < 256 /\ cfg_A (warl 255) = 3 /\ cfg_R (warl 255) = true /\ cfg_W (warl 255) = true.
Proof.
  split; [apply warl_range; lia|]. pose proof (warl_fields 255 eq_refl ltac:(lia)) as Hf.
  assert (forall i, Z.testbit 0x9f i = true -> Z.testbit (warl 255) i = true) as Hb.
  { intros i Hi. assert (Z.testbit (Z.land (warl 255) 0x9f) i = true) as Ht by (rewrite Hf; exact Hi).
    rewrite Z.land_spec in Ht. now apply andb_true_iff in Ht as [Ht _]. }
  unfold cfg_R, cfg_W. rewrite !Hb by reflexivity. split; [|auto].
  unfold cfg_A. apply Z.bits_inj'. intros i Hi. rewrite Z.land_spec, Z.shiftr_spec by exact Hi.
  destruct (Z.eq_dec i 0) as [->|]; [now rewrite Hb|]. destruct (Z.eq_dec i 1) as [->|]; [now rewrite Hb|].
  rewrite (Z.bits_above_log2 3 i), andb_false_r; [reflexivity|lia|cbn; lia].
Qed.

Lemma ones_allow prev addrs k x : Forall (fun a => 0 <= a) addrs -> x mod 8 = 0 ->
  pmp_allows prev (entries_ones addrs) k x 8 = true.
Proof.
  intros Ha Hx. destruct warl_255 as (_ & HA & HR & HW). unfold entries_ones. revert prev.
  induction Ha as [|a l Ha Hl IH]; intros prev; [reflexivity|]. cbn [map].
  apply napot_permits; [exact Ha|exact HA| |exact Hx|apply IH].
  destruct k; cbn [permits]; rewrite ?HR, ?HW; apply orb_true_r.
Qed.

(** What [pmpcfg0] reads after the all-ones write. *)
Definition cfg_after_ones (addrs : list Z) : Z :=
  read_cfg ((0x98, napot4k scratch) :: entries_ones addrs).

Lemma entries_ones_bytes addrs : Forall (fun e : Z * Z => 0 <= e.1 < 256) (entries_ones addrs).
Proof. unfold entries_ones. pose proof warl_255 as [Hw _]. induction addrs; cbn; auto. Qed.

Lemma cfg_after_ones_ok addrs : length addrs = 7%nat ->
  is_u64 (cfg_after_ones addrs) /\ Z.land (cfg_after_ones addrs) 0xFF = 0x98 /\
  Z.land (Z.shiftr (cfg_after_ones addrs) 8) 0xFF = warl 255.
Proof.
  intros Hlen. unfold cfg_after_ones. split; [|split].
  - assert (length ((0x98, napot4k scratch) :: entries_ones addrs) = 8%nat) as H8
      by (cbn; unfold entries_ones; rewrite length_map, Hlen; reflexivity).
    pose proof (read_cfg_range ((0x98, napot4k scratch) :: entries_ones addrs)) as Hr. rewrite H8 in Hr.
    apply Hr. constructor; [cbn; lia|apply entries_ones_bytes].
  - apply read_cfg_entry. lia.
  - rewrite read_cfg_tail by lia. destruct addrs as [|a addrs]; [discriminate|]. cbn [entries_ones map].
    apply read_cfg_entry. apply warl_255.
Qed.

Definition plb_config_text : list Z :=
  lit "config: pmpaddr0=" ++ fmt_hex (napot4k scratch) ++ lit " (NAPOT 4 KiB at " ++ fmt_hex scratch ++
  lit ") pmpcfg0 entry0=0x98 (L=1 A=NAPOT R=W=X=0)\nconfig: pmpaddr0 readback=" ++ fmt_hex (napot4k scratch) ++
  lit "\nconfig: pmpcfg0 readback=0x98\n".

Lemma plb_program_entry_runs a0 addrs m hid ms s f c cs : length addrs = 7%nat -> 0 <= c < 1000 ->
  vr (plb_program_entry scratch) (PView (entries_off (a0 :: addrs)) m hid ms) (PGlob s f c cs) tt plb_config_text
     (PView ((0x98, napot4k scratch) :: entries_off addrs) m hid ms) (PGlob s f (c + 3) cs).
Proof.
  intros Hlen Hc. pose proof scratch_u64. pose proof (aligned_land scratch) as Hal. destruct Hlay.
  pose proof (napot4k_u64 scratch ltac:(assumption) ltac:(assumption) ltac:(assumption)).
  eapply vruns_conv.
  - unfold plb_program_entry. change (Z.lor (Z.shiftr scratch 2) 511) with (napot4k scratch).
    pmstep; [rewrite Hal by assumption; reflexivity|]. do 7 pmstep.
    unfold pv_set_es. cbn [pv_es pv_mem pv_hartid pv_mstatus]. unfold PLB_ENTRY0. pmstep.
    unfold pv_set_es. cbn [pv_es pv_mem pv_hartid pv_mstatus].
    rewrite program_napot by assumption. pmstep. cbn [pv_es].
    change (read_addr 0 ((152, napot4k scratch) :: entries_off addrs)) with (napot4k scratch). do 5 pmstep.
    cbn [pv_es]. rewrite read_cfg_entry0. pmrun.
  - reflexivity.
  - unfold plb_config_text. generalize (fmt_hex (napot4k scratch)) (fmt_hex scratch). intros l1 l2.
    vm_compute. reflexivity.
  - reflexivity.
  - unfold set_checks. cbn [save fails checks csum]. f_equal. u64_norm. lia.
Qed.

Definition plb_lock_text (addrs : list Z) : list Z :=
  lit "lock:   pmpcfg0 after all-ones write=" ++ fmt_hex (cfg_after_ones addrs) ++
  lit "\nlock:   entry0 byte unchanged (0x98); entries 1-7 read 0x" ++ fmt_hex (warl 255) ++
  lit " (unlocked, write accepted)\nlock:   pmpaddr0 after all-ones write=" ++ fmt_hex (napot4k scratch) ++
  lit "\n".

Lemma plb_lock_holds_runs addrs m hid ms s f c cs : length addrs = 7%nat -> 0 <= c < 1000 ->
  vr (plb_lock_holds scratch) (PView ((0x98, napot4k scratch) :: entries_off addrs) m hid ms) (PGlob s f c cs) tt
     (plb_lock_text addrs) (PView ((0x98, napot4k scratch) :: entries_ones addrs) m hid ms) (PGlob s f (c + 2) cs).
Proof.
  intros Hlen Hc. destruct (cfg_after_ones_ok addrs Hlen) as (H64 & Hlo8 & Hnext). destruct Hlay.
  pose proof (napot4k_u64 scratch ltac:(assumption) ltac:(assumption) ltac:(assumption)) as Hnu.
  assert (is_u64 (warl 255)) as Hw by (pose proof warl_255 as [Hw _]; unfold is_u64; lia).
  eapply vruns_conv.
  - unfold plb_lock_holds. change (Z.lor (Z.shiftr scratch 2) 511) with (napot4k scratch).
    pmstep. unfold pv_set_es. cbn [pv_es pv_mem pv_hartid pv_mstatus]. rewrite allones_locked by exact Hlen.
    pmstep. cbn [pv_es]. fold (cfg_after_ones addrs). do 3 pmstep. pmstep; [now rewrite Hlo8|].
    rewrite Hnext. do 4 pmstep. unfold pv_set_es. cbn [pv_es pv_mem pv_hartid pv_mstatus].
    change (write_addr 0 PLB_ALLONES ((152, napot4k scratch) :: entries_ones addrs))
      with ((152, napot4k scratch) :: entries_ones addrs).
    pmstep. cbn [pv_es].
    change (read_addr 0 ((152, napot4k scratch) :: entries_ones addrs)) with (napot4k scratch). pmrun.
  - reflexivity.
  - unfold plb_lock_text. generalize (fmt_hex (napot4k scratch)) (fmt_hex (cfg_after_ones addrs)) (fmt_hex (warl 255)).
    intros l1 l2 l3. vm_compute. reflexivity.
  - reflexivity.
  - unfold set_checks. cbn [save fails checks csum]. f_equal. u64_norm. lia.
Qed.

Lemma plb_test_load_runs s0 s1 s2 s3 s4 s5 s6 f c cs v : 0 <= c < 1000 ->
  pmp_allows 0 (pv_es v) ALoad scratch 4 = false ->
  vr (plb_test_load scratch resume_load t1_load) v (PGlob [s0; s1; s2; s3; s4; s5; s6] f c cs) tt
     (probe_text "load:  traps=" 1 5 (u64 (resume_load - 4)) scratch resume_load) (returned v)
     (PGlob [s0; t1_load; 5; u64 (resume_load - 4); scratch; resume_load; 1] f (c + 4) cs).
Proof.
  intros Hc Hd. unfold plb_test_load. pose proof scratch_u64. destruct Hlay as [_ _ _ _ _ [Hr _]].
  eapply vruns_conv.
  - vquietly probe_ld_traps; [cbn; lia|reflexivity|exact Hd|].
    vuse put_probe_runs; [reflexivity|u64c|apply u64_range|assumption|assumption|u64c|]. pmrun.
  - reflexivity.
  - now rewrite !app_nil_r.
  - reflexivity.
  - unfold set_checks. cbn [save fails checks csum]. f_equal. u64_norm. lia.
Qed.

Lemma plb_verdict_pass v g : fails g = 0 -> checks g = 17 ->
  vr plb_verdict v g tt (lit "checks=17 fails=0\nRESULT: PASS (lock holds; load mcause=5)\n") v g.
Proof.
  intros Hf Hc. unfold plb_verdict. eapply vruns_conv.
  - do 2 pmstep. rewrite Hc. do 3 pmstep. rewrite Hf. do 3 pmstep. rewrite Hf. cbn [Z.eqb]. pmstep.
  - reflexivity.
  - vm_compute. reflexivity.
  - reflexivity.
  - reflexivity.
Qed.

Definition plb_log (hid : Z) (addrs : list Z) : list Z :=
  lit "pmp-lock-bit: PMP lock-bit persistence test\nhart mhartid=" ++ fmt_dec hid ++
  lit "\ncontrol: scratch readable/writable before PMP: ok\n" ++ plb_config_text ++ plb_lock_text addrs ++
  lit "control: address outside region still accessible: ok\n" ++
  probe_text "load:  traps=" 1 5 (u64 (resume_load - 4)) scratch resume_load ++
  lit "checks=17 fails=0\nRESULT: PASS (lock holds; load mcause=5)\ndone\n".

(** C17: The lock-bit test on every hart that implements PMP: all-ones writes
    to [pmpcfg0] and [pmpaddr0] leave the locked entry as programmed (the
    other entries take what the hart makes of 0xFF), memory outside the
    region stays accessible under the seven entries that write switches on,
    the load of the locked page traps exactly once with cause 5, and the log
    ends with 17 checks, 0 failures and PASS. *)
Theorem plb_main_passes a0 addrs m hid ms :
  length addrs = 7%nat -> Forall (fun a => 0 <= a) addrs -> probe_outside mod 8 = 0 -> is_u64 hid ->
  vmain_sends (U:=U) p_view
    (plb_main scratch probe_outside pmp_save pmp_trap_entry resume_load t1_load)
    (PView (entries_off (a0 :: addrs)) m hid ms) pmp_boot_glob (plb_log hid addrs)
    (fun v g => fails g = 0 /\ checks g = 17 /\ head (pv_es v) = Some (0x98, napot4k scratch)).
Proof.
  intros Hlen Haddrs Hal8 Hhid. unfold plb_main. apply vmain_sends_intro.
  2: { unfold plb_log, plb_config_text, plb_lock_text, probe_text. text_bytes. }
  pose proof Hlay as [Hal Hlo Hhi Hout Hdis [Hr1 Hr2]].
  do 3 eexists. split; [|split].
  - do 5 pmstep.
    vuse (control_scratch_runs check_counted); [intros; now apply check_counted_ok|]. do 2 pmstep.
    cbn [Nat.iter nat_rect]. unfold set_checks, pmp_boot_glob. cbn [save fails checks csum replicate].
    vuse plb_program_entry_runs; [exact Hlen|vm_compute; split; congruence|].
    vuse plb_lock_holds_runs; [exact Hlen|vm_compute; split; congruence|].
    vuse (control_outside8_runs check_counted); [intros; now apply check_counted_ok| |].
    { intros k x Hx8 Hx Hd. rewrite region_passes by assumption. apply ones_allow; [exact Haddrs|].
      replace x with (x - probe_outside + probe_outside) by lia.
      now rewrite Z.add_mod, Hx8, Hal8 by lia. }
    cbn [Nat.iter nat_rect]. unfold set_checks. cbn [save fails checks csum].
    vuse plb_test_load_runs; [vm_compute; split; congruence|apply region_denies; (assumption || lia)|].
    vuse plb_verdict_pass; [reflexivity|vm_compute; reflexivity|]. pmrun.
  - unfold plb_log. rewrite <-?app_assoc. reflexivity.
  - cbn [pv_es fails checks head]. split_and!; reflexivity.
Qed.
End Runs.

Lemma demo_layout : layout_ok 0x80004000 0x80006000 0x80000200 0x80000300.
Proof. constructor; try (vm_compute; congruence); [right; lia|split; u64c]. Qed.

Lemma pmp_main_passes_witness :
  vmain_sends (U:=LogUart) (H:=RefHart) p_view
    (pmp_main 0x80004000 0x80006000 0x80008000 0x80000100 0x80000200 0x80000300 0 0)
    (PView (entries_off (replicate 8 0)) (fun _ => 0) 0 0) pmp_boot_glob
    (pmp_log 0x80004000 0x80000200 0x80000300 0) (fun v g => fails g = 0).
Proof.
  intros u h Hv.
  destruct (pmp_main_passes (U:=LogUart) (H:=RefHart) 0x80004000 0x80006000 0x80008000 0x80000100
    0x80000200 0x80000300 0 0 demo_layout 0 (replicate 7 0) (fun _ => 0) 0 0 eq_refl ltac:(u64c) u h Hv)
    as (u' & h' & g' & E & Ht & Hr & Hf & _).
  exists u', h', g'. auto.
Defined.

Lemma plb_main_passes_witness :
  vmain_sends (U:=LogUart) (H:=RefHart) p_view
    (plb_main 0x80004000 0x80006000 0x80008000 0x80000100 0x80000200 0)
    (PView (entries_off (replicate 8 0)) (fun _ => 0) 0 0) pmp_boot_glob
    (plb_log (H:=RefHart) 0x80004000 0x80000200 0 (replicate 7 0)) (fun v g => fails g = 0).
Proof.
  intros u h Hv.
  destruct (plb_main_passes (U:=LogUart) (H:=RefHart) 0x80004000 0x80006000 0x80008000 0x80000100
    0x80000200 0x80000300 0 demo_layout 0 (replicate 7 0) (fun _ => 0) 0 0 eq_refl
    ltac:(repeat constructor; lia) eq_refl ltac:(u64c) u h Hv)
    as (u' & h' & g' & E & Ht & Hr & Hf & _).
  exists u', h', g'. auto.
Defined.
