(* ===== verification/PmpRange.v ===== *)
(** * The PMP TOR boundary and NAPOT size tests (src/pmp-tor/,
    src/pmp-napot-size/)

    Both probe single bytes on either side of region boundaries.  The
    theorems: on every hart that implements PMP the boundary is where the
    encoding says, to the byte, and the programs print PASS. *)

From Stdlib Require Import ZArith Lia String.
From stdpp Require Import base list.
From S2P Require Import Prelude Uart Hart Run View Pmp PmpDenial.

Definition PMPCFG0_TOR_LAYOUT : Z := 0x880F.
Definition PMPCFG0_ENTRY1_LOCKED : Z := 0x88.
Definition PMP_L_NAPOT_DENY : Z := 0x98.
Definition NAPOT_SIZE_4K : Z := 0x1FF.
Definition NAPOT_SIZE_64K : Z := 0x1FFF.

(** The 64 KiB buffer, as a loop count. *)
Definition SCRATCH_64K : nat := Z.to_nat 65536.
Definition SCRATCH_4K : nat := Z.to_nat 4096.

Lemma scratch_64k : Z.of_nat SCRATCH_64K = 65536.
Proof. unfold SCRATCH_64K. now rewrite Z2Nat.id. Qed.

Section Programs.
Context {U H : Type} `{!UartDev U, !HartDev H, !PmpDev H}.
Abbreviation W := (world U H pglob).
(** Addresses the linker chooses; for the [n]th call of [test_lbu], the
    address of its resume label and what [t1] holds before the load. *)
Context (scratch probe_outside far_sentinel save_addr trap_entry : Z) (resume t1 : nat -> Z).

(** The inline assembly of [test_lbu]: the load, and the spill of the loaded
    byte when it does not trap. *)
Definition probe_lbu (n : nat) (addr : Z) : prog W unit :=
  r <- probe_ld mark_seen 1 (resume n) (u64 (resume n - 8)) (t1 n) addr ;;
  match r with Some x => gset_ (set_save 1 x) | None => ret tt end.

Definition put_lbu (addr : Z) : prog W unit :=
  uputs "lbu @" ;; uart_put_hex addr ;;
  uputs ": seen=" ;; x <- saved 6 ;; uart_put_dec x ;;
  uputs " mcause=" ;; x <- saved 2 ;; uart_put_hex x ;;
  uputs " mepc=" ;; x <- saved 3 ;; uart_put_hex x ;;
  uputs " mtval=" ;; x <- saved 4 ;; uart_put_hex x ;;
  uputs " resume-8=" ;; x <- saved 5 ;; uart_put_hex (u64 (x - 8)) ;;
  uputs " byte=" ;; x <- saved 1 ;; uart_put_hex (Z.land x 0xFF) ;;
  uputs "\n".

(** The checks of a probe that must trap. *)
Definition check_trapped (addr : Z) : prog W unit :=
  x <- saved 6 ;; check (x =? 1) "expected trap did not happen" ;;
  x <- saved 2 ;; check (x =? 5) "mcause != 5 (load access fault)" ;;
  x <- saved 3 ;; y <- saved 5 ;; check (x =? u64 (y - 8)) "mepc != address of faulting lbu" ;;
  x <- saved 4 ;; check (x =? addr) "mtval != faulting address".

(** [test_lbu] of pns_main.c; that of pmt_main.c is the one with [check_val]. *)
Definition pns_test_lbu (n : nat) (addr : Z) (expect_trap : bool) (expect_val : Z) (check_val : bool) : prog W unit :=
  probe_lbu n addr ;;
  put_lbu addr ;;
  if expect_trap then check_trapped addr
  else
    x <- saved 6 ;; check (x =? 0) "unexpected trap on allowed access" ;;
    when check_val
      (x <- saved 1 ;; check (Z.land x 0xFF =? expect_val) "allowed byte read back wrong value").

Definition pmt_test_lbu (n : nat) (addr : Z) (expect_trap : bool) (expect_val : Z) : prog W unit :=
  probe_lbu n addr ;;
  put_lbu addr ;;
  if expect_trap then check_trapped addr
  else
    x <- saved 6 ;; check (x =? 0) "unexpected trap on allowed access" ;;
    x <- saved 1 ;; check (Z.land x 0xFF =? expect_val) "allowed byte read back wrong value".

(** ** pmt_main.c *)

Definition pmt_controls : prog W unit :=
  check (Z.land scratch 0xFFF =? 0) "scratch start not 4 KiB aligned" ;;
  fill_array 1 SCRATCH_4K scratch (fun i => u8 (Z.land i 0xFF)) ;;
  verify_array 1 SCRATCH_4K scratch (fun i => u8 (Z.land i 0xFF)) check
    "scratch not writable before PMP programming" ;;
  uputs "control: scratch readable/writable before PMP: ok\n" ;;
  vst 1 (u64 (scratch - 1)) 0x5A ;;
  x <- vld 1 (u64 (scratch - 1)) ;;
  check (x =? 0x5A) "sentinel byte below boundary not writable" ;;
  uputs "control: sentinel 0x5A at boundary-1: ok\n".

Definition pmt_program : prog W unit :=
  let start := scratch in
  let end_ := u64 (start + 4096) in
  let pmpaddr0 := Z.shiftr start 2 in
  let pmpaddr1 := Z.shiftr end_ 2 in
  uputs "config: pmpaddr0=" ;; uart_put_hex pmpaddr0 ;;
  uputs " (TOR [0, " ;; uart_put_hex start ;;
  uputs ") allow) pmpaddr1=" ;; uart_put_hex pmpaddr1 ;;
  uputs " (TOR [" ;; uart_put_hex start ;;
  uputs ", " ;; uart_put_hex end_ ;;
  uputs ") deny,locked)\n" ;;
  csr_write_pmpaddr0 pmpaddr0 ;;
  csr_write_pmpaddr1 pmpaddr1 ;;
  csr_write_pmpcfg0 PMPCFG0_TOR_LAYOUT ;;
  rb <- csr_read_pmpcfg0 ;;
  uputs "config: pmpcfg0 readback=" ;; uart_put_hex rb ;; uputs "\n" ;;
  check (rb =? PMPCFG0_TOR_LAYOUT) "pmpcfg0 readback != 0x880F" ;;
  csr_write_pmpcfg0 0 ;;
  rb <- csr_read_pmpcfg0 ;;
  uputs "config: pmpcfg0 after clear attempt=" ;; uart_put_hex rb ;;
  uputs " (entry1 byte 0x88 locked, entry0 byte cleared)\n" ;;
  check (Z.land rb 0xFF00 =? Z.shiftl PMPCFG0_ENTRY1_LOCKED 8) "locked entry1 pmpcfg byte was modified" ;;
  check (Z.land rb 0xFF =? 0) "unlocked entry0 pmpcfg byte did not clear".

Definition pmt_verdict : prog W unit :=
  n <- gget fails ;;
  if n =? 0 then uputs "RESULT: PASS (boundary-1 readable, boundary traps mcause=5)\n"
  else uputs "RESULT: FAIL (" ;; uart_put_dec (u64 n) ;; uputs " checks failed)\n".

Definition pmt_main : prog W unit :=
  uart_init ;;
  uputs "pmp-tor-boundary: PMP TOR boundary test\n" ;;
  uputs "hart mhartid=" ;; x <- csr_read_mhartid ;; uart_put_dec x ;; uputs "\n" ;;
  pmt_controls ;;
  csrw "mtvec" trap_entry ;;
  csrw "mscratch" save_addr ;;
  pmt_program ;;
  control_outside probe_outside check ;;
  pmt_test_lbu 0 (u64 (scratch - 1)) false 0x5A ;;
  pmt_test_lbu 1 scratch true 0 ;;
  pmt_verdict ;;
  uputs "done\n" ;;
  park.

(** ** pns_main.c *)

Definition pns_controls : prog W unit :=
  let base := scratch in
  check (Z.land base 0xFFFF =? 0) "scratch start not 64 KiB aligned" ;;
  check (Z.land (Z.shiftr base 2) 0x3FFF =? 0) "base>>2 low 14 bits not clear" ;;
  fill_array 1 SCRATCH_64K scratch (fun i => u8 (Z.land i 0xFF)) ;;
  verify_array 1 SCRATCH_64K scratch (fun i => u8 (Z.land i 0xFF)) check
    "scratch not writable before PMP programming" ;;
  vst 1 far_sentinel 0xA5 ;;
  x <- vld 1 far_sentinel ;;
  check (x =? 0xA5) "sentinel outside region not writable" ;;
  check ((far_sentinel <? base) || (u64 (base + 0x10000) <=? far_sentinel))
    "far_sentinel landed inside the PMP region" ;;
  uputs "control: scratch pattern + sentinel writable before PMP: ok\n".

Definition pns_put_config : prog W unit :=
  let base := scratch in
  let pmpaddr_4k := Z.lor (Z.shiftr base 2) NAPOT_SIZE_4K in
  let pmpaddr_64k := Z.lor (Z.shiftr base 2) NAPOT_SIZE_64K in
  uputs "config: base=" ;; uart_put_hex base ;;
  uputs " pmpaddr0=" ;; uart_put_hex pmpaddr_4k ;;
  uputs " (NAPOT 4 KiB [" ;; uart_put_hex base ;;
  uputs ", " ;; uart_put_hex (u64 (base + 0x1000)) ;;
  uputs ")) pmpaddr1=" ;; uart_put_hex pmpaddr_64k ;;
  uputs " (NAPOT 64 KiB [" ;; uart_put_hex base ;;
  uputs ", " ;; uart_put_hex (u64 (base + 0x10000)) ;;
  uputs "))\n".

Definition pns_phase_a : prog W unit :=
  let pmpaddr_4k := Z.lor (Z.shiftr scratch 2) NAPOT_SIZE_4K in
  uputs "phase A: entry0 = locked NAPOT 4 KiB deny\n" ;;
  csr_write_pmpaddr0 pmpaddr_4k ;;
  csr_write_pmpcfg0 PMP_L_NAPOT_DENY ;;
  rb <- csr_read_pmpaddr0 ;;
  uputs "config: pmpaddr0 readback=" ;; uart_put_hex rb ;; uputs "\n" ;;
  check (rb =? pmpaddr_4k) "pmpaddr0 readback mismatch" ;;
  rb <- csr_read_pmpcfg0 ;;
  uputs "config: pmpcfg0 readback=" ;; uart_put_hex rb ;; uputs "\n" ;;
  check (rb =? PMP_L_NAPOT_DENY) "pmpcfg0 readback != 0x98".

Definition pns_phase_b : prog W unit :=
  let pmpaddr_64k := Z.lor (Z.shiftr scratch 2) NAPOT_SIZE_64K in
  uputs "phase B: entry1 = locked NAPOT 64 KiB deny\n" ;;
  csr_write_pmpaddr1 pmpaddr_64k ;;
  csr_write_pmpcfg0 (Z.lor PMP_L_NAPOT_DENY (Z.shiftl PMP_L_NAPOT_DENY 8)) ;;
  rb <- csr_read_pmpaddr1 ;;
  uputs "config: pmpaddr1 readback=" ;; uart_put_hex rb ;; uputs "\n" ;;
  check (rb =? pmpaddr_64k) "pmpaddr1 readback mismatch" ;;
  rb <- csr_read_pmpcfg0 ;;
  uputs "config: pmpcfg0 readback=" ;; uart_put_hex rb ;; uputs " (locked byte0 must hold 0x98)\n" ;;
  check (rb =? Z.lor PMP_L_NAPOT_DENY (Z.shiftl PMP_L_NAPOT_DENY 8)) "pmpcfg0 readback != 0x9898".

Definition pns_verdict : prog W unit :=
  n <- gget fails ;;
  if n =? 0 then uputs "RESULT: PASS (boundary moved 4 KiB -> 64 KiB with the encoding)\n"
  else uputs "RESULT: FAIL (" ;; uart_put_dec (u64 n) ;; uputs " checks failed)\n".

Definition pns_main : prog W unit :=
  uart_init ;;
  uputs "pmp-napot-size: PMP NAPOT size-decoding test\n" ;;
  uputs "hart mhartid=" ;; x <- csr_read_mhartid ;; uart_put_dec x ;; uputs "\n" ;;
  pns_controls ;;
  csrw "mtvec" trap_entry ;;
  csrw "mscratch" save_addr ;;
  pns_put_config ;;
  pns_phase_a ;;
  control_outside probe_outside check ;;
  pns_test_lbu 0 (u64 (scratch + 0x2000)) false 0 true ;;
  pns_test_lbu 1 (u64 (scratch + 0x0FFF)) true 0 false ;;
  pns_test_lbu 2 (u64 (scratch + 0x1000)) false 0 true ;;
  pns_phase_b ;;
  pns_test_lbu 3 (u64 (scratch + 0x2000)) true 0 false ;;
  pns_test_lbu 4 (u64 (scratch + 0xFFFF)) true 0 false ;;
  pns_test_lbu 5 (u64 (scratch + 0x10000)) false 0 false ;;
  pns_test_lbu 6 far_sentinel false 0xA5 true ;;
  pns_verdict ;;
  uputs "done\n" ;;
  park.
End Programs.

(** One byte of a filled buffer. *)
Lemma filled_byte n a f m i : 0 <= i < Z.of_nat n -> 0 <= f i < 256 -> filled 1 n a f m (a + i) = f i.
Proof.
  intros Hi Hf. pose proof (filled_at 1 n a f m i Hi Hf) as H.
  cbn [ld_bytes] in H. rewrite Z.mul_0_r, Z.add_0_r in H. now replace (Z.of_nat 1 * i) with i in H by lia.
Qed.

(** ** The probes *)

Definition lbu_text (addr seen mcause mepc mtval resume byte : Z) : list Z :=
  lit "lbu @" ++ fmt_hex addr ++ lit ": seen=" ++ fmt_dec seen ++ lit " mcause=" ++ fmt_hex mcause ++
  lit " mepc=" ++ fmt_hex mepc ++ lit " mtval=" ++ fmt_hex mtval ++
  lit " resume-8=" ++ fmt_hex (u64 (resume - 8)) ++ lit " byte=" ++ fmt_hex (Z.land byte 0xFF) ++ lit "\n".

Lemma land_ff_u64 x : is_u64 (Z.land x 0xFF).
Proof.
  change 0xFF with (Z.ones 8). rewrite Z.land_ones by lia. change (2 ^ 8) with 256.
  pose proof (Z.mod_pos_bound x 256). unfold is_u64. lia.
Qed.
#[export] Hint Resolve land_ff_u64 : word.

Section Probes.
Context {U H : Type} `{!UartDev U, !UartSpec U, !HartDev H, !PmpDev H, !PmpSpec H}.
Abbreviation vr := (vruns (U:=U) (G:=pglob) p_view).
Context (resume t1 : nat -> Z).
Hypothesis Hres : forall n, is_u64 (resume n).

(** The save area holds words: what earlier traps left there is printed. *)
Definition saved_words (s2 s3 s4 : Z) : Prop := is_u64 s2 /\ is_u64 s3 /\ is_u64 s4.

Lemma put_lbu_runs addr s0 s1 s2 s3 s4 s5 s6 f c cs v :
  is_u64 addr -> saved_words s2 s3 s4 -> is_u64 s5 -> is_u64 s6 ->
  vr (put_lbu addr) v (PGlob [s0; s1; s2; s3; s4; s5; s6] f c cs) tt
     (lbu_text addr s6 s2 s3 s4 s5 s1) v (PGlob [s0; s1; s2; s3; s4; s5; s6] f c cs).
Proof. intros Ha (H2 & H3 & H4) H5 H6. unfold put_lbu, lbu_text. pmrun. Qed.

Lemma probe_lbu_ok n addr s0 s1 s2 s3 s4 s5 s6 f c cs v :
  pmp_allows 0 (pv_es v) ALoad addr 1 = true ->
  vr (probe_lbu resume t1 n addr) v (PGlob [s0; s1; s2; s3; s4; s5; s6] f c cs) tt [] v
     (PGlob [s0; ld_bytes 1 addr (pv_mem v); s2; s3; s4; resume n; 0] f c cs).
Proof. intros Ha. unfold probe_lbu. vquietly probe_ld_ok; [exact Ha|]. cbn iota. vstep. Qed.

Lemma probe_lbu_traps n addr s0 s1 s2 s3 s4 s5 s6 f c cs v :
  pmp_allows 0 (pv_es v) ALoad addr 1 = false ->
  vr (probe_lbu resume t1 n addr) v (PGlob [s0; s1; s2; s3; s4; s5; s6] f c cs) tt [] (returned v)
     (PGlob [s0; t1 n; 5; u64 (resume n - 8); addr; resume n; 1] f c cs).
Proof.
  intros Ha. unfold probe_lbu. vquietly probe_ld_traps; [cbn; lia|reflexivity|exact Ha|]. cbn iota. vstep.
Qed.

(** A test whose access is refused. *)
Lemma pns_test_denied n addr e cv s0 s1 s2 s3 s4 s5 s6 f c cs v :
  is_u64 addr -> pmp_allows 0 (pv_es v) ALoad addr 1 = false ->
  vr (pns_test_lbu resume t1 n addr true e cv) v (PGlob [s0; s1; s2; s3; s4; s5; s6] f c cs) tt
     (lbu_text addr 1 5 (u64 (resume n - 8)) addr (resume n) (t1 n)) (returned v)
     (PGlob [s0; t1 n; 5; u64 (resume n - 8); addr; resume n; 1] f c cs).
Proof.
  intros Hu Ha. unfold pns_test_lbu. vquietly probe_lbu_traps; [exact Ha|].
  rewrite <-(app_nil_r (lbu_text _ _ _ _ _ _ _)).
  vuse put_lbu_runs; [exact Hu|split; [u64c|split; [apply u64_range|exact Hu]]|apply Hres|u64c|].
  cbn iota. unfold check_trapped. pmrun.
Qed.

(** A test whose access is allowed and, if checked, reads [e]. *)
Lemma pns_test_allowed n addr e (cv : bool) s0 s1 s2 s3 s4 s5 s6 f c cs v :
  is_u64 addr -> saved_words s2 s3 s4 -> pmp_allows 0 (pv_es v) ALoad addr 1 = true ->
  (cv = true -> pv_mem v addr = e /\ 0 <= e < 256) ->
  vr (pns_test_lbu resume t1 n addr false e cv) v (PGlob [s0; s1; s2; s3; s4; s5; s6] f c cs) tt
     (lbu_text addr 0 s2 s3 s4 (resume n) (pv_mem v addr)) v
     (PGlob [s0; pv_mem v addr; s2; s3; s4; resume n; 0] f c cs).
Proof.
  intros Hu Hs Ha He. unfold pns_test_lbu. vquietly probe_lbu_ok; [exact Ha|].
  replace (ld_bytes 1 addr (pv_mem v)) with (pv_mem v addr) by (cbn [ld_bytes]; lia).
  rewrite <-(app_nil_r (lbu_text _ _ _ _ _ _ _)).
  vuse put_lbu_runs; [exact Hu|exact Hs|apply Hres|u64c|].
  cbn iota. do 2 pmstep. destruct cv; [|now apply vruns_unless]. destruct (He eq_refl) as [Hm Hr].
  apply vruns_when; [|reflexivity]. pmstep. apply check_ok. rewrite Hm. change 0xFF with (Z.ones 8).
  rewrite Z.land_ones, Z.mod_small by lia. apply Z.eqb_refl.
Qed.

(** [test_lbu] of the TOR test is the checking variant of the other. *)
Lemma pmt_test_lbu_pns n addr t e : pmt_test_lbu (U:=U) resume t1 n addr t e = pns_test_lbu resume t1 n addr t e true.
Proof. reflexivity. Qed.
End Probes.

(** ** The TOR entries *)

Lemma quarter x : x mod 4096 = 0 -> 0 <= x < 2 ^ 56 ->
  Z.shiftl (Z.shiftr x 2) 2 = x /\ 0 <= Z.shiftr x 2 < 2 ^ 54.
Proof.
  intros Hm Hx. rewrite Z.shiftl_mul_pow2, Z.shiftr_div_pow2 by lia. change (2 ^ 2) with 4.
  pose proof (Z.div_mod x 4096 ltac:(lia)). pose proof (Z.div_mod x 4 ltac:(lia)).
  pose proof (Z.mod_pos_bound x 4). lia.
Qed.

Definition tor_entries (start : Z) (addrs : list Z) : list (Z * Z) :=
  (0, Z.shiftr start 2) :: (0x88, Z.shiftr (start + 4096) 2) :: entries_off addrs.

Lemma tor_allows start addrs k x n : start mod 4096 = 0 -> 0 <= start -> start + 4096 < 2 ^ 56 -> 0 < n -> 0 <= x ->
  x + n <= start \/ start + 4096 <= x \/ start <= x < start + 4096 ->
  pmp_allows 0 (tor_entries start addrs) k x n = negb ((start <=? x) && (x <? start + 4096)).
Proof.
  intros Hm H0 Hh Hn Hx Hd. unfold tor_entries. cbn [pmp_allows].
  change (pmp_range 0 0 (Z.shiftr start 2)) with (0, 0). cbv iota beta.
  destruct (Z.ltb_spec x 0); [lia|]. cbn [andb].
  unfold pmp_range. change (cfg_A 136) with 1. cbn [Z.eqb Pos.eqb].
  destruct (quarter start Hm ltac:(lia)) as [-> _].
  destruct (quarter (start + 4096)) as [-> _]; [now rewrite <-Z.add_mod_idemp_r, Z_mod_same_full, Z.add_0_r by lia|lia|].
  assert (negb (cfg_L 136) || permits 136 k = false) as -> by now destruct k.
  rewrite andb_false_r.
  destruct (Z.ltb_spec x (start + 4096)), (Z.leb_spec start x), (Z.ltb_spec start (x + n)); cbn [andb negb]; try lia;
    try reflexivity; apply off_allows; auto using entries_off_off.
Qed.

(** Both entries as programmed, before the clearing write. *)
Definition tor_both (start : Z) (addrs : list Z) : list (Z * Z) :=
  (0x0F, Z.shiftr start 2) :: (0x88, Z.shiftr (start + 4096) 2) :: entries_off addrs.

Lemma quarters start : start mod 4096 = 0 -> 0 <= start -> start + 4096 < 2 ^ 56 ->
  0 <= Z.shiftr start 2 < 2 ^ 54 /\ 0 <= Z.shiftr (start + 4096) 2 < 2 ^ 54.
Proof.
  intros Hm Hs0 Hh. destruct (quarter start Hm ltac:(lia)) as [_ Hp0].
  destruct (quarter (start + 4096)) as [_ Hp1]; [now rewrite <-Z.add_mod_idemp_r, Z_mod_same_full, Z.add_0_r by lia|lia|].
  lia.
Qed.

Lemma program_tor `{PmpSpec H} start a0 a1 addrs :
  start mod 4096 = 0 -> 0 <= start -> start + 4096 < 2 ^ 56 -> length addrs = 6%nat ->
  write_cfg warl PMPCFG0_TOR_LAYOUT (write_addr 1 (Z.shiftr (start + 4096) 2)
    (write_addr 0 (Z.shiftr start 2) (entries_off (a0 :: a1 :: addrs)))) = tor_both start addrs.
Proof.
  intros Hm Hs0 Hh Hlen. destruct (quarters start Hm Hs0 Hh) as [Hp0 Hp1]. unfold tor_both.
  set (p0 := Z.shiftr start 2) in *. set (p1 := Z.shiftr (start + 4096) 2) in *. clearbody p0 p1.
  assert (write_addr 1 p1 (write_addr 0 p0 (entries_off (a0 :: a1 :: addrs))) =
    (0, p0) :: (0, p1) :: entries_off addrs) as ->.
  { destruct addrs as [|a2 addrs]; [discriminate|].
    cbn -[Z.pow Z.modulo]. unfold write_addr. cbn -[Z.pow Z.modulo]. now rewrite !Z.mod_small by lia. }
  do 7 (destruct addrs as [|? addrs]; try discriminate Hlen).
  cbn -[warl cfg_byte cfg_L]. change (cfg_L 0) with false. cbn iota.
  repeat match goal with |- context [cfg_byte ?v ?i] =>
    let b := eval vm_compute in (cfg_byte v i) in change (cfg_byte v i) with b end.
  now rewrite !warl_legal.
Qed.

Lemma tor_cleared `{PmpSpec H} start addrs : length addrs = 6%nat ->
  write_cfg warl 0 (tor_both start addrs) = tor_entries start addrs /\
  write_cfg warl 0 (tor_entries start addrs) = tor_entries start addrs.
Proof.
  intros Hlen. unfold tor_both, tor_entries. generalize (Z.shiftr start 2) (Z.shiftr (start + 4096) 2). intros p0 p1.
  do 7 (destruct addrs as [|? addrs]; try discriminate Hlen).
  cbn -[warl cfg_byte cfg_L]. change (cfg_L 15) with false. change (cfg_L 136) with true. change (cfg_L 0) with false. cbn iota.
  repeat match goal with |- context [cfg_byte ?v ?i] =>
      let b := eval vm_compute in (cfg_byte v i) in change (cfg_byte v i) with b end.
  now rewrite !warl_legal.
Qed.

Lemma tor_read_cfg start addrs : length addrs = 6%nat ->
  read_cfg (tor_both start addrs) = 0x880F /\ read_cfg (tor_entries start addrs) = 0x8800.
Proof.
  intros Hlen. do 7 (destruct addrs as [|? addrs]; try discriminate Hlen). split; reflexivity.
Qed.

(** Where the linker may put the buffers of the TOR test. *)
Record pmt_layout (scratch probe_outside : Z) : Prop := {
  pl_al : scratch mod 4096 = 0;
  pl_lo : 0 < scratch;
  pl_hi : scratch + 4096 < 2 ^ 56;
  pl_out : 0 <= probe_outside;
  pl_disj : probe_outside + 32 <= scratch - 1 \/ scratch + 4096 <= probe_outside;
}.

Section Tor.
Context {U H : Type} `{!UartDev U, !UartSpec U, !HartDev H, !PmpDev H, !PmpSpec H}.
Abbreviation vr := (vruns (U:=U) (G:=pglob) p_view).
Context (scratch probe_outside save_addr trap_entry : Z) (resume t1 : nat -> Z).
Hypothesis Hres : forall n, is_u64 (resume n).
Hypothesis Hlay : pmt_layout scratch probe_outside.

Definition pmt_pattern (i : Z) : Z := u8 (Z.land i 0xFF).
Definition pmt_mem1 (m : Z -> Z) : Z -> Z :=
  st_bytes 1 (scratch - 1) 0x5A (filled 1 SCRATCH_4K scratch pmt_pattern m).

Lemma pattern_range i : 0 <= pmt_pattern i < 256.
Proof. apply (Z.mod_pos_bound _ 256). lia. Qed.

Lemma below_u64 : u64 (scratch - 1) = scratch - 1.
Proof. destruct Hlay. apply u64_small. unfold is_u64. lia. Qed.

Lemma pmt_controls_runs addrs m hid ms g :
  vr (pmt_controls scratch) (PView (entries_off addrs) m hid ms) g tt
     (lit "control: scratch readable/writable before PMP: ok\ncontrol: sentinel 0x5A at boundary-1: ok\n")
     (PView (entries_off addrs) (pmt_mem1 m) hid ms) g.
Proof.
  destruct Hlay.
  assert (forall x k, 0 <= x -> pmp_allows 0 (entries_off addrs) k x 1 = true) as Ha
    by (intros; apply off_allows; auto using entries_off_off).
  unfold pmt_controls. rewrite below_u64. eapply vruns_conv.
  - pmstep; [rewrite (aligned_land scratch) by assumption; reflexivity|].
    vquietly vr_fill; [intros i Hi; apply Ha; lia|].
    vquietly (vr_verify _ _ _ _ _ _ id);
      [intros i Hi; split; [apply Ha; lia|]|intros; now apply check_ok|].
    { apply (filled_at 1 SCRATCH_4K scratch pmt_pattern); [exact Hi|apply pattern_range]. }
    pmstep. vquietly vr_st; [apply Ha; lia|]. vquietly vr_ld; [apply Ha; lia|].
    vquietly check_ok; [|pmstep]. apply Z.eqb_eq. apply (ld_st_same 1). lia.
  - reflexivity.
  - vm_compute. reflexivity.
  - reflexivity.
  - generalize SCRATCH_4K. intros k. induction k; [reflexivity|exact IHk].
Qed.

Definition pmt_config_text : list Z :=
  lit "config: pmpaddr0=" ++ fmt_hex (Z.shiftr scratch 2) ++ lit " (TOR [0, " ++ fmt_hex scratch ++
  lit ") allow) pmpaddr1=" ++ fmt_hex (Z.shiftr (scratch + 4096) 2) ++ lit " (TOR [" ++ fmt_hex scratch ++
  lit ", " ++ fmt_hex (scratch + 4096) ++
  lit ") deny,locked)\nconfig: pmpcfg0 readback=0x880f\nconfig: pmpcfg0 after clear attempt=0x8800 (entry1 byte 0x88 locked, entry0 byte cleared)\n".

Lemma pmt_program_runs a0 a1 addrs m hid ms g : length addrs = 6%nat ->
  vr (pmt_program scratch) (PView (entries_off (a0 :: a1 :: addrs)) m hid ms) g tt pmt_config_text
     (PView (tor_entries scratch addrs) m hid ms) g.
Proof.
  intros Hlen. destruct Hlay.
  pose proof (program_tor scratch a0 a1 addrs pl_al0 ltac:(lia) pl_hi0 Hlen) as Ep.
  destruct (tor_cleared (H:=H) scratch addrs Hlen) as [Ec _]. destruct (tor_read_cfg scratch addrs Hlen) as [Er Ec2].
  destruct (quarters scratch pl_al0 ltac:(lia) pl_hi0) as [Hp0 Hp1].
  assert (u64 (scratch + 4096) = scratch + 4096) as Ee by (apply u64_small; unfold is_u64; lia).
  assert (is_u64 scratch /\ is_u64 (scratch + 4096) /\ is_u64 (Z.shiftr scratch 2) /\
    is_u64 (Z.shiftr (scratch + 4096) 2)) as (? & ? & ? & ?) by (unfold is_u64; lia).
  eapply vruns_conv.
  - unfold pmt_program. rewrite Ee. do 14 pmstep. unfold pv_set_es. cbn [pv_es pv_mem pv_hartid pv_mstatus].
    rewrite Ep. pmstep. cbn [pv_es]. rewrite Er. do 5 pmstep. unfold pv_set_es. cbn [pv_es pv_mem pv_hartid pv_mstatus]. rewrite Ec.
    pmstep. cbn [pv_es]. rewrite Ec2. pmrun.
  - reflexivity.
  - unfold pmt_config_text. generalize (fmt_hex (Z.shiftr scratch 2)) (fmt_hex scratch)
      (fmt_hex (Z.shiftr (scratch + 4096) 2)) (fmt_hex (scratch + 4096)). intros. vm_compute. reflexivity.
  - reflexivity.
  - reflexivity.
Qed.

Lemma pmt_verdict_pass v g : fails g = 0 ->
  vr pmt_verdict v g tt (lit "RESULT: PASS (boundary-1 readable, boundary traps mcause=5)\n") v g.
Proof. intros Hf. unfold pmt_verdict. pmstep. rewrite Hf. cbn [Z.eqb]. pmstep. Qed.

Lemma tor_outside addrs k x n : 0 < n -> 0 <= x -> x + n <= scratch \/ scratch + 4096 <= x ->
  pmp_allows 0 (tor_entries scratch addrs) k x n = true.
Proof.
  intros Hn Hx Hd. destruct Hlay. rewrite tor_allows by lia.
  destruct (Z.leb_spec scratch x), (Z.ltb_spec x (scratch + 4096)); (reflexivity || lia).
Qed.

Definition pmt_log (hid : Z) : list Z :=
  lit "pmp-tor-boundary: PMP TOR boundary test\nhart mhartid=" ++ fmt_dec hid ++
  lit "\ncontrol: scratch readable/writable before PMP: ok\ncontrol: sentinel 0x5A at boundary-1: ok\n" ++
  pmt_config_text ++
  lit "control: address outside region still accessible: ok\n" ++
  lbu_text (scratch - 1) 0 0 0 0 (resume 0) 0x5A ++
  lbu_text scratch 1 5 (u64 (resume 1 - 8)) scratch (resume 1) (t1 1) ++
  lit "RESULT: PASS (boundary-1 readable, boundary traps mcause=5)\ndone\n".

(** The TOR boundary is exact.  On every hart that implements PMP the
    two entries read back 0x880F, the clearing write clears only the unlocked
    one, the last byte below the boundary reads back its sentinel without a
    trap, the first byte of the denied region traps with cause 5 and exact
    [mepc] and [mtval], and the log ends with PASS. *)
Theorem pmt_main_passes a0 a1 addrs m hid ms :
  length addrs = 6%nat -> is_u64 hid ->
  vmain_sends (U:=U) p_view (pmt_main scratch probe_outside save_addr trap_entry resume t1)
    (PView (entries_off (a0 :: a1 :: addrs)) m hid ms) pmp_boot_glob (pmt_log hid)
    (fun v g => fails g = 0 /\ pv_es v = tor_entries scratch addrs).
Proof.
  intros Hlen Hhid. unfold pmt_main. apply vmain_sends_intro.
  2: { unfold pmt_log, pmt_config_text, lbu_text. text_bytes. }
  pose proof Hlay as [Hal Hlo Hhi Hout Hdis].
  assert (layout_ok scratch probe_outside 0 0) as Hl by (constructor; first [assumption | lia | split; u64c]).
  assert (is_u64 scratch /\ is_u64 (scratch - 1)) as [Hu0 Hu1] by (unfold is_u64; lia).
  assert (forall f, filled 8 4 probe_outside f (pmt_mem1 m) (scratch - 1) = 0x5A) as Hsent.
  { intros f. rewrite filled_other by lia. unfold pmt_mem1. cbn [st_bytes]. unfold upd. now rewrite Z.eqb_refl. }
  do 3 eexists. split; [|split].
  - do 5 pmstep. vuse pmt_controls_runs. do 2 pmstep. vuse pmt_program_runs; [exact Hlen|].
    vuse (control_outside8_runs scratch probe_outside 0 0 Hl check id); [intros; now apply check_ok| |].
    { intros k x _ Hx Hd. apply tor_outside; [lia|exact Hx|exact Hd]. }
    cbn [Nat.iter nat_rect]. unfold id, pmp_boot_glob. cbn [replicate]. rewrite below_u64, !pmt_test_lbu_pns.
    vuse pns_test_allowed; [exact Hres|exact Hu1|split_and!; u64c|apply tor_outside; lia| |].
    { intros _. cbn [pv_mem]. rewrite Hsent. lia. }
    cbn [pv_mem]. rewrite Hsent.
    vuse pns_test_denied; [exact Hres|exact Hu0| |].
    { change (pmp_allows 0 (tor_entries scratch addrs) ALoad scratch 1 = false). rewrite tor_allows by lia.
      destruct (Z.leb_spec scratch scratch), (Z.ltb_spec scratch (scratch + 4096)); (reflexivity || lia). }
    vuse pmt_verdict_pass; [reflexivity|]. pmrun.
  - unfold pmt_log. cbn [pv_mem pv_hartid]. rewrite Hsent.
    generalize pmt_config_text (lbu_text (scratch - 1) 0 0 0 0 (resume 0) 0x5A)
      (lbu_text scratch 1 5 (u64 (resume 1 - 8)) scratch (resume 1) (t1 1)) (fmt_dec hid).
    intros. vm_compute. reflexivity.
  - split; reflexivity.
Qed.
End Tor.

(** ** The NAPOT size test *)

(** Where the linker may put its buffers: outside the 64 KiB region. *)
Record pns_layout (scratch probe_outside far_sentinel : Z) : Prop := {
  nl_al : scratch mod 65536 = 0;
  nl_lo : 0 <= scratch;
  nl_hi : scratch + 65536 < 2 ^ 56;
  nl_out : 0 <= probe_outside;
  nl_disj : probe_outside + 32 <= scratch \/ scratch + 65536 <= probe_outside;
  nl_far : 0 <= far_sentinel < 2 ^ 56;
  nl_far_out : far_sentinel < scratch \/ scratch + 65536 <= far_sentinel;
  nl_far_probe : far_sentinel < probe_outside \/ probe_outside + 32 <= far_sentinel;
}.

Section Napot.
Context {U H : Type} `{!UartDev U, !UartSpec U, !HartDev H, !PmpDev H, !PmpSpec H}.
Abbreviation vr := (vruns (U:=U) (G:=pglob) p_view).
Context (scratch probe_outside far_sentinel save_addr trap_entry : Z) (resume t1 : nat -> Z).
Hypothesis Hres : forall n, is_u64 (resume n).
Hypothesis Hlay : pns_layout scratch probe_outside far_sentinel.

Definition napot64k : Z := Z.lor (Z.shiftr scratch 2) NAPOT_SIZE_64K.

Lemma pns_al4k : scratch mod 4096 = 0.
Proof.
  destruct Hlay. apply Z.mod_divide; [lia|]. apply Z.mod_divide in nl_al0; [|lia].
  destruct nl_al0 as [q ->]. exists (16 * q). lia.
Qed.

Lemma napot64k_range prev : pmp_range prev 0x98 napot64k = (scratch, scratch + 65536).
Proof. destruct Hlay. apply (napot_range prev 0x98 scratch 13); [lia|reflexivity|assumption]. Qed.

Lemma scratch_quarter : Z.shiftr scratch 2 = scratch / 65536 * 2 ^ 14.
Proof.
  destruct Hlay. rewrite Z.shiftr_div_pow2 by lia. change (2 ^ 2) with 4.
  pose proof (Z.div_mod scratch 65536). symmetry. apply Z.div_unique_exact; lia.
Qed.

Lemma napot64k_small : 0 <= napot64k < 2 ^ 54.
Proof.
  unfold napot64k, NAPOT_SIZE_64K. rewrite scratch_quarter, lor_disjoint_add by lia.
  destruct Hlay. pose proof (Z.div_mod scratch 65536). lia.
Qed.

Definition phase_a_entries (a1 : Z) (addrs : list Z) : list (Z * Z) :=
  (0x98, napot4k scratch) :: entries_off (a1 :: addrs).
Definition phase_b_entries (addrs : list Z) : list (Z * Z) :=
  (0x98, napot4k scratch) :: (0x98, napot64k) :: entries_off addrs.

(** Phase A refuses exactly the first 4 KiB, phase B the whole 64 KiB. *)
Lemma phase_a_allows a1 addrs x : 0 <= x ->
  pmp_allows 0 (phase_a_entries a1 addrs) ALoad x 1 = negb ((scratch <=? x) && (x <? scratch + 4096)).
Proof.
  intros Hx. pose proof pns_al4k. destruct Hlay. unfold phase_a_entries.
  destruct (Z.leb_spec scratch x), (Z.ltb_spec x (scratch + 4096)); cbn [andb negb];
    try (apply region_denies; lia);
    rewrite region_passes by lia; apply off_allows; auto using entries_off_off.
Qed.

Lemma phase_b_allows addrs x : 0 <= x ->
  pmp_allows 0 (phase_b_entries addrs) ALoad x 1 = negb ((scratch <=? x) && (x <? scratch + 65536)).
Proof.
  intros Hx. pose proof pns_al4k. destruct Hlay. unfold phase_b_entries.
  assert (forall prev, pmp_allows prev ((0x98, napot64k) :: entries_off addrs) ALoad x 1 =
    negb ((scratch <=? x) && (x <? scratch + 65536))) as Hb.
  { intros prev. cbn [pmp_allows]. rewrite napot64k_range.
    change (negb (cfg_L 152) || permits 152 ALoad) with false. rewrite andb_false_r.
    destruct (Z.leb_spec scratch x), (Z.ltb_spec x (scratch + 65536)), (Z.ltb_spec scratch (x + 1));
      cbn [andb negb]; try lia; try reflexivity; apply off_allows; auto using entries_off_off. }
  destruct (decide (scratch <= x < scratch + 4096)) as [Hin|Hout].
  - rewrite region_denies by lia.
    destruct (Z.leb_spec scratch x), (Z.ltb_spec x (scratch + 65536)); (reflexivity || lia).
  - rewrite region_passes by lia. apply Hb.
Qed.

(** Both by the offset in the buffer. *)
Lemma phase_a_off a1 addrs i b : 0 <= i -> negb (i <? 4096) = b ->
  pmp_allows 0 (phase_a_entries a1 addrs) ALoad (scratch + i) 1 = b.
Proof.
  intros Hi <-. destruct Hlay. rewrite phase_a_allows by lia.
  destruct (Z.leb_spec scratch (scratch + i)), (Z.ltb_spec (scratch + i) (scratch + 4096)), (Z.ltb_spec i 4096);
    (reflexivity || lia).
Qed.
Lemma phase_b_off addrs i b : 0 <= i -> negb (i <? 65536) = b ->
  pmp_allows 0 (phase_b_entries addrs) ALoad (scratch + i) 1 = b.
Proof.
  intros Hi <-. destruct Hlay. rewrite phase_b_allows by lia.
  destruct (Z.leb_spec scratch (scratch + i)), (Z.ltb_spec (scratch + i) (scratch + 65536)), (Z.ltb_spec i 65536);
    (reflexivity || lia).
Qed.

Lemma program_phase_b a1 addrs : length addrs = 6%nat ->
  write_cfg warl 0x9898 (write_addr 1 napot64k (phase_a_entries a1 addrs)) = phase_b_entries addrs /\
  read_cfg (phase_b_entries addrs) = 0x9898.
Proof.
  intros Hlen. pose proof napot64k_small as Hs. unfold phase_a_entries, phase_b_entries.
  generalize dependent napot64k. intros n64 Hs. generalize (napot4k scratch). intros n4.
  assert (write_addr 1 n64 ((0x98, n4) :: entries_off (a1 :: addrs)) =
    (0x98, n4) :: (0, n64) :: entries_off addrs) as ->.
  { destruct addrs as [|a2 addrs]; [discriminate|]. unfold write_addr.
    cbn -[Z.pow Z.modulo]. now rewrite Z.mod_small by lia. }
  do 7 (destruct addrs as [|? addrs]; try discriminate Hlen). split; [|reflexivity].
  cbn -[warl cfg_byte cfg_L]. change (cfg_L 152) with true. change (cfg_L 0) with false. cbn iota.
  repeat match goal with |- context [cfg_byte ?v ?i] =>
      let b := eval vm_compute in (cfg_byte v i) in change (cfg_byte v i) with b end.
  now rewrite !warl_legal.
Qed.

(** Memory after the controls. *)
Definition pns_mem1 (m : Z -> Z) : Z -> Z :=
  st_bytes 1 far_sentinel 0xA5 (filled 1 SCRATCH_64K scratch pmt_pattern m).
Definition pns_mem2 (m : Z -> Z) : Z -> Z := filled 8 4 probe_outside OUTSIDE_WORD (pns_mem1 m).

Lemma pns_mem2_far m : pns_mem2 m far_sentinel = 0xA5.
Proof.
  destruct Hlay. unfold pns_mem2. rewrite filled_other by lia.
  unfold pns_mem1. cbn [st_bytes]. unfold upd. now rewrite Z.eqb_refl.
Qed.

Lemma pns_mem2_scratch m i : 0 <= i < 65536 -> pns_mem2 m (scratch + i) = pmt_pattern i.
Proof.
  intros Hi. destruct Hlay. unfold pns_mem2. rewrite filled_other by lia.
  unfold pns_mem1. rewrite st_bytes_other by lia.
  apply filled_byte; [now rewrite scratch_64k|apply pattern_range].
Qed.

Lemma pns_controls_runs addrs m hid ms g :
  vr (pns_controls scratch far_sentinel) (PView (entries_off addrs) m hid ms) g tt
     (lit "control: scratch pattern + sentinel writable before PMP: ok\n")
     (PView (entries_off addrs) (pns_mem1 m) hid ms) g.
Proof.
  pose proof Hlay as [Hal Hlo Hhi _ _ Hfar Hfo _].
  assert (forall x k, 0 <= x -> pmp_allows 0 (entries_off addrs) k x 1 = true) as Ha
    by (intros; apply off_allows; auto using entries_off_off).
  unfold pns_controls, pns_mem1. assert (forall n, Nat.iter n id g = g) as Hit by (induction n; auto).
  generalize SCRATCH_64K. intros n. eapply vruns_conv.
  - pmstep; [change 0xFFFF with (Z.ones 16); rewrite Z.land_ones by lia; change (2 ^ 16) with 65536; rewrite Hal; reflexivity|].
    pmstep; [change 0x3FFF with (Z.ones 14); rewrite Z.land_ones, scratch_quarter, Z.mod_mul by lia; reflexivity|].
    vquietly vr_fill; [intros i Hi; apply Ha; lia|].
    vquietly (vr_verify _ _ _ _ _ _ id);
      [intros i Hi; split; [apply Ha; lia|]|intros; now apply check_ok|].
    { apply (filled_at 1 n scratch pmt_pattern); [exact Hi|apply pattern_range]. }
    vquietly vr_st; [apply Ha; lia|]. vquietly vr_ld; [apply Ha; lia|].
    vquietly check_ok; [apply Z.eqb_eq; apply (ld_st_same 1); lia|].
    vquietly check_ok; [|pmstep]. rewrite u64_small by (unfold is_u64; lia).
    destruct (Z.ltb_spec far_sentinel scratch), (Z.leb_spec (scratch + 65536) far_sentinel); (reflexivity || lia).
  - reflexivity.
  - reflexivity.
  - reflexivity.
  - apply Hit.
Qed.

Definition pns_config_text : list Z :=
  lit "config: base=" ++ fmt_hex scratch ++ lit " pmpaddr0=" ++ fmt_hex (napot4k scratch) ++
  lit " (NAPOT 4 KiB [" ++ fmt_hex scratch ++ lit ", " ++ fmt_hex (scratch + 0x1000) ++
  lit ")) pmpaddr1=" ++ fmt_hex napot64k ++ lit " (NAPOT 64 KiB [" ++ fmt_hex scratch ++
  lit ", " ++ fmt_hex (scratch + 0x10000) ++ lit "))\n".

Lemma pns_words : is_u64 scratch /\ is_u64 (napot4k scratch) /\ is_u64 napot64k /\ is_u64 far_sentinel /\
  forall i, 0 <= i <= 65536 -> u64 (scratch + i) = scratch + i.
Proof.
  pose proof napot64k_small as H64. pose proof Hlay as [_ Hlo Hhi _ _ Hf _ _].
  split; [split; lia|]. split; [apply napot4k_u64; [apply pns_al4k|lia..]|]. split; [split; lia|].
  split; [split; lia|]. intros i Hi. apply u64_small. split; lia.
Qed.

Lemma pns_put_config_runs v g : vr (pns_put_config scratch) v g tt pns_config_text v g.
Proof.
  destruct pns_words as (? & ? & ? & ? & Hi). unfold pns_put_config, pns_config_text.
  change (Z.lor (Z.shiftr scratch 2) NAPOT_SIZE_4K) with (napot4k scratch).
  change (Z.lor (Z.shiftr scratch 2) NAPOT_SIZE_64K) with napot64k.
  assert (forall i, 0 <= i <= 65536 -> is_u64 (scratch + i)) as Hu
    by (intros i Hr; rewrite <-(Hi i Hr); apply u64_range).
  pose proof (Hu 0x1000 ltac:(lia)). pose proof (Hu 0x10000 ltac:(lia)).
  rewrite (Hi 0x1000), (Hi 0x10000) by lia. pmrun.
Qed.

Lemma pns_phase_a_runs a0 a1 addrs m hid ms g : length addrs = 6%nat ->
  vr (pns_phase_a scratch) (PView (entries_off (a0 :: a1 :: addrs)) m hid ms) g tt
     (lit "phase A: entry0 = locked NAPOT 4 KiB deny\nconfig: pmpaddr0 readback=" ++
      fmt_hex (napot4k scratch) ++ lit "\nconfig: pmpcfg0 readback=0x98\n")
     (PView (phase_a_entries a1 addrs) m hid ms) g.
Proof.
  intros Hlen. destruct pns_words as (? & ? & ? & ? & Hi). pose proof pns_al4k. destruct Hlay.
  unfold pns_phase_a. change (Z.lor (Z.shiftr scratch 2) NAPOT_SIZE_4K) with (napot4k scratch).
  eapply vruns_conv.
  - do 3 pmstep. unfold pv_set_es. cbn [pv_es pv_mem pv_hartid pv_mstatus]. unfold PMP_L_NAPOT_DENY.
    rewrite program_napot by (first [assumption | lia | cbn; lia]). pmstep. cbn [pv_es].
    change (read_addr 0 ((152, napot4k scratch) :: entries_off (a1 :: addrs))) with (napot4k scratch).
    do 4 pmstep. pmstep. cbn [pv_es]. rewrite read_cfg_entry0. pmrun.
  - reflexivity.
  - generalize (fmt_hex (napot4k scratch)). intros. vm_compute. reflexivity.
  - reflexivity.
  - reflexivity.
Qed.

Lemma pns_phase_b_runs a1 addrs m hid ms g : length addrs = 6%nat ->
  vr (pns_phase_b scratch) (PView (phase_a_entries a1 addrs) m hid ms) g tt
     (lit "phase B: entry1 = locked NAPOT 64 KiB deny\nconfig: pmpaddr1 readback=" ++
      fmt_hex napot64k ++ lit "\nconfig: pmpcfg0 readback=0x9898 (locked byte0 must hold 0x98)\n")
     (PView (phase_b_entries addrs) m hid ms) g.
Proof.
  intros Hlen. destruct pns_words as (? & ? & ? & ? & Hi). destruct (program_phase_b a1 addrs Hlen) as [Ew Er].
  unfold pns_phase_b. change (Z.lor (Z.shiftr scratch 2) NAPOT_SIZE_64K) with napot64k.
  change (Z.lor PMP_L_NAPOT_DENY (Z.shiftl PMP_L_NAPOT_DENY 8)) with 0x9898.
  eapply vruns_conv.
  - do 3 pmstep. unfold pv_set_es. cbn [pv_es pv_mem pv_hartid pv_mstatus]. rewrite Ew. pmstep. cbn [pv_es].
    change (read_addr 1 (phase_b_entries addrs)) with napot64k.
    do 5 pmstep. cbn [pv_es]. rewrite Er. pmrun.
  - reflexivity.
  - generalize (fmt_hex napot64k). intros. vm_compute. reflexivity.
  - reflexivity.
  - reflexivity.
Qed.

Lemma pns_verdict_pass v g : fails g = 0 ->
  vr pns_verdict v g tt (lit "RESULT: PASS (boundary moved 4 KiB -> 64 KiB with the encoding)\n") v g.
Proof. intros Hf. unfold pns_verdict. pmstep. rewrite Hf. cbn [Z.eqb]. pmstep. Qed.

(** The line of a refused, and of an allowed, probe; the latter shows what
    the last trap, if any, left in the save area. *)
Definition denied_line (n : nat) (x : Z) : list Z :=
  lbu_text x 1 5 (u64 (resume n - 8)) x (resume n) (t1 n).
Definition allowed_line (n : nat) (x mcause mepc mtval byte : Z) : list Z :=
  lbu_text x 0 mcause mepc mtval (resume n) byte.

Definition pns_log (hid : Z) (m : Z -> Z) : list Z :=
  lit "pmp-napot-size: PMP NAPOT size-decoding test\nhart mhartid=" ++ fmt_dec hid ++
  lit "\ncontrol: scratch pattern + sentinel writable before PMP: ok\n" ++ pns_config_text ++
  lit "phase A: entry0 = locked NAPOT 4 KiB deny\nconfig: pmpaddr0 readback=" ++
  fmt_hex (napot4k scratch) ++
  lit "\nconfig: pmpcfg0 readback=0x98\ncontrol: address outside region still accessible: ok\n" ++
  allowed_line 0 (scratch + 0x2000) 0 0 0 0 ++
  denied_line 1 (scratch + 0x0FFF) ++
  allowed_line 2 (scratch + 0x1000) 5 (u64 (resume 1 - 8)) (scratch + 0x0FFF) 0 ++
  lit "phase B: entry1 = locked NAPOT 64 KiB deny\nconfig: pmpaddr1 readback=" ++ fmt_hex napot64k ++
  lit "\nconfig: pmpcfg0 readback=0x9898 (locked byte0 must hold 0x98)\n" ++
  denied_line 3 (scratch + 0x2000) ++
  denied_line 4 (scratch + 0xFFFF) ++
  allowed_line 5 (scratch + 0x10000) 5 (u64 (resume 4 - 8)) (scratch + 0xFFFF) (pns_mem2 m (scratch + 0x10000)) ++
  allowed_line 6 far_sentinel 5 (u64 (resume 4 - 8)) (scratch + 0xFFFF) 0xA5 ++
  lit "RESULT: PASS (boundary moved 4 KiB -> 64 KiB with the encoding)\ndone\n".

(** The denied region is as large as the NAPOT encoding says.  With the
    4 KiB entry, bytes 0x2000 and 0x1000 of the buffer read back their
    pattern and byte 0xFFF traps; with the 64 KiB entry added (the locked
    byte of [pmpcfg0] holding), bytes 0x2000 and 0xFFFF trap while the first
    byte outside and the sentinel are readable.  The program prints PASS on
    every hart that implements PMP. *)
Theorem pns_main_passes a0 a1 addrs m hid ms :
  length addrs = 6%nat -> is_u64 hid ->
  vmain_sends (U:=U) p_view (pns_main scratch probe_outside far_sentinel save_addr trap_entry resume t1)
    (PView (entries_off (a0 :: a1 :: addrs)) m hid ms) pmp_boot_glob (pns_log hid m)
    (fun v g => fails g = 0 /\ pv_es v = phase_b_entries addrs).
Proof.
  intros Hlen Hhid. unfold pns_main. apply vmain_sends_intro.
  2: { unfold pns_log, pns_config_text, allowed_line, denied_line, lbu_text. text_bytes. }
  pose proof Hlay as [Hal Hlo Hhi Hout Hdis Hfar Hfo Hfp]. pose proof pns_al4k as Hal4.
  destruct pns_words as (Hs64 & _ & _ & Hf64 & Hi).
  assert (forall i, 0 <= i <= 65536 -> is_u64 (scratch + i)) as Hu
    by (intros i Hr; rewrite <-(Hi i Hr); apply u64_range).
  assert (layout_ok scratch probe_outside 0 0) as Hl by (constructor; first [assumption | lia | split; u64c]).
  pose proof (fun n => u64_range (resume n - 8)) as Hr8. assert (is_u64 5) as Hu5 by u64c.
  pose proof (Hu 0xFFF ltac:(lia)) as Hu1. pose proof (Hu 0xFFFF ltac:(lia)) as Hu2.
  assert (forall i, 0 <= i < 65536 -> i mod 256 = 0 -> true = true ->
    pns_mem2 m (scratch + i) = 0 /\ 0 <= 0 < 256) as Hpat.
  { intros i Hr Hz _. rewrite pns_mem2_scratch by exact Hr. split; [|lia]. unfold pmt_pattern, u8.
    change 0xFF with (Z.ones 8). rewrite Z.land_ones by lia. change (2 ^ 8) with 256. now rewrite Hz. }
  do 3 eexists. split; [|split].
  - do 5 pmstep. vuse pns_controls_runs. do 2 pmstep. vuse pns_put_config_runs.
    vuse pns_phase_a_runs; [exact Hlen|].
    vuse (control_outside8_runs scratch probe_outside 0 0 Hl check id); [intros; now apply check_ok| |].
    { intros k x _ Hx Hd. change (pmp_allows 0 (phase_a_entries a1 addrs) k x 8 = true).
      unfold phase_a_entries. rewrite region_passes by lia. apply off_allows; auto using entries_off_off. }
    cbn [Nat.iter nat_rect]. unfold id, pmp_boot_glob. cbn [replicate]. fold (pns_mem2 m).
    change ((152, napot4k scratch) :: entries_off (a1 :: addrs)) with (phase_a_entries a1 addrs).
    rewrite !Hi by lia.
    vuse pns_test_allowed; [exact Hres|apply Hu; lia|split_and!; u64c|now apply phase_a_off|refine (Hpat _ _ _); [lia|reflexivity]|].
    vuse pns_test_denied; [exact Hres|apply Hu; lia|now apply phase_a_off|].
    vuse pns_test_allowed; [exact Hres|apply Hu; lia|now split_and!; auto|now apply phase_a_off|refine (Hpat _ _ _); [lia|reflexivity]|].
    vuse pns_phase_b_runs; [exact Hlen|].
    vuse pns_test_denied; [exact Hres|apply Hu; lia|now apply phase_b_off|].
    vuse pns_test_denied; [exact Hres|apply Hu; lia|now apply phase_b_off|].
    vuse pns_test_allowed; [exact Hres|apply Hu; lia|now split_and!; auto|now apply phase_b_off|discriminate|].
    vuse pns_test_allowed; [exact Hres|exact Hf64|now split_and!; auto| |intros _; cbn [returned pv_set_mstatus pv_mem]; rewrite pns_mem2_far; lia|].
    { cbn [returned pv_set_mstatus pv_es]. rewrite phase_b_allows by lia.
      destruct (Z.leb_spec scratch far_sentinel), (Z.ltb_spec far_sentinel (scratch + 65536)); (reflexivity || lia). }
    vuse pns_verdict_pass; [reflexivity|]. pmrun.
  - cbn [returned pv_set_mstatus pv_mem pv_hartid]. rewrite pns_mem2_far, !pns_mem2_scratch by lia.
    unfold pns_log, allowed_line, denied_line.
    change (pmt_pattern 0x2000) with 0. change (pmt_pattern 0x1000) with 0.
    rewrite <-!app_assoc.
    repeat match goal with |- context [lbu_text ?a ?b ?c ?d ?e ?f ?g] => generalize (lbu_text a b c d e f g); intros end.
    generalize pns_config_text (fmt_hex (napot4k scratch)) (fmt_hex napot64k) (fmt_dec hid).
    intros. vm_compute. reflexivity.
  - split; reflexivity.
Qed.
End Napot.

(** A placement of buffers and labels. *)
Definition demo_resume (n : nat) : Z := 0x80000200 + 256 * Z.of_nat (n mod 8).

Lemma demo_resume_u64 n : is_u64 (demo_resume n).
Proof. pose proof (Nat.mod_upper_bound n 8). unfold demo_resume, is_u64. lia. Qed.

Lemma demo_pmt_layout : pmt_layout 0x80004000 0x80006000.
Proof. constructor; try lia; reflexivity. Qed.

Lemma demo_pns_layout : pns_layout 0x80010000 0x80006000 0x80007000.
Proof. constructor; try lia; reflexivity. Qed.

Lemma pmt_main_passes_witness :
  vmain_sends (U:=LogUart) (H:=RefHart) p_view
    (pmt_main 0x80004000 0x80006000 0x80008000 0x80000100 demo_resume (fun _ => 7))
    (PView (entries_off (replicate 8 0)) (fun _ => 0) 0 0) pmp_boot_glob
    (pmt_log 0x80004000 demo_resume (fun _ => 7) 0) (fun v g => fails g = 0).
Proof.
  intros u h Hv.
  destruct (pmt_main_passes (U:=LogUart) (H:=RefHart) 0x80004000 0x80006000 0x80008000 0x80000100
    demo_resume (fun _ => 7) demo_resume_u64 demo_pmt_layout 0 0 (replicate 6 0) (fun _ => 0) 0 0 eq_refl
    ltac:(u64c) u h Hv) as (u' & h' & g' & E & Ht & Hr & Hf & _).
  exists u', h', g'. auto.
Defined.

Lemma pns_main_passes_witness :
  vmain_sends (U:=LogUart) (H:=RefHart) p_view
    (pns_main 0x80010000 0x80006000 0x80007000 0x80008000 0x80000100 demo_resume (fun _ => 7))
    (PView (entries_off (replicate 8 0)) (fun _ => 0) 0 0) pmp_boot_glob
    (pns_log 0x80010000 0x80006000 0x80007000 demo_resume (fun _ => 7) 0 (fun _ => 0))
    (fun v g => fails g = 0).
Proof.
  intros u h Hv.
  destruct (pns_main_passes (U:=LogUart) (H:=RefHart) 0x80010000 0x80006000 0x80007000 0x80008000 0x80000100
    demo_resume (fun _ => 7) demo_resume_u64 demo_pns_layout 0 0 (replicate 6 0) (fun _ => 0) 0 0 eq_refl
    ltac:(u64c) u h Hv) as (u' & h' & g' & E & Ht & Hr & Hf & _).
  exists u', h', g'. auto.
Defined.
