(* ===== verification/PmpEdge.v ===== *)
(** * The PMP edge tests (src/pmp-tor-top/, src/pmp-tor-bottom/,
    src/pmp-na4-match/, src/pmp-na4-low-edge/)

    Four programs that place a locked no-access entry (TOR over a page, NA4
    over a word) and probe the bytes on both sides of one of its edges, with
    a count of checks, a running FNV-1a checksum of what was measured, a
    quiet window, and an attempt to undo the locked entries. *)

From Stdlib Require Import ZArith Lia String.
From stdpp Require Import base list.
From S2P Require Import Prelude Uart Hart Run View Pmp PmpDenial PmpRange.

Definition POISON64 : Z := 0xdeadbeefdeadbeef.
Definition FNV_BASIS : Z := 1469598103934665603.
Definition FNV_PRIME : Z := 1099511628211.
Definition VIRT_TEST_FINISHER : Z := 0x100000.
Definition FINISHER_PASS : Z := 0x5555.
Definition LSR_TEMT : Z := Z.shiftl 1 6.
Definition REGION_LEN : Z := 4096.
Definition PMPCFG0_LAYOUT : Z := 0x880F.
Definition PMPCFG0_LOCKED : Z := 0x8800.
Definition TOP_SENTINEL : Z := 0xa5.
Definition BOT_SENTINEL : Z := 0x5a.
Definition EXPECTED_BASE : Z := 0x80003000.
Definition NA4_CANARY : Z := 0x80002000.
Definition NA4_SECOND : Z := 0x80002004.
Definition LOW_CANARY : Z := 0x80002400.
Definition LOW_ADDR : Z := 0x800023fc.
Definition CANARY_WORD : Z := 0x41b2c3d4.
Definition SECOND_WORD : Z := 0x9f8e7d6c.
Definition LOW_WORD : Z := 0x12345678.
Definition NA4_CFG : Z := 0x90.

(** Iterations of the quiet window. *)
Definition QUIET_N : nat := Z.to_nat 10000.

Definition b2z (b : bool) : Z := if b then 1 else 0.

Definition edge_boot_glob : pglob := PGlob (replicate 8 0) 0 0 FNV_BASIS.

(** The trap record as the programs copy it out of the save area. *)
Record trap_rec : Type := TrapRec {
  r_seen : Z; r_cause : Z; r_epc : Z; r_tval : Z; r_resume : Z }.

(** Messages of the checks of a probe that must trap. *)
Record trap_msgs : Type := TrapMsgs {
  m_seen : string; m_cause : string; m_epc : string; m_tval : string; m_got : string }.

Section Programs.
Context {U H : Type} `{!UartDev U, !HartDev H, !PmpDev H}.
Abbreviation W := (world U H pglob).
(** The trap entry and save area; the resume label of the [n]th probe; the
    stack pointer [main] runs with. *)
Context (trap_entry save_addr sp_now : Z) (resume : nat -> Z).

(** ** Blocks the four programs share *)

(** [fold]: eight steps of FNV-1a. *)
Definition fold (v : Z) : prog W unit :=
  for_each (seq 0 8) (fun i =>
    c <- gget csum ;;
    gset_ (set_csum (Z.lxor c (Z.land (Z.shiftr v (Z.of_nat i * 8)) 0xff))) ;;
    c <- gget csum ;;
    gset_ (set_csum (u64 (c * FNV_PRIME)))).

Definition csr_read_mstatus : prog W Z := csrr "mstatus".

(** The trap entry also counts every trap in [save\[0\]]. *)
Definition edge_stub (t1 mcause mepc mtval : Z) : prog W unit :=
  take_trap 3 ;;
  gset_ (set_save 1 t1) ;; gset_ (set_save 2 mcause) ;; gset_ (set_save 3 mepc) ;;
  gset_ (set_save 4 mtval) ;;
  n <- saved 0 ;; gset_ (set_save 0 (u64 (n + 1))) ;;
  r <- saved 5 ;; csrw "mepc" r ;;
  gset_ (set_save 6 1) ;;
  mret.

Definition probe_load_byte (n : nat) (addr : Z) : prog W Z :=
  gset_ (set_save 5 (resume n)) ;;
  gset_ (set_save 6 0) ;;
  fun w => match p_ld 1 addr (w_hw w) with
           | Some x => Ret x w
           | None => (edge_stub POISON64 5 (u64 (resume n - 4)) addr ;; ret POISON64) w
           end.

(** All traps to M-mode, no interrupts. *)
Definition edge_setup : prog W unit :=
  csrw "mtvec" trap_entry ;;
  csrw "mscratch" save_addr ;;
  csrw "medeleg" 0 ;;
  csrw "mideleg" 0 ;;
  csrw "mie" 0 ;;
  csrc "mstatus" 8.

(** Boot values, of the TOR tests (which also read [pmpaddr1]) and of the
    NA4 tests. *)
Definition boot_report2 : prog W (Z * Z * Z * Z) :=
  boot_addr0 <- csr_read_pmpaddr0 ;;
  boot_addr1 <- csr_read_pmpaddr1 ;;
  boot_cfg0 <- csr_read_pmpcfg0 ;;
  boot_mstatus <- csr_read_mstatus ;;
  uputs "boot: pmpaddr0=" ;; uart_put_hex boot_addr0 ;;
  uputs " pmpaddr1=" ;; uart_put_hex boot_addr1 ;;
  uputs " pmpcfg0=" ;; uart_put_hex boot_cfg0 ;;
  uputs " mstatus=" ;; uart_put_hex boot_mstatus ;;
  uputs "\n" ;;
  check_counted (boot_addr0 =? 0) "pmpaddr0 nonzero at boot" ;;
  check_counted (boot_addr1 =? 0) "pmpaddr1 nonzero at boot" ;;
  check_counted (boot_cfg0 =? 0) "pmpcfg0 nonzero at boot" ;;
  fold boot_addr0 ;; fold boot_addr1 ;; fold boot_cfg0 ;; fold boot_mstatus ;;
  ret (boot_addr0, boot_addr1, boot_cfg0, boot_mstatus).

Definition boot_report1 : prog W (Z * Z * Z) :=
  boot_addr0 <- csr_read_pmpaddr0 ;;
  boot_cfg0 <- csr_read_pmpcfg0 ;;
  boot_mstatus <- csr_read_mstatus ;;
  uputs "boot: pmpaddr0=" ;; uart_put_hex boot_addr0 ;;
  uputs " pmpcfg0=" ;; uart_put_hex boot_cfg0 ;;
  uputs " mstatus=" ;; uart_put_hex boot_mstatus ;;
  uputs "\n" ;;
  check_counted (boot_addr0 =? 0) "pmpaddr0 nonzero at boot" ;;
  check_counted (boot_cfg0 =? 0) "pmpcfg0 nonzero at boot" ;;
  fold boot_addr0 ;; fold boot_cfg0 ;; fold boot_mstatus ;;
  ret (boot_addr0, boot_cfg0, boot_mstatus).

(** [seen = save\[6\]; cause = save\[2\]; ...] *)
Definition read_record : prog W trap_rec :=
  seen <- saved 6 ;; cause <- saved 2 ;; epc <- saved 3 ;; tval <- saved 4 ;; rs <- saved 5 ;;
  ret (TrapRec seen cause epc tval rs).

Definition put_edge (tag : string) (r : trap_rec) (got : Z) : prog W unit :=
  uputs tag ;; uart_put_dec (r_seen r) ;;
  uputs " mcause=" ;; uart_put_hex (r_cause r) ;;
  uputs " mepc=" ;; uart_put_hex (r_epc r) ;;
  uputs " mtval=" ;; uart_put_hex (r_tval r) ;;
  uputs " resume-4=" ;; uart_put_hex (u64 (r_resume r - 4)) ;;
  uputs " val=" ;; uart_put_hex got ;;
  uputs "\n".

Definition check_denied (ms : trap_msgs) (r : trap_rec) (addr got : Z) : prog W unit :=
  check_counted (r_seen r =? 1) (m_seen ms) ;;
  fold (r_seen r) ;;
  check_counted (r_cause r =? 5) (m_cause ms) ;;
  check_counted (r_epc r =? u64 (r_resume r - 4)) (m_epc ms) ;;
  check_counted (r_tval r =? addr) (m_tval ms) ;;
  check_counted (got =? POISON64) (m_got ms) ;;
  fold (r_cause r) ;;
  fold (b2z (r_epc r =? u64 (r_resume r - 4))) ;;
  fold (b2z (r_tval r =? addr)) ;;
  fold (b2z (got =? POISON64)).

Definition check_allowed (seen_msg got_msg : string) (r : trap_rec) (expect got : Z) : prog W unit :=
  check_counted (r_seen r =? 0) seen_msg ;;
  fold (r_seen r) ;;
  check_counted (got =? expect) got_msg ;;
  fold (b2z (got =? expect)) ;;
  fold got.

(** Ordinary work with the entry still programmed. *)
Definition quiet_window : prog W unit :=
  q0 <- saved 0 ;;
  acc <- for_acc (seq 0 QUIET_N) 0 (fun i acc =>
    ms <- csr_read_mstatus ;; ret (Z.lxor acc (Z.lxor ms (Z.of_nat i)))) ;;
  uputs "quiet: traps before=" ;; uart_put_dec q0 ;;
  q1 <- saved 0 ;; uputs " after=" ;; uart_put_dec q1 ;; uputs "\n" ;;
  q1 <- saved 0 ;; check_counted (q1 =? q0) "quiet window saw an unexpected trap" ;;
  q1 <- saved 0 ;; fold (u64 (q1 - q0)) ;;
  fold acc.

Definition restore_mstatus (boot_mstatus : Z) : prog W unit :=
  csrw "mstatus" boot_mstatus ;;
  x <- csr_read_mstatus ;; check_counted (x =? boot_mstatus) "mstatus not restored" ;;
  x <- csr_read_mstatus ;; fold (b2z (x =? boot_mstatus)).

(** The summary, up to the drain of the UART. *)
Definition edge_summary : prog W unit :=
  uputs "Checks: " ;; n <- gget checks ;; uart_put_dec n ;;
  uputs "\nMismatches: " ;; n <- gget fails ;; uart_put_dec n ;;
  uputs "\nChecksum: " ;; c <- gget csum ;; uart_put_hex c ;;
  uputs "\nEnvironment: QEMU 8.2.2\n" ;;
  n <- gget fails ;;
  if n =? 0 then uputs "Verdict: PASS\n"
  else uputs "Verdict: FAIL (" ;; n <- gget fails ;; uart_put_dec n ;; uputs " checks failed)\n".

(** Only a passing run touches the finisher. *)
Definition edge_finish : prog W unit :=
  n <- gget fails ;;
  if n =? 0 then vst 4 VIRT_TEST_FINISHER FINISHER_PASS ;; park else park.

(** ** The TOR tests *)

(** [region], and where the linker put the two counters. *)
Context (region checks_addr fails_addr : Z).

(** The whole page is RAM before any PMP programming. *)
Definition region_control : prog W unit :=
  fill_array 1 SCRATCH_4K region (fun i => u8 (Z.land i 0xFF)) ;;
  verify_array 1 SCRATCH_4K region (fun i => u8 (Z.land i 0xFF)) check_counted
    "region not writable before PMP programming" ;;
  x <- vld 1 (region + 0) ;; fold x ;;
  x <- vld 1 (region + 2048) ;; fold x ;;
  x <- vld 1 (region + 4095) ;; fold x ;;
  uputs "control: 4 KiB region readable/writable before PMP: ok\n".

(** Clearing [pmpcfg0] leaves the locked byte and clears the other. *)
Definition clear_attempt : prog W unit :=
  csr_write_pmpcfg0 0 ;;
  rb <- csr_read_pmpcfg0 ;;
  uputs "config: pmpcfg0 after clear attempt=" ;; uart_put_hex rb ;;
  uputs " (entry1 byte 0x88 locked, entry0 byte cleared)\n" ;;
  check_counted (Z.land rb 0xFF00 =? Z.land PMPCFG0_LOCKED 0xFF00) "locked entry1 pmpcfg byte was modified" ;;
  fold (b2z (Z.land rb 0xFF00 =? Z.land PMPCFG0_LOCKED 0xFF00)) ;;
  check_counted (Z.land rb 0xFF =? 0) "unlocked entry0 pmpcfg byte did not clear" ;;
  fold (b2z (Z.land rb 0xFF =? 0)).

(** The restore attempt of the TOR tests. *)
Definition tor_restore (pmpaddr0 pmpaddr1 boot_mstatus : Z) : prog W unit :=
  csr_write_pmpaddr0 0 ;;
  csr_write_pmpaddr1 0 ;;
  csr_write_pmpcfg0 0 ;;
  rb <- csr_read_pmpaddr0 ;;
  uputs "lock: pmpaddr0 after restore attempt=" ;; uart_put_hex rb ;; uputs "\n" ;;
  check_counted (rb =? pmpaddr0) "pinned pmpaddr0 did not persist" ;; fold rb ;;
  rb <- csr_read_pmpaddr1 ;;
  uputs "lock: pmpaddr1 after restore attempt=" ;; uart_put_hex rb ;; uputs "\n" ;;
  check_counted (rb =? pmpaddr1) "locked pmpaddr1 did not persist" ;; fold rb ;;
  rb <- csr_read_pmpcfg0 ;;
  uputs "lock: pmpcfg0 after restore attempt=" ;; uart_put_hex rb ;; uputs "\n" ;;
  check_counted (rb =? PMPCFG0_LOCKED) "locked pmpcfg0 did not persist" ;; fold rb ;;
  restore_mstatus boot_mstatus.

(** *** tor_top_main.c *)

Definition top_layout : prog W unit :=
  let start := region in
  let end_ := u64 (start + REGION_LEN) in
  uputs "layout: start=" ;; uart_put_hex start ;;
  uputs " end=" ;; uart_put_hex end_ ;;
  uputs " tor_top_save=" ;; uart_put_hex save_addr ;;
  uputs " sp=" ;; uart_put_hex sp_now ;; uputs "\n" ;;
  check_counted (Z.land start 0xFFF =? 0) "region start not 4 KiB aligned" ;;
  fold (b2z (Z.land start 0xFFF =? 0)) ;;
  check_counted (u64 (save_addr + 64) <=? start) "tor_top_save reaches the denied region" ;;
  fold (b2z (u64 (save_addr + 64) <=? start)) ;;
  check_counted ((checks_addr <? start) || (checks_addr >? end_)) "checks counter aliases the probed range" ;;
  fold (b2z ((checks_addr <? start) || (checks_addr >? end_))) ;;
  check_counted ((fails_addr <? start) || (fails_addr >? end_)) "fails counter aliases the probed range" ;;
  fold (b2z ((fails_addr <? start) || (fails_addr >? end_))) ;;
  check_counted (sp_now >? u64 (end_ + 0x400)) "live stack within 1 KiB of the top-bound sentinel" ;;
  fold (b2z (sp_now >? u64 (end_ + 0x400))).

Definition top_sentinel : prog W unit :=
  let end_ := u64 (region + REGION_LEN) in
  vst 1 end_ TOP_SENTINEL ;;
  rb <- vld 1 end_ ;;
  check_counted (rb =? TOP_SENTINEL) "top-bound sentinel not writable before PMP" ;;
  fold rb ;;
  uputs "control: sentinel 0xa5 at the top bound: ok\n".

Definition top_program (pmpaddr0 pmpaddr1 : Z) : prog W unit :=
  csr_write_pmpaddr0 pmpaddr0 ;;
  csr_write_pmpaddr1 pmpaddr1 ;;
  csr_write_pmpcfg0 PMPCFG0_LAYOUT ;;
  rb <- csr_read_pmpaddr0 ;;
  uputs "config: pmpaddr0=" ;; uart_put_hex rb ;; uputs " (expect start>>2)\n" ;;
  check_counted (rb =? pmpaddr0) "pmpaddr0 readback != start >> 2" ;; fold rb ;;
  rb <- csr_read_pmpaddr1 ;;
  uputs "config: pmpaddr1=" ;; uart_put_hex rb ;; uputs " (expect end>>2)\n" ;;
  check_counted (rb =? pmpaddr1) "pmpaddr1 readback != end >> 2" ;; fold rb ;;
  rb <- csr_read_pmpcfg0 ;;
  uputs "config: pmpcfg0=" ;; uart_put_hex rb ;; uputs " (expect 0x880f)\n" ;;
  check_counted (rb =? PMPCFG0_LAYOUT) "pmpcfg0 readback != 0x880f" ;; fold rb.

Definition top_probes : prog W unit :=
  let end_ := u64 (region + REGION_LEN) in
  got <- probe_load_byte 0 (u64 (end_ - 1)) ;;
  r <- read_record ;;
  put_edge "t1 lbu end-1    : seen=" r got ;;
  check_denied (TrapMsgs "t1: trap count != 1" "t1: mcause != 0x5 (load access fault)"
    "t1: mepc != faulting lbu" "t1: mtval != last byte inside the range"
    "t1: faulting load overwrote its destination") r (u64 (end_ - 1)) got ;;
  rb <- vld 1 end_ ;;
  uputs "t1 neighbor     : sentinel=" ;; uart_put_hex rb ;; uputs "\n" ;;
  check_counted (rb =? TOP_SENTINEL) "t1: top-bound sentinel changed by the trap" ;;
  fold (b2z (rb =? TOP_SENTINEL)) ;;
  got <- probe_load_byte 1 end_ ;;
  r <- read_record ;;
  put_edge "t2 lbu end      : seen=" r got ;;
  check_allowed "t2: unexpected trap at the exclusive top bound" "t2: wrong byte read back" r TOP_SENTINEL got.

(** [main] up to the drain of the UART. *)
Definition tor_top_body : prog W unit :=
  uputs "pmp-tor-top: PMP TOR exclusive-top-bound test\n" ;;
  edge_setup ;;
  b <- boot_report2 ;;
  top_layout ;;
  region_control ;;
  top_sentinel ;;
  let pmpaddr0 := Z.shiftr region 2 in
  let pmpaddr1 := Z.shiftr (u64 (region + REGION_LEN)) 2 in
  top_program pmpaddr0 pmpaddr1 ;;
  clear_attempt ;;
  top_probes ;;
  quiet_window ;;
  tor_restore pmpaddr0 pmpaddr1 b.2 ;;
  edge_summary.

Definition tor_top_main : prog W unit :=
  uart_init ;; tor_top_body ;; uart_wait LSR_TEMT ;; edge_finish.

(** *** tor_bot_main.c *)

Definition bot_layout : prog W unit :=
  let start := region in
  let end_ := u64 (start + REGION_LEN) in
  uputs "layout: start=" ;; uart_put_hex start ;;
  uputs " end=" ;; uart_put_hex end_ ;;
  uputs " tor_bot_save=" ;; uart_put_hex save_addr ;;
  uputs " sp=" ;; uart_put_hex sp_now ;; uputs "\n" ;;
  check_counted (Z.land start 0xFFF =? 0) "region start not 4 KiB aligned" ;;
  fold (b2z (Z.land start 0xFFF =? 0)) ;;
  check_counted (start =? EXPECTED_BASE) "region start != 0x80003000" ;;
  fold (b2z (start =? EXPECTED_BASE)) ;;
  check_counted (u64 (save_addr + 64) <=? start) "tor_bot_save reaches the denied region" ;;
  fold (b2z (u64 (save_addr + 64) <=? start)) ;;
  check_counted ((checks_addr <? u64 (start - 1)) || (checks_addr >=? end_)) "checks counter aliases the probed range" ;;
  fold (b2z ((checks_addr <? u64 (start - 1)) || (checks_addr >=? end_))) ;;
  check_counted ((fails_addr <? u64 (start - 1)) || (fails_addr >=? end_)) "fails counter aliases the probed range" ;;
  fold (b2z ((fails_addr <? u64 (start - 1)) || (fails_addr >=? end_))) ;;
  check_counted (sp_now >? u64 (end_ + 0x400)) "live stack within 1 KiB of the region end" ;;
  fold (b2z (sp_now >? u64 (end_ + 0x400))).

Definition bot_sentinel : prog W unit :=
  vst 1 (u64 (region - 1)) BOT_SENTINEL ;;
  rb <- vld 1 (u64 (region - 1)) ;;
  check_counted (rb =? BOT_SENTINEL) "below-bound sentinel not writable before PMP" ;;
  fold rb ;;
  uputs "control: sentinel 0x5a one byte below the bottom bound: ok\n".

Definition bot_program (pmpaddr0 pmpaddr1 : Z) : prog W unit :=
  csr_write_pmpaddr0 pmpaddr0 ;;
  csr_write_pmpaddr1 pmpaddr1 ;;
  csr_write_pmpcfg0 PMPCFG0_LAYOUT ;;
  rb <- csr_read_pmpaddr0 ;;
  uputs "config: pmpaddr0=" ;; uart_put_hex rb ;; uputs " (expect start>>2 = 0x20000c00)\n" ;;
  check_counted (rb =? pmpaddr0) "pmpaddr0 readback != start >> 2" ;;
  check_counted (rb =? 0x20000c00) "pmpaddr0 readback != 0x20000c00" ;; fold rb ;;
  rb <- csr_read_pmpaddr1 ;;
  uputs "config: pmpaddr1=" ;; uart_put_hex rb ;; uputs " (expect end>>2)\n" ;;
  check_counted (rb =? pmpaddr1) "pmpaddr1 readback != end >> 2" ;; fold rb ;;
  rb <- csr_read_pmpcfg0 ;;
  uputs "config: pmpcfg0=" ;; uart_put_hex rb ;; uputs " (expect 0x880f)\n" ;;
  check_counted (rb =? PMPCFG0_LAYOUT) "pmpcfg0 readback != 0x880f" ;; fold rb.

Definition bot_probes : prog W unit :=
  got <- probe_load_byte 0 region ;;
  r <- read_record ;;
  put_edge "t1 lbu base     : seen=" r got ;;
  check_denied (TrapMsgs "t1: trap count != 1" "t1: mcause != 0x5 (load access fault)"
    "t1: mepc != faulting lbu" "t1: mtval != the bottom bound"
    "t1: faulting load overwrote its destination") r region got ;;
  rb <- vld 1 (u64 (region - 1)) ;;
  uputs "t1 neighbor     : sentinel=" ;; uart_put_hex rb ;; uputs "\n" ;;
  check_counted (rb =? BOT_SENTINEL) "t1: below-bound sentinel changed by the trap" ;;
  fold (b2z (rb =? BOT_SENTINEL)) ;;
  got <- probe_load_byte 1 (u64 (region - 1)) ;;
  r <- read_record ;;
  put_edge "t2 lbu base-1   : seen=" r got ;;
  check_allowed "t2: unexpected trap below the bottom bound" "t2: wrong byte read back" r BOT_SENTINEL got.

Definition tor_bot_body : prog W unit :=
  uputs "pmp-tor-bottom: PMP TOR inclusive-bottom-bound test\n" ;;
  edge_setup ;;
  b <- boot_report2 ;;
  bot_layout ;;
  region_control ;;
  bot_sentinel ;;
  let pmpaddr0 := Z.shiftr region 2 in
  let pmpaddr1 := Z.shiftr (u64 (region + REGION_LEN)) 2 in
  bot_program pmpaddr0 pmpaddr1 ;;
  clear_attempt ;;
  bot_probes ;;
  quiet_window ;;
  tor_restore pmpaddr0 pmpaddr1 b.2 ;;
  edge_summary.

Definition tor_bot_main : prog W unit :=
  uart_init ;; tor_bot_body ;; uart_wait LSR_TEMT ;; edge_finish.

(** ** The NA4 tests *)

Definition mem_write32 (a x : Z) : prog W unit := vst 4 a (u32 x).
Definition mem_load32 (a : Z) : prog W Z := vld 4 a.

(** The layout guard; [name] is the save area's. *)
Definition na4_layout (canary : Z) (name reaches : string) : prog W unit :=
  uputs name ;; uart_put_hex save_addr ;;
  uputs " sp=" ;; uart_put_hex sp_now ;; uputs "\n" ;;
  check_counted (u64 (save_addr + 64) <=? canary) reaches ;;
  fold (b2z (u64 (save_addr + 64) <=? canary)) ;;
  check_counted (sp_now >? canary + 0x400) "live stack within 1 KiB of the canary word" ;;
  fold (b2z (sp_now >? canary + 0x400)).

(** Canary and neighbor word are RAM before any PMP programming. *)
Definition na4_control (canary neighbor word : Z) (neighbor_msg : string) : prog W unit :=
  mem_write32 canary CANARY_WORD ;;
  mem_write32 neighbor word ;;
  rb <- mem_load32 canary ;;
  check_counted (rb =? CANARY_WORD) "canary word not writable before PMP" ;; fold rb ;;
  rb <- mem_load32 neighbor ;;
  check_counted (rb =? word) neighbor_msg ;; fold rb ;;
  uputs "control: scratch words are good RAM: ok\n".

Definition na4_program (canary : Z) (expect readback_msg : string) : prog W unit :=
  csr_write_pmpaddr0 (Z.shiftr canary 2) ;;
  csr_write_pmpcfg0 NA4_CFG ;;
  rb <- csr_read_pmpaddr0 ;;
  uputs "config: pmpaddr0=" ;; uart_put_hex rb ;; uputs expect ;;
  check_counted (rb =? Z.shiftr canary 2) readback_msg ;; fold rb ;;
  check_counted (rb =? Z.shiftr canary 2) "pmpaddr0 != canary_addr >> 2" ;;
  fold (b2z (rb =? Z.shiftr canary 2)) ;;
  rb <- csr_read_pmpcfg0 ;;
  uputs "config: pmpcfg0=" ;; uart_put_hex rb ;; uputs " (expect 0x90)\n" ;;
  check_counted (rb =? NA4_CFG) "pmpcfg0 readback != 0x90" ;; fold rb.

(** A probe of the denied word, then of the neighbor word's value. *)
Definition na4_probe_denied (n : nat) (canary neighbor word : Z) (tag near : string)
    (ms : trap_msgs) (changed : string) : prog W unit :=
  got <- probe_load_byte n canary ;;
  r <- read_record ;;
  put_edge tag r got ;;
  check_denied ms r canary got ;;
  rb <- mem_load32 neighbor ;;
  uputs near ;; uart_put_hex rb ;; uputs "\n" ;;
  check_counted (rb =? word) changed ;;
  fold (b2z (rb =? word)).

Definition na4_probe_allowed (n : nat) (addr expect : Z) (tag seen_msg got_msg : string) : prog W unit :=
  got <- probe_load_byte n addr ;;
  r <- read_record ;;
  put_edge tag r got ;;
  check_allowed seen_msg got_msg r expect got.

Definition na4_restore (canary boot_addr0 boot_cfg0 boot_mstatus : Z) : prog W unit :=
  csr_write_pmpaddr0 boot_addr0 ;;
  csr_write_pmpcfg0 boot_cfg0 ;;
  rb <- csr_read_pmpaddr0 ;;
  uputs "lock: pmpaddr0 after restore attempt=" ;; uart_put_hex rb ;; uputs "\n" ;;
  check_counted (rb =? Z.shiftr canary 2) "locked pmpaddr0 did not persist" ;; fold rb ;;
  rb <- csr_read_pmpcfg0 ;;
  uputs "lock: pmpcfg0 after restore attempt=" ;; uart_put_hex rb ;; uputs "\n" ;;
  check_counted (rb =? NA4_CFG) "locked pmpcfg0 did not persist" ;; fold rb ;;
  restore_mstatus boot_mstatus.

(** *** na4_main.c: the word and the byte after it *)

Definition na4_probes : prog W unit :=
  na4_probe_denied 0 NA4_CANARY NA4_SECOND SECOND_WORD "t1 lbu canary   : seen=" "t1 neighbor     : word="
    (TrapMsgs "t1: trap count != 1" "t1: mcause != 0x5 (load access fault)" "t1: mepc != faulting lbu"
       "t1: mtval != canary address" "t1: faulting load overwrote its destination")
    "t1: neighbor word changed by the trap" ;;
  na4_probe_allowed 1 NA4_SECOND (Z.land SECOND_WORD 0xff) "t2 lbu canary+4 : seen="
    "t2: unexpected trap" "t2: wrong byte read back".

Definition na4_body : prog W unit :=
  uputs "pmp-na4-match: PMP locked-NA4 match-behavior test\n" ;;
  edge_setup ;;
  b <- boot_report1 ;;
  na4_layout NA4_CANARY "layout: na4_save=" "na4_save reaches the denied word" ;;
  na4_control NA4_CANARY NA4_SECOND SECOND_WORD "neighbor word not writable before PMP" ;;
  na4_program NA4_CANARY " (expect 0x20000800)\n" "pmpaddr0 readback != 0x20000800" ;;
  na4_probes ;;
  quiet_window ;;
  na4_restore NA4_CANARY b.1.1 b.1.2 b.2 ;;
  edge_summary.

Definition na4_main : prog W unit :=
  uart_init ;; na4_body ;; uart_wait LSR_TEMT ;; edge_finish.

(** *** low_main.c: the word and the byte before it *)

Definition low_probes : prog W unit :=
  na4_probe_allowed 0 (LOW_CANARY - 1) (Z.land (Z.shiftr LOW_WORD 24) 0xff) "t1 lbu canary-1 : seen="
    "t1: unexpected trap" "t1: wrong byte read back" ;;
  na4_probe_denied 1 LOW_CANARY LOW_ADDR LOW_WORD "t2 lbu canary   : seen=" "t2 low neighbor : word="
    (TrapMsgs "t2: trap count != 1" "t2: mcause != 0x5 (load access fault)" "t2: mepc != faulting lbu"
       "t2: mtval != canary address" "t2: faulting load overwrote its destination")
    "t2: low neighbor word changed by the trap".

Definition low_body : prog W unit :=
  uputs "pmp-na4-low-edge: PMP locked-NA4 low-edge match test\n" ;;
  edge_setup ;;
  b <- boot_report1 ;;
  na4_layout LOW_CANARY "layout: low_save=" "low_save reaches the denied word" ;;
  na4_control LOW_CANARY LOW_ADDR LOW_WORD "low neighbor word not writable before PMP" ;;
  na4_program LOW_CANARY " (expect 0x20000900)\n" "pmpaddr0 readback != 0x20000900" ;;
  low_probes ;;
  quiet_window ;;
  na4_restore LOW_CANARY b.1.1 b.1.2 b.2 ;;
  edge_summary.

Definition low_main : prog W unit :=
  uart_init ;; low_body ;; uart_wait LSR_TEMT ;; edge_finish.
End Programs.

(** ** Rules *)

(** The 16550 reports an empty transmitter after finitely many polls. *)
Class UartDrain (U : Type) `{!UartDev U} : Type := {
  temt_wait : U -> nat;
  temt_bounded u : (temt_wait u < uart_fuel)%nat;
  temt_progress u :
    Z.land (ur8 (uart_reg UART_LSR) u).1 LSR_TEMT = 0 ->
    (temt_wait (ur8 (uart_reg UART_LSR) u).2 < temt_wait u)%nat;
}.

#[export] Instance LogUart_drain : UartDrain LogUart.
Proof.
  refine {| temt_wait _ := 0%nat |}; [intros; cbn; lia|].
  intros u. cbn. destruct (lu_rx u); discriminate.
Defined.

(** The checksum of a list of folded values. *)
Definition fnv_word (c v : Z) : Z :=
  fold_left (fun c i => u64 (Z.lxor c (Z.land (Z.shiftr v (Z.of_nat i * 8)) 0xff) * FNV_PRIME)) (seq 0 8) c.
Definition fnv (L : list Z) : Z := fold_left fnv_word L FNV_BASIS.

Lemma fnv_word_u64 c v : is_u64 (fnv_word c v).
Proof. unfold fnv_word. cbn [seq fold_left]. apply u64_range. Qed.

Lemma fnv_u64 L : is_u64 (fnv L).
Proof.
  unfold fnv. destruct L as [|x L] using rev_ind; [u64c|]. rewrite fold_left_app. apply fnv_word_u64.
Qed.
#[export] Hint Resolve fnv_u64 : word.

(** Globals after [n] checks, none failed, and folding [L]. *)
Definition eg (s : list Z) (n : Z) (L : list Z) : pglob := PGlob s 0 (u64 n) (fnv L).

Lemma eg_eq s n n' L L' : n = n' -> L = L' -> eg s n L = eg s n' L'.
Proof. now intros -> ->. Qed.

Section Rules.
Context {U H : Type} `{!UartDev U, !UartSpec U, !UartDrain U, !HartDev H, !PmpDev H, !PmpSpec H}.
Abbreviation vr := (vruns (U:=U) (G:=pglob) p_view).

Lemma fold_runs x v s n L : vr (fold x) v (eg s n L) tt [] v (eg s n (L ++ [x])).
Proof.
  unfold fold, eg, fnv. rewrite fold_left_app. cbn [fold_left].
  generalize (fold_left fnv_word L FNV_BASIS). intros c. unfold fnv_word. revert c.
  generalize (seq 0 8) (u64 n). intros l k. induction l as [|i l IH]; intros c; [apply vruns_ret|]. cbn [for_each fold_left].
  eapply vruns_bind0; [|apply IH]. do 4 vstep.
Qed.

Lemma check_runs b msg v s n L : b = true ->
  vr (check_counted b msg) v (eg s n L) tt [] v (eg s (n + 1) L).
Proof.
  intros Hb. eapply vruns_conv; [now apply check_counted_ok|reflexivity..|].
  unfold set_checks, eg. cbn [save fails checks csum]. f_equal. unfold u64. apply Zplus_mod_idemp_l.
Qed.

(** A block's end state, written the way the caller wants it. *)
Lemma vr_eg {A} (m : prog _ A) v g a l v' s n L n' L' l' :
  vr m v g a l v' (eg s n L) -> l = l' -> n = n' -> L = L' -> vr m v g a l' v' (eg s n' L').
Proof. now intros ? -> -> ->. Qed.

(** The probes on a save area of eight words. *)
Lemma edge_probe_ok resume i addr s0 s1 s2 s3 s4 s5 s6 s7 n L v :
  pmp_allows 0 (pv_es v) ALoad addr 1 = true ->
  vr (probe_load_byte resume i addr) v (eg [s0; s1; s2; s3; s4; s5; s6; s7] n L) (pv_mem v addr) [] v
     (eg [s0; s1; s2; s3; s4; resume i; 0; s7] n L).
Proof.
  intros Ha. unfold probe_load_byte. do 2 vstep. intros u h <-. exists h. cbn [w_hw].
  rewrite p_ld_spec. change (Z.of_nat 1) with 1. rewrite Ha.
  split; [|reflexivity]. cbn [ld_bytes]. rewrite Z.mul_0_r, Z.add_0_r. reflexivity.
Qed.

Lemma edge_probe_traps resume i addr s0 s1 s2 s3 s4 s5 s6 s7 n L v :
  pmp_allows 0 (pv_es v) ALoad addr 1 = false ->
  vr (probe_load_byte resume i addr) v (eg [s0; s1; s2; s3; s4; s5; s6; s7] n L) POISON64 [] (returned v)
     (eg [u64 (s0 + 1); POISON64; 5; u64 (resume i - 4); addr; resume i; 1; s7] n L).
Proof.
  intros Ha. unfold probe_load_byte. do 2 vstep.
  assert (vr (edge_stub POISON64 5 (u64 (resume i - 4)) addr ;; ret POISON64) v
    (eg [s0; s1; s2; s3; s4; resume i; 0; s7] n L) POISON64 [] (returned v)
    (eg [u64 (s0 + 1); POISON64; 5; u64 (resume i - 4); addr; resume i; 1; s7] n L)) as Hr.
  { unfold edge_stub. eapply vruns_bind0; [|apply vruns_ret].
    eapply vruns_bind0; [apply vr_take_trap|]. do 4 vstep.
    eapply vruns_bind0; [apply vr_saved; reflexivity|]. vstep.
    eapply vruns_bind0; [apply vr_saved; reflexivity|]. eapply vruns_bind0; [now apply vr_trap_csr|]. vstep.
    eapply vruns_conv; [apply vr_mret|reflexivity..]. }
  intros u h Hv. cbn [w_hw]. rewrite p_ld_spec, Hv. change (Z.of_nat 1) with 1. rewrite Ha. now apply Hr.
Qed.
End Rules.

Ltac eprim :=
  lazymatch goal with
  | |- vruns _ (check_counted _ _) _ _ _ _ _ _ => apply check_runs; pm_side
  | |- vruns _ (fold _) _ _ _ _ _ _ => apply fold_runs
  | |- vruns _ csr_read_mstatus _ _ _ _ _ _ => apply vr_read_mstatus
  | |- _ => pmprim
  end.
Ltac equiet m :=
  lazymatch m with
  | fold _ => idtac | csr_read_mstatus => idtac | _ => pmquiet m
  end.
Ltac estep :=
  lazymatch goal with
  | |- vruns _ (bind ?m _) _ _ _ _ _ _ =>
      first [ equiet m; eapply vruns_bind0; [eprim|cbv beta zeta]
            | eapply vruns_bind; [eprim|cbv beta zeta] ]
  | |- vruns _ _ _ _ _ _ _ _ => eprim
  end.
Ltac erun := repeat estep.

(** ** The shared blocks *)

(** [mstatus] with MIE off. *)
Definition mie_off (ms : Z) : Z := Z.land ms (u64 (Z.lnot 8)).

Lemma mie_off_u64 ms : is_u64 ms -> is_u64 (mie_off ms).
Proof.
  intros [H0 H1]. unfold mie_off. split; [apply Z.land_nonneg; now left|].
  assert (Z.land ms (u64 (Z.lnot 8)) <= ms) as Hle; [|lia].
  apply Z.ldiff_le; [exact H0|]. apply Z.bits_inj'. intros i Hi.
  rewrite Z.ldiff_spec, Z.land_spec, Z.bits_0. destruct (Z.testbit ms i), (Z.testbit _ i); reflexivity.
Qed.

(** What the quiet window accumulates: [mstatus] cancels out over its even
    number of rounds. *)
Definition quiet_acc : Z := fold_left (fun acc i => Z.lxor acc (Z.of_nat i)) (seq 0 QUIET_N) 0.

Lemma quiet_cancels ms l acc :
  fold_left (fun acc i => Z.lxor acc (Z.lxor ms (Z.of_nat i))) l acc =
  Z.lxor (fold_left (fun acc i => Z.lxor acc (Z.of_nat i)) l acc) (if Nat.even (length l) then 0 else ms).
Proof.
  induction l as [|i l IH] using rev_ind; [now rewrite Z.lxor_0_r|].
  rewrite !fold_left_app, length_app, Nat.add_1_r, Nat.even_succ, <-Nat.negb_even. cbn [fold_left]. rewrite IH.
  generalize (fold_left (fun acc i => Z.lxor acc (Z.of_nat i)) l acc). intros x.
  destruct (Nat.even (length l)); cbn [negb]; rewrite ?Z.lxor_0_r.
  - now rewrite (Z.lxor_comm ms), Z.lxor_assoc.
  - rewrite (Z.lxor_assoc x ms), <-(Z.lxor_assoc ms ms), Z.lxor_nilpotent, Z.lxor_0_l. reflexivity.
Qed.

Lemma quiet_acc_any ms :
  fold_left (fun acc i => Z.lxor acc (Z.lxor ms (Z.of_nat i))) (seq 0 QUIET_N) 0 = quiet_acc.
Proof.
  assert (Nat.even QUIET_N = true) as He by (vm_compute; reflexivity). unfold quiet_acc.
  generalize dependent QUIET_N. intros k He. rewrite quiet_cancels, length_seq, He. apply Z.lxor_0_r.
Qed.

Definition record_text (tag : string) (r : trap_rec) (got : Z) : list Z :=
  lit tag ++ fmt_dec (r_seen r) ++ lit " mcause=" ++ fmt_hex (r_cause r) ++ lit " mepc=" ++ fmt_hex (r_epc r) ++
  lit " mtval=" ++ fmt_hex (r_tval r) ++ lit " resume-4=" ++ fmt_hex (u64 (r_resume r - 4)) ++
  lit " val=" ++ fmt_hex got ++ lit "\n".

Definition rec_ok (r : trap_rec) : Prop :=
  is_u64 (r_seen r) /\ is_u64 (r_cause r) /\ is_u64 (r_epc r) /\ is_u64 (r_tval r) /\ is_u64 (r_resume r).

(** The record of a refused load of [addr]. *)
Definition denied_rec (addr resume : Z) : trap_rec := TrapRec 1 5 (u64 (resume - 4)) addr resume.

Section Blocks.
Context {U H : Type} `{!UartDev U, !UartSpec U, !UartDrain U, !HartDev H, !PmpDev H, !PmpSpec H}.
Abbreviation vr := (vruns (U:=U) (G:=pglob) p_view).
Context (trap_entry save_addr sp_now : Z) (resume : nat -> Z).
Hypothesis Hres : forall n, is_u64 (resume n).

Lemma vr_mie_off v g : vr (csrc "mstatus" 8) v g tt [] (pv_set_mstatus (mie_off (pv_mstatus v)) v) g.
Proof.
  unfold csrc, csrrc. eapply vruns_bind0; [|apply vruns_ret].
  estep. eapply vruns_bind0; [apply vr_write_mstatus|apply vruns_ret].
  intros h <-. apply mstatus_mie, mstatus_cur.
Qed.

Lemma edge_setup_runs es m hid ms g :
  vr (edge_setup trap_entry save_addr) (PView es m hid ms) g tt [] (PView es m hid (mie_off ms)) g.
Proof. unfold edge_setup. do 5 estep. apply vr_mie_off. Qed.

Lemma boot_report2_runs addrs m hid ms s n L : length addrs = 6%nat -> is_u64 ms ->
  vr boot_report2 (PView (entries_off (0 :: 0 :: addrs)) m hid ms) (eg s n L) (0, 0, 0, ms)
     (lit "boot: pmpaddr0=0x0 pmpaddr1=0x0 pmpcfg0=0x0 mstatus=" ++ fmt_hex ms ++ lit "\n")
     (PView (entries_off (0 :: 0 :: addrs)) m hid ms) (eg s (n + 3) (L ++ [0; 0; 0; ms])).
Proof.
  intros Hlen Hms. unfold boot_report2. eapply vr_eg.
  - do 4 estep. cbn [pv_es pv_mstatus]. rewrite read_cfg_off.
    change (read_addr 0 (entries_off (0 :: 0 :: addrs))) with 0.
    change (read_addr 1 (entries_off (0 :: 0 :: addrs))) with 0. erun.
  - generalize (fmt_hex ms). intros. vm_compute. reflexivity.
  - lia.
  - now rewrite <-!app_assoc.
Qed.

Lemma boot_report1_runs addrs m hid ms s n L : is_u64 ms ->
  vr boot_report1 (PView (entries_off (0 :: addrs)) m hid ms) (eg s n L) (0, 0, ms)
     (lit "boot: pmpaddr0=0x0 pmpcfg0=0x0 mstatus=" ++ fmt_hex ms ++ lit "\n")
     (PView (entries_off (0 :: addrs)) m hid ms) (eg s (n + 2) (L ++ [0; 0; ms])).
Proof.
  intros Hms. unfold boot_report1. eapply vr_eg.
  - do 3 estep. cbn [pv_es pv_mstatus]. rewrite read_cfg_off.
    change (read_addr 0 (entries_off (0 :: addrs))) with 0. erun.
  - generalize (fmt_hex ms). intros. vm_compute. reflexivity.
  - lia.
  - now rewrite <-!app_assoc.
Qed.

Lemma read_record_runs s0 s1 s2 s3 s4 s5 s6 s7 n L v :
  vr read_record v (eg [s0; s1; s2; s3; s4; s5; s6; s7] n L) (TrapRec s6 s2 s3 s4 s5) [] v
     (eg [s0; s1; s2; s3; s4; s5; s6; s7] n L).
Proof. unfold read_record. erun. Qed.

Lemma put_edge_runs tag r got v g : no_nul (c_lit tag) = true -> rec_ok r -> is_u64 got ->
  vr (put_edge tag r got) v g tt (record_text tag r got) v g.
Proof.
  intros Hn (H1 & H2 & H3 & H4 & H5) Hg. unfold put_edge, record_text.
  vuse (vruns_prints _ _ _ _ _ (prints_lit tag Hn)). erun.
Qed.

Lemma check_denied_runs ms addr rs s n L v :
  vr (check_denied ms (denied_rec addr rs) addr POISON64) v (eg s n L) tt [] v
     (eg s (n + 5) (L ++ [1; 5; 1; 1; 1])).
Proof.
  unfold check_denied. cbn [denied_rec r_seen r_cause r_epc r_tval r_resume].
  rewrite !Z.eqb_refl. eapply vr_eg; [erun|reflexivity|lia|now rewrite <-!app_assoc].
Qed.

Lemma check_allowed_runs m1 m2 r x s n L v : r_seen r = 0 ->
  vr (check_allowed m1 m2 r x x) v (eg s n L) tt [] v (eg s (n + 2) (L ++ [0; 1; x])).
Proof.
  intros Hr. unfold check_allowed. rewrite Hr, !Z.eqb_refl.
  eapply vr_eg; [erun|reflexivity|lia|now rewrite <-!app_assoc].
Qed.

Lemma quiet_loop_runs l acc v g :
  vr (for_acc l acc (fun i acc => ms <- csr_read_mstatus ;; ret (Z.lxor acc (Z.lxor ms (Z.of_nat i))))) v g
     (fold_left (fun acc i => Z.lxor acc (Z.lxor (pv_mstatus v) (Z.of_nat i))) l acc) [] v g.
Proof.
  revert acc. induction l as [|i l IH]; intros acc; [apply vruns_ret|].
  cbn [for_acc fold_left]. eapply vruns_bind0; [|apply IH]. do 2 estep.
Qed.

Lemma quiet_window_runs s0 s1 s2 s3 s4 s5 s6 s7 n L v : is_u64 s0 ->
  vr quiet_window v (eg [s0; s1; s2; s3; s4; s5; s6; s7] n L) tt
     (lit "quiet: traps before=" ++ fmt_dec s0 ++ lit " after=" ++ fmt_dec s0 ++ lit "\n") v
     (eg [s0; s1; s2; s3; s4; s5; s6; s7] (n + 1) (L ++ [0; quiet_acc])).
Proof.
  intros Hs. unfold quiet_window. rewrite <-(quiet_acc_any (pv_mstatus v)). generalize QUIET_N. intros k. eapply vr_eg.
  - estep. vquietly quiet_loop_runs. erun.
  - now rewrite ?app_nil_r.
  - lia.
  - rewrite Z.sub_diag, <-app_assoc. reflexivity.
Qed.

Lemma restore_mstatus_runs es m hid ms ms' s n L : mstatus_ok ms ->
  vr (restore_mstatus ms) (PView es m hid ms') (eg s n L) tt [] (PView es m hid ms) (eg s (n + 1) (L ++ [1])).
Proof.
  intros Hok. unfold restore_mstatus. vquietly vr_write_mstatus; [now intros|].
  unfold pv_set_mstatus. cbn [pv_es pv_mem pv_hartid]. do 3 estep. cbn [pv_mstatus]. rewrite Z.eqb_refl. estep.
Qed.

Lemma edge_summary_runs v s n L :
  vr edge_summary v (eg s n L) tt
     (lit "Checks: " ++ fmt_dec (u64 n) ++ lit "\nMismatches: 0\nChecksum: " ++ fmt_hex (fnv L) ++
      lit "\nEnvironment: QEMU 8.2.2\nVerdict: PASS\n") v (eg s n L).
Proof.
  unfold edge_summary. eapply vr_eg.
  - do 2 estep. cbn [checks eg]. do 6 estep. cbn [csum eg]. do 3 estep. cbn [fails eg Z.eqb]. estep.
  - cbn [fails eg]. generalize (fmt_hex (fnv L)) (fmt_dec (u64 n)). intros. vm_compute. reflexivity.
  - reflexivity.
  - reflexivity.
Qed.

Lemma edge_finish_pass (w : world U H pglob) : fails (w_glob w) = 0 ->
  edge_finish w = (vst 4 VIRT_TEST_FINISHER FINISHER_PASS ;; park) w.
Proof. intros Hf. unfold edge_finish. rewrite (bind_ret_eq _ _ w (fails (w_glob w)) w) by reflexivity. now rewrite Hf. Qed.

(** [mstatus] holds a legal value when the program starts. *)
Lemma vmain_mstatus (body : prog (world U H pglob) unit) es m hid ms g l Q :
  (mstatus_ok ms -> vmain_sends p_view body (PView es m hid ms) g l Q) -> vmain_sends p_view body (PView es m hid ms) g l Q.
Proof.
  intros Hb u h Hv. apply Hb; [|exact Hv]. replace ms with (pv_mstatus (p_view h)) by now rewrite Hv. apply mstatus_cur.
Qed.

(** The drain and the finisher of a passing run. *)
Lemma edge_main_end (body : prog (world U H pglob) unit) v l v' s n L :
  vr body v edge_boot_glob tt l v' (eg s n L) ->
  pmp_allows 0 (pv_es v') AStore VIRT_TEST_FINISHER 4 = true ->
  Forall (fun c => 0 <= c < 256) l ->
  vmain_sends p_view (uart_init ;; body ;; uart_wait LSR_TEMT ;; edge_finish) v edge_boot_glob l
    (fun v2 g => g = eg s n L /\ v2 = pv_set_mem (st_bytes 4 VIRT_TEST_FINISHER FINISHER_PASS (pv_mem v')) v').
Proof.
  intros Hb Hf Hl u h Hv. rewrite (bind_ret_eq _ _ _ _ _ (uart_init_eq _)). cbn [set_uart w_uart w_hw w_glob].
  destruct (Hb (inited u) h Hv) as (h1 & E1 & Hv1). rewrite (bind_ret_eq _ _ _ _ _ E1). unfold uart_wait.
  rewrite (bind_ret_eq _ _ _ _ _ (wait_ind LSR_TEMT temt_wait (fun _ => True) uart_fuel _
    ltac:(auto) ltac:(auto using temt_progress) I (temt_bounded _))).
  cbn [set_uart w_uart w_hw w_glob]. rewrite edge_finish_pass by reflexivity.
  destruct (vr_st 4 VIRT_TEST_FINISHER FINISHER_PASS v' (eg s n L) Hf
    (polled LSR_TEMT uart_fuel (emits l (inited u))) h1 Hv1) as (h2 & E2 & Hv2).
  rewrite (bind_ret_eq _ _ _ _ _ E2).
  exists (polled LSR_TEMT uart_fuel (emits l (inited u))), h2, (eg s n L). split; [reflexivity|].
  rewrite polled_tx, polled_rx, emits_rx, emits_tx, inited_tx, inited_rx by exact Hl.
  rewrite Hv2. auto.
Qed.

Lemma edge_main_sends (body : prog (world U H pglob) unit) v l v' s n L :
  vr body v edge_boot_glob tt l v' (eg s n L) ->
  pmp_allows 0 (pv_es v') AStore VIRT_TEST_FINISHER 4 = true ->
  Forall (fun c => 0 <= c < 256) l ->
  vmain_sends p_view (uart_init ;; body ;; uart_wait LSR_TEMT ;; edge_finish) v edge_boot_glob l
    (fun v2 g => fails g = 0 /\ pv_es v2 = pv_es v' /\
       ld_bytes 4 VIRT_TEST_FINISHER (pv_mem v2) = FINISHER_PASS).
Proof.
  intros Hb Hf Hl u h Hv. destruct (edge_main_end body v l v' s n L Hb Hf Hl u h Hv) as (u' & h' & g' & E & Ht & Hr & -> & Hv').
  exists u', h', (eg s n L). rewrite Hv'. split_and!; try assumption; reflexivity.
Qed.
End Blocks.

(** ** The NA4 entry *)

Definition na4_entries (canary : Z) (addrs : list Z) : list (Z * Z) :=
  (NA4_CFG, Z.shiftr canary 2) :: entries_off addrs.

(** A word-aligned address the entry can name. *)
Definition canary_ok (c : Z) : Prop := c mod 4 = 0 /\ 0 <= c < 2 ^ 56.

Lemma canary_quarter c : canary_ok c -> Z.shiftl (Z.shiftr c 2) 2 = c /\ 0 <= Z.shiftr c 2 < 2 ^ 54.
Proof.
  intros [Hm Hc]. rewrite Z.shiftl_mul_pow2, Z.shiftr_div_pow2 by lia. change (2 ^ 2) with 4.
  pose proof (Z.div_mod c 4 ltac:(lia)). lia.
Qed.

(** It refuses its word and nothing else. *)
Lemma na4_denies c addrs k x n : canary_ok c -> 0 < n -> c <= x < c + 4 ->
  pmp_allows 0 (na4_entries c addrs) k x n = false.
Proof.
  intros Hc Hn Hx. destruct (canary_quarter c Hc) as [Hq _]. unfold na4_entries. cbn [pmp_allows].
  unfold pmp_range. change (cfg_A NA4_CFG) with 2. cbn [Z.eqb Pos.eqb]. rewrite Hq.
  assert (negb (cfg_L NA4_CFG) || permits NA4_CFG k = false) as -> by now destruct k.
  rewrite andb_false_r. destruct (Z.ltb_spec x (c + 4)), (Z.ltb_spec c (x + n)); try lia. reflexivity.
Qed.

Lemma na4_allows c addrs k x n : canary_ok c -> 0 <= x -> x + n <= c \/ c + 4 <= x ->
  pmp_allows 0 (na4_entries c addrs) k x n = true.
Proof.
  intros Hc Hx Hd. destruct (canary_quarter c Hc) as [Hq _]. unfold na4_entries. cbn [pmp_allows].
  unfold pmp_range. change (cfg_A NA4_CFG) with 2. cbn [Z.eqb Pos.eqb]. rewrite Hq.
  destruct (Z.ltb_spec x (c + 4)), (Z.ltb_spec c (x + n)); try lia;
    apply off_allows; auto using entries_off_off.
Qed.

Lemma na4_read_cfg c addrs : read_cfg (na4_entries c addrs) = NA4_CFG.
Proof. apply read_cfg_entry0. Qed.

Lemma program_na4 `{PmpSpec H} c addrs : canary_ok c -> length addrs = 7%nat ->
  write_cfg warl NA4_CFG (write_addr 0 (Z.shiftr c 2) (entries_off (0 :: addrs))) = na4_entries c addrs.
Proof.
  intros Hc Hlen. destruct (canary_quarter c Hc) as [_ Hq]. unfold na4_entries.
  assert (write_addr 0 (Z.shiftr c 2) (entries_off (0 :: addrs)) = (0, Z.shiftr c 2) :: entries_off addrs) as ->.
  { unfold write_addr. destruct addrs as [|a1 addrs]; [discriminate|].
    cbn -[Z.pow Z.modulo Z.shiftr]. now rewrite Z.mod_small by lia. }
  do 8 (destruct addrs as [|? addrs]; try discriminate Hlen). cbn -[warl cfg_byte cfg_L Z.shiftr].
  change (cfg_L 0) with false. cbn iota.
  repeat match goal with |- context [cfg_byte ?v ?i] =>
    let b := eval vm_compute in (cfg_byte v i) in change (cfg_byte v i) with b end.
  now rewrite !warl_legal.
Qed.

Section Na4Runs.
Context {U H : Type} `{!UartDev U, !UartSpec U, !UartDrain U, !HartDev H, !PmpDev H, !PmpSpec H}.
Abbreviation vr := (vruns (U:=U) (G:=pglob) p_view).
Context (trap_entry save_addr sp_now : Z) (resume : nat -> Z).
Hypothesis Hres : forall n, is_u64 (resume n).
Context (canary neighbor word : Z).
Hypothesis Hc : canary_ok canary.
Hypothesis Hn : 0 <= neighbor /\ (neighbor + 4 <= canary \/ canary + 4 <= neighbor).
Hypothesis Hw : 0 <= word < 2 ^ 32.

Lemma na4_layout_runs name reaches v s n L :
  no_nul (c_lit name) = true -> is_u64 save_addr -> is_u64 sp_now ->
  save_addr + 64 <= canary -> canary + 0x400 < sp_now ->
  vr (na4_layout save_addr sp_now canary name reaches) v (eg s n L) tt
     (lit name ++ fmt_hex save_addr ++ lit " sp=" ++ fmt_hex sp_now ++ lit "\n") v
     (eg s (n + 2) (L ++ [1; 1])).
Proof.
  intros Hnn Hs1 Hs2 Hle Hlt. unfold na4_layout. destruct Hc as [_ Hr].
  assert ((u64 (save_addr + 64) <=? canary) = true) as ->
    by (destruct Hs1; rewrite u64_small by (unfold is_u64; lia); apply Z.leb_le; lia).
  assert ((sp_now >? canary + 0x400) = true) as -> by lia.
  eapply vr_eg.
  - vuse (vruns_prints _ _ _ _ _ (prints_lit name Hnn)). erun.
  - now rewrite ?app_nil_r.
  - lia.
  - now rewrite <-!app_assoc.
Qed.

Definition na4_mem (m : Z -> Z) : Z -> Z := st_bytes 4 neighbor word (st_bytes 4 canary CANARY_WORD m).

Lemma na4_mem_neighbor m : ld_bytes 4 neighbor (na4_mem m) = word.
Proof. unfold na4_mem. apply ld_st_same. change (256 ^ Z.of_nat 4) with (2 ^ 32). exact Hw. Qed.

Lemma na4_mem_canary m : ld_bytes 4 canary (na4_mem m) = CANARY_WORD.
Proof.
  unfold na4_mem. rewrite ld_st_other by lia. apply ld_st_same. vm_compute. split; congruence.
Qed.

Lemma na4_control_runs msg addrs m hid ms s n L :
  vr (na4_control canary neighbor word msg) (PView (entries_off addrs) m hid ms) (eg s n L) tt
     (lit "control: scratch words are good RAM: ok\n")
     (PView (entries_off addrs) (na4_mem m) hid ms) (eg s (n + 2) (L ++ [CANARY_WORD; word])).
Proof.
  assert (forall x k, 0 <= x -> pmp_allows 0 (entries_off addrs) k x 4 = true) as Ha
    by (intros; apply off_allows; auto using entries_off_off).
  destruct Hc as [_ Hr]. unfold na4_control, mem_write32, mem_load32. change (u32 CANARY_WORD) with CANARY_WORD.
  assert (u32 word = word) as -> by now apply Z.mod_small. eapply vr_eg.
  - vquietly vr_st; [apply Ha; lia|]. vquietly vr_st; [apply Ha; lia|].
    change (pv_set_mem _ (pv_set_mem _ _)) with (PView (entries_off addrs) (na4_mem m) hid ms).
    vquietly vr_ld; [apply Ha; lia|]. cbn [pv_mem]. rewrite na4_mem_canary. do 2 estep.
    vquietly vr_ld; [apply Ha; lia|]. cbn [pv_mem]. rewrite na4_mem_neighbor. erun.
  - reflexivity.
  - lia.
  - now rewrite <-!app_assoc.
Qed.

Lemma na4_program_runs expect msg addrs m hid ms s n L :
  no_nul (c_lit expect) = true -> length addrs = 7%nat ->
  vr (na4_program canary expect msg) (PView (entries_off (0 :: addrs)) m hid ms) (eg s n L) tt
     (lit "config: pmpaddr0=" ++ fmt_hex (Z.shiftr canary 2) ++ lit expect ++
      lit "config: pmpcfg0=0x90 (expect 0x90)\n")
     (PView (na4_entries canary addrs) m hid ms)
     (eg s (n + 3) (L ++ [Z.shiftr canary 2; 1; NA4_CFG])).
Proof.
  intros Hnn Hlen. unfold na4_program. destruct (canary_quarter canary Hc) as [_ Hq].
  assert (is_u64 (Z.shiftr canary 2)) as Hu by (unfold is_u64; lia). eapply vr_eg.
  - do 2 estep. unfold pv_set_es. cbn [pv_es pv_mem pv_hartid pv_mstatus]. rewrite program_na4 by assumption.
    estep. cbn [pv_es]. change (read_addr 0 (na4_entries canary addrs)) with (Z.shiftr canary 2).
    do 2 estep. vuse (vruns_prints _ _ _ _ _ (prints_lit expect Hnn)). rewrite !Z.eqb_refl.
    do 5 estep. cbn [pv_es]. rewrite na4_read_cfg. erun.
  - generalize (fmt_hex (Z.shiftr canary 2)) (lit expect). intros. vm_compute. reflexivity.
  - lia.
  - now rewrite <-!app_assoc.
Qed.

Lemma na4_probe_denied_runs i tag near msgs changed addrs m hid ms s0 s1 s2 s3 s4 s5 s6 s7 n L :
  no_nul (c_lit tag) = true -> no_nul (c_lit near) = true -> ld_bytes 4 neighbor m = word ->
  vr (na4_probe_denied resume i canary neighbor word tag near msgs changed)
     (PView (na4_entries canary addrs) m hid ms) (eg [s0; s1; s2; s3; s4; s5; s6; s7] n L) tt
     (record_text tag (denied_rec canary (resume i)) POISON64 ++ lit near ++ fmt_hex word ++ lit "\n")
     (returned (PView (na4_entries canary addrs) m hid ms))
     (eg [u64 (s0 + 1); POISON64; 5; u64 (resume i - 4); canary; resume i; 1; s7] (n + 6)
         (L ++ [1; 5; 1; 1; 1; 1])).
Proof.
  intros Ht Hne Hm. unfold na4_probe_denied, mem_load32. pose proof Hc as [_ Hr].
  assert (is_u64 word) as Hwu by (unfold is_u64; lia). eapply vr_eg.
  - vquietly edge_probe_traps; [apply na4_denies; [exact Hc|lia..]|].
    vquietly read_record_runs.
    vuse put_edge_runs; [exact Ht| |u64c|].
    { split_and!; cbn; [u64c|u64c|apply u64_range|unfold is_u64; lia|apply Hres]. }
    vquietly (check_denied_runs msgs canary (resume i)).
    vquietly vr_ld; [apply na4_allows; [exact Hc|lia..]|]. cbn [returned pv_set_mstatus pv_mem]. rewrite Hm.
    vuse (vruns_prints _ _ _ _ _ (prints_lit near Hne)). rewrite Z.eqb_refl. erun.
  - now rewrite ?app_nil_r.
  - lia.
  - now rewrite <-!app_assoc.
Qed.

Lemma na4_probe_allowed_runs i addr x tag m1 m2 addrs m hid ms s0 s1 s2 s3 s4 s5 s6 s7 n L :
  no_nul (c_lit tag) = true -> 0 <= addr -> addr + 1 <= canary \/ canary + 4 <= addr ->
  m addr = x -> is_u64 x -> is_u64 s2 -> is_u64 s3 -> is_u64 s4 ->
  vr (na4_probe_allowed resume i addr x tag m1 m2)
     (PView (na4_entries canary addrs) m hid ms) (eg [s0; s1; s2; s3; s4; s5; s6; s7] n L) tt
     (record_text tag (TrapRec 0 s2 s3 s4 (resume i)) x)
     (PView (na4_entries canary addrs) m hid ms)
     (eg [s0; s1; s2; s3; s4; resume i; 0; s7] (n + 2) (L ++ [0; 1; x])).
Proof.
  intros Ht Ha Hd Hm Hx H2 H3 H4. unfold na4_probe_allowed. eapply vr_eg.
  - vquietly edge_probe_ok; [now apply na4_allows|]. cbn [pv_mem]. rewrite Hm.
    vquietly read_record_runs.
    vuse put_edge_runs; [exact Ht|split_and!; cbn; [u64c|assumption..|apply Hres]|exact Hx|].
    now apply check_allowed_runs.
  - now rewrite ?app_nil_r.
  - lia.
  - reflexivity.
Qed.

Lemma na4_restore_runs addrs m hid ms ms' s n L : mstatus_ok ms ->
  vr (na4_restore canary 0 0 ms) (PView (na4_entries canary addrs) m hid ms') (eg s n L) tt
     (lit "lock: pmpaddr0 after restore attempt=" ++ fmt_hex (Z.shiftr canary 2) ++
      lit "\nlock: pmpcfg0 after restore attempt=0x90\n")
     (PView (na4_entries canary addrs) m hid ms)
     (eg s (n + 3) (L ++ [Z.shiftr canary 2; NA4_CFG; 1])).
Proof.
  intros Hok. unfold na4_restore. destruct (canary_quarter canary Hc) as [_ Hq].
  assert (is_u64 (Z.shiftr canary 2)) as Hu by (unfold is_u64; lia). eapply vr_eg.
  - do 2 estep. unfold pv_set_es. cbn [pv_es pv_mem pv_hartid pv_mstatus].
    change (write_addr 0 0 (na4_entries canary addrs)) with (na4_entries canary addrs).
    unfold na4_entries at 1. rewrite clear_locked by reflexivity. fold (na4_entries canary addrs).
    estep. cbn [pv_es]. change (read_addr 0 (na4_entries canary addrs)) with (Z.shiftr canary 2).
    do 6 estep. cbn [pv_es]. rewrite na4_read_cfg. do 5 estep. now apply restore_mstatus_runs.
  - generalize (fmt_hex (Z.shiftr canary 2)). intros. vm_compute. reflexivity.
  - lia.
  - now rewrite <-!app_assoc.
Qed.
End Na4Runs.

(** ** The NA4 programs *)

Section Na4Programs.
Context {U H : Type} `{!UartDev U, !UartSpec U, !UartDrain U, !HartDev H, !PmpDev H, !PmpSpec H}.
Abbreviation vr := (vruns (U:=U) (G:=pglob) p_view).
Context (trap_entry save_addr sp_now : Z) (resume : nat -> Z).
Hypothesis Hres : forall n, is_u64 (resume n).
Hypothesis Hsave : is_u64 save_addr.
Hypothesis Hsp : is_u64 sp_now.

(** What both programs print before the probes, and after. *)
Definition na4_head (banner name expect : string) (canary ms : Z) : list Z :=
  lit banner ++ lit "boot: pmpaddr0=0x0 pmpcfg0=0x0 mstatus=" ++ fmt_hex ms ++ lit "\n" ++
  lit name ++ fmt_hex save_addr ++ lit " sp=" ++ fmt_hex sp_now ++
  lit "\ncontrol: scratch words are good RAM: ok\n" ++
  lit "config: pmpaddr0=" ++ fmt_hex (Z.shiftr canary 2) ++ lit expect ++
  lit "config: pmpcfg0=0x90 (expect 0x90)\n".
Definition na4_tail (canary : Z) (n : Z) (L : list Z) : list Z :=
  lit "quiet: traps before=1 after=1\nlock: pmpaddr0 after restore attempt=" ++ fmt_hex (Z.shiftr canary 2) ++
  lit "\nlock: pmpcfg0 after restore attempt=0x90\n" ++
  lit "Checks: " ++ fmt_dec n ++ lit "\nMismatches: 0\nChecksum: " ++ fmt_hex (fnv L) ++
  lit "\nEnvironment: QEMU 8.2.2\nVerdict: PASS\n".

(** The values the checksum of a passing run covers. *)
Definition na4_folds (canary word ms : Z) (probes : list Z) : list Z :=
  [0; 0; ms; 1; 1; CANARY_WORD; word; Z.shiftr canary 2; 1; NA4_CFG] ++ probes ++
  [0; quiet_acc; Z.shiftr canary 2; NA4_CFG; 1].

Definition na4_log (ms : Z) : list Z :=
  na4_head "pmp-na4-match: PMP locked-NA4 match-behavior test\n" "layout: na4_save="
    " (expect 0x20000800)\n" NA4_CANARY ms ++
  record_text "t1 lbu canary   : seen=" (denied_rec NA4_CANARY (resume 0%nat)) POISON64 ++
  lit "t1 neighbor     : word=0x9f8e7d6c\n" ++
  record_text "t2 lbu canary+4 : seen=" (TrapRec 0 5 (u64 (resume 0%nat - 4)) NA4_CANARY (resume 1%nat)) 0x6c ++
  na4_tail NA4_CANARY 21 (na4_folds NA4_CANARY SECOND_WORD ms [1; 5; 1; 1; 1; 1; 0; 1; 0x6c]).

Definition low_log (ms : Z) : list Z :=
  na4_head "pmp-na4-low-edge: PMP locked-NA4 low-edge match test\n" "layout: low_save="
    " (expect 0x20000900)\n" LOW_CANARY ms ++
  record_text "t1 lbu canary-1 : seen=" (TrapRec 0 0 0 0 (resume 0%nat)) 0x12 ++
  record_text "t2 lbu canary   : seen=" (denied_rec LOW_CANARY (resume 1%nat)) POISON64 ++
  lit "t2 low neighbor : word=0x12345678\n" ++
  na4_tail LOW_CANARY 21 (na4_folds LOW_CANARY LOW_WORD ms [0; 1; 0x12; 1; 5; 1; 1; 1; 1]).

Ltac na4_text c w ms p :=
  match goal with |- context [fnv ?L1] => change L1 with (na4_folds c w ms p) end;
  unfold na4_head, na4_tail;
  repeat match goal with |- context [record_text ?t ?r (Z.land ?a ?b)] =>
    let x := eval vm_compute in (Z.land a b) in change (Z.land a b) with x end;
  repeat match goal with |- context [record_text ?t ?r ?g] => generalize (record_text t r g); intros ? end;
  generalize (fmt_hex (fnv (na4_folds c w ms p))) (fmt_hex ms) (fmt_hex save_addr) (fmt_hex sp_now);
  intros; rewrite <-!app_assoc; vm_compute; reflexivity.

Lemma na4_body_runs addrs m hid ms : length addrs = 7%nat -> is_u64 ms -> mstatus_ok ms ->
  save_addr + 64 <= NA4_CANARY -> NA4_CANARY + 0x400 < sp_now ->
  exists m' s n L, vr (na4_body trap_entry save_addr sp_now resume) (PView (entries_off (0 :: addrs)) m hid ms)
    edge_boot_glob tt (na4_log (mie_off ms)) (PView (na4_entries NA4_CANARY addrs) m' hid (mie_off ms)) (eg s n L).
Proof.
  intros Hlen Hms Hok Hle Hlt. apply mie_off_u64 in Hms. apply mstatus_mie in Hok. unfold na4_body, na4_probes.
  assert (canary_ok NA4_CANARY) as Hc by (split; [reflexivity|unfold NA4_CANARY; lia]).
  assert (0 <= NA4_SECOND /\ (NA4_SECOND + 4 <= NA4_CANARY \/ NA4_CANARY + 4 <= NA4_SECOND)) as Hn
    by (unfold NA4_SECOND, NA4_CANARY; lia).
  assert (0 <= SECOND_WORD < 2 ^ 32) as Hw by (unfold SECOND_WORD; lia).
  change edge_boot_glob with (eg [0; 0; 0; 0; 0; 0; 0; 0] 0 []). do 4 eexists. eapply vruns_conv.
  - estep. vquietly edge_setup_runs. vuse boot_report1_runs; [exact Hms|]. cbn [fst snd].
    vuse na4_layout_runs; [exact Hc|reflexivity|assumption..|].
    vuse na4_control_runs; [assumption..|]. vuse na4_program_runs; [exact Hc|reflexivity|exact Hlen|].
    eapply vruns_bind.
    { vuse na4_probe_denied_runs; [exact Hres|exact Hc|exact Hn|exact Hw|reflexivity|reflexivity|now apply na4_mem_neighbor|].
      apply na4_probe_allowed_runs; try assumption; try reflexivity; try u64c;
        [right; unfold NA4_CANARY, NA4_SECOND; lia|apply u64_range]. }
    cbv beta zeta.
    vuse quiet_window_runs; [u64c|]. vuse na4_restore_runs; [exact Hc|exact Hok|]. apply edge_summary_runs.
  - reflexivity.
  - cbn [pv_mstatus]. unfold na4_log. na4_text NA4_CANARY SECOND_WORD (mie_off ms) [1; 5; 1; 1; 1; 1; 0; 1; 0x6c].
  - reflexivity.
  - reflexivity.
Qed.

Lemma low_body_runs addrs m hid ms : length addrs = 7%nat -> is_u64 ms -> mstatus_ok ms ->
  save_addr + 64 <= LOW_CANARY -> LOW_CANARY + 0x400 < sp_now ->
  exists m' s n L, vr (low_body trap_entry save_addr sp_now resume) (PView (entries_off (0 :: addrs)) m hid ms)
    edge_boot_glob tt (low_log (mie_off ms)) (PView (na4_entries LOW_CANARY addrs) m' hid (mie_off ms)) (eg s n L).
Proof.
  intros Hlen Hms Hok Hle Hlt. apply mie_off_u64 in Hms. apply mstatus_mie in Hok. unfold low_body, low_probes.
  assert (canary_ok LOW_CANARY) as Hc by (split; [reflexivity|unfold LOW_CANARY; lia]).
  assert (0 <= LOW_ADDR /\ (LOW_ADDR + 4 <= LOW_CANARY \/ LOW_CANARY + 4 <= LOW_ADDR)) as Hn
    by (unfold LOW_ADDR, LOW_CANARY; lia).
  assert (0 <= LOW_WORD < 2 ^ 32) as Hw by (unfold LOW_WORD; lia).
  change edge_boot_glob with (eg [0; 0; 0; 0; 0; 0; 0; 0] 0 []). do 4 eexists. eapply vruns_conv.
  - estep. vquietly edge_setup_runs. vuse boot_report1_runs; [exact Hms|]. cbn [fst snd].
    vuse na4_layout_runs; [exact Hc|reflexivity|assumption..|].
    vuse na4_control_runs; [assumption..|]. vuse na4_program_runs; [exact Hc|reflexivity|exact Hlen|].
    eapply vruns_bind.
    { vuse na4_probe_allowed_runs; try assumption; try reflexivity; try u64c;
        [left; unfold LOW_CANARY; lia|].
      apply na4_probe_denied_runs; [exact Hres|exact Hc|exact Hn|exact Hw|reflexivity|reflexivity|now apply na4_mem_neighbor]. }
    cbv beta zeta.
    vuse quiet_window_runs; [u64c|]. vuse na4_restore_runs; [exact Hc|exact Hok|]. apply edge_summary_runs.
  - reflexivity.
  - cbn [pv_mstatus]. unfold low_log. na4_text LOW_CANARY LOW_WORD (mie_off ms) [0; 1; 0x12; 1; 5; 1; 1; 1; 1].
  - reflexivity.
  - reflexivity.
Qed.

(** C28: A locked NA4 entry refuses exactly its word.  [na4_main] finds the
    word's first byte refused (cause 5, [mepc] on the load, [mtval] on the
    byte, the destination untouched) and the byte after the word readable;
    [low_main] finds the byte before it readable and the first byte refused.
    The entry survives the attempt to undo it, the quiet window is free of
    traps, every one of the 21 checks holds, and the passing run writes the
    finisher, on every hart that implements PMP. *)
Theorem na4_edges_pass addrs m hid ms :
  length addrs = 7%nat -> is_u64 ms -> save_addr + 64 <= NA4_CANARY -> LOW_CANARY + 0x400 < sp_now ->
  vmain_sends (U:=U) p_view (na4_main trap_entry save_addr sp_now resume)
    (PView (entries_off (0 :: addrs)) m hid ms) edge_boot_glob (na4_log (mie_off ms))
    (fun v g => fails g = 0 /\ pv_es v = na4_entries NA4_CANARY addrs /\
       ld_bytes 4 VIRT_TEST_FINISHER (pv_mem v) = FINISHER_PASS) /\
  vmain_sends (U:=U) p_view (low_main trap_entry save_addr sp_now resume)
    (PView (entries_off (0 :: addrs)) m hid ms) edge_boot_glob (low_log (mie_off ms))
    (fun v g => fails g = 0 /\ pv_es v = na4_entries LOW_CANARY addrs /\
       ld_bytes 4 VIRT_TEST_FINISHER (pv_mem v) = FINISHER_PASS).
Proof.
  intros Hlen Hms Hle Hlt. unfold LOW_CANARY, NA4_CANARY in *. split.
  - apply vmain_mstatus. intros Hok. destruct (na4_body_runs addrs m hid ms Hlen Hms Hok) as (m' & s & n & L & Hb); [unfold NA4_CANARY; lia..|].
    apply (edge_main_sends _ _ _ _ _ _ _ Hb); [apply na4_allows; vm_compute; intuition congruence|].
    unfold na4_log, na4_head, na4_tail, record_text. text_bytes.
  - apply vmain_mstatus. intros Hok. destruct (low_body_runs addrs m hid ms Hlen Hms Hok) as (m' & s & n & L & Hb); [unfold LOW_CANARY; lia..|].
    apply (edge_main_sends _ _ _ _ _ _ _ Hb); [apply na4_allows; vm_compute; intuition congruence|].
    unfold low_log, na4_head, na4_tail, record_text. text_bytes.
Qed.
End Na4Programs.

Lemma na4_edges_pass_witness :
  vmain_sends (U:=LogUart) (H:=RefHart) p_view (na4_main 0x80000100 0x80001000 0x80004000 demo_resume)
    (PView (entries_off (replicate 8 0)) (fun _ => 0) 0 8) edge_boot_glob
    (na4_log 0x80001000 0x80004000 demo_resume 0) (fun v g => fails g = 0) /\
  vmain_sends (U:=LogUart) (H:=RefHart) p_view (low_main 0x80000100 0x80001000 0x80004000 demo_resume)
    (PView (entries_off (replicate 8 0)) (fun _ => 0) 0 8) edge_boot_glob
    (low_log 0x80001000 0x80004000 demo_resume 0) (fun v g => fails g = 0).
Proof.
  destruct (na4_edges_pass (U:=LogUart) (H:=RefHart) 0x80000100 0x80001000 0x80004000 demo_resume demo_resume_u64
    ltac:(u64c) ltac:(u64c) (replicate 7 0) (fun _ => 0) 0 8 eq_refl ltac:(u64c)
    ltac:(unfold NA4_CANARY; lia) ltac:(unfold LOW_CANARY; lia)) as [Ha Hb].
  split; intros u h Hv;
    [destruct (Ha u h Hv) as (u' & h' & g' & E & Ht & Hr & Hf & _)
    |destruct (Hb u h Hv) as (u' & h' & g' & E & Ht & Hr & Hf & _)]; exists u', h', g'; auto.
Defined.
