(* ===== verification/PmpTor.v ===== *)
(** * The PMP TOR edge tests pass (src/pmp-tor-top/, src/pmp-tor-bottom/)

    The programs of PmpEdge.v that place a locked TOR entry over a page and
    probe the bytes on both sides of its top and of its bottom: on every hart
    that implements PMP the top is exclusive, the bottom inclusive, and the
    locked entry pins the address register below it. *)

From Stdlib Require Import ZArith Lia String.
From stdpp Require Import base list.
From S2P Require Import Prelude Uart Hart Run View Pmp PmpDenial PmpRange PmpEdge.

(** Where the linker may put the page, the save area, the counters and the
    stack; [lo] and [hi] are the first probed byte and the one after the last. *)
Record tor_layout (region save_addr checks_addr fails_addr sp_now lo hi : Z) : Prop := {
  tl_al : region mod 4096 = 0;
  tl_lo : 0 < region;
  tl_hi : region + 0x1400 < 2 ^ 56;
  tl_save : 0 <= save_addr /\ save_addr + 64 <= region;
  tl_checks : is_u64 checks_addr /\ (checks_addr < lo \/ hi <= checks_addr);
  tl_fails : is_u64 fails_addr /\ (fails_addr < lo \/ hi <= fails_addr);
  tl_sp : is_u64 sp_now /\ region + 0x1400 < sp_now;
}.

Section Tor.
Context {U H : Type} `{!UartDev U, !UartSpec U, !UartDrain U, !HartDev H, !PmpDev H, !PmpSpec H}.
Abbreviation vr := (vruns (U:=U) (G:=pglob) p_view).
Context (trap_entry save_addr sp_now : Z) (resume : nat -> Z).
Context (region checks_addr fails_addr lo hi : Z).
Hypothesis Hres : forall n, is_u64 (resume n).
Hypothesis Hlay : tor_layout region save_addr checks_addr fails_addr sp_now lo hi.

Lemma tor_u64 i : -1 <= i <= 0x1400 -> u64 (region + i) = region + i.
Proof. intros Hi. destruct Hlay. apply u64_small. unfold is_u64. lia. Qed.

Lemma tor_outside_page addrs k x n : 0 < n -> 0 <= x -> x + n <= region \/ region + 4096 <= x ->
  pmp_allows 0 (tor_entries region addrs) k x n = true.
Proof.
  intros Hn Hx Hd. destruct Hlay. rewrite tor_allows by lia.
  destruct (Z.leb_spec region x), (Z.ltb_spec x (region + 4096)); (reflexivity || lia).
Qed.

Lemma tor_inside_page addrs k x : region <= x < region + 4096 ->
  pmp_allows 0 (tor_entries region addrs) k x 1 = false.
Proof.
  intros Hx. destruct Hlay. rewrite tor_allows by lia.
  destruct (Z.leb_spec region x), (Z.ltb_spec x (region + 4096)); (reflexivity || lia).
Qed.

(** Memory after the controls, [sentinel] stored at [at_]. *)
Definition page_mem (m : Z -> Z) : Z -> Z := filled 1 SCRATCH_4K region pmt_pattern m.

Lemma eg_iter s n L k : Nat.iter k (fun g => set_checks (u64 (checks g + 1)) g) (eg s n L) = eg s (n + Z.of_nat k) L.
Proof.
  induction k as [|k IH]; [now rewrite Z.add_0_r|]. cbn [Nat.iter nat_rect]. change (nat_rect _ _ _ k) with
    (Nat.iter k (fun g => set_checks (u64 (checks g + 1)) g) (eg s n L)). rewrite IH.
  unfold set_checks, eg. cbn [save fails checks csum]. f_equal. unfold u64.
  rewrite Zplus_mod_idemp_l. f_equal. lia.
Qed.

Lemma page_byte m i : 0 <= i < 4096 -> page_mem m (region + i) = pmt_pattern i.
Proof. intros Hi. apply filled_byte; [exact Hi|apply pattern_range]. Qed.

Lemma page_ld m i : 0 <= i < 4096 -> ld_bytes 1 (region + i) (page_mem m) = pmt_pattern i.
Proof. intros Hi. cbn [ld_bytes]. rewrite page_byte by exact Hi. lia. Qed.

Lemma region_control_runs addrs m hid ms s n L :
  vr (region_control region) (PView (entries_off addrs) m hid ms) (eg s n L) tt
     (lit "control: 4 KiB region readable/writable before PMP: ok\n")
     (PView (entries_off addrs) (page_mem m) hid ms) (eg s (n + 4096) (L ++ [0; 0; 0xff])).
Proof.
  destruct Hlay.
  assert (forall x k, 0 <= x -> pmp_allows 0 (entries_off addrs) k x 1 = true) as Ha
    by (intros; apply off_allows; auto using entries_off_off).
  unfold region_control. change (fun i => u8 (Z.land i 0xFF)) with pmt_pattern. eapply vr_eg.
  - vquietly vr_fill; [intros i Hi; apply Ha; lia|].
    vquietly (vr_verify _ _ _ _ _ _ (fun g => set_checks (u64 (checks g + 1)) g));
      [intros i Hi; split; [apply Ha; lia|]|intros; now apply check_counted_ok|].
    { apply (filled_at 1 SCRATCH_4K region pmt_pattern); [exact Hi|apply pattern_range]. }
    rewrite eg_iter. unfold pv_set_mem. cbn [pv_es pv_mem pv_hartid pv_mstatus]. fold (page_mem m).
    generalize (page_ld m). generalize (page_mem m). intros m2 Hm2. change (Z.of_nat SCRATCH_4K) with 4096.
    vquietly vr_ld; [apply Ha; lia|]. cbn [pv_mem]. rewrite (Hm2 0) by lia. estep.
    vquietly vr_ld; [apply Ha; lia|]. cbn [pv_mem]. rewrite (Hm2 2048) by lia. estep.
    vquietly vr_ld; [apply Ha; lia|]. cbn [pv_mem]. rewrite (Hm2 4095) by lia. erun.
  - reflexivity.
  - reflexivity.
  - now rewrite <-!app_assoc.
Qed.

(** Storing a byte outside the page and reading it back. *)
Lemma sentinel_runs a x msg txt addrs m hid ms s n L :
  0 <= a -> 0 <= x < 256 -> no_nul (c_lit txt) = true ->
  vr (vst 1 a x ;; rb <- vld 1 a ;; check_counted (rb =? x) msg ;; fold rb ;; uputs txt)
     (PView (entries_off addrs) m hid ms) (eg s n L) tt (lit txt)
     (PView (entries_off addrs) (st_bytes 1 a x m) hid ms) (eg s (n + 1) (L ++ [x])).
Proof.
  intros Hx Hr Ht.
  assert (forall k, pmp_allows 0 (entries_off addrs) k a 1 = true) as Ha
    by (intros; apply off_allows; auto using entries_off_off).
  vquietly vr_st; [apply Ha|]. vquietly vr_ld; [apply Ha|]. unfold pv_set_mem.
  cbn [pv_es pv_mem pv_hartid pv_mstatus]. rewrite ld_st_same by (change (256 ^ Z.of_nat 1) with 256; lia).
  rewrite Z.eqb_refl. do 2 estep. apply vruns_prints, prints_lit, Ht.
Qed.

Lemma layout_flags : u64 (region + REGION_LEN) = region + 4096 /\
  (Z.land region 0xFFF =? 0) = true /\ (u64 (save_addr + 64) <=? region) = true /\
  (sp_now >? u64 (region + 4096 + 0x400)) = true.
Proof.
  pose proof (aligned_land region (tl_al _ _ _ _ _ _ _ Hlay)) as Hl. destruct Hlay. unfold REGION_LEN.
  rewrite tor_u64 by lia. rewrite <-Z.add_assoc, tor_u64 by lia.
  rewrite (u64_small (save_addr + 64)) by (unfold is_u64; lia). rewrite Hl. split_and!; [reflexivity..|lia|lia].
Qed.

Definition layout_text (name : string) : list Z :=
  lit "layout: start=" ++ fmt_hex region ++ lit " end=" ++ fmt_hex (region + 4096) ++
  lit name ++ fmt_hex save_addr ++ lit " sp=" ++ fmt_hex sp_now ++ lit "\n".

Lemma clear_attempt_runs addrs m hid ms s n L : length addrs = 6%nat ->
  vr clear_attempt (PView (tor_both region addrs) m hid ms) (eg s n L) tt
     (lit "config: pmpcfg0 after clear attempt=0x8800 (entry1 byte 0x88 locked, entry0 byte cleared)\n")
     (PView (tor_entries region addrs) m hid ms) (eg s (n + 2) (L ++ [1; 1])).
Proof.
  intros Hlen. destruct (tor_cleared (H:=H) region addrs Hlen) as [Ec _].
  destruct (tor_read_cfg region addrs Hlen) as [_ Er]. unfold clear_attempt. eapply vr_eg.
  - estep. unfold pv_set_es. cbn [pv_es pv_mem pv_hartid pv_mstatus]. rewrite Ec. estep. cbn [pv_es]. rewrite Er. erun.
  - vm_compute. reflexivity.
  - lia.
  - now rewrite <-!app_assoc.
Qed.

Lemma tor_restore_runs addrs m hid ms ms' s n L : length addrs = 6%nat -> mstatus_ok ms ->
  vr (tor_restore (Z.shiftr region 2) (Z.shiftr (region + 4096) 2) ms) (PView (tor_entries region addrs) m hid ms') (eg s n L) tt
     (lit "lock: pmpaddr0 after restore attempt=" ++ fmt_hex (Z.shiftr region 2) ++
      lit "\nlock: pmpaddr1 after restore attempt=" ++ fmt_hex (Z.shiftr (region + 4096) 2) ++
      lit "\nlock: pmpcfg0 after restore attempt=0x8800\n")
     (PView (tor_entries region addrs) m hid ms)
     (eg s (n + 4) (L ++ [Z.shiftr region 2; Z.shiftr (region + 4096) 2; PMPCFG0_LOCKED; 1])).
Proof.
  intros Hlen Hok. destruct (tor_cleared (H:=H) region addrs Hlen) as [_ Ec].
  destruct (tor_read_cfg region addrs Hlen) as [_ Er].
  destruct (quarters region) as [Hp0 Hp1]; [destruct Hlay; lia..|].
  assert (is_u64 (Z.shiftr region 2) /\ is_u64 (Z.shiftr (region + 4096) 2)) as [Hu0 Hu1] by (unfold is_u64; lia).
  unfold tor_restore. eapply vr_eg.
  - do 3 estep. unfold pv_set_es. cbn [pv_es pv_mem pv_hartid pv_mstatus].
    change (write_addr 0 0 (tor_entries region addrs)) with (tor_entries region addrs).
    assert (write_addr 1 0 (tor_entries region addrs) = tor_entries region addrs) as ->
      by (destruct addrs; [discriminate|reflexivity]).
    rewrite Ec. estep. cbn [pv_es]. change (read_addr 0 (tor_entries region addrs)) with (Z.shiftr region 2).
    rewrite Z.eqb_refl. do 6 estep. cbn [pv_es].
    change (read_addr 1 (tor_entries region addrs)) with (Z.shiftr (region + 4096) 2).
    rewrite Z.eqb_refl. do 6 estep. cbn [pv_es]. rewrite Er. do 5 estep. now apply restore_mstatus_runs.
  - generalize (fmt_hex (Z.shiftr region 2)) (fmt_hex (Z.shiftr (region + 4096) 2)). intros. vm_compute. reflexivity.
  - lia.
  - now rewrite <-!app_assoc.
Qed.
End Tor.

(** ** Programming the entries and probing the edges *)

Section Edges.
Context {U H : Type} `{!UartDev U, !UartSpec U, !UartDrain U, !HartDev H, !PmpDev H, !PmpSpec H}.
Abbreviation vr := (vruns (U:=U) (G:=pglob) p_view).
Context (trap_entry save_addr sp_now : Z) (resume : nat -> Z).
Context (region checks_addr fails_addr lo hi : Z).
Hypothesis Hres : forall n, is_u64 (resume n).
Hypothesis Hlay : tor_layout region save_addr checks_addr fails_addr sp_now lo hi.

Lemma tor_words : is_u64 region /\ is_u64 (region + 4096) /\ is_u64 save_addr /\ is_u64 sp_now /\
  is_u64 (Z.shiftr region 2) /\ is_u64 (Z.shiftr (region + 4096) 2).
Proof.
  destruct (quarters region) as [Hp0 Hp1]; [destruct Hlay; lia..|].
  destruct Hlay. unfold is_u64 in *. lia.
Qed.

Lemma top_layout_runs v s n L : lo = region -> hi = region + 4097 ->
  vr (top_layout save_addr sp_now region checks_addr fails_addr) v (eg s n L) tt
     (layout_text save_addr sp_now region " tor_top_save=") v (eg s (n + 5) (L ++ [1; 1; 1; 1; 1])).
Proof.
  intros Hlo Hhi. destruct tor_words as (? & ? & ? & ? & _ & _).
  destruct (layout_flags _ _ _ _ _ _ _ Hlay) as (Ee & E1 & E2 & E3).
  unfold top_layout, layout_text. cbv zeta. rewrite Ee, E1, E2, E3.
  assert ((checks_addr <? region) || (checks_addr >? region + 4096) = true) as -> by (destruct Hlay; lia).
  assert ((fails_addr <? region) || (fails_addr >? region + 4096) = true) as -> by (destruct Hlay; lia).
  eapply vr_eg; [erun|now rewrite ?app_nil_r|lia|now rewrite <-!app_assoc].
Qed.

Lemma bot_layout_runs v s n L : lo = region - 1 -> hi = region + 4096 -> region = EXPECTED_BASE ->
  vr (bot_layout save_addr sp_now region checks_addr fails_addr) v (eg s n L) tt
     (layout_text save_addr sp_now region " tor_bot_save=") v (eg s (n + 6) (L ++ [1; 1; 1; 1; 1; 1])).
Proof.
  intros Hlo Hhi Hbase. destruct tor_words as (? & ? & ? & ? & _ & _).
  destruct (layout_flags _ _ _ _ _ _ _ Hlay) as (Ee & E1 & E2 & E3).
  unfold bot_layout, layout_text. cbv zeta. rewrite Ee, E1, E2, E3.
  assert ((region =? EXPECTED_BASE) = true) as -> by now apply Z.eqb_eq.
  pose proof (tor_u64 _ _ _ _ _ _ _ Hlay (-1) ltac:(lia)) as Eb. change (region + -1) with (region - 1) in Eb. rewrite Eb.
  assert ((checks_addr <? region - 1) || (checks_addr >=? region + 4096) = true) as -> by (destruct Hlay; lia).
  assert ((fails_addr <? region - 1) || (fails_addr >=? region + 4096) = true) as -> by (destruct Hlay; lia).
  eapply vr_eg; [erun|now rewrite ?app_nil_r|lia|now rewrite <-!app_assoc].
Qed.

Definition tor_config_text (expect0 : string) : list Z :=
  lit "config: pmpaddr0=" ++ fmt_hex (Z.shiftr region 2) ++ lit expect0 ++
  lit "config: pmpaddr1=" ++ fmt_hex (Z.shiftr (region + 4096) 2) ++
  lit " (expect end>>2)\nconfig: pmpcfg0=0x880f (expect 0x880f)\n".

Lemma top_program_runs addrs m hid ms s n L : length addrs = 6%nat ->
  vr (top_program (Z.shiftr region 2) (Z.shiftr (region + 4096) 2)) (PView (entries_off (0 :: 0 :: addrs)) m hid ms)
     (eg s n L) tt (tor_config_text " (expect start>>2)\n") (PView (tor_both region addrs) m hid ms)
     (eg s (n + 3) (L ++ [Z.shiftr region 2; Z.shiftr (region + 4096) 2; PMPCFG0_LAYOUT])).
Proof.
  intros Hlen. destruct tor_words as (_ & _ & _ & _ & ? & ?). destruct (tor_read_cfg region addrs Hlen) as [Er _].
  unfold top_program, tor_config_text. eapply vr_eg.
  - do 3 estep. unfold pv_set_es. cbn [pv_es pv_mem pv_hartid pv_mstatus]. change PMPCFG0_LAYOUT with PMPCFG0_TOR_LAYOUT.
    rewrite program_tor by (destruct Hlay; first [assumption|lia]).
    estep. cbn [pv_es]. change (read_addr 0 (tor_both region addrs)) with (Z.shiftr region 2).
    rewrite Z.eqb_refl. do 6 estep. cbn [pv_es].
    change (read_addr 1 (tor_both region addrs)) with (Z.shiftr (region + 4096) 2).
    rewrite Z.eqb_refl. do 6 estep. cbn [pv_es]. rewrite Er. erun.
  - generalize (fmt_hex (Z.shiftr region 2)) (fmt_hex (Z.shiftr (region + 4096) 2)). intros. vm_compute. reflexivity.
  - lia.
  - now rewrite <-!app_assoc.
Qed.

Lemma bot_program_runs addrs m hid ms s n L : length addrs = 6%nat -> region = EXPECTED_BASE ->
  vr (bot_program (Z.shiftr region 2) (Z.shiftr (region + 4096) 2)) (PView (entries_off (0 :: 0 :: addrs)) m hid ms)
     (eg s n L) tt (tor_config_text " (expect start>>2 = 0x20000c00)\n") (PView (tor_both region addrs) m hid ms)
     (eg s (n + 4) (L ++ [Z.shiftr region 2; Z.shiftr (region + 4096) 2; PMPCFG0_LAYOUT])).
Proof.
  intros Hlen Hb. destruct tor_words as (_ & _ & _ & _ & ? & ?). destruct (tor_read_cfg region addrs Hlen) as [Er _].
  assert ((Z.shiftr region 2 =? 0x20000c00) = true) as Eb by now rewrite Hb.
  unfold bot_program, tor_config_text. eapply vr_eg.
  - do 3 estep. unfold pv_set_es. cbn [pv_es pv_mem pv_hartid pv_mstatus]. change PMPCFG0_LAYOUT with PMPCFG0_TOR_LAYOUT.
    rewrite program_tor by (destruct Hlay; first [assumption|lia]).
    estep. cbn [pv_es]. change (read_addr 0 (tor_both region addrs)) with (Z.shiftr region 2).
    rewrite Z.eqb_refl, Eb. do 7 estep. cbn [pv_es].
    change (read_addr 1 (tor_both region addrs)) with (Z.shiftr (region + 4096) 2).
    rewrite Z.eqb_refl. do 6 estep. cbn [pv_es]. rewrite Er. erun.
  - generalize (fmt_hex (Z.shiftr region 2)) (fmt_hex (Z.shiftr (region + 4096) 2)). intros. vm_compute. reflexivity.
  - lia.
  - now rewrite <-!app_assoc.
Qed.

(** Both probe sequences: a refused byte [bad], its readable neighbor
    [good], and the neighbor probed. *)
Definition tor_probes (bad good x : Z) (tag1 tag2 : string) (ms : trap_msgs) (changed seen_msg : string) :
    prog (world U H pglob) unit :=
  got <- probe_load_byte resume 0 bad ;;
  r <- read_record ;;
  put_edge tag1 r got ;;
  check_denied ms r bad got ;;
  rb <- vld 1 good ;;
  uputs "t1 neighbor     : sentinel=" ;; uart_put_hex rb ;; uputs "\n" ;;
  check_counted (rb =? x) changed ;;
  fold (b2z (rb =? x)) ;;
  got <- probe_load_byte resume 1 good ;;
  r <- read_record ;;
  put_edge tag2 r got ;;
  check_allowed seen_msg "t2: wrong byte read back" r x got.

Definition tor_probe_text (bad x : Z) (tag1 tag2 : string) : list Z :=
  record_text tag1 (denied_rec bad (resume 0%nat)) POISON64 ++
  lit "t1 neighbor     : sentinel=" ++ fmt_hex x ++ lit "\n" ++
  record_text tag2 (TrapRec 0 5 (u64 (resume 0%nat - 4)) bad (resume 1%nat)) x.

Lemma tor_probes_runs bad good x tag1 tag2 tms m1 m2 addrs m hid ms n L :
  no_nul (c_lit tag1) = true -> no_nul (c_lit tag2) = true ->
  region <= bad < region + 4096 -> 0 <= good -> good + 1 <= region \/ region + 4096 <= good ->
  m good = x -> is_u64 x ->
  vr (tor_probes bad good x tag1 tag2 tms m1 m2) (PView (tor_entries region addrs) m hid ms)
     (eg [0; 0; 0; 0; 0; 0; 0; 0] n L) tt (tor_probe_text bad x tag1 tag2)
     (returned (PView (tor_entries region addrs) m hid ms))
     (eg [1; POISON64; 5; u64 (resume 0%nat - 4); bad; resume 1%nat; 0; 0] (n + 8)
        (L ++ [1; 5; 1; 1; 1; 1; 0; 1; x])).
Proof.
  intros Ht1 Ht2 Hbad H0g Hgood Hm Hx.
  assert (is_u64 bad) as Hb by (destruct Hlay; unfold is_u64; lia).
  assert (forall k, pmp_allows 0 (tor_entries region addrs) k good 1 = true) as Hal
    by (intros k; apply (tor_outside_page _ _ _ _ _ _ _ Hlay); lia).
  unfold tor_probes, tor_probe_text. eapply vr_eg.
  - vquietly edge_probe_traps; [now apply (tor_inside_page _ _ _ _ _ _ _ Hlay)|]. vquietly read_record_runs.
    vuse put_edge_runs; [exact Ht1|split_and!; cbn; [u64c|u64c|apply u64_range|exact Hb|apply Hres]|u64c|].
    vquietly (check_denied_runs tms bad (resume 0%nat)).
    vquietly vr_ld; [apply Hal|]. cbn [returned pv_set_mstatus pv_mem].
    assert (ld_bytes 1 good m = x) as -> by (cbn [ld_bytes]; rewrite Hm; lia). rewrite Z.eqb_refl. do 5 estep.
    vquietly edge_probe_ok; [apply Hal|]. cbn [returned pv_set_mstatus pv_mem]. rewrite Hm. vquietly read_record_runs.
    vuse put_edge_runs; [exact Ht2|split_and!; cbn; [u64c|u64c|apply u64_range|exact Hb|apply Hres]|exact Hx|].
    now apply check_allowed_runs.
  - now rewrite ?app_nil_r, <-?app_assoc.
  - lia.
  - now rewrite <-!app_assoc.
Qed.
End Edges.

(** ** The programs *)

Section Programs.
Context {U H : Type} `{!UartDev U, !UartSpec U, !UartDrain U, !HartDev H, !PmpDev H, !PmpSpec H}.
Abbreviation vr := (vruns (U:=U) (G:=pglob) p_view).
Context (trap_entry save_addr sp_now : Z) (resume : nat -> Z).
Context (region checks_addr fails_addr : Z).
Hypothesis Hres : forall n, is_u64 (resume n).

Definition tor_head (banner name control expect0 : string) (ms : Z) : list Z :=
  lit banner ++ lit "boot: pmpaddr0=0x0 pmpaddr1=0x0 pmpcfg0=0x0 mstatus=" ++ fmt_hex ms ++ lit "\n" ++
  layout_text save_addr sp_now region name ++
  lit "control: 4 KiB region readable/writable before PMP: ok\n" ++ lit control ++
  tor_config_text region expect0 ++
  lit "config: pmpcfg0 after clear attempt=0x8800 (entry1 byte 0x88 locked, entry0 byte cleared)\n".
Definition tor_tail (n : Z) (L : list Z) : list Z :=
  lit "quiet: traps before=1 after=1\nlock: pmpaddr0 after restore attempt=" ++ fmt_hex (Z.shiftr region 2) ++
  lit "\nlock: pmpaddr1 after restore attempt=" ++ fmt_hex (Z.shiftr (region + 4096) 2) ++
  lit "\nlock: pmpcfg0 after restore attempt=0x8800\n" ++
  lit "Checks: " ++ fmt_dec n ++ lit "\nMismatches: 0\nChecksum: " ++ fmt_hex (fnv L) ++
  lit "\nEnvironment: QEMU 8.2.2\nVerdict: PASS\n".

(** The values the checksum of a passing run covers. *)
Definition tor_folds (ms : Z) (layout : list Z) (x : Z) : list Z :=
  [0; 0; 0; ms] ++ layout ++ [0; 0; 0xff; x; Z.shiftr region 2; Z.shiftr (region + 4096) 2; PMPCFG0_LAYOUT;
   1; 1; 1; 5; 1; 1; 1; 1; 0; 1; x; 0; quiet_acc;
   Z.shiftr region 2; Z.shiftr (region + 4096) 2; PMPCFG0_LOCKED; 1].

Definition tor_top_log (ms : Z) : list Z :=
  tor_head "pmp-tor-top: PMP TOR exclusive-top-bound test\n" " tor_top_save="
    "control: sentinel 0xa5 at the top bound: ok\n" " (expect start>>2)\n" ms ++
  tor_probe_text resume (region + 4095) TOP_SENTINEL "t1 lbu end-1    : seen=" "t2 lbu end      : seen=" ++
  tor_tail 4123 (tor_folds ms [1; 1; 1; 1; 1] TOP_SENTINEL).

Definition tor_bot_log (ms : Z) : list Z :=
  tor_head "pmp-tor-bottom: PMP TOR inclusive-bottom-bound test\n" " tor_bot_save="
    "control: sentinel 0x5a one byte below the bottom bound: ok\n" " (expect start>>2 = 0x20000c00)\n" ms ++
  tor_probe_text resume region BOT_SENTINEL "t1 lbu base     : seen=" "t2 lbu base-1   : seen=" ++
  tor_tail 4125 (tor_folds ms [1; 1; 1; 1; 1; 1] BOT_SENTINEL).

Ltac tor_text ms l x :=
  match goal with |- context [fnv ?L1] => change L1 with (tor_folds ms l x) end;
  unfold tor_head, tor_tail;
  repeat match goal with
  | |- context [tor_probe_text ?r ?a ?b ?c ?d] => generalize (tor_probe_text r a b c d); intros ?
  | |- context [tor_config_text ?r ?a] => generalize (tor_config_text r a); intros ?
  | |- context [layout_text ?a ?b ?c ?d] => generalize (layout_text a b c d); intros ?
  end;
  generalize (fmt_hex (fnv (tor_folds ms l x))) (fmt_hex ms) (fmt_hex (Z.shiftr region 2))
    (fmt_hex (Z.shiftr (region + 4096) 2));
  intros; rewrite <-!app_assoc; vm_compute; reflexivity.

Lemma tor_top_body_runs addrs m hid ms :
  tor_layout region save_addr checks_addr fails_addr sp_now region (region + 4097) ->
  length addrs = 6%nat -> is_u64 ms -> mstatus_ok ms ->
  exists m' s n L, vr (tor_top_body trap_entry save_addr sp_now resume region checks_addr fails_addr)
    (PView (entries_off (0 :: 0 :: addrs)) m hid ms) edge_boot_glob tt (tor_top_log (mie_off ms))
    (PView (tor_entries region addrs) m' hid (mie_off ms)) (eg s n L).
Proof.
  intros Hlay Hlen Hms Hok. apply mie_off_u64 in Hms. apply mstatus_mie in Hok.
  destruct (layout_flags _ _ _ _ _ _ _ Hlay) as (Ee & _ & _ & _).
  assert (u64 (region + 4096 - 1) = region + 4095) as Eb
    by (replace (region + 4096 - 1) with (region + 4095) by lia; apply (tor_u64 _ _ _ _ _ _ _ Hlay); lia).
  pose proof (tl_lo _ _ _ _ _ _ _ Hlay) as Hlo.
  unfold tor_top_body, top_sentinel, top_probes. cbv zeta. rewrite Ee, Eb.
  change edge_boot_glob with (eg [0; 0; 0; 0; 0; 0; 0; 0] 0 []). do 4 eexists. eapply vruns_conv.
  - estep. vquietly edge_setup_runs. vuse boot_report2_runs; [exact Hlen|exact Hms|]. cbn [fst snd].
    vuse top_layout_runs; [exact Hlay|reflexivity|reflexivity|].
    vuse region_control_runs; [exact Hlay|].
    vuse (sentinel_runs (region + 4096) TOP_SENTINEL); [lia|unfold TOP_SENTINEL; lia|reflexivity|].
    vuse top_program_runs; [exact Hlay|exact Hlen|]. vuse clear_attempt_runs; [exact Hlen|].
    eapply vruns_bind.
    { apply (tor_probes_runs _ _ resume region _ _ _ _ Hres Hlay (region + 4095) (region + 4096) TOP_SENTINEL);
        [reflexivity|reflexivity|lia|lia|lia| |u64c]. cbn [st_bytes]. unfold upd. now rewrite Z.eqb_refl. }
    cbv beta zeta.
    vuse quiet_window_runs; [u64c|]. vuse tor_restore_runs; [exact Hlay|exact Hlen|exact Hok|]. apply edge_summary_runs.
  - reflexivity.
  - cbn [pv_mstatus]. unfold tor_top_log. tor_text (mie_off ms) [1; 1; 1; 1; 1] TOP_SENTINEL.
  - reflexivity.
  - reflexivity.
Qed.

Lemma tor_bot_body_runs addrs m hid ms :
  tor_layout region save_addr checks_addr fails_addr sp_now (region - 1) (region + 4096) ->
  region = EXPECTED_BASE -> length addrs = 6%nat -> is_u64 ms -> mstatus_ok ms ->
  exists m' s n L, vr (tor_bot_body trap_entry save_addr sp_now resume region checks_addr fails_addr)
    (PView (entries_off (0 :: 0 :: addrs)) m hid ms) edge_boot_glob tt (tor_bot_log (mie_off ms))
    (PView (tor_entries region addrs) m' hid (mie_off ms)) (eg s n L).
Proof.
  intros Hlay Hbase Hlen Hms Hok. apply mie_off_u64 in Hms. apply mstatus_mie in Hok.
  destruct (layout_flags _ _ _ _ _ _ _ Hlay) as (Ee & _ & _ & _).
  assert (u64 (region - 1) = region - 1) as Eb by (apply (tor_u64 _ _ _ _ _ _ _ Hlay (-1)); lia).
  pose proof (tl_lo _ _ _ _ _ _ _ Hlay) as Hlo.
  unfold tor_bot_body, bot_sentinel, bot_probes. cbv zeta. rewrite Ee, Eb.
  change edge_boot_glob with (eg [0; 0; 0; 0; 0; 0; 0; 0] 0 []). do 4 eexists. eapply vruns_conv.
  - estep. vquietly edge_setup_runs. vuse boot_report2_runs; [exact Hlen|exact Hms|]. cbn [fst snd].
    vuse bot_layout_runs; [exact Hlay|reflexivity|reflexivity|exact Hbase|].
    vuse region_control_runs; [exact Hlay|].
    vuse (sentinel_runs (region - 1) BOT_SENTINEL); [lia|unfold BOT_SENTINEL; lia|reflexivity|].
    vuse bot_program_runs; [exact Hlay|exact Hlen|exact Hbase|]. vuse clear_attempt_runs; [exact Hlen|].
    eapply vruns_bind.
    { apply (tor_probes_runs _ _ resume region _ _ _ _ Hres Hlay region (region - 1) BOT_SENTINEL);
        [reflexivity|reflexivity|lia|lia|lia| |u64c]. cbn [st_bytes]. unfold upd. now rewrite Z.eqb_refl. }
    cbv beta zeta.
    vuse quiet_window_runs; [u64c|]. vuse tor_restore_runs; [exact Hlay|exact Hlen|exact Hok|]. apply edge_summary_runs.
  - reflexivity.
  - cbn [pv_mstatus]. unfold tor_bot_log. tor_text (mie_off ms) [1; 1; 1; 1; 1; 1] BOT_SENTINEL.
  - reflexivity.
  - reflexivity.
Qed.

(** A passing run's end: the page is still denied, the finisher is written. *)
Lemma tor_finisher addrs lo hi : 0x200000 <= region ->
  tor_layout region save_addr checks_addr fails_addr sp_now lo hi ->
  pmp_allows 0 (tor_entries region addrs) AStore VIRT_TEST_FINISHER 4 = true.
Proof.
  intros Hr Hlay. unfold VIRT_TEST_FINISHER. apply (tor_outside_page _ _ _ _ _ _ _ Hlay); lia.
Qed.

(** C10: The top of a TOR region is exclusive.  The last byte below the top is
    refused with cause 5, [mepc] on the load, [mtval] on the byte and the
    destination untouched; the byte at the top reads back its sentinel.
    [pmpaddr0] is pinned by the locked entry above it although its own byte
    was cleared; all 4123 checks hold, no trap happens in the quiet window,
    and the finisher is written, on every hart that implements PMP. *)
Theorem tor_top_passes addrs m hid ms :
  tor_layout region save_addr checks_addr fails_addr sp_now region (region + 4097) -> 0x200000 <= region ->
  length addrs = 6%nat -> is_u64 ms ->
  vmain_sends (U:=U) p_view (tor_top_main trap_entry save_addr sp_now resume region checks_addr fails_addr)
    (PView (entries_off (0 :: 0 :: addrs)) m hid ms) edge_boot_glob (tor_top_log (mie_off ms))
    (fun v g => fails g = 0 /\ pv_es v = tor_entries region addrs /\
       ld_bytes 4 VIRT_TEST_FINISHER (pv_mem v) = FINISHER_PASS).
Proof.
  intros Hlay Hr Hlen Hms. apply vmain_mstatus. intros Hok.
  destruct (tor_top_body_runs addrs m hid ms Hlay Hlen Hms Hok) as (m' & s & n & L & Hb).
  apply (edge_main_sends _ _ _ _ _ _ _ Hb); [now apply (tor_finisher addrs region (region + 4097))|].
  unfold tor_top_log, tor_head, tor_tail, tor_probe_text, tor_config_text, layout_text, record_text. text_bytes.
Qed.

(** The bottom of a TOR region is inclusive.  The first byte of the page
    is refused with cause 5 and an exact record, the byte below it reads back
    its sentinel, and the attempt to undo the entries leaves the locked one
    and the address it pins; all 4125 checks hold and the finisher is
    written, on every hart that implements PMP, for the page the program
    expects. *)
Theorem tor_bot_passes addrs m hid ms :
  tor_layout region save_addr checks_addr fails_addr sp_now (region - 1) (region + 4096) -> region = EXPECTED_BASE ->
  length addrs = 6%nat -> is_u64 ms ->
  vmain_sends (U:=U) p_view (tor_bot_main trap_entry save_addr sp_now resume region checks_addr fails_addr)
    (PView (entries_off (0 :: 0 :: addrs)) m hid ms) edge_boot_glob (tor_bot_log (mie_off ms))
    (fun v g => fails g = 0 /\ pv_es v = tor_entries region addrs /\
       ld_bytes 4 VIRT_TEST_FINISHER (pv_mem v) = FINISHER_PASS).
Proof.
  intros Hlay Hbase Hlen Hms. apply vmain_mstatus. intros Hok.
  destruct (tor_bot_body_runs addrs m hid ms Hlay Hbase Hlen Hms Hok) as (m' & s & n & L & Hb).
  apply (edge_main_sends _ _ _ _ _ _ _ Hb);
    [apply (tor_finisher addrs (region - 1) (region + 4096)); [rewrite Hbase; unfold EXPECTED_BASE; lia|exact Hlay]|].
  unfold tor_bot_log, tor_head, tor_tail, tor_probe_text, tor_config_text, layout_text, record_text. text_bytes.
Qed.
End Programs.

Lemma demo_tor_layout lo hi : 0x80002fff <= lo -> hi <= 0x80004001 ->
  tor_layout EXPECTED_BASE 0x80002000 0x80002100 0x80002108 0x80008000 lo hi.
Proof. intros. constructor; unfold EXPECTED_BASE, is_u64; first [reflexivity | lia]. Qed.

Lemma tor_top_passes_witness :
  vmain_sends (U:=LogUart) (H:=RefHart) p_view
    (tor_top_main 0x80000100 0x80002000 0x80008000 demo_resume EXPECTED_BASE 0x80002100 0x80002108)
    (PView (entries_off (replicate 8 0)) (fun _ => 0) 0 8) edge_boot_glob
    (tor_top_log 0x80002000 0x80008000 demo_resume EXPECTED_BASE 0) (fun v g => fails g = 0).
Proof.
  intros u h Hv.
  destruct (tor_top_passes (U:=LogUart) (H:=RefHart) 0x80000100 0x80002000 0x80008000 demo_resume EXPECTED_BASE
    0x80002100 0x80002108 demo_resume_u64 (replicate 6 0) (fun _ => 0) 0 8
    (demo_tor_layout EXPECTED_BASE (EXPECTED_BASE + 4097) ltac:(unfold EXPECTED_BASE; lia) ltac:(unfold EXPECTED_BASE; lia))
    ltac:(unfold EXPECTED_BASE; lia) eq_refl ltac:(u64c) u h Hv)
    as (u' & h' & g' & E & Ht & Hr & Hf & _).
  exists u', h', g'. auto.
Defined.

Lemma tor_bot_passes_witness :
  vmain_sends (U:=LogUart) (H:=RefHart) p_view
    (tor_bot_main 0x80000100 0x80002000 0x80008000 demo_resume EXPECTED_BASE 0x80002100 0x80002108)
    (PView (entries_off (replicate 8 0)) (fun _ => 0) 0 8) edge_boot_glob
    (tor_bot_log 0x80002000 0x80008000 demo_resume EXPECTED_BASE 0) (fun v g => fails g = 0).
Proof.
  intros u h Hv.
  destruct (tor_bot_passes (U:=LogUart) (H:=RefHart) 0x80000100 0x80002000 0x80008000 demo_resume EXPECTED_BASE
    0x80002100 0x80002108 demo_resume_u64 (replicate 6 0) (fun _ => 0) 0 8
    (demo_tor_layout (EXPECTED_BASE - 1) (EXPECTED_BASE + 4096) ltac:(unfold EXPECTED_BASE; lia) ltac:(unfold EXPECTED_BASE; lia))
    eq_refl eq_refl ltac:(u64c) u h Hv)
    as (u' & h' & g' & E & Ht & Hr & Hf & _).
  exists u', h', g'. auto.
Defined.
