(* ===== verification/Sv39.v ===== *)
(** * Sv39 address translation

    What the privileged specification says of an S-mode access on RV64 with
    Sv39 and PMP: the three-level walk ([walk]) and the PMP check of S-mode
    accesses.  Then the tables src/sv39/sv39_main.c builds, and what they translate. *)

From Stdlib Require Import ZArith Lia String.
From stdpp Require Import base list.
From S2P Require Import Prelude Uart Hart Run View Pmp PmpDenial.

(** ** The architecture *)

Inductive vaccess : Type := VLoad | VStore | VFetch.

(** Exception codes. *)
Definition page_fault (k : vaccess) : Z := match k with VFetch => 12 | VLoad => 13 | VStore => 15 end.
Definition access_fault (k : vaccess) : Z := match k with VFetch => 1 | VLoad => 5 | VStore => 7 end.

Definition PTE_V : Z := 0x001.
Definition PTE_R : Z := 0x002.
Definition PTE_W : Z := 0x004.
Definition PTE_X : Z := 0x008.
Definition PTE_U : Z := 0x010.
Definition PTE_G : Z := 0x020.
Definition PTE_A : Z := 0x040.
Definition PTE_D : Z := 0x080.

Definition pte_v (p : Z) : bool := Z.testbit p 0.
Definition pte_r (p : Z) : bool := Z.testbit p 1.
Definition pte_w (p : Z) : bool := Z.testbit p 2.
Definition pte_x (p : Z) : bool := Z.testbit p 3.
Definition pte_u (p : Z) : bool := Z.testbit p 4.
Definition pte_a (p : Z) : bool := Z.testbit p 6.
Definition pte_d (p : Z) : bool := Z.testbit p 7.
Definition pte_ppn (p : Z) : Z := Z.land (Z.shiftr p 10) (Z.ones 44).

(** Not valid, the reserved W without R, or reserved high bits. *)
Definition pte_bad (p : Z) : bool :=
  negb (pte_v p) || (negb (pte_r p) && pte_w p) || negb (Z.shiftr p 54 =? 0).
Definition pte_leaf (p : Z) : bool := pte_r p || pte_x p.

(** What a leaf lets S-mode do with SUM = MXR = 0; the accessed and dirty
    bits must be set already. *)
Definition pte_permits (p : Z) (k : vaccess) : bool :=
  negb (pte_u p) && pte_a p &&
  match k with VLoad => pte_r p | VStore => pte_w p && pte_d p | VFetch => pte_x p end.

Definition vpn (va : Z) (lvl : nat) : Z := Z.land (Z.shiftr va (12 + 9 * Z.of_nat lvl)) 0x1ff.

(** Bits 63 to 39 equal bit 38. *)
Definition canonical (va : Z) : bool := (va <? 2 ^ 38) || (2 ^ 64 - 2 ^ 38 <=? va).

(** S-mode accesses need a matching entry that grants them. *)
Definition cfg_X (c : Z) : bool := Z.testbit c 2.
Definition grants (c : Z) (k : vaccess) : bool :=
  match k with VLoad => cfg_R c | VStore => cfg_W c | VFetch => cfg_X c end.
Fixpoint pmp_grants (prev : Z) (es : list (Z * Z)) (k : vaccess) (x n : Z) : bool :=
  match es with
  | [] => false
  | (c, a) :: es' =>
      let '(lo, hi) := pmp_range prev c a in
      if (x <? hi) && (lo <? x + n) then (lo <=? x) && (x + n <=? hi) && grants c k
      else pmp_grants a es' k x n
  end.

(** The walk from level [lvl] on, the table at [a]: an exception code or the
    physical address. *)
Fixpoint walk_from (lvl : nat) (es : list (Z * Z)) (m : Z -> Z) (a : Z) (k : vaccess) (va : Z) : Z + Z :=
  if negb (pmp_grants 0 es VLoad (a + 8 * vpn va lvl) 8) then inl (access_fault k) else
  let p := ld_bytes 8 (a + 8 * vpn va lvl) m in
  if pte_bad p then inl (page_fault k)
  else if pte_leaf p then
    if pte_permits p k && (pte_ppn p mod 2 ^ (9 * Z.of_nat lvl) =? 0)
    then inr (pte_ppn p * 4096 + va mod 2 ^ (12 + 9 * Z.of_nat lvl))
    else inl (page_fault k)
  else match lvl with
       | O => inl (page_fault k)
       | S l => if pte_u p || pte_a p || pte_d p then inl (page_fault k)
                else walk_from l es m (pte_ppn p * 4096) k va
       end.

Definition walk (es : list (Z * Z)) (m : Z -> Z) (root_ppn : Z) (k : vaccess) (va : Z) : Z + Z :=
  if canonical va then walk_from 2 es m (root_ppn * 4096) k va else inl (page_fault k).

(** ** Entries put together as the program does *)

Definition pte (ppn flags : Z) : Z := Z.lor (Z.shiftl ppn 10) flags.

Lemma pte_sum ppn f : 0 <= f < 1024 -> pte ppn f = ppn * 1024 + f.
Proof.
  intros Hf. unfold pte. rewrite Z.shiftl_mul_pow2 by lia. now rewrite (lor_disjoint_add ppn 10) by lia.
Qed.

Lemma pte_bit ppn f i : 0 <= i < 10 -> Z.testbit (pte ppn f) i = Z.testbit f i.
Proof. intros Hi. unfold pte. now rewrite Z.lor_spec, Z.shiftl_spec_low by lia. Qed.

Lemma pte_ppn_of ppn f : 0 <= f < 1024 -> 0 <= ppn < 2 ^ 44 -> pte_ppn (pte ppn f) = ppn.
Proof.
  intros Hf Hp. unfold pte_ppn. rewrite pte_sum, Z.land_ones, Z.shiftr_div_pow2 by lia. change (2 ^ 10) with 1024.
  rewrite Z.div_add_l, Z.div_small, Z.add_0_r by lia. now apply Z.mod_small.
Qed.

Lemma pte_high ppn f : 0 <= f < 1024 -> 0 <= ppn < 2 ^ 44 -> Z.shiftr (pte ppn f) 54 = 0.
Proof. intros Hf Hp. rewrite pte_sum, Z.shiftr_div_pow2 by lia. apply Z.div_small. lia. Qed.

Lemma pte_range ppn f : 0 <= f < 1024 -> 0 <= ppn < 2 ^ 44 -> 0 <= pte ppn f < 2 ^ 54.
Proof. intros Hf Hp. rewrite pte_sum by lia. lia. Qed.

(** Virtual page numbers by arithmetic. *)
Lemma vpn_div va lvl : vpn va lvl = va / 2 ^ (12 + 9 * Z.of_nat lvl) mod 512.
Proof.
  unfold vpn. change 0x1ff with (Z.ones 9). rewrite Z.land_ones, Z.shiftr_div_pow2 by lia. reflexivity.
Qed.

Lemma vpn_range va lvl : 0 <= vpn va lvl < 512.
Proof. rewrite vpn_div. apply Z.mod_pos_bound. lia. Qed.

(** ** The program's tables *)

Definition SV_MAPPED : Z := 0x40000000.
Definition UART_BASE : Z := 0x10000000.
Definition IDENT_BASE : Z := 0x80000000.
Definition IDENT_END : Z := 0xC0000000.

(** The pages the linker places: four are tables below [root], one is data. *)
Record sv_pages : Type := SvPages {
  root_pt : Z; l1_test : Z; l0_test : Z; l1_uart : Z; l0_uart : Z; page : Z }.

(** The seven stores that build the tables, in order. *)
Definition table_stores (q : sv_pages) : list (Z * Z) :=
  [ (root_pt q + 8 * 2, pte (Z.shiftr IDENT_BASE 12) (Z.lor PTE_V (Z.lor PTE_R (Z.lor PTE_W (Z.lor PTE_X (Z.lor PTE_A PTE_D))))));
    (root_pt q + 8 * 1, pte (Z.shiftr (l1_test q) 12) PTE_V);
    (root_pt q + 8 * 0, pte (Z.shiftr (l1_uart q) 12) PTE_V);
    (l1_test q + 8 * 0, pte (Z.shiftr (l0_test q) 12) PTE_V);
    (l0_test q + 8 * 0, pte (Z.shiftr (page q) 12) (Z.lor PTE_V (Z.lor PTE_R (Z.lor PTE_W (Z.lor PTE_A PTE_D)))));
    (l1_uart q + 8 * 128, pte (Z.shiftr (l0_uart q) 12) PTE_V);
    (l0_uart q + 8 * 0, pte (Z.shiftr UART_BASE 12) (Z.lor PTE_V (Z.lor PTE_R (Z.lor PTE_W (Z.lor PTE_A PTE_D))))) ].

Definition store_all (l : list (Z * Z)) (m : Z -> Z) : Z -> Z :=
  fold_left (fun m p => st_bytes 8 p.1 p.2 m) l m.
(** The doubleword at [a] afterwards, [d] before. *)
Definition stored (a : Z) (l : list (Z * Z)) (d : Z) : Z :=
  fold_left (fun d p => if a =? p.1 then p.2 else d) l d.

Lemma ld_store_all a l m : a mod 8 = 0 -> Forall (fun p => p.1 mod 8 = 0 /\ is_u64 p.2) l ->
  ld_bytes 8 a (store_all l m) = stored a l (ld_bytes 8 a m).
Proof.
  intros Ha Hl. revert m. induction Hl as [|[b v] l [Hb Hv] Hl IH]; intros m; [reflexivity|].
  cbn [store_all stored fold_left fst snd] in *. rewrite IH. f_equal. destruct (Z.eqb_spec a b) as [->|Hne].
  - now apply ld_st_same.
  - apply ld_st_other. change (Z.of_nat 8) with 8. pose proof (Z.div_mod a 8). pose proof (Z.div_mod b 8). lia.
Qed.

Lemma store_all_other a l m : Forall (fun p => ~ (p.1 <= a < p.1 + 8)) l -> store_all l m a = m a.
Proof.
  intros Hl. revert m. induction Hl as [|[b v] l Hb Hl IH]; intros m; [reflexivity|].
  cbn [store_all fold_left fst snd] in *. rewrite IH. now apply st_bytes_other.
Qed.

(** Page-aligned, apart from each other, inside what the PMP entry grants. *)
Definition pages_of (q : sv_pages) : list Z :=
  [root_pt q; l1_test q; l0_test q; l1_uart q; l0_uart q; page q].
Record sv_layout (q : sv_pages) : Prop := {
  sl_al : Forall (fun x => x mod 4096 = 0 /\ IDENT_BASE <= x /\ x + 4096 <= 0x80400000) (pages_of q);
  sl_nodup : NoDup (pages_of q);
}.

Lemma pages_apart x y : x mod 4096 = 0 -> y mod 4096 = 0 -> x <> y -> x + 4096 <= y \/ y + 4096 <= x.
Proof. intros Hx Hy Hne. pose proof (Z.div_mod x 4096). pose proof (Z.div_mod y 4096). lia. Qed.

(** Every table's entries: zero but for the ones stored. *)
Definition entry (q : sv_pages) (t i : Z) : Z := stored (t + 8 * i) (table_stores q) 0.

Definition zero_tables (q : sv_pages) (m : Z -> Z) : Prop :=
  forall t a, t ∈ [root_pt q; l1_test q; l0_test q; l1_uart q; l0_uart q] -> t <= a < t + 4096 -> m a = 0.

Lemma ld_zero n a m : (forall x, a <= x < a + Z.of_nat n -> m x = 0) -> ld_bytes n a m = 0.
Proof.
  revert a. induction n as [|n IH]; intros a Hm; [reflexivity|]. cbn [ld_bytes].
  rewrite Hm, IH by (intros; try apply Hm; lia). reflexivity.
Qed.

(** Membership in an explicit list. *)
Ltac in_list := first [apply list_elem_of_here | apply list_elem_of_further; in_list].

Section Tables.
Context (q : sv_pages).
Hypothesis Hq : sv_layout q.

Lemma page_ok x : x ∈ pages_of q -> x mod 4096 = 0 /\ x mod 8 = 0 /\ 0 <= x /\ x + 4096 <= 0x80400000 /\
  Z.shiftr x 12 * 4096 = x /\ 0 <= Z.shiftr x 12 < 2 ^ 44.
Proof.
  intros Hx. destruct Hq as [Hal _]. rewrite Forall_forall in Hal. destruct (Hal x Hx) as (Hm & Hlo & Hhi).
  unfold IDENT_BASE in Hlo. rewrite Z.shiftr_div_pow2 by lia. change (2 ^ 12) with 4096.
  pose proof (Z.div_mod x 4096 ltac:(lia)) as Hd. rewrite Hm in Hd.
  split; [exact Hm|]. split; [|lia]. rewrite Hd, Z.add_0_r. replace (4096 * (x / 4096)) with (x / 4096 * 512 * 8) by lia.
  apply Z.mod_mul. lia.
Qed.

(** The pages pairwise. *)
Lemma pages_disjoint x y : x ∈ pages_of q -> y ∈ pages_of q -> x <> y -> x + 4096 <= y \/ y + 4096 <= x.
Proof. intros Hx Hy. destruct (page_ok x Hx) as (? & _). destruct (page_ok y Hy) as (? & _). now apply pages_apart. Qed.

(** A table is one of the pages, and not the data page. *)
Lemma table_page t : t ∈ [root_pt q; l1_test q; l0_test q; l1_uart q; l0_uart q] ->
  t ∈ pages_of q /\ t <> page q /\ (t + 4096 <= page q \/ page q + 4096 <= t).
Proof.
  intros Ht. assert (t ∈ pages_of q /\ t <> page q) as [H1 H2].
  { destruct Hq as [_ Hn]. change (pages_of q) with ([root_pt q; l1_test q; l0_test q; l1_uart q; l0_uart q] ++ [page q]) in *.
    apply NoDup_app in Hn as (_ & Hd & _). split; [apply elem_of_app; now left|].
    intros ->. apply (Hd _ Ht). apply list_elem_of_here. }
  split_and!; auto. apply pages_disjoint; auto. in_list.
Qed.

Lemma stores_ok : Forall (fun p => p.1 mod 8 = 0 /\ is_u64 p.2) (table_stores q).
Proof.
  assert (forall x i, x ∈ pages_of q -> (x + 8 * i) mod 8 = 0) as Ha
    by (intros x i Hx; destruct (page_ok x Hx) as (_ & H8 & _); rewrite Z.mul_comm, Z.mod_add by lia; exact H8).
  assert (forall p f, 0 <= f < 1024 -> 0 <= p < 2 ^ 44 -> is_u64 (pte p f)) as Hp
    by (intros p f Hf Hr; pose proof (pte_range p f Hf Hr); unfold is_u64; lia).
  assert (forall x, x ∈ pages_of q -> 0 <= Z.shiftr x 12 < 2 ^ 44) as Hs by (intros x Hx; apply (page_ok x Hx)).
  unfold table_stores. repeat (apply Forall_cons; split; [split; cbn [fst snd];
    [apply Ha; in_list|apply Hp; [vm_compute; intuition congruence|
      first [apply Hs; in_list | vm_compute; intuition congruence]]]|]).
  now apply Forall_nil.
Qed.

Lemma table_entry m t i : t ∈ [root_pt q; l1_test q; l0_test q; l1_uart q; l0_uart q] -> zero_tables q m ->
  0 <= i < 512 -> ld_bytes 8 (t + 8 * i) (store_all (table_stores q) m) = entry q t i.
Proof.
  intros Ht Hm Hi. destruct (page_ok t (proj1 (table_page t Ht))) as (_ & H8 & _).
  rewrite ld_store_all; [|rewrite Z.mul_comm, Z.mod_add by lia; exact H8|apply stores_ok].
  unfold entry. f_equal. apply ld_zero. intros x Hx. apply (Hm t); [exact Ht|lia].
Qed.

(** *** The entries, table by table *)

Lemma slot_same x i j : (x + 8 * i =? x + 8 * j) = (i =? j).
Proof. destruct (Z.eqb_spec (x + 8 * i) (x + 8 * j)), (Z.eqb_spec i j); lia. Qed.
Lemma slot_other x y i j : x ∈ pages_of q -> y ∈ pages_of q -> x <> y -> 0 <= i < 512 -> 0 <= j < 512 ->
  (x + 8 * i =? y + 8 * j) = false.
Proof. intros Hx Hy Hne Hi Hj. apply Z.eqb_neq. pose proof (pages_disjoint x y Hx Hy Hne). lia. Qed.

Ltac distinct :=
  destruct Hq as [_ Hn]; unfold pages_of in Hn; rewrite !NoDup_cons, !elem_of_cons in Hn; intuition congruence.
Ltac entries :=
  intros Hi; unfold entry, stored, table_stores; cbn [fold_left fst snd];
  repeat (rewrite slot_same || rewrite slot_other by (lia || in_list || distinct));
  repeat match goal with |- context [?a =? ?b] => destruct (Z.eqb_spec a b) end; reflexivity || lia.

Lemma root_entry i : 0 <= i < 512 ->
  entry q (root_pt q) i = if i =? 0 then pte (Z.shiftr (l1_uart q) 12) PTE_V
    else if i =? 1 then pte (Z.shiftr (l1_test q) 12) PTE_V
    else if i =? 2 then pte 0x80000 0xCF else 0.
Proof. entries. Qed.
Lemma l1_test_entry i : 0 <= i < 512 ->
  entry q (l1_test q) i = if i =? 0 then pte (Z.shiftr (l0_test q) 12) PTE_V else 0.
Proof. entries. Qed.
Lemma l0_test_entry i : 0 <= i < 512 ->
  entry q (l0_test q) i = if i =? 0 then pte (Z.shiftr (page q) 12) 0xC7 else 0.
Proof. entries. Qed.
Lemma l1_uart_entry i : 0 <= i < 512 ->
  entry q (l1_uart q) i = if i =? 128 then pte (Z.shiftr (l0_uart q) 12) PTE_V else 0.
Proof. entries. Qed.
Lemma l0_uart_entry i : 0 <= i < 512 ->
  entry q (l0_uart q) i = if i =? 0 then pte 0x10000 0xC7 else 0.
Proof. entries. Qed.
End Tables.

(** The PMP entries the program leaves: one TOR grant over [0, 0x80400000). *)
Definition sv_entries (rest : list Z) : list (Z * Z) := (0, 0) :: (0x0F, 0x20100000) :: entries_off rest.

Lemma sv_grants rest k x n : 0 <= x -> 0 < n -> x + n <= 0x80400000 -> pmp_grants 0 (sv_entries rest) k x n = true.
Proof.
  intros Hx Hn Hh. unfold sv_entries. cbn [pmp_grants]. change (pmp_range 0 0 0) with (0, 0).
  change (pmp_range 0 15 537919488) with (0, 0x80400000). cbv iota beta.
  destruct (Z.ltb_spec x 0); [lia|]. cbn [andb]. assert (grants 15 k = true) as -> by now destruct k.
  destruct (Z.ltb_spec x 0x80400000), (Z.ltb_spec 0 (x + n)), (Z.leb_spec 0 x), (Z.leb_spec (x + n) 0x80400000); (reflexivity || lia).
Qed.

(** *** Walking *)

Section Walk.
Context (rest : list Z) (m : Z -> Z) (k : vaccess) (va : Z).

(** The entry a walk at [a] reads, given that it may be read. *)
Lemma walk_step lvl a p : 0 <= a -> a + 4096 <= 0x80400000 -> ld_bytes 8 (a + 8 * vpn va lvl) m = p ->
  walk_from lvl (sv_entries rest) m a k va =
  if pte_bad p then inl (page_fault k)
  else if pte_leaf p then
    if pte_permits p k && (pte_ppn p mod 2 ^ (9 * Z.of_nat lvl) =? 0)
    then inr (pte_ppn p * 4096 + va mod 2 ^ (12 + 9 * Z.of_nat lvl))
    else inl (page_fault k)
  else match lvl with
       | O => inl (page_fault k)
       | S l => if pte_u p || pte_a p || pte_d p then inl (page_fault k)
                else walk_from l (sv_entries rest) m (pte_ppn p * 4096) k va
       end.
Proof.
  intros Ha Hh Hp. pose proof (vpn_range va lvl). destruct lvl; cbn [walk_from]; rewrite sv_grants by lia; now rewrite Hp.
Qed.

Lemma walk_invalid lvl a : 0 <= a -> a + 4096 <= 0x80400000 -> ld_bytes 8 (a + 8 * vpn va lvl) m = 0 ->
  walk_from lvl (sv_entries rest) m a k va = inl (page_fault k).
Proof. intros Ha Hh Hp. now rewrite (walk_step lvl a 0 Ha Hh Hp). Qed.

Lemma walk_pointer l a t : 0 <= a -> a + 4096 <= 0x80400000 ->
  ld_bytes 8 (a + 8 * vpn va (S l)) m = pte (Z.shiftr t 12) PTE_V ->
  Z.shiftr t 12 * 4096 = t -> 0 <= Z.shiftr t 12 < 2 ^ 44 ->
  walk_from (S l) (sv_entries rest) m a k va = walk_from l (sv_entries rest) m t k va.
Proof.
  intros Ha Hh Hp Ht Hr. rewrite (walk_step (S l) a _ Ha Hh Hp). unfold PTE_V.
  unfold pte_bad, pte_leaf, pte_v, pte_r, pte_w, pte_x, pte_u, pte_a, pte_d. rewrite !pte_bit by lia.
  rewrite pte_high, pte_ppn_of by (first [exact Hr|lia]). cbn -[walk_from]. now rewrite Ht.
Qed.

Lemma walk_page a t f : 0 <= a -> a + 4096 <= 0x80400000 ->
  ld_bytes 8 (a + 8 * vpn va 0) m = pte (Z.shiftr t 12) 0xC7 ->
  Z.shiftr t 12 * 4096 = t -> 0 <= Z.shiftr t 12 < 2 ^ 44 -> f = page_fault k ->
  walk_from 0 (sv_entries rest) m a k va = match k with VFetch => inl f | _ => inr (t + va mod 4096) end.
Proof.
  intros Ha Hh Hp Ht Hr ->. rewrite (walk_step 0 a _ Ha Hh Hp).
  unfold pte_bad, pte_leaf, pte_permits, pte_v, pte_r, pte_w, pte_x, pte_u, pte_a, pte_d. rewrite !pte_bit by lia.
  rewrite pte_high, pte_ppn_of by (first [exact Hr|lia]). change (2 ^ (9 * Z.of_nat 0)) with 1. rewrite Z.mod_1_r.
  change (2 ^ (12 + 9 * Z.of_nat 0)) with 4096. rewrite Ht. now destruct k.
Qed.
End Walk.

(** ** What the tables translate *)

Definition tables_built (q : sv_pages) (m : Z -> Z) : Prop :=
  forall t i, t ∈ [root_pt q; l1_test q; l0_test q; l1_uart q; l0_uart q] -> 0 <= i < 512 ->
    ld_bytes 8 (t + 8 * i) m = entry q t i.

(** The specification: the mapped page, the UART page and the identity
    window, the first two without execute permission, and nothing else. *)
Definition sv_map (q : sv_pages) (k : vaccess) (va : Z) : Z + Z :=
  if (SV_MAPPED <=? va) && (va <? SV_MAPPED + 4096) then
    match k with VFetch => inl (page_fault k) | _ => inr (page q + (va - SV_MAPPED)) end
  else if (UART_BASE <=? va) && (va <? UART_BASE + 4096) then
    match k with VFetch => inl (page_fault k) | _ => inr va end
  else if (IDENT_BASE <=? va) && (va <? IDENT_END) then inr va
  else inl (page_fault k).

(** Decide every comparison of the goal. *)
Ltac ranges :=
  repeat match goal with |- context [?a <=? ?b] => destruct (Z.leb_spec a b) end;
  repeat match goal with |- context [?a <? ?b] => destruct (Z.ltb_spec a b) end; cbn [andb].

Section Map.
Context (q : sv_pages) (rest : list Z) (m : Z -> Z).
Hypothesis Hq : sv_layout q.
Hypothesis Hm : tables_built q m.

Lemma walk_ident k va : vpn va 2 = 2 ->
  walk_from 2 (sv_entries rest) m (root_pt q) k va = inr (0x80000000 + va mod 2 ^ 30).
Proof.
  intros Hv. destruct (page_ok q Hq (root_pt q)) as (_ & _ & H0 & Hh & _); [in_list|].
  rewrite (walk_step rest m k va 2 (root_pt q) (pte 0x80000 0xCF) H0 Hh).
  - now destruct k.
  - rewrite Hm by (first [in_list|apply vpn_range]). now rewrite root_entry, Hv by (first [exact Hq|apply vpn_range]).
Qed.

Lemma walk_test k va : vpn va 2 = 1 ->
  walk_from 2 (sv_entries rest) m (root_pt q) k va =
  if (vpn va 1 =? 0) && (vpn va 0 =? 0)
  then match k with VFetch => inl (page_fault k) | _ => inr (page q + va mod 4096) end
  else inl (page_fault k).
Proof.
  intros Hv.
  destruct (page_ok q Hq (root_pt q)) as (_ & _ & H0 & Hh & _); [in_list|].
  destruct (page_ok q Hq (l1_test q)) as (_ & _ & A0 & Ah & As & Ar); [in_list|].
  destruct (page_ok q Hq (l0_test q)) as (_ & _ & B0 & Bh & Bs & Br); [in_list|].
  destruct (page_ok q Hq (page q)) as (_ & _ & _ & _ & Cs & Cr); [in_list|].
  rewrite (walk_pointer rest m k va 1 (root_pt q) (l1_test q) H0 Hh);
    [|rewrite Hm by (first [in_list|apply vpn_range]); now rewrite root_entry, Hv by (first [exact Hq|apply vpn_range])|exact As|exact Ar].
  pose proof (Hm (l1_test q) (vpn va 1) ltac:(in_list) (vpn_range va 1)) as E1. rewrite l1_test_entry in E1 by (first [exact Hq|apply vpn_range]).
  destruct (vpn va 1 =? 0); [|now apply walk_invalid]. cbn [andb].
  rewrite (walk_pointer rest m k va 0 (l1_test q) (l0_test q) A0 Ah E1 Bs Br).
  pose proof (Hm (l0_test q) (vpn va 0) ltac:(in_list) (vpn_range va 0)) as E0. rewrite l0_test_entry in E0 by (first [exact Hq|apply vpn_range]).
  destruct (vpn va 0 =? 0); [|now apply walk_invalid].
  now rewrite (walk_page rest m k va (l0_test q) (page q) (page_fault k)).
Qed.

Lemma walk_uart k va : vpn va 2 = 0 ->
  walk_from 2 (sv_entries rest) m (root_pt q) k va =
  if (vpn va 1 =? 128) && (vpn va 0 =? 0)
  then match k with VFetch => inl (page_fault k) | _ => inr (UART_BASE + va mod 4096) end
  else inl (page_fault k).
Proof.
  intros Hv.
  destruct (page_ok q Hq (root_pt q)) as (_ & _ & H0 & Hh & _); [in_list|].
  destruct (page_ok q Hq (l1_uart q)) as (_ & _ & A0 & Ah & As & Ar); [in_list|].
  destruct (page_ok q Hq (l0_uart q)) as (_ & _ & B0 & Bh & Bs & Br); [in_list|].
  rewrite (walk_pointer rest m k va 1 (root_pt q) (l1_uart q) H0 Hh);
    [|rewrite Hm by (first [in_list|apply vpn_range]); now rewrite root_entry, Hv by (first [exact Hq|apply vpn_range])|exact As|exact Ar].
  pose proof (Hm (l1_uart q) (vpn va 1) ltac:(in_list) (vpn_range va 1)) as E1. rewrite l1_uart_entry in E1 by (first [exact Hq|apply vpn_range]).
  destruct (vpn va 1 =? 128); [|now apply walk_invalid]. cbn [andb].
  rewrite (walk_pointer rest m k va 0 (l1_uart q) (l0_uart q) A0 Ah E1 Bs Br).
  pose proof (Hm (l0_uart q) (vpn va 0) ltac:(in_list) (vpn_range va 0)) as E0. rewrite l0_uart_entry in E0 by (first [exact Hq|apply vpn_range]).
  destruct (vpn va 0 =? 0); [|now apply walk_invalid].
  rewrite (walk_page rest m k va (l0_uart q) UART_BASE (page_fault k)); auto; vm_compute; intuition congruence.
Qed.

Lemma walk_nothing k va : 2 < vpn va 2 ->
  walk_from 2 (sv_entries rest) m (root_pt q) k va = inl (page_fault k).
Proof.
  intros Hv. destruct (page_ok q Hq (root_pt q)) as (_ & _ & H0 & Hh & _); [in_list|].
  apply walk_invalid; auto. rewrite Hm by (first [in_list|apply vpn_range]).
  rewrite root_entry by (first [exact Hq|apply vpn_range]).
  destruct (Z.eqb_spec (vpn va 2) 0), (Z.eqb_spec (vpn va 2) 1), (Z.eqb_spec (vpn va 2) 2); (reflexivity || lia).
Qed.

(** The three page numbers and the offset put the address together again. *)
Lemma va_split va : 0 <= va < 2 ^ 39 ->
  va = 2 ^ 30 * vpn va 2 + 2 ^ 21 * vpn va 1 + 4096 * vpn va 0 + va mod 4096.
Proof.
  intros Hva. rewrite !vpn_div. change (2 ^ (12 + 9 * Z.of_nat 0)) with 4096.
  change (2 ^ (12 + 9 * Z.of_nat 1)) with (4096 * 512). change (2 ^ (12 + 9 * Z.of_nat 2)) with (4096 * 512 * 512).
  rewrite <-!Z.div_div by lia. set (a := va / 4096). change (2 ^ 30) with (512 * 512 * 4096). change (2 ^ 21) with (512 * 4096).
  pose proof (Z.div_mod va 4096 ltac:(lia)) as E1. fold a in E1.
  pose proof (Z.div_mod a 512 ltac:(lia)) as E2. set (b := a / 512) in *. pose proof (Z.div_mod b 512 ltac:(lia)) as E3.
  set (c := b / 512) in *. assert (0 <= c < 512) as Hc.
  { unfold c, b, a. rewrite !Z.div_div by lia. split; [apply Z.div_pos; lia|apply Z.div_lt_upper_bound; lia]. }
  rewrite (Z.mod_small c) by exact Hc. lia.
Qed.

Lemma va_high va : 2 ^ 64 - 2 ^ 38 <= va < 2 ^ 64 -> 256 <= vpn va 2.
Proof.
  intros Hva. rewrite vpn_div. change (2 ^ (12 + 9 * Z.of_nat 2)) with (2 ^ 30).
  assert (2 ^ 34 - 256 <= va / 2 ^ 30 < 2 ^ 34) as Hd
    by (split; [apply Z.div_le_lower_bound; lia|apply Z.div_lt_upper_bound; lia]).
  pose proof (Z.div_mod (va / 2 ^ 30) 512 ltac:(lia)). pose proof (Z.mod_pos_bound (va / 2 ^ 30) 512 ltac:(lia)). lia.
Qed.

Lemma walk_map k va : is_u64 va -> walk (sv_entries rest) m (Z.shiftr (root_pt q) 12) k va = sv_map q k va.
Proof.
  intros Hva. destruct (page_ok q Hq (root_pt q)) as (_ & _ & _ & _ & Hs & _); [in_list|].
  unfold walk. rewrite Hs. unfold sv_map, canonical, SV_MAPPED, UART_BASE, IDENT_BASE, IDENT_END, is_u64 in *.
  pose proof (vpn_range va 2) as R2. pose proof (vpn_range va 1) as R1. pose proof (vpn_range va 0) as R0.
  pose proof (Z.mod_pos_bound va 4096 ltac:(lia)) as Rm.
  destruct (Z.ltb_spec va (2 ^ 38)) as [Hlo|Hlo]; [|destruct (Z.leb_spec (2 ^ 64 - 2 ^ 38) va) as [Hhi|Hhi]]; cbn [orb].
  - pose proof (va_split va ltac:(lia)) as Hsp.
    destruct (Z.eq_dec (vpn va 2) 0) as [E|N0]; [|destruct (Z.eq_dec (vpn va 2) 1) as [E|N1];
      [|destruct (Z.eq_dec (vpn va 2) 2) as [E|N2]]].
    + rewrite walk_uart by exact E. unfold UART_BASE. destruct (Z.eqb_spec (vpn va 1) 128), (Z.eqb_spec (vpn va 0) 0); cbn [andb];
        ranges; first [lia | reflexivity | destruct k; f_equal; lia].
    + rewrite walk_test by exact E. destruct (Z.eqb_spec (vpn va 1) 0), (Z.eqb_spec (vpn va 0) 0); cbn [andb];
        ranges; first [lia | reflexivity | destruct k; f_equal; lia].
    + rewrite walk_ident by exact E.
      assert (0x80000000 + va mod 2 ^ 30 = va) as ->.
      { replace va with (va - 2 * 2 ^ 30 + 2 * 2 ^ 30) at 1 by lia. rewrite Z.mod_add, Z.mod_small by lia. lia. }
      ranges; (reflexivity || lia).
    + rewrite walk_nothing by lia.
      ranges; (reflexivity || lia).
  - pose proof (va_high va ltac:(lia)). rewrite walk_nothing by lia.
    ranges; (reflexivity || lia).
  - ranges; (reflexivity || lia).
Qed.
End Map.

(** The tables and the map, for the pages a linker script might place. *)
Definition demo_pages : sv_pages := SvPages 0x80003000 0x80004000 0x80005000 0x80006000 0x80007000 0x80008000.
Lemma demo_pages_ok : sv_layout demo_pages.
Proof.
  constructor; [repeat constructor; vm_compute; congruence|].
  apply (bool_decide_unpack _). vm_compute. exact I.
Qed.

(** C12: The seven entries the program stores into its zeroed tables translate
    exactly as the comments say: the page at 0x40000000 reads and writes the
    data page, the UART page and the gigabyte at 0x80000000 map to
    themselves (the UART without execution), and every other one of the
    2^64 addresses is a page fault of the access's kind. *)
Theorem sv39_map_exact q rest m k va : sv_layout q -> zero_tables q m -> is_u64 va ->
  walk (sv_entries rest) (store_all (table_stores q) m) (Z.shiftr (root_pt q) 12) k va = sv_map q k va.
Proof. intros Hq Hz Hva. apply walk_map; [exact Hq| |exact Hva]. intros t i Ht Hi. now apply table_entry. Qed.

Lemma sv39_map_exact_witness :
  walk (sv_entries (replicate 6 0)) (store_all (table_stores demo_pages) (fun _ => 0)) 0x80003 VLoad 0x40000123 = inr 0x80008123 /\
  walk (sv_entries (replicate 6 0)) (store_all (table_stores demo_pages) (fun _ => 0)) 0x80003 VFetch 0x40000123 = inl 12.
Proof.
  split; refine (eq_trans (sv39_map_exact demo_pages (replicate 6 0) (fun _ => 0) _ _ demo_pages_ok _ _) _);
    first [reflexivity | u64c | now intros].
Defined.
