(* ===== verification/Sv39Main.v ===== *)
(** * The Sv39 page-walk test (src/sv39/)

    [sv39_main.c]: M-mode builds the tables of Sv39.v, grants S-mode its
    memory through one PMP entry, turns translation on and drops to S-mode,
    which stores and loads through the mapped page and takes three page
    faults.  In the S-mode phase every access of the program is translated:
    the probes, its statics ([via]) and the UART.  The hart has no TLB, so
    [sfence.vma] does nothing, and [mstatus] is not read again once S-mode
    runs, so its stacking by traps is left out. *)

From Stdlib Require Import ZArith Lia String.
From stdpp Require Import base list.
From S2P Require Import Prelude Uart Hart Run View Pmp PmpDenial Sv39.

(** ** A hart with S-mode *)

(** S-mode accesses: an exception code, or the value loaded, the hart after
    the store, the physical address. *)
Class Sv39Dev (H : Type) `{!HartDev H} : Type := {
  s_ld : nat -> Z -> H -> Z + Z;
  s_st : nat -> Z -> Z -> H -> Z + H;
  s_at : vaccess -> Z -> Z -> H -> Z + Z;
}.

Record sview : Type := SView { vp : pview; v_satp : Z; v_mepc : Z; v_stval : Z }.

Definition SATP_MODE_SV39 : Z := Z.shiftl 8 60.

(** Translation, then the PMP. *)
Definition s_access (v : sview) (k : vaccess) (va n : Z) : Z + Z :=
  let pa := if Z.shiftr (v_satp v) 60 =? 8
            then walk (pv_es (vp v)) (pv_mem (vp v)) (Z.land (v_satp v) 0xFFFFFFFFFFF) k va else inr va in
  match pa with
  | inl c => inl c
  | inr pa => if pmp_grants 0 (pv_es (vp v)) k pa n then inr pa else inl (access_fault k)
  end.

Definition mpp_s (x : Z) : Z := Z.lor (Z.land x (u64 (Z.lnot (Z.shiftl 3 11)))) (Z.shiftl 1 11).

Class Sv39Spec (H : Type) `{PmpSpec H, !Sv39Dev H} : Type := {
  satp_of : H -> Z;
  mepc_of : H -> Z;
  stval_of : H -> Z;
  sv h := SView (p_view h) (satp_of h) (mepc_of h) (stval_of h);
  s_at_spec k va n h : s_at k va n h = s_access (sv h) k va n;
  s_ld_spec n va h : s_ld n va h =
    match s_access (sv h) VLoad va (Z.of_nat n) with
    | inl c => inl c | inr pa => inr (ld_bytes n pa (pv_mem (p_view h))) end;
  s_st_spec n va x h :
    match s_access (sv h) VStore va (Z.of_nat n) with
    | inl c => s_st n va x h = inl c
    | inr pa => exists h', s_st n va x h = inr h' /\
        sv h' = SView (pv_set_mem (st_bytes n pa x (pv_mem (p_view h))) (p_view h)) (satp_of h) (mepc_of h) (stval_of h)
    end;
  (** M-mode accesses leave the other CSRs alone *)
  p_st_keeps n a x h h' : p_st n a x h = Some h' ->
    satp_of h' = satp_of h /\ mepc_of h' = mepc_of h /\ stval_of h' = stval_of h;
  csr_rd_keeps c h : satp_of (csr_rd c h).2 = satp_of h /\ mepc_of (csr_rd c h).2 = mepc_of h /\
    stval_of (csr_rd c h).2 = stval_of h;
  csr_wr_keeps c x h : c ∉ ["satp"; "mepc"; "stval"]%string ->
    satp_of (csr_wr c x h) = satp_of h /\ mepc_of (csr_wr c x h) = mepc_of h /\ stval_of (csr_wr c x h) = stval_of h;
  (** the hart implements Sv39 with 44-bit page numbers, and S-mode *)
  satp_wr_spec p h : 0 <= p < 2 ^ 44 ->
    sv (csr_wr "satp" (Z.lor SATP_MODE_SV39 p) h) = SView (p_view h) (Z.lor SATP_MODE_SV39 p) (mepc_of h) (stval_of h);
  satp_rd_spec h : (csr_rd "satp" h).1 = satp_of h /\ p_view (csr_rd "satp" h).2 = p_view h;
  mepc_wr_spec x h : x mod 4 = 0 -> is_u64 x ->
    sv (csr_wr "mepc" x h) = SView (p_view h) (satp_of h) x (stval_of h);
  mepc_rd_spec h : (csr_rd "mepc" h).1 = mepc_of h /\ p_view (csr_rd "mepc" h).2 = p_view h;
  stval_rd_spec h : (csr_rd "stval" h).1 = stval_of h /\ p_view (csr_rd "stval" h).2 = p_view h;
  mstatus_mpp x : mstatus_ok x -> mstatus_ok (mpp_s x);
}.

(** ** The program *)

Definition FAULT_VA_L0 : Z := 0x40001000.
Definition FAULT_VA_L1 : Z := 0x50000000.
Definition FAULT_VA_L2 : Z := 0xC0000000.
Definition PATTERN : Z := 0xDEADBEEFCAFEBABE.

Definition sv39_boot_glob : pglob := PGlob (replicate 8 0) 0 0 0.

Section Program.
Context {U H : Type} `{!UartDev U, !HartDev H, !PmpDev H, !Sv39Dev H}.
Abbreviation W := (world U H pglob).
(** The pages, the save area, the counter, the trap entry, [s_mode_tests],
    the top of the stack; the resume label of the [n]th probe; registers and
    addresses of instructions the compiler chooses. *)
Context (q : sv_pages) (save_addr fails_addr trap_entry s_entry stack_top : Z) (resume junk : nat -> Z).

(** With an [sfence.vma], which has nothing to flush here. *)
Definition set_satp (v : Z) : prog W unit := csrw "satp" v.
Definition read_satp : prog W Z := csrr "satp".

Definition print_pte (name : string) (pte : Z) : prog W unit :=
  let ppn := Z.land (Z.shiftr pte 10) 0xFFFFFFFFFFF in
  let fl := Z.land pte 0xFF in
  uputs name ;;
  uputs "=" ;;
  uart_put_hex pte ;;
  uputs " ppn=" ;;
  uart_put_hex ppn ;;
  uputs " flags=" ;;
  when (negb (Z.land fl PTE_V =? 0)) (uart_putc 86) ;;
  when (negb (Z.land fl PTE_R =? 0)) (uart_putc 82) ;;
  when (negb (Z.land fl PTE_W =? 0)) (uart_putc 87) ;;
  when (negb (Z.land fl PTE_X =? 0)) (uart_putc 88) ;;
  when (negb (Z.land fl PTE_U =? 0)) (uart_putc 85) ;;
  when (negb (Z.land fl PTE_G =? 0)) (uart_putc 71) ;;
  when (negb (Z.land fl PTE_A =? 0)) (uart_putc 65) ;;
  when (negb (Z.land fl PTE_D =? 0)) (uart_putc 68) ;;
  when (fl =? 0) (uart_putc 48) ;;
  uputs "\n".

(** *** S-mode *)

(** An access to the program's own memory, which must reach it. *)
Definition via (k : vaccess) (va n : Z) : prog W unit :=
  fun w => match s_at k va n (w_hw w) with
           | inr pa => if pa =? va then Ret tt w else Undef
           | inl _ => Undef
           end.
Definition s_saved (i : nat) : prog W Z := via VLoad (save_addr + 8 * Z.of_nat i) 8 ;; saved i.
Definition s_save (i : nat) (x : Z) : prog W unit :=
  via VStore (save_addr + 8 * Z.of_nat i) 8 ;; gset_ (set_save i x).
Definition s_fails : prog W Z := via VLoad fails_addr 4 ;; gget fails.
(** Printing polls the status register and writes the holding register. *)
Definition on_uart (m : prog W unit) : prog W unit :=
  via VLoad (UART_BASE + 5) 1 ;; via VStore UART_BASE 1 ;; m.

Definition s_check (cond : bool) (msg : string) : prog W unit :=
  when (negb cond)
    (on_uart (uputs "  FAIL: ") ;; on_uart (uputs msg) ;; on_uart (uputs "\n") ;;
     n <- s_fails ;; via VStore fails_addr 4 ;; gset_ (set_fails (n + 1))).

(** The trap entry, in M-mode, translation off. *)
Definition sv39_stub (t1 mcause mepc mtval : Z) : prog W unit :=
  gset_ (set_save 1 t1) ;; gset_ (set_save 2 mcause) ;; gset_ (set_save 3 mepc) ;; gset_ (set_save 4 mtval) ;;
  x <- csrr "stval" ;; gset_ (set_save 7 x) ;;
  r <- saved 5 ;; csrw "mepc" r ;;
  gset_ (set_save 6 1).

Definition test_mapped : prog W Z :=
  s_save 5 (resume 0) ;;
  s_save 6 0 ;;
  fun w => match s_st 8 SV_MAPPED PATTERN (w_hw w) with
           | inl c => (sv39_stub (junk 0) c (junk 4) SV_MAPPED ;; ret (junk 1)) w
           | inr h =>
               match s_ld 8 SV_MAPPED h with
               | inl c => (sv39_stub (junk 0) c (junk 5) SV_MAPPED ;; ret (junk 1))
                            (World (w_uart w) h (w_glob w))
               | inr x => Ret x (World (w_uart w) h (w_glob w))
               end
           end.

Definition test_fault (n : nat) (va : Z) (name : string) : prog W unit :=
  s_save 5 (resume n) ;;
  s_save 6 0 ;;
  (fun w => match s_ld 8 va (w_hw w) with
            | inl c => sv39_stub (junk n) c (u64 (resume n - 4)) va w
            | inr _ => Ret tt w
            end) ;;
  on_uart (uputs name) ;;
  on_uart (uputs ": seen=") ;;
  x <- s_saved 6 ;; on_uart (uart_put_dec x) ;;
  on_uart (uputs " mcause=") ;;
  x <- s_saved 2 ;; on_uart (uart_put_hex x) ;;
  on_uart (uputs " mepc=") ;;
  x <- s_saved 3 ;; on_uart (uart_put_hex x) ;;
  on_uart (uputs " mtval=") ;;
  x <- s_saved 4 ;; on_uart (uart_put_hex x) ;;
  on_uart (uputs " stval=") ;;
  x <- s_saved 7 ;; on_uart (uart_put_hex x) ;;
  on_uart (uputs " resume-4=") ;;
  x <- s_saved 5 ;; on_uart (uart_put_hex (u64 (x - 4))) ;;
  on_uart (uputs "\n") ;;
  x <- s_saved 6 ;; s_check (x =? 1) "unmapped load did not trap" ;;
  x <- s_saved 2 ;; s_check (x =? 13) "mcause != 13 (load page fault)" ;;
  x <- s_saved 4 ;; s_check (x =? va) "mtval != faulting VA" ;;
  x <- s_saved 7 ;; s_check (x =? 0) "stval unexpectedly nonzero" ;;
  x <- s_saved 3 ;; y <- s_saved 5 ;; s_check (x =? u64 (y - 4)) "mepc != address of faulting ld".

(** A load of the program's own memory. *)
Definition s_vld (n : nat) (a : Z) : prog W Z :=
  fun w => match s_ld n a (w_hw w) with inr x => Ret x w | inl _ => Undef end.

Definition s_mode_tests : prog W unit :=
  on_uart (uputs "s-mode: entered, translation active\n") ;;
  got <- test_mapped ;;
  on_uart (uputs "mapped: stored 0xdeadbeefcafebabe via VA 0x40000000, loaded ") ;;
  on_uart (uart_put_hex got) ;;
  on_uart (uputs " seen=") ;;
  x <- s_saved 6 ;; on_uart (uart_put_dec x) ;;
  on_uart (uputs "\n") ;;
  x <- s_saved 6 ;; s_check (x =? 0) "mapped access unexpectedly trapped" ;;
  s_check (got =? PATTERN) "mapped load returned wrong value" ;;
  phys <- s_vld 8 (page q) ;;
  on_uart (uputs "mapped: physical page now holds ") ;;
  on_uart (uart_put_hex phys) ;;
  on_uart (uputs "\n") ;;
  s_check (phys =? PATTERN) "physical page != pattern after mapped store" ;;
  test_fault 1 FAULT_VA_L0 "fault-l0" ;;
  test_fault 2 FAULT_VA_L1 "fault-l1" ;;
  test_fault 3 FAULT_VA_L2 "fault-l2" ;;
  n <- s_fails ;;
  (if n =? 0 then on_uart (uputs "RESULT: PASS (mapped round-trip ok, all faults mcause=13)\n")
   else on_uart (uputs "RESULT: FAIL (") ;;
        n <- s_fails ;; on_uart (uart_put_dec (u64 n)) ;;
        on_uart (uputs " checks failed)\n")) ;;
  on_uart (uputs "done\n") ;;
  park.

(** *** M-mode *)

Definition sv_control : prog W unit :=
  fill_array 1 8 (page q) (fun i => u8 (0xA5 + i)) ;;
  verify_array 1 8 (page q) (fun i => u8 (0xA5 + i)) check "page buffer not writable before table setup" ;;
  uputs "control: data page readable/writable before translation: ok\n" ;;
  check (Z.land (root_pt q) 0xFFF =? 0) "root_pt misaligned" ;;
  check (Z.land (l1_test q) 0xFFF =? 0) "l1_test misaligned" ;;
  check (Z.land (l0_test q) 0xFFF =? 0) "l0_test misaligned" ;;
  check (Z.land (l1_uart q) 0xFFF =? 0) "l1_uart misaligned" ;;
  check (Z.land (l0_uart q) 0xFFF =? 0) "l0_uart misaligned" ;;
  check (Z.land (page q) 0xFFF =? 0) "page misaligned" ;;
  check (stack_top <? IDENT_END) "stack outside identity window" ;;
  check ((IDENT_BASE <=? s_entry) && (s_entry <? IDENT_END)) "s_mode_tests outside identity window".

Definition sv_build : prog W unit := for_each (table_stores q) (fun p => vst 8 p.1 p.2).

Definition PTE_VRWX : Z := Z.lor PTE_V (Z.lor PTE_R (Z.lor PTE_W PTE_X)).
Definition PTE_VRW : Z := Z.lor PTE_V (Z.lor PTE_R PTE_W).

Definition sv_report_tables : prog W unit :=
  uputs "table: VA 0x40000000 -> vpn2=1 vpn1=0 vpn0=0\n" ;;
  x <- vld 8 (root_pt q + 8 * 1) ;; print_pte "table: root_pt[1] " x ;;
  x <- vld 8 (l1_test q + 8 * 0) ;; print_pte "table: l1_test[0] " x ;;
  x <- vld 8 (l0_test q + 8 * 0) ;; print_pte "table: l0_test[0] " x ;;
  x <- vld 8 (root_pt q + 8 * 2) ;; print_pte "table: root_pt[2] " x ;;
  x <- vld 8 (root_pt q + 8 * 0) ;; print_pte "table: root_pt[0] " x ;;
  x <- vld 8 (l1_uart q + 8 * 128) ;; print_pte "table: l1_uart[128]" x ;;
  x <- vld 8 (l0_uart q + 8 * 0) ;; print_pte "table: l0_uart[0] " x.

Definition sv_check_tables : prog W unit :=
  x <- vld 8 (root_pt q + 8 * 1) ;;
  check (Z.land x PTE_VRWX =? PTE_V) "root entry 1 is not a pure pointer (V only)" ;;
  x <- vld 8 (root_pt q + 8 * 0) ;;
  check (Z.land x PTE_VRWX =? PTE_V) "root entry 0 is not a pure pointer (V only)" ;;
  x <- vld 8 (l1_test q + 8 * 0) ;;
  check (Z.land x PTE_VRWX =? PTE_V) "l1 entry 0 is not a pure pointer (V only)" ;;
  x <- vld 8 (l1_uart q + 8 * 128) ;;
  check (Z.land x PTE_VRWX =? PTE_V) "uart l1 entry 128 is not a pure pointer (V only)" ;;
  x <- vld 8 (l0_test q + 8 * 0) ;;
  check (Z.land x PTE_VRW =? PTE_VRW) "leaf entry missing V/R/W" ;;
  x <- vld 8 (l0_test q + 8 * 0) ;;
  check (Z.land x (Z.lor PTE_VRWX PTE_U) =? PTE_VRW) "leaf entry has unexpected X/U bits" ;;
  x <- vld 8 (root_pt q + 8 * 1) ;;
  check (Z.land (Z.shiftr x 10) 0xFFFFFFFFFFF =? Z.shiftr (l1_test q) 12) "root[1] PPN != l1_test page number" ;;
  x <- vld 8 (l1_test q + 8 * 0) ;;
  check (Z.land (Z.shiftr x 10) 0xFFFFFFFFFFF =? Z.shiftr (l0_test q) 12) "l1_test[0] PPN != l0_test page number" ;;
  x <- vld 8 (l0_test q + 8 * 0) ;;
  check (Z.land (Z.shiftr x 10) 0xFFFFFFFFFFF =? Z.shiftr (page q) 12) "leaf PPN != page number" ;;
  x <- vld 8 (l0_uart q + 8 * 0) ;;
  check (Z.land (Z.shiftr x 10) 0xFFFFFFFFFFF =? Z.shiftr UART_BASE 12) "uart leaf PPN != 0x10000".

Definition sv_pmp : prog W unit :=
  csr_write_pmpaddr0 0 ;;
  csr_write_pmpaddr1 0x20100000 ;;
  csr_write_pmpcfg0 0x0F00 ;;
  x <- csr_read_pmpcfg0 ;;
  uputs "m-mode: pmpcfg0=" ;;
  uart_put_hex x ;;
  uputs " (entry1: TOR [0, 0x80400000) R|W|X)\n" ;;
  check (x =? 0x0F00) "pmpcfg0 readback != 0x0F00".

Definition sv_enable : prog W unit :=
  let root_ppn := Z.shiftr (root_pt q) 12 in
  csrw "mtvec" trap_entry ;;
  csrw "mscratch" save_addr ;;
  set_satp (Z.lor SATP_MODE_SV39 root_ppn) ;;
  satp <- read_satp ;;
  uputs "m-mode: satp=" ;;
  uart_put_hex satp ;;
  uputs " (MODE=8 ASID=0)\n" ;;
  check (Z.shiftr satp 60 =? 8) "satp MODE != 8 (Sv39)" ;;
  check (Z.land satp 0xFFFFFFFFFFF =? root_ppn) "satp PPN != root page".

(** [mret] to the code at [s_entry] in the mode MPP names. *)
Definition mret : prog W unit :=
  ms <- csrr "mstatus" ;;
  pc <- csrr "mepc" ;;
  if (Z.land (Z.shiftr ms 11) 3 =? 1) && (pc =? s_entry) then s_mode_tests else undef.

Definition sv_drop : prog W unit :=
  uputs "m-mode: entering S-mode\n" ;;
  t0 <- csrr "mstatus" ;;
  csrw "mstatus" (mpp_s t0) ;;
  csrw "mepc" s_entry ;;
  mret.

Definition sv39_main : prog W unit :=
  uart_init ;;
  uputs "sv39-walk: Sv39 page-table walk and fault path (backlog item 39)\n" ;;
  uputs "m-mode: mhartid=" ;;
  x <- csr_read_mhartid ;; uart_put_dec x ;;
  uputs "\n" ;;
  sv_control ;;
  sv_build ;;
  sv_report_tables ;;
  sv_check_tables ;;
  sv_pmp ;;
  sv_enable ;;
  sv_drop.
End Program.

(** ** Rules *)

Definition set_vp (p : pview) (v : sview) : sview := SView p (v_satp v) (v_mepc v) (v_stval v).

Section Rules.
Context {U H : Type} `{!UartDev U, !UartSpec U, !HartDev H, !PmpDev H, !PmpSpec H, !Sv39Dev H, !Sv39Spec H}.
Abbreviation vr := (vruns (U:=U) (G:=pglob) sv).

Lemma sv_eq h v : sv h = v ->
  p_view h = vp v /\ satp_of h = v_satp v /\ mepc_of h = v_mepc v /\ stval_of h = v_stval v.
Proof. now intros <-. Qed.

Lemma sr_csrr c x v g :
  (forall h, p_view h = vp v -> sv h = v -> (csr_rd c h).1 = x /\ p_view (csr_rd c h).2 = p_view h) ->
  vr (csrr c) v g x [] v g.
Proof.
  intros Hc u h Hv. destruct (Hc h (proj1 (sv_eq h v Hv)) Hv) as [<- Hp]. exists (csr_rd c h).2.
  split; [apply csrr_eq|]. destruct (csr_rd_keeps c h) as (E1 & E2 & E3). unfold sv in *. now rewrite Hp, E1, E2, E3.
Qed.

Lemma sr_csrw c x v p g : c ∉ ["satp"; "mepc"; "stval"]%string ->
  (forall h, sv h = v -> p_view h = vp v -> p_view (csr_wr c x h) = p) ->
  vr (csrw c x) v g tt [] (set_vp p v) g.
Proof.
  intros Hn Hc u h Hv. exists (csr_wr c x h). split; [reflexivity|].
  destruct (sv_eq h v Hv) as (Ep & E1 & E2 & E3). destruct (csr_wr_keeps c x h Hn) as (F1 & F2 & F3).
  unfold sv, set_vp. now rewrite (Hc h Hv Ep), F1, F2, F3, E1, E2, E3.
Qed.

Lemma sr_mhartid v g : vr csr_read_mhartid v g (pv_hartid (vp v)) [] v g.
Proof. apply sr_csrr. intros h <- _. apply mhartid_spec. Qed.
Lemma sr_read_cfg v g : vr csr_read_pmpcfg0 v g (read_cfg (pv_es (vp v))) [] v g.
Proof. apply sr_csrr. intros h <- _. apply pmpcfg_rd_spec. Qed.
Lemma sr_mstatus v g : vr (csrr "mstatus") v g (pv_mstatus (vp v)) [] v g.
Proof. apply sr_csrr. intros h <- _. apply mstatus_rd_spec. Qed.
Lemma sr_satp v g : vr read_satp v g (v_satp v) [] v g.
Proof. apply sr_csrr. intros h _ <-. apply satp_rd_spec. Qed.
Lemma sr_mepc v g : vr (csrr "mepc") v g (v_mepc v) [] v g.
Proof. apply sr_csrr. intros h _ <-. apply mepc_rd_spec. Qed.
Lemma sr_stval v g : vr (csrr "stval") v g (v_stval v) [] v g.
Proof. apply sr_csrr. intros h _ <-. apply stval_rd_spec. Qed.

Ltac not_listed := rewrite !elem_of_cons, elem_of_nil; intuition discriminate.

Lemma sr_write_cfg x v g :
  vr (csr_write_pmpcfg0 x) v g tt [] (set_vp (pv_set_es (write_cfg warl x (pv_es (vp v))) (vp v)) v) g.
Proof. apply sr_csrw; [not_listed|]. intros h _ <-. apply pmpcfg_wr_spec. Qed.
Lemma sr_write_addr0 x v g :
  vr (csr_write_pmpaddr0 x) v g tt [] (set_vp (pv_set_es (write_addr 0 x (pv_es (vp v))) (vp v)) v) g.
Proof. apply sr_csrw; [not_listed|]. intros h _ <-. apply pmpaddr_wr_spec. lia. Qed.
Lemma sr_write_addr1 x v g :
  vr (csr_write_pmpaddr1 x) v g tt [] (set_vp (pv_set_es (write_addr 1 x (pv_es (vp v))) (vp v)) v) g.
Proof. apply sr_csrw; [not_listed|]. intros h _ <-. apply pmpaddr_wr_spec. lia. Qed.
Lemma sr_mtvec x v g : vr (csrw "mtvec" x) v g tt [] (set_vp (vp v) v) g.
Proof. apply sr_csrw; [not_listed|]. intros h _ <-. now apply trap_csr_wr_spec. Qed.
Lemma sr_mscratch x v g : vr (csrw "mscratch" x) v g tt [] (set_vp (vp v) v) g.
Proof. apply sr_csrw; [not_listed|]. intros h _ <-. now apply trap_csr_wr_spec. Qed.
Lemma sr_mpp v g :
  vr (csrw "mstatus" (mpp_s (pv_mstatus (vp v)))) v g tt [] (set_vp (pv_set_mstatus (mpp_s (pv_mstatus (vp v))) (vp v)) v) g.
Proof. apply sr_csrw; [not_listed|]. intros h _ <-. apply mstatus_wr_spec, mstatus_mpp, mstatus_cur. Qed.

Lemma sr_set_satp p v g : 0 <= p < 2 ^ 44 ->
  vr (set_satp (Z.lor SATP_MODE_SV39 p)) v g tt [] (SView (vp v) (Z.lor SATP_MODE_SV39 p) (v_mepc v) (v_stval v)) g.
Proof.
  intros Hp u h Hv. exists (csr_wr "satp" (Z.lor SATP_MODE_SV39 p) h). split; [reflexivity|].
  rewrite satp_wr_spec by exact Hp. now destruct (sv_eq h v Hv) as (-> & _ & -> & ->).
Qed.
Lemma sr_set_mepc x v g : x mod 4 = 0 -> is_u64 x ->
  vr (csrw "mepc" x) v g tt [] (SView (vp v) (v_satp v) x (v_stval v)) g.
Proof.
  intros Hx Hu u h Hv. exists (csr_wr "mepc" x h). split; [reflexivity|].
  rewrite mepc_wr_spec by assumption. now destruct (sv_eq h v Hv) as (-> & -> & _ & ->).
Qed.

Lemma sr_ld n a v g : pmp_allows 0 (pv_es (vp v)) ALoad a (Z.of_nat n) = true ->
  vr (vld n a) v g (ld_bytes n a (pv_mem (vp v))) [] v g.
Proof.
  intros Ha u h Hv. exists h. split; [|exact Hv]. unfold vld. cbn [w_hw]. rewrite p_ld_spec.
  destruct (sv_eq h v Hv) as (-> & _). now rewrite Ha.
Qed.
Lemma sr_st n a x v g : pmp_allows 0 (pv_es (vp v)) AStore a (Z.of_nat n) = true ->
  vr (vst n a x) v g tt [] (set_vp (pv_set_mem (st_bytes n a x (pv_mem (vp v))) (vp v)) v) g.
Proof.
  intros Ha u h Hv. destruct (sv_eq h v Hv) as (Ep & E1 & E2 & E3). pose proof (p_st_spec n a x h) as Hs.
  rewrite Ep, Ha in Hs. destruct Hs as (h' & E & Hp). exists h'. unfold vst. cbn [w_hw]. rewrite E.
  destruct (p_st_keeps _ _ _ _ _ E) as (F1 & F2 & F3). split; [reflexivity|].
  unfold sv, set_vp. now rewrite Hp, F1, F2, F3, E1, E2, E3.
Qed.
Lemma sr_check b msg v g : b = true -> vr (check b msg) v g tt [] v g.
Proof. intros ->. now apply vruns_unless. Qed.

Lemma sr_via k va n v g : s_access v k va n = inr va -> vr (via k va n) v g tt [] v g.
Proof. intros Ha u h Hv. exists h. unfold via. cbn [w_hw]. rewrite s_at_spec, Hv, Ha, Z.eqb_refl. auto. Qed.
Lemma sr_vld n a pa v g : s_access v VLoad a (Z.of_nat n) = inr pa ->
  vr (s_vld n a) v g (ld_bytes n pa (pv_mem (vp v))) [] v g.
Proof.
  intros Ha u h Hv. exists h. unfold s_vld. cbn [w_hw]. rewrite s_ld_spec, Hv, Ha.
  now destruct (sv_eq h v Hv) as (-> & _).
Qed.
Lemma sr_s_check fa b msg v g : b = true -> vr (s_check fa b msg) v g tt [] v g.
Proof. intros ->. now apply vruns_unless. Qed.
End Rules.

(** ** The S-mode phase *)

Lemma satp_fields p : 0 <= p < 2 ^ 44 ->
  Z.shiftr (Z.lor SATP_MODE_SV39 p) 60 = 8 /\ Z.land (Z.lor SATP_MODE_SV39 p) 0xFFFFFFFFFFF = p /\
  is_u64 (Z.lor SATP_MODE_SV39 p).
Proof.
  intros Hp. change SATP_MODE_SV39 with (8 * 2 ^ 60). rewrite lor_disjoint_add by lia.
  rewrite Z.shiftr_div_pow2 by lia. change 0xFFFFFFFFFFF with (Z.ones 44). rewrite Z.land_ones by lia.
  split; [rewrite Z.div_add_l, Z.div_small by lia; lia|]. split; [|unfold is_u64; lia].
  replace (8 * 2 ^ 60) with (2 ^ 19 * 2 ^ 44) by lia. rewrite Z.add_comm, Z.mod_add by lia. now apply Z.mod_small.
Qed.

Section Smode.
Context {U H : Type} `{!UartDev U, !UartSpec U, !HartDev H, !PmpDev H, !PmpSpec H, !Sv39Dev H, !Sv39Spec H}.
Abbreviation vr := (vruns (U:=U) (G:=pglob) sv).
Context (q : sv_pages) (save_addr fails_addr : Z) (resume junk : nat -> Z).
Context (rest : list Z) (hid ms : Z).
Hypothesis Hq : sv_layout q.
Hypothesis Hres : forall n, is_u64 (resume n) /\ resume n mod 4 = 0.
(** Where the statics may be. *)
Definition own (a n : Z) : Prop := IDENT_BASE <= a /\ a + n <= 0x80400000.
Hypothesis Hsave : own save_addr 64.
Hypothesis Hfails : own fails_addr 4.

Definition satp_on : Z := Z.lor SATP_MODE_SV39 (Z.shiftr (root_pt q) 12).
Definition son (m : Z -> Z) (pc : Z) : sview := SView (PView (sv_entries rest) m hid ms) satp_on pc 0.

Lemma son_access m pc k va n : tables_built q m -> is_u64 va ->
  s_access (son m pc) k va n =
  match sv_map q k va with
  | inl c => inl c
  | inr pa => if pmp_grants 0 (sv_entries rest) k pa n then inr pa else inl (access_fault k)
  end.
Proof.
  intros Hm Hva. destruct (page_ok q Hq (root_pt q)) as (_ & _ & _ & _ & _ & Hr); [in_list|].
  destruct (satp_fields _ Hr) as (E1 & E2 & _). unfold s_access, son, satp_on. cbn [v_satp vp pv_es pv_mem].
  rewrite E1, E2. cbn [Z.eqb Pos.eqb]. now rewrite (walk_map q rest m Hq Hm).
Qed.

Lemma own_access m pc k a n : tables_built q m -> own a n -> 0 < n -> s_access (son m pc) k a n = inr a.
Proof.
  intros Hm [Ha Hh] Hn. unfold IDENT_BASE in Ha. rewrite son_access by (first [exact Hm|unfold is_u64; lia]).
  unfold sv_map, SV_MAPPED, UART_BASE, IDENT_BASE, IDENT_END. ranges; try lia; now rewrite sv_grants by lia.
Qed.

Lemma uart_access m pc k a : tables_built q m -> k <> VFetch -> UART_BASE <= a < UART_BASE + 8 ->
  s_access (son m pc) k a 1 = inr a.
Proof.
  intros Hm Hk Ha. unfold UART_BASE in Ha. rewrite son_access by (first [exact Hm|unfold is_u64; lia]).
  unfold sv_map, SV_MAPPED, UART_BASE. ranges; try lia; destruct k; try congruence; now rewrite sv_grants by lia.
Qed.

Lemma mapped_access m pc k : tables_built q m -> k <> VFetch -> s_access (son m pc) k SV_MAPPED 8 = inr (page q).
Proof.
  intros Hm Hk. destruct (page_ok q Hq (page q)) as (_ & _ & H0 & Hh & _); [in_list|].
  rewrite son_access by (first [exact Hm|u64c]). unfold sv_map.
  assert ((SV_MAPPED <=? SV_MAPPED) && (SV_MAPPED <? SV_MAPPED + 4096) = true) as -> by reflexivity.
  rewrite Z.sub_diag, Z.add_0_r. destruct k; try congruence; now rewrite sv_grants by lia.
Qed.

Lemma page_store m x : tables_built q m -> tables_built q (st_bytes 8 (page q) x m).
Proof.
  intros Hm t i Ht Hi. rewrite <-(Hm t i Ht Hi). apply ld_st_other. change (Z.of_nat 8) with 8.
  destruct (table_page q Hq t Ht) as (_ & _ & Hd). lia.
Qed.

Section At.
Context (m : Z -> Z) (pc : Z).
Hypothesis Hm : tables_built q m.

Lemma on_uart_runs p l g : prints p l -> vr (on_uart p) (son m pc) g tt l (son m pc) g.
Proof.
  intros Hp. unfold on_uart. vquietly sr_via; [apply uart_access; [exact Hm|discriminate|unfold UART_BASE; lia]|].
  vquietly sr_via; [apply uart_access; [exact Hm|discriminate|unfold UART_BASE; lia]|]. now apply vruns_prints.
Qed.
Lemma on_puts_runs t g : no_nul (c_lit t) = true -> vr (on_uart (uputs t)) (son m pc) g tt (lit t) (son m pc) g.
Proof. intros Ht. now apply on_uart_runs, prints_lit. Qed.
Lemma on_hex_runs x g : is_u64 x -> vr (on_uart (uart_put_hex x)) (son m pc) g tt (fmt_hex x) (son m pc) g.
Proof. intros Hx. now apply on_uart_runs, prints_hex. Qed.
Lemma on_dec_runs x g : is_u64 x -> vr (on_uart (uart_put_dec x)) (son m pc) g tt (fmt_dec x) (son m pc) g.
Proof. intros Hx. now apply on_uart_runs, prints_dec. Qed.

Lemma s_saved_runs i x g : save g !! i = Some x -> (i < 8)%nat ->
  vr (s_saved save_addr i) (son m pc) g x [] (son m pc) g.
Proof.
  intros Hx Hi. unfold s_saved. vquietly sr_via; [apply own_access; [exact Hm|destruct Hsave; split; lia|lia]|].
  unfold saved. vstep. unfold arr_get. rewrite Hx. apply vruns_ret.
Qed.
Lemma s_save_runs i x g : (i < 8)%nat -> vr (s_save save_addr i x) (son m pc) g tt [] (son m pc) (set_save i x g).
Proof.
  intros Hi. unfold s_save. vquietly sr_via; [apply own_access; [exact Hm|destruct Hsave; split; lia|lia]|].
  apply vruns_gset. reflexivity.
Qed.
Lemma s_fails_runs g : vr (s_fails fails_addr) (son m pc) g (fails g) [] (son m pc) g.
Proof.
  unfold s_fails. vquietly sr_via; [apply own_access; [exact Hm|exact Hfails|lia]|]. vstep.
Qed.
End At.

Ltac sprim :=
  lazymatch goal with
  | |- vruns _ (on_uart (uputs _)) _ _ _ _ _ _ => apply on_puts_runs; [assumption|reflexivity]
  | |- vruns _ (on_uart (uart_put_hex _)) _ _ _ _ _ _ => apply on_hex_runs; [assumption|u64_side]
  | |- vruns _ (on_uart (uart_put_dec _)) _ _ _ _ _ _ => apply on_dec_runs; [assumption|u64_side]
  | |- vruns _ (s_saved _ _) _ _ _ _ _ _ => apply s_saved_runs; [assumption|reflexivity|lia]
  | |- vruns _ (s_save _ _ _) _ _ _ _ _ _ => apply s_save_runs; [assumption|lia]
  | |- vruns _ (s_check _ _ _) _ _ _ _ _ _ => apply sr_s_check; first [reflexivity | apply Z.eqb_refl]
  | |- vruns _ (csrr "stval") _ _ _ _ _ _ => apply sr_stval
  | |- vruns _ (saved _) _ _ _ _ _ _ => apply vruns_gget
  | |- _ => vprim
  end.
Ltac squiet m :=
  lazymatch m with s_saved _ _ => idtac | s_save _ _ _ => idtac | s_check _ _ _ => idtac | csrr _ => idtac | _ => vquiet m end.
Ltac sstep :=
  lazymatch goal with
  | |- vruns _ (bind ?m _) _ _ _ _ _ _ =>
      first [ squiet m; eapply vruns_bind0; [sprim|cbv beta zeta]
            | eapply vruns_bind; [sprim|cbv beta zeta] ]
  | |- vhalts _ (bind ?m _) _ _ _ _ _ =>
      first [ squiet m; eapply vhalts_bind0; [sprim|cbv beta zeta]
            | eapply vhalts_bind; [sprim|cbv beta zeta] ]
  | |- vhalts _ park _ _ _ _ _ => apply vhalts_park
  | |- vruns _ _ _ _ _ _ _ _ => sprim
  end.

Lemma sv39_stub_runs t c epc tval s0 s1 s2 s3 s4 s6 s7 f ck cs m pc n :
  vr (sv39_stub t c epc tval) (son m pc) (PGlob [s0; s1; s2; s3; s4; resume n; s6; s7] f ck cs) tt []
     (son m (resume n)) (PGlob [s0; t; c; epc; tval; resume n; 1; 0] f ck cs).
Proof.
  destruct (Hres n) as [Hu H4]. unfold sv39_stub. do 6 sstep. unfold saved.
  eapply vruns_bind0; [eapply vruns_bind0; [apply vruns_gget|apply vruns_ret]|]. cbv beta.
  vquietly sr_set_mepc; [exact H4|exact Hu|]. sstep.
Qed.

Lemma test_mapped_runs s0 s1 s2 s3 s4 s5 s6 s7 f ck cs m pc : tables_built q m ->
  vr (test_mapped save_addr resume junk) (son m pc) (PGlob [s0; s1; s2; s3; s4; s5; s6; s7] f ck cs) PATTERN []
     (son (st_bytes 8 (page q) PATTERN m) pc) (PGlob [s0; s1; s2; s3; s4; resume 0%nat; 0; s7] f ck cs).
Proof.
  intros Hm. unfold test_mapped. do 2 sstep. intros u h Hv. cbn [w_hw w_glob w_uart].
  pose proof (s_st_spec 8 SV_MAPPED PATTERN h) as Hs. rewrite Hv in Hs. change (Z.of_nat 8) with 8 in Hs.
  rewrite mapped_access in Hs by (first [exact Hm|discriminate]). destruct Hs as (h' & -> & Hv').
  assert (sv h' = son (st_bytes 8 (page q) PATTERN m) pc) as Hv2.
  { rewrite Hv'. destruct (sv_eq h _ Hv) as (-> & -> & -> & ->). reflexivity. }
  rewrite s_ld_spec, Hv2. change (Z.of_nat 8) with 8.
  rewrite mapped_access by (first [now apply page_store|discriminate]).
  destruct (sv_eq h' _ Hv2) as (-> & _). exists h'. split; [|exact Hv2]. cbn [vp son pv_mem].
  now rewrite ld_st_same by (vm_compute; intuition congruence).
Qed.

Definition fault_text (name : string) (va rs : Z) : list Z :=
  lit name ++ lit ": seen=" ++ fmt_dec 1 ++ lit " mcause=" ++ fmt_hex 13 ++ lit " mepc=" ++ fmt_hex (u64 (rs - 4)) ++
  lit " mtval=" ++ fmt_hex va ++ lit " stval=" ++ fmt_hex 0 ++ lit " resume-4=" ++ fmt_hex (u64 (rs - 4)) ++ lit "\n".

Lemma test_fault_runs n va name s0 s1 s2 s3 s4 s5 s6 s7 f ck cs m pc : tables_built q m ->
  no_nul (c_lit name) = true -> is_u64 va -> sv_map q VLoad va = inl 13 ->
  vr (test_fault save_addr fails_addr resume junk n va name) (son m pc)
     (PGlob [s0; s1; s2; s3; s4; s5; s6; s7] f ck cs) tt (fault_text name va (resume n)) (son m (resume n))
     (PGlob [s0; junk n; 13; u64 (resume n - 4); va; resume n; 1; 0] f ck cs).
Proof.
  intros Hm Hn Hva Hf. unfold test_fault, fault_text. do 2 sstep.
  eapply vruns_bind0.
  { intros u h Hv. cbn [w_hw]. rewrite s_ld_spec, Hv, son_access, Hf by assumption.
    apply (sv39_stub_runs (junk n) 13 (u64 (resume n - 4)) va s0 s1 s2 s3 s4 0 s7 f ck cs m pc n u h Hv). }
  cbv beta. vuse on_puts_runs; [exact Hm|exact Hn|]. pose proof (u64_range (resume n - 4)).
  eapply vruns_conv; [repeat sstep|reflexivity|now rewrite ?app_nil_r|reflexivity..].
Qed.

Definition s_text : list Z :=
  lit "s-mode: entered, translation active\nmapped: stored 0xdeadbeefcafebabe via VA 0x40000000, loaded " ++
  fmt_hex PATTERN ++ lit " seen=0\nmapped: physical page now holds " ++ fmt_hex PATTERN ++ lit "\n" ++
  fault_text "fault-l0" FAULT_VA_L0 (resume 1%nat) ++
  fault_text "fault-l1" FAULT_VA_L1 (resume 2%nat) ++
  fault_text "fault-l2" FAULT_VA_L2 (resume 3%nat) ++
  lit "RESULT: PASS (mapped round-trip ok, all faults mcause=13)\ndone\n".

Lemma s_mode_tests_halts ck cs m pc : tables_built q m ->
  exists s, vhalts (U:=U) (G:=pglob) sv (s_mode_tests q save_addr fails_addr resume junk) (son m pc)
    (PGlob (replicate 8 0) 0 ck cs) s_text (son (st_bytes 8 (page q) PATTERN m) (resume 3%nat)) (PGlob s 0 ck cs).
Proof.
  intros Hm. set (m2 := st_bytes 8 (page q) PATTERN m). assert (tables_built q m2) as Hm2 by now apply page_store.
  assert (s_access (son m2 pc) VLoad (page q) 8 = inr (page q)) as Hpg.
  { apply own_access; [exact Hm2| |lia]. destruct Hq as [Hal _]. rewrite Forall_forall in Hal.
    destruct (Hal (page q)) as (_ & H1 & H2); [in_list|]. split; lia. }
  eexists. assert (is_u64 PATTERN) as HP by u64c. cbn [replicate].
  eapply vhalts_conv.
  - unfold s_mode_tests. sstep. vquietly test_mapped_runs; [exact Hm|]. fold m2. do 9 sstep.
    vquietly (sr_vld 8 (page q) (page q)); [exact Hpg|].
    change (pv_mem (vp (son m2 pc))) with (st_bytes 8 (page q) PATTERN m). rewrite ld_st_same by (vm_compute; intuition congruence). do 4 sstep.
    vuse test_fault_runs; [exact Hm2|reflexivity|u64c|reflexivity|].
    vuse test_fault_runs; [exact Hm2|reflexivity|u64c|reflexivity|].
    vuse test_fault_runs; [exact Hm2|reflexivity|u64c|reflexivity|].
    vquietly s_fails_runs; [exact Hm2|]. cbn [fails Z.eqb]. repeat sstep.
  - unfold s_text. repeat match goal with |- context [fault_text ?a ?b ?c] => generalize (fault_text a b c); intros ? end.
    vm_compute. reflexivity.
Qed.
End Smode.

(** ** The M-mode phase *)

Definition flags_text (fl : Z) : list Z :=
  (if negb (Z.land fl PTE_V =? 0) then [86] else []) ++ (if negb (Z.land fl PTE_R =? 0) then [82] else []) ++
  (if negb (Z.land fl PTE_W =? 0) then [87] else []) ++ (if negb (Z.land fl PTE_X =? 0) then [88] else []) ++
  (if negb (Z.land fl PTE_U =? 0) then [85] else []) ++ (if negb (Z.land fl PTE_G =? 0) then [71] else []) ++
  (if negb (Z.land fl PTE_A =? 0) then [65] else []) ++ (if negb (Z.land fl PTE_D =? 0) then [68] else []) ++
  (if fl =? 0 then [48] else []).
Definition pte_text (name : string) (ppn f : Z) : list Z :=
  lit name ++ lit "=" ++ fmt_hex (pte ppn f) ++ lit " ppn=" ++ fmt_hex ppn ++ lit " flags=" ++ flags_text f ++ lit "\n".

(** The flags of an entry under a mask. *)
Lemma land_pte ppn f k : 0 <= f < 1024 -> 0 <= k < 1024 -> Z.land (pte ppn f) k = Z.land f k.
Proof.
  intros Hf Hk. apply Z.bits_inj'. intros i Hi. rewrite !Z.land_spec. destruct (Z.lt_ge_cases i 10).
  - now rewrite pte_bit by lia.
  - destruct (Z.eq_dec k 0) as [->|]; [now rewrite Z.bits_0, !andb_false_r|].
    rewrite (Z.bits_above_log2 k i), !andb_false_r; [reflexivity|lia|].
    assert (Z.log2 k < 10) by (apply Z.log2_lt_pow2; lia). lia.
Qed.

Section Mmode.
Context {U H : Type} `{!UartDev U, !UartSpec U, !HartDev H, !PmpDev H, !PmpSpec H, !Sv39Dev H, !Sv39Spec H}.
Abbreviation vr := (vruns (U:=U) (G:=pglob) sv).
Context (q : sv_pages) (hid : Z).
Hypothesis Hq : sv_layout q.

(** A view before S-mode, [stval] as it is at reset. *)
Definition mon (es : list (Z * Z)) (m : Z -> Z) (ms satp pc : Z) : sview := SView (PView es m hid ms) satp pc 0.

Lemma print_pte_runs name ppn f v g : no_nul (c_lit name) = true -> 0 <= ppn < 2 ^ 44 -> 0 <= f < 256 ->
  vr (print_pte name (pte ppn f)) v g tt (pte_text name ppn f) v g.
Proof.
  intros Hn Hp Hf. pose proof (pte_range ppn f ltac:(lia) Hp). unfold print_pte, pte_text, flags_text.
  change 0xFFFFFFFFFFF with (Z.ones 44). pose proof (pte_ppn_of ppn f ltac:(lia) Hp) as Ep. unfold pte_ppn in Ep.
  rewrite Ep. cbv zeta. rewrite land_pte by lia. assert (Z.land f 0xFF = f) as ->.
  { change 0xFF with (Z.ones 8). rewrite Z.land_ones by lia. now apply Z.mod_small. }
  assert (is_u64 ppn /\ is_u64 (pte ppn f)) as [Hu1 Hu2] by (unfold is_u64; lia).
  eapply vruns_conv; [|reflexivity| |reflexivity..].
  - apply vruns_prints. eapply prints_seq; [now apply prints_lit|]. solve_prints.
  - now rewrite <-!app_assoc.
Qed.

Lemma off_access addrs k x n : 0 <= x -> pmp_allows 0 (entries_off addrs) k x n = true.
Proof. intros Hx. apply off_allows; auto using entries_off_off. Qed.

(** Memory after the control, and with the tables. *)
Definition sv_mem1 (m : Z -> Z) : Z -> Z := filled 1 8 (page q) (fun i => u8 (0xA5 + i)) m.
Definition sv_mem2 (m : Z -> Z) : Z -> Z := store_all (table_stores q) (sv_mem1 m).

Lemma sv_mem1_zero m : zero_tables q m -> zero_tables q (sv_mem1 m).
Proof.
  intros Hz t a Ht Ha. unfold sv_mem1. rewrite filled_other; [now apply (Hz t)|]. change (Z.of_nat 1 * Z.of_nat 8) with 8.
  destruct (table_page q Hq t Ht) as (_ & _ & Hd). lia.
Qed.

Lemma sv_mem2_built m : zero_tables q m -> tables_built q (sv_mem2 m).
Proof.
  intros Hz t i Ht Hi. unfold sv_mem2. apply (table_entry q Hq (sv_mem1 m) t i Ht); [|exact Hi]. now apply sv_mem1_zero.
Qed.

Lemma fill_runs k n a f es m ms satp pc g :
  (forall i, 0 <= i < Z.of_nat n -> pmp_allows 0 es AStore (a + Z.of_nat k * i) (Z.of_nat k) = true) ->
  vr (fill_array k n a f) (mon es m ms satp pc) g tt [] (mon es (filled k n a f m) ms satp pc) g.
Proof.
  intros Ha. unfold fill_array, filled.
  assert (Forall (fun i => (i < n)%nat) (seq 0 n)) as Hn
    by (apply List.Forall_forall; intros i Hi; apply in_seq in Hi; lia).
  revert m. induction Hn as [|i l Hi Hl IH]; intros m; [apply vruns_ret|]. cbn [for_each fold_left].
  eapply vruns_bind0; [apply sr_st; apply Ha; lia|]. apply IH.
Qed.

Lemma verify_runs k n a f es m ms satp pc g msg :
  (forall i, 0 <= i < Z.of_nat n -> pmp_allows 0 es ALoad (a + Z.of_nat k * i) (Z.of_nat k) = true /\
     ld_bytes k (a + Z.of_nat k * i) m = f i) ->
  vr (verify_array k n a f check msg) (mon es m ms satp pc) g tt [] (mon es m ms satp pc) g.
Proof.
  intros Ha. unfold verify_array. apply vruns_for_id. intros i Hi. apply elem_of_seq in Hi.
  destruct (Ha (Z.of_nat i) ltac:(lia)) as [Hp Hl]. eapply vruns_bind0; [apply sr_ld, Hp|]. cbn [vp mon pv_mem].
  rewrite Hl. apply sr_check, Z.eqb_refl.
Qed.

Lemma sv_control_runs s_entry stack_top addrs m ms satp pc g :
  stack_top < IDENT_END -> IDENT_BASE <= s_entry < IDENT_END ->
  vr (sv_control q s_entry stack_top) (mon (entries_off addrs) m ms satp pc) g tt
     (lit "control: data page readable/writable before translation: ok\n")
     (mon (entries_off addrs) (sv_mem1 m) ms satp pc) g.
Proof.
  intros Hst Hse. destruct (page_ok q Hq (page q)) as (_ & _ & H0 & _); [in_list|].
  assert (forall x, x ∈ pages_of q -> (Z.land x 0xFFF =? 0) = true) as Hal.
  { intros x Hx. destruct (page_ok q Hq x Hx) as (Hm & _). change 0xFFF with (Z.ones 12). rewrite Z.land_ones by lia.
    now apply Z.eqb_eq. }
  unfold sv_control. rewrite !Hal by in_list.
  assert ((stack_top <? IDENT_END) = true) as -> by lia.
  assert ((IDENT_BASE <=? s_entry) && (s_entry <? IDENT_END) = true) as -> by lia.
  eapply vruns_conv; [|reflexivity| |reflexivity..].
  - vquietly fill_runs; [intros; apply off_access; lia|].
    vquietly verify_runs.
    { intros i Hi. split; [apply off_access; lia|]. apply (filled_at 1 8 (page q) (fun i => u8 (0xA5 + i))); [exact Hi|]. apply (Z.mod_pos_bound _ 256). lia. }
    eapply vruns_bind; [vprim|]. do 7 (vquietly sr_check; [reflexivity|]). now apply sr_check.
  - now rewrite ?app_nil_r.
Qed.

Lemma sv_build_runs addrs m ms satp pc g :
  vr (sv_build q) (mon (entries_off addrs) (sv_mem1 m) ms satp pc) g tt [] (mon (entries_off addrs) (sv_mem2 m) ms satp pc) g.
Proof.
  unfold sv_build, sv_mem2, store_all. pose proof (stores_ok q Hq) as Hok.
  assert (Forall (fun p => 0 <= p.1) (table_stores q)) as Hp.
  { assert (forall x, x ∈ pages_of q -> 0 <= x) as Hx by (intros x Hx; apply (page_ok q Hq x Hx)).
    unfold table_stores. repeat (apply Forall_cons; split; [cbn [fst]; match goal with |- 0 <= ?f q + _ =>
      pose proof (Hx (f q) ltac:(in_list)); lia end|]). now apply Forall_nil. }
  generalize (sv_mem1 m). clear Hok. induction Hp as [|[a x] l Ha Hl IH]; intros m'; [apply vruns_ret|]. cbn [for_each fold_left fst snd].
  eapply vruns_bind0; [apply sr_st; apply off_access; exact Ha|]. apply IH.
Qed.

(** Reading an entry back. *)
Lemma entry_runs t i addrs m ms satp pc g x : tables_built q m ->
  t ∈ [root_pt q; l1_test q; l0_test q; l1_uart q; l0_uart q] -> 0 <= i < 512 -> entry q t i = x ->
  vr (vld 8 (t + 8 * i)) (mon (entries_off addrs) m ms satp pc) g x [] (mon (entries_off addrs) m ms satp pc) g.
Proof.
  intros Hm Ht Hi <-. rewrite <-(Hm t i Ht Hi). apply sr_ld, off_access.
  destruct (page_ok q Hq t (proj1 (table_page q Hq t Ht))) as (_ & _ & ? & _). lia.
Qed.

(** The seven entries by their place. *)
Lemma seven_entries :
  entry q (root_pt q) 1 = pte (Z.shiftr (l1_test q) 12) PTE_V /\
  entry q (root_pt q) 0 = pte (Z.shiftr (l1_uart q) 12) PTE_V /\
  entry q (root_pt q) 2 = pte 0x80000 0xCF /\
  entry q (l1_test q) 0 = pte (Z.shiftr (l0_test q) 12) PTE_V /\
  entry q (l0_test q) 0 = pte (Z.shiftr (page q) 12) 0xC7 /\
  entry q (l1_uart q) 128 = pte (Z.shiftr (l0_uart q) 12) PTE_V /\
  entry q (l0_uart q) 0 = pte 0x10000 0xC7.
Proof.
  rewrite !root_entry, l1_test_entry, l0_test_entry, l1_uart_entry, l0_uart_entry by (first [exact Hq|lia]).
  now split_and!.
Qed.

Lemma ppn_ok x : x ∈ pages_of q -> 0 <= Z.shiftr x 12 < 2 ^ 44.
Proof. intros Hx. apply (page_ok q Hq x Hx). Qed.

Definition tables_text : list Z :=
  lit "table: VA 0x40000000 -> vpn2=1 vpn1=0 vpn0=0\n" ++
  pte_text "table: root_pt[1] " (Z.shiftr (l1_test q) 12) PTE_V ++
  pte_text "table: l1_test[0] " (Z.shiftr (l0_test q) 12) PTE_V ++
  pte_text "table: l0_test[0] " (Z.shiftr (page q) 12) 0xC7 ++
  pte_text "table: root_pt[2] " 0x80000 0xCF ++
  pte_text "table: root_pt[0] " (Z.shiftr (l1_uart q) 12) PTE_V ++
  pte_text "table: l1_uart[128]" (Z.shiftr (l0_uart q) 12) PTE_V ++
  pte_text "table: l0_uart[0] " 0x10000 0xC7.

Ltac rd E := vquietly entry_runs; [eassumption|in_list|lia|exact E|].

Lemma sv_report_tables_runs addrs m ms satp pc g : tables_built q m ->
  vr (sv_report_tables q) (mon (entries_off addrs) m ms satp pc) g tt tables_text (mon (entries_off addrs) m ms satp pc) g.
Proof.
  intros Hm. destruct seven_entries as (E1 & E2 & E3 & E4 & E5 & E6 & E7). unfold sv_report_tables, tables_text.
  assert (0 <= PTE_V < 256 /\ 0 <= 0xC7 < 256 /\ 0 <= 0xCF < 256 /\ 0 <= 0x80000 < 2 ^ 44 /\ 0 <= 0x10000 < 2 ^ 44)
    as (F1 & F2 & F3 & F4 & F5) by (unfold PTE_V; lia).
  pose proof (ppn_ok (l1_test q) ltac:(in_list)). pose proof (ppn_ok (l0_test q) ltac:(in_list)).
  pose proof (ppn_ok (page q) ltac:(in_list)). pose proof (ppn_ok (l1_uart q) ltac:(in_list)).
  pose proof (ppn_ok (l0_uart q) ltac:(in_list)).
  eapply vruns_bind; [vprim|]. rd E1. vuse print_pte_runs; [reflexivity|assumption..|].
  rd E4. vuse print_pte_runs; [reflexivity|assumption..|].
  rd E5. vuse print_pte_runs; [reflexivity|assumption..|].
  rd E3. vuse print_pte_runs; [reflexivity|assumption..|].
  rd E2. vuse print_pte_runs; [reflexivity|assumption..|].
  rd E6. vuse print_pte_runs; [reflexivity|assumption..|].
  rd E7. apply print_pte_runs; [reflexivity|assumption..].
Qed.

Lemma pte_check ppn f mask want : 0 <= f < 1024 -> 0 <= mask < 1024 -> Z.land f mask = want ->
  (Z.land (pte ppn f) mask =? want) = true.
Proof. intros Hf Hk <-. apply Z.eqb_eq. now apply land_pte. Qed.
Lemma ppn_check ppn f : 0 <= f < 1024 -> 0 <= ppn < 2 ^ 44 ->
  (Z.land (Z.shiftr (pte ppn f) 10) 0xFFFFFFFFFFF =? ppn) = true.
Proof. intros Hf Hp. apply Z.eqb_eq. now apply pte_ppn_of. Qed.

Lemma sv_check_tables_runs addrs m ms satp pc g : tables_built q m ->
  vr (sv_check_tables q) (mon (entries_off addrs) m ms satp pc) g tt [] (mon (entries_off addrs) m ms satp pc) g.
Proof.
  intros Hm. destruct seven_entries as (E1 & E2 & E3 & E4 & E5 & E6 & E7). unfold sv_check_tables.
  assert (0 <= PTE_V < 1024 /\ 0 <= 0xC7 < 1024) as [F1 F2] by (unfold PTE_V; lia).
  rd E1. vquietly sr_check; [apply pte_check; [exact F1|vm_compute; intuition congruence|reflexivity]|].
  rd E2. vquietly sr_check; [apply pte_check; [exact F1|vm_compute; intuition congruence|reflexivity]|].
  rd E4. vquietly sr_check; [apply pte_check; [exact F1|vm_compute; intuition congruence|reflexivity]|].
  rd E6. vquietly sr_check; [apply pte_check; [exact F1|vm_compute; intuition congruence|reflexivity]|].
  rd E5. vquietly sr_check; [apply pte_check; [exact F2|vm_compute; intuition congruence|reflexivity]|].
  rd E5. vquietly sr_check; [apply pte_check; [exact F2|vm_compute; intuition congruence|reflexivity]|].
  rd E1. vquietly sr_check; [apply ppn_check; [exact F1|apply ppn_ok; in_list]|].
  rd E4. vquietly sr_check; [apply ppn_check; [exact F1|apply ppn_ok; in_list]|].
  rd E5. vquietly sr_check; [apply ppn_check; [exact F2|apply ppn_ok; in_list]|].
  rd E7. apply sr_check. apply ppn_check; [exact F2|vm_compute; intuition congruence].
Qed.

Lemma program_sv a0 a1 addrs : length addrs = 6%nat ->
  write_cfg warl 0x0F00 (write_addr 1 0x20100000 (write_addr 0 0 (entries_off (a0 :: a1 :: addrs)))) = sv_entries addrs.
Proof.
  intros Hlen. do 7 (destruct addrs as [|? addrs]; try discriminate Hlen).
  match goal with |- write_cfg _ _ (write_addr _ _ ?e) = sv_entries ?l =>
    assert (write_addr 1 0x20100000 e = (0, 0) :: (0, 0x20100000) :: entries_off l) as -> by reflexivity end.
  unfold write_cfg. cbn -[warl cfg_byte cfg_L]. change (cfg_L 0) with false. cbn iota.
  repeat match goal with |- context [cfg_byte ?v ?i] =>
    let b := eval vm_compute in (cfg_byte v i) in change (cfg_byte v i) with b end.
  now rewrite !warl_legal.
Qed.

Lemma sv_pmp_runs a0 a1 addrs m ms satp pc g : length addrs = 6%nat ->
  vr sv_pmp (mon (entries_off (a0 :: a1 :: addrs)) m ms satp pc) g tt
     (lit "m-mode: pmpcfg0=0xf00 (entry1: TOR [0, 0x80400000) R|W|X)\n") (mon (sv_entries addrs) m ms satp pc) g.
Proof.
  intros Hlen. unfold sv_pmp. eapply vruns_conv; [|reflexivity| |reflexivity..].
  - vquietly sr_write_addr0. vquietly sr_write_addr1. vquietly sr_write_cfg. unfold set_vp, pv_set_es.
    cbn [vp mon pv_es pv_mem pv_hartid pv_mstatus v_satp v_mepc v_stval]. rewrite program_sv by exact Hlen.
    change (SView (PView (sv_entries addrs) m hid ms) satp pc 0) with (mon (sv_entries addrs) m ms satp pc).
    vquietly sr_read_cfg. cbn [vp mon pv_es].
    assert (read_cfg (sv_entries addrs) = 0x0F00) as ->
      by (do 7 (destruct addrs as [|? addrs]; try discriminate Hlen); reflexivity).
    do 3 vstep. now apply sr_check.
  - vm_compute. reflexivity.
Qed.

Lemma sv_enable_runs trap_entry save_addr es m ms satp pc g :
  vr (sv_enable q save_addr trap_entry) (mon es m ms satp pc) g tt
     (lit "m-mode: satp=" ++ fmt_hex (satp_on q) ++ lit " (MODE=8 ASID=0)\n") (mon es m ms (satp_on q) pc) g.
Proof.
  destruct (satp_fields (Z.shiftr (root_pt q) 12)) as (F1 & F2 & F3); [apply ppn_ok; in_list|].
  unfold sv_enable. eapply vruns_conv; [|reflexivity| |reflexivity..].
  - vquietly sr_mtvec. vquietly sr_mscratch. vquietly sr_set_satp; [apply ppn_ok; in_list|].
    vquietly sr_satp. cbn [v_satp]. do 3 vstep. rewrite F1, F2, !Z.eqb_refl.
    vquietly sr_check; [reflexivity|]. now apply sr_check.
  - now rewrite ?app_nil_r.
Qed.

Lemma mpp_field x : Z.land (Z.shiftr (mpp_s x) 11) 3 = 1.
Proof.
  unfold mpp_s. apply Z.bits_inj'. intros i Hi. rewrite Z.land_spec, Z.shiftr_spec, Z.lor_spec, Z.land_spec by lia.
  destruct (Z.eq_dec i 0) as [->|N0]; [now rewrite !andb_true_r, orb_true_r|].
  destruct (Z.eq_dec i 1) as [->|N1]; [now rewrite andb_false_r|].
  replace (Z.testbit 3 i) with false; [|symmetry; apply Z.bits_above_log2; cbn; lia]. rewrite andb_false_r.
  symmetry. apply Z.bits_above_log2; cbn; lia.
Qed.

(** The first and last block, up to the drop. *)
Definition m_text : list Z :=
  lit "sv39-walk: Sv39 page-table walk and fault path (backlog item 39)\nm-mode: mhartid=" ++ fmt_dec hid ++
  lit "\ncontrol: data page readable/writable before translation: ok\n" ++ tables_text ++
  lit "m-mode: pmpcfg0=0xf00 (entry1: TOR [0, 0x80400000) R|W|X)\nm-mode: satp=" ++ fmt_hex (satp_on q) ++
  lit " (MODE=8 ASID=0)\nm-mode: entering S-mode\n".

Section Whole.
Context (save_addr fails_addr trap_entry s_entry stack_top : Z) (resume junk : nat -> Z).
Hypothesis Hres : forall n, is_u64 (resume n) /\ resume n mod 4 = 0.
Hypothesis Hsave : own save_addr 64.
Hypothesis Hfails : own fails_addr 4.
Hypothesis Hstack : stack_top < IDENT_END.
Hypothesis Hentry : IDENT_BASE <= s_entry < IDENT_END /\ s_entry mod 4 = 0.

Lemma sv_drop_halts rest m ms pc : tables_built q m ->
  exists s, vhalts (U:=U) (G:=pglob) sv (sv_drop q save_addr fails_addr s_entry resume junk)
    (mon (sv_entries rest) m ms (satp_on q) pc) sv39_boot_glob
    (lit "m-mode: entering S-mode\n" ++ s_text resume)
    (son q rest hid (mpp_s ms) (st_bytes 8 (page q) PATTERN m) (resume 3%nat)) (PGlob s 0 0 0).
Proof.
  intros Hm. destruct (s_mode_tests_halts (U:=U) (H:=H) q save_addr fails_addr resume junk rest hid (mpp_s ms)
    Hq Hres Hsave Hfails 0 0 m s_entry Hm) as [s Hs]. exists s. destruct Hentry as [[He1 He2] He4].
  unfold IDENT_BASE, IDENT_END in He1, He2. unfold sv_drop, mret. vstep.
  vquietly sr_mstatus. vquietly sr_mpp. vquietly sr_set_mepc; [exact He4|unfold is_u64; lia|].
  vquietly sr_mstatus. vquietly sr_mepc. cbn [v_mepc set_vp vp pv_set_mstatus pv_mstatus mon].
  rewrite mpp_field, !Z.eqb_refl. exact Hs.
Qed.

Definition sv39_log : list Z := m_text ++ s_text resume.

(** C11: The page-walk test runs to its end on every hart with PMP and Sv39,
    wherever the linker places its pages and statics inside the identity
    window: the log is exactly this one, the mapped round trip and the three
    faults with cause 13 at the right [mepc] and [mtval] included, no check
    fails, and at the end the data page holds the pattern stored through the
    mapped address, with the tables still in place. *)
Theorem sv39_main_passes a0 a1 addrs m ms satp pc :
  length addrs = 6%nat -> is_u64 hid -> zero_tables q m ->
  vmain_sends (U:=U) sv (sv39_main q save_addr fails_addr trap_entry s_entry stack_top resume junk)
    (mon (entries_off (a0 :: a1 :: addrs)) m ms satp pc) sv39_boot_glob sv39_log
    (fun v g => fails g = 0 /\ ld_bytes 8 (page q) (pv_mem (vp v)) = PATTERN /\ tables_built q (pv_mem (vp v)) /\
       v_satp v = satp_on q /\ pv_es (vp v) = sv_entries addrs).
Proof.
  intros Hlen Hhid Hz. pose proof (sv_mem2_built m Hz) as Hb. destruct Hentry as [He _].
  unfold sv39_main. apply vmain_sends_intro.
  2: { unfold sv39_log, m_text, s_text, tables_text, pte_text, fault_text. text_bytes.
       all: unfold flags_text; vm_compute; repeat constructor; congruence. }
  destruct (sv_drop_halts addrs (sv_mem2 m) ms pc Hb) as [s Hd].
  do 3 eexists. split; [|split].
  - do 2 vstep. vquietly sr_mhartid. do 2 vstep.
    vuse sv_control_runs; [exact Hstack|exact He|]. vquietly sv_build_runs.
    vuse sv_report_tables_runs; [exact Hb|]. vquietly sv_check_tables_runs; [exact Hb|].
    vuse sv_pmp_runs; [exact Hlen|]. vuse sv_enable_runs. exact Hd.
  - unfold sv39_log, m_text. cbn [mon vp pv_hartid].
    generalize (fmt_dec hid) tables_text (fmt_hex (satp_on q)) (s_text resume). intros.
    rewrite <-!app_assoc. vm_compute. reflexivity.
  - cbn [son vp pv_mem pv_es v_satp fails]. split_and!; try reflexivity; [|now apply page_store].
    now apply ld_st_same; vm_compute; intuition congruence.
Qed.
End Whole.
End Mmode.

(** ** The reference hart, with [satp] and the trap CSRs *)

Definition ref_csr (c : string) (h : RefHart) : Z := alookup String.eqb c (rh_csrs h).
Definition ref_sview (h : RefHart) : sview :=
  SView (rh_view h) (ref_csr "satp" h) (ref_csr "mepc" h) (ref_csr "stval" h).

#[export] Instance RefHart_sv39 : Sv39Dev RefHart := {
  s_at k va n h := s_access (ref_sview h) k va n;
  s_ld n va h := match s_access (ref_sview h) VLoad va (Z.of_nat n) with
                 | inl c => inl c | inr pa => inr (ld_bytes n pa (pv_mem (rh_view h))) end;
  s_st n va x h := match s_access (ref_sview h) VStore va (Z.of_nat n) with
                   | inl c => inl c
                   | inr pa => inr (RefH (pv_set_mem (st_bytes n pa x (pv_mem (rh_view h))) (rh_view h)) (rh_csrs h))
                   end;
}.

Lemma ref_csr_other c c' x h : c <> c' -> ref_csr c' (csr_wr c x h) = ref_csr c' h.
Proof.
  intros Hc. cbn [csr_wr RefHart_dev]. do 4 (case_match; try reflexivity).
  unfold ref_csr. cbn [rh_csrs]. now apply alookup_aupdate_ne; [apply String.eqb_eq|].
Qed.

#[export] Instance RefHart_sv39spec : Sv39Spec RefHart.
Proof.
  refine {| satp_of := ref_csr "satp"; mepc_of := ref_csr "mepc"; stval_of := ref_csr "stval" |}.
  - reflexivity.
  - reflexivity.
  - intros n va x h. cbn [s_st RefHart_sv39].
    change (SView (p_view h) (ref_csr "satp" h) (ref_csr "mepc" h) (ref_csr "stval" h)) with (ref_sview h).
    destruct (s_access (ref_sview h) VStore va (Z.of_nat n)); [reflexivity|]. now eexists.
  - intros n a x h h'. cbn [p_st RefHart_pmp]. case_match; [|discriminate]. now intros [= <-].
  - intros c h. now split_and!.
  - intros c x h Hc. rewrite !elem_of_cons in Hc. split_and!; apply ref_csr_other; intuition congruence.
  - intros p h _. unfold ref_csr. cbn [csr_wr RefHart_dev is_pmpaddr String.eqb Ascii.eqb Bool.eqb rh_view rh_csrs].
    rewrite alookup_aupdate by apply String.eqb_eq. now rewrite !alookup_aupdate_ne by (first [apply String.eqb_eq|discriminate]).
  - now split.
  - intros x h _ _. unfold ref_csr. cbn [csr_wr RefHart_dev is_pmpaddr String.eqb Ascii.eqb Bool.eqb rh_view rh_csrs].
    rewrite alookup_aupdate by apply String.eqb_eq. now rewrite !alookup_aupdate_ne by (first [apply String.eqb_eq|discriminate]).
  - now split.
  - now split.
  - now intros.
Defined.

(** The resume labels, four bytes apart. *)
Definition sv_resume (n : nat) : Z := 0x80000300 + 4 * (Z.of_nat n mod 4).
Lemma sv_resume_ok n : is_u64 (sv_resume n) /\ sv_resume n mod 4 = 0.
Proof.
  unfold sv_resume. pose proof (Z.mod_pos_bound (Z.of_nat n) 4). split; [unfold is_u64; lia|].
  rewrite Z.mul_comm, Z.mod_add by lia. reflexivity.
Qed.

Lemma sv39_main_passes_witness :
  vmain_sends (U:=LogUart) (H:=RefHart) sv
    (sv39_main demo_pages 0x80009000 0x80009040 0x80000100 0x80000200 0x8000B000 sv_resume (fun _ => 0))
    (mon 0 (entries_off (replicate 8 0)) (fun _ => 0) 0 0 0) sv39_boot_glob
    (sv39_log demo_pages 0 sv_resume) (fun v g => fails g = 0).
Proof.
  intros u h Hv.
  destruct (sv39_main_passes (U:=LogUart) (H:=RefHart) demo_pages 0 demo_pages_ok 0x80009000 0x80009040 0x80000100
    0x80000200 0x8000B000 sv_resume (fun _ => 0) sv_resume_ok ltac:(vm_compute; intuition congruence)
    ltac:(vm_compute; intuition congruence) ltac:(reflexivity) ltac:(vm_compute; intuition congruence)
    0 0 (replicate 6 0) (fun _ => 0) 0 0 0 eq_refl ltac:(u64c) ltac:(now intros) u h Hv)
    as (u' & h' & g' & E & Ht & Hr & Hf & _).
  exists u', h', g'. auto.
Defined.
