(* ===== verification/PmpMprv.v ===== *)
(** * The PMP NAPOT match test (src/pmp-napot-match/)

    [pnm_main.c] probes an unlocked no-access NAPOT entry from both sides.
    Unlocked entries do not bind M-mode, so each probe runs with
    [mstatus.MPRV] set and MPP = S and is checked as an S-mode access
    ([satp] is Bare throughout).  The fields of [mstatus] are followed
    through the probes, the traps and the returns from them. *)

From Stdlib Require Import ZArith Lia String.
From stdpp Require Import base list.
From S2P Require Import Prelude Uart Hart Run View Pmp PmpDenial PmpRange PmpEdge Sv39.

(** ** Accesses under MPRV *)

Class MprvDev (H : Type) `{!HartDev H} : Type := {
  mp_ld : nat -> Z -> H -> option Z;
  mp_st : nat -> Z -> Z -> H -> option H;
}.

Definition as_s (k : access) : vaccess := match k with ALoad => VLoad | AStore => VStore end.

(** An access by M-mode software is checked with the privilege of MPP when
    MPRV is set. *)
Definition mprv_allows (ms : Z) (es : list (Z * Z)) (k : access) (x n : Z) : bool :=
  if Z.testbit ms 17 && negb (mpp_of ms =? 3) then pmp_grants 0 es (as_s k) x n else pmp_allows 0 es k x n.

Class MprvSpec (H : Type) `{PmpSpec H, !MprvDev H} : Type := {
  mp_ld_spec n a h :
    mp_ld n a h = if mprv_allows (pv_mstatus (p_view h)) (pv_es (p_view h)) ALoad a (Z.of_nat n)
                  then Some (ld_bytes n a (pv_mem (p_view h))) else None;
  mp_st_spec n a x h :
    if mprv_allows (pv_mstatus (p_view h)) (pv_es (p_view h)) AStore a (Z.of_nat n)
    then exists h', mp_st n a x h = Some h' /\
      p_view h' = pv_set_mem (st_bytes n a x (pv_mem (p_view h))) (p_view h)
    else mp_st n a x h = None;
  (** the hart has U-mode, S-mode and MPRV *)
  mst_mpp_u x : mstatus_ok x -> mstatus_ok (bits_off MST_MPP x);
  mst_mpp_s x : mstatus_ok x -> mpp_of x = 0 -> mstatus_ok (Z.lor x (Z.shiftl 1 11));
  mst_mprv_on x : mstatus_ok x -> mstatus_ok (Z.lor x MST_MPRV);
  mst_mprv_off x : mstatus_ok x -> mstatus_ok (bits_off MST_MPRV x);
}.

(** ** The program *)

Definition MPP_S : Z := Z.shiftl 1 11.
Definition PMPADDR0_VAL : Z := 0x200009ff.
Definition PMPADDR1_VAL : Z := 0x200007ff.
Definition PMPCFG0_VAL : Z := 0x1f18.
Definition ADDR_IN_LO : Z := 0x80002000.
Definition ADDR_IN_HI : Z := 0x80002ffc.
Definition ADDR_BELOW : Z := 0x80001ffc.
Definition ADDR_ABOVE : Z := 0x80003000.
Definition CANARY_IN : Z := 0x6c0de001.
Definition CANARY_IN2 : Z := 0x6c0de002.
Definition CANARY_LO : Z := 0x6c0de0ca.
Definition CANARY_HI : Z := 0x6c0deafe.
Definition STORE_VAL : Z := 0x5a5a5a5a.

Section Program.
Context {U H : Type} `{!UartDev U, !HartDev H, !PmpDev H, !MprvDev H}.
Abbreviation W := (world U H pglob).
(** The trap entry, the save area, the stack pointer; the resume label of the
    [n]th probe, and [t1] at the [n]th probe when it is a store. *)
Context (trap_entry save_addr sp_now : Z) (resume junk : nat -> Z).

(** The trap entry clears MPRV after its first store. *)
Definition pnm_stub (t1 mcause mepc mtval : Z) : prog W unit :=
  take_trap 3 ;;
  gset_ (set_save 1 t1) ;;
  csrc "mstatus" MST_MPRV ;;
  gset_ (set_save 2 mcause) ;; gset_ (set_save 3 mepc) ;; gset_ (set_save 4 mtval) ;;
  n <- saved 0 ;; gset_ (set_save 0 (u64 (n + 1))) ;;
  r <- saved 5 ;; csrw "mepc" r ;;
  gset_ (set_save 6 1) ;;
  mret.

(** What both probes do before their access. *)
Definition pnm_arm (n : nat) : prog W unit :=
  gset_ (set_save 5 (resume n)) ;;
  gset_ (set_save 6 0) ;;
  csrc "mstatus" MST_MPP ;;
  csrs "mstatus" MPP_S ;;
  csrs "mstatus" MST_MPRV.

Definition probe_load (n : nat) (addr : Z) : prog W Z :=
  pnm_arm n ;;
  got <- (fun w => match mp_ld 4 addr (w_hw w) with
                   | Some x => Ret (sext32 x) w
                   | None => (pnm_stub POISON64 5 (u64 (resume n - 4)) addr ;; ret POISON64) w
                   end) ;;
  csrc "mstatus" MST_MPRV ;;
  ret got.

Definition probe_store (n : nat) (addr val : Z) : prog W unit :=
  pnm_arm n ;;
  (fun w => match mp_st 4 addr val (w_hw w) with
            | Some h => Ret tt (World (w_uart w) h (w_glob w))
            | None => pnm_stub (junk n) 7 (u64 (resume n - 4)) addr w
            end) ;;
  csrc "mstatus" MST_MPRV.

Definition mem_load (addr : Z) : prog W Z := x <- vld 4 addr ;; ret (sext32 x).

(** The record as both reports print it. *)
Definition put_record (tag : string) (r : trap_rec) : prog W unit :=
  uputs tag ;;
  uputs ": seen=" ;; uart_put_dec (r_seen r) ;;
  uputs " mcause=" ;; uart_put_hex (r_cause r) ;;
  uputs " mepc=" ;; uart_put_hex (r_epc r) ;;
  uputs " mtval=" ;; uart_put_hex (r_tval r) ;;
  uputs " resume-4=" ;; uart_put_hex (u64 (r_resume r - 4)).

Definition report_load (n : nat) (tag : string) (addr expect_val : Z) (seen_exp : bool) (cause_exp : Z) : prog W unit :=
  got <- probe_load n addr ;;
  r <- read_record ;;
  put_record tag r ;;
  uputs " val=" ;; uart_put_hex got ;;
  uputs "\n" ;;
  check_counted (r_seen r =? b2z seen_exp) "load probe trap count wrong" ;;
  fold (r_seen r) ;;
  if seen_exp then
    check_counted (r_cause r =? cause_exp) "load probe mcause wrong" ;;
    check_counted (r_epc r =? u64 (r_resume r - 4)) "load probe mepc != faulting lw" ;;
    check_counted (r_tval r =? addr) "load probe mtval != faulting address" ;;
    check_counted (got =? POISON64) "load probe overwrote its destination" ;;
    fold (r_cause r) ;;
    fold (b2z (r_epc r =? u64 (r_resume r - 4))) ;;
    fold (b2z (r_tval r =? addr)) ;;
    fold (b2z (got =? POISON64))
  else
    check_counted (got =? expect_val) "load probe outside region wrong value" ;;
    fold (b2z (got =? expect_val)).

Definition report_store (n : nat) (tag : string) (addr : Z) (seen_exp : bool) (cause_exp : Z) : prog W unit :=
  probe_store n addr STORE_VAL ;;
  r <- read_record ;;
  put_record tag r ;;
  uputs "\n" ;;
  check_counted (r_seen r =? b2z seen_exp) "store probe trap count wrong" ;;
  fold (r_seen r) ;;
  if seen_exp then
    check_counted (r_cause r =? cause_exp) "store probe mcause wrong" ;;
    check_counted (r_epc r =? u64 (r_resume r - 4)) "store probe mepc != faulting sw" ;;
    check_counted (r_tval r =? addr) "store probe mtval != faulting address" ;;
    fold (r_cause r) ;;
    fold (b2z (r_epc r =? u64 (r_resume r - 4))) ;;
    fold (b2z (r_tval r =? addr))
  else
    rb <- mem_load addr ;;
    uputs "  roundtrip=" ;; uart_put_hex rb ;; uputs "\n" ;;
    check_counted (rb =? STORE_VAL) "store probe outside region did not round-trip" ;;
    fold (b2z (rb =? STORE_VAL)).

Definition pnm_layout : prog W unit :=
  uputs "layout: pnm_save=" ;; uart_put_hex save_addr ;;
  uputs " sp=" ;; uart_put_hex sp_now ;; uputs "\n" ;;
  check_counted (u64 (save_addr + 64) <=? 0x80002000) "pnm_save reaches the PMP region" ;;
  fold (b2z (u64 (save_addr + 64) <=? 0x80002000)) ;;
  check_counted (sp_now >? 0x80003000 + 0x400) "live stack within 1 KiB of the scratch region" ;;
  fold (b2z (sp_now >? 0x80003400)).

Definition pnm_control : prog W unit :=
  mem_write32 ADDR_IN_LO CANARY_IN ;;
  mem_write32 ADDR_IN_HI CANARY_IN2 ;;
  mem_write32 ADDR_BELOW CANARY_LO ;;
  mem_write32 ADDR_ABOVE CANARY_HI ;;
  x <- mem_load ADDR_IN_LO ;; check_counted (x =? CANARY_IN) "scratch word 0 not writable before PMP" ;;
  x <- mem_load ADDR_IN_HI ;; check_counted (x =? CANARY_IN2) "scratch last word not writable before PMP" ;;
  x <- mem_load ADDR_BELOW ;; check_counted (x =? CANARY_LO) "word below region not writable before PMP" ;;
  x <- mem_load ADDR_ABOVE ;; check_counted (x =? CANARY_HI) "word above region not writable before PMP" ;;
  uputs "control: probe addresses are good RAM: ok\n".

Definition pnm_program : prog W unit :=
  csr_write_pmpaddr0 PMPADDR0_VAL ;;
  csr_write_pmpaddr1 PMPADDR1_VAL ;;
  csr_write_pmpcfg0 PMPCFG0_VAL ;;
  rb <- csr_read_pmpaddr0 ;;
  uputs "config: pmpaddr0=" ;; uart_put_hex rb ;; uputs " (expect 0x200009ff)\n" ;;
  check_counted (rb =? PMPADDR0_VAL) "pmpaddr0 readback != 0x200009ff" ;; fold rb ;;
  rb <- csr_read_pmpaddr1 ;;
  uputs "config: pmpaddr1=" ;; uart_put_hex rb ;; uputs " (expect 0x200007ff)\n" ;;
  check_counted (rb =? PMPADDR1_VAL) "pmpaddr1 readback != 0x200007ff" ;; fold rb ;;
  rb <- csr_read_pmpcfg0 ;;
  uputs "config: pmpcfg0=" ;; uart_put_hex rb ;; uputs " (expect 0x1f18)\n" ;;
  check_counted (rb =? PMPCFG0_VAL) "pmpcfg0 readback != 0x1f18" ;; fold rb.

Definition pnm_probes : prog W unit :=
  report_load 0 "t1a load in-lo " ADDR_IN_LO 0 true 5 ;;
  report_load 1 "t1b load in-hi " ADDR_IN_HI 0 true 5 ;;
  report_load 2 "t2a load below " ADDR_BELOW CANARY_LO false 0 ;;
  report_load 3 "t2b load above " ADDR_ABOVE CANARY_HI false 0 ;;
  report_store 4 "t3a store in-lo" ADDR_IN_LO true 7 ;;
  report_store 5 "t3b store below" ADDR_BELOW false 0 ;;
  report_store 6 "t3c store above" ADDR_ABOVE false 0.

Definition pnm_restore (boot_addr0 boot_addr1 boot_cfg0 boot_mstatus : Z) : prog W unit :=
  csr_write_pmpaddr0 boot_addr0 ;;
  csr_write_pmpaddr1 boot_addr1 ;;
  csr_write_pmpcfg0 boot_cfg0 ;;
  rb <- csr_read_pmpaddr0 ;;
  uputs "restore: pmpaddr0=" ;; uart_put_hex rb ;; uputs "\n" ;;
  check_counted (rb =? boot_addr0) "pmpaddr0 restore != boot value" ;; fold rb ;;
  rb <- csr_read_pmpaddr1 ;;
  uputs "restore: pmpaddr1=" ;; uart_put_hex rb ;; uputs "\n" ;;
  check_counted (rb =? boot_addr1) "pmpaddr1 restore != boot value" ;; fold rb ;;
  rb <- csr_read_pmpcfg0 ;;
  uputs "restore: pmpcfg0=" ;; uart_put_hex rb ;; uputs "\n" ;;
  check_counted (rb =? boot_cfg0) "pmpcfg0 restore != boot value" ;; fold rb ;;
  restore_mstatus boot_mstatus.

Definition pnm_body : prog W unit :=
  uputs "pmp-napot-match: PMP NAPOT match-behavior test\n" ;;
  edge_setup trap_entry save_addr ;;
  b <- boot_report2 ;;
  pnm_layout ;;
  pnm_control ;;
  pnm_program ;;
  pnm_probes ;;
  quiet_window ;;
  pnm_restore b.1.1.1 b.1.1.2 b.1.2 b.2 ;;
  edge_summary.

Definition pnm_main : prog W unit :=
  uart_init ;; pnm_body ;; uart_wait LSR_TEMT ;; edge_finish.
End Program.

(** ** Rules *)

(** [mstatus] when a probe's access is made, after one that completed and
    after one that trapped. *)
Definition armed (ms : Z) : Z := Z.lor (Z.lor (bits_off MST_MPP ms) MPP_S) MST_MPRV.
Definition passed (ms : Z) : Z := bits_off MST_MPRV (armed ms).
Definition stubbed `{PmpSpec H} (ms : Z) : Z := mret_status low_mode (bits_off MST_MPRV (trap_status 3 (armed ms))).
Definition faulted `{PmpSpec H} (ms : Z) : Z := bits_off MST_MPRV (stubbed ms).

Lemma mpp_cleared x : mpp_of (bits_off MST_MPP x) = 0.
Proof. apply mpp_bits; [lia|..]; rewrite bits_off_test by lia; apply andb_false_r. Qed.

Lemma armed_fields ms : Z.testbit (armed ms) 17 = true /\ mpp_of (armed ms) = 1.
Proof.
  unfold armed. split; [rewrite !Z.lor_spec; apply orb_true_r|].
  apply mpp_bits; [lia|..]; rewrite !Z.lor_spec, bits_off_test by lia; [now rewrite andb_false_r|now rewrite andb_false_r].
Qed.

Section Rules.
Context {U H : Type} `{!UartDev U, !UartSpec U, !UartDrain U, !HartDev H, !PmpDev H, !PmpSpec H, !MprvDev H, !MprvSpec H}.
Abbreviation vr := (vruns (U:=U) (G:=pglob) p_view).

Lemma vr_csrc_status mask v g : (mstatus_ok (pv_mstatus v) -> mstatus_ok (bits_off mask (pv_mstatus v))) ->
  vr (csrc "mstatus" mask) v g tt [] (pv_set_mstatus (bits_off mask (pv_mstatus v)) v) g.
Proof.
  intros Hm. unfold csrc, csrrc. eapply vruns_bind0; [|apply vruns_ret].
  estep. eapply vruns_bind0; [apply vr_write_mstatus|apply vruns_ret]. intros h Hv. apply Hm. rewrite <-Hv. apply mstatus_cur.
Qed.
Lemma vr_csrs_status mask v g : (mstatus_ok (pv_mstatus v) -> mstatus_ok (Z.lor (pv_mstatus v) mask)) ->
  vr (csrs "mstatus" mask) v g tt [] (pv_set_mstatus (Z.lor (pv_mstatus v) mask) v) g.
Proof.
  intros Hm. unfold csrs, csrrs. eapply vruns_bind0; [|apply vruns_ret].
  estep. eapply vruns_bind0; [apply vr_write_mstatus|apply vruns_ret]. intros h Hv. apply Hm. rewrite <-Hv. apply mstatus_cur.
Qed.

Context (resume junk : nat -> Z).

Lemma pnm_arm_runs i es m hid ms s0 s1 s2 s3 s4 s5 s6 s7 n L :
  vr (pnm_arm resume i) (PView es m hid ms) (eg [s0; s1; s2; s3; s4; s5; s6; s7] n L) tt []
     (PView es m hid (armed ms)) (eg [s0; s1; s2; s3; s4; resume i; 0; s7] n L).
Proof.
  unfold pnm_arm. do 2 estep. vquietly vr_csrc_status; [apply mst_mpp_u|].
  vquietly vr_csrs_status; [intros Hok; apply mst_mpp_s; [exact Hok|apply mpp_cleared]|].
  eapply vruns_conv; [apply vr_csrs_status, mst_mprv_on|reflexivity..].
Qed.

Lemma pnm_stub_runs t c epc tval es m hid ms s0 s1 s2 s3 s4 s5 s6 s7 n L :
  vr (pnm_stub t c epc tval) (PView es m hid (armed ms)) (eg [s0; s1; s2; s3; s4; s5; s6; s7] n L) tt []
     (PView es m hid (stubbed ms)) (eg [u64 (s0 + 1); t; c; epc; tval; s5; 1; s7] n L).
Proof.
  unfold pnm_stub, stubbed. vquietly vr_take_trap. estep. vquietly vr_csrc_status; [apply mst_mprv_off|]. do 8 estep.
  eapply vruns_conv; [apply vr_mret|reflexivity..].
Qed.

(** MPRV off again, on both paths. *)
Lemma pnm_disarm_runs es m hid ms g :
  vr (csrc "mstatus" MST_MPRV) (PView es m hid ms) g tt [] (PView es m hid (bits_off MST_MPRV ms)) g.
Proof. eapply vruns_conv; [apply vr_csrc_status, mst_mprv_off|reflexivity..]. Qed.

Lemma mprv_armed ms es k x n : mprv_allows (armed ms) es k x n = pmp_grants 0 es (as_s k) x n.
Proof. unfold mprv_allows. destruct (armed_fields ms) as [-> ->]. reflexivity. Qed.

Lemma probe_load_ok i addr x es m hid ms s0 s1 s2 s3 s4 s5 s6 s7 n L :
  pmp_grants 0 es VLoad addr 4 = true -> sext32 (ld_bytes 4 addr m) = x ->
  vr (probe_load resume i addr) (PView es m hid ms) (eg [s0; s1; s2; s3; s4; s5; s6; s7] n L) x []
     (PView es m hid (passed ms)) (eg [s0; s1; s2; s3; s4; resume i; 0; s7] n L).
Proof.
  intros Hg <-. unfold probe_load. vquietly pnm_arm_runs. eapply vruns_bind0.
  { intros u h Hv. exists h. cbn [w_hw]. rewrite mp_ld_spec, Hv. cbn [pv_mstatus pv_es pv_mem].
    change (Z.of_nat 4) with 4. rewrite mprv_armed. cbn [as_s]. rewrite Hg. auto. }
  cbv beta. vquietly pnm_disarm_runs. apply vruns_ret.
Qed.

Lemma probe_load_traps i addr es m hid ms s0 s1 s2 s3 s4 s5 s6 s7 n L :
  pmp_grants 0 es VLoad addr 4 = false ->
  vr (probe_load resume i addr) (PView es m hid ms) (eg [s0; s1; s2; s3; s4; s5; s6; s7] n L) POISON64 []
     (PView es m hid (faulted ms)) (eg [u64 (s0 + 1); POISON64; 5; u64 (resume i - 4); addr; resume i; 1; s7] n L).
Proof.
  intros Hg. unfold probe_load. vquietly pnm_arm_runs. eapply vruns_bind0.
  { intros u h Hv. cbn [w_hw]. rewrite mp_ld_spec, Hv. cbn [pv_mstatus pv_es]. change (Z.of_nat 4) with 4.
    rewrite mprv_armed. cbn [as_s]. rewrite Hg. revert u h Hv. eapply vruns_bind0; [apply pnm_stub_runs|]. apply vruns_ret. }
  cbv beta. vquietly pnm_disarm_runs. apply vruns_ret.
Qed.

Lemma probe_store_ok i addr x es m hid ms s0 s1 s2 s3 s4 s5 s6 s7 n L :
  pmp_grants 0 es VStore addr 4 = true ->
  vr (probe_store resume junk i addr x) (PView es m hid ms) (eg [s0; s1; s2; s3; s4; s5; s6; s7] n L) tt []
     (PView es (st_bytes 4 addr x m) hid (passed ms)) (eg [s0; s1; s2; s3; s4; resume i; 0; s7] n L).
Proof.
  intros Hg. unfold probe_store. vquietly pnm_arm_runs. eapply vruns_bind0; [|apply pnm_disarm_runs].
  intros u h Hv. cbn [w_hw]. pose proof (mp_st_spec 4 addr x h) as Hs. rewrite Hv in Hs. cbn [pv_mstatus pv_es] in Hs.
  change (Z.of_nat 4) with 4 in Hs. rewrite mprv_armed in Hs. cbn [as_s] in Hs. rewrite Hg in Hs.
  destruct Hs as (h' & -> & Hv'). exists h'. auto.
Qed.

Lemma probe_store_traps i addr x es m hid ms s0 s1 s2 s3 s4 s5 s6 s7 n L :
  pmp_grants 0 es VStore addr 4 = false ->
  vr (probe_store resume junk i addr x) (PView es m hid ms) (eg [s0; s1; s2; s3; s4; s5; s6; s7] n L) tt []
     (PView es m hid (faulted ms)) (eg [u64 (s0 + 1); junk i; 7; u64 (resume i - 4); addr; resume i; 1; s7] n L).
Proof.
  intros Hg. unfold probe_store. vquietly pnm_arm_runs. eapply vruns_bind0; [|apply pnm_disarm_runs].
  intros u h Hv. cbn [w_hw]. pose proof (mp_st_spec 4 addr x h) as Hs. rewrite Hv in Hs. cbn [pv_mstatus pv_es] in Hs.
  change (Z.of_nat 4) with 4 in Hs. rewrite mprv_armed in Hs. cbn [as_s] in Hs. rewrite Hg in Hs.
  rewrite Hs. revert u h Hv Hs. intros u h Hv _. revert u h Hv. apply pnm_stub_runs.
Qed.

(** ** Reports *)

Hypothesis Hres : forall n, is_u64 (resume n).

Definition pnm_text (tag : string) (r : trap_rec) : list Z :=
  lit tag ++ lit ": seen=" ++ fmt_dec (r_seen r) ++ lit " mcause=" ++ fmt_hex (r_cause r) ++ lit " mepc=" ++ fmt_hex (r_epc r) ++
  lit " mtval=" ++ fmt_hex (r_tval r) ++ lit " resume-4=" ++ fmt_hex (u64 (r_resume r - 4)).

Lemma put_record_runs tag r v g : no_nul (c_lit tag) = true -> rec_ok r ->
  vr (put_record tag r) v g tt (pnm_text tag r) v g.
Proof.
  intros Hn (H1 & H2 & H3 & H4 & H5). unfold put_record, pnm_text.
  vuse (vruns_prints _ _ _ _ _ (prints_lit tag Hn)). erun.
Qed.

Lemma report_load_denied i tag addr x es m hid ms s0 s1 s2 s3 s4 s5 s6 s7 n L :
  no_nul (c_lit tag) = true -> is_u64 addr -> pmp_grants 0 es VLoad addr 4 = false ->
  vr (report_load resume i tag addr x true 5) (PView es m hid ms) (eg [s0; s1; s2; s3; s4; s5; s6; s7] n L) tt
     (pnm_text tag (denied_rec addr (resume i)) ++ lit " val=" ++ fmt_hex POISON64 ++ lit "\n")
     (PView es m hid (faulted ms))
     (eg [u64 (s0 + 1); POISON64; 5; u64 (resume i - 4); addr; resume i; 1; s7] (n + 5) (L ++ [1; 5; 1; 1; 1])).
Proof.
  intros Hn Ha Hg. unfold report_load. eapply vr_eg.
  - vquietly probe_load_traps; [exact Hg|]. vquietly read_record_runs.
    vuse put_record_runs; [exact Hn|split_and!; cbn; [u64c|u64c|apply u64_range|exact Ha|apply Hres]|].
    assert (is_u64 POISON64) by u64c. cbn [r_seen r_cause r_epc r_tval r_resume b2z]. rewrite !Z.eqb_refl. erun.
  - now rewrite ?app_nil_r.
  - lia.
  - now rewrite <-!app_assoc.
Qed.

Lemma report_load_allowed i tag addr x es m hid ms s0 s1 s2 s3 s4 s5 s6 s7 n L :
  no_nul (c_lit tag) = true -> pmp_grants 0 es VLoad addr 4 = true -> sext32 (ld_bytes 4 addr m) = x -> is_u64 x ->
  is_u64 s2 -> is_u64 s3 -> is_u64 s4 ->
  vr (report_load resume i tag addr x false 0) (PView es m hid ms) (eg [s0; s1; s2; s3; s4; s5; s6; s7] n L) tt
     (pnm_text tag (TrapRec 0 s2 s3 s4 (resume i)) ++ lit " val=" ++ fmt_hex x ++ lit "\n")
     (PView es m hid (passed ms))
     (eg [s0; s1; s2; s3; s4; resume i; 0; s7] (n + 2) (L ++ [0; 1])).
Proof.
  intros Hn Hg Hx Hu H2 H3 H4. unfold report_load. eapply vr_eg.
  - vquietly probe_load_ok; [exact Hg|exact Hx|]. vquietly read_record_runs.
    vuse put_record_runs; [exact Hn|split_and!; cbn; [u64c|assumption..|apply Hres]|].
    cbn [r_seen r_cause r_epc r_tval r_resume b2z]. rewrite !Z.eqb_refl. erun.
  - now rewrite ?app_nil_r.
  - lia.
  - now rewrite <-!app_assoc.
Qed.

Lemma report_store_denied i tag addr es m hid ms s0 s1 s2 s3 s4 s5 s6 s7 n L :
  no_nul (c_lit tag) = true -> is_u64 addr -> pmp_grants 0 es VStore addr 4 = false ->
  vr (report_store resume junk i tag addr true 7) (PView es m hid ms) (eg [s0; s1; s2; s3; s4; s5; s6; s7] n L) tt
     (pnm_text tag (TrapRec 1 7 (u64 (resume i - 4)) addr (resume i)) ++ lit "\n")
     (PView es m hid (faulted ms))
     (eg [u64 (s0 + 1); junk i; 7; u64 (resume i - 4); addr; resume i; 1; s7] (n + 4) (L ++ [1; 7; 1; 1])).
Proof.
  intros Hn Ha Hg. unfold report_store. eapply vr_eg.
  - vquietly probe_store_traps; [exact Hg|]. vquietly read_record_runs.
    vuse put_record_runs; [exact Hn|split_and!; cbn; [u64c|u64c|apply u64_range|exact Ha|apply Hres]|].
    cbn [r_seen r_cause r_epc r_tval r_resume b2z]. rewrite !Z.eqb_refl. erun.
  - now rewrite ?app_nil_r.
  - lia.
  - now rewrite <-!app_assoc.
Qed.

Lemma report_store_allowed i tag addr es m hid ms s0 s1 s2 s3 s4 s5 s6 s7 n L :
  no_nul (c_lit tag) = true -> pmp_grants 0 es VStore addr 4 = true -> pmp_allows 0 es ALoad addr 4 = true ->
  is_u64 s2 -> is_u64 s3 -> is_u64 s4 ->
  vr (report_store resume junk i tag addr false 0) (PView es m hid ms) (eg [s0; s1; s2; s3; s4; s5; s6; s7] n L) tt
     (pnm_text tag (TrapRec 0 s2 s3 s4 (resume i)) ++ lit "\n  roundtrip=0x5a5a5a5a\n")
     (PView es (st_bytes 4 addr STORE_VAL m) hid (passed ms))
     (eg [s0; s1; s2; s3; s4; resume i; 0; s7] (n + 2) (L ++ [0; 1])).
Proof.
  intros Hn Hg Hl H2 H3 H4. unfold report_store, mem_load. eapply vr_eg.
  - vquietly probe_store_ok; [exact Hg|]. vquietly read_record_runs.
    vuse put_record_runs; [exact Hn|split_and!; cbn; [u64c|assumption..|apply Hres]|].
    cbn [r_seen r_cause r_epc r_tval r_resume b2z]. do 3 estep.
    eapply vruns_bind0; [eapply vruns_bind0; [apply vr_ld; exact Hl|apply vruns_ret]|].
    cbn [pv_mem]. rewrite ld_st_same by (vm_compute; intuition congruence). change (sext32 STORE_VAL) with STORE_VAL.
    assert (is_u64 STORE_VAL) by u64c. erun.
  - generalize (pnm_text tag (TrapRec 0 s2 s3 s4 (resume i))). intros. vm_compute. reflexivity.
  - lia.
  - now rewrite <-!app_assoc.
Qed.
End Rules.

(** ** The run *)

Definition pnm_entries (addrs : list Z) : list (Z * Z) :=
  (0x18, PMPADDR0_VAL) :: (0x1f, PMPADDR1_VAL) :: entries_off addrs.

(** Memory after the control. *)
Definition pnm_mem (m : Z -> Z) : Z -> Z :=
  st_bytes 4 ADDR_ABOVE CANARY_HI (st_bytes 4 ADDR_BELOW CANARY_LO
    (st_bytes 4 ADDR_IN_HI CANARY_IN2 (st_bytes 4 ADDR_IN_LO CANARY_IN m))).

Ltac far := unfold ADDR_ABOVE, ADDR_BELOW, ADDR_IN_HI, ADDR_IN_LO; change (Z.of_nat 4) with 4; lia.
Ltac word := vm_compute; intuition congruence.

Lemma pnm_words m :
  ld_bytes 4 ADDR_IN_LO (pnm_mem m) = CANARY_IN /\ ld_bytes 4 ADDR_IN_HI (pnm_mem m) = CANARY_IN2 /\
  ld_bytes 4 ADDR_BELOW (pnm_mem m) = CANARY_LO /\ ld_bytes 4 ADDR_ABOVE (pnm_mem m) = CANARY_HI.
Proof.
  unfold pnm_mem. split_and!; repeat (rewrite ld_st_other by far); apply ld_st_same; word.
Qed.

Section Run.
Context {U H : Type} `{!UartDev U, !UartSpec U, !UartDrain U, !HartDev H, !PmpDev H, !PmpSpec H, !MprvDev H, !MprvSpec H}.
Abbreviation vr := (vruns (U:=U) (G:=pglob) p_view).
Context (trap_entry save_addr sp_now : Z) (resume junk : nat -> Z).
Hypothesis Hres : forall n, is_u64 (resume n).
Hypothesis Hsave : is_u64 save_addr /\ save_addr + 64 <= ADDR_IN_LO.
Hypothesis Hsp : is_u64 sp_now /\ 0x80003400 < sp_now.

Lemma pnm_layout_runs v s n L :
  vr (pnm_layout save_addr sp_now) v (eg s n L) tt
     (lit "layout: pnm_save=" ++ fmt_hex save_addr ++ lit " sp=" ++ fmt_hex sp_now ++ lit "\n") v
     (eg s (n + 2) (L ++ [1; 1])).
Proof.
  destruct Hsave as [Hu1 Hle], Hsp as [Hu2 Hlt]. unfold ADDR_IN_LO in Hle. unfold pnm_layout.
  assert ((u64 (save_addr + 64) <=? 0x80002000) = true) as ->
    by (destruct Hu1; rewrite u64_small by (unfold is_u64; lia); apply Z.leb_le; lia).
  change (0x80003000 + 0x400) with 0x80003400. assert ((sp_now >? 0x80003400) = true) as -> by lia.
  eapply vr_eg; [erun|now rewrite ?app_nil_r|lia|now rewrite <-!app_assoc].
Qed.

Lemma mem_load_runs a x v g : pmp_allows 0 (pv_es v) ALoad a 4 = true -> ld_bytes 4 a (pv_mem v) = x -> 0 <= x < 2 ^ 31 ->
  vr (mem_load a) v g x [] v g.
Proof.
  intros Ha <- Hx. unfold mem_load. vquietly vr_ld; [exact Ha|]. rewrite sext32_small by exact Hx. apply vruns_ret.
Qed.

Lemma pnm_control_runs addrs m hid ms s n L :
  vr pnm_control (PView (entries_off addrs) m hid ms) (eg s n L) tt
     (lit "control: probe addresses are good RAM: ok\n") (PView (entries_off addrs) (pnm_mem m) hid ms) (eg s (n + 4) L).
Proof.
  assert (forall x k, 0 <= x -> pmp_allows 0 (entries_off addrs) k x 4 = true) as Ha
    by (intros; apply off_allows; auto using entries_off_off).
  destruct (pnm_words m) as (E1 & E2 & E3 & E4). unfold pnm_control, mem_write32. eapply vr_eg.
  - do 4 (vquietly vr_st; [apply Ha; word|]). 
    match goal with |- vruns _ _ ?v _ _ _ _ _ => change v with (PView (entries_off addrs) (pnm_mem m) hid ms) end.
    vquietly mem_load_runs; [apply Ha; word|exact E1|word|]. estep.
    vquietly mem_load_runs; [apply Ha; word|exact E2|word|]. estep.
    vquietly mem_load_runs; [apply Ha; word|exact E3|word|]. estep.
    vquietly mem_load_runs; [apply Ha; word|exact E4|word|]. erun.
  - reflexivity.
  - lia.
  - reflexivity.
Qed.

Lemma program_pnm a0 a1 addrs : length addrs = 6%nat ->
  write_cfg warl PMPCFG0_VAL (write_addr 1 PMPADDR1_VAL (write_addr 0 PMPADDR0_VAL (entries_off (a0 :: a1 :: addrs)))) =
    pnm_entries addrs /\
  write_cfg warl 0 (write_addr 1 0 (write_addr 0 0 (pnm_entries addrs))) = entries_off (0 :: 0 :: addrs) /\
  read_cfg (pnm_entries addrs) = PMPCFG0_VAL.
Proof.
  intros Hlen. do 7 (destruct addrs as [|? addrs]; try discriminate Hlen). split_and!; [| |reflexivity].
  - match goal with |- write_cfg _ _ (write_addr _ _ ?e) = pnm_entries ?l =>
      assert (write_addr 1 PMPADDR1_VAL e = (0, PMPADDR0_VAL) :: (0, PMPADDR1_VAL) :: entries_off l) as -> by reflexivity end.
    unfold write_cfg. cbn -[warl cfg_byte cfg_L]. change (cfg_L 0) with false. cbn iota.
    repeat match goal with |- context [cfg_byte ?v ?i] =>
      let b := eval vm_compute in (cfg_byte v i) in change (cfg_byte v i) with b end.
    now rewrite !warl_legal.
  - match goal with |- write_cfg _ _ (write_addr _ _ ?e) = entries_off (_ :: _ :: ?l) =>
      assert (write_addr 1 0 e = (0x18, 0) :: (0x1f, 0) :: entries_off l) as -> by reflexivity end.
    unfold write_cfg. cbn -[warl cfg_byte cfg_L]. change (cfg_L 0) with false. change (cfg_L 24) with false.
    change (cfg_L 31) with false. cbn iota.
    repeat match goal with |- context [cfg_byte ?v ?i] =>
      let b := eval vm_compute in (cfg_byte v i) in change (cfg_byte v i) with b end.
    now rewrite !warl_legal.
Qed.

Lemma pnm_program_runs a0 a1 addrs m hid ms s n L : length addrs = 6%nat ->
  vr pnm_program (PView (entries_off (a0 :: a1 :: addrs)) m hid ms) (eg s n L) tt
     (lit "config: pmpaddr0=0x200009ff (expect 0x200009ff)\nconfig: pmpaddr1=0x200007ff (expect 0x200007ff)\nconfig: pmpcfg0=0x1f18 (expect 0x1f18)\n")
     (PView (pnm_entries addrs) m hid ms) (eg s (n + 3) (L ++ [PMPADDR0_VAL; PMPADDR1_VAL; PMPCFG0_VAL])).
Proof.
  intros Hlen. destruct (program_pnm a0 a1 addrs Hlen) as (Ep & _ & Er). unfold pnm_program.
  assert (is_u64 PMPADDR0_VAL /\ is_u64 PMPADDR1_VAL /\ is_u64 PMPCFG0_VAL) as (Hu0 & Hu1 & Hu2) by (split_and!; u64c). eapply vr_eg.
  - do 3 estep. unfold pv_set_es. cbn [pv_es pv_mem pv_hartid pv_mstatus]. rewrite Ep.
    estep. cbn [pv_es]. change (read_addr 0 (pnm_entries addrs)) with PMPADDR0_VAL. do 6 estep.
    cbn [pv_es]. change (read_addr 1 (pnm_entries addrs)) with PMPADDR1_VAL. do 6 estep. cbn [pv_es]. rewrite Er. erun.
  - vm_compute. reflexivity.
  - lia.
  - now rewrite <-!app_assoc.
Qed.

Lemma pnm_restore_runs addrs m hid ms ms' s n L : length addrs = 6%nat -> mstatus_ok ms ->
  vr (pnm_restore 0 0 0 ms) (PView (pnm_entries addrs) m hid ms') (eg s n L) tt
     (lit "restore: pmpaddr0=0x0\nrestore: pmpaddr1=0x0\nrestore: pmpcfg0=0x0\n")
     (PView (entries_off (0 :: 0 :: addrs)) m hid ms) (eg s (n + 4) (L ++ [0; 0; 0; 1])).
Proof.
  intros Hlen Hok. destruct (program_pnm 0 0 addrs Hlen) as (_ & Ep & _). unfold pnm_restore. eapply vr_eg.
  - do 3 estep. unfold pv_set_es. cbn [pv_es pv_mem pv_hartid pv_mstatus]. rewrite Ep.
    estep. cbn [pv_es]. change (read_addr 0 (entries_off (0 :: 0 :: addrs))) with 0. do 6 estep.
    cbn [pv_es]. change (read_addr 1 (entries_off (0 :: 0 :: addrs))) with 0. do 6 estep. cbn [pv_es].
    rewrite read_cfg_off. do 5 estep. now apply restore_mstatus_runs.
  - vm_compute. reflexivity.
  - lia.
  - now rewrite <-!app_assoc.
Qed.
(** The lines of the seven probes.  Those that complete show what the last
    trap left in the save area. *)
Definition load_line (tag : string) (r : trap_rec) (x : Z) : list Z :=
  pnm_text tag r ++ lit " val=" ++ fmt_hex x ++ lit "\n".
Definition pnm_probes_text : list Z :=
  load_line "t1a load in-lo " (denied_rec ADDR_IN_LO (resume 0%nat)) POISON64 ++
  load_line "t1b load in-hi " (denied_rec ADDR_IN_HI (resume 1%nat)) POISON64 ++
  load_line "t2a load below " (TrapRec 0 5 (u64 (resume 1%nat - 4)) ADDR_IN_HI (resume 2%nat)) CANARY_LO ++
  load_line "t2b load above " (TrapRec 0 5 (u64 (resume 1%nat - 4)) ADDR_IN_HI (resume 3%nat)) CANARY_HI ++
  pnm_text "t3a store in-lo" (TrapRec 1 7 (u64 (resume 4%nat - 4)) ADDR_IN_LO (resume 4%nat)) ++ lit "\n" ++
  pnm_text "t3b store below" (TrapRec 0 7 (u64 (resume 4%nat - 4)) ADDR_IN_LO (resume 5%nat)) ++
  lit "\n  roundtrip=0x5a5a5a5a\n" ++
  pnm_text "t3c store above" (TrapRec 0 7 (u64 (resume 4%nat - 4)) ADDR_IN_LO (resume 6%nat)) ++
  lit "\n  roundtrip=0x5a5a5a5a\n".

(** Memory after the probes. *)
Definition pnm_mem2 (m : Z -> Z) : Z -> Z :=
  st_bytes 4 ADDR_ABOVE STORE_VAL (st_bytes 4 ADDR_BELOW STORE_VAL (pnm_mem m)).

Definition pnm_probe_folds : list Z := [1; 5; 1; 1; 1; 1; 5; 1; 1; 1; 0; 1; 0; 1; 1; 7; 1; 1; 0; 1; 0; 1].

Lemma pnm_probes_runs addrs m hid ms n L :
  exists ms', vr (pnm_probes resume junk) (PView (pnm_entries addrs) (pnm_mem m) hid ms)
     (eg [0; 0; 0; 0; 0; 0; 0; 0] n L) tt pnm_probes_text (PView (pnm_entries addrs) (pnm_mem2 m) hid ms')
     (eg [3; junk 4%nat; 7; u64 (resume 4%nat - 4); ADDR_IN_LO; resume 6%nat; 0; 0] (n + 22) (L ++ pnm_probe_folds)).
Proof.
  destruct (pnm_words m) as (E1 & E2 & E3 & E4). eexists. unfold pnm_probes, pnm_probes_text, load_line.
  assert (forall i, is_u64 (u64 (resume i - 4))) as Hr4 by (intros; apply u64_range).
  assert (is_u64 ADDR_IN_LO /\ is_u64 ADDR_IN_HI /\ is_u64 CANARY_LO /\ is_u64 CANARY_HI /\ is_u64 5 /\ is_u64 7)
    as (A1 & A2 & A3 & A4 & A5 & A7) by (split_and!; u64c).
  eapply vr_eg.
  - vuse report_load_denied; [exact Hres|reflexivity|exact A1|reflexivity|].
    vuse report_load_denied; [exact Hres|reflexivity|exact A2|reflexivity|].
    vuse report_load_allowed; [exact Hres|reflexivity|reflexivity|now rewrite E3|assumption|auto..|].
    vuse report_load_allowed; [exact Hres|reflexivity|reflexivity|now rewrite E4|assumption|auto..|].
    vuse report_store_denied; [exact Hres|reflexivity|exact A1|reflexivity|].
    vuse report_store_allowed; [exact Hres|reflexivity|reflexivity|reflexivity|auto..|].
    apply report_store_allowed; [exact Hres|reflexivity|reflexivity|reflexivity|auto..].
  - rewrite <-!app_assoc. reflexivity.
  - lia.
  - rewrite <-!app_assoc. reflexivity.
Qed.

Definition pnm_folds (ms : Z) : list Z :=
  [0; 0; 0; ms; 1; 1; PMPADDR0_VAL; PMPADDR1_VAL; PMPCFG0_VAL] ++ pnm_probe_folds ++ [0; quiet_acc; 0; 0; 0; 1].
Definition pnm_log (ms : Z) : list Z :=
  lit "pmp-napot-match: PMP NAPOT match-behavior test\nboot: pmpaddr0=0x0 pmpaddr1=0x0 pmpcfg0=0x0 mstatus=" ++ fmt_hex ms ++
  lit "\nlayout: pnm_save=" ++ fmt_hex save_addr ++ lit " sp=" ++ fmt_hex sp_now ++
  lit "\ncontrol: probe addresses are good RAM: ok\nconfig: pmpaddr0=0x200009ff (expect 0x200009ff)\nconfig: pmpaddr1=0x200007ff (expect 0x200007ff)\nconfig: pmpcfg0=0x1f18 (expect 0x1f18)\n" ++
  pnm_probes_text ++
  lit "quiet: traps before=3 after=3\nrestore: pmpaddr0=0x0\nrestore: pmpaddr1=0x0\nrestore: pmpcfg0=0x0\nChecks: 39\nMismatches: 0\nChecksum: " ++
  fmt_hex (fnv (pnm_folds ms)) ++ lit "\nEnvironment: QEMU 8.2.2\nVerdict: PASS\n".

Lemma pnm_body_runs addrs m hid ms : length addrs = 6%nat -> is_u64 ms -> mstatus_ok ms ->
  exists s n L, vr (pnm_body trap_entry save_addr sp_now resume junk) (PView (entries_off (0 :: 0 :: addrs)) m hid ms)
    edge_boot_glob tt (pnm_log (mie_off ms)) (PView (entries_off (0 :: 0 :: addrs)) (pnm_mem2 m) hid (mie_off ms)) (eg s n L).
Proof.
  intros Hlen Hms Hok. apply mie_off_u64 in Hms. apply mstatus_mie in Hok. unfold pnm_body.
  change edge_boot_glob with (eg [0; 0; 0; 0; 0; 0; 0; 0] 0 []).
  edestruct (pnm_probes_runs addrs m hid (mie_off ms)) as [ms' Hp]. do 3 eexists. eapply vruns_conv.
  - estep. vquietly edge_setup_runs. vuse boot_report2_runs; [exact Hlen|exact Hms|]. cbn [fst snd].
    vuse pnm_layout_runs. vuse pnm_control_runs. vuse pnm_program_runs; [exact Hlen|].
    eapply vruns_bind; [exact Hp|]. cbv beta zeta.
    vuse quiet_window_runs; [u64c|]. vuse pnm_restore_runs; [exact Hlen|exact Hok|]. apply edge_summary_runs.
  - reflexivity.
  - match goal with |- context [fnv ?L1] => change L1 with (pnm_folds (mie_off ms)) end. unfold pnm_log.
    generalize (fmt_hex (fnv (pnm_folds (mie_off ms)))) (fmt_hex (mie_off ms)) (fmt_hex save_addr) (fmt_hex sp_now) pnm_probes_text.
    intros; rewrite <-!app_assoc; vm_compute; reflexivity.
  - reflexivity.
  - reflexivity.
Qed.
(** An unlocked no-access NAPOT entry refuses S-mode accesses to exactly
    its 4 KiB, and the next entry decides everywhere else in its own range.
    Under MPRV the first and last word inside trap (cause 5 for the loads, 7
    for the store, [mepc] and [mtval] exact, destination untouched), the
    words on either side read their canaries and take the stores; all 39
    checks hold on every hart with PMP and S-mode.  At the end the PMP
    entries and [mstatus] are those of the boot again, MIE aside, and the
    refused store has changed nothing. *)
Theorem pnm_main_passes addrs m hid ms : length addrs = 6%nat -> is_u64 ms ->
  vmain_sends (U:=U) p_view (pnm_main trap_entry save_addr sp_now resume junk)
    (PView (entries_off (0 :: 0 :: addrs)) m hid ms) edge_boot_glob (pnm_log (mie_off ms))
    (fun v g => fails g = 0 /\ pv_es v = entries_off (0 :: 0 :: addrs) /\ pv_mstatus v = mie_off ms /\
       ld_bytes 4 VIRT_TEST_FINISHER (pv_mem v) = FINISHER_PASS /\
       ld_bytes 4 ADDR_IN_LO (pv_mem v) = CANARY_IN /\
       ld_bytes 4 ADDR_BELOW (pv_mem v) = STORE_VAL /\ ld_bytes 4 ADDR_ABOVE (pv_mem v) = STORE_VAL).
Proof.
  intros Hlen Hms. apply vmain_mstatus. intros Hok u h Hv.
  destruct (pnm_body_runs addrs m hid ms Hlen Hms Hok) as (s & n & L & Hb).
  destruct (edge_main_end _ _ _ _ _ _ _ Hb) with (u := u) (h := h) as (u' & h' & g' & E & Ht & Hr & -> & Hv');
    [apply off_allows; [apply entries_off_off|word]| |exact Hv|].
  { unfold pnm_log, pnm_probes_text, load_line, pnm_text. text_bytes. }
  exists u', h', (eg s n L). rewrite Hv'. cbn [pv_es pv_mstatus pv_mem pv_set_mem].
  assert (forall a, 0x80000000 <= a -> ld_bytes 4 a (st_bytes 4 VIRT_TEST_FINISHER FINISHER_PASS (pnm_mem2 m)) =
    ld_bytes 4 a (pnm_mem2 m)) as Hf by (intros a Ha; apply ld_st_other; unfold VIRT_TEST_FINISHER; change (Z.of_nat 4) with 4; lia).
  rewrite (Hf ADDR_IN_LO), (Hf ADDR_BELOW), (Hf ADDR_ABOVE) by word. unfold pnm_mem2. split_and!; try assumption; try reflexivity.
Qed.
End Run.

(** ** The reference hart *)

#[export] Instance RefHart_mprv : MprvDev RefHart := {
  mp_ld n a h := if mprv_allows (pv_mstatus (rh_view h)) (pv_es (rh_view h)) ALoad a (Z.of_nat n)
                 then Some (ld_bytes n a (pv_mem (rh_view h))) else None;
  mp_st n a x h := if mprv_allows (pv_mstatus (rh_view h)) (pv_es (rh_view h)) AStore a (Z.of_nat n)
                   then Some (RefH (pv_set_mem (st_bytes n a x (pv_mem (rh_view h))) (rh_view h)) (rh_csrs h)) else None;
}.

#[export] Instance RefHart_mprvspec : MprvSpec RefHart.
Proof.
  constructor; try (now intros). intros n a x h. cbn [mp_st RefHart_mprv p_view RefHart_spec].
  destruct (mprv_allows _ _ _ _ _); [now eexists|reflexivity].
Qed.

Lemma pnm_main_passes_witness :
  vmain_sends (U:=LogUart) (H:=RefHart) p_view (pnm_main 0x80000100 0x80001000 0x80004000 demo_resume (fun _ => 7))
    (PView (entries_off (replicate 8 0)) (fun _ => 0) 0 8) edge_boot_glob
    (pnm_log 0x80001000 0x80004000 demo_resume 0) (fun v g => fails g = 0 /\ pv_mstatus v = 0).
Proof.
  intros u h Hv.
  destruct (pnm_main_passes (U:=LogUart) (H:=RefHart) 0x80000100 0x80001000 0x80004000 demo_resume (fun _ => 7) demo_resume_u64
    ltac:(split; [u64c|vm_compute; congruence]) ltac:(split; [u64c|reflexivity]) (replicate 6 0) (fun _ => 0) 0 8 eq_refl ltac:(u64c) u h Hv)
    as (u' & h' & g' & E & Ht & Hr & Hf & _ & Hs & _).
  exists u', h', g'. auto.
Defined.
