(* ===== verification/PmpPriority.v ===== *)
(** * The PMP entry-priority test (src/pmp-priority/)

    [pp_main.c]: two unlocked NAPOT entries over the same page, one that
    allows and one that denies; S-mode touches the page with the one first
    and then with the other.  M-mode drops to S-mode with [sret], an [ecall]
    and an access fault lead back through the trap entry of [pp_trap.S],
    which jumps to the continuation armed in [m_regs\[7\]].  Code addresses
    are parameters; a jump is followed when it goes to the code expected
    there in the mode expected, and is undefined otherwise. *)

From Stdlib Require Import ZArith Lia String.
From stdpp Require Import base list.
From S2P Require Import Prelude Uart Hart Run View Pmp PmpDenial PmpRange PmpEdge Sv39 Sv39Main.

(** ** A hart with S-mode, [satp] Bare *)

Record qview : Type := QView { qp : pview; q_satp : Z; q_medeleg : Z; q_mepc : Z; q_sepc : Z }.
Definition set_qp (p : pview) (v : qview) : qview := QView p (q_satp v) (q_medeleg v) (q_mepc v) (q_sepc v).
Definition q_mstatus (v : qview) : Z := pv_mstatus (qp v).

(** Traps from a mode at an address, returns. *)
Class PrioDev (H : Type) `{!HartDev H} : Type := {
  q_trap : Z -> Z -> H -> H;
  q_mret : H -> H;
  q_sret : H -> H;
}.

Definition MST_SIE : Z := Z.shiftl 1 1.
Definition MST_SPIE : Z := Z.shiftl 1 5.
Definition MST_SPP : Z := Z.shiftl 1 8.

(** [sret] restores SIE, leaves SPP = U and clears MPRV. *)
Definition sret_status (x : Z) : Z :=
  Z.lor (bits_off (Z.lor MST_MPRV (Z.lor MST_SPP (Z.lor MST_SPIE MST_SIE))) x)
        (Z.lor MST_SPIE (if Z.testbit x 5 then MST_SIE else 0)).

(** An S-mode access is decided by the PMP alone. *)
Definition q_access (v : qview) (k : vaccess) (a n : Z) : Z + Z :=
  if pmp_grants 0 (pv_es (qp v)) k a n then inr a else inl (access_fault k).

Class PrioSpec (H : Type) `{PmpSpec H, !Sv39Dev H, !PrioDev H} : Type := {
  qv : H -> qview;
  qv_p h : qp (qv h) = p_view h;
  bare_at k a n h : q_satp (qv h) = 0 -> s_at k a n h = q_access (qv h) k a n;
  bare_ld n a h : q_satp (qv h) = 0 -> s_ld n a h =
    match q_access (qv h) VLoad a (Z.of_nat n) with
    | inl c => inl c | inr pa => inr (ld_bytes n pa (pv_mem (p_view h))) end;
  bare_st n a x h : q_satp (qv h) = 0 ->
    match q_access (qv h) VStore a (Z.of_nat n) with
    | inl c => s_st n a x h = inl c
    | inr pa => exists h', s_st n a x h = inr h' /\
        qv h' = set_qp (pv_set_mem (st_bytes n pa x (pv_mem (p_view h))) (p_view h)) (qv h)
    end;
  (** what leaves the other registers alone *)
  q_st_keeps n a x h h' : p_st n a x h = Some h' -> qv h' = set_qp (p_view h') (qv h);
  q_rd_keeps c h : qv (csr_rd c h).2 = set_qp (p_view (csr_rd c h).2) (qv h);
  q_wr_keeps c x h : c ∉ ["satp"; "medeleg"; "mepc"; "sepc"]%string ->
    qv (csr_wr c x h) = set_qp (p_view (csr_wr c x h)) (qv h);
  (** the S-mode trap registers are not those of PMP *)
  s_csr_wr c x h : c ∈ ["stvec"; "sscratch"]%string -> p_view (csr_wr c x h) = p_view h;
  q_csr_rd h : p_view (csr_rd "satp" h).2 = p_view h /\ (csr_rd "satp" h).1 = q_satp (qv h) /\
    p_view (csr_rd "medeleg" h).2 = p_view h /\ (csr_rd "medeleg" h).1 = q_medeleg (qv h) /\
    p_view (csr_rd "mepc" h).2 = p_view h /\ (csr_rd "mepc" h).1 = q_mepc (qv h) /\
    p_view (csr_rd "sepc" h).2 = p_view h /\ (csr_rd "sepc" h).1 = q_sepc (qv h);
  medeleg_ok : Z -> Prop;
  medeleg_cur h : medeleg_ok (q_medeleg (qv h));
  medeleg_wr x h : medeleg_ok x ->
    qv (csr_wr "medeleg" x h) = QView (p_view h) (q_satp (qv h)) x (q_mepc (qv h)) (q_sepc (qv h));
  (** addresses an instruction can have *)
  pc_ok : Z -> Prop;
  q_mepc_wr x h : pc_ok x ->
    qv (csr_wr "mepc" x h) = QView (p_view h) (q_satp (qv h)) (q_medeleg (qv h)) x (q_sepc (qv h));
  q_sepc_wr x h : pc_ok x ->
    qv (csr_wr "sepc" x h) = QView (p_view h) (q_satp (qv h)) (q_medeleg (qv h)) (q_mepc (qv h)) x;
  (** [sstatus] is a view of [mstatus] *)
  sst_mask : Z;
  sst_rd h : (csr_rd "sstatus" h).1 = Z.land (pv_mstatus (p_view h)) sst_mask /\ p_view (csr_rd "sstatus" h).2 = p_view h;
  sst_wr_spp h : p_view (csr_wr "sstatus" (Z.lor (Z.land (pv_mstatus (p_view h)) sst_mask) MST_SPP) h) =
    pv_set_mstatus (Z.lor (pv_mstatus (p_view h)) MST_SPP) (p_view h);
  q_mpp_s x : mstatus_ok x -> mstatus_ok (mpp_s x);
  q_mpp_m x : mstatus_ok x -> mstatus_ok (Z.lor x MST_MPP);
  q_trap_spec from pc h : qv (q_trap from pc h) =
    QView (pv_set_mstatus (trap_status from (pv_mstatus (p_view h))) (p_view h))
      (q_satp (qv h)) (q_medeleg (qv h)) pc (q_sepc (qv h));
  q_mret_spec h : qv (q_mret h) =
    set_qp (pv_set_mstatus (mret_status low_mode (pv_mstatus (p_view h))) (p_view h)) (qv h);
  q_sret_spec h : qv (q_sret h) =
    set_qp (pv_set_mstatus (sret_status (pv_mstatus (p_view h))) (p_view h)) (qv h);
}.

(** ** The program *)

Definition CAUSE_LOAD_ACCESS_FAULT : Z := 5.
Definition CAUSE_ECALL_FROM_S : Z := 9.
Definition PAGE_SIZE : Z := 0x1000.
Definition NAPOT_4K_MASK : Z := 0x1FF.
Definition PMPADDR2_BROAD : Z := 0x2FFFFFFF.
Definition BROAD_BASE : Z := 0x80000000.
Definition BROAD_TOP : Z := 0x100000000.
Definition PMPCFG0_PHASEA : Z := 0x001F181B.
Definition PMPCFG0_PHASEB : Z := 0x001F1B18.
Definition FNV64_BASIS : Z := 0xcbf29ce484222325.
Definition QUIET_SPINS : nat := Z.to_nat 2000000.

(** The four PMP registers as read. *)
Record pmp_rb : Type := PmpRb { rb_cfg : Z; rb_a0 : Z; rb_a1 : Z; rb_a2 : Z }.

Record pp_glob : Type := PPGlob {
  m_regs : list Z;
  s_regs : list Z;
  boot_medeleg : Z;
  boot_pmp : pmp_rb;
  rbA : pmp_rb;
  rbB : pmp_rb;
  rst : pmp_rb;
  scratch_pa : Z;
  napot_enc : Z;
  pA_canary : Z;
  pA_control : Z;
  pB_control : Z;
  pB_lbu_pc : Z;
  pA_m_traps : Z;
  pA_mcause : Z;
  pA_mepc : Z;
  pA_mstatus : Z;
  pp_checks : Z;
  pp_fails : Z;
}.

Definition with_m_regs (v : list Z) (r : pp_glob) : pp_glob :=
  PPGlob v (s_regs r) (boot_medeleg r) (boot_pmp r) (rbA r) (rbB r) (rst r) (scratch_pa r)
    (napot_enc r) (pA_canary r) (pA_control r) (pB_control r) (pB_lbu_pc r) (pA_m_traps r)
    (pA_mcause r) (pA_mepc r) (pA_mstatus r) (pp_checks r) (pp_fails r).
Definition with_s_regs (v : list Z) (r : pp_glob) : pp_glob :=
  PPGlob (m_regs r) v (boot_medeleg r) (boot_pmp r) (rbA r) (rbB r) (rst r) (scratch_pa r)
    (napot_enc r) (pA_canary r) (pA_control r) (pB_control r) (pB_lbu_pc r) (pA_m_traps r)
    (pA_mcause r) (pA_mepc r) (pA_mstatus r) (pp_checks r) (pp_fails r).
Definition with_boot_medeleg (v : Z) (r : pp_glob) : pp_glob :=
  PPGlob (m_regs r) (s_regs r) v (boot_pmp r) (rbA r) (rbB r) (rst r) (scratch_pa r)
    (napot_enc r) (pA_canary r) (pA_control r) (pB_control r) (pB_lbu_pc r) (pA_m_traps r)
    (pA_mcause r) (pA_mepc r) (pA_mstatus r) (pp_checks r) (pp_fails r).
Definition with_boot_pmp (v : pmp_rb) (r : pp_glob) : pp_glob :=
  PPGlob (m_regs r) (s_regs r) (boot_medeleg r) v (rbA r) (rbB r) (rst r) (scratch_pa r)
    (napot_enc r) (pA_canary r) (pA_control r) (pB_control r) (pB_lbu_pc r) (pA_m_traps r)
    (pA_mcause r) (pA_mepc r) (pA_mstatus r) (pp_checks r) (pp_fails r).
Definition with_rbA (v : pmp_rb) (r : pp_glob) : pp_glob :=
  PPGlob (m_regs r) (s_regs r) (boot_medeleg r) (boot_pmp r) v (rbB r) (rst r) (scratch_pa
    r) (napot_enc r) (pA_canary r) (pA_control r) (pB_control r) (pB_lbu_pc r) (pA_m_traps r)
    (pA_mcause r) (pA_mepc r) (pA_mstatus r) (pp_checks r) (pp_fails r).
Definition with_rbB (v : pmp_rb) (r : pp_glob) : pp_glob :=
  PPGlob (m_regs r) (s_regs r) (boot_medeleg r) (boot_pmp r) (rbA r) v (rst r) (scratch_pa
    r) (napot_enc r) (pA_canary r) (pA_control r) (pB_control r) (pB_lbu_pc r) (pA_m_traps r)
    (pA_mcause r) (pA_mepc r) (pA_mstatus r) (pp_checks r) (pp_fails r).
Definition with_rst (v : pmp_rb) (r : pp_glob) : pp_glob :=
  PPGlob (m_regs r) (s_regs r) (boot_medeleg r) (boot_pmp r) (rbA r) (rbB r) v (scratch_pa
    r) (napot_enc r) (pA_canary r) (pA_control r) (pB_control r) (pB_lbu_pc r) (pA_m_traps r)
    (pA_mcause r) (pA_mepc r) (pA_mstatus r) (pp_checks r) (pp_fails r).
Definition with_scratch_pa (v : Z) (r : pp_glob) : pp_glob :=
  PPGlob (m_regs r) (s_regs r) (boot_medeleg r) (boot_pmp r) (rbA r) (rbB r) (rst r) v
    (napot_enc r) (pA_canary r) (pA_control r) (pB_control r) (pB_lbu_pc r) (pA_m_traps r)
    (pA_mcause r) (pA_mepc r) (pA_mstatus r) (pp_checks r) (pp_fails r).
Definition with_napot_enc (v : Z) (r : pp_glob) : pp_glob :=
  PPGlob (m_regs r) (s_regs r) (boot_medeleg r) (boot_pmp r) (rbA r) (rbB r) (rst r)
    (scratch_pa r) v (pA_canary r) (pA_control r) (pB_control r) (pB_lbu_pc r) (pA_m_traps r)
    (pA_mcause r) (pA_mepc r) (pA_mstatus r) (pp_checks r) (pp_fails r).
Definition with_pA_canary (v : Z) (r : pp_glob) : pp_glob :=
  PPGlob (m_regs r) (s_regs r) (boot_medeleg r) (boot_pmp r) (rbA r) (rbB r) (rst r)
    (scratch_pa r) (napot_enc r) v (pA_control r) (pB_control r) (pB_lbu_pc r) (pA_m_traps r)
    (pA_mcause r) (pA_mepc r) (pA_mstatus r) (pp_checks r) (pp_fails r).
Definition with_pA_control (v : Z) (r : pp_glob) : pp_glob :=
  PPGlob (m_regs r) (s_regs r) (boot_medeleg r) (boot_pmp r) (rbA r) (rbB r) (rst r)
    (scratch_pa r) (napot_enc r) (pA_canary r) v (pB_control r) (pB_lbu_pc r) (pA_m_traps r)
    (pA_mcause r) (pA_mepc r) (pA_mstatus r) (pp_checks r) (pp_fails r).
Definition with_pB_control (v : Z) (r : pp_glob) : pp_glob :=
  PPGlob (m_regs r) (s_regs r) (boot_medeleg r) (boot_pmp r) (rbA r) (rbB r) (rst r)
    (scratch_pa r) (napot_enc r) (pA_canary r) (pA_control r) v (pB_lbu_pc r) (pA_m_traps r)
    (pA_mcause r) (pA_mepc r) (pA_mstatus r) (pp_checks r) (pp_fails r).
Definition with_pB_lbu_pc (v : Z) (r : pp_glob) : pp_glob :=
  PPGlob (m_regs r) (s_regs r) (boot_medeleg r) (boot_pmp r) (rbA r) (rbB r) (rst r)
    (scratch_pa r) (napot_enc r) (pA_canary r) (pA_control r) (pB_control r) v (pA_m_traps r)
    (pA_mcause r) (pA_mepc r) (pA_mstatus r) (pp_checks r) (pp_fails r).
Definition with_pA_m_traps (v : Z) (r : pp_glob) : pp_glob :=
  PPGlob (m_regs r) (s_regs r) (boot_medeleg r) (boot_pmp r) (rbA r) (rbB r) (rst r)
    (scratch_pa r) (napot_enc r) (pA_canary r) (pA_control r) (pB_control r) (pB_lbu_pc r) v
    (pA_mcause r) (pA_mepc r) (pA_mstatus r) (pp_checks r) (pp_fails r).
Definition with_pA_mcause (v : Z) (r : pp_glob) : pp_glob :=
  PPGlob (m_regs r) (s_regs r) (boot_medeleg r) (boot_pmp r) (rbA r) (rbB r) (rst r)
    (scratch_pa r) (napot_enc r) (pA_canary r) (pA_control r) (pB_control r) (pB_lbu_pc r)
    (pA_m_traps r) v (pA_mepc r) (pA_mstatus r) (pp_checks r) (pp_fails r).
Definition with_pA_mepc (v : Z) (r : pp_glob) : pp_glob :=
  PPGlob (m_regs r) (s_regs r) (boot_medeleg r) (boot_pmp r) (rbA r) (rbB r) (rst r)
    (scratch_pa r) (napot_enc r) (pA_canary r) (pA_control r) (pB_control r) (pB_lbu_pc r)
    (pA_m_traps r) (pA_mcause r) v (pA_mstatus r) (pp_checks r) (pp_fails r).
Definition with_pA_mstatus (v : Z) (r : pp_glob) : pp_glob :=
  PPGlob (m_regs r) (s_regs r) (boot_medeleg r) (boot_pmp r) (rbA r) (rbB r) (rst r)
    (scratch_pa r) (napot_enc r) (pA_canary r) (pA_control r) (pB_control r) (pB_lbu_pc r)
    (pA_m_traps r) (pA_mcause r) (pA_mepc r) v (pp_checks r) (pp_fails r).
Definition with_pp_checks (v : Z) (r : pp_glob) : pp_glob :=
  PPGlob (m_regs r) (s_regs r) (boot_medeleg r) (boot_pmp r) (rbA r) (rbB r) (rst r)
    (scratch_pa r) (napot_enc r) (pA_canary r) (pA_control r) (pB_control r) (pB_lbu_pc r)
    (pA_m_traps r) (pA_mcause r) (pA_mepc r) (pA_mstatus r) v (pp_fails r).
Definition with_pp_fails (v : Z) (r : pp_glob) : pp_glob :=
  PPGlob (m_regs r) (s_regs r) (boot_medeleg r) (boot_pmp r) (rbA r) (rbB r) (rst r)
    (scratch_pa r) (napot_enc r) (pA_canary r) (pA_control r) (pB_control r) (pB_lbu_pc r)
    (pA_m_traps r) (pA_mcause r) (pA_mepc r) (pA_mstatus r) (pp_checks r) v.

Definition rb0 : pmp_rb := PmpRb 0 0 0 0.
Definition pp_boot : pp_glob :=
  PPGlob (replicate 10 0) (replicate 10 0) 0 rb0 rb0 rb0 rb0 0 0 0 0 0 0 0 0 0 0 0 0.

(** Where the linker puts the code and the statics S-mode touches. *)
Record pp_addrs : Type := PPAddrs {
  scratch_page : Z; control_byte : Z; m_regs_at : Z; s_regs_at : Z; scratch_pa_at : Z;
  pA_canary_at : Z; pA_control_at : Z; pB_control_at : Z; pB_lbu_pc_at : Z;
  m_entry : Z; s_entry_at : Z; phaseA_at : Z; phaseB_at : Z; phase2_at : Z; report_at : Z;
  ecall_at : Z; lbu_at : Z }.

Section Program.
Context {U H : Type} `{!UartDev U, !HartDev H, !PmpDev H, !Sv39Dev H, !PrioDev H}.
Abbreviation W := (world U H pp_glob).
(** The addresses; [t2] at the two traps. *)
Context (a : pp_addrs) (t2 : nat -> Z).

Definition pp_check (cond : bool) (msg : string) : prog W unit :=
  n <- gget pp_checks ;; gset_ (with_pp_checks (u64 (n + 1))) ;;
  when (negb cond)
    (uputs "  FAIL: " ;; uputs msg ;; uputs "\n" ;;
     n <- gget pp_fails ;; gset_ (with_pp_fails (u64 (n + 1)))).

Definition in_broad_window (x : Z) : bool := (BROAD_BASE <=? x) && (x <? BROAD_TOP).

Definition m_reg (i : nat) : prog W Z := r <- gget m_regs ;; arr_get r i.
Definition s_reg (i : nat) : prog W Z := r <- gget s_regs ;; arr_get r i.
Definition set_m (i : nat) (x : Z) : prog W unit := gset_ (fun g => with_m_regs (<[i := x]> (m_regs g)) g).
Definition set_s (i : nat) (x : Z) : prog W unit := gset_ (fun g => with_s_regs (<[i := x]> (s_regs g)) g).

Definition program_pmp (cfg0 a0 a1 a2 : Z) (put : pmp_rb -> pp_glob -> pp_glob) : prog W unit :=
  csrw (pmpaddr_csr 0) a0 ;; csrw (pmpaddr_csr 1) a1 ;; csrw (pmpaddr_csr 2) a2 ;; csrw "pmpcfg0" cfg0 ;;
  c <- csrr "pmpcfg0" ;;
  x0 <- csrr (pmpaddr_csr 0) ;; x1 <- csrr (pmpaddr_csr 1) ;; x2 <- csrr (pmpaddr_csr 2) ;;
  gset_ (put (PmpRb c x0 x1 x2)).

(** [sret] to the code at [entry] in the mode SPP names. *)
Definition sret_to (entry : Z) (code : prog W unit) : prog W unit :=
  ms <- csrr "mstatus" ;; pc <- csrr "sepc" ;;
  hw_write q_sret ;;
  if Z.testbit ms 8 && (pc =? entry) then code else undef.

Definition drop_to_smode (entry : Z) (code : prog W unit) : prog W unit :=
  v <- csrr "sstatus" ;; csrw "sstatus" (Z.lor v (Z.shiftl 1 8)) ;;
  v <- csrr "mstatus" ;; csrw "mstatus" (mpp_s v) ;;
  csrw "sepc" entry ;;
  sret_to entry code.

(** [mret] to the code at [entry] in the mode MPP names. *)
Definition mret_to (entry : Z) (code : prog W unit) : prog W unit :=
  ms <- csrr "mstatus" ;; pc <- csrr "mepc" ;;
  hw_write q_mret ;;
  if (mpp_of ms =? 3) && (pc =? entry) then code else undef.

(** A trap from S-mode.  Undelegated it enters [m_trap_entry]; delegated
    ones would go to [s_trap_entry]. *)
Definition s_mode_trap (cause pc tval t1 t2 : Z) (entry : Z) (code : prog W unit) : prog W unit :=
  d <- csrr "medeleg" ;;
  if Z.testbit d cause then undef else
  hw_write (q_trap 1 pc) ;;
  set_m 1 t1 ;; set_m 6 t2 ;;
  n <- m_reg 0 ;; set_m 0 (u64 (n + 1)) ;;
  set_m 2 cause ;;
  x <- csrr "mepc" ;; set_m 3 x ;;
  x <- csrr "mstatus" ;; set_m 4 x ;;
  set_m 8 tval ;;
  c <- m_reg 7 ;;
  if c =? 0 then park else
  csrw "mepc" c ;;
  x <- csrr "mstatus" ;; csrw "mstatus" (Z.lor x (Z.shiftl 3 11)) ;;
  mret_to entry code.

(** S-mode accesses to the statics, which the payloads do not expect to
    fault, and a load that may fault. *)
Definition q_via (k : vaccess) (x n : Z) : prog W unit :=
  fun w => match s_at k x n (w_hw w) with
           | inr pa => if pa =? x then Ret tt w else Undef
           | inl _ => Undef
           end.
Definition q_load (n : nat) (x : Z) : prog W Z :=
  fun w => match s_ld n x (w_hw w) with inr y => Ret y w | inl _ => Undef end.
Definition q_store (n : nat) (x y : Z) : prog W unit :=
  fun w => match s_st n x y (w_hw w) with inr h => Ret tt (World (w_uart w) h (w_glob w)) | inl _ => Undef end.

Definition put_rb (g0 g1 g2 : string) (r : pmp_rb) : prog W unit :=
  uart_put_hex (rb_cfg r) ;; uputs g0 ;; uart_put_hex (rb_a0 r) ;; uputs g1 ;; uart_put_hex (rb_a1 r) ;;
  uputs g2 ;; uart_put_hex (rb_a2 r).

(** The report: what was measured. *)
Definition report_print (h : Z) : prog W unit :=
  uputs "pmp-priority: PMP entry-priority first-match test\n" ;;
  uputs "boot: medeleg=" ;; x <- gget boot_medeleg ;; uart_put_hex x ;;
  uputs " restored readback=" ;; uart_put_hex h ;; uputs "\n" ;;
  uputs "boot: pmpcfg0=" ;; r <- gget boot_pmp ;; put_rb " pmpaddr0=" " pmpaddr1=" " pmpaddr2=" r ;; uputs "\n" ;;
  uputs "restore: pmpcfg0 readback=" ;; r <- gget rst ;; put_rb " pmpaddr0=" " pmpaddr1=" " pmpaddr2=" r ;; uputs "\n" ;;
  uputs "scratch: pa=" ;; x <- gget scratch_pa ;; uart_put_hex x ;;
  uputs " napot=" ;; x <- gget napot_enc ;; uart_put_hex x ;;
  uputs " control=" ;; uart_put_hex (control_byte a) ;; uputs "\n" ;;
  uputs "pmpA: cfg0=" ;; r <- gget rbA ;; put_rb " addr0=" " addr1=" " addr2=" r ;; uputs "\n" ;;
  uputs "pmpB: cfg0=" ;; r <- gget rbB ;; put_rb " addr0=" " addr1=" " addr2=" r ;; uputs "\n" ;;
  uputs "pA: s_traps=" ;; x <- s_reg 0 ;; uart_put_dec x ;;
  uputs " canary=" ;; x <- gget pA_canary ;; uart_put_hex x ;;
  uputs " control=" ;; x <- gget pA_control ;; uart_put_hex x ;; uputs "\n" ;;
  uputs "pA: m_traps=" ;; x <- gget pA_m_traps ;; uart_put_dec x ;;
  uputs " mcause=" ;; x <- gget pA_mcause ;; uart_put_hex x ;;
  uputs " mepc=" ;; x <- gget pA_mepc ;; uart_put_hex x ;;
  uputs " mstatus_mpp=" ;; x <- gget pA_mstatus ;; uart_put_dec (Z.land (Z.shiftr x 11) 3) ;; uputs "\n" ;;
  uputs "pB: m_traps=" ;; x <- m_reg 0 ;; uart_put_dec x ;;
  uputs " mcause=" ;; x <- m_reg 2 ;; uart_put_hex x ;;
  uputs " mepc=" ;; x <- m_reg 3 ;; uart_put_hex x ;;
  uputs " expected=" ;; x <- gget pB_lbu_pc ;; uart_put_hex x ;;
  uputs " mtval=" ;; x <- m_reg 8 ;; uart_put_hex x ;;
  uputs " mstatus_mpp=" ;; x <- m_reg 4 ;; uart_put_dec (Z.land (Z.shiftr x 11) 3) ;;
  uputs " control=" ;; x <- gget pB_control ;; uart_put_hex x ;;
  uputs " s_traps=" ;; x <- s_reg 0 ;; uart_put_dec x ;; uputs "\n".

Definition check_restored (h : Z) : prog W unit :=
  b <- gget boot_medeleg ;; pp_check (h =? b) "medeleg restore readback != boot medeleg" ;;
  r <- gget rst ;; b <- gget boot_pmp ;;
  pp_check (rb_cfg r =? rb_cfg b) "pmpcfg0 restore readback != boot pmpcfg0" ;;
  pp_check (rb_a0 r =? rb_a0 b) "pmpaddr0 restore readback != boot pmpaddr0" ;;
  pp_check (rb_a1 r =? rb_a1 b) "pmpaddr1 restore readback != boot pmpaddr1" ;;
  pp_check (rb_a2 r =? rb_a2 b) "pmpaddr2 restore readback != boot pmpaddr2".

Definition check_configA : prog W unit :=
  r <- gget rbA ;; enc <- gget napot_enc ;; pa <- gget scratch_pa ;;
  pp_check (rb_cfg r =? PMPCFG0_PHASEA) "phase-A pmpcfg0 readback != 0x001f181b" ;;
  pp_check (rb_a0 r =? enc) "phase-A pmpaddr0 readback != computed NAPOT value" ;;
  pp_check (rb_a1 r =? enc) "phase-A pmpaddr1 readback != computed NAPOT value" ;;
  pp_check (rb_a2 r =? PMPADDR2_BROAD) "phase-A pmpaddr2 readback != broad-allow NAPOT value" ;;
  pp_check (Z.land pa (PAGE_SIZE - 1) =? 0) "scratch page misaligned" ;;
  pp_check (enc =? Z.lor (Z.shiftr pa 2) NAPOT_4K_MASK) "NAPOT encoding != (pa >> 2) | 0x1ff" ;;
  pp_check ((BROAD_BASE <=? pa) && (u64 (pa + PAGE_SIZE) <=? BROAD_TOP)) "scratch page outside the broad-allow window" ;;
  pp_check ((control_byte a <? pa) || (u64 (pa + PAGE_SIZE) <=? control_byte a)) "control byte sits on the scratch page" ;;
  pp_check (in_broad_window (phaseA_at a)) "phase-A payload outside the broad-allow window" ;;
  pp_check (in_broad_window (phaseB_at a)) "phase-B payload outside the broad-allow window".

Definition check_behaviorA : prog W unit :=
  x <- s_reg 0 ;; pp_check (x =? 0) "phase-A S-mode trap fired on an allowed load" ;;
  x <- gget pA_canary ;; pp_check (x =? 0xA5) "phase-A canary readback != 0xa5" ;;
  x <- gget pA_control ;; pp_check (x =? 0x5A) "phase-A control load != 0x5a" ;;
  x <- gget pA_m_traps ;; pp_check (x =? 1) "phase-A M-mode trap did not fire exactly once" ;;
  x <- gget pA_mcause ;; pp_check (x =? CAUSE_ECALL_FROM_S) "phase-A M-mode cause != 9 (ecall from S-mode)" ;;
  x <- gget pA_mstatus ;;
  pp_check (Z.land (Z.shiftr x 11) 3 =? 1) "phase-A ecall did not arrive from S-mode (mstatus.MPP)".

Definition check_configB : prog W unit :=
  r <- gget rbB ;; enc <- gget napot_enc ;;
  pp_check (rb_cfg r =? PMPCFG0_PHASEB) "phase-B pmpcfg0 readback != 0x001f1b18" ;;
  pp_check (rb_a0 r =? enc) "phase-B pmpaddr0 readback != computed NAPOT value" ;;
  pp_check (rb_a1 r =? enc) "phase-B pmpaddr1 readback != computed NAPOT value" ;;
  pp_check (rb_a2 r =? PMPADDR2_BROAD) "phase-B pmpaddr2 readback != broad-allow NAPOT value".

Definition check_behaviorB : prog W unit :=
  x <- gget pB_control ;; pp_check (x =? 0x5A) "phase-B control load != 0x5a" ;;
  x <- m_reg 0 ;; pp_check (x =? 2) "phase-B M-mode trap did not fire exactly once more" ;;
  x <- m_reg 2 ;; pp_check (x =? CAUSE_LOAD_ACCESS_FAULT) "phase-B mcause != 5 (load access fault)" ;;
  x <- m_reg 3 ;; y <- gget pB_lbu_pc ;; pp_check (x =? y) "phase-B mepc != faulting load address" ;;
  x <- m_reg 8 ;; y <- gget scratch_pa ;; pp_check (x =? y) "phase-B mtval != scratch page address" ;;
  x <- m_reg 4 ;; pp_check (Z.land (Z.shiftr x 11) 3 =? 1) "phase-B trap did not arrive from S-mode (mstatus.MPP)" ;;
  x <- s_reg 0 ;; pp_check (x =? 0) "S-mode trap fired in phase B".

(** The quiet window. *)
Definition pp_quiet : prog W unit :=
  spins <- for_acc (seq 0 QUIET_SPINS) 0 (fun _ spins => ret (spins + 1)) ;;
  uputs "quiet: m_traps=" ;; x <- m_reg 0 ;; uart_put_dec x ;;
  uputs " s_traps=" ;; x <- s_reg 0 ;; uart_put_dec x ;; uputs "\n" ;;
  x <- m_reg 0 ;; y <- s_reg 0 ;; pp_check ((x =? 2) && (y =? 0)) "trap count moved during the quiet window".

Definition pp_vals (g : pp_glob) (s0 m0 m2 m3 m8 : Z) : list Z :=
  [rb_cfg (rbA g); rb_a0 (rbA g); rb_a1 (rbA g); rb_a2 (rbA g);
   rb_cfg (rbB g); rb_a0 (rbB g); rb_a1 (rbB g); rb_a2 (rbB g);
   scratch_pa g; napot_enc g; s0; pA_canary g; pA_control g; pA_m_traps g; pA_mcause g; pA_mepc g;
   pB_control g; m0; m2; m3; m8].

(** The FNV-1a loops over the values. *)
Definition pp_hash (vals : list Z) : Z := fold_left fnv_word vals FNV64_BASIS.

Definition pp_checksum : prog W unit :=
  s0 <- s_reg 0 ;; m0 <- m_reg 0 ;; m2 <- m_reg 2 ;; m3 <- m_reg 3 ;; m8 <- m_reg 8 ;;
  vals <- gget (fun g => pp_vals g s0 m0 m2 m3 m8) ;;
  uputs "checksum=" ;; uart_put_hex (pp_hash vals) ;; uputs "\n".

(** Everything of [report_mmode] before the first drain. *)
Definition report_body : prog W unit :=
  b <- gget boot_pmp ;;
  program_pmp (rb_cfg b) (rb_a0 b) (rb_a1 b) (rb_a2 b) with_rst ;;
  d <- gget boot_medeleg ;; csrw "medeleg" d ;;
  h <- csrr "medeleg" ;;
  report_print h ;;
  check_restored h ;;
  check_configA ;;
  check_behaviorA ;;
  check_configB ;;
  check_behaviorB ;;
  pp_quiet ;;
  pp_checksum.

Definition finisher_write : prog W unit :=
  fun w => match p_st 4 VIRT_TEST_FINISHER FINISHER_PASS (w_hw w) with
           | Some h => Ret tt (World (w_uart w) h (w_glob w)) | None => Undef end.

Definition report_mmode : prog W unit :=
  report_body ;;
  uart_wait LSR_TEMT ;;
  n <- gget pp_fails ;;
  if n =? 0 then
    (uputs "RESULT: PASS (checks=" ;; c <- gget pp_checks ;; uart_put_dec c ;; uputs ")\n") ;;
    uart_wait LSR_TEMT ;;
    finisher_write ;;
    park
  else
    uputs "RESULT: FAIL (checks=" ;; c <- gget pp_checks ;; uart_put_dec c ;;
    uputs " fails=" ;; n <- gget pp_fails ;; uart_put_dec n ;; uputs ")\n" ;;
    uputs "done\n" ;;
    uart_wait LSR_TEMT ;;
    park.

(** The payloads.  [t1] holds what was last put into it. *)
Definition smode_phaseB : prog W unit :=
  q_via VLoad (scratch_pa_at a) 8 ;; pa <- gget scratch_pa ;;
  x <- q_load 1 (control_byte a) ;;
  q_via VStore (pB_control_at a) 8 ;; gset_ (with_pB_control x) ;;
  q_via VStore (pB_lbu_pc_at a) 8 ;; gset_ (with_pB_lbu_pc (lbu_at a)) ;;
  fun w => match s_ld 1 pa (w_hw w) with
           | inl c => s_mode_trap c (lbu_at a) pa (lbu_at a) (t2 1) (report_at a) report_mmode w
           | inr _ => park w
           end.

Definition phase2_mmode : prog W unit :=
  x <- m_reg 0 ;; gset_ (with_pA_m_traps x) ;;
  x <- m_reg 2 ;; gset_ (with_pA_mcause x) ;;
  x <- m_reg 3 ;; gset_ (with_pA_mepc x) ;;
  x <- m_reg 4 ;; gset_ (with_pA_mstatus x) ;;
  enc <- gget napot_enc ;;
  program_pmp PMPCFG0_PHASEB enc enc PMPADDR2_BROAD with_rbB ;;
  uputs "m-mode: phase-B pmpcfg0=" ;; r <- gget rbB ;; put_rb " pmpaddr0=" " pmpaddr1=" " pmpaddr2=" r ;; uputs "\n" ;;
  set_m 7 (report_at a) ;;
  drop_to_smode (phaseB_at a) smode_phaseB.

Definition smode_phaseA : prog W unit :=
  q_via VLoad (scratch_pa_at a) 8 ;; pa <- gget scratch_pa ;;
  q_via VStore (s_regs_at a + 56) 8 ;; set_s 7 (ecall_at a) ;;
  q_store 1 pa 0xa5 ;;
  x <- q_load 1 pa ;;
  q_via VStore (pA_canary_at a) 8 ;; gset_ (with_pA_canary x) ;;
  x <- q_load 1 (control_byte a) ;;
  q_via VStore (pA_control_at a) 8 ;; gset_ (with_pA_control x) ;;
  s_mode_trap CAUSE_ECALL_FROM_S (ecall_at a) 0 x (t2 0) (phase2_at a) phase2_mmode.

Definition pp_body : prog W unit :=
  uputs "pmp-priority: PMP entry-priority first-match test\n" ;;
  csrw "mtvec" (m_entry a) ;;
  csrw "mscratch" (m_regs_at a) ;;
  csrw "stvec" (s_entry_at a) ;;
  csrw "sscratch" (s_regs_at a) ;;
  x <- csrr "medeleg" ;; gset_ (with_boot_medeleg x) ;;
  c <- csrr "pmpcfg0" ;;
  x0 <- csrr (pmpaddr_csr 0) ;; x1 <- csrr (pmpaddr_csr 1) ;; x2 <- csrr (pmpaddr_csr 2) ;;
  gset_ (with_boot_pmp (PmpRb c x0 x1 x2)) ;;
  uputs "m-mode: boot medeleg=" ;; x <- gget boot_medeleg ;; uart_put_hex x ;;
  uputs " pmpcfg0=" ;; r <- gget boot_pmp ;; put_rb " pmpaddr0=" " pmpaddr1=" " pmpaddr2=" r ;; uputs "\n" ;;
  gset_ (with_scratch_pa (scratch_page a)) ;;
  pa <- gget scratch_pa ;;
  gset_ (with_napot_enc (Z.lor (Z.shiftr pa 2) NAPOT_4K_MASK)) ;;
  enc <- gget napot_enc ;;
  program_pmp PMPCFG0_PHASEA enc enc PMPADDR2_BROAD with_rbA ;;
  uputs "m-mode: phase-A pmpcfg0=" ;; r <- gget rbA ;; put_rb " pmpaddr0=" " pmpaddr1=" " pmpaddr2=" r ;; uputs "\n" ;;
  csrw "mie" 0 ;;
  csrc "mstatus" (Z.shiftl 1 3) ;;
  satp <- csrr "satp" ;;
  uputs "m-mode: satp=" ;; uart_put_hex satp ;; uputs " (Bare)\n" ;;
  set_m 7 (phase2_at a) ;;
  uputs "m-mode: entering S-mode (phase A, entry 0 allows)\n" ;;
  drop_to_smode (phaseA_at a) smode_phaseA.

Definition pp_main : prog W unit := uart_init ;; pp_body.
End Program.

(** ** Rules *)

Section Rules.
Context {U H : Type} `{!UartDev U, !UartSpec U, !UartDrain U, !HartDev H, !PmpDev H, !PmpSpec H, !Sv39Dev H, !PrioDev H, !PrioSpec H}.
Abbreviation vr := (vruns (U:=U) (G:=pp_glob) qv).

Lemma qv_pv h v : qv h = v -> p_view h = qp v.
Proof. intros <-. now rewrite qv_p. Qed.
Lemma set_qp_id v : set_qp (qp v) v = v.
Proof. now destruct v. Qed.

Lemma qr_csrr c x v g :
  (forall h, qv h = v -> p_view h = qp v -> (csr_rd c h).1 = x /\ p_view (csr_rd c h).2 = p_view h) ->
  vr (csrr c) v g x [] v g.
Proof.
  intros Hc u h Hv. destruct (Hc h Hv (qv_pv h v Hv)) as [<- Hp]. exists (csr_rd c h).2. split; [apply csrr_eq|].
  rewrite q_rd_keeps, Hp, <-qv_p. rewrite Hv. apply set_qp_id.
Qed.

Lemma qr_csrw c x v p g : c ∉ ["satp"; "medeleg"; "mepc"; "sepc"]%string ->
  (forall h, qv h = v -> p_view h = qp v -> p_view (csr_wr c x h) = p) ->
  vr (csrw c x) v g tt [] (set_qp p v) g.
Proof.
  intros Hn Hc u h Hv. exists (csr_wr c x h). split; [reflexivity|].
  rewrite q_wr_keeps by exact Hn. now rewrite (Hc h Hv (qv_pv h v Hv)), Hv.
Qed.

Lemma qr_read_cfg v g : vr (csrr "pmpcfg0") v g (read_cfg (pv_es (qp v))) [] v g.
Proof. apply qr_csrr. intros h _ <-. apply pmpcfg_rd_spec. Qed.
Lemma qr_read_addr i v g : (i < 3)%nat -> vr (csrr (pmpaddr_csr i)) v g (read_addr i (pv_es (qp v))) [] v g.
Proof. intros Hi. apply qr_csrr. intros h _ <-. now apply pmpaddr_rd_spec. Qed.
Lemma qr_mstatus v g : vr (csrr "mstatus") v g (q_mstatus v) [] v g.
Proof. apply qr_csrr. unfold q_mstatus. intros h _ <-. apply mstatus_rd_spec. Qed.
Lemma qr_sstatus v g : vr (csrr "sstatus") v g (Z.land (q_mstatus v) sst_mask) [] v g.
Proof. apply qr_csrr. unfold q_mstatus. intros h _ <-. apply sst_rd. Qed.
Lemma qr_satp v g : vr (csrr "satp") v g (q_satp v) [] v g.
Proof. apply qr_csrr. intros h <- _. destruct (q_csr_rd h) as (? & ? & ?). auto. Qed.
Lemma qr_medeleg v g : vr (csrr "medeleg") v g (q_medeleg v) [] v g.
Proof. apply qr_csrr. intros h <- _. destruct (q_csr_rd h) as (_ & _ & ? & ? & _). auto. Qed.
Lemma qr_mepc v g : vr (csrr "mepc") v g (q_mepc v) [] v g.
Proof. apply qr_csrr. intros h <- _. destruct (q_csr_rd h) as (_ & _ & _ & _ & ? & ? & _). auto. Qed.
Lemma qr_sepc v g : vr (csrr "sepc") v g (q_sepc v) [] v g.
Proof. apply qr_csrr. intros h <- _. destruct (q_csr_rd h) as (_ & _ & _ & _ & _ & _ & ? & ?). auto. Qed.

Ltac not_listed := rewrite !elem_of_cons, elem_of_nil; intuition discriminate.

Lemma qr_write_cfg x v g : vr (csrw "pmpcfg0" x) v g tt [] (set_qp (pv_set_es (write_cfg warl x (pv_es (qp v))) (qp v)) v) g.
Proof. apply qr_csrw; [not_listed|]. intros h _ <-. apply pmpcfg_wr_spec. Qed.
Lemma qr_write_addr i x v g : (i < 3)%nat ->
  vr (csrw (pmpaddr_csr i) x) v g tt [] (set_qp (pv_set_es (write_addr i x (pv_es (qp v))) (qp v)) v) g.
Proof.
  intros Hi. apply qr_csrw; [destruct i as [|[|]]; not_listed|]. intros h _ <-. now apply pmpaddr_wr_spec.
Qed.
Lemma qr_trap_csr c x v g : c ∈ ["mtvec"; "mscratch"; "mie"]%string -> vr (csrw c x) v g tt [] v g.
Proof.
  intros Hc. eapply vruns_conv; [apply (qr_csrw c x v (qp v))|reflexivity|reflexivity|apply set_qp_id|reflexivity].
  - rewrite !elem_of_cons, elem_of_nil in *. intuition (subst; discriminate).
  - intros h _ <-. apply trap_csr_wr_spec. rewrite !elem_of_cons, elem_of_nil in Hc.
    destruct Hc as [->|[->|[->|[]]]]; reflexivity.
Qed.
Lemma qr_s_csr c x v g : c ∈ ["stvec"; "sscratch"]%string -> vr (csrw c x) v g tt [] v g.
Proof.
  intros Hc. eapply vruns_conv; [apply (qr_csrw c x v (qp v))|reflexivity|reflexivity|apply set_qp_id|reflexivity].
  - rewrite !elem_of_cons, elem_of_nil in *. intuition (subst; discriminate).
  - intros h _ <-. now apply s_csr_wr.
Qed.

Lemma qr_write_mstatus x v g : (mstatus_ok (q_mstatus v) -> mstatus_ok x) ->
  vr (csrw "mstatus" x) v g tt [] (set_qp (pv_set_mstatus x (qp v)) v) g.
Proof.
  intros Hx. apply qr_csrw; [not_listed|]. intros h _ Hp. rewrite <-Hp. apply mstatus_wr_spec, Hx. unfold q_mstatus.
  rewrite <-Hp. apply mstatus_cur.
Qed.
Lemma qr_mie_off v g : vr (csrc "mstatus" 8) v g tt [] (set_qp (pv_set_mstatus (mie_off (q_mstatus v)) (qp v)) v) g.
Proof.
  unfold csrc, csrrc. eapply vruns_bind0; [|apply vruns_ret].
  eapply vruns_bind0; [apply qr_mstatus|]. eapply vruns_bind0; [apply qr_write_mstatus, mstatus_mie|apply vruns_ret].
Qed.
Lemma qr_write_spp v g :
  vr (csrw "sstatus" (Z.lor (Z.land (q_mstatus v) sst_mask) (Z.shiftl 1 8))) v g tt []
     (set_qp (pv_set_mstatus (Z.lor (q_mstatus v) MST_SPP) (qp v)) v) g.
Proof. apply qr_csrw; [not_listed|]. unfold q_mstatus. intros h _ <-. apply sst_wr_spp. Qed.

Lemma qr_set_medeleg x v g : (medeleg_ok (q_medeleg v) -> medeleg_ok x) ->
  vr (csrw "medeleg" x) v g tt [] (QView (qp v) (q_satp v) x (q_mepc v) (q_sepc v)) g.
Proof.
  intros Hx u h Hv. exists (csr_wr "medeleg" x h). split; [reflexivity|]. rewrite medeleg_wr.
  - now rewrite <-qv_p, Hv.
  - apply Hx. rewrite <-Hv. apply medeleg_cur.
Qed.
Lemma qr_set_mepc x v g : pc_ok x -> vr (csrw "mepc" x) v g tt [] (QView (qp v) (q_satp v) (q_medeleg v) x (q_sepc v)) g.
Proof. intros Hx u h Hv. exists (csr_wr "mepc" x h). split; [reflexivity|]. rewrite q_mepc_wr by exact Hx. now rewrite <-qv_p, Hv. Qed.
Lemma qr_set_sepc x v g : pc_ok x -> vr (csrw "sepc" x) v g tt [] (QView (qp v) (q_satp v) (q_medeleg v) (q_mepc v) x) g.
Proof. intros Hx u h Hv. exists (csr_wr "sepc" x h). split; [reflexivity|]. rewrite q_sepc_wr by exact Hx. now rewrite <-qv_p, Hv. Qed.

Lemma qr_trap from pc v g :
  vr (hw_write (q_trap from pc)) v g tt []
     (QView (pv_set_mstatus (trap_status from (q_mstatus v)) (qp v)) (q_satp v) (q_medeleg v) pc (q_sepc v)) g.
Proof. intros u h Hv. exists (q_trap from pc h). split; [reflexivity|]. rewrite q_trap_spec, <-qv_p. now rewrite Hv. Qed.
Lemma qr_mret v g : vr (hw_write q_mret) v g tt [] (set_qp (pv_set_mstatus (mret_status low_mode (q_mstatus v)) (qp v)) v) g.
Proof. intros u h Hv. exists (q_mret h). split; [reflexivity|]. rewrite q_mret_spec, <-qv_p. now rewrite Hv. Qed.
Lemma qr_sret v g : vr (hw_write q_sret) v g tt [] (set_qp (pv_set_mstatus (sret_status (q_mstatus v)) (qp v)) v) g.
Proof. intros u h Hv. exists (q_sret h). split; [reflexivity|]. rewrite q_sret_spec, <-qv_p. now rewrite Hv. Qed.

Lemma qr_via k x n v g : q_satp v = 0 -> pmp_grants 0 (pv_es (qp v)) k x n = true -> vr (q_via k x n) v g tt [] v g.
Proof.
  intros Hs Hg u h Hv. exists h. unfold q_via. cbn [w_hw]. rewrite bare_at by now rewrite Hv.
  unfold q_access. rewrite Hv, Hg, Z.eqb_refl. auto.
Qed.
Lemma qr_load n x v g : q_satp v = 0 -> pmp_grants 0 (pv_es (qp v)) VLoad x (Z.of_nat n) = true ->
  vr (q_load n x) v g (ld_bytes n x (pv_mem (qp v))) [] v g.
Proof.
  intros Hs Hg u h Hv. exists h. unfold q_load. cbn [w_hw]. rewrite bare_ld by now rewrite Hv.
  unfold q_access. rewrite Hv, Hg, <-qv_p, Hv. auto.
Qed.
Lemma qr_store n x y v g : q_satp v = 0 -> pmp_grants 0 (pv_es (qp v)) VStore x (Z.of_nat n) = true ->
  vr (q_store n x y) v g tt [] (set_qp (pv_set_mem (st_bytes n x y (pv_mem (qp v))) (qp v)) v) g.
Proof.
  intros Hs Hg u h Hv. pose proof (bare_st n x y h ltac:(now rewrite Hv)) as Hst. unfold q_access in Hst.
  rewrite Hv, Hg in Hst. destruct Hst as (h' & E & Hv'). exists h'. unfold q_store. cbn [w_hw]. rewrite E.
  split; [reflexivity|]. rewrite Hv', <-qv_p. now rewrite Hv.
Qed.

Lemma qr_check b msg v g : b = true -> vr (pp_check b msg) v g tt [] v (with_pp_checks (u64 (pp_checks g + 1)) g).
Proof. intros ->. unfold pp_check. do 2 vstep. now apply vruns_unless. Qed.
Lemma qr_m_reg i x v g : m_regs g !! i = Some x -> vr (m_reg i) v g x [] v g.
Proof. intros Hi. unfold m_reg. vstep. now apply vruns_arr_get. Qed.
Lemma qr_s_reg i x v g : s_regs g !! i = Some x -> vr (s_reg i) v g x [] v g.
Proof. intros Hi. unfold s_reg. vstep. now apply vruns_arr_get. Qed.

Lemma program_pmp_runs cfg0 a0 a1 a2 put es0 es1 m hid ms d pc sp g :
  write_cfg warl cfg0 (write_addr 2 a2 (write_addr 1 a1 (write_addr 0 a0 es0))) = es1 ->
  vr (program_pmp cfg0 a0 a1 a2 put) (QView (PView es0 m hid ms) 0 d pc sp) g tt []
     (QView (PView es1 m hid ms) 0 d pc sp)
     (put (PmpRb (read_cfg es1) (read_addr 0 es1) (read_addr 1 es1) (read_addr 2 es1)) g).
Proof.
  intros <-. unfold program_pmp.
  do 3 (eapply vruns_bind0; [apply qr_write_addr; lia|]). eapply vruns_bind0; [apply qr_write_cfg|].
  eapply vruns_bind0; [apply qr_read_cfg|]. do 3 (eapply vruns_bind0; [apply qr_read_addr; lia|]).
  now apply vruns_gset.
Qed.
End Rules.

Ltac qprim :=
  lazymatch goal with
  | |- vruns _ (csrr "mstatus") _ _ _ _ _ _ => apply qr_mstatus
  | |- vruns _ (csrr "mepc") _ _ _ _ _ _ => apply qr_mepc
  | |- vruns _ (csrr "sepc") _ _ _ _ _ _ => apply qr_sepc
  | |- vruns _ (csrr "medeleg") _ _ _ _ _ _ => apply qr_medeleg
  | |- vruns _ (csrr "satp") _ _ _ _ _ _ => apply qr_satp
  | |- vruns _ (csrr "sstatus") _ _ _ _ _ _ => apply qr_sstatus
  | |- vruns _ (csrr "pmpcfg0") _ _ _ _ _ _ => apply qr_read_cfg
  | |- vruns _ (csrr (pmpaddr_csr _)) _ _ _ _ _ _ => apply qr_read_addr; lia
  | |- vruns _ (csrw "mtvec" _) _ _ _ _ _ _ => apply qr_trap_csr; in_list
  | |- vruns _ (csrw "mscratch" _) _ _ _ _ _ _ => apply qr_trap_csr; in_list
  | |- vruns _ (csrw "mie" _) _ _ _ _ _ _ => apply qr_trap_csr; in_list
  | |- vruns _ (csrw "stvec" _) _ _ _ _ _ _ => apply qr_s_csr; in_list
  | |- vruns _ (csrw "sscratch" _) _ _ _ _ _ _ => apply qr_s_csr; in_list
  | |- vruns _ (m_reg _) _ _ _ _ _ _ => apply qr_m_reg; reflexivity
  | |- vruns _ (s_reg _) _ _ _ _ _ _ => apply qr_s_reg; reflexivity
  | |- vruns _ (set_m _ _) _ _ _ _ _ _ => apply vruns_gset; reflexivity
  | |- vruns _ (set_s _ _) _ _ _ _ _ _ => apply vruns_gset; reflexivity
  | |- vruns _ (pp_check _ _) _ _ _ _ _ _ => apply qr_check; pm_side
  | |- _ => vprim
  end.
Ltac qquiet m :=
  lazymatch m with
  | csrr _ => idtac | csrw _ _ => idtac | m_reg _ => idtac | s_reg _ => idtac | set_m _ _ => idtac | set_s _ _ => idtac
  | pp_check _ _ => idtac | _ => vquiet m
  end.
Ltac qstep :=
  lazymatch goal with
  | |- vruns _ (bind ?m _) _ _ _ _ _ _ =>
      first [ qquiet m; eapply vruns_bind0; [qprim|cbv beta zeta]
            | eapply vruns_bind; [qprim|cbv beta zeta] ]
  | |- vleads _ (bind ?m _) _ _ _ _ _ _ =>
      first [ qquiet m; eapply vleads_bind0; [qprim|cbv beta zeta]
            | eapply vleads_bind; [qprim|cbv beta zeta] ]
  | |- vruns _ _ _ _ _ _ _ _ => qprim
  end.
Ltac qrun := repeat qstep.

(** ** Transfers of control *)

(** [mstatus] in S-mode after the drop. *)
Definition dropped (ms : Z) : Z := sret_status (mpp_s (Z.lor ms MST_SPP)).
(** At the handler's entry, and in the continuation. *)
Definition in_handler (ms : Z) : Z := trap_status 1 ms.
Definition continued `{PmpSpec H} (ms : Z) : Z := mret_status low_mode (Z.lor (in_handler ms) MST_MPP).

Lemma mpp_s_fields x : mpp_of (mpp_s x) = 1 /\ Z.testbit (mpp_s (Z.lor x MST_SPP)) 8 = true.
Proof.
  split; [apply mpp_field|]. unfold mpp_s. rewrite Z.lor_spec, Z.land_spec, Z.lor_spec.
  change (Z.testbit MST_SPP 8) with true. rewrite orb_true_r. reflexivity.
Qed.

Section Control.
Context {U H : Type} `{!UartDev U, !UartSpec U, !UartDrain U, !HartDev H, !PmpDev H, !PmpSpec H, !Sv39Dev H, !PrioDev H, !PrioSpec H}.
Abbreviation vr := (vruns (U:=U) (G:=pp_glob) qv).

Lemma drop_leads entry code es m hid ms d pc sp g : pc_ok entry ->
  vleads qv (drop_to_smode (U:=U) entry code) code (QView (PView es m hid ms) 0 d pc sp) g []
    (QView (PView es m hid (dropped ms)) 0 d pc entry) g.
Proof.
  intros Hpc. unfold drop_to_smode, sret_to. qstep. eapply vleads_bind0; [apply qr_write_spp|]. qstep.
  eapply vleads_bind0; [apply qr_write_mstatus, q_mpp_s|]. eapply vleads_bind0; [apply qr_set_sepc, Hpc|].
  do 2 qstep. eapply vleads_bind0; [apply qr_sret|]. cbn [q_sepc q_mstatus qp set_qp pv_mstatus pv_set_mstatus].
  rewrite (proj2 (mpp_s_fields ms)), Z.eqb_refl. apply vleads_refl.
Qed.

Lemma handler_mpp x : mpp_of (Z.lor x MST_MPP) = 3.
Proof. apply mpp_bits; [lia|..]; rewrite Z.lor_spec; apply orb_true_r. Qed.
Lemma handler_from x : mpp_of (in_handler x) = 1.
Proof.
  unfold in_handler, trap_status.
  apply mpp_bits; [lia|..]; rewrite !Z.lor_spec, bits_off_test by lia; destruct (Z.testbit x 3); now rewrite andb_false_r.
Qed.

Lemma trap_leads cause pc tval t1 t2 code es m hid ms d pc0 sp g r0 r1 r2 r3 r4 r5 r6 c r8 r9 :
  m_regs g = [r0; r1; r2; r3; r4; r5; r6; c; r8; r9] -> Z.testbit d cause = false -> c <> 0 -> pc_ok c ->
  vleads qv (s_mode_trap (U:=U) cause pc tval t1 t2 c code) code (QView (PView es m hid ms) 0 d pc0 sp) g []
    (QView (PView es m hid (continued ms)) 0 d c sp)
    (with_m_regs [u64 (r0 + 1); t1; cause; pc; in_handler ms; r5; t2; c; tval; r9] g).
Proof.
  intros Hg Hd Hc Hpc. destruct g as [mr sr ? ? ? ? ? ? ? ? ? ? ? ? ? ? ? ? ?]. cbn in Hg. subst mr.
  unfold s_mode_trap, mret_to. qstep. cbn [q_medeleg]. rewrite Hd. eapply vleads_bind0; [apply qr_trap|].
  do 11 qstep. rewrite (proj2 (Z.eqb_neq c 0) Hc). eapply vleads_bind0; [apply qr_set_mepc, Hpc|]. qstep.
  eapply vleads_bind0; [apply qr_write_mstatus, q_mpp_m|]. do 2 qstep. eapply vleads_bind0; [apply qr_mret|].
  cbn [q_mepc q_mstatus qp set_qp pv_mstatus pv_set_mstatus]. rewrite handler_mpp, !Z.eqb_refl.
  apply vleads_refl.
Qed.
Lemma drain_eq (w : world U H pp_glob) : uart_wait LSR_TEMT w = Ret tt (set_uart (polled LSR_TEMT uart_fuel) w).
Proof. apply (wait_ind LSR_TEMT temt_wait (fun _ => True)); auto using temt_progress, temt_bounded. Qed.

(** A report that found nothing wrong, its verdict, the finisher. *)
Lemma finish_parks (body result bad : prog (world U H pp_glob) unit) v1 v2 g1 g2 l1 l2 u h :
  vr body v1 g1 tt l1 v2 g2 -> vr result v2 g2 tt l2 v2 g2 -> pp_fails g2 = 0 ->
  pmp_allows 0 (pv_es (qp v2)) AStore VIRT_TEST_FINISHER 4 = true ->
  Forall (fun c => 0 <= c < 256) l1 -> Forall (fun c => 0 <= c < 256) l2 -> qv h = v1 ->
  exists u' h',
    (body ;; uart_wait LSR_TEMT ;; n <- gget pp_fails ;;
     if n =? 0 then result ;; uart_wait LSR_TEMT ;; finisher_write ;; park else bad) (World u h g1) = Park (World u' h' g2) /\
    tx u' = tx u ++ crlf (l1 ++ l2) /\ rx u' = rx u /\
    qv h' = set_qp (pv_set_mem (st_bytes 4 VIRT_TEST_FINISHER FINISHER_PASS (pv_mem (qp v2))) (qp v2)) v2.
Proof.
  intros Hbody Hresult Hf Hal Hl1 Hl2 Hv. destruct (Hbody u h Hv) as (h1 & E1 & Hv1). rewrite (bind_ret_eq _ _ _ _ _ E1).
  rewrite (bind_ret_eq _ _ _ _ _ (drain_eq _)). unfold set_uart. cbn [w_uart w_hw w_glob].
  match goal with |- context [World ?x h1 g2] => set (u1 := x) end.
  rewrite (bind_ret_eq (gget pp_fails) _ (World u1 h1 g2) (pp_fails g2) (World u1 h1 g2) eq_refl), Hf. cbn [Z.eqb].
  destruct (Hresult u1 h1 Hv1) as (h2 & E2 & Hv2).
  rewrite (bind_ret_eq _ _ _ _ _ E2), (bind_ret_eq _ _ _ _ _ (drain_eq _)). unfold set_uart. cbn [w_uart w_hw w_glob].
  match goal with |- context [World ?x h2 g2] => set (u2 := x) end.
  pose proof (p_st_spec 4 VIRT_TEST_FINISHER FINISHER_PASS h2) as Hs. rewrite (qv_pv h2 _ Hv2) in Hs.
  change (Z.of_nat 4) with 4 in Hs. rewrite Hal in Hs. destruct Hs as (h3 & E3 & Hp3). pose proof (q_st_keeps _ _ _ _ _ E3) as Hq3.
  rewrite (bind_ret_eq finisher_write _ (World u2 h2 g2) tt (World u2 h3 g2)) by (unfold finisher_write; cbn [w_hw]; now rewrite E3).
  exists u2, h3. split; [reflexivity|]. subst u2 u1.
  rewrite !polled_tx, !polled_rx, !emits_rx, !polled_rx, !emits_rx, emits_tx, polled_tx, emits_tx, crlf_app, app_assoc by assumption.
  split; [reflexivity|]. split; [reflexivity|]. now rewrite Hq3, Hp3, Hv2.
Qed.
End Control.

(** ** The entries *)

Section Entries.
Context (scratch : Z).
Hypothesis Hal : scratch mod 4096 = 0.
Hypothesis Hlo : BROAD_BASE <= scratch.
Hypothesis Hhi : scratch + 4096 <= BROAD_TOP.

(** Entries 0 and 1 over the page with the given permissions, entry 2 over
    the window. *)
Definition prio_entries (c0 c1 : Z) (addrs : list Z) : list (Z * Z) :=
  (c0, napot4k scratch) :: (c1, napot4k scratch) :: (0x1F, PMPADDR2_BROAD) :: entries_off addrs.

Lemma page_range c prev : cfg_A c = 3 -> pmp_range prev c (napot4k scratch) = (scratch, scratch + 4096).
Proof. intros Hc. apply (napot_range prev c scratch 9); [lia|exact Hc|exact Hal]. Qed.

(** On the page the lower-numbered entry decides. *)
Lemma prio_first c0 c1 addrs k x n : cfg_A c0 = 3 -> 0 < n -> scratch <= x -> x + n <= scratch + 4096 ->
  pmp_grants 0 (prio_entries c0 c1 addrs) k x n = grants c0 k.
Proof.
  intros Hc Hn Hx Hh. unfold prio_entries. cbn [pmp_grants]. rewrite page_range by exact Hc.
  destruct (Z.ltb_spec x (scratch + 4096)), (Z.ltb_spec scratch (x + n)), (Z.leb_spec scratch x),
    (Z.leb_spec (x + n) (scratch + 4096)); (reflexivity || lia).
Qed.

(** Elsewhere in the window entry 2 allows everything. *)
Lemma prio_window c0 c1 addrs k x n : cfg_A c0 = 3 -> cfg_A c1 = 3 -> 0 < n -> BROAD_BASE <= x -> x + n <= BROAD_TOP ->
  x + n <= scratch \/ scratch + 4096 <= x -> pmp_grants 0 (prio_entries c0 c1 addrs) k x n = true.
Proof.
  intros Hc0 Hc1 Hn Hx Hh Hd. unfold prio_entries. cbn [pmp_grants]. rewrite !page_range by assumption.
  assert (pmp_range (napot4k scratch) 0x1F PMPADDR2_BROAD = (BROAD_BASE, BROAD_TOP)) as -> by reflexivity.
  assert (grants 0x1F k = true) as -> by now destruct k.
  destruct (Z.ltb_spec x (scratch + 4096)), (Z.ltb_spec scratch (x + n)); try lia; cbn [andb];
    destruct (Z.ltb_spec x BROAD_TOP), (Z.ltb_spec BROAD_BASE (x + n)), (Z.leb_spec BROAD_BASE x), (Z.leb_spec (x + n) BROAD_TOP);
    (reflexivity || lia).
Qed.
End Entries.

(** Writing an address register above unlocked entries. *)
Lemma write_addr_at es1 c p c' p' es2 x : cfg_L c = false -> cfg_L c' = false -> 0 <= x < 2 ^ 54 ->
  write_addr (length es1) x (es1 ++ (c, p) :: (c', p') :: es2) = es1 ++ (c, x) :: (c', p') :: es2.
Proof.
  intros L L' Hx. unfold write_addr, addr_pinned. rewrite list_lookup_middle by reflexivity.
  replace ((es1 ++ (c, p) :: (c', p') :: es2) !! S (length es1)) with (Some (c', p')).
  2: { symmetry. rewrite lookup_app_r by lia. now replace (S (length es1) - length es1)%nat with 1%nat by lia. }
  rewrite L, L'. cbn [orb andb]. rewrite alter_app_r_alt, Nat.sub_diag by lia. cbn [alter list_alter].
  now rewrite Z.mod_small by exact Hx.
Qed.

(** The three address registers, then the configuration of three entries. *)
Lemma write_three `{PmpSpec H} v b0 b1 b2 p0 p1 p2 c0 c1 c2 x0 x1 x2 addrs : length addrs = 5%nat ->
  forallb (fun c => negb (cfg_L c)) [b0; b1; b2] = true ->
  map (cfg_byte v) (seq 0 8) = [c0; c1; c2; 0; 0; 0; 0; 0] -> forallb cfg_legal [c0; c1; c2] = true ->
  0 <= x0 < 2 ^ 54 -> 0 <= x1 < 2 ^ 54 -> 0 <= x2 < 2 ^ 54 ->
  write_cfg warl v
    (write_addr 2 x2 (write_addr 1 x1 (write_addr 0 x0 ((b0, p0) :: (b1, p1) :: (b2, p2) :: entries_off addrs)))) =
  (c0, x0) :: (c1, x1) :: (c2, x2) :: entries_off addrs.
Proof.
  intros Hlen HL Hv Hg R0 R1 R2. do 6 (destruct addrs as [|? addrs]; try discriminate Hlen).
  cbn [forallb] in HL, Hg. rewrite !andb_true_iff, !negb_true_iff in HL. rewrite !andb_true_iff in Hg.
  destruct HL as (L0 & L1 & L2 & _), Hg as (G0 & G1 & G2 & _). cbn [seq map] in Hv. injection Hv as V0 V1 V2 V3 V4 V5 V6 V7.
  cbn [entries_off map].
  match goal with |- context [write_addr 0 x0 (?e0 :: ?e1 :: ?l)] =>
    rewrite (write_addr_at [] b0 p0 b1 p1 l x0 L0 L1 R0 : write_addr 0 x0 (e0 :: e1 :: l) = (b0, x0) :: e1 :: l) end.
  match goal with |- context [write_addr 1 x1 (?e :: ?e0 :: ?e1 :: ?l)] =>
    rewrite (write_addr_at [e] b1 p1 b2 p2 l x1 L1 L2 R1 : write_addr 1 x1 (e :: e0 :: e1 :: l) = e :: (b1, x1) :: e1 :: l) end.
  match goal with |- context [write_addr 2 x2 (?d :: ?e :: ?e0 :: ?e1 :: ?l)] =>
    rewrite (write_addr_at [d; e] b2 p2 0 z l x2 L2 eq_refl R2 :
      write_addr 2 x2 (d :: e :: e0 :: e1 :: l) = d :: e :: (b2, x2) :: e1 :: l) end.
  unfold write_cfg. cbn -[warl cfg_byte cfg_L]. rewrite L0, L1, L2, V0, V1, V2, V3, V4, V5, V6, V7.
  change (cfg_L 0) with false. cbn iota. now rewrite !warl_legal.
Qed.

(** ** The phases *)

(** A static in the window, apart from the page. *)
Definition static_ok (scratch x n : Z) : Prop :=
  BROAD_BASE <= x /\ x + n <= BROAD_TOP /\ (x + n <= scratch \/ scratch + 4096 <= x).
Record pp_layout (a : pp_addrs) : Prop := {
  pl_al : scratch_page a mod 4096 = 0;
  pl_lo : BROAD_BASE <= scratch_page a;
  pl_hi : scratch_page a + 4096 <= BROAD_TOP;
  pl_ctl : static_ok (scratch_page a) (control_byte a) 1;
  pl_sregs : static_ok (scratch_page a) (s_regs_at a) 80;
  pl_pa : static_ok (scratch_page a) (scratch_pa_at a) 8;
  pl_can : static_ok (scratch_page a) (pA_canary_at a) 8;
  pl_pac : static_ok (scratch_page a) (pA_control_at a) 8;
  pl_pbc : static_ok (scratch_page a) (pB_control_at a) 8;
  pl_pbl : static_ok (scratch_page a) (pB_lbu_pc_at a) 8;
  pl_A : BROAD_BASE <= phaseA_at a < BROAD_TOP;
  pl_B : BROAD_BASE <= phaseB_at a < BROAD_TOP;
  pl_cont : phase2_at a <> 0 /\ report_at a <> 0;
  pl_pcs : is_u64 (ecall_at a) /\ is_u64 (lbu_at a);
}.

Section Phases.
Context {U H : Type} `{!UartDev U, !UartSpec U, !UartDrain U, !HartDev H, !PmpDev H, !PmpSpec H, !Sv39Dev H, !PrioDev H, !PrioSpec H}.
Abbreviation vr := (vruns (U:=U) (G:=pp_glob) qv).
Context (a : pp_addrs) (t2 : nat -> Z).
Hypothesis Hlay : pp_layout a.
Hypothesis Hpcs : pc_ok (phaseA_at a) /\ pc_ok (phaseB_at a) /\ pc_ok (phase2_at a) /\ pc_ok (report_at a).
(** What the registers hold at boot, entries 3 to 7. *)
Context (a0 a1 a2 : Z) (addrs : list Z) (d hid ms : Z) (m : Z -> Z).
Hypothesis Hlen : length addrs = 5%nat.
Hypothesis Hbt : 0 <= a0 < 2 ^ 54 /\ 0 <= a1 < 2 ^ 54 /\ 0 <= a2 < 2 ^ 54.
Hypothesis Hd : Z.testbit d 5 = false /\ Z.testbit d 9 = false /\ is_u64 d.
Hypothesis Hctl : m (control_byte a) = 0x5A.

Abbreviation scratch := (scratch_page a).
Definition es_boot : list (Z * Z) := entries_off (a0 :: a1 :: a2 :: addrs).
Definition es_A : list (Z * Z) := prio_entries scratch 0x1B 0x18 addrs.
Definition es_B : list (Z * Z) := prio_entries scratch 0x18 0x1B addrs.
Definition rb_boot : pmp_rb := PmpRb 0 a0 a1 a2.
Definition rb_A : pmp_rb := PmpRb PMPCFG0_PHASEA (napot4k scratch) (napot4k scratch) PMPADDR2_BROAD.
Definition rb_B : pmp_rb := PmpRb PMPCFG0_PHASEB (napot4k scratch) (napot4k scratch) PMPADDR2_BROAD.

Lemma enc_small : 0 <= napot4k scratch < 2 ^ 54.
Proof. pose proof Hlay as []. unfold BROAD_BASE, BROAD_TOP in *. apply napot4k_small; lia. Qed.

Lemma es_writes :
  write_cfg warl PMPCFG0_PHASEA (write_addr 2 PMPADDR2_BROAD (write_addr 1 (napot4k scratch) (write_addr 0 (napot4k scratch) es_boot))) = es_A /\
  write_cfg warl PMPCFG0_PHASEB (write_addr 2 PMPADDR2_BROAD (write_addr 1 (napot4k scratch) (write_addr 0 (napot4k scratch) es_A))) = es_B /\
  write_cfg warl 0 (write_addr 2 a2 (write_addr 1 a1 (write_addr 0 a0 es_B))) = es_boot.
Proof.
  pose proof enc_small as He. destruct Hbt as (H0 & H1 & H2). assert (0 <= PMPADDR2_BROAD < 2 ^ 54) by (unfold PMPADDR2_BROAD; lia).
  unfold es_boot, es_A, es_B, prio_entries. split_and!.
  - now apply (write_three PMPCFG0_PHASEA 0 0 0 a0 a1 a2 0x1B 0x18 0x1F).
  - now apply (write_three PMPCFG0_PHASEB 0x1B 0x18 0x1F).
  - now apply (write_three 0 0x18 0x1B 0x1F (napot4k scratch) (napot4k scratch) PMPADDR2_BROAD 0 0 0).
Qed.

Lemma es_reads : read_cfg es_A = PMPCFG0_PHASEA /\ read_cfg es_B = PMPCFG0_PHASEB /\ read_cfg es_boot = 0.
Proof.
  unfold es_boot, es_A, es_B, prio_entries. rewrite !read_cfg_cons by lia. rewrite !read_cfg_off. now split_and!.
Qed.

(** [mstatus] through the run. *)
Definition ms0 : Z := mie_off ms.
Definition msA : Z := dropped ms0.
Definition ms2 : Z := continued msA.
Definition msB : Z := dropped ms2.
Definition ms3 : Z := continued msB.

Definition mem_A : Z -> Z := st_bytes 1 scratch 0xa5 m.
Definition gM : pp_glob :=
  PPGlob [0; 0; 0; 0; 0; 0; 0; phase2_at a; 0; 0] (replicate 10 0) d rb_boot rb_A rb0 rb0 scratch (napot4k scratch)
    0 0 0 0 0 0 0 0 0 0.
Definition gA : pp_glob :=
  with_m_regs [1; 0x5A; 9; ecall_at a; in_handler msA; 0; t2 0%nat; phase2_at a; 0; 0]
    (with_pA_control 0x5A (with_pA_canary 0xA5 (with_s_regs [0; 0; 0; 0; 0; 0; 0; ecall_at a; 0; 0] gM))).
Definition gB : pp_glob :=
  with_m_regs [1; 0x5A; 9; ecall_at a; in_handler msA; 0; t2 0%nat; report_at a; 0; 0]
    (with_rbB rb_B (with_pA_mstatus (in_handler msA) (with_pA_mepc (ecall_at a) (with_pA_mcause 9 (with_pA_m_traps 1 gA))))).
Definition gC : pp_glob :=
  with_m_regs [2; lbu_at a; 5; lbu_at a; in_handler msB; 0; t2 1%nat; report_at a; scratch; 0]
    (with_pB_lbu_pc (lbu_at a) (with_pB_control 0x5A gB)).

Lemma static_grants c0 c1 k x n : cfg_A c0 = 3 -> cfg_A c1 = 3 -> static_ok scratch x n -> 0 < n ->
  pmp_grants 0 (prio_entries scratch c0 c1 addrs) k x n = true.
Proof. intros H0 H1 (Hx & Hh & Hs) Hn. destruct Hlay. now apply prio_window. Qed.

Lemma ctl_grants c0 c1 : cfg_A c0 = 3 -> cfg_A c1 = 3 ->
  pmp_grants 0 (prio_entries scratch c0 c1 addrs) VLoad (control_byte a) (Z.of_nat 1) = true.
Proof. intros. apply static_grants; [assumption..|apply Hlay|lia]. Qed.

Ltac via := eapply vleads_bind0; [apply qr_via; [reflexivity|apply static_grants; [reflexivity|reflexivity|apply Hlay|lia]]|cbv beta].

Lemma phaseA_leads pc sp :
  vleads qv (smode_phaseA (U:=U) a t2) (phase2_mmode a t2) (QView (PView es_A m hid msA) 0 d pc sp) gM []
    (QView (PView es_A mem_A hid ms2) 0 d (phase2_at a) sp) gA.
Proof.
  destruct Hpcs as (_ & _ & Hp2 & _). destruct Hd as (_ & Hd9 & _). pose proof Hlay as [Hal Hlo Hhi].
  unfold smode_phaseA. via. qstep.
  eapply vleads_bind0; [apply qr_via; [reflexivity|apply static_grants; [reflexivity|reflexivity| |lia]]|cbv beta].
  { destruct (pl_sregs a Hlay) as (? & ? & ?). unfold static_ok. lia. }
  qstep. cbn [scratch_pa gM].
  eapply vleads_bind0; [apply qr_store; [reflexivity|apply prio_first; (reflexivity || (cbn; lia) || assumption)]|].
  eapply vleads_bind0; [apply qr_load; [reflexivity|apply prio_first; (reflexivity || (cbn; lia) || assumption)]|].
  cbn [qp set_qp pv_mem pv_set_mem]. rewrite ld_st_same by (cbn; lia). via. qstep.
  eapply vleads_bind0; [apply qr_load; [reflexivity|now apply ctl_grants]|].
  cbn [qp set_qp pv_mem pv_set_mem]. rewrite ld_st_other by (change (Z.of_nat 1) with 1; destruct (pl_ctl a Hlay) as (? & ? & ?); lia).
  assert (ld_bytes 1 (control_byte a) m = 0x5A) as -> by (cbn [ld_bytes]; rewrite Hctl; reflexivity).
  via. qstep.
  eapply vleads_conv; [eapply trap_leads; [reflexivity|exact Hd9|apply (pl_cont a Hlay)|exact Hp2]|reflexivity..].
Qed.

Lemma phaseB_leads pc sp :
  vleads qv (smode_phaseB (U:=U) a t2) (report_mmode a) (QView (PView es_B mem_A hid msB) 0 d pc sp) gB []
    (QView (PView es_B mem_A hid ms3) 0 d (report_at a) sp) gC.
Proof.
  destruct Hpcs as (_ & _ & _ & Hpr). destruct Hd as (Hd5 & _ & _). pose proof Hlay as [Hal Hlo Hhi].
  unfold smode_phaseB. via. qstep. cbn [scratch_pa].
  eapply vleads_bind0; [apply qr_load; [reflexivity|now apply ctl_grants]|].
  cbn [qp pv_mem]. unfold mem_A. rewrite ld_st_other by (change (Z.of_nat 1) with 1; destruct (pl_ctl a Hlay) as (? & ? & ?); lia).
  assert (ld_bytes 1 (control_byte a) m = 0x5A) as -> by (cbn [ld_bytes]; rewrite Hctl; reflexivity).
  via. qstep. via. qstep.
  intros u h Hv. cbn [w_hw]. rewrite bare_ld by now rewrite Hv. unfold q_access. rewrite Hv. cbn [qp pv_es].
  unfold es_B. change (scratch_pa gB) with scratch. change (Z.of_nat 1) with 1.
  rewrite prio_first by (first [reflexivity | lia | assumption]). change (grants 0x18 VLoad) with false. cbv iota.
  change (access_fault VLoad) with 5. revert u h Hv.
  eapply vleads_conv; [eapply trap_leads; [reflexivity|exact Hd5|apply (pl_cont a Hlay)|exact Hpr]|reflexivity..].
Qed.

Definition rb_text (g0 g1 g2 : string) (r : pmp_rb) : list Z :=
  fmt_hex (rb_cfg r) ++ lit g0 ++ fmt_hex (rb_a0 r) ++ lit g1 ++ fmt_hex (rb_a1 r) ++ lit g2 ++ fmt_hex (rb_a2 r).
Definition rb_ok (r : pmp_rb) : Prop := is_u64 (rb_cfg r) /\ is_u64 (rb_a0 r) /\ is_u64 (rb_a1 r) /\ is_u64 (rb_a2 r).

Lemma put_rb_runs g0 g1 g2 r v g : no_nul (c_lit g0) = true -> no_nul (c_lit g1) = true -> no_nul (c_lit g2) = true ->
  rb_ok r -> vr (put_rb g0 g1 g2 r) v g tt (rb_text g0 g1 g2 r) v g.
Proof.
  intros H0 H1 H2 (R0 & R1 & R2 & R3). unfold put_rb, rb_text. qstep.
  vuse (vruns_prints _ _ _ _ _ (prints_lit g0 H0)). qstep. vuse (vruns_prints _ _ _ _ _ (prints_lit g1 H1)). qstep.
  vuse (vruns_prints _ _ _ _ _ (prints_lit g2 H2)). qstep.
Qed.

Lemma rbs_ok : rb_ok rb_boot /\ rb_ok rb_A /\ rb_ok rb_B.
Proof.
  pose proof enc_small. destruct Hbt as (? & ? & ?). unfold rb_ok, is_u64, rb_boot, rb_A, rb_B. cbn [rb_cfg rb_a0 rb_a1 rb_a2].
  unfold PMPCFG0_PHASEA, PMPCFG0_PHASEB, PMPADDR2_BROAD. lia.
Qed.

Ltac vrb := eapply vleads_bind; [apply put_rb_runs; [reflexivity..|apply rbs_ok]|cbv beta].

Definition line_B : list Z := lit "m-mode: phase-B pmpcfg0=" ++ rb_text " pmpaddr0=" " pmpaddr1=" " pmpaddr2=" rb_B ++ lit "\n".

Lemma phase2_leads sp :
  vleads qv (phase2_mmode (U:=U) a t2) (smode_phaseB a t2) (QView (PView es_A mem_A hid ms2) 0 d (phase2_at a) sp) gA line_B
    (QView (PView es_B mem_A hid msB) 0 d (phase2_at a) (phaseB_at a)) gB.
Proof.
  destruct Hpcs as (_ & HpB & _). destruct es_writes as (_ & Ew & _), es_reads as (_ & Er & _).
  unfold phase2_mmode. eapply vleads_conv.
  - do 9 qstep. eapply vleads_bind0; [apply program_pmp_runs; exact Ew|]. rewrite Er. do 2 qstep.
    eapply vleads_bind; [apply (put_rb_runs _ _ _ rb_B); [reflexivity..|apply rbs_ok]|]. do 2 qstep. apply drop_leads, HpB.
  - unfold line_B. now rewrite ?app_nil_r.
  - reflexivity.
  - reflexivity.
Qed.

Definition main_text : list Z :=
  lit "pmp-priority: PMP entry-priority first-match test\nm-mode: boot medeleg=" ++ fmt_hex d ++
  lit " pmpcfg0=" ++ rb_text " pmpaddr0=" " pmpaddr1=" " pmpaddr2=" rb_boot ++
  lit "\nm-mode: phase-A pmpcfg0=" ++ rb_text " pmpaddr0=" " pmpaddr1=" " pmpaddr2=" rb_A ++
  lit "\nm-mode: satp=0x0 (Bare)\nm-mode: entering S-mode (phase A, entry 0 allows)\n".

Lemma pp_body_leads pc sp :
  vleads qv (pp_body (U:=U) a t2) (smode_phaseA a t2) (QView (PView es_boot m hid ms) 0 d pc sp) pp_boot main_text
    (QView (PView es_A m hid msA) 0 d pc (phaseA_at a)) gM.
Proof.
  destruct Hpcs as (HpA & _). destruct es_writes as (Ew & _ & _), es_reads as (Er & _ & Er0). destruct Hd as (_ & _ & Hdu).
  unfold pp_body. eapply vleads_conv.
  - do 11 qstep. cbn [qp pv_es]. rewrite Er0.
    change (read_addr 0 es_boot) with a0. change (read_addr 1 es_boot) with a1. change (read_addr 2 es_boot) with a2.
    do 6 qstep. eapply vleads_bind; [apply (put_rb_runs _ _ _ rb_boot); [reflexivity..|apply rbs_ok]|]. do 5 qstep.
    eapply vleads_bind0; [apply program_pmp_runs; exact Ew|]. rewrite Er. do 2 qstep.
    eapply vleads_bind; [apply (put_rb_runs _ _ _ rb_A); [reflexivity..|apply rbs_ok]|]. do 2 qstep.
    eapply vleads_bind0; [apply qr_mie_off|]. do 6 qstep. apply drop_leads, HpA.
  - unfold main_text. cbn [boot_medeleg with_boot_medeleg with_boot_pmp q_medeleg q_satp set_qp]. generalize (fmt_hex d). intros.
    repeat match goal with |- context [rb_text ?x ?y ?z ?r] => generalize (rb_text x y z r); intros ? end.
    rewrite <-?app_assoc. vm_compute. reflexivity.
  - reflexivity.
  - reflexivity.
Qed.

(** *** The report *)

(** The globals in the report, after [c] checks. *)
Definition gR (c : Z) : pp_glob :=
  PPGlob [2; lbu_at a; 5; lbu_at a; in_handler msB; 0; t2 1%nat; report_at a; scratch; 0]
    [0; 0; 0; 0; 0; 0; 0; ecall_at a; 0; 0] d rb_boot rb_A rb_B rb_boot scratch (napot4k scratch)
    0xA5 0x5A 0x5A (lbu_at a) 1 9 (ecall_at a) (in_handler msA) (u64 c) 0.

Lemma report_check b msg v c : b = true -> vr (pp_check b msg) v (gR c) tt [] v (gR (c + 1)).
Proof.
  intros Hb. eapply vruns_conv; [now apply qr_check|reflexivity..|]. unfold gR, with_pp_checks.
  cbn [m_regs s_regs boot_medeleg boot_pmp rbA rbB rst scratch_pa napot_enc pA_canary pA_control pB_control pB_lbu_pc
    pA_m_traps pA_mcause pA_mepc pA_mstatus pp_checks pp_fails].
  f_equal. unfold u64. apply Zplus_mod_idemp_l.
Qed.

Ltac rred := cbn [gR m_regs s_regs boot_medeleg boot_pmp rbA rbB rst scratch_pa napot_enc pA_canary pA_control pB_control
  pB_lbu_pc pA_m_traps pA_mcause pA_mepc pA_mstatus pp_checks pp_fails rb_cfg rb_a0 rb_a1 rb_a2 rb_boot rb_A rb_B].
Ltac rstep :=
  lazymatch goal with
  | |- vruns _ (bind (gget _) _) _ _ _ _ _ _ => eapply vruns_bind0; [apply vruns_gget|]; rred
  | |- vruns _ (bind (pp_check _ _) _) _ _ _ _ _ _ => eapply vruns_bind0; [apply report_check; pm_side|]; cbv beta
  | |- vruns _ (pp_check _ _) _ _ _ _ _ _ => apply report_check; pm_side
  | |- vruns _ (bind (put_rb _ _ _ _) _) _ _ _ _ _ _ =>
      eapply vruns_bind; [apply put_rb_runs; [reflexivity..|apply rbs_ok]|]; cbv beta
  | |- _ => qstep
  end.

Definition report_text : list Z :=
  lit "pmp-priority: PMP entry-priority first-match test\nboot: medeleg=" ++ fmt_hex d ++ lit " restored readback=" ++ fmt_hex d ++
  lit "\nboot: pmpcfg0=" ++ rb_text " pmpaddr0=" " pmpaddr1=" " pmpaddr2=" rb_boot ++
  lit "\nrestore: pmpcfg0 readback=" ++ rb_text " pmpaddr0=" " pmpaddr1=" " pmpaddr2=" rb_boot ++
  lit "\nscratch: pa=" ++ fmt_hex scratch ++ lit " napot=" ++ fmt_hex (napot4k scratch) ++ lit " control=" ++ fmt_hex (control_byte a) ++
  lit "\npmpA: cfg0=" ++ rb_text " addr0=" " addr1=" " addr2=" rb_A ++
  lit "\npmpB: cfg0=" ++ rb_text " addr0=" " addr1=" " addr2=" rb_B ++
  lit "\npA: s_traps=0 canary=0xa5 control=0x5a\npA: m_traps=1 mcause=0x9 mepc=" ++ fmt_hex (ecall_at a) ++
  lit " mstatus_mpp=1\npB: m_traps=2 mcause=0x5 mepc=" ++ fmt_hex (lbu_at a) ++ lit " expected=" ++ fmt_hex (lbu_at a) ++
  lit " mtval=" ++ fmt_hex scratch ++ lit " mstatus_mpp=1 control=0x5a s_traps=0\n".

Lemma report_words : is_u64 d /\ is_u64 scratch /\ is_u64 (napot4k scratch) /\ is_u64 (control_byte a) /\
  is_u64 (ecall_at a) /\ is_u64 (lbu_at a).
Proof.
  pose proof enc_small. destruct Hd as (_ & _ & ?), (pl_pcs a Hlay) as [? ?], (pl_ctl a Hlay) as (? & ? & _).
  pose proof (pl_lo a Hlay). pose proof (pl_hi a Hlay). unfold BROAD_BASE, BROAD_TOP in *. split_and!; unfold is_u64 in *; lia.
Qed.

Lemma report_print_runs v c : vr (report_print a d) v (gR c) tt report_text v (gR c).
Proof.
  destruct report_words as (W1 & W2 & W3 & W4 & W5 & W6). unfold report_print. eapply vruns_conv.
  - repeat rstep. change (Z.land (Z.shiftr (in_handler msA) 11) 3) with (mpp_of (in_handler msA)). rewrite handler_from.
    repeat rstep. change (Z.land (Z.shiftr (in_handler msB) 11) 3) with (mpp_of (in_handler msB)). rewrite handler_from.
    repeat rstep.
  - reflexivity.
  - unfold report_text.
    generalize (fmt_hex d) (fmt_hex scratch) (fmt_hex (napot4k scratch)) (fmt_hex (control_byte a)) (fmt_hex (ecall_at a)) (fmt_hex (lbu_at a)).
    repeat match goal with |- context [rb_text ?x ?y ?z ?r] => generalize (rb_text x y z r); intros ? end.
    intros. rewrite <-?app_assoc. vm_compute. reflexivity.
  - reflexivity.
  - reflexivity.
Qed.

Lemma check_restored_runs v c : vr (check_restored d) v (gR c) tt [] v (gR (c + 5)).
Proof. unfold check_restored. eapply vruns_conv; [repeat rstep|reflexivity..|f_equal; lia]. Qed.

Lemma check_configA_runs v c : vr (check_configA a) v (gR c) tt [] v (gR (c + 10)).
Proof.
  pose proof (aligned_land scratch (pl_al a Hlay)) as Eal. pose proof (pl_lo a Hlay) as Hlo. pose proof (pl_hi a Hlay) as Hhi.
  destruct (pl_ctl a Hlay) as (_ & Hch & Hcs). pose proof (pl_A a Hlay) as HA. pose proof (pl_B a Hlay) as HB.
  unfold BROAD_BASE, BROAD_TOP in *.
  assert (u64 (scratch + PAGE_SIZE) = scratch + 4096) as Eu by (apply u64_small; unfold is_u64, PAGE_SIZE; lia).
  unfold check_configA. eapply vruns_conv.
  - do 3 rstep. change (PAGE_SIZE - 1) with 0xFFF. rewrite Eal, Eu.
    change (Z.lor (Z.shiftr scratch 2) NAPOT_4K_MASK) with (napot4k scratch).
    assert (in_broad_window (phaseA_at a) = true) as -> by (unfold in_broad_window, BROAD_BASE, BROAD_TOP; lia).
    assert (in_broad_window (phaseB_at a) = true) as -> by (unfold in_broad_window, BROAD_BASE, BROAD_TOP; lia).
    assert ((BROAD_BASE <=? scratch) && (scratch + 4096 <=? BROAD_TOP) = true) as -> by (unfold BROAD_BASE, BROAD_TOP; lia).
    assert ((control_byte a <? scratch) || (scratch + 4096 <=? control_byte a) = true) as -> by lia.
    repeat rstep.
  - reflexivity.
  - reflexivity.
  - reflexivity.
  - f_equal. lia.
Qed.

Lemma check_behaviorA_runs v c : vr check_behaviorA v (gR c) tt [] v (gR (c + 6)).
Proof.
  unfold check_behaviorA. eapply vruns_conv.
  - do 11 rstep. change (Z.land (Z.shiftr (in_handler msA) 11) 3) with (mpp_of (in_handler msA)). rewrite handler_from. rstep.
  - reflexivity.
  - reflexivity.
  - reflexivity.
  - f_equal. lia.
Qed.

Lemma check_configB_runs v c : vr check_configB v (gR c) tt [] v (gR (c + 4)).
Proof. unfold check_configB. eapply vruns_conv; [repeat rstep|reflexivity..|f_equal; lia]. Qed.

Lemma check_behaviorB_runs v c : vr check_behaviorB v (gR c) tt [] v (gR (c + 7)).
Proof.
  unfold check_behaviorB. eapply vruns_conv.
  - do 13 rstep. change (Z.land (Z.shiftr (in_handler msB) 11) 3) with (mpp_of (in_handler msB)). rewrite handler_from.
    repeat rstep.
  - reflexivity.
  - reflexivity.
  - reflexivity.
  - f_equal. lia.
Qed.

Lemma spin_runs l n v g : exists n', vr (for_acc (A:=nat) l n (fun _ spins => ret (spins + 1))) v g n' [] v g.
Proof.
  revert n. induction l as [|x l IH]; intros n; [exists n; apply vruns_ret|]. cbn [for_acc].
  destruct (IH (n + 1)) as [n' Hn]. exists n'. eapply vruns_bind0; [apply vruns_ret|exact Hn].
Qed.

Lemma pp_quiet_runs v c : vr pp_quiet v (gR c) tt (lit "quiet: m_traps=2 s_traps=0\n") v (gR (c + 1)).
Proof.
  unfold pp_quiet. destruct (spin_runs (seq 0 QUIET_SPINS) 0 v (gR c)) as [n Hn].
  eapply vruns_conv; [eapply vruns_bind0; [exact Hn|]; repeat rstep|reflexivity|vm_compute; reflexivity|reflexivity..].
Qed.

Lemma fold_u64 (f : Z -> Z -> Z) l c : (forall c v, is_u64 (f c v)) -> is_u64 c -> is_u64 (fold_left f l c).
Proof. intros Hf. revert c. induction l as [|x l IH]; intros c Hc; [exact Hc|]. cbn [fold_left]. apply IH, Hf. Qed.
Lemma pp_hash_u64 l : is_u64 (pp_hash l).
Proof. apply fold_u64; [exact fnv_word_u64|u64c]. Qed.

(** The values a passing run measures. *)
Definition pp_measured : list Z :=
  [PMPCFG0_PHASEA; napot4k scratch; napot4k scratch; PMPADDR2_BROAD;
   PMPCFG0_PHASEB; napot4k scratch; napot4k scratch; PMPADDR2_BROAD;
   scratch; napot4k scratch; 0; 0xA5; 0x5A; 1; 9; ecall_at a; 0x5A; 2; 5; lbu_at a; scratch].

Lemma pp_checksum_runs v c :
  vr pp_checksum v (gR c) tt (lit "checksum=" ++ fmt_hex (pp_hash pp_measured) ++ lit "\n") v (gR c).
Proof.
  pose proof pp_hash_u64 as Hu. unfold pp_checksum, pp_measured. revert Hu. generalize pp_hash. intros hash Hu.
  do 5 rstep. eapply vruns_bind0; [apply vruns_gget|]. cbv beta. unfold pp_vals. rred.
  pose proof (Hu (pp_measured)) as Hm. unfold pp_measured in Hm. repeat rstep.
Qed.

Definition tail_text : list Z :=
  lit "quiet: m_traps=2 s_traps=0\nchecksum=" ++ fmt_hex (pp_hash pp_measured) ++ lit "\n".

Lemma report_body_runs pc sp :
  vr (report_body a) (QView (PView es_B mem_A hid ms3) 0 d pc sp) gC tt (report_text ++ tail_text)
     (QView (PView es_boot mem_A hid ms3) 0 d pc sp) (gR 33).
Proof.
  destruct es_writes as (_ & _ & Ew), es_reads as (_ & _ & Er). unfold report_body, tail_text. eapply vruns_conv.
  - eapply vruns_bind0; [apply vruns_gget|]. change (boot_pmp gC) with rb_boot. cbn [rb_cfg rb_a0 rb_a1 rb_a2 rb_boot].
    eapply vruns_bind0; [apply program_pmp_runs; exact Ew|]. rewrite Er.
    change (read_addr 0 es_boot) with a0. change (read_addr 1 es_boot) with a1. change (read_addr 2 es_boot) with a2.
    change (with_rst (PmpRb 0 a0 a1 a2) gC) with (gR 0). rstep.
    eapply vruns_bind0; [apply qr_set_medeleg; now intros|]. rstep. cbn [q_medeleg].
    vuse report_print_runs. vquietly check_restored_runs. vquietly check_configA_runs. vquietly check_behaviorA_runs.
    vquietly check_configB_runs. vquietly check_behaviorB_runs. vuse pp_quiet_runs. apply pp_checksum_runs.
  - reflexivity.
  - generalize report_text (fmt_hex (pp_hash pp_measured)). intros. rewrite <-?app_assoc. vm_compute. reflexivity.
  - reflexivity.
  - reflexivity.
Qed.

Definition pp_log : list Z :=
  main_text ++ line_B ++ (report_text ++ tail_text) ++ lit "RESULT: PASS (checks=33)\n".

Lemma pp_log_bytes : Forall (fun c => 0 <= c < 256) pp_log.
Proof. unfold pp_log, main_text, line_B, report_text, tail_text, rb_text. text_bytes. Qed.

Lemma result_runs v : vr (uputs "RESULT: PASS (checks=" ;; c <- gget pp_checks ;; uart_put_dec c ;; uputs ")\n") v (gR 33) tt
  (lit "RESULT: PASS (checks=33)\n") v (gR 33).
Proof. eapply vruns_conv; [repeat rstep|reflexivity|vm_compute; reflexivity|reflexivity..]. Qed.

Lemma pp_reaches_report pc sp :
  vleads qv (pp_body (U:=U) a t2) (report_mmode a) (QView (PView es_boot m hid ms) 0 d pc sp) pp_boot (main_text ++ line_B)
    (QView (PView es_B mem_A hid ms3) 0 d (report_at a) (phaseB_at a)) gC.
Proof.
  pose proof (vleads_trans _ _ _ _ _ _ _ _ _ _ _ _ (phase2_leads (phaseA_at a)) (phaseB_leads (phase2_at a) (phaseB_at a))) as T.
  rewrite app_nil_r in T.
  pose proof (vleads_trans _ _ _ _ _ _ _ _ _ _ _ _ (phaseA_leads pc (phaseA_at a)) T) as T2. rewrite app_nil_l in T2.
  exact (vleads_trans _ _ _ _ _ _ _ _ _ _ _ _ (pp_body_leads pc sp) T2).
Qed.

#[local] Strategy expand [report_mmode pp_log].

(** [report_mmode] has the shape [finish_parks] runs. *)
Lemma report_mmode_shape : exists bad, report_mmode (U:=U) a =
  (report_body a ;; uart_wait LSR_TEMT ;; n <- gget pp_fails ;;
   if n =? 0 then
     (uputs "RESULT: PASS (checks=" ;; c <- gget pp_checks ;; uart_put_dec c ;; uputs ")\n") ;;
     uart_wait LSR_TEMT ;; finisher_write ;; park
   else bad).
Proof. eexists. reflexivity. Qed.

(** The verdict, from a report that found nothing wrong. *)
Lemma verdict_parks u h pc sp : qv h = QView (PView es_B mem_A hid ms3) 0 d pc sp ->
  exists u' h', report_mmode a (World u h gC) = Park (World u' h' (gR 33)) /\
    tx u' = tx u ++ crlf ((report_text ++ tail_text) ++ lit "RESULT: PASS (checks=33)\n") /\ rx u' = rx u /\
    qv h' = set_qp (pv_set_mem (st_bytes 4 VIRT_TEST_FINISHER FINISHER_PASS mem_A) (PView es_boot mem_A hid ms3))
              (QView (PView es_boot mem_A hid ms3) 0 d pc sp).
Proof.
  intros Hv. pose proof pp_log_bytes as Hb. unfold pp_log in Hb. rewrite 3!Forall_app in Hb. destruct Hb as (_ & _ & Hb1 & Hb2).
  destruct report_mmode_shape as [bad ->].
  pose proof (fun E => finish_parks _ _ bad _ _ _ _ _ _ u h (report_body_runs pc sp) (result_runs _) E) as F.
  assert (E : pp_fails (gR 33) = 0) by reflexivity. specialize (F E).
  cbn [qp pv_es pv_mem] in F. apply F; [|exact Hb1|exact Hb2|exact Hv].
  apply off_allows; [apply entries_off_off|unfold VIRT_TEST_FINISHER; lia].
Qed.

(** C35: The lowest-numbered matching PMP entry decides.  With the allowing
    entry first S-mode writes and reads back the page and returns by [ecall];
    with the two entries swapped the same load is refused, cause 5, [mepc] on
    the load and [mtval] on the page, while the control byte outside the page
    is readable both times.  The whole run, through both drops to S-mode and
    both traps back, prints this log with 33 checks and none failed on every
    hart with PMP and S-mode, leaves the PMP registers and [medeleg] as found
    and writes the finisher. *)
Theorem pp_main_passes pc sp :
  vmain_sends (U:=U) qv (pp_main a t2) (QView (PView es_boot m hid ms) 0 d pc sp) pp_boot pp_log
    (fun v g => pp_fails g = 0 /\ pp_checks g = 33 /\ pv_es (qp v) = es_boot /\ q_medeleg v = d /\
       pv_mem (qp v) scratch = 0xA5 /\ ld_bytes 4 VIRT_TEST_FINISHER (pv_mem (qp v)) = FINISHER_PASS).
Proof.
  intros u h Hv. unfold pp_main. rewrite (bind_ret_eq _ _ _ _ _ (uart_init_eq _)). unfold set_uart. cbn [w_uart w_hw w_glob].
  destruct (pp_reaches_report pc sp (inited u) h Hv) as (h1 & E1 & Hv1). rewrite E1.
  destruct (verdict_parks (emits (main_text ++ line_B) (inited u)) h1 _ _ Hv1) as (u' & h' & E & Ht & Hr & Hv').
  exists u', h', (gR 33). rewrite Hv'. pose proof pp_log_bytes as Hb. unfold pp_log in Hb. rewrite app_assoc in Hb.
  apply Forall_app in Hb as [Hb _]. rewrite emits_tx in Ht by exact Hb. rewrite emits_rx, inited_rx in Hr. rewrite inited_tx in Ht.
  split; [exact E|]. split; [rewrite Ht; unfold pp_log; now rewrite <-app_assoc, <-crlf_app, <-app_assoc|].
  split; [exact Hr|]. cbn [pp_fails pp_checks gR qp pv_es pv_mem q_medeleg set_qp pv_set_mem]. split_and!; try reflexivity.
  pose proof (pl_lo a Hlay). rewrite st_bytes_other by (unfold VIRT_TEST_FINISHER, BROAD_BASE in *; change (Z.of_nat 4) with 4; lia).
  unfold mem_A. cbn [st_bytes]. unfold upd. now rewrite Z.eqb_refl.
Qed.
End Phases.

(** ** The reference hart *)

Definition ref_qview (h : RefHart) : qview :=
  QView (rh_view h) (ref_csr "satp" h) (ref_csr "medeleg" h) (ref_csr "mepc" h) (ref_csr "sepc" h).

#[export] Instance RefHart_prio : PrioDev RefHart := {
  q_trap from pc h := csr_wr "mepc" pc (p_trap from h);
  q_mret h := p_mret h;
  q_sret h := RefH (pv_set_mstatus (sret_status (pv_mstatus (rh_view h))) (rh_view h)) (rh_csrs h);
}.

Lemma ref_bare k a n h : ref_csr "satp" h = 0 -> s_access (ref_sview h) k a n = q_access (ref_qview h) k a n.
Proof. intros Hs. unfold s_access, ref_sview. cbn [v_satp vp]. now rewrite Hs. Qed.

Lemma sst_spp x : Z.lor (Z.land x (Z.lnot SST_FIELDS)) (Z.land (Z.lor (Z.land x SST_FIELDS) MST_SPP) SST_FIELDS) = Z.lor x MST_SPP.
Proof.
  replace (Z.land (Z.lor (Z.land x SST_FIELDS) MST_SPP) SST_FIELDS) with (Z.lor (Z.land x SST_FIELDS) MST_SPP).
  - apply Z.bits_inj'. intros i Hi. rewrite !Z.lor_spec, !Z.land_spec, Z.lnot_spec by exact Hi.
    now destruct (Z.testbit x i), (Z.testbit SST_FIELDS i), (Z.testbit MST_SPP i).
  - rewrite Z.land_lor_distr_l, <-Z.land_assoc, Z.land_diag. now change (Z.land MST_SPP SST_FIELDS) with MST_SPP.
Qed.

Lemma ref_csr_same c x h : c ∈ ["satp"; "medeleg"; "mepc"; "sepc"]%string -> ref_csr c (csr_wr c x h) = x.
Proof.
  intros Hc. unfold ref_csr. repeat (apply elem_of_cons in Hc as [->|Hc];
    [cbn; now rewrite alookup_aupdate by apply String.eqb_eq|]). now apply elem_of_nil in Hc.
Qed.

Lemma ref_qview_wr c x h : c ∉ ["satp"; "medeleg"; "mepc"; "sepc"]%string ->
  ref_qview (csr_wr c x h) = set_qp (rh_view (csr_wr c x h)) (ref_qview h).
Proof.
  intros Hc. rewrite !elem_of_cons in Hc. unfold ref_qview, set_qp. cbn [q_satp q_medeleg q_mepc q_sepc].
  f_equal; apply ref_csr_other; intuition congruence.
Qed.

#[export] Instance RefHart_priospec : PrioSpec RefHart.
Proof.
  refine {| qv := ref_qview; medeleg_ok _ := True; pc_ok _ := True; sst_mask := SST_FIELDS |}; try (now intros).
  - intros k a n h Hs. now apply ref_bare.
  - intros n a h Hs. cbn [s_ld RefHart_sv39]. now rewrite (ref_bare VLoad a (Z.of_nat n) h Hs).
  - intros n a x h Hs. cbn [s_st RefHart_sv39]. rewrite (ref_bare VStore a (Z.of_nat n) h Hs).
    destruct (q_access (ref_qview h) VStore a (Z.of_nat n)); [reflexivity|]. now eexists.
  - intros n a x h h'. cbn [p_st RefHart_pmp]. case_match; [|discriminate]. now intros [= <-].
  - intros c x h Hc. now apply ref_qview_wr.
  - intros c x h Hc. repeat (apply elem_of_cons in Hc as [->|Hc]; [reflexivity|]). now apply elem_of_nil in Hc.
  - intros x h _. unfold ref_qview. rewrite ref_csr_same by in_list. rewrite !ref_csr_other by discriminate. reflexivity.
  - intros x h _. unfold ref_qview. rewrite ref_csr_same by in_list. rewrite !ref_csr_other by discriminate. reflexivity.
  - intros x h _. unfold ref_qview. rewrite ref_csr_same by in_list. rewrite !ref_csr_other by discriminate. reflexivity.
  - intros h. cbn -[SST_FIELDS Z.lnot Z.land Z.lor]. now rewrite sst_spp.
  - intros from pc h. cbn [q_trap RefHart_prio]. unfold ref_qview. rewrite ref_csr_same by in_list. rewrite !ref_csr_other by discriminate. reflexivity.
Defined.

(** ** The theorem at work *)

Definition demo_prio : pp_addrs :=
  PPAddrs 0x80002000 0x80003000 0x80003040 0x80003100 0x80003200 0x80003208 0x80003210 0x80003218 0x80003220
    0x80000100 0x80000200 0x80000300 0x80000400 0x80000500 0x80000600 0x80000340 0x80000440.

Lemma demo_prio_ok : pp_layout demo_prio.
Proof. constructor; unfold static_ok; vm_compute; intuition congruence. Qed.

(** Zero but for the control byte. *)
Definition demo_prio_mem (x : Z) : Z := if x =? 0x80003000 then 0x5A else 0.

Lemma pp_main_passes_witness :
  vmain_sends (U:=LogUart) (H:=RefHart) qv (pp_main demo_prio (fun _ => 7))
    (QView (PView (entries_off (replicate 8 0)) demo_prio_mem 0 0) 0 0 0 0) pp_boot
    (pp_log demo_prio 0 0 0 0) (fun v g => pp_fails g = 0 /\ pp_checks g = 33).
Proof.
  intros u h Hv.
  destruct (pp_main_passes (U:=LogUart) (H:=RefHart) demo_prio (fun _ => 7) demo_prio_ok ltac:(now split_and!)
    0 0 0 (replicate 5 0) 0 0 0 demo_prio_mem eq_refl ltac:(lia) ltac:(split_and!; [reflexivity..|u64c]) eq_refl 0 0 u h Hv)
    as (u' & h' & g' & E & Ht & Hr & Hf & Hc & _).
  exists u', h', g'. auto.
Defined.
