(* ===== verification/Atomics.v ===== *)
(** * The atomics experiments

    src/lrsc-histogram/, src/sc-fail/, src/lrsc-store-invalidate/ and
    src/amo-add-atomicity/: one hart, M-mode, aligned words.  The hart is a
    class ([AtomDev]) with what the A extension promises as laws
    ([AtomSpec]): a reservation set registered by [lr.w] whose extent is the
    hart's choice, an [sc.w] that ends it and writes only when it reports
    success, spurious failures that end after finitely many attempts, and
    [amoadd.w].  No instruction of these programs traps on such a hart, so
    the trap entries (lrsc_trap.S and its copies) stay unused. *)

From Stdlib Require Import ZArith Lia String.
From stdpp Require Import base list.
From S2P Require Import Prelude Uart Hart Run View Pmp PmpEdge.

(** ** A hart with the A extension *)

(** Plain accesses of some bytes, [lr.w] (the loaded word is dead in these
    programs), [sc.w] with its result, [amoadd.w] with the register it
    returns. *)
Class AtomDev (H : Type) `{!HartDev H} : Type := {
  a_ld : nat -> Z -> H -> Z;
  a_st : nat -> Z -> Z -> H -> H;
  lr_w : Z -> H -> H;
  sc_w : Z -> Z -> H -> Z * H;
  amoadd : Z -> Z -> H -> Z * H;
  atom_fuel : nat;
}.

Class AtomSpec (H : Type) `{!HartDev H, !AtomDev H} : Type := {
  a_mem : H -> Z -> Z;
  (** the word at an address is in the reservation set *)
  a_res : H -> Z -> bool;
  (** how many more attempts may fail in a row *)
  patience : H -> nat;
  patience_bound h : (patience h <= atom_fuel)%nat;
  atom_fuel_small : Z.of_nat atom_fuel + 1 < 2 ^ 64;
  a_ld_spec n a h : a_ld n a h = ld_bytes n a (a_mem h);
  a_st_spec n a x h : a_mem (a_st n a x h) = st_bytes n a x (a_mem h);
  a_st_res n a x h y : a_res (a_st n a x h) y = true -> a_res h y = true;
  lr_spec a h : a_mem (lr_w a h) = a_mem h /\ a_res (lr_w a h) a = true /\
    (patience (lr_w a h) <= patience h)%nat;
  sc_u64 a x h : is_u64 (sc_w a x h).1;
  sc_ends a x h y : a_res (sc_w a x h).2 y = false;
  sc_success a x h : (sc_w a x h).1 = 0 ->
    a_res h a = true /\ a_mem (sc_w a x h).2 = st_bytes 4 a x (a_mem h);
  sc_failure a x h : (sc_w a x h).1 <> 0 ->
    a_mem (sc_w a x h).2 = a_mem h /\ (a_res h a = true -> (patience (sc_w a x h).2 < patience h)%nat);
  amoadd_spec a x h :
    (amoadd a x h).1 = sext32 (ld_bytes 4 a (a_mem h)) /\
    a_mem (amoadd a x h).2 = st_bytes 4 a (u32 (ld_bytes 4 a (a_mem h) + x)) (a_mem h);
  (** CSR accesses touch neither memory nor make a reservation *)
  a_csr_u64 c h : is_u64 (csr_rd c h).1;
  a_csr_rd c h : a_mem (csr_rd c h).2 = a_mem h /\ forall y, a_res (csr_rd c h).2 y = true -> a_res h y = true;
  a_csr_wr c x h : a_mem (csr_wr c x h) = a_mem h /\ forall y, a_res (csr_wr c x h) y = true -> a_res h y = true;
}.

(** ** The programs *)

Definition NITERS : nat := Z.to_nat 10000.
Definition NBINS : Z := 64.

Record at_glob : Type := AtGlob {
  at_save : list Z; at_fails : Z; at_checks : Z; at_mismatches : Z; hist : list Z; overflow : Z }.

Definition with_fails (x : Z) (g : at_glob) : at_glob :=
  AtGlob (at_save g) x (at_checks g) (at_mismatches g) (hist g) (overflow g).
Definition with_checks (x : Z) (g : at_glob) : at_glob :=
  AtGlob (at_save g) (at_fails g) x (at_mismatches g) (hist g) (overflow g).
Definition with_mismatches (x : Z) (g : at_glob) : at_glob :=
  AtGlob (at_save g) (at_fails g) (at_checks g) x (hist g) (overflow g).
Definition with_hist (x : list Z) (g : at_glob) : at_glob :=
  AtGlob (at_save g) (at_fails g) (at_checks g) (at_mismatches g) x (overflow g).
Definition with_overflow (x : Z) (g : at_glob) : at_glob :=
  AtGlob (at_save g) (at_fails g) (at_checks g) (at_mismatches g) (hist g) x.

(** BSS is zero at boot. *)
Definition at_boot : at_glob := AtGlob (replicate 4 0) 0 0 0 (replicate 64 0) 0.

Section Program.
Context {U H : Type} `{!UartDev U, !HartDev H, !AtomDev H}.
Abbreviation W := (world U H at_glob).
(** The trap entry, the save area, the cells. *)
Context (trap_entry save_addr cell cell_b : Z).

(** Volatile loads and stores of a C object. *)
Definition vol_ld (n : nat) (a : Z) : prog W Z := hw_read (fun h => (a_ld n a h, h)).
Definition vol_st (n : nat) (a x : Z) : prog W unit := hw_write (a_st n a x).

Definition acheck (cond : bool) (msg : string) : prog W unit :=
  when (negb cond)
    (uputs "  FAIL: " ;; uputs msg ;; uputs "\n" ;;
     n <- gget at_fails ;; gset_ (with_fails (n + 1))).

Definition save_word (i : nat) : prog W Z := s <- gget at_save ;; arr_get s i.

(** What the handler would have recorded. *)
Definition trap_line : prog W unit :=
  n <- save_word 3 ;;
  when (negb (n =? 0))
    (uputs "  trap mcause=" ;; x <- save_word 0 ;; uart_put_hex x ;;
     uputs " mepc=" ;; x <- save_word 1 ;; uart_put_hex x ;;
     uputs " mtval=" ;; x <- save_word 2 ;; uart_put_hex x ;;
     uputs "\n").

Definition at_verdict : prog W unit :=
  n <- gget at_fails ;;
  (if n =? 0 then uputs "RESULT: PASS\n"
   else uputs "RESULT: FAIL (" ;; uart_put_dec (u64 n) ;; uputs " checks failed)\n") ;;
  uputs "done\n" ;;
  park.

(** ** lrsc_main.c *)

(** The retry loop, with fuel. *)
Fixpoint lrsc_loop (fuel : nat) (val attempts : Z) : prog W Z :=
  match fuel with
  | O => nofuel
  | S fuel =>
      hw_write (lr_w cell) ;;
      sc <- hw_read (sc_w cell val) ;;
      let attempts := u64 (attempts + 1) in
      if sc =? 0 then ret attempts else lrsc_loop fuel val attempts
  end.

Definition lrsc_store (val : Z) : prog W Z := lrsc_loop (S atom_fuel) val 0.

Definition count_attempts (att : Z) : prog W unit :=
  if att <=? NBINS then
    l <- gget hist ;; x <- arr_get l (Z.to_nat (u64 (att - 1))) ;;
    l <- arr_set l (Z.to_nat (u64 (att - 1))) (u64 (x + 1)) ;; gset_ (with_hist l)
  else x <- gget overflow ;; gset_ (with_overflow (u64 (x + 1))).

Definition lrsc_iter (i : nat) (st : Z * Z) : prog W (Z * Z) :=
  let '(max_att, value_errors) := st in
  att <- lrsc_store (u32 (Z.of_nat i)) ;;
  count_attempts att ;;
  let max_att := if max_att <? att then att else max_att in
  rb <- vol_ld 4 cell ;;
  ret (max_att, if rb =? u32 (Z.of_nat i) then value_errors else u64 (value_errors + 1)).

Definition hist_line (i : nat) (sum : Z) : prog W Z :=
  l <- gget hist ;; x <- arr_get l i ;;
  when (negb (x =? 0))
    (uputs "  attempts=" ;; uart_put_dec (u64 (Z.of_nat i + 1)) ;;
     uputs " count=" ;; uart_put_dec x ;; uputs "\n") ;;
  ret (u64 (sum + x)).

Definition lrsc_body : prog W unit :=
  uputs "lrsc-histogram: 10000 aligned lr.w/sc.w pairs, single hart\n" ;;
  uputs "hart mhartid=" ;; hid <- csrr "mhartid" ;; uart_put_dec hid ;; uputs "\n" ;;
  csrw "mtvec" trap_entry ;;
  csrw "mscratch" save_addr ;;
  uputs "trap vector installed at " ;; uart_put_hex trap_entry ;;
  uputs " (halts the hart on any trap)\n" ;;
  vol_st 4 cell 0xDEADBEEF ;;
  st <- for_acc (seq 0 NITERS) (0, 0) lrsc_iter ;;
  let '(max_att, value_errors) := st in
  uputs "attempts-to-success histogram:\n" ;;
  sum <- for_acc (seq 0 (Z.to_nat NBINS)) 0 hist_line ;;
  o <- gget overflow ;;
  when (negb (o =? 0)) (uputs "  attempts>64 count=" ;; uart_put_dec o ;; uputs "\n") ;;
  let sum := u64 (sum + o) in
  uputs "iterations=" ;; uart_put_dec (Z.of_nat NITERS) ;;
  uputs " histogram-sum=" ;; uart_put_dec sum ;;
  uputs " max-attempts=" ;; uart_put_dec max_att ;;
  uputs " value-errors=" ;; uart_put_dec value_errors ;;
  uputs "\n" ;;
  acheck (sum =? Z.of_nat NITERS) "histogram does not account for all iterations" ;;
  acheck (value_errors =? 0) "stored value readback mismatch" ;;
  n <- save_word 3 ;;
  acheck (n =? 0) "unexpected trap fired during the run" ;;
  trap_line ;;
  at_verdict.

Definition lrsc_main : prog W unit := uart_init ;; lrsc_body.

(** ** scf_main.c *)

Definition sc_no_lr (addr val : Z) : prog W Z := hw_read (sc_w addr val).

Definition lr_then_sc_other (addr_lr addr_sc val : Z) : prog W Z :=
  hw_write (lr_w addr_lr) ;; hw_read (sc_w addr_sc val).

Definition lr_then_sc_same (addr val : Z) : prog W Z :=
  hw_write (lr_w addr) ;; hw_read (sc_w addr val).

Definition scf_test_a : prog W unit :=
  before_a <- vol_ld 4 cell ;;
  rd_a <- sc_no_lr cell 0x12345678 ;;
  after_a <- vol_ld 4 cell ;;
  uputs "test(a) sc.w with no lr.w:\n" ;;
  uputs "  before=" ;; uart_put_hex before_a ;;
  uputs " rd=" ;; uart_put_dec rd_a ;;
  uputs " after=" ;; uart_put_hex after_a ;; uputs "\n" ;;
  acheck (negb (rd_a =? 0)) "test(a): sc without lr reported success (rd == 0)" ;;
  acheck (after_a =? before_a) "test(a): memory word changed".

Definition scf_test_b : prog W unit :=
  before_a <- vol_ld 4 cell ;;
  before_b <- vol_ld 4 cell_b ;;
  rd_b <- lr_then_sc_other cell cell_b 0x9ABCDEF0 ;;
  after_a <- vol_ld 4 cell ;;
  after_b <- vol_ld 4 cell_b ;;
  uputs "test(b) lr.w on A, sc.w on B (different address):\n" ;;
  uputs "  before_a=" ;; uart_put_hex before_a ;;
  uputs " before_b=" ;; uart_put_hex before_b ;;
  uputs "\n  rd=" ;; uart_put_dec rd_b ;;
  uputs " after_a=" ;; uart_put_hex after_a ;;
  uputs " after_b=" ;; uart_put_hex after_b ;; uputs "\n" ;;
  acheck (negb (rd_b =? 0)) "test(b): sc on wrong address reported success" ;;
  acheck (after_a =? before_a) "test(b): cell_a changed" ;;
  acheck (after_b =? before_b) "test(b): cell_b changed".

Definition scf_test_c : prog W unit :=
  rd_c <- lr_then_sc_same cell 0x12345678 ;;
  after_a <- vol_ld 4 cell ;;
  uputs "test(c) control: lr.w then sc.w on same cell:\n" ;;
  uputs "  rd=" ;; uart_put_dec rd_c ;;
  uputs " after_a=" ;; uart_put_hex after_a ;; uputs "\n" ;;
  acheck (rd_c =? 0) "test(c): control pair did not report success" ;;
  acheck (after_a =? 0x12345678) "test(c): control store not visible".

(** The banner and the trap vector of [scf_main.c] and [lsi_main.c]. *)
Definition at_setup (banner : string) : prog W unit :=
  uputs banner ;;
  uputs "hart mhartid=" ;; hid <- csrr "mhartid" ;; uart_put_dec hid ;; uputs "\n" ;;
  csrw "mtvec" trap_entry ;;
  csrw "mscratch" save_addr ;;
  uputs "trap vector installed (halts the hart on any trap)\n".

Definition scf_body : prog W unit :=
  at_setup "sc-fail: store-conditional failure-path experiment\n" ;;
  vol_st 4 cell 0xAAAAAAAA ;;
  vol_st 4 cell_b 0xBBBBBBBB ;;
  scf_test_a ;;
  scf_test_b ;;
  scf_test_c ;;
  uputs "trap seen-flag=" ;; n <- save_word 3 ;; uart_put_dec n ;; uputs "\n" ;;
  n <- save_word 3 ;;
  acheck (n =? 0) "unexpected trap fired during the run" ;;
  trap_line ;;
  at_verdict.

Definition scf_main : prog W unit := uart_init ;; scf_body.

(** ** lsi_main.c *)

Definition A_INIT : Z := 0xAAAA0000.
Definition A_SW : Z := 0xBBBB1111.
Definition A_SC : Z := 0xCCCC2222.
Definition B_INIT : Z := 0xDDDD3333.
Definition B_SC : Z := 0xEEEE4444.

Definition lsi_check (cond : bool) (msg : string) : prog W unit :=
  n <- gget at_checks ;; gset_ (with_checks (n + 1)) ;; acheck cond msg.

Definition lr_sw_sc (addr sw_val sc_val : Z) : prog W Z :=
  hw_write (lr_w addr) ;; vol_st 4 addr sw_val ;; hw_read (sc_w addr sc_val).

Definition lr_sc (addr sc_val : Z) : prog W Z := hw_write (lr_w addr) ;; hw_read (sc_w addr sc_val).

(** FNV-1a over four 64-bit values. *)
Definition lsi_fnv1a (a b c d : Z) : Z := fold_left fnv_word [a; b; c; d] 0xcbf29ce484222325.

Definition lsi_test_a : prog W (Z * Z) :=
  before_a <- vol_ld 4 cell ;;
  rd_a <- lr_sw_sc cell A_SW A_SC ;;
  after_a <- vol_ld 4 cell ;;
  uputs "test(a) lr.w; sw; sc.w on A (same address):\n" ;;
  uputs "  before_a=" ;; uart_put_hex before_a ;;
  uputs " rd_a=" ;; uart_put_dec rd_a ;;
  uputs " after_a=" ;; uart_put_hex after_a ;; uputs "\n" ;;
  lsi_check (negb (rd_a =? 0)) "test(a): sc after an intervening store reported success" ;;
  lsi_check (after_a =? A_SW) "test(a): intervening sw not visible in memory" ;;
  lsi_check (negb (after_a =? A_SC)) "test(a): failed sc wrote its value anyway" ;;
  ret (rd_a, after_a).

Definition lsi_test_b : prog W (Z * Z) :=
  before_b <- vol_ld 4 cell_b ;;
  rd_b <- lr_sc cell_b B_SC ;;
  after_b <- vol_ld 4 cell_b ;;
  uputs "test(b) control: lr.w; sc.w on B (no intervening store):\n" ;;
  uputs "  before_b=" ;; uart_put_hex before_b ;;
  uputs " rd_b=" ;; uart_put_dec rd_b ;;
  uputs " after_b=" ;; uart_put_hex after_b ;; uputs "\n" ;;
  lsi_check (rd_b =? 0) "test(b): control pair did not report success" ;;
  lsi_check (after_b =? B_SC) "test(b): control store not visible in memory" ;;
  ret (rd_b, after_b).

Definition lsi_body : prog W unit :=
  at_setup "lrsc-store-invalidate: intervening-store reservation test\n" ;;
  vol_st 4 cell A_INIT ;;
  vol_st 4 cell_b B_INIT ;;
  a <- lsi_test_a ;;
  b <- lsi_test_b ;;
  uputs "trap seen-flag=" ;; n <- save_word 3 ;; uart_put_dec n ;; uputs "\n" ;;
  n <- save_word 3 ;;
  lsi_check (n =? 0) "unexpected trap fired during the run" ;;
  trap_line ;;
  uputs "checksum=" ;; uart_put_hex (lsi_fnv1a a.1 a.2 b.1 b.2) ;; uputs "\n" ;;
  uputs "checks=" ;; c <- gget at_checks ;; uart_put_dec (u64 c) ;;
  uputs " fails=" ;; n <- gget at_fails ;; uart_put_dec (u64 n) ;; uputs "\n" ;;
  at_verdict.

Definition lsi_main : prog W unit := uart_init ;; lsi_body.

(** ** aaa_main.c *)

Definition N_A : nat := Z.to_nat 10000.
Definition N_B : nat := 100.
Definition BASE_A : Z := 0x10000000.
Definition BASE_B : Z := 0x20000000.
Definition INCR_B : Z := 7.

Definition aaa_check (cond : bool) (msg : string) : prog W unit :=
  n <- gget at_checks ;; gset_ (with_checks (u64 (n + 1))) ;;
  when (negb cond)
    (n <- gget at_mismatches ;; gset_ (with_mismatches (u64 (n + 1))) ;;
     n <- gget at_fails ;; gset_ (with_fails (n + 1)) ;;
     uputs "  FAIL: " ;; uputs msg ;; uputs "\n").

Definition read_cycle : prog W Z := csrr "cycle".

(** The register as an [unsigned int]. *)
Definition amoadd_w (addr incr : Z) : prog W Z := old <- hw_read (amoadd addr incr) ;; ret (u32 old).

Definition ref_lw4 (addr : Z) : prog W Z :=
  b0 <- vol_ld 1 addr ;; b1 <- vol_ld 1 (addr + 1) ;; b2 <- vol_ld 1 (addr + 2) ;; b3 <- vol_ld 1 (addr + 3) ;;
  ret (Z.lor (Z.lor (Z.lor b0 (u32 (Z.shiftl b1 8))) (u32 (Z.shiftl b2 16))) (u32 (Z.shiftl b3 24))).

(** The offset basis lacks its last digit, as in the PMP programs. *)
Definition fnv1a_64 (a b : Z) : Z :=
  fold_left (fun h w => fold_left (fun h j =>
      u64 (Z.lxor h (Z.land (Z.shiftr w (8 * Z.of_nat j)) 0xff) * FNV_PRIME)) (seq 0 4) h) [a; b] FNV_BASIS.

(** The locals of a loop: [expected], [sum], [bad_seen], [first_bad]. *)
Record amo_st : Type := AmoSt { expected : Z; asum : Z; bad_seen : bool; first_bad : Z }.

Definition amo_iter (addr incr : Z) (i : nat) (st : amo_st) : prog W amo_st :=
  old <- amoadd_w addr incr ;;
  n <- gget at_checks ;; gset_ (with_checks (u64 (n + 1))) ;;
  let bad := negb (old =? expected st) in
  when bad (n <- gget at_mismatches ;; gset_ (with_mismatches (u64 (n + 1)))) ;;
  ret (AmoSt (u32 (expected st + incr)) (u64 (asum st + old)) (bad_seen st || bad)
         (if bad && negb (bad_seen st) then Z.of_nat i else first_bad st)).

Definition amo_bad_line (phase : string) (st : amo_st) : prog W unit :=
  when (bad_seen st)
    (n <- gget at_fails ;; gset_ (with_fails (n + 1)) ;;
     uputs phase ;; uart_put_dec (first_bad st) ;; uputs "\n").

Definition aaa_control : prog W unit :=
  vol_st 4 cell 0xA5A5A5A5 ;;
  vol_st 4 cell_b 0x5A5A5A5A ;;
  x <- vol_ld 4 cell ;;
  ok <- (if x =? 0xA5A5A5A5 then y <- vol_ld 4 cell_b ;; ret (y =? 0x5A5A5A5A) else ret false) ;;
  aaa_check ok "control: plain aligned load/store roundtrip failed" ;;
  uputs "control: aligned load/store roundtrip: ok\n".

Definition aaa_phase_a : prog W (Z * Z) :=
  vol_st 4 cell BASE_A ;;
  c0 <- read_cycle ;;
  st <- for_acc (seq 0 N_A) (AmoSt BASE_A 0 false 0) (amo_iter cell 1) ;;
  c1 <- read_cycle ;;
  let cyc_a := u64 (c1 - c0) in
  amo_bad_line "  FAIL: phase A old-value mismatch, first at iteration " st ;;
  let n := Z.of_nat N_A in
  let exp_sum_a := u64 (u64 (n * BASE_A) + u64 (n * (n - 1)) / 2) in
  aaa_check (asum st =? exp_sum_a) "phase A sum of returned old values != arithmetic-series sum" ;;
  final_a <- vol_ld 4 cell ;;
  aaa_check (final_a =? u32 (BASE_A + n)) "phase A final != BASE_A + 10000" ;;
  rb <- ref_lw4 cell ;;
  aaa_check (rb =? u32 (BASE_A + n)) "phase A byte-wise readback != BASE_A + 10000" ;;
  uputs "phase A: final=" ;; uart_put_hex final_a ;;
  uputs " expected=" ;; uart_put_hex (u32 (BASE_A + n)) ;;
  uputs " cycles=" ;; uart_put_dec cyc_a ;; uputs "\n" ;;
  ret (final_a, first_bad st).

(** [first_bad] keeps what phase A left in it. *)
Definition aaa_phase_b (first_bad_a : Z) : prog W Z :=
  vol_st 4 cell_b BASE_B ;;
  st <- for_acc (seq 0 N_B) (AmoSt BASE_B 0 false first_bad_a) (amo_iter cell_b INCR_B) ;;
  amo_bad_line "  FAIL: phase B old-value mismatch, first at iteration " st ;;
  let n := Z.of_nat N_B in
  let exp_sum_b := u64 (u64 (n * BASE_B) + u64 (u64 (INCR_B * n) * (n - 1)) / 2) in
  aaa_check (asum st =? exp_sum_b) "phase B sum of returned old values != arithmetic-series sum" ;;
  final_b <- vol_ld 4 cell_b ;;
  aaa_check (final_b =? u64 (BASE_B + u64 (INCR_B * n))) "phase B final != BASE_B + 7*100" ;;
  rb <- ref_lw4 cell_b ;;
  aaa_check (rb =? u64 (BASE_B + u64 (INCR_B * n))) "phase B byte-wise readback != BASE_B + 7*100" ;;
  uputs "phase B: final=" ;; uart_put_hex final_b ;;
  uputs " expected=" ;; uart_put_hex (u64 (BASE_B + u64 (INCR_B * n))) ;; uputs "\n" ;;
  ret final_b.

Definition aaa_body : prog W unit :=
  uputs "amo-add-atomicity: amoadd.w read-modify-write semantics\n" ;;
  uputs "hart mhartid=" ;; hid <- csrr "mhartid" ;; uart_put_dec hid ;; uputs "\n" ;;
  csrw "mtvec" trap_entry ;;
  csrw "mscratch" save_addr ;;
  aaa_control ;;
  a <- aaa_phase_a ;;
  final_b <- aaa_phase_b a.2 ;;
  n <- save_word 0 ;;
  aaa_check (n =? 0) "trap handler ran (trap count != 0)" ;;
  uputs "traps=" ;; n <- save_word 0 ;; uart_put_dec n ;; uputs "\n" ;;
  uputs "checksum=" ;; uart_put_hex (fnv1a_64 a.1 final_b) ;;
  uputs " (FNV-1a over the two final cell values)\n" ;;
  uputs "summary: checks=" ;; n <- gget at_checks ;; uart_put_dec n ;;
  uputs " mismatches=" ;; n <- gget at_mismatches ;; uart_put_dec n ;; uputs "\n" ;;
  at_verdict.

Definition aaa_main : prog W unit := uart_init ;; aaa_body.
End Program.

(** ** Rules *)

Section Rules.
Context {U H : Type} `{!UartDev U, !UartSpec U, !HartDev H, !AtomDev H, !AtomSpec H}.
Abbreviation W := (world U H at_glob).

Lemma runs_hw_read {A} (f : H -> A * H) h g : runs (U:=U) (G:=at_glob) (hw_read f) h g (f h).1 [] (f h).2 g.
Proof. intros u. unfold hw_read. cbn. now destruct (f h). Qed.
Lemma runs_vol_ld n a h g : runs (U:=U) (vol_ld n a) h g (ld_bytes n a (a_mem h)) [] h g.
Proof. rewrite <-a_ld_spec. apply (runs_hw_read (fun h => (a_ld n a h, h))). Qed.
Lemma runs_vol_st n a x h g : runs (U:=U) (vol_st n a x) h g tt [] (a_st n a x h) g.
Proof. apply runs_hw. Qed.
Lemma runs_acheck b msg h g : b = true -> runs (U:=U) (H:=H) (acheck b msg) h g tt [] h g.
Proof. intros ->. apply runs_when_false. Qed.
Lemma runs_arr_get l i x h g : l !! i = Some x -> runs (U:=U) (H:=H) (G:=at_glob) (arr_get l i) h g x [] h g.
Proof. intros E u. unfold arr_get. now rewrite E. Qed.

(** A line printed only for a nonzero count. *)
Lemma runs_nonzero x m l h g : runs (U:=U) (H:=H) (G:=at_glob) m h g tt l h g ->
  runs (U:=U) (when (negb (x =? 0)) m) h g tt (if x =? 0 then [] else l) h g.
Proof. intros Hm. destruct (x =? 0); [apply runs_when_false|now apply runs_when_true]. Qed.

(** No trap was recorded. *)
Definition untouched (g : at_glob) : Prop := at_save g = replicate 4 0.

Lemma runs_save_word i h g : untouched g -> (i < 4)%nat -> runs (U:=U) (H:=H) (save_word i) h g 0 [] h g.
Proof.
  intros Hg Hi. unfold save_word. eapply runs_bind0; [apply runs_gget|]. rewrite Hg. apply runs_arr_get.
  now apply lookup_replicate_2.
Qed.
Lemma runs_trap_line h g : untouched g -> runs (U:=U) (H:=H) trap_line h g tt [] h g.
Proof. intros Hg. unfold trap_line. eapply runs_bind0; [apply runs_save_word; [exact Hg|lia]|]. apply runs_when_false. Qed.
Lemma halts_pass h g : at_fails g = 0 -> halts (U:=U) (H:=H) at_verdict h g (lit "RESULT: PASS\ndone\n") h g.
Proof.
  intros Hg. unfold at_verdict. eapply halts_conv; [eapply halts_bind0; [apply runs_gget|]; rewrite Hg; cbn [Z.eqb]; xrun|reflexivity..].
Qed.

(** Words stored and read back. *)
Lemma word_same a v m : 0 <= v < 2 ^ 32 -> ld_bytes 4 a (st_bytes 4 a v m) = v.
Proof. intros Hv. apply ld_st_same. exact Hv. Qed.
Lemma word_other a b v m : a + 4 <= b \/ b + 4 <= a -> ld_bytes 4 a (st_bytes 4 b v m) = ld_bytes 4 a m.
Proof. intros Hd. apply ld_st_other. change (Z.of_nat 4) with 4. exact Hd. Qed.

(** One round of the retry loop succeeds within its patience. *)
Lemma lrsc_loop_runs cell val fuel att h g : 0 <= att -> att + Z.of_nat fuel < 2 ^ 64 -> (patience h < fuel)%nat ->
  exists att' h', runs (U:=U) (lrsc_loop cell fuel val att) h g att' [] h' g /\
    att < att' <= att + Z.of_nat fuel /\ a_mem h' = st_bytes 4 cell val (a_mem h).
Proof.
  revert att h. induction fuel as [|fuel IH]; intros att h Ha Hs Hp; [lia|].
  cbn [lrsc_loop]. destruct (lr_spec cell h) as (Hm & Hr & Hpl).
  assert (u64 (att + 1) = att + 1) as E1 by (apply u64_small; unfold is_u64; lia).
  destruct (Z.eq_dec (sc_w cell val (lr_w cell h)).1 0) as [E|E].
  - exists (att + 1), (sc_w cell val (lr_w cell h)).2. split_and!; [|lia|lia|].
    + xstep. eapply runs_bind0; [apply runs_hw_read|]. cbv beta zeta. rewrite E, E1. cbn [Z.eqb]. apply runs_ret.
    + destruct (sc_success _ _ _ E) as [_ ->]. now rewrite Hm.
  - destruct (sc_failure _ _ _ E) as [Hm' Hpat]. specialize (Hpat Hr).
    destruct (IH (att + 1) (sc_w cell val (lr_w cell h)).2) as (att' & h' & Hrun & Hle & Hmem); [lia|lia|lia|].
    exists att', h'. split_and!; [|lia|lia|].
    + xstep. eapply runs_bind0; [apply runs_hw_read|]. cbv beta zeta. rewrite (proj2 (Z.eqb_neq _ _) E), E1. exact Hrun.
    + now rewrite Hmem, Hm', Hm.
Qed.
End Rules.

(** ** The histogram *)

Fixpoint count (f : Z -> bool) (l : list Z) : Z :=
  match l with [] => 0 | x :: l => (if f x then 1 else 0) + count f l end.
Definition zsum (l : list Z) : Z := fold_right Z.add 0 l.

Lemma count_app f l l' : count f (l ++ l') = count f l + count f l'.
Proof. induction l as [|x l IH]; [reflexivity|]. cbn [app count]. rewrite IH. lia. Qed.
Lemma count_bounds f l : 0 <= count f l <= Z.of_nat (length l).
Proof. induction l as [|x l IH]; cbn [count length]; [lia|]. destruct (f x); lia. Qed.
Lemma zsum_add {A} (f g : A -> Z) l : zsum (map (fun i => f i + g i) l) = zsum (map f l) + zsum (map g l).
Proof. unfold zsum. induction l as [|x l IH]; [reflexivity|]. cbn [map fold_right]. rewrite IH. lia. Qed.

(** How often each bin, and the overflow, was hit by a run of attempts. *)
Definition bin (atts : list Z) (i : nat) : Z := count (fun a => a =? Z.of_nat i + 1) atts.
Definition hist_of (atts : list Z) : list Z := map (bin atts) (seq 0 64).
Definition over_of (atts : list Z) : Z := count (fun a => NBINS <? a) atts.
Definition max_of (atts : list Z) : Z := fold_left Z.max atts 0.

Lemma one_bin a s n : zsum (map (fun i => if a =? Z.of_nat i + 1 then 1 else 0) (seq s n)) =
  if (Z.of_nat s <? a) && (a <=? Z.of_nat s + Z.of_nat n) then 1 else 0.
Proof.
  revert s. induction n as [|n IH]; intros s.
  { destruct (Z.ltb_spec (Z.of_nat s) a), (Z.leb_spec a (Z.of_nat s + Z.of_nat 0)); cbn [andb]; first [reflexivity|lia]. }
  cbn [seq map zsum fold_right]. fold (zsum (map (fun i => if a =? Z.of_nat i + 1 then 1 else 0) (seq (S s) n))). rewrite IH.
  repeat match goal with |- context [?x =? ?y] => destruct (Z.eqb_spec x y) | |- context [?x <? ?y] => destruct (Z.ltb_spec x y)
    | |- context [?x <=? ?y] => destruct (Z.leb_spec x y) end; cbn [andb]; lia.
Qed.

(** Every attempt count lands in exactly one bin. *)
Lemma hist_total atts : Forall (fun a => 1 <= a) atts -> zsum (hist_of atts) + over_of atts = Z.of_nat (length atts).
Proof.
  induction 1 as [|a atts Ha _ IH]; [reflexivity|]. unfold hist_of, bin, over_of in *. cbn [count length].
  rewrite zsum_add, one_bin. unfold NBINS in *. destruct (Z.ltb_spec 64 a), (Z.ltb_spec (Z.of_nat 0) a), (Z.leb_spec a (Z.of_nat 0 + Z.of_nat 64));
    cbn [andb]; lia.
Qed.

Lemma hist_lookup atts i : (i < 64)%nat -> hist_of atts !! i = Some (bin atts i).
Proof. intros Hi. unfold hist_of. rewrite list_lookup_fmap, lookup_seq_lt by exact Hi. reflexivity. Qed.

Section Histogram.
Context {U H : Type} `{!UartDev U, !UartSpec U, !HartDev H, !AtomDev H, !AtomSpec H}.
Context (cell : Z).

(** The globals after a run of attempts. *)
Definition gh (atts : list Z) : at_glob := AtGlob (replicate 4 0) 0 0 0 (hist_of atts) (over_of atts).

Lemma count_attempts_runs att atts h : 1 <= att -> is_u64 att -> Z.of_nat (length atts) < 10000 ->
  runs (U:=U) (H:=H) (count_attempts att) h (gh atts) tt [] h (gh (atts ++ [att])).
Proof.
  intros Ha Hu Hl. unfold count_attempts, NBINS. destruct (Z.leb_spec att 64) as [H64|H64].
  - assert (u64 (att - 1) = att - 1) as -> by (apply u64_small; unfold is_u64 in *; lia).
    set (i := Z.to_nat (att - 1)). assert (i < 64)%nat as Hi by (subst i; lia).
    pose proof (count_bounds (fun a => a =? Z.of_nat i + 1) atts) as Hb.
    xstep. eapply runs_bind0; [apply runs_arr_get, hist_lookup, Hi|].
    assert (u64 (bin atts i + 1) = bin atts i + 1) as -> by (apply u64_small; unfold is_u64, bin; lia).
    eapply runs_bind0.
    { intros u. unfold arr_set. rewrite decide_True; [reflexivity|]. cbn [hist gh]. unfold hist_of. rewrite length_map, length_seq. exact Hi. }
    eapply runs_conv; [xstep|reflexivity..|]. unfold with_hist, gh. cbn [at_save at_fails at_checks at_mismatches overflow hist].
    f_equal.
    + apply list_eq. intros j. destruct (decide (j < 64)%nat) as [Hj|Hj].
      * rewrite (hist_lookup _ _ Hj). unfold bin. rewrite count_app. cbn [count]. rewrite list_lookup_insert.
        rewrite (hist_lookup _ _ Hj). case_decide as E.
        -- destruct E as [<- _]. unfold bin. subst i. rewrite Z2Nat.id by lia. replace (att =? att - 1 + 1) with true by (symmetry; apply Z.eqb_eq; lia). reflexivity.
        -- destruct (Z.eqb_spec att (Z.of_nat j + 1)); [|unfold bin; f_equal; lia]. exfalso. apply E. unfold hist_of. rewrite length_map, length_seq. subst i. lia.
      * rewrite !lookup_ge_None_2; [reflexivity|unfold hist_of; rewrite length_map, length_seq; lia|].
        unfold hist_of; rewrite length_insert, length_map, length_seq; lia.
    + unfold over_of. rewrite count_app. cbn [count]. unfold NBINS. destruct (Z.ltb_spec 64 att); lia.
  - pose proof (count_bounds (fun a => NBINS <? a) atts) as Hb. xstep. eapply runs_conv; [xstep|reflexivity..|].
    unfold with_overflow, gh. cbn [at_save at_fails at_checks at_mismatches overflow hist]. f_equal.
    + unfold hist_of. apply map_ext_in. intros j Hj%in_seq. unfold bin. rewrite count_app. cbn [count].
      destruct (Z.eqb_spec att (Z.of_nat j + 1)); lia.
    + unfold over_of in *. rewrite u64_small by (unfold is_u64; lia). rewrite count_app. cbn [count]. unfold NBINS. destruct (Z.ltb_spec 64 att); lia.
Qed.

Lemma max_of_app atts a : max_of (atts ++ [a]) = Z.max (max_of atts) a.
Proof. unfold max_of. now rewrite fold_left_app. Qed.

Definition att_ok (a : Z) : Prop := 1 <= a <= 1 + Z.of_nat atom_fuel.

Lemma att_ok_u64 a : att_ok a -> is_u64 a.
Proof. pose proof atom_fuel_small. unfold att_ok, is_u64. lia. Qed.

(** One iteration: some number of attempts, counted, and the value there. *)
Lemma lrsc_iter_runs i atts h : Z.of_nat i < 10000 -> Z.of_nat (length atts) < 10000 ->
  exists a h', runs (U:=U) (lrsc_iter cell i (max_of atts, 0)) h (gh atts) (max_of (atts ++ [a]), 0) [] h' (gh (atts ++ [a])) /\
    att_ok a /\ ld_bytes 4 cell (a_mem h') = Z.of_nat i.
Proof.
  intros Hi Hl. pose proof (patience_bound h). pose proof atom_fuel_small.
  assert (u32 (Z.of_nat i) = Z.of_nat i) as Eu by (apply Z.mod_small; lia).
  destruct (lrsc_loop_runs (U:=U) cell (Z.of_nat i) (S atom_fuel) 0 h (gh atts)) as (a & h' & Hrun & Ha & Hm); [lia..|].
  assert (att_ok a) as Hok by (unfold att_ok; lia).
  assert (ld_bytes 4 cell (a_mem h') = Z.of_nat i) as Hv by (rewrite Hm; apply word_same; lia).
  exists a, h'. split_and!; [|apply Hok..|exact Hv]. unfold lrsc_iter, lrsc_store. rewrite Eu.
  eapply runs_bind0; [exact Hrun|]. eapply runs_bind0; [apply count_attempts_runs; [lia|now apply att_ok_u64|exact Hl]|]. cbv zeta.
  eapply runs_bind0; [apply runs_vol_ld|]. cbv beta. rewrite Hv, Z.eqb_refl.
  eapply runs_conv; [apply runs_ret| |reflexivity..]. rewrite max_of_app. f_equal.
  destruct (Z.ltb_spec (max_of atts) a); lia.
Qed.

Lemma lrsc_all_runs n atts h : Z.of_nat (length atts + n) <= 10000 ->
  exists atts' h', runs (U:=U) (for_acc (seq (length atts) n) (max_of atts, 0) (lrsc_iter cell)) h (gh atts)
      (max_of (atts ++ atts'), 0) [] h' (gh (atts ++ atts')) /\
    length atts' = n /\ Forall att_ok atts' /\
    ld_bytes 4 cell (a_mem h') = match n with O => ld_bytes 4 cell (a_mem h) | S _ => Z.of_nat (length atts + n) - 1 end.
Proof.
  revert atts h. induction n as [|n IH]; intros atts h Hn.
  { exists [], h. rewrite app_nil_r. split_and!; [apply runs_ret|reflexivity|constructor|reflexivity]. }
  destruct (lrsc_iter_runs (length atts) atts h) as (a & h1 & Hrun & Ha & Hv); [lia|lia|].
  destruct (IH (atts ++ [a]) h1) as (atts' & h2 & Hrest & Hlen & Hok & Hlast); [rewrite length_app; cbn [length]; lia|].
  rewrite length_app in Hrest, Hlast. cbn [length] in Hrest, Hlast. rewrite <-app_assoc in Hrest. cbn [app] in Hrest.
  replace (length atts + 1)%nat with (S (length atts)) in Hrest by lia.
  exists (a :: atts'), h2. split_and!.
  - cbn [seq for_acc]. eapply runs_bind0; [exact Hrun|exact Hrest].
  - cbn [length]. now rewrite Hlen.
  - now constructor.
  - rewrite Hlast. destruct n as [|n]; [rewrite Hv; lia|lia].
Qed.

(** The printed histogram. *)
Definition bin_line (atts : list Z) (i : nat) : list Z :=
  if bin atts i =? 0 then []
  else lit "  attempts=" ++ fmt_dec (Z.of_nat i + 1) ++ lit " count=" ++ fmt_dec (bin atts i) ++ lit "\n".

Lemma hist_lines_run atts s n sum h : (s + n <= 64)%nat -> 0 <= sum ->
  sum + zsum (map (bin atts) (seq s n)) < 2 ^ 64 ->
  runs (U:=U) (H:=H) (for_acc (seq s n) sum hist_line) h (gh atts) (sum + zsum (map (bin atts) (seq s n)))
    (concat (map (bin_line atts) (seq s n))) h (gh atts).
Proof.
  revert s sum. induction n as [|n IH]; intros s sum Hs Hsum Hb.
  { eapply runs_conv; [apply runs_ret| |reflexivity..]. cbn. lia. }
  cbn [seq map zsum fold_right concat for_acc] in *. fold (zsum (map (bin atts) (seq (S s) n))) in *.
  assert (forall l, 0 <= zsum (map (bin atts) l)) as Hpos.
  { intros l. induction l as [|i l IHl]; [cbn; lia|]. cbn [map zsum fold_right]. fold (zsum (map (bin atts) l)).
    pose proof (count_bounds (fun a => a =? Z.of_nat i + 1) atts). unfold bin at 1. lia. }
  pose proof (Hpos (seq (S s) n)). pose proof (count_bounds (fun a => a =? Z.of_nat s + 1) atts) as Hc. fold (bin atts s) in Hc.
  eapply runs_bind with (a := sum + bin atts s) (l1 := bin_line atts s).
  - unfold hist_line. eapply runs_bind0; [apply runs_gget|]. cbn [hist gh].
    eapply runs_bind0; [apply runs_arr_get, hist_lookup; lia|]. unfold bin_line.
    rewrite (u64_small (Z.of_nat s + 1)) by (unfold is_u64; lia).
    eapply runs_conv; [eapply runs_bind; [apply runs_nonzero|apply runs_ret]|..].
    + eapply runs_bind; [xprim|]. eapply runs_bind; [apply runs_prints, prints_dec; unfold is_u64; lia|].
      eapply runs_bind; [xprim|]. eapply runs_bind; [apply runs_prints, prints_dec; unfold is_u64; lia|]. xprim.
    + apply u64_small. unfold is_u64. lia.
    + rewrite app_nil_r. destruct (bin atts s =? 0); reflexivity.
    + reflexivity.
    + reflexivity.
  - eapply runs_conv; [apply IH; lia|lia|reflexivity..].
Qed.

Context (trap_entry save_addr : Z).
Hypothesis Hentry : is_u64 trap_entry.

Definition lrsc_log (hid : Z) (atts : list Z) : list Z :=
  lit "lrsc-histogram: 10000 aligned lr.w/sc.w pairs, single hart\nhart mhartid=" ++ fmt_dec hid ++
  lit "\ntrap vector installed at " ++ fmt_hex trap_entry ++ lit " (halts the hart on any trap)\n" ++
  lit "attempts-to-success histogram:\n" ++ concat (map (bin_line atts) (seq 0 64)) ++
  (if over_of atts =? 0 then [] else lit "  attempts>64 count=" ++ fmt_dec (over_of atts) ++ lit "\n") ++
  lit "iterations=10000 histogram-sum=10000 max-attempts=" ++ fmt_dec (max_of atts) ++
  lit " value-errors=0\nRESULT: PASS\ndone\n".

Lemma max_of_u64 atts : Forall att_ok atts -> is_u64 (max_of atts).
Proof.
  intros Hok. unfold max_of. assert (is_u64 0) as H0 by u64c. revert H0. generalize 0.
  induction Hok as [|a atts Ha _ IH]; intros z Hz; [exact Hz|]. cbn [fold_left]. apply IH.
  apply att_ok_u64 in Ha. unfold is_u64 in *. lia.
Qed.

Lemma bin_lines_bytes atts l : Forall (fun c => 0 <= c < 256) (concat (map (bin_line atts) l)).
Proof.
  induction l as [|i l IH]; [constructor|]. cbn [map concat]. apply Forall_app. split; [|exact IH].
  unfold bin_line. case_match; text_bytes.
Qed.

End Histogram.

(** ** Reservations *)

Section Reservations.
Context {U H : Type} `{!UartDev U, !UartSpec U, !HartDev H, !AtomDev H, !AtomSpec H}.
Context (trap_entry save_addr cell cell_b : Z).
Hypothesis Hapart : cell + 4 <= cell_b \/ cell_b + 4 <= cell.
(** No spurious failures. *)
Hypothesis Hsteady : forall h, patience h = 0%nat.
Abbreviation runs_ := (runs (U:=U) (H:=H) (G:=at_glob)).

(** An unreserved word makes [sc.w] fail and nothing change. *)
Lemma sc_unreserved a x h : a_res h a = false -> (sc_w a x h).1 <> 0 /\ a_mem (sc_w a x h).2 = a_mem h.
Proof.
  intros Hr. assert ((sc_w a x h).1 <> 0) as Hn by (intros E; destruct (sc_success _ _ _ E); congruence).
  split; [exact Hn|]. now apply sc_failure.
Qed.

(** A pair on one word succeeds. *)
Lemma pair_succeeds a x h : (sc_w a x (lr_w a h)).1 = 0 /\ a_mem (sc_w a x (lr_w a h)).2 = st_bytes 4 a x (a_mem h).
Proof.
  destruct (lr_spec a h) as (Hm & Hr & _). destruct (Z.eq_dec (sc_w a x (lr_w a h)).1 0) as [E|E].
  - split; [exact E|]. destruct (sc_success _ _ _ E) as [_ ->]. now rewrite Hm.
  - destruct (sc_failure _ _ _ E) as [_ Hp]. specialize (Hp Hr). rewrite !Hsteady in Hp. lia.
Qed.

Ltac at_print := first [xprim | apply runs_prints; first [apply prints_dec | apply prints_hex]; assumption || apply sc_u64].
Ltac at_step :=
  lazymatch goal with
  | |- runs (bind (vol_ld _ _) _) _ _ _ _ _ _ => eapply runs_bind0; [apply runs_vol_ld|cbn beta]
  | |- runs (bind (hw_read _) _) _ _ _ _ _ _ => eapply runs_bind0; [apply runs_hw_read|cbn beta]
  | |- runs (bind (vol_st _ _ _) _) _ _ _ _ _ _ => eapply runs_bind0; [apply runs_vol_st|cbn beta]
  | |- runs (bind (acheck _ _) _) _ _ _ _ _ _ => eapply runs_bind0; [apply runs_acheck|cbn beta]
  | |- runs (acheck _ _) _ _ _ _ _ _ => apply runs_acheck
  | |- runs (hw_read _) _ _ _ _ _ _ => apply runs_hw_read
  | |- runs (bind (bind _ _) _) _ _ _ _ _ _ => eapply runs_bind0
  | |- runs (bind ?m _) _ _ _ _ _ _ => first [xquiet m; eapply runs_bind0; [xprim|cbn beta] | eapply runs_bind; [at_print|cbn beta]]
  | |- _ => at_print
  end.

Lemma neq0_check x : x <> 0 -> negb (x =? 0) = true.
Proof. intros Hx. now rewrite (proj2 (Z.eqb_neq x 0) Hx). Qed.

Lemma scf_test_a_runs h g v : a_res h cell = false -> ld_bytes 4 cell (a_mem h) = v -> is_u64 v ->
  exists rd h', rd <> 0 /\ a_mem h' = a_mem h /\
    runs_ (scf_test_a cell) h g tt (lit "test(a) sc.w with no lr.w:\n  before=" ++ fmt_hex v ++ lit " rd=" ++ fmt_dec rd ++
      lit " after=" ++ fmt_hex v ++ lit "\n") h' g.
Proof.
  intros Hr Hv Hu. destruct (sc_unreserved cell 0x12345678 h Hr) as [Hn Hm].
  exists (sc_w cell 0x12345678 h).1, (sc_w cell 0x12345678 h).2. split_and!; [exact Hn|exact Hm|].
  unfold scf_test_a, sc_no_lr. eapply runs_conv.
  - do 3 at_step. rewrite Hm, Hv. do 9 at_step. { now apply neq0_check. } at_step. apply Z.eqb_refl.
  - reflexivity.
  - generalize (fmt_hex v) (fmt_dec (sc_w cell 0x12345678 h).1). intros. rewrite <-?app_assoc. vm_compute. reflexivity.
  - reflexivity.
  - reflexivity.
Qed.

(** The reservation on one cell does not reach the other. *)
Definition separate : Prop := forall h, a_res (lr_w cell h) cell_b = false.

Lemma scf_test_b_runs h g va vb : separate -> ld_bytes 4 cell (a_mem h) = va -> ld_bytes 4 cell_b (a_mem h) = vb ->
  is_u64 va -> is_u64 vb ->
  exists rd h', rd <> 0 /\ a_mem h' = a_mem h /\
    runs_ (scf_test_b cell cell_b) h g tt (lit "test(b) lr.w on A, sc.w on B (different address):\n  before_a=" ++ fmt_hex va ++
      lit " before_b=" ++ fmt_hex vb ++ lit "\n  rd=" ++ fmt_dec rd ++ lit " after_a=" ++ fmt_hex va ++
      lit " after_b=" ++ fmt_hex vb ++ lit "\n") h' g.
Proof.
  intros Hsep Ha Hb Hua Hub. destruct (sc_unreserved cell_b 0x9ABCDEF0 (lr_w cell h) (Hsep h)) as [Hn Hm].
  rewrite (proj1 (lr_spec cell h)) in Hm.
  exists (sc_w cell_b 0x9ABCDEF0 (lr_w cell h)).1, (sc_w cell_b 0x9ABCDEF0 (lr_w cell h)).2. split_and!; [exact Hn|exact Hm|].
  unfold scf_test_b, lr_then_sc_other. eapply runs_conv.
  - do 3 at_step. { do 2 at_step. } do 2 at_step. rewrite Hm, Ha, Hb. do 13 at_step. { now apply neq0_check. }
    at_step. { apply Z.eqb_refl. } at_step. apply Z.eqb_refl.
  - reflexivity.
  - generalize (fmt_hex va) (fmt_hex vb) (fmt_dec (sc_w cell_b 0x9ABCDEF0 (lr_w cell h)).1). intros.
    rewrite <-?app_assoc. vm_compute. reflexivity.
  - reflexivity.
  - reflexivity.
Qed.

Lemma scf_test_c_runs h g : exists h',
  a_mem h' = st_bytes 4 cell 0x12345678 (a_mem h) /\
  runs_ (scf_test_c cell) h g tt (lit "test(c) control: lr.w then sc.w on same cell:\n  rd=0 after_a=0x12345678\n") h' g.
Proof.
  destruct (pair_succeeds cell 0x12345678 h) as [E Hm]. exists (sc_w cell 0x12345678 (lr_w cell h)).2. split; [exact Hm|].
  unfold scf_test_c, lr_then_sc_same. eapply runs_conv.
  - at_step. { do 2 at_step. } at_step. rewrite E, Hm, word_same by lia. do 7 at_step. { reflexivity. } at_step. reflexivity.
  - reflexivity.
  - vm_compute. reflexivity.
  - reflexivity.
  - reflexivity.
Qed.

Definition scf_log (hid rd_a rd_b : Z) : list Z :=
  lit "sc-fail: store-conditional failure-path experiment\nhart mhartid=" ++ fmt_dec hid ++
  lit "\ntrap vector installed (halts the hart on any trap)\ntest(a) sc.w with no lr.w:\n  before=0xaaaaaaaa rd=" ++
  fmt_dec rd_a ++
  lit " after=0xaaaaaaaa\ntest(b) lr.w on A, sc.w on B (different address):\n  before_a=0xaaaaaaaa before_b=0xbbbbbbbb\n  rd=" ++
  fmt_dec rd_b ++
  lit " after_a=0xaaaaaaaa after_b=0xbbbbbbbb\ntest(c) control: lr.w then sc.w on same cell:\n  rd=0 after_a=0x12345678\ntrap seen-flag=0\nRESULT: PASS\ndone\n".

Lemma at_setup_runs banner h g : no_nul (c_lit banner) = true ->
  runs_ (at_setup trap_entry save_addr banner) h g tt (lit banner ++ lit "hart mhartid=" ++ fmt_dec (csr_rd "mhartid" h).1 ++
    lit "\ntrap vector installed (halts the hart on any trap)\n")
    (csr_wr "mscratch" save_addr (csr_wr "mtvec" trap_entry (csr_rd "mhartid" h).2)) g.
Proof.
  intros Hb. unfold at_setup. eapply runs_conv.
  - eapply runs_bind; [apply runs_prints, prints_lit, Hb|]. do 2 at_step. eapply runs_bind; [apply runs_prints, prints_dec, a_csr_u64|].
    do 4 at_step.
  - reflexivity.
  - generalize (lit banner) (fmt_dec (csr_rd "mhartid" h).1). intros. rewrite <-?app_assoc. vm_compute. reflexivity.
  - reflexivity.
  - reflexivity.
Qed.

Lemma setup_keeps h : let h' := csr_wr "mscratch" save_addr (csr_wr "mtvec" trap_entry (csr_rd "mhartid" h).2) in
  forall y, a_res h y = false -> a_res h' y = false.
Proof.
  intros h' y Hy. destruct (a_res h' y) eqn:E; [|reflexivity].
  apply (a_csr_wr "mscratch"), (a_csr_wr "mtvec"), (a_csr_rd "mhartid") in E. congruence.
Qed.
Lemma st_keeps n a x h y : a_res h y = false -> a_res (a_st n a x h) y = false.
Proof. intros Hy. destruct (a_res (a_st n a x h) y) eqn:E; [|reflexivity]. apply a_st_res in E. congruence. Qed.

(** [sc-fail]: with no reservation at boot, no spurious failures and
    reservation sets that keep the two cells apart, the experiment passes. *)
Lemma scf_main_passes u h : separate -> a_res h cell = false ->
  exists rd_a rd_b, rd_a <> 0 /\ rd_b <> 0 /\
    main_sends (scf_main trap_entry save_addr cell cell_b) u h at_boot (scf_log (csr_rd "mhartid" h).1 rd_a rd_b)
      (fun h' g => at_fails g = 0 /\ ld_bytes 4 cell (a_mem h') = 0x12345678 /\ ld_bytes 4 cell_b (a_mem h') = 0xBBBBBBBB).
Proof.
  intros Hsep Hr. apply setup_keeps in Hr. cbv zeta in Hr.
  set (h1 := csr_wr "mscratch" save_addr (csr_wr "mtvec" trap_entry (csr_rd "mhartid" h).2)) in Hr.
  set (h2 := a_st 4 cell_b 0xBBBBBBBB (a_st 4 cell 0xAAAAAAAA h1)).
  assert (ld_bytes 4 cell (a_mem h2) = 0xAAAAAAAA) as Ha by (subst h2; rewrite !a_st_spec, word_other, word_same by lia; reflexivity).
  assert (ld_bytes 4 cell_b (a_mem h2) = 0xBBBBBBBB) as Hb by (subst h2; rewrite a_st_spec, word_same by lia; reflexivity).
  destruct (scf_test_a_runs h2 at_boot _ (st_keeps _ _ _ _ _ (st_keeps _ _ _ _ _ Hr)) Ha ltac:(u64c)) as (rd_a & h3 & Hn1 & Hm3 & Hrun3).
  rewrite <-Hm3 in Ha, Hb.
  destruct (scf_test_b_runs h3 at_boot _ _ Hsep Ha Hb ltac:(u64c) ltac:(u64c)) as (rd_b & h4 & Hn2 & Hm4 & Hrun4).
  destruct (scf_test_c_runs h4 at_boot) as (h5 & Hm5 & Hrun5).
  exists rd_a, rd_b. split; [exact Hn1|]. split; [exact Hn2|]. apply main_sends_intro.
  - eexists _, h5, at_boot. split; [|split].
    + unfold scf_body. eapply halts_bind; [now apply at_setup_runs|]. do 2 (eapply halts_bind0; [apply runs_vol_st|]).
      eapply halts_bind; [exact Hrun3|]. eapply halts_bind; [exact Hrun4|]. eapply halts_bind; [exact Hrun5|].
      xstep. eapply halts_bind0; [apply runs_save_word; [reflexivity|lia]|]. do 2 xstep.
      eapply halts_bind0; [apply runs_save_word; [reflexivity|lia]|]. eapply halts_bind0; [apply runs_acheck; reflexivity|].
      eapply halts_bind0; [apply runs_trap_line; reflexivity|]. apply halts_pass. reflexivity.
    + unfold scf_log. generalize (fmt_dec (csr_rd "mhartid" h).1) (fmt_dec rd_a) (fmt_dec rd_b). intros.
      rewrite <-?app_assoc. vm_compute. reflexivity.
    + split; [reflexivity|]. rewrite Hm5, word_same, word_other, Hm4 by lia. auto.
  - unfold scf_log. text_bytes.
Qed.

(** ** lrsc-store-invalidate *)

Definition gl (n : Z) : at_glob := with_checks n at_boot.

Lemma lsi_check_runs b msg h n : b = true -> runs_ (lsi_check b msg) h (gl n) tt [] h (gl (n + 1)).
Proof. intros Hb. unfold lsi_check. do 2 xstep. now apply runs_acheck. Qed.

(** A store that changes the reserved word ends the reservation. *)
Definition store_drops : Prop := forall x h, ld_bytes 4 cell (a_mem h) <> x -> a_res (a_st 4 cell x (lr_w cell h)) cell = false.

Lemma lsi_test_a_runs h n v : store_drops -> ld_bytes 4 cell (a_mem h) = v -> is_u64 v -> v <> A_SW ->
  exists rd h', rd <> 0 /\ is_u64 rd /\ a_mem h' = st_bytes 4 cell A_SW (a_mem h) /\
    runs_ (lsi_test_a cell) h (gl n) (rd, A_SW) (lit "test(a) lr.w; sw; sc.w on A (same address):\n  before_a=" ++ fmt_hex v ++
      lit " rd_a=" ++ fmt_dec rd ++ lit " after_a=0xbbbb1111\n") h' (gl (n + 3)).
Proof.
  intros Hd Hv Hu Hne. set (h1 := a_st 4 cell A_SW (lr_w cell h)).
  destruct (sc_unreserved cell A_SC h1) as [Hn Hm]; [apply Hd; congruence|].
  assert (a_mem (sc_w cell A_SC h1).2 = st_bytes 4 cell A_SW (a_mem h)) as Hm'.
  { rewrite Hm. subst h1. now rewrite a_st_spec, (proj1 (lr_spec cell h)). }
  exists (sc_w cell A_SC h1).1, (sc_w cell A_SC h1).2. split_and!; [exact Hn|apply sc_u64..|exact Hm'|].
  unfold lsi_test_a, lr_sw_sc. eapply runs_conv.
  - do 2 at_step. { do 3 at_step. } at_step. fold h1. rewrite Hm', Hv, word_same by (unfold A_SW; lia). do 8 at_step.
    eapply runs_bind0; [apply lsi_check_runs; now apply neq0_check|].
    eapply runs_bind0; [apply lsi_check_runs; reflexivity|]. eapply runs_bind0; [apply lsi_check_runs; reflexivity|]. apply runs_ret.
  - reflexivity.
  - generalize (fmt_hex v) (fmt_dec (sc_w cell A_SC h1).1). intros. rewrite <-?app_assoc. vm_compute. reflexivity.
  - reflexivity.
  - f_equal. lia.
Qed.

Lemma lsi_test_b_runs h n v : ld_bytes 4 cell_b (a_mem h) = v -> is_u64 v -> exists h',
  a_mem h' = st_bytes 4 cell_b B_SC (a_mem h) /\
  runs_ (lsi_test_b cell_b) h (gl n) (0, B_SC) (lit "test(b) control: lr.w; sc.w on B (no intervening store):\n  before_b=" ++
    fmt_hex v ++ lit " rd_b=0 after_b=0xeeee4444\n") h' (gl (n + 2)).
Proof.
  intros Hv Hu. destruct (pair_succeeds cell_b B_SC h) as [E Hm]. exists (sc_w cell_b B_SC (lr_w cell_b h)).2. split; [exact Hm|].
  unfold lsi_test_b, lr_sc. eapply runs_conv.
  - do 2 at_step. { do 2 at_step. } at_step. rewrite E, Hm, Hv, word_same by (unfold B_SC; lia). do 8 at_step.
    do 2 (eapply runs_bind0; [apply lsi_check_runs; reflexivity|]). apply runs_ret.
  - reflexivity.
  - generalize (fmt_hex v). intros. rewrite <-?app_assoc. vm_compute. reflexivity.
  - reflexivity.
  - f_equal. lia.
Qed.

Lemma lsi_fnv1a_u64 a b c d : is_u64 (lsi_fnv1a a b c d).
Proof. unfold lsi_fnv1a. cbn [fold_left]. apply fnv_word_u64. Qed.

Definition lsi_log (hid rd_a : Z) : list Z :=
  lit "lrsc-store-invalidate: intervening-store reservation test\nhart mhartid=" ++ fmt_dec hid ++
  lit "\ntrap vector installed (halts the hart on any trap)\ntest(a) lr.w; sw; sc.w on A (same address):\n  before_a=0xaaaa0000 rd_a=" ++
  fmt_dec rd_a ++
  lit " after_a=0xbbbb1111\ntest(b) control: lr.w; sc.w on B (no intervening store):\n  before_b=0xdddd3333 rd_b=0 after_b=0xeeee4444\ntrap seen-flag=0\nchecksum=" ++
  fmt_hex (lsi_fnv1a rd_a A_SW 0 B_SC) ++ lit "\nchecks=6 fails=0\nRESULT: PASS\ndone\n".

(** [lrsc-store-invalidate]: with no spurious failures, on a hart where a
    store of its own to the reserved word ends the reservation. *)
Lemma lsi_main_passes u h : store_drops ->
  exists rd_a, rd_a <> 0 /\
    main_sends (lsi_main trap_entry save_addr cell cell_b) u h at_boot (lsi_log (csr_rd "mhartid" h).1 rd_a)
      (fun h' g => at_fails g = 0 /\ at_checks g = 6 /\
         ld_bytes 4 cell (a_mem h') = A_SW /\ ld_bytes 4 cell_b (a_mem h') = B_SC).
Proof.
  intros Hd.
  set (h1 := csr_wr "mscratch" save_addr (csr_wr "mtvec" trap_entry (csr_rd "mhartid" h).2)).
  set (h2 := a_st 4 cell_b B_INIT (a_st 4 cell A_INIT h1)).
  assert (ld_bytes 4 cell (a_mem h2) = A_INIT) as Ha
    by (subst h2; rewrite !a_st_spec, word_other, word_same by (unfold A_INIT; lia); reflexivity).
  assert (ld_bytes 4 cell_b (a_mem h2) = B_INIT) as Hb
    by (subst h2; rewrite a_st_spec, word_same by (unfold B_INIT; lia); reflexivity).
  destruct (lsi_test_a_runs h2 0 _ Hd Ha ltac:(u64c) ltac:(discriminate)) as (rd & h3 & Hn & Hu & Hm3 & Hrun3).
  assert (ld_bytes 4 cell_b (a_mem h3) = B_INIT) as Hb3 by (now rewrite Hm3, word_other by lia).
  destruct (lsi_test_b_runs h3 3 _ Hb3 ltac:(u64c)) as (h4 & Hm4 & Hrun4).
  exists rd. split; [exact Hn|]. apply main_sends_intro.
  - eexists _, h4, (gl 6). split; [|split].
    + unfold lsi_body. change at_boot with (gl 0). eapply halts_bind; [now apply at_setup_runs|]. do 2 (eapply halts_bind0; [apply runs_vol_st|]).
      eapply halts_bind; [exact Hrun3|]. eapply halts_bind; [exact Hrun4|]. cbn [fst snd].
      xstep. eapply halts_bind0; [apply runs_save_word; [reflexivity|lia]|]. do 2 xstep.
      eapply halts_bind0; [apply runs_save_word; [reflexivity|lia]|]. eapply halts_bind0; [apply lsi_check_runs; reflexivity|].
      eapply halts_bind0; [apply runs_trap_line; reflexivity|]. xstep.
      eapply halts_bind; [apply runs_prints, prints_hex, lsi_fnv1a_u64|]. do 8 xstep. apply halts_pass. reflexivity.
    + unfold lsi_log. generalize (fmt_hex (lsi_fnv1a rd A_SW 0 B_SC)).
      generalize (fmt_dec (csr_rd "mhartid" h).1) (fmt_dec rd). intros. rewrite <-?app_assoc. vm_compute. reflexivity.
    + split_and!; [reflexivity..| |]; rewrite Hm4; [rewrite word_other, Hm3, word_same|rewrite word_same]; unfold A_SW, B_SC; try lia; reflexivity.
  - unfold lsi_log. text_bytes.
Qed.

End Reservations.

(** ** amo-add-atomicity *)

(** The bytes of a stored word, and the word put together from them. *)
Lemma word_byte a v m k : (k < 4)%nat -> ld_bytes 1 (a + Z.of_nat k) (st_bytes 4 a v m) = (v / 256 ^ Z.of_nat k) mod 256.
Proof.
  intros Hk. cbn [ld_bytes st_bytes]. unfold upd. rewrite Z.mul_0_r, Z.add_0_r.
  destruct k as [|[|[|[|k]]]]; [..|lia];
    repeat match goal with |- context [?x =? ?y] => destruct (Z.eqb_spec x y); [try lia|try lia] end;
    rewrite ?Z.div_div by lia; try reflexivity. now rewrite Z.div_1_r.
Qed.

Lemma word_of_bytes v : 0 <= v < 2 ^ 32 ->
  Z.lor (Z.lor (Z.lor (v mod 256) (u32 (Z.shiftl (v / 256 mod 256) 8))) (u32 (Z.shiftl (v / 65536 mod 256) 16)))
    (u32 (Z.shiftl (v / 16777216 mod 256) 24)) = v.
Proof.
  intros Hv. pose proof (Z.mod_pos_bound v 256). pose proof (Z.mod_pos_bound (v / 256) 256).
  pose proof (Z.mod_pos_bound (v / 65536) 256). pose proof (Z.mod_pos_bound (v / 16777216) 256).
  assert (forall b k, 0 <= b < 256 -> 0 <= k <= 24 -> u32 (Z.shiftl b k) = b * 2 ^ k) as Hsh.
  { intros b k Hb Hk. rewrite Z.shiftl_mul_pow2 by lia. apply Z.mod_small.
    pose proof (Z.pow_le_mono_r 2 k 24). pose proof (Z.pow_pos_nonneg 2 k). nia. }
  rewrite !Hsh by lia.
  rewrite (Z.lor_comm (v mod 256)), (lor_disjoint_add _ 8) by lia.
  rewrite (Z.lor_comm _ (_ * 2 ^ 16)), (lor_disjoint_add _ 16) by lia.
  rewrite (Z.lor_comm _ (_ * 2 ^ 24)), (lor_disjoint_add _ 24) by lia.
  pose proof (Z.div_mod v 256). pose proof (Z.div_mod (v / 256) 256). pose proof (Z.div_mod (v / 65536) 256).
  assert (v / 65536 = v / 256 / 256) as E1 by (rewrite Z.div_div by lia; reflexivity).
  assert (v / 16777216 = v / 65536 / 256) as E2 by (rewrite Z.div_div by lia; reflexivity).
  assert (v / 16777216 < 256) by (apply Z.div_lt_upper_bound; lia).
  rewrite (Z.mod_small (v / 16777216)) by lia. lia.
Qed.

Lemma u32_sext x : 0 <= x < 2 ^ 32 -> u32 (sext32 x) = x.
Proof.
  intros Hx. unfold u32, sext32. destruct (Z.ltb_spec x (2 ^ 31)); [apply Z.mod_small; lia|].
  replace (x + (2 ^ 64 - 2 ^ 32)) with (x + (2 ^ 32 - 1) * 2 ^ 32) by lia. rewrite Z.mod_add by lia. apply Z.mod_small. lia.
Qed.

Section Amo.
Context {U H : Type} `{!UartDev U, !UartSpec U, !HartDev H, !AtomDev H, !AtomSpec H}.
Abbreviation runs_ := (runs (U:=U) (H:=H) (G:=at_glob)).

Lemma ref_lw4_runs a v m h g : a_mem h = st_bytes 4 a v m -> 0 <= v < 2 ^ 32 -> runs_ (ref_lw4 a) h g v [] h g.
Proof.
  intros Hm Hv. unfold ref_lw4. eapply runs_conv; [do 4 (eapply runs_bind0; [apply runs_vol_ld|cbn beta]); apply runs_ret| |reflexivity..].
  rewrite Hm. pose proof (word_byte a v m 0 ltac:(lia)) as E0. pose proof (word_byte a v m 1 ltac:(lia)) as E1.
  pose proof (word_byte a v m 2 ltac:(lia)) as E2. pose proof (word_byte a v m 3 ltac:(lia)) as E3.
  change (Z.of_nat 0) with 0 in E0. change (Z.of_nat 1) with 1 in E1. change (Z.of_nat 2) with 2 in E2. change (Z.of_nat 3) with 3 in E3.
  rewrite Z.add_0_r in E0. rewrite E0, E1, E2, E3.
  change (256 ^ 0) with 1. change (256 ^ 1) with 256. change (256 ^ 2) with 65536. change (256 ^ 3) with 16777216.
  rewrite Z.div_1_r. now apply word_of_bytes.
Qed.

(** Globals after [n] checks, none failed. *)
Definition ga (n : Z) : at_glob := with_checks (u64 n) at_boot.
Lemma ga_next n : with_checks (u64 (u64 n + 1)) (ga n) = ga (n + 1).
Proof. unfold ga, with_checks. cbn [at_save at_fails at_mismatches hist overflow at_checks]. f_equal. unfold u64. apply Zplus_mod_idemp_l. Qed.

Lemma aaa_check_runs b msg h n : b = true -> runs_ (aaa_check b msg) h (ga n) tt [] h (ga (n + 1)).
Proof. intros ->. unfold aaa_check. do 2 xstep. cbn [at_checks ga with_checks]. rewrite ga_next. apply runs_when_false. Qed.

(** The words other than the one at [a] are left alone. *)
Definition only_word (a : Z) (h h' : H) : Prop :=
  forall b, a + 4 <= b \/ b + 4 <= a -> ld_bytes 4 b (a_mem h') = ld_bytes 4 b (a_mem h).

Lemma amo_iter_runs a incr i e s fb m h n : a_mem h = st_bytes 4 a e m -> 0 <= e -> 0 <= incr -> e + incr < 2 ^ 32 ->
  exists h' m', runs_ (amo_iter a incr i (AmoSt e s false fb)) h (ga n) (AmoSt (e + incr) (u64 (s + e)) false fb) [] h' (ga (n + 1)) /\
    a_mem h' = st_bytes 4 a (e + incr) m' /\ only_word a h h'.
Proof.
  intros Hm He Hi Hs. destruct (amoadd_spec a incr h) as [E Em].
  assert (ld_bytes 4 a (a_mem h) = e) as Ew by (rewrite Hm; apply word_same; lia). rewrite Ew in E, Em.
  assert (u32 (e + incr) = e + incr) as Eu by (apply Z.mod_small; lia). rewrite Eu in Em.
  exists (amoadd a incr h).2, (a_mem h). split_and!; [|exact Em|].
  - unfold amo_iter, amoadd_w. eapply runs_conv.
    + eapply runs_bind0; [eapply runs_bind0; [apply runs_hw_read|apply runs_ret]|]. cbn beta. rewrite E, u32_sext by lia.
      eapply runs_bind0; [apply runs_gget|]. eapply runs_bind0; [apply runs_gset|]. cbn [at_checks ga with_checks]. cbv zeta.
      rewrite ga_next. cbn [expected asum bad_seen first_bad]. rewrite Z.eqb_refl. cbn [negb andb orb].
      eapply runs_bind0; [apply runs_when_false|]. apply runs_ret.
    + now rewrite Eu.
    + reflexivity.
    + reflexivity.
    + reflexivity.
  - intros b Hb. rewrite Em. apply word_other. lia.
Qed.

(** [k (k - 1) / 2] *)
Fixpoint tri (k : nat) : Z := match k with O => 0 | S k => tri k + Z.of_nat k end.
Lemma tri_closed k : 2 * tri k = Z.of_nat k * (Z.of_nat k - 1).
Proof. induction k as [|k IH]; [reflexivity|]. cbn [tri]. lia. Qed.

(** The whole loop: every old value as expected, so their sum is the series. *)
Lemma amo_loop_runs a incr l e s fb m h n : a_mem h = st_bytes 4 a e m -> 0 <= e -> 0 <= incr ->
  e + Z.of_nat (length l) * incr < 2 ^ 32 ->
  exists h' m', runs_ (for_acc l (AmoSt e (u64 s) false fb) (amo_iter a incr)) h (ga n)
      (AmoSt (e + Z.of_nat (length l) * incr) (u64 (s + Z.of_nat (length l) * e + incr * tri (length l))) false fb) [] h'
      (ga (n + Z.of_nat (length l))) /\
    a_mem h' = st_bytes 4 a (e + Z.of_nat (length l) * incr) m' /\ only_word a h h'.
Proof.
  revert e s m h n. induction l as [|i l IH]; intros e s m h n Hm He Hi Hs.
  { exists h, m. cbn [length Z.of_nat]. rewrite Z.mul_0_l, !Z.add_0_r. split_and!; [|exact Hm|now intros b _].
    eapply runs_conv; [apply runs_ret| |reflexivity..]. f_equal. f_equal. cbn [tri]. lia. }
  cbn [length] in *. rewrite Nat2Z.inj_succ in *.
  destruct (amo_iter_runs a incr i e (u64 s) fb m h n Hm He Hi ltac:(nia)) as (h1 & m1 & Hrun & Hm1 & Ho1).
  destruct (IH (e + incr) (s + e) m1 h1 (n + 1) Hm1 ltac:(lia) Hi ltac:(nia)) as (h2 & m2 & Hrest & Hm2 & Ho2).
  exists h2, m2. split_and!.
  - cbn [for_acc]. eapply runs_bind0; [exact Hrun|]. replace (u64 (u64 s + e)) with (u64 (s + e)) by (unfold u64; now rewrite Zplus_mod_idemp_l).
    eapply runs_conv; [exact Hrest| |reflexivity..|].
    + cbn [tri]. f_equal; [lia|]. f_equal. lia.
    + f_equal. lia.
  - rewrite Hm2. f_equal. lia.
  - intros b Hb. rewrite Ho2, Ho1 by exact Hb. reflexivity.
Qed.

Context (trap_entry save_addr cell cell_b : Z).
Hypothesis Hapart : cell + 4 <= cell_b \/ cell_b + 4 <= cell.

Lemma aaa_control_runs h n : exists h',
  runs_ (aaa_control cell cell_b) h (ga n) tt (lit "control: aligned load/store roundtrip: ok\n") h' (ga (n + 1)).
Proof.
  exists (a_st 4 cell_b 0x5A5A5A5A (a_st 4 cell 0xA5A5A5A5 h)). unfold aaa_control.
  do 2 (eapply runs_bind0; [apply runs_vol_st|]). eapply runs_bind0; [apply runs_vol_ld|]. cbn beta.
  rewrite !a_st_spec, word_other, word_same by lia. rewrite Z.eqb_refl.
  eapply runs_bind0; [eapply runs_bind0; [apply runs_vol_ld|apply runs_ret]|]. cbn beta. rewrite !a_st_spec, word_same by lia.
  eapply runs_bind0; [apply aaa_check_runs; reflexivity|]. xstep.
Qed.

Lemma aaa_phase_a_runs h n : exists cyc h', is_u64 cyc /\ ld_bytes 4 cell (a_mem h') = 0x10002710 /\
  runs_ (aaa_phase_a cell) h (ga n) (0x10002710, 0)
    (lit "phase A: final=0x10002710 expected=0x10002710 cycles=" ++ fmt_dec cyc ++ lit "\n") h' (ga (n + 10003)).
Proof.
  set (h1 := a_st 4 cell BASE_A h). set (h2 := (csr_rd "cycle" h1).2).
  assert (a_mem h2 = st_bytes 4 cell BASE_A (a_mem h)) as Hm2.
  { subst h2 h1. rewrite (proj1 (a_csr_rd "cycle" _)). apply a_st_spec. }
  assert (Z.of_nat (length (seq 0 N_A)) = 10000) as El by (rewrite length_seq; reflexivity).
  destruct (amo_loop_runs cell 1 (seq 0 N_A) BASE_A 0 0 _ h2 n Hm2) as (h3 & m3 & Hrun & Hm3 & _);
    [unfold BASE_A; lia|lia|rewrite El; unfold BASE_A; lia|].
  rewrite El in Hrun, Hm3. change (BASE_A + 10000 * 1) with 0x10002710 in Hrun, Hm3.
  assert (2 * tri (length (seq 0 N_A)) = 10000 * 9999) as Et by (rewrite tri_closed, El; reflexivity).
  replace (0 + 10000 * BASE_A + 1 * tri (length (seq 0 N_A))) with (10000 * BASE_A + 10000 * 9999 / 2) in Hrun
    by (change (10000 * 9999 / 2) with 49995000; lia).
  set (h4 := (csr_rd "cycle" h3).2).
  assert (a_mem h4 = st_bytes 4 cell 0x10002710 m3) as Hm4 by (subst h4; now rewrite (proj1 (a_csr_rd "cycle" _))).
  exists (u64 ((csr_rd "cycle" h3).1 - (csr_rd "cycle" h1).1)), h4.
  split_and!; [apply u64_range..|rewrite Hm4; apply word_same; lia|].
  unfold aaa_phase_a, read_cycle. eapply runs_conv.
  - eapply runs_bind0; [apply runs_vol_st|]. eapply runs_bind0; [apply runs_csrr|]. eapply runs_bind0; [exact Hrun|].
    eapply runs_bind0; [apply runs_csrr|]. cbv zeta. fold h1 h4.
    eapply runs_bind0; [apply runs_when_false|]. cbn [asum first_bad]. change (Z.of_nat N_A) with 10000.
    eapply runs_bind0; [apply aaa_check_runs; reflexivity|]. eapply runs_bind0; [apply runs_vol_ld|]. cbn beta.
    rewrite Hm4, word_same by lia. eapply runs_bind0; [apply aaa_check_runs; reflexivity|].
    eapply runs_bind0; [eapply ref_lw4_runs; [exact Hm4|lia]|]. eapply runs_bind0; [apply aaa_check_runs; reflexivity|].
    do 5 xstep. eapply runs_bind; [apply runs_prints, prints_dec, u64_range|]. xrun.
  - reflexivity.
  - generalize (fmt_dec (u64 ((csr_rd "cycle" h3).1 - (csr_rd "cycle" h1).1))). intros. rewrite <-?app_assoc. vm_compute. reflexivity.
  - reflexivity.
  - f_equal. lia.
Qed.

Lemma aaa_phase_b_runs h n v : ld_bytes 4 cell (a_mem h) = v -> exists h', ld_bytes 4 cell_b (a_mem h') = 0x200002bc /\
  ld_bytes 4 cell (a_mem h') = v /\
  runs_ (aaa_phase_b cell_b 0) h (ga n) 0x200002bc (lit "phase B: final=0x200002bc expected=0x200002bc\n") h' (ga (n + 103)).
Proof.
  intros Hv. pose proof (a_st_spec 4 cell_b BASE_B h) as Hm2.
  assert (Z.of_nat (length (seq 0 N_B)) = 100) as El by reflexivity.
  destruct (amo_loop_runs cell_b INCR_B (seq 0 N_B) BASE_B 0 0 _ _ n Hm2) as (h3 & m3 & Hrun & Hm3 & Ho);
    [unfold BASE_B; lia|unfold INCR_B; lia|rewrite El; unfold BASE_B, INCR_B; lia|].
  rewrite El in Hrun, Hm3. change (BASE_B + 100 * INCR_B) with 0x200002bc in Hrun, Hm3.
  exists h3. split_and!; [rewrite Hm3; apply word_same; lia|rewrite Ho, a_st_spec, word_other by lia; exact Hv|].
  unfold aaa_phase_b. eapply runs_conv.
  - eapply runs_bind0; [apply runs_vol_st|]. eapply runs_bind0; [exact Hrun|].
    eapply runs_bind0; [apply runs_when_false|]. cbn [asum first_bad]. cbv zeta.
    eapply runs_bind0; [apply aaa_check_runs; reflexivity|]. eapply runs_bind0; [apply runs_vol_ld|]. cbn beta.
    rewrite Hm3, word_same by lia. eapply runs_bind0; [apply aaa_check_runs; reflexivity|].
    eapply runs_bind0; [eapply ref_lw4_runs; [exact Hm3|lia]|]. eapply runs_bind0; [apply aaa_check_runs; reflexivity|]. xrun.
  - reflexivity.
  - vm_compute. reflexivity.
  - reflexivity.
  - f_equal. lia.
Qed.

Definition aaa_log (hid cyc : Z) : list Z :=
  lit "amo-add-atomicity: amoadd.w read-modify-write semantics\nhart mhartid=" ++ fmt_dec hid ++
  lit "\ncontrol: aligned load/store roundtrip: ok\nphase A: final=0x10002710 expected=0x10002710 cycles=" ++ fmt_dec cyc ++
  lit "\nphase B: final=0x200002bc expected=0x200002bc\ntraps=0\nchecksum=" ++ fmt_hex (fnv1a_64 0x10002710 0x200002bc) ++
  lit " (FNV-1a over the two final cell values)\nsummary: checks=10108 mismatches=0\nRESULT: PASS\ndone\n".

(** [amoadd.w] loses no update.  On every hart with the A extension each
    of the 10000 and of the 100 additions returns the previous total, so the
    sums of the returned values equal the closed forms, the cells end at
    exactly base plus total, read as a word or byte by byte, and all 10108
    checks of the program hold; only the cycle count depends on the hart. *)
Theorem amoadd_loses_nothing u h :
  exists cyc, is_u64 cyc /\
    main_sends (aaa_main trap_entry save_addr cell cell_b) u h at_boot (aaa_log (csr_rd "mhartid" h).1 cyc)
      (fun h' g => at_fails g = 0 /\ at_mismatches g = 0 /\ at_checks g = 10108 /\
         ld_bytes 4 cell (a_mem h') = BASE_A + 10000 /\ ld_bytes 4 cell_b (a_mem h') = BASE_B + 700).
Proof.
  set (h1 := csr_wr "mscratch" save_addr (csr_wr "mtvec" trap_entry (csr_rd "mhartid" h).2)).
  destruct (aaa_control_runs h1 0) as (h2 & Hrun2). destruct (aaa_phase_a_runs h2 1) as (cyc & h3 & Hc & Hv3 & Hrun3).
  destruct (aaa_phase_b_runs h3 10004 _ Hv3) as (h4 & Hv4 & Hw4 & Hrun4).
  exists cyc. split; [exact Hc|]. apply main_sends_intro.
  - eexists _, h4, (ga 10108). split; [|split].
    + unfold aaa_body. change at_boot with (ga 0). do 2 xstep. xstep. eapply halts_bind; [apply runs_prints, prints_dec, a_csr_u64|].
      do 3 xstep. eapply halts_bind; [exact Hrun2|]. eapply halts_bind; [exact Hrun3|]. cbn [fst snd].
      eapply halts_bind; [exact Hrun4|]. eapply halts_bind0; [apply runs_save_word; [reflexivity|lia]|].
      eapply halts_bind0; [apply aaa_check_runs; reflexivity|]. xstep.
      eapply halts_bind0; [apply runs_save_word; [reflexivity|lia]|]. do 12 xstep. apply halts_pass. reflexivity.
    + unfold aaa_log. generalize (fmt_dec (csr_rd "mhartid" h).1) (fmt_dec cyc). intros. rewrite <-?app_assoc. vm_compute. reflexivity.
    + split_and!; [reflexivity..|exact Hw4|exact Hv4].
  - unfold aaa_log. text_bytes.
Qed.
End Amo.

(** ** A hart with one reservation *)

(** Single-word reservations; with [f] every other attempt fails. *)
Record LinkHart (f : bool) : Type := LinkH { l_mem : Z -> Z; l_link : option Z; l_flaky : bool; l_csrs : list (string * Z) }.
Arguments LinkH {f} l_mem l_link l_flaky l_csrs.
Arguments l_mem {f} h : rename.
Arguments l_link {f} h : rename.
Arguments l_flaky {f} h : rename.
Arguments l_csrs {f} h : rename.

Section LinkHart.
Context {f : bool}.

Definition l_st (n : nat) (a x : Z) (h : LinkHart f) : LinkHart f :=
  LinkH (st_bytes n a x (l_mem h)) None (l_flaky h) (l_csrs h).
Definition linked (h : LinkHart f) (a : Z) : bool := match l_link h with Some b => a =? b | None => false end.

#[export] Instance LinkHart_dev : HartDev (LinkHart f) := {
  mr64 a h := (ld_bytes 8 a (l_mem h), h);
  mw64 a x h := l_st 8 a x h;
  mr32 a h := (ld_bytes 4 a (l_mem h), h);
  mw32 a x h := l_st 4 a x h;
  csr_rd c h := (u64 (alookup String.eqb c (l_csrs h)), h);
  csr_wr c x h := LinkH (l_mem h) (l_link h) (l_flaky h) (aupdate String.eqb c x (l_csrs h));
  hw_fuel := 64;
}.

#[export] Instance LinkHart_atom : AtomDev (LinkHart f) := {
  a_ld n a h := ld_bytes n a (l_mem h);
  a_st n a x h := l_st n a x h;
  lr_w a h := LinkH (l_mem h) (Some a) (l_flaky h) (l_csrs h);
  sc_w a x h :=
    if linked h a then
      if f && l_flaky h then (1, LinkH (l_mem h) None false (l_csrs h))
      else (0, LinkH (st_bytes 4 a x (l_mem h)) None true (l_csrs h))
    else (1, LinkH (l_mem h) None (l_flaky h) (l_csrs h));
  amoadd a x h := (sext32 (ld_bytes 4 a (l_mem h)), l_st 4 a (u32 (ld_bytes 4 a (l_mem h) + x)) h);
  atom_fuel := 1;
}.

#[export] Instance LinkHart_spec : AtomSpec (LinkHart f).
Proof.
  refine {| a_mem := l_mem; a_res := linked; patience h := if f && l_flaky h then 1%nat else 0%nat |}; try (now intros).
  - intros h. cbn [atom_fuel LinkHart_atom]. destruct (f && l_flaky h); lia.
  - intros a h. cbn [lr_w LinkHart_atom]. unfold linked. cbn [l_mem l_link l_flaky]. rewrite Z.eqb_refl. auto.
  - intros a x h. cbn [sc_w LinkHart_atom]. repeat case_match; u64c.
  - intros a x h y. cbn [sc_w LinkHart_atom]. repeat case_match; reflexivity.
  - intros a x h. cbn [sc_w LinkHart_atom]. repeat case_match; cbn; auto; discriminate.
  - intros a x h. cbn [sc_w LinkHart_atom]. destruct (linked h a) eqn:El, (f && l_flaky h) eqn:Ef; cbn; intros; split; auto; try discriminate; try lia.
    rewrite andb_false_r. lia.
  - intros c h. apply u64_range.
Defined.
End LinkHart.

(** ** The theorems at work *)

Definition link_boot (f : bool) : LinkHart f := LinkH (fun _ => 0) None true [].



Lemma amoadd_loses_nothing_witness :
  exists cyc, is_u64 cyc /\
    main_sends (U:=LogUart) (aaa_main 0x80000100 0x80001000 0x80002000 0x80002004) (LogU [] []) (link_boot false) at_boot
      (aaa_log 0 cyc) (fun h' g => at_fails g = 0 /\ at_checks g = 10108).
Proof.
  destruct (amoadd_loses_nothing (U:=LogUart) (H:=LinkHart false) 0x80000100 0x80001000 0x80002000 0x80002004
    ltac:(left; lia) (LogU [] []) (link_boot false)) as (cyc & Hc & u' & h' & g' & E & Ht & Hr & Hf & _ & Hk & _).
  exists cyc. split; [exact Hc|]. exists u', h', g'. auto.
Defined.
