(* ===== verification/Warl.v ===== *)
(** * The menvcfg write probes

    The four programs that write menvcfg, read it back and judge the
    legalised value: src/menvcfg-stce-write/, menvcfg-pbmte-write/,
    menvcfg-cbie-write/ and menvcfg-cbze-write/.  A CSR is known by how it
    legalises ([legal], any function of the old value and the written one),
    so each run is described on every hart, and the verdict is a list of
    comparisons of what was read back.  The trap entries of these programs
    run only if a CSR access traps, which on such a hart none does. *)

From Stdlib Require Import ZArith Lia String.
From stdpp Require Import base list.
From S2P Require Import Prelude Uart Hart Run View Pmp PmpEdge.

(** ** A hart's CSR file *)

(** The registers the probes use, and which pairs do not affect each other:
    a write of misa may change what extensions the others belong to. *)
Definition warl_csrs : list string :=
  ["mtvec"; "mscratch"; "menvcfg"; "misa"; "mideleg"; "medeleg"; "mstatus"; "mie"; "mcause"; "mepc"; "mtval"; "sepc"]%string.
Definition is_csr (c : string) : bool := existsb (String.eqb c) warl_csrs.
Definition indep (c c' : string) : bool :=
  is_csr c && is_csr c' && negb (String.eqb c c') &&
  (if String.eqb c "misa" then String.eqb c' "mtvec" || String.eqb c' "mscratch" else true).

Class WarlSpec (H : Type) `{!HartDev H} : Type := {
  cval : string -> H -> Z;
  legal : string -> Z -> Z -> Z;
  legal_u64 c o x : is_u64 (legal c o x);
  cval_u64 c h : is_u64 (cval c h);
  cval_rd c h : is_csr c = true -> (csr_rd c h).1 = cval c h;
  cval_rd_keeps c c' h : cval c (csr_rd c' h).2 = cval c h;
  cval_wr c x h : is_csr c = true -> cval c (csr_wr c x h) = legal c (cval c h) x;
  cval_wr_other c c' x h : indep c c' = true -> cval c' (csr_wr c x h) = cval c' h;
  (** the last word written to the test device *)
  test_dev : H -> Z;
  test_dev_rd c h : test_dev (csr_rd c h).2 = test_dev h;
  test_dev_wr c x h : test_dev (csr_wr c x h) = test_dev h;
  test_dev_mw x h : test_dev (mw32 VIRT_TEST_FINISHER x h) = x;
  cval_mw c x h : cval c (mw32 VIRT_TEST_FINISHER x h) = cval c h;
}.

(** What a probe of register [c] can see of a hart. *)
Record cview : Type := CV { cv_mtvec : Z; cv_csr : Z; cv_test : Z }.
Definition cv `{WarlSpec H} (c : string) (h : H) : cview := CV (cval "mtvec" h) (cval c h) (test_dev h).

(** ** What the programs share *)

Definition MENVCFG_STCE : Z := Z.shiftl 1 63.
Definition MENVCFG_PBMTE : Z := Z.shiftl 1 62.
Definition MENVCFG_CBIE_MASK : Z := 0x30.
Definition MENVCFG_CBZE_MASK : Z := 0xC0.
Definition ALL_ONES : Z := u64 (Z.lnot 0).

Definition warl_boot : pglob := PGlob (replicate 8 0) 0 0 FNV_BASIS.

Section Program.
Context {U H : Type} `{!UartDev U, !HartDev H}.
Abbreviation W := (world U H pglob).
Context (trap_entry : Z).

Definition wcheck (cond : bool) (msg : string) : prog W unit :=
  n <- gget checks ;; gset_ (set_checks (n + 1)) ;;
  when (negb cond)
    (uputs "  FAIL: " ;; uputs msg ;; uputs "\n" ;;
     n <- gget fails ;; gset_ (set_fails (n + 1))).

(** [cks_feed] is [PmpEdge.fold]. *)
Definition cks_feed (v : Z) : prog W unit := fold v.

Definition hex_digit (d : Z) : Z := if d <? 10 then 48 + d else 97 + d - 10.
Definition uart_put_hex64 (v : Z) : prog W unit :=
  uputs "0x" ;;
  for_each (rev (seq 0 16)) (fun i => uart_putc (hex_digit (Z.land (Z.shiftr v (4 * Z.of_nat i)) 0xf))).

Definition read_menvcfg : prog W Z := csrr "menvcfg".
Definition write_menvcfg (v : Z) : prog W unit := csrw "menvcfg" v.

(** ** The menvcfg programs: banner and boot value *)

Definition menv_banner (title : string) : prog W unit :=
  uputs "\n========================================\n" ;;
  uputs title ;;
  uputs "========================================\n\n" ;;
  csrw "mtvec" trap_entry.

(** The field as the boot line prints it. *)
Definition menv_boot (label : string) (shift mask : Z) : prog W Z :=
  boot <- read_menvcfg ;;
  uputs "boot: menvcfg=" ;; uart_put_hex boot ;;
  uputs label ;; uart_put_dec (Z.land (Z.shiftr boot shift) mask) ;; uputs "\n" ;;
  cks_feed boot ;;
  ret boot.

(** Write all ones twice; both readbacks. *)
Definition menv_ones : prog W (Z * Z) :=
  write_menvcfg ALL_ONES ;;
  warl1 <- read_menvcfg ;;
  write_menvcfg ALL_ONES ;;
  warl2 <- read_menvcfg ;;
  uputs "warl: write all-ones; legalized readback (1st)=" ;; uart_put_hex warl1 ;;
  uputs "\nwarl: write all-ones; legalized readback (2nd)=" ;; uart_put_hex warl2 ;; uputs "\n" ;;
  ret (warl1, warl2).

Definition menv_stable (boot warl1 warl2 : Z) : prog W unit :=
  wcheck (Z.land warl1 boot =? boot) "WARL probe: bits set at boot vanished under all-ones write" ;;
  wcheck (warl2 =? warl1) "WARL probe: all-ones legalization not stable across two writes" ;;
  cks_feed warl1 ;;
  cks_feed warl2.

Definition menv_restore (boot : Z) (msg : string) : prog W unit :=
  write_menvcfg boot ;;
  rst_rb <- read_menvcfg ;;
  uputs "restore: write boot=" ;; uart_put_hex boot ;;
  uputs " readback=" ;; uart_put_hex rst_rb ;; uputs "\n" ;;
  wcheck (rst_rb =? boot) msg ;;
  cks_feed rst_rb.

Definition finisher : prog W unit := write32 VIRT_TEST_FINISHER FINISHER_PASS.

(** Trap count, checksum, counts, verdict. *)
Definition menv_tail : prog W unit :=
  s <- gget save ;; traps <- arr_get s 4 ;;
  uputs "traps recorded by the handler: " ;; uart_put_dec traps ;; uputs "\n" ;;
  wcheck (traps =? 0) "unexpected trap fired during the run" ;;
  uputs "\nchecksum (FNV-1a over the write/readback pairs) = " ;; c <- gget csum ;; uart_put_hex64 c ;; uputs "\n" ;;
  uputs "checks: " ;; n <- gget checks ;; uart_put_dec (u64 n) ;;
  uputs "  mismatches: " ;; n <- gget fails ;; uart_put_dec (u64 n) ;; uputs "\n" ;;
  n <- gget fails ;; uputs (if n =? 0 then "RESULT: PASS\n" else "RESULT: FAIL\n") ;;
  n <- gget fails ;; when (n =? 0) finisher ;;
  park.

(** ** msw_main.c (STCE) *)

Definition stce_set (boot : Z) : prog W unit :=
  let set_w := Z.lor boot MENVCFG_STCE in
  write_menvcfg set_w ;;
  set_rb <- read_menvcfg ;;
  uputs "set: write boot|STCE=" ;; uart_put_hex set_w ;; uputs " readback=" ;; uart_put_hex set_rb ;; uputs "\n" ;;
  wcheck (set_rb =? set_w) "STCE set probe: readback != write (bit did not stick exactly, or other bits changed)" ;;
  cks_feed set_rb.

Definition stce_clear (boot : Z) : prog W unit :=
  let clr_w := Z.land boot (u64 (Z.lnot MENVCFG_STCE)) in
  write_menvcfg clr_w ;;
  clr_rb <- read_menvcfg ;;
  uputs "clear: write boot&~STCE=" ;; uart_put_hex clr_w ;; uputs " readback=" ;; uart_put_hex clr_rb ;; uputs "\n" ;;
  wcheck (clr_rb =? clr_w) "STCE clear probe: readback != write (bit did not clear exactly, or other bits changed)" ;;
  cks_feed clr_rb.

Definition stce_body : prog W unit :=
  menv_banner "menvcfg.STCE write/readback: set, clear, WARL legalize\n" ;;
  boot <- menv_boot " STCE(bit63)=" 63 1 ;;
  stce_set boot ;;
  stce_clear boot ;;
  w <- menv_ones ;;
  wcheck (negb (Z.land w.1 MENVCFG_STCE =? 0)) "WARL probe: STCE bit did not read back set on all-ones write" ;;
  menv_stable boot w.1 w.2 ;;
  menv_restore boot "restore: menvcfg did not read back the boot value" ;;
  menv_tail.
Definition stce_main : prog W unit := uart_init ;; stce_body.

(** ** mpw_main.c (PBMTE) *)

Definition pbmte_set (boot : Z) : prog W bool :=
  let set_w := Z.lor boot MENVCFG_PBMTE in
  write_menvcfg set_w ;;
  set_rb <- read_menvcfg ;;
  let pbmte_stuck := negb (Z.land set_rb MENVCFG_PBMTE =? 0) in
  uputs "set: write boot|PBMTE=" ;; uart_put_hex set_w ;; uputs " readback=" ;; uart_put_hex set_rb ;;
  uputs " PBMTE(bit62)=" ;; uart_put_dec (Z.land (Z.shiftr set_rb 62) 1) ;; uputs "\n" ;;
  wcheck (Z.land set_rb (u64 (Z.lnot MENVCFG_PBMTE)) =? Z.land set_w (u64 (Z.lnot MENVCFG_PBMTE)))
    "PBMTE set probe: bits other than bit 62 changed under the write" ;;
  cks_feed set_rb ;;
  ret pbmte_stuck.

Definition pbmte_clear (boot : Z) : prog W unit :=
  let clr_w := Z.land boot (u64 (Z.lnot MENVCFG_PBMTE)) in
  write_menvcfg clr_w ;;
  clr_rb <- read_menvcfg ;;
  uputs "clear: write boot&~PBMTE=" ;; uart_put_hex clr_w ;; uputs " readback=" ;; uart_put_hex clr_rb ;; uputs "\n" ;;
  wcheck (clr_rb =? clr_w) "PBMTE clear probe: readback != write (boot value not restored exactly)" ;;
  cks_feed clr_rb.

Definition pbmte_body : prog W unit :=
  menv_banner "menvcfg.PBMTE write/readback: set, clear, WARL legalize\n" ;;
  boot <- menv_boot " PBMTE(bit62)=" 62 1 ;;
  pbmte_stuck <- pbmte_set boot ;;
  pbmte_clear boot ;;
  w <- menv_ones ;;
  (if (pbmte_stuck : bool)
   then wcheck (negb (Z.land w.1 MENVCFG_PBMTE =? 0)) "WARL probe: PBMTE bit did not read back set on all-ones write"
   else uputs "  note: PBMTE not implemented on this hart (set probe did not stick); survival skipped\n") ;;
  menv_stable boot w.1 w.2 ;;
  menv_restore boot "restore: menvcfg did not read back the boot value" ;;
  menv_tail.
Definition pbmte_main : prog W unit := uart_init ;; pbmte_body.

(** ** cbie_main.c and mcw_main.c: a two-bit field *)

(** One value of the field: the name as printed, what is appended to [base],
    the message. *)
Definition field_probe (name : string) (v w : Z) (msg : string) : prog W unit :=
  write_menvcfg w ;;
  rb <- read_menvcfg ;;
  uputs name ;; uart_put_dec v ;; uputs ": write=" ;; uart_put_hex w ;; uputs " readback=" ;; uart_put_hex rb ;; uputs "\n" ;;
  wcheck (rb =? w) msg ;;
  cks_feed rb.

(** The last write, with the value zero, has its name in one string. *)
Definition field_zero (name : string) (w : Z) (msg : string) : prog W unit :=
  write_menvcfg w ;;
  rb <- read_menvcfg ;;
  uputs name ;; uart_put_hex w ;; uputs " readback=" ;; uart_put_hex rb ;; uputs "\n" ;;
  wcheck (rb =? w) msg ;;
  cks_feed rb.

Definition cbie_msg (v : Z) : string :=
  if v =? 1 then "CBIE=1 probe: readback != write (field did not stick exactly, or other bits changed)"
  else if v =? 2 then "CBIE=2 probe: readback != write (field did not stick exactly, or other bits changed)"
  else "CBIE=3 probe: readback != write (field did not stick exactly, or other bits changed)".

Definition cbie_body : prog W unit :=
  menv_banner "menvcfg.CBIE (bits 5:4) write/readback WARL probe\n" ;;
  boot <- menv_boot " CBIE(bits5:4)=" 4 3 ;;
  let base := Z.land boot (u64 (Z.lnot MENVCFG_CBIE_MASK)) in
  for_each [1; 2; 3] (fun v => field_probe "cbie=" v (Z.lor base (u64 (Z.shiftl v 4))) (cbie_msg v)) ;;
  field_zero "cbie=0: write=" base "CBIE=0 probe: readback != write (field did not clear exactly, or other bits changed)" ;;
  w <- menv_ones ;;
  wcheck (Z.land w.1 MENVCFG_CBIE_MASK =? MENVCFG_CBIE_MASK)
    "WARL probe: CBIE field did not read back all-set on all-ones write" ;;
  menv_stable boot w.1 w.2 ;;
  menv_restore boot "restore: menvcfg did not read back the boot value exactly" ;;
  menv_tail.
Definition cbie_main : prog W unit := uart_init ;; cbie_body.

Definition cbze_msg (v : Z) : string :=
  if v =? 1 then "CBZE=1 probe: readback != write (field did not stick exactly, or other bits changed)"
  else if v =? 2 then "CBZE=2 probe: readback != write (field did not stick exactly, or other bits changed)"
  else "CBZE=3 probe: readback != write (field did not stick exactly, or other bits changed)".

Definition cbze_body : prog W unit :=
  menv_banner "menvcfg.CBZE (bits 7:6) write/readback WARL probe\n" ;;
  boot <- menv_boot " CBZE(bits7:6)=" 6 3 ;;
  let base := Z.land boot (u64 (Z.lnot MENVCFG_CBZE_MASK)) in
  for_each [1; 2; 3] (fun v => field_probe "cbze=" v (Z.lor base (u64 (Z.shiftl v 6))) (cbze_msg v)) ;;
  field_zero "cbze=0: write=" base "CBZE=0 probe: readback != write (field did not clear exactly, or other bits changed)" ;;
  w <- menv_ones ;;
  wcheck (Z.land w.1 MENVCFG_CBZE_MASK =? MENVCFG_CBZE_MASK)
    "WARL probe: CBZE field did not read back all-set on all-ones write" ;;
  menv_stable boot w.1 w.2 ;;
  menv_restore boot "restore: menvcfg did not read back the boot value exactly" ;;
  menv_tail.
Definition cbze_main : prog W unit := uart_init ;; cbze_body.
End Program.

(** ** Words *)

Lemma u64_bits x : is_u64 x <-> 0 <= x /\ Z.land x (Z.ones 64) = x.
Proof.
  unfold is_u64. rewrite Z.land_ones by lia. split.
  - intros Hx. split; [lia|]. now apply Z.mod_small.
  - intros [H0 E]. pose proof (Z.mod_pos_bound x (2 ^ 64)). lia.
Qed.
Lemma lor_u64 x y : is_u64 x -> is_u64 y -> is_u64 (Z.lor x y).
Proof.
  rewrite !u64_bits. intros [Hx Ex] [Hy Ey]. split; [now apply Z.lor_nonneg|]. now rewrite Z.land_lor_distr_l, Ex, Ey.
Qed.
Lemma land_u64 x y : is_u64 x -> 0 <= y -> is_u64 (Z.land x y).
Proof.
  rewrite !u64_bits. intros [Hx Ex] Hy. split; [apply Z.land_nonneg; lia|].
  now rewrite <-Z.land_assoc, (Z.land_comm y), Z.land_assoc, Ex.
Qed.
Lemma shiftr_u64 x n : is_u64 x -> 0 <= n -> is_u64 (Z.shiftr x n).
Proof.
  unfold is_u64. intros Hx Hn. rewrite Z.shiftr_div_pow2 by exact Hn. pose proof (Z.pow_pos_nonneg 2 n ltac:(lia) Hn).
  split; [apply Z.div_pos; lia|]. apply Z.div_lt_upper_bound; [lia|]. nia.
Qed.
#[export] Hint Resolve lor_u64 land_u64 shiftr_u64 legal_u64 cval_u64 : word.
#[export] Hint Extern 5 (0 <= _) => (apply u64_range || (vm_compute; discriminate)) : word.
#[export] Hint Extern 5 (is_u64 _) => u64c : word.

(** ** Rules *)

(** What [wcheck] prints, and the tally after checks with results [bs] and
    the values [L] fed. *)
Definition chk (b : bool) (msg : string) : list Z := if b then [] else lit "  FAIL: " ++ lit msg ++ lit "\n".
Definition nfalse (bs : list bool) : Z := Z.of_nat (length (filter (fun b => b = false) bs)).
Definition wg (bs : list bool) (L : list Z) : pglob := PGlob (replicate 8 0) (nfalse bs) (Z.of_nat (length bs)) (fnv L).

Lemma nfalse_snoc bs b : nfalse (bs ++ [b]) = nfalse bs + (if b then 0 else 1).
Proof. unfold nfalse. rewrite filter_app, length_app, Nat2Z.inj_add. now destruct b. Qed.

Lemma nfalse_zero bs : (nfalse bs =? 0) = forallb id bs.
Proof.
  unfold nfalse. induction bs as [|[] bs IH]; [reflexivity| |]; rewrite filter_cons; cbn [forallb id andb].
  - rewrite decide_False by discriminate. exact IH.
  - rewrite decide_True by reflexivity. reflexivity.
Qed.

Lemma nfalse_bound bs : 0 <= nfalse bs <= Z.of_nat (length bs).
Proof. unfold nfalse. pose proof (length_filter (fun b => b = false) bs). lia. Qed.

Definition fmt_hex64 (v : Z) : list Z :=
  lit "0x" ++ map (fun i => hex_digit (Z.land (Z.shiftr v (4 * Z.of_nat i)) 0xf)) (rev (seq 0 16)).

Lemma hex_digit_byte x : 0 <= hex_digit (Z.land x 0xf) < 256.
Proof.
  assert (0 <= Z.land x 0xf <= 0xf) as Hd.
  { change 0xf with (Z.ones 4). rewrite Z.land_ones by lia. pose proof (Z.mod_pos_bound x (2 ^ 4)). change (Z.ones 4) with 15. lia. }
  unfold hex_digit. destruct (Z.ltb_spec (Z.land x 0xf) 10); lia.
Qed.

Lemma fmt_hex64_bytes v : Forall (fun c => 0 <= c < 256) (fmt_hex64 v).
Proof.
  unfold fmt_hex64. apply Forall_app. split; [apply bytes_range|]. apply Forall_forall. intros c Hc.
  apply list_elem_of_fmap in Hc as (i & -> & _). apply hex_digit_byte.
Qed.

Lemma chk_bytes b msg : Forall (fun c => 0 <= c < 256) (chk b msg).
Proof. unfold chk. destruct b; text_bytes. Qed.

Ltac warl_bytes :=
  text_bytes; lazymatch goal with
  | |- Forall _ (chk _ _) => apply chk_bytes
  | |- Forall _ (fmt_hex64 _) => apply fmt_hex64_bytes
  | |- Forall _ (if ?b then _ else _) => destruct b; warl_bytes
  | |- _ => assumption
  end.

Lemma concat_singles {A} (f : A -> Z) l : concat (map (fun x => [f x]) l) = map f l.
Proof. induction l as [|x l IH]; [reflexivity|]. cbn [map concat app]. now rewrite IH. Qed.

Section Rules.
Context {U H : Type} `{!UartDev U, !UartSpec U, !HartDev H, !WarlSpec H}.
(** The register under test. *)
Context (c : string).
Hypothesis Hc : is_csr c = true.
Hypothesis Hct : indep c "mtvec" = true.
Hypothesis Htc : indep "mtvec" c = true.
Abbreviation vr := (vruns (U:=U) (H:=H) (G:=pglob) (cv c)).

Lemma wcheck_runs b msg v bs L : no_nul (c_lit msg) = true ->
  vr (wcheck b msg) v (wg bs L) tt (chk b msg) v (wg (bs ++ [b]) L).
Proof.
  intros Hm. unfold wcheck. eapply vruns_bind0; [apply vruns_gget|]. eapply vruns_bind0; [apply vruns_gset; reflexivity|].
  assert (forall n, n + 1 = Z.of_nat (length (bs ++ [b])) -> set_checks (n + 1) (wg bs L) =
    PGlob (replicate 8 0) (nfalse bs) (Z.of_nat (length (bs ++ [b]))) (fnv L)) as E by (intros n Hn; now rewrite Hn).
  rewrite E by (cbn [checks wg]; rewrite length_app; cbn [length]; lia). destruct b; cbn [negb].
  - eapply vruns_conv; [now apply vruns_unless|reflexivity..|]. unfold wg. rewrite nfalse_snoc. f_equal. lia.
  - eapply vruns_when; [|reflexivity]. eapply vruns_conv.
    + eapply vruns_bind; [vprim|]. eapply vruns_bind; [apply vruns_prints, prints_lit, Hm|]. eapply vruns_bind; [vprim|].
      eapply vruns_bind0; [apply vruns_gget|]. apply vruns_gset. reflexivity.
    + reflexivity.
    + unfold chk. rewrite app_nil_r. reflexivity.
    + reflexivity.
    + unfold wg, set_fails. cbn [save fails checks csum]. now rewrite nfalse_snoc.
Qed.

Lemma cks_feed_runs x v bs L : vr (cks_feed x) v (wg bs L) tt [] v (wg bs (L ++ [x])).
Proof.
  unfold cks_feed, fold, wg, fnv. rewrite fold_left_app. cbn [fold_left].
  generalize (fold_left fnv_word L FNV_BASIS). intros c0. unfold fnv_word. revert c0.
  generalize (seq 0 8) (nfalse bs) (Z.of_nat (length bs)). intros l k n. induction l as [|i l IH]; intros c0; [apply vruns_ret|].
  cbn [for_each fold_left]. eapply vruns_bind0; [do 4 vstep|]. apply IH.
Qed.

Lemma hex64_runs x v g : vr (uart_put_hex64 x) v g tt (fmt_hex64 x) v g.
Proof.
  unfold uart_put_hex64, fmt_hex64. eapply vruns_bind; [vprim|]. apply vruns_prints. rewrite <-concat_singles.
  apply prints_for. intros i _. apply prints_putc.
Qed.

Lemma read_runs v g : vr (csrr c) v g (cv_csr v) [] v g.
Proof.
  intros u h <-. exists (csr_rd c h).2. unfold cv. rewrite !cval_rd_keeps, test_dev_rd, csrr_eq, (cval_rd c h Hc). auto.
Qed.
Lemma write_runs x v g : vr (csrw c x) v g tt [] (CV (cv_mtvec v) (legal c (cv_csr v) x) (cv_test v)) g.
Proof.
  intros u h <-. exists (csr_wr c x h). split; [reflexivity|]. unfold cv. cbn [cv_mtvec cv_csr cv_test].
  now rewrite cval_wr, test_dev_wr, cval_wr_other by assumption.
Qed.
Lemma mtvec_write_runs x v g : vr (csrw "mtvec" x) v g tt [] (CV (legal "mtvec" (cv_mtvec v) x) (cv_csr v) (cv_test v)) g.
Proof.
  intros u h <-. exists (csr_wr "mtvec" x h). split; [reflexivity|]. unfold cv. cbn [cv_mtvec cv_csr cv_test].
  now rewrite cval_wr, test_dev_wr, cval_wr_other by (reflexivity || assumption).
Qed.
Lemma finisher_runs v g : vr finisher v g tt [] (CV (cv_mtvec v) (cv_csr v) FINISHER_PASS) g.
Proof.
  intros u h <-. exists (mw32 VIRT_TEST_FINISHER FINISHER_PASS h). split; [reflexivity|]. unfold cv. cbn [cv_mtvec cv_csr].
  now rewrite test_dev_mw, !cval_mw.
Qed.
End Rules.

(** ** The menvcfg programs *)

Section Menv.
Context {U H : Type} `{!UartDev U, !UartSpec U, !HartDev H, !WarlSpec H} (trap_entry : Z).
Abbreviation vr := (vruns (U:=U) (H:=H) (G:=pglob) (cv "menvcfg")).

Lemma vr_read_menvcfg t v d g : vr read_menvcfg (CV t v d) g v [] (CV t v d) g.
Proof. apply (read_runs (U:=U) "menvcfg" eq_refl). Qed.
Lemma vr_write_menvcfg x t v d g : vr (write_menvcfg x) (CV t v d) g tt [] (CV t (legal "menvcfg" v x) d) g.
Proof. apply (write_runs (U:=U) "menvcfg" eq_refl eq_refl x (CV t v d)). Qed.

Ltac menv_prim :=
  lazymatch goal with
  | |- vruns _ read_menvcfg _ _ _ _ _ _ => apply vr_read_menvcfg
  | |- vruns _ (write_menvcfg _) _ _ _ _ _ _ => apply vr_write_menvcfg
  | |- vruns _ (cks_feed _) _ _ _ _ _ _ => apply cks_feed_runs
  | |- vruns _ (wcheck _ _) _ _ _ _ _ _ => apply wcheck_runs; reflexivity
  | |- vruns _ (uart_put_hex64 _) _ _ _ _ _ _ => apply hex64_runs
  | |- vruns _ (uputs _) _ _ _ _ _ _ => apply vruns_prints; apply prints_lit; first [assumption|reflexivity]
  | |- _ => vprim
  end.
Ltac menv_step :=
  lazymatch goal with
  | |- vruns _ (bind (bind _ _) _) _ _ _ _ _ _ => eapply vruns_bind; [repeat menv_step|cbn beta]
  | |- vruns _ (bind ?m _) _ _ _ _ _ _ => eapply vruns_bind; [menv_prim|cbn beta]
  | |- vruns _ _ _ _ _ _ _ _ => menv_prim
  end.

(** A block with no branch: run it, then tidy the text. *)
Ltac menv_block :=
  cbv zeta; eapply vruns_conv; [repeat menv_step|reflexivity|cbn [app]; now rewrite ?app_nil_r|reflexivity..].

Ltac menv_hstep := eapply vhalts_bind; [menv_prim|cbn beta].

Lemma menv_banner_runs title t v d g : no_nul (c_lit title) = true ->
  vr (menv_banner trap_entry title) (CV t v d) g tt
    (lit "\n========================================\n" ++ lit title ++ lit "========================================\n\n")
    (CV (legal "mtvec" t trap_entry) v d) g.
Proof.
  intros Ht. unfold menv_banner. eapply vruns_conv; [do 3 menv_step; apply (mtvec_write_runs (U:=U) "menvcfg" eq_refl)|..];
    [reflexivity|now rewrite app_nil_r|reflexivity..].
Qed.

Definition boot_line (label : string) (shift mask boot : Z) : list Z :=
  lit "boot: menvcfg=" ++ fmt_hex boot ++ lit label ++ fmt_dec (Z.land (Z.shiftr boot shift) mask) ++ lit "\n".

Lemma menv_boot_runs label shift mask t v d bs L : no_nul (c_lit label) = true -> is_u64 v -> 0 <= shift -> 0 <= mask ->
  vr (menv_boot label shift mask) (CV t v d) (wg bs L) v (boot_line label shift mask v) (CV t v d) (wg bs (L ++ [v])).
Proof.
  intros Hl Hv Hs Hm. unfold menv_boot, boot_line. menv_block.
Qed.

Abbreviation lg := (legal "menvcfg").
Definition ones_text (v1 v2 : Z) : list Z :=
  lit "warl: write all-ones; legalized readback (1st)=" ++ fmt_hex v1 ++
  lit "\nwarl: write all-ones; legalized readback (2nd)=" ++ fmt_hex v2 ++ lit "\n".
Definition ones1 (v : Z) : Z := lg v ALL_ONES.
Definition ones2 (v : Z) : Z := lg (ones1 v) ALL_ONES.

Lemma menv_ones_runs t v d g :
  vr menv_ones (CV t v d) g (ones1 v, ones2 v) (ones_text (ones1 v) (ones2 v)) (CV t (ones2 v) d) g.
Proof.
  unfold menv_ones, ones_text, ones2, ones1. menv_block.
Qed.

Definition stable_text (boot v1 v2 : Z) : list Z :=
  chk (Z.land v1 boot =? boot) "WARL probe: bits set at boot vanished under all-ones write" ++
  chk (v2 =? v1) "WARL probe: all-ones legalization not stable across two writes".

Lemma menv_stable_runs boot v1 v2 v bs L :
  vr (menv_stable boot v1 v2) v (wg bs L) tt (stable_text boot v1 v2) v
    (wg (bs ++ [Z.land v1 boot =? boot; v2 =? v1]) (L ++ [v1; v2])).
Proof.
  unfold menv_stable, stable_text.
  eapply vruns_conv; [repeat menv_step|reflexivity|cbn [app]; now rewrite ?app_nil_r|reflexivity|now rewrite <-!app_assoc].
Qed.

Definition restore_text (boot v : Z) (msg : string) : list Z :=
  lit "restore: write boot=" ++ fmt_hex boot ++ lit " readback=" ++ fmt_hex v ++ lit "\n" ++ chk (v =? boot) msg.

Lemma menv_restore_runs boot msg t v d bs L : is_u64 boot -> no_nul (c_lit msg) = true ->
  vr (menv_restore boot msg) (CV t v d) (wg bs L) tt (restore_text boot (lg v boot) msg) (CV t (lg v boot) d)
    (wg (bs ++ [lg v boot =? boot]) (L ++ [lg v boot])).
Proof.
  intros Hb Hm. unfold menv_restore, restore_text.
  eapply vruns_conv; [repeat menv_step; eapply vruns_bind; [now apply wcheck_runs|]; repeat menv_step
    |reflexivity|cbn [app]; now rewrite ?app_nil_r|reflexivity..].
Qed.

(** The end of the log and the test device. *)
Definition tail_text (bs : list bool) (L : list Z) : list Z :=
  lit "traps recorded by the handler: 0\n\nchecksum (FNV-1a over the write/readback pairs) = " ++ fmt_hex64 (fnv L) ++
  lit "\nchecks: " ++ fmt_dec (Z.of_nat (length bs)) ++ lit "  mismatches: " ++ fmt_dec (nfalse bs) ++
  (if forallb id bs then lit "\nRESULT: PASS\n" else lit "\nRESULT: FAIL\n").

Lemma forallb_snoc_true bs : forallb id (bs ++ [true]) = forallb id bs.
Proof. rewrite forallb_app. cbn. apply andb_true_r. Qed.

Lemma menv_tail_halts t v d bs L : Z.of_nat (length bs) < 1000 ->
  vhalts (U:=U) (cv "menvcfg") menv_tail (CV t v d) (wg bs L) (tail_text (bs ++ [true]) L)
    (CV t v (if forallb id bs then FINISHER_PASS else d)) (wg (bs ++ [true]) L).
Proof.
  intros Hn. pose proof (nfalse_bound (bs ++ [true])) as Hb. rewrite length_app in Hb. cbn [length] in Hb.
  assert (u64 (Z.of_nat (length (bs ++ [true]))) = Z.of_nat (length (bs ++ [true]))) as E1
    by (apply u64_small; unfold is_u64; rewrite length_app; cbn [length]; lia).
  assert (u64 (nfalse (bs ++ [true])) = nfalse (bs ++ [true])) as E2 by (apply u64_small; unfold is_u64; lia).
  unfold menv_tail. eapply vhalts_conv.
  - eapply vhalts_bind0; [apply vruns_gget|]. eapply vhalts_bind0; [now apply vruns_arr_get|]. cbn beta.
    do 9 menv_hstep. change (0 =? 0) with true. menv_hstep. cbn [checks wg]. do 3 menv_hstep. cbn [fails wg]. do 3 menv_hstep.
    cbn [fails wg]. rewrite nfalse_zero, forallb_snoc_true.
    eapply vhalts_bind with (l1 := if forallb id bs then lit "RESULT: PASS\n" else lit "RESULT: FAIL\n").
    { destruct (forallb id bs); menv_prim. }
    eapply vhalts_bind0; [apply vruns_gget|]. cbn [fails wg]. rewrite nfalse_zero, forallb_snoc_true.
    eapply vhalts_bind0; [|apply vhalts_park]. destruct (forallb id bs).
    + eapply vruns_when; [|reflexivity]. apply (finisher_runs (U:=U) "menvcfg" (CV t v d)).
    + now apply vruns_unless.
  - unfold tail_text. rewrite E1, E2, forallb_snoc_true. cbn [csum wg].
    generalize (fmt_hex64 (fnv L)) (fmt_dec (Z.of_nat (length (bs ++ [true])))) (fmt_dec (nfalse (bs ++ [true]))).
    intros. destruct (forallb id bs); rewrite ?app_nil_r, <-?app_assoc; vm_compute; reflexivity.
Qed.

(** From the all-ones writes to the end; [fld] judges the field. *)
Definition end_bs (boot v : Z) (fb bs : list bool) : list bool :=
  ((bs ++ fb) ++ [Z.land (ones1 v) boot =? boot; ones2 v =? ones1 v]) ++ [lg (ones2 v) boot =? boot].
Definition end_fed (boot v : Z) (L : list Z) : list Z := (L ++ [ones1 v; ones2 v]) ++ [lg (ones2 v) boot].
Definition end_text (boot v : Z) (lf : list Z) (msg : string) (fb bs : list bool) (L : list Z) : list Z :=
  ones_text (ones1 v) (ones2 v) ++ lf ++ stable_text boot (ones1 v) (ones2 v) ++
  restore_text boot (lg (ones2 v) boot) msg ++ tail_text (end_bs boot v fb bs ++ [true]) (end_fed boot v L).

Lemma menv_end_halts (fld : Z * Z -> prog (world U H pglob) unit) boot msg t v d bs L fb lf :
  is_u64 boot -> no_nul (c_lit msg) = true -> Z.of_nat (length (end_bs boot v fb bs)) < 1000 ->
  (forall v', vr (fld (ones1 v, ones2 v)) v' (wg bs L) tt lf v' (wg (bs ++ fb) L)) ->
  vhalts (U:=U) (cv "menvcfg")
    (w <- menv_ones ;; fld w ;; menv_stable boot w.1 w.2 ;; menv_restore boot msg ;; menv_tail)
    (CV t v d) (wg bs L) (end_text boot v lf msg fb bs L)
    (CV t (lg (ones2 v) boot) (if forallb id (end_bs boot v fb bs) then FINISHER_PASS else d))
    (wg (end_bs boot v fb bs ++ [true]) (end_fed boot v L)).
Proof.
  intros Hb Hm Hn Hf. eapply vhalts_bind; [apply menv_ones_runs|]. eapply vhalts_bind; [apply Hf|].
  eapply vhalts_bind; [apply menv_stable_runs|]. eapply vhalts_bind; [now apply menv_restore_runs|].
  now apply menv_tail_halts.
Qed.

(** A write and its readback, as printed, and the check's line. *)
Definition probe_text (label : string) (w rb : Z) (ok : bool) (msg : string) : list Z :=
  lit label ++ fmt_hex w ++ lit " readback=" ++ fmt_hex rb ++ lit "\n" ++ chk ok msg.

Definition menv_head (title label : string) (shift mask boot : Z) : list Z :=
  lit "\n========================================\n" ++ lit title ++
  lit "========================================\n\n" ++ boot_line label shift mask boot.

(** *** STCE *)

Abbreviation set_stce v := (Z.lor v MENVCFG_STCE).
Abbreviation clr_stce v := (Z.land v (u64 (Z.lnot MENVCFG_STCE))).
Definition stce_v1 (v : Z) : Z := lg v (set_stce v).
Definition stce_v2 (v : Z) : Z := lg (stce_v1 v) (clr_stce v).
Definition stce_pre (v : Z) : list bool := [stce_v1 v =? set_stce v; stce_v2 v =? clr_stce v].
Definition stce_fld (v : Z) : list bool := [negb (Z.land (ones1 (stce_v2 v)) MENVCFG_STCE =? 0)].
Definition stce_checks (v : Z) : list bool := end_bs v (stce_v2 v) (stce_fld v) (stce_pre v).
Definition stce_log (v : Z) : list Z :=
  menv_head "menvcfg.STCE write/readback: set, clear, WARL legalize\n" " STCE(bit63)=" 63 1 v ++
  probe_text "set: write boot|STCE=" (set_stce v) (stce_v1 v) (stce_v1 v =? set_stce v)
    "STCE set probe: readback != write (bit did not stick exactly, or other bits changed)" ++
  probe_text "clear: write boot&~STCE=" (clr_stce v) (stce_v2 v) (stce_v2 v =? clr_stce v)
    "STCE clear probe: readback != write (bit did not clear exactly, or other bits changed)" ++
  end_text v (stce_v2 v)
    (chk (negb (Z.land (ones1 (stce_v2 v)) MENVCFG_STCE =? 0)) "WARL probe: STCE bit did not read back set on all-ones write")
    "restore: menvcfg did not read back the boot value" (stce_fld v) (stce_pre v) [v; stce_v1 v; stce_v2 v].

Lemma stce_set_runs t v d bs L : is_u64 v ->
  vr (stce_set v) (CV t v d) (wg bs L) tt
    (probe_text "set: write boot|STCE=" (set_stce v) (stce_v1 v) (stce_v1 v =? set_stce v)
      "STCE set probe: readback != write (bit did not stick exactly, or other bits changed)")
    (CV t (stce_v1 v) d) (wg (bs ++ [stce_v1 v =? set_stce v]) (L ++ [stce_v1 v])).
Proof.
  intros Hv. unfold stce_set, probe_text, stce_v1. menv_block.
Qed.

Lemma stce_clear_runs t v v1 d bs L : is_u64 v ->
  vr (stce_clear v) (CV t v1 d) (wg bs L) tt
    (probe_text "clear: write boot&~STCE=" (clr_stce v) (lg v1 (clr_stce v)) (lg v1 (clr_stce v) =? clr_stce v)
      "STCE clear probe: readback != write (bit did not clear exactly, or other bits changed)")
    (CV t (lg v1 (clr_stce v)) d) (wg (bs ++ [lg v1 (clr_stce v) =? clr_stce v]) (L ++ [lg v1 (clr_stce v)])).
Proof. intros Hv. unfold stce_clear, probe_text. menv_block. Qed.

Lemma stce_main_sends t v d : is_u64 v ->
  vmain_sends (U:=U) (cv "menvcfg") (stce_main trap_entry) (CV t v d) warl_boot (stce_log v)
    (fun v' g => cv_test v' = (if forallb id (stce_checks v) then FINISHER_PASS else d) /\
       cv_csr v' = lg (ones2 (stce_v2 v)) v /\ checks g = 7).
Proof.
  intros Hv. apply vmain_sends_intro.
  - eexists _, _, _. split; [|split].
    + unfold stce_body. change warl_boot with (wg [] []).
      eapply vhalts_bind; [now apply menv_banner_runs|].
      eapply vhalts_bind; [apply menv_boot_runs; [reflexivity|exact Hv|lia..]|].
      eapply vhalts_bind; [now apply stce_set_runs|]. eapply vhalts_bind; [now apply stce_clear_runs|]. fold (stce_v2 v).
      apply menv_end_halts with (fb := stce_fld v)
        (fld := fun w => wcheck (negb (Z.land w.1 MENVCFG_STCE =? 0)) "WARL probe: STCE bit did not read back set on all-ones write");
        [exact Hv|reflexivity..|]. intros v'. now apply wcheck_runs.
    + unfold stce_log, menv_head. rewrite <-!app_assoc. reflexivity.
    + split_and!; reflexivity.
  - unfold stce_log, menv_head, probe_text, end_text, ones_text, stable_text, restore_text, tail_text, boot_line. warl_bytes.
Qed.

(** *** PBMTE *)

Abbreviation set_pbmte v := (Z.lor v MENVCFG_PBMTE).
Abbreviation not_pbmte v := (Z.land v (u64 (Z.lnot MENVCFG_PBMTE))).
Definition pbmte_v1 (v : Z) : Z := lg v (set_pbmte v).
Definition pbmte_v2 (v : Z) : Z := lg (pbmte_v1 v) (not_pbmte v).
Definition pbmte_stuck (v : Z) : bool := negb (Z.land (pbmte_v1 v) MENVCFG_PBMTE =? 0).
Definition pbmte_pre (v : Z) : list bool :=
  [not_pbmte (pbmte_v1 v) =? not_pbmte (set_pbmte v); pbmte_v2 v =? not_pbmte v].
(** An absent PBMTE is noted and not judged. *)
Definition pbmte_fld (v : Z) : list bool :=
  if pbmte_stuck v then [negb (Z.land (ones1 (pbmte_v2 v)) MENVCFG_PBMTE =? 0)] else [].
Definition pbmte_checks (v : Z) : list bool := end_bs v (pbmte_v2 v) (pbmte_fld v) (pbmte_pre v).
Definition pbmte_set_text (v : Z) : list Z :=
  lit "set: write boot|PBMTE=" ++ fmt_hex (set_pbmte v) ++ lit " readback=" ++ fmt_hex (pbmte_v1 v) ++
  lit " PBMTE(bit62)=" ++ fmt_dec (Z.land (Z.shiftr (pbmte_v1 v) 62) 1) ++ lit "\n" ++
  chk (not_pbmte (pbmte_v1 v) =? not_pbmte (set_pbmte v)) "PBMTE set probe: bits other than bit 62 changed under the write".
Definition pbmte_fld_text (v : Z) : list Z :=
  if pbmte_stuck v then
    chk (negb (Z.land (ones1 (pbmte_v2 v)) MENVCFG_PBMTE =? 0)) "WARL probe: PBMTE bit did not read back set on all-ones write"
  else lit "  note: PBMTE not implemented on this hart (set probe did not stick); survival skipped\n".
Definition pbmte_log (v : Z) : list Z :=
  menv_head "menvcfg.PBMTE write/readback: set, clear, WARL legalize\n" " PBMTE(bit62)=" 62 1 v ++
  pbmte_set_text v ++
  probe_text "clear: write boot&~PBMTE=" (not_pbmte v) (pbmte_v2 v) (pbmte_v2 v =? not_pbmte v)
    "PBMTE clear probe: readback != write (boot value not restored exactly)" ++
  end_text v (pbmte_v2 v) (pbmte_fld_text v)
    "restore: menvcfg did not read back the boot value" (pbmte_fld v) (pbmte_pre v) [v; pbmte_v1 v; pbmte_v2 v].

Lemma pbmte_set_runs t v d bs L : is_u64 v ->
  vr (pbmte_set v) (CV t v d) (wg bs L) (pbmte_stuck v) (pbmte_set_text v)
    (CV t (pbmte_v1 v) d) (wg (bs ++ [not_pbmte (pbmte_v1 v) =? not_pbmte (set_pbmte v)]) (L ++ [pbmte_v1 v])).
Proof. intros Hv. unfold pbmte_set, pbmte_set_text, pbmte_stuck, pbmte_v1. menv_block. Qed.

Lemma pbmte_clear_runs t v v1 d bs L : is_u64 v ->
  vr (pbmte_clear v) (CV t v1 d) (wg bs L) tt
    (probe_text "clear: write boot&~PBMTE=" (not_pbmte v) (lg v1 (not_pbmte v)) (lg v1 (not_pbmte v) =? not_pbmte v)
      "PBMTE clear probe: readback != write (boot value not restored exactly)")
    (CV t (lg v1 (not_pbmte v)) d) (wg (bs ++ [lg v1 (not_pbmte v) =? not_pbmte v]) (L ++ [lg v1 (not_pbmte v)])).
Proof. intros Hv. unfold pbmte_clear, probe_text. menv_block. Qed.

Lemma pbmte_main_sends t v d : is_u64 v ->
  vmain_sends (U:=U) (cv "menvcfg") (pbmte_main trap_entry) (CV t v d) warl_boot (pbmte_log v)
    (fun v' g => cv_test v' = (if forallb id (pbmte_checks v) then FINISHER_PASS else d) /\
       cv_csr v' = lg (ones2 (pbmte_v2 v)) v /\ checks g = (if pbmte_stuck v then 7 else 6)).
Proof.
  intros Hv. apply vmain_sends_intro.
  - eexists _, _, _. split; [|split].
    + unfold pbmte_body. change warl_boot with (wg [] []).
      eapply vhalts_bind; [now apply menv_banner_runs|].
      eapply vhalts_bind; [apply menv_boot_runs; [reflexivity|exact Hv|lia..]|].
      eapply vhalts_bind; [now apply pbmte_set_runs|]. eapply vhalts_bind; [now apply pbmte_clear_runs|]. fold (pbmte_v2 v).
      apply menv_end_halts with (fb := pbmte_fld v) (lf := pbmte_fld_text v) (fld := fun w => if pbmte_stuck v
        then wcheck (negb (Z.land w.1 MENVCFG_PBMTE =? 0)) "WARL probe: PBMTE bit did not read back set on all-ones write"
        else uputs "  note: PBMTE not implemented on this hart (set probe did not stick); survival skipped\n");
        [exact Hv|reflexivity|unfold end_bs, pbmte_fld; destruct (pbmte_stuck v); reflexivity|].
      intros v'. unfold pbmte_fld, pbmte_fld_text. destruct (pbmte_stuck v); [now apply wcheck_runs|rewrite app_nil_r; menv_prim].
    + unfold pbmte_log, menv_head. rewrite <-!app_assoc. reflexivity.
    + split_and!; [reflexivity..|]. cbn [checks wg]. unfold end_bs, pbmte_fld. now destruct (pbmte_stuck v).
  - unfold pbmte_log, pbmte_set_text, pbmte_fld_text, menv_head, probe_text, end_text, ones_text, stable_text, restore_text,
      tail_text, boot_line. warl_bytes.
Qed.

(** *** The two-bit fields *)

Definition field_text (name : string) (v w rb : Z) (msg : string) : list Z :=
  lit name ++ fmt_dec v ++ lit ": write=" ++ fmt_hex w ++ lit " readback=" ++ fmt_hex rb ++ lit "\n" ++ chk (rb =? w) msg.

Lemma field_probe_runs name msg v w t v0 d bs L : no_nul (c_lit name) = true -> no_nul (c_lit msg) = true -> is_u64 v -> is_u64 w ->
  vr (field_probe name v w msg) (CV t v0 d) (wg bs L) tt (field_text name v w (lg v0 w) msg) (CV t (lg v0 w) d)
    (wg (bs ++ [lg v0 w =? w]) (L ++ [lg v0 w])).
Proof.
  intros Hn Hm Hv Hw. unfold field_probe, field_text.
  eapply vruns_conv; [do 9 menv_step; eapply vruns_bind; [now apply wcheck_runs|]; repeat menv_step
    |reflexivity|cbn [app]; now rewrite ?app_nil_r|reflexivity..].
Qed.

Lemma field_zero_runs name w msg t v0 d bs L : no_nul (c_lit name) = true -> no_nul (c_lit msg) = true -> is_u64 w ->
  vr (field_zero name w msg) (CV t v0 d) (wg bs L) tt (probe_text name w (lg v0 w) (lg v0 w =? w) msg) (CV t (lg v0 w) d)
    (wg (bs ++ [lg v0 w =? w]) (L ++ [lg v0 w])).
Proof.
  intros Hn Hm Hw. unfold field_zero, probe_text.
  eapply vruns_conv; [do 7 menv_step; eapply vruns_bind; [now apply wcheck_runs|]; repeat menv_step
    |reflexivity|cbn [app]; now rewrite ?app_nil_r|reflexivity..].
Qed.

(** The values written with the field at [s] and mask [m], and read back. *)
Definition fbase (m v : Z) : Z := Z.land v (u64 (Z.lnot m)).
Definition fval (m s v i : Z) : Z := Z.lor (fbase m v) (u64 (Z.shiftl i s)).
Definition fv1 (m s v : Z) : Z := lg v (fval m s v 1).
Definition fv2 (m s v : Z) : Z := lg (fv1 m s v) (fval m s v 2).
Definition fv3 (m s v : Z) : Z := lg (fv2 m s v) (fval m s v 3).
Definition fv0 (m s v : Z) : Z := lg (fv3 m s v) (fbase m v).
Definition field_pre (m s v : Z) : list bool :=
  [fv1 m s v =? fval m s v 1; fv2 m s v =? fval m s v 2; fv3 m s v =? fval m s v 3; fv0 m s v =? fbase m v].
Definition field_fld (m s v : Z) : list bool := [Z.land (ones1 (fv0 m s v)) m =? m].
Definition field_checks (m s v : Z) : list bool := end_bs v (fv0 m s v) (field_fld m s v) (field_pre m s v).
Definition field_fed (m s v : Z) : list Z := [v; fv1 m s v; fv2 m s v; fv3 m s v; fv0 m s v].

Lemma fval_u64 m s v i : is_u64 v -> is_u64 (fval m s v i).
Proof. intros Hv. apply lor_u64; [apply land_u64; [exact Hv|apply u64_range]|apply u64_range]. Qed.
Lemma fbase_u64 m v : is_u64 v -> is_u64 (fbase m v).
Proof. intros Hv. apply land_u64; [exact Hv|apply u64_range]. Qed.

Definition loop_text (name : string) (msg : Z -> string) (m s v : Z) : list Z :=
  field_text name 1 (fval m s v 1) (fv1 m s v) (msg 1) ++ field_text name 2 (fval m s v 2) (fv2 m s v) (msg 2) ++
  field_text name 3 (fval m s v 3) (fv3 m s v) (msg 3).

Lemma field_loop_runs name msg m s v t d bs L :
  no_nul (c_lit name) = true -> (forall i, no_nul (c_lit (msg i)) = true) -> is_u64 v ->
  vr (for_each [1; 2; 3] (fun i => field_probe name i (fval m s v i) (msg i))) (CV t v d) (wg bs L) tt
    (loop_text name msg m s v) (CV t (fv3 m s v) d)
    (wg (bs ++ [fv1 m s v =? fval m s v 1; fv2 m s v =? fval m s v 2; fv3 m s v =? fval m s v 3])
        (L ++ [fv1 m s v; fv2 m s v; fv3 m s v])).
Proof.
  intros Hn Hm Hv. unfold loop_text. cbn [for_each].
  assert (is_u64 1 /\ is_u64 2 /\ is_u64 3) as (H1 & H2 & H3) by (split_and!; u64c).
  eapply vruns_conv.
  - eapply vruns_bind; [apply field_probe_runs; auto using fval_u64|]. eapply vruns_bind; [apply field_probe_runs; auto using fval_u64|].
    eapply vruns_bind; [apply field_probe_runs; auto using fval_u64|]. apply vruns_ret.
  - reflexivity.
  - now rewrite app_nil_r.
  - reflexivity.
  - now rewrite <-!app_assoc.
Qed.

Definition cbie_log (v : Z) : list Z :=
  menv_head "menvcfg.CBIE (bits 5:4) write/readback WARL probe\n" " CBIE(bits5:4)=" 4 3 v ++
  loop_text "cbie=" cbie_msg MENVCFG_CBIE_MASK 4 v ++
  probe_text "cbie=0: write=" (fbase MENVCFG_CBIE_MASK v) (fv0 MENVCFG_CBIE_MASK 4 v) (fv0 MENVCFG_CBIE_MASK 4 v =? fbase MENVCFG_CBIE_MASK v)
    "CBIE=0 probe: readback != write (field did not clear exactly, or other bits changed)" ++
  end_text v (fv0 MENVCFG_CBIE_MASK 4 v)
    (chk (Z.land (ones1 (fv0 MENVCFG_CBIE_MASK 4 v)) MENVCFG_CBIE_MASK =? MENVCFG_CBIE_MASK)
      "WARL probe: CBIE field did not read back all-set on all-ones write")
    "restore: menvcfg did not read back the boot value exactly"
    (field_fld MENVCFG_CBIE_MASK 4 v) (field_pre MENVCFG_CBIE_MASK 4 v) (field_fed MENVCFG_CBIE_MASK 4 v).

Lemma cbie_main_sends t v d : is_u64 v ->
  vmain_sends (U:=U) (cv "menvcfg") (cbie_main trap_entry) (CV t v d) warl_boot (cbie_log v)
    (fun v' g => cv_test v' = (if forallb id (field_checks MENVCFG_CBIE_MASK 4 v) then FINISHER_PASS else d) /\
       cv_csr v' = lg (ones2 (fv0 MENVCFG_CBIE_MASK 4 v)) v /\ checks g = 9).
Proof.
  intros Hv. apply vmain_sends_intro.
  - eexists _, _, _. split; [|split].
    + unfold cbie_body. change warl_boot with (wg [] []).
      eapply vhalts_bind; [now apply menv_banner_runs|].
      eapply vhalts_bind; [apply menv_boot_runs; [reflexivity|exact Hv|lia..]|]. cbv zeta.
      eapply vhalts_bind; [apply (field_loop_runs "cbie=" cbie_msg MENVCFG_CBIE_MASK 4);
        [reflexivity|intros i; unfold cbie_msg; repeat case_match; reflexivity|exact Hv]|].
      eapply vhalts_bind; [apply field_zero_runs; [reflexivity..|now apply fbase_u64]|].
      fold (fbase MENVCFG_CBIE_MASK v). fold (fv0 MENVCFG_CBIE_MASK 4 v).
      apply menv_end_halts with (fb := field_fld MENVCFG_CBIE_MASK 4 v)
        (fld := fun w => wcheck (Z.land w.1 MENVCFG_CBIE_MASK =? MENVCFG_CBIE_MASK)
          "WARL probe: CBIE field did not read back all-set on all-ones write"); [exact Hv|reflexivity..|].
      intros v'. now apply wcheck_runs.
    + unfold cbie_log, menv_head. rewrite <-!app_assoc. reflexivity.
    + split_and!; reflexivity.
  - unfold cbie_log, loop_text, field_text, menv_head, probe_text, end_text, ones_text, stable_text, restore_text, tail_text,
      boot_line. warl_bytes.
Qed.

Definition cbze_log (v : Z) : list Z :=
  menv_head "menvcfg.CBZE (bits 7:6) write/readback WARL probe\n" " CBZE(bits7:6)=" 6 3 v ++
  loop_text "cbze=" cbze_msg MENVCFG_CBZE_MASK 6 v ++
  probe_text "cbze=0: write=" (fbase MENVCFG_CBZE_MASK v) (fv0 MENVCFG_CBZE_MASK 6 v) (fv0 MENVCFG_CBZE_MASK 6 v =? fbase MENVCFG_CBZE_MASK v)
    "CBZE=0 probe: readback != write (field did not clear exactly, or other bits changed)" ++
  end_text v (fv0 MENVCFG_CBZE_MASK 6 v)
    (chk (Z.land (ones1 (fv0 MENVCFG_CBZE_MASK 6 v)) MENVCFG_CBZE_MASK =? MENVCFG_CBZE_MASK)
      "WARL probe: CBZE field did not read back all-set on all-ones write")
    "restore: menvcfg did not read back the boot value exactly"
    (field_fld MENVCFG_CBZE_MASK 6 v) (field_pre MENVCFG_CBZE_MASK 6 v) (field_fed MENVCFG_CBZE_MASK 6 v).

Lemma cbze_main_sends t v d : is_u64 v ->
  vmain_sends (U:=U) (cv "menvcfg") (cbze_main trap_entry) (CV t v d) warl_boot (cbze_log v)
    (fun v' g => cv_test v' = (if forallb id (field_checks MENVCFG_CBZE_MASK 6 v) then FINISHER_PASS else d) /\
       cv_csr v' = lg (ones2 (fv0 MENVCFG_CBZE_MASK 6 v)) v /\ checks g = 9).
Proof.
  intros Hv. apply vmain_sends_intro.
  - eexists _, _, _. split; [|split].
    + unfold cbze_body. change warl_boot with (wg [] []).
      eapply vhalts_bind; [now apply menv_banner_runs|].
      eapply vhalts_bind; [apply menv_boot_runs; [reflexivity|exact Hv|lia..]|]. cbv zeta.
      eapply vhalts_bind; [apply (field_loop_runs "cbze=" cbze_msg MENVCFG_CBZE_MASK 6);
        [reflexivity|intros i; unfold cbze_msg; repeat case_match; reflexivity|exact Hv]|].
      eapply vhalts_bind; [apply field_zero_runs; [reflexivity..|now apply fbase_u64]|].
      fold (fbase MENVCFG_CBZE_MASK v). fold (fv0 MENVCFG_CBZE_MASK 6 v).
      apply menv_end_halts with (fb := field_fld MENVCFG_CBZE_MASK 6 v)
        (fld := fun w => wcheck (Z.land w.1 MENVCFG_CBZE_MASK =? MENVCFG_CBZE_MASK)
          "WARL probe: CBZE field did not read back all-set on all-ones write"); [exact Hv|reflexivity..|].
      intros v'. now apply wcheck_runs.
    + unfold cbze_log, menv_head. rewrite <-!app_assoc. reflexivity.
    + split_and!; reflexivity.
  - unfold cbze_log, loop_text, field_text, menv_head, probe_text, end_text, ones_text, stable_text, restore_text, tail_text,
      boot_line. warl_bytes.
Qed.

(** *** Harts that keep a fixed set of bits *)

Section Masked.
(** The writable bits of menvcfg, and a boot value with no other bit set. *)
Context (m v : Z).
Hypothesis Hm : is_u64 m.
Hypothesis Hlg : forall o x, is_u64 x -> lg o x = Z.land x m.
Hypothesis Hv : Z.land v m = v.

Lemma boot_u64 : is_u64 v.
Proof.
  rewrite <-Hv, Z.land_comm. apply land_u64; [exact Hm|]. rewrite <-Hv. apply Z.land_nonneg. right. unfold is_u64 in Hm. lia.
Qed.
Hint Resolve boot_u64 fval_u64 fbase_u64 Hm : word.

Lemma keeps_and x y : Z.land x m = x -> Z.land (Z.land x y) m = Z.land x y.
Proof. intros E. now rewrite <-Z.land_assoc, (Z.land_comm y), Z.land_assoc, E. Qed.
Lemma keeps_or x y : Z.land x m = x -> Z.land y m = y -> Z.land (Z.lor x y) m = Z.lor x y.
Proof. intros Ex Ey. now rewrite Z.land_lor_distr_l, Ex, Ey. Qed.

Lemma ones_masked w : ones1 w = m /\ ones2 w = m.
Proof.
  assert (forall o, lg o ALL_ONES = m) as E.
  { intros o. rewrite Hlg by u64c. rewrite Z.land_comm. change ALL_ONES with (Z.ones 64). now apply u64_bits. }
  unfold ones2, ones1. now rewrite !E.
Qed.

(** The checks after the field's: they all hold. *)
Lemma end_masked w fb bs : forallb id (end_bs v w fb bs) = forallb id bs && forallb id fb.
Proof.
  unfold end_bs. destruct (ones_masked w) as [-> ->]. rewrite Hlg, Hv by auto with word.
  rewrite (Z.land_comm m), Hv, !Z.eqb_refl, !forallb_app. cbn. now rewrite !andb_true_r.
Qed.

Lemma restored_masked w : lg (ones2 w) v = v.
Proof. rewrite Hlg by auto with word. exact Hv. Qed.

Lemma stce_masked : forallb id (stce_checks v) = Z.testbit m 63.
Proof.
  unfold stce_checks, stce_fld. rewrite end_masked. destruct (ones_masked (stce_v2 v)) as [-> _]. cbn [forallb id].
  change MENVCFG_STCE with (Z.shiftl 1 63).
  assert (Z.land m (Z.shiftl 1 63) = if Z.testbit m 63 then Z.shiftl 1 63 else 0) as E.
  { apply Z.bits_inj'. intros n Hn. rewrite Z.land_spec, Z.shiftl_1_l, Z.pow2_bits_eqb by lia.
    destruct (Z.eqb_spec 63 n) as [<-|Hne]; destruct (Z.testbit m 63); rewrite ?Z.shiftl_1_l, ?Z.pow2_bits_eqb, ?andb_true_r, ?andb_false_r, ?Z.bits_0 by lia; try reflexivity.
    symmetry. now apply Z.eqb_neq. }
  rewrite E. destruct (Z.testbit m 63); cbn [negb andb]; [|now rewrite andb_false_r].
  unfold stce_pre, stce_v2, stce_v1. rewrite !Hlg by auto with word.
  rewrite keeps_or, keeps_and by (first [exact Hv|now rewrite Z.land_comm]). cbn. now rewrite !Z.eqb_refl.
Qed.

(** An absent PBMTE passes too. *)
Lemma pbmte_masked : forallb id (pbmte_checks v) = true.
Proof.
  unfold pbmte_checks. rewrite end_masked.
  assert (Z.land (pbmte_v1 v) MENVCFG_PBMTE = Z.land m MENVCFG_PBMTE) as E1.
  { unfold pbmte_v1. rewrite Hlg by auto with word. rewrite (Z.land_comm _ m), <-Z.land_assoc.
    f_equal. apply Z.bits_inj'. intros n _. rewrite Z.land_spec, Z.lor_spec. now destruct (Z.testbit v n), (Z.testbit MENVCFG_PBMTE n). }
  assert (forallb id (pbmte_fld v) = true) as ->.
  { unfold pbmte_fld, pbmte_stuck. destruct (ones_masked (pbmte_v2 v)) as [-> _]. rewrite E1.
    now destruct (Z.land m MENVCFG_PBMTE =? 0). }
  unfold pbmte_pre, pbmte_v2, pbmte_v1. rewrite !Hlg by auto with word. rewrite (keeps_and v) by exact Hv.
  assert (Z.land MENVCFG_PBMTE (u64 (Z.lnot MENVCFG_PBMTE)) = 0) as E0 by reflexivity.
  assert (not_pbmte (Z.land (set_pbmte v) m) = not_pbmte (set_pbmte v)) as ->.
  { rewrite Z.land_lor_distr_l, Hv, !Z.land_lor_distr_l, (Z.land_comm MENVCFG_PBMTE m), <-Z.land_assoc, E0.
    now rewrite Z.land_0_r. }
  cbn [forallb id]. now rewrite !Z.eqb_refl.
Qed.

(** A field passes exactly if all of it is writable. *)
Lemma field_masked M s : is_u64 M -> Z.land (u64 (Z.shiftl 1 s)) M = u64 (Z.shiftl 1 s) ->
  Z.land (u64 (Z.shiftl 2 s)) M = u64 (Z.shiftl 2 s) -> Z.land (u64 (Z.shiftl 3 s)) M = u64 (Z.shiftl 3 s) ->
  forallb id (field_checks M s v) = (Z.land m M =? M).
Proof.
  intros HM H1 H2 H3. unfold field_checks, field_fld. rewrite end_masked. destruct (ones_masked (fv0 M s v)) as [-> _].
  cbn [forallb id]. rewrite andb_true_r. destruct (Z.eqb_spec (Z.land m M) M) as [E|E]; [|now rewrite andb_false_r].
  assert (forall x, Z.land x M = x -> Z.land x m = x) as Hk.
  { intros x Hx. rewrite <-Hx at 1. rewrite <-Z.land_assoc, (Z.land_comm M), E. exact Hx. }
  unfold field_pre, fv0, fv3, fv2, fv1, fval, fbase. rewrite !Hlg by auto using lor_u64, land_u64, u64_range, boot_u64 with word.
  rewrite !keeps_or, keeps_and by (first [exact Hv|now apply keeps_and|now apply Hk]). cbn. now rewrite !Z.eqb_refl.
Qed.

(** C19: On a hart that keeps a fixed set [m] of menvcfg bits each program
    prints its whole log, leaves menvcfg at the boot value and reports PASS,
    in the log and to the test device, exactly when the field it probes is
    writable: STCE, all of CBIE, both bits it calls CBZE.  The PBMTE program
    passes with the bit present or absent. *)
Theorem menv_verdicts t d :
  vmain_sends (U:=U) (cv "menvcfg") (stce_main trap_entry) (CV t v d) warl_boot (stce_log v)
    (fun v' g => cv_test v' = (if Z.testbit m 63 then FINISHER_PASS else d) /\ cv_csr v' = v /\ checks g = 7) /\
  vmain_sends (U:=U) (cv "menvcfg") (pbmte_main trap_entry) (CV t v d) warl_boot (pbmte_log v)
    (fun v' g => cv_test v' = FINISHER_PASS /\ cv_csr v' = v /\ checks g = (if pbmte_stuck v then 7 else 6)) /\
  vmain_sends (U:=U) (cv "menvcfg") (cbie_main trap_entry) (CV t v d) warl_boot (cbie_log v)
    (fun v' g => cv_test v' = (if Z.land m 0x30 =? 0x30 then FINISHER_PASS else d) /\ cv_csr v' = v /\ checks g = 9) /\
  vmain_sends (U:=U) (cv "menvcfg") (cbze_main trap_entry) (CV t v d) warl_boot (cbze_log v)
    (fun v' g => cv_test v' = (if Z.land m 0xC0 =? 0xC0 then FINISHER_PASS else d) /\ cv_csr v' = v /\ checks g = 9).
Proof.
  pose proof (stce_main_sends t v d boot_u64) as Hs. pose proof (pbmte_main_sends t v d boot_u64) as Hp.
  pose proof (cbie_main_sends t v d boot_u64) as Hi. pose proof (cbze_main_sends t v d boot_u64) as Hz.
  rewrite stce_masked, restored_masked in Hs. rewrite pbmte_masked, restored_masked in Hp.
  rewrite (field_masked MENVCFG_CBIE_MASK), restored_masked in Hi by (u64c || reflexivity).
  rewrite (field_masked MENVCFG_CBZE_MASK), restored_masked in Hz by (u64c || reflexivity). auto.
Qed.
End Masked.

Lemma cbie_two_rejected v : (forall o x, Z.land (lg o x) MENVCFG_CBIE_MASK <> 0x20) ->
  forallb id (field_checks MENVCFG_CBIE_MASK 4 v) = false.
Proof.
  intros Hr. unfold field_checks, end_bs, field_pre.
  assert ((fv2 MENVCFG_CBIE_MASK 4 v =? fval MENVCFG_CBIE_MASK 4 v 2) = false) as ->.
  { apply Z.eqb_neq. intros E. apply (Hr (fv1 MENVCFG_CBIE_MASK 4 v) (fval MENVCFG_CBIE_MASK 4 v 2)).
    fold (fv2 MENVCFG_CBIE_MASK 4 v). rewrite E. unfold fval, fbase. rewrite Z.land_lor_distr_l, <-Z.land_assoc.
    change (Z.land (u64 (Z.lnot MENVCFG_CBIE_MASK)) MENVCFG_CBIE_MASK) with 0. now rewrite Z.land_0_r. }
  cbn [forallb id app]. now rewrite andb_false_r.
Qed.

Lemma fail_text_end boot v lf msg fb bs L : forallb id (end_bs boot v fb bs) = false ->
  exists l, end_text boot v lf msg fb bs L = l ++ lit "\nRESULT: FAIL\n".
Proof.
  intros E. unfold end_text, tail_text. rewrite forallb_snoc_true, E. rewrite !app_assoc. eauto.
Qed.

(** C37: The CBIE program asks for more than the architecture does.  On a hart
    that never holds the reserved encoding 2 in CBIE, which is how a
    conforming WARL field may behave, the run reports FAIL and the test
    device is left alone. *)
Theorem cbie_reserved_fails t v d : is_u64 v -> (forall o x, Z.land (lg o x) MENVCFG_CBIE_MASK <> 0x20) ->
  vmain_sends (U:=U) (cv "menvcfg") (cbie_main trap_entry) (CV t v d) warl_boot (cbie_log v) (fun v' g => cv_test v' = d) /\
  exists l, cbie_log v = l ++ lit "\nRESULT: FAIL\n".
Proof.
  intros Hv Hr. pose proof (cbie_two_rejected v Hr) as E. split.
  - intros u h Hh. destruct (cbie_main_sends t v d Hv u h Hh) as (u' & h' & g' & Em & Ht & Hx & Hd & _).
    rewrite E in Hd. exists u', h', g'. auto.
  - unfold cbie_log.
    destruct (fail_text_end v (fv0 MENVCFG_CBIE_MASK 4 v)
      (chk (Z.land (ones1 (fv0 MENVCFG_CBIE_MASK 4 v)) MENVCFG_CBIE_MASK =? MENVCFG_CBIE_MASK)
        "WARL probe: CBIE field did not read back all-set on all-ones write")
      "restore: menvcfg did not read back the boot value exactly" (field_fld MENVCFG_CBIE_MASK 4 v)
      (field_pre MENVCFG_CBIE_MASK 4 v) (field_fed MENVCFG_CBIE_MASK 4 v) E) as [l ->].
    rewrite !app_assoc. eauto.
Qed.
End Menv.

(** ** A CSR file with its own legalisation *)

(** [W] legalises; a register never written reads as zero. *)
Record CsrHart (f : string -> Z -> Z -> Z) : Type := CsrH { ch_csrs : list (string * Z); ch_test : Z }.
Arguments CsrH {f} ch_csrs ch_test.
Arguments ch_csrs {f} h : rename.
Arguments ch_test {f} h : rename.

Section CsrHart.
Context {f : string -> Z -> Z -> Z}.

#[export] Instance CsrHart_dev : HartDev (CsrHart f) := {
  mr64 _ h := (0, h);
  mw64 _ _ h := h;
  mr32 _ h := (0, h);
  mw32 a x h := CsrH (ch_csrs h) (if a =? VIRT_TEST_FINISHER then x else ch_test h);
  csr_rd c h := (u64 (alookup String.eqb c (ch_csrs h)), h);
  csr_wr c x h := CsrH (aupdate String.eqb c (f c (u64 (alookup String.eqb c (ch_csrs h))) x) (ch_csrs h)) (ch_test h);
  hw_fuel := 1;
}.

#[export] Instance CsrHart_spec : WarlSpec (CsrHart f).
Proof.
  refine {| cval c h := u64 (alookup String.eqb c (ch_csrs h)); legal c o x := u64 (f c o x); test_dev := ch_test |};
    try (intros; first [apply u64_range | reflexivity]).
  - intros c x h _. cbn [csr_wr CsrHart_dev ch_csrs]. now rewrite alookup_aupdate by apply String.eqb_eq.
  - intros c c' x h Hi. cbn [csr_wr CsrHart_dev ch_csrs]. rewrite alookup_aupdate_ne; [reflexivity|apply String.eqb_eq|].
    intros <-. unfold indep in Hi. rewrite String.eqb_refl in Hi. cbn in Hi. now rewrite andb_false_r in Hi.
Defined.
End CsrHart.

Definition masked_csr (m : Z) (c : string) (o x : Z) : Z := if String.eqb c "menvcfg" then Z.land x m else x.

(** A hart with STCE and all of CBIE, without CBZE. *)
Lemma menv_verdicts_witness :
  vmain_sends (U:=LogUart) (H:=CsrHart (masked_csr 0x8000000000000031)) (cv "menvcfg") (stce_main 0x80000100) (CV 0 1 0) warl_boot
    (stce_log (H:=CsrHart (masked_csr 0x8000000000000031)) 1) (fun v' g => cv_test v' = FINISHER_PASS) /\
  vmain_sends (U:=LogUart) (H:=CsrHart (masked_csr 0x8000000000000031)) (cv "menvcfg") (cbze_main 0x80000100) (CV 0 1 0) warl_boot
    (cbze_log (H:=CsrHart (masked_csr 0x8000000000000031)) 1) (fun v' g => cv_test v' = 0).
Proof.
  destruct (menv_verdicts (U:=LogUart) (H:=CsrHart (masked_csr 0x8000000000000031)) 0x80000100 0x8000000000000031 1) with (t:=0) (d:=0)
    as (Hs & _ & _ & Hz).
  - u64c.
  - intros o x Hx. cbn [legal CsrHart_spec masked_csr]. apply u64_small. apply land_u64; [exact Hx|lia].
  - reflexivity.
  - split; intros u h Hh; [destruct (Hs u h Hh) as (u' & h' & g' & E & Ht & Hr & Hd & _)
      |destruct (Hz u h Hh) as (u' & h' & g' & E & Ht & Hr & Hd & _)]; exists u', h', g'; auto.
Defined.

(** A write of the reserved encoding clears the field. *)
Definition reserved_csr (c : string) (o x : Z) : Z :=
  if Z.land x MENVCFG_CBIE_MASK =? 0x20 then Z.land x (Z.lnot MENVCFG_CBIE_MASK) else x.

Lemma reserved_csr_ok c o x : Z.land (u64 (reserved_csr c o x)) MENVCFG_CBIE_MASK <> 0x20.
Proof.
  unfold u64. rewrite <-Z.land_ones, <-Z.land_assoc by lia.
  change (Z.land (Z.ones 64) MENVCFG_CBIE_MASK) with MENVCFG_CBIE_MASK. unfold reserved_csr.
  destruct (Z.eqb_spec (Z.land x MENVCFG_CBIE_MASK) 0x20) as [E|E]; [|exact E].
  rewrite <-Z.land_assoc. change (Z.land (Z.lnot MENVCFG_CBIE_MASK) MENVCFG_CBIE_MASK) with 0. rewrite Z.land_0_r. discriminate.
Qed.

Lemma cbie_reserved_fails_witness :
  vmain_sends (U:=LogUart) (H:=CsrHart reserved_csr) (cv "menvcfg") (cbie_main 0x80000100) (CV 0 0 0) warl_boot
    (cbie_log (H:=CsrHart reserved_csr) 0) (fun v' g => cv_test v' = 0).
Proof.
  apply (cbie_reserved_fails (U:=LogUart) (H:=CsrHart reserved_csr) 0x80000100 0 0 0); [u64c|].
  intros o x. apply reserved_csr_ok.
Defined.
