(* ===== verification/CsrProbes.v ===== *)
(** * CSR write and readback probes

    The programs that write a machine CSR, read it back and compare:
    src/misa-readonly/, src/misa-mxl-warl/, src/mideleg-warl/,
    src/mstatus-mprv-readback/, src/mscratch-csrrw/ and
    src/mie-write-readback/, on the harts of Warl: every CSR legalises what
    is written by a function of its own.  The view of a hart here is the list
    of the values of the registers a program uses.  Their trap entries run
    only if a CSR access traps, which on such a hart none does. *)

From Stdlib Require Import ZArith Lia String.
From stdpp Require Import base list.
From S2P Require Import Prelude Uart Hart Run View Pmp PmpEdge Warl.

Definition FNV_OFFSET : Z := 0xcbf29ce484222325.
Definition MXL_MASK : Z := Z.shiftl 3 62.
Definition EXT_MASK : Z := 0x3FFFFFF.
Definition EXPECTED_MIDELEG_ONES : Z := 0x3666.
Definition EXPECTED_MIDELEG_ZERO : Z := 0x1444.
Definition SENTINEL : Z := 0xA5A55A5A5A5A5A5.
Definition MSTATUS_MPRV : Z := Z.shiftl 1 17.
Definition MSTATUS_MIE : Z := Z.shiftl 1 3.

(** The statics at boot, with a save area of [n] words. *)
Definition probe_boot (n : nat) : pglob := PGlob (replicate n 0) 0 0 FNV_BASIS.

Section Program.
Context {U H : Type} `{!UartDev U, !HartDev H}.
Abbreviation W := (world U H pglob).
Context (trap_entry save_addr : Z).

(** [check] where no count is kept. *)
Definition ncheck (cond : bool) (msg : string) : prog W unit :=
  when (negb cond)
    (uputs "  FAIL: " ;; uputs msg ;; uputs "\n" ;;
     n <- gget fails ;; gset_ (set_fails (n + 1))).

Definition regs (i : nat) : prog W Z := s <- gget save ;; arr_get s i.

(** The vector is read back and judged by the caller's [check]. *)
Definition check_mtvec (check : bool -> string -> prog W unit) (tv : Z) : prog W unit :=
  check (Z.land tv (u64 (Z.lnot 3)) =? trap_entry) "mtvec did not take the handler address"%string ;;
  check (Z.land tv 3 =? 0) "mtvec not in direct mode"%string.

Definition install_trap : prog W unit :=
  csrw "mtvec" trap_entry ;;
  csrw "mscratch" save_addr ;;
  mtvec <- csrr "mtvec" ;;
  check_mtvec ncheck mtvec.

(** misa_regs/mxl_regs: cause, pc, value, count. *)
Definition traps_report : prog W unit :=
  n <- regs 3 ;;
  when (negb (n =? 0))
    (uputs "  FAIL: unexpected trap(s), count=" ;; x <- regs 3 ;; uart_put_dec x ;;
     uputs " mcause=" ;; x <- regs 0 ;; uart_put_hex x ;;
     uputs " mepc=" ;; x <- regs 1 ;; uart_put_hex x ;;
     uputs " mtval=" ;; x <- regs 2 ;; uart_put_hex x ;; uputs "\n" ;;
     n <- gget fails ;; gset_ (set_fails (n + 1))) ;;
  uputs "traps: count=" ;; x <- regs 3 ;; uart_put_dec x ;; uputs "\n".

Definition pass_fail : prog W unit :=
  n <- gget fails ;;
  if n =? 0 then uputs "RESULT: PASS\n" ;; finisher ;; park
  else uputs "RESULT: FAIL\n" ;; park.

(** ** misa_main.c *)

Definition read_misa : prog W Z := csrr "misa".
Definition write_misa (v : Z) : prog W unit := csrw "misa" v.

Definition misa_alive : prog W unit :=
  acc <- for_acc (seq 1 100) 0 (fun i acc => ret (u64 (acc + Z.of_nat i))) ;;
  uputs "alive: sum1to100=" ;; uart_put_dec acc ;; uputs "\n" ;;
  ncheck (acc =? 5050) "arithmetic after misa write gave the wrong result".

Definition misa_body : prog W unit :=
  uputs "misa-readonly: misa WARL read-only check\n" ;;
  install_trap ;;
  boot <- read_misa ;;
  uputs "boot: misa=" ;; uart_put_hex boot ;; uputs "\n" ;;
  write_misa ALL_ONES ;;
  readback <- read_misa ;;
  uputs "write: value=0xffffffffffffffff readback=" ;; uart_put_hex readback ;; uputs "\n" ;;
  ncheck (readback =? boot) "misa readback differs from boot value: some bits are writable" ;;
  misa_alive ;;
  traps_report ;;
  pass_fail.
Definition misa_main : prog W unit := uart_init ;; misa_body.

(** ** mxl_main.c *)

(** [fnv_update] is [PmpEdge.fnv_word]. *)
Definition fnv_update (h v : Z) : Z := fnv_word h v.

Definition mxl_readback (boot attempt : Z) : prog W Z :=
  write_misa attempt ;;
  uputs "write: value=" ;; uart_put_hex attempt ;; uputs "\n" ;;
  readback <- read_misa ;;
  uputs "readback: misa=" ;; uart_put_hex readback ;; uputs "\n" ;;
  ncheck (Z.land (Z.shiftr readback 62) 3 =? 2) "MXL field changed: the write altered the hart's XLEN encoding" ;;
  ncheck (Z.land readback EXT_MASK =? Z.land boot EXT_MASK) "extension bits 25:0 differ from the boot value" ;;
  ret readback.

Definition mxl_restore (boot : Z) : prog W Z :=
  write_misa boot ;;
  restored <- read_misa ;;
  uputs "restore: misa=" ;; uart_put_hex restored ;; uputs "\n" ;;
  ncheck (restored =? boot) "restoring the boot misa value did not read back exactly" ;;
  ret restored.

Definition mxl_checksum (boot attempt readback restored traps : Z) : Z :=
  fnv_update (fnv_update (fnv_update (fnv_update (fnv_update FNV_OFFSET boot) attempt) readback) restored) traps.

Definition mxl_body : prog W unit :=
  uputs "misa-mxl-warl: misa.MXL WARL legalization check\n" ;;
  install_trap ;;
  boot <- read_misa ;;
  uputs "boot: misa=" ;; uart_put_hex boot ;; uputs "\n" ;;
  let attempt := Z.lor (Z.land boot (u64 (Z.lnot MXL_MASK))) (Z.shiftl 1 62) in
  readback <- mxl_readback boot attempt ;;
  restored <- mxl_restore boot ;;
  traps_report ;;
  traps <- regs 3 ;;
  uputs "checksum=" ;; uart_put_hex (mxl_checksum boot attempt readback restored traps) ;; uputs "\n" ;;
  pass_fail.
Definition mxl_main : prog W unit := uart_init ;; mxl_body.

(** ** mideleg_main.c *)

Definition read_mideleg : prog W Z := csrr "mideleg".
Definition write_mideleg (v : Z) : prog W unit := csrw "mideleg" v.

Definition print_pair (tag : string) (written readback : Z) : prog W unit :=
  uputs tag ;; uputs ": write=" ;; uart_put_hex written ;; uputs " readback=" ;; uart_put_hex readback ;; uputs "\n".

Definition mideleg_trap : prog W unit :=
  csrw "mtvec" trap_entry ;;
  tv <- csrr "mtvec" ;;
  uputs "trap: mtvec=" ;; uart_put_hex tv ;; uputs "\n" ;;
  check_mtvec ncheck tv.

Definition mideleg_body : prog W unit :=
  uputs "mideleg-warl: mideleg write/legalized-readback check\n" ;;
  v <- read_mideleg ;;
  uputs "boot: mideleg=" ;; uart_put_hex v ;; uputs "\n" ;;
  ncheck (v =? EXPECTED_MIDELEG_ZERO) "mideleg != 0x1444 at boot" ;;
  mideleg_trap ;;
  write_mideleg ALL_ONES ;;
  legalized <- read_mideleg ;;
  print_pair "write-ones" ALL_ONES legalized ;;
  ncheck (legalized =? EXPECTED_MIDELEG_ONES) "all-ones readback != 0x3666" ;;
  write_mideleg 0 ;;
  v <- read_mideleg ;;
  print_pair "write-zero" 0 v ;;
  ncheck (v =? EXPECTED_MIDELEG_ZERO) "zero write readback != 0x1444" ;;
  write_mideleg ALL_ONES ;;
  v <- read_mideleg ;;
  print_pair "write-ones-again" ALL_ONES v ;;
  ncheck (v =? legalized) "second all-ones readback differs" ;;
  uputs "RESULT: " ;; n <- gget fails ;; uputs (if n =? 0 then "PASS" else "FAIL") ;; uputs " (checks=6)\n".

Definition drain_finish : prog W unit :=
  uart_wait LSR_TEMT ;;
  n <- gget fails ;;
  if n =? 0 then finisher ;; park else park.
Definition mideleg_main : prog W unit := uart_init ;; mideleg_body ;; drain_finish.

(** ** mprv_main.c *)

Definition read_mstatus : prog W Z := csrr "mstatus".

(** Only CSR instructions run while the bit is set. *)
Definition mprv_probes (mask : Z) : prog W (Z * Z) :=
  csrs "mstatus" mask ;;
  set_rb <- csrr "mstatus" ;;
  csrc "mstatus" mask ;;
  clr_rb <- csrr "mstatus" ;;
  ret (set_rb, clr_rb).

Definition mprv_boot : prog W Z :=
  boot <- read_mstatus ;;
  uputs "boot: mstatus=" ;; uart_put_hex boot ;;
  uputs " MPRV(bit17)=" ;; uart_put_dec (Z.land (Z.shiftr boot 17) 1) ;;
  uputs " MPP(bits12:11)=" ;; uart_put_dec (Z.land (Z.shiftr boot 11) 3) ;; uputs "\n" ;;
  cks_feed boot ;;
  ret boot.

Definition mprv_judge (boot set_rb clr_rb : Z) : prog W unit :=
  uputs "set: csrs mstatus, bit17; readback=" ;; uart_put_hex set_rb ;; uputs "\n" ;;
  wcheck (negb (Z.land set_rb MSTATUS_MPRV =? 0)) "MPRV set probe: bit 17 not set in the readback" ;;
  wcheck (set_rb =? Z.lor boot MSTATUS_MPRV)
    "MPRV set probe: readback != boot|MPRV (unexpected bits changed alongside bit 17)" ;;
  cks_feed set_rb ;;
  uputs "clear: csrc mstatus, bit17; readback=" ;; uart_put_hex clr_rb ;; uputs "\n" ;;
  wcheck (clr_rb =? boot)
    "MPRV clear probe: readback != boot mstatus (bit did not clear exactly, or other bits changed)" ;;
  cks_feed clr_rb.

Definition mprv_restore (boot : Z) : prog W unit :=
  post <- read_mstatus ;;
  uputs "restore: mstatus=" ;; uart_put_hex post ;; uputs " (boot was " ;; uart_put_hex boot ;; uputs ")\n" ;;
  wcheck (post =? boot) "restore: mstatus did not read back the boot value after the probes" ;;
  cks_feed post.

Definition mprv_tail : prog W unit :=
  traps <- regs 4 ;;
  uputs "traps recorded by the handler: " ;; uart_put_dec traps ;; uputs "\n" ;;
  wcheck (traps =? 0) "unexpected trap fired during the run" ;;
  uputs "\nchecksum (FNV-1a over the readback values) = " ;; c <- gget csum ;; uart_put_hex c ;; uputs "\n" ;;
  uputs "checks: " ;; n <- gget checks ;; uart_put_dec (u64 n) ;;
  uputs "  mismatches: " ;; n <- gget fails ;; uart_put_dec (u64 n) ;; uputs "\n" ;;
  n <- gget fails ;; uputs (if n =? 0 then "RESULT: PASS\n" else "RESULT: FAIL\n") ;;
  n <- gget fails ;; when (n =? 0) finisher ;;
  park.

Definition mprv_body : prog W unit :=
  menv_banner trap_entry "mstatus.MPRV write/readback: set via csrs, clear via csrc\n" ;;
  boot <- mprv_boot ;;
  p <- mprv_probes MSTATUS_MPRV ;;
  mprv_judge boot p.1 p.2 ;;
  mprv_restore boot ;;
  mprv_tail.
Definition mprv_main : prog W unit := uart_init ;; mprv_body.

(** ** mscratch_main.c *)

Definition csr_read_mscratch : prog W Z := csrr "mscratch".
(** One [csrrw]. *)
Definition csr_swap_mscratch (newval : Z) : prog W Z :=
  old <- csrr "mscratch" ;; csrw "mscratch" newval ;; ret old.

(** The counters are [unsigned long]. *)
Definition ucheck (cond : bool) (msg : string) : prog W unit :=
  n <- gget checks ;; gset_ (set_checks (u64 (n + 1))) ;;
  when (negb cond)
    (uputs "  FAIL: " ;; uputs msg ;; uputs "\n" ;;
     n <- gget fails ;; gset_ (set_fails (u64 (n + 1)))).

(** The old value and the readback of a swap, as printed. *)
Definition swap_line (tag : string) (rd readback : Z) : prog W unit :=
  uputs tag ;; uart_put_hex rd ;; uputs " mscratch(readback)=" ;; uart_put_hex readback ;; uputs "\n".

Definition msc_checksum (boot_val rd readback rd2 restored traps : Z) : Z :=
  fold_left fnv_update [boot_val; rd; readback; rd2; restored; traps] FNV_OFFSET.

Definition msc_tail (boot_val rd readback rd2 restored : Z) : prog W unit :=
  traps <- regs 0 ;;
  uputs "traps:  " ;; uart_put_dec traps ;; uputs " (handler parks the hart, so a trap would end the run here)\n" ;;
  ucheck (traps =? 0) "trap counter != 0" ;;
  uputs "checksum=" ;; uart_put_hex (msc_checksum boot_val rd readback rd2 restored traps) ;;
  uputs " (FNV-1a over boot, swap rd, swap readback, restore rd,\n" ;;
  uputs "  restore readback, traps)\n" ;;
  uputs "checks=" ;; n <- gget checks ;; uart_put_dec n ;;
  uputs " fails=" ;; n <- gget fails ;; uart_put_dec n ;; uputs "\n" ;;
  n <- gget fails ;;
  (if n =? 0 then uputs "RESULT: PASS (swap both sides, restore exact, 0 traps)\n" else uputs "RESULT: FAIL\n") ;;
  uputs "done\n" ;;
  park.

Definition msc_body : prog W unit :=
  uputs "mscratch-csrrw: mscratch csrrw atomic-swap round-trip test\n" ;;
  csrw "mtvec" trap_entry ;;
  boot_val <- csr_read_mscratch ;;
  uputs "boot:   mscratch=" ;; uart_put_hex boot_val ;;
  uputs " (read before any write; boot.S does not touch mscratch)\n" ;;
  rd <- csr_swap_mscratch SENTINEL ;;
  readback <- csr_read_mscratch ;;
  swap_line "swap:   csrrw rd,mscratch,SENTINEL  rd(old)=" rd readback ;;
  ucheck (rd =? boot_val) "swap: rd != boot mscratch value (read side)" ;;
  ucheck (readback =? SENTINEL) "swap: mscratch != SENTINEL after csrrw (write side)" ;;
  rd2 <- csr_swap_mscratch boot_val ;;
  restored <- csr_read_mscratch ;;
  swap_line "restore: csrrw rd,mscratch,boot  rd(old)=" rd2 restored ;;
  ucheck (rd2 =? SENTINEL) "restore: rd != SENTINEL (read side)" ;;
  ucheck (restored =? boot_val) "restore: mscratch != boot value" ;;
  msc_tail boot_val rd readback rd2 restored.
Definition msc_main : prog W unit := uart_init ;; msc_body.

(** ** mwr_main.c (mie-write-readback) *)

Definition read_mie : prog W Z := csrr "mie".
Definition write_mie (v : Z) : prog W unit := csrw "mie" v.

(** [fnv] starts at the full offset basis; [digest64] is [fold]. *)
Definition mwr_boot_glob : pglob := PGlob (replicate 5 0) 0 0 14695981039346656037.
Definition digest64 (v : Z) : prog W unit := fold v.

Definition mwr_setup : prog W unit :=
  mstatus <- read_mstatus ;;
  wcheck (Z.land mstatus MSTATUS_MIE =? 0) "mstatus.MIE set at boot" ;;
  csrw "mtvec" trap_entry ;;
  csrw "mscratch" save_addr ;;
  mtvec <- csrr "mtvec" ;;
  uputs "trap: mtvec=" ;; uart_put_hex mtvec ;; uputs "\n" ;;
  check_mtvec wcheck mtvec.

Definition mwr_baseline : prog W Z :=
  boot_mie <- read_mie ;;
  boot_mstatus <- read_mstatus ;;
  boot_mideleg <- read_mideleg ;;
  uputs "boot: mie=" ;; uart_put_hex boot_mie ;;
  uputs " mstatus=" ;; uart_put_hex boot_mstatus ;;
  uputs " mideleg=" ;; uart_put_hex boot_mideleg ;; uputs "\n" ;;
  digest64 boot_mie ;; digest64 boot_mstatus ;; digest64 boot_mideleg ;;
  wcheck (Z.land boot_mstatus MSTATUS_MIE =? 0) "mstatus.MIE not clear at boot" ;;
  ret boot_mie.

Definition mwr_phase1 : prog W Z :=
  write_mie ALL_ONES ;;
  r1 <- read_mie ;;
  uputs "phase1 ones: mie=" ;; uart_put_hex r1 ;; uputs "\n" ;;
  digest64 ALL_ONES ;; digest64 r1 ;;
  write_mie 0 ;;
  rb <- read_mie ;;
  uputs "phase1 zero: mie=" ;; uart_put_hex rb ;; uputs "\n" ;;
  digest64 rb ;;
  wcheck (rb =? 0) "phase 1: zero write did not read back 0" ;;
  ret r1.

Definition mwr_bit (b : nat) (sticky_union : Z) : prog W Z :=
  let w := Z.shiftl 1 (Z.of_nat b) in
  write_mie w ;;
  rb <- read_mie ;;
  uputs "  bit " ;; uart_put_dec (Z.of_nat b) ;; uputs ": mie=" ;; uart_put_hex rb ;; uputs "\n" ;;
  digest64 w ;; digest64 rb ;;
  if rb =? w then ret (Z.lor sticky_union rb)
  else when (negb (rb =? 0)) (wcheck false "phase 2: per-bit write read back stray bits") ;; ret sticky_union.

Definition mwr_phase2 (r1 : Z) : prog W Z :=
  sticky_union <- for_acc (seq 0 12) 0 mwr_bit ;;
  wcheck (negb (sticky_union =? 0) || (r1 =? 0)) "phase 2: no bit stuck but phase 1 read back nonzero" ;;
  uputs "phase2 sticky-union: mie=" ;; uart_put_hex sticky_union ;; uputs "\n" ;;
  digest64 sticky_union ;;
  ret sticky_union.

Definition mwr_phase3 (r1 sticky_union : Z) : prog W unit :=
  write_mie ALL_ONES ;;
  rb <- read_mie ;;
  uputs "phase3 ones: mie=" ;; uart_put_hex rb ;; uputs "\n" ;;
  digest64 rb ;;
  wcheck (rb =? r1) "phase 3: all-ones readback differs from phase 1" ;;
  wcheck (Z.land rb 0xfff =? sticky_union) "phase 3: low-12-bit all-ones readback differs from per-bit union".

Definition mwr_phase4 (boot_mie : Z) : prog W unit :=
  write_mie boot_mie ;;
  mie <- read_mie ;;
  mstatus <- read_mstatus ;;
  uputs "restored: mie=" ;; uart_put_hex mie ;; uputs " mstatus=" ;; uart_put_hex mstatus ;; uputs "\n" ;;
  digest64 mie ;; digest64 mstatus ;;
  wcheck (mie =? boot_mie) "mie did not restore to the boot value" ;;
  wcheck (Z.land mstatus MSTATUS_MIE =? 0) "mstatus.MIE changed during run".

Definition mwr_tail : prog W unit :=
  n <- regs 0 ;; digest64 n ;;
  n <- regs 0 ;;
  when (negb (n =? 0))
    (uputs "  FAIL: unexpected trap(s), count=" ;; x <- regs 0 ;; uart_put_dec x ;;
     uputs " mcause=" ;; x <- regs 1 ;; uart_put_hex x ;;
     uputs " mepc=" ;; x <- regs 2 ;; uart_put_hex x ;;
     uputs " mtval=" ;; x <- regs 3 ;; uart_put_hex x ;; uputs "\n" ;;
     n <- gget checks ;; gset_ (set_checks (n + 1)) ;;
     n <- gget fails ;; gset_ (set_fails (n + 1))) ;;
  uputs "traps: count=" ;; x <- regs 0 ;; uart_put_dec x ;; uputs "\n" ;;
  uputs "checks: " ;; n <- gget checks ;; uart_put_dec (u64 n) ;;
  uputs " mismatches: " ;; n <- gget fails ;; uart_put_dec (u64 n) ;; uputs "\n" ;;
  uputs "digest: " ;; c <- gget csum ;; uart_put_hex c ;; uputs "\n" ;;
  pass_fail.

Definition mwr_body : prog W unit :=
  uputs "mie-write-readback: mie all-ones WARL write/readback probe\n" ;;
  mwr_setup ;;
  boot_mie <- mwr_baseline ;;
  r1 <- mwr_phase1 ;;
  sticky_union <- mwr_phase2 r1 ;;
  mwr_phase3 r1 sticky_union ;;
  mwr_phase4 boot_mie ;;
  mwr_tail.
Definition mwr_main : prog W unit := uart_init ;; mwr_body.
End Program.

(** ** Rules *)

(** Globals: save area, results of the checks so far, count, checksum. *)
Definition ws (s : list Z) (bs : list bool) (n c : Z) : pglob := PGlob s (nfalse bs) n c.

(** What a program using the registers [names] sees of a hart. *)
Record lview : Type := LV { lv : list Z; lv_test : Z }.
Definition lcv `{WarlSpec H} (names : list string) (h : H) : lview := LV (map (fun c => cval c h) names) (test_dev h).

(** Register [c] in a list of values, and the values after a write. *)
Fixpoint look (names : list string) (c : string) (l : list Z) : option Z :=
  match names, l with
  | c' :: names, x :: l => if String.eqb c c' then Some x else look names c l
  | _, _ => None
  end.
Definition upd `{WarlSpec H} (names : list string) (c : string) (x : Z) (l : list Z) : list Z :=
  zip_with (fun c' v => if String.eqb c c' then legal c v x else v) names l.
(** Writing [c] leaves the other registers alone. *)
Definition apart (names : list string) (c : string) : bool :=
  is_csr c && forallb (fun c' => String.eqb c c' || indep c c') names.

Section Checks.
Context {U H V : Type} `{!UartDev U, !UartSpec U, !HartDev H} (view : H -> V).
Abbreviation vr := (vruns (U:=U) (H:=H) (G:=pglob) view).

Lemma fail_line_runs msg v g : no_nul (c_lit msg) = true ->
  vr (uputs "  FAIL: " ;; uputs msg ;; uputs "\n" ;; n <- gget fails ;; gset_ (set_fails (n + 1))) v g tt
    (chk false msg) v (set_fails (fails g + 1) g).
Proof.
  intros Hm. eapply vruns_conv.
  - eapply vruns_bind; [vprim|]. eapply vruns_bind; [apply vruns_prints, prints_lit, Hm|]. eapply vruns_bind; [vprim|].
    eapply vruns_bind0; [apply vruns_gget|]. apply vruns_gset. reflexivity.
  - reflexivity.
  - unfold chk. now rewrite app_nil_r.
  - reflexivity.
  - reflexivity.
Qed.

Lemma ncheck_runs b msg v s bs n c : no_nul (c_lit msg) = true ->
  vr (ncheck b msg) v (ws s bs n c) tt (chk b msg) v (ws s (bs ++ [b]) n c).
Proof.
  intros Hm. unfold ncheck. destruct b; cbn [negb].
  - eapply vruns_conv; [now apply vruns_unless|reflexivity..|]. unfold ws. rewrite nfalse_snoc. f_equal. lia.
  - eapply vruns_when; [|reflexivity]. eapply vruns_conv; [now apply fail_line_runs|reflexivity..|].
    unfold ws, set_fails. cbn [save fails checks csum]. now rewrite nfalse_snoc.
Qed.

Lemma wcheck_counts b msg v s bs n c : no_nul (c_lit msg) = true ->
  vr (wcheck b msg) v (ws s bs n c) tt (chk b msg) v (ws s (bs ++ [b]) (n + 1) c).
Proof.
  intros Hm. change (wcheck b msg) with (n <- gget checks ;; gset_ (set_checks (n + 1)) ;; ncheck (U:=U) (H:=H) b msg)%prog.
  eapply vruns_bind0; [apply vruns_gget|]. eapply vruns_bind0; [apply vruns_gset; reflexivity|].
  now apply (ncheck_runs b msg v s bs (n + 1) c).
Qed.

Lemma feed_runs x v s bs n c : vr (fold x) v (ws s bs n c) tt [] v (ws s bs n (fnv_word c x)).
Proof.
  unfold fold, fnv_word, ws. revert c. generalize (seq 0 8) (nfalse bs). intros l k.
  induction l as [|i l IH]; intros c; [apply vruns_ret|].
  cbn [for_each fold_left]. eapply vruns_bind0; [do 4 vstep|]. apply IH.
Qed.

(** A loop with no effect. *)
Lemma for_acc_pure {A B} (f : A -> B -> B) (l : list A) b v g :
  vr (for_acc l b (fun x b => ret (f x b))) v g (fold_left (fun b x => f x b) l b) [] v g.
Proof.
  revert b. induction l as [|x l IH]; intros b; [apply vruns_ret|]. cbn [for_acc fold_left].
  eapply vruns_bind0; [apply vruns_ret|]. apply IH.
Qed.

Lemma regs_runs i x v s bs n c : s !! i = Some x -> vr (regs i) v (ws s bs n c) x [] v (ws s bs n c).
Proof. intros E. unfold regs. eapply vruns_bind0; [apply vruns_gget|]. now apply vruns_arr_get. Qed.
End Checks.

Section Regs.
Context {U H : Type} `{!UartDev U, !UartSpec U, !HartDev H, !WarlSpec H} (names : list string).
Abbreviation vr := (vruns (U:=U) (H:=H) (G:=pglob) (lcv names)).

Lemma look_map c h x : look names c (map (fun c => cval c h) names) = Some x -> x = cval c h.
Proof.
  induction names as [|c' ns IH]; [discriminate|]. cbn [look map]. destruct (String.eqb_spec c c') as [->|]; [congruence|exact IH].
Qed.

Lemma reg_read c x v g : is_csr c = true -> look names c (lv v) = Some x -> vr (csrr c) v g x [] v g.
Proof.
  intros Hc Hx u h <-. exists (csr_rd c h).2. rewrite csrr_eq, (cval_rd c h Hc). rewrite (look_map c h x Hx).
  split; [reflexivity|]. unfold lcv. rewrite test_dev_rd. f_equal. apply map_ext. intros c'. apply cval_rd_keeps.
Qed.

Lemma reg_write c x l d l' g : apart names c = true -> upd names c x l = l' -> vr (csrw c x) (LV l d) g tt [] (LV l' d) g.
Proof.
  intros Ha <- u h Hv. injection Hv as <- <-. exists (csr_wr c x h). split; [reflexivity|].
  unfold lcv, upd. rewrite test_dev_wr. f_equal. apply andb_prop in Ha as [Hc Ha]. clear -Hc Ha.
  induction names as [|c' ns IH]; [reflexivity|]. cbn [map zip_with forallb] in *. apply andb_prop in Ha as [H1 H2].
  f_equal; [|now apply IH]. destruct (String.eqb_spec c c') as [<-|]; [now apply cval_wr|]. now apply cval_wr_other.
Qed.

Lemma reg_set c m x l d l' g : apart names c = true -> is_csr c = true -> look names c l = Some x ->
  upd names c (Z.lor x m) l = l' -> vr (csrs c m) (LV l d) g tt [] (LV l' d) g.
Proof.
  intros Ha Hc Hx Hu. unfold csrs, csrrs. eapply vruns_bind0; [|apply vruns_ret].
  eapply vruns_bind0; [eapply reg_read; [exact Hc|exact Hx]|]. eapply vruns_bind0; [apply reg_write; [exact Ha|exact Hu]|]. apply vruns_ret.
Qed.
Lemma reg_clear c m x l d l' g : apart names c = true -> is_csr c = true -> look names c l = Some x ->
  upd names c (Z.land x (u64 (Z.lnot m))) l = l' -> vr (csrc c m) (LV l d) g tt [] (LV l' d) g.
Proof.
  intros Ha Hc Hx Hu. unfold csrc, csrrc. eapply vruns_bind0; [|apply vruns_ret].
  eapply vruns_bind0; [eapply reg_read; [exact Hc|exact Hx]|]. eapply vruns_bind0; [apply reg_write; [exact Ha|exact Hu]|]. apply vruns_ret.
Qed.

Lemma finisher_sets l d g : vr finisher (LV l d) g tt [] (LV l FINISHER_PASS) g.
Proof.
  intros u h Hv. injection Hv as <- <-. exists (mw32 VIRT_TEST_FINISHER FINISHER_PASS h). split; [reflexivity|].
  unfold lcv. rewrite test_dev_mw. f_equal. apply map_ext. intros c. apply cval_mw.
Qed.

(** The verdict of the [check]s, printed and signalled. *)
Lemma pass_fail_halts l d s bs n c :
  vhalts (U:=U) (lcv names) pass_fail (LV l d) (ws s bs n c) (if forallb id bs then lit "RESULT: PASS\n" else lit "RESULT: FAIL\n")
    (LV l (if forallb id bs then FINISHER_PASS else d)) (ws s bs n c).
Proof.
  unfold pass_fail. eapply vhalts_bind0; [apply vruns_gget|]. cbn [fails ws]. rewrite nfalse_zero.
  destruct (forallb id bs); eapply vhalts_conv.
  - vstep. eapply vhalts_bind0; [apply finisher_sets|]. apply vhalts_park.
  - now rewrite app_nil_r.
  - vstep. apply vhalts_park.
  - now rewrite app_nil_r.
Qed.
End Regs.

Ltac lprim :=
  lazymatch goal with
  | |- vruns _ (csrr _) _ _ _ _ _ _ => apply reg_read; reflexivity
  | |- vruns _ read_misa _ _ _ _ _ _ => apply reg_read; reflexivity
  | |- vruns _ read_mideleg _ _ _ _ _ _ => apply reg_read; reflexivity
  | |- vruns _ read_mstatus _ _ _ _ _ _ => apply reg_read; reflexivity
  | |- vruns _ read_mie _ _ _ _ _ _ => apply reg_read; reflexivity
  | |- vruns _ csr_read_mscratch _ _ _ _ _ _ => apply reg_read; reflexivity
  | |- vruns _ (csrw _ _) _ _ _ _ _ _ => lwrite
  | |- vruns _ (write_misa _) _ _ _ _ _ _ => lwrite
  | |- vruns _ (write_mideleg _) _ _ _ _ _ _ => lwrite
  | |- vruns _ (write_mie _) _ _ _ _ _ _ => lwrite
  | |- vruns _ (csrs _ _) _ _ _ _ _ _ => eapply reg_set; [reflexivity..|lupd]
  | |- vruns _ (csrc _ _) _ _ _ _ _ _ => eapply reg_clear; [reflexivity..|lupd]
  | |- vruns _ (ncheck _ _) _ _ _ _ _ _ => apply ncheck_runs; reflexivity
  | |- vruns _ (wcheck _ _) _ _ _ _ _ _ => apply wcheck_counts; reflexivity
  | |- vruns _ (cks_feed _) _ _ _ _ _ _ => apply feed_runs
  | |- vruns _ (digest64 _) _ _ _ _ _ _ => apply feed_runs
  | |- vruns _ (regs _) _ _ _ _ _ _ => apply regs_runs; reflexivity
  | |- _ => vprim
  end
with lwrite := apply reg_write; [reflexivity|lupd]
with lupd := cbv [upd zip_with String.eqb Ascii.eqb Bool.eqb]; reflexivity.
(** Silent steps leave no empty text behind. *)
Ltac lquiet m :=
  lazymatch m with
  | ret _ => idtac | gget _ => idtac | gset_ _ => idtac | csrr _ => idtac | csrw _ _ => idtac | csrs _ _ => idtac | csrc _ _ => idtac | regs _ => idtac
  | read_misa => idtac | read_mideleg => idtac | read_mstatus => idtac | read_mie => idtac | csr_read_mscratch => idtac
  | write_misa _ => idtac | write_mideleg _ => idtac | write_mie _ => idtac | cks_feed _ => idtac | digest64 _ => idtac
  end.
Ltac lstep :=
  lazymatch goal with
  | |- vruns _ (bind ?m _) _ _ _ _ _ _ =>
      first [lquiet m; eapply vruns_bind0; [lprim|cbn beta] | eapply vruns_bind; [lprim|cbn beta]]
  | |- vhalts _ (bind ?m _) _ _ _ _ _ =>
      first [lquiet m; eapply vhalts_bind0; [lprim|cbn beta] | eapply vhalts_bind; [lprim|cbn beta]]
  | |- vruns _ _ _ _ _ _ _ _ => lprim
  end.
(** A block with no branch. *)
Ltac lblock := cbv zeta; eapply vruns_conv; [repeat lstep|reflexivity|cbn [app]; rewrite ?app_nil_r; reflexivity|reflexivity
  |rewrite <-?app_assoc; reflexivity].

(** Texts agree up to association and the splitting of literals. *)
Ltac text_eq :=
  repeat match goal with
  | |- context [chk ?b ?m] => generalize (chk b m); intro
  | |- context [fmt_hex ?x] => generalize (fmt_hex x); intro
  | |- context [if ?b then lit _ else lit _] => destruct b
  end; rewrite ?app_nil_r, <-?app_assoc; vm_compute; reflexivity.

(** ** The misa programs *)

Section Misa.
Context {U H : Type} `{!UartDev U, !UartSpec U, !HartDev H, !WarlSpec H} (trap_entry save_addr : Z).
Abbreviation names := ["mtvec"; "mscratch"; "misa"]%string.
Abbreviation vr := (vruns (U:=U) (H:=H) (G:=pglob) (lcv names)).

(** The vector after it is written, and the checks on it. *)
Definition tv (t : Z) : Z := legal "mtvec" t trap_entry.
Definition tv_checks (t : Z) : list bool := [Z.land (tv t) (u64 (Z.lnot 3)) =? trap_entry; Z.land (tv t) 3 =? 0].
Definition tv_text (t : Z) : list Z :=
  chk (Z.land (tv t) (u64 (Z.lnot 3)) =? trap_entry) "mtvec did not take the handler address" ++
  chk (Z.land (tv t) 3 =? 0) "mtvec not in direct mode".

Lemma install_trap_runs t s x d sv bs n c :
  vr (install_trap trap_entry save_addr) (LV [t; s; x] d) (ws sv bs n c) tt (tv_text t)
    (LV [tv t; legal "mscratch" s save_addr; x] d) (ws sv (bs ++ tv_checks t) n c).
Proof. unfold install_trap, check_mtvec, tv_text, tv_checks, tv. lblock. Qed.

Lemma traps_report_runs l d bs n c :
  vr traps_report (LV l d) (ws (replicate 4 0) bs n c) tt (lit "traps: count=0\n") (LV l d) (ws (replicate 4 0) bs n c).
Proof.
  unfold traps_report. eapply vruns_conv.
  - lstep. eapply vruns_bind0; [now apply vruns_unless|]. repeat lstep.
  - reflexivity.
  - vm_compute. reflexivity.
  - reflexivity.
  - reflexivity.
Qed.

Lemma misa_alive_runs v s bs n c : vr misa_alive v (ws s bs n c) tt (lit "alive: sum1to100=5050\n") v (ws s (bs ++ [true]) n c).
Proof.
  unfold misa_alive. eapply vruns_conv.
  - eapply vruns_bind0; [apply (for_acc_pure (lcv names) (fun i acc => u64 (acc + Z.of_nat i)))|].
    change (fold_left _ _ _) with 5050. repeat lstep.
  - reflexivity.
  - vm_compute. reflexivity.
  - reflexivity.
  - reflexivity.
Qed.

(** misa-readonly. *)
Definition ones_rb (x : Z) : Z := legal "misa" x ALL_ONES.
Definition misa_checks (t x : Z) : list bool := (tv_checks t ++ [ones_rb x =? x]) ++ [true].
Definition misa_log (t x : Z) : list Z :=
  lit "misa-readonly: misa WARL read-only check\n" ++ tv_text t ++
  lit "boot: misa=" ++ fmt_hex x ++ lit "\nwrite: value=0xffffffffffffffff readback=" ++ fmt_hex (ones_rb x) ++ lit "\n" ++
  chk (ones_rb x =? x) "misa readback differs from boot value: some bits are writable" ++
  lit "alive: sum1to100=5050\ntraps: count=0\n" ++
  (if forallb id (misa_checks t x) then lit "RESULT: PASS\n" else lit "RESULT: FAIL\n").

Lemma misa_main_sends t s x d : is_u64 x ->
  vmain_sends (U:=U) (lcv names) (misa_main trap_entry save_addr) (LV [t; s; x] d) (probe_boot 4) (misa_log t x)
    (fun v g => lv_test v = (if forallb id (misa_checks t x) then FINISHER_PASS else d) /\
       look names "misa" (lv v) = Some (ones_rb x) /\ fails g = nfalse (misa_checks t x)).
Proof.
  intros Hx. apply vmain_sends_intro.
  - eexists _, _, _. split; [|split].
    + unfold misa_body. change (probe_boot 4) with (ws (replicate 4 0) [] 0 FNV_BASIS).
      lstep. eapply vhalts_bind; [apply install_trap_runs|]. repeat lstep.
      eapply vhalts_bind; [apply misa_alive_runs|]. eapply vhalts_bind; [apply traps_report_runs|]. apply pass_fail_halts.
    + unfold misa_log, misa_checks, tv_checks, tv_text, ones_rb. cbn [app]. text_eq.
    + split_and!; reflexivity.
  - unfold misa_log, tv_text. warl_bytes.
Qed.

(** misa-mxl-warl. *)
Definition mxl_try (x : Z) : Z := Z.lor (Z.land x (u64 (Z.lnot MXL_MASK))) (Z.shiftl 1 62).
Definition mxl_rb (x : Z) : Z := legal "misa" x (mxl_try x).
Definition mxl_rst (x : Z) : Z := legal "misa" (mxl_rb x) x.
Definition mxl_kept (x : Z) : bool := Z.land (Z.shiftr (mxl_rb x) 62) 3 =? 2.
Definition ext_kept (x : Z) : bool := Z.land (mxl_rb x) EXT_MASK =? Z.land x EXT_MASK.
Definition mxl_checks (t x : Z) : list bool := tv_checks t ++ [mxl_kept x; ext_kept x; mxl_rst x =? x].
Definition mxl_log (t x : Z) : list Z :=
  lit "misa-mxl-warl: misa.MXL WARL legalization check\n" ++ tv_text t ++
  lit "boot: misa=" ++ fmt_hex x ++ lit "\nwrite: value=" ++ fmt_hex (mxl_try x) ++ lit "\nreadback: misa=" ++ fmt_hex (mxl_rb x) ++
  lit "\n" ++ chk (mxl_kept x) "MXL field changed: the write altered the hart's XLEN encoding" ++
  chk (ext_kept x) "extension bits 25:0 differ from the boot value" ++
  lit "restore: misa=" ++ fmt_hex (mxl_rst x) ++ lit "\n" ++
  chk (mxl_rst x =? x) "restoring the boot misa value did not read back exactly" ++
  lit "traps: count=0\nchecksum=" ++ fmt_hex (mxl_checksum x (mxl_try x) (mxl_rb x) (mxl_rst x) 0) ++ lit "\n" ++
  (if forallb id (mxl_checks t x) then lit "RESULT: PASS\n" else lit "RESULT: FAIL\n").

Lemma mxl_try_u64 x : is_u64 x -> is_u64 (mxl_try x).
Proof. intros Hx. apply lor_u64; [apply land_u64; [exact Hx|apply u64_range]|u64c]. Qed.
Lemma mxl_checksum_u64 a b c d e : is_u64 (mxl_checksum a b c d e).
Proof. apply fnv_word_u64. Qed.
Hint Resolve mxl_try_u64 mxl_checksum_u64 : word.

Lemma mxl_readback_runs t s x d bs n c : is_u64 x ->
  vr (mxl_readback x (mxl_try x)) (LV [t; s; x] d) (ws (replicate 4 0) bs n c) (mxl_rb x)
    (lit "write: value=" ++ fmt_hex (mxl_try x) ++ lit "\nreadback: misa=" ++ fmt_hex (mxl_rb x) ++ lit "\n" ++
     chk (mxl_kept x) "MXL field changed: the write altered the hart's XLEN encoding" ++
     chk (ext_kept x) "extension bits 25:0 differ from the boot value")
    (LV [t; s; mxl_rb x] d) (ws (replicate 4 0) (bs ++ [mxl_kept x; ext_kept x]) n c).
Proof.
  intros Hx. unfold mxl_readback, mxl_kept, ext_kept, mxl_rb. eapply vruns_conv; [repeat lstep|reflexivity|text_eq|reflexivity|].
  now rewrite <-app_assoc.
Qed.

Lemma mxl_restore_runs t s x y d bs n c : is_u64 x ->
  vr (mxl_restore x) (LV [t; s; y] d) (ws (replicate 4 0) bs n c) (legal "misa" y x)
    (lit "restore: misa=" ++ fmt_hex (legal "misa" y x) ++ lit "\n" ++
     chk (legal "misa" y x =? x) "restoring the boot misa value did not read back exactly")
    (LV [t; s; legal "misa" y x] d) (ws (replicate 4 0) (bs ++ [legal "misa" y x =? x]) n c).
Proof. intros Hx. unfold mxl_restore. lblock. Qed.

Lemma mxl_main_sends t s x d : is_u64 x ->
  vmain_sends (U:=U) (lcv names) (mxl_main trap_entry save_addr) (LV [t; s; x] d) (probe_boot 4) (mxl_log t x)
    (fun v g => lv_test v = (if forallb id (mxl_checks t x) then FINISHER_PASS else d) /\
       look names "misa" (lv v) = Some (mxl_rst x) /\ fails g = nfalse (mxl_checks t x)).
Proof.
  intros Hx. apply vmain_sends_intro.
  - eexists _, _, (ws _ (mxl_checks t x) _ _). split; [|split].
    + unfold mxl_body. change (probe_boot 4) with (ws (replicate 4 0) [] 0 FNV_BASIS).
      lstep. eapply vhalts_bind; [apply install_trap_runs|]. repeat lstep. cbv zeta. fold (mxl_try x).
      eapply vhalts_bind; [now apply mxl_readback_runs|]. eapply vhalts_bind; [now apply mxl_restore_runs|]. fold (mxl_rst x).
      eapply vhalts_bind; [apply traps_report_runs|]. repeat lstep. cbn [app]. rewrite <-app_assoc. apply pass_fail_halts.
    + unfold mxl_log, tv_text. fold (mxl_rst x). text_eq.
    + split_and!; reflexivity.
  - unfold mxl_log, tv_text. warl_bytes.
Qed.
End Misa.

(** ** mideleg *)

Section Mideleg.
Context {U H : Type} `{!UartDev U, !UartSpec U, !UartDrain U, !HartDev H, !WarlSpec H} (trap_entry : Z).
Abbreviation names := ["mtvec"; "mideleg"]%string.
Abbreviation vr := (vruns (U:=U) (H:=H) (G:=pglob) (lcv names)).

(** A [main] that lets the transmitter drain before it signals; [v2] is what
    the signal makes of [v1]. *)
Lemma drained_view {V} (view : H -> V) (body : prog (world U H pglob) unit) v g l v1 v2 s bs n c :
  vruns (U:=U) view body v g tt l v1 (ws s bs n c) -> (forall g, vruns (U:=U) (G:=pglob) view finisher v1 g tt [] v2 g) ->
  Forall (fun c => 0 <= c < 256) l ->
  vmain_sends (U:=U) view (uart_init ;; body ;; drain_finish) v g l
    (fun v g => v = (if forallb id bs then v2 else v1) /\ g = ws s bs n c).
Proof using UartSpec0 UartDrain0.
  intros Hb Hfin Hl u h Hv. rewrite (bind_ret_eq _ _ _ _ _ (uart_init_eq _)). cbn [set_uart w_uart w_hw w_glob].
  destruct (Hb (inited u) h Hv) as (h1 & E1 & Hv1). rewrite (bind_ret_eq _ _ _ _ _ E1). unfold drain_finish, uart_wait.
  rewrite (bind_ret_eq _ _ _ _ _ (wait_ind LSR_TEMT temt_wait (fun _ => True) uart_fuel _
    ltac:(auto) ltac:(auto using temt_progress) I (temt_bounded _))).
  cbn [set_uart w_uart w_hw w_glob].
  assert (vhalts (U:=U) (A:=unit) view (n <- gget fails ;; if n =? 0 then finisher ;; park else park) v1 (ws s bs n c) []
    (if forallb id bs then v2 else v1) (ws s bs n c)) as Hf.
  { eapply vhalts_bind0; [apply vruns_gget|]. cbn [fails ws]. rewrite nfalse_zero. destruct (forallb id bs); [|apply vhalts_park].
    eapply vhalts_bind0; [apply Hfin|]. apply vhalts_park. }
  destruct (Hf (polled LSR_TEMT uart_fuel (emits l (inited u))) h1 Hv1) as (h2 & E2 & Hv2).
  exists (polled LSR_TEMT uart_fuel (emits l (inited u))), h2, (ws s bs n c). split; [exact E2|].
  rewrite polled_tx, polled_rx, emits_rx, emits_tx, inited_tx, inited_rx by exact Hl. auto.
Qed.

Lemma drained_sends (ns : list string) (body : prog (world U H pglob) unit) v g l l1 d s bs n c :
  vruns (U:=U) (lcv ns) body v g tt l (LV l1 d) (ws s bs n c) -> Forall (fun c => 0 <= c < 256) l ->
  vmain_sends (U:=U) (lcv ns) (uart_init ;; body ;; drain_finish) v g l
    (fun v g => v = LV l1 (if forallb id bs then FINISHER_PASS else d) /\ g = ws s bs n c).
Proof using UartSpec0 UartDrain0 WarlSpec0.
  intros Hb Hl u h Hv. destruct (drained_view (lcv ns) body v g l _ _ s bs n c Hb (fun g => finisher_sets ns l1 d g) Hl u h Hv)
    as (u' & h' & g' & E & Ht & Hr & Hw & Hg). exists u', h', g'. split_and!; try assumption. rewrite Hw. now destruct (forallb id bs).
Qed.

Definition mideleg_one (x : Z) : Z := legal "mideleg" x ALL_ONES.
Definition mideleg_zero (x : Z) : Z := legal "mideleg" (mideleg_one x) 0.
Definition mideleg_again (x : Z) : Z := legal "mideleg" (mideleg_zero x) ALL_ONES.
Definition mideleg_checks (t x : Z) : list bool :=
  [x =? EXPECTED_MIDELEG_ZERO] ++ tv_checks trap_entry t ++
  [mideleg_one x =? EXPECTED_MIDELEG_ONES; mideleg_zero x =? EXPECTED_MIDELEG_ZERO; mideleg_again x =? mideleg_one x].
Definition mideleg_log (t x : Z) : list Z :=
  lit "mideleg-warl: mideleg write/legalized-readback check\nboot: mideleg=" ++ fmt_hex x ++ lit "\n" ++
  chk (x =? EXPECTED_MIDELEG_ZERO) "mideleg != 0x1444 at boot" ++
  lit "trap: mtvec=" ++ fmt_hex (tv trap_entry t) ++ lit "\n" ++ tv_text trap_entry t ++
  lit "write-ones: write=0xffffffffffffffff readback=" ++ fmt_hex (mideleg_one x) ++ lit "\n" ++
  chk (mideleg_one x =? EXPECTED_MIDELEG_ONES) "all-ones readback != 0x3666" ++
  lit "write-zero: write=0x0 readback=" ++ fmt_hex (mideleg_zero x) ++ lit "\n" ++
  chk (mideleg_zero x =? EXPECTED_MIDELEG_ZERO) "zero write readback != 0x1444" ++
  lit "write-ones-again: write=0xffffffffffffffff readback=" ++ fmt_hex (mideleg_again x) ++ lit "\n" ++
  chk (mideleg_again x =? mideleg_one x) "second all-ones readback differs" ++
  (if forallb id (mideleg_checks t x) then lit "RESULT: PASS (checks=6)\n" else lit "RESULT: FAIL (checks=6)\n").

Lemma mideleg_trap_runs t x d s bs n c :
  vr (mideleg_trap trap_entry) (LV [t; x] d) (ws s bs n c) tt
    (lit "trap: mtvec=" ++ fmt_hex (tv trap_entry t) ++ lit "\n" ++ tv_text trap_entry t)
    (LV [tv trap_entry t; x] d) (ws s (bs ++ tv_checks trap_entry t) n c).
Proof. unfold mideleg_trap, check_mtvec, tv_text, tv_checks, tv. lblock. Qed.

(** Write, read back, print. *)
Lemma print_pair_runs tag w rb v g : no_nul (c_lit tag) = true -> is_u64 w -> is_u64 rb ->
  vr (print_pair tag w rb) v g tt (lit tag ++ lit ": write=" ++ fmt_hex w ++ lit " readback=" ++ fmt_hex rb ++ lit "\n") v g.
Proof.
  intros Ht Hw Hr. unfold print_pair. eapply vruns_bind; [apply vruns_prints, prints_lit, Ht|]. repeat lstep.
Qed.

Lemma mideleg_main_sends t x d : is_u64 x ->
  vmain_sends (U:=U) (lcv names) (mideleg_main trap_entry) (LV [t; x] d) (probe_boot 0) (mideleg_log t x)
    (fun v g => v = LV [tv trap_entry t; mideleg_again x] (if forallb id (mideleg_checks t x) then FINISHER_PASS else d) /\
       fails g = nfalse (mideleg_checks t x)).
Proof.
  intros Hx.
  assert (vr (mideleg_body trap_entry) (LV [t; x] d) (probe_boot 0) tt (mideleg_log t x)
    (LV [tv trap_entry t; mideleg_again x] d) (ws [] (mideleg_checks t x) 0 FNV_BASIS)) as Hb.
  { unfold mideleg_body. change (probe_boot 0) with (ws [] [] 0 FNV_BASIS). eapply vruns_conv.
    - do 6 lstep. eapply vruns_bind; [apply mideleg_trap_runs|]. do 2 lstep.
      eapply vruns_bind; [apply print_pair_runs; [reflexivity|u64c|apply legal_u64]|]. do 3 lstep.
      eapply vruns_bind; [apply print_pair_runs; [reflexivity|u64c|apply legal_u64]|]. do 3 lstep.
      eapply vruns_bind; [apply print_pair_runs; [reflexivity|u64c|apply legal_u64]|]. do 3 lstep. cbn [fails ws].
      rewrite nfalse_zero. eapply vruns_bind with
        (l1 := if forallb id (mideleg_checks t x) then lit "PASS" else lit "FAIL"); [|lstep].
      apply vruns_prints. replace (forallb id _) with (forallb id (mideleg_checks t x)) by reflexivity.
      destruct (forallb id (mideleg_checks t x)); now apply prints_lit.
    - reflexivity.
    - unfold mideleg_log. fold (mideleg_one x). fold (mideleg_zero x). fold (mideleg_again x). unfold tv_text.
      change (fmt_hex ALL_ONES) with (lit "0xffffffffffffffff"). change (fmt_hex 0) with (lit "0x0"). text_eq.
    - reflexivity.
    - reflexivity. }
  intros u h Hv. destruct (drained_sends names _ _ _ _ _ _ _ _ _ _ Hb) with (u := u) (h := h)
    as (u' & h' & g' & E & Ht & Hr & Hw & Hg); [|exact Hv|].
  { unfold mideleg_log, tv_text. warl_bytes. }
  exists u', h', g'. subst g'. split_and!; try assumption; reflexivity.
Qed.
End Mideleg.

(** ** mstatus.MPRV *)

Section Mprv.
Context {U H : Type} `{!UartDev U, !UartSpec U, !HartDev H, !WarlSpec H} (trap_entry : Z).
Abbreviation names := ["mtvec"; "mstatus"]%string.
Abbreviation vr := (vruns (U:=U) (H:=H) (G:=pglob) (lcv names)).

(** The readback after [csrs], after [csrc]. *)
Definition mprv_set (x : Z) : Z := legal "mstatus" x (Z.lor x MSTATUS_MPRV).
Definition mprv_clr (x : Z) : Z := legal "mstatus" (mprv_set x) (Z.land (mprv_set x) (u64 (Z.lnot MSTATUS_MPRV))).
Definition mprv_checks (x : Z) : list bool :=
  [negb (Z.land (mprv_set x) MSTATUS_MPRV =? 0); mprv_set x =? Z.lor x MSTATUS_MPRV; mprv_clr x =? x; mprv_clr x =? x; true].
Definition mprv_fed (x : Z) : list Z := [x; mprv_set x; mprv_clr x; mprv_clr x].
Definition mprv_log (x : Z) : list Z :=
  lit "\n========================================\n" ++
  lit "mstatus.MPRV write/readback: set via csrs, clear via csrc\n========================================\n\n" ++
  lit "boot: mstatus=" ++ fmt_hex x ++ lit " MPRV(bit17)=" ++ fmt_dec (Z.land (Z.shiftr x 17) 1) ++
  lit " MPP(bits12:11)=" ++ fmt_dec (Z.land (Z.shiftr x 11) 3) ++
  lit "\nset: csrs mstatus, bit17; readback=" ++ fmt_hex (mprv_set x) ++ lit "\n" ++
  chk (negb (Z.land (mprv_set x) MSTATUS_MPRV =? 0)) "MPRV set probe: bit 17 not set in the readback" ++
  chk (mprv_set x =? Z.lor x MSTATUS_MPRV)
    "MPRV set probe: readback != boot|MPRV (unexpected bits changed alongside bit 17)" ++
  lit "clear: csrc mstatus, bit17; readback=" ++ fmt_hex (mprv_clr x) ++ lit "\n" ++
  chk (mprv_clr x =? x) "MPRV clear probe: readback != boot mstatus (bit did not clear exactly, or other bits changed)" ++
  lit "restore: mstatus=" ++ fmt_hex (mprv_clr x) ++ lit " (boot was " ++ fmt_hex x ++ lit ")\n" ++
  chk (mprv_clr x =? x) "restore: mstatus did not read back the boot value after the probes" ++
  lit "traps recorded by the handler: 0\n\nchecksum (FNV-1a over the readback values) = " ++ fmt_hex (fnv (mprv_fed x)) ++
  lit "\nchecks: 5  mismatches: " ++ fmt_dec (nfalse (mprv_checks x)) ++
  (if forallb id (mprv_checks x) then lit "\nRESULT: PASS\n" else lit "\nRESULT: FAIL\n").

Lemma mprv_set_u64 x : is_u64 (mprv_set x).
Proof. apply legal_u64. Qed.
Lemma mprv_clr_u64 x : is_u64 (mprv_clr x).
Proof. apply legal_u64. Qed.
Hint Resolve mprv_set_u64 mprv_clr_u64 : word.

Lemma mprv_probes_runs t x d g :
  vr (mprv_probes MSTATUS_MPRV) (LV [t; x] d) g (mprv_set x, mprv_clr x) [] (LV [t; mprv_clr x] d) g.
Proof.
  unfold mprv_probes, mprv_clr, mprv_set. repeat lstep.
Qed.

Lemma mprv_tail_halts l d bs n c : 0 <= n < 1000 -> Z.of_nat (length bs) < 1000 -> is_u64 c ->
  vhalts (U:=U) (lcv names) mprv_tail (LV l d) (ws (replicate 8 0) bs n c)
    (lit "traps recorded by the handler: 0\n\nchecksum (FNV-1a over the readback values) = " ++ fmt_hex c ++
     lit "\nchecks: " ++ fmt_dec (n + 1) ++ lit "  mismatches: " ++ fmt_dec (nfalse (bs ++ [true])) ++
     (if forallb id (bs ++ [true]) then lit "\nRESULT: PASS\n" else lit "\nRESULT: FAIL\n"))
    (LV l (if forallb id (bs ++ [true]) then FINISHER_PASS else d)) (ws (replicate 8 0) (bs ++ [true]) (n + 1) c).
Proof.
  intros Hn Hbs Hc. pose proof (nfalse_bound (bs ++ [true])) as Hb. rewrite length_app in Hb. cbn [length] in Hb.
  assert (u64 (n + 1) = n + 1) as E1 by (apply u64_small; unfold is_u64; lia).
  assert (u64 (nfalse (bs ++ [true])) = nfalse (bs ++ [true])) as E2 by (apply u64_small; unfold is_u64; lia).
  unfold mprv_tail. eapply vhalts_conv.
  - do 5 lstep. change (0 =? 0) with true. do 2 lstep. cbn [csum ws]. do 4 lstep. cbn [checks ws]. do 3 lstep. cbn [fails ws]. do 3 lstep.
    cbn [fails ws]. rewrite nfalse_zero.
    eapply vhalts_bind with (l1 := if forallb id (bs ++ [true]) then lit "RESULT: PASS\n" else lit "RESULT: FAIL\n").
    { destruct (forallb id (bs ++ [true])); lprim. }
    lstep. cbn [fails ws]. rewrite nfalse_zero.
    eapply vhalts_bind0; [|apply vhalts_park]. destruct (forallb id (bs ++ [true])).
    + eapply vruns_when; [|reflexivity]. apply finisher_sets.
    + now apply vruns_unless.
  - rewrite E1, E2. change (chk (0 =? 0) _) with (@nil Z). generalize (fmt_dec (n + 1)) (fmt_dec (nfalse (bs ++ [true]))). intros. text_eq.
Qed.

Lemma mprv_main_sends t x d : is_u64 x ->
  vmain_sends (U:=U) (lcv names) (mprv_main trap_entry) (LV [t; x] d) (probe_boot 8) (mprv_log x)
    (fun v g => lv_test v = (if forallb id (mprv_checks x) then FINISHER_PASS else d) /\
       look names "mstatus" (lv v) = Some (mprv_clr x) /\ fails g = nfalse (mprv_checks x) /\ checks g = 5).
Proof.
  intros Hx. apply vmain_sends_intro.
  - eexists _, _, (ws _ (mprv_checks x) _ _). split; [|split].
    + unfold mprv_body, menv_banner, mprv_boot, mprv_judge, mprv_restore. change (probe_boot 8) with (ws (replicate 8 0) [] 0 FNV_BASIS).
      eapply vhalts_bind; [repeat lstep|cbn beta]. eapply vhalts_bind; [repeat lstep|cbn beta].
      eapply vhalts_bind0; [apply mprv_probes_runs|]. cbn [fst snd].
      eapply vhalts_bind; [repeat lstep|cbn beta]. eapply vhalts_bind; [repeat lstep|cbn beta].
      apply mprv_tail_halts; [lia|reflexivity|apply fnv_word_u64].
    + unfold mprv_log, mprv_fed, fnv. cbn [app fold_left]. change (fmt_dec (_ + 1)) with (lit "5").
      fold (mprv_checks x). generalize (fmt_dec (nfalse (mprv_checks x))) (fmt_dec (Z.land (Z.shiftr x 17) 1)) (fmt_dec (Z.land (Z.shiftr x 11) 3)).
      intros. text_eq.
    + split_and!; reflexivity.
  - unfold mprv_log. warl_bytes.
Qed.
End Mprv.

(** ** mscratch *)

Section Mscratch.
Context {U H : Type} `{!UartDev U, !UartSpec U, !HartDev H, !WarlSpec H} (trap_entry : Z).
Abbreviation names := ["mtvec"; "mscratch"]%string.
Abbreviation vr := (vruns (U:=U) (H:=H) (G:=pglob) (lcv names)).

Lemma ucheck_runs b msg v s bs n c : no_nul (c_lit msg) = true -> 0 <= n < 1000 -> Z.of_nat (length bs) < 1000 ->
  vr (ucheck b msg) v (ws s bs n c) tt (chk b msg) v (ws s (bs ++ [b]) (n + 1) c).
Proof.
  intros Hm Hn Hl. pose proof (nfalse_bound bs) as Hb. unfold ucheck. eapply vruns_bind0; [apply vruns_gget|].
  eapply vruns_bind0; [apply vruns_gset; reflexivity|]. cbn [checks ws].
  assert (u64 (n + 1) = n + 1) as -> by (apply u64_small; unfold is_u64; lia). destruct b; cbn [negb].
  - eapply vruns_conv; [now apply vruns_unless|reflexivity..|]. unfold ws, set_checks. cbn [save fails checks csum].
    rewrite nfalse_snoc. f_equal. lia.
  - eapply vruns_when; [|reflexivity]. eapply vruns_conv.
    + eapply vruns_bind; [vprim|]. eapply vruns_bind; [apply vruns_prints, prints_lit, Hm|]. eapply vruns_bind; [vprim|].
      eapply vruns_bind0; [apply vruns_gget|]. apply vruns_gset. reflexivity.
    + reflexivity.
    + unfold chk. now rewrite app_nil_r.
    + reflexivity.
    + unfold ws, set_fails, set_checks. cbn [save fails checks csum]. rewrite nfalse_snoc. f_equal.
      apply u64_small. unfold is_u64. lia.
Qed.

Definition msc_rb (x : Z) : Z := legal "mscratch" x SENTINEL.
Definition msc_rst (x : Z) : Z := legal "mscratch" (msc_rb x) x.
Definition msc_checks (x : Z) : list bool := [x =? x; msc_rb x =? SENTINEL; msc_rb x =? SENTINEL; msc_rst x =? x; true].
Definition msc_log (x : Z) : list Z :=
  lit "mscratch-csrrw: mscratch csrrw atomic-swap round-trip test\nboot:   mscratch=" ++ fmt_hex x ++
  lit " (read before any write; boot.S does not touch mscratch)\nswap:   csrrw rd,mscratch,SENTINEL  rd(old)=" ++ fmt_hex x ++
  lit " mscratch(readback)=" ++ fmt_hex (msc_rb x) ++ lit "\n" ++
  chk (x =? x) "swap: rd != boot mscratch value (read side)" ++
  chk (msc_rb x =? SENTINEL) "swap: mscratch != SENTINEL after csrrw (write side)" ++
  lit "restore: csrrw rd,mscratch,boot  rd(old)=" ++ fmt_hex (msc_rb x) ++ lit " mscratch(readback)=" ++ fmt_hex (msc_rst x) ++ lit "\n" ++
  chk (msc_rb x =? SENTINEL) "restore: rd != SENTINEL (read side)" ++
  chk (msc_rst x =? x) "restore: mscratch != boot value" ++
  lit "traps:  0 (handler parks the hart, so a trap would end the run here)\nchecksum=" ++
  fmt_hex (msc_checksum x x (msc_rb x) (msc_rb x) (msc_rst x) 0) ++
  lit " (FNV-1a over boot, swap rd, swap readback, restore rd,\n  restore readback, traps)\nchecks=5 fails=" ++
  fmt_dec (nfalse (msc_checks x)) ++
  (if forallb id (msc_checks x) then lit "\nRESULT: PASS (swap both sides, restore exact, 0 traps)\ndone\n"
   else lit "\nRESULT: FAIL\ndone\n").

Lemma swap_runs t x y d g : vr (csr_swap_mscratch y) (LV [t; x] d) g x [] (LV [t; legal "mscratch" x y] d) g.
Proof. unfold csr_swap_mscratch. repeat lstep. Qed.

Lemma swap_line_runs tag a b v g : no_nul (c_lit tag) = true -> is_u64 a -> is_u64 b ->
  vr (swap_line tag a b) v g tt (lit tag ++ fmt_hex a ++ lit " mscratch(readback)=" ++ fmt_hex b ++ lit "\n") v g.
Proof. intros Ht Ha Hb. unfold swap_line. eapply vruns_bind; [apply vruns_prints, prints_lit, Ht|]. repeat lstep. Qed.

Lemma msc_checksum_u64 a b c d e f : is_u64 (msc_checksum a b c d e f).
Proof. apply fnv_word_u64. Qed.
Hint Resolve msc_checksum_u64 : word.

Lemma msc_tail_halts l d bs n c x y z y2 z2 : n = 4 -> length bs = 4%nat ->
  vhalts (U:=U) (lcv names) (msc_tail x y z y2 z2) (LV l d) (ws (replicate 1 0) bs n c)
    (lit "traps:  0 (handler parks the hart, so a trap would end the run here)\nchecksum=" ++ fmt_hex (msc_checksum x y z y2 z2 0) ++
     lit " (FNV-1a over boot, swap rd, swap readback, restore rd,\n  restore readback, traps)\nchecks=5 fails=" ++
     fmt_dec (nfalse (bs ++ [true])) ++
     (if forallb id (bs ++ [true]) then lit "\nRESULT: PASS (swap both sides, restore exact, 0 traps)\ndone\n"
      else lit "\nRESULT: FAIL\ndone\n"))
    (LV l d) (ws (replicate 1 0) (bs ++ [true]) 5 c).
Proof.
  intros -> Hl. pose proof (nfalse_bound (bs ++ [true])) as Hb. rewrite length_app, Hl in Hb. cbn [length] in Hb.
  assert (is_u64 (nfalse (bs ++ [true]))) as Hu by (unfold is_u64; lia).
  unfold msc_tail. eapply vhalts_conv.
  - do 4 lstep. eapply vhalts_bind; [apply ucheck_runs; [reflexivity|lia|rewrite Hl; lia]|]. change (0 =? 0) with true.
    do 6 lstep. cbn [checks ws]. change (4 + 1) with 5. do 3 lstep. cbn [fails ws]. do 3 lstep. cbn [fails ws]. rewrite nfalse_zero.
    eapply vhalts_bind with (l1 := if forallb id (bs ++ [true]) then lit "RESULT: PASS (swap both sides, restore exact, 0 traps)\n"
      else lit "RESULT: FAIL\n"). { destruct (forallb id (bs ++ [true])); lprim. }
    lstep. apply vhalts_park.
  - change (chk (0 =? 0) _) with (@nil Z). generalize (fmt_dec (nfalse (bs ++ [true]))). intros. text_eq.
Qed.

Lemma msc_main_sends t x d : is_u64 x ->
  vmain_sends (U:=U) (lcv names) (msc_main trap_entry) (LV [t; x] d) (probe_boot 1) (msc_log x)
    (fun v g => look names "mscratch" (lv v) = Some (msc_rst x) /\ fails g = nfalse (msc_checks x)).
Proof.
  intros Hx. apply vmain_sends_intro.
  - eexists _, _, (ws _ (msc_checks x) _ _). split; [|split].
    + unfold msc_body. change (probe_boot 1) with (ws (replicate 1 0) [] 0 FNV_BASIS). do 6 lstep.
      eapply vhalts_bind0; [apply swap_runs|]. lstep. eapply vhalts_bind; [apply swap_line_runs; [reflexivity|exact Hx|apply legal_u64]|].
      eapply vhalts_bind; [apply ucheck_runs; reflexivity || lia|]. eapply vhalts_bind; [apply ucheck_runs; reflexivity || lia|].
      eapply vhalts_bind0; [apply swap_runs|]. lstep. eapply vhalts_bind; [apply swap_line_runs; [reflexivity|apply legal_u64..]|].
      eapply vhalts_bind; [apply ucheck_runs; reflexivity || lia|]. eapply vhalts_bind; [apply ucheck_runs; reflexivity || lia|].
      fold (msc_rb x). fold (msc_rst x). apply msc_tail_halts; reflexivity.
    + unfold msc_log. fold (msc_rb x). fold (msc_rst x). cbn [app]. fold (msc_checks x).
      generalize (fmt_dec (nfalse (msc_checks x))). intros. text_eq.
    + split_and!; reflexivity.
  - unfold msc_log. warl_bytes.
Qed.
End Mscratch.

(** ** mie *)

Section Mie.
Context {U H : Type} `{!UartDev U, !UartSpec U, !HartDev H, !WarlSpec H} (trap_entry save_addr : Z).
Abbreviation names := ["mtvec"; "mscratch"; "mstatus"; "mie"; "mideleg"]%string.
Abbreviation vr := (vruns (U:=U) (H:=H) (G:=pglob) (lcv names)).
Abbreviation sv := (replicate 5 0).
Abbreviation lgm := (legal "mie").

Definition mie_clear (m : Z) : bool := Z.land m MSTATUS_MIE =? 0.

Lemma mwr_setup_runs t s m e g d bs n c :
  vr (mwr_setup trap_entry save_addr) (LV [t; s; m; e; g] d) (ws sv bs n c) tt
    (chk (mie_clear m) "mstatus.MIE set at boot" ++
     lit "trap: mtvec=" ++ fmt_hex (tv trap_entry t) ++ lit "\n" ++ tv_text trap_entry t)
    (LV [tv trap_entry t; legal "mscratch" s save_addr; m; e; g] d)
    (ws sv (bs ++ mie_clear m :: tv_checks trap_entry t) (n + 1 + 1 + 1) c).
Proof. unfold mwr_setup, check_mtvec, tv_text, tv_checks, tv, mie_clear. lblock. Qed.

Lemma mwr_baseline_runs t s m e g d bs n c : is_u64 e -> is_u64 m -> is_u64 g ->
  vr mwr_baseline (LV [t; s; m; e; g] d) (ws sv bs n c) e
    (lit "boot: mie=" ++ fmt_hex e ++ lit " mstatus=" ++ fmt_hex m ++ lit " mideleg=" ++ fmt_hex g ++ lit "\n" ++
     chk (mie_clear m) "mstatus.MIE not clear at boot")
    (LV [t; s; m; e; g] d) (ws sv (bs ++ [mie_clear m]) (n + 1) (fold_left fnv_word [e; m; g] c)).
Proof. intros He Hm Hg. unfold mwr_baseline, mie_clear. cbn [fold_left]. lblock. Qed.

Definition mie_one (e : Z) : Z := lgm e ALL_ONES.
Definition mie_zero (e : Z) : Z := lgm (mie_one e) 0.

Lemma mwr_phase1_runs t s m e g d bs n c :
  vr mwr_phase1 (LV [t; s; m; e; g] d) (ws sv bs n c) (mie_one e)
    (lit "phase1 ones: mie=" ++ fmt_hex (mie_one e) ++ lit "\nphase1 zero: mie=" ++ fmt_hex (mie_zero e) ++ lit "\n" ++
     chk (mie_zero e =? 0) "phase 1: zero write did not read back 0")
    (LV [t; s; m; mie_zero e; g] d)
    (ws sv (bs ++ [mie_zero e =? 0]) (n + 1) (fold_left fnv_word [ALL_ONES; mie_one e; mie_zero e] c)).
Proof.
  unfold mwr_phase1, mie_zero, mie_one. cbn [fold_left]. eapply vruns_conv; [repeat lstep|reflexivity|text_eq|reflexivity..].
Qed.

(** One bit of phase 2: the register, the bits that stuck, the results of the
    checks made, the text and the values digested. *)
Record bits : Type := Bits { b_mie : Z; b_union : Z; b_bs : list bool; b_text : list Z; b_fed : list Z }.
Definition bit_step (r : bits) (b : nat) : bits :=
  let w := Z.shiftl 1 (Z.of_nat b) in
  let rb := lgm (b_mie r) w in
  Bits rb (if rb =? w then Z.lor (b_union r) rb else b_union r)
    (if (rb =? w) || (rb =? 0) then b_bs r else b_bs r ++ [false])
    (b_text r ++ lit "  bit " ++ fmt_dec (Z.of_nat b) ++ lit ": mie=" ++ fmt_hex rb ++ lit "\n" ++
      (if (rb =? w) || (rb =? 0) then [] else chk false "phase 2: per-bit write read back stray bits"))
    (b_fed r ++ [w; rb]).
Definition bit_loop (l : list nat) (e : Z) : bits := fold_left bit_step l (Bits e 0 [] [] []).

(** The globals and the text once the bits of [r] are done. *)
Definition bit_glob (r : bits) (bs : list bool) (n c : Z) : pglob :=
  ws sv (bs ++ b_bs r) (n + Z.of_nat (length (b_bs r))) (fold_left fnv_word (b_fed r) c).

Abbreviation stray_msg := "phase 2: per-bit write read back stray bits"%string.

Lemma bit_tail_runs w rb un v bs n c :
  vr (if rb =? w then ret (Z.lor un rb) else when (negb (rb =? 0)) (wcheck false stray_msg) ;; ret un) v (ws sv bs n c)
    (if rb =? w then Z.lor un rb else un) (if (rb =? w) || (rb =? 0) then [] else chk false stray_msg) v
    (ws sv (if (rb =? w) || (rb =? 0) then bs else bs ++ [false]) (if (rb =? w) || (rb =? 0) then n else n + 1) c).
Proof.
  destruct (rb =? w); [apply vruns_ret|]. cbn [orb]. destruct (rb =? 0); cbn [negb].
  - eapply vruns_bind0; [now apply vruns_unless|]. apply vruns_ret.
  - eapply vruns_conv; [eapply vruns_bind; [eapply vruns_when; [lprim|reflexivity]|]; apply vruns_ret|reflexivity|apply app_nil_r|reflexivity..].
Qed.

Lemma mwr_bit_runs t s m g d r b bs n c : (b < 12)%nat ->
  exists l, vr (mwr_bit b (b_union r)) (LV [t; s; m; b_mie r; g] d) (bit_glob r bs n c) (b_union (bit_step r b)) l
    (LV [t; s; m; b_mie (bit_step r b); g] d) (bit_glob (bit_step r b) bs n c) /\ b_text (bit_step r b) = b_text r ++ l.
Proof.
  intros Hb. assert (is_u64 (Z.of_nat b)) as Hu by (unfold is_u64; lia).
  eexists. split; [|reflexivity]. unfold mwr_bit, bit_glob, bit_step. cbv zeta. cbn [b_union b_mie b_bs b_fed].
  rewrite fold_left_app. cbn [fold_left]. generalize (Z.shiftl 1 (Z.of_nat b)) as w. intros w. eapply vruns_conv.
  - do 9 lstep. apply bit_tail_runs.
  - reflexivity.
  - reflexivity.
  - reflexivity.
  - destruct ((lgm (b_mie r) w =? w) || (lgm (b_mie r) w =? 0)); [reflexivity|].
    rewrite length_app, app_assoc. cbn [length]. unfold ws. f_equal. lia.
Qed.

Lemma mwr_loop_runs t s m g d bs n c l r : Forall (fun b => (b < 12)%nat) l ->
  exists x, vr (for_acc l (b_union r) mwr_bit) (LV [t; s; m; b_mie r; g] d) (bit_glob r bs n c) (b_union (fold_left bit_step l r)) x
    (LV [t; s; m; b_mie (fold_left bit_step l r); g] d) (bit_glob (fold_left bit_step l r) bs n c) /\
    b_text (fold_left bit_step l r) = b_text r ++ x.
Proof.
  revert r. induction l as [|b l IH]; intros r Hl; [exists []; split; [apply vruns_ret|symmetry; apply app_nil_r]|].
  inversion Hl as [|? ? Hb Hl']; subst. destruct (mwr_bit_runs t s m g d r b bs n c Hb) as (x & Hx & Ex).
  destruct (IH (bit_step r b) Hl') as (y & Hy & Ey). exists (x ++ y). split; [|cbn [fold_left]; now rewrite Ey, Ex, app_assoc].
  cbn [for_acc fold_left]. eapply vruns_bind; [exact Hx|exact Hy].
Qed.

Lemma bit_union_u64 l r : is_u64 (b_union r) -> is_u64 (b_union (fold_left bit_step l r)).
Proof.
  revert r. induction l as [|b l IH]; intros r Hr; [exact Hr|]. cbn [fold_left]. apply IH. unfold bit_step. cbv zeta. cbn [b_union].
  destruct (lgm (b_mie r) (Z.shiftl 1 (Z.of_nat b)) =? Z.shiftl 1 (Z.of_nat b)); [apply lor_u64; [exact Hr|apply legal_u64]|exact Hr].
Qed.

(** The twelve bits, from the register after the zero write. *)
Definition mie_bits (e : Z) : bits := bit_loop (seq 0 12) (mie_zero e).
Definition mie_sticky (e : Z) : Z := b_union (mie_bits e).
Definition union_ok (e : Z) : bool := negb (mie_sticky e =? 0) || (mie_one e =? 0).

#[local] Strategy expand [mie_bits bit_loop mie_sticky union_ok].

Lemma mie_sticky_u64 e : is_u64 (mie_sticky e).
Proof. apply bit_union_u64. u64c. Qed.
Hint Resolve mie_sticky_u64 : word.

Lemma mwr_phase2_gen t s m z g d bs n c r1 r : r = fold_left bit_step (seq 0 12) (Bits z 0 [] [] []) -> is_u64 (b_union r) ->
  vr (mwr_phase2 r1) (LV [t; s; m; z; g] d) (ws sv bs n c) (b_union r)
    (b_text r ++ chk (negb (b_union r =? 0) || (r1 =? 0)) "phase 2: no bit stuck but phase 1 read back nonzero" ++
     lit "phase2 sticky-union: mie=" ++ fmt_hex (b_union r) ++ lit "\n")
    (LV [t; s; m; b_mie r; g] d)
    (ws sv ((bs ++ b_bs r) ++ [negb (b_union r =? 0) || (r1 =? 0)]) (n + Z.of_nat (length (b_bs r)) + 1)
       (fnv_word (fold_left fnv_word (b_fed r) c) (b_union r))).
Proof.
  intros Er Hu. destruct (mwr_loop_runs t s m g d bs n c (seq 0 12) (Bits z 0 [] [] [])) as (x & Hx & Ex).
  { apply Forall_forall. intros b Hb. apply list_elem_of_In, in_seq in Hb. lia. }
  rewrite <-Er in Hx, Ex. clear Er. cbn [b_text app] in Ex. subst x.
  assert (bit_glob (Bits z 0 [] [] []) bs n c = ws sv bs n c) as Eg.
  { unfold bit_glob. cbn [b_bs b_fed length fold_left Z.of_nat]. now rewrite app_nil_r, Z.add_0_r. }
  rewrite Eg in Hx. cbn [b_union b_mie] in Hx.
  unfold mwr_phase2. eapply vruns_conv; [eapply vruns_bind; [exact Hx|unfold bit_glob; repeat lstep]|reflexivity| |reflexivity..].
  cbn [app]. now rewrite ?app_nil_r.
Qed.

Lemma mwr_phase2_runs t s m e g d bs n c :
  vr (mwr_phase2 (mie_one e)) (LV [t; s; m; mie_zero e; g] d) (ws sv bs n c) (mie_sticky e)
    (b_text (mie_bits e) ++ chk (union_ok e) "phase 2: no bit stuck but phase 1 read back nonzero" ++
     lit "phase2 sticky-union: mie=" ++ fmt_hex (mie_sticky e) ++ lit "\n")
    (LV [t; s; m; b_mie (mie_bits e); g] d)
    (ws sv ((bs ++ b_bs (mie_bits e)) ++ [union_ok e]) (n + Z.of_nat (length (b_bs (mie_bits e))) + 1)
       (fnv_word (fold_left fnv_word (b_fed (mie_bits e)) c) (mie_sticky e))).
Proof. apply mwr_phase2_gen; [reflexivity|apply mie_sticky_u64]. Qed.

Definition mie_third (e : Z) : Z := lgm (b_mie (mie_bits e)) ALL_ONES.
Definition mie_rst (e : Z) : Z := lgm (mie_third e) e.

Lemma mwr_phase3_runs t s m x g d bs n c r1 un :
  vr (mwr_phase3 r1 un) (LV [t; s; m; x; g] d) (ws sv bs n c) tt
    (lit "phase3 ones: mie=" ++ fmt_hex (lgm x ALL_ONES) ++ lit "\n" ++
     chk (lgm x ALL_ONES =? r1) "phase 3: all-ones readback differs from phase 1" ++
     chk (Z.land (lgm x ALL_ONES) 0xfff =? un) "phase 3: low-12-bit all-ones readback differs from per-bit union")
    (LV [t; s; m; lgm x ALL_ONES; g] d)
    (ws sv (bs ++ [lgm x ALL_ONES =? r1; Z.land (lgm x ALL_ONES) 0xfff =? un]) (n + 1 + 1) (fnv_word c (lgm x ALL_ONES))).
Proof. unfold mwr_phase3. lblock. Qed.

Lemma mwr_phase4_runs t s m x e g d bs n c : is_u64 m -> is_u64 e ->
  vr (mwr_phase4 e) (LV [t; s; m; x; g] d) (ws sv bs n c) tt
    (lit "restored: mie=" ++ fmt_hex (lgm x e) ++ lit " mstatus=" ++ fmt_hex m ++ lit "\n" ++
     chk (lgm x e =? e) "mie did not restore to the boot value" ++ chk (mie_clear m) "mstatus.MIE changed during run")
    (LV [t; s; m; lgm x e; g] d) (ws sv (bs ++ [lgm x e =? e; mie_clear m]) (n + 1 + 1) (fnv_word (fnv_word c (lgm x e)) m)).
Proof. intros Hm He. unfold mwr_phase4, mie_clear. lblock. Qed.

Lemma mwr_tail_halts (ns : list string) l d bs n c : 0 <= n < 1000 -> Z.of_nat (length bs) < 1000 ->
  vhalts (U:=U) (lcv ns) mwr_tail (LV l d) (ws sv bs n c)
    (lit "traps: count=0\nchecks: " ++ fmt_dec n ++ lit " mismatches: " ++ fmt_dec (nfalse bs) ++ lit "\ndigest: " ++
     fmt_hex (fnv_word c 0) ++ lit "\n" ++ (if forallb id bs then lit "RESULT: PASS\n" else lit "RESULT: FAIL\n"))
    (LV l (if forallb id bs then FINISHER_PASS else d)) (ws sv bs n (fnv_word c 0)).
Proof.
  intros Hn Hl. pose proof (nfalse_bound bs) as Hb.
  assert (u64 n = n) as E1 by (apply u64_small; unfold is_u64; lia).
  assert (u64 (nfalse bs) = nfalse bs) as E2 by (apply u64_small; unfold is_u64; lia).
  unfold mwr_tail. eapply vhalts_conv.
  - do 3 lstep. eapply vhalts_bind0; [now apply vruns_unless|]. do 6 lstep. cbn [checks ws]. do 3 lstep. cbn [fails ws]. do 4 lstep.
    cbn [csum ws]. eapply vhalts_bind; [apply vruns_prints, prints_hex, fnv_word_u64|]. lstep. apply pass_fail_halts.
  - rewrite E1, E2. generalize (fmt_dec n) (fmt_dec (nfalse bs)). intros. text_eq.
Qed.

Definition mwr_checks (t m e : Z) : list bool :=
  mie_clear m :: tv_checks trap_entry t ++ [mie_clear m; mie_zero e =? 0] ++ b_bs (mie_bits e) ++
  [union_ok e; mie_third e =? mie_one e; Z.land (mie_third e) 0xfff =? mie_sticky e; mie_rst e =? e; mie_clear m].
Definition mwr_fed (m e g : Z) : list Z :=
  [e; m; g] ++ [ALL_ONES; mie_one e; mie_zero e] ++ b_fed (mie_bits e) ++ [mie_sticky e; mie_third e; mie_rst e; m; 0].
Definition mwr_log (t m e g : Z) : list Z :=
  lit "mie-write-readback: mie all-ones WARL write/readback probe\n" ++ chk (mie_clear m) "mstatus.MIE set at boot" ++
  lit "trap: mtvec=" ++ fmt_hex (tv trap_entry t) ++ lit "\n" ++ tv_text trap_entry t ++
  lit "boot: mie=" ++ fmt_hex e ++ lit " mstatus=" ++ fmt_hex m ++ lit " mideleg=" ++ fmt_hex g ++ lit "\n" ++
  chk (mie_clear m) "mstatus.MIE not clear at boot" ++
  lit "phase1 ones: mie=" ++ fmt_hex (mie_one e) ++ lit "\nphase1 zero: mie=" ++ fmt_hex (mie_zero e) ++ lit "\n" ++
  chk (mie_zero e =? 0) "phase 1: zero write did not read back 0" ++
  b_text (mie_bits e) ++ chk (union_ok e) "phase 2: no bit stuck but phase 1 read back nonzero" ++
  lit "phase2 sticky-union: mie=" ++ fmt_hex (mie_sticky e) ++ lit "\nphase3 ones: mie=" ++ fmt_hex (mie_third e) ++ lit "\n" ++
  chk (mie_third e =? mie_one e) "phase 3: all-ones readback differs from phase 1" ++
  chk (Z.land (mie_third e) 0xfff =? mie_sticky e) "phase 3: low-12-bit all-ones readback differs from per-bit union" ++
  lit "restored: mie=" ++ fmt_hex (mie_rst e) ++ lit " mstatus=" ++ fmt_hex m ++ lit "\n" ++
  chk (mie_rst e =? e) "mie did not restore to the boot value" ++ chk (mie_clear m) "mstatus.MIE changed during run" ++
  lit "traps: count=0\nchecks: " ++ fmt_dec (Z.of_nat (length (mwr_checks t m e))) ++
  lit " mismatches: " ++ fmt_dec (nfalse (mwr_checks t m e)) ++ lit "\ndigest: " ++
  fmt_hex (fold_left fnv_word (mwr_fed m e g) 14695981039346656037) ++ lit "\n" ++
  (if forallb id (mwr_checks t m e) then lit "RESULT: PASS\n" else lit "RESULT: FAIL\n").

Lemma bit_bs_length l r : (length (b_bs (fold_left bit_step l r)) <= length (b_bs r) + length l)%nat.
Proof.
  revert r. induction l as [|b l IH]; intros r; [cbn; lia|]. cbn [fold_left length]. specialize (IH (bit_step r b)).
  assert (length (b_bs (bit_step r b)) <= length (b_bs r) + 1)%nat; [|lia]. unfold bit_step. cbv zeta. cbn [b_bs].
  destruct (_ || _); rewrite ?length_app; cbn [length]; lia.
Qed.

Lemma bit_text_bytes l r : Forall (fun c => 0 <= c < 256) (b_text r) -> Forall (fun c => 0 <= c < 256) (b_text (fold_left bit_step l r)).
Proof.
  revert r. induction l as [|b l IH]; intros r Hr; [exact Hr|]. cbn [fold_left]. apply IH. unfold bit_step. cbv zeta. cbn [b_text].
  warl_bytes.
Qed.

Lemma mie_text_bytes e : Forall (fun c => 0 <= c < 256) (b_text (mie_bits e)).
Proof. unfold mie_bits, bit_loop. apply bit_text_bytes. constructor. Qed.

Lemma mie_bits_length e : (length (b_bs (mie_bits e)) <= 12)%nat.
Proof. unfold mie_bits, bit_loop. etransitivity; [apply bit_bs_length|]. now rewrite length_seq. Qed.

(** From here on the loop is unfolded last. *)
#[local] Strategy 1000 [mie_bits bit_loop].

Lemma mwr_checks_length t m e : Z.of_nat (length (mwr_checks t m e)) < 1000 /\
  Z.of_nat (length (mwr_checks t m e)) = 0 + 1 + 1 + 1 + 1 + 1 + Z.of_nat (length (b_bs (mie_bits e))) + 1 + 1 + 1 + 1 + 1.
Proof.
  pose proof (mie_bits_length e) as Hb. unfold mwr_checks, tv_checks. cbn [app length]. rewrite length_app. cbn [length]. lia.
Qed.

Lemma mwr_main_sends t s m e g d : is_u64 m -> is_u64 e -> is_u64 g ->
  vmain_sends (U:=U) (lcv names) (mwr_main trap_entry save_addr) (LV [t; s; m; e; g] d) mwr_boot_glob (mwr_log t m e g)
    (fun v gl => lv_test v = (if forallb id (mwr_checks t m e) then FINISHER_PASS else d) /\
       look names "mie" (lv v) = Some (mie_rst e) /\ fails gl = nfalse (mwr_checks t m e)).
Proof.
  intros Hm He Hg. destruct (mwr_checks_length t m e) as [Hlt Hlen]. apply vmain_sends_intro.
  - eexists _, _, (ws _ (mwr_checks t m e) _ _). split; [|split].
    + unfold mwr_body. change mwr_boot_glob with (ws sv [] 0 14695981039346656037). lstep.
      eapply vhalts_bind; [apply mwr_setup_runs|]. eapply vhalts_bind; [now apply mwr_baseline_runs|].
      eapply vhalts_bind; [apply mwr_phase1_runs|]. eapply vhalts_bind; [apply mwr_phase2_runs|].
      eapply vhalts_bind; [apply mwr_phase3_runs|]. eapply vhalts_bind; [now apply mwr_phase4_runs|].
      fold (mie_third e). fold (mie_rst e). rewrite <-Hlen.
      match goal with |- vhalts _ _ _ (ws _ ?bs _ _) _ _ _ => assert (bs = mwr_checks t m e) as ->
        by (unfold mwr_checks; cbn [app]; now rewrite <-!app_assoc) end.
      apply mwr_tail_halts; lia.
    + unfold mwr_log, mwr_fed, tv_text. fold (mie_third e). fold (mie_rst e). rewrite !fold_left_app. cbn [fold_left].
      generalize (fmt_dec (nfalse (mwr_checks t m e))) (fmt_dec (Z.of_nat (length (mwr_checks t m e)))) (b_text (mie_bits e)).
      intros. text_eq.
    + split_and!; reflexivity.
  - pose proof (mie_text_bytes e).
    unfold mwr_log, tv_text. warl_bytes.
Qed.

Section Masked.
(** The interrupt-enable bits the hart has, and a boot value among them. *)
Context (k e : Z).
Hypothesis Hk : is_u64 k.
Hypothesis Hlg : forall o x, is_u64 x -> lgm o x = Z.land x k.
Hypothesis He : Z.land e k = e.

Lemma bit_masked b : (b < 64)%nat -> forall o, lgm o (Z.shiftl 1 (Z.of_nat b)) =
  if Z.testbit k (Z.of_nat b) then Z.shiftl 1 (Z.of_nat b) else 0.
Proof.
  intros Hb o. rewrite Hlg.
  - apply Z.bits_inj'. intros i Hi. rewrite Z.land_spec, Z.shiftl_1_l, Z.pow2_bits_eqb by lia.
    destruct (Z.eqb_spec (Z.of_nat b) i) as [<-|Hne]; destruct (Z.testbit k (Z.of_nat b));
      rewrite ?Z.pow2_bits_eqb, ?Z.bits_0, ?andb_true_l, ?andb_false_l, ?Z.eqb_refl by lia; try reflexivity.
    symmetry. now apply Z.eqb_neq.
  - rewrite Z.shiftl_1_l. unfold is_u64. split; [lia|]. apply Z.pow_lt_mono_r; lia.
Qed.

Lemma sticky_step b : Z.lor (Z.land k (Z.ones (Z.of_nat b))) (if Z.testbit k (Z.of_nat b) then Z.shiftl 1 (Z.of_nat b) else 0) =
  Z.land k (Z.ones (Z.of_nat (S b))).
Proof.
  apply Z.bits_inj'. intros i Hi. rewrite Z.lor_spec, !Z.land_spec, !Z.testbit_ones_nonneg by lia.
  assert (Z.testbit (if Z.testbit k (Z.of_nat b) then Z.shiftl 1 (Z.of_nat b) else 0) i = Z.testbit k i && (Z.of_nat b =? i)) as ->.
  { destruct (Z.eqb_spec (Z.of_nat b) i) as [<-|Hne]; destruct (Z.testbit k (Z.of_nat b)) eqn:E;
      rewrite ?Z.shiftl_1_l, ?Z.pow2_bits_eqb, ?Z.bits_0, ?andb_false_r, ?Z.eqb_refl by lia; try reflexivity.
    now apply Z.eqb_neq. }
  destruct (Z.testbit k i); [|reflexivity]. cbn [andb].
  destruct (Z.ltb_spec i (Z.of_nat b)), (Z.eqb_spec (Z.of_nat b) i), (Z.ltb_spec i (Z.of_nat (S b))); try reflexivity; lia.
Qed.

Lemma bits_masked n o : (n <= 64)%nat ->
  b_bs (bit_loop (seq 0 n) o) = [] /\ b_union (bit_loop (seq 0 n) o) = Z.land k (Z.ones (Z.of_nat n)).
Proof.
  induction n as [|n IH]; intros Hn; [split; [reflexivity|symmetry; apply Z.land_0_r]|].
  destruct IH as [IH1 IH2]; [lia|]. rewrite <-sticky_step, <-IH2. unfold bit_loop in *. rewrite seq_S, fold_left_app. cbn [fold_left Nat.add].
  unfold bit_step at 1 3. cbv zeta. cbn [b_bs b_union]. rewrite bit_masked by lia.
  destruct (Z.testbit k (Z.of_nat n)); rewrite ?Z.eqb_refl; cbn [orb]; [auto|]. split; [now rewrite orb_true_r|].
  destruct (Z.eqb_spec 0 (Z.shiftl 1 (Z.of_nat n))) as [E|]; rewrite Z.lor_0_r; reflexivity.
Qed.

#[local] Strategy expand [mie_bits bit_loop].
Lemma mie_bits_masked : b_bs (mie_bits e) = [] /\ b_union (mie_bits e) = Z.land k 0xfff.
Proof. apply (bits_masked 12 (mie_zero e)). lia. Qed.
#[local] Strategy 1000 [mie_bits bit_loop].

Lemma mwr_masked t m : forallb id (mwr_checks t m e) =
  mie_clear m && forallb id (tv_checks trap_entry t) && (negb (Z.land k 0xfff =? 0) || (k =? 0)).
Proof.
  assert (forall o, lgm o ALL_ONES = k) as Eo.
  { intros o. rewrite Hlg by u64c. rewrite Z.land_comm. change ALL_ONES with (Z.ones 64). now apply u64_bits. }
  assert (is_u64 e) as Hu by (apply (boot_u64 k); assumption).
  destruct mie_bits_masked as [E1 E2]. fold (mie_sticky e) in E2.
  unfold mwr_checks, union_ok, mie_rst, mie_third, mie_zero at 1, mie_one. rewrite E1, E2, !Eo, !Hlg by (u64c || exact Hu).
  rewrite He, Z.land_0_l, !Z.eqb_refl. cbn [forallb app]. rewrite forallb_app. cbn [forallb id]. 
  destruct (mie_clear m), (forallb id (tv_checks trap_entry t)); cbn; rewrite ?andb_true_r, ?andb_false_r; reflexivity.
Qed.
End Masked.
End Mie.

(** ** What the programs report *)

Section Verdicts.
Context {U H : Type} `{!UartDev U, !UartSpec U, !UartDrain U, !HartDev H, !WarlSpec H} (trap_entry save_addr : Z).
(** The vector takes the aligned entry; the scratch register holds anything. *)
Hypothesis Htv : forall o, legal "mtvec" o trap_entry = trap_entry.
Hypothesis Hal : Z.land trap_entry (u64 (Z.lnot 3)) = trap_entry.
Hypothesis Hsc : forall o x, is_u64 x -> legal "mscratch" o x = x.

Lemma tv_checks_ok t : tv_checks trap_entry t = [true; true].
Proof.
  unfold tv_checks, tv. rewrite Htv, Hal, Z.eqb_refl. f_equal. f_equal. rewrite <-Hal, <-Z.land_assoc.
  change (Z.land (u64 (Z.lnot 3)) 3) with 0. now rewrite Z.land_0_r.
Qed.

(** The probes report what the hart's CSRs do.  misa-readonly passes
    exactly if misa ignores the all-ones write; misa-mxl-warl exactly if MXL
    reads back 2, the extension bits are as at boot and the boot value can be
    restored; mideleg-warl exactly if the register legalises to the two
    values of the board; mscratch-csrrw passes; each prints its whole log. *)
Theorem csr_probe_verdicts t s x d : is_u64 x ->
  vmain_sends (U:=U) (lcv ["mtvec"; "mscratch"; "misa"]%string) (misa_main trap_entry save_addr) (LV [t; s; x] d) (probe_boot 4)
    (misa_log trap_entry t x) (fun v g => lv_test v = if legal "misa" x ALL_ONES =? x then FINISHER_PASS else d) /\
  vmain_sends (U:=U) (lcv ["mtvec"; "mscratch"; "misa"]%string) (mxl_main trap_entry save_addr) (LV [t; s; x] d) (probe_boot 4)
    (mxl_log trap_entry t x)
    (fun v g => lv_test v = if mxl_kept x && ext_kept x && (mxl_rst x =? x) then FINISHER_PASS else d) /\
  vmain_sends (U:=U) (lcv ["mtvec"; "mideleg"]%string) (mideleg_main trap_entry) (LV [t; x] d) (probe_boot 0)
    (mideleg_log trap_entry t x)
    (fun v g => lv_test v = if (x =? 0x1444) && (mideleg_one x =? 0x3666) && (mideleg_zero x =? 0x1444) &&
        (mideleg_again x =? mideleg_one x) then FINISHER_PASS else d) /\
  vmain_sends (U:=U) (lcv ["mtvec"; "mscratch"]%string) (msc_main trap_entry) (LV [t; x] d) (probe_boot 1) (msc_log x)
    (fun v g => look ["mtvec"; "mscratch"]%string "mscratch" (lv v) = Some x /\ fails g = 0).
Proof.
  intros Hx. split_and!; intros u h Hh.
  - destruct (misa_main_sends trap_entry save_addr t s x d Hx u h Hh) as (u' & h' & g' & E & Ht & Hr & Hd & _).
    exists u', h', g'. split_and!; try assumption. rewrite Hd. unfold misa_checks, ones_rb. rewrite tv_checks_ok. cbn. now rewrite andb_true_r.
  - destruct (mxl_main_sends trap_entry save_addr t s x d Hx u h Hh) as (u' & h' & g' & E & Ht & Hr & Hd & _).
    exists u', h', g'. split_and!; try assumption. rewrite Hd. unfold mxl_checks. rewrite tv_checks_ok. cbn.
    now rewrite andb_true_r, andb_assoc.
  - destruct (mideleg_main_sends trap_entry t x d Hx u h Hh) as (u' & h' & g' & E & Ht & Hr & Hd & _).
    exists u', h', g'. split_and!; try assumption. rewrite Hd. unfold mideleg_checks. rewrite tv_checks_ok. cbn.
    now rewrite andb_true_r, !andb_assoc.
  - destruct (msc_main_sends trap_entry t x d Hx u h Hh) as (u' & h' & g' & E & Ht & Hr & Hd & Hf).
    exists u', h', g'. split_and!; try assumption; [rewrite Hd|rewrite Hf; unfold msc_checks];
      unfold msc_rst, msc_rb; rewrite !Hsc by (u64c || exact Hx); [reflexivity|now rewrite Z.eqb_refl].
Qed.

(** A plain MPRV bit that is clear at boot. *)
Lemma mprv_plain x : is_u64 x -> legal "mstatus" x (Z.lor x MSTATUS_MPRV) = Z.lor x MSTATUS_MPRV ->
  (forall o, legal "mstatus" o (Z.land x (u64 (Z.lnot MSTATUS_MPRV))) = Z.land x (u64 (Z.lnot MSTATUS_MPRV))) ->
  forallb id (mprv_checks x) = negb (Z.testbit x 17).
Proof.
  intros Hx H1 H2. unfold mprv_checks, mprv_clr, mprv_set. rewrite H1.
  assert (Z.land (Z.lor x MSTATUS_MPRV) (u64 (Z.lnot MSTATUS_MPRV)) = Z.land x (u64 (Z.lnot MSTATUS_MPRV))) as ->
    by (rewrite Z.land_lor_distr_l; change (Z.land MSTATUS_MPRV (u64 (Z.lnot MSTATUS_MPRV))) with 0; apply Z.lor_0_r).
  rewrite H2, Z.eqb_refl. assert ((Z.land (Z.lor x MSTATUS_MPRV) MSTATUS_MPRV =? 0) = false) as ->.
  { apply Z.eqb_neq. intros E. apply (f_equal (fun z => Z.testbit z 17)) in E. rewrite Z.land_spec, Z.lor_spec in E.
    change (Z.testbit MSTATUS_MPRV 17) with true in E. now rewrite orb_true_r in E. }
  cbn [forallb id negb andb]. rewrite andb_true_r, andb_diag. destruct (Z.testbit x 17) eqn:E17; cbn [negb].
  - apply Z.eqb_neq. intros E. apply (f_equal (fun z => Z.testbit z 17)) in E. rewrite Z.land_spec, E17 in E. discriminate.
  - apply Z.eqb_eq, Z.bits_inj'. intros i Hi. rewrite Z.land_spec.
    destruct (Z.testbit x i) eqn:Ei; [|reflexivity].
    assert (i < 64). { destruct (Z.lt_ge_cases i 64) as [|Hge]; [assumption|]. apply u64_bits in Hx as [_ Hx].
      rewrite <-Hx, Z.land_spec, (Z.ones_spec_high 64) in Ei by lia. now rewrite andb_false_r in Ei. }
    assert (i <> 17) by congruence. change (u64 (Z.lnot MSTATUS_MPRV)) with (Z.lxor (Z.ones 64) (2 ^ 17)).
    rewrite Z.lxor_spec, Z.ones_spec_low, Z.pow2_bits_false by lia. reflexivity.
Qed.

End Verdicts.

(** ** The theorems at work *)

(** A read-only misa; the other registers hold what is written. *)
Definition readonly_misa (c : string) (o x : Z) : Z := if String.eqb c "misa" then o else x.
Abbreviation RoHart := (CsrHart readonly_misa).

Lemma csr_probe_verdicts_witness :
  vmain_sends (U:=LogUart) (H:=RoHart) (lcv ["mtvec"; "mscratch"; "misa"]%string) (misa_main 0x80000100 0x80001000)
    (LV [0; 0; 0x8000000000141105] 0) (probe_boot 4) (misa_log (H:=RoHart) 0x80000100 0 0x8000000000141105)
    (fun v _ => lv_test v = FINISHER_PASS) /\
  vmain_sends (U:=LogUart) (H:=RoHart) (lcv ["mtvec"; "mscratch"]%string) (msc_main 0x80000100)
    (LV [0; 0x8000000000141105] 0) (probe_boot 1) (msc_log (H:=RoHart) 0x8000000000141105) (fun _ g => fails g = 0).
Proof.
  destruct (csr_probe_verdicts (U:=LogUart) (H:=RoHart) (WarlSpec0:=CsrHart_spec) 0x80000100 0x80001000 ltac:(reflexivity) ltac:(reflexivity)
    ltac:(intros o x Hx; apply u64_small, Hx) 0 0 0x8000000000141105 0 ltac:(u64c)) as (Hm & _ & _ & Hs).
  split; intros u h Hh; [destruct (Hm u h Hh) as (u' & h' & g' & E & Ht & Hr & Hd)
    |destruct (Hs u h Hh) as (u' & h' & g' & E & Ht & Hr & _ & Hd)]; exists u', h', g'; auto.
Defined.

(** The six standard enable bits of M- and S-mode. *)
Definition mie_csr (c : string) (o x : Z) : Z := if String.eqb c "mie" then Z.land x 0xaaa else x.
Abbreviation MieHart := (CsrHart mie_csr).

