(* ===== verification/EcallProbes.v ===== *)
(** * CSR probes around a deliberate trap

    src/medeleg-mask/, src/mcause-warl/ and src/sepc-warl/: each writes CSRs,
    reads them back, and takes M-mode [ecall]s whose handler records the trap
    CSRs and resumes behind the instruction.  The hart is that of Warl with
    what the privileged architecture says of an [ecall] from M-mode and of
    [mret] ([EcallSpec]).  The C handlers are assumed to leave t0 alone, as
    the assembly around their calls does. *)

From Stdlib Require Import ZArith Lia String.
From stdpp Require Import base list.
From S2P Require Import Prelude Uart Hart Run View Pmp PmpEdge Warl CsrProbes.

(** ** Traps from M-mode *)

Class EcallDev (H : Type) : Type := {
  m_ecall : Z -> H -> H;  (* the trap taken by an [ecall] at an address *)
  m_ret : H -> H;
}.

(** The registers a trap into M-mode writes. *)
Definition trap_csrs : list string := ["mcause"; "mepc"; "mtval"; "mstatus"]%string.
Definition trap_keeps (c : string) : bool := negb (existsb (String.eqb c) trap_csrs).

Class EcallSpec (H : Type) `{!HartDev H, !WarlSpec H, !EcallDev H} : Type := {
  ecall_cause pc h : cval "mcause" (m_ecall pc h) = 11;
  ecall_epc pc h : is_u64 pc -> Z.land pc 1 = 0 -> cval "mepc" (m_ecall pc h) = pc;
  ecall_tval pc h : cval "mtval" (m_ecall pc h) = 0;
  ecall_keeps c pc h : trap_keeps c = true -> cval c (m_ecall pc h) = cval c h;
  mret_keeps c h : c <> "mstatus"%string -> cval c (m_ret h) = cval c h;
  ecall_test pc h : test_dev (m_ecall pc h) = test_dev h;
  mret_test h : test_dev (m_ret h) = test_dev h;
}.

Definition ECALL_MCAUSE : Z := 11.
Definition SPIN_BUDGET : Z := 10000000.

(** The registers of the interrupted code that a trap entry saves. *)
Record icontext : Type := IContext { i_pc : Z; i_t0 : Z; i_t1 : Z; i_ra : Z; i_a0 : Z }.

(** The statics of the last two programs after the eight words of their save
    area: trap_count, last_mcause (last_cause), last_sepc, last_mepc. *)
Definition TRAP_COUNT : nat := 8.
Definition LAST_CAUSE : nat := 9.
Definition LAST_SEPC : nat := 10.
Definition LAST_MEPC : nat := 11.

Section Program.
Context {U H : Type} `{!UartDev U, !HartDev H, !EcallDev H}.
Abbreviation W := (world U H pglob).
Context (trap_entry save_addr : Z).

(** A store to word [i] of the save area. *)
Definition set_reg (i : nat) (x : Z) : prog W unit :=
  s <- gget save ;; _ <- arr_set s i x ;; gset_ (set_save i x).

(** An [ecall] at [pc] in direct mode: the handler runs and returns behind
    the instruction. *)
Definition take_ecall (pc : Z) (handler : prog W unit) : prog W unit :=
  tv <- csrr "mtvec" ;;
  hw_write (m_ecall pc) ;;
  if tv =? trap_entry then
    handler ;;
    epc <- csrr "mepc" ;;
    hw_write m_ret ;;
    if epc =? u64 (pc + 4) then ret tt else undef
  else undef.

(** The entries swap t0 with mscratch, run, and swap back. *)
Definition with_area (t0 : Z) (body : prog W unit) : prog W unit :=
  area <- csrr "mscratch" ;;
  csrw "mscratch" t0 ;;
  if area =? save_addr then body ;; csrw "mscratch" area else undef.

(** ** mdel_trap.S, mdel_main.c *)

Definition mdel_trap_entry (c : icontext) : prog W unit :=
  with_area (i_t0 c)
    (set_reg 1 (i_t1 c) ;;
     n <- regs 0 ;; set_reg 0 (u64 (n + 1)) ;;
     x <- csrr "mcause" ;; set_reg 2 x ;;
     x <- csrr "mepc" ;; set_reg 3 x ;;
     x <- csrr "mtval" ;; set_reg 4 x ;;
     x <- csrr "mepc" ;; csrw "mepc" (u64 (x + 4))).

Definition csr_read_medeleg : prog W Z := csrr "medeleg".
Definition csr_read_mideleg : prog W Z := csrr "mideleg".
Definition csr_write_medeleg (v : Z) : prog W unit := csrw "medeleg" v.
Definition csr_write_mideleg (v : Z) : prog W unit := csrw "mideleg" v.

Definition trap_once (c : icontext) : prog W unit := take_ecall (i_pc c) (mdel_trap_entry c).

Definition report_trap (tag : string) (n : Z) : prog W unit :=
  uputs tag ;;
  uputs ": traps=" ;; x <- regs 0 ;; uart_put_dec x ;;
  uputs " mcause=" ;; x <- regs 2 ;; uart_put_hex x ;;
  uputs " mepc=" ;; x <- regs 3 ;; uart_put_hex x ;;
  uputs " mtval=" ;; x <- regs 4 ;; uart_put_hex x ;; uputs "\n" ;;
  x <- regs 0 ;; ncheck (x =? n) "trap counter did not advance by exactly one".

Definition mdel_masks : prog W unit :=
  csr_write_medeleg ALL_ONES ;; md_a <- csr_read_medeleg ;;
  csr_write_medeleg ALL_ONES ;; md_b <- csr_read_medeleg ;;
  uputs "mask: medeleg-write=0xffffffffffffffff readback1=" ;; uart_put_hex md_a ;;
  uputs " readback2=" ;; uart_put_hex md_b ;; uputs "\n" ;;
  ncheck (md_a =? md_b) "medeleg readback not stable across two writes" ;;
  csr_write_mideleg ALL_ONES ;; mi_a <- csr_read_mideleg ;;
  csr_write_mideleg ALL_ONES ;; mi_b <- csr_read_mideleg ;;
  uputs "mask: mideleg-write=0xffffffffffffffff readback1=" ;; uart_put_hex mi_a ;;
  uputs " readback2=" ;; uart_put_hex mi_b ;; uputs "\n" ;;
  ncheck (mi_a =? mi_b) "mideleg readback not stable across two writes".

Definition mdel_restore (boot_medeleg boot_mideleg : Z) : prog W unit :=
  csr_write_medeleg boot_medeleg ;;
  csr_write_mideleg boot_mideleg ;;
  rd_medeleg <- csr_read_medeleg ;;
  rd_mideleg <- csr_read_mideleg ;;
  uputs "restore: medeleg=" ;; uart_put_hex rd_medeleg ;; uputs " mideleg=" ;; uart_put_hex rd_mideleg ;; uputs "\n" ;;
  ncheck (rd_medeleg =? boot_medeleg) "medeleg not restored to boot value" ;;
  ncheck (rd_mideleg =? boot_mideleg) "mideleg not restored to boot value".

Definition mdel_verdict : prog W unit :=
  n <- gget fails ;;
  (if n =? 0 then uputs "RESULT: PASS\n"
   else uputs "RESULT: FAIL (" ;; uart_put_dec (u64 n) ;; uputs " checks failed)\n") ;;
  uputs "done\n" ;;
  park.

(** The contexts of the two calls of [trap_once]. *)
Definition mdel_body (c1 c2 : icontext) : prog W unit :=
  uputs "medeleg-mask: medeleg/mideleg writable-bit measurement\n" ;;
  install_trap trap_entry save_addr ;;
  boot_medeleg <- csr_read_medeleg ;;
  boot_mideleg <- csr_read_mideleg ;;
  uputs "boot: medeleg=" ;; uart_put_hex boot_medeleg ;; uputs " mideleg=" ;; uart_put_hex boot_mideleg ;; uputs "\n" ;;
  trap_once c1 ;;
  report_trap "trap1" 1 ;;
  r1 <- regs 2 ;; e1 <- regs 3 ;; t1 <- regs 4 ;;
  mdel_masks ;;
  mdel_restore boot_medeleg boot_mideleg ;;
  trap_once c2 ;;
  report_trap "trap2" 2 ;;
  x <- regs 2 ;; ncheck (x =? r1) "post-restore mcause differs from baseline" ;;
  x <- regs 3 ;; ncheck (x =? e1) "post-restore mepc differs from baseline" ;;
  x <- regs 4 ;; ncheck (x =? t1) "post-restore mtval differs from baseline" ;;
  mdel_verdict.
Definition mdel_main (c1 c2 : icontext) : prog W unit := uart_init ;; mdel_body c1 c2.

(** ** mcause_trap.S, mcause_main.c *)

(** Resume behind the [ecall], or park. *)
Definition skip_ecall (cause : Z) : prog W unit :=
  if cause =? ECALL_MCAUSE then epc <- csrr "mepc" ;; csrw "mepc" (u64 (epc + 4)) else park.

Definition mca_c_handle : prog W unit :=
  cause <- regs 2 ;;
  n <- regs TRAP_COUNT ;; set_reg TRAP_COUNT (u64 (n + 1)) ;;
  set_reg LAST_CAUSE cause ;;
  x <- regs 3 ;; set_reg LAST_MEPC x ;;
  skip_ecall cause.

Definition mcause_trap_entry (c : icontext) : prog W unit :=
  with_area (i_t0 c)
    (set_reg 1 (i_t1 c) ;;
     x <- csrr "mcause" ;; set_reg 2 x ;;
     x <- csrr "mepc" ;; set_reg 3 x ;;
     set_reg 4 (i_ra c) ;; set_reg 5 (i_a0 c) ;;
     mca_c_handle).

Definition read_mcause : prog W Z := csrr "mcause".
Definition write_mcause (v : Z) : prog W unit := csrw "mcause" v.

(** [while (trap_count < want && spins < budget) spins++] with fuel. *)
Fixpoint wait_loop (fuel : nat) (want budget spins : Z) : prog W Z :=
  match fuel with
  | O => nofuel
  | S fuel =>
      n <- regs TRAP_COUNT ;;
      if (n <? want) && (spins <? budget) then wait_loop fuel want budget (u64 (spins + 1)) else ret spins
  end.
Definition wait_for_trap (want budget : Z) : prog W Z := wait_loop (S (Z.to_nat budget)) want budget 0.

Definition print_triple (tag : string) (written last readback : Z) : prog W unit :=
  uputs tag ;; uputs ": write=" ;; uart_put_hex written ;; uputs " last-cause=" ;; uart_put_hex last ;;
  uputs " readback=" ;; uart_put_hex readback ;; uputs "\n".

(** The vector and the scratch area, with the vector printed. *)
Definition install_shown : prog W unit :=
  csrw "mtvec" trap_entry ;;
  csrw "mscratch" save_addr ;;
  tv <- csrr "mtvec" ;;
  uputs "trap: mtvec=" ;; uart_put_hex tv ;; uputs "\n" ;;
  check_mtvec trap_entry ncheck tv.

Definition mcause_trap1 (c : icontext) : prog W unit :=
  take_ecall (i_pc c) (mcause_trap_entry c) ;;
  spins <- wait_for_trap 1 SPIN_BUDGET ;;
  ncheck (spins <? SPIN_BUDGET) "first ecall did not trap" ;;
  uputs "trap1: handler-cause=" ;; x <- regs LAST_CAUSE ;; uart_put_hex x ;;
  uputs " mepc=" ;; x <- regs LAST_MEPC ;; uart_put_hex x ;;
  uputs " count=" ;; x <- regs TRAP_COUNT ;; uart_put_dec x ;; uputs "\n" ;;
  x <- regs LAST_CAUSE ;; ncheck (x =? ECALL_MCAUSE) "handler cause != 11 after ecall" ;;
  x <- regs TRAP_COUNT ;; ncheck (x =? 1) "trap_count != 1 after first ecall" ;;
  v <- read_mcause ;;
  uputs "trap1: mcause-readback=" ;; uart_put_hex v ;; uputs " (expect 0xb)\n" ;;
  ncheck (v =? ECALL_MCAUSE) "mcause readback != 11 after ecall".

(** Steps 3 and 4: one write, its readback, no trap. *)
Definition mcause_write (w : Z) (tag msg1 msg2 : string) : prog W unit :=
  write_mcause w ;;
  v <- read_mcause ;;
  x <- regs LAST_CAUSE ;; print_triple tag w x v ;;
  ncheck (v =? w) msg1 ;;
  x <- regs TRAP_COUNT ;; ncheck (x =? 1) msg2.

Definition mcause_trap2 (c : icontext) : prog W unit :=
  take_ecall (i_pc c) (mcause_trap_entry c) ;;
  spins <- wait_for_trap 2 SPIN_BUDGET ;;
  ncheck (spins <? SPIN_BUDGET) "second ecall did not trap" ;;
  v <- read_mcause ;;
  uputs "trap2: handler-cause=" ;; x <- regs LAST_CAUSE ;; uart_put_hex x ;;
  uputs " mcause-readback=" ;; uart_put_hex v ;;
  uputs " count=" ;; x <- regs TRAP_COUNT ;; uart_put_dec x ;; uputs "\n" ;;
  x <- regs TRAP_COUNT ;; ncheck (x =? 2) "trap_count != 2 after second ecall" ;;
  x <- regs LAST_CAUSE ;; ncheck (x =? ECALL_MCAUSE) "handler cause != 11 on second ecall" ;;
  ncheck (v =? ECALL_MCAUSE) "mcause not updated by second trap".

Definition trap_verdict : prog W unit :=
  uputs "RESULT: " ;; n <- gget fails ;; uputs (if n =? 0 then "PASS" else "FAIL") ;;
  uputs " (traps=" ;; x <- regs TRAP_COUNT ;; uart_put_dec x ;; uputs ")\n".

Definition mcause_body (c1 c2 : icontext) : prog W unit :=
  uputs "mcause-warl: mcause write-any/read-legal check\n" ;;
  v <- read_mcause ;;
  uputs "boot: mcause=" ;; uart_put_hex v ;; uputs "\n" ;;
  ncheck (v =? 0) "mcause nonzero at boot" ;;
  install_shown ;;
  mcause_trap1 c1 ;;
  mcause_write ALL_ONES "write-ones" "mcause readback != all-ones after write" "trap fired from the all-ones write" ;;
  mcause_write 0 "write-zero" "mcause readback != 0 after write" "trap fired from the zero write" ;;
  mcause_trap2 c2 ;;
  trap_verdict.
Definition mcause_main (c1 c2 : icontext) : prog W unit := uart_init ;; mcause_body c1 c2 ;; drain_finish.

(** ** sepc_trap.S, sepc_main.c *)

Definition sep_c_handle : prog W unit :=
  cause <- regs 2 ;;
  n <- regs TRAP_COUNT ;; set_reg TRAP_COUNT (u64 (n + 1)) ;;
  set_reg LAST_CAUSE cause ;;
  x <- regs 3 ;; set_reg LAST_SEPC x ;;
  x <- regs 6 ;; set_reg LAST_MEPC x ;;
  skip_ecall cause.

Definition sepc_trap_entry (c : icontext) : prog W unit :=
  with_area (i_t0 c)
    (set_reg 1 (i_t1 c) ;;
     x <- csrr "mcause" ;; set_reg 2 x ;;
     x <- csrr "sepc" ;; set_reg 3 x ;;
     x <- csrr "mepc" ;; set_reg 6 x ;;
     set_reg 4 (i_ra c) ;; set_reg 5 (i_a0 c) ;;
     sep_c_handle).

Definition read_sepc : prog W Z := csrr "sepc".
Definition write_sepc (v : Z) : prog W unit := csrw "sepc" v.

Definition sepc_write (w : Z) (tag msg1 msg2 : string) : prog W unit :=
  write_sepc w ;;
  v <- read_sepc ;;
  print_pair tag w v ;;
  ncheck (v =? w) msg1 ;;
  x <- regs TRAP_COUNT ;; ncheck (x =? 0) msg2.

(** [ecall_pc] is the address of the [ecall]. *)
Definition sepc_trap (c : icontext) : prog W unit :=
  let ecall_pc := i_pc c in
  take_ecall ecall_pc (sepc_trap_entry c) ;;
  spins <- wait_for_trap 1 SPIN_BUDGET ;;
  ncheck (spins <? SPIN_BUDGET) "deliberate ecall did not trap" ;;
  uputs "trap: ecall-pc=" ;; uart_put_hex ecall_pc ;;
  uputs " handler-mepc=" ;; x <- regs LAST_MEPC ;; uart_put_hex x ;;
  uputs " handler-sepc=" ;; x <- regs LAST_SEPC ;; uart_put_hex x ;;
  uputs " cause=" ;; x <- regs LAST_CAUSE ;; uart_put_hex x ;;
  uputs " count=" ;; x <- regs TRAP_COUNT ;; uart_put_dec x ;; uputs "\n" ;;
  x <- regs TRAP_COUNT ;; ncheck (x =? 1) "trap_count != 1 after deliberate ecall" ;;
  x <- regs LAST_CAUSE ;; ncheck (x =? ECALL_MCAUSE) "trap cause != 11 after ecall" ;;
  x <- regs LAST_MEPC ;; ncheck (x =? ecall_pc) "handler mepc != ecall pc" ;;
  x <- regs LAST_SEPC ;; ncheck (x =? 0) "sepc clobbered by M-mode trap entry" ;;
  v <- read_sepc ;;
  uputs "trap: sepc-readback=" ;; uart_put_hex v ;; uputs " (expect 0x0)\n" ;;
  ncheck (v =? 0) "sepc readback != 0 after trap" ;;
  v <- csrr "mepc" ;;
  uputs "trap: mepc-readback=" ;; uart_put_hex v ;; uputs " (expect ecall pc + 4)\n" ;;
  ncheck (v =? u64 (ecall_pc + 4)) "mepc readback != ecall pc + 4".

Definition sepc_body (c : icontext) : prog W unit :=
  uputs "sepc-warl: sepc software-write probe\n" ;;
  v <- read_sepc ;;
  uputs "boot: sepc=" ;; uart_put_hex v ;; uputs "\n" ;;
  ncheck (v =? 0) "sepc nonzero at boot" ;;
  install_shown ;;
  sepc_write ALL_ONES "write-ones" "sepc readback != all-ones after write" "trap fired from the all-ones write" ;;
  sepc_write 0 "write-zero" "sepc readback != 0 after write" "trap fired from the zero write" ;;
  sepc_trap c ;;
  trap_verdict.
Definition sepc_main (c : icontext) : prog W unit := uart_init ;; sepc_body c ;; drain_finish.
End Program.

(** ** Rules *)

Definition ecall_vals (names : list string) (pc : Z) (l : list Z) : list Z :=
  zip_with (fun c v => if String.eqb c "mcause" then 11 else if String.eqb c "mepc" then pc else
    if String.eqb c "mtval" then 0 else v) names l.
Definition no_mstatus (names : list string) : bool := forallb (fun c => negb (String.eqb c "mstatus")) names.

Section Rules.
Context {U H : Type} `{!UartDev U, !UartSpec U, !HartDev H, !WarlSpec H, !EcallDev H, !EcallSpec H} (names : list string).
Context (trap_entry save_addr : Z).
Abbreviation vr := (vruns (U:=U) (H:=H) (G:=pglob) (lcv names)).
Hypothesis Hn : no_mstatus names = true.

Lemma ecall_runs pc l d g : is_u64 pc -> Z.land pc 1 = 0 ->
  vr (hw_write (m_ecall pc)) (LV l d) g tt [] (LV (ecall_vals names pc l) d) g.
Proof.
  intros Hp He u h Hv. injection Hv as <- <-. exists (m_ecall pc h). split; [reflexivity|]. unfold lcv, ecall_vals.
  rewrite ecall_test. f_equal. unfold no_mstatus in Hn. clear -Hn Hp He EcallSpec0. induction names as [|c ns IH]; [reflexivity|].
  cbn [map zip_with forallb] in *. apply andb_prop in Hn as [H1 H2]. f_equal; [|now apply IH].
  destruct (String.eqb_spec c "mcause") as [->|N1]; [apply ecall_cause|]. destruct (String.eqb_spec c "mepc") as [->|N2]; [now apply ecall_epc|].
  destruct (String.eqb_spec c "mtval") as [->|N3]; [apply ecall_tval|]. apply ecall_keeps.
  unfold trap_keeps, trap_csrs. cbn [existsb]. apply String.eqb_neq in N1, N2, N3. rewrite N1, N2, N3.
  now destruct (String.eqb c "mstatus").
Qed.

Lemma mret_runs v g : vr (hw_write m_ret) v g tt [] v g.
Proof.
  intros u h <-. exists (m_ret h). split; [reflexivity|]. unfold lcv. rewrite mret_test. f_equal.
  unfold no_mstatus in Hn. clear -Hn EcallSpec0. induction names as [|c ns IH]; [reflexivity|].
  cbn [map forallb] in *. apply andb_prop in Hn as [H1 H2]. f_equal; [|now apply IH]. apply mret_keeps.
  intros ->. discriminate.
Qed.

Lemma set_reg_runs i x s s' v bs n c : (i < length s)%nat -> <[i := x]> s = s' ->
  vr (set_reg i x) v (ws s bs n c) tt [] v (ws s' bs n c).
Proof.
  intros Hi <-. unfold set_reg. eapply vruns_bind0; [apply vruns_gget|]. cbn [save ws].
  eapply vruns_bind0; [unfold arr_set; rewrite decide_True by exact Hi; apply vruns_ret|]. now apply vruns_gset.
Qed.

Lemma take_ecall_runs pc handler l d g l2 g' : is_u64 pc -> Z.land pc 1 = 0 -> look names "mtvec" l = Some trap_entry ->
  vr handler (LV (ecall_vals names pc l) d) g tt [] (LV l2 d) g' -> look names "mepc" l2 = Some (u64 (pc + 4)) ->
  vr (take_ecall trap_entry pc handler) (LV l d) g tt [] (LV l2 d) g'.
Proof.
  intros Hp He Ht Hh Hm. unfold take_ecall. eapply vruns_bind0; [eapply reg_read; [reflexivity|exact Ht]|].
  eapply vruns_bind0; [now apply ecall_runs|]. rewrite Z.eqb_refl. eapply vruns_bind0; [exact Hh|].
  eapply vruns_bind0; [eapply reg_read; [reflexivity|exact Hm]|]. eapply vruns_bind0; [apply mret_runs|].
  rewrite Z.eqb_refl. apply vruns_ret.
Qed.

Lemma with_area_runs t0 body l d g l2 g' : look names "mscratch" l = Some save_addr -> apart names "mscratch" = true ->
  vr body (LV (upd names "mscratch" t0 l) d) g tt [] (LV l2 d) g' ->
  vr (with_area save_addr t0 body) (LV l d) g tt [] (LV (upd names "mscratch" save_addr l2) d) g'.
Proof.
  intros Hl Ha Hb. unfold with_area. eapply vruns_bind0; [eapply reg_read; [reflexivity|exact Hl]|].
  eapply vruns_bind0; [apply reg_write; [exact Ha|reflexivity]|]. rewrite Z.eqb_refl.
  eapply vruns_bind0; [exact Hb|]. apply reg_write; [exact Ha|reflexivity].
Qed.

Lemma wait_runs want v s bs n c x : s !! TRAP_COUNT = Some x -> want <= x ->
  vr (wait_for_trap want SPIN_BUDGET) v (ws s bs n c) 0 [] v (ws s bs n c).
Proof.
  intros Hx Hw. unfold wait_for_trap. cbn [wait_loop]. eapply vruns_bind0; [eapply regs_runs; exact Hx|].
  assert ((x <? want) = false) as -> by (apply Z.ltb_ge; lia). apply vruns_ret.
Qed.
End Rules.

(** The values of a view after writes. *)
Ltac lred := cbv [upd zip_with String.eqb Ascii.eqb Bool.eqb].
Ltac eprim :=
  lazymatch goal with
  | |- vruns _ (set_reg _ _) _ _ _ _ _ _ => apply set_reg_runs; [cbn; unfold TRAP_COUNT, LAST_CAUSE, LAST_SEPC, LAST_MEPC; lia|cbv [insert list_insert TRAP_COUNT LAST_CAUSE LAST_SEPC LAST_MEPC]; reflexivity]
  | |- vruns _ csr_read_medeleg _ _ _ _ _ _ => apply reg_read; reflexivity
  | |- vruns _ csr_read_mideleg _ _ _ _ _ _ => apply reg_read; reflexivity
  | |- vruns _ read_mcause _ _ _ _ _ _ => apply reg_read; reflexivity
  | |- vruns _ read_sepc _ _ _ _ _ _ => apply reg_read; reflexivity
  | |- vruns _ (csr_write_medeleg _) _ _ _ _ _ _ => lwrite
  | |- vruns _ (csr_write_mideleg _) _ _ _ _ _ _ => lwrite
  | |- vruns _ (write_mcause _) _ _ _ _ _ _ => lwrite
  | |- vruns _ (write_sepc _) _ _ _ _ _ _ => lwrite
  | |- vruns _ (wait_for_trap _ _) _ _ _ _ _ _ => eapply wait_runs; [reflexivity|lia]
  | |- _ => lprim
  end.
Ltac equiet m :=
  lazymatch m with
  | set_reg _ _ => idtac | csr_read_medeleg => idtac | csr_read_mideleg => idtac | read_mcause => idtac | read_sepc => idtac
  | csr_write_medeleg _ => idtac | csr_write_mideleg _ => idtac | write_mcause _ => idtac | write_sepc _ => idtac
  | wait_for_trap _ _ => idtac | _ => lquiet m
  end.
Ltac estep :=
  lazymatch goal with
  | |- vruns _ (bind ?m _) _ _ _ _ _ _ =>
      first [equiet m; eapply vruns_bind0; [eprim|cbn beta] | eapply vruns_bind; [eprim|cbn beta]]
  | |- vhalts _ (bind ?m _) _ _ _ _ _ =>
      first [equiet m; eapply vhalts_bind0; [eprim|cbn beta] | eapply vhalts_bind; [eprim|cbn beta]]
  | |- vruns _ _ _ _ _ _ _ _ => eprim
  end.

(** ** medeleg-mask *)

Section Mdel.
Context {U H : Type} `{!UartDev U, !UartSpec U, !HartDev H, !WarlSpec H, !EcallDev H, !EcallSpec H} (trap_entry save_addr : Z).
Abbreviation names := ["mtvec"; "mscratch"; "medeleg"; "mideleg"; "mcause"; "mepc"; "mtval"]%string.
Abbreviation vr := (vruns (U:=U) (H:=H) (G:=pglob) (lcv names)).
Hypothesis Htv : forall o, legal "mtvec" o trap_entry = trap_entry.
Hypothesis Hal : Z.land trap_entry (u64 (Z.lnot 3)) = trap_entry.
Hypothesis Hsc : forall o x, is_u64 x -> legal "mscratch" o x = x.
Hypothesis Hsa : is_u64 save_addr.

(** A context at the [ecall] the program knows. *)
Definition ctx_ok (pc : Z) (c : icontext) : Prop :=
  i_pc c = pc /\ is_u64 (i_t0 c).

Lemma mdel_trap_runs pc c md mi mc me mv n a1 a2 a3 a4 a5 a6 a7 d bs k x :
  ctx_ok pc c -> is_u64 pc -> Z.land pc 1 = 0 -> legal "mepc" pc (u64 (pc + 4)) = u64 (pc + 4) ->
  vr (trap_once trap_entry save_addr c) (LV [trap_entry; save_addr; md; mi; mc; me; mv] d)
    (ws [n; a1; a2; a3; a4; a5; a6; a7] bs k x) tt []
    (LV [trap_entry; save_addr; md; mi; 11; u64 (pc + 4); 0] d) (ws [u64 (n + 1); i_t1 c; 11; pc; 0; a5; a6; a7] bs k x).
Proof.
  intros [Hpc Ht0] Hp He Hm. unfold trap_once. rewrite Hpc. eapply take_ecall_runs; try assumption; try reflexivity.
  cbv [ecall_vals zip_with String.eqb Ascii.eqb Bool.eqb].
  eapply vruns_conv; [eapply with_area_runs; [reflexivity..|lred; repeat estep]|reflexivity|reflexivity| |reflexivity].
  lred. rewrite Hm, !Hsc by assumption. reflexivity.
Qed.

Definition ones_md (c : string) (x : Z) : Z := legal c x ALL_ONES.
Definition again_md (c : string) (x : Z) : Z := legal c (ones_md c x) ALL_ONES.
Definition rst_md (c : string) (x : Z) : Z := legal c (again_md c x) x.
Definition mdel_checks (md mi : Z) : list bool :=
  [ones_md "medeleg" md =? again_md "medeleg" md; ones_md "mideleg" mi =? again_md "mideleg" mi;
   rst_md "medeleg" md =? md; rst_md "mideleg" mi =? mi].

Definition trap_text (tag : string) (n pc : Z) : list Z :=
  lit tag ++ lit ": traps=" ++ fmt_dec n ++ lit " mcause=0xb mepc=" ++ fmt_hex pc ++ lit " mtval=0x0\n".
Definition mdel_log (md mi pc : Z) : list Z :=
  lit "medeleg-mask: medeleg/mideleg writable-bit measurement\nboot: medeleg=" ++ fmt_hex md ++ lit " mideleg=" ++ fmt_hex mi ++
  lit "\n" ++ trap_text "trap1" 1 pc ++
  lit "mask: medeleg-write=0xffffffffffffffff readback1=" ++ fmt_hex (ones_md "medeleg" md) ++
  lit " readback2=" ++ fmt_hex (again_md "medeleg" md) ++ lit "\n" ++
  chk (ones_md "medeleg" md =? again_md "medeleg" md) "medeleg readback not stable across two writes" ++
  lit "mask: mideleg-write=0xffffffffffffffff readback1=" ++ fmt_hex (ones_md "mideleg" mi) ++
  lit " readback2=" ++ fmt_hex (again_md "mideleg" mi) ++ lit "\n" ++
  chk (ones_md "mideleg" mi =? again_md "mideleg" mi) "mideleg readback not stable across two writes" ++
  lit "restore: medeleg=" ++ fmt_hex (rst_md "medeleg" md) ++ lit " mideleg=" ++ fmt_hex (rst_md "mideleg" mi) ++ lit "\n" ++
  chk (rst_md "medeleg" md =? md) "medeleg not restored to boot value" ++
  chk (rst_md "mideleg" mi =? mi) "mideleg not restored to boot value" ++ trap_text "trap2" 2 pc ++
  (if forallb id (mdel_checks md mi) then lit "RESULT: PASS\ndone\n"
   else lit "RESULT: FAIL (" ++ fmt_dec (nfalse (mdel_checks md mi)) ++ lit " checks failed)\ndone\n").

Lemma chk_true m : chk true m = [].
Proof. reflexivity. Qed.

Lemma report_trap_runs tag v n t1 pc a5 a6 a7 bs k x : no_nul (c_lit tag) = true -> is_u64 n -> is_u64 pc ->
  vr (report_trap tag n) v (ws [n; t1; 11; pc; 0; a5; a6; a7] bs k x) tt (trap_text tag n pc) v
    (ws [n; t1; 11; pc; 0; a5; a6; a7] (bs ++ [true]) k x).
Proof.
  intros Ht Hn Hp. unfold report_trap. eapply vruns_conv.
  - eapply vruns_bind; [apply vruns_prints, prints_lit, Ht|]. repeat estep.
  - reflexivity.
  - rewrite Z.eqb_refl, chk_true. unfold trap_text. change (fmt_hex 11) with (lit "0xb"). change (fmt_hex 0) with (lit "0x0").
    generalize (lit tag) (fmt_dec n). intros. text_eq.
  - reflexivity.
  - now rewrite Z.eqb_refl.
Qed.

Lemma mdel_masks_runs t s md mi a b c d sv bs k x :
  vr mdel_masks (LV [t; s; md; mi; a; b; c] d) (ws sv bs k x) tt
    (lit "mask: medeleg-write=0xffffffffffffffff readback1=" ++ fmt_hex (ones_md "medeleg" md) ++
     lit " readback2=" ++ fmt_hex (again_md "medeleg" md) ++ lit "\n" ++
     chk (ones_md "medeleg" md =? again_md "medeleg" md) "medeleg readback not stable across two writes" ++
     lit "mask: mideleg-write=0xffffffffffffffff readback1=" ++ fmt_hex (ones_md "mideleg" mi) ++
     lit " readback2=" ++ fmt_hex (again_md "mideleg" mi) ++ lit "\n" ++
     chk (ones_md "mideleg" mi =? again_md "mideleg" mi) "mideleg readback not stable across two writes")
    (LV [t; s; again_md "medeleg" md; again_md "mideleg" mi; a; b; c] d)
    (ws sv (bs ++ [ones_md "medeleg" md =? again_md "medeleg" md; ones_md "mideleg" mi =? again_md "mideleg" mi]) k x).
Proof.
  unfold mdel_masks, again_md, ones_md. eapply vruns_conv; [repeat estep|reflexivity|text_eq|reflexivity|now rewrite <-app_assoc].
Qed.

Lemma mdel_restore_runs t s y z md mi a b c d sv bs k x : is_u64 md -> is_u64 mi ->
  vr (mdel_restore md mi) (LV [t; s; y; z; a; b; c] d) (ws sv bs k x) tt
    (lit "restore: medeleg=" ++ fmt_hex (legal "medeleg" y md) ++ lit " mideleg=" ++ fmt_hex (legal "mideleg" z mi) ++ lit "\n" ++
     chk (legal "medeleg" y md =? md) "medeleg not restored to boot value" ++
     chk (legal "mideleg" z mi =? mi) "mideleg not restored to boot value")
    (LV [t; s; legal "medeleg" y md; legal "mideleg" z mi; a; b; c] d)
    (ws sv (bs ++ [legal "medeleg" y md =? md; legal "mideleg" z mi =? mi]) k x).
Proof.
  intros H1 H2. unfold mdel_restore. eapply vruns_conv; [repeat estep|reflexivity|text_eq|reflexivity|now rewrite <-app_assoc].
Qed.

Lemma mdel_verdict_halts v s bs k x : Z.of_nat (length bs) < 1000 ->
  vhalts (U:=U) (lcv names) mdel_verdict v (ws s bs k x)
    (if forallb id bs then lit "RESULT: PASS\ndone\n" else lit "RESULT: FAIL (" ++ fmt_dec (nfalse bs) ++ lit " checks failed)\ndone\n")
    v (ws s bs k x).
Proof.
  intros Hl. pose proof (nfalse_bound bs) as Hb.
  assert (u64 (nfalse bs) = nfalse bs) as E by (apply u64_small; unfold is_u64; lia).
  unfold mdel_verdict. estep. cbn [fails ws]. rewrite nfalse_zero. destruct (forallb id bs); eapply vhalts_conv.
  - do 2 estep. apply vhalts_park.
  - vm_compute. reflexivity.
  - eapply vhalts_bind; [repeat estep|]. estep. apply vhalts_park.
  - rewrite E. generalize (fmt_dec (nfalse bs)). intros. text_eq.
Qed.

Lemma mdel_install_runs t s md mi a b c d sv k x :
  vr (install_trap trap_entry save_addr) (LV [t; s; md; mi; a; b; c] d) (ws sv [] k x) tt []
    (LV [trap_entry; save_addr; md; mi; a; b; c] d) (ws sv [true; true] k x).
Proof.
  unfold install_trap, check_mtvec. eapply vruns_conv; [repeat estep|reflexivity|..].
  - rewrite Htv, Hal, Z.eqb_refl. pose proof (tv_checks_ok trap_entry Htv Hal t) as E. unfold tv_checks, tv in E.
    rewrite Htv in E. injection E as _ ->. reflexivity.
  - now rewrite Htv, Hsc by assumption.
  - cbn [app]. f_equal. apply (tv_checks_ok trap_entry Htv Hal t).
Qed.

(** medeleg-mask on every hart.  The two [ecall]s, before and after the
    delegation registers were written, are recorded alike (cause 11, the
    address of the instruction, value 0), so the verdict is decided by the
    registers alone: PASS exactly if the all-ones readbacks are stable and
    both boot values can be restored. *)
Theorem mdel_reports t s md mi a b c d pc c1 c2 :
  is_u64 md -> is_u64 mi -> is_u64 pc -> Z.land pc 1 = 0 -> ctx_ok pc c1 -> ctx_ok pc c2 ->
  legal "mepc" pc (u64 (pc + 4)) = u64 (pc + 4) ->
  vmain_sends (U:=U) (lcv names) (mdel_main trap_entry save_addr c1 c2) (LV [t; s; md; mi; a; b; c] d) (probe_boot 8)
    (mdel_log md mi pc)
    (fun v g => fails g = nfalse (mdel_checks md mi) /\ take 5 (save g) = [2; i_t1 c2; 11; pc; 0] /\
       lv v = [trap_entry; save_addr; rst_md "medeleg" md; rst_md "mideleg" mi; 11; u64 (pc + 4); 0]).
Proof.
  intros Hmd Hmi Hp He H1 H2 Hm. apply vmain_sends_intro.
  - eexists _, _, _. split; [|split].
    + unfold mdel_body. change (probe_boot 8) with (ws [0; 0; 0; 0; 0; 0; 0; 0] [] 0 FNV_BASIS). estep.
      eapply vhalts_bind; [apply mdel_install_runs|]. do 7 estep.
      eapply vhalts_bind0; [now apply (mdel_trap_runs pc c1)|]. change (u64 (0 + 1)) with 1.
      eapply vhalts_bind; [apply report_trap_runs; [reflexivity|u64c|exact Hp]|]. do 3 estep.
      eapply vhalts_bind; [apply mdel_masks_runs|]. eapply vhalts_bind; [now apply mdel_restore_runs|].
      eapply vhalts_bind0; [now apply (mdel_trap_runs pc c2)|]. change (u64 (1 + 1)) with 2.
      eapply vhalts_bind; [apply report_trap_runs; [reflexivity|u64c|exact Hp]|]. do 6 estep.
      apply mdel_verdict_halts. reflexivity.
    + fold (rst_md "medeleg" md). fold (rst_md "mideleg" mi). rewrite !Z.eqb_refl, !chk_true. cbn [app].
      unfold mdel_log, mdel_checks, trap_text.
      generalize (ones_md "medeleg" md =? again_md "medeleg" md) (ones_md "mideleg" mi =? again_md "mideleg" mi)
        (rst_md "medeleg" md =? md) (rst_md "mideleg" mi =? mi). intros b1 b2 b3 b4.
      destruct b1, b2, b3, b4; text_eq.
    + split_and!; [|reflexivity..]. cbn [fails ws app]. rewrite !Z.eqb_refl. unfold mdel_checks.
      fold (rst_md "medeleg" md). fold (rst_md "mideleg" mi).
      destruct (ones_md "medeleg" md =? again_md "medeleg" md), (ones_md "mideleg" mi =? again_md "mideleg" mi),
        (rst_md "medeleg" md =? md), (rst_md "mideleg" mi =? mi); reflexivity.
  - unfold mdel_log, trap_text. warl_bytes.
Qed.
End Mdel.

(** ** mcause-warl and sepc-warl *)

Section Verdict.
Context {U H : Type} `{!UartDev U, !UartSpec U, !UartDrain U, !HartDev H, !WarlSpec H, !EcallDev H, !EcallSpec H}.
Context (trap_entry save_addr : Z).
Hypothesis Htv : forall o, legal "mtvec" o trap_entry = trap_entry.
Hypothesis Hal : Z.land trap_entry (u64 (Z.lnot 3)) = trap_entry.
Hypothesis Hsc : forall o x, is_u64 x -> legal "mscratch" o x = x.
Hypothesis Hsa : is_u64 save_addr.

Lemma trap_verdict_runs names v s bs k x n : s !! TRAP_COUNT = Some n -> is_u64 n ->
  vruns (U:=U) (lcv names) trap_verdict v (ws s bs k x) tt
    ((if forallb id bs then lit "RESULT: PASS (traps=" else lit "RESULT: FAIL (traps=") ++ fmt_dec n ++ lit ")\n") v (ws s bs k x).
Proof.
  intros Hn Hu. unfold trap_verdict. eapply vruns_conv.
  - do 2 estep. cbn [fails ws]. rewrite nfalse_zero.
    eapply vruns_bind with (l1 := if forallb id bs then lit "PASS" else lit "FAIL");
      [apply vruns_prints; destruct (forallb id bs); now apply prints_lit|]. estep.
    eapply vruns_bind0; [eapply regs_runs; exact Hn|]. repeat estep.
  - reflexivity.
  - generalize (fmt_dec n). intros. destruct (forallb id bs); text_eq.
  - reflexivity.
  - reflexivity.
Qed.

Lemma low_bits_clear : (Z.land trap_entry 3 =? 0) = true.
Proof. pose proof (tv_checks_ok trap_entry Htv Hal 0) as E. unfold tv_checks, tv in E. rewrite Htv in E. now injection E. Qed.

Definition shown : list Z := lit "trap: mtvec=" ++ fmt_hex trap_entry ++ lit "\n".

Section Mcause.
Abbreviation names := ["mtvec"; "mscratch"; "mcause"; "mepc"]%string.
Abbreviation vr := (vruns (U:=U) (H:=H) (G:=pglob) (lcv names)).

Lemma mcause_install_runs t s mc me d sv bs k x :
  vr (install_shown trap_entry save_addr) (LV [t; s; mc; me] d) (ws sv bs k x) tt shown
    (LV [trap_entry; save_addr; mc; me] d) (ws sv (bs ++ [true; true]) k x).
Proof.
  unfold install_shown, check_mtvec, shown. eapply vruns_conv; [repeat estep|reflexivity|..].
  - rewrite Htv, Hal, Z.eqb_refl, low_bits_clear, !chk_true. now rewrite ?app_nil_r.
  - now rewrite Htv, Hsc by assumption.
  - now rewrite Htv, Hal, Z.eqb_refl, low_bits_clear, <-app_assoc.
Qed.

Lemma mcause_ecall_runs pc c mc me a0 a1 a2 a3 a4 a5 a6 a7 n lc ls lm d bs k x :
  ctx_ok pc c -> is_u64 pc -> Z.land pc 1 = 0 -> legal "mepc" pc (u64 (pc + 4)) = u64 (pc + 4) ->
  vr (take_ecall trap_entry (i_pc c) (mcause_trap_entry save_addr c)) (LV [trap_entry; save_addr; mc; me] d)
    (ws [a0; a1; a2; a3; a4; a5; a6; a7; n; lc; ls; lm] bs k x) tt []
    (LV [trap_entry; save_addr; 11; u64 (pc + 4)] d)
    (ws [a0; i_t1 c; 11; pc; i_ra c; i_a0 c; a6; a7; u64 (n + 1); 11; ls; pc] bs k x).
Proof.
  intros [Hpc Ht0] Hp He Hm. rewrite Hpc. eapply take_ecall_runs; try assumption; try reflexivity.
  cbv [ecall_vals zip_with String.eqb Ascii.eqb Bool.eqb]. unfold mcause_trap_entry, mca_c_handle.
  eapply vruns_conv; [eapply with_area_runs; [reflexivity..|lred; do 13 estep]|reflexivity|reflexivity| |reflexivity].
  - change (skip_ecall 11) with (epc <- csrr "mepc" ;; csrw (U:=U) (H:=H) (G:=pglob) "mepc" (u64 (epc + 4)))%prog. repeat estep.
  - lred. rewrite Hm, !Hsc by assumption. reflexivity.
Qed.

Definition trap1_text (pc : Z) : list Z :=
  lit "trap1: handler-cause=0xb mepc=" ++ fmt_hex pc ++ lit " count=1\ntrap1: mcause-readback=0xb (expect 0xb)\n".

Lemma mcause_trap1_runs pc c mc me a0 a1 a2 a3 a4 a5 a6 a7 lc ls lm d bs k x :
  ctx_ok pc c -> is_u64 pc -> Z.land pc 1 = 0 -> legal "mepc" pc (u64 (pc + 4)) = u64 (pc + 4) ->
  vr (mcause_trap1 trap_entry save_addr c) (LV [trap_entry; save_addr; mc; me] d)
    (ws [a0; a1; a2; a3; a4; a5; a6; a7; 0; lc; ls; lm] bs k x) tt (trap1_text pc)
    (LV [trap_entry; save_addr; 11; u64 (pc + 4)] d)
    (ws [a0; i_t1 c; 11; pc; i_ra c; i_a0 c; a6; a7; 1; 11; ls; pc] (bs ++ [true; true; true; true]) k x).
Proof.
  intros Hc Hp He Hm. unfold mcause_trap1, trap1_text. eapply vruns_conv.
  - eapply vruns_bind0; [now apply (mcause_ecall_runs pc c)|]. change (u64 (0 + 1)) with 1. repeat estep.
  - reflexivity.
  - change (fmt_hex 11) with (lit "0xb"). rewrite !chk_true. text_eq.
  - reflexivity.
  - now rewrite <-!app_assoc.
Qed.

Definition triple_text (tag : string) (w rb : Z) : list Z :=
  lit tag ++ lit ": write=" ++ fmt_hex w ++ lit " last-cause=0xb readback=" ++ fmt_hex rb ++ lit "\n".

Lemma mcause_write_runs w tag m1 m2 t s mc me d b0 b1 b2 b3 b4 b5 b6 b7 ls lm bs k x :
  no_nul (c_lit tag) = true -> no_nul (c_lit m1) = true -> no_nul (c_lit m2) = true -> is_u64 w ->
  vr (mcause_write w tag m1 m2) (LV [t; s; mc; me] d) (ws [b0; b1; b2; b3; b4; b5; b6; b7; 1; 11; ls; lm] bs k x) tt
    (triple_text tag w (legal "mcause" mc w) ++ chk (legal "mcause" mc w =? w) m1)
    (LV [t; s; legal "mcause" mc w; me] d)
    (ws [b0; b1; b2; b3; b4; b5; b6; b7; 1; 11; ls; lm] (bs ++ [legal "mcause" mc w =? w; true]) k x).
Proof.
  intros Ht H1 H2 Hw. unfold mcause_write, print_triple, triple_text. eapply vruns_conv.
  - do 3 estep. eapply vruns_bind; [eapply vruns_bind; [apply vruns_prints, prints_lit, Ht|repeat estep]|].
    eapply vruns_bind; [now apply ncheck_runs|]. estep. now apply ncheck_runs.
  - reflexivity.
  - change (fmt_hex 11) with (lit "0xb"). rewrite chk_true. generalize (lit tag). intros. text_eq.
  - reflexivity.
  - now rewrite <-!app_assoc.
Qed.

Definition trap2_text : list Z := lit "trap2: handler-cause=0xb mcause-readback=0xb count=2\n".

Lemma mcause_trap2_runs pc c mc me a0 a1 a2 a3 a4 a5 a6 a7 lc ls lm d bs k x :
  ctx_ok pc c -> is_u64 pc -> Z.land pc 1 = 0 -> legal "mepc" pc (u64 (pc + 4)) = u64 (pc + 4) ->
  vr (mcause_trap2 trap_entry save_addr c) (LV [trap_entry; save_addr; mc; me] d)
    (ws [a0; a1; a2; a3; a4; a5; a6; a7; 1; lc; ls; lm] bs k x) tt trap2_text
    (LV [trap_entry; save_addr; 11; u64 (pc + 4)] d)
    (ws [a0; i_t1 c; 11; pc; i_ra c; i_a0 c; a6; a7; 2; 11; ls; pc] (bs ++ [true; true; true; true]) k x).
Proof.
  intros Hc Hp He Hm. unfold mcause_trap2, trap2_text. eapply vruns_conv.
  - eapply vruns_bind0; [now apply (mcause_ecall_runs pc c)|]. change (u64 (1 + 1)) with 2. repeat estep.
  - reflexivity.
  - vm_compute. reflexivity.
  - reflexivity.
  - now rewrite <-!app_assoc.
Qed.

Definition mcause_one : Z := legal "mcause" 11 ALL_ONES.
Definition mcause_zero : Z := legal "mcause" mcause_one 0.
Definition mcause_checks (x : Z) : list bool := [x =? 0; mcause_one =? ALL_ONES; mcause_zero =? 0].
Definition mcause_log (x pc1 : Z) : list Z :=
  lit "mcause-warl: mcause write-any/read-legal check\nboot: mcause=" ++ fmt_hex x ++ lit "\n" ++ chk (x =? 0) "mcause nonzero at boot" ++
  shown ++ trap1_text pc1 ++
  triple_text "write-ones" ALL_ONES mcause_one ++ chk (mcause_one =? ALL_ONES) "mcause readback != all-ones after write" ++
  triple_text "write-zero" 0 mcause_zero ++ chk (mcause_zero =? 0) "mcause readback != 0 after write" ++ trap2_text ++
  (if forallb id (mcause_checks x) then lit "RESULT: PASS (traps=2)\n" else lit "RESULT: FAIL (traps=2)\n").

Lemma mcause_main_sends t s x me d pc1 pc2 c1 c2 :
  is_u64 x -> is_u64 pc1 -> Z.land pc1 1 = 0 -> legal "mepc" pc1 (u64 (pc1 + 4)) = u64 (pc1 + 4) -> ctx_ok pc1 c1 ->
  is_u64 pc2 -> Z.land pc2 1 = 0 -> legal "mepc" pc2 (u64 (pc2 + 4)) = u64 (pc2 + 4) -> ctx_ok pc2 c2 ->
  vmain_sends (U:=U) (lcv names) (mcause_main trap_entry save_addr c1 c2) (LV [t; s; x; me] d) (probe_boot 12) (mcause_log x pc1)
    (fun v g => v = LV [trap_entry; save_addr; 11; u64 (pc2 + 4)] (if forallb id (mcause_checks x) then FINISHER_PASS else d) /\
       save g !! TRAP_COUNT = Some 2).
Proof.
  intros Hx Hp1 He1 Hm1 H1 Hp2 He2 Hm2 H2.
  set (bs := [x =? 0; true; true; true; true; true; true; mcause_one =? ALL_ONES; true; mcause_zero =? 0; true; true; true; true; true]).
  assert (forallb id bs = forallb id (mcause_checks x)) as Eb.
  { subst bs. unfold mcause_checks. cbn. now destruct (x =? 0), (mcause_one =? ALL_ONES), (mcause_zero =? 0). }
  assert (exists sv, sv !! TRAP_COUNT = Some 2 /\ vr (mcause_body trap_entry save_addr c1 c2) (LV [t; s; x; me] d) (probe_boot 12) tt
    (mcause_log x pc1) (LV [trap_entry; save_addr; 11; u64 (pc2 + 4)] d) (ws sv bs 0 FNV_BASIS)) as (sv & Hsv & Hb).
  { eexists. split; [|unfold mcause_body; change (probe_boot 12) with (ws [0; 0; 0; 0; 0; 0; 0; 0; 0; 0; 0; 0] [] 0 FNV_BASIS);
      eapply vruns_conv; [do 6 estep; eapply vruns_bind; [apply mcause_install_runs|];
        eapply vruns_bind; [now apply (mcause_trap1_runs pc1 c1)|]; eapply vruns_bind; [apply mcause_write_runs; reflexivity || u64c|];
        eapply vruns_bind; [apply mcause_write_runs; reflexivity || u64c|]; eapply vruns_bind; [now apply (mcause_trap2_runs pc2 c2)|];
        apply (trap_verdict_runs names) with (n := 2); [reflexivity|u64c]
      |reflexivity| |reflexivity|fold mcause_one; fold mcause_zero; reflexivity]].
    - reflexivity.
    - fold mcause_one. fold mcause_zero. cbn [app]. fold bs. rewrite Eb. unfold mcause_log, shown, trap1_text, triple_text, trap2_text.
      change (fmt_hex ALL_ONES) with (lit "0xffffffffffffffff"). change (fmt_hex 0) with (lit "0x0").
      destruct (forallb id (mcause_checks x)); text_eq. }
  intros u h Hv. destruct (drained_sends names _ _ _ _ _ _ _ _ _ _ Hb) with (u := u) (h := h)
    as (u' & h' & g' & E & Ht & Hr & Hw & Hg); [|exact Hv|].
  { unfold mcause_log, shown, trap1_text, triple_text, trap2_text. warl_bytes. }
  exists u', h', g'. subst g'. rewrite Eb in Hw. split_and!; assumption.
Qed.
End Mcause.

Section Sepc.
Abbreviation names := ["mtvec"; "mscratch"; "mcause"; "mepc"; "sepc"]%string.
Abbreviation vr := (vruns (U:=U) (H:=H) (G:=pglob) (lcv names)).

Lemma sepc_install_runs t s mc me se d sv bs k x :
  vr (install_shown trap_entry save_addr) (LV [t; s; mc; me; se] d) (ws sv bs k x) tt shown
    (LV [trap_entry; save_addr; mc; me; se] d) (ws sv (bs ++ [true; true]) k x).
Proof.
  unfold install_shown, check_mtvec, shown. eapply vruns_conv; [repeat estep|reflexivity|..].
  - rewrite Htv, Hal, Z.eqb_refl, low_bits_clear, !chk_true. now rewrite ?app_nil_r.
  - now rewrite Htv, Hsc by assumption.
  - now rewrite Htv, Hal, Z.eqb_refl, low_bits_clear, <-app_assoc.
Qed.

Definition pair_text (tag : string) (w rb : Z) : list Z :=
  lit tag ++ lit ": write=" ++ fmt_hex w ++ lit " readback=" ++ fmt_hex rb ++ lit "\n".

Lemma sepc_write_runs w tag m1 m2 t s mc me se d b0 b1 b2 b3 b4 b5 b6 b7 lc ls lm bs k x :
  no_nul (c_lit tag) = true -> no_nul (c_lit m1) = true -> no_nul (c_lit m2) = true -> is_u64 w ->
  vr (sepc_write w tag m1 m2) (LV [t; s; mc; me; se] d) (ws [b0; b1; b2; b3; b4; b5; b6; b7; 0; lc; ls; lm] bs k x) tt
    (pair_text tag w (legal "sepc" se w) ++ chk (legal "sepc" se w =? w) m1)
    (LV [t; s; mc; me; legal "sepc" se w] d)
    (ws [b0; b1; b2; b3; b4; b5; b6; b7; 0; lc; ls; lm] (bs ++ [legal "sepc" se w =? w; true]) k x).
Proof.
  intros Ht H1 H2 Hw. unfold sepc_write, print_pair, pair_text. eapply vruns_conv.
  - do 2 estep. eapply vruns_bind; [eapply vruns_bind; [apply vruns_prints, prints_lit, Ht|repeat estep]|].
    eapply vruns_bind; [now apply ncheck_runs|]. estep. now apply ncheck_runs.
  - reflexivity.
  - rewrite chk_true. generalize (lit tag). intros. text_eq.
  - reflexivity.
  - now rewrite <-!app_assoc.
Qed.

Lemma sepc_ecall_runs pc c mc me se a0 a1 a2 a3 a4 a5 a6 a7 n lc ls lm d bs k x :
  ctx_ok pc c -> is_u64 pc -> Z.land pc 1 = 0 -> legal "mepc" pc (u64 (pc + 4)) = u64 (pc + 4) ->
  vr (take_ecall trap_entry pc (sepc_trap_entry save_addr c)) (LV [trap_entry; save_addr; mc; me; se] d)
    (ws [a0; a1; a2; a3; a4; a5; a6; a7; n; lc; ls; lm] bs k x) tt []
    (LV [trap_entry; save_addr; 11; u64 (pc + 4); se] d)
    (ws [a0; i_t1 c; 11; se; i_ra c; i_a0 c; pc; a7; u64 (n + 1); 11; se; pc] bs k x).
Proof.
  intros [Hpc Ht0] Hp He Hm. eapply take_ecall_runs; try assumption; try reflexivity.
  cbv [ecall_vals zip_with String.eqb Ascii.eqb Bool.eqb]. unfold sepc_trap_entry, sep_c_handle.
  eapply vruns_conv; [eapply with_area_runs; [reflexivity..|lred; do 17 estep]|reflexivity|reflexivity| |reflexivity].
  - change (skip_ecall 11) with (epc <- csrr "mepc" ;; csrw (U:=U) (H:=H) (G:=pglob) "mepc" (u64 (epc + 4)))%prog. repeat estep.
  - lred. rewrite Hm, !Hsc by assumption. reflexivity.
Qed.

Definition sepc_trap_text (pc se : Z) : list Z :=
  lit "trap: ecall-pc=" ++ fmt_hex pc ++ lit " handler-mepc=" ++ fmt_hex pc ++ lit " handler-sepc=" ++ fmt_hex se ++
  lit " cause=0xb count=1\n" ++ chk (se =? 0) "sepc clobbered by M-mode trap entry" ++
  lit "trap: sepc-readback=" ++ fmt_hex se ++ lit " (expect 0x0)\n" ++ chk (se =? 0) "sepc readback != 0 after trap" ++
  lit "trap: mepc-readback=" ++ fmt_hex (u64 (pc + 4)) ++ lit " (expect ecall pc + 4)\n".

Lemma sepc_trap_runs pc c mc me se a0 a1 a2 a3 a4 a5 a6 a7 lc ls lm d bs k x :
  ctx_ok pc c -> is_u64 pc -> is_u64 se -> Z.land pc 1 = 0 -> legal "mepc" pc (u64 (pc + 4)) = u64 (pc + 4) ->
  exists sv, sv !! TRAP_COUNT = Some 1 /\
  vr (sepc_trap trap_entry save_addr c) (LV [trap_entry; save_addr; mc; me; se] d)
    (ws [a0; a1; a2; a3; a4; a5; a6; a7; 0; lc; ls; lm] bs k x) tt (sepc_trap_text pc se)
    (LV [trap_entry; save_addr; 11; u64 (pc + 4); se] d)
    (ws sv (bs ++ [true; true; true; true; se =? 0; se =? 0; true]) k x).
Proof.
  intros Hc Hp Hse He Hm. exists [a0; i_t1 c; 11; se; i_ra c; i_a0 c; pc; a7; 1; 11; se; pc]. split; [reflexivity|].
  unfold sepc_trap, sepc_trap_text. rewrite (proj1 Hc). cbv zeta. eapply vruns_conv;
    [eapply vruns_bind0; [now apply (sepc_ecall_runs pc c)|]; change (u64 (0 + 1)) with 1; repeat estep|reflexivity| |reflexivity|].
  - change (fmt_hex 11) with (lit "0xb"). rewrite !Z.eqb_refl, !chk_true. text_eq.
  - rewrite !Z.eqb_refl. now rewrite <-!app_assoc.
Qed.

Definition sepc_one (x : Z) : Z := legal "sepc" x ALL_ONES.
Definition sepc_zero (x : Z) : Z := legal "sepc" (sepc_one x) 0.
Definition sepc_checks (x : Z) : list bool := [x =? 0; sepc_one x =? ALL_ONES; sepc_zero x =? 0].
Definition sepc_log (x pc : Z) : list Z :=
  lit "sepc-warl: sepc software-write probe\nboot: sepc=" ++ fmt_hex x ++ lit "\n" ++ chk (x =? 0) "sepc nonzero at boot" ++ shown ++
  pair_text "write-ones" ALL_ONES (sepc_one x) ++ chk (sepc_one x =? ALL_ONES) "sepc readback != all-ones after write" ++
  pair_text "write-zero" 0 (sepc_zero x) ++ chk (sepc_zero x =? 0) "sepc readback != 0 after write" ++
  sepc_trap_text pc (sepc_zero x) ++
  (if forallb id (sepc_checks x) then lit "RESULT: PASS (traps=1)\n" else lit "RESULT: FAIL (traps=1)\n").

Lemma sepc_main_sends t s mc me x d pc c :
  is_u64 x -> is_u64 pc -> Z.land pc 1 = 0 -> legal "mepc" pc (u64 (pc + 4)) = u64 (pc + 4) -> ctx_ok pc c ->
  vmain_sends (U:=U) (lcv names) (sepc_main trap_entry save_addr c) (LV [t; s; mc; me; x] d) (probe_boot 12) (sepc_log x pc)
    (fun v g => v = LV [trap_entry; save_addr; 11; u64 (pc + 4); sepc_zero x] (if forallb id (sepc_checks x) then FINISHER_PASS else d) /\
       save g !! TRAP_COUNT = Some 1).
Proof.
  intros Hx Hp He Hm Hc.
  set (bs := [x =? 0; true; true; sepc_one x =? ALL_ONES; true; sepc_zero x =? 0; true; true; true; true; true; sepc_zero x =? 0; sepc_zero x =? 0; true]).
  assert (forallb id bs = forallb id (sepc_checks x)) as Eb.
  { subst bs. unfold sepc_checks. cbn. now destruct (x =? 0), (sepc_one x =? ALL_ONES), (sepc_zero x =? 0). }
  assert (exists sv, sv !! TRAP_COUNT = Some 1 /\ vr (sepc_body trap_entry save_addr c) (LV [t; s; mc; me; x] d) (probe_boot 12) tt
    (sepc_log x pc) (LV [trap_entry; save_addr; 11; u64 (pc + 4); sepc_zero x] d) (ws sv bs 0 FNV_BASIS)) as (sv & Hsv & Hb).
  { destruct (sepc_trap_runs pc c mc me (sepc_zero x) 0 0 0 0 0 0 0 0 0 0 0 d
      [x =? 0; true; true; sepc_one x =? ALL_ONES; true; sepc_zero x =? 0; true] 0 FNV_BASIS Hc Hp (legal_u64 _ _ _) He Hm) as (sv & Hs & Ht).
    exists sv. split; [exact Hs|]. unfold sepc_body. change (probe_boot 12) with (ws [0; 0; 0; 0; 0; 0; 0; 0; 0; 0; 0; 0] [] 0 FNV_BASIS).
    eapply vruns_conv.
    - do 6 estep. eapply vruns_bind; [apply sepc_install_runs|]. eapply vruns_bind; [apply sepc_write_runs; reflexivity || u64c|].
      eapply vruns_bind; [apply sepc_write_runs; reflexivity || u64c|]. cbn [app]. fold (sepc_one x). fold (sepc_zero x).
      eapply vruns_bind; [exact Ht|]. apply (trap_verdict_runs names) with (n := 1); [exact Hs|u64c].
    - reflexivity.
    - fold (sepc_one x). fold (sepc_zero x). cbn [app]. fold bs. rewrite Eb. unfold sepc_log, shown, pair_text, sepc_trap_text.
      change (fmt_hex ALL_ONES) with (lit "0xffffffffffffffff"). change (fmt_hex 0) with (lit "0x0").
      generalize (fmt_hex (u64 (pc + 4))). intros.
      destruct (forallb id (sepc_checks x)); text_eq.
    - reflexivity.
    - reflexivity. }
  intros u h Hv. destruct (drained_sends names _ _ _ _ _ _ _ _ _ _ Hb) with (u := u) (h := h)
    as (u' & h' & g' & E & Ht & Hr & Hw & Hg); [|exact Hv|].
  { unfold sepc_log, shown, sepc_trap_text, pair_text. warl_bytes. }
  exists u', h', g'. subst g'. rewrite Eb in Hw. split_and!; assumption.
Qed.

(** C38: sepc-warl rejects conforming harts.  Where bit 0 of sepc is always
    zero, as the architecture requires, the all-ones write cannot read back,
    so the run, traps and all, ends in FAIL and the test device is not
    touched. *)
Theorem sepc_conforming_fails t s mc me x d pc c :
  is_u64 x -> is_u64 pc -> Z.land pc 1 = 0 -> legal "mepc" pc (u64 (pc + 4)) = u64 (pc + 4) -> ctx_ok pc c ->
  (forall o y, Z.testbit (legal "sepc" o y) 0 = false) ->
  vmain_sends (U:=U) (lcv names) (sepc_main trap_entry save_addr c) (LV [t; s; mc; me; x] d) (probe_boot 12) (sepc_log x pc)
    (fun v g => lv_test v = d) /\ exists l, sepc_log x pc = l ++ lit "RESULT: FAIL (traps=1)\n".
Proof.
  intros Hx Hp He Hm Hc Hz. assert (forallb id (sepc_checks x) = false) as E.
  { unfold sepc_checks. assert ((sepc_one x =? ALL_ONES) = false) as ->; [|cbn; now rewrite andb_false_r].
    apply Z.eqb_neq. intros E. specialize (Hz x ALL_ONES). fold (sepc_one x) in Hz. rewrite E in Hz. discriminate. }
  split; [|unfold sepc_log; rewrite E, !app_assoc; eauto].
  intros u h Hh. destruct (sepc_main_sends t s mc me x d pc c Hx Hp He Hm Hc u h Hh) as (u' & h' & g' & Em & Ht & Hr & Hd & _).
  rewrite E in Hd. exists u', h', g'. rewrite Hd. auto.
Qed.
End Sepc.
End Verdict.

(** ** A hart that traps *)

Section TrapHart.
Context {f : string -> Z -> Z -> Z}.

#[export] Instance CsrHart_ecall : EcallDev (CsrHart f) := {
  m_ecall pc h := CsrH (aupdate String.eqb "mtval"%string 0 (aupdate String.eqb "mepc"%string pc (aupdate String.eqb "mcause"%string 11 (ch_csrs h)))) (ch_test h);
  m_ret h := h;
}.

#[export] Instance CsrHart_ecallspec : EcallSpec (CsrHart f).
Proof.
  split; try reflexivity.
  - intros pc h. cbn. now rewrite !alookup_aupdate_ne, alookup_aupdate by (apply String.eqb_eq || discriminate).
  - intros pc h Hp _. cbn. rewrite alookup_aupdate_ne, alookup_aupdate by (apply String.eqb_eq || discriminate). now apply u64_small.
  - intros pc h. cbn. now rewrite alookup_aupdate by apply String.eqb_eq.
  - intros c pc h Hc. cbn. rewrite !alookup_aupdate_ne; try reflexivity; try apply String.eqb_eq; intros E; subst c; discriminate Hc.
Defined.
End TrapHart.

(** Delegation masks; sepc without its lowest bit. *)
Definition trap_csr (c : string) (o x : Z) : Z :=
  if String.eqb c "medeleg" then Z.land x 0xb3ff else if String.eqb c "mideleg" then Z.land x 0x222
  else if String.eqb c "sepc" then Z.ldiff x 1 else x.
Abbreviation TrapHart := (CsrHart trap_csr).
Definition demo_ctx : icontext := IContext 0x80000400 7 8 9 10.

Lemma mdel_reports_witness :
  vmain_sends (U:=LogUart) (H:=TrapHart) (lcv ["mtvec"; "mscratch"; "medeleg"; "mideleg"; "mcause"; "mepc"; "mtval"]%string)
    (mdel_main 0x80000100 0x80001000 demo_ctx demo_ctx) (LV [0; 0; 0; 0; 0; 0; 0] 0) (probe_boot 8)
    (mdel_log (H:=TrapHart) 0 0 0x80000400) (fun _ g => fails g = 0).
Proof.
  assert (H := mdel_reports (U:=LogUart) (H:=TrapHart) (WarlSpec0:=CsrHart_spec) 0x80000100 0x80001000 ltac:(reflexivity) ltac:(reflexivity)
    ltac:(intros o x Hx; apply u64_small, Hx) ltac:(u64c) 0 0 0 0 0 0 0 0 0x80000400 demo_ctx demo_ctx ltac:(u64c) ltac:(u64c) ltac:(u64c)
    ltac:(reflexivity) ltac:(split; [reflexivity|u64c]) ltac:(split; [reflexivity|u64c]) ltac:(reflexivity)).
  intros u h Hh. destruct (H u h Hh) as (u' & h' & g' & E & Ht & Hr & Hf & _). exists u', h', g'. auto.
Defined.

Lemma sepc_conforming_fails_witness :
  vmain_sends (U:=LogUart) (H:=TrapHart) (lcv ["mtvec"; "mscratch"; "mcause"; "mepc"; "sepc"]%string)
    (sepc_main 0x80000100 0x80001000 demo_ctx) (LV [0; 0; 0; 0; 0] 0) (probe_boot 12) (sepc_log (H:=TrapHart) 0x80000100 0 0x80000400)
    (fun v _ => lv_test v = 0).
Proof.
  assert (forall o y, Z.testbit (legal (H:=TrapHart) "sepc" o y) 0 = false) as Hz.
  { intros o y. cbn [legal CsrHart_spec]. change (trap_csr "sepc" o y) with (Z.ldiff y 1). unfold u64.
    rewrite Z.mod_pow2_bits_low by lia. now rewrite Z.ldiff_spec, andb_false_r. }
  apply (sepc_conforming_fails (U:=LogUart) (H:=TrapHart) (WarlSpec0:=CsrHart_spec) 0x80000100 0x80001000 ltac:(reflexivity)
    ltac:(reflexivity) ltac:(intros o x Hx; apply u64_small, Hx) ltac:(u64c) 0 0 0 0 0 0 0x80000400 demo_ctx ltac:(u64c) ltac:(u64c)
    ltac:(reflexivity) ltac:(reflexivity) ltac:(split; [reflexivity|u64c]) Hz).
Defined.
