(* ===== verification/TvecProbe.v ===== *)
(** * The mtvec MODE probe

    src/mtvec-mode-war/mmw_main.c: which MODE encodings mtvec accepts, on the
    harts of Warl.  Its trap entry runs only if a CSR access traps, which on
    such a hart none does. *)

From Stdlib Require Import ZArith Lia String.
From stdpp Require Import base list.
From S2P Require Import Prelude Uart Hart Run View Pmp PmpEdge Warl CsrProbes.

(** [~3UL]; [ALL_ONES & ~3UL]. *)
Definition BASE_MASK : Z := u64 (Z.lnot 3).
Definition ONES_BASE : Z := Z.land ALL_ONES BASE_MASK.

(** [mmw_regs] and the counters at boot. *)
Definition mmw_boot_glob : pglob := PGlob (replicate 5 0) 0 0 14695981039346656037.

Section Program.
Context {U H : Type} `{!UartDev U, !HartDev H}.
Abbreviation W := (world U H pglob).
Context (trap_entry save_addr : Z).

Definition read_mtvec : prog W Z := csrr "mtvec".
Definition write_mtvec (v : Z) : prog W unit := csrw "mtvec" v.

Definition handler_base : Z := Z.land trap_entry BASE_MASK.

Definition mmw_baseline : prog W (Z * Z) :=
  mstatus <- read_mstatus ;;
  wcheck (Z.land mstatus MSTATUS_MIE =? 0) "mstatus.MIE set at boot" ;;
  boot_mtvec <- read_mtvec ;;
  boot_mstatus <- read_mstatus ;;
  uputs "boot: mtvec=" ;; uart_put_hex boot_mtvec ;;
  uputs " mstatus=" ;; uart_put_hex boot_mstatus ;; uputs "\n" ;;
  digest64 boot_mtvec ;; digest64 boot_mstatus ;;
  ret (boot_mtvec, boot_mstatus).

Definition mmw_install : prog W Z :=
  csrw "mtvec" handler_base ;;
  csrw "mscratch" save_addr ;;
  mtvec <- csrr "mtvec" ;;
  uputs "trap: mtvec=" ;; uart_put_hex mtvec ;; uputs "\n" ;;
  digest64 mtvec ;;
  wcheck (mtvec =? handler_base) "mtvec did not take the handler address" ;;
  ret mtvec.

Definition mmw_phase1 (mtvec : Z) : prog W unit :=
  write_mtvec ALL_ONES ;;
  ones_rb <- read_mtvec ;;
  uputs "phase1 ones: mtvec=" ;; uart_put_hex ones_rb ;; uputs "\n" ;;
  digest64 ALL_ONES ;; digest64 ones_rb ;;
  wcheck (ones_rb =? mtvec) "phase 1: reserved-MODE write was not fully ignored" ;;
  write_mtvec ONES_BASE ;;
  ones_rb <- read_mtvec ;;
  uputs "phase1 ones-base: mtvec=" ;; uart_put_hex ones_rb ;; uputs "\n" ;;
  digest64 ONES_BASE ;; digest64 ones_rb ;;
  wcheck (ones_rb =? ONES_BASE) "phase 1: all-ones BASE with MODE=0 did not stick".

(** One mode: the tag, the mode bits, the two messages. *)
Definition mmw_mode (tag : string) (mode : Z) (msg_mode msg_base : string) : prog W unit :=
  let written := Z.lor handler_base mode in
  write_mtvec written ;;
  rb <- read_mtvec ;;
  uputs tag ;; uart_put_hex written ;;
  uputs " readback=" ;; uart_put_hex rb ;; uputs "\n" ;;
  digest64 written ;; digest64 rb ;;
  wcheck (Z.land rb 3 <=? 1) msg_mode ;;
  wcheck (Z.land rb BASE_MASK =? handler_base) msg_base.

Definition mmw_phase2 : prog W unit :=
  mmw_mode "phase2 vectored: written=" 1 "phase 2: vectored MODE read back reserved" "phase 2: vectored BASE changed" ;;
  mmw_mode "phase2 direct: written=" 0 "phase 2: direct MODE read back reserved" "phase 2: direct BASE changed".

Definition mmw_phase3 (boot_mtvec boot_mstatus : Z) : prog W unit :=
  write_mtvec boot_mtvec ;;
  rest_rb <- read_mtvec ;;
  mstatus <- read_mstatus ;;
  uputs "restored: mtvec=" ;; uart_put_hex rest_rb ;;
  uputs " mstatus=" ;; uart_put_hex mstatus ;; uputs "\n" ;;
  digest64 rest_rb ;; digest64 mstatus ;;
  wcheck (rest_rb =? boot_mtvec) "mtvec did not restore to the boot value" ;;
  wcheck (mstatus =? boot_mstatus) "mstatus changed during run".

(** Trap count, counters, digest and verdict are those of mwr_main.c. *)
Definition mmw_tail : prog W unit := mwr_tail.

Definition mmw_body : prog W unit :=
  uputs "mtvec-mode-war: mtvec MODE WARL write/readback probe\n" ;;
  boot <- mmw_baseline ;;
  mtvec <- mmw_install ;;
  mmw_phase1 mtvec ;;
  mmw_phase2 ;;
  mmw_phase3 boot.1 boot.2 ;;
  mmw_tail.
Definition mmw_main : prog W unit := uart_init ;; mmw_body.
End Program.

(** ** The run *)

Section Runs.
Context {U H : Type} `{!UartDev U, !UartSpec U, !HartDev H, !WarlSpec H} (trap_entry save_addr : Z).
Abbreviation names := ["mtvec"; "mscratch"; "mstatus"]%string.
Abbreviation vr := (vruns (U:=U) (H:=H) (G:=pglob) (lcv names)).
Abbreviation sv := (replicate 5 0).
Abbreviation hb := (handler_base trap_entry).
Abbreviation lg := (legal "mtvec").

(** mtvec after each write, from the boot value [t]. *)
Definition tv_set (t : Z) : Z := lg t hb.
Definition tv_ones (t : Z) : Z := lg (tv_set t) ALL_ONES.
Definition tv_base (t : Z) : Z := lg (tv_ones t) ONES_BASE.
Definition tv_vec (t : Z) : Z := lg (tv_base t) (Z.lor hb 1).
Definition tv_dir (t : Z) : Z := lg (tv_vec t) (Z.lor hb 0).
Definition tv_rest (t : Z) : Z := lg (tv_dir t) t.


Hypothesis Hte : is_u64 trap_entry.
Lemma hb_u64 : is_u64 hb.
Proof. apply land_u64; [exact Hte|apply u64_range]. Qed.
Lemma mode_u64 m : is_u64 m -> is_u64 (Z.lor hb m).
Proof. intros Hm. apply lor_u64; [apply hb_u64|exact Hm]. Qed.
Lemma tv_u64 o x : is_u64 (lg o x).
Proof. apply legal_u64. Qed.
Hint Resolve hb_u64 mode_u64 tv_u64 : word.

Definition mode_text (tag : string) (mode o : Z) (msg_mode msg_base : string) : list Z :=
  lit tag ++ fmt_hex (Z.lor hb mode) ++ lit " readback=" ++ fmt_hex (lg o (Z.lor hb mode)) ++ lit "\n" ++
  chk (Z.land (lg o (Z.lor hb mode)) 3 <=? 1) msg_mode ++ chk (Z.land (lg o (Z.lor hb mode)) BASE_MASK =? hb) msg_base.
Definition mode_checks (mode o : Z) : list bool :=
  [Z.land (lg o (Z.lor hb mode)) 3 <=? 1; Z.land (lg o (Z.lor hb mode)) BASE_MASK =? hb].

Lemma mmw_baseline_runs t s m d bs n c : is_u64 t -> is_u64 m ->
  vr mmw_baseline (LV [t; s; m] d) (ws sv bs n c) (t, m)
    (chk (mie_clear m) "mstatus.MIE set at boot" ++ lit "boot: mtvec=" ++ fmt_hex t ++ lit " mstatus=" ++ fmt_hex m ++ lit "\n")
    (LV [t; s; m] d) (ws sv (bs ++ [mie_clear m]) (n + 1) (fold_left fnv_word [t; m] c)).
Proof. intros Ht Hm. unfold mmw_baseline, read_mtvec, mie_clear. cbn [fold_left]. lblock. Qed.

Lemma mmw_install_runs t s m d bs n c :
  vr (mmw_install trap_entry save_addr) (LV [t; s; m] d) (ws sv bs n c) (tv_set t)
    (lit "trap: mtvec=" ++ fmt_hex (tv_set t) ++ lit "\n" ++ chk (tv_set t =? hb) "mtvec did not take the handler address")
    (LV [tv_set t; legal "mscratch" s save_addr; m] d) (ws sv (bs ++ [tv_set t =? hb]) (n + 1) (fold_left fnv_word [tv_set t] c)).
Proof. unfold mmw_install, tv_set. cbn [fold_left]. lblock. Qed.

Lemma mmw_phase1_runs t s m d bs n c :
  vr (mmw_phase1 (tv_set t)) (LV [tv_set t; s; m] d) (ws sv bs n c) tt
    (lit "phase1 ones: mtvec=" ++ fmt_hex (tv_ones t) ++ lit "\n" ++
     chk (tv_ones t =? tv_set t) "phase 1: reserved-MODE write was not fully ignored" ++
     lit "phase1 ones-base: mtvec=" ++ fmt_hex (tv_base t) ++ lit "\n" ++
     chk (tv_base t =? ONES_BASE) "phase 1: all-ones BASE with MODE=0 did not stick")
    (LV [tv_base t; s; m] d)
    (ws sv (bs ++ [tv_ones t =? tv_set t; tv_base t =? ONES_BASE]) (n + 1 + 1) (fold_left fnv_word [ALL_ONES; tv_ones t; ONES_BASE; tv_base t] c)).
Proof. unfold mmw_phase1, read_mtvec, write_mtvec, tv_base, tv_ones. cbn [fold_left]. lblock. Qed.

Lemma mmw_mode_runs tag mode m1 m2 o s m d bs n c : no_nul (c_lit tag) = true -> no_nul (c_lit m1) = true -> no_nul (c_lit m2) = true ->
  is_u64 mode ->
  vr (mmw_mode trap_entry tag mode m1 m2) (LV [o; s; m] d) (ws sv bs n c) tt (mode_text tag mode o m1 m2)
    (LV [lg o (Z.lor hb mode); s; m] d)
    (ws sv (bs ++ mode_checks mode o) (n + 1 + 1) (fold_left fnv_word [Z.lor hb mode; lg o (Z.lor hb mode)] c)).
Proof.
  intros H0 H1 H2 Hm. unfold mmw_mode, read_mtvec, write_mtvec, mode_text, mode_checks. cbn [fold_left]. cbv zeta. eapply vruns_conv.
  - do 2 lstep. eapply vruns_bind; [apply vruns_prints, prints_lit, H0|].
    eapply vruns_bind; [apply vruns_prints, prints_hex, mode_u64, Hm|]. do 5 lstep.
    eapply vruns_bind; [apply wcheck_counts, H1|]. apply wcheck_counts, H2.
  - reflexivity.
  - reflexivity.
  - reflexivity.
  - now rewrite <-app_assoc.
Qed.

Lemma mmw_phase3_runs t o s m d bs n c : is_u64 t -> is_u64 m ->
  vr (mmw_phase3 t m) (LV [o; s; m] d) (ws sv bs n c) tt
    (lit "restored: mtvec=" ++ fmt_hex (lg o t) ++ lit " mstatus=" ++ fmt_hex m ++ lit "\n" ++
     chk (lg o t =? t) "mtvec did not restore to the boot value" ++ chk (m =? m) "mstatus changed during run")
    (LV [lg o t; s; m] d) (ws sv (bs ++ [lg o t =? t; m =? m]) (n + 1 + 1) (fold_left fnv_word [lg o t; m] c)).
Proof. intros Ht Hm. unfold mmw_phase3, read_mtvec, write_mtvec. cbn [fold_left]. lblock. Qed.

Definition mmw_checks (t m : Z) : list bool :=
  [mie_clear m; tv_set t =? hb; tv_ones t =? tv_set t; tv_base t =? ONES_BASE] ++
  mode_checks 1 (tv_base t) ++ mode_checks 0 (tv_vec t) ++ [tv_rest t =? t; m =? m].
Definition mmw_fed (t m : Z) : list Z :=
  [t; m; tv_set t; ALL_ONES; tv_ones t; ONES_BASE; tv_base t; Z.lor hb 1; tv_vec t; Z.lor hb 0; tv_dir t; tv_rest t; m; 0].
Definition mmw_log (t m : Z) : list Z :=
  lit "mtvec-mode-war: mtvec MODE WARL write/readback probe\n" ++ chk (mie_clear m) "mstatus.MIE set at boot" ++
  lit "boot: mtvec=" ++ fmt_hex t ++ lit " mstatus=" ++ fmt_hex m ++ lit "\ntrap: mtvec=" ++ fmt_hex (tv_set t) ++ lit "\n" ++
  chk (tv_set t =? hb) "mtvec did not take the handler address" ++
  lit "phase1 ones: mtvec=" ++ fmt_hex (tv_ones t) ++ lit "\n" ++
  chk (tv_ones t =? tv_set t) "phase 1: reserved-MODE write was not fully ignored" ++
  lit "phase1 ones-base: mtvec=" ++ fmt_hex (tv_base t) ++ lit "\n" ++
  chk (tv_base t =? ONES_BASE) "phase 1: all-ones BASE with MODE=0 did not stick" ++
  mode_text "phase2 vectored: written=" 1 (tv_base t) "phase 2: vectored MODE read back reserved" "phase 2: vectored BASE changed" ++
  mode_text "phase2 direct: written=" 0 (tv_vec t) "phase 2: direct MODE read back reserved" "phase 2: direct BASE changed" ++
  lit "restored: mtvec=" ++ fmt_hex (tv_rest t) ++ lit " mstatus=" ++ fmt_hex m ++ lit "\n" ++
  chk (tv_rest t =? t) "mtvec did not restore to the boot value" ++
  lit "traps: count=0\nchecks: 10 mismatches: " ++ fmt_dec (nfalse (mmw_checks t m)) ++
  lit "\ndigest: " ++ fmt_hex (fold_left fnv_word (mmw_fed t m) 14695981039346656037) ++ lit "\n" ++
  (if forallb id (mmw_checks t m) then lit "RESULT: PASS\n" else lit "RESULT: FAIL\n").

Lemma mmw_main_sends t s m d : is_u64 t -> is_u64 m ->
  vmain_sends (U:=U) (lcv names) (mmw_main trap_entry save_addr) (LV [t; s; m] d) mmw_boot_glob (mmw_log t m)
    (fun v gl => lv_test v = (if forallb id (mmw_checks t m) then FINISHER_PASS else d) /\
       look names "mtvec" (lv v) = Some (tv_rest t) /\ fails gl = nfalse (mmw_checks t m)).
Proof.
  intros Ht Hm. apply vmain_sends_intro.
  - eexists _, _, (ws _ (mmw_checks t m) _ _). split; [|split].
    + unfold mmw_body. change mmw_boot_glob with (ws sv [] 0 14695981039346656037). lstep.
      eapply vhalts_bind; [now apply mmw_baseline_runs|]. cbn beta. eapply vhalts_bind; [apply mmw_install_runs|]. cbn beta.
      eapply vhalts_bind; [apply mmw_phase1_runs|]. eapply vhalts_bind.
      { unfold mmw_phase2. eapply vruns_bind; [apply mmw_mode_runs; [reflexivity..|u64c]|]. apply mmw_mode_runs; [reflexivity..|u64c]. }
      cbn [fst snd]. eapply vhalts_bind; [now apply mmw_phase3_runs|]. fold (tv_vec t) (tv_dir t) (tv_rest t).
      match goal with |- vhalts _ _ _ (ws _ ?bs _ _) _ _ _ => replace bs with (mmw_checks t m) by (unfold mmw_checks; cbn [app]; now rewrite <-!app_assoc) end.
      apply mwr_tail_halts; [lia|cbn; lia].
    + unfold mmw_log, mmw_fed. fold (tv_vec t) (tv_dir t) (tv_rest t). cbn [fold_left]. rewrite Z.eqb_refl. cbn [chk].
      generalize (fmt_dec (nfalse (mmw_checks t m))). intros. unfold mode_text. text_eq.
    + split_and!; reflexivity.
  - unfold mmw_log, mode_text. warl_bytes.
Qed.
End Runs.

(** ** The verdict *)

Section Verdict.
Context {U H : Type} `{!UartDev U, !UartSpec U, !HartDev H, !WarlSpec H} (trap_entry save_addr : Z).
Hypothesis Hte : is_u64 trap_entry.
(** Direct and vectored mode are provided, with any base. *)
Hypothesis Hmode : forall o x, is_u64 x -> Z.land x 3 <= 1 -> legal "mtvec" o x = x.
Abbreviation hb := (handler_base trap_entry).

Lemma hb_mode : Z.land hb 3 = 0.
Proof.
  unfold handler_base. rewrite <-Z.land_assoc. change (Z.land BASE_MASK 3) with 0. apply Z.land_0_r.
Qed.
Lemma hb_masked m : Z.land m BASE_MASK = 0 -> Z.land (Z.lor hb m) BASE_MASK = hb.
Proof.
  intros Hm. rewrite Z.land_lor_distr_l, Hm, Z.lor_0_r. unfold handler_base. rewrite <-Z.land_assoc.
  now change (Z.land BASE_MASK BASE_MASK) with BASE_MASK.
Qed.
Lemma mode_bits m : Z.land m 3 = m -> Z.land (Z.lor hb m) 3 = m.
Proof. intros Hm. now rewrite Z.land_lor_distr_l, hb_mode, Z.lor_0_l. Qed.

Lemma mode_checks_ok m o : is_u64 m -> m <= 1 -> Z.land m 3 = m -> Z.land m BASE_MASK = 0 ->
  legal "mtvec" o (Z.lor hb m) = Z.lor hb m /\ mode_checks trap_entry m o = [true; true].
Proof.
  intros Hu Hm H3 Hb. assert (legal "mtvec" o (Z.lor hb m) = Z.lor hb m) as E.
  { apply Hmode; [now apply mode_u64|]. rewrite mode_bits by exact H3. exact Hm. }
  split; [exact E|]. unfold mode_checks. rewrite E, mode_bits, hb_masked, Z.eqb_refl by assumption.
  destruct (Z.leb_spec m 1); [reflexivity|lia].
Qed.

Lemma mmw_checks_eq t m : is_u64 t -> Z.land t 3 <= 1 ->
  forallb id (mmw_checks trap_entry t m) = mie_clear m && (legal "mtvec" hb ALL_ONES =? hb) /\ tv_rest trap_entry t = t.
Proof.
  intros Ht Htm. assert (tv_set trap_entry t = hb) as E1.
  { apply Hmode; [now apply hb_u64|]. rewrite hb_mode. lia. }
  assert (tv_base trap_entry t = ONES_BASE) as E2 by (apply Hmode; [u64c|vm_compute; discriminate]).
  assert (tv_rest trap_entry t = t) as E3 by now apply Hmode.
  split; [|exact E3]. unfold mmw_checks.
  destruct (mode_checks_ok 1 (tv_base trap_entry t)) as [_ ->]; [u64c|lia|reflexivity..|].
  destruct (mode_checks_ok 0 (tv_vec trap_entry t)) as [_ ->]; [u64c|lia|reflexivity..|].
  unfold tv_ones. rewrite E1, E2, E3, !Z.eqb_refl. cbn [app forallb id]. now rewrite !andb_true_r.
Qed.

End Verdict.

(** ** The theorem at work *)

(** The emulator drops a write with a reserved MODE; another hart makes it
    direct. *)
Definition tvec_drop (c : string) (o x : Z) : Z := if String.eqb c "mtvec" && (1 <? Z.land x 3) then o else x.
Definition tvec_clear (c : string) (o x : Z) : Z := if String.eqb c "mtvec" && (1 <? Z.land x 3) then Z.land x BASE_MASK else x.

