(* ===== verification/Isa.v ===== *)
(** * Instruction experiments

    The programs that show what one RV64 instruction does: src/andi-mask12/,
    src/sltiu-zero-test/, src/addiw-sextw/, src/auipc-pcread/,
    src/load-sign-ext/, src/blt-bltu-addr/ and src/jalr-clears-bit0/.  Their
    inline assembly is run by a small interpreter of instructions with labels;
    the registers the compiler picks for the operands, the encoded sizes of
    the instructions and the addresses of the blocks are parameters.  Of the
    machine, C sees the memory and the values of the output operands. *)

From Stdlib Require Import ZArith Lia String.
From stdpp Require Import base list.
From S2P Require Import Prelude Uart Hart Run View Pmp Warl.

(** ** Instructions *)

Record core : Type := Core { pc : Z; reg : Z -> Z; mem : Z -> Z }.

Definition rget (s : core) (r : Z) : Z := if r =? 0 then 0 else reg s r.
Definition rset (r v : Z) (s : core) : core := if r =? 0 then s else Core (pc s) (upd (reg s) r v) (mem s).
Definition jump (a : Z) (s : core) : core := Core a (reg s) (mem s).

(** A label is the index of the instruction it stands before. *)
Inductive ins : Type :=
| Li (rd imm : Z) | La (rd : Z) (l : nat)
| Addi (rd rs imm : Z) | Addiw (rd rs imm : Z) | Andi (rd rs imm : Z) | And_ (rd rs1 rs2 : Z)
| Slli (rd rs n : Z) | Srli (rd rs n : Z) | Sltiu (rd rs imm : Z)
| Add (rd rs1 rs2 : Z) | Mv (rd rs : Z) | Auipc (rd imm : Z)
| Lw (rd off base : Z) | Lwu (rd off base : Z) | Ld (rd off base : Z) | Sw (rs off base : Z) | Sd (rs off base : Z)
| Blt (rs1 rs2 : Z) (l : nat) | Bltu (rs1 rs2 : Z) (l : nat) | J (l : nat)
| Jalr (rd off rs : Z).

(** [Wrote a]: the block stored into itself at [a]; what runs afterwards
    depends on the instruction cache. *)
Inductive res : Type := Go (s : core) | Done (s : core) | Wrote (a : Z) | Fault | Long.

Definition s64 (x : Z) : Z := if x <? 2 ^ 63 then x else x - 2 ^ 64.
Definition b2z (b : bool) : Z := if b then 1 else 0.

(** Where the instructions of a list lie, by the size of each. *)
Section Layout.
Context {I : Type} (sz : I -> Z) (base : Z).

Fixpoint offset (code : list I) (k : nat) : Z :=
  match code, k with
  | i :: code, S k => sz i + offset code k
  | _, _ => 0
  end.
Definition addr (code : list I) (k : nat) : Z := base + offset code k.

Fixpoint fetch (a : Z) (code : list I) (p : Z) : option I :=
  match code with
  | [] => None
  | i :: code => if p =? a then Some i else fetch (a + sz i) code p
  end.
End Layout.

Section Exec.
(** The addresses of the labels; the words that hold code. *)
Context (lab : nat -> Z) (is_code : Z -> Z -> bool).

(** The value an instruction computes for its target register. *)
Definition alu (i : ins) (s : core) : option (Z * Z) :=
  match i with
  | Li rd imm => Some (rd, u64 imm)
  | La rd l => Some (rd, lab l)
  | Addi rd rs imm => Some (rd, u64 (rget s rs + imm))
  | Addiw rd rs imm => Some (rd, sext32 (u32 (rget s rs + imm)))
  | Andi rd rs imm => Some (rd, Z.land (rget s rs) (u64 imm))
  | And_ rd rs1 rs2 => Some (rd, Z.land (rget s rs1) (rget s rs2))
  | Slli rd rs n => Some (rd, u64 (Z.shiftl (rget s rs) n))
  | Srli rd rs n => Some (rd, Z.shiftr (rget s rs) n)
  | Sltiu rd rs imm => Some (rd, b2z (rget s rs <? u64 imm))
  | Add rd rs1 rs2 => Some (rd, u64 (rget s rs1 + rget s rs2))
  | Mv rd rs => Some (rd, rget s rs)
  | Auipc rd imm => Some (rd, u64 (pc s + sext32 (u32 (Z.shiftl imm 12))))
  | _ => None
  end.

Definition mem_addr (i : ins) (s : core) : Z :=
  match i with
  | Lw _ off b | Lwu _ off b | Ld _ off b | Sw _ off b | Sd _ off b => u64 (rget s b + off)
  | _ => 0
  end.

(** A store of [n] bytes. *)
Definition store (n : nat) (a v next : Z) (s : core) : res :=
  if is_code a (Z.of_nat n) then Wrote a
  else if a mod Z.of_nat n =? 0 then Go (Core next (reg s) (st_bytes n a v (mem s))) else Fault.

(** An instruction of [n] bytes. *)
Definition exec1 (n : Z) (i : ins) (s : core) : res :=
  let next := pc s + n in
  let a := mem_addr i s in
  match i with
  | Lw rd _ _ => if a mod 4 =? 0 then Go (jump next (rset rd (sext32 (ld_bytes 4 a (mem s))) s)) else Fault
  | Lwu rd _ _ => if a mod 4 =? 0 then Go (jump next (rset rd (ld_bytes 4 a (mem s)) s)) else Fault
  | Ld rd _ _ => if a mod 8 =? 0 then Go (jump next (rset rd (ld_bytes 8 a (mem s)) s)) else Fault
  | Sw rs _ _ => store 4 a (u32 (rget s rs)) next s
  | Sd rs _ _ => store 8 a (rget s rs) next s
  | Blt rs1 rs2 l => Go (jump (if s64 (rget s rs1) <? s64 (rget s rs2) then lab l else next) s)
  | Bltu rs1 rs2 l => Go (jump (if rget s rs1 <? rget s rs2 then lab l else next) s)
  | J l => Go (jump (lab l) s)
  | Jalr rd off rs => Go (jump (Z.land (u64 (rget s rs + off)) (u64 (Z.lnot 1))) (rset rd next s))
  | _ => match alu i s with Some (rd, v) => Go (jump next (rset rd v s)) | None => Fault end
  end.
End Exec.

Section Block.
(** The size of each encoded instruction, the address of the block. *)
Context (sz : ins -> Z) (base : Z).

(** [n] bytes at [a] reach into the block. *)
Definition in_block (code : list ins) (a n : Z) : bool := (base <? a + n) && (a <? addr sz base code (length code)).

(** Until control leaves the block at its end. *)
Fixpoint run (fuel : nat) (code : list ins) (s : core) : res :=
  match fuel with
  | O => Long
  | S fuel =>
      if pc s =? addr sz base code (length code) then Done s
      else match fetch sz base code (pc s) with
           | None => Fault
           | Some i =>
               match exec1 (addr sz base code) (in_block code) (sz i) i s with Go s' => run fuel code s' | r => r end
           end
  end.

Definition asm_fuel : nat := 16.

(** [asm volatile]: the operands are loaded, the block runs, the outputs are
    read. *)
Definition load_ops (ops : list (Z * Z)) (s : core) : core := fold_left (fun s op => rset op.1 op.2 s) ops s.

Definition asm {U G} (code : list ins) (ops : list (Z * Z)) (outs : list Z) : prog (world U core G) (list Z) :=
  fun w => match run asm_fuel code (jump base (load_ops ops (w_hw w))) with
           | Done s => Ret (map (rget s) outs) (World (w_uart w) s (w_glob w))
           | Long => NoFuel
           | _ => Undef
           end.
End Block.

(** ** The programs *)

Definition t0 : Z := 5.
Definition t1 : Z := 6.
Definition t2 : Z := 7.

(** How the assembler splits the distance [d] to a symbol. *)
Definition pcrel_hi (d : Z) : Z := Z.shiftr (d + 0x800) 12.
Definition pcrel_lo (d : Z) : Z := d - Z.shiftl (pcrel_hi d) 12.

(** bba_compare.c, on [long] and on [unsigned long]. *)
Definition below_signed (a b : Z) : Z := if a <? b then 1 else 0.
Definition below_unsigned (a b : Z) : Z := if a <? b then 1 else 0.

Section Program.
Context {U G : Type} `{!UartDev U}.
Abbreviation W := (world U core G).
Context (sz : ins -> Z) (base : Z).
(** The registers of the operands %0, %1, %2. *)
Context (op0 op1 op2 : Z).

(** A block at [b] with one output. *)
Definition asm_out (b : Z) (code : list ins) (ops : list (Z * Z)) : prog W Z :=
  l <- asm sz b code ops [op0] ;; ret (nth 0 l 0).

(** andi_main.c *)
Definition andi2047 (v : Z) : prog W Z := asm_out base [Andi op0 op1 2047] [(op1, v)].
Definition maskfff (v : Z) : prog W Z := asm_out base [Slli op0 op1 52; Srli op0 op0 52] [(op1, v)].
Definition andfff (v : Z) : prog W Z := asm_out base [Li t0 4095; And_ op0 op1 t0] [(op1, v)].

Definition andi_vals : list Z := [0x12345abc; 0xfff; 0x1000; 0xffff].
Definition andi_line (v : Z) : prog W unit :=
  uputs "v=" ;; uart_put_hex v ;;
  uputs " andi2047=" ;; r <- andi2047 v ;; uart_put_hex r ;;
  uputs " shiftfff=" ;; r <- maskfff v ;; uart_put_hex r ;;
  uputs " andfff=" ;; r <- andfff v ;; uart_put_hex r ;; uputs "\n".
Definition andi_body : prog W unit := for_each andi_vals andi_line ;; uputs "done\n" ;; park.
Definition andi_main : prog W unit := uart_init ;; andi_body.

(** sltiu_main.c *)
Definition zero_test (v : Z) : prog W Z := asm_out base [Sltiu op0 op1 1] [(op1, v)].
Definition sltiu_vals : list Z := [0; 1; 2; 5; 0xffffffffffffffff].
Definition sltiu_line (v : Z) : prog W unit :=
  uputs "sltiu(v, 1) v=" ;; uart_put_hex v ;;
  uputs " -> " ;; r <- zero_test v ;; uart_put_dec r ;; uputs "\n".
Definition sltiu_body : prog W unit := for_each sltiu_vals sltiu_line ;; uputs "done\n" ;; park.
Definition sltiu_main : prog W unit := uart_init ;; sltiu_body.

(** addiw_main.c *)
Definition addiw_zero (v : Z) : prog W Z := asm_out base [Addiw op0 op1 0] [(op1, v)].
Definition addi_zero (v : Z) : prog W Z := asm_out base [Addi op0 op1 0] [(op1, v)].
Definition addiw_vals : list Z :=
  [0x0000000080000001; 0x000000007fffffff; 0x0000000180000001; 0xffffffff80000001; 0x00000000ffffffff].
Definition addiw_line (v : Z) : prog W unit :=
  uputs "sextw in=" ;; uart_put_hex v ;;
  uputs " addiw=" ;; r <- addiw_zero v ;; uart_put_hex r ;;
  uputs " addi=" ;; r <- addi_zero v ;; uart_put_hex r ;; uputs "\n".
Definition addiw_body : prog W unit := for_each addiw_vals addiw_line ;; uputs "done\n" ;; park.
Definition addiw_main : prog W unit := uart_init ;; addiw_body.

(** auipc_main.c: the blocks are at [base], [base1] and [base2]. *)
Definition auipc_body (base1 base2 marker : Z) : prog W unit :=
  pc0 <- asm_out base [Auipc op0 0] [] ;;
  uputs "auipc rd,0      -> " ;; uart_put_hex pc0 ;;
  uputs "  (expect the auipc's own address from objdump)\n" ;;
  pc1 <- asm_out base1 [Auipc op0 0x12345] [] ;;
  uputs "auipc rd,0x12345 -> " ;; uart_put_hex pc1 ;;
  uputs "  (expect pc + 0x12345000)\n" ;;
  val <- asm_out base2 [Auipc t0 (pcrel_hi (marker - base2)); Ld op0 (pcrel_lo (marker - base2)) t0] [] ;;
  uputs "pc-relative ld  -> " ;; uart_put_hex val ;;
  uputs "  (expect 0x123456789abcdef0)\n" ;;
  uputs "done\n" ;;
  park.
Definition auipc_main (base1 base2 marker : Z) : prog W unit := uart_init ;; auipc_body base1 base2 marker.

(** A failed comparison of the programs that count. *)
Definition mismatch (bad : bool) (msg : string) (mismatches : Z) : prog W Z :=
  if bad then uputs msg ;; ret (mismatches + 1) else ret mismatches.
Definition isa_tail (mismatches : Z) : prog W Z :=
  uputs "mismatches: " ;; uart_put_dec (u64 mismatches) ;; uputs "\n" ;;
  uputs (if mismatches =? 0 then "PASS\n" else "FAIL\n") ;;
  ret 0.

(** lse_main.c: a 32-bit operand leaves the upper half [hi] of its register
    open. *)
Definition pat : Z := 0x80000001.
Definition lse_checks (r_lw r_lwu : Z) : prog W Z :=
  n <- mismatch (negb (r_lw =? 0xffffffff80000001)) "FAIL: lw result\n" 0 ;;
  n <- mismatch (negb (r_lwu =? 0x0000000080000001)) "FAIL: lwu result\n" n ;;
  n <- mismatch (r_lw =? pat) "FAIL: lw == pattern unexpectedly true\n" n ;;
  mismatch (negb (r_lwu =? pat)) "FAIL: lwu == pattern unexpectedly false\n" n.
Definition lse_body (scratch hi : Z) : prog W Z :=
  uputs "pattern: " ;; uart_put_hex pat ;; uputs "\n" ;;
  asm sz base [Sw op0 0 op1] [(op0, pat + 2 ^ 32 * hi); (op1, scratch)] [] ;;
  r_lw <- asm_out base [Lw op0 0 op1] [(op1, scratch)] ;;
  r_lwu <- asm_out base [Lwu op0 0 op1] [(op1, scratch)] ;;
  uputs "lw  -> " ;; uart_put_hex r_lw ;; uputs "\n" ;;
  uputs "lwu -> " ;; uart_put_hex r_lwu ;; uputs "\n" ;;
  n <- lse_checks r_lw r_lwu ;;
  isa_tail n.
Definition lse_main (scratch hi : Z) : prog W Z := uart_init ;; lse_body scratch hi.

(** bba_main.c *)
Definition blt_taken (a b : Z) : prog W Z :=
  asm_out base [Blt op1 op2 3; Li op0 0; J 4; Li op0 1] [(op1, a); (op2, b)].
Definition bltu_taken (a b : Z) : prog W Z :=
  asm_out base [Bltu op1 op2 3; Li op0 0; J 4; Li op0 1] [(op1, a); (op2, b)].

Definition bba_check (name : string) (got want mismatches : Z) : prog W Z :=
  uputs name ;; uputs ": got " ;; uart_put_dec (u64 got) ;;
  uputs ", want " ;; uart_put_dec (u64 want) ;;
  if negb (got =? want) then uputs "  FAIL\n" ;; ret (mismatches + 1)
  else uputs "  ok\n" ;; ret mismatches.

Definition bba_body : prog W Z :=
  let hi := 0x8000000000000000 in
  let lo := 0x0000000000001000 in
  let kern := 0xFFFFFFFFFFFFF000 in
  uputs "hi = " ;; uart_put_hex hi ;; uputs "\nlo = " ;; uart_put_hex lo ;;
  uputs "\nkern = " ;; uart_put_hex kern ;; uputs "\n" ;;
  r <- blt_taken hi lo ;; n <- bba_check "blt (hi, lo) " r 1 0 ;;
  r <- blt_taken lo hi ;; n <- bba_check "blt (lo, hi) " r 0 n ;;
  r <- bltu_taken hi lo ;; n <- bba_check "bltu(hi, lo) " r 0 n ;;
  r <- bltu_taken lo hi ;; n <- bba_check "bltu(lo, hi) " r 1 n ;;
  r <- blt_taken kern lo ;; n <- bba_check "blt (kern, lo)" r 1 n ;;
  r <- bltu_taken kern lo ;; n <- bba_check "bltu(kern, lo)" r 0 n ;;
  isa_tail n.
Definition bba_main : prog W Z := uart_init ;; bba_body.

(** jalr_main.c: label 1 is the fourth instruction after the first, label 2
    the end. *)
Definition jalr_code : list ins :=
  [La op0 4; Addi op1 op0 1; Jalr t2 0 op1; J 7; Li t1 1; Sw t1 0 op2; Jalr 0 0 t2].

(** [landed] is read through its address. *)
Definition ld_int (a : Z) : prog W Z := hw_read (fun h => (sext32 (ld_bytes 4 a (mem h)), h)).

Definition jalr_checks (target odd landed : Z) : prog W Z :=
  n <- mismatch (negb (Z.land odd 1 =? 1)) "FAIL: odd address is even\n" 0 ;;
  n <- mismatch (negb (Z.land odd (u64 (Z.lnot 1)) =? target)) "FAIL: cleared odd != target\n" n ;;
  n <- mismatch (negb (Z.land target 1 =? 0)) "FAIL: target is odd\n" n ;;
  l <- ld_int landed ;;
  mismatch (negb (l =? 1)) "FAIL: target block did not run\n" n.

Definition jalr_body (landed : Z) : prog W Z :=
  outs <- asm sz base jalr_code [(op2, landed)] [op0; op1] ;;
  let target := nth 0 outs 0 in
  let odd := nth 1 outs 0 in
  uputs "target: " ;; uart_put_hex target ;; uputs "\n" ;;
  uputs "odd:    " ;; uart_put_hex odd ;; uputs "\n" ;;
  uputs "landed: " ;; l <- ld_int landed ;; uart_put_dec l ;; uputs "\n" ;;
  n <- jalr_checks target odd landed ;;
  isa_tail n.
Definition jalr_main (landed : Z) : prog W Z := uart_init ;; jalr_body landed.
End Program.

(** ** Running a block *)

Lemma rget_jump a s r : rget (jump a s) r = rget s r.
Proof. reflexivity. Qed.
Lemma rget_rset_eq r v s : r <> 0 -> rget (rset r v s) r = v.
Proof. intros Hr. unfold rget, rset. rewrite (proj2 (Z.eqb_neq r 0) Hr). cbn. unfold upd. now rewrite Z.eqb_refl. Qed.
Lemma rget_rset_ne r r' v s : r' <> r -> rget (rset r v s) r' = rget s r'.
Proof.
  intros Hr. unfold rget, rset. destruct (r =? 0); [reflexivity|]. cbn. unfold upd. now rewrite (proj2 (Z.eqb_neq r' r) Hr).
Qed.
Lemma rget_core p s m r : rget (Core p (reg s) m) r = rget s r.
Proof. reflexivity. Qed.
Lemma pc_rset r v s : pc (rset r v s) = pc s.
Proof. unfold rset. now destruct (r =? 0). Qed.
Lemma mem_rset r v s : mem (rset r v s) = mem s.
Proof. unfold rset. now destruct (r =? 0). Qed.
Lemma mem_jump a s : mem (jump a s) = mem s.
Proof. reflexivity. Qed.
Lemma mem_core p f m : mem (Core p f m) = m.
Proof. reflexivity. Qed.

Lemma pc_jump a s : pc (jump a s) = a.
Proof. reflexivity. Qed.
Lemma pc_core p f m : pc (Core p f m) = p.
Proof. reflexivity. Qed.

Create Rewrite HintDb isa.
#[export] Hint Rewrite rget_jump rget_core pc_jump pc_core pc_rset mem_rset mem_jump mem_core : isa.
#[export] Hint Rewrite rget_rset_eq using (assumption || discriminate) : isa.
#[export] Hint Rewrite rget_rset_ne using (assumption || discriminate || congruence) : isa.

Section LayoutLemmas.
Context {I : Type} (sz : I -> Z).
Hypothesis Hsz : forall i, 0 < sz i.

Lemma offset_S code k i : code !! k = Some i -> offset sz code (S k) = offset sz code k + sz i.
Proof.
  revert k. induction code as [|j code IH]; intros [|k] E; cbn in E; try discriminate.
  - injection E as ->. cbn. destruct code; cbn; lia.
  - cbn [offset]. rewrite (IH _ E). cbn. lia.
Qed.

Lemma offset_pos code k : 0 <= offset sz code k.
Proof.
  revert k. induction code as [|j code IH]; intros [|k]; cbn; try lia. pose proof (Hsz j). pose proof (IH k). lia.
Qed.

Lemma offset_end code k : (k < length code)%nat -> offset sz code k < offset sz code (length code).
Proof.
  revert k. induction code as [|j code IH]; intros k Hk; cbn in Hk; [lia|]. cbn [length offset]. pose proof (Hsz j).
  pose proof (offset_pos code (length code)). destruct k as [|k]; [lia|]. pose proof (IH k ltac:(lia)). lia.
Qed.

Lemma fetch_at code k i a : code !! k = Some i -> fetch sz a code (a + offset sz code k) = Some i.
Proof.
  revert k a. induction code as [|j code IH]; intros [|k] a E; cbn in E; try discriminate.
  - injection E as ->. cbn [fetch offset]. now rewrite Z.add_0_r, Z.eqb_refl.
  - cbn [fetch offset]. pose proof (Hsz j). pose proof (offset_pos code k).
    destruct (Z.eqb_spec (a + (sz j + offset sz code k)) a); [lia|].
    replace (a + (sz j + offset sz code k)) with (a + sz j + offset sz code k) by lia. now apply IH.
Qed.

Lemma fetch_inv code a p i : fetch sz a code p = Some i -> exists k, code !! k = Some i /\ p = a + offset sz code k.
Proof using.
  revert a. induction code as [|j c IH]; intros a E; cbn [fetch] in E; [discriminate|]. destruct (Z.eqb_spec p a) as [->|].
  - injection E as ->. exists O. cbn. split; [reflexivity|]. lia.
  - destruct (IH _ E) as (k & Hk & ->). exists (S k). cbn. split; [exact Hk|]. lia.
Qed.

Lemma addr_S base code k i : code !! k = Some i -> addr sz base code k + sz i = addr sz base code (S k).
Proof using. intros E. unfold addr. rewrite (offset_S _ _ _ E). lia. Qed.
End LayoutLemmas.

Lemma store_ok is_code n a v next s : is_code a (Z.of_nat n) = false -> a mod Z.of_nat n = 0 ->
  store is_code n a v next s = Go (Core next (reg s) (st_bytes n a v (mem s))).
Proof. intros Hc Ha. unfold store. now rewrite Hc, Ha. Qed.
Lemma store_code is_code n a v next s : is_code a (Z.of_nat n) = true -> store is_code n a v next s = Wrote a.
Proof. intros Hc. unfold store. now rewrite Hc. Qed.

Section Blocks.
Context (sz : ins -> Z) (base : Z).
Hypothesis Hsz : forall i, 0 < sz i.

Lemma run_step code k i f s : pc s = addr sz base code k -> code !! k = Some i ->
  run sz base (S f) code s =
    match exec1 (addr sz base code) (in_block sz base code) (sz i) i s with Go s' => run sz base f code s' | r => r end.
Proof.
  intros Hp Hi. cbn [run]. rewrite Hp. pose proof (offset_end sz Hsz code k (lookup_lt_Some _ _ _ Hi)).
  destruct (Z.eqb_spec (addr sz base code k) (addr sz base code (length code))) as [E|]; [unfold addr in E; lia|].
  unfold addr at 1. now rewrite (fetch_at sz Hsz _ _ _ _ Hi).
Qed.

Lemma run_end code f s : pc s = addr sz base code (length code) -> run sz base (S f) code s = Done s.
Proof. intros Hp. cbn [run]. now rewrite Hp, Z.eqb_refl. Qed.
End Blocks.

(** Execute the instruction with index [k], or leave the block. *)
Ltac at_pc := autorewrite with isa; cbv [addr jalr_code]; cbn [offset length]; lia.
Ltac rstep Hsz k := erewrite (run_step _ _ Hsz _ k); [|at_pc|reflexivity]; cbn [exec1 alu mem_addr]; autorewrite with isa.
Ltac rend := rewrite run_end by at_pc.
(** A block of one or two instructions that compute a value. *)
Ltac block1 Hsz := eexists; unfold asm_fuel; cbn [load_ops fold_left fst snd]; rstep Hsz 0%nat; rend; split_and!; [reflexivity|cbn [map]; autorewrite with isa; reflexivity|now autorewrite with isa].
Ltac block2 Hsz := eexists; unfold asm_fuel; cbn [load_ops fold_left fst snd]; rstep Hsz 0%nat; rstep Hsz 1%nat; rend; split_and!;
  [reflexivity|cbn [map]; autorewrite with isa; reflexivity|now autorewrite with isa].

Section Rules.
Context {U G : Type} `{!UartDev U, !UartSpec U} (sz : ins -> Z) (base op0 op1 op2 : Z).
Hypothesis Hsz : forall i, 0 < sz i.
(** The compiler gives an operand neither x0 nor a clobbered register. *)
Hypothesis H0 : op0 <> 0.
Hypothesis H1 : op1 <> 0.
Abbreviation vr := (vruns (U:=U) (H:=core) (G:=G) mem).

Lemma asm_runs b code ops outs m g l m' :
  (forall h, mem h = m -> exists s, run sz b asm_fuel code (jump b (load_ops ops h)) = Done s /\
     map (rget s) outs = l /\ mem s = m') ->
  vr (asm sz b code ops outs) m g l [] m' g.
Proof. intros Hr u h Hm. destruct (Hr h Hm) as (s & E & El & Em). exists s. unfold asm. cbn [w_hw w_uart w_glob]. now rewrite E, El. Qed.

Lemma asm_out_runs b code ops m g x m' :
  (forall h, mem h = m -> exists s, run sz b asm_fuel code (jump b (load_ops ops h)) = Done s /\
     map (rget s) [op0] = [x] /\ mem s = m') ->
  vr (asm_out sz op0 b code ops) m g x [] m' g.
Proof.
  intros Hr. unfold asm_out. change x with (nth 0 [x] 0) at 1. eapply vruns_bind0; [apply asm_runs, Hr|]. apply vruns_ret.
Qed.

Lemma andi2047_runs v m g : vr (andi2047 sz base op0 op1 v) m g (v mod 2048) [] m g.
Proof.
  change 2048 with (2 ^ 11). rewrite <-(Z.land_ones v 11) by lia. apply asm_out_runs. intros h <-. block1 Hsz.
Qed.

Lemma shifts_mask v n : 0 <= n <= 64 -> Z.shiftr (u64 (Z.shiftl v n)) n = v mod 2 ^ (64 - n).
Proof.
  intros Hn. unfold u64. rewrite Z.shiftr_div_pow2, Z.shiftl_mul_pow2 by lia.
  replace (2 ^ 64) with (2 ^ (64 - n) * 2 ^ n) by (rewrite <-Z.pow_add_r by lia; f_equal; lia).
  pose proof (Z.pow_pos_nonneg 2 n). rewrite Z.mul_mod_distr_r by (pose proof (Z.pow_pos_nonneg 2 (64 - n)); lia).
  now rewrite Z.div_mul by lia.
Qed.

Lemma maskfff_runs v m g : vr (maskfff sz base op0 op1 v) m g (v mod 4096) [] m g.
Proof.
  change 4096 with (2 ^ (64 - 52)). rewrite <-(shifts_mask v 52) by lia. apply asm_out_runs. intros h <-. block2 Hsz.
Qed.

Lemma andfff_runs v m g : op1 <> t0 -> vr (andfff sz base op0 op1 v) m g (v mod 4096) [] m g.
Proof.
  intros Ht. change 4096 with (2 ^ 12). rewrite <-(Z.land_ones v 12) by lia. apply asm_out_runs. intros h <-. block2 Hsz.
Qed.

Lemma zero_test_runs v m g : is_u64 v -> vr (zero_test sz base op0 op1 v) m g (if v =? 0 then 1 else 0) [] m g.
Proof.
  intros Hv. replace (if v =? 0 then 1 else 0) with (b2z (v <? u64 1)).
  - apply asm_out_runs. intros h <-. block1 Hsz.
  - change (u64 1) with 1. unfold is_u64 in Hv. unfold b2z. destruct (Z.ltb_spec v 1), (Z.eqb_spec v 0); lia || reflexivity.
Qed.

Lemma addiw_zero_runs v m g : vr (addiw_zero sz base op0 op1 v) m g (sext32 (u32 v)) [] m g.
Proof. rewrite <-(Z.add_0_r v) at 2. apply asm_out_runs. intros h <-. block1 Hsz. Qed.

Lemma addi_zero_runs v m g : is_u64 v -> vr (addi_zero sz base op0 op1 v) m g v [] m g.
Proof.
  intros Hv. rewrite <-(u64_small v Hv) at 2. rewrite <-(Z.add_0_r v) at 2. apply asm_out_runs. intros h <-. block1 Hsz.
Qed.

(** A branch over two constants; [c] is its condition. *)
Lemma branch_runs i (c : bool) a b m g : op1 <> op2 -> op2 <> 0 ->
  (forall lab own n s, rget s op1 = a -> rget s op2 = b ->
     exec1 lab own n i s = Go (jump (if c then lab 3%nat else pc s + n) s)) ->
  vr (asm_out sz op0 base [i; Li op0 0; J 4; Li op0 1] [(op1, a); (op2, b)]) m g (b2z c) [] m g.
Proof.
  intros H12 H2 Hi. apply asm_out_runs. intros h <-. unfold asm_fuel. cbn [load_ops fold_left fst snd].
  erewrite (run_step _ _ Hsz _ 0%nat); [|at_pc|reflexivity]. rewrite Hi by (autorewrite with isa; reflexivity). autorewrite with isa.
  destruct c; eexists.
  - rstep Hsz 3%nat. rend. split_and!; [reflexivity|cbn [map]; now autorewrite with isa|now autorewrite with isa].
  - rstep Hsz 1%nat. rstep Hsz 2%nat. rend. split_and!; [reflexivity|cbn [map]; now autorewrite with isa|now autorewrite with isa].
Qed.

Lemma blt_taken_runs a b m g : op1 <> op2 -> op2 <> 0 ->
  vr (blt_taken sz base op0 op1 op2 a b) m g (below_signed (s64 a) (s64 b)) [] m g.
Proof. intros H12 H2. apply (branch_runs _ (s64 a <? s64 b)); [assumption..|]. now intros lab own n s <- <-. Qed.
Lemma bltu_taken_runs a b m g : op1 <> op2 -> op2 <> 0 ->
  vr (bltu_taken sz base op0 op1 op2 a b) m g (below_unsigned a b) [] m g.
Proof. intros H12 H2. apply (branch_runs _ (a <? b)); [assumption..|]. now intros lab own n s <- <-. Qed.

(** The word at [a] is outside the [n] bytes of a block at [b]. *)
Definition clear_of (b n a : Z) : Prop := a + 4 <= b \/ b + n <= a.

Lemma clear_of_check b n a : clear_of b n a -> (b <? a + 4) && (a <? b + n) = false.
Proof. unfold clear_of. intros. destruct (Z.ltb_spec b (a + 4)), (Z.ltb_spec a (b + n)); cbn; lia || reflexivity. Qed.

Lemma sw_runs a x m g : op0 <> op1 -> is_u64 a -> a mod 4 = 0 -> clear_of base (sz (Sw op0 0 op1)) a ->
  vr (asm sz base [Sw op0 0 op1] [(op0, x); (op1, a)] []) m g [] [] (st_bytes 4 a (u32 x) m) g.
Proof.
  intros H01 Ha Hal Hc. apply asm_runs. intros h <-. eexists. unfold asm_fuel. cbn [load_ops fold_left fst snd]. rstep Hsz 0%nat.
  rewrite Z.add_0_r, (u64_small a Ha), store_ok; [|unfold in_block, addr; cbn [length offset]; rewrite Z.add_0_r; now apply clear_of_check|exact Hal].
  rend. split_and!; [reflexivity..|now autorewrite with isa].
Qed.

Lemma lw_runs a m g : is_u64 a -> a mod 4 = 0 ->
  vr (asm_out sz op0 base [Lw op0 0 op1] [(op1, a)]) m g (sext32 (ld_bytes 4 a m)) [] m g.
Proof.
  intros Ha Hal. apply asm_out_runs. intros h <-. eexists. unfold asm_fuel. cbn [load_ops fold_left fst snd]. rstep Hsz 0%nat.
  rewrite Z.add_0_r, (u64_small a Ha), Hal. cbn [Z.eqb]. rend. split_and!; [reflexivity|cbn [map]|]; now autorewrite with isa.
Qed.
Lemma lwu_runs a m g : is_u64 a -> a mod 4 = 0 ->
  vr (asm_out sz op0 base [Lwu op0 0 op1] [(op1, a)]) m g (ld_bytes 4 a m) [] m g.
Proof.
  intros Ha Hal. apply asm_out_runs. intros h <-. eexists. unfold asm_fuel. cbn [load_ops fold_left fst snd]. rstep Hsz 0%nat.
  rewrite Z.add_0_r, (u64_small a Ha), Hal. cbn [Z.eqb]. rend. split_and!; [reflexivity|cbn [map]|]; now autorewrite with isa.
Qed.

Lemma auipc_runs b imm m g :
  vr (asm_out sz op0 b [Auipc op0 imm] []) m g (u64 (b + sext32 (u32 (Z.shiftl imm 12)))) [] m g.
Proof. apply asm_out_runs. intros h <-. block1 Hsz. Qed.

(** The two halves of a distance of less than 2 GiB add up to it. *)
Lemma pcrel_sum p d : - 2 ^ 31 - 0x800 <= d < 2 ^ 31 - 0x800 ->
  u64 (u64 (p + sext32 (u32 (Z.shiftl (pcrel_hi d) 12))) + pcrel_lo d) = u64 (p + d).
Proof.
  intros Hd. unfold pcrel_lo. set (q := Z.shiftl (pcrel_hi d) 12).
  assert (- 2 ^ 31 <= q < 2 ^ 31) as Hq.
  { unfold q, pcrel_hi. rewrite Z.shiftl_mul_pow2, Z.shiftr_div_pow2 by lia.
    pose proof (Z.div_mod (d + 2048) (2 ^ 12)). pose proof (Z.mod_pos_bound (d + 2048) (2 ^ 12)). 
    change 0x800 with 2048 in *. change (2 ^ 12) with 4096 in *. change (2 ^ 31) with 2147483648 in *.
    split; [|lia]. assert (-524288 <= (d + 2048) / 4096); [|lia]. apply Z.div_le_lower_bound; lia. }
  assert (exists k, sext32 (u32 q) = q + 2 ^ 64 * k) as [k ->].
  { unfold sext32, u32. destruct (Z.lt_ge_cases q 0) as [Hneg|Hpos].
    - exists 1. replace (q mod 2 ^ 32) with (q + 2 ^ 32) by (rewrite <-(Z.mod_add q 1), Z.mod_small; lia).
      destruct (Z.ltb_spec (q + 2 ^ 32) (2 ^ 31)); lia.
    - exists 0. rewrite Z.mod_small by lia. destruct (Z.ltb_spec q (2 ^ 31)); lia. }
  unfold u64. rewrite Zplus_mod_idemp_l. replace (p + (q + 2 ^ 64 * k) + (d - q)) with (p + d + k * 2 ^ 64) by lia.
  now rewrite Z.mod_add by lia.
Qed.

Lemma pcrel_ld_runs b a m g : op0 <> t0 -> is_u64 a -> a mod 8 = 0 -> - 2 ^ 31 - 0x800 <= a - b < 2 ^ 31 - 0x800 ->
  vr (asm_out sz op0 b [Auipc t0 (pcrel_hi (a - b)); Ld op0 (pcrel_lo (a - b)) t0] []) m g (ld_bytes 8 a m) [] m g.
Proof.
  intros Ht Ha Hal Hd. apply asm_out_runs. intros h <-. eexists. unfold asm_fuel. cbn [load_ops fold_left fst snd].
  rstep Hsz 0%nat. rstep Hsz 1%nat. rewrite (pcrel_sum b (a - b) Hd). replace (b + (a - b)) with a by lia.
  rewrite (u64_small a Ha), Hal. cbn [Z.eqb]. rend. split_and!; [reflexivity|cbn [map]|]; now autorewrite with isa.
Qed.

Lemma clear_bit0 y : is_u64 y -> Z.land y (u64 (Z.lnot 1)) = 2 * (y / 2).
Proof.
  intros Hy. transitivity (Z.ldiff y (Z.ones 1)).
  - apply Z.bits_inj'. intros i Hi. change (u64 (Z.lnot 1)) with (Z.lxor (Z.ones 64) (Z.ones 1)).
    rewrite Z.land_spec, Z.lxor_spec, Z.ldiff_spec. destruct (Z.lt_ge_cases i 64).
    + rewrite (Z.ones_spec_low 64) by lia. now destruct (Z.testbit (Z.ones 1) i).
    + assert (Z.testbit y i = false) as ->; [|reflexivity]. destruct (Z.eq_dec y 0) as [->|]; [apply Z.bits_0|].
      apply Z.bits_above_log2; [apply Hy|]. apply Z.log2_lt_pow2; [destruct Hy; lia|].
      apply Z.lt_le_trans with (2 ^ 64); [apply Hy|]. apply Z.pow_le_mono_r; lia.
  - rewrite Z.ldiff_ones_r, Z.shiftl_mul_pow2, Z.shiftr_div_pow2 by lia. change (2 ^ 1) with 2. lia.
Qed.

Section Jalr.
Hypothesis Hev : forall i, sz i mod 2 = 0.
Hypothesis Hbase : base mod 2 = 0.
Abbreviation code := (jalr_code op0 op1 op2).
Abbreviation target := (addr sz base code 4).
Hypothesis Hfit : 0 <= base /\ addr sz base code 7 < 2 ^ 64.
Hypothesis Hop : Forall (fun r => r <> 0 /\ r <> t1 /\ r <> t2) [op0; op1; op2].

Lemma ops_free : (op0 <> 0 /\ op0 <> t1 /\ op0 <> t2) /\ (op1 <> 0 /\ op1 <> t1 /\ op1 <> t2) /\ (op2 <> 0 /\ op2 <> t1 /\ op2 <> t2).
Proof. apply Forall_cons_1 in Hop as [A Hr]. apply Forall_cons_1 in Hr as [B Hr]. now apply Forall_cons_1 in Hr as [C _]. Qed.

Lemma offset_fits k : (k < 7)%nat -> offset sz code k < offset sz code 7.
Proof. intros Hk. apply (offset_end sz Hsz code k Hk). Qed.

Lemma addr_even c k : addr sz base c k mod 2 = 0.
Proof using Hev Hbase.
  unfold addr. assert (offset sz c k mod 2 = 0) as E.
  { revert k. induction c as [|i c IH]; intros [|k]; cbn [offset]; try reflexivity. rewrite Z.add_mod, Hev, IH by discriminate. reflexivity. }
  rewrite Z.add_mod, Hbase, E by discriminate. reflexivity.
Qed.

Lemma addr_fits k : (k <= 7)%nat -> is_u64 (addr sz base code k).
Proof.
  intros Hk. unfold is_u64. split.
  - unfold addr. pose proof (offset_pos sz Hsz code k). lia.
  - apply Z.le_lt_trans with (addr sz base code 7); [|apply Hfit]. unfold addr.
    destruct (decide (k = 7)%nat) as [->|]; [lia|]. pose proof (offset_fits k ltac:(lia)). lia.
Qed.

Lemma jalr_target k x : (k <= 7)%nat -> x = addr sz base code k \/ x = addr sz base code k + 1 /\ (k < 7)%nat ->
  Z.land (u64 (x + 0)) (u64 (Z.lnot 1)) = addr sz base code k.
Proof.
  intros Hk Hx. pose proof (addr_fits k Hk) as Hf. pose proof (addr_even code k) as He.
  assert (is_u64 x). { destruct Hx as [->|[-> Hk7]]; [exact Hf|]. pose proof (offset_fits k Hk7). destruct Hfit as [_ Hl].
    unfold is_u64, addr in *. lia. }
  rewrite Z.add_0_r, u64_small, clear_bit0 by assumption. pose proof (Z.div_mod x 2). pose proof (Z.div_mod (addr sz base code k) 2).
  assert (x mod 2 = x - addr sz base code k) as Em; [|lia]. destruct Hx as [->|[-> _]]; [lia|]. rewrite Z.add_mod, He by lia.
  change ((0 + 1 mod 2) mod 2) with 1. lia.
Qed.

(** The block up to the store: %2 is read after %0 and %1 are written. *)
Lemma jalr_run_to_store h f a : exists s,
  run sz base (S (S (S (S f)))) code (jump base (load_ops [(op2, a)] h)) = run sz base f code s /\
  pc s = addr sz base code 5 /\ mem s = mem h /\ rget s t1 = 1 /\ rget s t2 = addr sz base code 3 /\
  (op0 <> op1 -> rget s op0 = target) /\ rget s op1 = target + 1 /\
  rget s op2 = (if op2 =? op1 then target + 1 else if op2 =? op0 then target else a).
Proof.
  destruct (ops_free) as ((_ & Ha1 & Hb1) & (_ & Ha2 & Hb2) & (H2 & Ha3 & Hb3)).
  assert (u64 (target + 1) = target + 1) as Eo.
  { apply u64_small. pose proof (addr_fits 4 ltac:(lia)). pose proof (offset_fits 4 ltac:(lia)).
    destruct Hfit as [_ Hl]. unfold is_u64, addr in *. lia. }
  eexists. cbn [load_ops fold_left fst snd]. rstep Hsz 0%nat. rstep Hsz 1%nat. rewrite Eo. rstep Hsz 2%nat.
  rewrite (jalr_target 4) by (lia || (right; split; [reflexivity|lia])). rstep Hsz 4%nat. split_and!; [reflexivity|..]; autorewrite with isa.
  - unfold addr. cbn. lia.
  - reflexivity.
  - reflexivity.
  - unfold addr. cbn. lia.
  - intros H01. now autorewrite with isa.
  - reflexivity.
  - destruct (Z.eqb_spec op2 op1) as [->|]; [now autorewrite with isa|]. autorewrite with isa.
    destruct (Z.eqb_spec op2 op0) as [->|]; now autorewrite with isa.
Qed.

(** Three different registers: the block lands on the even address. *)
Lemma jalr_runs a m g : NoDup [op0; op1; op2] -> is_u64 a -> a mod 4 = 0 -> clear_of base (offset sz code 7) a ->
  vr (asm sz base code [(op2, a)] [op0; op1]) m g [target; target + 1] [] (st_bytes 4 a 1 m) g.
Proof.
  intros Hnd Ha Hal Hc. apply NoDup_cons in Hnd as [Hn Hnd]. apply NoDup_cons in Hnd as [Hn' _].
  assert (op0 <> op1 /\ op2 <> op0 /\ op2 <> op1) as (H01 & H20 & H21).
  { split_and!; intros ->; [apply Hn; left|apply Hn; right; left|apply Hn'; left]. }
  apply asm_runs. intros h <-. destruct (jalr_run_to_store h 12%nat a) as (s & E & Hp & Hm & E1 & E2 & Eo & E3 & E4).
  change asm_fuel with (S (S (S (S 12)))). rewrite E. rewrite (proj2 (Z.eqb_neq op2 op1) H21), (proj2 (Z.eqb_neq op2 op0) H20) in E4.
  eexists. erewrite (run_step _ _ Hsz _ 5%nat); [|exact Hp|reflexivity]. cbn [exec1 alu mem_addr].
  rewrite E4, Z.add_0_r, (u64_small a Ha), store_ok, E1, Hp; [|now apply clear_of_check|exact Hal]. change (u32 1) with 1.
  erewrite (run_step _ _ Hsz _ 6%nat); [|at_pc|reflexivity]. cbn [exec1 alu mem_addr]. autorewrite with isa. rewrite E2.
  rewrite (jalr_target 3) by (lia || now left). rstep Hsz 3%nat. rend. split_and!; [reflexivity| |].
  - cbn [map]. autorewrite with isa. now rewrite Eo, E3.
  - autorewrite with isa. now rewrite Hm.
Qed.

(** The store when %2 shares a register with an output. *)
Lemma jalr_shared h a : op2 = op0 \/ op2 = op1 ->
  run sz base asm_fuel code (jump base (load_ops [(op2, a)] h)) = Wrote (if op2 =? op1 then target + 1 else target).
Proof.
  intros Hs. destruct (jalr_run_to_store h 12%nat a) as (s & E & Hp & Hm & E1 & E2 & Eo & E3 & E4).
  change asm_fuel with (S (S (S (S 12)))). rewrite E.
  assert (rget s op2 = if op2 =? op1 then target + 1 else target) as E5.
  { rewrite E4. destruct (Z.eqb_spec op2 op1); [reflexivity|]. destruct Hs; [subst; now rewrite Z.eqb_refl|congruence]. }
  erewrite (run_step _ _ Hsz _ 5%nat); [|exact Hp|reflexivity]. cbn [exec1 alu mem_addr]. rewrite Z.add_0_r, E5.
  pose proof (addr_fits 4 ltac:(lia)) as Hf. pose proof (offset_fits 4 ltac:(lia)) as Ho. pose proof (offset_pos sz Hsz code 4).
  pose proof (addr_even code 7). pose proof (addr_even code 4). destruct Hfit as [Hb Hl]. set (x := if op2 =? op1 then _ else _).
  assert (target <= x <= target + 1) by (unfold x; destruct (op2 =? op1); lia).
  assert (target + 2 <= addr sz base code 7) by (unfold addr in *; Z.div_mod_to_equations; lia).
  rewrite (u64_small x) by (unfold is_u64 in *; lia).
  rewrite store_code; [reflexivity|]. unfold in_block. change (length code) with 7%nat. change (Z.of_nat 4) with 4.
  destruct (Z.ltb_spec base (x + 4)), (Z.ltb_spec x (addr sz base code 7)); (reflexivity || (unfold addr in *; lia)).
Qed.
End Jalr.
End Rules.

(** ** The programs' output *)

(** A [main] that returns [a] to the boot code. *)
Definition vmain_returns {U H G V A} `{!UartDev U, !UartSpec U} (view : H -> V) (m : prog (world U H G) A) (v : V) (g : G) (a : A)
    (l : list Z) (v' : V) : Prop :=
  forall u h, view h = v -> exists u' h', m (World u h g) = Ret a (World u' h' g) /\
    tx u' = tx u ++ crlf l /\ rx u' = rx u /\ view h' = v'.

Lemma vmain_returns_intro {U H G V A} `{!UartDev U, !UartSpec U} (view : H -> V) (m : prog (world U H G) A) v g a l v' :
  vruns view m v g a l v' g -> Forall (fun c => 0 <= c < 256) l -> vmain_returns view (uart_init ;; m) v g a l v'.
Proof.
  intros Hm Hl u h Hv. destruct (Hm (inited u) h Hv) as (h' & E & Hv'). exists (emits l (inited u)), h'.
  rewrite (bind_ret_eq _ _ _ _ _ (uart_init_eq _)). split; [exact E|].
  rewrite emits_tx by exact Hl. rewrite emits_rx, inited_tx, inited_rx. auto.
Qed.

Section Mains.
Context {U G : Type} `{!UartDev U, !UartSpec U} (sz : ins -> Z) (base op0 op1 op2 : Z).
Hypothesis Hsz : forall i, 0 < sz i.
Hypothesis Hops : Forall (fun r => r <> 0 /\ r <> t0 /\ r <> t1 /\ r <> t2) [op0; op1; op2].
Hypothesis Hnd : NoDup [op0; op1; op2].
Abbreviation vr := (vruns (U:=U) (H:=core) (G:=G) mem).

Lemma ops_ok : (op0 <> 0 /\ op0 <> t0) /\ (op1 <> 0 /\ op1 <> t0) /\ op2 <> 0 /\ op0 <> op1 /\ op1 <> op2.
Proof.
  apply Forall_cons_1 in Hops as [A Hr]. apply Forall_cons_1 in Hr as [B Hr]. apply Forall_cons_1 in Hr as [C _].
  apply NoDup_cons in Hnd as [N1 Hr]. apply NoDup_cons in Hr as [N2 _].
  split_and!; try tauto; intros ->; [apply N1|apply N2]; left.
Qed.

Lemma for_prints {A} (l : list A) (f : A -> prog (world U core G) unit) (txt : A -> list Z) m g :
  (forall x, x ∈ l -> vr (f x) m g tt (txt x) m g) -> vr (for_each l f) m g tt (flat_map txt l) m g.
Proof.
  induction l as [|x l IH]; intros Hf; [apply vruns_ret|]. cbn [for_each flat_map]. eapply vruns_bind; [apply Hf; left|].
  apply IH. intros y Hy. apply Hf. now right.
Qed.

(** A loop of lines and [done]. *)
Lemma lines_send (vals : list Z) (line : Z -> prog (world U core G) unit) (txt : Z -> list Z) m g :
  Forall is_u64 vals -> (forall v, is_u64 v -> vr (line v) m g tt (txt v) m g) ->
  (forall v, Forall (fun c => 0 <= c < 256) (txt v)) ->
  vmain_sends mem (uart_init ;; for_each vals line ;; uputs "done\n" ;; park) m g (flat_map txt vals ++ lit "done\n") (fun m' _ => m' = m).
Proof.
  intros Hv Hl Hb. apply vmain_sends_intro.
  - eexists _, _, _. split; [|split; [|reflexivity]].
    + eapply vhalts_bind; [apply for_prints; intros x Hx; apply Hl; rewrite Forall_forall in Hv; now apply Hv|]. vstep. apply vhalts_park.
    + now rewrite app_nil_r.
  - apply Forall_app. split; [|text_bytes]. clear -Hb. induction vals as [|v vals IH]; [constructor|]. cbn [flat_map]. now apply Forall_app.
Qed.

Ltac u64s := repeat constructor; u64c.
Lemma mod_u64 v n : 0 < n < 2 ^ 64 -> is_u64 (v mod n).
Proof. intros Hn. pose proof (Z.mod_pos_bound v n). unfold is_u64. lia. Qed.
Lemma sext32_u64 x : 0 <= x < 2 ^ 32 -> is_u64 (sext32 x).
Proof. intros Hx. unfold sext32, is_u64. destruct (Z.ltb_spec x (2 ^ 31)); lia. Qed.

Definition andi_text (v : Z) : list Z :=
  lit "v=" ++ fmt_hex v ++ lit " andi2047=" ++ fmt_hex (v mod 2048) ++ lit " shiftfff=" ++ fmt_hex (v mod 4096) ++
  lit " andfff=" ++ fmt_hex (v mod 4096) ++ lit "\n".
Lemma andi_line_runs v m g : is_u64 v -> vr (andi_line sz base op0 op1 v) m g tt (andi_text v) m g.
Proof.
  intros Hv. destruct ops_ok as ((H0 & H0t) & (H1 & H1t) & H2 & H01 & H12). unfold andi_line, andi_text. do 3 vstep.
  eapply vruns_bind0; [now apply andi2047_runs|]. eapply vruns_bind; [apply vruns_prints, prints_hex, mod_u64; lia|]. vstep.
  eapply vruns_bind0; [now apply maskfff_runs|]. eapply vruns_bind; [apply vruns_prints, prints_hex, mod_u64; lia|]. vstep.
  eapply vruns_bind0; [now apply andfff_runs|]. eapply vruns_bind; [apply vruns_prints, prints_hex, mod_u64; lia|]. vstep.
Qed.

Definition sltiu_text (v : Z) : list Z :=
  lit "sltiu(v, 1) v=" ++ fmt_hex v ++ lit " -> " ++ fmt_dec (if v =? 0 then 1 else 0) ++ lit "\n".
Lemma sltiu_line_runs v m g : is_u64 v -> vr (sltiu_line sz base op0 op1 v) m g tt (sltiu_text v) m g.
Proof.
  intros Hv. destruct ops_ok as ((H0 & H0t) & (H1 & H1t) & H2 & H01 & H12). unfold sltiu_line, sltiu_text. do 3 vstep.
  eapply vruns_bind0; [now apply zero_test_runs|]. eapply vruns_bind; [|vstep].
  destruct (v =? 0); apply vruns_prints, prints_dec; u64c.
Qed.

Definition addiw_text (v : Z) : list Z :=
  lit "sextw in=" ++ fmt_hex v ++ lit " addiw=" ++ fmt_hex (sext32 (u32 v)) ++ lit " addi=" ++ fmt_hex v ++ lit "\n".
Lemma addiw_line_runs v m g : is_u64 v -> vr (addiw_line sz base op0 op1 v) m g tt (addiw_text v) m g.
Proof.
  intros Hv. destruct ops_ok as ((H0 & H0t) & (H1 & H1t) & H2 & H01 & H12). unfold addiw_line, addiw_text. do 3 vstep.
  eapply vruns_bind0; [now apply addiw_zero_runs|].
  eapply vruns_bind; [apply vruns_prints, prints_hex, sext32_u64, Z.mod_pos_bound; lia|]. vstep.
  eapply vruns_bind0; [now apply addi_zero_runs|]. do 2 vstep.
Qed.

Lemma andi_main_sends m g : vmain_sends (U:=U) (G:=G) mem (andi_main sz base op0 op1) m g (flat_map andi_text andi_vals ++ lit "done\n") (fun m' _ => m' = m).
Proof. apply lines_send; [u64s|intros; now apply andi_line_runs|intros; unfold andi_text; text_bytes]. Qed.
Lemma sltiu_main_sends m g : vmain_sends (U:=U) (G:=G) mem (sltiu_main sz base op0 op1) m g (flat_map sltiu_text sltiu_vals ++ lit "done\n") (fun m' _ => m' = m).
Proof. apply lines_send; [u64s|intros; now apply sltiu_line_runs|intros; unfold sltiu_text; text_bytes]. Qed.
Lemma addiw_main_sends m g : vmain_sends (U:=U) (G:=G) mem (addiw_main sz base op0 op1) m g (flat_map addiw_text addiw_vals ++ lit "done\n") (fun m' _ => m' = m).
Proof. apply lines_send; [u64s|intros; now apply addiw_line_runs|intros; unfold addiw_text; text_bytes]. Qed.

(** auipc. *)
Definition auipc_log (base1 : Z) : list Z :=
  lit "auipc rd,0      -> " ++ fmt_hex base ++ lit "  (expect the auipc's own address from objdump)\nauipc rd,0x12345 -> " ++
  fmt_hex (u64 (base1 + 0x12345000)) ++
  lit "  (expect pc + 0x12345000)\npc-relative ld  -> 0x123456789abcdef0  (expect 0x123456789abcdef0)\ndone\n".
Lemma auipc_main_sends base1 base2 marker m g : is_u64 base -> is_u64 marker -> marker mod 8 = 0 ->
  - 2 ^ 31 - 0x800 <= marker - base2 < 2 ^ 31 - 0x800 -> ld_bytes 8 marker m = 0x123456789abcdef0 ->
  vmain_sends (U:=U) (G:=G) mem (auipc_main sz base op0 base1 base2 marker) m g (auipc_log base1) (fun m' _ => m' = m).
Proof.
  intros Hb Hm Hal Hd Hld. destruct ops_ok as ((H0 & H0t) & _). apply vmain_sends_intro; [|unfold auipc_log; text_bytes].
  eexists _, _, _. split; [|split; [|reflexivity]].
  - unfold auipc_body. eapply vhalts_bind0; [now apply auipc_runs|]. do 3 vstep. eapply vhalts_bind0; [now apply auipc_runs|]. do 3 vstep.
    eapply vhalts_bind0; [now apply pcrel_ld_runs|]. rewrite Hld. do 4 vstep. apply vhalts_park.
  - change (sext32 (u32 (Z.shiftl 0 12))) with 0. change (sext32 (u32 (Z.shiftl 0x12345 12))) with 0x12345000.
    rewrite Z.add_0_r, (u64_small base Hb). unfold auipc_log. generalize (fmt_hex base) (fmt_hex (u64 (base1 + 0x12345000))). intros.
    rewrite ?app_nil_r, <-?app_assoc. vm_compute. reflexivity.
Qed.

Lemma mismatch_runs bad msg n m g : no_nul (c_lit msg) = true ->
  vr (mismatch bad msg n) m g (n + b2z bad) (if bad then lit msg else []) m g.
Proof.
  intros Hm. unfold mismatch. destruct bad; cbn [b2z].
  - eapply vruns_conv; [eapply vruns_bind; [apply vruns_prints, prints_lit, Hm|apply vruns_ret]|reflexivity|apply app_nil_r|reflexivity..].
  - rewrite Z.add_0_r. apply vruns_ret.
Qed.

Lemma isa_tail_runs m g : vr (isa_tail 0) m g 0 (lit "mismatches: 0\nPASS\n") m g.
Proof. unfold isa_tail. eapply vruns_conv; [repeat vstep|reflexivity|vm_compute; reflexivity|reflexivity..]. Qed.

(** lw, lwu. *)
Definition lse_log : list Z :=
  lit "pattern: 0x80000001\nlw  -> 0xffffffff80000001\nlwu -> 0x80000001\nmismatches: 0\nPASS\n".
Lemma lse_main_returns scratch hi m g : 0 <= hi < 2 ^ 32 -> is_u64 scratch -> scratch mod 4 = 0 ->
  clear_of base (sz (Sw op0 0 op1)) scratch ->
  vmain_returns (U:=U) (G:=G) mem (lse_main sz base op0 op1 scratch hi) m g 0 lse_log (st_bytes 4 scratch pat m).
Proof.
  intros Hh Hs Hal Hc. destruct ops_ok as ((H0 & H0t) & (H1 & H1t) & H2 & H01 & H12).
  apply vmain_returns_intro; [|unfold lse_log; text_bytes]. unfold lse_body.
  assert (u32 (pat + 2 ^ 32 * hi) = pat) as Ep.
  { unfold u32. rewrite Z.mul_comm, Z.mod_add by lia. reflexivity. }
  assert (ld_bytes 4 scratch (st_bytes 4 scratch pat m) = pat) as El by (apply ld_st_same; vm_compute; now split).
  eapply vruns_conv.
  - do 3 vstep. eapply vruns_bind0; [now apply sw_runs|]. rewrite Ep. eapply vruns_bind0; [now apply lw_runs|]. rewrite El.
    eapply vruns_bind0; [now apply lwu_runs|]. rewrite El. change (sext32 pat) with 0xffffffff80000001. do 6 vstep.
    eapply vruns_bind; [|apply isa_tail_runs]. unfold lse_checks. do 3 (eapply vruns_bind; [now apply mismatch_runs|]).
    now apply mismatch_runs.
  - reflexivity.
  - vm_compute. reflexivity.
  - reflexivity.
  - reflexivity.
Qed.

(** blt, bltu. *)
Lemma bba_check_runs name x n m g : no_nul (c_lit name) = true -> is_u64 x ->
  vr (bba_check name x x n) m g n (lit name ++ lit ": got " ++ fmt_dec x ++ lit ", want " ++ fmt_dec x ++ lit "  ok\n") m g.
Proof.
  intros Hn Hx. unfold bba_check. rewrite (u64_small x Hx), Z.eqb_refl. cbn [negb]. eapply vruns_conv.
  - eapply vruns_bind; [apply vruns_prints, prints_lit, Hn|]. repeat vstep.
  - reflexivity.
  - now rewrite app_nil_r.
  - reflexivity.
  - reflexivity.
Qed.

Definition bba_log : list Z :=
  lit "hi = 0x8000000000000000\nlo = 0x1000\nkern = 0xfffffffffffff000\n" ++
  lit "blt (hi, lo) : got 1, want 1  ok\nblt (lo, hi) : got 0, want 0  ok\n" ++
  lit "bltu(hi, lo) : got 0, want 0  ok\nbltu(lo, hi) : got 1, want 1  ok\n" ++
  lit "blt (kern, lo): got 1, want 1  ok\nbltu(kern, lo): got 0, want 0  ok\nmismatches: 0\nPASS\n".
Lemma bba_main_returns m g : vmain_returns (U:=U) (G:=G) mem (bba_main sz base op0 op1 op2) m g 0 bba_log m.
Proof.
  destruct ops_ok as ((H0 & H0t) & (H1 & H1t) & H2 & H01 & H12).
  apply vmain_returns_intro; [|unfold bba_log; text_bytes]. unfold bba_body. cbv zeta. eapply vruns_conv.
  - do 7 vstep.
    do 2 (eapply vruns_bind0; [now apply blt_taken_runs|]; eapply vruns_bind; [apply bba_check_runs; [reflexivity|u64c]|]).
    do 2 (eapply vruns_bind0; [now apply bltu_taken_runs|]; eapply vruns_bind; [apply bba_check_runs; [reflexivity|u64c]|]).
    eapply vruns_bind0; [now apply blt_taken_runs|]; eapply vruns_bind; [apply bba_check_runs; [reflexivity|u64c]|].
    eapply vruns_bind0; [now apply bltu_taken_runs|]; eapply vruns_bind; [apply bba_check_runs; [reflexivity|u64c]|].
    apply isa_tail_runs.
  - reflexivity.
  - vm_compute. reflexivity.
  - reflexivity.
  - reflexivity.
Qed.

(** jalr. *)
Section JalrMain.
Hypothesis Hev : forall i, sz i mod 2 = 0.
Hypothesis Hbase : base mod 2 = 0.
Abbreviation code := (jalr_code op0 op1 op2).
Abbreviation target := (addr sz base code 4).
Hypothesis Hfit : 0 <= base /\ addr sz base code 7 < 2 ^ 64.

Lemma jalr_ops : Forall (fun r => r <> 0 /\ r <> t1 /\ r <> t2) [op0; op1; op2].
Proof. eapply Forall_impl; [exact Hops|]. cbn. tauto. Qed.

Lemma ld_int_runs a x m g : sext32 (ld_bytes 4 a m) = x -> vr (ld_int a) m g x [] m g.
Proof. intros <- u h <-. now exists h. Qed.

Definition jalr_log : list Z :=
  lit "target: " ++ fmt_hex target ++ lit "\nodd:    " ++ fmt_hex (target + 1) ++ lit "\nlanded: 1\nmismatches: 0\nPASS\n".

Lemma target_bits : Z.land (target + 1) 1 = 1 /\ Z.land target 1 = 0 /\ is_u64 target /\ is_u64 (target + 1).
Proof.
  pose proof (addr_even sz base Hev Hbase code 4) as He. pose proof (offset_end sz Hsz code 4 ltac:(cbn; lia)) as Ho.
  pose proof (offset_pos sz Hsz code 4). destruct Hfit as [Hb Hl].
  assert (offset sz code 4 < offset sz code 7) by exact Ho.
  assert (forall x, Z.land x 1 = x mod 2) as El by (intros x; exact (Z.land_ones x 1 ltac:(lia))).
  rewrite !El, (Z.add_mod target 1), He by discriminate. unfold is_u64, addr in *. split_and!; reflexivity || lia.
Qed.

Lemma jalr_checks_run landed m g : sext32 (ld_bytes 4 landed m) = 1 ->
  vr (jalr_checks target (target + 1) landed) m g 0 [] m g.
Proof.
  intros Hl. destruct target_bits as (E1 & E2 & Ht & Ho). unfold jalr_checks. rewrite E1, E2.
  pose proof (addr_even sz base Hev Hbase code 4) as He.
  assert (Z.land (target + 1) (u64 (Z.lnot 1)) = target) as ->.
  { rewrite clear_bit0 by exact Ho. generalize dependent (addr sz base code 4). intros x. intros. Z.div_mod_to_equations. lia. }
  rewrite (Z.eqb_refl target). eapply vruns_conv.
  - do 3 (eapply vruns_bind; [now apply mismatch_runs|]). eapply vruns_bind0; [apply ld_int_runs, Hl|]. now apply mismatch_runs.
  - reflexivity.
  - reflexivity.
  - reflexivity.
  - reflexivity.
Qed.

Lemma jalr_main_returns landed m g : is_u64 landed -> landed mod 4 = 0 -> clear_of base (offset sz code 7) landed ->
  vmain_returns (U:=U) (G:=G) mem (jalr_main sz base op0 op1 op2 landed) m g 0 jalr_log (st_bytes 4 landed 1 m).
Proof.
  intros Hs Hal Hc. destruct ops_ok as ((H0 & H0t) & (H1 & H1t) & H2 & H01 & H12). destruct target_bits as (_ & _ & Ht & Ho).
  assert (sext32 (ld_bytes 4 landed (st_bytes 4 landed 1 m)) = 1) as El by (rewrite ld_st_same by (vm_compute; now split); reflexivity).
  apply vmain_returns_intro; [|unfold jalr_log; text_bytes]. unfold jalr_body. eapply vruns_conv.
  - eapply vruns_bind0; [apply jalr_runs; try assumption; apply jalr_ops|]. cbv zeta. cbn [nth]. do 7 vstep.
    eapply vruns_bind0; [apply ld_int_runs, El|]. do 2 vstep.
    eapply vruns_bind0; [apply jalr_checks_run, El|]. apply isa_tail_runs.
  - reflexivity.
  - unfold jalr_log. generalize (fmt_hex target) (fmt_hex (target + 1)). intros. rewrite ?app_nil_r, <-?app_assoc. vm_compute. reflexivity.
  - reflexivity.
  - reflexivity.
Qed.
End JalrMain.
End Mains.

(** ** Well-formed machine states *)

(** Registers hold 64-bit words, memory holds bytes. *)
Definition wf_core (s : core) : Prop := (forall r, is_u64 (reg s r)) /\ (forall a, 0 <= mem s a < 256).
Definition wf_ins (i : ins) : Prop := match i with Slli _ _ n | Srli _ _ n => 0 <= n < 64 | _ => True end.

Lemma wf_rget s r : wf_core s -> is_u64 (rget s r).
Proof. intros [Hr _]. unfold rget. destruct (r =? 0); [u64c|apply Hr]. Qed.
Lemma wf_rset r v s : wf_core s -> is_u64 v -> wf_core (rset r v s).
Proof.
  intros [Hr Hm] Hv. unfold rset. destruct (r =? 0); [now split|]. split; [|exact Hm]. intros r'. cbn. unfold upd. now destruct (r' =? r).
Qed.
Lemma wf_jump a s : wf_core s -> wf_core (jump a s).
Proof. easy. Qed.
Lemma ld_bytes_range n a m : (forall x, 0 <= m x < 256) -> 0 <= ld_bytes n a m < 256 ^ Z.of_nat n.
Proof.
  intros Hm. revert a. induction n as [|n IH]; intros a; [cbn; lia|]. rewrite Nat2Z.inj_succ, Z.pow_succ_r by lia. cbn [ld_bytes].
  pose proof (Hm a). pose proof (IH (a + 1)). lia.
Qed.
Lemma st_bytes_range n a v m x : (forall x, 0 <= m x < 256) -> 0 <= st_bytes n a v m x < 256.
Proof.
  revert a v m. induction n as [|n IH]; intros a v m Hm; [apply Hm|]. cbn [st_bytes]. apply IH. intros y. unfold upd.
  destruct (y =? a); [apply Z.mod_pos_bound; lia|apply Hm].
Qed.

Section Wf.
Context (sz : ins -> Z) (base : Z) (code : list ins).
Hypothesis Hsz : forall i, 0 < sz i.
Hypothesis Hfit : 0 <= base /\ addr sz base code (length code) < 2 ^ 64.
Hypothesis Hcode : Forall wf_ins code.

Lemma label_u64 k : is_u64 (addr sz base code k).
Proof using Hsz Hfit.
  assert (offset sz code k <= offset sz code (length code)) as Hle.
  { destruct (le_lt_dec (length code) k) as [Hk|Hk]; [|pose proof (offset_end sz Hsz code k Hk); lia].
    revert k Hk. clear -Hsz. induction code as [|i c IH]; intros [|k] Hk; cbn in *; try lia. pose proof (IH k ltac:(lia)). lia. }
  pose proof (offset_pos sz Hsz code k). unfold is_u64, addr in *. lia.
Qed.

Lemma alu_wf i s rd v : wf_core s -> wf_ins i -> alu (addr sz base code) i s = Some (rd, v) -> is_u64 v.
Proof using Hsz Hfit.
  intros Hs Hi E. destruct i; cbn [alu] in E; try discriminate; injection E as <- <-; auto using u64_range, label_u64, wf_rget.
  - apply sext32_u64, Z.mod_pos_bound. lia.
  - apply land_u64; [now apply wf_rget|apply u64_range].
  - apply land_u64; now apply wf_rget.
  - apply shiftr_u64; [now apply wf_rget|apply Hi].
  - unfold b2z. destruct (_ <? _); u64c.
Qed.

Lemma store_wf own n a v next s s' : wf_core s -> store own n a v next s = Go s' -> wf_core s'.
Proof using.
  intros [Hr Hm] E. unfold store in E. destruct (own _ _); [discriminate|]. destruct (_ =? _); [|discriminate].
  injection E as <-. split; [exact Hr|]. intros x. now apply (st_bytes_range n a v (mem s) x).
Qed.

Lemma exec1_wf own i s s' : wf_core s -> wf_ins i -> is_u64 (pc s + sz i) ->
  exec1 (addr sz base code) own (sz i) i s = Go s' -> wf_core s'.
Proof using Hsz Hfit.
  intros Hs Hi Hn E. assert (Hb := proj2 Hs).
  destruct (alu (addr sz base code) i s) as [[rd v]|] eqn:Ea.
  - assert (E' : exec1 (addr sz base code) own (sz i) i s = Go (jump (pc s + sz i) (rset rd v s)))
      by (destruct i; cbn [alu] in Ea; try discriminate; injection Ea as <- <-; reflexivity).
    rewrite E' in E. injection E as <-. apply wf_jump, wf_rset; [exact Hs|]. now apply (alu_wf i s rd).
  - destruct i; try discriminate; cbn [exec1] in E; try (now apply (store_wf _ _ _ _ _ _ _ Hs E));
      repeat match type of E with context [if ?b then _ else _] => destruct b end;
      try discriminate; injection E as <-; try apply wf_jump; try exact Hs; try (apply wf_rset; [exact Hs|]);
      try (apply sext32_u64); try exact Hn.
    + apply (ld_bytes_range 4). exact Hb.
    + pose proof (ld_bytes_range 4 (mem_addr (Lwu rd off base0) s) (mem s) Hb). unfold is_u64. cbn in *. lia.
    + apply (ld_bytes_range 8). exact Hb.
Qed.

Lemma exec1_not_done lab own n i s s' : exec1 lab own n i s <> Done s'.
Proof using.
  destruct i; cbn [exec1 alu]; unfold store; repeat match goal with |- context [if ?b then _ else _] => destruct b end; discriminate.
Qed.

Lemma run_wf f s s' : wf_core s -> run sz base f code s = Done s' -> wf_core s'.
Proof using Hsz Hfit Hcode.
  revert s. induction f as [|f IH]; intros s Hs E; cbn [run] in E; [discriminate|].
  destruct (pc s =? _); [now injection E as <-|]. destruct (fetch sz base code (pc s)) as [i|] eqn:Ef; [|discriminate].
  destruct (exec1 _ _ (sz i) i s) as [s1|s1| | |] eqn:E1; try discriminate; [|now apply exec1_not_done in E1].
  apply (IH s1); [|exact E]. apply fetch_inv in Ef as (k & Hk & Hp). rewrite Forall_lookup in Hcode.
  apply (exec1_wf (in_block sz base code) i s); [exact Hs|exact (Hcode k i Hk)| |exact E1]. rewrite Hp.
  change (base + offset sz code k) with (addr sz base code k). rewrite (addr_S sz base code k i Hk). apply label_u64.
Qed.
End Wf.

Ltac wf_code := repeat first [apply Forall_nil_2 | apply Forall_cons_2; [cbn; exact I || lia|]].

Section Typed.
Context {U G : Type} `{!UartDev U, !UartSpec U} (sz : ins -> Z) (base op0 op1 op2 : Z).
Hypothesis Hsz : forall i, 0 < sz i <= 8.
Hypothesis Hb : 0 <= base /\ base + 64 < 2 ^ 64.
Hypothesis Hops : Forall (fun r => r <> 0 /\ r <> t0 /\ r <> t1 /\ r <> t2) [op0; op1; op2].
Hypothesis Hnd : NoDup [op0; op1; op2].

Lemma block_fits code : (length code <= 8)%nat -> 0 <= base /\ addr sz base code (length code) < 2 ^ 64.
Proof using Hsz Hb.
  intros Hl. assert (offset sz code (length code) <= 8 * Z.of_nat (length code)) as Ho.
  { clear -Hsz. induction code as [|i c IH]; cbn [offset length]; [lia|]. pose proof (Hsz i). lia. }
  unfold addr. lia.
Qed.

Lemma load_ops_wf ops s : Forall (fun op => is_u64 op.2) ops -> wf_core s -> wf_core (load_ops ops s).
Proof using.
  intros Ho. revert s. induction Ho as [|[r v] ops Hv _ IH]; intros s Hs; [exact Hs|]. cbn [load_ops fold_left]. apply IH, wf_rset; assumption.
Qed.

Lemma asm_wf code ops outs (w : world U core G) l w' :
  (length code <= 8)%nat -> Forall wf_ins code -> Forall (fun op => is_u64 op.2) ops -> wf_core (w_hw w) ->
  asm sz base code ops outs w = Ret l w' -> wf_core (w_hw w') /\ Forall is_u64 l.
Proof using Hsz Hb.
  intros Hl Hc Ho Hw E. unfold asm in E. destruct (run _ _ _ _ _) as [|s| | |] eqn:Er; try discriminate. injection E as <- <-.
  assert (wf_core s) as Hs.
  { eapply (run_wf sz base code); [intros i; apply Hsz|now apply block_fits|exact Hc| |exact Er]. now apply wf_jump, load_ops_wf. }
  split; [exact Hs|]. apply Forall_forall. intros x Hx. apply list_elem_of_fmap in Hx as (r & -> & _). now apply wf_rget.
Qed.

(** A function made of one block returns a word from a well-formed machine. *)
Lemma asm_out_typed code ops (w : world U core G) r :
  (length code <= 8)%nat -> Forall wf_ins code -> Forall (fun op => is_u64 op.2) ops -> wf_core (w_hw w) ->
  vruns mem (asm_out sz op0 base code ops) (mem (w_hw w)) (w_glob w) r [] (mem (w_hw w)) (w_glob w) ->
  exists h', asm_out sz op0 base code ops w = Ret r (World (w_uart w) h' (w_glob w)) /\ is_u64 r /\ wf_core h' /\ mem h' = mem (w_hw w).
Proof using Hsz Hb.
  intros Hl Hc Ho Hw Hr. destruct w as [u h g]. cbn [w_hw w_uart w_glob] in *. destruct (Hr u h eq_refl) as (h' & E & Hm).
  exists h'. split; [exact E|]. unfold asm_out, bind in E. destruct (asm sz base code ops [op0] _) as [l w'| | |] eqn:Ea; try discriminate.
  injection E as <- ->. destruct (asm_wf _ _ _ (World u h g) _ _ Hl Hc Ho Hw Ea) as [Hs Hf]. split_and!; [|exact Hs|exact Hm].
  destruct Hf as [|x l Hx _]; [u64c|exact Hx].
Qed.

Ltac typed1 Hf Hw R := apply elem_of_cons in Hf as [->|Hf];
  [eexists; eapply asm_out_typed; [..|exact R]; [cbn; lia|wf_code|now apply Forall_singleton|exact Hw]|].

End Typed.

(** ** What the programs show *)

Section Shown.
Context {U G : Type} `{!UartDev U, !UartSpec U} (sz : ins -> Z) (base op0 op1 op2 : Z).
Hypothesis Hsz : forall i, 0 < sz i.
Hypothesis Hops : Forall (fun r => r <> 0 /\ r <> t0 /\ r <> t1 /\ r <> t2) [op0; op1; op2].
Abbreviation vr := (vruns (U:=U) (H:=core) (G:=G) mem).

Lemma sext32_fits v : is_u64 v -> sext32 (u32 v) = v <-> - 2 ^ 31 <= s64 v < 2 ^ 31.
Proof.
  unfold is_u64, s64, sext32, u32. intros Hv. pose proof (Z.mod_pos_bound v (2 ^ 32)). pose proof (Z.div_mod v (2 ^ 32)).
  change (2 ^ 32) with 4294967296 in *. change (2 ^ 31) with 2147483648. change (2 ^ 64) with 18446744073709551616 in *.
  change (2 ^ 63) with 9223372036854775808.
  destruct (Z.ltb_spec (v mod 4294967296) 2147483648), (Z.ltb_spec v 9223372036854775808); split; lia.
Qed.

Lemma compare_halves a b : is_u64 a -> is_u64 b ->
  below_signed (s64 a) (s64 b) = below_unsigned a b <-> (a <? 2 ^ 63) = (b <? 2 ^ 63).
Proof.
  unfold is_u64, below_signed, below_unsigned, s64. intros Ha Hb.
  destruct (Z.ltb_spec a (2 ^ 63)), (Z.ltb_spec b (2 ^ 63)); repeat match goal with |- context [?x <? ?y] => destruct (Z.ltb_spec x y) end;
    split; intros; discriminate || reflexivity || lia.
Qed.

(** C25: The idioms compute what their comments say, for all 64-bit inputs and
    any registers, also when input and output share one: the shift pair and
    the [and] with 4095 are both [v mod 4096], the largest [andi] mask is
    [v mod 2048], [sltiu] tests for zero, [addiw] returns its operand exactly
    if it is a sign-extended word, [blt] and [bltu] are C's comparisons of
    [long] and of [unsigned long], and differ exactly when one operand has bit
    63 set and the other does not. *)
Theorem instruction_idioms v a b m g : op1 <> op2 -> is_u64 v -> is_u64 a -> is_u64 b ->
  vr (maskfff sz base op0 op1 v) m g (v mod 4096) [] m g /\ vr (andfff sz base op0 op1 v) m g (v mod 4096) [] m g /\
  vr (andi2047 sz base op0 op1 v) m g (v mod 2048) [] m g /\
  vr (zero_test sz base op0 op1 v) m g (if v =? 0 then 1 else 0) [] m g /\
  vr (addi_zero sz base op0 op1 v) m g v [] m g /\
  (exists r, vr (addiw_zero sz base op0 op1 v) m g r [] m g /\ (r = v <-> - 2 ^ 31 <= s64 v < 2 ^ 31)) /\
  vr (blt_taken sz base op0 op1 op2 a b) m g (below_signed (s64 a) (s64 b)) [] m g /\
  vr (bltu_taken sz base op0 op1 op2 a b) m g (below_unsigned a b) [] m g /\
  (below_signed (s64 a) (s64 b) = below_unsigned a b <-> (a <? 2 ^ 63) = (b <? 2 ^ 63)).
Proof.
  intros H12 Hv Ha Hb. apply Forall_cons_1 in Hops as [(H0 & _) Hr]. apply Forall_cons_1 in Hr as [(H1 & H1t & _) Hr].
  apply Forall_cons_1 in Hr as [(H2 & _) _].
  split_and!; [now apply maskfff_runs|now apply andfff_runs|now apply andi2047_runs|now apply zero_test_runs|now apply addi_zero_runs
    |exists (sext32 (u32 v)); split; [now apply addiw_zero_runs|now apply sext32_fits]|now apply blt_taken_runs|now apply bltu_taken_runs
    |now apply compare_halves].
Qed.

Section Jalr.
Hypothesis Hev : forall i, sz i mod 2 = 0.
Hypothesis Hbase : base mod 2 = 0.
Abbreviation code := (jalr_code op0 op1 op2).
Hypothesis Hfit : 0 <= base /\ addr sz base code 7 < 2 ^ 64.

(** With operands in three different registers, the programs print what
    the bench logs show, wherever they are linked: the odd jump lands on the
    even label and returns, [lw] sign-extends and [lwu] does not whatever the
    upper half of the stored register, the branches compare as wanted, [auipc]
    gives its own address and reaches the marker from any load address. *)
Theorem instruction_programs scratch landed hi base1 base2 marker m g : NoDup [op0; op1; op2] -> 0 <= hi < 2 ^ 32 ->
  is_u64 scratch -> scratch mod 4 = 0 -> clear_of base (sz (Sw op0 0 op1)) scratch ->
  is_u64 landed -> landed mod 4 = 0 -> clear_of base (offset sz code 7) landed ->
  is_u64 marker -> marker mod 8 = 0 -> - 2 ^ 31 - 0x800 <= marker - base2 < 2 ^ 31 - 0x800 -> ld_bytes 8 marker m = 0x123456789abcdef0 ->
  vmain_sends (U:=U) (G:=G) mem (auipc_main sz base op0 base1 base2 marker) m g (auipc_log base base1) (fun m' _ => m' = m) /\
  vmain_returns (U:=U) (G:=G) mem (jalr_main sz base op0 op1 op2 landed) m g 0 (jalr_log sz base op0 op1 op2) (st_bytes 4 landed 1 m) /\
  vmain_returns (U:=U) (G:=G) mem (lse_main sz base op0 op1 scratch hi) m g 0 lse_log (st_bytes 4 scratch pat m) /\
  vmain_returns (U:=U) (G:=G) mem (bba_main sz base op0 op1 op2) m g 0 bba_log m /\
  vmain_sends (U:=U) (G:=G) mem (andi_main sz base op0 op1) m g (flat_map andi_text andi_vals ++ lit "done\n") (fun m' _ => m' = m) /\
  vmain_sends (U:=U) (G:=G) mem (sltiu_main sz base op0 op1) m g (flat_map sltiu_text sltiu_vals ++ lit "done\n") (fun m' _ => m' = m) /\
  vmain_sends (U:=U) (G:=G) mem (addiw_main sz base op0 op1) m g (flat_map addiw_text addiw_vals ++ lit "done\n") (fun m' _ => m' = m).
Proof.
  intros Hnd Hh Hs Hsa Hsc Hl Hla Hlc Hm Hma Hd Hld.
  assert (is_u64 base) as Hb by (pose proof (offset_pos sz Hsz code 7); unfold is_u64, addr in *; lia).
  split_and!; [now apply (auipc_main_sends _ _ _ op1 op2)|now apply jalr_main_returns|now apply (lse_main_returns _ _ _ _ op2)|now apply bba_main_returns|now apply (andi_main_sends _ _ _ _ op2)
    |now apply (sltiu_main_sends _ _ _ _ op2)|now apply (addiw_main_sends _ _ _ _ op2)].
Qed.

(** C39: jalr_main.c writes its outputs %0 and %1 before it reads the input %2,
    but does not mark them early-clobber.  If the compiler puts %2 in a
    register of an output, as the constraints allow, the store goes to the
    code of the block instead of [landed], and the program's behaviour is
    undefined. *)
Theorem jalr_shared_register landed h (u : U) (g : G) : op2 = op0 \/ op2 = op1 ->
  run sz base asm_fuel code (jump base (load_ops [(op2, landed)] h)) =
    Wrote (if op2 =? op1 then addr sz base code 4 + 1 else addr sz base code 4) /\
  jalr_main sz base op0 op1 op2 landed (World u h g) = Undef.
Proof.
  intros Hsh. assert (Forall (fun r => r <> 0 /\ r <> t1 /\ r <> t2) [op0; op1; op2]) as Ho by (eapply Forall_impl; [exact Hops|]; cbn; tauto).
  pose proof (Forall_cons_1 _ _ _ Ho) as [(H0 & _) Hr]. apply Forall_cons_1 in Hr as [(H1 & _) _].
  assert (run sz base asm_fuel code (jump base (load_ops [(op2, landed)] h)) =
    Wrote (if op2 =? op1 then addr sz base code 4 + 1 else addr sz base code 4)) as E by now apply jalr_shared.
  split; [exact E|].
  unfold jalr_main. rewrite (bind_ret_eq _ _ _ _ _ (uart_init_eq _)). unfold jalr_body, bind at 1. unfold asm. cbn [w_hw set_uart].
  now rewrite E.
Qed.
End Jalr.
End Shown.

(** ** The theorems at work *)

Definition demo_sz (i : ins) : Z := match i with La _ _ => 8 | Li _ _ | J _ => 2 | _ => 4 end.
Definition demo_mem (a : Z) : Z := st_bytes 8 0x80000400 0x123456789abcdef0 (fun _ => 0) a.

(** The registers and the address of the recorded build. *)
Abbreviation demo := (Core 0 (fun _ => 0) demo_mem).
Lemma demo_ops : Forall (fun r => r <> 0 /\ r <> t0 /\ r <> t1 /\ r <> t2) [18; 8; 9].
Proof. repeat constructor; discriminate. Qed.
Lemma demo_nodup : NoDup [18; 8; 9].
Proof. apply (bool_decide_unpack _). vm_compute. exact I. Qed.
Lemma demo_sz_pos i : 0 < demo_sz i <= 8.
Proof. destruct i; cbn; lia. Qed.
Lemma demo_sz_even i : demo_sz i mod 2 = 0.
Proof. now destruct i. Qed.


Lemma instruction_idioms_witness :
  vruns (U:=LogUart) (H:=core) (G:=unit) mem (maskfff demo_sz 0x800001e0 18 18 0x12345abc) demo_mem tt 0xabc [] demo_mem tt /\
  vruns (U:=LogUart) (H:=core) (G:=unit) mem (blt_taken demo_sz 0x800001e0 18 18 9 0x8000000000000000 0x1000) demo_mem tt 1 [] demo_mem tt.
Proof.
  destruct (instruction_idioms (U:=LogUart) (G:=unit) demo_sz 0x800001e0 18 18 9 (fun i => proj1 (demo_sz_pos i))
    ltac:(repeat constructor; discriminate) 0x12345abc 0x8000000000000000 0x1000 demo_mem tt ltac:(discriminate) ltac:(u64c) ltac:(u64c)
    ltac:(u64c)) as (Hm & _ & _ & _ & _ & _ & Hb & _).
  split; [exact Hm|exact Hb].
Defined.

Lemma instruction_programs_witness :
  vmain_returns (U:=LogUart) (G:=unit) mem (jalr_main demo_sz 0x800001e0 18 8 9 0x80001000) demo_mem tt 0
    (lit "target: 0x800001f2\nodd:    0x800001f3\nlanded: 1\nmismatches: 0\nPASS\n") (st_bytes 4 0x80001000 1 demo_mem) /\
  vmain_sends (U:=LogUart) (G:=unit) mem (andi_main demo_sz 0x800001e0 18 8) demo_mem tt
    (lit "v=0x12345abc andi2047=0x2bc shiftfff=0xabc andfff=0xabc\nv=0xfff andi2047=0x7ff shiftfff=0xfff andfff=0xfff\n" ++
     lit "v=0x1000 andi2047=0x0 shiftfff=0x0 andfff=0x0\nv=0xffff andi2047=0x7ff shiftfff=0xfff andfff=0xfff\ndone\n")
    (fun m' _ => m' = demo_mem).
Proof.
  destruct (instruction_programs (U:=LogUart) (G:=unit) demo_sz 0x800001e0 18 8 9 (fun i => proj1 (demo_sz_pos i)) demo_ops demo_sz_even
    ltac:(reflexivity) ltac:(now split) 0x80001004 0x80001000 0xffffffff 0x80000200 0x80000210 0x80000400 demo_mem tt demo_nodup ltac:(lia)
    ltac:(u64c) ltac:(reflexivity) ltac:(right; now vm_compute) ltac:(u64c) ltac:(reflexivity) ltac:(right; now vm_compute)
    ltac:(u64c) ltac:(reflexivity) ltac:(lia) ltac:(vm_compute; reflexivity)) as (_ & Hj & _ & _ & Ha & _).
  split.
  - replace (lit _) with (jalr_log demo_sz 0x800001e0 18 8 9) by (vm_compute; reflexivity). exact Hj.
  - replace (lit _ ++ lit _) with (flat_map andi_text andi_vals ++ lit "done\n") by (vm_compute; reflexivity). exact Ha.
Defined.

Lemma jalr_shared_register_witness :
  jalr_main (U:=LogUart) (G:=unit) demo_sz 0x800001e0 18 8 18 0x80001000 (World (LogU [] []) demo tt) = Undef.
Proof.
  exact (proj2 (jalr_shared_register (U:=LogUart) (G:=unit) demo_sz 0x800001e0 18 8 18 (fun i => proj1 (demo_sz_pos i))
    ltac:(repeat constructor; discriminate) demo_sz_even ltac:(reflexivity) ltac:(now split) 0x80001000 demo (LogU [] []) tt
    ltac:(now left))).
Defined.
