(* ===== verification/TrapIsa.v ===== *)
(** * Instructions that trap

    The interpreter of Isa extended by a CSR file, exceptions and [mret]: a
    block of inline assembly runs together with the trap entry it ends up in.
    [mach] is also the hardware the C parts of such programs see ([HartDev]).
    A hart is given by how it legalises CSR writes and by which addresses
    answer; everything runs in M-mode with interrupts off. *)

From Stdlib Require Import ZArith Lia String.
From stdpp Require Import base list.
From S2P Require Import Prelude Uart Hart Run View Pmp PmpEdge Warl CsrProbes Isa.

(** ** State *)

(** [mt_time] is mtime; a read of it advances it by [1 + mt_step mod 1000]. *)
Record mach (legal : string -> Z -> Z -> Z) : Type :=
  Mach { mt_core : core; mt_csr : string -> Z; mt_time : N; mt_step : N; mt_test : Z }.
Arguments Mach {legal}.
Arguments mt_core {legal}.
Arguments mt_csr {legal}.
Arguments mt_time {legal}.
Arguments mt_step {legal}.
Arguments mt_test {legal}.

Definition cupd (f : string -> Z) (c : string) (x : Z) : string -> Z := fun c' => if String.eqb c' c then x else f c'.

Lemma cupd_eq f c x : cupd f c x c = x.
Proof. unfold cupd. now rewrite String.eqb_refl. Qed.
Lemma cupd_ne f c c' x : c' <> c -> cupd f c x c' = f c'.
Proof. intros H. unfold cupd. now rewrite (proj2 (String.eqb_neq c' c) H). Qed.
#[export] Hint Rewrite cupd_eq : isa.
#[export] Hint Rewrite cupd_ne using discriminate : isa.

(** mstatus on a trap from M-mode and on [mret]: MIE (bit 3), MPIE (bit 7),
    MPP (bits 12:11). *)
Definition bit_to (i j v : Z) : Z := Z.shiftl (Z.land (Z.shiftr v i) 1) j.
Definition trap_mstatus (v : Z) : Z :=
  Z.lor (Z.land v (u64 (Z.lnot 0x1888))) (Z.lor (bit_to 3 7 v) 0x1800).
Definition mret_mstatus (v : Z) : Z :=
  Z.lor (Z.land v (u64 (Z.lnot 0x1888))) (Z.lor (bit_to 7 3 v) 0x80).

(** ** Instructions *)

Inductive tins : Type :=
| Plain (i : ins)
| Csrrw (rd : Z) (c : string) (rs : Z) | Csrr (rd : Z) (c : string) | Csrw (c : string) (rs : Z)
| Ebreak | C_ebreak | Mret.

Inductive tres (M : Type) : Type := TGo (m : M) | TDone (m : M) | TWrote (a : Z) | TFault | TLong.
Arguments TGo {M} m.
Arguments TDone {M} m.
Arguments TWrote {M} a.
Arguments TFault {M}.
Arguments TLong {M}.

(** The cause of an access that no device answers.  A breakpoint leaves its
    address in mtval, which no program here reads. *)
Definition access_cause (i : ins) : option Z :=
  match i with
  | Lw _ _ _ | Lwu _ _ _ | Ld _ _ _ => Some 5
  | Sw _ _ _ | Sd _ _ _ => Some 7
  | _ => None
  end.

Section Machine.
Context (legal : string -> Z -> Z -> Z) (mapped : Z -> bool) (sz : tins -> Z).
Abbreviation mach := (mach legal).

(** An exception goes to the base of mtvec. *)
Definition trap (cause tval : Z) (m : mach) : mach :=
  let c := mt_csr m in
  Mach (jump (Z.land (c "mtvec"%string) (u64 (Z.lnot 3))) (mt_core m))
    (cupd (cupd (cupd (cupd c "mepc" (pc (mt_core m))) "mcause" cause) "mtval" tval) "mstatus" (trap_mstatus (c "mstatus"%string)))
    (mt_time m) (mt_step m) (mt_test m).

Definition with_core (s : core) (m : mach) : mach := Mach s (mt_csr m) (mt_time m) (mt_step m) (mt_test m).
Definition with_csr (c : string) (x : Z) (s : core) (m : mach) : mach :=
  Mach s (cupd (mt_csr m) c (legal c (mt_csr m c) x)) (mt_time m) (mt_step m) (mt_test m).

Definition texec1 (lab : nat -> Z) (is_code : Z -> Z -> bool) (i : tins) (m : mach) : tres mach :=
  let s := mt_core m in
  let next := pc s + sz i in
  let plain j := match exec1 lab is_code (sz i) j s with
                 | Go s' => TGo (with_core s' m)
                 | Wrote a => TWrote a
                 | _ => TFault
                 end in
  match i with
  | Plain j =>
      match access_cause j with
      | Some cause => if mapped (mem_addr j s) then plain j else TGo (trap cause (mem_addr j s) m)
      | None => plain j
      end
  | Csrrw rd c rs => TGo (with_csr c (rget s rs) (jump next (rset rd (mt_csr m c) s)) m)
  | Csrr rd c => TGo (with_core (jump next (rset rd (mt_csr m c) s)) m)
  | Csrw c rs => TGo (with_csr c (rget s rs) (jump next s) m)
  | Ebreak | C_ebreak => TGo (trap 3 (pc s) m)
  | Mret => TGo (Mach (jump (mt_csr m "mepc"%string) s) (cupd (mt_csr m) "mstatus" (mret_mstatus (mt_csr m "mstatus"%string)))
                   (mt_time m) (mt_step m) (mt_test m))
  end.

(** ** A block and a trap entry *)

Context (base : Z) (code : list tins) (hbase : Z) (hcode : list tins).

Definition in_range (lo hi a n : Z) : bool := (lo <? a + n) && (a <? hi).
Definition in_code (a n : Z) : bool :=
  in_range base (addr sz base code (length code)) a n || in_range hbase (addr sz hbase hcode (length hcode)) a n.

(** The instruction at [p] with the labels of its code. *)
Definition fetched (p : Z) : option ((nat -> Z) * tins) :=
  match fetch sz base code p with
  | Some i => Some (addr sz base code, i)
  | None => match fetch sz hbase hcode p with
            | Some i => Some (addr sz hbase hcode, i)
            | None => None
            end
  end.

(** Until control leaves the block at its end. *)
Fixpoint trun (fuel : nat) (m : mach) : tres mach :=
  match fuel with
  | O => TLong
  | S fuel =>
      if pc (mt_core m) =? addr sz base code (length code) then TDone m
      else match fetched (pc (mt_core m)) with
           | Some (lab, i) => match texec1 lab in_code i m with TGo m' => trun fuel m' | r => r end
           | None => TFault
           end
  end.

Definition trap_fuel : nat := 64.

(** [asm volatile] around a block that may trap. *)
Definition tasm {U G} (ops : list (Z * Z)) (outs : list Z) : prog (world U mach G) (list Z) :=
  fun w => let m := w_hw w in
           match trun trap_fuel (with_core (jump base (load_ops ops (mt_core m))) m) with
           | TDone m' => Ret (map (rget (mt_core m')) outs) (World (w_uart w) m' (w_glob w))
           | TLong => NoFuel
           | _ => Undef
           end.
End Machine.

(** ** The machine as seen from C *)

Section Dev.
Context {legal : string -> Z -> Z -> Z}.

#[export] Instance mach_dev : HartDev (mach legal) := {
  mr64 a m :=
    if a =? CLINT_MTIME
    then (u64 (Z.of_N (mt_time m)), Mach (mt_core m) (mt_csr m) (mt_time m + (1 + mt_step m mod 1000))%N (mt_step m) (mt_test m))
    else (ld_bytes 8 a (mem (mt_core m)), m);
  mw64 a v m := with_core legal (Core (pc (mt_core m)) (reg (mt_core m)) (st_bytes 8 a v (mem (mt_core m)))) m;
  mr32 a m := (ld_bytes 4 a (mem (mt_core m)), m);
  mw32 a v m :=
    if a =? VIRT_TEST_FINISHER then Mach (mt_core m) (mt_csr m) (mt_time m) (mt_step m) v
    else with_core legal (Core (pc (mt_core m)) (reg (mt_core m)) (st_bytes 4 a v (mem (mt_core m)))) m;
  csr_rd c m := (mt_csr m c, m);
  csr_wr c x m := with_csr legal c x (mt_core m) m;
  hw_fuel := 1;
}.
End Dev.

(** What the programs can see of it; [obs] is what they see of the memory. *)
Record tview (P : Type) : Type := TView { v_mtvec : Z; v_mscratch : Z; v_mie : Z; v_mem : P; v_test : Z }.
Arguments TView {P}.
Arguments v_mtvec {P}.
Arguments v_mscratch {P}.
Arguments v_mie {P}.
Arguments v_mem {P}.
Arguments v_test {P}.
Definition tvw {legal P} (obs : (Z -> Z) -> P) (m : mach legal) : tview P :=
  TView (mt_csr m "mtvec"%string) (mt_csr m "mscratch"%string) (mt_csr m "mie"%string) (obs (mem (mt_core m))) (mt_test m).

(** All of it; some of its words. *)
Definition all_mem (m : Z -> Z) : Z -> Z := m.
Definition some_words (l : list (nat * Z)) (m : Z -> Z) : list Z := map (fun w => ld_bytes w.1 w.2 m) l.

(** ** Running *)

Section Steps.
Context (legal : string -> Z -> Z -> Z) (mapped : Z -> bool) (sz : tins -> Z).
Context (base : Z) (code : list tins) (hbase : Z) (hcode : list tins).
Hypothesis Hsz : forall i, 0 < sz i.
(** The trap entry is not in the block nor right behind it. *)
Hypothesis Hdis : addr sz base code (length code) < hbase \/ addr sz hbase hcode (length hcode) <= base.
Abbreviation fetched := (fetched sz base code hbase hcode).
Abbreviation trun := (trun legal mapped sz base code hbase hcode).
Abbreviation texec1 := (texec1 legal mapped sz).
Abbreviation in_code := (in_code sz base code hbase hcode).

Lemma addr_lt b c k : (k < length c)%nat -> addr sz b c k < addr sz b c (length c) /\ b <= addr sz b c k.
Proof using Hsz. intros Hk. unfold addr. pose proof (offset_end sz Hsz c k Hk). pose proof (offset_pos sz Hsz c k). lia. Qed.

Lemma fetched_block k i : code !! k = Some i -> fetched (addr sz base code k) = Some (addr sz base code, i).
Proof using Hsz. intros Hi. unfold TrapIsa.fetched. unfold addr at 1. now rewrite (fetch_at sz Hsz code k i base Hi). Qed.

Lemma fetched_handler k i : hcode !! k = Some i -> fetched (addr sz hbase hcode k) = Some (addr sz hbase hcode, i).
Proof using Hsz Hdis.
  intros Hi. unfold TrapIsa.fetched. pose proof (addr_lt hbase hcode k (lookup_lt_Some _ _ _ Hi)) as [Hu Hl].
  destruct (fetch sz base code (addr sz hbase hcode k)) as [j|] eqn:E.
  - apply fetch_inv in E as (n & Hn & E). change (base + offset sz code n) with (addr sz base code n) in E.
    pose proof (addr_lt base code n (lookup_lt_Some _ _ _ Hn)). lia.
  - unfold addr at 1. now rewrite (fetch_at sz Hsz hcode k i hbase Hi).
Qed.

Lemma trun_fetched f m lab i : fetched (pc (mt_core m)) = Some (lab, i) ->
  trun (S f) m = match texec1 lab in_code i m with TGo m' => trun f m' | r => r end.
Proof using Hsz Hdis.
  intros Hf. cbn [TrapIsa.trun]. destruct (Z.eqb_spec (pc (mt_core m)) (addr sz base code (length code))) as [E|_]; [|now rewrite Hf].
  exfalso. unfold TrapIsa.fetched in Hf. rewrite E in Hf.
  destruct (fetch sz base code _) as [j|] eqn:E1.
  - apply fetch_inv in E1 as (n & Hn & E1). pose proof (addr_lt base code n (lookup_lt_Some _ _ _ Hn)). unfold addr in *. lia.
  - destruct (fetch sz hbase hcode _) as [j|] eqn:E2; [|discriminate].
    apply fetch_inv in E2 as (n & Hn & E2). pose proof (addr_lt hbase hcode n (lookup_lt_Some _ _ _ Hn)).
    pose proof (offset_pos sz Hsz code (length code)). unfold addr in *. lia.
Qed.

Lemma trun_block k i f m : pc (mt_core m) = addr sz base code k -> code !! k = Some i ->
  trun (S f) m = match texec1 (addr sz base code) in_code i m with TGo m' => trun f m' | r => r end.
Proof using Hsz Hdis. intros Hp Hi. apply trun_fetched. rewrite Hp. now apply fetched_block. Qed.
Lemma trun_handler k i f m : pc (mt_core m) = addr sz hbase hcode k -> hcode !! k = Some i ->
  trun (S f) m = match texec1 (addr sz hbase hcode) in_code i m with TGo m' => trun f m' | r => r end.
Proof using Hsz Hdis. intros Hp Hi. apply trun_fetched. rewrite Hp. now apply fetched_handler. Qed.
Lemma trun_end f m : pc (mt_core m) = addr sz base code (length code) -> trun (S f) m = TDone m.
Proof using. intros Hp. cbn [TrapIsa.trun]. now rewrite Hp, Z.eqb_refl. Qed.

(** A doubleword the code may use. *)
Definition word_ok (a : Z) : Prop := is_u64 a /\ a mod 8 = 0 /\ mapped a = true /\ in_code a 8 = false.

Lemma sd_ok lab rs off b s csr t st d a : word_ok a -> rget s b + off = a ->
  texec1 lab in_code (Plain (Sd rs off b)) (Mach s csr t st d) =
    TGo (Mach (Core (pc s + sz (Plain (Sd rs off b))) (reg s) (st_bytes 8 a (rget s rs) (mem s))) csr t st d).
Proof using.
  intros (Hu & Ha & Hm & Hc) E. cbn [TrapIsa.texec1 access_cause mt_core mem_addr exec1]. rewrite E, (u64_small a Hu), Hm.
  rewrite store_ok; [reflexivity|exact Hc|exact Ha].
Qed.
Lemma ld_ok lab rd off b s csr t st d a : word_ok a -> rget s b + off = a ->
  texec1 lab in_code (Plain (Ld rd off b)) (Mach s csr t st d) =
    TGo (Mach (jump (pc s + sz (Plain (Ld rd off b))) (rset rd (ld_bytes 8 a (mem s)) s)) csr t st d).
Proof using.
  intros (Hu & Ha & Hm & Hc) E. cbn [TrapIsa.texec1 access_cause mt_core mem_addr exec1]. now rewrite E, (u64_small a Hu), Hm, Ha.
Qed.
End Steps.

(** ** Rules for the C parts *)

Section CRules.
Context {U : Type} `{!UartDev U, !UartSpec U} {legal : string -> Z -> Z -> Z} {P : Type} (obs : (Z -> Z) -> P).
Abbreviation G := pglob.
Abbreviation vr := (vruns (U:=U) (H:=mach legal) (G:=G) (tvw obs)).

Lemma tv_read_mtvec v g : vr (csrr "mtvec") v g (v_mtvec v) [] v g.
Proof. intros u h <-. now exists h. Qed.
Lemma tv_read_mie v g : vr (csrr "mie") v g (v_mie v) [] v g.
Proof. intros u h <-. now exists h. Qed.
Lemma tv_write_mtvec x t sc e m d g : vr (csrw "mtvec" x) (TView t sc e m d) g tt [] (TView (legal "mtvec" t x) sc e m d) g.
Proof. intros u h Hv. injection Hv as <- <- <- <- <-. eexists. split; reflexivity. Qed.
Lemma tv_write_mscratch x t sc e m d g : vr (csrw "mscratch" x) (TView t sc e m d) g tt [] (TView t (legal "mscratch" sc x) e m d) g.
Proof. intros u h Hv. injection Hv as <- <- <- <- <-. eexists. split; reflexivity. Qed.
Lemma tv_clear_mstatus x v g : vr (csrc "mstatus" x) v g tt [] v g.
Proof. intros u h <-. eexists. rewrite csrc_eq. split; reflexivity. Qed.
Lemma tv_finisher t sc e m d g : vr finisher (TView t sc e m d) g tt [] (TView t sc e m FINISHER_PASS) g.
Proof. intros u h Hv. injection Hv as <- <- <- <- <-. eexists. split; reflexivity. Qed.

(** A read of mtime; the time is not part of the view. *)
Lemma mtime_read (w : world U (mach legal) G) :
  read64 CLINT_MTIME w = Ret (u64 (Z.of_N (mt_time (w_hw w))))
    (World (w_uart w) (Mach (mt_core (w_hw w)) (mt_csr (w_hw w)) (mt_time (w_hw w) + (1 + mt_step (w_hw w) mod 1000))%N
       (mt_step (w_hw w)) (mt_test (w_hw w))) (w_glob w)).
Proof. destruct w as [u h g]. reflexivity. Qed.

(** Every read takes at least one tick, so [n] ticks are over after [n]
    reads. *)
Lemma mtime_wait (T n : N) fuel (u : U) (m : mach legal) (g : G) :
  (T < mt_time m)%N -> (mt_time m <= T + n + 1000)%N -> Z.of_N n <= 100000 -> (n < N.of_nat fuel + (mt_time m - T))%N -> (0 < fuel)%nat ->
  exists m', while_ fuel (t <- read64 CLINT_MTIME ;; ret (u64 (t - u64 (Z.of_N T)) <? Z.of_N n)) (ret tt) (World u m g) = Ret tt (World u m' g) /\
    tvw obs m' = tvw obs m.
Proof.
  revert m. induction fuel as [|fuel IH]; intros m H1 H2 Hn H3 H4; [lia|]. cbn [while_].
  unfold bind at 1. unfold bind at 1. rewrite mtime_read. cbn [w_uart w_hw w_glob ret].
  assert (u64 (u64 (Z.of_N (mt_time m)) - u64 (Z.of_N T)) = Z.of_N (mt_time m - T)) as ->.
  { unfold u64. rewrite <-Zminus_mod, Z.mod_small by lia. lia. }
  pose proof (N.mod_lt (mt_step m) 1000 ltac:(lia)) as Hm. revert Hm. generalize (mt_step m mod 1000)%N. intros k Hk.
  destruct (Z.ltb_spec (Z.of_N (mt_time m - T)) (Z.of_N n)) as [Hlt|Hge].
  - unfold bind, ret. set (m1 := Mach _ _ _ _ _). destruct (IH m1) as (m' & E & Hv); try (unfold m1; cbn [mt_time]; lia).
    + exists m'. split; [exact E|]. rewrite Hv. reflexivity.
  - eexists. split; reflexivity.
Qed.

Lemma tasm_runs mapped sz base code hbase hcode ops outs tv sc e l l' d r g :
  (forall s csr t st d, csr "mtvec"%string = tv -> csr "mscratch"%string = sc -> obs (mem s) = l -> exists s' csr',
     trun legal mapped sz base code hbase hcode trap_fuel (Mach (jump base (load_ops ops s)) csr t st d) = TDone (Mach s' csr' t st d) /\
     map (rget s') outs = r /\ obs (mem s') = l' /\
     csr' "mtvec"%string = tv /\ csr' "mscratch"%string = sc /\ csr' "mie"%string = csr "mie"%string) ->
  vr (tasm legal mapped sz base code hbase hcode ops outs) (TView tv sc e l d) g r [] (TView tv sc e l' d) g.
Proof.
  intros Hr u [s csr t st d0] Hv. pose proof (f_equal v_mie Hv) as He. pose proof (f_equal v_test Hv) as Hd.
  destruct (Hr s csr t st d0 (f_equal v_mtvec Hv) (f_equal v_mscratch Hv) (f_equal v_mem Hv)) as (s' & csr' & E & El & Em & E1 & E2 & E3).
  eexists. unfold tasm, with_core. cbn [w_hw w_uart w_glob mt_core mt_csr mt_time mt_step mt_test]. rewrite E. cbn [mt_core]. rewrite El.
  split; [reflexivity|]. unfold tvw in *. cbn [mt_core mt_csr mt_test v_mie v_test] in *. now rewrite E1, E2, E3, Em, He, Hd.
Qed.
End CRules.
