(* ===== verification/TrapProbes.v ===== *)
(** * A fault that is skipped

    src/mepc-resume-skip/: a block of inline assembly whose load traps, with
    its trap entry, on the machine of TrapIsa, and the setup and verdict that
    the programs of TripProbes and EbtProbe share.  The registers of the
    operands, the instruction sizes and all addresses are parameters. *)

From Stdlib Require Import ZArith Lia String.
From stdpp Require Import base list.
From S2P Require Import Prelude Uart Hart Run View Pmp PmpEdge Warl CsrProbes Isa TrapIsa.

Definition a0 : Z := 10.
Definition a1 : Z := 11.

Definition MCAUSE_LOAD_ACCESS_FAULT : Z := 5.
Definition MCAUSE_STORE_ACCESS_FAULT : Z := 7.
Definition UNMAPPED_ADDR : Z := 0xFFFFFFFFC0000000.
Definition SENTINEL_A0 : Z := 0xA0A0A0A0A0A0A0A0.
Definition RESUME_MARKER : Z := 0xDEADBEEFDEADBEEF.
Definition INSN_LW_A0_A1 : Z := 0x0005A503.

(** ** mrs_trap.S, mrs_main.c: the code *)

Definition mrs_trap_entry : list tins :=
  [ Csrrw t0 "mscratch" t0;
    Csrr t1 "mcause"; Plain (Sd t1 0 t0);
    Csrr t1 "mtval"; Plain (Sd t1 8 t0);
    Csrr t1 "mepc"; Plain (Sd t1 16 t0);
    Plain (Ld t1 24 t0); Plain (Addi t1 t1 1); Plain (Sd t1 24 t0);
    Csrr t1 "mepc"; Plain (Addi t1 t1 4); Plain (Sd t1 32 t0);
    Csrw "mepc" t1;
    Csrrw t0 "mscratch" t0;
    Mret ].

(** The operands [fault], [resume], [a0out], [a1out] and [slot]. *)
Definition mrs_code (fault resume a0out a1out slot : Z) : list tins :=
  [ Plain (La fault 4); Plain (La resume 5); Plain (Li a0 SENTINEL_A0); Plain (Li a1 UNMAPPED_ADDR);
    Plain (Lw a0 0 a1);
    Plain (Li t0 RESUME_MARKER); Plain (Sd t0 0 slot);
    Plain (Mv a0out a0); Plain (Mv a1out a1) ].

Section Program.
Context {U : Type} `{!UartDev U} (legal : string -> Z -> Z -> Z) (mapped : Z -> bool) (sz : tins -> Z).
Abbreviation W := (world U (mach legal) pglob).

(** Volatile loads of C objects. *)
Definition vol (n : nat) (a : Z) : prog W Z := hw_read (fun m => (ld_bytes n a (mem (mt_core m)), m)).
Definition read_mtime : prog W Z := read64 CLINT_MTIME.

(** The handler, the scratch area, interrupts off. *)
Definition trap_setup (trap_entry area : Z) : prog W unit :=
  csrw "mtvec" trap_entry ;;
  csrw "mscratch" area ;;
  csrc "mstatus" 8 ;;
  tv <- csrr "mtvec" ;;
  mie <- csrr "mie" ;;
  uputs "setup: mtvec=" ;; uart_put_hex tv ;; uputs " mie=" ;; uart_put_hex mie ;; uputs "\n" ;;
  check_mtvec trap_entry ncheck tv ;;
  ncheck (mie =? 0) "mie nonzero at boot".

Definition trap_result (count : Z) : prog W unit :=
  uputs "RESULT: " ;; n <- gget fails ;; uputs (if n =? 0 then "PASS" else "FAIL") ;;
  uputs " (traps=" ;; uart_put_dec count ;; uputs ")\n".

(** [while (read_mtime() - drain < 100000UL)], then the finisher or not. *)
Definition drain_fuel : nat := Z.to_nat 100001.
Definition trap_drain : prog W unit :=
  drain <- read_mtime ;;
  while_ drain_fuel (t <- read_mtime ;; ret (u64 (t - drain) <? 100000)) (ret tt).
Definition trap_finish : prog W unit :=
  trap_drain ;;
  n <- gget fails ;;
  if n =? 0 then finisher ;; park else park.

(** ** mrs_main.c *)

Section Mrs.
(** Addresses: the block, the trap entry, [mrs_regs], [mrs_marker]; then the
    registers of the operands. *)
Context (base hbase area marker : Z) (fault resume a0out a1out slot : Z).

Definition mrs_asm : prog W (list Z) :=
  tasm legal mapped sz base (mrs_code fault resume a0out a1out slot) hbase mrs_trap_entry [(slot, marker)] [fault; resume; a0out; a1out].

Definition mrs_report (fault_addr resume_addr a0_after a1_after mcause mtval mepc_before count mepc_after insn : Z) : prog W unit :=
  uputs "addrs: fault=" ;; uart_put_hex fault_addr ;;
  uputs " resume=" ;; uart_put_hex resume_addr ;;
  uputs " delta=" ;; uart_put_dec (u64 (resume_addr - fault_addr)) ;; uputs "\n" ;;
  uputs "trap: count=" ;; uart_put_dec count ;;
  uputs " mcause=" ;; uart_put_hex mcause ;;
  uputs " mtval=" ;; uart_put_hex mtval ;; uputs "\n" ;;
  uputs "mepc: before=" ;; uart_put_hex mepc_before ;;
  uputs " after=" ;; uart_put_hex mepc_after ;;
  uputs " delta=" ;; uart_put_dec (u64 (mepc_after - mepc_before)) ;;
  uputs " insn@mepc_before=" ;; uart_put_hex insn ;; uputs "\n" ;;
  uputs "post: marker=" ;; x <- vol 8 marker ;; uart_put_hex x ;;
  uputs " a0=" ;; uart_put_hex a0_after ;;
  uputs " a1=" ;; uart_put_hex a1_after ;; uputs "\n".

Definition mrs_checks (fault_addr resume_addr a0_after a1_after mcause mtval mepc_before count mepc_after insn : Z) : prog W unit :=
  ncheck (count =? 1) "trap count != 1 (fault re-executed?)" ;;
  ncheck (mcause =? MCAUSE_LOAD_ACCESS_FAULT) "mcause != 5 (load access fault)" ;;
  ncheck (mtval =? UNMAPPED_ADDR) "mtval != unmapped address" ;;
  ncheck (mepc_before =? fault_addr) "mepc at trap entry != captured fault address" ;;
  ncheck (u64 (mepc_after - mepc_before) =? 4) "handler mepc delta != 4" ;;
  ncheck (mepc_after =? resume_addr) "adjusted mepc != captured resume address" ;;
  ncheck (u64 (resume_addr - fault_addr) =? 4) "resume - fault != 4 (faulting insn not 4 bytes?)" ;;
  ncheck (insn =? INSN_LW_A0_A1) "instruction at fault address is not lw a0,0(a1)" ;;
  x <- vol 8 marker ;;
  ncheck (x =? RESUME_MARKER) "marker at faulting+4 did not run" ;;
  ncheck (a0_after =? SENTINEL_A0) "a0 changed: faulting load committed" ;;
  ncheck (a1_after =? UNMAPPED_ADDR) "a1 changed: handler clobbered the faulting address".

Definition mrs_body : prog W unit :=
  uputs "mepc-resume-skip: handler adds 4 to mepc, fault skipped once\n" ;;
  trap_setup hbase area ;;
  outs <- mrs_asm ;;
  let fault_addr := nth 0 outs 0 in
  let resume_addr := nth 1 outs 0 in
  let a0_after := nth 2 outs 0 in
  let a1_after := nth 3 outs 0 in
  mcause <- vol 8 area ;;
  mtval <- vol 8 (area + 8) ;;
  mepc_before <- vol 8 (area + 16) ;;
  count <- vol 8 (area + 24) ;;
  mepc_after <- vol 8 (area + 32) ;;
  insn <- vol 4 mepc_before ;;
  mrs_report fault_addr resume_addr a0_after a1_after mcause mtval mepc_before count mepc_after insn ;;
  mrs_checks fault_addr resume_addr a0_after a1_after mcause mtval mepc_before count mepc_after insn ;;
  trap_result count ;;
  trap_finish.
Definition mrs_main : prog W unit := uart_init ;; mrs_body.
End Mrs.
End Program.

(** ** Rules *)

Section Rules.
Context {U : Type} `{!UartDev U, !UartSpec U} {legal : string -> Z -> Z -> Z} {P : Type} (obs : (Z -> Z) -> P).
Abbreviation vr := (vruns (U:=U) (H:=mach legal) (G:=pglob) (tvw obs)).


(** The checks of the setup and their text. *)
Definition setup_checks (entry e : Z) : list bool :=
  [Z.land entry (u64 (Z.lnot 3)) =? entry; Z.land entry 3 =? 0; e =? 0].
Definition setup_text (entry e : Z) : list Z :=
  lit "setup: mtvec=" ++ fmt_hex entry ++ lit " mie=" ++ fmt_hex e ++ lit "\n" ++
  chk (Z.land entry (u64 (Z.lnot 3)) =? entry) "mtvec did not take the handler address" ++
  chk (Z.land entry 3 =? 0) "mtvec not in direct mode" ++ chk (e =? 0) "mie nonzero at boot".

Lemma trap_setup_runs entry area t sc e m d s bs n c :
  legal "mtvec" t entry = entry -> legal "mscratch" sc area = area -> is_u64 entry -> is_u64 e ->
  vr (trap_setup legal entry area) (TView t sc e m d) (ws s bs n c) tt (setup_text entry e) (TView entry area e m d)
    (ws s (bs ++ setup_checks entry e) n c).
Proof.
  intros Ht Hs Hu He. unfold trap_setup, check_mtvec, setup_text, setup_checks.
  eapply vruns_conv.
  - eapply vruns_bind0; [apply tv_write_mtvec|]. rewrite Ht. eapply vruns_bind0; [apply tv_write_mscratch|]. rewrite Hs.
    eapply vruns_bind0; [apply tv_clear_mstatus|]. eapply vruns_bind0; [apply tv_read_mtvec|]. eapply vruns_bind0; [apply tv_read_mie|].
    cbn [v_mtvec v_mie]. do 5 vstep. eapply vruns_bind; [eapply vruns_bind; [now apply ncheck_runs|now apply ncheck_runs]|].
    now apply ncheck_runs.
  - reflexivity.
  - rewrite <-!app_assoc. reflexivity.
  - reflexivity.
  - now rewrite <-!app_assoc.
Qed.

Lemma trap_result_runs count v s bs n c : is_u64 count ->
  vr (trap_result legal count) v (ws s bs n c) tt
    (lit "RESULT: " ++ (if forallb id bs then lit "PASS" else lit "FAIL") ++ lit " (traps=" ++ fmt_dec count ++ lit ")\n") v (ws s bs n c).
Proof.
  intros Hc. unfold trap_result. do 2 vstep. cbn [fails ws]. rewrite nfalse_zero.
  eapply vruns_bind; [destruct (forallb id bs); vprim|]. do 3 vstep.
Qed.

Lemma trap_drain_runs v g : vr (trap_drain legal) v g tt [] v g.
Proof.
  intros u h <-. unfold trap_drain, read_mtime. rewrite (bind_ret_eq _ _ _ _ _ (mtime_read (World u h g))). cbn [w_uart w_hw w_glob].
  pose proof (N.mod_lt (mt_step h) 1000 ltac:(lia)) as Hm. revert Hm. generalize (mt_step h mod 1000)%N. intros k Hk.
  set (m := Mach _ _ _ _ _).
  destruct (mtime_wait obs (mt_time h) 100000 drain_fuel u m g) as (m' & E & Hv).
  - unfold m. cbn [mt_time]. lia.
  - unfold m. cbn [mt_time]. lia.
  - reflexivity.
  - unfold m, drain_fuel. cbn [mt_time]. rewrite Z_nat_N. change (Z.to_N 100001) with 100001%N. lia.
  - unfold drain_fuel. lia.
  - exists m'. split; [exact E|]. now rewrite Hv.
Qed.

Lemma trap_finish_halts t sc e m d s bs n c :
  vhalts (U:=U) (A:=unit) (tvw obs) (trap_finish legal) (TView t sc e m d) (ws s bs n c) []
    (TView t sc e m (if forallb id bs then FINISHER_PASS else d)) (ws s bs n c).
Proof.
  unfold trap_finish. eapply vhalts_bind0; [apply trap_drain_runs|]. eapply vhalts_bind0; [apply vruns_gget|]. cbn [fails ws].
  rewrite nfalse_zero. destruct (forallb id bs); [|apply vhalts_park]. eapply vhalts_bind0; [apply tv_finisher|]. apply vhalts_park.
Qed.
End Rules.

Lemma vol_runs {U : Type} `{!UartDev U, !UartSpec U} {legal} n a x v g : ld_bytes n a (v_mem v) = x ->
  vruns (U:=U) (G:=pglob) (tvw all_mem) (vol legal n a) v g x [] v g.
Proof. intros <- u h <-. now exists h. Qed.

(** ** Symbolic execution *)

Create HintDb tcode.
#[export] Hint Unfold mrs_code mrs_trap_entry : tcode.

Ltac t_lia := repeat match goal with
  | H : _ <> _ |- _ => clear H | H : _ \/ _ |- _ => clear H | H : _ /\ _ |- _ => clear H | H : (_ !! _) = _ |- _ => clear H end; lia.
Ltac t_pc := autorewrite with isa; unfold addr; autounfold with tcode; cbn [offset length]; t_lia.
Ltac t_red := cbn [texec1 access_cause exec1 alu mem_addr mt_core]; cbv beta zeta delta [with_core with_csr trap];
  cbn [mt_core mt_csr mt_time mt_step mt_test]; autorewrite with isa.
(** The instruction [k] of the block, of the trap entry. *)
Ltac bstep Hsz Hdis k := erewrite (trun_block _ _ _ _ _ _ _ Hsz Hdis k); [|cbn [mt_core]; first [assumption|t_pc]|reflexivity]; t_red.
Ltac hstep Hsz Hdis k := erewrite (trun_handler _ _ _ _ _ _ _ Hsz Hdis k); [|cbn [mt_core]; first [assumption|t_pc]|reflexivity]; t_red.
(** The same for a load or store of the doubleword with [word_ok] proof [H]. *)
Ltac hword Hsz Hdis k H :=
  erewrite (trun_handler _ _ _ _ _ _ _ Hsz Hdis k); [|cbn [mt_core]; first [assumption|t_pc]|reflexivity];
  first [erewrite sd_ok; [|exact H|autorewrite with isa; t_lia] | erewrite ld_ok; [|exact H|autorewrite with isa; t_lia]]; autorewrite with isa.

Section MrsRun.
Context (legal : string -> Z -> Z -> Z) (mapped : Z -> bool) (sz : tins -> Z) (base : Z) (code : list tins) (hbase area : Z).
Hypothesis Hsz : forall i, 0 < sz i.
Abbreviation hcode := mrs_trap_entry.
Hypothesis Hdis : addr sz base code (length code) < hbase \/ addr sz hbase hcode (length hcode) <= base.
Hypothesis Hsc : forall o x, legal "mscratch"%string o x = x.
Hypothesis Hepc : forall o x, Z.land x 1 = 0 -> legal "mepc"%string o x = x.
Abbreviation ok := (word_ok mapped sz base code hbase hcode).
Abbreviation trun := (trun legal mapped sz base code hbase hcode).
Hypothesis Harea : ok area /\ ok (area + 8) /\ ok (area + 16) /\ ok (area + 24) /\ ok (area + 32).

(** [mrs_regs] after a trap. *)
Definition mrs_record (cause tval p : Z) (m : Z -> Z) : Z -> Z :=
  st_bytes 8 (area + 32) (p + 4) (st_bytes 8 (area + 24) (u64 (ld_bytes 8 (area + 24) m + 1))
    (st_bytes 8 (area + 16) p (st_bytes 8 (area + 8) tval (st_bytes 8 area cause m)))).

Lemma mrs_handler f s csr t st d p : pc s = hbase -> csr "mscratch"%string = area -> csr "mepc"%string = p ->
  is_u64 (p + 4) -> Z.land (p + 4) 1 = 0 ->
  exists s' csr', trun (16 + f) (Mach s csr t st d) = trun f (Mach s' csr' t st d) /\
    pc s' = p + 4 /\ rget s' t1 = p + 4 /\ (forall r, r <> t1 -> rget s' r = rget s r) /\
    mem s' = mrs_record (csr "mcause"%string) (csr "mtval"%string) p (mem s) /\
    csr' "mtvec"%string = csr "mtvec"%string /\ csr' "mscratch"%string = area /\ csr' "mie"%string = csr "mie"%string.
Proof.
  intros Hp Hs He Hu H4. destruct Harea as (W0 & W1 & W2 & W3 & W4). cbn [Nat.add].
  hstep Hsz Hdis 0%nat. rewrite Hs, Hsc. hstep Hsz Hdis 1%nat. hword Hsz Hdis 2%nat W0. hstep Hsz Hdis 3%nat. hword Hsz Hdis 4%nat W1.
  hstep Hsz Hdis 5%nat. rewrite He. hword Hsz Hdis 6%nat W2. hword Hsz Hdis 7%nat W3. hstep Hsz Hdis 8%nat. hword Hsz Hdis 9%nat W3.
  hstep Hsz Hdis 10%nat. rewrite He. hstep Hsz Hdis 11%nat. rewrite (u64_small (p + 4) Hu). hword Hsz Hdis 12%nat W4.
  hstep Hsz Hdis 13%nat. rewrite (Hepc _ _ H4). hstep Hsz Hdis 14%nat. rewrite Hsc. hstep Hsz Hdis 15%nat.
  eexists _, _. split; [reflexivity|]. autorewrite with isa. split_and!; try reflexivity.
  - intros r Hr. autorewrite with isa. destruct (decide (r = t0)) as [->|]; now autorewrite with isa.
  - unfold mrs_record. now rewrite !ld_st_other by lia.
Qed.
End MrsRun.

(** An operand is in none of the registers the blocks and entries use. *)
Definition free (r : Z) : Prop := r <> 0 /\ r <> a0 /\ r <> a1 /\ r <> t0 /\ r <> t1.

Lemma unmapped_u64 : u64 UNMAPPED_ADDR = UNMAPPED_ADDR.
Proof. reflexivity. Qed.
Lemma unmapped_load : u64 (UNMAPPED_ADDR + 0) = UNMAPPED_ADDR.
Proof. reflexivity. Qed.
Lemma sentinel_u64 : u64 SENTINEL_A0 = SENTINEL_A0.
Proof. reflexivity. Qed.
Lemma resume_u64 : u64 RESUME_MARKER = RESUME_MARKER.
Proof. reflexivity. Qed.
#[export] Hint Rewrite unmapped_u64 unmapped_load sentinel_u64 resume_u64 : isa.

Section Mrs.
Context {U : Type} `{!UartDev U, !UartSpec U}.
Context (legal : string -> Z -> Z -> Z) (mapped : Z -> bool) (sz : tins -> Z) (base hbase area marker : Z).
Context (fault resume a0out a1out slot : Z).
Abbreviation code := (mrs_code fault resume a0out a1out slot).
Abbreviation hcode := mrs_trap_entry.
Abbreviation ok := (word_ok mapped sz base code hbase hcode).
Abbreviation trun := (trun legal mapped sz base code hbase hcode).
Abbreviation fpc := (addr sz base code 4).
Hypothesis Hsz : forall i, 0 < sz i.
Hypothesis Hlw : sz (Plain (Lw a0 0 a1)) = 4.
Hypothesis Hdis : addr sz base code (length code) < hbase \/ addr sz hbase hcode (length hcode) <= base.
Hypothesis Hsc : forall o x, legal "mscratch"%string o x = x.
Hypothesis Hepc : forall o x, Z.land x 1 = 0 -> legal "mepc"%string o x = x.
Hypothesis Hbad : mapped UNMAPPED_ADDR = false.
Hypothesis Harea : ok area /\ ok (area + 8) /\ ok (area + 16) /\ ok (area + 24) /\ ok (area + 32).
Hypothesis Hfpc : is_u64 fpc /\ is_u64 (fpc + 4) /\ Z.land (fpc + 4) 1 = 0.
Hypothesis Htv : Z.land hbase (u64 (Z.lnot 3)) = hbase.
Hypothesis Hfree : free fault /\ free resume /\ (slot <> 0 /\ slot <> a0 /\ slot <> a1 /\ slot <> t0).
Hypothesis Hslot : slot <> fault /\ slot <> resume /\ fault <> resume.

(** Up to the store of the marker: the entry leaves its last value in t1. *)
Lemma mrs_to_store s csr t st d : csr "mtvec"%string = hbase -> csr "mscratch"%string = area ->
  exists s' csr', trun 64 (Mach (jump base (load_ops [(slot, marker)] s)) csr t st d) = trun 42 (Mach s' csr' t st d) /\
    pc s' = addr sz base code 6 /\ rget s' fault = fpc /\ rget s' resume = fpc + 4 /\
    rget s' a0 = SENTINEL_A0 /\ rget s' a1 = UNMAPPED_ADDR /\ rget s' t0 = RESUME_MARKER /\
    rget s' slot = (if slot =? t1 then fpc + 4 else marker) /\
    mem s' = mrs_record area 5 UNMAPPED_ADDR fpc (mem s) /\
    csr' "mtvec"%string = hbase /\ csr' "mscratch"%string = area /\ csr' "mie"%string = csr "mie"%string.
Proof.
  intros Ht Hs. destruct Hfree as ((F0 & F1 & F2 & F3 & F4) & (R0 & R1 & R2 & R3 & R4) & (S0 & S1 & S2 & S3)).
  destruct Hslot as (Hsf & Hsr & Hfr). destruct Hfpc as (Hu & Hu4 & H4).
  assert (addr sz base code 5 = fpc + 4) as E5 by t_pc.
  cbn [load_ops fold_left fst snd].
  bstep Hsz Hdis 0%nat. bstep Hsz Hdis 1%nat. rewrite E5. bstep Hsz Hdis 2%nat. bstep Hsz Hdis 3%nat. bstep Hsz Hdis 4%nat.
  rewrite Hbad. t_red. rewrite Ht, Htv.
  match goal with |- context [trun _ (Mach ?x ?y _ _ _)] =>
    destruct (mrs_handler legal mapped sz base code hbase area Hsz Hdis Hsc Hepc Harea 43 x y t st d fpc)
      as (s1 & c1 & E & Hp & H1 & Hr & Hm & C1 & C2 & C3) end; [reflexivity|now autorewrite with isa| |exact Hu4|exact H4|].
  { t_pc. }
  cbn [Nat.add] in E. rewrite E. autorewrite with isa in Hm, C1, C3. rewrite <-E5 in Hp. bstep Hsz Hdis 5%nat.
  eexists _, _. split; [reflexivity|]. autorewrite with isa. rewrite Hp, (Hr fault), (Hr resume), (Hr a0), (Hr a1) by (assumption || discriminate).
  autorewrite with isa. split_and!; try reflexivity; try assumption; try congruence.
  - t_pc.
  - destruct (Z.eqb_spec slot t1) as [->|]; [exact H1|]. rewrite Hr by assumption. now autorewrite with isa.
Qed.

(** The memory after the block. *)
Definition mrs_mem (m : Z -> Z) : Z -> Z := st_bytes 8 marker RESUME_MARKER (mrs_record area 5 UNMAPPED_ADDR fpc m).

Lemma mrs_asm_runs e m d g : free slot -> free a0out -> free a1out -> NoDup [fault; resume; a0out; a1out] -> ok marker ->
  vruns (U:=U) (G:=pglob) (tvw all_mem) (mrs_asm legal mapped sz base hbase marker fault resume a0out a1out slot) (TView hbase area e m d) g
    [fpc; fpc + 4; SENTINEL_A0; UNMAPPED_ADDR] [] (TView hbase area e (mrs_mem m) d) g.
Proof.
  intros (_ & _ & _ & _ & Hs1) (X0 & X1 & X2 & X3 & X4) (Y0 & Y1 & Y2 & Y3 & Y4) Hnd Hok.
  apply NoDup_cons in Hnd as [N1 Hnd]. apply NoDup_cons in Hnd as [N2 Hnd]. apply NoDup_cons in Hnd as [N3 _].
  repeat match goal with H : _ ∉ _ :: _ |- _ => apply not_elem_of_cons in H as [? ?] end.
  apply tasm_runs. unfold all_mem. intros s csr t st d0 Ht Hs Hm.
  destruct (mrs_to_store s csr t st d0 Ht Hs) as (s' & c' & E & Hp & Ef & Er & Ea0 & Ea1 & Et0 & Esl & Em & C1 & C2 & C3).
  rewrite (proj2 (Z.eqb_neq slot t1) Hs1) in Esl. eexists _, _. unfold trap_fuel. rewrite E.
  erewrite (trun_block _ _ _ _ _ _ _ Hsz Hdis 6%nat); [|exact Hp|reflexivity].
  rewrite (sd_ok _ _ _ _ _ _ _ _ _ _ _ _ _ _ _ _ marker Hok) by (rewrite Esl; apply Z.add_0_r). rewrite Hp.
  bstep Hsz Hdis 7%nat. bstep Hsz Hdis 8%nat. rewrite trun_end by (cbn [mt_core]; t_pc). split_and!; [reflexivity| | |exact C1|exact C2|exact C3].
  - cbn [map]. autorewrite with isa. now rewrite Ef, Er, Ea0, Ea1.
  - autorewrite with isa. rewrite Em, Et0, Hm. reflexivity.
Qed.

(** The marker's address in the register the trap entry overwrites. *)
Lemma mrs_slot_t1 s csr t st d : slot = t1 -> csr "mtvec"%string = hbase -> csr "mscratch"%string = area -> mapped (fpc + 4) = true ->
  trun 64 (Mach (jump base (load_ops [(slot, marker)] s)) csr t st d) = TWrote (fpc + 4).
Proof.
  intros Es Ht Hs Hmp. destruct (mrs_to_store s csr t st d Ht Hs) as (s' & c' & E & Hp & _ & _ & _ & _ & _ & Esl & _). rewrite E.
  rewrite Es in Esl at 2. cbn [Z.eqb t1 Pos.eqb] in Esl. destruct Hfpc as (_ & Hu4 & _).
  erewrite (trun_block _ _ _ _ _ _ _ Hsz Hdis 6%nat); [|exact Hp|reflexivity]. t_red.
  rewrite Esl, Z.add_0_r, (u64_small _ Hu4), Hmp, store_code; [reflexivity|].
  assert (base < fpc + 4 + 8 /\ fpc + 4 < addr sz base code 9) as [H1 H2].
  { pose proof (offset_pos sz Hsz code 4). pose proof (offset_end sz Hsz code 5 ltac:(cbn; lia)) as Ho. change (length code) with 9%nat in Ho.
    assert (addr sz base code 5 = fpc + 4) by t_pc. unfold addr in *. t_lia. }
  unfold in_code, in_range. change (length code) with 9%nat. change (Z.of_nat 8) with 8.
  destruct (Z.ltb_spec base (fpc + 4 + 8)), (Z.ltb_spec (fpc + 4) (addr sz base code 9)); (reflexivity || t_lia).
Qed.

(** ** The run of mrs_main.c *)

Section Main.
Context (e d : Z) (m : Z -> Z).
Hypothesis Hdist : marker + 8 <= area \/ area + 40 <= marker.
Hypothesis Hmark : ok marker.
(** BSS is zero; the text holds the encoded load. *)
Hypothesis Hzero : ld_bytes 8 (area + 24) m = 0.
Hypothesis Henc : ld_bytes 4 fpc m = INSN_LW_A0_A1.

Lemma word_off_code a : ok a -> a + 8 <= fpc \/ fpc + 4 <= a.
Proof using Hsz Hlw.
  intros (_ & _ & _ & Hc). unfold in_code, in_range in Hc. apply orb_false_elim in Hc as [Hc _].
  assert (base <= fpc /\ fpc + 4 < addr sz base code (length code)) as [Hl Hr].
  { pose proof (offset_pos sz Hsz code 4). pose proof (offset_end sz Hsz code 5 ltac:(cbn; lia)).
    assert (addr sz base code 5 = fpc + 4) by t_pc. unfold addr in *. t_lia. }
  apply andb_false_elim in Hc as [Hc|Hc]; apply Z.ltb_ge in Hc; [left|right]; t_lia.
Qed.

Lemma mrs_readings :
  ld_bytes 8 area (mrs_mem m) = 5 /\ ld_bytes 8 (area + 8) (mrs_mem m) = UNMAPPED_ADDR /\ ld_bytes 8 (area + 16) (mrs_mem m) = fpc /\
  ld_bytes 8 (area + 24) (mrs_mem m) = 1 /\ ld_bytes 8 (area + 32) (mrs_mem m) = fpc + 4 /\
  ld_bytes 4 fpc (mrs_mem m) = INSN_LW_A0_A1 /\ ld_bytes 8 marker (mrs_mem m) = RESUME_MARKER.
Proof using Hsz Hlw Harea Hfpc Hdist Hmark Hzero Henc.
  destruct Hfpc as (Hu & Hu4 & _). destruct Harea as (W0 & W1 & W2 & W3 & W4).
  pose proof (word_off_code _ W0) as O0. pose proof (word_off_code _ W1) as O1. pose proof (word_off_code _ W2) as O2.
  pose proof (word_off_code _ W3) as O3. pose proof (word_off_code _ W4) as O4. pose proof (word_off_code _ Hmark) as O5.
  clear W0 W1 W2 W3 W4. unfold is_u64 in Hu, Hu4. assert (0 <= UNMAPPED_ADDR < 2 ^ 64 /\ 0 <= RESUME_MARKER < 2 ^ 64 /\ 0 <= u64 (0 + 1) < 2 ^ 64)
    as (B1 & B2 & B3) by (vm_compute; split_and!; congruence). clear Hfree Hslot. unfold mrs_mem, mrs_record. rewrite Hzero. clear Hzero.
  split_and!; repeat (first [rewrite ld_st_same by (split; [lia|change (256 ^ Z.of_nat 8) with (2 ^ 64); lia]); reflexivity
    | rewrite ld_st_other by lia]); exact Henc.
Qed.

Definition mrs_log : list Z :=
  lit "mepc-resume-skip: handler adds 4 to mepc, fault skipped once\n" ++ setup_text hbase e ++
  lit "addrs: fault=" ++ fmt_hex fpc ++ lit " resume=" ++ fmt_hex (fpc + 4) ++
  lit " delta=4\ntrap: count=1 mcause=0x5 mtval=0xffffffffc0000000\nmepc: before=" ++ fmt_hex fpc ++ lit " after=" ++ fmt_hex (fpc + 4) ++
  lit " delta=4 insn@mepc_before=0x5a503\npost: marker=0xdeadbeefdeadbeef a0=0xa0a0a0a0a0a0a0a0 a1=0xffffffffc0000000\nRESULT: " ++
  (if e =? 0 then lit "PASS" else lit "FAIL") ++ lit " (traps=1)\n".

Abbreviation vr := (vruns (U:=U) (H:=mach legal) (G:=pglob) (tvw all_mem)).

Lemma mrs_report_runs v g : v_mem v = mrs_mem m ->
  vr (mrs_report legal marker fpc (fpc + 4) SENTINEL_A0 UNMAPPED_ADDR 5 UNMAPPED_ADDR fpc 1 (fpc + 4) INSN_LW_A0_A1) v g tt
    (lit "addrs: fault=" ++ fmt_hex fpc ++ lit " resume=" ++ fmt_hex (fpc + 4) ++
     lit " delta=4\ntrap: count=1 mcause=0x5 mtval=0xffffffffc0000000\nmepc: before=" ++ fmt_hex fpc ++ lit " after=" ++ fmt_hex (fpc + 4) ++
     lit " delta=4 insn@mepc_before=0x5a503\npost: marker=0xdeadbeefdeadbeef a0=0xa0a0a0a0a0a0a0a0 a1=0xffffffffc0000000\n") v g.
Proof using Hsz Hlw Harea Hfpc Hdist Hmark Hzero Henc UartSpec0.
  intros Hv. destruct mrs_readings as (_ & _ & _ & _ & _ & _ & Rm). destruct Hfpc as (Hu & Hu4 & _).
  unfold mrs_report. replace (fpc + 4 - fpc) with 4 by (generalize fpc; intros; lia). change (u64 4) with 4. eapply vruns_conv.
  - do 24 vstep. eapply vruns_bind0; [apply vol_runs; rewrite Hv; exact Rm|]. do 6 vstep.
  - reflexivity.
  - generalize (fmt_hex fpc) (fmt_hex (fpc + 4)). intros. rewrite <-?app_assoc. vm_compute. reflexivity.
  - reflexivity.
  - reflexivity.
Qed.

Lemma mrs_checks_run v s bs n c : v_mem v = mrs_mem m ->
  vr (mrs_checks legal marker fpc (fpc + 4) SENTINEL_A0 UNMAPPED_ADDR 5 UNMAPPED_ADDR fpc 1 (fpc + 4) INSN_LW_A0_A1) v (ws s bs n c) tt []
    v (ws s (bs ++ replicate 11 true) n c).
Proof using Hsz Hlw Harea Hfpc Hdist Hmark Hzero Henc UartSpec0.
  intros Hv. destruct mrs_readings as (_ & _ & _ & _ & _ & _ & Rm). unfold mrs_checks.
  replace (fpc + 4 - fpc) with 4 by (generalize fpc; intros; lia). rewrite !Z.eqb_refl. eapply vruns_conv.
  - do 8 (eapply vruns_bind; [now apply ncheck_runs|]). eapply vruns_bind0; [apply vol_runs; rewrite Hv; exact Rm|].
    do 2 (eapply vruns_bind; [now apply ncheck_runs|]). now apply ncheck_runs.
  - reflexivity.
  - reflexivity.
  - reflexivity.
  - rewrite <-!app_assoc. reflexivity.
Qed.

Lemma setup_verdict entry bs : Z.land entry (u64 (Z.lnot 3)) = entry -> forallb id bs = true ->
  forallb id (setup_checks entry e ++ bs) = (e =? 0) /\ nfalse (setup_checks entry e ++ bs) = (if e =? 0 then 0 else 1).
Proof using.
  intros Ht Hb. assert (setup_checks entry e = [true; true; e =? 0]) as ->.
  { unfold setup_checks. rewrite Ht, Z.eqb_refl. f_equal. f_equal. rewrite <-Ht, <-Z.land_assoc.
    change (Z.land (u64 (Z.lnot 3)) 3) with 0. now rewrite Z.land_0_r. }
  assert (nfalse bs = 0) as Hn by (apply Z.eqb_eq; now rewrite nfalse_zero). unfold nfalse in *. cbn [app forallb id].
  rewrite Hb, andb_true_r. split; [reflexivity|]. rewrite !filter_cons. rewrite !decide_False by discriminate.
  destruct (e =? 0); [rewrite decide_False by discriminate; exact Hn|]. rewrite decide_True by reflexivity. cbn [length]. lia.
Qed.

(** C22: mepc-resume-skip.  With the operands in registers that neither the
    block nor the trap entry uses, the load from the unmapped address traps
    exactly once with its own address in mepc, the entry resumes at the next
    instruction, the marker is stored, a0 and a1 keep their values, and the
    program prints its whole log; it passes exactly if mie was zero. *)
Theorem mepc_resume_skip t sc : free slot -> free a0out -> free a1out -> NoDup [fault; resume; a0out; a1out] ->
  is_u64 e -> is_u64 hbase -> legal "mtvec"%string t hbase = hbase ->
  vmain_sends (U:=U) (tvw all_mem) (mrs_main legal mapped sz base hbase area marker fault resume a0out a1out slot) (TView t sc e m d) (probe_boot 0)
    mrs_log (fun v g => v_test v = (if e =? 0 then FINISHER_PASS else d) /\ v_mem v = mrs_mem m /\ fails g = (if e =? 0 then 0 else 1)).
Proof.
  intros Hs Hx Hy Hnd He Hb Hlg. destruct mrs_readings as (R0 & R1 & R2 & R3 & R4 & R5 & _).
  destruct (setup_verdict hbase (replicate 11 true) Htv eq_refl) as [Ev Ef]. apply vmain_sends_intro; [|unfold mrs_log, setup_text; warl_bytes].
  eexists _, _, (ws [] _ _ _). split; [|split].
  - unfold mrs_body. change (probe_boot 0) with (ws [] [] 0 FNV_BASIS). vstep.
    eapply vhalts_bind; [apply trap_setup_runs; [exact Hlg|apply Hsc|exact Hb|exact He]|].
    eapply vhalts_bind0; [now apply mrs_asm_runs|]. cbv zeta. cbn [nth].
    eapply vhalts_bind0; [apply vol_runs; exact R0|]. eapply vhalts_bind0; [apply vol_runs; exact R1|].
    eapply vhalts_bind0; [apply vol_runs; exact R2|]. eapply vhalts_bind0; [apply vol_runs; exact R3|].
    eapply vhalts_bind0; [apply vol_runs; exact R4|]. eapply vhalts_bind0; [apply vol_runs; exact R5|].
    eapply vhalts_bind; [now apply mrs_report_runs|]. eapply vhalts_bind0; [now apply mrs_checks_run|].
    eapply vhalts_bind; [apply trap_result_runs; u64c|]. apply trap_finish_halts.
  - rewrite app_nil_l, Ev. unfold mrs_log. generalize (setup_text hbase e) (fmt_hex fpc) (fmt_hex (fpc + 4)). intros.
    destruct (e =? 0); rewrite <-?app_assoc; vm_compute; reflexivity.
  - cbn [app v_test v_mem fails ws]. rewrite Ev, Ef. split_and!; reflexivity.
Qed.
End Main.

(** C40: The constraints of the block also allow the compiler to keep the
    address of the marker in t1, which the trap entry overwrites without
    the block declaring it.  Then the marker is stored over the code behind
    the faulting load, and the program's behaviour is undefined. *)
Theorem mepc_resume_t1 t sc e d m u h : slot = t1 -> mapped (fpc + 4) = true -> legal "mtvec"%string t hbase = hbase ->
  is_u64 e -> is_u64 hbase -> tvw all_mem h = TView t sc e m d ->
  mrs_main (U:=U) legal mapped sz base hbase area marker fault resume a0out a1out slot (World u h (probe_boot 0)) = Undef.
Proof.
  intros Hs Hm Hlg He Hb Hv. unfold mrs_main. rewrite (bind_ret_eq _ _ _ _ _ (uart_init_eq _)). cbn [set_uart w_uart w_hw w_glob].
  unfold mrs_body. change (probe_boot 0) with (ws [] [] 0 FNV_BASIS).
  destruct ((ltac:(vstep; apply trap_setup_runs; [exact Hlg|apply Hsc|exact Hb|exact He]) :
    vruns (U:=U) (tvw all_mem) (uputs "mepc-resume-skip: handler adds 4 to mepc, fault skipped once\n" ;; trap_setup legal hbase area)
      (TView t sc e m d) (ws [] [] 0 FNV_BASIS) tt _ _ _) (inited u) h Hv) as (h1 & E & Hv1).
  rewrite <-bind_assoc, (bind_ret_eq _ _ _ _ _ E). unfold bind at 1, mrs_asm, tasm. cbn [w_hw]. destruct h1 as [s1 c1 t1' st1 d1].
  injection Hv1 as Ht1 Hs1 _ _ _. unfold with_core, trap_fuel. cbn [mt_core mt_csr mt_time mt_step mt_test].
  now rewrite (mrs_slot_t1 s1 c1 t1' st1 d1 Hs Ht1 Hs1 Hm).
Qed.
End Mrs.

(** ** Witnesses *)

(** A hart that legalises nothing; RAM below [2^63]. *)
Definition demo_tsz (i : tins) : Z := match i with Plain (La _ _) => 8 | Plain (Li _ _) => 20 | C_ebreak => 2 | _ => 4 end.
Definition demo_legal (_ : string) (_ x : Z) : Z := x.
Definition demo_mapped (a : Z) : bool := a <? 2 ^ 63.
Lemma demo_tsz_pos i : 0 < demo_tsz i.
Proof. destruct i as [[]| | | | | |]; reflexivity. Qed.

(** The load is at 0x80000138. *)
Definition mrs_demo_mem (a : Z) : Z := st_bytes 4 0x80000138 INSN_LW_A0_A1 (fun _ => 0) a.
Ltac demo := unfold word_ok, free; repeat match goal with |- _ /\ _ => split end; first [reflexivity|discriminate|u64c|vm_compute; reflexivity].

Lemma mepc_resume_skip_witness :
  vmain_sends (U:=LogUart) (tvw all_mem) (mrs_main demo_legal demo_mapped demo_tsz 0x80000100 0x80000300 0x80000500 0x80000600 18 19 20 21 22)
    (TView 0 0 0 mrs_demo_mem 0) (probe_boot 0)
    (lit "mepc-resume-skip: handler adds 4 to mepc, fault skipped once\nsetup: mtvec=0x80000300 mie=0x0\n" ++
     lit "addrs: fault=0x80000138 resume=0x8000013c delta=4\ntrap: count=1 mcause=0x5 mtval=0xffffffffc0000000\n" ++
     lit "mepc: before=0x80000138 after=0x8000013c delta=4 insn@mepc_before=0x5a503\n" ++
     lit "post: marker=0xdeadbeefdeadbeef a0=0xa0a0a0a0a0a0a0a0 a1=0xffffffffc0000000\nRESULT: PASS (traps=1)\n")
    (fun v g => v_test v = FINISHER_PASS /\
       v_mem v = mrs_mem demo_tsz 0x80000100 0x80000500 0x80000600 18 19 20 21 22 mrs_demo_mem /\ fails g = 0).
Proof.
  replace (lit _ ++ lit _ ++ lit _ ++ lit _) with (mrs_log demo_tsz 0x80000100 0x80000300 18 19 20 21 22 0) by (vm_compute; reflexivity).
  apply (mepc_resume_skip (U:=LogUart) demo_legal demo_mapped demo_tsz 0x80000100 0x80000300 0x80000500 0x80000600 18 19 20 21 22 demo_tsz_pos eq_refl
    ltac:(left; vm_compute; reflexivity) ltac:(reflexivity) ltac:(reflexivity) eq_refl ltac:(demo)
    ltac:(demo) eq_refl ltac:(demo) ltac:(demo)
    0 0 mrs_demo_mem ltac:(lia) ltac:(demo) ltac:(demo) ltac:(demo)).
  1-3: demo.
  - now apply (bool_decide_unpack _).
  - u64c.
  - u64c.
  - reflexivity.
Defined.

Lemma mepc_resume_t1_witness :
  mrs_main (U:=LogUart) demo_legal demo_mapped demo_tsz 0x80000100 0x80000300 0x80000500 0x80000600 18 19 20 21 t1
    (World (LogU [] []) (Mach (Core 0 (fun _ => 0) mrs_demo_mem) (fun _ => 0) 0 0 0) (probe_boot 0)) = Undef.
Proof.
  apply (mepc_resume_t1 (U:=LogUart) demo_legal demo_mapped demo_tsz 0x80000100 0x80000300 0x80000500 0x80000600 18 19 20 21 t1 demo_tsz_pos eq_refl
    ltac:(left; vm_compute; reflexivity) ltac:(reflexivity) ltac:(reflexivity) eq_refl ltac:(demo)
    ltac:(demo) eq_refl ltac:(demo) ltac:(demo) 0 0 0 0 mrs_demo_mem).
  - reflexivity.
  - reflexivity.
  - reflexivity.
  - u64c.
  - u64c.
  - reflexivity.
Defined.
