(* ===== verification/TripProbes.v ===== *)
(** * Two traps in a row

    src/mtval-fault-address/: two blocks of inline assembly trap once each; the
    trap entry keeps one record per trap, takes the address to resume at from
    the record, and gives every register back.  The words in which the entry
    parks t1 and t2 hold what the compiler had in them, so the program sees the
    other words of the area only. *)

From Stdlib Require Import ZArith Lia String.
From stdpp Require Import base list.
From S2P Require Import Prelude Uart Hart Run View Pmp PmpEdge Warl CsrProbes Isa TrapIsa TrapProbes.

Definition INSN_SW_A0_A1 : Z := 0x00A5A023.

(** ** mfa_trap.S, mfa_main.c: the code *)

Definition mfa_trap_entry : list tins :=
  [ Csrrw t0 "mscratch" t0;
    Plain (Sd t1 72 t0); Plain (Sd t2 80 t0);
    Plain (Ld t1 64 t0); Plain (Slli t1 t1 5); Plain (Add t1 t1 t0);
    Csrr t2 "mcause"; Plain (Sd t2 0 t1);
    Csrr t2 "mtval"; Plain (Sd t2 8 t1);
    Csrr t2 "mepc"; Plain (Sd t2 16 t1);
    Plain (Ld t2 24 t1); Csrw "mepc" t2;
    Plain (Ld t2 80 t0);
    Plain (Ld t1 64 t0); Plain (Addi t1 t1 1); Plain (Sd t1 64 t0);
    Plain (Ld t1 72 t0);
    Csrrw t0 "mscratch" t0;
    Mret ].

(** The load test and the store test; the operands [fault], [resume],
    [a0out], [a1out] and [save]. *)
Definition mfa_access (store : bool) : ins := if store then Sw a0 0 a1 else Lw a0 0 a1.
Definition mfa_off (store : bool) : Z := if store then 56 else 24.
Definition mfa_code (store : bool) (fault resume a0out a1out save : Z) : list tins :=
  [ Plain (La fault 5); Plain (La resume 6);
    Plain (Sd resume (mfa_off store) save);
    Plain (Li a0 SENTINEL_A0); Plain (Li a1 UNMAPPED_ADDR);
    Plain (mfa_access store);
    Plain (Mv a0out a0); Plain (Mv a1out a1) ].

Section Program.
Context {U : Type} `{!UartDev U} (legal : string -> Z -> Z -> Z) (mapped : Z -> bool) (sz : tins -> Z).
Abbreviation W := (world U (mach legal) pglob).

(** ** mfa_main.c *)

(** The registers of a block's operands. *)
Record operands : Type := Operands { o_fault : Z; o_resume : Z; o_a0 : Z; o_a1 : Z; o_save : Z }.

Definition mfa_asm (store : bool) (base hbase area : Z) (o : operands) : prog W (list Z) :=
  tasm legal mapped sz base (mfa_code store (o_fault o) (o_resume o) (o_a0 o) (o_a1 o) (o_save o)) hbase mfa_trap_entry
    [(o_save o, area)] [o_fault o; o_resume o; o_a0 o; o_a1 o].

(** One access: the captured addresses and the record. *)
Definition mfa_access_lines (tag tag2 : string) (fault resume mcause mepc mtval insn : Z) : prog W unit :=
  uputs tag ;; uart_put_hex fault ;;
  uputs " resume=" ;; uart_put_hex resume ;;
  uputs " delta=" ;; uart_put_dec (u64 (resume - fault)) ;; uputs "\n" ;;
  uputs tag2 ;; uart_put_hex mcause ;;
  uputs " mepc=" ;; uart_put_hex mepc ;;
  uputs " mtval=" ;; uart_put_hex mtval ;;
  uputs " insn=" ;; uart_put_hex insn ;; uputs "\n".

Definition mfa_compare (mtval_load mtval_store a0_load a1_load a0_store a1_store : Z) : prog W unit :=
  uputs "compare: mtval_load=" ;; uart_put_hex mtval_load ;;
  uputs " mtval_store=" ;; uart_put_hex mtval_store ;;
  uputs " equal=" ;; uputs (if mtval_load =? mtval_store then "yes" else "no") ;;
  uputs " unmapped=" ;; uart_put_hex UNMAPPED_ADDR ;; uputs "\n" ;;
  uputs "post: a0_load=" ;; uart_put_hex a0_load ;;
  uputs " a1_load=" ;; uart_put_hex a1_load ;;
  uputs " a0_store=" ;; uart_put_hex a0_store ;;
  uputs " a1_store=" ;; uart_put_hex a1_store ;; uputs "\n".

(** [fault], [resume], a0 and a1 after the block, mcause, mtval, mepc and the
    instruction of one access. *)
Record access : Type := Access
  { c_fault : Z; c_resume : Z; c_a0 : Z; c_a1 : Z; c_mcause : Z; c_mtval : Z; c_mepc : Z; c_insn : Z }.

Definition mfa_checks (count : Z) (l s : access) : prog W unit :=
  ncheck (count =? 2) "trap count != 2" ;;
  ncheck (c_mcause l =? MCAUSE_LOAD_ACCESS_FAULT) "load mcause != 5 (load access fault)" ;;
  ncheck (c_mcause s =? MCAUSE_STORE_ACCESS_FAULT) "store mcause != 7 (store access fault)" ;;
  ncheck (c_mepc l =? c_fault l) "load mepc != captured fault address" ;;
  ncheck (c_mepc s =? c_fault s) "store mepc != captured fault address" ;;
  ncheck (u64 (c_resume l - c_fault l) =? 4) "load resume - fault != 4 (faulting insn not 4 bytes?)" ;;
  ncheck (u64 (c_resume s - c_fault s) =? 4) "store resume - fault != 4 (faulting insn not 4 bytes?)" ;;
  ncheck (c_insn l =? INSN_LW_A0_A1) "instruction at load fault address is not lw a0,0(a1)" ;;
  ncheck (c_insn s =? INSN_SW_A0_A1) "instruction at store fault address is not sw a0,0(a1)" ;;
  ncheck (c_mtval l =? UNMAPPED_ADDR) "load mtval != unmapped address" ;;
  ncheck (c_mtval s =? UNMAPPED_ADDR) "store mtval != unmapped address" ;;
  ncheck (c_mtval l =? c_mtval s) "mtval differs between load and store fault" ;;
  ncheck (c_a0 l =? SENTINEL_A0) "a0 changed: faulting load committed" ;;
  ncheck (c_a1 l =? UNMAPPED_ADDR) "a1 changed: handler clobbered the faulting address (load)" ;;
  ncheck (c_a0 s =? SENTINEL_A0) "a0 changed across the store fault" ;;
  ncheck (c_a1 s =? UNMAPPED_ADDR) "a1 changed: handler clobbered the faulting address (store)".

(** The blocks at [base1] and [base2]. *)
Definition mfa_body (base1 base2 hbase area : Z) (o1 o2 : operands) : prog W unit :=
  uputs "mtval-fault-address: load vs store fault mtval agreement\n" ;;
  trap_setup legal hbase area ;;
  l <- mfa_asm false base1 hbase area o1 ;;
  s <- mfa_asm true base2 hbase area o2 ;;
  mcause_load <- vol legal 8 area ;;
  mtval_load <- vol legal 8 (area + 8) ;;
  mepc_load <- vol legal 8 (area + 16) ;;
  mcause_store <- vol legal 8 (area + 32) ;;
  mtval_store <- vol legal 8 (area + 40) ;;
  mepc_store <- vol legal 8 (area + 48) ;;
  count <- vol legal 8 (area + 64) ;;
  insn_load <- vol legal 4 mepc_load ;;
  insn_store <- vol legal 4 mepc_store ;;
  let cl := Access (nth 0 l 0) (nth 1 l 0) (nth 2 l 0) (nth 3 l 0) mcause_load mtval_load mepc_load insn_load in
  let cs := Access (nth 0 s 0) (nth 1 s 0) (nth 2 s 0) (nth 3 s 0) mcause_store mtval_store mepc_store insn_store in
  mfa_access_lines "load:  fault=" "load trap:  mcause=" (c_fault cl) (c_resume cl) mcause_load mepc_load mtval_load insn_load ;;
  mfa_access_lines "store: fault=" "store trap: mcause=" (c_fault cs) (c_resume cs) mcause_store mepc_store mtval_store insn_store ;;
  mfa_compare mtval_load mtval_store (c_a0 cl) (c_a1 cl) (c_a0 cs) (c_a1 cs) ;;
  mfa_checks count cl cs ;;
  trap_result legal count ;;
  trap_finish legal.
Definition mfa_main (base1 base2 hbase area : Z) (o1 o2 : operands) : prog W unit :=
  uart_init ;; mfa_body base1 base2 hbase area o1 o2.
End Program.

#[export] Hint Unfold mfa_trap_entry mfa_code : tcode.

(** ** The trap entry of mtval-fault-address *)

Section MfaRun.
Context (legal : string -> Z -> Z -> Z) (mapped : Z -> bool) (sz : tins -> Z) (base : Z) (code : list tins) (hbase area : Z).
Hypothesis Hsz : forall i, 0 < sz i.
Abbreviation hcode := mfa_trap_entry.
Hypothesis Hdis : addr sz base code (length code) < hbase \/ addr sz hbase hcode (length hcode) <= base.
Hypothesis Hsc : forall o x, legal "mscratch"%string o x = x.
Hypothesis Hepc : forall o x, Z.land x 1 = 0 -> legal "mepc"%string o x = x.
Abbreviation ok := (word_ok mapped sz base code hbase hcode).
Abbreviation trun := (trun legal mapped sz base code hbase hcode).
Hypothesis Harea : forall i, 0 <= i < 12 -> ok (area + 8 * i).

(** [mfa_regs] after trap number [c]; [x] and [y] were in t1 and t2. *)
Definition mfa_record (c cause tval p x y : Z) (m : Z -> Z) : Z -> Z :=
  st_bytes 8 (area + 64) (c + 1) (st_bytes 8 (area + 32 * c + 16) p (st_bytes 8 (area + 32 * c + 8) tval
    (st_bytes 8 (area + 32 * c) cause (st_bytes 8 (area + 80) y (st_bytes 8 (area + 72) x m))))).

Lemma mfa_handler f s csr t st d p c rs : (c = 0 \/ c = 1) -> pc s = hbase -> csr "mscratch"%string = area -> csr "mepc"%string = p ->
  ld_bytes 8 (area + 64) (mem s) = c -> ld_bytes 8 (area + 32 * c + 24) (mem s) = rs -> Z.land rs 1 = 0 ->
  exists s' csr', trun (21 + f) (Mach s csr t st d) = trun f (Mach s' csr' t st d) /\
    pc s' = rs /\ (forall r, is_u64 (rget s r) -> rget s' r = rget s r) /\
    mem s' = mfa_record c (csr "mcause"%string) (csr "mtval"%string) p (rget s t1) (rget s t2) (mem s) /\
    csr' "mtvec"%string = csr "mtvec"%string /\ csr' "mscratch"%string = area /\ csr' "mie"%string = csr "mie"%string.
Proof.
  intros Hc Hp Hs He Hn Hr H4.
  assert (ok (area + 72)) as W9 by exact (Harea 9 ltac:(lia)). assert (ok (area + 80)) as W10 by exact (Harea 10 ltac:(lia)).
  assert (ok (area + 64)) as W8 by exact (Harea 8 ltac:(lia)).
  assert (ok (area + 32 * c) /\ ok (area + 32 * c + 8) /\ ok (area + 32 * c + 16) /\ ok (area + 32 * c + 24)) as (R0 & R1 & R2 & R3).
  { replace (area + 32 * c) with (area + 8 * (4 * c)) by lia. replace (area + 8 * (4 * c) + 8) with (area + 8 * (4 * c + 1)) by lia.
    replace (area + 8 * (4 * c) + 16) with (area + 8 * (4 * c + 2)) by lia. replace (area + 8 * (4 * c) + 24) with (area + 8 * (4 * c + 3)) by lia.
    split_and!; apply Harea; lia. }
  assert (u64 (u64 (Z.shiftl c 5) + area) = area + 32 * c) as Ea.
  { replace (u64 (Z.shiftl c 5)) with (32 * c) by (destruct Hc as [-> | ->]; reflexivity).
    rewrite Z.add_comm. apply u64_small, R0. }
  assert (u64 (c + 1) = c + 1) as Ec by (destruct Hc as [-> | ->]; reflexivity).
  assert (0 <= c) as Hc0 by lia. assert (c <= 1) as Hc1 by lia. clear Hc. cbn [Nat.add].
  hstep Hsz Hdis 0%nat. rewrite Hs, Hsc. hword Hsz Hdis 1%nat W9. hword Hsz Hdis 2%nat W10. hword Hsz Hdis 3%nat W8.
  rewrite !ld_st_other, Hn by t_lia. hstep Hsz Hdis 4%nat. hstep Hsz Hdis 5%nat. rewrite Ea. hstep Hsz Hdis 6%nat. hword Hsz Hdis 7%nat R0.
  hstep Hsz Hdis 8%nat. hword Hsz Hdis 9%nat R1. hstep Hsz Hdis 10%nat. rewrite He. hword Hsz Hdis 11%nat R2. hword Hsz Hdis 12%nat R3.
  rewrite !ld_st_other, Hr by t_lia. hstep Hsz Hdis 13%nat. rewrite (Hepc _ _ H4). hword Hsz Hdis 14%nat W10. hword Hsz Hdis 15%nat W8.
  rewrite !(ld_st_other 8 8 (area + 64)), Hn by t_lia. hstep Hsz Hdis 16%nat. rewrite Ec. hword Hsz Hdis 17%nat W8. hword Hsz Hdis 18%nat W9.
  hstep Hsz Hdis 19%nat. rewrite Hsc. hstep Hsz Hdis 20%nat.
  eexists _, _. split; [reflexivity|]. autorewrite with isa. split_and!; try reflexivity.
  intros r Hu. destruct (decide (r = t0)) as [->|]; [now autorewrite with isa|].
  destruct (decide (r = t1)) as [->|]; [autorewrite with isa; rewrite !ld_st_other, ld_st_same by (exact Hu || t_lia); reflexivity|].
  destruct (decide (r = t2)) as [->|]; [|now autorewrite with isa].
  autorewrite with isa. rewrite !(ld_st_other 8 8 (area + 80)) by t_lia. rewrite ld_st_same by exact Hu. reflexivity.
Qed.
End MfaRun.

(** ** The blocks of mtval-fault-address *)

(** The compiler keeps operands out of the declared clobbers. *)
Definition kept (r : Z) : Prop := r <> 0 /\ r <> a0 /\ r <> a1.
Definition ops_kept (o : operands) : Prop :=
  kept (o_fault o) /\ kept (o_resume o) /\ kept (o_a0 o) /\ kept (o_a1 o) /\ kept (o_save o) /\
  NoDup [o_fault o; o_resume o; o_a0 o; o_a1 o] /\ o_save o <> o_fault o /\ o_save o <> o_resume o.

Section MfaBlock.
Context (legal : string -> Z -> Z -> Z) (mapped : Z -> bool) (sz : tins -> Z) (store : bool) (base hbase area : Z) (o : operands).
Abbreviation code := (mfa_code store (o_fault o) (o_resume o) (o_a0 o) (o_a1 o) (o_save o)).
Abbreviation hcode := mfa_trap_entry.
Abbreviation ok := (word_ok mapped sz base code hbase hcode).
Abbreviation trun := (trun legal mapped sz base code hbase hcode).
Abbreviation fpc := (addr sz base code 5).
Abbreviation c := (b2z store).
Hypothesis Hsz : forall i, 0 < sz i.
Hypothesis Hacc : sz (Plain (mfa_access store)) = 4.
Hypothesis Hdis : addr sz base code (length code) < hbase \/ addr sz hbase hcode (length hcode) <= base.
Hypothesis Hsc : forall o x, legal "mscratch"%string o x = x.
Hypothesis Hepc : forall o x, Z.land x 1 = 0 -> legal "mepc"%string o x = x.
Hypothesis Hbad : mapped UNMAPPED_ADDR = false.
Hypothesis Harea : forall i, 0 <= i < 12 -> ok (area + 8 * i).
Hypothesis Hfpc : is_u64 fpc /\ is_u64 (fpc + 4) /\ Z.land (fpc + 4) 1 = 0.
Hypothesis Htv : Z.land hbase (u64 (Z.lnot 3)) = hbase.
Hypothesis Ho : ops_kept o.

Lemma mfa_block s csr t st d : csr "mtvec"%string = hbase -> csr "mscratch"%string = area -> ld_bytes 8 (area + 64) (mem s) = c ->
  exists x y s' csr', trun 64 (Mach (jump base (load_ops [(o_save o, area)] s)) csr t st d) = TDone (Mach s' csr' t st d) /\
    map (rget s') [o_fault o; o_resume o; o_a0 o; o_a1 o] = [fpc; fpc + 4; SENTINEL_A0; UNMAPPED_ADDR] /\
    mem s' = mfa_record area c (5 + 2 * c) UNMAPPED_ADDR fpc x y (st_bytes 8 (area + 32 * c + 24) (fpc + 4) (mem s)) /\
    csr' "mtvec"%string = hbase /\ csr' "mscratch"%string = area /\ csr' "mie"%string = csr "mie"%string.
Proof.
  intros Ht Hs Hn.
  destruct Ho as ((F0 & F1 & F2) & (R0 & R1 & R2) & (X0 & X1 & X2) & (Y0 & Y1 & Y2) & (S0 & S1 & S2) & Hnd & Hsf & Hsr).
  apply NoDup_cons in Hnd as [N1 Hnd]. apply NoDup_cons in Hnd as [N2 Hnd]. apply NoDup_cons in Hnd as [N3 _].
  repeat match goal with H : _ ∉ _ :: _ |- _ => apply not_elem_of_cons in H as [? ?] end. clear Ho.
  destruct Hfpc as (Hu & Hu4 & Hev). assert (addr sz base code 6 = fpc + 4) as E6 by t_pc.
  assert (ok (area + mfa_off store)) as Wr by (destruct store; [exact (Harea 7 ltac:(lia))|exact (Harea 3 ltac:(lia))]).
  assert (area + mfa_off store = area + 32 * c + 24) as Eo by (destruct store; cbn; lia).
  cbn [load_ops fold_left fst snd]. bstep Hsz Hdis 0%nat. bstep Hsz Hdis 1%nat. rewrite E6.
  erewrite (trun_block _ _ _ _ _ _ _ Hsz Hdis 2%nat); [|cbn [mt_core]; t_pc|reflexivity].
  erewrite sd_ok; [|exact Wr|autorewrite with isa; reflexivity]. autorewrite with isa. rewrite Eo.
  bstep Hsz Hdis 3%nat. bstep Hsz Hdis 4%nat.
  erewrite (trun_block _ _ _ _ _ _ _ Hsz Hdis 5%nat); [|cbn [mt_core]; t_pc|reflexivity].
  match goal with |- context [texec1 _ _ _ _ _ _ ?m0] =>
    assert (forall lab own, texec1 legal mapped sz lab own (Plain (mfa_access store)) m0 = TGo (trap legal (5 + 2 * c) UNMAPPED_ADDR m0)) as Etr end.
  { intros lab own. destruct store; cbn [mfa_access texec1 access_cause mem_addr mt_core]; autorewrite with isa; rewrite Hbad; reflexivity. }
  rewrite Etr. clear Etr. t_red. rewrite Ht, Htv.
  match goal with |- context [trun _ (Mach ?x ?y _ _ _)] => set (s1 := x); set (c1 := y) end.
  destruct (mfa_handler legal mapped sz base code hbase area Hsz Hdis Hsc Hepc Harea 37 s1 c1 t st d fpc c (fpc + 4))
    as (s2 & c2 & E & Hp & Hr & Hm & C1 & C2 & C3).
  - destruct store; [now right|now left].
  - reflexivity.
  - unfold c1. now autorewrite with isa.
  - unfold c1. autorewrite with isa. t_pc.
  - unfold s1. autorewrite with isa. rewrite ld_st_other by (destruct store; cbn; lia). exact Hn.
  - unfold s1. autorewrite with isa. rewrite ld_st_same by exact Hu4. reflexivity.
  - exact Hev.
  - assert (rget s2 (o_fault o) = fpc /\ rget s2 (o_resume o) = fpc + 4 /\ rget s2 a0 = SENTINEL_A0 /\ rget s2 a1 = UNMAPPED_ADDR) as (V1 & V2 & V3 & V4).
    { split_and!; (rewrite Hr; [unfold s1; now autorewrite with isa|unfold s1; autorewrite with isa; first [exact Hu|exact Hu4|u64c]]). }
    rewrite <-E6 in Hp. cbn [Nat.add] in E. rewrite E. exists (rget s1 t1), (rget s1 t2). bstep Hsz Hdis 6%nat. rewrite Hp. bstep Hsz Hdis 7%nat.
    rewrite trun_end by (cbn [mt_core]; t_pc). eexists _, _. split; [reflexivity|]. split_and!.
    + cbn [map]. autorewrite with isa. now rewrite V1, V2, V3, V4.
    + autorewrite with isa. rewrite Hm. unfold c1, s1. now autorewrite with isa.
    + rewrite C1. unfold c1. now autorewrite with isa.
    + exact C2.
    + rewrite C3. unfold c1. now autorewrite with isa.
Qed.

End MfaBlock.

(** ** What the program reads *)

Section Readings.
Context (area : Z).
(** The words, with the instructions at [f1] and [f2]. *)
Definition mfa_words (f1 f2 : Z) : list (nat * Z) :=
  [(8%nat, area); (8%nat, area + 8); (8%nat, area + 16); (8%nat, area + 32); (8%nat, area + 40); (8%nat, area + 48); (8%nat, area + 64);
   (4%nat, f1); (4%nat, f2)].
Definition off_area (f : Z) : Prop := f + 4 <= area \/ area + 96 <= f.

Lemma mfa_readings store p x y f1 f2 m : is_u64 p -> off_area f1 -> off_area f2 ->
  some_words (mfa_words f1 f2) (mfa_record area (b2z store) (5 + 2 * b2z store) UNMAPPED_ADDR p x y (st_bytes 8 (area + 32 * b2z store + 24) (p + 4) m)) =
  let l := some_words (mfa_words f1 f2) m in
  if store then [nth 0 l 0; nth 1 l 0; nth 2 l 0; 7; UNMAPPED_ADDR; p; 2; nth 7 l 0; nth 8 l 0]
  else [5; UNMAPPED_ADDR; p; nth 3 l 0; nth 4 l 0; nth 5 l 0; 1; nth 7 l 0; nth 8 l 0].
Proof.
  intros Hu H1 H2. unfold is_u64 in Hu. unfold off_area in *.
  assert (0 <= UNMAPPED_ADDR < 2 ^ 64) as B1 by (vm_compute; split; congruence).
  unfold mfa_record, some_words, mfa_words. cbn [map fst snd nth]. destruct store; cbn [b2z].
  - replace (area + 32 * 1 + 8) with (area + 40) by lia. replace (area + 32 * 1 + 16) with (area + 48) by lia.
    replace (area + 32 * 1) with (area + 32) by lia. change (5 + 2 * 1) with 7. change (1 + 1) with 2.
    repeat (first [rewrite ld_st_same by (split; [lia|change (256 ^ Z.of_nat 8) with (2 ^ 64); lia]) | rewrite ld_st_other by lia]); reflexivity.
  - replace (area + 32 * 0) with area by lia. change (5 + 2 * 0) with 5. change (0 + 1) with 1.
    repeat (first [rewrite ld_st_same by (split; [lia|change (256 ^ Z.of_nat 8) with (2 ^ 64); lia]) | rewrite ld_st_other by lia]); reflexivity.
Qed.
End Readings.

(** ** Where things are *)

(** A trap area of [n] words that answers, away from the block and from the
    trap entry; the entry behind neither end of the block. *)
Definition placed (mapped : Z -> bool) (sz : tins -> Z) (base : Z) (code : list tins) (hbase : Z) (hcode : list tins) (area n : Z) : Prop :=
  (addr sz base code (length code) < hbase \/ addr sz hbase hcode (length hcode) <= base) /\
  (0 <= area /\ area + 8 * n <= 2 ^ 64 /\ area mod 8 = 0) /\
  (forall i, 0 <= i < n -> mapped (area + 8 * i) = true) /\
  (addr sz base code (length code) <= area \/ area + 8 * n <= base) /\
  (addr sz hbase hcode (length hcode) <= area \/ area + 8 * n <= hbase).

Lemma placed_ok mapped sz base code hbase hcode area n i : placed mapped sz base code hbase hcode area n -> 0 <= i < n ->
  word_ok mapped sz base code hbase hcode (area + 8 * i).
Proof.
  intros (_ & (H0 & H1 & H2) & Hm & Hb & Hh) Hi. unfold word_ok. split_and!.
  - unfold is_u64. lia.
  - rewrite (Z.mul_comm 8 i), Z.mod_add by discriminate. exact H2.
  - now apply Hm.
  - unfold in_code, in_range. apply orb_false_intro; apply andb_false_iff; rewrite !Z.ltb_ge; lia.
Qed.

(** ** The blocks as the program sees them *)

(** The words after the load test and after the store test. *)
Definition mfa_after (store : bool) (p : Z) (l : list Z) : list Z :=
  if store then [nth 0 l 0; nth 1 l 0; nth 2 l 0; 7; UNMAPPED_ADDR; p; 2; nth 7 l 0; nth 8 l 0]
  else [5; UNMAPPED_ADDR; p; nth 3 l 0; nth 4 l 0; nth 5 l 0; 1; nth 7 l 0; nth 8 l 0].

Section Seen.
Context {U : Type} `{!UartDev U, !UartSpec U} {legal : string -> Z -> Z -> Z} (words : list (nat * Z)).
Abbreviation vr := (vruns (U:=U) (H:=mach legal) (G:=pglob) (tvw (some_words words))).

Lemma some_words_nth i n a m : words !! i = Some (n, a) -> nth i (some_words words m) 0 = ld_bytes n a m.
Proof. intros Hi. apply nth_lookup_Some. unfold some_words. rewrite list_lookup_fmap, Hi. reflexivity. Qed.

Lemma word_runs i n a v g : words !! i = Some (n, a) -> vr (vol legal n a) v g (nth i (v_mem v) 0) [] v g.
Proof. intros Hi u h <-. exists h. unfold vol, tvw. cbn [v_mem]. now rewrite (some_words_nth i n a _ Hi). Qed.
End Seen.
Ltac seen i := eapply vhalts_bind0; [apply (word_runs _ i); reflexivity|cbn [v_mem nth]].

(** What such programs rely on. *)
Record trap_hyps (legal : string -> Z -> Z -> Z) (sz : tins -> Z) (hbase : Z) : Prop := TrapHyps
  { th_sz : forall i, 0 < sz i;
    th_sc : forall o x, legal "mscratch"%string o x = x;
    th_epc : forall o x, Z.land x 1 = 0 -> legal "mepc"%string o x = x;
    th_tv : Z.land hbase (u64 (Z.lnot 3)) = hbase }.

Abbreviation mfa_ops store o := (mfa_code store (o_fault o) (o_resume o) (o_a0 o) (o_a1 o) (o_save o)).

Lemma mfa_asm_runs {U : Type} `{!UartDev U, !UartSpec U} legal mapped sz store base hbase area o f1 f2 e l d g :
  let p := addr sz base (mfa_ops store o) 5 in
  trap_hyps legal sz hbase -> mapped UNMAPPED_ADDR = false -> sz (Plain (mfa_access store)) = 4 -> is_u64 p /\ is_u64 (p + 4) /\ Z.land (p + 4) 1 = 0 -> ops_kept o ->
  placed mapped sz base (mfa_ops store o) hbase mfa_trap_entry area 12 ->
  off_area area f1 -> off_area area f2 -> nth 6 l 0 = b2z store ->
  vruns (U:=U) (G:=pglob) (tvw (some_words (mfa_words area f1 f2))) (mfa_asm legal mapped sz store base hbase area o) (TView hbase area e l d) g
    [p; p + 4; SENTINEL_A0; UNMAPPED_ADDR] [] (TView hbase area e (mfa_after store p l) d) g.
Proof.
  intros p [Hsz Hsc Hepc Htv] Hbad Hacc Hp Ho Hpl H1 H2 Hn. apply tasm_runs. intros s csr t st d0 Ht Hs Hm. subst l.
  erewrite (some_words_nth (mfa_words area f1 f2) 6) in Hn by reflexivity.
  destruct (mfa_block legal mapped sz store base hbase area o Hsz Hacc (proj1 Hpl) Hsc Hepc Hbad (fun i => placed_ok _ _ _ _ _ _ _ _ i Hpl) Hp Htv Ho
    s csr t st d0 Ht Hs Hn) as (x & y & s' & c' & E & Em & Ew & C1 & C2 & C3).
  exists s', c'. split_and!; [exact E|exact Em| |exact C1|exact C2|exact C3]. rewrite Ew. exact (mfa_readings area store _ x y f1 f2 _ (proj1 Hp) H1 H2).
Qed.

Lemma placed_off mapped sz base code hbase hcode area n k i : (forall i, 0 < sz i) -> placed mapped sz base code hbase hcode area n ->
  code !! k = Some i -> addr sz base code k + sz i <= area \/ area + 8 * n <= addr sz base code k.
Proof.
  intros Hsz (_ & _ & _ & Hb & _) Hi.
  assert (base <= addr sz base code k) by (unfold addr; pose proof (offset_pos sz Hsz code k); lia).
  assert (addr sz base code k + sz i <= addr sz base code (length code)).
  { rewrite (addr_S sz base code k i Hi). unfold addr. destruct (decide (S k < length code)%nat) as [Hlt|Hge].
    - pose proof (offset_end sz Hsz code (S k) Hlt). lia.
    - apply lookup_lt_Some in Hi. replace (S k) with (length code) by lia. lia. }
  lia.
Qed.

(** ** The run of mfa_main.c *)

Section MfaMain.
Context {U : Type} `{!UartDev U, !UartSpec U}.
Context (legal : string -> Z -> Z -> Z) (mapped : Z -> bool) (sz : tins -> Z) (base1 base2 hbase area : Z) (ol os : operands).
Abbreviation p1 := (addr sz base1 (mfa_ops false ol) 5).
Abbreviation p2 := (addr sz base2 (mfa_ops true os) 5).
Abbreviation words := (mfa_words area p1 p2).
Abbreviation vr := (vruns (U:=U) (H:=mach legal) (G:=pglob) (tvw (some_words words))).

Definition access_text (tag tag2 : string) (p mcause insn : Z) : list Z :=
  lit tag ++ fmt_hex p ++ lit " resume=" ++ fmt_hex (p + 4) ++ lit " delta=4\n" ++
  lit tag2 ++ fmt_hex mcause ++ lit " mepc=" ++ fmt_hex p ++ lit " mtval=0xffffffffc0000000 insn=" ++ fmt_hex insn ++ lit "\n".

Definition mfa_log (e : Z) : list Z :=
  lit "mtval-fault-address: load vs store fault mtval agreement\n" ++ setup_text hbase e ++
  access_text "load:  fault=" "load trap:  mcause=" p1 5 INSN_LW_A0_A1 ++
  access_text "store: fault=" "store trap: mcause=" p2 7 INSN_SW_A0_A1 ++
  lit "compare: mtval_load=0xffffffffc0000000 mtval_store=0xffffffffc0000000 equal=yes unmapped=0xffffffffc0000000\npost: a0_load=0xa0a0a0a0a0a0a0a0 a1_load=0xffffffffc0000000 a0_store=0xa0a0a0a0a0a0a0a0 a1_store=0xffffffffc0000000\nRESULT: " ++
  (if e =? 0 then lit "PASS" else lit "FAIL") ++ lit " (traps=2)\n".

Lemma access_lines_run tag tag2 p mcause insn v g : no_nul (c_lit tag) = true -> no_nul (c_lit tag2) = true -> is_u64 p -> is_u64 (p + 4) -> is_u64 mcause -> is_u64 insn ->
  vr (mfa_access_lines legal tag tag2 p (p + 4) mcause p UNMAPPED_ADDR insn) v g tt (access_text tag tag2 p mcause insn) v g.
Proof using UartSpec0.
  intros Ht Ht2 Hp Hp4 Hm Hi. unfold mfa_access_lines, access_text. replace (p + 4 - p) with 4 by lia. change (u64 4) with 4. eapply vruns_conv.
  - eapply vruns_bind; [now apply vruns_prints, prints_lit|]. do 6 vstep. eapply vruns_bind; [now apply vruns_prints, prints_lit|]. do 8 vstep.
  - reflexivity.
  - rewrite <-?app_assoc. reflexivity.
  - reflexivity.
  - reflexivity.
Qed.

Hypothesis Hh : trap_hyps legal sz hbase.
Hypothesis Hbad : mapped UNMAPPED_ADDR = false.
Hypothesis Hlw : sz (Plain (mfa_access false)) = 4.
Hypothesis Hsw : sz (Plain (mfa_access true)) = 4.
Hypothesis Hp1 : is_u64 p1 /\ is_u64 (p1 + 4) /\ Z.land (p1 + 4) 1 = 0.
Hypothesis Hp2 : is_u64 p2 /\ is_u64 (p2 + 4) /\ Z.land (p2 + 4) 1 = 0.
Hypothesis Hol : ops_kept ol.
Hypothesis Hos : ops_kept os.
Hypothesis Hpl1 : placed mapped sz base1 (mfa_ops false ol) hbase mfa_trap_entry area 12.
Hypothesis Hpl2 : placed mapped sz base2 (mfa_ops true os) hbase mfa_trap_entry area 12.

Lemma mfa_off1 : off_area area p1.
Proof using Hh Hlw Hpl1. pose proof (placed_off _ _ _ _ _ _ _ _ 5 _ (th_sz _ _ _ Hh) Hpl1 eq_refl) as H. rewrite Hlw in H. exact H. Qed.
Lemma mfa_off2 : off_area area p2.
Proof using Hh Hsw Hpl2. pose proof (placed_off _ _ _ _ _ _ _ _ 5 _ (th_sz _ _ _ Hh) Hpl2 eq_refl) as H. rewrite Hsw in H. exact H. Qed.

Lemma mfa_compare_runs v g :
  vr (mfa_compare legal UNMAPPED_ADDR UNMAPPED_ADDR SENTINEL_A0 UNMAPPED_ADDR SENTINEL_A0 UNMAPPED_ADDR) v g tt
    (lit "compare: mtval_load=0xffffffffc0000000 mtval_store=0xffffffffc0000000 equal=yes unmapped=0xffffffffc0000000\npost: a0_load=0xa0a0a0a0a0a0a0a0 a1_load=0xffffffffc0000000 a0_store=0xa0a0a0a0a0a0a0a0 a1_store=0xffffffffc0000000\n") v g.
Proof using UartSpec0.
  unfold mfa_compare. eapply vruns_conv; [do 18 vstep| | | |]; reflexivity.
Qed.

Lemma mfa_checks_run v s bs n c :
  vr (mfa_checks legal 2 (Access p1 (p1 + 4) SENTINEL_A0 UNMAPPED_ADDR 5 UNMAPPED_ADDR p1 INSN_LW_A0_A1)
       (Access p2 (p2 + 4) SENTINEL_A0 UNMAPPED_ADDR 7 UNMAPPED_ADDR p2 INSN_SW_A0_A1)) v (ws s bs n c) tt []
    v (ws s (bs ++ replicate 16 true) n c).
Proof using UartSpec0.
  unfold mfa_checks. cbn [c_fault c_resume c_a0 c_a1 c_mcause c_mtval c_mepc c_insn].
  replace (p1 + 4 - p1) with 4 by (generalize p1; intros; lia). replace (p2 + 4 - p2) with 4 by (generalize p2; intros; lia).
  rewrite !Z.eqb_refl. eapply vruns_conv.
  - do 15 (eapply vruns_bind; [now apply ncheck_runs|]). now apply ncheck_runs.
  - reflexivity.
  - reflexivity.
  - reflexivity.
  - rewrite <-!app_assoc. reflexivity.
Qed.

End MfaMain.

(** ** Witness *)

(** The load at 0x80000140 and the store at 0x80000240; operands in t0, t1 and
    t2 among others. *)
Definition mfa_demo_l : operands := Operands t0 t1 t2 18 19.
Definition mfa_demo_s : operands := Operands 18 t2 t0 t1 19.

Ltac demo_placed := unfold placed; split_and!;
  [left; vm_compute; reflexivity|lia|lia|reflexivity|intros; apply Z.ltb_lt; lia|left; vm_compute; discriminate|left; vm_compute; discriminate].
Lemma demo_trap_hyps : trap_hyps demo_legal demo_tsz 0x80000300.
Proof. split; [exact demo_tsz_pos|reflexivity|reflexivity|reflexivity]. Qed.
Lemma mfa_demo_kept : ops_kept mfa_demo_l /\ ops_kept mfa_demo_s.
Proof. unfold ops_kept, kept. split_and!; (discriminate || (apply (bool_decide_unpack _); vm_compute; exact I)). Qed.

