(* ===== verification/EbtProbe.v ===== *)
(** * Planted breakpoints

    src/ebreak-tripwire/: an [ebreak] and a [c.ebreak] trap once each; the trap
    entry keeps one record of three words per trap, resumes where the record
    says and gives every register back. *)

From Stdlib Require Import ZArith Lia String.
From stdpp Require Import base list.
From S2P Require Import Prelude Uart Hart Run View Pmp PmpEdge Warl CsrProbes Isa TrapIsa TrapProbes TripProbes.

Definition MCAUSE_BREAKPOINT : Z := 3.
Definition INSN_EBREAK : Z := 0x00100073.
Definition INSN_C_EBREAK : Z := 0x9002.
Definition MARKER_A : Z := 0xEBBE4A.
Definition MARKER_B : Z := 0xEBBE4B.

(** ** ebt_trap.S, ebt_main.c: the code *)

Definition ebt_trap_entry : list tins :=
  [ Csrrw t0 "mscratch" t0;
    Plain (Sd t1 144 t0); Plain (Sd t2 152 t0);
    Plain (Ld t1 128 t0); Plain (Slli t2 t1 1); Plain (Add t1 t1 t2); Plain (Slli t1 t1 3); Plain (Add t1 t1 t0);
    Csrr t2 "mcause"; Plain (Sd t2 0 t1);
    Csrr t2 "mepc"; Plain (Sd t2 8 t1);
    Plain (Ld t2 16 t1); Csrw "mepc" t2;
    Plain (Ld t2 152 t0);
    Plain (Ld t1 128 t0); Plain (Addi t1 t1 1); Plain (Sd t1 128 t0);
    Plain (Ld t1 144 t0);
    Csrrw t0 "mscratch" t0;
    Mret ].

(** Phase A ([rvc] off) and phase B ([rvc] on). *)
Definition ebt_break (rvc : bool) : tins := if rvc then C_ebreak else Ebreak.
Definition ebt_off (rvc : bool) : Z := if rvc then 40 else 16.
Definition ebt_mark (rvc : bool) : Z := if rvc then MARKER_B else MARKER_A.
Definition ebt_code (rvc : bool) (brk post marker save : Z) : list tins :=
  [ Plain (La brk 3); Plain (La post 4);
    Plain (Sd post (ebt_off rvc) save);
    ebt_break rvc;
    Plain (Li marker (ebt_mark rvc)) ].

(** The registers of a block's operands. *)
Record brk_ops : Type := BrkOps { k_brk : Z; k_post : Z; k_marker : Z; k_save : Z }.
Definition ebt_block (rvc : bool) (o : brk_ops) : list tins := ebt_code rvc (k_brk o) (k_post o) (k_marker o) (k_save o).

Section Program.
Context {U : Type} `{!UartDev U} (legal : string -> Z -> Z -> Z) (mapped : Z -> bool) (sz : tins -> Z).
Abbreviation W := (world U (mach legal) pglob).

Definition ebt_asm (rvc : bool) (base hbase area : Z) (o : brk_ops) : prog W (list Z) :=
  tasm legal mapped sz base (ebt_block rvc o) hbase ebt_trap_entry [(k_save o, area)] [k_brk o; k_post o; k_marker o].

(** [brk], [post] and [marker] of a phase, then mcause, mepc, the stored
    resume address and the instruction. *)
Record phase : Type := Phase
  { h_brk : Z; h_post : Z; h_marker : Z; h_mcause : Z; h_mepc : Z; h_resume : Z; h_insn : Z }.

Definition ebt_phase_lines (tag tag2 : string) (x : phase) : prog W unit :=
  uputs tag ;; uart_put_hex (h_brk x) ;;
  uputs " post=" ;; uart_put_hex (h_post x) ;;
  uputs " delta=" ;; uart_put_dec (u64 (h_post x - h_brk x)) ;; uputs "\n" ;;
  uputs tag2 ;; uart_put_hex (h_mcause x) ;;
  uputs " mepc=" ;; uart_put_hex (h_mepc x) ;;
  uputs " insn=" ;; uart_put_hex (h_insn x) ;; uputs "\n".

Definition ebt_resume_line (count : Z) (a b : phase) : prog W unit :=
  uputs "resume: stored_a=" ;; uart_put_hex (h_resume a) ;;
  uputs " stored_b=" ;; uart_put_hex (h_resume b) ;;
  uputs " marker_a=" ;; uart_put_hex (h_marker a) ;;
  uputs " marker_b=" ;; uart_put_hex (h_marker b) ;;
  uputs " traps=" ;; uart_put_dec count ;; uputs "\n".

Definition ebt_checks (count : Z) (a b : phase) : prog W unit :=
  ncheck (count =? 2) "trap count != 2: the tripwires were not the only traps" ;;
  ncheck (h_mcause a =? MCAUSE_BREAKPOINT) "phase A mcause != 3 (breakpoint)" ;;
  ncheck (h_mcause b =? MCAUSE_BREAKPOINT) "phase B mcause != 3 (breakpoint)" ;;
  ncheck (h_mepc a =? h_brk a) "phase A mepc != captured ebreak address: the trap did not name the tripwire" ;;
  ncheck (h_mepc b =? h_brk b) "phase B mepc != captured c.ebreak address: the trap did not name the tripwire" ;;
  ncheck (h_insn a =? INSN_EBREAK) "instruction at phase A mepc is not ebreak (0x00100073)" ;;
  ncheck (h_insn b =? INSN_C_EBREAK) "halfword at phase B mepc is not c.ebreak (0x9002)" ;;
  ncheck (u64 (h_post a - h_brk a) =? 4) "phase A post - tripwire != 4 (ebreak not 4 bytes?)" ;;
  ncheck (u64 (h_post b - h_brk b) =? 2) "phase B post - tripwire != 2 (c.ebreak not 2 bytes?)" ;;
  ncheck (h_resume a =? h_post a) "phase A stored resume != post-tripwire address" ;;
  ncheck (h_resume b =? h_post b) "phase B stored resume != post-tripwire address" ;;
  ncheck (h_marker a =? MARKER_A) "phase A marker missing: execution did not continue past the ebreak" ;;
  ncheck (h_marker b =? MARKER_B) "phase B marker missing: execution did not continue past the c.ebreak".

Definition ebt_body (base1 base2 hbase area : Z) (o1 o2 : brk_ops) : prog W unit :=
  uputs "ebreak-tripwire: two planted tripwires, two named traps\n" ;;
  trap_setup legal hbase area ;;
  a <- ebt_asm false base1 hbase area o1 ;;
  b <- ebt_asm true base2 hbase area o2 ;;
  mcause_a <- vol legal 8 area ;;
  mepc_a <- vol legal 8 (area + 8) ;;
  resume_a <- vol legal 8 (area + 16) ;;
  mcause_b <- vol legal 8 (area + 24) ;;
  mepc_b <- vol legal 8 (area + 32) ;;
  resume_b <- vol legal 8 (area + 40) ;;
  count <- vol legal 8 (area + 128) ;;
  insn_a <- vol legal 4 mepc_a ;;
  insn_b <- vol legal 2 mepc_b ;;
  let xa := Phase (nth 0 a 0) (nth 1 a 0) (nth 2 a 0) mcause_a mepc_a resume_a insn_a in
  let xb := Phase (nth 0 b 0) (nth 1 b 0) (nth 2 b 0) mcause_b mepc_b resume_b insn_b in
  ebt_phase_lines "phase A: tripwire=" "phase A trap: mcause=" xa ;;
  ebt_phase_lines "phase B: tripwire=" "phase B trap: mcause=" xb ;;
  ebt_resume_line count xa xb ;;
  ebt_checks count xa xb ;;
  trap_result legal count ;;
  trap_finish legal.
Definition ebt_main (base1 base2 hbase area : Z) (o1 o2 : brk_ops) : prog W unit :=
  uart_init ;; ebt_body base1 base2 hbase area o1 o2.
End Program.

#[export] Hint Unfold ebt_trap_entry ebt_block ebt_code : tcode.

(** ** The trap entry *)

Section Handler.
Context (legal : string -> Z -> Z -> Z) (mapped : Z -> bool) (sz : tins -> Z) (base : Z) (code : list tins) (hbase area : Z).
Hypothesis Hh : trap_hyps legal sz hbase.
Abbreviation hcode := ebt_trap_entry.
Hypothesis Hpl : placed mapped sz base code hbase hcode area 20.
Abbreviation ok := (word_ok mapped sz base code hbase hcode).
Abbreviation trun := (trun legal mapped sz base code hbase hcode).

(** [ebt_regs] after trap number [c]; [x] and [y] were in t1 and t2. *)
Definition ebt_record (c cause p x y : Z) (m : Z -> Z) : Z -> Z :=
  st_bytes 8 (area + 128) (c + 1) (st_bytes 8 (area + 24 * c + 8) p
    (st_bytes 8 (area + 24 * c) cause (st_bytes 8 (area + 152) y (st_bytes 8 (area + 144) x m)))).

Lemma record_words c : 0 <= c <= 1 -> ok (area + 24 * c) /\ ok (area + 24 * c + 8) /\ ok (area + 24 * c + 16).
Proof.
  intros Hc. replace (area + 24 * c) with (area + 8 * (3 * c)) by lia. replace (area + 8 * (3 * c) + 8) with (area + 8 * (3 * c + 1)) by lia.
  replace (area + 8 * (3 * c) + 16) with (area + 8 * (3 * c + 2)) by lia. split_and!; (eapply placed_ok; [exact Hpl|lia]).
Qed.

Lemma record_addr c : 0 <= c <= 1 -> u64 (u64 (Z.shiftl (u64 (c + u64 (Z.shiftl c 1))) 3) + area) = area + 24 * c.
Proof.
  intros Hc. replace (u64 (Z.shiftl (u64 (c + u64 (Z.shiftl c 1))) 3)) with (24 * c).
  - rewrite Z.add_comm. apply u64_small, (proj1 (record_words c Hc)).
  - assert (c = 0 \/ c = 1) as [-> | ->] by lia; reflexivity.
Qed.

Lemma ebt_handler f s csr t st d p c rs : 0 <= c <= 1 -> pc s = hbase -> csr "mscratch"%string = area -> csr "mepc"%string = p ->
  ld_bytes 8 (area + 128) (mem s) = c -> ld_bytes 8 (area + 24 * c + 16) (mem s) = rs -> Z.land rs 1 = 0 ->
  exists s' csr', trun (21 + f) (Mach s csr t st d) = trun f (Mach s' csr' t st d) /\
    pc s' = rs /\ (forall r, is_u64 (rget s r) -> rget s' r = rget s r) /\
    mem s' = ebt_record c (csr "mcause"%string) p (rget s t1) (rget s t2) (mem s) /\
    csr' "mtvec"%string = csr "mtvec"%string /\ csr' "mscratch"%string = area /\ csr' "mie"%string = csr "mie"%string.
Proof.
  intros Hc Hp Hs He Hn Hr H4. destruct Hh as [Hsz Hsc Hepc _]. pose proof (proj1 Hpl) as Hdis.
  assert (ok (area + 144)) as W9 by (apply (placed_ok _ _ _ _ _ _ _ 20 18 Hpl); lia).
  assert (ok (area + 152)) as W10 by (apply (placed_ok _ _ _ _ _ _ _ 20 19 Hpl); lia).
  assert (ok (area + 128)) as W8 by (apply (placed_ok _ _ _ _ _ _ _ 20 16 Hpl); lia).
  destruct (record_words c Hc) as (R0 & R1 & R2). pose proof (record_addr c Hc) as Ea.
  assert (u64 (c + 1) = c + 1) as Ec by (apply u64_small; unfold is_u64; lia).
  destruct Hc as [Hc0 Hc1]. cbn [Nat.add].
  hstep Hsz Hdis 0%nat. rewrite Hs, Hsc. hword Hsz Hdis 1%nat W9. hword Hsz Hdis 2%nat W10. hword Hsz Hdis 3%nat W8.
  rewrite !ld_st_other, Hn by t_lia. hstep Hsz Hdis 4%nat. hstep Hsz Hdis 5%nat. hstep Hsz Hdis 6%nat. hstep Hsz Hdis 7%nat. rewrite Ea.
  hstep Hsz Hdis 8%nat. hword Hsz Hdis 9%nat R0. hstep Hsz Hdis 10%nat. rewrite He. hword Hsz Hdis 11%nat R1. hword Hsz Hdis 12%nat R2.
  rewrite !ld_st_other, Hr by t_lia. hstep Hsz Hdis 13%nat. rewrite (Hepc _ _ H4). hword Hsz Hdis 14%nat W10. hword Hsz Hdis 15%nat W8.
  rewrite !(ld_st_other 8 8 (area + 128)), Hn by t_lia. hstep Hsz Hdis 16%nat. rewrite Ec. hword Hsz Hdis 17%nat W8. hword Hsz Hdis 18%nat W9.
  hstep Hsz Hdis 19%nat. rewrite Hsc. hstep Hsz Hdis 20%nat.
  eexists _, _. split; [reflexivity|]. autorewrite with isa. split_and!; try reflexivity.
  intros r Hu. destruct (decide (r = t0)) as [->|]; [now autorewrite with isa|].
  destruct (decide (r = t1)) as [->|]; [autorewrite with isa; rewrite !ld_st_other, ld_st_same by (exact Hu || t_lia); reflexivity|].
  destruct (decide (r = t2)) as [->|]; [|now autorewrite with isa].
  autorewrite with isa. rewrite !(ld_st_other 8 8 (area + 152)) by t_lia. rewrite ld_st_same by exact Hu. reflexivity.
Qed.
End Handler.

(** ** The blocks *)

(** The compiler gives each output a register of its own, and [save] one of
    neither output written before it is used. *)
Definition brk_kept (o : brk_ops) : Prop :=
  k_brk o <> 0 /\ k_post o <> 0 /\ k_marker o <> 0 /\ k_save o <> 0 /\
  NoDup [k_brk o; k_post o; k_marker o] /\ k_save o <> k_brk o /\ k_save o <> k_post o.

Definition brk_size (rvc : bool) : Z := if rvc then 2 else 4.

Section Block.
Context (legal : string -> Z -> Z -> Z) (mapped : Z -> bool) (sz : tins -> Z) (rvc : bool) (base hbase area : Z) (o : brk_ops).
Abbreviation code := (ebt_block rvc o).
Abbreviation hcode := ebt_trap_entry.
Abbreviation trun := (trun legal mapped sz base code hbase hcode).
Abbreviation bpc := (addr sz base code 3).
Abbreviation ppc := (bpc + brk_size rvc).
Abbreviation c := (b2z rvc).
Hypothesis Hh : trap_hyps legal sz hbase.
Hypothesis Hbr : sz (ebt_break rvc) = brk_size rvc.
Hypothesis Hpl : placed mapped sz base code hbase hcode area 20.
Hypothesis Hpc : is_u64 bpc /\ is_u64 ppc /\ Z.land ppc 1 = 0.
Hypothesis Ho : brk_kept o.

Lemma ebt_block_runs s csr t st d : csr "mtvec"%string = hbase -> csr "mscratch"%string = area -> ld_bytes 8 (area + 128) (mem s) = c ->
  exists x y s' csr', trun 64 (Mach (jump base (load_ops [(k_save o, area)] s)) csr t st d) = TDone (Mach s' csr' t st d) /\
    map (rget s') [k_brk o; k_post o; k_marker o] = [bpc; ppc; ebt_mark rvc] /\
    mem s' = ebt_record area c 3 bpc x y (st_bytes 8 (area + 24 * c + 16) ppc (mem s)) /\
    csr' "mtvec"%string = hbase /\ csr' "mscratch"%string = area /\ csr' "mie"%string = csr "mie"%string.
Proof.
  intros Ht Hs Hn. destruct Hh as [Hsz Hsc Hepc Htv]. pose proof (proj1 Hpl) as Hdis.
  destruct Ho as (B0 & P0 & M0 & S0 & Hnd & Hsb & Hsp).
  apply NoDup_cons in Hnd as [N1 Hnd]. apply NoDup_cons in Hnd as [N2 _].
  repeat match goal with H : _ ∉ _ :: _ |- _ => apply not_elem_of_cons in H as [? ?] end. clear Ho.
  destruct Hpc as (Hu & Hu4 & Hev). assert (addr sz base code 4 = ppc) as E4 by (rewrite <-Hbr; t_pc).
  assert (0 <= c <= 1) as Hc by (destruct rvc; cbn; lia).
  pose proof (record_words mapped sz base code hbase area Hpl c Hc) as (_ & _ & Wr).
  assert (ebt_off rvc = 24 * c + 16) as Eo by (destruct rvc; reflexivity).
  assert (u64 (ebt_mark rvc) = ebt_mark rvc) as Em by (destruct rvc; reflexivity).
  cbn [load_ops fold_left fst snd]. bstep Hsz Hdis 0%nat. bstep Hsz Hdis 1%nat. rewrite E4.
  erewrite (trun_block _ _ _ _ _ _ _ Hsz Hdis 2%nat); [|cbn [mt_core]; t_pc|reflexivity].
  erewrite sd_ok; [|exact Wr|autorewrite with isa; rewrite Eo; t_lia]. autorewrite with isa.
  erewrite (trun_block _ _ _ _ _ _ _ Hsz Hdis 3%nat); [|cbn [mt_core]; t_pc|reflexivity].
  match goal with |- context [texec1 _ _ _ _ _ _ ?m0] =>
    assert (forall lab own, texec1 legal mapped sz lab own (ebt_break rvc) m0 = TGo (trap legal 3 (pc (mt_core m0)) m0)) as Etr
      by (intros lab own; destruct rvc; reflexivity) end.
  rewrite Etr. clear Etr. t_red. rewrite Ht, Htv.
  match goal with |- context [trun _ (Mach ?x ?y _ _ _)] => set (s1 := x); set (c1 := y) end.
  destruct (ebt_handler legal mapped sz base code hbase area Hh Hpl 39 s1 c1 t st d bpc c ppc)
    as (s2 & c2 & E & Hp & Hr & Hm & C1 & C2 & C3).
  - exact Hc.
  - reflexivity.
  - unfold c1. now autorewrite with isa.
  - unfold c1. autorewrite with isa. t_pc.
  - unfold s1. autorewrite with isa. rewrite ld_st_other by (destruct rvc; cbn; lia). exact Hn.
  - unfold s1. autorewrite with isa. rewrite ld_st_same by exact Hu4. reflexivity.
  - exact Hev.
  - assert (rget s2 (k_brk o) = bpc /\ rget s2 (k_post o) = ppc) as (V1 & V2).
    { split; (rewrite Hr; [unfold s1; now autorewrite with isa|unfold s1; autorewrite with isa; first [exact Hu|exact Hu4]]). }
    rewrite <-E4 in Hp. cbn [Nat.add] in E. rewrite E. exists (rget s1 t1), (rget s1 t2). bstep Hsz Hdis 4%nat.
    rewrite Hp, Em, trun_end by (cbn [mt_core]; t_pc). eexists _, _. split; [reflexivity|]. split_and!.
    + cbn [map]. autorewrite with isa. now rewrite V1, V2.
    + autorewrite with isa. rewrite Hm. unfold c1, s1. now autorewrite with isa.
    + rewrite C1. unfold c1. now autorewrite with isa.
    + exact C2.
    + rewrite C3. unfold c1. now autorewrite with isa.
Qed.
End Block.

(** ** What the program reads *)

Definition ebt_words (area f1 f2 : Z) : list (nat * Z) :=
  [(8%nat, area); (8%nat, area + 8); (8%nat, area + 16); (8%nat, area + 24); (8%nat, area + 32); (8%nat, area + 40); (8%nat, area + 128);
   (4%nat, f1); (2%nat, f2)].
Definition ebt_after (rvc : bool) (p : Z) (l : list Z) : list Z :=
  if rvc then [nth 0 l 0; nth 1 l 0; nth 2 l 0; 3; p; p + 2; 2; nth 7 l 0; nth 8 l 0]
  else [3; p; p + 4; nth 3 l 0; nth 4 l 0; nth 5 l 0; 1; nth 7 l 0; nth 8 l 0].
Definition off_ebt (area n f : Z) : Prop := f + n <= area \/ area + 160 <= f.

Lemma ebt_readings area rvc p x y f1 f2 m : is_u64 p -> is_u64 (p + brk_size rvc) -> off_ebt area 4 f1 -> off_ebt area 2 f2 ->
  some_words (ebt_words area f1 f2)
    (ebt_record area (b2z rvc) 3 p x y (st_bytes 8 (area + 24 * b2z rvc + 16) (p + brk_size rvc) m)) =
  ebt_after rvc p (some_words (ebt_words area f1 f2) m).
Proof.
  intros Hu Hu2 H1 H2. unfold is_u64 in Hu, Hu2. unfold off_ebt in *. unfold ebt_record, ebt_after, some_words, ebt_words. cbn [map fst snd nth].
  destruct rvc; cbn [b2z brk_size] in *.
  - replace (area + 24 * 1 + 8) with (area + 32) by lia. replace (area + 24 * 1 + 16) with (area + 40) by lia.
    replace (area + 24 * 1) with (area + 24) by lia. change (1 + 1) with 2.
    repeat (first [rewrite ld_st_same by (split; [lia|change (256 ^ Z.of_nat 8) with (2 ^ 64); lia]) | rewrite ld_st_other by lia]); reflexivity.
  - replace (area + 24 * 0) with area by lia. change (0 + 1) with 1.
    repeat (first [rewrite ld_st_same by (split; [lia|change (256 ^ Z.of_nat 8) with (2 ^ 64); lia]) | rewrite ld_st_other by lia]); reflexivity.
Qed.

Lemma ebt_asm_runs {U : Type} `{!UartDev U, !UartSpec U} legal mapped sz rvc base hbase area o f1 f2 e l d g :
  let p := addr sz base (ebt_block rvc o) 3 in
  trap_hyps legal sz hbase -> sz (ebt_break rvc) = brk_size rvc -> is_u64 p /\ is_u64 (p + brk_size rvc) /\ Z.land (p + brk_size rvc) 1 = 0 -> brk_kept o ->
  placed mapped sz base (ebt_block rvc o) hbase ebt_trap_entry area 20 ->
  off_ebt area 4 f1 -> off_ebt area 2 f2 -> nth 6 l 0 = b2z rvc ->
  vruns (U:=U) (G:=pglob) (tvw (some_words (ebt_words area f1 f2))) (ebt_asm legal mapped sz rvc base hbase area o) (TView hbase area e l d) g
    [p; p + brk_size rvc; ebt_mark rvc] [] (TView hbase area e (ebt_after rvc p l) d) g.
Proof.
  intros p Hh Hbr Hp Ho Hpl H1 H2 Hn. apply tasm_runs. intros s csr t st d0 Ht Hs Hm. subst l.
  erewrite (some_words_nth (ebt_words area f1 f2) 6) in Hn by reflexivity.
  destruct (ebt_block_runs legal mapped sz rvc base hbase area o Hh Hbr Hpl Hp Ho s csr t st d0 Ht Hs Hn) as (x & y & s' & c' & E & Em & Ew & C1 & C2 & C3).
  exists s', c'. split_and!; [exact E|exact Em| |exact C1|exact C2|exact C3]. rewrite Ew. exact (ebt_readings area rvc _ x y f1 f2 _ (proj1 Hp) (proj1 (proj2 Hp)) H1 H2).
Qed.

(** ** The run of ebt_main.c *)

Section EbtMain.
Context {U : Type} `{!UartDev U, !UartSpec U}.
Context (legal : string -> Z -> Z -> Z) (mapped : Z -> bool) (sz : tins -> Z) (base1 base2 hbase area : Z) (oa ob : brk_ops).
Abbreviation p1 := (addr sz base1 (ebt_block false oa) 3).
Abbreviation p2 := (addr sz base2 (ebt_block true ob) 3).
Abbreviation words := (ebt_words area p1 p2).
Abbreviation vr := (vruns (U:=U) (H:=mach legal) (G:=pglob) (tvw (some_words words))).

Definition phase_text (tag tag2 : string) (p n insn : Z) : list Z :=
  lit tag ++ fmt_hex p ++ lit " post=" ++ fmt_hex (p + n) ++ lit " delta=" ++ fmt_dec n ++ lit "\n" ++
  lit tag2 ++ lit "0x3 mepc=" ++ fmt_hex p ++ lit " insn=" ++ fmt_hex insn ++ lit "\n".

Definition ebt_log (e : Z) : list Z :=
  lit "ebreak-tripwire: two planted tripwires, two named traps\n" ++ setup_text hbase e ++
  phase_text "phase A: tripwire=" "phase A trap: mcause=" p1 4 INSN_EBREAK ++
  phase_text "phase B: tripwire=" "phase B trap: mcause=" p2 2 INSN_C_EBREAK ++
  lit "resume: stored_a=" ++ fmt_hex (p1 + 4) ++ lit " stored_b=" ++ fmt_hex (p2 + 2) ++
  lit " marker_a=0xebbe4a marker_b=0xebbe4b traps=2\nRESULT: " ++ (if e =? 0 then lit "PASS" else lit "FAIL") ++ lit " (traps=2)\n".

Lemma phase_lines_run tag tag2 p n mk insn rs v g : no_nul (c_lit tag) = true -> no_nul (c_lit tag2) = true ->
  is_u64 p -> is_u64 (p + n) -> is_u64 n -> is_u64 insn ->
  vr (ebt_phase_lines legal tag tag2 (Phase p (p + n) mk 3 p rs insn)) v g tt (phase_text tag tag2 p n insn) v g.
Proof using UartSpec0.
  intros Ht Ht2 Hp Hp4 Hn Hi. unfold ebt_phase_lines, phase_text. cbn [h_brk h_post h_mcause h_mepc h_insn].
  replace (p + n - p) with n by lia. rewrite (u64_small n Hn). eapply vruns_conv.
  - eapply vruns_bind; [now apply vruns_prints, prints_lit|]. do 6 vstep. eapply vruns_bind; [now apply vruns_prints, prints_lit|]. do 6 vstep.
  - reflexivity.
  - rewrite <-?app_assoc. reflexivity.
  - reflexivity.
  - reflexivity.
Qed.

Hypothesis Hh : trap_hyps legal sz hbase.
Hypothesis Hb4 : sz (ebt_break false) = brk_size false.
Hypothesis Hb2 : sz (ebt_break true) = brk_size true.
Hypothesis Hp1 : is_u64 p1 /\ is_u64 (p1 + 4) /\ Z.land (p1 + 4) 1 = 0.
Hypothesis Hp2 : is_u64 p2 /\ is_u64 (p2 + 2) /\ Z.land (p2 + 2) 1 = 0.
Hypothesis Hoa : brk_kept oa.
Hypothesis Hob : brk_kept ob.
Hypothesis Hpl1 : placed mapped sz base1 (ebt_block false oa) hbase ebt_trap_entry area 20.
Hypothesis Hpl2 : placed mapped sz base2 (ebt_block true ob) hbase ebt_trap_entry area 20.

Lemma ebt_off1 : off_ebt area 4 p1.
Proof using Hh Hb4 Hpl1. pose proof (placed_off _ _ _ _ _ _ _ _ 3 _ (th_sz _ _ _ Hh) Hpl1 eq_refl) as H. rewrite Hb4 in H. exact H. Qed.
Lemma ebt_off2 : off_ebt area 2 p2.
Proof using Hh Hb2 Hpl2. pose proof (placed_off _ _ _ _ _ _ _ _ 3 _ (th_sz _ _ _ Hh) Hpl2 eq_refl) as H. rewrite Hb2 in H. exact H. Qed.

Abbreviation xa := (Phase p1 (p1 + 4) MARKER_A 3 p1 (p1 + 4) INSN_EBREAK).
Abbreviation xb := (Phase p2 (p2 + 2) MARKER_B 3 p2 (p2 + 2) INSN_C_EBREAK).

Lemma resume_line_runs v g :
  vr (ebt_resume_line legal 2 xa xb) v g tt
    (lit "resume: stored_a=" ++ fmt_hex (p1 + 4) ++ lit " stored_b=" ++ fmt_hex (p2 + 2) ++ lit " marker_a=0xebbe4a marker_b=0xebbe4b traps=2\n") v g.
Proof using UartSpec0 Hp1 Hp2.
  destruct Hp1 as (_ & U1 & _). destruct Hp2 as (_ & U2 & _). unfold ebt_resume_line. cbn [h_resume h_marker].
  eapply vruns_conv; [do 11 vstep| | | |]; try reflexivity.
Qed.

Lemma ebt_checks_run v s bs n c : vr (ebt_checks legal 2 xa xb) v (ws s bs n c) tt [] v (ws s (bs ++ replicate 13 true) n c).
Proof using UartSpec0.
  unfold ebt_checks. cbn [h_brk h_post h_marker h_mcause h_mepc h_resume h_insn].
  replace (p1 + 4 - p1) with 4 by (generalize p1; intros; lia). replace (p2 + 2 - p2) with 2 by (generalize p2; intros; lia).
  rewrite !Z.eqb_refl. eapply vruns_conv.
  - do 12 (eapply vruns_bind; [now apply ncheck_runs|]). now apply ncheck_runs.
  - reflexivity.
  - reflexivity.
  - reflexivity.
  - rewrite <-!app_assoc. reflexivity.
Qed.

End EbtMain.

(** ** Witness *)

Definition ebt_demo_a : brk_ops := BrkOps t0 t1 t2 18.
Definition ebt_demo_b : brk_ops := BrkOps t2 t0 t1 18.
Lemma ebt_demo_kept : brk_kept ebt_demo_a /\ brk_kept ebt_demo_b.
Proof. unfold brk_kept. split_and!; (discriminate || (apply (bool_decide_unpack _); vm_compute; exact I)). Qed.

