(* ===== verification/IntProbes.v ===== *)
(** * Probes of the interrupt registers

    src/sip-write-probe/, src/sip-ssip/, src/sie-stie-write/ and
    src/mip-msip-write/: what writes through sip, sie, mip and mideleg change
    and what they leave alone.  A hart is a class ([IntSpec]): sip and sie are
    views of mip and mie through mideleg, SSIP is the only bit writable through
    sip, the machine-level bits of mip are not writable at all, and mideleg and
    mtvec legalise in any way.  No device changes a pending bit during a run and
    no interrupt is enabled, so the trap entries never run. *)

From Stdlib Require Import ZArith Lia String.
From stdpp Require Import base list.
From S2P Require Import Prelude Uart Hart Run View Pmp PmpEdge Warl CsrProbes.

(** ** Interrupt registers *)

Record ints : Type := Ints
  { i_mip : Z; i_mie : Z; i_deleg : Z; i_mstatus : Z; i_mtvec : Z; i_mscratch : Z; i_test : Z }.

(** The interrupts a hart shows to S-mode, the bits of mip that M-mode may
    write, and how mideleg and mtvec legalise. *)
Record idesc : Type := IDesc
  { s_ints : Z; m_pend : Z; deleg_legal : Z -> Z -> Z; vec_legal : Z -> Z -> Z }.

Definition SSIP_BIT : Z := 2.
(** A field written under a mask. *)
Definition under (w old x : Z) : Z := Z.lor (Z.ldiff old w) (Z.land x w).

Section Registers.
Context (k : idesc).

Definition sip_of (mip deleg : Z) : Z := Z.land (Z.land mip deleg) (s_ints k).
Definition sip_set (mip deleg x : Z) : Z := under (Z.land SSIP_BIT deleg) mip x.
Definition sie_set (mie deleg x : Z) : Z := under (Z.land deleg (s_ints k)) mie x.

Definition int_csrs : list string := ["mip"; "mie"; "mideleg"; "mstatus"; "mtvec"; "mscratch"; "sip"; "sie"]%string.
Definition is_int (c : string) : bool := existsb (String.eqb c) int_csrs.

Definition int_read (c : string) (v : ints) : Z :=
  if String.eqb c "mip" then i_mip v else if String.eqb c "mie" then i_mie v
  else if String.eqb c "mideleg" then i_deleg v else if String.eqb c "mstatus" then i_mstatus v
  else if String.eqb c "mtvec" then i_mtvec v else if String.eqb c "mscratch" then i_mscratch v
  else if String.eqb c "sip" then sip_of (i_mip v) (i_deleg v) else sip_of (i_mie v) (i_deleg v).

Definition with_mip (x : Z) (v : ints) : ints := Ints x (i_mie v) (i_deleg v) (i_mstatus v) (i_mtvec v) (i_mscratch v) (i_test v).
Definition with_mie (x : Z) (v : ints) : ints := Ints (i_mip v) x (i_deleg v) (i_mstatus v) (i_mtvec v) (i_mscratch v) (i_test v).
Definition with_deleg (x : Z) (v : ints) : ints := Ints (i_mip v) (i_mie v) x (i_mstatus v) (i_mtvec v) (i_mscratch v) (i_test v).
Definition with_mtvec (x : Z) (v : ints) : ints := Ints (i_mip v) (i_mie v) (i_deleg v) (i_mstatus v) x (i_mscratch v) (i_test v).
Definition with_mscratch (x : Z) (v : ints) : ints := Ints (i_mip v) (i_mie v) (i_deleg v) (i_mstatus v) (i_mtvec v) x (i_test v).
Definition with_test (x : Z) (v : ints) : ints := Ints (i_mip v) (i_mie v) (i_deleg v) (i_mstatus v) (i_mtvec v) (i_mscratch v) x.

(** No program here writes mie or mstatus as a whole. *)
Definition int_wcsrs : list string := ["mip"; "mideleg"; "mtvec"; "mscratch"; "sip"; "sie"]%string.
Definition is_wint (c : string) : bool := existsb (String.eqb c) int_wcsrs.
Definition int_write (c : string) (x : Z) (v : ints) : ints :=
  if String.eqb c "mip" then with_mip (under (m_pend k) (i_mip v) x) v
  else if String.eqb c "mideleg" then with_deleg (deleg_legal k (i_deleg v) x) v
  else if String.eqb c "mtvec" then with_mtvec (vec_legal k (i_mtvec v) x) v
  else if String.eqb c "mscratch" then with_mscratch x v
  else if String.eqb c "sip" then with_mip (sip_set (i_mip v) (i_deleg v) x) v
  else with_mie (sie_set (i_mie v) (i_deleg v) x) v.
End Registers.

Class IntSpec (H : Type) `{!HartDev H} : Type := {
  ih : idesc;
  (** SSI, STI and SEI are among them, the VS-level ones are not *)
  s_ints_ok : is_u64 (s_ints ih) /\ Z.land (s_ints ih) 0x1666 = 0x222;
  (** SSIP is writable; MSIP, MTIP and MEIP follow their devices *)
  m_pend_ok : is_u64 (m_pend ih) /\ Z.land (m_pend ih) 0x88a = 2;
  deleg_u64 o x : is_u64 (deleg_legal ih o x);
  vec_u64 o x : is_u64 (vec_legal ih o x);
  iview : H -> ints;
  int_rd c h : is_int c = true -> (csr_rd c h).1 = int_read ih c (iview h);
  int_rd_keeps c h : iview (csr_rd c h).2 = iview h;
  int_wr c x h : is_wint c = true -> iview (csr_wr c x h) = int_write ih c x (iview h);
  int_fin x h : iview (mw32 VIRT_TEST_FINISHER x h) = with_test x (iview h);
}.

(** ** What the programs share *)

Definition MIE_MSIE : Z := Z.shiftl 1 3.
Definition SIP_SSIP : Z := Z.shiftl 1 1.
Definition MIDELEG_SSI : Z := Z.shiftl 1 1.

Section Program.
Context {U H : Type} `{!UartDev U, !HartDev H}.
Abbreviation W := (world U H pglob).
Context (trap_entry save_addr : Z).

Definition read_sip : prog W Z := csrr "sip".
Definition read_mip : prog W Z := csrr "mip".
Definition write_sip (v : Z) : prog W unit := csrw "sip" v.

(** The enables, at boot and at the end. *)
Definition enables (check : bool -> string -> prog W unit) (tag msg1 msg2 : string) : prog W unit :=
  mie <- read_mie ;;
  mstatus <- read_mstatus ;;
  uputs tag ;; uart_put_hex mie ;; uputs " mstatus=" ;; uart_put_hex mstatus ;; uputs "\n" ;;
  check (Z.land mie MIE_MSIE =? 0) msg1 ;;
  check (Z.land mstatus MSTATUS_MIE =? 0) msg2.
Definition boot_enables (check : bool -> string -> prog W unit) : prog W unit :=
  enables check "boot: mie=" "mie.MSIE set at boot" "mstatus.MIE set at boot".
Definition end_enables (check : bool -> string -> prog W unit) : prog W unit :=
  enables check "end: mie=" "mie.MSIE changed during run" "mstatus.MIE changed during run".

Definition vector (check : bool -> string -> prog W unit) : prog W unit :=
  csrw "mtvec" trap_entry ;;
  csrw "mscratch" save_addr ;;
  mtvec <- csrr "mtvec" ;;
  uputs "trap: mtvec=" ;; uart_put_hex mtvec ;; uputs "\n" ;;
  check_mtvec trap_entry check mtvec.

(** sip, mip and mideleg at boot. *)
Definition baselines : prog W (Z * Z * Z) :=
  boot_sip <- read_sip ;;
  boot_mip <- read_mip ;;
  boot_mideleg <- read_mideleg ;;
  uputs "boot: sip=" ;; uart_put_hex boot_sip ;;
  uputs " mip=" ;; uart_put_hex boot_mip ;;
  uputs " mideleg=" ;; uart_put_hex boot_mideleg ;;
  uputs " (SSI delegated: " ;; uart_put_dec (if Z.land boot_mideleg MIDELEG_SSI =? 0 then 0 else 1) ;; uputs ")\n" ;;
  ret (boot_sip, boot_mip, boot_mideleg).

(** ** swp_main.c (sip-write-probe) *)

Definition swp_boot_glob : pglob := PGlob (replicate 5 0) 0 0 14695981039346656037.

(** One write of sip and what it left. *)
Definition swp_write (v : Z) (tag : string) : prog W (Z * Z) :=
  write_sip v ;;
  rb <- read_sip ;;
  mip_after <- read_mip ;;
  uputs tag ;; uart_put_hex rb ;; uputs " mip=" ;; uart_put_hex mip_after ;; uputs "\n" ;;
  digest64 rb ;;
  digest64 mip_after ;;
  ret (rb, mip_after).

Definition swp_phase1 (boot_sip boot_mip : Z) : prog W unit :=
  r <- swp_write ALL_ONES "phase1 ones: sip=" ;;
  wcheck (r.1 =? boot_sip) "phase 1: all-ones write changed sip although SSI not delegated" ;;
  wcheck (r.2 =? boot_mip) "phase 1: sip all-ones write changed mip" ;;
  r <- swp_write 0 "phase1 zero: sip=" ;;
  wcheck (r.1 =? boot_sip) "phase 1: zero write did not read back the boot sip baseline" ;;
  wcheck (r.2 =? boot_mip) "phase 1: sip zero write changed mip".

Definition swp_delegate (boot_mideleg : Z) : prog W unit :=
  write_mideleg (Z.lor boot_mideleg MIDELEG_SSI) ;;
  mideleg_rb <- read_mideleg ;;
  uputs "delegated: mideleg=" ;; uart_put_hex mideleg_rb ;; uputs "\n" ;;
  digest64 mideleg_rb ;;
  wcheck (Z.land mideleg_rb MIDELEG_SSI =? MIDELEG_SSI) "mideleg.SSI did not take the delegation write".

(** [x & ~SIP_SSIP]. *)
Definition no_ssip (x : Z) : Z := Z.land x (u64 (Z.lnot SIP_SSIP)).

Definition swp_phase2 (boot_sip boot_mip : Z) : prog W unit :=
  r <- swp_write ALL_ONES "phase2 ones: sip=" ;;
  wcheck ((no_ssip r.1 =? no_ssip boot_sip) && (Z.land r.1 SIP_SSIP =? SIP_SSIP))
    "phase 2: all-ones write did not legalize to exactly SSIP set" ;;
  wcheck (Z.land r.2 SIP_SSIP =? SIP_SSIP) "phase 2: mip.SSIP did not follow the sip all-ones write" ;;
  wcheck (no_ssip r.2 =? no_ssip boot_mip) "phase 2: non-SSIP mip bits changed across the sip write" ;;
  r <- swp_write 0 "phase2 zero: sip=" ;;
  wcheck (r.1 =? boot_sip) "phase 2: zero write did not return sip to the boot baseline" ;;
  wcheck (Z.land r.2 SIP_SSIP =? 0) "phase 2: mip.SSIP still set after the sip zero write" ;;
  wcheck (no_ssip r.2 =? no_ssip boot_mip) "phase 2: non-SSIP mip bits changed across the sip zero write".

Definition swp_phase3 (boot_sip boot_mideleg : Z) : prog W unit :=
  write_mideleg boot_mideleg ;;
  mideleg_rb <- read_mideleg ;;
  rb <- read_sip ;;
  uputs "restored: mideleg=" ;; uart_put_hex mideleg_rb ;; uputs " sip=" ;; uart_put_hex rb ;; uputs "\n" ;;
  digest64 mideleg_rb ;;
  digest64 rb ;;
  wcheck (mideleg_rb =? boot_mideleg) "mideleg did not restore to boot value" ;;
  wcheck (rb =? boot_sip) "sip baseline changed after mideleg restore".

Definition swp_traps : prog W unit :=
  n <- regs 0 ;; digest64 n ;;
  n <- regs 0 ;;
  when (negb (n =? 0))
    (uputs "  FAIL: unexpected trap(s), count=" ;; x <- regs 0 ;; uart_put_dec x ;;
     uputs " mcause=" ;; x <- regs 1 ;; uart_put_hex x ;;
     uputs " mepc=" ;; x <- regs 2 ;; uart_put_hex x ;;
     uputs " mtval=" ;; x <- regs 3 ;; uart_put_hex x ;; uputs "\n" ;;
     n <- gget checks ;; gset_ (set_checks (n + 1)) ;;
     n <- gget fails ;; gset_ (set_fails (n + 1))) ;;
  uputs "traps: count=" ;; x <- regs 0 ;; uart_put_dec x ;; uputs "\n".

Definition swp_verdict : prog W unit :=
  uputs "checks: " ;; n <- gget checks ;; uart_put_dec (u64 n) ;;
  uputs " mismatches: " ;; n <- gget fails ;; uart_put_dec (u64 n) ;; uputs "\n" ;;
  uputs "digest: " ;; c <- gget csum ;; uart_put_hex c ;; uputs "\n" ;;
  pass_fail.

Definition swp_body : prog W unit :=
  uputs "sip-write-probe: sip all-ones WARL write/readback probe\n" ;;
  boot_enables wcheck ;;
  vector wcheck ;;
  b <- baselines ;;
  let boot_sip := b.1.1 in let boot_mip := b.1.2 in let boot_mideleg := b.2 in
  digest64 boot_sip ;; digest64 boot_mip ;; digest64 boot_mideleg ;;
  wcheck (Z.land boot_mideleg MIDELEG_SSI =? 0) "mideleg already delegates SSI at boot; phase 1 needs it clear" ;;
  swp_phase1 boot_sip boot_mip ;;
  swp_delegate boot_mideleg ;;
  swp_phase2 boot_sip boot_mip ;;
  swp_phase3 boot_sip boot_mideleg ;;
  swp_traps ;;
  end_enables wcheck ;;
  swp_verdict.
Definition swp_main : prog W unit := uart_init ;; swp_body.

(** ** sip_main.c (sip-ssip) *)

Definition sip_phaseA (boot_sip : Z) : prog W unit :=
  csrs "sip" SIP_SSIP ;;
  sip_rb <- read_sip ;;
  mip_rb <- read_mip ;;
  uputs "phaseA set (not delegated): sip=" ;; uart_put_hex sip_rb ;; uputs " mip=" ;; uart_put_hex mip_rb ;; uputs "\n" ;;
  ncheck (sip_rb =? boot_sip) "phase A: sip changed although SSIP not delegated" ;;
  ncheck (Z.land mip_rb SIP_SSIP =? 0) "phase A: mip.SSIP set although write went through sip undelegated".

Definition sip_delegate (boot_mideleg : Z) : prog W unit :=
  csrw "mideleg" (Z.lor boot_mideleg MIDELEG_SSI) ;;
  mideleg_rb <- read_mideleg ;;
  uputs "delegated: mideleg=" ;; uart_put_hex mideleg_rb ;; uputs "\n" ;;
  ncheck (Z.land mideleg_rb MIDELEG_SSI =? MIDELEG_SSI) "mideleg.SSI did not take the delegation write".

Definition sip_phaseB_set (boot_sip boot_mip : Z) : prog W unit :=
  csrs "sip" SIP_SSIP ;;
  sip_rb <- read_sip ;;
  mip_rb <- read_mip ;;
  uputs "phaseB set (delegated): sip=" ;; uart_put_hex sip_rb ;;
  uputs " (SSIP=" ;; uart_put_dec (if Z.land sip_rb SIP_SSIP =? 0 then 0 else 1) ;;
  uputs ") mip=" ;; uart_put_hex mip_rb ;; uputs "\n" ;;
  ncheck (Z.land sip_rb SIP_SSIP =? SIP_SSIP) "phase B: sip.SSIP not set after csrs bit 1 while delegated" ;;
  ncheck (no_ssip sip_rb =? no_ssip boot_sip) "phase B: non-SSIP sip bits changed across the set transition" ;;
  ncheck (Z.land mip_rb SIP_SSIP =? SIP_SSIP) "phase B: mip.SSIP did not follow the sip write" ;;
  ncheck (no_ssip mip_rb =? no_ssip boot_mip) "phase B: non-SSIP mip bits changed across the set transition".

Definition sip_phaseB_clear (boot_sip boot_mip : Z) : prog W unit :=
  csrc "sip" SIP_SSIP ;;
  sip_rb <- read_sip ;;
  mip_rb <- read_mip ;;
  uputs "phaseB clear (delegated): sip=" ;; uart_put_hex sip_rb ;; uputs " mip=" ;; uart_put_hex mip_rb ;; uputs "\n" ;;
  ncheck (sip_rb =? boot_sip) "phase B: sip did not return to boot baseline after csrc bit 1" ;;
  ncheck (Z.land mip_rb SIP_SSIP =? 0) "phase B: mip.SSIP still set after csrc bit 1" ;;
  ncheck (no_ssip mip_rb =? no_ssip boot_mip) "phase B: non-SSIP mip bits changed across the clear transition".

Definition sip_phaseC (boot_sip boot_mideleg : Z) : prog W unit :=
  csrw "mideleg" boot_mideleg ;;
  mideleg_rb <- read_mideleg ;;
  sip_rb <- read_sip ;;
  uputs "restored: mideleg=" ;; uart_put_hex mideleg_rb ;; uputs " sip=" ;; uart_put_hex sip_rb ;; uputs "\n" ;;
  ncheck (mideleg_rb =? boot_mideleg) "mideleg did not restore to boot value" ;;
  ncheck (sip_rb =? boot_sip) "sip baseline changed after mideleg restore".

Definition sip_body : prog W unit :=
  uputs "sip-ssip: sip SSIP (bit 1) delegation-gated write/readback check\n" ;;
  boot_enables ncheck ;;
  vector ncheck ;;
  b <- baselines ;;
  let boot_sip := b.1.1 in let boot_mip := b.1.2 in let boot_mideleg := b.2 in
  ncheck (Z.land boot_mideleg MIDELEG_SSI =? 0) "mideleg already delegates SSI at boot; phase A needs it clear" ;;
  sip_phaseA boot_sip ;;
  sip_delegate boot_mideleg ;;
  sip_phaseB_set boot_sip boot_mip ;;
  sip_phaseB_clear boot_sip boot_mip ;;
  sip_phaseC boot_sip boot_mideleg ;;
  traps_report ;;
  end_enables ncheck ;;
  pass_fail.
Definition sip_main : prog W unit := uart_init ;; sip_body.

(** ** stw_main.c (sie-stie-write) and mmsw_main.c (mip-msip-write) *)

(** The counters are [unsigned int]. *)
Definition icheck (cond : bool) (msg : string) : prog W unit :=
  n <- gget checks ;; gset_ (set_checks (u32 (n + 1))) ;;
  when (negb cond)
    (uputs "  FAIL: " ;; uputs msg ;; uputs "\n" ;;
     n <- gget fails ;; gset_ (set_fails (u32 (n + 1)))).

Definition fnv1a_64 (h v : Z) : Z := u64 (Z.lxor h v * 0x100000001b3).

Definition trap_count : prog W Z := regs 0.

(** The vector, not printed. *)
Definition plain_vector : prog W unit :=
  csrw "mtvec" trap_entry ;;
  tv <- csrr "mtvec" ;;
  check_mtvec trap_entry icheck tv.

Definition int_verdict : prog W unit :=
  uputs "checks=" ;; n <- gget checks ;; uart_put_dec n ;;
  uputs " fails=" ;; n <- gget fails ;; uart_put_dec n ;; uputs "\n" ;;
  n <- gget fails ;;
  if n =? 0 then uputs "RESULT: PASS\n"
  else uputs "RESULT: FAIL (" ;; n <- gget fails ;; uart_put_dec n ;; uputs " checks failed)\n".

(** A name and a value of the verdict line. *)
Definition field (name : string) (v : Z) : prog W unit := uputs name ;; uart_put_hex v.

Definition SIE_SSIE : Z := Z.shiftl 1 1.
Definition SIE_STIE : Z := Z.shiftl 1 5.
Definition SIE_SEIE : Z := Z.shiftl 1 9.
Definition MIDELEG_STI : Z := Z.shiftl 1 5.
Definition EXPECT_SIE_BOOT : Z := 0.
Definition EXPECT_MIDELEG_BOOT : Z := 0x1444.
Definition EXPECT_MIDELEG_STI : Z := 0x1464.
Definition EXPECT_SIE_ONES : Z := 0x20.

Definition read_sie : prog W Z := csrr "sie".
Definition write_sie (v : Z) : prog W unit := csrw "sie" v.
Definition set_stie : prog W unit := csrs "sie" 0x20.
Definition clear_stie : prog W unit := csrc "sie" 0x20.

Definition stw_boot : prog W (Z * Z) :=
  sie_boot <- read_sie ;;
  mideleg_boot <- read_mideleg ;;
  uputs "boot: sie=" ;; uart_put_hex sie_boot ;; uputs " mideleg=" ;; uart_put_hex mideleg_boot ;; uputs "\n" ;;
  icheck (sie_boot =? EXPECT_SIE_BOOT) "sie != 0x0 at boot" ;;
  icheck (mideleg_boot =? EXPECT_MIDELEG_BOOT) "mideleg != 0x1444 at boot" ;;
  ret (sie_boot, mideleg_boot).

Definition stw_delegate : prog W Z :=
  write_mideleg MIDELEG_STI ;;
  mideleg_sti <- read_mideleg ;;
  uputs "mideleg: write=0x20 readback=" ;; uart_put_hex mideleg_sti ;; uputs " (expect 0x1464)\n" ;;
  icheck (mideleg_sti =? EXPECT_MIDELEG_STI) "mideleg STI delegation readback != 0x1464" ;;
  ret mideleg_sti.

Definition stw_ones : prog W Z :=
  write_sie ALL_ONES ;;
  sie_ones <- read_sie ;;
  uputs "sie: write=0xffffffffffffffff readback=" ;; uart_put_hex sie_ones ;; uputs " (expect 0x20)\n" ;;
  icheck (sie_ones =? EXPECT_SIE_ONES) "sie all-ones legalized readback != 0x20" ;;
  icheck (negb (Z.land sie_ones SIE_STIE =? 0)) "STIE did not stick in sie" ;;
  icheck (Z.land sie_ones SIE_SSIE =? 0) "SSIE stuck without SSI delegation" ;;
  icheck (Z.land sie_ones SIE_SEIE =? 0) "SEIE stuck without SEI delegation" ;;
  ret sie_ones.

Definition stw_zero : prog W Z :=
  write_sie 0 ;;
  sie_zero <- read_sie ;;
  uputs "sie: write=0x0 readback=" ;; uart_put_hex sie_zero ;; uputs " (expect 0x0)\n" ;;
  icheck (sie_zero =? 0) "sie zero-write readback != 0x0" ;;
  ret sie_zero.

Definition stw_set : prog W Z :=
  set_stie ;;
  sie_csrs <- read_sie ;;
  uputs "sie: csrs STIE readback=" ;; uart_put_hex sie_csrs ;; uputs " (expect 0x20)\n" ;;
  icheck (sie_csrs =? SIE_STIE) "sie readback != 0x20 after csrs STIE" ;;
  ret sie_csrs.

Definition stw_clear : prog W Z :=
  clear_stie ;;
  sie_csrc <- read_sie ;;
  uputs "sie: csrc STIE readback=" ;; uart_put_hex sie_csrc ;; uputs " (expect 0x0)\n" ;;
  icheck (sie_csrc =? 0) "sie readback != 0x0 after csrc STIE" ;;
  ret sie_csrc.

Definition stw_restore : prog W (Z * Z) :=
  write_sie 0 ;;
  sie_final <- read_sie ;;
  write_mideleg EXPECT_MIDELEG_BOOT ;;
  mideleg_final <- read_mideleg ;;
  uputs "restore: sie=" ;; uart_put_hex sie_final ;; uputs " mideleg=" ;; uart_put_hex mideleg_final ;; uputs " (expect 0x0 / 0x1444)\n" ;;
  icheck (sie_final =? 0) "sie not 0x0 after restore" ;;
  icheck (mideleg_final =? EXPECT_MIDELEG_BOOT) "mideleg not 0x1444 after restore" ;;
  ret (sie_final, mideleg_final).

(** The values in the order of the verdict line and of the checksum. *)
Definition stw_names : list string :=
  ["VERDICT sie_boot="; " mideleg_boot="; " mideleg_sti="; " sie_ones="; " sie_zero="; " sie_csrs="; " sie_csrc="; " sie_final="; " mideleg_final="]%string.

Definition stw_body : prog W unit :=
  uputs "sie-stie-write: sie WARL write/legalized-readback probe of STIE\n" ;;
  b <- stw_boot ;;
  plain_vector ;;
  mideleg_sti <- stw_delegate ;;
  sie_ones <- stw_ones ;;
  sie_zero <- stw_zero ;;
  sie_csrs <- stw_set ;;
  sie_csrc <- stw_clear ;;
  f <- stw_restore ;;
  n <- trap_count ;;
  icheck (n =? 0) "trap fired during the run" ;;
  n <- trap_count ;;
  let vals := [b.1; b.2; mideleg_sti; sie_ones; sie_zero; sie_csrs; sie_csrc; f.1; f.2] in
  let csum := fnv1a_64 (fold_left fnv1a_64 vals FNV_OFFSET) n in
  for_each (zip stw_names vals) (fun p => field p.1 p.2) ;;
  uputs " traps=" ;; n <- trap_count ;; uart_put_dec n ;; uputs " checksum=" ;; uart_put_hex csum ;; uputs "\n" ;;
  int_verdict.
Definition stw_main : prog W unit := uart_init ;; stw_body ;; drain_finish.

(** mmsw_main.c *)
Definition MIP_MSIP : Z := Z.shiftl 1 3.
Definition EXPECT_MIP_BOOT : Z := 0x80.
Definition EXPECT_MIE_BOOT : Z := 0.
Definition EXPECT_MSTATUS_BOOT : Z := 0xa00000000.
Definition EXPECT_MIP_SSIP_SET : Z := 0x82.
Definition SPIN_ITERS : Z := 1000000.

Definition set_ssip : prog W unit := csrs "mip" 2.
Definition clear_ssip : prog W unit := csrc "mip" 2.
Definition set_msip : prog W unit := csrs "mip" 8.
Definition clear_msip : prog W unit := csrc "mip" 8.

Definition mmsw_boot : prog W (Z * Z * Z) :=
  mip_boot <- read_mip ;;
  mie_boot <- read_mie ;;
  mstatus_boot <- read_mstatus ;;
  uputs "boot: mip=" ;; uart_put_hex mip_boot ;; uputs " mie=" ;; uart_put_hex mie_boot ;;
  uputs " mstatus=" ;; uart_put_hex mstatus_boot ;; uputs "\n" ;;
  icheck (mip_boot =? EXPECT_MIP_BOOT) "mip != 0x80 at boot" ;;
  icheck (mie_boot =? EXPECT_MIE_BOOT) "mie != 0x0 at boot" ;;
  icheck (mstatus_boot =? EXPECT_MSTATUS_BOOT) "mstatus != 0xa00000000 at boot" ;;
  icheck (Z.land mstatus_boot MSTATUS_MIE =? 0) "mstatus.MIE set at boot" ;;
  icheck (Z.land mie_boot MIE_MSIE =? 0) "mie.MSIE set at boot" ;;
  ret (mip_boot, mie_boot, mstatus_boot).

Definition mmsw_control : prog W (Z * Z) :=
  set_ssip ;;
  mip_ssip_set <- read_mip ;;
  uputs "mip: after csrsi set bit 1 readback=" ;; uart_put_hex mip_ssip_set ;; uputs " (expect 0x82)\n" ;;
  icheck (mip_ssip_set =? EXPECT_MIP_SSIP_SET) "control: mip readback != 0x82 after SSIP set" ;;
  clear_ssip ;;
  mip_ssip_clear <- read_mip ;;
  uputs "mip: after csrci clear bit 1 readback=" ;; uart_put_hex mip_ssip_clear ;; uputs " (expect 0x80)\n" ;;
  icheck (mip_ssip_clear =? EXPECT_MIP_BOOT) "control: mip readback != 0x80 after SSIP clear" ;;
  ret (mip_ssip_set, mip_ssip_clear).

Definition mmsw_set : prog W Z :=
  set_msip ;;
  mip_set <- read_mip ;;
  uputs "mip: after csrsi set bit 3 readback=" ;; uart_put_hex mip_set ;; uputs " (expect 0x80, write ignored)\n" ;;
  icheck (Z.land mip_set MIP_MSIP =? 0) "mip.MSIP set by csrsi" ;;
  icheck (mip_set =? EXPECT_MIP_BOOT) "mip changed by ignored MSIP write" ;;
  ret mip_set.

(** [for (i = 0; i < SPIN_ITERS; i++)] around a compiler barrier. *)
Fixpoint spin (fuel : nat) (i : Z) : prog W unit :=
  if i <? SPIN_ITERS
  then match fuel with O => nofuel | S fuel => spin fuel (u64 (i + 1)) end
  else ret tt.

Definition mmsw_hold : prog W Z :=
  spin (Z.to_nat SPIN_ITERS) 0 ;;
  mip_hold <- read_mip ;;
  uputs "mip: after spin window readback=" ;; uart_put_hex mip_hold ;;
  uputs " traps=" ;; n <- trap_count ;; uart_put_dec n ;; uputs " (expect 0x80 / 0)\n" ;;
  icheck (mip_hold =? EXPECT_MIP_BOOT) "mip changed during spin" ;;
  n <- trap_count ;;
  icheck (n =? 0) "trap fired with enables clear" ;;
  ret mip_hold.

Definition mmsw_clear : prog W Z :=
  clear_msip ;;
  mip_clear <- read_mip ;;
  uputs "mip: after csrci clear bit 3 readback=" ;; uart_put_hex mip_clear ;; uputs " (expect 0x80, write ignored)\n" ;;
  icheck (mip_clear =? EXPECT_MIP_BOOT) "mip changed by ignored MSIP clear" ;;
  ret mip_clear.

Definition mmsw_end : prog W (Z * Z) :=
  mie_final <- read_mie ;;
  mstatus_final <- read_mstatus ;;
  icheck (Z.land mie_final MIE_MSIE =? 0) "mie.MSIE set at end" ;;
  icheck (Z.land mstatus_final MSTATUS_MIE =? 0) "mstatus.MIE set at end" ;;
  n <- trap_count ;;
  icheck (n =? 0) "trap fired during the run" ;;
  ret (mie_final, mstatus_final).

Definition mmsw_names : list string :=
  ["VERDICT mip_boot="; " mie_boot="; " mip_ssip_set="; " mip_ssip_clear="; " mip_set="; " mip_hold="; " mip_clear="; " mie_final="]%string.

Definition mmsw_body : prog W unit :=
  uputs "mip-msip-write: mip.MSIP software-write probe\n" ;;
  b <- mmsw_boot ;;
  plain_vector ;;
  c <- mmsw_control ;;
  mip_set <- mmsw_set ;;
  mip_hold <- mmsw_hold ;;
  mip_clear <- mmsw_clear ;;
  e <- mmsw_end ;;
  n <- trap_count ;;
  let csum := fold_left fnv1a_64 [b.1.1; b.1.2; b.2; c.1; c.2; mip_set; mip_hold; mip_clear; e.1; e.2; n] FNV_OFFSET in
  for_each (zip mmsw_names [b.1.1; b.1.2; c.1; c.2; mip_set; mip_hold; mip_clear; e.1]) (fun p => field p.1 p.2) ;;
  uputs " traps=" ;; n <- trap_count ;; uart_put_dec n ;; uputs " checksum=" ;; uart_put_hex csum ;; uputs "\n" ;;
  int_verdict.
Definition mmsw_main : prog W unit := uart_init ;; mmsw_body ;; drain_finish.
End Program.

(** ** Rules *)

Section Rules.
Context {U H : Type} `{!UartDev U, !UartSpec U, !HartDev H, !IntSpec H}.
Abbreviation vr := (vruns (U:=U) (H:=H) (G:=pglob) iview).

Lemma int_read_runs c v g : is_int c = true -> vr (csrr c) v g (int_read ih c v) [] v g.
Proof. intros Hc u h <-. exists (csr_rd c h).2. rewrite csrr_eq, (int_rd c h Hc). split; [reflexivity|]. apply int_rd_keeps. Qed.
Lemma int_write_runs c x v g : is_wint c = true -> vr (csrw c x) v g tt [] (int_write ih c x v) g.
Proof. intros Hc u h <-. exists (csr_wr c x h). split; [reflexivity|]. now apply int_wr. Qed.
Lemma int_set_runs c m v g : is_wint c = true -> is_int c = true ->
  vr (csrs c m) v g tt [] (int_write ih c (Z.lor (int_read ih c v) m) v) g.
Proof.
  intros Hw Hc. unfold csrs, csrrs. eapply vruns_bind0; [|apply vruns_ret].
  eapply vruns_bind0; [now apply int_read_runs|]. eapply vruns_bind0; [now apply int_write_runs|]. apply vruns_ret.
Qed.
Lemma int_clear_runs c m v g : is_wint c = true -> is_int c = true ->
  vr (csrc c m) v g tt [] (int_write ih c (Z.land (int_read ih c v) (u64 (Z.lnot m))) v) g.
Proof.
  intros Hw Hc. unfold csrc, csrrc. eapply vruns_bind0; [|apply vruns_ret].
  eapply vruns_bind0; [now apply int_read_runs|]. eapply vruns_bind0; [now apply int_write_runs|]. apply vruns_ret.
Qed.
Lemma int_finisher v g : vr finisher v g tt [] (with_test FINISHER_PASS v) g.
Proof. intros u h <-. exists (mw32 VIRT_TEST_FINISHER FINISHER_PASS h). split; [reflexivity|]. apply int_fin. Qed.

Lemma int_pass_fail v s bs n c :
  vhalts (U:=U) iview pass_fail v (ws s bs n c) (if forallb id bs then lit "RESULT: PASS\n" else lit "RESULT: FAIL\n")
    (if forallb id bs then with_test FINISHER_PASS v else v) (ws s bs n c).
Proof.
  unfold pass_fail. eapply vhalts_bind0; [apply vruns_gget|]. cbn [fails ws]. rewrite nfalse_zero.
  destruct (forallb id bs); eapply vhalts_conv.
  - vstep. eapply vhalts_bind0; [apply int_finisher|]. apply vhalts_park.
  - now rewrite app_nil_r.
  - vstep. apply vhalts_park.
  - now rewrite app_nil_r.
Qed.

Lemma icheck_runs b msg v s bs n c : no_nul (c_lit msg) = true -> 0 <= n < 1000 -> Z.of_nat (length bs) < 1000 ->
  vr (icheck b msg) v (ws s bs n c) tt (chk b msg) v (ws s (bs ++ [b]) (n + 1) c).
Proof.
  intros Hm Hn Hl. pose proof (nfalse_bound bs) as Hb. unfold icheck. eapply vruns_bind0; [apply vruns_gget|].
  eapply vruns_bind0; [apply vruns_gset; reflexivity|]. cbn [checks ws].
  assert (u32 (n + 1) = n + 1) as -> by (apply Z.mod_small; lia). destruct b; cbn [negb].
  - eapply vruns_conv; [now apply vruns_unless|reflexivity..|]. unfold ws, set_checks. cbn [save fails checks csum]. rewrite nfalse_snoc. f_equal. lia.
  - eapply vruns_when; [|reflexivity]. eapply vruns_conv.
    + eapply vruns_bind; [vprim|]. eapply vruns_bind; [apply vruns_prints, prints_lit, Hm|]. eapply vruns_bind; [vprim|].
      eapply vruns_bind0; [apply vruns_gget|]. apply vruns_gset. reflexivity.
    + reflexivity.
    + unfold chk. now rewrite app_nil_r.
    + reflexivity.
    + unfold ws, set_checks, set_fails. cbn [save fails checks csum]. rewrite nfalse_snoc.
      assert (u32 (nfalse bs + 1) = nfalse bs + 1) as -> by (apply Z.mod_small; lia). reflexivity.
Qed.

Lemma spin_window_runs fuel i v g : 0 <= i -> SPIN_ITERS - i <= Z.of_nat fuel -> vr (spin fuel i) v g tt [] v g.
Proof.
  revert i. induction fuel as [|fuel IH]; intros i Hi Hf; cbn [spin]; destruct (Z.ltb_spec i SPIN_ITERS); try apply vruns_ret; [lia|].
  assert (i < 1000000) by assumption. rewrite (u64_small (i + 1)) by (unfold is_u64; lia). apply IH; lia.
Qed.
End Rules.

Lemma int_read_as {U H : Type} `{!UartDev U, !UartSpec U, !HartDev H, !IntSpec H} c x v g : is_int c = true -> int_read ih c v = x ->
  vruns (U:=U) (H:=H) (G:=pglob) iview (csrr c) v g x [] v g.
Proof. intros Hc <-. now apply int_read_runs. Qed.
Lemma int_write_as {U H : Type} `{!UartDev U, !UartSpec U, !HartDev H, !IntSpec H} c x v v' g : is_wint c = true -> int_write ih c x v = v' ->
  vruns (U:=U) (H:=H) (G:=pglob) iview (csrw c x) v g tt [] v' g.
Proof. intros Hc <-. now apply int_write_runs. Qed.
Lemma int_set_as {U H : Type} `{!UartDev U, !UartSpec U, !HartDev H, !IntSpec H} c m v v' g : is_wint c = true -> is_int c = true ->
  int_write ih c (Z.lor (int_read ih c v) m) v = v' -> vruns (U:=U) (H:=H) (G:=pglob) iview (csrs c m) v g tt [] v' g.
Proof. intros Hw Hc <-. now apply int_set_runs. Qed.
Lemma int_clear_as {U H : Type} `{!UartDev U, !UartSpec U, !HartDev H, !IntSpec H} c m v v' g : is_wint c = true -> is_int c = true ->
  int_write ih c (Z.land (int_read ih c v) (u64 (Z.lnot m))) v = v' -> vruns (U:=U) (H:=H) (G:=pglob) iview (csrc c m) v g tt [] v' g.
Proof. intros Hw Hc <-. now apply int_clear_runs. Qed.

(** The instruction on registers that are given one by one. *)
Ltac ired := cbv [int_read int_write String.eqb Ascii.eqb Bool.eqb with_mip with_mie with_deleg with_mtvec with_mscratch with_test
  i_mip i_mie i_deleg i_mstatus i_mtvec i_mscratch i_test]; reflexivity.
Ltac iprim :=
  lazymatch goal with
  | |- vruns _ (csrr _) _ _ _ _ _ _ => eapply int_read_as; [reflexivity|ired]
  | |- vruns _ read_sip _ _ _ _ _ _ => eapply int_read_as; [reflexivity|ired]
  | |- vruns _ read_sie _ _ _ _ _ _ => eapply int_read_as; [reflexivity|ired]
  | |- vruns _ read_mip _ _ _ _ _ _ => eapply int_read_as; [reflexivity|ired]
  | |- vruns _ read_mie _ _ _ _ _ _ => eapply int_read_as; [reflexivity|ired]
  | |- vruns _ read_mideleg _ _ _ _ _ _ => eapply int_read_as; [reflexivity|ired]
  | |- vruns _ read_mstatus _ _ _ _ _ _ => eapply int_read_as; [reflexivity|ired]
  | |- vruns _ (csrw _ _) _ _ _ _ _ _ => eapply int_write_as; [reflexivity|ired]
  | |- vruns _ (write_sip _) _ _ _ _ _ _ => eapply int_write_as; [reflexivity|ired]
  | |- vruns _ (write_sie _) _ _ _ _ _ _ => eapply int_write_as; [reflexivity|ired]
  | |- vruns _ (write_mideleg _) _ _ _ _ _ _ => eapply int_write_as; [reflexivity|ired]
  | |- vruns _ (csrs _ _) _ _ _ _ _ _ => eapply int_set_as; [reflexivity..|ired]
  | |- vruns _ (csrc _ _) _ _ _ _ _ _ => eapply int_clear_as; [reflexivity..|ired]
  | |- vruns _ (ncheck _ _) _ _ _ _ _ _ => apply ncheck_runs; reflexivity
  | |- vruns _ (wcheck _ _) _ _ _ _ _ _ => apply wcheck_counts; reflexivity
  | |- vruns _ (digest64 _) _ _ _ _ _ _ => apply feed_runs
  | |- vruns _ (regs _) _ _ _ _ _ _ => apply regs_runs; reflexivity
  | |- vruns _ trap_count _ _ _ _ _ _ => apply regs_runs; reflexivity
  | |- _ => vprim
  end.
Ltac iquiet m :=
  lazymatch m with
  | ret _ => idtac | gget _ => idtac | gset_ _ => idtac | csrr _ => idtac | csrw _ _ => idtac | csrs _ _ => idtac | csrc _ _ => idtac
  | regs _ => idtac | trap_count => idtac | digest64 _ => idtac
  | read_sip => idtac | read_sie => idtac | read_mip => idtac | read_mie => idtac | read_mideleg => idtac | read_mstatus => idtac
  | write_sip _ => idtac | write_sie _ => idtac | write_mideleg _ => idtac
  end.
Ltac istep :=
  lazymatch goal with
  | |- vruns _ (bind ?m _) _ _ _ _ _ _ =>
      first [iquiet m; eapply vruns_bind0; [iprim|cbn beta] | eapply vruns_bind; [iprim|cbn beta]]
  | |- vhalts _ (bind ?m _) _ _ _ _ _ =>
      first [iquiet m; eapply vhalts_bind0; [iprim|cbn beta] | eapply vhalts_bind; [iprim|cbn beta]]
  | |- vruns _ _ _ _ _ _ _ _ => iprim
  end.
Ltac iblock := cbv zeta; eapply vruns_conv; [repeat istep|reflexivity|cbn [app]; rewrite ?app_nil_r; reflexivity|reflexivity
  |rewrite <-?app_assoc; reflexivity].

(** ** Words *)

Lemma ldiff_u64 x y : is_u64 x -> is_u64 (Z.ldiff x y).
Proof.
  rewrite !u64_bits. intros [H0 E]. split; [apply Z.ldiff_nonneg; now left|].
  now rewrite !Z.ldiff_land, <-Z.land_assoc, (Z.land_comm (Z.lnot y)), Z.land_assoc, E.
Qed.
Lemma under_u64 w o x : is_u64 o -> is_u64 w -> 0 <= x -> is_u64 (under w o x).
Proof. intros Ho Hw Hx. apply lor_u64; [now apply ldiff_u64|]. rewrite Z.land_comm. now apply land_u64. Qed.
Lemma sip_of_u64 `{IntSpec H} x y : is_u64 x -> 0 <= y -> is_u64 (sip_of ih x y).
Proof. intros Hx Hy. apply land_u64; [now apply land_u64|]. apply s_ints_ok. Qed.
Lemma sip_set_u64 x y z : is_u64 x -> 0 <= y -> 0 <= z -> is_u64 (sip_set x y z).
Proof. intros Hx Hy Hz. apply under_u64; [exact Hx| |exact Hz]. apply land_u64; [u64c|exact Hy]. Qed.
Lemma u64_nonneg x : is_u64 x -> 0 <= x.
Proof. now intros []. Qed.
Lemma flag_u64 (b : bool) : is_u64 (if b then 0 else 1).
Proof. destruct b; u64c. Qed.
#[export] Hint Resolve flag_u64 sip_of_u64 sip_set_u64 deleg_u64 vec_u64 u64_nonneg : word.

(** ** The sip programs *)

Section Sip.
Context {U H : Type} `{!UartDev U, !UartSpec U, !HartDev H, !IntSpec H} (trap_entry save_addr : Z).
Abbreviation vr := (vruns (U:=U) (H:=H) (G:=pglob) iview).
Abbreviation sipv := (sip_of ih).

(** Registers at boot. *)
Context (p e g m t sc d : Z).
Hypothesis Hp : is_u64 p.
Hypothesis He : is_u64 e.
Hypothesis Hg : is_u64 g.
Hypothesis Hm : is_u64 m.

Definition msie_ok : bool := Z.land e MIE_MSIE =? 0.
Definition mie_ok : bool := Z.land m MSTATUS_MIE =? 0.
Definition vec : Z := vec_legal ih t trap_entry.
Definition vec_checks : list bool := [Z.land vec (u64 (Z.lnot 3)) =? trap_entry; Z.land vec 3 =? 0].
Definition vec_text : list Z :=
  chk (Z.land vec (u64 (Z.lnot 3)) =? trap_entry) "mtvec did not take the handler address" ++ chk (Z.land vec 3 =? 0) "mtvec not in direct mode".
Definition enables_text (tag msg1 msg2 : string) : list Z :=
  lit tag ++ fmt_hex e ++ lit " mstatus=" ++ fmt_hex m ++ lit "\n" ++ chk msie_ok msg1 ++ chk mie_ok msg2.
Definition boot_text : list Z := enables_text "boot: mie=" "mie.MSIE set at boot" "mstatus.MIE set at boot".
Definition end_text : list Z := enables_text "end: mie=" "mie.MSIE changed during run" "mstatus.MIE changed during run".
Definition no_ssi (x : Z) : bool := Z.land x MIDELEG_SSI =? 0.
Definition base_text : list Z :=
  lit "boot: sip=" ++ fmt_hex (sipv p g) ++ lit " mip=" ++ fmt_hex p ++ lit " mideleg=" ++ fmt_hex g ++
  lit " (SSI delegated: " ++ fmt_dec (if no_ssi g then 0 else 1) ++ lit ")\n".

(** mideleg after the delegation and after the restore. *)
Definition d1 : Z := deleg_legal ih g (Z.lor g MIDELEG_SSI).
Definition d2 : Z := deleg_legal ih d1 g.

Lemma baselines_run p' t' sc' s bs n c : is_u64 p' ->
  vr baselines (Ints p' e g m t' sc' d) (ws s bs n c) (sipv p' g, p', g)
    (lit "boot: sip=" ++ fmt_hex (sipv p' g) ++ lit " mip=" ++ fmt_hex p' ++ lit " mideleg=" ++ fmt_hex g ++
     lit " (SSI delegated: " ++ fmt_dec (if no_ssi g then 0 else 1) ++ lit ")\n") (Ints p' e g m t' sc' d) (ws s bs n c).
Proof using Hg UartSpec0. intros Hp'. unfold baselines, no_ssi. iblock. Qed.

(** sip-write-probe: mip after each write of sip. *)
Definition w1 : Z := sip_set p g ALL_ONES.
Definition w2 : Z := sip_set w1 g 0.
Definition w3 : Z := sip_set w2 d1 ALL_ONES.
Definition w4 : Z := sip_set w3 d1 0.

Definition sip_line (tag : string) (x y : Z) : list Z := lit tag ++ fmt_hex x ++ lit " mip=" ++ fmt_hex y ++ lit "\n".

Lemma swp_write_runs x tag p' g' t' sc' s bs n c : no_nul (c_lit tag) = true -> is_u64 p' -> is_u64 g' -> 0 <= x ->
  vr (swp_write x tag) (Ints p' e g' m t' sc' d) (ws s bs n c) (sipv (sip_set p' g' x) g', sip_set p' g' x)
    (sip_line tag (sipv (sip_set p' g' x) g') (sip_set p' g' x))
    (Ints (sip_set p' g' x) e g' m t' sc' d) (ws s bs n (fold_left fnv_word [sipv (sip_set p' g' x) g'; sip_set p' g' x] c)).
Proof using UartSpec0.
  intros Ht Hp' Hg' Hx. unfold swp_write, sip_line. cbn [fold_left]. eapply vruns_conv.
  - do 3 istep. eapply vruns_bind; [now apply vruns_prints, prints_lit|]. repeat istep.
  - reflexivity.
  - cbn [app]. now rewrite ?app_nil_r.
  - reflexivity.
  - reflexivity.
Qed.

Definition p1_checks : list bool := [sipv w1 g =? sipv p g; w1 =? p; sipv w2 g =? sipv p g; w2 =? p].
Definition p1_text : list Z :=
  sip_line "phase1 ones: sip=" (sipv w1 g) w1 ++
  chk (sipv w1 g =? sipv p g) "phase 1: all-ones write changed sip although SSI not delegated" ++
  chk (w1 =? p) "phase 1: sip all-ones write changed mip" ++
  sip_line "phase1 zero: sip=" (sipv w2 g) w2 ++
  chk (sipv w2 g =? sipv p g) "phase 1: zero write did not read back the boot sip baseline" ++
  chk (w2 =? p) "phase 1: sip zero write changed mip".

Lemma swp_phase1_runs t' sc' s bs n c :
  vr (swp_phase1 (sipv p g) p) (Ints p e g m t' sc' d) (ws s bs n c) tt p1_text
    (Ints w2 e g m t' sc' d) (ws s (bs ++ p1_checks) (n + 4) (fold_left fnv_word [sipv w1 g; w1; sipv w2 g; w2] c)).
Proof using Hp Hg UartSpec0.
  assert (is_u64 w1) by (unfold w1; auto with word). unfold swp_phase1, p1_text, p1_checks. eapply vruns_conv.
  - eapply vruns_bind; [apply swp_write_runs; auto with word|]. fold w1. cbn [fst snd]. do 2 istep.
    eapply vruns_bind; [apply swp_write_runs; auto with word|]. fold w2. cbn [fst snd]. repeat istep.
  - reflexivity.
  - reflexivity.
  - reflexivity.
  - fold w1. fold w2. cbn [fold_left]. rewrite <-!app_assoc, <-!Z.add_assoc. reflexivity.
Qed.

Definition took (x : Z) : bool := Z.land x MIDELEG_SSI =? MIDELEG_SSI.
Lemma swp_delegate_runs p' t' sc' s bs n c :
  vr (swp_delegate g) (Ints p' e g m t' sc' d) (ws s bs n c) tt
    (lit "delegated: mideleg=" ++ fmt_hex d1 ++ lit "\n" ++ chk (took d1) "mideleg.SSI did not take the delegation write")
    (Ints p' e d1 m t' sc' d) (ws s (bs ++ [took d1]) (n + 1) (fnv_word c d1)).
Proof using UartSpec0. unfold swp_delegate, took, d1. iblock. Qed.

(** [y] has SSIP set and is like [x] otherwise; clear and like it. *)
Definition only_ssip (x y : Z) : bool := (no_ssip y =? no_ssip x) && (Z.land y SIP_SSIP =? SIP_SSIP).
Definition ssip_set (y : Z) : bool := Z.land y SIP_SSIP =? SIP_SSIP.
Definition ssip_clear (y : Z) : bool := Z.land y SIP_SSIP =? 0.
Definition rest_same (x y : Z) : bool := no_ssip y =? no_ssip x.

Definition p2_checks : list bool :=
  [only_ssip (sipv p g) (sipv w3 d1); ssip_set w3; rest_same p w3; sipv w4 d1 =? sipv p g; ssip_clear w4; rest_same p w4].
Definition p2_text : list Z :=
  sip_line "phase2 ones: sip=" (sipv w3 d1) w3 ++
  chk (only_ssip (sipv p g) (sipv w3 d1)) "phase 2: all-ones write did not legalize to exactly SSIP set" ++
  chk (ssip_set w3) "phase 2: mip.SSIP did not follow the sip all-ones write" ++
  chk (rest_same p w3) "phase 2: non-SSIP mip bits changed across the sip write" ++
  sip_line "phase2 zero: sip=" (sipv w4 d1) w4 ++
  chk (sipv w4 d1 =? sipv p g) "phase 2: zero write did not return sip to the boot baseline" ++
  chk (ssip_clear w4) "phase 2: mip.SSIP still set after the sip zero write" ++
  chk (rest_same p w4) "phase 2: non-SSIP mip bits changed across the sip zero write".

Lemma w2_u64 : is_u64 w2.
Proof using Hp Hg. unfold w2, w1. auto 8 with word. Qed.
Lemma w4_u64 : is_u64 w4.
Proof using Hp Hg. unfold w4, w3. pose proof w2_u64. assert (is_u64 d1) by apply deleg_u64. auto 8 with word. Qed.

Lemma swp_phase2_runs t' sc' s bs n c :
  vr (swp_phase2 (sipv p g) p) (Ints w2 e d1 m t' sc' d) (ws s bs n c) tt p2_text
    (Ints w4 e d1 m t' sc' d) (ws s (bs ++ p2_checks) (n + 6) (fold_left fnv_word [sipv w3 d1; w3; sipv w4 d1; w4] c)).
Proof using Hp Hg UartSpec0.
  pose proof w2_u64 as H2. assert (is_u64 d1) as Hd by apply deleg_u64. assert (is_u64 w3) by (unfold w3; auto with word).
  unfold swp_phase2, p2_text, p2_checks. eapply vruns_conv.
  - eapply vruns_bind; [apply swp_write_runs; auto with word|]. fold w3. cbn [fst snd]. do 3 istep.
    eapply vruns_bind; [apply swp_write_runs; auto with word|]. fold w4. cbn [fst snd]. repeat istep.
  - reflexivity.
  - reflexivity.
  - reflexivity.
  - fold w3. fold w4. cbn [fold_left]. rewrite <-!app_assoc, <-!Z.add_assoc. reflexivity.
Qed.

Definition p3_text (w : Z) : list Z :=
  lit "restored: mideleg=" ++ fmt_hex d2 ++ lit " sip=" ++ fmt_hex (sipv w d2) ++ lit "\n" ++
  chk (d2 =? g) "mideleg did not restore to boot value" ++ chk (sipv w d2 =? sipv p g) "sip baseline changed after mideleg restore".
Lemma swp_phase3_runs t' sc' s bs n c :
  vr (swp_phase3 (sipv p g) g) (Ints w4 e d1 m t' sc' d) (ws s bs n c) tt (p3_text w4)
    (Ints w4 e d2 m t' sc' d) (ws s (bs ++ [d2 =? g; sipv w4 d2 =? sipv p g]) (n + 2) (fold_left fnv_word [d2; sipv w4 d2] c)).
Proof using Hp Hg UartSpec0.
  pose proof w4_u64 as H4. unfold swp_phase3, p3_text, d2. eapply vruns_conv; [repeat istep|reflexivity| |reflexivity|].
  - cbn [app]. rewrite ?app_nil_r. reflexivity.
  - cbn [fold_left]. rewrite <-!app_assoc, <-!Z.add_assoc. reflexivity.
Qed.

Abbreviation sv5 := (replicate 5 0).
Lemma swp_traps_run v bs n c : vr swp_traps v (ws sv5 bs n c) tt (lit "traps: count=0\n") v (ws sv5 bs n (fnv_word c 0)).
Proof using UartSpec0.
  unfold swp_traps. eapply vruns_conv.
  - do 3 istep. eapply vruns_bind0; [now apply vruns_unless|]. repeat istep.
  - reflexivity.
  - vm_compute. reflexivity.
  - reflexivity.
  - reflexivity.
Qed.

Lemma swp_verdict_halts v bs n c : 0 <= n < 1000 -> Z.of_nat (length bs) < 1000 -> is_u64 c ->
  vhalts (U:=U) iview swp_verdict v (ws sv5 bs n c)
    (lit "checks: " ++ fmt_dec n ++ lit " mismatches: " ++ fmt_dec (nfalse bs) ++ lit "\ndigest: " ++ fmt_hex c ++ lit "\n" ++
     (if forallb id bs then lit "RESULT: PASS\n" else lit "RESULT: FAIL\n"))
    (if forallb id bs then with_test FINISHER_PASS v else v) (ws sv5 bs n c).
Proof using UartSpec0.
  intros Hn Hl Hc. pose proof (nfalse_bound bs) as Hb.
  assert (u64 n = n) as E1 by (apply u64_small; unfold is_u64; lia).
  assert (u64 (nfalse bs) = nfalse bs) as E2 by (apply u64_small; unfold is_u64; lia).
  unfold swp_verdict. eapply vhalts_conv.
  - do 2 istep. cbn [checks ws]. do 3 istep. cbn [fails ws]. do 4 istep. cbn [csum ws]. do 2 istep. apply int_pass_fail.
  - rewrite E1, E2. generalize (fmt_dec n) (fmt_dec (nfalse bs)). intros. text_eq.
Qed.

Definition swp_checks : list bool :=
  [msie_ok; mie_ok] ++ vec_checks ++ [no_ssi g] ++ p1_checks ++ [took d1] ++ p2_checks ++ [d2 =? g; sipv w4 d2 =? sipv p g] ++ [msie_ok; mie_ok].
Definition swp_fed : list Z :=
  [sipv p g; p; g; sipv w1 g; w1; sipv w2 g; w2; d1; sipv w3 d1; w3; sipv w4 d1; w4; d2; sipv w4 d2; 0].
Definition swp_log : list Z :=
  lit "sip-write-probe: sip all-ones WARL write/readback probe\n" ++ boot_text ++
  lit "trap: mtvec=" ++ fmt_hex vec ++ lit "\n" ++ vec_text ++ base_text ++
  chk (no_ssi g) "mideleg already delegates SSI at boot; phase 1 needs it clear" ++ p1_text ++
  lit "delegated: mideleg=" ++ fmt_hex d1 ++ lit "\n" ++ chk (took d1) "mideleg.SSI did not take the delegation write" ++
  p2_text ++ p3_text w4 ++ lit "traps: count=0\n" ++ end_text ++
  lit "checks: 20 mismatches: " ++ fmt_dec (nfalse swp_checks) ++ lit "\ndigest: " ++
  fmt_hex (fold_left fnv_word swp_fed 14695981039346656037) ++ lit "\n" ++
  (if forallb id swp_checks then lit "RESULT: PASS\n" else lit "RESULT: FAIL\n").

(** Either [check]; [j] is what it adds to the count. *)
Section Either.
Context (check : bool -> string -> prog (world U H pglob) unit) (j : Z).
Hypothesis Hck : forall b msg v s bs n c, no_nul (c_lit msg) = true ->
  vr (check b msg) v (ws s bs n c) tt (chk b msg) v (ws s (bs ++ [b]) (n + j) c).

Lemma enables_run tag msg1 msg2 p' g' t' sc' d' s bs n c :
  no_nul (c_lit tag) = true -> no_nul (c_lit msg1) = true -> no_nul (c_lit msg2) = true ->
  vr (enables check tag msg1 msg2) (Ints p' e g' m t' sc' d') (ws s bs n c) tt (enables_text tag msg1 msg2)
    (Ints p' e g' m t' sc' d') (ws s (bs ++ [msie_ok; mie_ok]) (n + (j + j)) c).
Proof using He Hm UartSpec0 Hck.
  intros Ht H1 H2. unfold enables, enables_text, msie_ok, mie_ok. eapply vruns_conv.
  - do 2 istep. eapply vruns_bind; [now apply vruns_prints, prints_lit|]. do 4 istep. eapply vruns_bind; [now apply Hck|]. now apply Hck.
  - reflexivity.
  - reflexivity.
  - reflexivity.
  - rewrite <-!app_assoc, <-!Z.add_assoc. reflexivity.
Qed.

Lemma vector_runs s bs n c :
  vr (vector trap_entry save_addr check) (Ints p e g m t sc d) (ws s bs n c) tt (lit "trap: mtvec=" ++ fmt_hex vec ++ lit "\n" ++ vec_text)
    (Ints p e g m vec save_addr d) (ws s (bs ++ vec_checks) (n + (j + j)) c).
Proof using UartSpec0 Hck.
  unfold vector, check_mtvec, vec_text, vec_checks, vec. eapply vruns_conv.
  - do 6 istep. eapply vruns_bind; [now apply Hck|]. now apply Hck.
  - reflexivity.
  - reflexivity.
  - reflexivity.
  - rewrite <-!app_assoc, <-!Z.add_assoc. reflexivity.
Qed.
End Either.

Lemma swp_main_sends :
  vmain_sends (U:=U) iview (swp_main trap_entry save_addr) (Ints p e g m t sc d) swp_boot_glob swp_log
    (fun v gl => v = Ints w4 e d2 m vec save_addr (if forallb id swp_checks then FINISHER_PASS else d) /\ fails gl = nfalse swp_checks).
Proof using Hp He Hg Hm UartSpec0.
  apply vmain_sends_intro.
  - eexists _, _, (ws sv5 swp_checks 20 _). split; [|split].
    + unfold swp_body. change swp_boot_glob with (ws sv5 [] 0 14695981039346656037). istep.
      eapply vhalts_bind; [apply (enables_run _ 1 (wcheck_counts iview)); reflexivity|].
      eapply vhalts_bind; [apply (vector_runs _ 1 (wcheck_counts iview))|].
      eapply vhalts_bind; [apply baselines_run; exact Hp|]. cbv zeta. cbn [fst snd]. do 4 istep.
      eapply vhalts_bind; [apply swp_phase1_runs|]. eapply vhalts_bind; [apply swp_delegate_runs|].
      eapply vhalts_bind; [apply swp_phase2_runs|]. eapply vhalts_bind; [apply swp_phase3_runs|].
      eapply vhalts_bind; [apply swp_traps_run|].
      eapply vhalts_bind; [apply (enables_run _ 1 (wcheck_counts iview)); reflexivity|].
      apply swp_verdict_halts; [cbn; lia|cbn; lia|apply fnv_word_u64].
    + unfold swp_log, swp_fed, base_text. cbn [app fold_left]. change (Z.land g MIDELEG_SSI =? 0) with (no_ssi g). fold boot_text end_text.
      generalize boot_text end_text vec_text p1_text p2_text (p3_text w4) (fmt_dec (nfalse swp_checks)) (fmt_dec (if no_ssi g then 0 else 1)).
      intros. text_eq.
    + split; [|reflexivity]. now destruct (forallb id swp_checks).
  - unfold swp_log, boot_text, end_text, enables_text, vec_text, base_text, p1_text, p2_text, p3_text, sip_line. warl_bytes.
Qed.

(** sip-ssip: mip after each set and clear through sip. *)
Definition a1 : Z := sip_set p g (Z.lor (sipv p g) SIP_SSIP).
Definition b1 : Z := sip_set a1 d1 (Z.lor (sipv a1 d1) SIP_SSIP).
Definition b2 : Z := sip_set b1 d1 (no_ssip (sipv b1 d1)).

Lemma a1_u64 : is_u64 a1.
Proof using Hp Hg. unfold a1. auto 8 with word. Qed.
Lemma b1_u64 : is_u64 b1.
Proof using Hp Hg. unfold b1. pose proof a1_u64. assert (is_u64 d1) by apply deleg_u64. auto 8 with word. Qed.
Lemma b2_u64 : is_u64 b2.
Proof using Hp Hg. unfold b2, no_ssip. pose proof b1_u64. assert (is_u64 d1) by apply deleg_u64. auto 8 with word. Qed.

Definition A_checks : list bool := [sipv a1 g =? sipv p g; ssip_clear a1].
Definition A_text : list Z :=
  sip_line "phaseA set (not delegated): sip=" (sipv a1 g) a1 ++
  chk (sipv a1 g =? sipv p g) "phase A: sip changed although SSIP not delegated" ++
  chk (ssip_clear a1) "phase A: mip.SSIP set although write went through sip undelegated".
Lemma sip_phaseA_runs t' sc' s bs n c :
  vr (sip_phaseA (sipv p g)) (Ints p e g m t' sc' d) (ws s bs n c) tt A_text (Ints a1 e g m t' sc' d) (ws s (bs ++ A_checks) n c).
Proof using Hp Hg UartSpec0. pose proof a1_u64 as Ha. unfold sip_phaseA, A_text, A_checks, sip_line. rewrite <-!app_assoc. iblock. Qed.

Lemma sip_delegate_runs p' t' sc' s bs n c :
  vr (sip_delegate g) (Ints p' e g m t' sc' d) (ws s bs n c) tt
    (lit "delegated: mideleg=" ++ fmt_hex d1 ++ lit "\n" ++ chk (took d1) "mideleg.SSI did not take the delegation write")
    (Ints p' e d1 m t' sc' d) (ws s (bs ++ [took d1]) n c).
Proof using UartSpec0. unfold sip_delegate, took, d1. iblock. Qed.

Definition B_checks : list bool :=
  [ssip_set (sipv b1 d1); rest_same (sipv p g) (sipv b1 d1); ssip_set b1; rest_same p b1].
Definition B_text : list Z :=
  lit "phaseB set (delegated): sip=" ++ fmt_hex (sipv b1 d1) ++ lit " (SSIP=" ++ fmt_dec (if ssip_clear (sipv b1 d1) then 0 else 1) ++
  lit ") mip=" ++ fmt_hex b1 ++ lit "\n" ++
  chk (ssip_set (sipv b1 d1)) "phase B: sip.SSIP not set after csrs bit 1 while delegated" ++
  chk (rest_same (sipv p g) (sipv b1 d1)) "phase B: non-SSIP sip bits changed across the set transition" ++
  chk (ssip_set b1) "phase B: mip.SSIP did not follow the sip write" ++
  chk (rest_same p b1) "phase B: non-SSIP mip bits changed across the set transition".
Lemma sip_set_runs t' sc' s bs n c :
  vr (sip_phaseB_set (sipv p g) p) (Ints a1 e d1 m t' sc' d) (ws s bs n c) tt B_text (Ints b1 e d1 m t' sc' d) (ws s (bs ++ B_checks) n c).
Proof using Hp Hg UartSpec0.
  pose proof b1_u64 as H1. assert (is_u64 d1) as Hd by apply deleg_u64. unfold sip_phaseB_set, B_text, B_checks. iblock.
Qed.

Definition B2_checks : list bool := [sipv b2 d1 =? sipv p g; ssip_clear b2; rest_same p b2].
Definition B2_text : list Z :=
  sip_line "phaseB clear (delegated): sip=" (sipv b2 d1) b2 ++
  chk (sipv b2 d1 =? sipv p g) "phase B: sip did not return to boot baseline after csrc bit 1" ++
  chk (ssip_clear b2) "phase B: mip.SSIP still set after csrc bit 1" ++
  chk (rest_same p b2) "phase B: non-SSIP mip bits changed across the clear transition".
Lemma sip_clear_runs t' sc' s bs n c :
  vr (sip_phaseB_clear (sipv p g) p) (Ints b1 e d1 m t' sc' d) (ws s bs n c) tt B2_text (Ints b2 e d1 m t' sc' d) (ws s (bs ++ B2_checks) n c).
Proof using Hp Hg UartSpec0.
  pose proof b2_u64 as H2. assert (is_u64 d1) as Hd by apply deleg_u64.
  unfold sip_phaseB_clear, B2_text, B2_checks, sip_line. rewrite <-!app_assoc. iblock.
Qed.

Lemma sip_phaseC_runs t' sc' s bs n c :
  vr (sip_phaseC (sipv p g) g) (Ints b2 e d1 m t' sc' d) (ws s bs n c) tt (p3_text b2)
    (Ints b2 e d2 m t' sc' d) (ws s (bs ++ [d2 =? g; sipv b2 d2 =? sipv p g]) n c).
Proof using Hp Hg UartSpec0. pose proof b2_u64 as H2. unfold sip_phaseC, p3_text, d2. iblock. Qed.

Lemma int_traps_report v bs n c :
  vr traps_report v (ws (replicate 4 0) bs n c) tt (lit "traps: count=0\n") v (ws (replicate 4 0) bs n c).
Proof using UartSpec0.
  unfold traps_report. eapply vruns_conv.
  - istep. eapply vruns_bind0; [now apply vruns_unless|]. repeat istep.
  - reflexivity.
  - vm_compute. reflexivity.
  - reflexivity.
  - reflexivity.
Qed.

Definition sip_checks : list bool :=
  [msie_ok; mie_ok] ++ vec_checks ++ [no_ssi g] ++ A_checks ++ [took d1] ++ B_checks ++ B2_checks ++ [d2 =? g; sipv b2 d2 =? sipv p g] ++ [msie_ok; mie_ok].
Definition sip_log : list Z :=
  lit "sip-ssip: sip SSIP (bit 1) delegation-gated write/readback check\n" ++ boot_text ++
  lit "trap: mtvec=" ++ fmt_hex vec ++ lit "\n" ++ vec_text ++ base_text ++
  chk (no_ssi g) "mideleg already delegates SSI at boot; phase A needs it clear" ++ A_text ++
  lit "delegated: mideleg=" ++ fmt_hex d1 ++ lit "\n" ++ chk (took d1) "mideleg.SSI did not take the delegation write" ++
  B_text ++ B2_text ++ p3_text b2 ++ lit "traps: count=0\n" ++ end_text ++
  (if forallb id sip_checks then lit "RESULT: PASS\n" else lit "RESULT: FAIL\n").

Lemma sip_main_sends :
  vmain_sends (U:=U) iview (sip_main trap_entry save_addr) (Ints p e g m t sc d) (probe_boot 4) sip_log
    (fun v gl => v = Ints b2 e d2 m vec save_addr (if forallb id sip_checks then FINISHER_PASS else d) /\ fails gl = nfalse sip_checks).
Proof using Hp He Hg Hm UartSpec0.
  assert (forall b msg v s bs n c, no_nul (c_lit msg) = true ->
    vr (ncheck b msg) v (ws s bs n c) tt (chk b msg) v (ws s (bs ++ [b]) (n + 0) c)) as Hck.
  { intros b msg v s bs n c Hn. rewrite Z.add_0_r. now apply ncheck_runs. }
  apply vmain_sends_intro.
  - eexists _, _, (ws (replicate 4 0) sip_checks 0 FNV_BASIS). split; [|split].
    + unfold sip_body. change (probe_boot 4) with (ws (replicate 4 0) [] 0 FNV_BASIS). istep.
      eapply vhalts_bind; [apply (enables_run _ 0 Hck); reflexivity|]. eapply vhalts_bind; [apply (vector_runs _ 0 Hck)|].
      eapply vhalts_bind; [apply baselines_run; exact Hp|]. cbv zeta. cbn [fst snd]. istep.
      eapply vhalts_bind; [apply sip_phaseA_runs|]. eapply vhalts_bind; [apply sip_delegate_runs|].
      eapply vhalts_bind; [apply sip_set_runs|]. eapply vhalts_bind; [apply sip_clear_runs|]. eapply vhalts_bind; [apply sip_phaseC_runs|].
      eapply vhalts_bind; [apply int_traps_report|]. eapply vhalts_bind; [apply (enables_run _ 0 Hck); reflexivity|].
      apply int_pass_fail.
    + unfold sip_log, base_text. cbn [app]. change (Z.land g MIDELEG_SSI =? 0) with (no_ssi g). fold boot_text end_text.
      generalize boot_text end_text vec_text A_text B_text B2_text (p3_text b2) (fmt_dec (if no_ssi g then 0 else 1)). intros. text_eq.
    + split; [|reflexivity]. now destruct (forallb id sip_checks).
  - unfold sip_log, boot_text, end_text, enables_text, vec_text, base_text, A_text, B_text, B2_text, p3_text, sip_line. warl_bytes.
Qed.
End Sip.

(** ** Bit 1 *)

Lemma bit2 n : n <> 1 -> Z.testbit 2 n = false.
Proof. intros Hn. change 2 with (2 ^ 1). now apply Z.pow2_bits_false. Qed.

(** Words that agree in bit 1 and elsewhere; what is known of bit 1 is in the
    context. *)
Ltac bit1 :=
  apply Z.bits_inj'; let n := fresh "n" in let Hn := fresh "Hn" in let Hne := fresh "Hne" in intros n Hn;
  rewrite ?Z.lor_spec, ?Z.land_spec, ?Z.ldiff_spec, ?Z.lor_spec, ?Z.land_spec;
  destruct (Z.eq_dec n 1) as [->|Hne];
    [change (Z.testbit 2 1) with true; change (Z.testbit (u64 (Z.lnot 2)) 1) with false|rewrite ?(bit2 n Hne)];
  repeat match goal with H : Z.testbit _ _ = _ |- _ => rewrite H end; rewrite ?Z.bits_0;
  repeat match goal with |- context [Z.testbit ?x ?k] => destruct (Z.testbit x k) end; reflexivity.

Lemma land_2 x : Z.land x 2 = if Z.testbit x 1 then 2 else 0.
Proof. destruct (Z.testbit x 1) eqn:E; bit1. Qed.
Lemma clear_2 x : (Z.land x 2 =? 0) = negb (Z.testbit x 1).
Proof. rewrite land_2. now destruct (Z.testbit x 1). Qed.
Lemma set_2 x : (Z.land x 2 =? 2) = Z.testbit x 1.
Proof. rewrite land_2. now destruct (Z.testbit x 1). Qed.

(** A write through sip, by delegation. *)
Lemma sip_set_off x y z : Z.testbit y 1 = false -> sip_set x y z = x.
Proof. intros E. unfold sip_set, under, SSIP_BIT. bit1. Qed.
Lemma sip_set_on x y z : Z.testbit y 1 = true -> sip_set x y z = if Z.testbit z 1 then Z.lor x 2 else Z.ldiff x 2.
Proof. intros E. unfold sip_set, under, SSIP_BIT. destruct (Z.testbit z 1) eqn:Ez; bit1. Qed.

(** Whatever mideleg is, a write through sip leaves the other bits of mip. *)
Lemma no_ssip_set x y z : no_ssip (sip_set x y z) = no_ssip x.
Proof.
  unfold no_ssip, sip_set, under, SSIP_BIT. change SIP_SSIP with 2. apply Z.bits_inj'. intros n Hn.
  rewrite !Z.land_spec, Z.lor_spec, Z.ldiff_spec, !Z.land_spec. destruct (Z.eq_dec n 1) as [->|Hne].
  - change (Z.testbit (u64 (Z.lnot 2)) 1) with false. now rewrite !andb_false_r.
  - rewrite (bit2 n Hne). cbn [andb negb]. now rewrite andb_true_r, andb_false_r, orb_false_r.
Qed.
Lemma w4_rest `{IntSpec H} p g : rest_same p (w4 p g) = true.
Proof. unfold rest_same, w4, w3, w2, w1. rewrite !no_ssip_set. apply Z.eqb_refl. Qed.
Lemma b2_rest `{IntSpec H} p g : rest_same p (b2 p g) = true.
Proof. unfold rest_same, b2, b1, a1. rewrite !no_ssip_set. apply Z.eqb_refl. Qed.

Section SipVerdict.
Context {H : Type} `{!HartDev H, !IntSpec H} (trap_entry p e g m t D F : Z).
Abbreviation sipv := (sip_of ih).
Hypothesis Hleg : forall o x, deleg_legal ih o x = Z.lor (Z.land x D) F.
Hypothesis Hgl : Z.lor (Z.land g D) F = g.
Hypothesis Hvec : forallb id (vec_checks trap_entry t) = true.

Lemma s_bit1 : Z.testbit (s_ints ih) 1 = true.
Proof using. destruct s_ints_ok as [_ E]. apply (f_equal (fun x => Z.testbit x 1)) in E. rewrite Z.land_spec in E. now apply andb_prop in E. Qed.

Lemma d1_masked : d1 g = Z.lor g (Z.land 2 D).
Proof using Hleg Hgl.
  unfold d1. rewrite Hleg. change MIDELEG_SSI with 2. rewrite Z.land_lor_distr_l, <-Z.lor_assoc, (Z.lor_comm (Z.land 2 D)), Z.lor_assoc.
  now rewrite Hgl.
Qed.
Lemma d2_masked : d2 g = g.
Proof using Hleg Hgl. unfold d2. now rewrite Hleg. Qed.

Lemma d1_on : Z.testbit D 1 = true -> d1 g = Z.lor g 2.
Proof using Hleg Hgl. intros E. rewrite d1_masked, Z.land_comm, land_2, E. reflexivity. Qed.
Lemma took_iff : Z.testbit g 1 = false -> took (d1 g) = Z.testbit D 1.
Proof using Hleg Hgl.
  intros E. unfold took. change MIDELEG_SSI with 2. rewrite set_2, d1_masked, Z.lor_spec, Z.land_spec, E. reflexivity.
Qed.

(** What reads of sip and mip give when SSIP is set or cleared in [p]. *)
Section Delegated.
Hypothesis Eg : Z.testbit g 1 = false.
Lemma sip_same : sipv (Z.ldiff p 2) (Z.lor g 2) = sipv p g.
Proof using Eg. unfold sip_of. bit1. Qed.
Lemma sip_back : sipv (Z.ldiff p 2) g = sipv p g.
Proof using Eg. unfold sip_of. bit1. Qed.
Lemma sip_only : only_ssip (sipv p g) (sipv (Z.lor p 2) (Z.lor g 2)) = true.
Proof using Eg.
  unfold only_ssip. change SIP_SSIP with 2. rewrite set_2. unfold sip_of at 3. rewrite !Z.land_spec, !Z.lor_spec, s_bit1.
  change (Z.testbit 2 1) with true. rewrite !orb_true_r, !andb_true_r. apply Z.eqb_eq. unfold no_ssip, sip_of. change SIP_SSIP with 2. bit1.
Qed.
Lemma rest_set x : rest_same x (Z.lor x 2) = true.
Proof using. unfold rest_same, no_ssip. change SIP_SSIP with 2. apply Z.eqb_eq. bit1. Qed.
Lemma rest_clear x : rest_same x (Z.ldiff x 2) = true.
Proof using. unfold rest_same, no_ssip. change SIP_SSIP with 2. apply Z.eqb_eq. bit1. Qed.
End Delegated.

Lemma swp_writes : Z.testbit g 1 = false -> w1 p g = p /\ w2 p g = p.
Proof using. intros E. unfold w2, w1. now rewrite !sip_set_off. Qed.
Lemma swp_writes_on : Z.testbit g 1 = false -> Z.testbit D 1 = true -> w3 p g = Z.lor p 2 /\ w4 p g = Z.ldiff p 2.
Proof using Hleg Hgl.
  intros Eg ED. unfold w4, w3. rewrite (proj2 (swp_writes Eg)), (d1_on ED).
  assert (Z.testbit (Z.lor g 2) 1 = true) as E1 by (rewrite Z.lor_spec; apply orb_true_r).
  rewrite !(sip_set_on _ _ _ E1). change (Z.testbit ALL_ONES 1) with true. rewrite Z.bits_0. split; [reflexivity|]. bit1.
Qed.

Lemma swp_verdict_iff : forallb id (swp_checks trap_entry p e g m t) = msie_ok e && mie_ok m && no_ssi g && Z.testbit D 1.
Proof using Hleg Hgl Hvec.
  unfold swp_checks. rewrite !forallb_app, Hvec. destruct (msie_ok e), (mie_ok m); cbn [forallb id andb]; try reflexivity.
  destruct (no_ssi g) eqn:En; [|reflexivity]. cbn [andb].
  assert (Z.testbit g 1 = false) as Eg by (unfold no_ssi in En; change MIDELEG_SSI with 2 in En; rewrite clear_2 in En; now destruct (Z.testbit g 1)).
  rewrite (took_iff Eg). destruct (Z.testbit D 1) eqn:ED; [|now rewrite andb_false_r].
  destruct (swp_writes Eg) as [E1 E2]. destruct (swp_writes_on Eg ED) as [E3 E4].
  unfold p1_checks, p2_checks. rewrite E1, E2, E3, E4, (d1_on ED), d2_masked, sip_same, sip_back, (sip_only Eg), rest_set, rest_clear by exact Eg.
  unfold ssip_set, ssip_clear. change SIP_SSIP with 2. rewrite set_2, clear_2, Z.lor_spec, Z.ldiff_spec. change (Z.testbit 2 1) with true.
  rewrite !Z.eqb_refl, orb_true_r, andb_false_r. reflexivity.
Qed.

Lemma sip_writes_on : Z.testbit g 1 = false -> Z.testbit D 1 = true -> a1 p g = p /\ b1 p g = Z.lor p 2 /\ b2 p g = Z.ldiff p 2.
Proof using Hleg Hgl.
  intros Eg ED. assert (a1 p g = p) as Ea by (unfold a1; now rewrite sip_set_off).
  assert (Z.testbit (Z.lor g 2) 1 = true) as E1 by (rewrite Z.lor_spec; apply orb_true_r).
  unfold b2, b1. rewrite Ea, (d1_on ED), !(sip_set_on _ _ _ E1). unfold no_ssip. change SIP_SSIP with 2.
  rewrite Z.lor_spec, Z.land_spec. change (Z.testbit 2 1) with true. change (Z.testbit (u64 (Z.lnot 2)) 1) with false.
  rewrite orb_true_r, andb_false_r. split_and!; [reflexivity..|]. bit1.
Qed.

Lemma sip_verdict_iff :
  forallb id (sip_checks trap_entry p e g m t) = msie_ok e && mie_ok m && no_ssi g && ssip_clear p && Z.testbit D 1.
Proof using Hleg Hgl Hvec.
  unfold sip_checks. rewrite !forallb_app, Hvec. destruct (msie_ok e), (mie_ok m); cbn [forallb id andb]; try reflexivity.
  destruct (no_ssi g) eqn:En; [|reflexivity]. cbn [andb].
  assert (Z.testbit g 1 = false) as Eg by (unfold no_ssi in En; change MIDELEG_SSI with 2 in En; rewrite clear_2 in En; now destruct (Z.testbit g 1)).
  rewrite (took_iff Eg). destruct (Z.testbit D 1) eqn:ED; [|now rewrite !andb_false_r].
  destruct (sip_writes_on Eg ED) as (E1 & E2 & E3).
  pose proof (sip_only Eg) as Ho. unfold only_ssip in Ho. apply andb_prop in Ho as [Ho1 Ho2].
  unfold A_checks, B_checks, B2_checks. rewrite E1, E2, E3, (d1_on ED), d2_masked, sip_same, sip_back, rest_set, rest_clear by exact Eg.
  unfold rest_same. rewrite Ho1. unfold ssip_set. rewrite Ho2. unfold ssip_clear. change SIP_SSIP with 2.
  rewrite !set_2, !clear_2, Z.lor_spec, Z.ldiff_spec. change (Z.testbit 2 1) with true.
  rewrite !Z.eqb_refl, orb_true_r, andb_false_r. cbn [forallb id andb negb]. now rewrite !andb_true_r.
Qed.
End SipVerdict.

(** ** The sie and mip programs *)

Definition result_text (n : Z) (bs : list bool) : list Z :=
  lit "checks=" ++ fmt_dec n ++ lit " fails=" ++ fmt_dec (nfalse bs) ++ lit "\n" ++
  (if forallb id bs then lit "RESULT: PASS\n" else lit "RESULT: FAIL (" ++ fmt_dec (nfalse bs) ++ lit " checks failed)\n").
Definition fields_text (names : list string) (vals : list Z) : list Z :=
  concat (zip_with (fun name v => lit name ++ fmt_hex v) names vals).

Lemma fields_bytes names vals : Forall (fun c => 0 <= c < 256) (fields_text names vals).
Proof.
  unfold fields_text. revert vals. induction names as [|n ns IH]; intros [|v vs]; cbn [zip_with concat]; try constructor.
  apply Forall_app. split; [text_bytes|apply IH].
Qed.
Lemma result_bytes n bs : Forall (fun c => 0 <= c < 256) (result_text n bs).
Proof. unfold result_text. warl_bytes. Qed.

Section Reports.
Context {U H : Type} `{!UartDev U, !UartSpec U, !HartDev H, !IntSpec H}.
Abbreviation vr := (vruns (U:=U) (H:=H) (G:=pglob) iview).

Lemma fields_run names vals v g : forallb (fun n => no_nul (c_lit n)) names = true -> Forall is_u64 vals ->
  vr (for_each (zip names vals) (fun p => field p.1 p.2)) v g tt (fields_text names vals) v g.
Proof.
  intros Hn Hv. unfold fields_text. revert names Hn. induction Hv as [|x vals Hx Hv IH]; intros [|n ns] Hn; try apply vruns_ret.
  cbn [forallb] in Hn. apply andb_prop in Hn as [H1 H2]. cbn [zip zip_with for_each concat fst snd].
  eapply vruns_bind; [|now apply IH]. unfold field. eapply vruns_bind; [now apply vruns_prints, prints_lit|]. vprim.
Qed.

Lemma int_verdict_runs v s bs n c : 0 <= n < 1000 -> Z.of_nat (length bs) < 1000 ->
  vr int_verdict v (ws s bs n c) tt (result_text n bs) v (ws s bs n c).
Proof.
  intros Hn Hl. pose proof (nfalse_bound bs) as Hb. assert (is_u64 n) by (unfold is_u64; lia).
  assert (is_u64 (nfalse bs)) by (unfold is_u64; lia).
  assert (vr (if nfalse bs =? 0 then uputs "RESULT: PASS\n"
      else uputs "RESULT: FAIL (" ;; n <- gget fails ;; uart_put_dec n ;; uputs " checks failed)\n") v (ws s bs n c) tt
    (if forallb id bs then lit "RESULT: PASS\n" else lit "RESULT: FAIL (" ++ fmt_dec (nfalse bs) ++ lit " checks failed)\n") v (ws s bs n c)) as Hr.
  { rewrite nfalse_zero. destruct (forallb id bs); [vprim|]. do 2 istep. cbn [fails ws]. repeat istep. }
  unfold int_verdict, result_text. do 2 istep. cbn [checks ws]. do 3 istep. cbn [fails ws]. do 2 istep. istep. exact Hr.
Qed.
End Reports.

(** [icheck] in a run whose tally is a literal list. *)
Ltac icount := lazymatch goal with |- vruns _ (icheck _ _) _ _ _ _ _ _ => apply icheck_runs; [reflexivity|cbn; lia|cbn; lia] | _ => iprim end.
Ltac cstep :=
  lazymatch goal with
  | |- vruns _ (bind ?m _) _ _ _ _ _ _ =>
      first [iquiet m; eapply vruns_bind0; [iprim|cbn beta] | eapply vruns_bind; [icount|cbn beta]]
  | |- vruns _ _ _ _ _ _ _ _ => icount
  end.

Section Sie.
Context {U H : Type} `{!UartDev U, !UartSpec U, !UartDrain U, !HartDev H, !IntSpec H} (trap_entry : Z).
Abbreviation vr := (vruns (U:=U) (H:=H) (G:=pglob) iview).
Abbreviation siev := (sip_of ih).
Abbreviation sset := (sie_set ih).
Context (p e g m t sc d : Z).
Hypothesis Hp : is_u64 p.
Hypothesis He : is_u64 e.
Hypothesis Hg : is_u64 g.
Hypothesis Hm : is_u64 m.

(** mideleg after its two writes, mie after each write through sie. *)
Definition g1 : Z := deleg_legal ih g MIDELEG_STI.
Definition e1 : Z := sset e g1 ALL_ONES.
Definition e2 : Z := sset e1 g1 0.
Definition e3 : Z := sset e2 g1 (Z.lor (siev e2 g1) 0x20).
Definition e4 : Z := sset e3 g1 (Z.land (siev e3 g1) (u64 (Z.lnot 0x20))).
Definition e5 : Z := sset e4 g1 0.
Definition g2 : Z := deleg_legal ih g1 EXPECT_MIDELEG_BOOT.

Lemma sset_u64 x y z : is_u64 x -> is_u64 y -> 0 <= z -> is_u64 (sset x y z).
Proof using. intros Hx Hy Hz. apply under_u64; [exact Hx| |exact Hz]. apply land_u64; [exact Hy|]. apply s_ints_ok. Qed.
Lemma e_u64 : is_u64 g1 /\ is_u64 e1 /\ is_u64 e2 /\ is_u64 e3 /\ is_u64 e4 /\ is_u64 e5.
Proof using He.
  assert (is_u64 g1) as H1 by apply deleg_u64. assert (is_u64 e1) as E1 by (apply sset_u64; auto with word).
  assert (is_u64 e2) as E2 by (apply sset_u64; auto with word). assert (is_u64 e3) as E3 by (apply sset_u64; auto 7 with word).
  assert (is_u64 e4) as E4 by (apply sset_u64; auto 7 with word). assert (is_u64 e5) as E5 by (apply sset_u64; auto with word).
  now split_and!.
Qed.

Definition stw_vals : list Z := [siev e g; g; g1; siev e1 g1; siev e2 g1; siev e3 g1; siev e4 g1; siev e5 g1; g2].
Definition stw_checks : list bool :=
  [siev e g =? EXPECT_SIE_BOOT; g =? EXPECT_MIDELEG_BOOT] ++ vec_checks trap_entry t ++ [g1 =? EXPECT_MIDELEG_STI] ++
  [siev e1 g1 =? EXPECT_SIE_ONES; negb (Z.land (siev e1 g1) SIE_STIE =? 0); Z.land (siev e1 g1) SIE_SSIE =? 0; Z.land (siev e1 g1) SIE_SEIE =? 0] ++
  [siev e2 g1 =? 0; siev e3 g1 =? SIE_STIE; siev e4 g1 =? 0; siev e5 g1 =? 0; g2 =? EXPECT_MIDELEG_BOOT; true].
Definition stw_log : list Z :=
  lit "sie-stie-write: sie WARL write/legalized-readback probe of STIE\nboot: sie=" ++ fmt_hex (siev e g) ++ lit " mideleg=" ++ fmt_hex g ++ lit "\n" ++
  chk (siev e g =? EXPECT_SIE_BOOT) "sie != 0x0 at boot" ++ chk (g =? EXPECT_MIDELEG_BOOT) "mideleg != 0x1444 at boot" ++
  vec_text trap_entry t ++
  lit "mideleg: write=0x20 readback=" ++ fmt_hex g1 ++ lit " (expect 0x1464)\n" ++
  chk (g1 =? EXPECT_MIDELEG_STI) "mideleg STI delegation readback != 0x1464" ++
  lit "sie: write=0xffffffffffffffff readback=" ++ fmt_hex (siev e1 g1) ++ lit " (expect 0x20)\n" ++
  chk (siev e1 g1 =? EXPECT_SIE_ONES) "sie all-ones legalized readback != 0x20" ++
  chk (negb (Z.land (siev e1 g1) SIE_STIE =? 0)) "STIE did not stick in sie" ++
  chk (Z.land (siev e1 g1) SIE_SSIE =? 0) "SSIE stuck without SSI delegation" ++
  chk (Z.land (siev e1 g1) SIE_SEIE =? 0) "SEIE stuck without SEI delegation" ++
  lit "sie: write=0x0 readback=" ++ fmt_hex (siev e2 g1) ++ lit " (expect 0x0)\n" ++ chk (siev e2 g1 =? 0) "sie zero-write readback != 0x0" ++
  lit "sie: csrs STIE readback=" ++ fmt_hex (siev e3 g1) ++ lit " (expect 0x20)\n" ++
  chk (siev e3 g1 =? SIE_STIE) "sie readback != 0x20 after csrs STIE" ++
  lit "sie: csrc STIE readback=" ++ fmt_hex (siev e4 g1) ++ lit " (expect 0x0)\n" ++
  chk (siev e4 g1 =? 0) "sie readback != 0x0 after csrc STIE" ++
  lit "restore: sie=" ++ fmt_hex (siev e5 g1) ++ lit " mideleg=" ++ fmt_hex g2 ++ lit " (expect 0x0 / 0x1444)\n" ++
  chk (siev e5 g1 =? 0) "sie not 0x0 after restore" ++ chk (g2 =? EXPECT_MIDELEG_BOOT) "mideleg not 0x1444 after restore" ++
  fields_text stw_names stw_vals ++ lit " traps=0 checksum=" ++ fmt_hex (fnv1a_64 (fold_left fnv1a_64 stw_vals FNV_OFFSET) 0) ++ lit "\n" ++
  result_text 15 stw_checks.

Lemma stw_body_runs :
  vr (stw_body trap_entry) (Ints p e g m t sc d) (probe_boot 1) tt stw_log
    (Ints p e5 g2 m (vec trap_entry t) sc d) (ws [0] stw_checks 15 FNV_BASIS).
Proof using He Hg UartSpec0.
  destruct e_u64 as (U0 & U1 & U2 & U3 & U4 & U5). assert (is_u64 g2) as V2 by apply deleg_u64.
  unfold stw_body. change (probe_boot 1) with (ws [0] [] 0 FNV_BASIS). eapply vruns_conv.
  - cstep. eapply vruns_bind; [unfold stw_boot; repeat cstep|]. eapply vruns_bind; [unfold plain_vector, check_mtvec; repeat cstep|].
    eapply vruns_bind; [unfold stw_delegate; repeat cstep|]. fold g1. eapply vruns_bind; [unfold stw_ones; repeat cstep|]. fold e1.
    eapply vruns_bind; [unfold stw_zero; repeat cstep|]. fold e2. eapply vruns_bind; [unfold stw_set, set_stie; repeat cstep|]. fold e3.
    eapply vruns_bind; [unfold stw_clear, clear_stie; repeat cstep|]. fold e4. eapply vruns_bind; [unfold stw_restore; repeat cstep|]. fold e5. fold g2.
    do 3 cstep. cbv zeta. cbn [fst snd].
    eapply vruns_bind; [apply fields_run; [reflexivity|repeat (apply List.Forall_cons; [auto with word|]); apply List.Forall_nil]|].
    do 3 cstep. cstep. eapply vruns_bind; [apply vruns_prints, prints_hex, u64_range|]. cstep. apply int_verdict_runs; cbn; lia.
  - reflexivity.
  - unfold stw_log, vec_text, stw_checks, vec_checks, vec. fold stw_vals g1 e1 e2 e3 e4 e5 g2. cbn [app]. change (0 =? 0) with true.
    change (chk true "trap fired during the run") with (@nil Z).
    match goal with |- context [result_text (?a + 1) ?l] => change (a + 1) with 15; generalize (result_text 15 l); intro end.
    generalize (fields_text stw_names stw_vals). intros. text_eq.
  - reflexivity.
  - reflexivity.
Qed.

(** sie shows what was written under its mask. *)
Lemma sie_shows o y x : siev (sset o y x) y = Z.land x (Z.land y (s_ints ih)).
Proof using.
  unfold sip_of, sie_set, under. rewrite <-Z.land_assoc. apply Z.bits_inj'. intros n Hn.
  rewrite !Z.land_spec, Z.lor_spec, Z.ldiff_spec, !Z.land_spec.
  destruct (Z.testbit o n), (Z.testbit x n), (Z.testbit y n), (Z.testbit (s_ints ih) n); reflexivity.
Qed.
Lemma s_mask x : Z.land x 0x1666 = x -> Z.land x (s_ints ih) = Z.land x 0x222.
Proof using.
  intros E. rewrite <-E, <-!Z.land_assoc, (Z.land_comm 0x1666 (s_ints ih)), (proj2 s_ints_ok). reflexivity.
Qed.

Lemma stw_verdict_iff :
  forallb id stw_checks = (g =? 0x1444) && forallb id (vec_checks trap_entry t) && (g1 =? 0x1464) && (g2 =? 0x1444).
Proof using.
  unfold stw_checks. rewrite !forallb_app. cbn [forallb id]. fold EXPECT_MIDELEG_BOOT EXPECT_MIDELEG_STI. unfold EXPECT_MIDELEG_BOOT, EXPECT_MIDELEG_STI.
  destruct (Z.eqb_spec g 0x1444) as [Eg|]; [|now rewrite andb_false_r].
  destruct (forallb id (vec_checks trap_entry t)); [|now rewrite !andb_false_r].
  destruct (Z.eqb_spec g1 0x1464) as [E1|]; [|now rewrite !andb_false_r].
  destruct (Z.eqb_spec g2 0x1444) as [E2|]; [|now rewrite !andb_false_r].
  assert (siev e g = 0) as -> by (unfold sip_of; rewrite <-Z.land_assoc, Eg, (s_mask 0x1444) by reflexivity; apply Z.land_0_r).
  assert (siev e1 g1 = 0x20) as F1 by (unfold e1; rewrite sie_shows, E1, s_mask; reflexivity).
  assert (siev e2 g1 = 0) as F2 by (unfold e2; rewrite sie_shows, E1, s_mask; reflexivity).
  assert (siev e3 g1 = 0x20) as F3 by (unfold e3; rewrite sie_shows, F2, E1, s_mask; reflexivity).
  assert (siev e4 g1 = 0) as F4 by (unfold e4; rewrite sie_shows, F3, E1, s_mask; reflexivity).
  assert (siev e5 g1 = 0) as F5 by (unfold e5; rewrite sie_shows, E1, s_mask; reflexivity).
  rewrite F1, F2, F3, F4, F5. reflexivity.
Qed.

(** mip-msip-write: mip after each write. *)
Abbreviation put := (under (m_pend ih)).
Definition q1 : Z := put p (Z.lor p 2).
Definition q2 : Z := put q1 (Z.land q1 (u64 (Z.lnot 2))).
Definition q3 : Z := put q2 (Z.lor q2 8).
Definition q4 : Z := put q3 (Z.land q3 (u64 (Z.lnot 8))).

Lemma put_u64 o x : is_u64 o -> 0 <= x -> is_u64 (put o x).
Proof using. intros Ho Hx. apply under_u64; [exact Ho|apply m_pend_ok|exact Hx]. Qed.
Lemma q_u64 : is_u64 q1 /\ is_u64 q2 /\ is_u64 q3 /\ is_u64 q4.
Proof using Hp.
  assert (is_u64 q1) as Q1 by (apply put_u64; auto with word). assert (is_u64 q2) as Q2 by (apply put_u64; auto with word).
  assert (is_u64 q3) as Q3 by (apply put_u64; auto with word). assert (is_u64 q4) as Q4 by (apply put_u64; auto with word). now split_and!.
Qed.

Definition mmsw_checks : list bool :=
  [p =? EXPECT_MIP_BOOT; e =? EXPECT_MIE_BOOT; m =? EXPECT_MSTATUS_BOOT; mie_ok m; msie_ok e] ++ vec_checks trap_entry t ++
  [q1 =? EXPECT_MIP_SSIP_SET; q2 =? EXPECT_MIP_BOOT; Z.land q3 MIP_MSIP =? 0; q3 =? EXPECT_MIP_BOOT; q3 =? EXPECT_MIP_BOOT; true;
   q4 =? EXPECT_MIP_BOOT; msie_ok e; mie_ok m; true].
Definition mmsw_fed : list Z := [p; e; m; q1; q2; q3; q3; q4; e; m; 0].
Definition mmsw_log : list Z :=
  lit "mip-msip-write: mip.MSIP software-write probe\nboot: mip=" ++ fmt_hex p ++ lit " mie=" ++ fmt_hex e ++ lit " mstatus=" ++ fmt_hex m ++ lit "\n" ++
  chk (p =? EXPECT_MIP_BOOT) "mip != 0x80 at boot" ++ chk (e =? EXPECT_MIE_BOOT) "mie != 0x0 at boot" ++
  chk (m =? EXPECT_MSTATUS_BOOT) "mstatus != 0xa00000000 at boot" ++ chk (mie_ok m) "mstatus.MIE set at boot" ++
  chk (msie_ok e) "mie.MSIE set at boot" ++ vec_text trap_entry t ++
  lit "mip: after csrsi set bit 1 readback=" ++ fmt_hex q1 ++ lit " (expect 0x82)\n" ++
  chk (q1 =? EXPECT_MIP_SSIP_SET) "control: mip readback != 0x82 after SSIP set" ++
  lit "mip: after csrci clear bit 1 readback=" ++ fmt_hex q2 ++ lit " (expect 0x80)\n" ++
  chk (q2 =? EXPECT_MIP_BOOT) "control: mip readback != 0x80 after SSIP clear" ++
  lit "mip: after csrsi set bit 3 readback=" ++ fmt_hex q3 ++ lit " (expect 0x80, write ignored)\n" ++
  chk (Z.land q3 MIP_MSIP =? 0) "mip.MSIP set by csrsi" ++ chk (q3 =? EXPECT_MIP_BOOT) "mip changed by ignored MSIP write" ++
  lit "mip: after spin window readback=" ++ fmt_hex q3 ++ lit " traps=0 (expect 0x80 / 0)\n" ++
  chk (q3 =? EXPECT_MIP_BOOT) "mip changed during spin" ++
  lit "mip: after csrci clear bit 3 readback=" ++ fmt_hex q4 ++ lit " (expect 0x80, write ignored)\n" ++
  chk (q4 =? EXPECT_MIP_BOOT) "mip changed by ignored MSIP clear" ++
  chk (msie_ok e) "mie.MSIE set at end" ++ chk (mie_ok m) "mstatus.MIE set at end" ++
  fields_text mmsw_names [p; e; q1; q2; q3; q3; q4; e] ++ lit " traps=0 checksum=" ++ fmt_hex (fold_left fnv1a_64 mmsw_fed FNV_OFFSET) ++ lit "\n" ++
  result_text 17 mmsw_checks.

Lemma mmsw_body_runs :
  vr (mmsw_body trap_entry) (Ints p e g m t sc d) (probe_boot 1) tt mmsw_log
    (Ints q4 e g m (vec trap_entry t) sc d) (ws [0] mmsw_checks 17 FNV_BASIS).
Proof using Hp He Hm UartSpec0.
  destruct q_u64 as (Q1 & Q2 & Q3 & Q4).
  unfold mmsw_body. change (probe_boot 1) with (ws [0] [] 0 FNV_BASIS). eapply vruns_conv.
  - cstep. eapply vruns_bind; [unfold mmsw_boot; repeat cstep|]. eapply vruns_bind; [unfold plain_vector, check_mtvec; repeat cstep|].
    eapply vruns_bind; [unfold mmsw_control, set_ssip, clear_ssip; repeat cstep|]. fold q1. fold q2.
    eapply vruns_bind; [unfold mmsw_set, set_msip; repeat cstep|]. fold q3.
    eapply vruns_bind; [unfold mmsw_hold; eapply vruns_bind0; [apply spin_window_runs; [lia|unfold SPIN_ITERS; lia]|]; repeat cstep|].
    eapply vruns_bind; [unfold mmsw_clear, clear_msip; repeat cstep|]. fold q4. eapply vruns_bind; [unfold mmsw_end; repeat cstep|].
    cstep. cbv zeta. cbn [fst snd].
    eapply vruns_bind; [apply fields_run; [reflexivity|repeat (apply List.Forall_cons; [auto with word|]); apply List.Forall_nil]|].
    do 3 cstep. cstep. eapply vruns_bind; [apply vruns_prints, prints_hex, u64_range|]. cstep. apply int_verdict_runs; cbn; lia.
  - reflexivity.
  - unfold mmsw_log, vec_text, mmsw_checks, vec_checks, vec. fold q1 q2 q3 q4 mmsw_fed. cbn [app]. change (0 =? 0) with true.
    change (chk true "trap fired during the run") with (@nil Z). change (chk true "trap fired with enables clear") with (@nil Z).
    fold (mie_ok m) (msie_ok e).
    match goal with |- context [result_text (?a + 1) ?l] => change (a + 1) with 17; generalize (result_text 17 l); intro end.
    generalize (fields_text mmsw_names [p; e; q1; q2; q3; q3; q4; e]). intros. text_eq.
  - reflexivity.
  - reflexivity.
Qed.

(** Only SSIP of these bits is writable. *)
Lemma put_dev o x : Z.land o 0x88a = o -> Z.land x 0x88a = x -> put o x = under 2 o x.
Proof using.
  intros Eo Ex. unfold under. apply Z.bits_inj'. intros n Hn. destruct m_pend_ok as [_ Em].
  apply (f_equal (fun y => Z.testbit y n)) in Eo, Ex, Em. rewrite Z.land_spec in Eo, Ex, Em. rewrite !Z.lor_spec, !Z.ldiff_spec, !Z.land_spec.
  destruct (Z.testbit o n), (Z.testbit x n), (Z.testbit (m_pend ih) n), (Z.testbit 0x88a n), (Z.testbit 2 n); cbn in *; congruence.
Qed.

Lemma mmsw_verdict_iff :
  forallb id mmsw_checks = (p =? 0x80) && (e =? 0) && (m =? 0xa00000000) && forallb id (vec_checks trap_entry t).
Proof using.
  unfold mmsw_checks. rewrite !forallb_app. cbn [forallb id]. unfold EXPECT_MIP_BOOT, EXPECT_MIE_BOOT, EXPECT_MSTATUS_BOOT.
  destruct (Z.eqb_spec p 0x80) as [Ep|]; [|reflexivity]. destruct (Z.eqb_spec e 0) as [Ee|]; [|reflexivity].
  destruct (Z.eqb_spec m 0xa00000000) as [Em|]; [|reflexivity]. rewrite Ee, Em.
  destruct (forallb id (vec_checks trap_entry t)); [|reflexivity].
  assert (q1 = 0x82) as F1 by (unfold q1; rewrite Ep, put_dev; reflexivity).
  assert (q2 = 0x80) as F2 by (unfold q2; rewrite F1, put_dev; reflexivity).
  assert (q3 = 0x80) as F3 by (unfold q3; rewrite F2, put_dev; reflexivity).
  assert (q4 = 0x80) as F4 by (unfold q4; rewrite F3, put_dev; reflexivity).
  rewrite F1, F2, F3, F4. reflexivity.
Qed.

Lemma stw_main_sends :
  vmain_sends (U:=U) iview (stw_main trap_entry) (Ints p e g m t sc d) (probe_boot 1) stw_log
    (fun v gl => v = Ints p e5 g2 m (vec trap_entry t) sc (if forallb id stw_checks then FINISHER_PASS else d) /\ fails gl = nfalse stw_checks).
Proof using He Hg UartSpec0 UartDrain0.
  intros u h Hv.
  destruct (drained_view iview _ _ _ _ _ _ _ _ _ _ stw_body_runs (fun g => int_finisher _ g)) with (u := u) (h := h)
    as (u' & h' & g' & E & Ht & Hr & Hw & Hgl); [|exact Hv|].
  - unfold stw_log, vec_text. pose proof (fields_bytes stw_names stw_vals). pose proof (result_bytes 15 stw_checks). warl_bytes.
  - exists u', h', g'. subst g'. split_and!; try assumption; [|reflexivity]. rewrite Hw. now destruct (forallb id stw_checks).
Qed.
Lemma mmsw_main_sends :
  vmain_sends (U:=U) iview (mmsw_main trap_entry) (Ints p e g m t sc d) (probe_boot 1) mmsw_log
    (fun v gl => v = Ints q4 e g m (vec trap_entry t) sc (if forallb id mmsw_checks then FINISHER_PASS else d) /\ fails gl = nfalse mmsw_checks).
Proof using Hp He Hm UartSpec0 UartDrain0.
  intros u h Hv.
  destruct (drained_view iview _ _ _ _ _ _ _ _ _ _ mmsw_body_runs (fun g => int_finisher _ g)) with (u := u) (h := h)
    as (u' & h' & g' & E & Ht & Hr & Hw & Hgl); [|exact Hv|].
  - unfold mmsw_log, vec_text. pose proof (fields_bytes mmsw_names [p; e; q1; q2; q3; q3; q4; e]). pose proof (result_bytes 17 mmsw_checks). warl_bytes.
  - exists u', h', g'. subst g'. split_and!; try assumption; [|reflexivity]. rewrite Hw. now destruct (forallb id mmsw_checks).
Qed.
End Sie.

(** ** Verdicts *)

Section Verdicts.
Context {U H : Type} `{!UartDev U, !UartSpec U, !UartDrain U, !HartDev H, !IntSpec H} (trap_entry save_addr : Z).
(** Registers at boot; mideleg keeps the bits [D] of what is written and holds
    the bits [F]. *)
Context (p e g m t sc d D F : Z).
Hypothesis Hp : is_u64 p.
Hypothesis He : is_u64 e.
Hypothesis Hg : is_u64 g.
Hypothesis Hm : is_u64 m.
Hypothesis Hleg : forall o x, deleg_legal ih o x = Z.lor (Z.land x D) F.
Hypothesis Hgl : Z.lor (Z.land g D) F = g.
Hypothesis Hvec : vec_legal ih t trap_entry = trap_entry.
Hypothesis Hdirect : Z.land trap_entry (u64 (Z.lnot 3)) = trap_entry.

Lemma vec_ok : forallb id (vec_checks trap_entry t) = true.
Proof using Hvec Hdirect.
  unfold vec_checks, vec. rewrite Hvec, Hdirect, Z.eqb_refl. cbn [forallb id]. rewrite <-Hdirect, <-Z.land_assoc.
  change (Z.land (u64 (Z.lnot 3)) 3) with 0. now rewrite Z.land_0_r.
Qed.

Abbreviation boot := (Ints p e g m t sc d).

(** C21: The interrupt-register probes, on every hart with such registers: each
    program prints its whole log, and its verdict is exact.  sip-write-probe
    passes exactly if MSIE and MIE are clear at boot, SSI is not delegated and
    can be; sip-ssip exactly if SSIP is not pending either; both leave
    mideleg and every other bit of mip as they were.  sie-stie-write passes
    exactly on harts whose mideleg holds the VS-level bits 0x1444, and
    mip-msip-write exactly if mip, mie and mstatus have the values it was
    written for. *)
Theorem interrupt_probe_verdicts :
  vmain_sends (U:=U) iview (swp_main trap_entry save_addr) boot swp_boot_glob (swp_log trap_entry p e g m t)
    (fun v _ => i_test v = (if msie_ok e && mie_ok m && no_ssi g && Z.testbit D 1 then FINISHER_PASS else d) /\
       i_deleg v = g /\ i_mie v = e /\ rest_same p (i_mip v) = true) /\
  vmain_sends (U:=U) iview (sip_main trap_entry save_addr) boot (probe_boot 4) (sip_log trap_entry p e g m t)
    (fun v _ => i_test v = (if msie_ok e && mie_ok m && no_ssi g && ssip_clear p && Z.testbit D 1 then FINISHER_PASS else d) /\
       i_deleg v = g /\ i_mie v = e /\ rest_same p (i_mip v) = true) /\
  vmain_sends (U:=U) iview (stw_main trap_entry) boot (probe_boot 1) (stw_log trap_entry e g t)
    (fun v _ => i_test v = (if (g =? 0x1444) && (Z.lor (Z.land 0x20 D) F =? 0x1464) && (Z.lor (Z.land 0x1444 D) F =? 0x1444) then FINISHER_PASS else d) /\
       i_mip v = p) /\
  vmain_sends (U:=U) iview (mmsw_main trap_entry) boot (probe_boot 1) (mmsw_log trap_entry p e m t)
    (fun v _ => i_test v = (if (p =? 0x80) && (e =? 0) && (m =? 0xa00000000) then FINISHER_PASS else d) /\ i_deleg v = g /\ i_mie v = e).
Proof.
  pose proof vec_ok as Hok. split_and!.
  - intros u h Hv. destruct (swp_main_sends trap_entry save_addr p e g m t sc d Hp He Hg Hm u h Hv) as (u' & h' & g' & E & Ht & Hr & Hw & _).
    exists u', h', g'. split_and!; try assumption; rewrite Hw; cbn [i_test i_deleg i_mie i_mip].
    + now rewrite (swp_verdict_iff trap_entry p e g m t D F Hleg Hgl Hok).
    + exact (d2_masked g D F Hleg Hgl).
    + reflexivity.
    + apply w4_rest.
  - intros u h Hv. destruct (sip_main_sends trap_entry save_addr p e g m t sc d Hp He Hg Hm u h Hv) as (u' & h' & g' & E & Ht & Hr & Hw & _).
    exists u', h', g'. split_and!; try assumption; rewrite Hw; cbn [i_test i_deleg i_mie i_mip].
    + now rewrite (sip_verdict_iff trap_entry p e g m t D F Hleg Hgl Hok).
    + exact (d2_masked g D F Hleg Hgl).
    + reflexivity.
    + apply b2_rest.
  - intros u h Hv. destruct (stw_main_sends trap_entry p e g m t sc d He Hg u h Hv) as (u' & h' & g' & E & Ht & Hr & Hw & _).
    exists u', h', g'. split_and!; try assumption; rewrite Hw; [|reflexivity]. cbn [i_test].
    rewrite stw_verdict_iff, Hok, andb_true_r. unfold g2, g1. now rewrite !Hleg.
  - intros u h Hv. destruct (mmsw_main_sends trap_entry p e g m t sc d Hp He Hm u h Hv) as (u' & h' & g' & E & Ht & Hr & Hw & _).
    exists u', h', g'. split_and!; try assumption; rewrite Hw; try reflexivity. cbn [i_test].
    now rewrite mmsw_verdict_iff, Hok, andb_true_r.
Qed.
End Verdicts.

(** ** A hart with these registers *)

(** The S-level interrupts with LCOFI; VS-level interrupts always delegated. *)
Definition demo_desc : idesc :=
  IDesc 0x2222 0x222 (fun _ x => Z.lor (Z.land x 0x2222) 0x1444) (fun _ x => Z.land x (u64 (Z.lnot 2))).
Record IntHart : Type := IntH { int_regs : ints }.

#[export] Instance IntHart_dev : HartDev IntHart := {
  mr64 _ h := (0, h);
  mw64 _ _ h := h;
  mr32 _ h := (0, h);
  mw32 a x h := IntH (if a =? VIRT_TEST_FINISHER then with_test x (int_regs h) else int_regs h);
  csr_rd c h := (int_read demo_desc c (int_regs h), h);
  csr_wr c x h := IntH (int_write demo_desc c x (int_regs h));
  hw_fuel := 1;
}.

Lemma mask_u64 x k : is_u64 k -> is_u64 (Z.land x k).
Proof. rewrite !u64_bits. intros [H0 E]. split; [apply Z.land_nonneg; now right|]. now rewrite <-Z.land_assoc, E. Qed.

#[export] Instance IntHart_spec : IntSpec IntHart.
Proof.
  refine {| ih := demo_desc; iview := int_regs |}; try reflexivity.
  - split; [u64c|reflexivity].
  - split; [u64c|reflexivity].
  - intros o x. apply lor_u64; [apply mask_u64|]; u64c.
  - intros o x. apply mask_u64. u64c.
Defined.

Ltac same_log L := match goal with |- vmain_sends _ _ _ _ ?l _ => replace l with L by (vm_compute; reflexivity) end.

(** The logs of src/sip-write-probe/, src/sip-ssip/ and src/mip-msip-write/ as
    they were recorded on QEMU. *)
Lemma interrupt_probe_verdicts_witness :
  vmain_sends (U:=LogUart) (H:=IntHart) iview (swp_main 0x800001c8 0x80000500) (Ints 0x80 0 0x1444 0xa00000000 0 0 0) swp_boot_glob
    (lit "sip-write-probe: sip all-ones WARL write/readback probe\nboot: mie=0x0 mstatus=0xa00000000\ntrap: mtvec=0x800001c8\n" ++
     lit "boot: sip=0x0 mip=0x80 mideleg=0x1444 (SSI delegated: 0)\nphase1 ones: sip=0x0 mip=0x80\nphase1 zero: sip=0x0 mip=0x80\n" ++
     lit "delegated: mideleg=0x1446\nphase2 ones: sip=0x2 mip=0x82\nphase2 zero: sip=0x0 mip=0x80\n" ++
     lit "restored: mideleg=0x1444 sip=0x0\ntraps: count=0\nend: mie=0x0 mstatus=0xa00000000\nchecks: 20 mismatches: 0\n" ++
     lit "digest: 0xc2640b707a330c6f\nRESULT: PASS\n")
    (fun v _ => i_test v = FINISHER_PASS /\ i_deleg v = 0x1444 /\ i_mie v = 0 /\ rest_same 0x80 (i_mip v) = true) /\
  vmain_sends (U:=LogUart) (H:=IntHart) iview (sip_main 0x800001c8 0x80000500) (Ints 0x80 0 0x1444 0xa00000000 0 0 0) (probe_boot 4)
    (lit "sip-ssip: sip SSIP (bit 1) delegation-gated write/readback check\nboot: mie=0x0 mstatus=0xa00000000\ntrap: mtvec=0x800001c8\n" ++
     lit "boot: sip=0x0 mip=0x80 mideleg=0x1444 (SSI delegated: 0)\nphaseA set (not delegated): sip=0x0 mip=0x80\n" ++
     lit "delegated: mideleg=0x1446\nphaseB set (delegated): sip=0x2 (SSIP=1) mip=0x82\nphaseB clear (delegated): sip=0x0 mip=0x80\n" ++
     lit "restored: mideleg=0x1444 sip=0x0\ntraps: count=0\nend: mie=0x0 mstatus=0xa00000000\nRESULT: PASS\n")
    (fun v _ => i_test v = FINISHER_PASS /\ i_deleg v = 0x1444 /\ i_mie v = 0 /\ rest_same 0x80 (i_mip v) = true) /\
  vmain_sends (U:=LogUart) (H:=IntHart) iview (stw_main 0x800001c8) (Ints 0x80 0 0x1444 0xa00000000 0 0 0) (probe_boot 1)
    (stw_log (H:=IntHart) 0x800001c8 0 0x1444 0) (fun v _ => i_test v = FINISHER_PASS /\ i_mip v = 0x80) /\
  vmain_sends (U:=LogUart) (H:=IntHart) iview (mmsw_main 0x800001c8) (Ints 0x80 0 0x1444 0xa00000000 0 0 0) (probe_boot 1)
    (lit "mip-msip-write: mip.MSIP software-write probe\nboot: mip=0x80 mie=0x0 mstatus=0xa00000000\n" ++
     lit "mip: after csrsi set bit 1 readback=0x82 (expect 0x82)\nmip: after csrci clear bit 1 readback=0x80 (expect 0x80)\n" ++
     lit "mip: after csrsi set bit 3 readback=0x80 (expect 0x80, write ignored)\nmip: after spin window readback=0x80 traps=0 (expect 0x80 / 0)\n" ++
     lit "mip: after csrci clear bit 3 readback=0x80 (expect 0x80, write ignored)\nVERDICT mip_boot=0x80 mie_boot=0x0 mip_ssip_set=0x82" ++
     lit " mip_ssip_clear=0x80 mip_set=0x80 mip_hold=0x80 mip_clear=0x80 mie_final=0x0 traps=0 checksum=0x283c26a67ca35455\n" ++
     lit "checks=17 fails=0\nRESULT: PASS\n")
    (fun v _ => i_test v = FINISHER_PASS /\ i_deleg v = 0x1444 /\ i_mie v = 0).
Proof.
  destruct (interrupt_probe_verdicts (U:=LogUart) (H:=IntHart) 0x800001c8 0x80000500 0x80 0 0x1444 0xa00000000 0 0 0 0x2222 0x1444)
    as (H1 & H2 & H3 & H4); try (u64c || reflexivity).
  split_and!; [same_log (swp_log (H:=IntHart) 0x800001c8 0x80 0 0x1444 0xa00000000 0); exact H1
    |same_log (sip_log (H:=IntHart) 0x800001c8 0x80 0 0x1444 0xa00000000 0); exact H2|exact H3
    |same_log (mmsw_log (H:=IntHart) 0x800001c8 0x80 0 0xa00000000 0); exact H4].
Defined.
